(* ===== verification/_CoqProject ===== *)
-Q . S2P
Prelude.v
PtrArray.v
Alloc.v
Protocol.v
DataStream.v
QueryCache.v
MemUse.v
Tokenizer.v
Routing.v
ConnPool.v
Backend.v
Session.v
SessionClient.v
SessionLoop.v
Thread.v
GlobalVars.v
Config.v
SqliteExec.v
Admin.v
AdminSession.v
Ipc.v
Schema.v
Debug.v
Startup.v
Network.v
Statistics.v
Relay.v
Exchange.v
