(* ===== verification/Prelude.v ===== *)
(** * A verification of ProxySQL

    ProxySQL stands between MySQL clients and MySQL servers.  Each of its threads owns client sessions; a session authenticates its
    client, splits the byte stream into packets, chooses a host group for every query by rules, takes a connection to a server of
    that group from a pool, relays the query and the response, and may answer a query from a cache.  One more thread
    serves the administrator, who reads and changes the configuration as tables of a SQLite database.

    ** The files and what they model

    Each file opens with the correspondence of its definitions to the code; definitions have the names of the C functions they translate.

    - Prelude.v (this file): machine integers with their wrap-around, blocks of memory with reads and writes that fail outside of
      them, C strings, GLib arrays, the record update notation, the tactics [px_case], [px_bool], [px_len], [px_run] and the hint database [px].
    - PtrArray.v, Alloc.v: src/l_utils.c.  [LArr.LPtrArray] is the growable array with its uninitialised cells, [Pool.l_sfp] the pool
      allocator of a thread.
    - Protocol.v: src/mysql_protocol.c.  Packet builders and parsers, classification of responses, handshake and authentication.
    - DataStream.v: src/mysql_data_stream.c and the queue macros of include/proxysql_macros.h.  The byte queues of a socket,
      [buffer2array] and [array2buffer].
    - QueryCache.v: the query cache of src/fundadb_hash.c, with a step relation for the interleavings of readers, writers and the
      purge thread.  MemUse.v: the percentage of the memory in use, in IEEE single precision, and a turn of the purge thread.
    - Tokenizer.v: src/tokenizer.c and the statistics table of src/fundadb_hash.c.
    - Routing.v: query rules, default host groups and the choice of a server, of src/mysql_handler.c and src/mysql_session.c.
    - ConnPool.v: src/mysql_connpool.c.  Backend.v: the backends of src/mysql_backend.c and src/mysql_handler.c.
    - Session.v (packets from the servers), SessionClient.v (packets from the clients) and SessionLoop.v (creation, login, one turn,
      closing): src/mysql_session.c.  Relay.v: a query and its response through all of them.  Exchange.v: any number of queries and responses, one after the
      other, between the wake-ups by [poll] of src/main.c.
    - Thread.v: the start and the loop of [mysql_thread] in src/main.c; the clock of src/utils.c.  Ipc.v: the message REMOVE SERVER between the administrator's thread and
      the others, src/admin.c and src/main.c, as a state machine.
    - GlobalVars.v: src/global_variables.c, the start and SIGHUP; [init_debug_struct] of src/debug.c.
    - Config.v: the functions of src/admin_sqlite.c that move the configuration between the tables and the memory.
    - SqliteExec.v: [mysql_pkt_to_sqlite_exec], the results of SQLite as MySQL packets.  Admin.v: [admin_COM_QUERY] of src/admin.c with
      every command of the administrator.  AdminSession.v: a session of src/mysql_session.c whose queries go to it.
    - Schema.v: the definitions of the tables (include/admin_sqlite.h) and [admin_init_sqlite3], which opens, checks, builds, fills and
      attaches the databases.  Statistics.v: the thread that writes the statistics of the queries into a table.
    - Debug.v: src/debug.c, the queue of debugging messages between any number of threads and the one that logs them, as a state machine.
    - Network.v: the sockets of src/network.c.  Startup.v: the options, the daemon, the angel, the threads with their stacks and pipes and the
      loading of the configuration, of [main] in src/main.c, src/threads.c and src/global_variables.c.

    ** How state, errors and the outside are modelled

    A C structure is a record, an operation a function from the old state to the new one.  The result [None] is a behaviour C does not
    define or a failed assertion: an access outside of a block, a read of an uninitialised cell, a NULL pointer followed.  So
    a theorem that says [f x = Some y] also says that the code is safe there.  Memory that was not initialised is an argument ([junk]),
    so that a theorem holds whatever it contains.  Integers are [Z] with [u8], [u16], [u24], [u32], [u64], [i32] and [i64] where the code
    can overflow.  In GlobalVars.v the type [ending] tells [exit] from a crash.

    What the system and the libraries answer is an argument: bytes of [recv], the number [send] accepted, results of [poll], clocks, random
    numbers, addresses of [malloc], MD5 and SHA-1, GLib's regular expressions and key files, [qsort], the MySQL client library, SQLite
    (the classes [SQLite], [SQLiteFiles], [AdminTables] and [StartTables]), libdaemon, [fork] and [waitpid].  A theorem that relies on
    documented behaviour of one of them names it as a hypothesis, and its witness instantiates it: the class [SQLiteLaws] says what the statements
    of the program do to an abstract database, and Schema.v has an instance of it.  It is an idealisation (no locked database, no full disk, different
    paths are different files).  [ReadableTables] of Startup.v says which contents of the tables the load can use; SQLite does not promise them, because the definitions of the tables
    allow a negative host group.

    Where the code leaves the language, the choice is named.  [queue_zero] copies between areas that may overlap with [memcpy]: [memcpy_up] copies from the lowest byte on.
    [cmpptr] keeps 32 bits of the difference of two addresses: [sort_stack] has no result when that does not order them, and the histories of the pool ([pool_step]) contain
    the compactions of addresses that are less than 2 GB apart.  [fdb_set] inserts under the lock and adds to the counters after it: the step relation of the cache has an
    insertion ([fdb_set_insert]) and each addition ([sync_add]) as steps of their own, which others can come between.

    ** What the theorems show

    - Memory: the array operations refine list operations; two elements the pool handed out never overlap, and allocation and
      release end for every size, compactions included while the addresses sorted are less than 2 GB apart; beyond that a compaction can free a block in use.
    - Streams: the packets do not depend on how the network cuts the bytes, and the bytes sent are those of the packets put
      into the stream, in order.
    - Protocol: built packets decode to what they were built from, [mysql_response] tells the kinds of packets apart, and authentication
      accepts exactly the clients that know the password.
    - Query cache: it implements a map whose entries expire, its counters are the sums over the entries less what
      insertions under way still owe, no reader sees freed memory, and purging starts at the threshold
      up to one part in [2^20], the roundings included.
    - Routing and pools: the rules choose as their specification says; the chosen host group exists when the rules come from the
      table; connections are taken, given back and closed without loss or duplication.
    - Sessions: a login decides; the bytes of a query that a client sends leave in the same turn towards the server of the host group the
      rules chose, over the connection the session holds, one from the pools or a new one, and the bytes of a response towards the client; a client that has logged
      in keeps a conversation of any length ([conversation_kept], [login_opens_conversation]): the session refines a machine with two phases, asking and
      replying, in which what has left followed by what still waits is at every moment the rewritten queries, and the responses, in order. It is stated with the query cache
      and the statistics off, with servers that stay online, regular expressions that do not read the hit counters of the rules, queries and responses that come in one read and
      fit the buffers, and one event at a time (Session.v has the theorems on responses cut anywhere and on the cache); responses are relayed unchanged however they are cut, kept for the
      cache when they may be and replayed from it; COM_INIT_DB, the administrator's sessions and the close of a session behave as specified.
    - Threads: what [poll] reports reaches the session it is about, unless a removal of servers closes sessions in between; in every state a thread reaches the array of descriptors is large enough; the message REMOVE
      SERVER is received and acknowledged once by each thread in every interleaving, in a bounded number of steps.
    - Configuration: every variable keeps its C type and ends in its range, or the process aborts because the system refuses the size of core files; a start leaves
      the configuration of the file; the rules of the table come back as they were, up to the ranges the loader enforces; the servers and host groups in memory are those of the tables; the statements
      that report the state fit their buffers.
    - Administration: the texts are dispatched as a specification without packets says; the result sets decode to the names and rows
      of SQLite; a session of the administrator or of the monitor never touches a server or a connection pool.
    - Start: the databases end with the tables the program expects, with the rows that could be kept; the users of the table and of the file are
      merged; [main] establishes the invariants that the theorems on routing, administration and sessions start from; the angel
      restarts the process until it ends well, the HTTP server is started beside it, every stack is freed once, the sockets are those of the
      configuration.
    - Reports: each query key gets one row with its count; the queue of debugging messages is bounded, and the rows logged and the
      messages still on their way are exactly those queued, in order, in every interleaving.
    - Errors: some theorems state what the code does where it is not what it should do: a packet before the handshake that skips the
      authentication, a change of user that reads a freed packet, a thread that waits for ever for a logger that has returned, and others that
      the files mark in their comments.

    ** Bounds and fuel

    Loops that are not structural have fuel.  [l_near_pow_2] has 33 rounds, since its variable takes 32 powers of two and
    then stays 0.  [g_drain] and the sweeps have the length of the array they empty.  The loops over packets have the number of bytes or
    packets they consume.  Each such bound is proved to be enough where a theorem says that a function returns.  [iter_until]
    says whether its fuel was enough.  The sizes that occur as hypotheses (names below 64 KB, rows below 16 MB, host groups below [2^31])
    are those up to which the code is right, or those of the types.

    ** What is not modelled

    - The initialisation of the MySQL client library and of pthread attributes: calls without logic of their own.
    - The dumps of packets for debugging, and [qr_set] of src/fundadb_hash.c, which nothing calls.
    - src/mysql_backend.c from line 75 on, which is inside a comment.
    - [mysql_session_delete], which frees the blocks of a session.
    - SQLite, GLib, the MySQL client library and jemalloc: libraries.
    - Locks: the sections under a lock are atomic steps; what the code does after the unlock is a step of its own where theorems quantify over interleavings. *)
From Stdlib Require Export ZArith Lia.
From coqutil Require Export Byte Word.LittleEndianList.
From stdpp Require Export base list gmap strings option numbers tactics.
From stdpp Require Export list_basics list_relations list_monad list_numbers.

#[export] Set Default Goal Selector "!".

Declare Scope proxysql_scope.
Delimit Scope proxysql_scope with px.
Open Scope nat_scope.
Open Scope proxysql_scope.

(** ** Record update

    [r <| f := v |>] writes field [f] of [r].  A record gets the notation by
    giving its eta expansion as an instance of [Eta]; the writer of a field is
    obtained by abstracting the projection out of that expansion. *)

Class Eta (R : Type) := eta_expand : R -> R.
Class Upd {R T : Type} (p : R -> T) := upd : (T -> T) -> R -> R.
Arguments upd {R T} p {_} _ _ /.

Ltac build_upd p :=
  lazymatch type of p with
  | ?R -> ?T =>
      let e := constr:(_ : Eta R) in
      let e := eval cbv beta delta [eta_expand] in e in
      let e := eval red in e in
      lazymatch eval pattern p in e with
      | ?F _ => let w := constr:(fun (f : T -> T) => F (fun r => f (p r))) in
                let w := eval cbv beta in w in
                exact w
      end
  end.

#[export] Hint Extern 1 (Upd ?p) => build_upd p : typeclass_instances.

Notation "r <| p := v |>" := (upd p (fun _ => v) r)
  (at level 1, left associativity, p at level 200, v at level 200) : proxysql_scope.

(** ** Bytes

    Bytes are Rocq's [byte]; [uc] reads one as [unsigned char] and [sc] as the
    (signed, on x86) [char]. *)

#[export] Instance byte_eq_decision : EqDecision byte := Byte.byte_eq_dec.

#[export] Program Instance byte_countable : Countable byte :=
  inj_countable' byte.unsigned byte.of_Z _.
Next Obligation. intros b. apply byte.of_Z_unsigned. Qed.

Abbreviation uc := byte.unsigned.
Definition sc (b : byte) : Z := ((uc b + 2 ^ 7) mod 2 ^ 8 - 2 ^ 7)%Z.

(** The characters of a C string literal, without the terminating NUL. *)
Definition c_lit (s : string) : list byte := String.list_byte_of_string s.

(** ** Machine integers

    A [w]-bit unsigned value is the integer modulo [2^w]; a signed one is the
    representative in [[-2^(w-1), 2^(w-1))]. *)

Definition uwrap (w z : Z) : Z := (z mod 2 ^ w)%Z.
Definition swrap (w z : Z) : Z := ((z + 2 ^ (w - 1)) mod 2 ^ w - 2 ^ (w - 1))%Z.

Abbreviation u8 := (uwrap 8).
Abbreviation u16 := (uwrap 16).
Abbreviation u24 := (uwrap 24).
Abbreviation u32 := (uwrap 32).
Abbreviation u64 := (uwrap 64).
Abbreviation i32 := (swrap 32).
Abbreviation i64 := (swrap 64).

(** ** Memory blocks

    A heap block is its list of bytes.  [mem_read] and [mem_write] are [memcpy]
    out of and into a block; [None] is an access outside of it. *)

Definition mem_read (off n : nat) (d : list byte) : option (list byte) :=
  if decide (off + n <= length d) then Some (take n (drop off d)) else None.

Definition mem_write (off : nat) (src d : list byte) : option (list byte) :=
  if decide (off + length src <= length d)
  then Some (take off d ++ src ++ drop (off + length src) d)
  else None.

(** [strlen] of the bytes at the start of a block: [None] when the block ends
    before a NUL is met. *)
Fixpoint strlen (d : list byte) : option nat :=
  match d with
  | [] => None
  | b :: d' => if decide (b = Byte.x00) then Some 0 else S <$> strlen d'
  end.

(** [g_strdup (block + off)]. *)
Definition strdup_at (off : nat) (d : list byte) : option (list byte) :=
  n ← strlen (drop off d); Some (take n (drop off d)).

(** C strings are lists of bytes without the terminating NUL; reading past the
    end of one reads that NUL. *)
Fixpoint strncmp_by (f : byte -> Z) (n : nat) (a b : list byte) : Z :=
  match n with
  | O => 0
  | S n' =>
      let ca := hd Byte.x00 a in
      let cb := hd Byte.x00 b in
      if negb (f ca =? f cb)%Z then (f ca - f cb)%Z
      else if decide (ca = Byte.x00) then 0
      else strncmp_by f n' (tl a) (tl b)
  end.

Definition tolower (b : byte) : Z := if (65 <=? uc b)%Z && (uc b <=? 90)%Z then (uc b + 32)%Z else uc b.

Definition strncmp (a b : list byte) (n : nat) : Z := strncmp_by uc n a b.
Definition strncasecmp (a b : list byte) (n : nat) : Z := strncmp_by tolower n a b.
Definition strcmp (a b : list byte) : Z := strncmp_by uc (S (length a)) a b.

(** What [l_alloc] returns: a block of [n] bytes whose contents are unknown;
    [junk] is what happens to be there. *)
Definition block (junk : nat -> byte) (n : nat) : list byte := junk <$> seq 0 n.

(** [sprintf] into a block of [size] bytes: the text and its NUL have to fit. *)
Definition fits_block (size : nat) (st : list byte) : option (list byte) :=
  if decide (S (length st) <= size) then Some st else None.

(** A sequence of writes at an advancing cursor ([memcpy(p+i,src,n); i+=n;]) and
    of plain advances of the cursor ([i+=n;]). *)
Inductive wr := W (src : list byte) | Skip (n : nat).

Fixpoint writes (ws : list wr) (i : nat) (d : list byte) : option (list byte) :=
  match ws with
  | [] => Some d
  | W src :: ws' => d ← mem_write i src d; writes ws' (i + length src) d
  | Skip n :: ws' => writes ws' (i + n) d
  end.

(** ** Bounded iteration

    [iter_until fuel step s]: repeat [step] until it answers [None]; the
    second component says whether the fuel was enough. *)
Fixpoint iter_until {S : Type} (fuel : nat) (step : S -> option S) (s : S) : S * bool :=
  match step s with
  | None => (s, true)
  | Some s' => match fuel with
               | O => (s, false)
               | S fuel' => iter_until fuel' step s'
               end
  end.

(** ** GLib pointer arrays

    A [GPtrArray] is the list of its pointers.  [g_ptr_array_remove_index_fast(a,0)]
    takes the first pointer out and moves the last one into its place. *)
Definition g_remove_first_fast {A} (l : list A) : option (A * list A) :=
  match l with
  | [] => None
  | x :: l' => Some (x, match last l' with None => [] | Some y => y :: removelast l' end)
  end.

(** [while (a->len) { p=g_ptr_array_remove_index_fast(a,0); ... }]: the pointers in
    the order they are taken out, and what is left in the array. *)
Fixpoint g_drain {A} (fuel : nat) (l : list A) : list A * list A :=
  match fuel, g_remove_first_fast l with
  | S fuel', Some (x, l') => let '(out, rest) := g_drain fuel' l' in (x :: out, rest)
  | _, _ => ([], l)
  end.

(** ** Reflexive transitive closure of a step relation *)
Inductive star {S : Type} (R : S -> S -> Prop) : S -> S -> Prop :=
  | star_nil s : star R s s
  | star_cons s1 s2 s3 : R s1 s2 -> star R s2 s3 -> star R s1 s3.

(** ** Automation *)

Create HintDb px discriminated.
#[export] Hint Constructors star : px.

(** Split the [if]/[match]es of the goal and of the hypotheses, close the
    contradictory branches, and substitute. *)
Ltac px_case := repeat (case_match || case_decide || simplify_eq/=).

(** Boolean comparisons become propositions. *)
Ltac px_bool :=
  repeat match goal with
  | H : (_ && _)%bool = true |- _ => apply andb_prop in H; destruct H
  | H : (_ =? _)%Z = true |- _ => apply Z.eqb_eq in H
  | H : (_ =? _)%Z = false |- _ => apply Z.eqb_neq in H
  | H : (_ <? _)%Z = true |- _ => apply Z.ltb_lt in H
  | H : (_ <? _)%Z = false |- _ => apply Z.ltb_ge in H
  | H : (_ <=? _)%Z = true |- _ => apply Z.leb_le in H
  | H : (_ <=? _)%Z = false |- _ => apply Z.leb_gt in H
  end.

(** Lengths of lists, then linear arithmetic. *)
Ltac px_len :=
  rewrite ?length_take, ?length_drop, ?length_app, ?length_take, ?length_drop, ?length_replicate, ?length_le_split,
    ?length_cons, ?length_nil in *; simpl length in *; lia.

(** ** Shared lemmas *)

Lemma bind_Some {A B} (x : A) (f : A -> option B) : Some x ≫= f = f x.
Proof. done. Qed.

Lemma bind_inv {A B} (mx : option A) (f : A -> option B) y : mx ≫= f = Some y -> exists x, mx = Some x /\ f x = Some y.
Proof. destruct mx; [eauto|done]. Qed.

(** Take a successful run apart: [px_run H] replaces [H : (x ← m; k x) = Some y] by the result of
    [m] and the rest of the run. *)
Ltac px_run H :=
  apply bind_inv in H;
  let x := fresh "x" in let E := fresh "E" in destruct H as (x & E & H).

Lemma uwrap_range w z : (0 <= w)%Z -> (0 <= uwrap w z < 2 ^ w)%Z.
Proof. intros Hw. apply Z.mod_pos_bound. by apply Z.pow_pos_nonneg. Qed.

Lemma uwrap_small w z : (0 <= z < 2 ^ w)%Z -> uwrap w z = z.
Proof. apply Z.mod_small. Qed.

Lemma swrap_small w z : (1 <= w)%Z -> (- 2 ^ (w - 1) <= z < 2 ^ (w - 1))%Z -> swrap w z = z.
Proof.
  intros Hw Hz. unfold swrap.
  assert (2 ^ w = 2 * 2 ^ (w - 1))%Z as -> by (rewrite <- Z.pow_succ_r by lia; f_equal; lia).
  rewrite Z.mod_small; lia.
Qed.

Lemma uc_range b : (0 <= uc b < 256)%Z.
Proof. exact (byte.unsigned_range b). Qed.

Lemma mem_write_length off src d d' : mem_write off src d = Some d' -> length d' = length d.
Proof. unfold mem_write. intros. px_case. px_len. Qed.

(** The lemma that drives every packet builder: writing at the end of an
    already initialised prefix extends the prefix. *)
Lemma mem_write_extend pre rest src off :
  off = length pre -> length src <= length rest ->
  mem_write off src (pre ++ rest) = Some (pre ++ src ++ drop (length src) rest).
Proof.
  intros -> Hlen. unfold mem_write. rewrite decide_True by px_len.
  rewrite take_app_length, drop_app_ge by px_len.
  do 3 f_equal. f_equal. lia.
Qed.

(** The bytes a sequence of writes leaves in a block that held [old]. *)
Fixpoint render (ws : list wr) (old : list byte) : list byte :=
  match ws with
  | [] => []
  | W src :: ws' => src ++ render ws' (drop (length src) old)
  | Skip n :: ws' => take n old ++ render ws' (drop n old)
  end.

Fixpoint wsize (ws : list wr) : nat :=
  match ws with
  | [] => 0
  | W src :: ws' => length src + wsize ws'
  | Skip n :: ws' => n + wsize ws'
  end.

Lemma writes_extend ws : forall pre old i,
  i = length pre -> wsize ws <= length old ->
  writes ws i (pre ++ old) = Some (pre ++ render ws old ++ drop (wsize ws) old).
Proof.
  induction ws as [|[src|n] ws IH]; intros pre old i -> Hsz; simpl in *.
  - done.
  - rewrite mem_write_extend by lia. simpl. rewrite app_assoc, IH by px_len.
    by rewrite drop_drop, <- !app_assoc.
  - replace (pre ++ old) with ((pre ++ take n old) ++ drop n old)
      by (by rewrite <- app_assoc, take_drop).
    rewrite IH by px_len. by rewrite drop_drop, <- !app_assoc.
Qed.

(** A block that the writes fill exactly ends up as their rendering. *)
(** Writes that do not fit the block are refused. *)
Lemma writes_overflow ws : forall i d, length d < i + wsize ws -> i <= length d ->
  (forall n, Skip n ∉ ws) -> writes ws i d = None.
Proof.
  induction ws as [|[src|n] ws IH]; intros i d Hl Hi Hs; simpl in Hl |- *; [lia| |exfalso; set_solver].
  unfold mem_write. case_decide as Hd; [|done]. simpl. apply IH; [..|set_solver].
  - rewrite !length_app, length_take, length_drop. lia.
  - rewrite !length_app, length_take, length_drop. lia.
Qed.

Lemma writes_block ws d : wsize ws = length d -> writes ws 0 d = Some (render ws d).
Proof.
  intros Hsz. rewrite (writes_extend ws [] d) by (simpl; lia).
  simpl. rewrite drop_ge by lia. by rewrite app_nil_r.
Qed.

(** Without skips the old contents do not matter. *)
Lemma render_W srcs old : render (W <$> srcs) old = mjoin srcs.
Proof. revert old. induction srcs; intros; simpl; by f_equal. Qed.

Lemma mjoin_cons {A} (x : list A) l : mjoin (x :: l) = x ++ mjoin l.
Proof. done. Qed.

Lemma mjoin_nil {A} : mjoin [] = @nil A.
Proof. done. Qed.

Lemma mjoin_app {A} (l k : list (list A)) : mjoin (l ++ k) = mjoin l ++ mjoin k.
Proof. induction l as [|x l IH]; [done|]. by rewrite <- app_comm_cons, !mjoin_cons, IH, app_assoc. Qed.

Lemma wsize_W srcs : wsize (W <$> srcs) = length (mjoin srcs).
Proof.
  induction srcs as [|s srcs IH]; [done|]. change (length s + wsize (W <$> srcs) = length (s ++ mjoin srcs)).
  rewrite length_app. lia.
Qed.

Lemma length_block junk n : length (block junk n) = n.
Proof. unfold block. by rewrite length_fmap, length_seq. Qed.

Lemma le_combine_nonneg bs : (0 <= le_combine bs)%Z.
Proof. apply le_combine_bound. Qed.

Lemma strncmp_by_prefix f n a b :
  (forall x y, f x = f y -> x = y) -> Byte.x00 ∉ a -> Byte.x00 ∉ b -> n = length b ->
  strncmp_by f n a b = 0%Z <-> take (length b) a = b.
Proof.
  intros Hf. revert a b. induction n as [|n IH]; intros a [|y b] Ha Hb Hn; simplify_eq/=; [done|].
  destruct a as [|x a]; simpl.
  - destruct (Z.eqb_spec (f Byte.x00) (f y)) as [Heq|Hne]; simpl.
    + apply Hf in Heq as <-. set_solver.
    + split; [lia|done].
  - destruct (Z.eqb_spec (f x) (f y)) as [Heq|Hne]; simpl.
    + apply Hf in Heq as <-. rewrite decide_False by set_solver.
      rewrite IH by set_solver. split; [congruence|]. by intros [= ?].
    + split; [lia|]. intros [= ->]. done.
Qed.

Lemma uc_inj x y : uc x = uc y -> x = y.
Proof. intros H. rewrite <- (byte.of_Z_unsigned x), <- (byte.of_Z_unsigned y). by rewrite H. Qed.

Lemma mem_read_app pre mid post off n :
  off = length pre -> n = length mid -> mem_read off n (pre ++ mid ++ post) = Some mid.
Proof.
  intros -> ->. unfold mem_read. rewrite decide_True by px_len.
  by rewrite drop_app_length, take_app_length.
Qed.

Lemma strlen_spec s post :
  Byte.x00 ∉ s -> strlen (s ++ Byte.x00 :: post) = Some (length s).
Proof.
  induction s as [|b s IH]; intros Hs; simpl; [done|].
  rewrite decide_False by (intros ->; apply Hs; left).
  rewrite IH by (intros Hin; apply Hs; by right). done.
Qed.

(** The C string at the start of [d]: what comes before the first NUL, all of [d] when there is none. *)
Fixpoint before_nul (d : list byte) : list byte :=
  match d with
  | [] => []
  | b :: d' => if decide (b = Byte.x00) then [] else b :: before_nul d'
  end.

Lemma before_nul_free d : Byte.x00 ∉ before_nul d.
Proof. induction d as [|b d IH]; simpl; [set_solver|]. case_decide; set_solver. Qed.

Lemma before_nul_id d : Byte.x00 ∉ d -> before_nul d = d.
Proof. induction d as [|b d IH]; intros H; simpl; [done|]. case_decide; [set_solver|]. rewrite IH; set_solver. Qed.

Lemma strlen_before_nul d : strlen (d ++ [Byte.x00]) = Some (length (before_nul d)).
Proof. induction d as [|b d IH]; simpl; [done|]. case_decide; [done|]. by rewrite IH. Qed.

Lemma take_before_nul d post : take (length (before_nul d)) (d ++ post) = before_nul d.
Proof. induction d as [|b d IH]; simpl; [done|]. case_decide; [done|]. simpl. by rewrite IH. Qed.

Lemma length_before_nul d : length (before_nul d) <= length d.
Proof. induction d as [|b d IH]; simpl; [done|]. case_decide; simpl; lia. Qed.

Lemma strdup_at_app pre s post off :
  off = length pre -> Byte.x00 ∉ s -> strdup_at off (pre ++ s ++ Byte.x00 :: post) = Some s.
Proof.
  intros -> Hs. unfold strdup_at. rewrite drop_app_length, strlen_spec by done. simpl.
  by rewrite take_app_length.
Qed.

Lemma strcmp_eq a b : Byte.x00 ∉ a -> Byte.x00 ∉ b -> strcmp a b = 0%Z <-> a = b.
Proof.
  unfold strcmp. revert b. induction a as [|x a IH]; intros b Ha Hb.
  - destruct b as [|y b]; cbn [length strncmp_by hd]; [done|].
    destruct (Z.eqb_spec (uc Byte.x00) (uc y)) as [E|E]; cbn [negb].
    + apply uc_inj in E as <-. set_solver.
    + split; [lia|done].
  - destruct b as [|y b].
    + cbn [length strncmp_by hd]. destruct (Z.eqb_spec (uc x) (uc Byte.x00)) as [E|E]; cbn [negb].
      * apply uc_inj in E as ->. set_solver.
      * split; [lia|done].
    + change (length (x :: a)) with (S (length a)). cbn [strncmp_by hd tl].
      destruct (Z.eqb_spec (uc x) (uc y)) as [E|E]; cbn [negb].
      * apply uc_inj in E as <-. rewrite decide_False by set_solver.
        etransitivity; [apply IH; set_solver|]. split; congruence.
      * split; [lia|]. congruence.
Qed.

Lemma strcmp_eqb a b : Byte.x00 ∉ a -> Byte.x00 ∉ b -> (strcmp a b =? 0)%Z = bool_decide (a = b).
Proof.
  intros Ha Hb. apply eq_bool_prop_intro. rewrite bool_decide_spec, <- (strcmp_eq a b) by done.
  rewrite Is_true_true. apply Z.eqb_eq.
Qed.

Lemma g_remove_first_fast_perm {A} (l l' : list A) x : g_remove_first_fast l = Some (x, l') -> l ≡ₚ x :: l'.
Proof.
  destruct l as [|y l]; [done|]. simpl. intros [= <- <-]. apply perm_skip.
  destruct l as [|z l] using rev_ind; [done|].
  by rewrite last_snoc, removelast_last, (Permutation_app_comm l [z]).
Qed.

Lemma g_drain_perm {A} (l : list A) fuel : length l <= fuel -> exists out, g_drain fuel l = (out, []) /\ out ≡ₚ l.
Proof.
  revert l. induction fuel as [|fuel IH]; intros l Hl.
  - destruct l; [|simpl in Hl; lia]. by exists [].
  - simpl. destruct (g_remove_first_fast l) as [[x l']|] eqn:E.
    + pose proof (g_remove_first_fast_perm _ _ _ E) as Hp.
      destruct (IH l') as (out & -> & Ho); [apply Permutation_length in Hp; simpl in Hp; lia|].
      exists (x :: out). split; [done|]. by rewrite Ho, Hp.
    + destruct l; [by exists []|done].
Qed.

Lemma star_one {S} (R : S -> S -> Prop) a b : R a b -> star R a b.
Proof. eauto with px. Qed.

Lemma star_snoc {S} (R : S -> S -> Prop) a b c : star R a b -> R b c -> star R a c.
Proof. induction 1; eauto with px. Qed.

Lemma star_invariant {S} (R : S -> S -> Prop) (I : S -> Prop) :
  (forall a b, I a -> R a b -> I b) -> forall a b, star R a b -> I a -> I b.
Proof. intros Hstep a b. induction 1; eauto. Qed.

#[export] Hint Resolve star_one uc_range : px.
