(* ===== verification/PtrArray.v ===== *)
(** * [LPtrArray], the growable pointer array of src/l_utils.c

    An [LPtrArray] is a block of [size] cells of which the first [len] are in
    use.  A cell is [None] until it is written, so that reading a cell that
    [l_alloc] left uninitialised is an error of the model ([None]), like an
    access outside of the block.

    The file ends with the interface [PtrArray] the rest of the program sees:
    an array stands for the list of its elements, and every operation of the
    interface is an operation on that list. *)
From S2P Require Import Prelude.

Module LArr.

Record LPtrArray (A : Type) := mkArr {
  pdata : list (option A);
  len : nat;
  size : nat
}.
Arguments mkArr {A} _ _ _.
Arguments pdata {A} _.
Arguments len {A} _.
Arguments size {A} _.

(** The loop of [l_near_pow_2]: [while (i < n) i <<= 1;] on [unsigned int]. *)
Fixpoint near_pow_2_loop (fuel : nat) (i n : Z) : option Z :=
  if (i <? n)%Z
  then match fuel with
       | O => None
       | S f => near_pow_2_loop f (u32 (Z.shiftl i 1)) n
       end
  else Some i.

(** [i] takes the 32 powers of two and then 0 for ever, so 33 rounds decide
    whether the loop ends. *)
Definition l_near_pow_2 (n : Z) : option Z :=
  i ← near_pow_2_loop 33 1 (u32 n);
  Some (if (i =? 0)%Z then n else i).

Section operations.
Context {A : Type}.
Implicit Type arr : LPtrArray A.

Definition l_ptr_array_expand arr (more : nat) : option (LPtrArray A) :=
  if decide (size arr < len arr + more)
  then new_size ← l_near_pow_2 (Z.of_nat (len arr + more));
       let new_size := Z.to_nat new_size in
       Some (mkArr (pdata arr ++ replicate (new_size - size arr) None) (len arr) new_size)
  else Some arr.

Definition l_ptr_array_sized_new (sz : nat) : option (LPtrArray A) :=
  let array := mkArr [] 0 0 in
  if decide (sz = 0) then Some array else l_ptr_array_expand array sz.

Definition l_ptr_array_new : option (LPtrArray A) := l_ptr_array_sized_new 0.

Definition l_ptr_array_add arr (p : A) : option (LPtrArray A) :=
  arr ← (if decide (len arr = size arr) then l_ptr_array_expand arr 1 else Some arr);
  if decide (len arr < length (pdata arr))
  then Some (mkArr (<[len arr := Some p]> (pdata arr)) (S (len arr)) (size arr))
  else None.

(** [l_ptr_array_index]. *)
Definition l_ptr_array_index arr (i : nat) : option A := mjoin (pdata arr !! i).

(** [for (j=i; j<array->len-1; j++) array->pdata[j]=array->pdata[j+1];],
    [n] rounds starting at [j]. *)
Fixpoint shift_down (n j : nat) (d : list (option A)) : option (list (option A)) :=
  match n with
  | O => Some d
  | S n' => v ← d !! (S j); shift_down n' (S j) (<[j := v]> d)
  end.

Definition l_ptr_array_remove_index arr (i : nat) : option (A * LPtrArray A) :=
  if decide (len arr = 0) then None else
  r ← l_ptr_array_index arr i;
  d ← (if decide (i = len arr - 1) then Some (pdata arr)
       else shift_down (len arr - 1 - i) i (pdata arr));
  Some (r, mkArr d (len arr - 1) (size arr)).

Definition l_ptr_array_remove_index_fast arr (i : nat) : option (A * LPtrArray A) :=
  if decide (len arr = 0) then None else
  r ← l_ptr_array_index arr i;
  d ← (if decide (i = len arr - 1) then Some (pdata arr)
       else last ← pdata arr !! (len arr - 1); Some (<[i := last]> (pdata arr)));
  Some (r, mkArr d (len arr - 1) (size arr)).

(** The search loop of [l_ptr_array_remove_fast], from index [i] on with [n]
    rounds left. *)
Fixpoint remove_fast_from `{EqDecision A} (n i : nat) arr (p : A) : option (bool * LPtrArray A) :=
  match n with
  | O => Some (false, arr)
  | S n' => v ← l_ptr_array_index arr i;
            if decide (v = p)
            then '(_, arr') ← l_ptr_array_remove_index_fast arr i; Some (true, arr')
            else remove_fast_from n' (S i) arr p
  end.

Definition l_ptr_array_remove_fast `{EqDecision A} arr (p : A) : option (bool * LPtrArray A) :=
  remove_fast_from (len arr) 0 arr p.

End operations.

(** ** What an array represents *)

(** [rep arr l]: the used cells of [arr] hold exactly the elements of [l]. *)
Definition rep {A} (arr : LPtrArray A) (l : list A) : Prop :=
  len arr = length l /\ size arr = length (pdata arr) /\
  take (len arr) (pdata arr) = Some <$> l.

(** Removal that moves the last element into the hole. *)
Definition swap_remove {A} (i : nat) (l : list A) : list A :=
  match l !! (length l - 1) with
  | Some x => take (length l - 1) (<[i := x]> l)
  | None => l
  end.

(** ** [l_near_pow_2] *)

Lemma near_pow_2_loop_spec (k fuel : nat) n :
  k <= 31 -> 32 - k <= fuel ->
  (0 < n <= 2 ^ 31)%Z -> (k = 0 \/ (2 ^ (Z.of_nat k - 1) < n)%Z) ->
  exists m : nat, near_pow_2_loop fuel (2 ^ Z.of_nat k) n = Some (2 ^ Z.of_nat m)%Z /\
    m <= 31 /\ (n <= 2 ^ Z.of_nat m)%Z /\ (m = 0 \/ (2 ^ (Z.of_nat m - 1) < n)%Z).
Proof.
  revert k. induction fuel as [|fuel IH]; intros k Hk Hf Hn Hlo; [lia|].
  simpl. destruct (Z.ltb_spec (2 ^ Z.of_nat k) n) as [Hlt|Hge]; [|by exists k].
  assert (k < 31).
  { destruct (decide (k = 31)) as [->|]; [|lia]. exfalso. simpl Z.of_nat in Hlt. lia. }
  replace (u32 (Z.shiftl (2 ^ Z.of_nat k) 1)) with (2 ^ Z.of_nat (S k))%Z.
  - apply IH; try lia. right. by replace (Z.of_nat (S k) - 1)%Z with (Z.of_nat k) by lia.
  - rewrite Z.shiftl_mul_pow2, <- Z.pow_add_r by lia.
    rewrite uwrap_small; [f_equal; lia|].
    split; [apply Z.pow_nonneg; lia|apply Z.pow_lt_mono_r; lia].
Qed.

Lemma l_near_pow_2_spec n :
  (0 < n <= 2 ^ 31)%Z ->
  exists m : nat, l_near_pow_2 n = Some (2 ^ Z.of_nat m)%Z /\
    (n <= 2 ^ Z.of_nat m)%Z /\ (m = 0 \/ (2 ^ (Z.of_nat m - 1) < n)%Z).
Proof.
  intros Hn. unfold l_near_pow_2. rewrite uwrap_small by lia.
  destruct (near_pow_2_loop_spec 0 33 n) as (m & Hm & _ & H1 & H2); try lia.
  change (2 ^ Z.of_nat 0)%Z with 1%Z in Hm. rewrite Hm. simpl.
  assert (0 < 2 ^ Z.of_nat m)%Z by (apply Z.pow_pos_nonneg; lia).
  exists m. split; [|done]. by destruct (Z.eqb_spec (2 ^ Z.of_nat m) 0); [lia|].
Qed.

(** ** The operations refine list operations *)

Section refinement.
Context {A : Type}.
Implicit Types (arr : LPtrArray A) (l : list A).

Lemma rep_lookup arr l i : rep arr l -> i < length l -> l_ptr_array_index arr i = l !! i.
Proof.
  intros (Hlen & _ & Hcells) Hi. unfold l_ptr_array_index.
  rewrite <- (lookup_take_lt _ (len arr)) by lia. rewrite Hcells, list_lookup_fmap.
  destruct (lookup_lt_is_Some_2 l i Hi) as [x Hx]. by rewrite Hx.
Qed.

Lemma rep_len_size arr l : rep arr l -> length l <= size arr.
Proof.
  intros (Hlen & Hsize & Hcells). apply (f_equal length) in Hcells.
  rewrite length_take, length_fmap in Hcells. lia.
Qed.

Lemma expand_rep arr l more :
  rep arr l -> 0 < more -> (Z.of_nat (length l + more) <= 2 ^ 31)%Z ->
  exists arr', l_ptr_array_expand arr more = Some arr' /\ rep arr' l /\
    length l + more <= size arr'.
Proof.
  intros Hrep Hmore Hmax. pose proof (rep_len_size _ _ Hrep).
  destruct Hrep as (Hlen & Hsize & Hcells).
  unfold l_ptr_array_expand. case_decide; [|exists arr; unfold rep; split_and!; auto; lia].
  destruct (l_near_pow_2_spec (Z.of_nat (len arr + more))) as (m & -> & Hm & _); [lia|].
  simpl. eexists. split; [done|].
  assert (len arr + more <= Z.to_nat (2 ^ Z.of_nat m)) by lia.
  unfold rep; simpl. split_and!; try lia.
  - rewrite length_app, length_replicate. lia.
  - by rewrite take_app_le by lia.
Qed.

Lemma sized_new_rep sz :
  (Z.of_nat sz <= 2 ^ 31)%Z ->
  exists arr, l_ptr_array_sized_new sz = Some arr /\ rep arr (@nil A) /\ sz <= size arr.
Proof.
  intros Hsz. unfold l_ptr_array_sized_new.
  assert (rep (mkArr [] 0 0) (@nil A)) as Hrep by done.
  case_decide; [subst; by eexists|].
  destruct (expand_rep _ _ sz Hrep) as (arr & ? & ? & ?); [lia|simpl; lia|by exists arr].
Qed.

Lemma add_rep arr l p :
  rep arr l -> (Z.of_nat (length l) < 2 ^ 31)%Z ->
  exists arr', l_ptr_array_add arr p = Some arr' /\ rep arr' (l ++ [p]).
Proof.
  intros Hrep Hmax. unfold l_ptr_array_add.
  assert (exists a, (if decide (len arr = size arr) then l_ptr_array_expand arr 1 else Some arr)
            = Some a /\ rep a l /\ length l < size a) as (a & -> & Ha & Hroom).
  { case_decide as Heq.
    - destruct (expand_rep arr l 1 Hrep) as (a & ? & ? & ?); [lia..|exists a].
      split_and!; auto; lia.
    - exists arr. split_and!; auto. pose proof (rep_len_size _ _ Hrep).
      destruct Hrep as (? & _). lia. }
  simpl. destruct Ha as (Hlen & Hsize & Hcells). rewrite decide_True by lia.
  eexists. split; [done|]. unfold rep; simpl. split_and!.
  - rewrite length_app. simpl. lia.
  - by rewrite length_insert.
  - rewrite fmap_app, <- Hcells. simpl.
    rewrite (take_S_r _ _ (Some p)) by (rewrite list_lookup_insert_eq; [done|lia]).
    by rewrite take_insert_ge by lia.
Qed.

Lemma shift_down_spec n j (d : list (option A)) :
  j + n < length d ->
  exists d', shift_down n j d = Some d' /\ length d' = length d /\
    forall k, d' !! k = if decide (j <= k < j + n) then d !! (S k) else d !! k.
Proof.
  revert j d. induction n as [|n IH]; intros j d Hlt; simpl.
  { exists d. split_and!; auto. intros k. by rewrite decide_False by lia. }
  destruct (lookup_lt_is_Some_2 d (S j)) as [v Hv]; [lia|]. rewrite Hv. simpl.
  destruct (IH (S j) (<[j:=v]> d)) as (d' & -> & Hlen & Hd'); [rewrite length_insert; lia|].
  rewrite length_insert in Hlen. exists d'. split_and!; auto.
  intros k. rewrite Hd'. destruct (decide (k = j)) as [->|Hk].
  - rewrite decide_False by lia. rewrite list_lookup_insert_eq by lia.
    by rewrite decide_True by lia.
  - repeat case_decide; try lia; rewrite list_lookup_insert_ne by lia; done.
Qed.

Lemma rep_len_minus_1 arr l d i x :
  rep arr l -> l !! i = Some x -> length d = length (pdata arr) ->
  (forall k, k < length l - 1 -> d !! k = Some <$> (delete i l !! k)) ->
  rep (mkArr d (len arr - 1) (size arr)) (delete i l).
Proof.
  intros Hrep Hi Hd Hk. pose proof (rep_len_size _ _ Hrep). destruct Hrep as (Hlen & Hsize & _).
  pose proof (lookup_lt_Some _ _ _ Hi).
  unfold rep; simpl. rewrite length_delete by eauto. split_and!; [lia|lia|].
  apply list_eq. intros k. rewrite list_lookup_fmap.
  destruct (decide (k < length l - 1)) as [Hlt|Hge].
  - rewrite lookup_take_lt by lia. by apply Hk.
  - rewrite lookup_take_ge by lia. rewrite (lookup_ge_None_2 (delete i l)); [done|].
    rewrite length_delete by eauto. lia.
Qed.

Lemma rep_pdata arr l k : rep arr l -> k < length l -> pdata arr !! k = Some <$> (l !! k).
Proof.
  intros (Hlen & _ & Hcells) Hk. rewrite <- list_lookup_fmap, <- Hcells.
  by rewrite lookup_take_lt by lia.
Qed.

Lemma remove_index_rep arr l i x :
  rep arr l -> l !! i = Some x ->
  exists arr', l_ptr_array_remove_index arr i = Some (x, arr') /\ rep arr' (delete i l).
Proof.
  intros Hrep Hi. pose proof (lookup_lt_Some _ _ _ Hi) as Hlt.
  pose proof (rep_len_size _ _ Hrep). pose proof Hrep as (Hlen & Hsize & _).
  unfold l_ptr_array_remove_index. rewrite decide_False by lia.
  rewrite (rep_lookup _ _ _ Hrep Hlt), Hi. simpl.
  case_decide as Hlast; simpl.
  - eexists. split; [done|]. eapply rep_len_minus_1; eauto. intros k Hk.
    rewrite (rep_pdata _ _ _ Hrep) by lia. by rewrite list_lookup_delete_lt by lia.
  - destruct (shift_down_spec (len arr - 1 - i) i (pdata arr)) as (d & -> & Hd & Hk); [lia|].
    simpl. eexists. split; [done|]. eapply rep_len_minus_1; eauto. intros k Hkl.
    rewrite Hk. case_decide.
    + rewrite (rep_pdata _ _ _ Hrep) by lia. by rewrite list_lookup_delete_ge by lia.
    + rewrite (rep_pdata _ _ _ Hrep) by lia. by rewrite list_lookup_delete_lt by lia.
Qed.

Lemma swap_remove_length i l x : l !! i = Some x -> length (swap_remove i l) = length l - 1.
Proof.
  intros Hi. pose proof (lookup_lt_Some _ _ _ Hi). unfold swap_remove.
  destruct (lookup_lt_is_Some_2 l (length l - 1)) as [y ->]; [lia|].
  rewrite length_take, length_insert. lia.
Qed.

(** The element is gone and the others are kept, in a different order. *)
Lemma swap_remove_perm i l x : l !! i = Some x -> l ≡ₚ x :: swap_remove i l.
Proof.
  intros Hi. pose proof (lookup_lt_Some _ _ _ Hi) as Hlt. unfold swap_remove.
  destruct (lookup_lt_is_Some_2 l (length l - 1)) as [y Hy]; [lia|]. rewrite Hy.
  destruct (decide (i = length l - 1)) as [->|Hne].
  - assert (y = x) as -> by congruence. rewrite take_insert_ge by lia.
    rewrite <- (take_drop (length l - 1) l) at 1.
    rewrite (drop_S _ x) by done. rewrite drop_ge by lia. symmetry.
    apply Permutation_cons_append.
  - rewrite <- (take_drop (length l - 1) l) at 1. rewrite (drop_S _ y) by done.
    rewrite (drop_ge l) by lia. rewrite take_insert_lt by lia.
    rewrite (Permutation_app_comm _ [y]). simpl.
    assert (take (length l - 1) l !! i = Some x) as Hx by (rewrite lookup_take_lt by lia; done).
    rewrite (delete_Permutation _ _ _ Hx) at 1.
    rewrite insert_take_drop by (rewrite length_take; lia).
    rewrite delete_take_drop, <- Permutation_middle. apply Permutation_swap.
Qed.

Lemma remove_index_fast_rep arr l i x :
  rep arr l -> l !! i = Some x ->
  exists arr', l_ptr_array_remove_index_fast arr i = Some (x, arr') /\
    rep arr' (swap_remove i l).
Proof.
  intros Hrep Hi. pose proof (lookup_lt_Some _ _ _ Hi) as Hlt.
  pose proof (rep_len_size _ _ Hrep). pose proof Hrep as (Hlen & Hsize & Hcells).
  unfold l_ptr_array_remove_index_fast. rewrite decide_False by lia.
  rewrite (rep_lookup _ _ _ Hrep Hlt), Hi. simpl.
  unfold rep. setoid_rewrite (swap_remove_length _ _ _ Hi). unfold swap_remove.
  destruct (lookup_lt_is_Some_2 l (length l - 1)) as [y Hy]; [lia|]. rewrite Hy, Hlen.
  case_decide as Hlast; simpl.
  - eexists. split; [done|]. simpl. split_and!; [lia|lia|].
    rewrite take_insert_ge by lia. rewrite fmap_take, <- Hcells, take_take. f_equal. lia.
  - rewrite (rep_pdata _ _ _ Hrep), Hy by lia. simpl.
    eexists. split; [done|]. simpl. rewrite length_insert. split_and!; [lia|lia|].
    rewrite !take_insert_lt by lia. rewrite list_fmap_insert, fmap_take, <- Hcells, take_take.
    do 2 f_equal. lia.
Qed.

Lemma remove_fast_from_rep `{EqDecision A} n i arr l p :
  rep arr l -> i + n = length l ->
  (exists k, i <= k /\ l !! k = Some p /\ (forall j, i <= j < k -> l !! j <> Some p) /\
     exists arr', remove_fast_from n i arr p = Some (true, arr') /\ rep arr' (swap_remove k l))
  \/ (p ∉ drop i l /\ remove_fast_from n i arr p = Some (false, arr)).
Proof.
  intros Hrep. revert i. induction n as [|n IH]; intros i Hin; simpl.
  { right. rewrite drop_ge by lia. split; [set_solver|done]. }
  destruct (lookup_lt_is_Some_2 l i) as [v Hv]; [lia|].
  rewrite (rep_lookup _ _ _ Hrep), Hv by lia. simpl. case_decide as Heq.
  - subst v. left. exists i. split_and!; [done|done|lia|].
    destruct (remove_index_fast_rep _ _ _ _ Hrep Hv) as (arr' & -> & ?). by eexists.
  - destruct (IH (S i)) as [(k & ? & ? & Hfirst & Hr)|(Hni & Hr)]; [lia| |].
    + left. exists k. split_and!; [lia|done| |done].
      intros j Hj Hlj. destruct (decide (j = i)); [congruence|]. by apply (Hfirst j); [lia|].
    + right. split; [|done]. rewrite (drop_S _ v) by done. set_solver.
Qed.

End refinement.
End LArr.

(** ** The interface

    What the sessions, the data streams and the threads use of an array: it
    holds a list, in which it appends at the end and deletes by index. *)

Class PtrArray (F : Type -> Type) := {
  pa_rep : forall {A}, F A -> list A -> Prop;
  pa_sized_new : forall {A}, nat -> option (F A);
  pa_add : forall {A}, F A -> A -> option (F A);
  pa_remove_index : forall {A}, F A -> nat -> option (A * F A);
  pa_len : forall {A}, F A -> nat
}.

(** The largest number of elements an array can grow to. *)
Definition pa_max : Z := (2 ^ 31)%Z.

Class PtrArrayLaws (F : Type -> Type) `{PtrArray F} := {
  pa_sized_new_spec {A} n :
    (Z.of_nat n <= pa_max)%Z -> exists a : F A, pa_sized_new n = Some a /\ pa_rep a [];
  pa_add_spec {A} (a : F A) l x :
    pa_rep a l -> (Z.of_nat (length l) < pa_max)%Z ->
    exists a', pa_add a x = Some a' /\ pa_rep a' (l ++ [x]);
  pa_remove_index_spec {A} (a : F A) l i x :
    pa_rep a l -> l !! i = Some x ->
    exists a', pa_remove_index a i = Some (x, a') /\ pa_rep a' (delete i l);
  pa_len_spec {A} (a : F A) l : pa_rep a l -> pa_len a = length l
}.

#[export] Instance LPtrArray_PtrArray : PtrArray LArr.LPtrArray := {
  pa_rep A := LArr.rep;
  pa_sized_new A := LArr.l_ptr_array_sized_new;
  pa_add A := LArr.l_ptr_array_add;
  pa_remove_index A := LArr.l_ptr_array_remove_index;
  pa_len A := LArr.len
}.

#[export] Instance LPtrArray_laws : PtrArrayLaws LArr.LPtrArray.
Proof.
  split; intros A.
  - intros n Hn. destruct (LArr.sized_new_rep (A:=A) n Hn) as (a & ? & ? & _). by exists a.
  - intros a l x Hrep Hmax. by apply LArr.add_rep.
  - intros a l i x Hrep Hi. by apply LArr.remove_index_rep.
  - intros a l Hrep. apply Hrep.
Qed.

(** ** Properties *)

(** C33: on an array that holds [l], [l_ptr_array_add] appends,
    [l_ptr_array_remove_index] deletes keeping the order,
    [l_ptr_array_remove_index_fast] moves the last element into the hole and so
    keeps the other elements up to order, and the index operations return the
    element they remove; none of them reads or writes outside of the array. *)
Theorem l_ptr_array_refines_list (A : Type) (arr : LArr.LPtrArray A) (l : list A) (i : nat) (x y : A) :
  LArr.rep arr l -> (Z.of_nat (length l) < 2 ^ 31)%Z -> l !! i = Some x ->
  (exists a, LArr.l_ptr_array_add arr y = Some a /\ LArr.rep a (l ++ [y])) /\
  (exists a, LArr.l_ptr_array_remove_index arr i = Some (x, a) /\ LArr.rep a (delete i l)) /\
  (exists a, LArr.l_ptr_array_remove_index_fast arr i = Some (x, a) /\
     LArr.rep a (LArr.swap_remove i l) /\ l ≡ₚ x :: LArr.swap_remove i l).
Proof.
  intros Hrep Hmax Hi. split_and!.
  - by apply LArr.add_rep.
  - by apply LArr.remove_index_rep.
  - destruct (LArr.remove_index_fast_rep _ _ _ _ Hrep Hi) as (a & ? & ?).
    exists a. split_and!; auto. by apply LArr.swap_remove_perm.
Qed.

Lemma l_ptr_array_refines_list_witness :
  let arr := LArr.mkArr [Some 10; Some 20; Some 30; None] 3 4 in
  LArr.rep arr [10; 20; 30] /\
  exists a, LArr.l_ptr_array_remove_index_fast arr 0 = Some (10, a) /\
    LArr.rep a (LArr.swap_remove 0 [10; 20; 30]) /\ [10; 20; 30] ≡ₚ 10 :: LArr.swap_remove 0 [10; 20; 30].
Proof.
  simpl. assert (LArr.rep (LArr.mkArr [Some 10; Some 20; Some 30; None] 3 4) [10; 20; 30]) as Hrep.
  { done. }
  split; [done|]. apply (l_ptr_array_refines_list nat _ [10; 20; 30] 0 10 0 Hrep); [simpl; lia|done].
Defined.

(** [l_near_pow_2] terminates for every size up to [2^31] and returns the
    least power of two that is at least its argument. *)
Theorem l_near_pow_2_least (n : Z) :
  (0 < n <= 2 ^ 31)%Z ->
  exists m : nat, LArr.l_near_pow_2 n = Some (2 ^ Z.of_nat m)%Z /\
    (n <= 2 ^ Z.of_nat m)%Z /\ (m = 0 \/ (2 ^ (Z.of_nat m - 1) < n)%Z).
Proof. apply LArr.l_near_pow_2_spec. Qed.

Lemma l_near_pow_2_least_witness : exists m : nat, LArr.l_near_pow_2 5 = Some (2 ^ Z.of_nat m)%Z.
Proof. destruct (l_near_pow_2_least 5) as (m & Hm & _); [lia|]. by exists m. Defined.
