(* ===== verification/Alloc.v ===== *)
(** * The per-thread pool allocator of src/l_utils.c

    [l_sfp] is the pool ([__thr_sfp]): six classes ([l_sfc]) of elements of 8,
    16, 32, 64, 128 and 256 bytes carved out of aligned 256 KB blocks.  Memory
    is named by its address; the intrusive free list of a class is the list of
    the addresses on it, top first.  Addresses that come from [malloc] or
    [posix_memalign], and the result of [qsort], are arguments.

    The ghost state of the invariant is the list of the elements that were
    handed out and not given back ([live]). *)
From Stdlib Require Import Sorted.
From S2P Require Import Prelude.
Open Scope Z_scope.

Module Pool.

Definition L_SFC_MIN_ELEM_SIZE : Z := 8.
Definition L_SFC_MID_ELEM_SIZE : Z := 32.
Definition L_SFC_MAX_ELEM_SIZE : Z := 256.
Definition L_SFP_ARRAY_MID : nat := 3.
Definition L_SFP_ARRAY_LEN : nat := 6.
Definition L_SFC_MEM_BLOCK_SIZE : Z := 262144.

Record l_sfc := mkSfc {
  stack : list Z;
  mem_blocks : list Z;
  elem_size : Z;
  blocks_cnt : Z;
  alloc_cnt : Z;
  free_cnt : Z;
  mem_l_free_count : Z
}.
#[export] Instance l_sfc_eta : Eta l_sfc := fun c =>
  mkSfc (stack c) (mem_blocks c) (elem_size c) (blocks_cnt c) (alloc_cnt c) (free_cnt c)
    (mem_l_free_count c).

Abbreviation l_sfp := (list l_sfc).

Definition l_stack_push (s : list Z) (p : Z) : list Z := p :: s.

(** 0 is [NULL]: the stack was empty. *)
Definition l_stack_pop (s : list Z) : Z * list Z :=
  match s with
  | [] => (0, [])
  | d :: s' => (d, s')
  end.

Definition l_mem_init : l_sfp :=
  (fun i => mkSfc [] [] (L_SFC_MIN_ELEM_SIZE * Z.shiftl 1 (Z.of_nat i)) 0 0 0 0)
    <$> seq 0 L_SFP_ARRAY_LEN.

(** [L_SFC_MEM_BLOCK_SIZE/sfc->elem_size]. *)
Definition elems_per_block (c : l_sfc) : nat := Z.to_nat (L_SFC_MEM_BLOCK_SIZE / elem_size c).

Definition add_mem_block (c : l_sfc) (m : Z) : l_sfc :=
  c <| mem_blocks := mem_blocks c ++ [m] |> <| blocks_cnt := blocks_cnt c + 1 |>.

Definition push_mem_block (c : l_sfc) (m : Z) : l_sfc :=
  c <| stack := fold_left (fun s j => l_stack_push s (m + Z.of_nat j * elem_size c))
                          (seq 0 (elems_per_block c)) (stack c) |>.

(** The loop [for ( ; i>=0 ; i-- ) if (size*2>sfp->sfc[i].elem_size || i==0)]
    that [__l_alloc] and [__l_free] share. *)
Fixpoint class_from (sfp : l_sfp) (size : Z) (i : nat) : option nat :=
  c ← sfp !! i;
  if (elem_size c <? size * 2) then Some i
  else match i with
       | O => Some 0%nat
       | S i' => class_from sfp size i'
       end.

Definition class_of (sfp : l_sfp) (size : Z) : option nat :=
  class_from sfp size
    (if size <=? L_SFC_MID_ELEM_SIZE then (L_SFP_ARRAY_MID - 1)%nat else (L_SFP_ARRAY_LEN - 1)%nat).

(** [sys] is the address [malloc] or [posix_memalign] answers with, when one of
    them is called. *)
Definition l_alloc (sys : Z) (sfp : l_sfp) (size : Z) : option (Z * l_sfp) :=
  if L_SFC_MAX_ELEM_SIZE <? size then Some (sys, sfp) else
  i ← class_of sfp size;
  c ← sfp !! i;
  let '(p, s) := l_stack_pop (stack c) in
  if p =? 0 then
    let c := push_mem_block (add_mem_block c sys) sys in
    let n := Z.of_nat (elems_per_block c) in
    let c := c <| alloc_cnt := alloc_cnt c + n |> <| free_cnt := free_cnt c + n |> in
    let '(p, s) := l_stack_pop (stack c) in
    Some (p, <[i := c <| stack := s |>]> sfp)
  else Some (p, <[i := c <| stack := s |>]> sfp).

(** ** Compaction *)

Definition cmpptr (a b : Z) : Z := i32 (a - b).

Definition copy_to_sort_buff (c : l_sfc) (elems : nat) : list Z :=
  take elems (stack c) ++ replicate (elems - length (stack c)) 0.

(** [memset(sort_buff+i,0,...)] over [n] cells. *)
Definition zero_range (i n : nat) (buf : list Z) : list Z :=
  take i buf ++ replicate n 0 ++ drop (i + n) buf.

(** The scan of the sorted buffer for blocks all of whose elements are free:
    [n] elements per block, [es] bytes per element, up to index [limit].  The
    result is the buffer with those elements zeroed and the blocks found. *)
Fixpoint scan (fuel n : nat) (es : Z) (limit i : nat) (buf fb : list Z) : option (list Z * list Z) :=
  if decide (i < limit)%nat then
    match fuel with
    | O => None
    | S fuel' =>
        v1 ← buf !! i;
        if negb (v1 mod L_SFC_MEM_BLOCK_SIZE =? 0) then scan fuel' n es limit (S i) buf fb else
        v2 ← buf !! (i + n - 1)%nat;
        if negb (v2 =? v1 + L_SFC_MEM_BLOCK_SIZE - es) then scan fuel' n es limit (S i) buf fb else
        scan fuel' n es limit (i + n)%nat (zero_range i n buf) (fb ++ [v1])
    end
  else Some (buf, fb).

(** [__sort_stack], [None] when the loop runs past the end of the buffer. *)
Definition sort_stack (c : l_sfc) (sort_buff : list Z) : option l_sfc :=
  if Z.of_nat (length sort_buff) <? free_cnt c then None else
  Some (c <| stack := fold_left (fun s n => if n =? 0 then s else l_stack_push s n)
                                (take (Z.to_nat (free_cnt c)) sort_buff) [] |>).

(** [elems] is an [int]: with 2^31 elements and more [__x_malloc] is asked for a negative number of
    them, or the buffer is shorter than [free_cnt]. *)
Definition compact_mem (qsort : (Z -> Z -> Z) -> list Z -> list Z) (c : l_sfc) : option l_sfc :=
  if i32 (free_cnt c) <? 0 then None else
  let elems := Z.to_nat (i32 (free_cnt c)) in
  let n := elems_per_block c in
  '(buf, fb) ← scan elems n (elem_size c) (elems - n)%nat 0
                 (qsort cmpptr (copy_to_sort_buff c elems)) [];
  let fbi := Z.of_nat (length fb) in
  c ← (if fbi =? 0 then Some c else
    let c := c <| mem_blocks := filter (fun b => b ∉ fb) (mem_blocks c) |>
               <| blocks_cnt := blocks_cnt c - fbi |> in
    c ← sort_stack c buf;
    let d := fbi * L_SFC_MEM_BLOCK_SIZE / elem_size c in
    Some (c <| alloc_cnt := alloc_cnt c - d |> <| free_cnt := free_cnt c - d |>));
  sort_stack c buf.

(** The class with the element back on its stack, and whether [__l_free] then compacts it. *)
Definition freed (c : l_sfc) (p : Z) : l_sfc :=
  c <| stack := l_stack_push (stack c) p |> <| free_cnt := free_cnt c + 1 |>
    <| mem_l_free_count := mem_l_free_count c + 1 |>.

Definition compacts (c : l_sfc) : bool :=
  (mem_l_free_count c mod L_SFC_MEM_BLOCK_SIZE =? 0) && (16 <? blocks_cnt c) && (alloc_cnt c * 990 / 1000 <? free_cnt c).

Definition l_free (qsort : (Z -> Z -> Z) -> list Z -> list Z) (sfp : l_sfp) (size p : Z)
  : option l_sfp :=
  if L_SFC_MAX_ELEM_SIZE <? size then Some sfp (* free(p) *) else
  i ← class_of sfp size;
  c ← sfp !! i;
  let c := freed c p in
  c ← (if compacts c
       then c ← compact_mem qsort c; Some (c <| mem_l_free_count := 0 |>)
       else Some c);
  Some (<[i := c]> sfp).

(** The blocks that [l_mem_destroy] gives back, [None] when a counter runs past the array of blocks. *)
Definition l_mem_destroy (sfp : l_sfp) : option (list Z) :=
  bs ← mapM (fun c => mapM (fun j => mem_blocks c !! j) (seq 0 (Z.to_nat (blocks_cnt c)))) sfp;
  Some (mjoin bs).

(** ** The invariant *)

(** [chunk c b a]: [a] is one of the elements of class [c] in block [b]. *)
Definition chunk (c : l_sfc) (b a : Z) : Prop :=
  exists j, 0 <= j < L_SFC_MEM_BLOCK_SIZE / elem_size c /\ a = b + j * elem_size c.

Record sfc_inv (c : l_sfc) (live : list Z) : Prop := {
  inv_elem : 0 < elem_size c < L_SFC_MEM_BLOCK_SIZE;
  inv_div : (elem_size c | L_SFC_MEM_BLOCK_SIZE);
  inv_blocks : forall b, b ∈ mem_blocks c -> 0 < b /\ b mod L_SFC_MEM_BLOCK_SIZE = 0;
  inv_nodup : NoDup (stack c ++ live);
  inv_in : forall a, a ∈ stack c ++ live -> exists b, b ∈ mem_blocks c /\ chunk c b a
}.

(** The pool: every class satisfies its invariant with its own live elements,
    no block belongs to two classes, and the element sizes are those of
    [l_mem_init]. *)
Record sfp_inv (sfp : l_sfp) (live : list (list Z)) : Prop := {
  inv_sizes : elem_size <$> sfp = elem_size <$> l_mem_init;
  inv_len : length live = length sfp;
  inv_classes : forall i c l, sfp !! i = Some c -> live !! i = Some l -> sfc_inv c l;
  inv_sep : forall i j c d b, sfp !! i = Some c -> sfp !! j = Some d ->
              b ∈ mem_blocks c -> b ∈ mem_blocks d -> i = j
}.

(** What the C library promises of a fresh block. *)
Definition fresh_block (sfp : l_sfp) (m : Z) : Prop :=
  0 < m /\ m mod L_SFC_MEM_BLOCK_SIZE = 0 /\ forall i c, sfp !! i = Some c -> m ∉ mem_blocks c.

(** The C standard's contract of [qsort], for a comparison function that agrees
    with the order of the addresses it is given. *)
Definition qsort_contract (qsort : (Z -> Z -> Z) -> list Z -> list Z) : Prop :=
  forall cmp l,
    (forall a b, a ∈ l -> b ∈ l -> (cmp a b < 0 <-> a < b) /\ (cmp a b = 0 <-> a = b)) ->
    qsort cmp l ≡ₚ l /\ forall i j x y, (i <= j)%nat -> qsort cmp l !! i = Some x ->
      qsort cmp l !! j = Some y -> x <= y.

(** ** Size classes *)

Lemma class_of_spec sfp size :
  elem_size <$> sfp = elem_size <$> l_mem_init -> 0 <= size <= L_SFC_MAX_ELEM_SIZE ->
  exists i c, class_of sfp size = Some i /\ sfp !! i = Some c /\
    elem_size c = 8 * 2 ^ Z.of_nat i /\ size <= elem_size c /\
    (i = 0%nat \/ elem_size c < 2 * size).
Proof.
  intros Hs Hsz. unfold L_SFC_MAX_ELEM_SIZE in Hsz.
  change (elem_size <$> l_mem_init) with [8; 16; 32; 64; 128; 256] in Hs.
  destruct sfp as [|c0 [|c1 [|c2 [|c3 [|c4 [|c5 [|]]]]]]]; simplify_eq/=.
  unfold class_of, L_SFC_MID_ELEM_SIZE.
  destruct (Z.leb_spec size 32) as [Hmid|Hmid]; simpl;
    repeat match goal with |- context [?a <? ?b] => destruct (Z.ltb_spec a b); simpl end;
    eexists _, _; (split_and!; [reflexivity|reflexivity|simpl; lia|lia|lia]).
Qed.

(** ** Elements of distinct blocks, or distinct elements of a block, are disjoint *)

Lemma chunk_bounds c b a :
  0 < elem_size c -> (elem_size c | L_SFC_MEM_BLOCK_SIZE) -> chunk c b a ->
  b <= a /\ a + elem_size c <= b + L_SFC_MEM_BLOCK_SIZE.
Proof.
  intros He [k Hk] (j & Hj & ->). rewrite Hk, Z.div_mul in Hj by lia. rewrite Hk. nia.
Qed.

Lemma aligned_blocks_disjoint b b' :
  b mod L_SFC_MEM_BLOCK_SIZE = 0 -> b' mod L_SFC_MEM_BLOCK_SIZE = 0 -> b <> b' ->
  b + L_SFC_MEM_BLOCK_SIZE <= b' \/ b' + L_SFC_MEM_BLOCK_SIZE <= b.
Proof.
  unfold L_SFC_MEM_BLOCK_SIZE. intros H1 H2 Hne.
  apply Z.mod_divide in H1 as [k ->]; [|lia]. apply Z.mod_divide in H2 as [k' ->]; [|lia]. lia.
Qed.

Lemma chunk_same_block_disjoint c b a a' :
  0 < elem_size c -> chunk c b a -> chunk c b a' -> a <> a' ->
  a + elem_size c <= a' \/ a' + elem_size c <= a.
Proof.
  intros He (j & _ & ->) (j' & _ & ->) Hne.
  destruct (Z.lt_trichotomy j j') as [|[->|]]; [left|done|right].
  - pose proof (Z.mul_le_mono_nonneg_r (j + 1) j' (elem_size c)). lia.
  - pose proof (Z.mul_le_mono_nonneg_r (j' + 1) j (elem_size c)). lia.
Qed.

Lemma inv_chunk_bounds c live b a :
  sfc_inv c live -> chunk c b a -> b <= a /\ a + elem_size c <= b + L_SFC_MEM_BLOCK_SIZE.
Proof. intros Hc. pose proof (inv_elem _ _ Hc). apply chunk_bounds; [lia|apply Hc]. Qed.

Lemma chunk_block_unique c live b b' a :
  sfc_inv c live ->
  b mod L_SFC_MEM_BLOCK_SIZE = 0 -> b' mod L_SFC_MEM_BLOCK_SIZE = 0 ->
  chunk c b a -> chunk c b' a -> b = b'.
Proof.
  intros Hc H1 H2 Ha Ha'. destruct (decide (b = b')) as [|Hne]; [done|exfalso].
  pose proof (inv_elem _ _ Hc).
  pose proof (inv_chunk_bounds _ _ _ _ Hc Ha). pose proof (inv_chunk_bounds _ _ _ _ Hc Ha').
  destruct (aligned_blocks_disjoint _ _ H1 H2 Hne); lia.
Qed.

(** Two live elements never overlap. *)
Lemma live_disjoint sfp live i j l l' c d a a' :
  sfp_inv sfp live -> sfp !! i = Some c -> sfp !! j = Some d ->
  live !! i = Some l -> live !! j = Some l' -> a ∈ l -> a' ∈ l' -> (i, a) <> (j, a') ->
  a + elem_size c <= a' \/ a' + elem_size d <= a.
Proof.
  intros Hinv Hi Hj Hl Hl' Ha Ha' Hne.
  pose proof (inv_classes _ _ Hinv _ _ _ Hi Hl) as Hc.
  pose proof (inv_classes _ _ Hinv _ _ _ Hj Hl') as Hd.
  destruct (inv_in _ _ Hc a) as (b & Hb & Hcb); [set_solver|].
  destruct (inv_in _ _ Hd a') as (b' & Hb' & Hcb'); [set_solver|].
  pose proof (inv_elem _ _ Hc). pose proof (inv_elem _ _ Hd).
  pose proof (inv_chunk_bounds _ _ _ _ Hc Hcb).
  pose proof (inv_chunk_bounds _ _ _ _ Hd Hcb').
  destruct (decide (b = b')) as [->|Hbb].
  - assert (i = j) as -> by eauto using inv_sep. simplify_eq.
    apply (chunk_same_block_disjoint _ b'); [lia|done|done|congruence].
  - destruct (aligned_blocks_disjoint b b');
      [apply (inv_blocks _ _ Hc _ Hb)|apply (inv_blocks _ _ Hd _ Hb')|done|lia|lia].
Qed.

(** ** [__l_alloc] *)

Lemma push_stack_eq (m e : Z) n st :
  fold_left (fun s j => l_stack_push s (m + Z.of_nat j * e)) (seq 0 n) st =
  reverse ((fun j => m + Z.of_nat j * e) <$> seq 0 n) ++ st.
Proof.
  induction n as [|n IH]; [done|].
  by rewrite seq_S, fold_left_app, IH, fmap_app, reverse_app.
Qed.

Lemma pushed_elem c m a :
  0 < elem_size c ->
  a ∈ ((fun j => m + Z.of_nat j * elem_size c) <$> seq 0 (elems_per_block c)) <-> chunk c m a.
Proof.
  intros He. rewrite list_elem_of_fmap. unfold elems_per_block. split.
  - intros (j & -> & Hj). apply elem_of_seq in Hj. exists (Z.of_nat j). split; [|done]. lia.
  - intros (j & Hj & ->). exists (Z.to_nat j). rewrite Z2Nat.id by lia. split; [done|].
    apply elem_of_seq. lia.
Qed.

(** The class after a block was added: its elements are on the stack. *)
Lemma push_block_inv c live m :
  sfc_inv c live -> 0 < m -> m mod L_SFC_MEM_BLOCK_SIZE = 0 -> m ∉ mem_blocks c ->
  let c' := push_mem_block (add_mem_block c m) m in
  sfc_inv c' live /\ stack c' <> [] /\ elem_size c' = elem_size c /\
  mem_blocks c' = mem_blocks c ++ [m].
Proof.
  intros Hc Hm Hal Hnew. pose proof (inv_elem _ _ Hc). pose proof (inv_div _ _ Hc) as Hdiv.
  unfold push_mem_block, add_mem_block. simpl. rewrite push_stack_eq.
  change (elems_per_block _) with (elems_per_block c).
  set (new := (fun j => m + Z.of_nat j * elem_size c) <$> seq 0 (elems_per_block c)).
  assert (forall a, a ∈ new <-> chunk c m a) as Hnewel by (intros; apply pushed_elem; lia).
  assert (chunk c m m) as Hcm.
  { exists 0. split; [|lia]. destruct Hdiv as [k Hk]. rewrite Hk, Z.div_mul by lia. nia. }
  split_and!; [|..|done|done].
  2:{ apply Hnewel, elem_of_reverse in Hcm. intros Hnil.
      apply app_eq_nil in Hnil as [Hnil _]. rewrite Hnil in Hcm. set_solver. }
  constructor; simpl; [done|done| | |].
  - intros b Hb. apply elem_of_app in Hb as [Hb|Hb]; [apply (inv_blocks _ _ Hc _ Hb)|].
    apply list_elem_of_singleton in Hb as ->. done.
  - rewrite <- app_assoc. apply NoDup_app. split_and!; [| |apply Hc].
    + rewrite reverse_Permutation. apply NoDup_fmap_2_strong; [|apply NoDup_seq].
      intros x y _ _ Heq. assert (Z.of_nat x * elem_size c = Z.of_nat y * elem_size c) as Hxy by lia.
      apply Z.mul_reg_r in Hxy; lia.
    + intros a Ha Hin. apply elem_of_reverse, Hnewel in Ha.
      destruct (inv_in _ _ Hc a Hin) as (b & Hb & Hba).
      assert (m = b) as -> by (apply (chunk_block_unique c live m b a); eauto; by apply Hc).
      done.
  - intros a Ha. rewrite <- app_assoc in Ha. apply elem_of_app in Ha as [Ha|Ha].
    + exists m. split; [set_solver|]. by apply Hnewel, elem_of_reverse.
    + destruct (inv_in _ _ Hc a Ha) as (b & Hb & Hba). exists b. split; [set_solver|done].
Qed.

(** Popping an element makes it live. *)
Lemma pop_inv c live p s :
  sfc_inv c live -> stack c = p :: s -> sfc_inv (c <| stack := s |>) (p :: live) /\ p ∉ live /\ p <> 0.
Proof.
  intros Hc Hs. pose proof (inv_nodup _ _ Hc) as Hnd. rewrite Hs in Hnd. simpl in Hnd.
  destruct (inv_in _ _ Hc p) as (b & Hb & Hbp); [rewrite Hs; set_solver|].
  split_and!.
  - constructor; simpl; [apply Hc|apply Hc|apply Hc| |].
    + by rewrite <- Permutation_middle.
    + intros a Ha. apply (inv_in _ _ Hc). rewrite Hs. set_solver.
  - apply NoDup_cons in Hnd as [Hp _]. set_solver.
  - pose proof (inv_blocks _ _ Hc _ Hb). pose proof (inv_elem _ _ Hc).
    pose proof (inv_chunk_bounds _ _ _ _ Hc Hbp). lia.
Qed.

(** Replacing class [i] of a pool. *)
Lemma sfp_update_inv sfp live i c c' l l' :
  sfp_inv sfp live -> sfp !! i = Some c -> live !! i = Some l -> sfc_inv c' l' ->
  elem_size c' = elem_size c ->
  (forall b, b ∈ mem_blocks c' -> b ∈ mem_blocks c \/
     forall j d, sfp !! j = Some d -> b ∉ mem_blocks d) ->
  sfp_inv (<[i := c']> sfp) (<[i := l']> live).
Proof.
  intros Hinv Hi Hl Hc' He Hb. pose proof (lookup_lt_Some _ _ _ Hi).
  pose proof (inv_len _ _ Hinv). constructor.
  - rewrite list_fmap_insert, He. rewrite list_insert_id; [apply Hinv|].
    by rewrite list_lookup_fmap, Hi.
  - by rewrite !length_insert.
  - intros j d k Hd Hk. destruct (decide (i = j)) as [->|].
    + rewrite list_lookup_insert_eq in Hd by lia. rewrite list_lookup_insert_eq in Hk by lia. by simplify_eq.
    + rewrite list_lookup_insert_ne in Hd by done.
      rewrite list_lookup_insert_ne in Hk by done. by eapply inv_classes.
  - intros j k d f b Hd Hf Hbd Hbf.
    destruct (decide (i = j)) as [<-|Hij], (decide (i = k)) as [<-|Hik]; [done|..].
    + rewrite list_lookup_insert_eq in Hd by lia. rewrite list_lookup_insert_ne in Hf by done.
      simplify_eq. destruct (Hb b Hbd) as [?|Hno]; [by eapply inv_sep|by apply Hno in Hf].
    + rewrite list_lookup_insert_ne in Hd by done. rewrite list_lookup_insert_eq in Hf by lia.
      simplify_eq. destruct (Hb b Hbf) as [?|Hno]; [by eapply inv_sep|by apply Hno in Hd].
    + rewrite list_lookup_insert_ne in Hd by done.
      rewrite list_lookup_insert_ne in Hf by done. by eapply inv_sep.
Qed.

Lemma l_alloc_inv sys sfp live size :
  sfp_inv sfp live -> 0 <= size <= L_SFC_MAX_ELEM_SIZE -> fresh_block sfp sys ->
  exists p sfp' i c l, l_alloc sys sfp size = Some (p, sfp') /\
    class_of sfp size = Some i /\ sfp !! i = Some c /\ size <= elem_size c /\
    live !! i = Some l /\ p ∉ l /\ sfp_inv sfp' (<[i := p :: l]> live).
Proof.
  intros Hinv Hsz (Hm & Hal & Hnew).
  destruct (class_of_spec sfp size (inv_sizes _ _ Hinv) Hsz) as (i & c & Hi & Hc & _ & Hle & _).
  destruct (lookup_lt_is_Some_2 live i) as [l Hl].
  { rewrite (inv_len _ _ Hinv). by eapply lookup_lt_Some. }
  pose proof (inv_classes _ _ Hinv _ _ _ Hc Hl) as Hci.
  unfold l_alloc. destruct (Z.ltb_spec L_SFC_MAX_ELEM_SIZE size); [lia|].
  rewrite Hi. simpl. rewrite Hc. simpl.
  destruct (stack c) as [|p s] eqn:Hs; simpl.
  - destruct (push_block_inv c l sys Hci Hm Hal) as (Hp & Hne & He & Hmb); [by eapply Hnew|].
    simpl in *. rewrite Hs in Hne. destruct (fold_left _ _ _) as [|p s] eqn:Hst; [done|].
    cbn [l_stack_pop].
    assert (stack (push_mem_block (add_mem_block c sys) sys) = p :: s) as Hst'.
    { simpl. by rewrite Hs. }
    eexists p, _, i, c, l. split_and!; [done..| |].
    + by eapply (pop_inv _ l p s Hp).
    + eapply sfp_update_inv; [done..| | |].
      * destruct (pop_inv _ l p s Hp) as ([] & _ & _); [done|]. by constructor.
      * done.
      * simpl. intros b Hb. apply elem_of_app in Hb as [?|Hb]; [by left|right].
        apply list_elem_of_singleton in Hb as ->. done.
  - destruct (pop_inv c l p s Hci Hs) as (Hpi & Hpl & Hp0).
    destruct (Z.eqb_spec p 0); [done|]. eexists p, _, i, c, l. split_and!; [done..|].
    eapply sfp_update_inv; [done..|]. simpl. auto.
Qed.

(** ** Compaction *)

(** No non-null address occurs twice in a buffer. *)
Definition uniq_nz (l : list Z) : Prop :=
  forall i j x, x <> 0 -> l !! i = Some x -> l !! j = Some x -> i = j.

Lemma uniq_nz_of_NoDup l : NoDup (filter (fun x => x <> 0) l) -> uniq_nz l.
Proof.
  assert (forall i j x, (i < j)%nat -> NoDup (filter (fun x => x <> 0) l) -> x <> 0 ->
            l !! i = Some x -> l !! j = Some x -> False) as Hlt.
  { intros i j x Hij Hnd Hx Hi Hj. rewrite <- (take_drop j l), filter_app in Hnd.
    apply NoDup_app in Hnd as (_ & Hdisj & _). apply (Hdisj x).
    - apply list_elem_of_filter. split; [done|]. apply list_elem_of_lookup_2 with i.
      by rewrite lookup_take_lt.
    - apply list_elem_of_filter. split; [done|]. apply list_elem_of_lookup_2 with 0%nat.
      by rewrite lookup_drop, Nat.add_0_r. }
  intros Hnd i j x Hx Hi Hj. destruct (Nat.lt_trichotomy i j) as [?|[?|?]]; [|done|];
    exfalso; eapply Hlt; eauto.
Qed.

Lemma NoDup_of_uniq_nz l : uniq_nz l -> NoDup (filter (fun x => x <> 0) l).
Proof.
  induction l as [|x l IH]; intros Hu; [constructor|]. rewrite filter_cons.
  assert (uniq_nz l) as Hul.
  { intros i j y Hy Hi Hj. by apply Nat.succ_inj, (Hu (S i) (S j) y). }
  case_decide; [|by apply IH]. apply NoDup_cons. split; [|by apply IH].
  intros Hin. apply list_elem_of_filter in Hin as [_ Hin].
  apply list_elem_of_lookup_1 in Hin as [j Hj]. by pose proof (Hu 0%nat (S j) x H eq_refl Hj).
Qed.

Lemma length_copy_to_sort_buff c n : length (copy_to_sort_buff c n) = n.
Proof. unfold copy_to_sort_buff. rewrite length_app, length_take, length_replicate. lia. Qed.

Lemma zero_range_length i n buf : (i + n <= length buf)%nat -> length (zero_range i n buf) = length buf.
Proof.
  intros. unfold zero_range. rewrite !length_app, length_take, length_replicate, length_drop. lia.
Qed.

Lemma zero_range_lookup i n buf k :
  (i + n <= length buf)%nat ->
  zero_range i n buf !! k = if decide (i <= k < i + n)%nat then Some 0 else buf !! k.
Proof.
  intros Hlen. unfold zero_range. assert (length (take i buf) = i) as Hti by (rewrite length_take; lia).
  destruct (decide (k < i)%nat).
  { rewrite decide_False by lia. rewrite lookup_app_l by lia. by rewrite lookup_take_lt by lia. }
  rewrite lookup_app_r by lia. rewrite Hti. case_decide.
  - rewrite lookup_app_l by (rewrite length_replicate; lia). apply lookup_replicate. split; [done|lia].
  - rewrite lookup_app_r by (rewrite length_replicate; lia).
    rewrite lookup_drop, length_replicate. f_equal. lia.
Qed.

(** What the scan has found so far: [buf] is the sorted buffer [B] with the
    elements of the blocks in [fb] zeroed, all of which were in [B]. *)
Record scan_inv (B : list Z) (n : nat) (es : Z) (i : nat) (buf fb : list Z) : Prop := {
  sc_len : length buf = length B;
  sc_rest : forall k, (i <= k)%nat -> buf !! k = B !! k;
  sc_zero : forall k x, buf !! k = Some x -> x = 0 \/ B !! k = Some x;
  sc_found : forall v, v ∈ fb -> exists k0, forall j, (j < n)%nat ->
    B !! (k0 + j)%nat = Some (v + Z.of_nat j * es) /\ buf !! (k0 + j)%nat = Some 0
}.

(** [run_of_block B n es]: a window of [n] cells of [B] that starts at an aligned
    address and ends at the last element of that block holds that block. *)
Definition run_of_block (B : list Z) (n : nat) (es : Z) : Prop :=
  forall i v, B !! i = Some v -> v mod L_SFC_MEM_BLOCK_SIZE = 0 ->
    B !! (i + n - 1)%nat = Some (v + L_SFC_MEM_BLOCK_SIZE - es) ->
    forall j, (j < n)%nat -> B !! (i + j)%nat = Some (v + Z.of_nat j * es).

Lemma scan_ok B n es limit :
  (0 < n)%nat -> (limit <> 0 -> limit + n <= length B)%nat -> run_of_block B n es ->
  forall fuel i buf fb, (limit <= i + fuel)%nat -> scan_inv B n es i buf fb ->
  exists buf' fb' i', scan fuel n es limit i buf fb = Some (buf', fb') /\ scan_inv B n es i' buf' fb'.
Proof.
  intros Hn Hlim Hrun. induction fuel as [|fuel IH]; intros i buf fb Hf Hinv; simpl.
  { rewrite decide_False by lia. by exists buf, fb, i. }
  case_decide as Hi; [|by exists buf, fb, i].
  assert (i + n <= length buf)%nat as Hroom by (rewrite (sc_len _ _ _ _ _ _ Hinv); lia).
  assert (forall k, scan_inv B n es i buf fb -> (i <= k)%nat -> scan_inv B n es k buf fb) as Hskip.
  { intros k [] ?. constructor; auto. intros; apply sc_rest0; lia. }
  destruct (lookup_lt_is_Some_2 buf i) as [v1 Hv1]; [lia|]. rewrite Hv1. simpl.
  destruct (Z.eqb_spec (v1 mod L_SFC_MEM_BLOCK_SIZE) 0) as [Hal|_]; simpl; [|by apply IH; [lia|apply Hskip; [done|lia]]].
  destruct (lookup_lt_is_Some_2 buf (i + n - 1)%nat) as [v2 Hv2]; [lia|]. rewrite Hv2. simpl.
  destruct (Z.eqb_spec v2 (v1 + L_SFC_MEM_BLOCK_SIZE - es)) as [->|_]; simpl; [|by apply IH; [lia|apply Hskip; [done|lia]]].
  apply IH; [lia|]. destruct Hinv as [Hlen Hrest Hzero Hfound].
  rewrite Hrest in Hv1, Hv2 by lia. constructor.
  - by rewrite zero_range_length.
  - intros k Hk. rewrite zero_range_lookup by done. rewrite decide_False by lia. apply Hrest. lia.
  - intros k x. rewrite zero_range_lookup by done. case_decide; [|apply Hzero]. naive_solver.
  - intros v Hv. apply elem_of_app in Hv as [Hv|Hv].
    + destruct (Hfound v Hv) as [k0 Hk0]. exists k0. intros j Hj. destruct (Hk0 j Hj) as [? ?].
      split; [done|]. rewrite zero_range_lookup by done. by case_decide.
    + apply list_elem_of_singleton in Hv as ->. exists i. intros j Hj.
      split; [by apply Hrun|]. rewrite zero_range_lookup by done. by rewrite decide_True by lia.
Qed.

Lemma sort_stack_eq l st :
  fold_left (fun s n => if n =? 0 then s else l_stack_push s n) l st =
  reverse (filter (fun x => x <> 0) l) ++ st.
Proof.
  revert st. induction l as [|x l IH]; intros st; [done|]. simpl. rewrite IH, filter_cons.
  destruct (Z.eqb_spec x 0); case_decide; try done. by rewrite reverse_cons, <- app_assoc.
Qed.

(** A sorted buffer without repetitions whose entries are elements of the class
    satisfies [run_of_block]: between the first and the last element of a
    block there is room for exactly the elements of that block. *)
Lemma sorted_run_of_block c live B :
  sfc_inv c live -> uniq_nz B ->
  (forall k x, B !! k = Some x -> x = 0 \/ x ∈ stack c) ->
  (forall i j x y, (i <= j)%nat -> B !! i = Some x -> B !! j = Some y -> x <= y) ->
  run_of_block B (elems_per_block c) (elem_size c).
Proof.
  intros Hc Hu Hin Hsort i v Hi Hal Hlast.
  pose proof (inv_elem _ _ Hc) as He. destruct (inv_div _ _ Hc) as [q Hq].
  assert (forall a, a ∈ stack c -> L_SFC_MEM_BLOCK_SIZE <= a /\ (elem_size c | a)) as Hst.
  { intros a Ha. destruct (inv_in _ _ Hc a) as (b & Hb & Hba); [set_solver|].
    destruct (inv_blocks _ _ Hc b Hb) as [Hb0 Hbal].
    apply Z.mod_divide in Hbal as [k ->]; [|unfold L_SFC_MEM_BLOCK_SIZE; lia].
    destruct Hba as (j & Hj & ->). split.
    - unfold L_SFC_MEM_BLOCK_SIZE in *. nia.
    - rewrite Hq. exists (k * q + j). ring. }
  set (n := elems_per_block c) in *.
  assert (Z.of_nat n = q /\ 0 < q) as [Hn Hq0].
  { unfold n, elems_per_block. rewrite Hq, Z.div_mul by lia.
    assert (0 < q) by (unfold L_SFC_MEM_BLOCK_SIZE in *; nia). split; lia. }
  assert (v <= v + L_SFC_MEM_BLOCK_SIZE - elem_size c) as Hspan by lia.
  assert (v + L_SFC_MEM_BLOCK_SIZE - elem_size c ∈ stack c) as Hend.
  { destruct (Hin _ _ Hlast) as [Hz|]; [|done].
    destruct (Hin _ _ Hi) as [->|Hv]; [lia|]. apply Hst in Hv. lia. }
  assert (v ∈ stack c) as Hv.
  { destruct (Hin _ _ Hi) as [->|]; [|done]. apply Hst in Hend as [? _]. lia. }
  (* every step of the window advances by at least one element *)
  assert (forall j x y, (i <= j)%nat -> B !! j = Some x -> B !! S j = Some y -> x + elem_size c <= y)
    as Hstep.
  { intros j x y Hij Hx Hy. pose proof (Hsort j (S j) x y ltac:(lia) Hx Hy) as Hle.
    pose proof (Hsort i j _ _ Hij Hi Hx) as Hvx. destruct (Hst v Hv) as [Hvb _].
    destruct (Hin _ _ Hx) as [->|Hxs]; [unfold L_SFC_MEM_BLOCK_SIZE in *; lia|].
    destruct (Hin _ _ Hy) as [->|Hys]; [unfold L_SFC_MEM_BLOCK_SIZE in *; lia|].
    destruct (Hst _ Hxs) as [_ [kx ->]]. destruct (Hst _ Hys) as [_ [ky ->]].
    assert (kx * elem_size c <> ky * elem_size c) as Hne.
    { intros Heq. rewrite <- Heq in Hy. assert (j = S j) by (eapply Hu; [|done|done];
        unfold L_SFC_MEM_BLOCK_SIZE in *; lia). lia. }
    assert (kx < ky) by nia. nia. }
  assert (i + n - 1 < length B)%nat as Hlen by (by eapply lookup_lt_Some).
  assert (forall d j x y, (i <= j)%nat -> B !! j = Some x -> B !! (j + d)%nat = Some y ->
            x + Z.of_nat d * elem_size c <= y) as Hsteps.
  { induction d as [|d IH]; intros j x y Hij Hx Hy.
    { rewrite Nat.add_0_r in Hy. simplify_eq. lia. }
    destruct (lookup_lt_is_Some_2 B (j + d)%nat) as [z Hz].
    { apply lookup_lt_Some in Hy. lia. }
    pose proof (IH _ _ _ Hij Hx Hz). replace (j + S d)%nat with (S (j + d)) in Hy by lia.
    pose proof (Hstep (j + d)%nat z y ltac:(lia) Hz Hy). lia. }
  intros j Hj. destruct (lookup_lt_is_Some_2 B (i + j)%nat) as [x Hx]; [lia|].
  rewrite Hx. f_equal. pose proof (Hsteps j i v x ltac:(lia) Hi Hx).
  pose proof (Hsteps (n - 1 - j)%nat (i + j)%nat x (v + L_SFC_MEM_BLOCK_SIZE - elem_size c)
    ltac:(lia) Hx) as Hhi.
  replace (i + j + (n - 1 - j))%nat with (i + n - 1)%nat in Hhi by lia. specialize (Hhi Hlast).
  rewrite Hq in Hhi. replace (Z.of_nat (n - 1 - j)) with (q - 1 - Z.of_nat j) in Hhi by lia. lia.
Qed.

Lemma sfc_inv_shrink c c' live :
  sfc_inv c live -> elem_size c' = elem_size c ->
  (forall b, b ∈ mem_blocks c' -> b ∈ mem_blocks c) ->
  NoDup (stack c') -> (forall a, a ∈ stack c' -> a ∈ stack c) ->
  (forall a b, a ∈ stack c' ++ live -> b ∈ mem_blocks c -> chunk c b a -> b ∈ mem_blocks c') ->
  sfc_inv c' live.
Proof.
  intros [He Hd Hb Hnd Hin] Hes Hmb Hnd' Hst Hkeep.
  apply NoDup_app in Hnd as (_ & Hdisj & Hl).
  constructor; rewrite ?Hes; [done|done|auto| |].
  - apply NoDup_app. eauto.
  - intros a Ha. destruct (Hin a) as (b & Hb' & Hba).
    { apply elem_of_app in Ha as [?|?]; apply elem_of_app; auto. }
    exists b. split; [by eapply Hkeep|]. destruct Hba as (j & Hj & ->).
    exists j. by rewrite Hes.
Qed.

(** [cmpptr] orders what [compact_mem] sorts: the number of elements fits an [int], and so does the
    difference of any two of the addresses in the buffer, among them the null pointers it is filled up with. *)
Definition sortable (c : l_sfc) : Prop :=
  0 <= free_cnt c < 2 ^ 31 /\
  forall a b, a ∈ copy_to_sort_buff c (Z.to_nat (free_cnt c)) -> b ∈ copy_to_sort_buff c (Z.to_nat (free_cnt c)) -> a - b < 2 ^ 31.

Section Compact.
Context (qsort : (Z -> Z -> Z) -> list Z -> list Z) (Hqsort : qsort_contract qsort).

(** The sorted copy of the stack, for addresses whose difference fits an [int]. *)
Lemma sorted_buffer c live n :
  sfc_inv c live -> (forall a b, a ∈ copy_to_sort_buff c n -> b ∈ copy_to_sort_buff c n -> a - b < 2 ^ 31) ->
  let B := qsort cmpptr (copy_to_sort_buff c n) in
  length B = n /\ uniq_nz B /\ (forall k x, B !! k = Some x -> x = 0 \/ x ∈ stack c) /\
  (forall i j x y, (i <= j)%nat -> B !! i = Some x -> B !! j = Some y -> x <= y).
Proof.
  intros Hc Hsmall B.
  assert (forall x, x ∈ copy_to_sort_buff c n -> x = 0 \/ x ∈ stack c) as Hel.
  { intros x Hx. unfold copy_to_sort_buff in Hx. apply elem_of_app in Hx as [Hx|Hx].
    - right. by eapply elem_of_subseteq, Hx; apply subseteq_take.
    - left. by apply elem_of_replicate in Hx as [-> _]. }
  destruct (Hqsort cmpptr (copy_to_sort_buff c n)) as [Hperm Hsort].
  { intros a b Ha Hb. pose proof (Hsmall a b Ha Hb). pose proof (Hsmall b a Hb Ha).
    unfold cmpptr. rewrite swrap_small by lia. lia. }
  fold B in Hperm, Hsort. split_and!; [..|done].
  - by rewrite Hperm, length_copy_to_sort_buff.
  - apply uniq_nz_of_NoDup. rewrite Hperm. unfold copy_to_sort_buff. rewrite filter_app.
    assert (filter (fun x => x <> 0) (replicate (n - length (stack c)) 0) = []) as ->.
    { induction (n - length (stack c))%nat as [|k IH]; [done|]. simpl. by rewrite filter_cons, decide_False by auto. }
    rewrite app_nil_r. apply NoDup_filter.
    pose proof (inv_nodup _ _ Hc) as Hnd. apply NoDup_app in Hnd as (Hnd & _).
    rewrite <- (take_drop n (stack c)) in Hnd. by apply NoDup_app in Hnd as [? _].
  - intros k x Hx. apply Hel. rewrite <- Hperm. by eapply list_elem_of_lookup_2.
Qed.

(** What is left in the buffer after the scan. *)
Lemma scan_rest c live B i buf fb :
  sfc_inv c live -> uniq_nz B -> (forall k x, B !! k = Some x -> x = 0 \/ x ∈ stack c) ->
  scan_inv B (elems_per_block c) (elem_size c) i buf fb ->
  uniq_nz buf /\
  (forall x, x ∈ buf -> x <> 0 -> x ∈ stack c) /\
  (forall x b, x ∈ buf \/ x ∈ live -> x <> 0 -> b ∈ fb -> ~ chunk c b x).
Proof.
  intros Hc Hu Hin [_ _ Hzero Hfound]. split_and!.
  - intros k k' x Hx Hk Hk'. destruct (Hzero _ _ Hk), (Hzero _ _ Hk'); simplify_eq. by eapply Hu.
  - intros x Hx Hnz. apply list_elem_of_lookup_1 in Hx as [k Hk].
    destruct (Hzero _ _ Hk) as [|HB]; [done|]. by destruct (Hin _ _ HB).
  - intros x b Hx Hnz Hb (j & Hj & ->). destruct (Hfound b Hb) as [k0 Hk0].
    destruct (Hk0 (Z.to_nat j)) as [HB Hbuf]; [unfold elems_per_block; lia|].
    rewrite Z2Nat.id in HB by lia. destruct Hx as [Hx|Hx].
    + apply list_elem_of_lookup_1 in Hx as [k Hk]. destruct (Hzero _ _ Hk) as [|HB']; [done|].
      rewrite (Hu _ _ _ Hnz HB' HB) in Hk. congruence.
    + destruct (Hin _ _ HB) as [|Hs]; [done|].
      pose proof (inv_nodup _ _ Hc) as Hnd. apply NoDup_app in Hnd as (_ & Hdisj & _).
      by apply (Hdisj _ Hs).
Qed.

Lemma compact_mem_inv c live :
  sfc_inv c live -> sortable c ->
  exists c', compact_mem qsort c = Some c' /\ sfc_inv c' live /\ elem_size c' = elem_size c /\
    (forall b, b ∈ mem_blocks c' -> b ∈ mem_blocks c) /\
    (forall a, a ∈ stack c' -> a ∈ stack c).
Proof.
  intros Hc [Hcnt Hsmall]. pose proof (inv_elem _ _ Hc) as He. unfold compact_mem. rewrite swrap_small by lia.
  destruct (Z.ltb_spec (free_cnt c) 0); [lia|].
  set (elems := Z.to_nat (free_cnt c)) in *. set (n := elems_per_block c).
  destruct (sorted_buffer c live elems Hc Hsmall) as (Hlen & Hu & Hin & Hsort).
  set (B := qsort cmpptr (copy_to_sort_buff c elems)) in *.
  pose proof (sorted_run_of_block c live B Hc Hu Hin Hsort) as Hrun.
  destruct (scan_ok B n (elem_size c) (elems - n)%nat) with (fuel := elems) (i := 0%nat)
    (buf := B) (fb := @nil Z) as (buf & fb & i & -> & Hscan); [|lia|done|lia| |].
  { unfold n, elems_per_block. destruct (inv_div _ _ Hc) as [q Hq].
    rewrite Hq, Z.div_mul by lia. unfold L_SFC_MEM_BLOCK_SIZE in *. nia. }
  { constructor; [done|done|auto|set_solver]. }
  destruct (scan_rest c live B i buf fb Hc Hu Hin Hscan) as (Hub & Hst & Hdead). simpl.
  assert (forall m, NoDup (reverse (filter (fun x => x <> 0) (take m buf)))) as Hnd.
  { intros m. rewrite reverse_Permutation. apply NoDup_of_uniq_nz in Hub.
    rewrite <- (take_drop m buf), filter_app in Hub. by apply NoDup_app in Hub as [? _]. }
  assert (forall m a, a ∈ reverse (filter (fun x => x <> 0) (take m buf)) -> a ∈ buf /\ a <> 0) as Hrev.
  { intros m a Ha. apply elem_of_reverse, list_elem_of_filter in Ha as [Hnz Ha]. split; [|done].
    by eapply elem_of_subseteq, Ha; apply subseteq_take. }
  assert (forall a, a ∈ live -> a <> 0) as Hlive.
  { intros a Ha. destruct (inv_in _ _ Hc a) as (b & Hb & Hba); [set_solver|].
    pose proof (inv_blocks _ _ Hc b Hb). pose proof (inv_chunk_bounds _ _ _ _ Hc Hba). lia. }
  assert (forall c1, elem_size c1 = elem_size c -> (forall b, b ∈ mem_blocks c1 -> b ∈ mem_blocks c) ->
    (forall b, b ∈ mem_blocks c -> b ∉ fb -> b ∈ mem_blocks c1) ->
    free_cnt c1 <= free_cnt c ->
    exists c2, sort_stack c1 buf = Some c2 /\ sfc_inv c2 live /\ (forall a, a ∈ stack c2 -> a ∈ stack c) /\ c2 = c1 <| stack := stack c2 |>) as Hdone.
  { intros c1 Hes Hsub Hkeep Hfc. unfold sort_stack. rewrite (sc_len _ _ _ _ _ _ Hscan), Hlen.
    destruct (Z.ltb_spec (Z.of_nat elems) (free_cnt c1)); [lia|]. eexists. split; [done|].
    cbn [stack]. rewrite sort_stack_eq, app_nil_r.
    assert (forall a, a ∈ reverse (filter (fun x => x <> 0) (take (Z.to_nat (free_cnt c1)) buf)) ->
      a ∈ stack c) as Hs by (intros a Ha; apply Hrev in Ha as [? ?]; by apply Hst).
    split; [|by split]. apply (sfc_inv_shrink c); simpl; [done..|apply Hnd|done|].
    intros a b Ha Hb Hab. apply Hkeep; [done|]. intros Hbf.
    apply elem_of_app in Ha as [Ha|Ha]; [apply Hrev in Ha as [? ?]|]; apply (Hdead a b); auto. }
  destruct (Z.eqb_spec (Z.of_nat (length fb)) 0) as [Hfb|Hfb].
  { rewrite bind_Some. destruct (Hdone c) as (c2 & -> & ? & ? & Ec); [done|done|done|lia|].
    exists c2. split_and!; [done|done|by rewrite Ec|by rewrite Ec|done]. }
  assert (forall b, b ∈ filter (fun b => b ∉ fb) (mem_blocks c) -> b ∈ mem_blocks c) as Hsub
    by (intros b Hb; by apply list_elem_of_filter in Hb as [_ ?]).
  assert (forall b, b ∈ mem_blocks c -> b ∉ fb -> b ∈ filter (fun b => b ∉ fb) (mem_blocks c)) as Hkeep
    by (intros b Hb Hf; by apply list_elem_of_filter).
  match goal with |- context [sort_stack ?c1 buf] => destruct (Hdone c1) as (c2 & -> & _ & _ & Ec2); [done|done|done|simpl; lia|] end.
  rewrite Ec2, !bind_Some. cbn [elem_size alloc_cnt free_cnt].
  assert (0 <= Z.of_nat (length fb) * L_SFC_MEM_BLOCK_SIZE / elem_size c) as Hd
    by (apply Z.div_pos; unfold L_SFC_MEM_BLOCK_SIZE; lia).
  match goal with |- context [sort_stack ?c1 buf] => destruct (Hdone c1) as (c3 & -> & ? & ? & Ec3); [done|done|done|simpl; lia|] end.
  exists c3. split_and!; [done|done|by rewrite Ec3|rewrite Ec3; exact Hsub|done].
Qed.

End Compact.

(** ** [__l_free] *)

(** A release that compacts, compacts a class that [cmpptr] can sort. *)
Definition release_sortable (sfp : l_sfp) (i : nat) (p : Z) : Prop :=
  forall c, sfp !! i = Some c -> compacts (freed c p) = true -> sortable (freed c p).

Lemma live_not_null sfp live i p l :
  sfp_inv sfp live -> live !! i = Some l -> p ∈ l -> p <> 0.
Proof.
  intros Hinv Hl Hp. destruct (lookup_lt_is_Some_2 sfp i) as [c Hc].
  { rewrite <- (inv_len _ _ Hinv). by eapply lookup_lt_Some. }
  pose proof (inv_classes _ _ Hinv _ _ _ Hc Hl) as Hci.
  destruct (inv_in _ _ Hci p) as (b & Hb & Hbp); [set_solver|].
  pose proof (inv_blocks _ _ Hci b Hb). pose proof (inv_chunk_bounds _ _ _ _ Hci Hbp). lia.
Qed.

(** Putting a live element back on the stack. *)
Lemma push_inv c l1 p l2 :
  sfc_inv c (l1 ++ p :: l2) -> sfc_inv (c <| stack := l_stack_push (stack c) p |>) (l1 ++ l2).
Proof.
  intros [He Hd Hb Hnd Hin].
  assert (forall s, s ++ l1 ++ p :: l2 ≡ₚ (p :: s) ++ l1 ++ l2) as Hperm.
  { intros s. simpl. by rewrite <- !Permutation_middle. }
  constructor; simpl; [done|done|done| |].
  - change (NoDup ((p :: stack c) ++ l1 ++ l2)). by rewrite <- Hperm.
  - intros a Ha. apply Hin. rewrite Hperm. done.
Qed.

Lemma l_free_inv qsort sfp live size i l1 p l2 :
  qsort_contract qsort -> sfp_inv sfp live -> release_sortable sfp i p ->
  0 <= size <= L_SFC_MAX_ELEM_SIZE -> class_of sfp size = Some i ->
  live !! i = Some (l1 ++ p :: l2) ->
  exists sfp', l_free qsort sfp size p = Some sfp' /\ sfp_inv sfp' (<[i := l1 ++ l2]> live).
Proof.
  intros Hq Hinv Hsort Hsz Hi Hl. destruct (lookup_lt_is_Some_2 sfp i) as [c Hc].
  { rewrite <- (inv_len _ _ Hinv). by eapply lookup_lt_Some. }
  pose proof (inv_classes _ _ Hinv _ _ _ Hc Hl) as Hci.
  unfold l_free. destruct (Z.ltb_spec L_SFC_MAX_ELEM_SIZE size); [lia|].
  rewrite Hi, bind_Some, Hc, bind_Some.
  assert (sfc_inv (freed c p) (l1 ++ l2)) as Hc1.
  { destruct (push_inv _ _ _ _ Hci). by constructor. }
  destruct (compacts (freed c p)) eqn:Hcp.
  - destruct (compact_mem_inv qsort Hq _ _ Hc1 (Hsort _ Hc Hcp)) as (c2 & -> & Hc2 & He & Hb & _).
    rewrite !bind_Some. eexists. split; [done|]. eapply sfp_update_inv; [done..| | |].
    + destruct Hc2. by constructor.
    + exact He.
    + intros b Hb2. left. by apply Hb.
  - rewrite bind_Some. eexists. split; [done|]. eapply sfp_update_inv; [done..| |]; [done|]. intros b Hb. by left.
Qed.

(** ** Histories of the pool *)

(** A client allocates elements and gives back elements it holds, with the size
    it asked for; [live] records what it holds, per class.  A block may lie anywhere; only a release
    that compacts finds addresses that [cmpptr] orders. *)
Inductive pool_step (qsort : (Z -> Z -> Z) -> list Z -> list Z) :
    l_sfp * list (list Z) -> l_sfp * list (list Z) -> Prop :=
  | step_alloc sfp live sys size i l p sfp' :
      0 <= size <= L_SFC_MAX_ELEM_SIZE -> fresh_block sfp sys ->
      class_of sfp size = Some i -> live !! i = Some l -> l_alloc sys sfp size = Some (p, sfp') ->
      pool_step qsort (sfp, live) (sfp', <[i := p :: l]> live)
  | step_free sfp live size i l1 p l2 sfp' :
      0 <= size <= L_SFC_MAX_ELEM_SIZE ->
      class_of sfp size = Some i -> live !! i = Some (l1 ++ p :: l2) -> release_sortable sfp i p ->
      l_free qsort sfp size p = Some sfp' ->
      pool_step qsort (sfp, live) (sfp', <[i := l1 ++ l2]> live).

Definition pool_init : l_sfp * list (list Z) := (l_mem_init, replicate L_SFP_ARRAY_LEN []).

Lemma init_class i c :
  pool_init.1 !! i = Some c ->
  0 < elem_size c < L_SFC_MEM_BLOCK_SIZE /\ (elem_size c | L_SFC_MEM_BLOCK_SIZE) /\
  mem_blocks c = [] /\ stack c = [].
Proof.
  unfold L_SFC_MEM_BLOCK_SIZE.
  destruct i as [|[|[|[|[|[|i]]]]]]; simpl; intros Hc; simplify_eq/=;
    (split_and!; [by vm_compute|by vm_compute| |done|done]).
  - by exists 32768.
  - by exists 16384.
  - by exists 8192.
  - by exists 4096.
  - by exists 2048.
  - by exists 1024.
Qed.

Lemma init_inv : sfp_inv pool_init.1 pool_init.2.
Proof.
  constructor; [done|done| |].
  - intros i c l Hc Hl. unfold pool_init in Hl. cbn [snd] in Hl. apply lookup_replicate in Hl as [-> _].
    destruct (init_class _ _ Hc) as (? & ? & Hb & Hs).
    constructor; rewrite ?Hb, ?Hs; [done|done|set_solver|constructor|set_solver].
  - intros i j c d b Hc _ Hb. destruct (init_class _ _ Hc) as (_ & _ & Hm & _). rewrite Hm in Hb. set_solver.
Qed.

Lemma pool_reachable_inv qsort s :
  qsort_contract qsort -> star (pool_step qsort) pool_init s -> sfp_inv s.1 s.2.
Proof.
  intros Hq Hst. apply (star_invariant _ (fun s => sfp_inv s.1 s.2)) in Hst; [done| |apply init_inv].
  intros a b Hinv Hstep. destruct Hstep as
    [sfp live sys size i l p sfp' Hsz Hf Hi Hl Ha|sfp live size i l1 p l2 sfp' Hsz Hi Hl Hso Hfr]; simpl in *.
  - destruct (l_alloc_inv sys sfp live size) as (p' & ? & i' & c & l' & Ha' & Hi' & Hc & _ & Hl' & _ & Hinv'); [done..|].
    by simplify_eq.
  - destruct (l_free_inv qsort sfp live size i l1 p l2) as (? & Hfr' & ?); [done..|]. by simplify_eq.
Qed.

(** ** A sorting routine that meets the contract *)

Fixpoint insert_by (cmp : Z -> Z -> Z) (x : Z) (l : list Z) : list Z :=
  match l with
  | [] => [x]
  | y :: l' => if cmp x y <=? 0 then x :: l else y :: insert_by cmp x l'
  end.

Definition insertion_sort (cmp : Z -> Z -> Z) (l : list Z) : list Z := foldr (insert_by cmp) [] l.

Lemma insert_by_perm cmp x l : insert_by cmp x l ≡ₚ x :: l.
Proof.
  induction l as [|y l IH]; simpl; [done|]. destruct (_ <=? _); [done|].
  by rewrite IH, Permutation_swap.
Qed.

Lemma insertion_sort_perm cmp l : insertion_sort cmp l ≡ₚ l.
Proof. induction l as [|x l IH]; simpl; [done|]. by rewrite insert_by_perm, IH. Qed.

Lemma insert_by_sorted cmp x l :
  (forall y, y ∈ l -> (cmp x y < 0 <-> x < y) /\ (cmp x y = 0 <-> x = y)) ->
  StronglySorted Z.le l -> StronglySorted Z.le (insert_by cmp x l).
Proof.
  induction l as [|y l IH]; intros Hc Hs; simpl; [repeat constructor|].
  apply StronglySorted_inv in Hs as [Hs Hy]. destruct (Z.leb_spec (cmp x y) 0) as [Hle|Hgt].
  - destruct (Hc y) as [? ?]; [set_solver|]. assert (x <= y) by lia. constructor; [by constructor|].
    constructor; [done|]. eapply Forall_impl; [done|]. simpl. lia.
  - destruct (Hc y) as [? ?]; [set_solver|]. constructor; [apply IH; [set_solver|done]|].
    rewrite insert_by_perm. constructor; [lia|done].
Qed.

Lemma insertion_sort_contract : qsort_contract insertion_sort.
Proof.
  intros cmp l Hcmp. split; [apply insertion_sort_perm|].
  assert (StronglySorted Z.le (insertion_sort cmp l)) as Hs.
  { induction l as [|x l IH]; simpl; [constructor|]. apply insert_by_sorted.
    - intros y Hy. rewrite insertion_sort_perm in Hy. apply Hcmp; set_solver.
    - apply IH. intros; apply Hcmp; set_solver. }
  revert Hs. generalize (insertion_sort cmp l). clear l Hcmp. intros l Hs.
  induction Hs as [|z l Hs IH Hz]; intros i j x y Hij Hi Hj; [done|].
  destruct i as [|i], j as [|j]; simplify_eq/=; [lia| |lia|eapply (IH i j); eauto; lia].
  eapply Forall_forall in Hz; [|by eapply list_elem_of_lookup_2]. done.
Qed.

(** ** Properties *)

(** A pool from which two elements of 200 bytes were taken. *)
Definition pool1 : l_sfp := default [] (snd <$> l_alloc 262144 l_mem_init 200).
Definition pool2 : l_sfp := default [] (snd <$> l_alloc 524288 pool1 200).

Lemma fresh_by_blocks sfp m bs :
  mem_blocks <$> sfp = bs -> 0 < m -> m mod L_SFC_MEM_BLOCK_SIZE = 0 -> m ∉ mjoin bs -> fresh_block sfp m.
Proof.
  intros <- Hm Hal Hn. split_and!; [done|done|]. intros i c Hc Hin. apply Hn, list_elem_of_join.
  exists (mem_blocks c). split; [done|]. apply list_elem_of_fmap. eauto using list_elem_of_lookup_2.
Qed.

Lemma pool1_reachable :
  star (pool_step insertion_sort) pool_init (pool1, [[]; []; []; []; []; [524032]]).
Proof.
  apply star_one. change [[]; []; []; []; []; [524032]] with (<[5%nat := [524032]]> pool_init.2).
  eapply (step_alloc _ _ _ 262144 200 5 []); [vm_compute; split; discriminate| |done..|].
  - by apply (fresh_by_blocks _ _ [[]; []; []; []; []; []]); [done..|set_solver].
  - vm_compute. reflexivity.
Qed.

Lemma pool2_reachable :
  star (pool_step insertion_sort) pool_init (pool2, [[]; []; []; []; []; [523776; 524032]]).
Proof.
  eapply star_snoc; [apply pool1_reachable|].
  change [[]; []; []; []; []; [523776; 524032]] with
    (<[5%nat := [523776; 524032]]> [[]; []; []; []; []; [524032]]).
  eapply (step_alloc _ _ _ 524288 200 5 [524032]); [vm_compute; split; discriminate| |by vm_compute|done|].
  - apply (fresh_by_blocks _ _ [[]; []; []; []; []; [262144]]); [by vm_compute|done|done|set_solver].
  - vm_compute. reflexivity.
Qed.

(** C16: in every history of allocations and releases through the pool, the elements a client holds never
    overlap: the byte ranges [[a, a + elem_size)] of two distinct live elements are disjoint.  Blocks may lie
    anywhere in the address space.  Compactions are included under one condition: when a release compacts, the
    class has fewer than 2^31 free elements and any two of the addresses sorted, among them the null pointers that
    fill up the buffer, are less than 2 GB apart, because [cmpptr] keeps only 32 bits of their difference (without it
    [compaction_frees_live_block] shows a block with live elements being freed). *)
Theorem pool_live_disjoint qsort sfp live i j c d l l' a a' :
  qsort_contract qsort -> star (pool_step qsort) pool_init (sfp, live) ->
  sfp !! i = Some c -> sfp !! j = Some d -> live !! i = Some l -> live !! j = Some l' ->
  a ∈ l -> a' ∈ l' -> (i, a) <> (j, a') ->
  a + elem_size c <= a' \/ a' + elem_size d <= a.
Proof.
  intros Hq Hst. apply pool_reachable_inv in Hst as Hinv; [|done]. by apply live_disjoint.
Qed.

Lemma pool_live_disjoint_witness : 523776 + 256 <= 524032 \/ 524032 + 256 <= 523776.
Proof.
  destruct (pool2 !! 5%nat) as [c|] eqn:Hc; [|by vm_compute in Hc].
  assert (elem_size <$> (pool2 !! 5%nat) = Some 256) as He by by vm_compute.
  rewrite Hc in He. apply (inj Some) in He.
  pose proof (pool_live_disjoint insertion_sort pool2 _ 5 5 c c _ _ 523776 524032
    insertion_sort_contract pool2_reachable Hc Hc eq_refl eq_refl) as Hd.
  rewrite He in Hd. clear Hc He. apply Hd; [set_solver|set_solver|done].
Defined.

(** C34: from every reachable pool a request of at most 256 bytes is served: the
    element is not null, was not live, lies in a class whose elements are
    large enough, and wastes less than half of the element unless the class is the
    smallest.  Releasing an element that is live returns and makes it available again without touching the other
    live elements, when it does not compact, and when it compacts a class with fewer than 2^31 free elements
    whose addresses, and the null pointers that fill up the buffer, are less than 2 GB apart, which is all that [cmpptr]
    can order.  The pools reached are those of histories whose compactions, if any, meet that condition. *)
Theorem pool_alloc_free_total qsort sfp live size sys :
  qsort_contract qsort -> star (pool_step qsort) pool_init (sfp, live) ->
  0 <= size <= L_SFC_MAX_ELEM_SIZE -> fresh_block sfp sys ->
  exists i c l p sfp', class_of sfp size = Some i /\ sfp !! i = Some c /\ live !! i = Some l /\
    l_alloc sys sfp size = Some (p, sfp') /\ p <> 0 /\ p ∉ l /\
    size <= elem_size c /\ (i = 0%nat \/ elem_size c < 2 * size) /\
    star (pool_step qsort) pool_init (sfp', <[i := p :: l]> live) /\
    forall l1 q l2, live !! i = Some (l1 ++ q :: l2) -> release_sortable sfp i q ->
      exists sfp'', l_free qsort sfp size q = Some sfp'' /\
        star (pool_step qsort) pool_init (sfp'', <[i := l1 ++ l2]> live).
Proof.
  intros Hq Hst Hsz Hf. pose proof (pool_reachable_inv qsort _ Hq Hst) as Hinv.
  destruct (class_of_spec sfp size (inv_sizes _ _ Hinv) Hsz) as (i & c & Hi & Hc & _ & Hle & Hw).
  destruct (l_alloc_inv sys sfp live size Hinv Hsz Hf) as
    (p & sfp' & i' & c' & l & Ha & Hi' & Hc' & _ & Hl & Hpl & Hinv'). simplify_eq.
  pose proof (star_snoc _ _ _ _ Hst (step_alloc qsort sfp live sys size i l p sfp' Hsz Hf Hi Hl Ha)) as Hst'.
  exists i, c, l, p, sfp'. split_and!; try done.
  { eapply (live_not_null _ _ i p (p :: l) Hinv'); [|set_solver].
    rewrite list_lookup_insert_eq; [done|]. by eapply lookup_lt_Some. }
  intros l1 q l2 Hlq Hso. destruct (l_free_inv qsort sfp live size i l1 q l2) as (sfp'' & Hfr & _); [done..|].
  exists sfp''. split; [done|]. eapply star_snoc; [exact Hst|]. by eapply step_free.
Qed.

Lemma pool_alloc_free_total_witness :
  exists p sfp', l_alloc 524288 pool2 64 = Some (p, sfp') /\ p <> 0.
Proof.
  destruct (pool_alloc_free_total insertion_sort pool2 _ 64 524288 insertion_sort_contract pool2_reachable)
    as (i & c & l & p & sfp' & _ & _ & _ & Ha & Hp & _).
  - vm_compute. split; discriminate.
  - apply (fresh_by_blocks _ _ [[]; []; []; []; []; [262144]]); [by vm_compute|done|done|set_solver].
  - exists p, sfp'. split; [exact Ha|exact Hp].
Defined.

(** [cmpptr] keeps only the low 32 bits of the difference of the two
    addresses: there are addresses it calls equal although they are 4 GB
    apart, and addresses it orders the wrong way round. *)
Theorem cmpptr_truncates :
  exists a b c, 0 < a < b /\ a < c /\ cmpptr b a = 0 /\ cmpptr c a < 0.
Proof. exists 1, (1 + 2 ^ 32), (1 + 2 ^ 31). vm_compute. auto. Qed.

(** A compaction at work: seventeen blocks of two elements each, all free but one element of the first block;
    all blocks but the first and the last, which the bound of the loop leaves out, are given back. *)
Definition compactable : l_sfc :=
  mkSfc ((fun k => Z.of_nat k * 131072) <$> seq 3 33) ((fun k => Z.of_nat k * 262144) <$> seq 1 17) 131072 17 34 34 262144.

Example compaction_frees_blocks :
  compacts compactable = true /\ sortable compactable /\
  (fun c => (stack c, mem_blocks c, blocks_cnt c, alloc_cnt c)) <$> compact_mem insertion_sort compactable =
    Some ([393216], [262144; 4456448], 2, 4).
Proof.
  split_and!; [by vm_compute| |by vm_compute]. split; [by vm_compute|].
  assert (Forall (fun x => 0 <= x < 2 ^ 31) (copy_to_sort_buff compactable (Z.to_nat (free_cnt compactable)))) as H
    by (repeat constructor; by vm_compute).
  intros a b Ha Hb. rewrite Forall_forall in H. apply H in Ha, Hb. lia.
Qed.

(** A class with one block 4 GB above another: two elements of the first block, the second and the third,
    are in use, the same elements of the other block are free. *)
Definition far_apart : l_sfc :=
  mkSfc [262144; 262144 + 2 ^ 32 + 65536; 262144 + 2 ^ 32 + 131072; 262144 + 196608; 2 ^ 31]
    [262144; 262144 + 2 ^ 32; 2 ^ 31] 65536 3 12 5 0.

(** The free elements of the far block sort between the first and the last element of the near one, which
    is then taken for free: compaction gives back a block with live elements. *)
Theorem compaction_frees_live_block :
  sfc_inv far_apart [327680; 393216] /\ chunk far_apart 262144 327680 /\
  exists c, compact_mem insertion_sort far_apart = Some c /\ 262144 ∉ mem_blocks c.
Proof.
  assert (chunk far_apart 262144 327680) as Hch by (by exists 1).
  split_and!; [|done|].
  - constructor; [by vm_compute|by exists 4| | |].
    + assert (Forall (fun b => 0 < b /\ b mod L_SFC_MEM_BLOCK_SIZE = 0) (mem_blocks far_apart)) as H
        by (repeat constructor; by vm_compute). by rewrite Forall_forall in H.
    + apply (bool_decide_unpack _); by vm_compute.
    + assert (Forall (fun a => exists b, b ∈ mem_blocks far_apart /\ chunk far_apart b a) (stack far_apart ++ [327680; 393216])) as H;
        [|by rewrite Forall_forall in H].
      repeat apply Forall_cons_2; [exists 262144|exists (262144 + 2 ^ 32)|exists (262144 + 2 ^ 32)|exists 262144|exists (2 ^ 31)
        |exists 262144|exists 262144|constructor];
        (split; [simpl; set_solver|]); [by exists 0|by exists 1|by exists 2|by exists 3|by exists 0|by exists 1|by exists 2].
  - eexists. split; [by vm_compute|]. apply (bool_decide_unpack _); by vm_compute.
Qed.

(** When the counters are right the blocks of all classes are given back, each once. *)
Lemma l_mem_destroy_all sfp :
  Forall (fun c => blocks_cnt c = Z.of_nat (length (mem_blocks c))) sfp -> l_mem_destroy sfp = Some (mjoin (mem_blocks <$> sfp)).
Proof.
  intros H. unfold l_mem_destroy. assert (mapM (fun c => mapM (fun j => mem_blocks c !! j) (seq 0 (Z.to_nat (blocks_cnt c)))) sfp =
    Some (mem_blocks <$> sfp)) as ->; [|done].
  apply mapM_Some. induction H as [|c cs Hc _ IH]; constructor; [|exact IH].
  rewrite Hc, Nat2Z.id. apply mapM_Some. apply Forall2_same_length_lookup. split; [by rewrite length_seq|].
  intros i x y Hx Hy. by apply lookup_seq in Hx as [-> _].
Qed.

End Pool.
