(* ===== verification/Protocol.v ===== *)
(** * The MySQL wire protocol: src/mysql_protocol.c

    Packets ([pkt]) are a length and a heap block.  A packet builder takes the
    unknown contents of the block that [l_alloc] returns ([junk]) and answers
    [None] when it would write outside of the block.  A packet parser answers
    [None] when it would read outside of the bytes it is given.

    The three parts are the packet builders and the length-encoded integers,
    the classification of server responses, and the native-password
    authentication ([sha1], from GLib, is an argument). *)
From S2P Require Import Prelude.
Open Scope Z_scope.

(** ** Packets *)

Definition sizeof_mysql_hdr : nat := 4.

Record pkt := mkPkt { length_of : nat; data : list byte }.
#[export] Instance pkt_eq_decision : EqDecision pkt.
Proof. solve_decision. Defined.

(** [mysql_hdr]: [u_int pkt_length:24, pkt_id:8], little endian. *)
Record mysql_hdr := mkHdr { pkt_length : Z; pkt_id : Z }.

Definition hdr_bytes (h : mysql_hdr) : list byte := le_split 3 (pkt_length h) ++ le_split 1 (pkt_id h).

Definition hdr_of_bytes (d : list byte) : option mysql_hdr :=
  l ← mem_read 0 3 d; i ← mem_read 3 1 d; Some (mkHdr (le_combine l) (le_combine i)).

(** The pattern of all builders: [myhdr.pkt_length] is assigned [len] (24 bits
    of it), the packet is given [pkt_length + 4] bytes, the header and then
    the fields are written. *)
Definition build (alloc : nat -> list byte) (len id : Z) (ws : list wr) : option pkt :=
  let n := (Z.to_nat (u24 len) + sizeof_mysql_hdr)%nat in
  d ← writes (W (hdr_bytes (mkHdr (u24 len) (u8 id))) :: ws) 0 (alloc n);
  Some (mkPkt n d).

Definition zeros (n : nat) : list byte := replicate n Byte.x00.

(** ** Length-encoded integers *)

Definition lencint (v : Z) : Z :=
  if v <? 251 then 1
  else if (251 <=? v) && (v <? 65536) then 3
  else if (65536 <=? v) && (v <? 16777216) then 4
  else if 16777216 <=? v then 9 else 9.

(** [char c8=v; if (c8<251) {return c8;}] converts a signed [char]. *)
Definition lencint_unknown (v : Z) : Z :=
  let c8 := swrap 8 v in
  if c8 <? 251 then u64 c8 else
  let c32 := u24 v in
  if (251 <=? c32) && (c32 <? 65536) then c32 else
  let c32 := u32 v in
  if (65536 <=? c32) && (c32 <? 16777216) then c32 else v.

(** The bytes [writeencint] stores; it returns their number. *)
Definition writeencint (v : Z) : list byte :=
  let l := lencint v in
  (if l =? 1 then le_split 1 v else []) ++
  (if l =? 3 then [Byte.xfc] ++ le_split 2 v else []) ++
  (if l =? 4 then [Byte.xfd] ++ le_split 3 v else []) ++
  (if l =? 9 then [Byte.xfe] ++ le_split 8 v else []).

(** [over] are the four bytes that follow the [int l] on the stack. *)
Definition writeencstrnull (over : list byte) (s : option (list byte)) : list wr :=
  match s with
  | None => [W [Byte.xfb]]
  | Some s =>
      let l := Z.of_nat (length s) in
      let el := lencint l in
      (if el =? 1 then [W (le_split 1 l)] else []) ++
      (if el =? 3 then [W [Byte.xfc]; W (le_split 2 l)] else []) ++
      (if el =? 4 then [W [Byte.xfd]; Skip 3] else []) ++
      (if el =? 9 then [W [Byte.xfe]; W (le_split 4 l ++ over)] else []) ++
      [W s]
  end.

(** ** Packet builders *)

Section Builders.
Context (junk : nat -> byte).

Definition create_ok_packet (id : Z) : option pkt :=
  build (block junk) 7 id
    [W [Byte.x00; Byte.x00; Byte.x00; Byte.x02; Byte.x00; Byte.x00; Byte.x00]].

Definition create_err_packet (id errcode : Z) (errstr : list byte) : option pkt :=
  build (block junk) (3 + Z.of_nat (length errstr)) id
    [W [Byte.xff]; W (le_split 2 errcode); W errstr].

Definition myproto_ok_pkt (id affected_rows last_insert_id status warnings : Z) : option pkt :=
  build (block junk) (1 + lencint affected_rows + lencint last_insert_id + 2 + 2) id
    [W [Byte.x00]; W (writeencint affected_rows); W (writeencint last_insert_id);
     W (le_split 2 status); W (le_split 2 warnings)].

Definition myproto_column_count (id cnt : Z) : option pkt :=
  build (block junk) (lencint cnt) id [W (writeencint cnt)].

Definition myproto_column_def (over : list byte) (id : Z) (schema table org_table name org_name : list byte)
    (column_length column_type flags decimals : Z) : option pkt :=
  let sz (s : list byte) := lencint (Z.of_nat (length s)) + Z.of_nat (length s) in
  build (block junk)
    (4 + sz schema + sz table + sz org_table + sz name + sz org_name + (1 + 2) + 4 + 1 + 2 + 1 + 2) id
    ([W [Byte.x03; Byte.x64; Byte.x65; Byte.x66]] ++
     writeencstrnull over (Some schema) ++ writeencstrnull over (Some table) ++
     writeencstrnull over (Some org_table) ++ writeencstrnull over (Some name) ++
     writeencstrnull over (Some org_name) ++
     [W [Byte.x0c; Byte.x21; Byte.x00]; W (le_split 4 column_length); W (le_split 1 column_type);
      W (le_split 2 flags); W (le_split 1 decimals); W [Byte.x00; Byte.x00]]).

Definition myproto_eof (id warning_count status_flags : Z) : option pkt :=
  build (block junk) 5 id [W [Byte.xfe]; W (le_split 2 warning_count); W (le_split 2 status_flags)].

Definition MYSQL_COM_QUERY : byte := Byte.x03.

(** The old block is given back to the pool; [len] is -1 for a C string. *)
Definition mysql_new_payload_select (payload : list byte) (len : Z) : option pkt :=
  n ← (if len =? -1 then strlen payload else Some (Z.to_nat len));
  p ← mem_read 0 n payload;
  build (block junk) (Z.of_nat n + 1) 0 [W [MYSQL_COM_QUERY]; W p].

(** The blocks of [create_auth_switch_request_packet] and of the handshake are
    zeroed ([l_alloc0]). *)
Definition create_auth_switch_request_packet (scramble_buf : list byte) : option pkt :=
  s ← mem_read 0 20 scramble_buf;
  build zeros (1 + (21 + 1) + 20 + 1) 1
    [W [Byte.xfe]; W (c_lit "mysql_native_password"); W [Byte.x00]; W s; W [Byte.x00]].

End Builders.

(** ** Server responses *)

Inductive MySQL_response_type := OK_Packet | ERR_Packet | EOF_Packet | UNKNOWN_Packet.
#[export] Instance MySQL_response_type_eq_decision : EqDecision MySQL_response_type.
Proof. solve_decision. Defined.

Definition mysql_response (p : pkt) : option MySQL_response_type :=
  c ← data p !! sizeof_mysql_hdr;
  Some (if uc c =? 0 then OK_Packet
        else if uc c =? 255 then ERR_Packet
        else if (uc c =? 254) && (u64 (Z.of_nat (length_of p) - 4) <? 9) then EOF_Packet
        else UNKNOWN_Packet).

(** [beyond] is what follows the packet's block in memory: the eight-byte reads
    of the OK branch may reach it. *)
Definition status_flags (beyond : list byte) (p : pkt) : option Z :=
  c ← mysql_response p;
  let mem := data p ++ beyond in
  let offset := (1 + sizeof_mysql_hdr)%nat in
  match c with
  | OK_Packet =>
      v ← mem_read offset 8 mem;
      let offset := (offset + Z.to_nat (lencint (lencint_unknown (le_combine v))))%nat in
      v ← mem_read offset 8 mem;
      let offset := (offset + Z.to_nat (lencint (lencint_unknown (le_combine v))))%nat in
      status ← mem_read offset 2 mem;
      Some (le_combine status)
  | EOF_Packet =>
      status ← mem_read (offset + 2)%nat 2 mem;
      Some (le_combine status)
  | _ => Some 0
  end.

Definition SERVER_STATUS_IN_TRANS : Z := 1.

Definition is_transaction_active (beyond : list byte) (p : pkt) : option bool :=
  status ← status_flags beyond p;
  Some (Z.land status SERVER_STATUS_IN_TRANS =? SERVER_STATUS_IN_TRANS).

(** ** Random strings *)

Record rand_struct := mkRand { seed1 : Z; seed2 : Z; max_value : Z }.

(** [proxy_my_rnd] answers [seed1 / max_value_dbl] as a double; the caller only
    uses the integer part of that double times 94, plus 33.  [max_value] is
    [2^30-1], which is coprime to 94, so the exact quotient times 94 is either 0
    or at least [1/max_value] away from an integer and the double has the
    same integer part as the exact quotient. *)
Definition proxy_my_rnd (r : rand_struct) : rand_struct :=
  let s1 := u64 (seed1 r * 3 + seed2 r) mod max_value r in
  let s2 := u64 (s1 + seed2 r + 33) mod max_value r in
  mkRand s1 s2 (max_value r).

Definition rnd_char (r : rand_struct) : byte := byte.of_Z (seed1 r * 94 / max_value r + 33).

Fixpoint random_chars (length : nat) (r : rand_struct) : list byte * rand_struct :=
  match length with
  | O => ([], r)
  | S n => let r := proxy_my_rnd r in
           let '(cs, r') := random_chars n r in (rnd_char r :: cs, r')
  end.

(** [to] is the offset into the buffer [d]; a NUL is stored after the characters. *)
Definition proxy_create_random_string (to length : nat) (r : rand_struct) (d : list byte)
  : option (list byte * rand_struct) :=
  let '(cs, r) := random_chars length r in
  d ← mem_write to (cs ++ [Byte.x00]) d; Some (d, r).

(** ** The handshake *)

Record glovars_server := mkServerVars {
  protocol_version : Z; mysql_server_version : list byte; server_capabilities : Z;
  server_language : Z; server_status_var : Z }.

(** [if (scramble_buf[i]==0) scramble_buf[i]='a'] on the cells from [i], [n] of them. *)
Definition nul_to_a (i n : nat) (d : list byte) : list byte :=
  take i d ++ ((fun b => if decide (b = Byte.x00) then Byte.x61 else b) <$> take n (drop i d)) ++
  drop (i + n) d.

(** [r1], [r2] are the two results of [rand()]; [thread_id] is [pthread_self()]. *)
Definition create_handshake_packet (g : glovars_server) (thread_id r1 r2 : Z) (scramble_buf : list byte)
  : option (pkt * list byte) :=
  let maxv := 0x3FFFFFFF in
  let rand_st := mkRand (r1 mod maxv) (r2 mod maxv) maxv in
  '(sb, rand_st) ← proxy_create_random_string 0 8 rand_st scramble_buf;
  let sb1 := nul_to_a 0 8 sb in
  s1 ← mem_read 0 8 sb1;
  '(sb2, _) ← proxy_create_random_string 8 12 rand_st sb1;
  let sb2 := nul_to_a 8 12 sb2 in
  s2 ← mem_read 8 12 sb2;
  p ← build zeros (1 + (Z.of_nat (length (mysql_server_version g)) + 1) + 4 + 8 + 1 + 2 + 1 + 2 + 3 + 10 + 12 + 1
                   + (21 + 1)) 0
    [W (le_split 1 (protocol_version g)); W (mysql_server_version g); Skip 1;
     W (le_split 4 thread_id); W s1; Skip 1;
     W (le_split 2 (server_capabilities g)); W (le_split 1 (server_language g));
     W (le_split 2 (server_status_var g)); W [Byte.x0f; Byte.x80; Byte.x15]; Skip 10;
     W s2; Skip 1; W (c_lit "mysql_native_password")];
  Some (p, sb2).

(** ** Users and passwords *)

Record user_table := mkUsers {
  proxy_admin_user : list byte; proxy_admin_password : list byte;
  proxy_monitor_user : list byte; proxy_monitor_password : list byte;
  usernames : gmap (list byte) (list byte) }.

Definition user_password (u : user_table) (username : list byte) (admin : Z) : option (list byte) :=
  if admin =? 1 then
    if strncmp username (proxy_admin_user u) (length (proxy_admin_user u)) =? 0
    then Some (proxy_admin_password u) else None
  else if admin =? 2 then
    if strncmp username (proxy_monitor_user u) (length (proxy_monitor_user u)) =? 0
    then Some (proxy_monitor_password u) else None
  else usernames u !! username.

(** The fields of a session that authentication reads and writes. *)
Record auth := mkAuth {
  mysql_username : option (list byte);
  mysql_password : option (list byte);
  mysql_schema_cur : option (list byte);
  scramble_buf : list byte;
  admin : Z;
  waiting_change_user_response : bool
}.
#[export] Instance auth_eta : Eta auth := fun a =>
  mkAuth (mysql_username a) (mysql_password a) (mysql_schema_cur a) (scramble_buf a) (admin a)
    (waiting_change_user_response a).

(** ** The native-password reply *)

Definition SHA_DIGEST_LENGTH : nat := 20.
Definition SCRAMBLE_LENGTH : nat := 20.

Definition xor_byte (a b : byte) : byte := byte.of_Z (Z.lxor (uc a) (uc b)).

Section Auth.
Context (sha1 : list byte -> list byte).

Definition proxy_compute_sha1_hash (buf : list byte) : list byte := sha1 buf.
Definition proxy_compute_sha1_hash_multi (buf1 buf2 : list byte) : list byte := sha1 (buf1 ++ buf2).

Definition proxy_compute_two_stage_sha1_hash (password : list byte) : list byte * list byte :=
  let hash_stage1 := proxy_compute_sha1_hash password in
  let hash_stage2 := proxy_compute_sha1_hash (take SHA_DIGEST_LENGTH hash_stage1) in
  (hash_stage1, hash_stage2).

Definition proxy_my_crypt (s1 s2 : list byte) (len : nat) : list byte :=
  zip_with xor_byte (take len s1) (take len s2).

Definition proxy_scramble (message password : list byte) : list byte :=
  let '(hash_stage1, hash_stage2) := proxy_compute_two_stage_sha1_hash password in
  let to := proxy_compute_sha1_hash_multi (take SCRAMBLE_LENGTH message) (take SHA_DIGEST_LENGTH hash_stage2) in
  proxy_my_crypt to hash_stage1 SCRAMBLE_LENGTH.

Definition CLIENT_CONNECT_WITH_DB : Z := 8.

(** The comparison at the end of both checks; 0 is success. *)
Definition password_ok (scramble password : list byte) (scramble_reply : option (list byte)) : Z :=
  match scramble_reply with
  | Some r => if decide (proxy_scramble scramble password = r) then 0 else -1
  | None => if strcmp password (c_lit "") =? 0 then 0 else -1
  end.

Definition check_client_authentication_packet (u : user_table) (mypkt : pkt) (sess : auth)
  : option (Z * auth) :=
  let d := data mypkt in
  let cur := sizeof_mysql_hdr in
  capabilities ← le_combine <$> mem_read cur 4 d;
  let cur := (cur + 32)%nat in
  username ← strdup_at cur d;
  let sess := sess <| mysql_username := Some username |> in
  let cur := (cur + length username + 1)%nat in
  c ← d !! cur;
  let cur := (cur + 1)%nat in
  let reply_at := cur in
  let cur := if uc c =? 0 then cur else (cur + Z.to_nat (uc c))%nat in
  let password := user_password u username (admin sess) in
  let sess := sess <| mysql_password := password |> in
  match password with
  | None => Some (-1, sess)
  | Some pw =>
      reply ← (if uc c =? 0 then Some None else Some <$> mem_read reply_at SHA_DIGEST_LENGTH d);
      let ret := password_ok (scramble_buf sess) pw reply in
      if negb (ret =? 0) then Some (ret, sess) else
      if decide (cur = length_of mypkt) then Some (ret, sess) else
      if Z.land capabilities CLIENT_CONNECT_WITH_DB =? CLIENT_CONNECT_WITH_DB then
        schema ← strdup_at cur d;
        Some (ret, sess <| mysql_schema_cur := Some schema |>)
      else Some (ret, sess)
  end.

Definition check_auth_switch_response_packet (u : user_table) (mypkt : pkt) (sess : auth)
  : option (Z * auth) :=
  let sess := sess <| waiting_change_user_response := false |> in
  if decide (length_of mypkt <> (sizeof_mysql_hdr + 20)%nat) then Some (-1, sess) else
  myhdr ← hdr_of_bytes (data mypkt);
  if negb (pkt_length myhdr =? 20) then Some (-1, sess) else
  username ← mysql_username sess;
  let password := user_password u username (admin sess) in
  let sess := sess <| mysql_password := password |> in
  match password with
  | None => Some (-1, sess)
  | Some pw =>
      reply ← mem_read sizeof_mysql_hdr SHA_DIGEST_LENGTH (data mypkt);
      Some (password_ok (scramble_buf sess) pw (Some reply), sess)
  end.

End Auth.

Definition parse_change_user_packet (mypkt : pkt) (sess : auth) : option (Z * auth) :=
  let cur := (sizeof_mysql_hdr + 1)%nat in
  username ← strdup_at cur (data mypkt);
  let sess := sess <| mysql_username := Some username |> in
  let cur := (cur + length username + 2 + 20)%nat in
  schema ← strdup_at cur (data mypkt);
  Some (0, sess <| mysql_schema_cur := Some schema |>).

(** ** Reference encodings and decoders *)

(** A packet on the wire: header and payload. *)
Definition frame (id : Z) (payload : list byte) : list byte :=
  hdr_bytes (mkHdr (Z.of_nat (length payload)) id) ++ payload.

Definition take_le (n : nat) (d : list byte) : option (Z * list byte) :=
  if decide (n <= length d)%nat then Some (le_combine (take n d), drop n d) else None.

(** The length-encoded integer of the protocol documentation. *)
Definition dec_lenc (d : list byte) : option (Z * list byte) :=
  match d with
  | [] => None
  | c :: d' =>
      if uc c <? 251 then Some (uc c, d')
      else if uc c =? 252 then take_le 2 d'
      else if uc c =? 253 then take_le 3 d'
      else if uc c =? 254 then take_le 8 d' else None
  end.

Definition dec_lenstr (d : list byte) : option (list byte * list byte) :=
  '(n, d) ← dec_lenc d;
  if decide (Z.to_nat n <= length d)%nat then Some (take (Z.to_nat n) d, drop (Z.to_nat n) d) else None.

Definition dec_ok (d : list byte) : option (Z * Z * Z * Z) :=
  match d with
  | Byte.x00 :: d =>
      '(a, d) ← dec_lenc d; '(l, d) ← dec_lenc d; '(s, d) ← take_le 2 d; '(w, d) ← take_le 2 d;
      if decide (d = []) then Some (a, l, s, w) else None
  | _ => None
  end.

Definition dec_column_def (d : list byte) : option (list (list byte) * (Z * Z * Z * Z)) :=
  '(def, d) ← dec_lenstr d; '(schema, d) ← dec_lenstr d; '(table, d) ← dec_lenstr d;
  '(org_table, d) ← dec_lenstr d; '(name, d) ← dec_lenstr d; '(org_name, d) ← dec_lenstr d;
  '(fixed, d) ← dec_lenc d; '(charset, d) ← take_le 2 d;
  '(clen, d) ← take_le 4 d; '(ty, d) ← take_le 1 d; '(fl, d) ← take_le 2 d; '(dec, d) ← take_le 1 d;
  '(_, d) ← take_le 2 d;
  if decide (d = []) then Some ([schema; table; org_table; name; org_name], (clen, ty, fl, dec)) else None.

(** ** Lemmas *)

Lemma le_split_1 v : le_split 1 v = [byte.of_Z v].
Proof. done. Qed.

Lemma unsigned_of_Z z : 0 <= z < 256 -> uc (byte.of_Z z) = z.
Proof. intros. rewrite byte.unsigned_of_Z. unfold byte.wrap. by apply Z.mod_small. Qed.

Lemma take_le_split n v d :
  0 <= v < 2 ^ (Z.of_nat n * 8) -> take_le n (le_split n v ++ d) = Some (v, d).
Proof.
  intros Hv. unfold take_le. rewrite decide_True by px_len.
  rewrite take_app_le, drop_app_ge by px_len. rewrite take_ge, length_le_split, Nat.sub_diag by px_len.
  rewrite le_combine_split, Z.mod_small by lia. done.
Qed.

(** The three classes of [lencint]. *)
Lemma lencint_cases v :
  (v < 251 /\ lencint v = 1) \/ (251 <= v < 65536 /\ lencint v = 3) \/
  (65536 <= v < 16777216 /\ lencint v = 4) \/ (16777216 <= v /\ lencint v = 9).
Proof.
  unfold lencint. repeat match goal with |- context [?a <? ?b] => destruct (Z.ltb_spec a b)
                                       | |- context [?a <=? ?b] => destruct (Z.leb_spec a b) end;
    simpl; lia.
Qed.

Lemma writeencint_length v : Z.of_nat (length (writeencint v)) = lencint v.
Proof.
  unfold writeencint. destruct (lencint_cases v) as [[_ E]|[[_ E]|[[_ E]|[_ E]]]]; rewrite E; done.
Qed.

Lemma dec_writeencint v d : 0 <= v < 2 ^ 64 -> dec_lenc (writeencint v ++ d) = Some (v, d).
Proof.
  intros Hv. unfold writeencint.
  destruct (lencint_cases v) as [[H E]|[[H E]|[[H E]|[H E]]]]; rewrite E; cbn [Z.eqb Pos.eqb app];
    rewrite ?app_nil_r.
  - rewrite le_split_1. simpl. rewrite unsigned_of_Z by lia. by rewrite (proj2 (Z.ltb_lt _ _)) by lia.
  - transitivity (take_le 2 (le_split 2 v ++ d)); [done|]. apply take_le_split. lia.
  - transitivity (take_le 3 (le_split 3 v ++ d)); [done|]. apply take_le_split. lia.
  - transitivity (take_le 8 (le_split 8 v ++ d)); [done|]. apply take_le_split. lia.
Qed.

(** Strings shorter than 64 KB are written with their length. *)
Lemma writeencstr_short over s :
  Z.of_nat (length s) < 65536 ->
  exists srcs, writeencstrnull over (Some s) = W <$> srcs /\ mjoin srcs = writeencint (Z.of_nat (length s)) ++ s.
Proof.
  intros Hs. unfold writeencstrnull, writeencint.
  destruct (lencint_cases (Z.of_nat (length s))) as [[H E]|[[H E]|[[H E]|[H E]]]]; try lia; rewrite E;
    cbn [Z.eqb Pos.eqb app].
  - exists [le_split 1 (Z.of_nat (length s)); s]. split; [done|]. simpl. by rewrite app_nil_r.
  - exists [[Byte.xfc]; le_split 2 (Z.of_nat (length s)); s]. split; [done|]. simpl. by rewrite app_nil_r.
Qed.

Lemma dec_lenstr_app s d :
  Z.of_nat (length s) < 2 ^ 64 ->
  dec_lenstr ((writeencint (Z.of_nat (length s)) ++ s) ++ d) = Some (s, d).
Proof.
  intros Hs. unfold dec_lenstr. rewrite <- app_assoc, dec_writeencint by lia. simpl.
  rewrite Nat2Z.id, decide_True by px_len. by rewrite take_app_length, drop_app_length.
Qed.

(** What a builder without skips produces. *)
Lemma build_frame alloc len id srcs :
  (forall n, length (alloc n) = n) -> Z.of_nat (length (mjoin srcs)) = len -> len < 2 ^ 24 ->
  build alloc len id (W <$> srcs) =
    Some (mkPkt (length (mjoin srcs) + 4) (frame (u8 id) (mjoin srcs))).
Proof.
  intros Ha <- Hlen. unfold build, frame. rewrite (uwrap_small 24) by lia.
  rewrite Nat2Z.id. set (h := hdr_bytes _).
  change (W h :: (W <$> srcs)) with (W <$> (h :: srcs)).
  rewrite writes_block; rewrite ?wsize_W, ?render_W; [done|].
  change (mjoin (h :: srcs)) with (h ++ mjoin srcs). rewrite length_app, Ha.
  unfold h, hdr_bytes, sizeof_mysql_hdr. px_len.
Qed.

Lemma hdr_of_frame id payload rest :
  Z.of_nat (length payload) < 2 ^ 24 -> 0 <= id < 256 ->
  hdr_of_bytes (frame id payload ++ rest) = Some (mkHdr (Z.of_nat (length payload)) id).
Proof.
  intros Hl Hid. unfold hdr_of_bytes, frame, hdr_bytes. simpl pkt_length. simpl pkt_id.
  rewrite <- !app_assoc.
  assert (forall post, mem_read 0 3 (le_split 3 (Z.of_nat (length payload)) ++ post) =
    Some (le_split 3 (Z.of_nat (length payload)))) as -> by (intros; by apply (mem_read_app [])).
  rewrite bind_Some.
  rewrite (mem_read_app (le_split 3 (Z.of_nat (length payload))) (le_split 1 id)) by (by rewrite length_le_split).
  rewrite bind_Some. by rewrite !le_combine_split, !Z.mod_small by lia.
Qed.

Lemma ok_pkt_frame junk id a l s w :
  0 <= a < 2 ^ 64 -> 0 <= l < 2 ^ 64 ->
  let payload := [Byte.x00] ++ writeencint a ++ writeencint l ++ le_split 2 s ++ le_split 2 w in
  myproto_ok_pkt junk id a l s w = Some (mkPkt (length payload + 4) (frame (u8 id) payload)).
Proof.
  intros Ha Hl payload. unfold myproto_ok_pkt.
  pose proof (writeencint_length a). pose proof (writeencint_length l).
  pose proof (lencint_cases a). pose proof (lencint_cases l).
  assert (mjoin [[Byte.x00]; writeencint a; writeencint l; le_split 2 s; le_split 2 w] = payload) as <-.
  { unfold payload. by rewrite !mjoin_cons, mjoin_nil, app_nil_r. }
  apply (build_frame _ _ _ [[Byte.x00]; writeencint a; writeencint l; le_split 2 s; le_split 2 w]).
  - intros; apply length_block.
  - rewrite !mjoin_cons, mjoin_nil, app_nil_r, !length_app, !length_le_split. simpl length. lia.
  - lia.
Qed.

Lemma eof_frame junk id w s :
  myproto_eof junk id w s = Some (mkPkt 9 (frame (u8 id) ([Byte.xfe] ++ le_split 2 w ++ le_split 2 s))).
Proof.
  apply (build_frame _ _ _ [[Byte.xfe]; le_split 2 w; le_split 2 s]); [intros; apply length_block|done|lia].
Qed.

Lemma err_frame junk id code s :
  Z.of_nat (length s) < 2 ^ 24 - 3 ->
  create_err_packet junk id code s =
    Some (mkPkt (length s + 7) (frame (u8 id) ([Byte.xff] ++ le_split 2 code ++ s))).
Proof.
  intros Hs. unfold create_err_packet. change [W [Byte.xff]; W (le_split 2 code); W s]
    with (W <$> [[Byte.xff]; le_split 2 code; s]).
  assert (mjoin [[Byte.xff]; le_split 2 code; s] = [Byte.xff] ++ le_split 2 code ++ s) as Hj
    by (by rewrite !mjoin_cons, mjoin_nil, app_nil_r).
  rewrite build_frame; rewrite ?Hj; [|apply length_block|px_len|lia].
  do 2 f_equal. px_len.
Qed.

Lemma ok_frame junk id :
  create_ok_packet junk id = Some (mkPkt 11 (frame (u8 id)
    [Byte.x00; Byte.x00; Byte.x00; Byte.x02; Byte.x00; Byte.x00; Byte.x00])).
Proof.
  apply (build_frame _ _ _ [[Byte.x00; Byte.x00; Byte.x00; Byte.x02; Byte.x00; Byte.x00; Byte.x00]]);
    [apply length_block|done|lia].
Qed.

Lemma frame_payload id payload : drop 4 (frame id payload) = payload.
Proof. done. Qed.

(** The OK packet the admin interface sends carries the values it was given:
    whatever the allocated block contained, the builder stays inside of the
    block, the header announces the length of the payload, and decoding the
    payload gives back the affected rows, the last insert id, the status and the warnings. *)
Theorem myproto_ok_pkt_roundtrip junk id a l s w :
  0 <= id < 256 -> 0 <= a < 2 ^ 64 -> 0 <= l < 2 ^ 64 -> 0 <= s < 2 ^ 16 -> 0 <= w < 2 ^ 16 ->
  exists p, myproto_ok_pkt junk id a l s w = Some p /\ length (data p) = length_of p /\
    hdr_of_bytes (data p) = Some (mkHdr (Z.of_nat (length_of p) - 4) id) /\
    dec_ok (drop 4 (data p)) = Some (a, l, s, w).
Proof.
  intros Hid Ha Hl Hs Hw. rewrite ok_pkt_frame by done. eexists. split; [done|].
  pose proof (writeencint_length a). pose proof (writeencint_length l).
  pose proof (lencint_cases a). pose proof (lencint_cases l).
  cbn [length_of data]. rewrite frame_payload. split_and!.
  - unfold frame, hdr_bytes. px_len.
  - rewrite <- (app_nil_r (frame _ _)), (uwrap_small 8) by lia.
    rewrite hdr_of_frame; [|px_len|lia]. f_equal. f_equal. lia.
  - cbn [dec_ok app]. rewrite dec_writeencint by done. rewrite bind_Some, dec_writeencint by done.
    rewrite bind_Some, take_le_split by lia. rewrite bind_Some.
    rewrite <- (app_nil_r (le_split 2 w)), take_le_split by lia. done.
Qed.

Lemma myproto_ok_pkt_roundtrip_witness :
  exists p, myproto_ok_pkt (fun _ => Byte.xaa) 1 300 70000 2 0 = Some p /\
    dec_ok (drop 4 (data p)) = Some (300, 70000, 2, 0).
Proof.
  destruct (myproto_ok_pkt_roundtrip (fun _ => Byte.xaa) 1 300 70000 2 0) as (p & Hp & _ & _ & Hd);
    [lia..|]. by exists p.
Defined.

(** The packet of a column definition: a frame whose payload decodes to the names and attributes. *)
Lemma column_def_frame junk over id schema table org_table name org_name clen ty fl dec :
  (forall s, s ∈ [schema; table; org_table; name; org_name] -> Z.of_nat (length s) < 65536) ->
  0 <= clen < 2 ^ 32 -> 0 <= ty < 2 ^ 8 -> 0 <= fl < 2 ^ 16 -> 0 <= dec < 2 ^ 8 ->
  exists payload,
    myproto_column_def junk over id schema table org_table name org_name clen ty fl dec =
      Some (mkPkt (length payload + 4) (frame (u8 id) payload)) /\
    Z.of_nat (length payload) < 2 ^ 24 /\
    dec_column_def payload = Some ([schema; table; org_table; name; org_name], (clen, ty, fl, dec)).
Proof.
  intros Hstr Hclen Hty Hfl Hdec.
  set (enc := fun s : list byte => writeencint (Z.of_nat (length s)) ++ s).
  assert (forall s, s ∈ [schema; table; org_table; name; org_name] ->
    Z.of_nat (length (enc s)) = lencint (Z.of_nat (length s)) + Z.of_nat (length s) /\
    Z.of_nat (length (enc s)) <= 65540) as Hlen.
  { intros s Hs. apply Hstr in Hs. unfold enc. rewrite length_app.
    pose proof (writeencint_length (Z.of_nat (length s))). pose proof (lencint_cases (Z.of_nat (length s))). lia. }
  destruct (writeencstr_short over schema) as (x1 & E1 & J1); [apply Hstr; set_solver|].
  destruct (writeencstr_short over table) as (x2 & E2 & J2); [apply Hstr; set_solver|].
  destruct (writeencstr_short over org_table) as (x3 & E3 & J3); [apply Hstr; set_solver|].
  destruct (writeencstr_short over name) as (x4 & E4 & J4); [apply Hstr; set_solver|].
  destruct (writeencstr_short over org_name) as (x5 & E5 & J5); [apply Hstr; set_solver|].
  pose proof (Hlen schema ltac:(set_solver)). pose proof (Hlen table ltac:(set_solver)).
  pose proof (Hlen org_table ltac:(set_solver)). pose proof (Hlen name ltac:(set_solver)).
  pose proof (Hlen org_name ltac:(set_solver)).
  set (tail := [[Byte.x0c; Byte.x21; Byte.x00]; le_split 4 clen; le_split 1 ty; le_split 2 fl; le_split 1 dec;
    [Byte.x00; Byte.x00]]).
  set (payload := [Byte.x03; Byte.x64; Byte.x65; Byte.x66] ++ enc schema ++ enc table ++ enc org_table ++
    enc name ++ enc org_name ++ mjoin tail).
  set (srcs := [[Byte.x03; Byte.x64; Byte.x65; Byte.x66]] ++ x1 ++ x2 ++ x3 ++ x4 ++ x5 ++ tail).
  assert (mjoin srcs = payload) as Hj.
  { unfold srcs, payload, enc. rewrite !mjoin_app, J1, J2, J3, J4, J5. done. }
  assert (length (mjoin tail) = 13%nat) as Htl by done.
  unfold myproto_column_def. rewrite E1, E2, E3, E4, E5.
  replace ([W _] ++ _) with (W <$> srcs) by (unfold srcs; by rewrite !fmap_app).
  rewrite build_frame; rewrite ?Hj; [|apply length_block| |lia].
  2:{ unfold payload. rewrite !length_app, Htl. cbn [length]. lia. }
  exists payload. split; [done|]. split.
  - unfold payload. rewrite !length_app, Htl. cbn [length]. lia.
  - unfold payload, dec_column_def. change [Byte.x03; Byte.x64; Byte.x65; Byte.x66]
      with (enc [Byte.x64; Byte.x65; Byte.x66]).
    unfold enc. rewrite !dec_lenstr_app, bind_Some by (cbn; lia).
    repeat (rewrite dec_lenstr_app, bind_Some by (unfold enc in *; rewrite length_app in *; lia)).
    unfold tail. rewrite !mjoin_cons, mjoin_nil. cbn [app dec_lenc]. change (uc Byte.x0c <? 251) with true.
    cbv iota. rewrite bind_Some. change (Byte.x21 :: Byte.x00 :: ?r) with (le_split 2 33 ++ r).
    repeat (rewrite take_le_split, bind_Some by lia). done.
Qed.

(** A column definition whose names are shorter than 64 KB decodes to the names
    and attributes it was built from. *)
Theorem myproto_column_def_roundtrip junk over id schema table org_table name org_name clen ty fl dec :
  0 <= id < 256 ->
  (forall s, s ∈ [schema; table; org_table; name; org_name] -> Z.of_nat (length s) < 65536) ->
  0 <= clen < 2 ^ 32 -> 0 <= ty < 2 ^ 8 -> 0 <= fl < 2 ^ 16 -> 0 <= dec < 2 ^ 8 ->
  exists p, myproto_column_def junk over id schema table org_table name org_name clen ty fl dec = Some p /\
    length (data p) = length_of p /\
    hdr_of_bytes (data p) = Some (mkHdr (Z.of_nat (length_of p) - 4) id) /\
    dec_column_def (drop 4 (data p)) =
      Some ([schema; table; org_table; name; org_name], (clen, ty, fl, dec)).
Proof.
  intros Hid Hstr Hclen Hty Hfl Hdec.
  destruct (column_def_frame junk over id schema table org_table name org_name clen ty fl dec)
    as (payload & E & Hl & D); [done..|].
  eexists. split; [exact E|]. cbn [length_of data]. rewrite frame_payload. split_and!; [|  |done].
  - unfold frame, hdr_bytes. px_len.
  - rewrite <- (app_nil_r (frame _ _)), (uwrap_small 8) by lia.
    rewrite hdr_of_frame; [do 2 f_equal; lia|lia|lia].
Qed.

Lemma myproto_column_def_roundtrip_witness :
  exists p, myproto_column_def (fun _ => Byte.xaa) [] 2 [] (c_lit "t") [] (c_lit "hostname") [] 21 253 0 0 = Some p /\
    dec_column_def (drop 4 (data p)) = Some ([[]; c_lit "t"; []; c_lit "hostname"; []], (21, 253, 0, 0)).
Proof.
  destruct (myproto_column_def_roundtrip (fun _ => Byte.xaa) [] 2 [] (c_lit "t") [] (c_lit "hostname") [] 21 253 0 0)
    as (p & Hp & _ & _ & Hd); [lia| |lia..|exists p; split; [exact Hp|exact Hd]].
  intros s Hs. repeat (apply elem_of_cons in Hs as [->|Hs]; [by vm_compute|]). set_solver.
Defined.

(** A name of 64 KB or more is written without its length: the three bytes
    between the marker and the name keep whatever the block held before. *)
Theorem writeencstrnull_length_missing over s old :
  65536 <= Z.of_nat (length s) < 16777216 ->
  render (writeencstrnull over (Some s)) old = [Byte.xfd] ++ take 3 (drop 1 old) ++ s.
Proof.
  intros Hs. unfold writeencstrnull.
  destruct (lencint_cases (Z.of_nat (length s))) as [[? E]|[[? E]|[[? E]|[? E]]]]; try lia.
  rewrite E. cbn [Z.eqb Pos.eqb app render length]. by rewrite app_nil_r.
Qed.

Lemma writeencstrnull_length_missing_witness :
  exists s, Z.of_nat (length s) = 65536 /\
    render (writeencstrnull [] (Some s)) [Byte.x00; Byte.x11; Byte.x22; Byte.x33] =
    [Byte.xfd] ++ take 3 (drop 1 [Byte.x00; Byte.x11; Byte.x22; Byte.x33]) ++ s.
Proof.
  assert (Z.of_nat (length (replicate (Z.to_nat 65536) Byte.x61)) = 65536) as Hl
    by (rewrite length_replicate; lia).
  eexists. split; [exact Hl|]. apply writeencstrnull_length_missing. lia.
Defined.

(** ** Responses *)

Lemma payload_at id payload k : data (mkPkt (length payload + 4) (frame id payload)) !! (4 + k)%nat = payload !! k.
Proof. done. Qed.

Lemma lencint_unknown_small b v : 0 <= b < 128 -> v mod 256 = b -> lencint (lencint_unknown v) = 1.
Proof.
  intros Hb Hv. unfold lencint_unknown.
  assert (swrap 8 v = b) as ->.
  { unfold swrap. change (2 ^ 8) with 256. change (2 ^ (8 - 1)) with 128.
    rewrite <- Zplus_mod_idemp_l, Hv, Z.mod_small; lia. }
  rewrite (proj2 (Z.ltb_lt b 251)) by lia. rewrite uwrap_small by lia.
  destruct (lencint_cases b) as [[_ E]|[[? E]|[[? E]|[? E]]]]; lia.
Qed.

(** A byte of 128 or more is converted to a negative [char], which is below 251
    and counts as a nine-byte integer. *)
Lemma lencint_unknown_high b v : 128 <= b < 256 -> v mod 256 = b -> lencint (lencint_unknown v) = 9.
Proof.
  intros Hb Hv. unfold lencint_unknown.
  assert (swrap 8 v = b - 256) as ->.
  { unfold swrap. change (2 ^ 8) with 256. change (2 ^ (8 - 1)) with 128.
    rewrite <- Zplus_mod_idemp_l, Hv. replace (b + 128) with (b - 128 + 1 * 256) by lia.
    rewrite Z.mod_add by lia. rewrite Z.mod_small; lia. }
  rewrite (proj2 (Z.ltb_lt (b - 256) 251)) by lia.
  unfold uwrap. replace (b - 256) with (b - 256 + 2 ^ 64 + (-1) * 2 ^ 64) by lia.
  rewrite Z.mod_add, Z.mod_small by lia.
  destruct (lencint_cases (b - 256 + 2 ^ 64)) as [[? E]|[[? E]|[[? E]|[? E]]]]; lia.
Qed.

Lemma le_combine_mod b bs : le_combine (b :: bs) mod 256 = uc b.
Proof.
  rewrite <- (le_combine_1 b). symmetry. apply (le_combine_firstn 1 (b :: bs)).
Qed.

Lemma writeencint_1 v : v < 251 -> writeencint v = [byte.of_Z v].
Proof.
  intros Hv. unfold writeencint. destruct (lencint_cases v) as [[_ E]|[[? E]|[[? E]|[? E]]]]; try lia.
  by rewrite E.
Qed.

Lemma mem_read_at pre off n mem :
  off = length pre -> (n <= length mem)%nat -> mem_read off n (pre ++ mem) = Some (take n mem).
Proof.
  intros -> Hn. unfold mem_read. rewrite decide_True by px_len. by rewrite drop_app_length.
Qed.

(** [status_flags] of an OK packet whose counters take one byte each. *)
Lemma status_flags_short_ok beyond id a l (s w : Z) :
  0 <= a < 128 -> 0 <= l < 128 -> 0 <= s < 2 ^ 16 -> (3 <= length beyond)%nat ->
  status_flags beyond (mkPkt 11 (frame id ([Byte.x00] ++ writeencint a ++ writeencint l ++ le_split 2 s ++ le_split 2 w)))
  = Some s.
Proof.
  intros Ha Hl Hs Hb. unfold status_flags. rewrite !writeencint_1 by lia.
  unfold frame. set (h := hdr_bytes _). assert (length h = 4%nat) as Hh by (unfold h, hdr_bytes; px_len).
  cbn [data length_of]. unfold mysql_response. cbn [data length_of].
  rewrite lookup_app_r by (unfold sizeof_mysql_hdr; lia). rewrite Hh. cbn [sizeof_mysql_hdr Nat.sub app lookup list_lookup].
  rewrite bind_Some. cbn [Z.eqb]. change (uc Byte.x00 =? 0) with true. cbv iota. rewrite bind_Some.
  set (sb := le_split 2 s). set (rest := (sb ++ le_split 2 w) ++ beyond).
  assert (length rest = 4 + length beyond)%nat as Hr by (unfold rest, sb; px_len).
  replace ((h ++ Byte.x00 :: byte.of_Z a :: byte.of_Z l :: sb ++ le_split 2 w) ++ beyond)
    with ((h ++ [Byte.x00]) ++ byte.of_Z a :: byte.of_Z l :: rest)
    by (unfold rest; by rewrite <- !app_assoc).
  rewrite mem_read_at by (rewrite ?length_app; simpl length; unfold sizeof_mysql_hdr; lia).
  rewrite bind_Some. cbn [take]. rewrite (lencint_unknown_small a) by (rewrite ?le_combine_mod, ?unsigned_of_Z; lia).
  change (byte.of_Z a :: byte.of_Z l :: rest) with ([byte.of_Z a] ++ byte.of_Z l :: rest). rewrite app_assoc.
  rewrite mem_read_at by (rewrite ?length_app; simpl length; unfold sizeof_mysql_hdr; lia).
  rewrite bind_Some. cbn [take]. rewrite (lencint_unknown_small l) by (rewrite ?le_combine_mod, ?unsigned_of_Z; lia).
  change (byte.of_Z l :: rest) with ([byte.of_Z l] ++ rest). rewrite app_assoc.
  rewrite mem_read_at by (rewrite ?length_app; simpl length; unfold sizeof_mysql_hdr; lia).
  rewrite bind_Some. unfold rest. rewrite <- app_assoc.
  rewrite take_app_length' by (unfold sb; px_len).
  unfold sb. by rewrite le_combine_split, Z.mod_small by lia.
Qed.

Lemma status_flags_eof beyond id (w s : Z) :
  0 <= s < 2 ^ 16 ->
  status_flags beyond (mkPkt 9 (frame id ([Byte.xfe] ++ le_split 2 w ++ le_split 2 s))) = Some s.
Proof.
  intros Hs. unfold status_flags.
  change (mysql_response _) with (Some EOF_Packet). rewrite bind_Some. cbv iota. cbn [data].
  set (p := hdr_bytes (mkHdr 5 id) ++ [Byte.xfe] ++ le_split 2 w).
  replace (frame _ _ ++ beyond) with (p ++ le_split 2 s ++ beyond)
    by (unfold p, frame; rewrite <- !app_assoc; done).
  rewrite mem_read_app by done. rewrite bind_Some. by rewrite le_combine_split, Z.mod_small by lia.
Qed.

(** The proxy recognises what a server sends: the response classifier answers
    OK, ERR and EOF for the packets of those kinds, and the status word it reads from
    an EOF packet, or from an OK packet whose two counters are below 128, is the one in
    the packet, so the transaction flag it derives is the server's. *)
Theorem response_classification junk beyond id a l s w code msg :
  0 <= a < 2 ^ 64 -> 0 <= l < 2 ^ 64 -> 0 <= s < 2 ^ 16 ->
  Z.of_nat (length msg) < 2 ^ 24 - 3 -> (3 <= length beyond)%nat ->
  (exists p, myproto_ok_pkt junk id a l s w = Some p /\ mysql_response p = Some OK_Packet /\
     (a < 128 -> l < 128 -> status_flags beyond p = Some s /\
        is_transaction_active beyond p = Some (Z.odd s))) /\
  (exists p, myproto_eof junk id w s = Some p /\ mysql_response p = Some EOF_Packet /\
     status_flags beyond p = Some s /\ is_transaction_active beyond p = Some (Z.odd s)) /\
  (exists p, create_err_packet junk id code msg = Some p /\ mysql_response p = Some ERR_Packet /\
     is_transaction_active beyond p = Some false).
Proof.
  intros Ha Hl Hs Hmsg Hb.
  assert (forall p, status_flags beyond p = Some s -> is_transaction_active beyond p = Some (Z.odd s)) as Hact.
  { intros p Hp. unfold is_transaction_active, SERVER_STATUS_IN_TRANS. rewrite Hp, bind_Some. f_equal.
    change 1 with (Z.ones 1) at 1. rewrite Z.land_ones by lia. rewrite <- Z.bit0_mod, Z.bit0_odd.
    by destruct (Z.odd s). }
  split_and!.
  - rewrite ok_pkt_frame by done. eexists. split; [done|]. split; [done|]. intros Ha' Hl'.
    rewrite !writeencint_1 by lia.
    assert (forall p, p = mkPkt 11 (frame (u8 id) ([Byte.x00] ++ writeencint a ++ writeencint l ++ le_split 2 s ++ le_split 2 w))
      -> status_flags beyond p = Some s) as Hst by (intros p ->; apply status_flags_short_ok; lia).
    rewrite !writeencint_1 in Hst by lia. split; [|apply Hact]; by apply Hst.
  - rewrite eof_frame. eexists. split; [done|]. split; [done|].
    pose proof (status_flags_eof beyond (u8 id) w s Hs). auto.
  - rewrite err_frame by done. eexists. split; [done|]. split; done.
Qed.

Lemma response_classification_witness :
  exists p, myproto_ok_pkt (fun _ => Byte.xaa) 1 5 0 3 0 = Some p /\
    is_transaction_active [Byte.x01; Byte.x02; Byte.x03] p = Some true.
Proof.
  destruct (response_classification (fun _ => Byte.xaa) [Byte.x01; Byte.x02; Byte.x03] 1 5 0 3 0 1045 [])
    as [(p & Hp & _ & Hst) _]; [lia|lia|lia|simpl; lia|simpl; lia|].
  exists p. split; [exact Hp|]. apply Hst; lia.
Defined.

(** An OK packet that reports between 128 and 250 affected rows is misread: the
    count is taken for a nine-byte integer, the status word is read behind the packet
    and, where the memory behind it is zero, an open transaction is missed. *)
Theorem status_flags_misread junk id a l s w :
  128 <= a < 251 -> 0 <= l < 251 ->
  exists p, myproto_ok_pkt junk id a l s w = Some p /\ length_of p = 11%nat /\
    is_transaction_active (zeros 16) p = Some false.
Proof.
  intros Ha Hl. rewrite ok_pkt_frame by lia. eexists. split; [done|].
  rewrite !writeencint_1 by lia. split; [done|].
  unfold is_transaction_active, status_flags. change (mysql_response _) with (Some OK_Packet).
  rewrite bind_Some. cbv iota. cbn [data length_of].
  set (pre := hdr_bytes (mkHdr 7 (u8 id)) ++ [Byte.x00]).
  set (tl := [byte.of_Z l] ++ le_split 2 s ++ le_split 2 w).
  replace (frame _ _ ++ zeros 16) with (pre ++ (byte.of_Z a :: tl ++ zeros 16))
    by (unfold pre, tl, frame; rewrite <- !app_assoc; done).
  rewrite mem_read_at by (done || by apply Nat.leb_le). rewrite bind_Some. cbn [take].
  rewrite (lencint_unknown_high a) by (rewrite ?le_combine_mod, ?unsigned_of_Z; lia).
  replace (pre ++ byte.of_Z a :: tl ++ zeros 16) with ((pre ++ (byte.of_Z a :: tl ++ zeros 3)) ++ zeros 13)
    by (by rewrite <- app_assoc).
  rewrite mem_read_at by (done || by apply Nat.leb_le). rewrite bind_Some.
  change (lencint (lencint_unknown (le_combine (take 8 (zeros 13))))) with 1.
  change (zeros 13) with ([Byte.x00] ++ zeros 12). rewrite app_assoc.
  rewrite mem_read_at by (done || by apply Nat.leb_le). rewrite bind_Some. done.
Qed.

Lemma status_flags_misread_witness :
  exists p, myproto_ok_pkt (fun _ => Byte.xaa) 1 200 0 3 0 = Some p /\
    is_transaction_active (zeros 16) p = Some false.
Proof.
  destruct (status_flags_misread (fun _ => Byte.xaa) 1 200 0 3 0) as (p & Hp & _ & Hst); [lia|lia|].
  exists p. split; [exact Hp|exact Hst].
Defined.

(** ** Authentication *)

Lemma log2_byte x : 0 <= x < 256 -> Z.log2 x < 8.
Proof. intros Hx. destruct (Z.eq_dec x 0) as [->|]; [by vm_compute|]. apply Z.log2_lt_pow2; lia. Qed.

Lemma lxor_byte_range a b : 0 <= Z.lxor (uc a) (uc b) < 256.
Proof.
  pose proof (uc_range a). pose proof (uc_range b).
  assert (0 <= Z.lxor (uc a) (uc b)) by (apply Z.lxor_nonneg; lia). split; [done|].
  destruct (Z.eq_dec (Z.lxor (uc a) (uc b)) 0) as [->|]; [lia|].
  change 256 with (2 ^ 8). apply Z.log2_lt_pow2; [lia|].
  eapply Z.le_lt_trans; [apply Z.log2_lxor; lia|]. apply Z.max_lub_lt; by apply log2_byte.
Qed.

Lemma xor_byte_involutive a b : xor_byte (xor_byte a b) a = b.
Proof.
  apply uc_inj. unfold xor_byte. rewrite (unsigned_of_Z (Z.lxor (uc a) (uc b))) by apply lxor_byte_range.
  rewrite (Z.lxor_comm (uc a) (uc b)), Z.lxor_assoc, Z.lxor_nilpotent, Z.lxor_0_r.
  apply unsigned_of_Z, uc_range.
Qed.

Lemma crypt_involutive n s1 s2 :
  length s1 = n -> length s2 = n -> proxy_my_crypt (proxy_my_crypt s1 s2 n) s1 n = s2.
Proof.
  unfold proxy_my_crypt. revert n s2. induction s1 as [|a s1 IH]; intros n [|b s2] <- H2; simplify_eq/=; [done|].
  f_equal; [apply xor_byte_involutive|]. by apply IH.
Qed.

Section AuthLemmas.
Context (sha1 : list byte -> list byte) (Hsha1 : forall d, length (sha1 d) = 20%nat).

Lemma scramble_length msg pw : length (proxy_scramble sha1 msg pw) = 20%nat.
Proof.
  unfold proxy_scramble, proxy_compute_two_stage_sha1_hash, proxy_compute_sha1_hash_multi,
    proxy_compute_sha1_hash, proxy_my_crypt, SCRAMBLE_LENGTH.
  by rewrite length_zip_with, !length_take, !Hsha1.
Qed.

Lemma password_ok_iff scramble pw reply :
  Byte.x00 ∉ pw ->
  password_ok sha1 scramble pw reply = 0 <->
  match reply with Some r => r = proxy_scramble sha1 scramble pw | None => pw = [] end.
Proof.
  intros Hpw. unfold password_ok. destruct reply as [r|].
  - case_decide; split; intros; congruence || lia.
  - destruct pw as [|c pw]; [done|]. unfold strcmp. cbn [strncmp_by hd length].
    destruct (Z.eqb_spec (uc c) (uc Byte.x00)) as [Heq|Hne].
    + apply uc_inj in Heq as ->. set_solver.
    + change (hd Byte.x00 (c_lit "")) with Byte.x00.
      rewrite (proj2 (Z.eqb_neq _ _) Hne). simpl negb. cbv iota. change (uc Byte.x00) with 0 in *.
      rewrite (proj2 (Z.eqb_neq _ 0)) by lia. split; done.
Qed.

End AuthLemmas.

(** The reply of a client to the handshake, as the protocol documents it. *)
Definition client_auth_payload (caps : Z) (filler user reply : list byte) (db : option (list byte)) : list byte :=
  (le_split 4 caps ++ filler) ++ user ++ [Byte.x00] ++ [byte.of_Z (Z.of_nat (length reply))] ++ reply ++
  match db with Some db => db ++ [Byte.x00] | None => [] end.

(** Who may log in: a known user with an empty password and no reply, or with
    the reply computed from the password and the scramble. *)
Definition may_login (sha1 : list byte -> list byte) (u : user_table) (sess : auth) (user reply : list byte) : Prop :=
  exists pw, user_password u user (admin sess) = Some pw /\
    (reply = [] /\ pw = [] \/ reply <> [] /\ reply = proxy_scramble sha1 (scramble_buf sess) pw).

Section ClientAuth.
Context (sha1 : list byte -> list byte) (Hsha1 : forall d, length (sha1 d) = 20%nat).
Context (u : user_table)
  (Hu : forall user a pw, user_password u user a = Some pw -> Byte.x00 ∉ pw).

Lemma client_auth_run sess id caps filler user reply db :
  0 <= caps < 2 ^ 32 -> length filler = 28%nat -> Byte.x00 ∉ user ->
  length reply = 0%nat \/ length reply = 20%nat -> Byte.x00 ∉ default [] db ->
  let payload := client_auth_payload caps filler user reply db in
  let sess1 := sess <| mysql_username := Some user |>
                    <| mysql_password := user_password u user (admin sess) |> in
  exists ret, check_client_authentication_packet sha1 u (mkPkt (4 + length payload) (frame id payload)) sess =
    Some (ret, if decide (ret = 0 /\ is_Some db /\ Z.land caps 8 = 8)
               then sess1 <| mysql_schema_cur := db |> else sess1) /\
    (ret = 0 <-> may_login sha1 u sess user reply).
Proof.
  intros Hc Hf Hus Hr Hdb payload sess1.
  set (tail := match db with Some db => db ++ [Byte.x00] | None => [] end).
  set (h := hdr_bytes (mkHdr (Z.of_nat (length payload)) id)).
  assert (length h = 4%nat) as Hh by (unfold h, hdr_bytes; px_len).
  assert (frame id payload = (h ++ le_split 4 caps ++ filler) ++ user ++ Byte.x00 ::
            byte.of_Z (Z.of_nat (length reply)) :: reply ++ tail) as Hfr.
  { unfold frame, payload, client_auth_payload. fold h. by rewrite <- !app_assoc. }
  unfold check_client_authentication_packet. cbn [data length_of].
  assert (mem_read sizeof_mysql_hdr 4 (frame id payload) = Some (le_split 4 caps)) as ->.
  { rewrite Hfr, <- !app_assoc. apply mem_read_app; [by rewrite Hh|done]. }
  cbn [fmap option_fmap option_map]. rewrite bind_Some, le_combine_split, Z.mod_small by lia.
  rewrite Hfr. rewrite strdup_at_app; [|rewrite !length_app, length_le_split, Hh, Hf; done|done].
  rewrite bind_Some. set (pre := (h ++ le_split 4 caps ++ filler) ++ user ++ [Byte.x00]).
  assert (length pre = 4 + 32 + length user + 1)%nat as Hpre by (unfold pre; px_len).
  replace ((h ++ _) ++ _) with (pre ++ byte.of_Z (Z.of_nat (length reply)) :: reply ++ tail)
    by (unfold pre; by rewrite <- !app_assoc).
  rewrite lookup_app_r by (unfold sizeof_mysql_hdr; lia).
  replace (sizeof_mysql_hdr + 32 + length user + 1 - length pre)%nat with 0%nat by (unfold sizeof_mysql_hdr; lia).
  cbn [lookup list_lookup]. rewrite bind_Some. rewrite unsigned_of_Z by lia. cbn [admin upd].
  set (pre' := pre ++ [byte.of_Z (Z.of_nat (length reply))]).
  assert (length pre' = sizeof_mysql_hdr + 32 + length user + 1 + 1)%nat as Hpre'
    by (unfold pre', sizeof_mysql_hdr; rewrite length_app, Hpre; done).
  replace (pre ++ byte.of_Z (Z.of_nat (length reply)) :: reply ++ tail) with (pre' ++ reply ++ tail)
    by (unfold pre'; by rewrite <- !app_assoc).
  rewrite <- Hpre'. clearbody pre' pre. clear Hfr.
  assert (length payload + 4 = length pre' + length reply + length tail)%nat as Hlen.
  { rewrite Hpre'. unfold payload, client_auth_payload, sizeof_mysql_hdr. fold tail. px_len. }
  destruct (user_password u user (admin sess)) as [pw|] eqn:Hpw.
  2:{ exists (-1). split; [done|]. split; [done|]. intros (pw & ? & _). congruence. }
  set (ro := if decide (reply = []) then None else Some reply).
  assert ((if Z.of_nat (length reply) =? 0 then Some None else Some <$> mem_read (length pre') SHA_DIGEST_LENGTH (pre' ++ reply ++ tail))
    = Some ro) as ->.
  { unfold ro. destruct Hr as [Hr|Hr]; destruct reply as [|c reply]; try done.
    rewrite Hr. rewrite mem_read_app by done. done. }
  replace (if Z.of_nat (length reply) =? 0 then length pre' else (length pre' + Z.to_nat (Z.of_nat (length reply)))%nat)
    with (length pre' + length reply)%nat by (destruct reply; simpl; lia).
  rewrite bind_Some. cbn [scramble_buf].
  exists (password_ok sha1 (scramble_buf sess) pw ro). split.
  - destruct (Z.eqb_spec (password_ok sha1 (scramble_buf sess) pw ro) 0) as [->|Hne]; simpl negb; cbv iota.
    2:{ by rewrite decide_False by naive_solver. }
    unfold tail in *. clearbody payload. destruct db as [db|].
    + rewrite decide_False by (rewrite length_app in Hlen; simpl in Hlen; lia).
      unfold CLIENT_CONNECT_WITH_DB. destruct (Z.eqb_spec (Z.land caps 8) 8) as [Hbit|Hbit].
      * rewrite decide_True by eauto. rewrite app_assoc.
        rewrite strdup_at_app; [done|by rewrite length_app|done].
      * by rewrite decide_False by naive_solver.
    + rewrite decide_True by (simpl in Hlen; lia).
      rewrite decide_False; [done|]. intros (_ & [? ?] & _). done.
  - rewrite (password_ok_iff sha1 Hsha1 (scramble_buf sess) pw ro) by (by eapply Hu). unfold ro, may_login. rewrite Hpw. split.
    + case_decide; intros ?; exists pw; split; auto.
    + intros (pw' & [= <-] & [[-> ->]|[Hne ->]]); [done|]. by rewrite decide_False.
Qed.

End ClientAuth.


(** A table with one user, and a stand-in for the digest. *)
Definition toy_sha1 (d : list byte) : list byte := take 20 (d ++ replicate 20 Byte.x5a).
Definition toy_users : user_table :=
  mkUsers (c_lit "admin") (c_lit "admin") (c_lit "monitor") (c_lit "monitor") {[ c_lit "bob" := c_lit "secret" ]}.
Definition toy_auth : auth := mkAuth None None None (replicate 21 Byte.x41) 0 false.

Definition toy_bob : auth := toy_auth <| mysql_username := Some (c_lit "bob") |>.

Lemma toy_sha1_length d : length (toy_sha1 d) = 20%nat.
Proof. unfold toy_sha1. px_len. Qed.

Lemma toy_users_nul user a pw : user_password toy_users user a = Some pw -> Byte.x00 ∉ pw.
Proof.
  unfold user_password, toy_users. cbn [proxy_admin_password proxy_monitor_password usernames].
  repeat case_match; intros Hpw; simplify_eq; try (by apply (bool_decide_unpack _); vm_compute).
  apply lookup_singleton_Some in Hpw as [_ <-]. by apply (bool_decide_unpack _); vm_compute.
Qed.


(** The scramble is the native-password proof: whoever knows only the double hash
    of the password recovers its first hash from the reply, and only its double
    hash verifies. *)
Theorem scramble_verifies sha1 msg pw :
  (forall d, length (sha1 d) = 20%nat) ->
  let reply := proxy_scramble sha1 msg pw in
  let stage2 := sha1 (sha1 pw) in
  length reply = 20%nat /\
  proxy_my_crypt reply (sha1 (take 20 msg ++ stage2)) 20 = sha1 pw /\
  sha1 (proxy_my_crypt reply (sha1 (take 20 msg ++ stage2)) 20) = stage2.
Proof.
  intros Hsha1 reply stage2. split; [by apply scramble_length|].
  assert (proxy_my_crypt reply (sha1 (take 20 msg ++ stage2)) 20 = sha1 pw) as Hc.
  { unfold reply, proxy_scramble, proxy_compute_two_stage_sha1_hash, proxy_compute_sha1_hash_multi,
      proxy_compute_sha1_hash, SCRAMBLE_LENGTH, SHA_DIGEST_LENGTH.
    rewrite !(take_ge (sha1 _)) by (rewrite Hsha1; done). by apply crypt_involutive. }
  split; [done|]. by rewrite Hc.
Qed.

Lemma scramble_verifies_witness :
  length (proxy_scramble toy_sha1 (replicate 21 Byte.x41) (c_lit "secret")) = 20%nat.
Proof. apply (scramble_verifies toy_sha1 (replicate 21 Byte.x41) (c_lit "secret") toy_sha1_length). Defined.

(** The reply to an authentication switch is accepted exactly when it has the
    right length, the user of the session is known and the 20 bytes are the
    scramble of its password; a packet of another length is refused, and the
    session stops waiting for the reply in every case. *)
Theorem auth_switch_response_correct sha1 u sess user id reply :
  (forall d, length (sha1 d) = 20%nat) ->
  (forall user a pw, user_password u user a = Some pw -> Byte.x00 ∉ pw) ->
  mysql_username sess = Some user -> 0 <= id < 256 -> Z.of_nat (length reply) < 2 ^ 24 ->
  exists ret sess', check_auth_switch_response_packet sha1 u (mkPkt (length reply + 4) (frame id reply)) sess = Some (ret, sess') /\
    waiting_change_user_response sess' = false /\
    (ret = 0 <-> length reply = 20%nat /\ may_login sha1 u sess user reply).
Proof.
  intros Hsha1 Hu Hus Hid Hlen. unfold check_auth_switch_response_packet. cbn [length_of data].
  case_decide as Hl.
  { eexists (-1), _. split; [done|]. split; [done|]. unfold sizeof_mysql_hdr in Hl. split; lia. }
  assert (length reply = 20%nat) as Hr by (unfold sizeof_mysql_hdr in *; lia).
  rewrite <- (app_nil_r (frame id reply)), hdr_of_frame, bind_Some by done. cbn [pkt_length].
  rewrite Hr. change (Z.of_nat 20 =? 20) with true. cbn [negb mysql_username upd]. rewrite Hus, bind_Some.
  cbn [admin]. destruct (user_password u user (admin sess)) as [pw|] eqn:Hpw.
  2:{ eexists (-1), _. split; [done|]. split; [done|]. split; [done|]. intros [_ (pw & ? & _)]. congruence. }
  unfold frame. rewrite <- app_assoc. rewrite mem_read_app by done. rewrite bind_Some.
  eexists _, _. split; [done|]. split; [done|]. cbn [scramble_buf].
  rewrite (password_ok_iff sha1 Hsha1 (scramble_buf sess) pw (Some reply)) by (by eapply Hu).
  unfold may_login. rewrite Hpw. split.
  - intros ->. split; [done|]. exists pw. split; [done|]. right. split; [|done].
    intros Heq. by rewrite Heq in Hr.
  - intros [_ (pw' & [= <-] & [[-> ->]|[Hne ->]])]; done.
Qed.

Lemma auth_switch_response_correct_witness :
  exists ret sess', check_auth_switch_response_packet toy_sha1 toy_users
      (mkPkt (length (replicate 20 Byte.x00) + 4) (frame 3 (replicate 20 Byte.x00)))
      toy_bob = Some (ret, sess') /\
    waiting_change_user_response sess' = false.
Proof.
  destruct (auth_switch_response_correct toy_sha1 toy_users toy_bob
    (c_lit "bob") 3 (replicate 20 Byte.x00) toy_sha1_length toy_users_nul eq_refl) as (r & s' & H1 & H2 & _);
    [lia|simpl; lia|].
  exists r, s'. split; [exact H1|exact H2].
Defined.

(** ** Change of user *)

(** The body of a [COM_CHANGE_USER] whose authentication reply has 20 bytes. *)
Definition change_user_payload (user reply db rest : list byte) : list byte :=
  [Byte.x11] ++ user ++ [Byte.x00; Byte.x14] ++ reply ++ db ++ Byte.x00 :: rest.

(** The user name and the schema of a [COM_CHANGE_USER] packet with a 20-byte reply
    are the ones the client sent; everything else of the session is kept. *)
Theorem parse_change_user_correct sess n id user reply db rest :
  Byte.x00 ∉ user -> length reply = 20%nat -> Byte.x00 ∉ db ->
  parse_change_user_packet (mkPkt n (frame id (change_user_payload user reply db rest))) sess =
  Some (0, sess <| mysql_username := Some user |> <| mysql_schema_cur := Some db |>).
Proof.
  intros Hu Hr Hd. unfold parse_change_user_packet. cbn [data].
  set (h := hdr_bytes (mkHdr (Z.of_nat (length (change_user_payload user reply db rest))) id)).
  assert (length h = 4%nat) as Hh by (unfold h, hdr_bytes; px_len).
  replace (frame _ _) with ((h ++ [Byte.x11]) ++ user ++ Byte.x00 :: (Byte.x14 :: reply ++ db ++ Byte.x00 :: rest))
    by (unfold frame; fold h; unfold change_user_payload; by rewrite <- !app_assoc).
  rewrite strdup_at_app, bind_Some by (done || by rewrite length_app, Hh).
  set (pre := (h ++ [Byte.x11]) ++ user ++ [Byte.x00; Byte.x14] ++ reply).
  replace ((h ++ [Byte.x11]) ++ _) with (pre ++ db ++ Byte.x00 :: rest)
    by (unfold pre; rewrite <- !app_assoc; done).
  rewrite strdup_at_app, bind_Some; [done| |done].
  unfold pre, sizeof_mysql_hdr. rewrite !length_app, Hh, Hr. simpl length. lia.
Qed.

Lemma parse_change_user_correct_witness :
  parse_change_user_packet (mkPkt 40 (frame 0 (change_user_payload (c_lit "bob") (replicate 20 Byte.x41) (c_lit "db") [])))
    toy_auth = Some (0, toy_auth <| mysql_username := Some (c_lit "bob") |> <| mysql_schema_cur := Some (c_lit "db") |>).
Proof.
  apply parse_change_user_correct; [by apply (bool_decide_unpack _); vm_compute|done|by apply (bool_decide_unpack _); vm_compute].
Defined.

(** The administrator's password is handed out for every user name that starts with
    the administrator's name, not for that name only. *)
Theorem user_password_admin_prefix u user :
  Byte.x00 ∉ user -> Byte.x00 ∉ proxy_admin_user u ->
  user_password u user 1 = Some (proxy_admin_password u) <-> proxy_admin_user u `prefix_of` user.
Proof.
  intros Hu Ha. unfold user_password. cbn [Z.eqb Pos.eqb]. unfold strncmp.
  pose proof (strncmp_by_prefix uc (length (proxy_admin_user u)) user (proxy_admin_user u) uc_inj Hu Ha eq_refl) as Hs.
  destruct (Z.eqb_spec (strncmp_by uc (length (proxy_admin_user u)) user (proxy_admin_user u)) 0) as [E|E].
  - apply Hs in E. split; [intros _|done]. exists (drop (length (proxy_admin_user u)) user).
    rewrite <- E at 1. by rewrite take_drop.
  - split; [done|]. intros [k ->]. exfalso. apply E, Hs. by rewrite take_app_length.
Qed.

Lemma user_password_admin_prefix_witness :
  user_password toy_users (c_lit "administrator") 1 = Some (c_lit "admin").
Proof.
  apply (user_password_admin_prefix toy_users (c_lit "administrator"));
    [by apply (bool_decide_unpack _); vm_compute..|]. by exists (c_lit "istrator").
Defined.

(** ** The handshake *)

Lemma rnd_range r :
  0 < max_value r <= 2 ^ 30 -> 0 <= seed1 (proxy_my_rnd r) < max_value r /\ max_value (proxy_my_rnd r) = max_value r.
Proof. intros Hm. split; [|done]. apply Z.mod_pos_bound. lia. Qed.

Definition printable (b : byte) : Prop := 33 <= uc b <= 126.

Lemma random_chars_ok n : forall r, 0 < max_value r <= 2 ^ 30 ->
  length (random_chars n r).1 = n /\ Forall printable (random_chars n r).1 /\
  max_value (random_chars n r).2 = max_value r.
Proof.
  induction n as [|n IH]; intros r Hm; simpl; [auto|].
  destruct (rnd_range r Hm) as [Hs Hm']. rewrite <- Hm' in Hm. specialize (IH _ Hm).
  destruct (random_chars n (proxy_my_rnd r)) as [cs r']. cbn [fst snd length] in *. destruct IH as (Hl & Hf & Hr).
  split_and!; [lia| |congruence]. constructor; [|done]. unfold printable, rnd_char.
  change (max_value (proxy_my_rnd r)) with (max_value r) in *.
  assert (0 <= seed1 (proxy_my_rnd r) * 94 / max_value r < 94).
  { split; [apply Z.div_pos; lia|]. apply Z.div_lt_upper_bound; lia. }
  rewrite unsigned_of_Z; lia.
Qed.

Lemma nul_to_a_printable pre mid post :
  Forall printable mid -> nul_to_a (length pre) (length mid) (pre ++ mid ++ post) = pre ++ mid ++ post.
Proof.
  intros Hp. unfold nul_to_a. rewrite take_app_length, drop_app_length, take_app_length.
  assert (drop (length pre + length mid) (pre ++ mid ++ post) = post) as ->
    by (by rewrite app_assoc, <- length_app, drop_app_length).
  f_equal. f_equal.
  induction Hp as [|b mid Hb Hp IH]; [done|]. rewrite fmap_cons, IH.
  rewrite decide_False; [done|]. intros ->. unfold printable in Hb. change (uc Byte.x00) with 0 in Hb. lia.
Qed.

Lemma random_string_eq pre old post to n r :
  to = length pre -> length old = S n -> 0 < max_value r <= 2 ^ 30 ->
  exists cs r', proxy_create_random_string to n r (pre ++ old ++ post) = Some (pre ++ cs ++ Byte.x00 :: post, r') /\
    length cs = n /\ Forall printable cs /\ max_value r' = max_value r.
Proof.
  intros -> Ho Hm. unfold proxy_create_random_string.
  destruct (random_chars_ok n r Hm) as (Hl & Hf & Hr). destruct (random_chars n r) as [cs r']. simpl in *.
  exists cs, r'. split; [|done]. rewrite mem_write_extend; [|done|rewrite !length_app; simpl; lia].
  rewrite bind_Some, drop_app_length' by (rewrite length_app; simpl; lia). by rewrite <- app_assoc.
Qed.

(** Over a zeroed block the skipped cells and the unwritten end are zero. *)
Fixpoint zrender (ws : list wr) (n : nat) : list byte :=
  match ws with
  | [] => zeros n
  | W src :: ws' => src ++ zrender ws' (n - length src)
  | Skip k :: ws' => zeros k ++ zrender ws' (n - k)
  end.

Lemma render_zeros ws n :
  (wsize ws <= n)%nat -> render ws (zeros n) ++ drop (wsize ws) (zeros n) = zrender ws n.
Proof.
  unfold zeros. revert n. induction ws as [|[src|k] ws IH]; intros n Hn; simpl in *; [done|..].
  - rewrite <- app_assoc. f_equal. rewrite <- IH by lia. rewrite !drop_replicate.
    f_equal. f_equal. lia.
  - rewrite <- app_assoc, take_replicate, Nat.min_l by lia. f_equal. rewrite <- IH by lia.
    rewrite !drop_replicate. f_equal. f_equal. lia.
Qed.

Lemma build_zeros len id ws payload :
  Z.of_nat (length payload) = len -> len < 2 ^ 24 ->
  zrender ws (length payload) = payload -> (wsize ws <= length payload)%nat ->
  build zeros len id ws = Some (mkPkt (length payload + 4) (frame (u8 id) payload)).
Proof.
  intros Hlen Hsmall Hz Hw. unfold build. rewrite (uwrap_small 24) by lia.
  replace (Z.to_nat len) with (length payload) by lia.
  set (h := hdr_bytes _). assert (length h = 4%nat) as Hh by (unfold h, hdr_bytes; px_len).
  pose proof (writes_extend (W h :: ws) [] (zeros (length payload + sizeof_mysql_hdr)) 0 eq_refl) as He.
  cbn [app] in He. rewrite He; [|simpl; unfold zeros; rewrite length_replicate; unfold sizeof_mysql_hdr; lia].
  rewrite bind_Some, render_zeros by (simpl; unfold sizeof_mysql_hdr; lia).
  cbn [zrender]. replace (length payload + sizeof_mysql_hdr - length h)%nat with (length payload)
    by (unfold sizeof_mysql_hdr; lia).
  rewrite Hz. unfold frame, h. by rewrite Hlen.
Qed.

(** The handshake packet fits its block exactly and announces the server's
    parameters; the scramble it carries is the one the session remembers: 20
    printable characters (so none of them needs replacing) and a NUL. *)
Theorem handshake_correct g thread_id r1 r2 sb :
  0 <= r1 -> 0 <= r2 -> length sb = 21%nat -> Z.of_nat (length (mysql_server_version g)) < 2 ^ 16 ->
  exists s1 s2, length s1 = 8%nat /\ length s2 = 12%nat /\ Forall printable (s1 ++ s2) /\
    let payload := le_split 1 (protocol_version g) ++ mysql_server_version g ++ [Byte.x00] ++
      le_split 4 thread_id ++ s1 ++ [Byte.x00] ++ le_split 2 (server_capabilities g) ++
      le_split 1 (server_language g) ++ le_split 2 (server_status_var g) ++ [Byte.x0f; Byte.x80; Byte.x15] ++
      zeros 10 ++ s2 ++ [Byte.x00] ++ c_lit "mysql_native_password" ++ [Byte.x00] in
    create_handshake_packet g thread_id r1 r2 sb =
      Some (mkPkt (length payload + 4) (frame 0 payload), s1 ++ s2 ++ [Byte.x00]).
Proof.
  intros Hr1 Hr2 Hsb Hv. unfold create_handshake_packet.
  rewrite <- (take_drop 9 sb). set (a := take 9 sb). set (b := drop 9 sb).
  assert (length a = 9%nat) as Ha by (unfold a; px_len). assert (length b = 12%nat) as Hb by (unfold b; px_len).
  clearbody a b. set (r0 := mkRand _ _ _).
  destruct (random_string_eq [] a b 0 8 r0) as (s1 & r' & E1 & Hl1 & Hp1 & Hm1); [done|done|by vm_compute|].
  cbn [app] in E1. rewrite E1, bind_Some. cbv iota beta zeta.
  assert (nul_to_a 0 8 (s1 ++ Byte.x00 :: b) = s1 ++ Byte.x00 :: b) as ->.
  { rewrite <- Hl1. apply (nul_to_a_printable [] s1 (Byte.x00 :: b) Hp1). }
  assert (mem_read 0 8 (s1 ++ Byte.x00 :: b) = Some s1) as ->.
  { by apply (mem_read_app [] s1 (Byte.x00 :: b)). }
  rewrite bind_Some.
  destruct (random_string_eq s1 (Byte.x00 :: b) [] 8 12 r') as (s2 & r'' & E2 & Hl2 & Hp2 & _);
    [done|simpl; lia|by rewrite Hm1|].
  rewrite app_nil_r in E2. rewrite E2, bind_Some. cbv iota beta.
  assert (nul_to_a 8 12 (s1 ++ s2 ++ [Byte.x00]) = s1 ++ s2 ++ [Byte.x00]) as ->.
  { rewrite <- Hl1, <- Hl2 at 1. by apply nul_to_a_printable. }
  rewrite mem_read_app, bind_Some by done.
  exists s1, s2. split; [done|]. split; [done|]. split; [by apply Forall_app|]. cbv zeta.
  set (ver := mysql_server_version g) in *. set (ver_len := length ver) in *.
  rewrite (build_zeros _ _ _ (le_split 1 (protocol_version g) ++ ver ++ [Byte.x00] ++
      le_split 4 thread_id ++ s1 ++ [Byte.x00] ++ le_split 2 (server_capabilities g) ++
      le_split 1 (server_language g) ++ le_split 2 (server_status_var g) ++ [Byte.x0f; Byte.x80; Byte.x15] ++
      zeros 10 ++ s2 ++ [Byte.x00] ++ c_lit "mysql_native_password" ++ [Byte.x00])); [done|..].
  - rewrite !length_app, !length_le_split, Hl1, Hl2. fold ver_len. cbn. lia.
  - fold ver_len. lia.
  - cbn [zrender]. do 14 (apply (f_equal2 (@app byte)); [done|]). change [Byte.x00] with (zeros 1).
    f_equal. rewrite !length_app, !length_le_split, Hl1, Hl2. fold ver_len. cbn. lia.
  - cbn [wsize]. rewrite !length_app, !length_le_split, Hl1, Hl2. fold ver_len. cbn. lia.
Qed.

Lemma handshake_correct_witness :
  exists s1 s2, Forall printable (s1 ++ s2) /\
    create_handshake_packet (mkServerVars 10 (c_lit "5.1.30") 0xa20a 33 2) 7 12345 6789 (zeros 21) =
      Some (mkPkt 78 (frame 0 (le_split 1 10 ++ c_lit "5.1.30" ++ [Byte.x00] ++ le_split 4 7 ++ s1 ++ [Byte.x00] ++
        le_split 2 0xa20a ++ le_split 1 33 ++ le_split 2 2 ++ [Byte.x0f; Byte.x80; Byte.x15] ++
        zeros 10 ++ s2 ++ [Byte.x00] ++ c_lit "mysql_native_password" ++ [Byte.x00])), s1 ++ s2 ++ [Byte.x00]).
Proof.
  destruct (handshake_correct (mkServerVars 10 (c_lit "5.1.30") 0xa20a 33 2) 7 12345 6789 (zeros 21))
    as (s1 & s2 & H1 & H2 & Hp & Heq); [lia|lia|done|by vm_compute|].
  exists s1, s2. split; [exact Hp|]. cbn [protocol_version mysql_server_version server_capabilities
    server_language server_status_var] in Heq. rewrite Heq. do 3 f_equal.
  rewrite !length_app, H1, H2. reflexivity.
Defined.
