(* ===== verification/DataStream.v ===== *)
(** * Data streams: src/mysql_data_stream.c, src/network.c and the queue macros
    of include/proxysql_macros.h

    A stream has a byte queue and an array of packets per direction.  Input:
    [read_from_net] appends what [recv] returned to the queue and
    [buffer2array] cuts the bytes into packets.  Output: [array2buffer] copies
    packets into the queue and [write_to_net] sends from it.  Blocks are byte
    lists and an operation answers [None] when it would access memory outside of
    a block; what the kernel answers ([recv], [send]) is an argument.

    The packet arrays are lists: [l_ptr_array_add] appends and
    [l_ptr_array_remove_index(a,0)] takes the head (PtrArray.v proves that of
    the array code). *)
From S2P Require Import Prelude Protocol.
Open Scope nat_scope.

(** ** Queues *)

Record queue_t := mkQueue { buffer : list byte; size : nat; head : nat; tail : nat }.
#[export] Instance queue_eta : Eta queue_t := fun q => mkQueue (buffer q) (size q) (head q) (tail q).

Definition queue_init (junk : nat -> byte) (s : nat) : queue_t := mkQueue (block junk s) s 0 0.

Definition queue_available (q : queue_t) : nat := size q - head q.
Definition queue_data (q : queue_t) : nat := head q - tail q.

(** [memcpy] inside of one block, byte by byte from the lowest address on.  C does not define it when the areas overlap, as they may in [queue_zero]; this order is an
    assumption on the library there. *)
Fixpoint memcpy_up (n dst src : nat) (b : list byte) : option (list byte) :=
  match n with
  | O => Some b
  | S n' => x ← b !! src; b ← mem_write dst [x] b; memcpy_up n' (S dst) (S src) b
  end.

Definition queue_zero (q : queue_t) : option queue_t :=
  b ← memcpy_up (head q - tail q) 0 (tail q) (buffer q);
  Some (mkQueue b (size q) (head q - tail q) 0).

Definition queue_r (q : queue_t) (s : nat) : queue_t :=
  let q := q <| tail := tail q + s |> in
  if decide (tail q = head q) then q <| head := 0 |> <| tail := 0 |> else q.

Definition queue_w (q : queue_t) (s : nat) : queue_t := q <| head := head q + s |>.

(** The bytes between [queue_r_ptr] and [queue_w_ptr]. *)
Definition contents (q : queue_t) : list byte := take (head q - tail q) (drop (tail q) (buffer q)).

(** ** Streams *)

(** The packet being read: its length, 0 until its header was seen, and its
    block, [None] as long as the pointer is uninitialised. *)
Record in_pkt := mkInPkt { in_length : nat; in_data : option (list byte) }.

Record mysql_uni_in := mkIn {
  iqueue : queue_t; ipkts : list pkt; ipartial : nat; imypkt : option in_pkt; ihdr : mysql_hdr }.
#[export] Instance in_eta : Eta mysql_uni_in := fun i =>
  mkIn (iqueue i) (ipkts i) (ipartial i) (imypkt i) (ihdr i).

Record mysql_uni_out := mkOut {
  oqueue : queue_t; opkts : list pkt; opartial : nat; omypkt : option pkt }.
#[export] Instance out_eta : Eta mysql_uni_out := fun o =>
  mkOut (oqueue o) (opkts o) (opartial o) (omypkt o).

(** [has_mybe]: the stream belongs to a backend, whose server keeps counters. *)
Record mysql_data_stream_t := mkDS {
  input : mysql_uni_in; output : mysql_uni_out;
  pkts_recv : Z; pkts_sent : Z; bytes_recv : Z; bytes_sent : Z;
  fd : Z; active_transaction : bool; active : bool; has_mybe : bool }.
#[export] Instance ds_eta : Eta mysql_data_stream_t := fun d =>
  mkDS (input d) (output d) (pkts_recv d) (pkts_sent d) (bytes_recv d) (bytes_sent d) (fd d)
    (active_transaction d) (active d) (has_mybe d).

(** What an operation does outside of the stream: [sess->net_failure=1], and the
    additions to the counters of the backend's server. *)
Record effect := mkEff { net_failure : bool; server_recv : Z; server_sent : Z }.
Definition no_effect : effect := mkEff false 0 0.

Definition mysql_data_stream_new (junk : nat -> byte) (net_buffer_size : nat) (mybe : bool) (sock : Z)
  : mysql_data_stream_t :=
  mkDS (mkIn (queue_init junk net_buffer_size) [] 0 None (mkHdr 0 0))
       (mkOut (queue_init junk net_buffer_size) [] 0 None)
       0 0 0 0 sock false true mybe.

Definition setfd (myds : mysql_data_stream_t) (f : Z) : mysql_data_stream_t := myds <| fd := f |>.

Definition shut_soft (myds : mysql_data_stream_t) : mysql_data_stream_t * effect :=
  (myds <| active := false |>, mkEff true 0 0).

(** The descriptor that is shut down and closed, if there is one. *)
Definition shut_hard (myds : mysql_data_stream_t) : mysql_data_stream_t * option Z :=
  if (0 <=? fd myds)%Z then (myds <| fd := (-1)%Z |>, Some (fd myds)) else (myds, None).

(** *** Input *)

(** [if ((mypkt->length==0) && queue_data(qin)>=sizeof(mysql_hdr))]: the header of a
    new packet is read and its block allocated.  The second component is what
    is added to the result of [buffer2array]. *)
Definition b2a_header (junk : nat -> byte) (i : mysql_uni_in) (p : in_pkt) : option (mysql_uni_in * in_pkt * nat) :=
  let q := iqueue i in
  if decide (in_length p = 0 /\ sizeof_mysql_hdr <= queue_data q) then
    h ← mem_read (tail q) sizeof_mysql_hdr (buffer q);
    hdr ← hdr_of_bytes h;
    let len := Z.to_nat (pkt_length hdr) + sizeof_mysql_hdr in
    d ← mem_write 0 h (block junk len);
    Some (i <| iqueue := queue_r q sizeof_mysql_hdr |> <| ihdr := hdr |> <| ipartial := sizeof_mysql_hdr |>,
          mkInPkt len (Some d), sizeof_mysql_hdr)
  else Some (i, p, 0).

(** [if ((mypkt->length>0) && queue_data(qin))]: bytes of the body are copied. *)
Definition b2a_body (i : mysql_uni_in) (p : in_pkt) : option (mysql_uni_in * in_pkt * nat) :=
  let q := iqueue i in
  if decide (0 < in_length p /\ queue_data q <> 0) then
    let rest := in_length p - ipartial i in
    let b := if decide (rest < queue_data q) then rest else queue_data q in
    src ← mem_read (tail q) b (buffer q);
    d ← in_data p;
    d ← mem_write (ipartial i) src d;
    Some (i <| iqueue := queue_r q b |> <| ipartial := ipartial i + b |>, mkInPkt (in_length p) (Some d), b)
  else Some (i, p, 0).

Definition buffer2array (junk : nat -> byte) (myds : mysql_data_stream_t)
  : option (nat * mysql_data_stream_t) :=
  let i := input myds in
  if decide (queue_data (iqueue i) = 0) then Some (0, myds) else
  let p := match imypkt i with Some p => p | None => mkInPkt 0 None end in
  q ← (if decide (in_length p = 0 /\ queue_data (iqueue i) < sizeof_mysql_hdr)
       then queue_zero (iqueue i) else Some (iqueue i));
  '(i, p, r1) ← b2a_header junk (i <| iqueue := q |>) p;
  '(i, p, r2) ← b2a_body i p;
  let ret := r1 + r2 in
  if decide (0 < in_length p /\ in_length p = ipartial i) then
    d ← in_data p;
    Some (ret, myds <| input := i <| ipkts := ipkts i ++ [mkPkt (in_length p) d] |> <| imypkt := None |> |>
                    <| pkts_recv := u64 (pkts_recv myds + 1) |>)
  else Some (ret, myds <| input := i <| imypkt := Some p |> |>).

(** [recv] answered -1 ([None]) or with the bytes it stored. *)
Definition read_from_net (net : option (list byte)) (myds : mysql_data_stream_t)
  : option (Z * mysql_data_stream_t * effect) :=
  let q := iqueue (input myds) in
  match net with
  | None => let '(myds, e) := shut_soft myds in Some ((-1)%Z, myds, e)
  | Some [] => let '(myds, e) := shut_soft myds in Some (0%Z, myds, e)
  | Some bs =>
      let r := length bs in
      b ← mem_write (head q) bs (buffer q);
      Some (Z.of_nat r,
            myds <| input := (input myds) <| iqueue := queue_w (q <| buffer := b |>) r |> |>
                 <| bytes_recv := u64 (bytes_recv myds + Z.of_nat r) |>,
            mkEff false (if has_mybe myds then Z.of_nat r else 0) 0)
  end.

(** [while(buffer2array(myds) && fd>0)]. *)
Fixpoint drain_input (fuel : nat) (junk : nat -> byte) (myds : mysql_data_stream_t)
  : option mysql_data_stream_t :=
  match fuel with
  | O => None
  | S fuel' =>
      '(ret, myds) ← buffer2array junk myds;
      if decide (ret <> 0 /\ (0 < fd myds)%Z) then drain_input fuel' junk myds else Some myds
  end.

(** *** Output *)

Definition array2buffer (myds : mysql_data_stream_t) : option (nat * mysql_data_stream_t) :=
  let o := output myds in
  let q := oqueue o in
  if decide (queue_available q = 0) then Some (0, myds) else
  let next :=
    if decide (opartial o = 0) then
      match opkts o with
      | p :: ps => Some (o <| omypkt := Some p |> <| opkts := ps |>)
      | [] => None
      end
    else Some o in
  match next with
  | None => Some (0, myds)
  | Some o =>
      p ← omypkt o;
      let rest := length_of p - opartial o in
      let b := if decide (rest < queue_available q) then rest else queue_available q in
      src ← mem_read (opartial o) b (data p);
      buf ← mem_write (head q) src (buffer q);
      let q := queue_w (q <| buffer := buf |>) b in
      let o := o <| oqueue := q |> <| opartial := opartial o + b |> in
      if decide (opartial o = length_of p) then
        Some (b, myds <| output := o <| omypkt := None |> <| opartial := 0 |> |>
                      <| pkts_sent := u64 (pkts_sent myds + 1) |>)
      else Some (b, myds <| output := o |>)
  end.

(** [send] answered [r]; the bytes that left are returned. *)
Definition write_to_net (r : Z) (myds : mysql_data_stream_t)
  : option (Z * mysql_data_stream_t * effect * list byte) :=
  let q := oqueue (output myds) in
  if decide (queue_data q = 0) then Some (0%Z, myds, no_effect, []) else
  if (r <? 0)%Z then let '(myds, e) := shut_soft myds in Some (r, myds, e, []) else
  out ← mem_read (tail q) (Z.to_nat r) (buffer q);
  Some (r, myds <| output := (output myds) <| oqueue := queue_r q (Z.to_nat r) |> |>
                <| bytes_sent := u64 (bytes_sent myds + r) |>,
        mkEff false 0 (if has_mybe myds then r else 0), out).

(** [while(array2buffer(myds))]. *)
Fixpoint fill_output (fuel : nat) (myds : mysql_data_stream_t) : option mysql_data_stream_t :=
  match fuel with
  | O => None
  | S fuel' =>
      '(ret, myds) ← array2buffer myds;
      if decide (ret <> 0) then fill_output fuel' myds else Some myds
  end.

(** The loop of [write_one_pkt_to_net]; [sends] are the answers of [send], one per
    turn, and the loop is cut off ([None]) when they run out. *)
Fixpoint flush (sends : list Z) (myds : mysql_data_stream_t) : option (mysql_data_stream_t * list byte) :=
  if decide (queue_data (oqueue (output myds)) <> 0 /\ active myds = true) then
    match sends with
    | [] => None
    | r :: sends' =>
        '(_, myds, _, out) ← write_to_net r myds;
        '(myds, out') ← flush sends' myds;
        Some (myds, out ++ out')
    end
  else Some (myds, []).

Definition write_one_pkt_to_net (sends : list Z) (myds : mysql_data_stream_t) (p : pkt)
  : option (bool * mysql_data_stream_t * list byte) :=
  let myds := myds <| output := (output myds) <| opkts := opkts (output myds) ++ [p] |> |> in
  '(_, myds) ← array2buffer myds;
  '(myds, out) ← flush sends myds;
  Some (active myds, myds, out).

(** *** Deletion *)

(** The blocks given back to the pool: size and contents, [None] for a pointer
    that was never set. *)
Definition mysql_data_stream_delete (my : mysql_data_stream_t) : list (nat * option (list byte)) :=
  [(size (iqueue (input my)), Some (buffer (iqueue (input my))));
   (size (oqueue (output my)), Some (buffer (oqueue (output my))))] ++
  match imypkt (input my) with Some p => [(in_length p, in_data p)] | None => [] end ++
  match omypkt (output my) with Some p => [(length_of p, Some (data p))] | None => [] end ++
  ((fun p => (length_of p, Some (data p))) <$> ipkts (input my)) ++
  ((fun p => (length_of p, Some (data p))) <$> opkts (output my)).

(** ** Queue invariant *)

Record queue_ok (q : queue_t) : Prop := {
  qk_len : length (buffer q) = size q;
  qk_ord : tail q <= head q <= size q;
  qk_reset : tail q = head q -> head q = 0
}.

Lemma contents_length q : queue_ok q -> length (contents q) = queue_data q.
Proof. intros [? ? ?]. unfold contents, queue_data. rewrite length_take, length_drop. lia. Qed.

Lemma queue_init_ok junk s : queue_ok (queue_init junk s) /\ contents (queue_init junk s) = [].
Proof. split; [|done]. constructor; simpl; [apply length_block|lia|done]. Qed.

Lemma queue_r_ok q s :
  queue_ok q -> s <= queue_data q ->
  queue_ok (queue_r q s) /\ contents (queue_r q s) = drop s (contents q) /\ size (queue_r q s) = size q.
Proof.
  intros [Hl Ho Hr] Hs. unfold queue_data in Hs. unfold queue_r. simpl. case_decide as Hd; simpl.
  - split_and!; [constructor; simpl; lia| |done]. unfold contents. simpl.
    rewrite (drop_ge (take _ _)); [done|]. rewrite length_take. lia.
  - split_and!; [constructor; simpl; lia| |done]. unfold contents. simpl.
    rewrite skipn_firstn_comm, drop_drop. f_equal. lia.
Qed.

Lemma queue_read q b :
  queue_ok q -> b <= queue_data q -> mem_read (tail q) b (buffer q) = Some (take b (contents q)).
Proof.
  intros [Hl Ho Hr] Hb. unfold queue_data in Hb. unfold mem_read, contents.
  rewrite decide_True by lia. rewrite take_take. do 2 f_equal. lia.
Qed.

(** Copied downwards, also onto themselves, the bytes arrive unchanged. *)
Lemma memcpy_up_down n : forall dst src b, dst <= src -> src + n <= length b ->
  memcpy_up n dst src b = Some (take dst b ++ take n (drop src b) ++ drop (dst + n) b).
Proof.
  induction n as [|n IH]; intros dst src b Hd Hs; cbn [memcpy_up].
  { rewrite Nat.add_0_r. change (take 0 (drop src b)) with (@nil byte). cbn [app]. by rewrite take_drop. }
  destruct (lookup_lt_is_Some_2 b src) as [x Hx]; [lia|]. rewrite Hx, bind_Some. unfold mem_write. rewrite decide_True by (simpl; lia).
  rewrite bind_Some. set (b' := take dst b ++ [x] ++ drop (dst + length [x]) b).
  assert (length (take dst b) = dst) as Ht by (rewrite length_take; lia).
  assert (length b' = length b) as Hl by (subst b'; px_len). rewrite IH by lia.
  assert (take (S dst) b' = take dst b ++ [x]) as ->.
  { subst b'. rewrite app_assoc, take_app_length'; [done|]. rewrite length_app, Ht. simpl. lia. }
  assert (forall m, S dst <= m -> drop m b' = drop m b) as Hdr.
  { intros m Hm. subst b'. rewrite app_assoc, drop_app_ge by (rewrite length_app, Ht; simpl; lia).
    rewrite length_app, Ht, drop_drop. f_equal. simpl. lia. }
  rewrite !Hdr, (drop_S b x src Hx) by lia. cbn [take]. rewrite <- app_assoc.
  replace (S dst + n) with (dst + S n) by lia. done.
Qed.

Lemma queue_zero_ok q :
  queue_ok q -> exists q', queue_zero q = Some q' /\ queue_ok q' /\ contents q' = contents q /\
    size q' = size q /\ tail q' = 0.
Proof.
  intros Hq. unfold queue_zero. pose proof (contents_length q Hq) as Hc. unfold queue_data in Hc. destruct Hq as [Hl Ho Hr].
  rewrite memcpy_up_down by lia. rewrite bind_Some. change (take 0 (buffer q)) with (@nil byte). cbn [app].
  assert (take (head q - tail q) (drop (tail q) (buffer q)) = contents q) as E by done. rewrite E.
  eexists. split; [done|]. split_and!; [|..|done|done].
  - constructor; simpl; [px_len|lia|lia].
  - unfold contents at 1. simpl. rewrite Nat.sub_0_r. by apply take_app_length'.
Qed.

Lemma queue_append q bs :
  queue_ok q -> length bs <= queue_available q ->
  exists b, mem_write (head q) bs (buffer q) = Some b /\
    let q' := queue_w (q <| buffer := b |>) (length bs) in
    queue_ok q' /\ contents q' = contents q ++ bs /\ size q' = size q /\ queue_data q' = queue_data q + length bs.
Proof.
  intros [Hl Ho Hr] Hs. unfold queue_available in Hs.
  pose proof (mem_write_extend (take (head q) (buffer q)) (drop (head q) (buffer q)) bs (head q)) as Hw.
  rewrite take_drop in Hw. rewrite Hw by px_len. clear Hw. eexists. split; [done|]. simpl. split_and!; [|..|done|].
  - constructor; simpl; [px_len|lia|lia].
  - unfold contents, queue_w. simpl.
    rewrite drop_app_le by px_len. rewrite skipn_firstn_comm.
    rewrite app_assoc, take_app_length'; [done|]. px_len.
  - unfold queue_data, queue_w. simpl. lia.
Qed.

(** ** Framing *)

(** The length of the packet whose first bytes are [bs]. *)
Definition announced (bs : list byte) : nat := Z.to_nat (le_combine (take 3 bs)) + 4.

Definition wf_frame (d : list byte) : Prop := 4 <= length d /\ announced d = length d.

(** [bs] does not hold a complete packet. *)
Definition incomplete (bs : list byte) : Prop := length bs < 4 \/ length bs < announced bs.

(** The reference: cut a byte stream into packets. *)
Fixpoint frames_from (fuel : nat) (bs : list byte) : list (list byte) * list byte :=
  match fuel with
  | O => ([], bs)
  | S fuel' =>
      if decide (4 <= length bs /\ announced bs <= length bs) then
        let '(fs, rest) := frames_from fuel' (drop (announced bs) bs) in
        (take (announced bs) bs :: fs, rest)
      else ([], bs)
  end.

Definition frames (bs : list byte) : list (list byte) * list byte := frames_from (length bs) bs.

Lemma announced_app bs x : 3 <= length bs -> announced (bs ++ x) = announced bs.
Proof. intros. unfold announced. by rewrite take_app_le by lia. Qed.

Lemma announced_take n bs : 3 <= n -> announced (take n bs) = announced bs.
Proof. intros. unfold announced. rewrite take_take. by replace (3 `min` n) with 3 by lia. Qed.

Lemma announced_ge bs : 4 <= announced bs.
Proof. unfold announced. lia. Qed.

Lemma frames_from_unique fs : forall fuel rest,
  Forall wf_frame fs -> incomplete rest -> length fs <= fuel ->
  frames_from fuel (mjoin fs ++ rest) = (fs, rest).
Proof.
  induction fs as [|f fs IH]; intros fuel rest Hf Hr Hfuel.
  - rewrite mjoin_nil. cbn [app]. destruct fuel; [done|]. cbn [frames_from].
    rewrite decide_False; [done|]. intros [? ?]. destruct Hr; lia.
  - apply Forall_cons in Hf as [[H4 Ha] Hf]. destruct fuel as [|fuel]; [simpl in Hfuel; lia|].
    rewrite mjoin_cons, <- app_assoc. cbn [frames_from]. rewrite announced_app by lia. rewrite Ha.
    rewrite decide_True by (rewrite length_app; lia). rewrite drop_app_length, take_app_length.
    rewrite IH; [done|done|done|simpl in Hfuel; lia].
Qed.

Lemma frames_unique fs rest : Forall wf_frame fs -> incomplete rest -> frames (mjoin fs ++ rest) = (fs, rest).
Proof.
  intros Hf Hr. apply frames_from_unique; [done|done|]. rewrite length_app.
  assert (length fs <= length (mjoin fs)); [|lia]. clear Hr.
  induction Hf as [|f fs [H4 _] Hf IH]; [done|]. rewrite mjoin_cons, length_app. simpl. lia.
Qed.

(** ** Invariant of the input side *)

Definition wf_pkt (p : pkt) : Prop := length (data p) = length_of p /\ wf_frame (data p).

(** A framed payload is a well-formed packet. *)
Lemma frame_wf id payload n : (Z.of_nat (length payload) < 2 ^ 24)%Z -> n = length payload + 4 -> wf_pkt (mkPkt n (frame id payload)).
Proof.
  intros Hl ->. unfold wf_pkt, wf_frame, announced, frame, hdr_bytes. cbn [data length_of pkt_length pkt_id].
  rewrite <- !app_assoc, take_app_le, take_ge by px_len. rewrite le_combine_split.
  change (2 ^ (Z.of_nat 3 * 8))%Z with (2 ^ 24)%Z. rewrite Z.mod_small by lia. px_len.
Qed.

Definition partial_ok (partial : nat) (mp : option in_pkt) : Prop :=
  match mp with
  | None => True
  | Some p => match in_data p with
              | None => in_length p = 0
              | Some d => 4 <= partial < in_length p /\ length d = in_length p /\ announced d = in_length p
              end
  end.

Record input_ok (i : mysql_uni_in) : Prop := {
  in_queue : queue_ok (iqueue i);
  in_pkts : Forall wf_pkt (ipkts i);
  in_partial : partial_ok (ipartial i) (imypkt i)
}.

Definition partial_bytes (i : mysql_uni_in) : list byte :=
  match imypkt i with
  | Some (mkInPkt _ (Some d)) => take (ipartial i) d
  | _ => []
  end.

(** The bytes received and not yet taken out of the packet array, in order. *)
Definition in_stream (i : mysql_uni_in) : list byte :=
  mjoin (data <$> ipkts i) ++ partial_bytes i ++ contents (iqueue i).

(** Nothing more can be cut from the queue, and there is room behind it. *)
Definition drained (i : mysql_uni_in) : Prop :=
  incomplete (partial_bytes i ++ contents (iqueue i)) /\ tail (iqueue i) = 0 /\ queue_data (iqueue i) < 4.

Lemma b2a_body_ok i len d :
  queue_ok (iqueue i) -> 4 <= ipartial i <= len -> length d = len -> announced d = len ->
  exists i' d' b, b2a_body i (mkInPkt len (Some d)) = Some (i', mkInPkt len (Some d'), b) /\
    queue_ok (iqueue i') /\ size (iqueue i') = size (iqueue i) /\ ipkts i' = ipkts i /\
    length d' = len /\ announced d' = len /\ ipartial i' = ipartial i + b /\ ipartial i + b <= len /\
    take (ipartial i') d' ++ contents (iqueue i') = take (ipartial i) d ++ contents (iqueue i) /\
    queue_data (iqueue i') + b = queue_data (iqueue i) /\
    (ipartial i' = len \/ queue_data (iqueue i') = 0).
Proof.
  intros Hq Hp Hd Ha. unfold b2a_body. cbn [in_length in_data]. case_decide as Hc.
  2:{ exists i, d, 0. split_and!; try done; try lia. }
  set (b := if decide _ then _ else _).
  assert (b <= queue_data (iqueue i) /\ ipartial i + b <= len /\
          (ipartial i + b = len \/ b = queue_data (iqueue i))) as (Hb & Hbl & Hbe).
  { unfold b. case_decide; lia. }
  rewrite queue_read by done. rewrite bind_Some, bind_Some.
  pose proof (contents_length _ Hq) as Hcl.
  pose proof (mem_write_extend (take (ipartial i) d) (drop (ipartial i) d) (take b (contents (iqueue i))) (ipartial i)) as Hw.
  rewrite take_drop in Hw. rewrite Hw by px_len. clear Hw. rewrite bind_Some.
  destruct (queue_r_ok _ b Hq Hb) as (Hq' & Hc' & Hs').
  assert (length (take b (contents (iqueue i))) = b) as Hlb by px_len.
  eexists _, _, b. split; [done|]. cbn [iqueue ipkts ipartial upd in_eta].
  split_and!; try done.
  - px_len.
  - rewrite announced_app by px_len. rewrite announced_take by lia. done.
  - rewrite Hc'. rewrite app_assoc, take_app_length' by px_len.
    by rewrite <- app_assoc, take_drop.
  - pose proof (contents_length _ Hq') as Hl'. rewrite Hc', length_drop in Hl'. lia.
  - destruct Hbe as [?|Hbe]; [by left|right].
    pose proof (contents_length _ Hq') as Hl'. rewrite Hc', length_drop in Hl'. lia.
Qed.

Lemma hdr_of_bytes_4 h :
  length h = 4 -> exists hd, hdr_of_bytes h = Some hd /\ Z.to_nat (pkt_length hd) + 4 = announced h.
Proof.
  intros Hl. destruct h as [|a [|b [|c [|d [|]]]]]; try done. eexists. split; done.
Qed.

Lemma b2a_header_ok junk i p :
  queue_ok (iqueue i) -> in_length p = 0 -> 4 <= queue_data (iqueue i) ->
  exists i' len d, b2a_header junk i p = Some (i', mkInPkt len (Some d), 4) /\
    queue_ok (iqueue i') /\ size (iqueue i') = size (iqueue i) /\ ipkts i' = ipkts i /\
    length d = len /\ announced d = len /\ 4 <= len /\ ipartial i' = 4 /\
    take 4 d ++ contents (iqueue i') = contents (iqueue i) /\
    queue_data (iqueue i') + 4 = queue_data (iqueue i).
Proof.
  intros Hq Hp Hd. unfold b2a_header. rewrite decide_True by (unfold sizeof_mysql_hdr; lia).
  rewrite queue_read by done. rewrite bind_Some. pose proof (contents_length _ Hq) as Hcl.
  set (h := take sizeof_mysql_hdr (contents (iqueue i))).
  assert (length h = 4) as Hh by (unfold h, sizeof_mysql_hdr; px_len).
  destruct (hdr_of_bytes_4 h Hh) as (hd & -> & Hlen). rewrite bind_Some.
  change sizeof_mysql_hdr with 4. rewrite Hlen. pose proof (announced_ge h).
  pose proof (mem_write_extend [] (block junk (announced h)) h 0 eq_refl) as Hw. cbn [app] in Hw.
  rewrite Hw by (rewrite length_block; lia). rewrite bind_Some.
  destruct (queue_r_ok _ 4 Hq Hd) as (Hq' & Hc' & Hs').
  eexists _, _, _. split; [done|]. cbn [iqueue ipkts ipartial upd in_eta]. split_and!; try done.
  - rewrite length_app, length_drop, length_block. lia.
  - by rewrite announced_app by lia.
  - rewrite <- Hh at 1. rewrite take_app_length, Hc'. apply take_drop.
  - pose proof (contents_length _ Hq') as Hl'. rewrite Hc', length_drop in Hl'. lia.
Qed.

(** The fields [buffer2array] does not touch. *)
Definition same_rest (a b : mysql_data_stream_t) : Prop :=
  output a = output b /\ fd a = fd b /\ active a = active b /\ has_mybe a = has_mybe b /\
  bytes_recv a = bytes_recv b /\ bytes_sent a = bytes_sent b /\ pkts_sent a = pkts_sent b /\
  active_transaction a = active_transaction b.

#[export] Instance same_rest_equiv : Equivalence same_rest.
Proof. split; unfold same_rest; repeat intro; naive_solver congruence. Qed.

(** A 64-bit counter after [n] increments. *)
Definition counted (n : nat) (c : Z) : Z := Nat.iter n (fun c => u64 (c + 1)) c.

Lemma counted_add a b c : counted (a + b) c = counted b (counted a c).
Proof. unfold counted. rewrite Nat.add_comm. by rewrite Nat.iter_add. Qed.

(** What one call establishes. *)
Record b2a_post (ds : mysql_data_stream_t) (ret : nat) (ds' : mysql_data_stream_t) : Prop := {
  bp_ok : input_ok (input ds');
  bp_stream : in_stream (input ds') = in_stream (input ds);
  bp_rest : same_rest ds' ds;
  bp_size : size (iqueue (input ds')) = size (iqueue (input ds));
  bp_data : queue_data (iqueue (input ds')) + ret = queue_data (iqueue (input ds));
  bp_pkts : exists new, ipkts (input ds') = ipkts (input ds) ++ new /\ pkts_recv ds' = counted (length new) (pkts_recv ds);
  bp_drained : ret = 0 -> drained (input ds')
}.

Lemma partial_incomplete i :
  input_ok i -> queue_data (iqueue i) = 0 -> incomplete (partial_bytes i ++ contents (iqueue i)).
Proof.
  intros [Hq _ Hp] H0. pose proof (contents_length _ Hq) as Hc. rewrite H0 in Hc.
  apply nil_length_inv in Hc. rewrite Hc, app_nil_r. unfold partial_bytes, partial_ok in *.
  destruct (imypkt i) as [[len [d|]]|]; simpl in *; [|left; simpl; lia..].
  right. rewrite announced_take by lia. rewrite length_take. lia.
Qed.

(** The last step: a complete packet is moved into the array. *)
Lemma b2a_deliver ds i ret len d :
  input_ok (input ds) -> queue_ok (iqueue i) -> size (iqueue i) = size (iqueue (input ds)) ->
  ipkts i = ipkts (input ds) -> length d = len -> announced d = len -> 4 <= ipartial i <= len ->
  take (ipartial i) d ++ contents (iqueue i) = partial_bytes (input ds) ++ contents (iqueue (input ds)) ->
  queue_data (iqueue i) + ret = queue_data (iqueue (input ds)) -> ret <> 0 ->
  exists ds', (if decide (0 < len /\ len = ipartial i) then
      d ← Some d;
      Some (ret, ds <| input := i <| ipkts := ipkts i ++ [mkPkt len d] |> <| imypkt := None |> |>
                    <| pkts_recv := u64 (pkts_recv ds + 1) |>)
    else Some (ret, ds <| input := i <| imypkt := Some (mkInPkt len (Some d)) |> |>)) = Some (ret, ds') /\
    b2a_post ds ret ds'.
Proof.
  intros Hok Hq Hsz Hpk Hd Ha Hp Hst Hqd Hret. destruct Hok as [_ Hpks _].
  case_decide as Hc; rewrite ?bind_Some; (eexists; split; [done|]).
  - constructor; cbn [input upd ds_eta in_eta iqueue ipkts imypkt ipartial]; [..|done].
    + constructor; simpl; [done| |done]. rewrite Hpk. apply Forall_app. split; [done|].
      apply Forall_singleton. split; simpl; [lia|]. split; lia.
    + unfold in_stream. simpl. rewrite Hpk, fmap_app, mjoin_app, <- app_assoc. f_equal.
      simpl. rewrite app_nil_r, <- Hst. cbn [partial_bytes imypkt]. rewrite take_ge by lia. done.
    + repeat split.
    + done.
    + done.
    + rewrite Hpk. by eexists.
  - constructor; cbn [input upd ds_eta in_eta iqueue ipkts imypkt ipartial]; [..|done].
    + constructor; simpl; [done|by rewrite Hpk|]. split_and!; lia.
    + unfold in_stream. simpl. rewrite Hpk. f_equal. rewrite <- Hst. done.
    + repeat split.
    + done.
    + done.
    + exists []. by rewrite app_nil_r.
Qed.

Lemma buffer2array_ok junk ds :
  input_ok (input ds) -> exists ret ds', buffer2array junk ds = Some (ret, ds') /\ b2a_post ds ret ds'.
Proof.
  intros Hok. pose proof Hok as [Hq Hpks Hpart]. unfold buffer2array. case_decide as H0.
  { exists 0, ds. split; [done|]. constructor; [done|done|reflexivity|done|lia| |].
    - exists []. by rewrite app_nil_r.
    - intros _. split; [by apply partial_incomplete|].
      destruct Hq as [_ ? ?]. unfold queue_data in H0. split; unfold queue_data; lia. }
  set (p := match imypkt (input ds) with Some p => p | None => mkInPkt 0 None end).
  destruct (in_data p) as [d|] eqn:Hd.
  - (* a packet is being read *)
    assert (imypkt (input ds) = Some p) as Hmy by (destruct (imypkt (input ds)); [done|by unfold p in Hd]).
    rewrite Hmy in Hpart. cbn [partial_ok] in Hpart. rewrite Hd in Hpart. destruct Hpart as (Hp & Hl & Ha).
    rewrite decide_False by lia. rewrite bind_Some.
    unfold b2a_header. rewrite decide_False by lia. rewrite bind_Some.
    destruct p as [len od]. simpl in Hd. subst od. cbn [in_length] in *.
    destruct (b2a_body_ok ((input ds) <| iqueue := iqueue (input ds) |>) len d) as
      (i & d' & b & -> & Hqi & Hsi & Hpi & Hl' & Ha' & Hpa & Hle & Hst & Hqd & Hend); [done|simpl; lia|done|done|].
    simpl in Hst, Hqd, Hsi, Hpi, Hpa, Hle. rewrite bind_Some. cbn [in_length in_data].
    destruct (b2a_deliver ds i (0 + b) len d') as (ds' & -> & Hpost); eauto.
    + rewrite Hpa. split; lia.
    + unfold partial_bytes. by rewrite Hmy.
    + destruct Hend; simpl in *; lia.
  - (* no header yet *)
    assert (in_length p = 0) as Hp0.
    { unfold p in *. destruct (imypkt (input ds)) as [p'|]; [|done]. simpl in Hpart. by rewrite Hd in Hpart. }
    assert (partial_bytes (input ds) = []) as Hpb.
    { unfold partial_bytes, p in *. destruct (imypkt (input ds)) as [[? [|]]|]; done. }
    case_decide as Hlt.
    + destruct (queue_zero_ok _ Hq) as (q & -> & Hq' & Hc & Hs & Ht). rewrite bind_Some.
      assert (queue_data q = queue_data (iqueue (input ds))) as Hqd.
      { by rewrite <- !contents_length, Hc by done. }
      unfold b2a_header. cbn [iqueue upd]. unfold sizeof_mysql_hdr in *.
      rewrite decide_False by (cbn [iqueue upd in_eta]; lia). rewrite bind_Some.
      unfold b2a_body. rewrite decide_False by lia. rewrite bind_Some. rewrite decide_False by lia.
      eexists 0, _. split; [done|]. constructor; cbn [input upd ds_eta in_eta iqueue ipkts imypkt ipartial].
      * constructor; simpl; [done|done|]. by rewrite Hd.
      * unfold in_stream. simpl. rewrite Hpb, Hc. unfold partial_bytes. simpl.
        destruct p as [? od]. simpl in Hd. by subst.
      * repeat split.
      * done.
      * lia.
      * exists []. by rewrite app_nil_r.
      * intros _. split_and!; simpl; [|done|lia]. left. unfold partial_bytes. simpl.
        destruct p as [? od]. simpl in Hd. subst. simpl. rewrite contents_length by done. lia.
    + rewrite bind_Some. unfold sizeof_mysql_hdr in Hlt.
      destruct (b2a_header_ok junk ((input ds) <| iqueue := iqueue (input ds) |>) p) as
        (i & len & d & -> & Hqi & Hsi & Hpi & Hl & Ha & Hlen & Hpa & Hst & Hqd); [done|done|simpl; lia|].
      rewrite bind_Some.
      destruct (b2a_body_ok i len d) as
        (i' & d' & b & -> & Hqi' & Hsi' & Hpi' & Hl' & Ha' & Hpa' & Hle' & Hst' & Hqd' & _); [done|lia|done|done|].
      simpl in Hst, Hqd, Hsi, Hpi. rewrite bind_Some. cbn [in_length in_data].
      destruct (b2a_deliver ds i' (4 + b) len d') as (ds' & -> & Hpost); eauto; try congruence; try lia.
      rewrite Hpb, Hst', Hpa. done.
Qed.

Lemma drain_input_ok junk fuel : forall ds,
  input_ok (input ds) -> (0 < fd ds)%Z -> queue_data (iqueue (input ds)) < fuel ->
  exists ds', drain_input fuel junk ds = Some ds' /\ input_ok (input ds') /\
    in_stream (input ds') = in_stream (input ds) /\ same_rest ds' ds /\
    size (iqueue (input ds')) = size (iqueue (input ds)) /\ drained (input ds') /\
    exists new, ipkts (input ds') = ipkts (input ds) ++ new /\ pkts_recv ds' = counted (length new) (pkts_recv ds).
Proof.
  induction fuel as [|fuel IH]; intros ds Hok Hfd Hf; [lia|]. cbn [drain_input].
  destruct (buffer2array_ok junk ds Hok) as (ret & ds1 & -> & [Hok1 Hst1 Hr1 Hs1 Hd1 (n1 & Hp1 & Hn1) Hdr1]).
  rewrite bind_Some. assert (fd ds1 = fd ds) as Hfd1 by apply Hr1. case_decide as Hc.
  - destruct (IH ds1 Hok1) as (ds2 & -> & Hok2 & Hst2 & Hr2 & Hs2 & Hdr2 & n2 & Hp2 & Hn2); [lia|lia|].
    exists ds2. split_and!; [done|done|congruence|by etrans|congruence|done|].
    exists (n1 ++ n2). by rewrite Hp2, Hp1, app_assoc, Hn2, Hn1, length_app, counted_add.
  - exists ds1. split_and!; [done..| |eauto]. apply Hdr1. destruct (decide (ret = 0)); [done|]. lia.
Qed.

Lemma read_from_net_ok bs ds :
  input_ok (input ds) -> bs <> [] -> length bs <= queue_available (iqueue (input ds)) ->
  exists ds', read_from_net (Some bs) ds =
      Some (Z.of_nat (length bs), ds', mkEff false (if has_mybe ds then Z.of_nat (length bs) else 0) 0) /\
    input_ok (input ds') /\ in_stream (input ds') = in_stream (input ds) ++ bs /\
    fd ds' = fd ds /\ output ds' = output ds /\ active ds' = active ds /\
    ipkts (input ds') = ipkts (input ds) /\
    size (iqueue (input ds')) = size (iqueue (input ds)).
Proof.
  intros [Hq Hp Hpart] Hne Hlen. unfold read_from_net. destruct bs as [|b bs]; [done|].
  destruct (queue_append _ _ Hq Hlen) as (buf & -> & Hq' & Hc' & Hs' & Hd'). rewrite bind_Some.
  eexists. split; [done|]. cbn [input upd ds_eta in_eta iqueue ipkts imypkt ipartial]. split_and!; [|..|done|done|done|done|done].
  - by constructor.
  - unfold in_stream. simpl. rewrite <- !app_assoc. do 2 f_equal. exact Hc'.
Qed.

(** Read and drain, once per chunk the kernel delivers. *)
Fixpoint feed (junk : nat -> byte) (ds : mysql_data_stream_t) (chunks : list (list byte))
  : option mysql_data_stream_t :=
  match chunks with
  | [] => Some ds
  | c :: cs =>
      '(_, ds, _) ← read_from_net (Some c) ds;
      ds ← drain_input (S (queue_data (iqueue (input ds)))) junk ds;
      feed junk ds cs
  end.

Lemma new_input_ok junk n mybe sock :
  input_ok (input (mysql_data_stream_new junk n mybe sock)) /\
  in_stream (input (mysql_data_stream_new junk n mybe sock)) = [] /\
  drained (input (mysql_data_stream_new junk n mybe sock)).
Proof.
  destruct (queue_init_ok junk n) as [Hq Hc]. split_and!.
  - by constructor.
  - unfold in_stream. simpl. by rewrite Hc.
  - split_and!; simpl; [|done|unfold queue_data; simpl; lia]. left. rewrite Hc. simpl. lia.
Qed.

(** What [recv] promises: each read returns between one byte and as many as the buffer had room for. *)
Fixpoint received (junk : nat -> byte) (ds : mysql_data_stream_t) (chunks : list (list byte)) : Prop :=
  match chunks with
  | [] => True
  | c :: cs => 1 <= length c <= queue_available (iqueue (input ds)) /\ forall ds', feed junk ds [c] = Some ds' -> received junk ds' cs
  end.

Lemma feed_app junk cs : forall ds cs', feed junk ds (cs ++ cs') = feed junk ds cs ≫= fun ds => feed junk ds cs'.
Proof.
  induction cs as [|c cs IH]; intros ds cs'; [done|]. cbn [app feed]. destruct (read_from_net (Some c) ds) as [[[r ds1] e]|]; [|done].
  rewrite !bind_Some. destruct (drain_input _ junk ds1) as [ds2|]; [|done]. rewrite !bind_Some. apply IH.
Qed.

Lemma feed_ok junk chunks : forall ds,
  input_ok (input ds) -> (0 < fd ds)%Z -> drained (input ds) -> received junk ds chunks ->
  exists ds', feed junk ds chunks = Some ds' /\ input_ok (input ds') /\ drained (input ds') /\ size (iqueue (input ds')) = size (iqueue (input ds)) /\
    in_stream (input ds') = in_stream (input ds) ++ mjoin chunks.
Proof.
  induction chunks as [|c cs IH]; intros ds Hok Hfd Hdr Hch.
  { exists ds. rewrite mjoin_nil, app_nil_r. done. }
  destruct Hch as [Hc Hcs].
  destruct (read_from_net_ok c ds Hok) as (ds1 & E1 & Hok1 & Hst1 & Hfd1 & _ & _ & _ & Hsz1).
  { intros ->. simpl in Hc. lia. }
  { lia. }
  destruct (drain_input_ok junk (S (queue_data (iqueue (input ds1)))) ds1 Hok1) as
    (ds2 & E2 & Hok2 & Hst2 & Hr2 & Hs2 & Hdr2 & _); [lia|lia|].
  assert (feed junk ds [c] = Some ds2) as E by (cbn [feed]; by rewrite E1, bind_Some, E2, bind_Some).
  destruct (IH ds2 Hok2) as (ds3 & E3 & Hok3 & Hdr3 & Hsz3 & Hst3); [destruct Hr2 as (_ & -> & _); lia|done|by apply Hcs|].
  exists ds3. change (c :: cs) with ([c] ++ cs). rewrite feed_app, E, bind_Some. split_and!; [done..|congruence|].
  rewrite Hst3, Hst2, Hst1, mjoin_app, mjoin_cons, mjoin_nil, app_nil_r. by rewrite app_assoc.
Qed.

(** There is always room for all of the buffer but three bytes. *)
Lemma drained_room i : input_ok i -> drained i -> size (iqueue i) - 3 <= queue_available (iqueue i).
Proof. intros _ (_ & Ht & Hd). unfold queue_data in Hd. unfold queue_available. lia. Qed.

(** Reading leaves the counters of packets alone. *)
Lemma read_from_net_frame bs ds r ds' e :
  read_from_net (Some bs) ds = Some (r, ds', e) -> bs <> [] ->
  pkts_recv ds' = pkts_recv ds /\ pkts_sent ds' = pkts_sent ds /\ has_mybe ds' = has_mybe ds.
Proof. intros H Hne. destruct bs as [|b bs]; [done|]. unfold read_from_net in H. px_run H. by simplify_eq. Qed.

Lemma pkts_by_data ps qs : Forall wf_pkt ps -> Forall wf_pkt qs -> data <$> ps = data <$> qs -> ps = qs.
Proof.
  revert qs. induction ps as [|p ps IH]; intros [|q qs] Hp Hq H; try done. apply Forall_cons in Hp as [[Hp _] Hps].
  apply Forall_cons in Hq as [[Hq _] Hqs]. rewrite !fmap_cons in H. injection H as H1 H2. f_equal; [|by apply IH].
  destruct p, q. simpl in *. congruence.
Qed.

(** A stream that holds nothing and gets whole packets hands over exactly those. *)
Lemma read_whole_packets junk ds ps :
  input_ok (input ds) -> drained (input ds) -> in_stream (input ds) = [] -> (0 < fd ds)%Z ->
  Forall wf_pkt ps -> ps <> [] -> length (mjoin (data <$> ps)) <= queue_available (iqueue (input ds)) ->
  exists ds1 ds2 e, read_from_net (Some (mjoin (data <$> ps))) ds = Some (Z.of_nat (length (mjoin (data <$> ps))), ds1, e) /\
    net_failure e = false /\ drain_input (S (queue_data (iqueue (input ds1)))) junk ds1 = Some ds2 /\
    input_ok (input ds2) /\ drained (input ds2) /\ ipkts (input ds2) = ps /\ output ds1 = output ds /\ fd ds1 = fd ds /\
    output ds2 = output ds /\ fd ds2 = fd ds /\ active ds1 = active ds /\ active ds2 = active ds /\
    pkts_recv ds2 = counted (length ps) (pkts_recv ds) /\ pkts_sent ds2 = pkts_sent ds /\
    size (iqueue (input ds2)) = size (iqueue (input ds)) /\ in_stream (input ds2) = mjoin (data <$> ps).
Proof.
  intros Hok Hdr Hst Hfd Hps Hne Hlen. set (bs := mjoin (data <$> ps)) in *.
  assert (bs <> []) as Hbs.
  { destruct ps as [|p ps]; [done|]. apply Forall_cons in Hps as [[_ [H4 _]] _]. unfold bs. rewrite fmap_cons, mjoin_cons.
    destruct (data p); [simpl in H4; lia|done]. }
  destruct (read_from_net_ok bs ds Hok Hbs Hlen) as (ds1 & Hr & Hok1 & Hst1 & Hfd1 & Ho1 & Ha1 & Hp1 & Hs1).
  destruct (read_from_net_frame _ _ _ _ _ Hr Hbs) as (Hc1 & Hc2 & _).
  destruct (drain_input_ok junk (S (queue_data (iqueue (input ds1)))) ds1 Hok1) as
    (ds2 & Hd & Hok2 & Hst2 & Hr2 & Hs2 & Hdr2 & new & Hn & Hcnt); [lia|lia|].
  destruct Hr2 as (Ho2 & Hfd2 & Ha2 & _ & _ & _ & Hps2 & _).
  exists ds1, ds2. eexists. split; [exact Hr|]. split; [done|].
  assert (ipkts (input ds2) = ps) as Hi.
  { apply pkts_by_data; [apply Hok2|done|]. pose proof Hst2 as E. rewrite Hst1, Hst in E. cbn [app] in E. unfold in_stream in E.
    apply (f_equal frames) in E. rewrite frames_unique in E.
    - unfold bs in E. rewrite <- (app_nil_r (mjoin (data <$> ps))), frames_unique in E; [congruence| |left; simpl; lia].
      apply Forall_fmap. eapply Forall_impl; [exact Hps|]. intros p [_ H]. exact H.
    - apply Forall_fmap. eapply Forall_impl; [apply Hok2|]. intros p [_ H]. exact H.
    - apply Hdr2. }
  assert (ipkts (input ds) = []) as Hi0.
  { destruct Hok as [_ Hp0 _]. unfold in_stream in Hst. apply app_eq_nil in Hst as [Hst _].
    destruct (ipkts (input ds)) as [|p0 ?]; [done|]. apply Forall_cons in Hp0 as [[_ [H4 _]] _].
    rewrite fmap_cons, mjoin_cons in Hst. apply app_eq_nil in Hst as [Hst _]. rewrite Hst in H4. simpl in H4. lia. }
  rewrite Hp1, Hi0 in Hn. simpl in Hn. rewrite Hst1, Hst in Hst2. split_and!; (done || congruence).
Qed.

(** C7: framing does not depend on how the network splits the stream: however the bytes are cut into reads, each of at least one byte and of at most the room the buffer
    has at that moment, which is all that [recv] promises, the packets a fresh stream hands to the session are exactly the packets of the byte stream (those the reference
    parser cuts out of the concatenation), each with its announced length, and the bytes kept back are the unfinished tail.  No read goes outside of the buffer, the
    loops end, and there is always room for the next read, of all the buffer but at most three bytes.  The buffer has at least four bytes, and the [memcpy] of [queue_zero], whose areas may overlap
    (which C leaves undefined), is taken to copy from the lowest byte on. *)
Theorem framing_independent_of_chunking junk n mybe sock chunks :
  4 <= n -> (0 < sock)%Z -> received junk (mysql_data_stream_new junk n mybe sock) chunks ->
  exists ds, feed junk (mysql_data_stream_new junk n mybe sock) chunks = Some ds /\
    frames (mjoin chunks) = (data <$> ipkts (input ds), partial_bytes (input ds) ++ contents (iqueue (input ds))) /\
    Forall (fun p => length (data p) = length_of p) (ipkts (input ds)) /\ n - 3 <= queue_available (iqueue (input ds)).
Proof.
  intros Hn Hs Hch. destruct (new_input_ok junk n mybe sock) as (Hok & Hst & Hdr).
  destruct (feed_ok junk chunks _ Hok) as (ds & -> & Hok' & Hdr' & Hsz & Hst'); [done|done|done|].
  exists ds. split; [done|]. rewrite Hst in Hst'. cbn [app] in Hst'. rewrite <- Hst'.
  pose proof (in_pkts _ Hok') as Hpk. split; [|split].
  - apply frames_unique; [|apply Hdr']. apply Forall_fmap. eapply Forall_impl; [done|]. by intros p [_ ?].
  - eapply Forall_impl; [done|]. by intros p [? _].
  - pose proof (drained_room _ Hok' Hdr') as Hr. rewrite Hsz in Hr. exact Hr.
Qed.

(** Reads that leave three bytes of the buffer free are always such reads. *)
Lemma received_small junk chunks : forall ds, input_ok (input ds) -> (0 < fd ds)%Z -> drained (input ds) ->
  Forall (fun c => 1 <= length c <= size (iqueue (input ds)) - 3) chunks -> received junk ds chunks.
Proof.
  induction chunks as [|c cs IH]; intros ds Hok Hfd Hdr Hch; [done|]. apply Forall_cons in Hch as [Hc Hcs].
  pose proof (drained_room _ Hok Hdr). split; [lia|]. intros ds' E.
  destruct (read_from_net_ok c ds Hok) as (ds1 & E1 & Hok1 & _ & Hfd1 & _ & _ & _ & Hsz1); [intros ->; simpl in Hc; lia|lia|].
  destruct (drain_input_ok junk (S (queue_data (iqueue (input ds1)))) ds1 Hok1) as (ds2 & E2 & Hok2 & _ & Hr2 & Hs2 & Hdr2 & _); [lia|lia|].
  cbn [feed] in E. rewrite E1, bind_Some, E2, bind_Some in E. injection E as <-.
  apply IH; [done|destruct Hr2 as (_ & -> & _); lia|done|]. by rewrite Hs2, Hsz1.
Qed.

Lemma framing_independent_of_chunking_witness :
  exists ds, feed (fun _ => Byte.xaa) (mysql_data_stream_new (fun _ => Byte.xaa) 8 false 5)
      [[Byte.x01; Byte.x00]; [Byte.x00; Byte.x00; Byte.x0e; Byte.x02; Byte.x00]] = Some ds /\
    frames (mjoin [[Byte.x01; Byte.x00]; [Byte.x00; Byte.x00; Byte.x0e; Byte.x02; Byte.x00]]) =
      (data <$> ipkts (input ds), partial_bytes (input ds) ++ contents (iqueue (input ds))).
Proof.
  destruct (framing_independent_of_chunking (fun _ => Byte.xaa) 8 false 5
    [[Byte.x01; Byte.x00]; [Byte.x00; Byte.x00; Byte.x0e; Byte.x02; Byte.x00]]) as (ds & H1 & H2 & _).
  - lia.
  - lia.
  - destruct (new_input_ok (fun _ => Byte.xaa) 8 false 5) as (H1 & _ & H3). apply received_small; [done|done|done|]. repeat constructor; simpl; lia.
  - exists ds. split; [exact H1|exact H2].
Defined.

(** ** Invariant of the output side *)

Record output_ok (o : mysql_uni_out) : Prop := {
  out_queue : queue_ok (oqueue o);
  out_pkts : Forall wf_pkt (opkts o);
  out_partial : match omypkt o with
                | None => opartial o = 0
                | Some p => wf_pkt p /\ 0 < opartial o < length_of p
                end
}.

(** The bytes that are still to be sent, in order. *)
Definition out_pending (o : mysql_uni_out) : list byte :=
  contents (oqueue o) ++
  match omypkt o with Some p => drop (opartial o) (data p) | None => [] end ++
  mjoin (data <$> opkts o).

(** Copying [b] bytes of packet [p] from offset [k]. *)
Lemma a2b_copy q p k :
  queue_ok q -> length (data p) = length_of p -> k < length_of p -> queue_available q <> 0 ->
  let rest := length_of p - k in
  let b := if decide (rest < queue_available q) then rest else queue_available q in
  0 < b /\ k + b <= length_of p /\
  exists src buf, mem_read k b (data p) = Some src /\ mem_write (head q) src (buffer q) = Some buf /\
    let q' := queue_w (q <| buffer := buf |>) b in
    queue_ok q' /\ size q' = size q /\ contents q' ++ drop (k + b) (data p) = contents q ++ drop k (data p) /\
    queue_available q' + b = queue_available q.
Proof.
  intros Hq Hl Hk Hav rest b.
  assert (0 < b /\ k + b <= length_of p /\ b <= queue_available q) as (Hb & Hkb & Hbq).
  { unfold b, rest. case_decide; lia. }
  split_and!; [done|done|]. unfold mem_read. rewrite decide_True by lia.
  assert (length (take b (drop k (data p))) = b) as Hsl by px_len.
  destruct (queue_append q (take b (drop k (data p))) Hq) as (buf & Hw & Hok); [lia|].
  rewrite Hsl in Hok. destruct Hok as (Hq' & Hc' & Hs' & Hd').
  eexists _, buf. split; [done|]. split; [exact Hw|]. split_and!; [done|done| |].
  - rewrite Hc', <- app_assoc. f_equal. rewrite <- drop_drop. apply take_drop.
  - unfold queue_available in *. simpl. lia.
Qed.

Lemma array2buffer_ok ds :
  output_ok (output ds) ->
  exists ret ds', array2buffer ds = Some (ret, ds') /\ output_ok (output ds') /\
    out_pending (output ds') = out_pending (output ds) /\
    input ds' = input ds /\ active ds' = active ds /\ fd ds' = fd ds /\
    size (oqueue (output ds')) = size (oqueue (output ds)) /\
    queue_available (oqueue (output ds')) + ret = queue_available (oqueue (output ds)) /\
    (ret = 0 -> ds' = ds /\ (queue_available (oqueue (output ds)) = 0 \/ opkts (output ds) = [] /\ omypkt (output ds) = None)).
Proof.
  intros [Hq Hpk Hpa]. unfold array2buffer. case_decide as Hav.
  { exists 0, ds. split_and!; [done|by constructor|done..|lia|auto]. }
  destruct (omypkt (output ds)) as [p|] eqn:Hmy.
  - destruct Hpa as [[Hl Hf] Hpar]. rewrite decide_False by lia. rewrite Hmy, bind_Some.
    destruct (a2b_copy (oqueue (output ds)) p (opartial (output ds)) Hq Hl) as
      (Hb & Hkb & src & buf & -> & Hrest); [lia|done|]. rewrite bind_Some.
    destruct Hrest as (-> & Hq' & Hs' & Hc' & Ha'). rewrite bind_Some.
    set (b := if decide _ then _ else _) in *. cbn [opartial upd out_eta].
    case_decide as Hend; (eexists b, _; split; [done|]);
      cbn [output upd ds_eta out_eta oqueue opkts omypkt opartial input active fd];
      (split_and!; [|..|done|done|done|done|done|lia]).
    + by constructor.
    + unfold out_pending. simpl. rewrite Hmy. rewrite !app_assoc. f_equal. rewrite <- Hc'.
      rewrite Hend, (drop_ge (data p)) by lia. by rewrite app_nil_r.
    + constructor; simpl; [done|done|]. rewrite Hmy. split; [done|lia].
    + unfold out_pending. simpl. rewrite Hmy. rewrite !app_assoc. f_equal. exact Hc'.
  - rewrite Hpa, decide_True by done. destruct (opkts (output ds)) as [|p ps] eqn:Hps.
    { exists 0, ds. split_and!; [done| |done..|lia|auto].
      constructor; rewrite ?Hmy, ?Hps; auto. }
    apply Forall_cons in Hpk as [[Hl Hf] Hpk]. cbn [omypkt upd out_eta opartial]. rewrite bind_Some.
    assert (4 <= length_of p) as H4 by (destruct Hf; lia). rewrite Hpa.
    destruct (a2b_copy (oqueue (output ds)) p 0 Hq Hl) as
      (Hb & Hkb & src & buf & -> & Hrest); [lia|done|]. rewrite bind_Some.
    cbn [oqueue upd out_eta] in *. destruct Hrest as (-> & Hq' & Hs' & Hc' & Ha'). rewrite bind_Some.
    set (b := if decide _ then _ else _) in *. cbn [opartial upd out_eta].
    case_decide as Hend; (eexists b, _; split; [done|]);
      cbn [output upd ds_eta out_eta oqueue opkts omypkt opartial input active fd];
      (split_and!; [|..|done|done|done|done|done|lia]).
    + by constructor.
    + unfold out_pending. simpl. rewrite Hmy, Hps. simpl. rewrite !app_assoc. f_equal.
      change (drop 0 (data p)) with (data p) in Hc'. rewrite <- Hc'.
      rewrite (drop_ge (data p)) by lia. by rewrite app_nil_r.
    + constructor; simpl; [done|done|]. split; [done|lia].
    + unfold out_pending. simpl. rewrite Hmy, Hps. simpl. rewrite !app_assoc. f_equal. exact Hc'.
Qed.

Lemma fill_output_ok fuel : forall ds,
  output_ok (output ds) -> queue_available (oqueue (output ds)) < fuel ->
  exists ds', fill_output fuel ds = Some ds' /\ output_ok (output ds') /\
    out_pending (output ds') = out_pending (output ds) /\ input ds' = input ds /\
    active ds' = active ds /\ fd ds' = fd ds /\ size (oqueue (output ds')) = size (oqueue (output ds)) /\
    (queue_available (oqueue (output ds')) = 0 \/ contents (oqueue (output ds')) = out_pending (output ds)).
Proof.
  induction fuel as [|fuel IH]; intros ds Hok Hf; [lia|]. cbn [fill_output].
  destruct (array2buffer_ok ds Hok) as (ret & ds1 & -> & Hok1 & Hp1 & Hi1 & Ha1 & Hfd1 & Hs1 & Hq1 & H01).
  rewrite bind_Some. case_decide as Hc.
  - destruct (IH ds1 Hok1) as (ds2 & -> & Hok2 & Hp2 & Hi2 & Ha2 & Hfd2 & Hs2 & Hend); [lia|].
    exists ds2. split_and!; (done || congruence).
  - destruct (decide (ret = 0)) as [->|]; [|tauto]. destruct (H01 eq_refl) as [-> Hend].
    exists ds. split_and!; try done. destruct Hend as [?|[He1 He2]]; [by left|right].
    unfold out_pending. rewrite He1, He2. simpl. by rewrite app_nil_r.
Qed.

(** The packets that are not yet completely in the buffer. *)
Definition unsent (o : mysql_uni_out) : nat := length (opkts o) + match omypkt o with Some _ => 1 | None => 0 end.

(** Copying changes only the output side and counts the packets it finishes. *)
Lemma array2buffer_counts ds ret ds' :
  output_ok (output ds) -> array2buffer ds = Some (ret, ds') ->
  exists o k, ds' = ds <| output := o |> <| pkts_sent := counted k (pkts_sent ds) |> /\ k + unsent o = unsent (output ds).
Proof.
  intros [_ _ Hpa] H. unfold array2buffer in H. case_decide.
  { simplify_eq. exists (output ds'), 0. split; [by destruct ds'|done]. }
  unfold unsent. destruct (omypkt (output ds)) as [p|] eqn:Hmy.
  - rewrite decide_False in H by lia. rewrite Hmy, bind_Some in H.
    px_run H. px_run H. case_decide; simplify_eq.
    + eexists _, 1. split; [reflexivity|]. simpl. lia.
    + eexists _, 0. split; [cbn; reflexivity|]. simpl. rewrite Hmy. lia.
  - rewrite Hpa, decide_True in H by done. destruct (opkts (output ds)) as [|p ps] eqn:Hps.
    { simplify_eq. exists (output ds'), 0. split; [by destruct ds'|]. by rewrite Hps, Hmy. }
    cbn [omypkt upd out_eta] in H. rewrite bind_Some in H.
    px_run H. px_run H. case_decide; simplify_eq.
    + eexists _, 1. split; [reflexivity|]. simpl. lia.
    + eexists _, 0. split; [cbn; reflexivity|]. simpl. lia.
Qed.

Lemma fill_output_counts fuel : forall ds ds',
  output_ok (output ds) -> fill_output fuel ds = Some ds' ->
  exists o k, ds' = ds <| output := o |> <| pkts_sent := counted k (pkts_sent ds) |> /\ k + unsent o = unsent (output ds).
Proof.
  induction fuel as [|fuel IH]; intros ds ds' Hok H; [done|]. cbn [fill_output] in H.
  apply bind_inv in H as ([ret ds1] & Ha & H).
  destruct (array2buffer_ok ds Hok) as (ret' & ds1' & Ha' & Hok1 & _). rewrite Ha in Ha'. simplify_eq.
  destruct (array2buffer_counts _ _ _ Hok Ha) as (o & k & -> & Hk). case_decide as Hc; [|simplify_eq; by eexists _, _].
  destruct (IH _ _ Hok1 H) as (o' & k' & -> & Hk'). exists o', (k + k'). split.
  - cbn. by rewrite counted_add.
  - cbn in Hk'. lia.
Qed.

(** The next packet fits: it is copied whole. *)
Lemma a2b_next ds p ps :
  output_ok (output ds) -> omypkt (output ds) = None -> opkts (output ds) = p :: ps ->
  length_of p <= queue_available (oqueue (output ds)) ->
  exists q, array2buffer ds = Some (length_of p, ds <| output := mkOut q ps 0 None |> <| pkts_sent := counted 1 (pkts_sent ds) |>) /\
    output_ok (mkOut q ps 0 None) /\ size q = size (oqueue (output ds)) /\ 0 < length_of p /\
    contents q = contents (oqueue (output ds)) ++ data p /\ queue_available q + length_of p = queue_available (oqueue (output ds)).
Proof.
  intros [Hq Hpk Hpa] Hm Hp Hfit. rewrite Hm in Hpa. rewrite Hp in Hpk. apply Forall_cons in Hpk as [[Hl Hf] Hpk].
  assert (4 <= length_of p) as H4 by (destruct Hf; lia).
  unfold array2buffer. rewrite decide_False by lia. rewrite Hpa, decide_True, Hp by done.
  cbn [omypkt upd out_eta opartial oqueue]. rewrite bind_Some, Hpa.
  destruct (a2b_copy (oqueue (output ds)) p 0 Hq Hl) as (Hb & Hkb & src & buf & -> & Hrest); [lia|lia|].
  rewrite bind_Some. destruct Hrest as (-> & Hq' & Hs' & Hc' & Ha'). rewrite bind_Some.
  replace (if decide (length_of p - 0 < queue_available (oqueue (output ds))) then length_of p - 0
           else queue_available (oqueue (output ds))) with (length_of p) in * by (case_decide; lia).
  cbn [opartial upd out_eta]. rewrite decide_True by lia. eexists. split; [reflexivity|]. split_and!; [by constructor|exact Hs'|lia| |exact Ha'].
  rewrite (drop_ge (data p)), app_nil_r in Hc' by lia. exact Hc'.
Qed.

(** All packets fit: they are in the buffer after one run of the loop. *)
Lemma fill_all ps : forall fuel ds,
  output_ok (output ds) -> omypkt (output ds) = None -> opkts (output ds) = ps ->
  length (mjoin (data <$> ps)) <= queue_available (oqueue (output ds)) -> length ps < fuel ->
  exists q, fill_output fuel ds = Some (ds <| output := mkOut q [] 0 None |> <| pkts_sent := counted (length ps) (pkts_sent ds) |>) /\
    output_ok (mkOut q [] 0 None) /\ size q = size (oqueue (output ds)) /\
    contents q = contents (oqueue (output ds)) ++ mjoin (data <$> ps).
Proof.
  induction ps as [|p ps IH]; intros fuel ds Hok Hm Hp Hfit Hf; (destruct fuel as [|fuel]; [simpl in Hf; lia|]); cbn [fill_output].
  - assert (opartial (output ds) = 0) as H0 by (destruct Hok as [_ _ H]; by rewrite Hm in H).
    exists (oqueue (output ds)). unfold array2buffer. rewrite H0, Hp.
    assert (ds = ds <| output := mkOut (oqueue (output ds)) [] 0 None |> <| pkts_sent := counted (length (A:=pkt) []) (pkts_sent ds) |>) as E.
    { destruct ds as [? [? ? ? ?]]. simpl in *. by subst. }
    split; [|split_and!; [|done|cbn; by rewrite app_nil_r]].
    + rewrite <- E. rewrite (decide_True (P := 0 = 0)) by done. by case_decide; rewrite bind_Some.
    + destruct Hok as [? ? ?]. by constructor.
  - rewrite fmap_cons, mjoin_cons, length_app in Hfit.
    assert (length (data p) = length_of p) as Hl by (destruct Hok as [_ H _]; rewrite Hp in H; by apply Forall_cons in H as [[? _] _]).
    destruct (a2b_next ds p ps Hok Hm Hp) as (q & -> & Hok' & Hs & Hpos & Hc & Ha); [lia|]. rewrite bind_Some, decide_True by lia.
    set (ds1 := ds <| output := mkOut q ps 0 None |> <| pkts_sent := counted 1 (pkts_sent ds) |>).
    destruct (IH fuel ds1 Hok' eq_refl eq_refl) as (q' & -> & Hok'' & Hs' & Hc'); [unfold ds1; cbn; lia|simpl in Hf; lia|].
    exists q'. unfold ds1. cbn [output upd ds_eta pkts_sent]. split_and!; [|done|unfold ds1 in Hs'; cbn in Hs'; congruence|].
    + f_equal. f_equal. simpl length. by rewrite (counted_add 1 (length ps)).
    + rewrite Hc'. unfold ds1. cbn [output upd ds_eta oqueue]. by rewrite Hc, fmap_cons, mjoin_cons, app_assoc.
Qed.

Lemma write_to_net_ok r ds :
  output_ok (output ds) -> (0 <= r <= Z.of_nat (queue_data (oqueue (output ds))))%Z ->
  queue_data (oqueue (output ds)) <> 0 ->
  exists ds', write_to_net r ds =
      Some (r, ds', mkEff false 0 (if has_mybe ds then r else 0%Z), take (Z.to_nat r) (contents (oqueue (output ds)))) /\
    output_ok (output ds') /\
    take (Z.to_nat r) (contents (oqueue (output ds))) ++ out_pending (output ds') = out_pending (output ds) /\
    input ds' = input ds /\ active ds' = active ds /\
    size (oqueue (output ds')) = size (oqueue (output ds)) /\
    opkts (output ds') = opkts (output ds) /\ omypkt (output ds') = omypkt (output ds) /\
    contents (oqueue (output ds')) = drop (Z.to_nat r) (contents (oqueue (output ds))).
Proof.
  intros [Hq Hpk Hpa] Hr Hne. unfold write_to_net. rewrite decide_False by done.
  destruct (Z.ltb_spec r 0); [lia|]. rewrite queue_read by (done || lia). rewrite bind_Some.
  destruct (queue_r_ok _ (Z.to_nat r) Hq) as (Hq' & Hc' & Hs'); [lia|].
  eexists. split; [done|]. cbn [output upd ds_eta out_eta oqueue opkts omypkt opartial input active].
  split_and!; [|..|done|done|done|done|done|done].
  - by constructor.
  - unfold out_pending. simpl. rewrite Hc', app_assoc, take_drop. done.
Qed.

Lemma write_to_net_frame r ds r' ds' e out :
  write_to_net r ds = Some (r', ds', e, out) -> (0 <= r)%Z ->
  pkts_recv ds' = pkts_recv ds /\ pkts_sent ds' = pkts_sent ds /\ fd ds' = fd ds /\ net_failure e = false.
Proof.
  unfold write_to_net. intros H Hr. case_decide; [by simplify_eq|]. destruct (Z.ltb_spec r 0); [lia|]. px_run H. by simplify_eq.
Qed.

(** The life of the output side: packets are added, copied into the buffer, and
    the kernel takes what it likes of the buffer (nothing, when it would block).
    The state carries the bytes that were handed over and those that left. *)
Inductive out_step : mysql_data_stream_t * list byte * list byte ->
                     mysql_data_stream_t * list byte * list byte -> Prop :=
  | os_add ds given sent p :
      wf_pkt p ->
      out_step (ds, given, sent)
        (ds <| output := (output ds) <| opkts := opkts (output ds) ++ [p] |> |>, given ++ data p, sent)
  | os_fill ds given sent ret ds' :
      array2buffer ds = Some (ret, ds') -> out_step (ds, given, sent) (ds', given, sent)
  | os_send ds given sent r r' ds' e bs :
      (r <= Z.of_nat (queue_data (oqueue (output ds))))%Z -> write_to_net r ds = Some (r', ds', e, bs) ->
      out_step (ds, given, sent) (ds', given, sent ++ bs).

Lemma out_step_inv s s' :
  output_ok (output s.1.1) /\ s.2 ++ out_pending (output s.1.1) = s.1.2 -> out_step s s' ->
  output_ok (output s'.1.1) /\ s'.2 ++ out_pending (output s'.1.1) = s'.1.2.
Proof.
  intros [Hok Heq] Hst. destruct Hst as [ds given sent p Hp|ds given sent ret ds' Ha|ds given sent r r' ds' e bs Hr Hw];
    simpl in *.
  - destruct Hok as [Hq Hpk Hpa]. split.
    + constructor; simpl; [done| |done]. apply Forall_app. split; [done|]. by apply Forall_singleton.
    + rewrite <- Heq. unfold out_pending. simpl. rewrite fmap_app, mjoin_app. simpl.
      by rewrite app_nil_r, <- !app_assoc.
  - destruct (array2buffer_ok ds Hok) as (ret' & ds1 & Ha' & Hok1 & Hp1 & _). simplify_eq. by rewrite Hp1.
  - destruct (decide (queue_data (oqueue (output ds)) = 0)) as [H0|H0].
    { unfold write_to_net in Hw. rewrite decide_True in Hw by done. simplify_eq. by rewrite app_nil_r. }
    destruct (Z.ltb_spec r 0) as [Hneg|Hpos].
    { unfold write_to_net in Hw. rewrite decide_False in Hw by done.
      destruct (Z.ltb_spec r 0); [|lia]. simplify_eq/=. by rewrite app_nil_r. }
    destruct (write_to_net_ok r ds Hok) as (ds1 & Hw' & Hok1 & Hp1 & _); [lia|done|].
    simplify_eq. split; [done|]. by rewrite <- app_assoc, Hp1.
Qed.

Lemma new_output_ok junk n mybe sock :
  output_ok (output (mysql_data_stream_new junk n mybe sock)) /\
  out_pending (output (mysql_data_stream_new junk n mybe sock)) = [].
Proof.
  destruct (queue_init_ok junk n) as [Hq Hc]. split; [by constructor|]. unfold out_pending. cbn -[contents queue_init]. by rewrite Hc.
Qed.

(** C8: the output side is a FIFO of bytes: whatever the kernel accepts at each
    send, what has left the socket followed by what is still pending is exactly
    the concatenation of the packets that were handed to the stream, in order;
    so nothing is lost, repeated or reordered.  Filling the buffer always
    returns, and stops only when the buffer is full or everything is in it. *)
Theorem output_stream_fifo junk n mybe sock ds given sent :
  star out_step (mysql_data_stream_new junk n mybe sock, [], []) (ds, given, sent) ->
  sent ++ out_pending (output ds) = given /\
  exists ds', fill_output (S (queue_available (oqueue (output ds)))) ds = Some ds' /\
    out_pending (output ds') = out_pending (output ds) /\
    (queue_available (oqueue (output ds')) = 0 \/ contents (oqueue (output ds')) = out_pending (output ds)).
Proof.
  intros Hst. destruct (new_output_ok junk n mybe sock) as [Hok0 Hp0].
  eapply (star_invariant out_step (fun s => output_ok (output s.1.1) /\ s.2 ++ out_pending (output s.1.1) = s.1.2)) in Hst
    as [Hok Heq]; [|intros; by eapply out_step_inv|done].
  cbn [fst snd] in *. split; [done|].
  destruct (fill_output_ok (S (queue_available (oqueue (output ds)))) ds Hok) as
    (ds' & -> & _ & Hp & _ & _ & _ & _ & Hend); [lia|]. eauto.
Qed.

Definition ping : pkt := mkPkt 5 [Byte.x01; Byte.x00; Byte.x00; Byte.x00; Byte.x0e].

Lemma ping_wf : wf_pkt ping.
Proof. split; [done|]. split; [simpl; lia|done]. Qed.

Lemma output_stream_fifo_witness :
  exists ds sent, sent ++ out_pending (output ds) = data ping /\ sent = [Byte.x01; Byte.x00].
Proof.
  set (ds0 := mysql_data_stream_new (fun _ => Byte.xaa) 4 false 5).
  set (ds1 := ds0 <| output := (output ds0) <| opkts := opkts (output ds0) ++ [ping] |> |>).
  destruct (array2buffer ds1) as [[ret ds2]|] eqn:E2; [|by vm_compute in E2].
  destruct (write_to_net 2 ds2) as [[[[r ds3] e] bs]|] eqn:E3.
  2:{ vm_compute in E2. by simplify_eq. }
  exists ds3, ([] ++ bs). split.
  - apply (output_stream_fifo (fun _ => Byte.xaa) 4 false 5 ds3 (data ping) ([] ++ bs)).
    eapply star_cons; [apply (os_add ds0 [] [] ping ping_wf)|].
    eapply star_cons; [apply (os_fill _ _ _ _ _ E2)|].
    eapply star_cons; [eapply (os_send _ _ _ 2); [|exact E3]|apply star_nil].
    vm_compute in E2. simplify_eq. by vm_compute.
  - vm_compute in E2. simplify_eq. vm_compute in E3. by simplify_eq.
Defined.

Definition total (rs : list Z) : nat := sum_list_with Z.to_nat rs.

Lemma flush_ok rs : forall ds,
  output_ok (output ds) -> active ds = true -> Forall (fun r => 0 < r)%Z rs ->
  total rs = queue_data (oqueue (output ds)) ->
  exists ds', flush rs ds = Some (ds', contents (oqueue (output ds))) /\ active ds' = true /\
    output_ok (output ds') /\ contents (oqueue (output ds')) = [].
Proof.
  induction rs as [|r rs IH]; intros ds Hok Hact Hpos Hsum; cbn [flush];
    pose proof (contents_length _ (out_queue _ Hok)) as Hcl.
  - change (total []) with 0 in Hsum. rewrite decide_False by lia.
    rewrite <- Hsum in Hcl. apply nil_length_inv in Hcl. rewrite Hcl. eauto.
  - apply Forall_cons in Hpos as [Hr Hpos]. unfold total in Hsum. cbn [sum_list_with] in Hsum.
    rewrite decide_True by (split; [lia|done]).
    destruct (write_to_net_ok r ds Hok) as (ds1 & -> & Hok1 & _ & _ & Ha1 & _ & _ & _ & Hc1); [lia|lia|].
    rewrite bind_Some. pose proof (contents_length _ (out_queue _ Hok1)) as Hcl1.
    rewrite Hc1, length_drop in Hcl1.
    destruct (IH ds1 Hok1) as (ds2 & -> & Ha2 & Hok2 & Hc2); [congruence|done|unfold total; lia|].
    rewrite bind_Some. exists ds2. split; [|done]. by rewrite Hc1, take_drop.
Qed.

(** An idle output side. *)
Lemma out_idle o :
  output_ok o -> out_pending o = [] ->
  contents (oqueue o) = [] /\ omypkt o = None /\ opkts o = [] /\ opartial o = 0 /\
  queue_available (oqueue o) = size (oqueue o).
Proof.
  intros [Hq Hpk Hpa] Hpend. unfold out_pending in Hpend.
  apply app_eq_nil in Hpend as [Hc0 Hpend]. apply app_eq_nil in Hpend as [Hm0 Hpk0].
  assert (omypkt o = None) as Hmy.
  { destruct (omypkt o) as [q|]; [|done]. destruct Hpa as [[Hl _] ?].
    apply (f_equal length) in Hm0. rewrite length_drop in Hm0. simpl in Hm0. lia. }
  rewrite Hmy in Hpa. split_and!; [done|done| |done|].
  - destruct (opkts o) as [|q qs]; [done|]. apply Forall_cons in Hpk as [[Hl [H4 _]] _].
    apply (f_equal length) in Hpk0. rewrite fmap_cons, mjoin_cons, length_app in Hpk0. simpl in Hpk0. lia.
  - pose proof (contents_length _ Hq) as Hl. rewrite Hc0 in Hl. destruct Hq as [_ ? Hres].
    unfold queue_data in Hl. simpl in Hl. unfold queue_available. lia.
Qed.

Lemma a2b_single ds p :
  output_ok (output ds) -> out_pending (output ds) = [] -> wf_pkt p -> length_of p <= size (oqueue (output ds)) ->
  exists ds', array2buffer (ds <| output := (output ds) <| opkts := opkts (output ds) ++ [p] |> |>) =
      Some (length_of p, ds') /\ output_ok (output ds') /\ active ds' = active ds /\
    contents (oqueue (output ds')) = data p.
Proof.
  intros Hok Hpend Hp Hfit. destruct (out_idle _ Hok Hpend) as (Hc & Hm & Hps & H0 & Hav).
  destruct (a2b_next (ds <| output := (output ds) <| opkts := opkts (output ds) ++ [p] |> |>) p []) as (q & -> & Hok' & _ & _ & Hc' & _).
  - destruct Hok as [Hq Hpk Hpa]. constructor; cbn; [done| |done]. rewrite Hps. by apply Forall_singleton.
  - exact Hm.
  - cbn. by rewrite Hps.
  - cbn. lia.
  - eexists. split; [done|]. split_and!; [done|done|]. cbn in Hc'. by rewrite Hc in Hc'.
Qed.

(** During authentication a packet that fits the send buffer is written out
    completely and nothing else is: for every way the kernel splits the
    sends, as long as each takes at least one byte, the loop ends, reports success, and the
    bytes sent are the packet. *)
Theorem write_one_pkt_complete ds p rs :
  output_ok (output ds) -> out_pending (output ds) = [] -> active ds = true -> wf_pkt p ->
  length_of p <= size (oqueue (output ds)) -> Forall (fun r => 0 < r)%Z rs -> total rs = length_of p ->
  exists ds', write_one_pkt_to_net rs ds p = Some (true, ds', data p).
Proof.
  intros Hok Hpend Hact Hp Hfit Hpos Hsum. unfold write_one_pkt_to_net.
  destruct (a2b_single ds p Hok Hpend Hp Hfit) as (ds1 & -> & Hok1 & Ha1 & Hc1). rewrite bind_Some.
  destruct (flush_ok rs ds1 Hok1) as (ds2 & -> & Ha2 & _); [congruence|done| |].
  { rewrite <- (contents_length _ (out_queue _ Hok1)), Hc1. destruct Hp. congruence. }
  rewrite bind_Some. exists ds2. by rewrite Ha2, Hc1.
Qed.

Lemma write_one_pkt_complete_witness :
  exists ds', write_one_pkt_to_net [2; 3]%Z (mysql_data_stream_new (fun _ => Byte.xaa) 16 false 5) ping =
    Some (true, ds', data ping).
Proof.
  apply (write_one_pkt_complete (mysql_data_stream_new (fun _ => Byte.xaa) 16 false 5) ping [2; 3]%Z).
  - apply new_output_ok.
  - apply new_output_ok.
  - done.
  - apply ping_wf.
  - simpl. lia.
  - repeat constructor.
  - done.
Defined.

(** A partial header leaves a packet without a block. *)
Lemma b2a_partial_header junk ds :
  queue_ok (iqueue (input ds)) -> imypkt (input ds) = None -> 0 < queue_data (iqueue (input ds)) < 4 ->
  exists ds', buffer2array junk ds = Some (0, ds') /\ imypkt (input ds') = Some (mkInPkt 0 None).
Proof.
  intros Hq Hm Hd. unfold buffer2array. rewrite decide_False by lia. rewrite Hm. cbn [in_length].
  rewrite decide_True by (unfold sizeof_mysql_hdr; lia).
  destruct (queue_zero_ok _ Hq) as (q & -> & Hq' & Hc & _). rewrite bind_Some.
  assert (queue_data q = queue_data (iqueue (input ds))) as Hqd by (by rewrite <- !contents_length, Hc by done).
  unfold b2a_header. cbn [iqueue upd in_eta in_length]. rewrite decide_False by (unfold sizeof_mysql_hdr; lia).
  rewrite bind_Some. unfold b2a_body. cbn [in_length]. rewrite decide_False by lia. rewrite bind_Some.
  cbn [in_length]. rewrite decide_False by lia. eexists. split; done.
Qed.

(** Closing a connection of which only one to three bytes of a packet header
    have arrived gives an uninitialised pointer back to the pool: the packet
    structure was allocated but its block was not. *)
Theorem delete_releases_unset_pointer junk n mybe sock bs :
  8 <= n -> (0 < sock)%Z -> 1 <= length bs < 4 ->
  exists ds, feed junk (mysql_data_stream_new junk n mybe sock) [bs] = Some ds /\
    (0, None) ∈ mysql_data_stream_delete ds.
Proof.
  intros Hn Hs Hb. destruct (new_input_ok junk n mybe sock) as (Hok & Hst & Hdr).
  set (ds0 := mysql_data_stream_new junk n mybe sock) in *. cbn [feed].
  destruct (read_from_net_ok bs ds0 Hok) as (ds1 & Hrd & Hok1 & _).
  { intros ->. simpl in Hb. lia. }
  { unfold ds0, queue_available. simpl. lia. }
  rewrite Hrd.
  rewrite bind_Some. pose proof (in_queue _ Hok1) as Hq1.
  assert (imypkt (input ds1) = None /\ queue_data (iqueue (input ds1)) = length bs) as [Hm1 Hd1].
  { unfold read_from_net in Hrd. destruct bs as [|b bs]; [simpl in Hb; lia|].
    destruct (mem_write _ _ _) in Hrd; simplify_eq/=. split; [done|]. unfold queue_data. simpl. lia. }
  destruct (b2a_partial_header junk ds1 Hq1 Hm1) as (ds2 & Hb2 & Hm2); [lia|].
  cbn [drain_input]. rewrite Hb2, bind_Some. rewrite decide_False by lia. rewrite bind_Some.
  exists ds2. split; [done|]. unfold mysql_data_stream_delete. rewrite Hm2. set_solver.
Qed.

Lemma delete_releases_unset_pointer_witness :
  exists ds, feed (fun _ => Byte.xaa) (mysql_data_stream_new (fun _ => Byte.xaa) 16 false 5) [[Byte.x01; Byte.x00]] = Some ds /\
    (0, None) ∈ mysql_data_stream_delete ds.
Proof.
  apply (delete_releases_unset_pointer (fun _ => Byte.xaa) 16 false 5 [Byte.x01; Byte.x00]); simpl; lia.
Defined.
