(* ===== verification/QueryCache.v ===== *)
(** * The query cache: src/fundadb_hash.c

    A cache ([fdb_hashes_group_t], the global [QC]) has partitions; a partition
    has a GLib hash table from keys to entries, and a GLib pointer array with all
    entries allocated for it, the ones that were replaced or removed from the table
    included.  An entry is freed only by the purge thread.

    A pointer to an entry is its identity [eid]; the allocated entries of a
    partition are the elements of [ptrArray], so that following a pointer is
    finding its identity there, and [None] is a use after free.  [hash] maps a key
    to the identity of the entry the table holds.  Locks make the sections
    between lock and unlock atomic; [fdb_get] has three such steps.  [fdb_set] inserts under
    the lock and counts after it has released it, each counter in an atomic step of its own. *)
From S2P Require Import Prelude Protocol PtrArray.
Open Scope Z_scope.

Definition EXPIRE_DROPIT : Z := 0.

(** [sizeof(fdb_hash_entry)+sizeof(fdb_hash_entry * )] on a 64-bit platform. *)
Definition sizeof_meta : Z := 64 + 8.

Record fdb_hash_entry := mkEntry {
  eid : nat; ekey : list byte; evalue : list byte; klen : Z; elength : nat;
  expire : Z; access : Z; ref_count : Z }.
#[export] Instance entry_eta : Eta fdb_hash_entry := fun e =>
  mkEntry (eid e) (ekey e) (evalue e) (klen e) (elength e) (expire e) (access e) (ref_count e).

Record fdb_hash_t := mkHash {
  hash : gmap (list byte) nat; ptrArray : list fdb_hash_entry;
  purgeChunkSize : Z; purgeIdx : Z }.
#[export] Instance hash_eta : Eta fdb_hash_t := fun h =>
  mkHash (hash h) (ptrArray h) (purgeChunkSize h) (purgeIdx h).

(** [next_eid] numbers the allocations. *)
Record fdb_hashes_group_t := mkGroup {
  fdb_hashes : list fdb_hash_t; now : Z; hash_expire_default : Z; max_memory_size : Z;
  cntDel : Z; cntGet : Z; cntGetOK : Z; cntSet : Z; cntSetERR : Z; cntPurge : Z;
  size_keys : Z; size_values : Z; size_metas : Z; dataIN : Z; dataOUT : Z;
  next_eid : nat }.
#[export] Instance group_eta : Eta fdb_hashes_group_t := fun g =>
  mkGroup (fdb_hashes g) (now g) (hash_expire_default g) (max_memory_size g)
    (cntDel g) (cntGet g) (cntGetOK g) (cntSet g) (cntSetERR g) (cntPurge g)
    (size_keys g) (size_values g) (size_metas g) (dataIN g) (dataOUT g) (next_eid g).

(** [cntPurge] is not initialised by the code; [junk] is what it holds. *)
Definition fdb_hashes_new (time : Z) (size : nat) (expire_default max_size junk : Z) : fdb_hashes_group_t :=
  mkGroup (replicate size (mkHash ∅ [] 0 0)) time expire_default max_size 0 0 0 0 0 junk 0 0 0 0 0 0.

(** The partition of a key, [unsigned char] arithmetic included. *)
Definition partition (size : nat) (kp : list byte) (kl : Z) : nat :=
  let c (j : nat) := uc (nth j kp Byte.x00) in
  let i := c 0%nat in
  let i := if 2 <? kl then u8 (i + c 1%nat + c 2%nat) else i in
  Z.to_nat (i mod Z.of_nat size).

(** ** Following pointers and GLib's hash table *)

Definition find_entry (id : nat) (h : fdb_hash_t) : option fdb_hash_entry :=
  head (filter (fun e => eid e = id) (ptrArray h)).

Definition upd_entry (id : nat) (f : fdb_hash_entry -> fdb_hash_entry) (h : fdb_hash_t) : fdb_hash_t :=
  h <| ptrArray := (fun e => if decide (eid e = id) then f e else e) <$> ptrArray h |>.

Definition hash_value_destroy_func (e : fdb_hash_entry) : fdb_hash_entry := e <| expire := EXPIRE_DROPIT |>.

(** [g_hash_table_remove]: the value's destroy function is called. *)
Definition g_hash_table_remove (k : list byte) (h : fdb_hash_t) : fdb_hash_t :=
  match hash h !! k with
  | Some id => (upd_entry id hash_value_destroy_func h) <| hash := delete k (hash h) |>
  | None => h
  end.

(** [g_hash_table_replace]: the old value, if there is one, is destroyed. *)
Definition g_hash_table_replace (k : list byte) (id : nat) (h : fdb_hash_t) : fdb_hash_t :=
  let h := g_hash_table_remove k h in h <| hash := <[k := id]> (hash h) |>.

(** ** Lookup *)

(** Under the read lock: find the entry and take a reference. *)
Definition fdb_get_lock (hg : fdb_hashes_group_t) (kp : list byte)
  : option (option (nat * nat) * fdb_hashes_group_t) :=
  let i := partition (length (fdb_hashes hg)) kp (Z.of_nat (length kp)) in
  h ← fdb_hashes hg !! i;
  match hash h !! kp with
  | Some id =>
      let h := upd_entry id (fun e => e <| ref_count := ref_count e + 1 |>) h in
      Some (Some (i, id), hg <| fdb_hashes := <[i := h]> (fdb_hashes hg) |>)
  | None => Some (None, hg)
  end.

(** Without a lock: copy the value if the entry has not expired. *)
Definition fdb_get_copy (hg : fdb_hashes_group_t) (i id : nat) : option (option pkt * fdb_hashes_group_t) :=
  h ← fdb_hashes hg !! i;
  e ← find_entry id h;
  let t := now hg in
  if t <? expire e then
    v ← mem_read 0 (elength e) (evalue e);
    let h := upd_entry id (fun e => if access e <? t then e <| access := t |> else e) h in
    Some (Some (mkPkt (elength e) v),
          hg <| cntGetOK := u64 (cntGetOK hg + 1) |> <| dataOUT := u64 (dataOUT hg + Z.of_nat (elength e)) |>
             <| fdb_hashes := <[i := h]> (fdb_hashes hg) |>)
  else Some (None, hg).

(** Give the reference back. *)
Definition fdb_get_release (hg : fdb_hashes_group_t) (i id : nat) : option fdb_hashes_group_t :=
  h ← fdb_hashes hg !! i;
  _ ← find_entry id h;
  Some (hg <| fdb_hashes := <[i := upd_entry id (fun e => e <| ref_count := ref_count e - 1 |>) h]> (fdb_hashes hg) |>).

Definition fdb_get (hg : fdb_hashes_group_t) (kp : list byte) : option (option pkt * fdb_hashes_group_t) :=
  '(found, hg) ← fdb_get_lock hg kp;
  '(result, hg) ← (match found with
    | Some (i, id) =>
        '(result, hg) ← fdb_get_copy hg i id;
        hg ← fdb_get_release hg i id;
        Some (result, hg)
    | None => Some (None, hg)
    end);
  Some (result, hg <| cntGet := u64 (cntGet hg + 1) |>).

(** ** Insertion *)

Definition new_expire (hash_expire_max : Z) (hg : fdb_hashes_group_t) (ttl : Z) : Z :=
  if 0 <? ttl then if hash_expire_max <? ttl then ttl else now hg + ttl
  else now hg + hash_expire_default hg.

(** The counters of an insertion. *)
Inductive counter := CntSet | SizeKeys | SizeValues | DataIN | SizeMetas.
#[export] Instance counter_eq_dec : EqDecision counter.
Proof. solve_decision. Defined.

(** [__sync_fetch_and_add] on one of them. *)
Definition sync_add (c : counter) (n : Z) (hg : fdb_hashes_group_t) : fdb_hashes_group_t :=
  match c with
  | CntSet => hg <| cntSet := u64 (cntSet hg + n) |>
  | SizeKeys => hg <| size_keys := u64 (size_keys hg + n) |>
  | SizeValues => hg <| size_values := u64 (size_values hg + n) |>
  | DataIN => hg <| dataIN := u64 (dataIN hg + n) |>
  | SizeMetas => hg <| size_metas := u64 (size_metas hg + n) |>
  end.

(** Up to the release of the lock. *)
Definition fdb_set_insert (hash_expire_max : Z) (hg : fdb_hashes_group_t) (kp : list byte) (kl : Z) (vp : list byte)
    (vl : nat) (ttl : Z) (copy : bool) : option fdb_hashes_group_t :=
  let e := mkEntry (next_eid hg) (if copy then take (Z.to_nat kl) kp else kp) (if copy then take vl vp else vp)
             kl vl (new_expire hash_expire_max hg ttl) (now hg) 0 in
  let i := partition (length (fdb_hashes hg)) kp kl in
  h ← fdb_hashes hg !! i;
  let h := h <| ptrArray := ptrArray h ++ [e] |> in
  let h := g_hash_table_replace (ekey e) (eid e) h in
  Some (hg <| fdb_hashes := <[i := h]> (fdb_hashes hg) |> <| next_eid := S (next_eid hg) |>).

(** What it adds to the counters afterwards, in order. *)
Definition set_adds (kl : Z) (vl : nat) : list (counter * Z) :=
  [(CntSet, 1); (SizeKeys, kl); (SizeValues, Z.of_nat vl); (DataIN, Z.of_nat vl); (SizeMetas, sizeof_meta)].

Definition fdb_set (hash_expire_max : Z) (hg : fdb_hashes_group_t) (kp : list byte) (kl : Z) (vp : list byte)
    (vl : nat) (ttl : Z) (copy : bool) : option fdb_hashes_group_t :=
  hg ← fdb_set_insert hash_expire_max hg kp kl vp vl ttl copy;
  Some (foldl (fun hg '(c, n) => sync_add c n hg) hg (set_adds kl vl)).

(** ** Removal of everything *)

Definition g_hash_table_remove_all (h : fdb_hash_t) : fdb_hash_t :=
  h <| ptrArray := (fun e => if decide (eid e ∈ (map_to_list (hash h)).*2) then hash_value_destroy_func e else e) <$> ptrArray h |>
    <| hash := ∅ |>.

Definition fdb_truncate_all (hg : fdb_hashes_group_t) : Z * fdb_hashes_group_t :=
  (Z.of_nat (sum_list_with (fun h => base.size (hash h)) (fdb_hashes hg)),
   hg <| fdb_hashes := g_hash_table_remove_all <$> fdb_hashes hg |>).

(** ** Purging *)

(** One turn of the loop body, at index [idx] of partition [h]; the second
    component is the freed entry, if it was freed. *)
Definition purge_visit (t : Z) (h : fdb_hash_t) (idx : nat) : option (fdb_hash_t * option fdb_hash_entry) :=
  e ← ptrArray h !! idx;
  let h := if negb (expire e =? EXPIRE_DROPIT) && (expire e <=? t) then g_hash_table_remove (ekey e) h else h in
  e ← ptrArray h !! idx;
  if (expire e =? EXPIRE_DROPIT) && (ref_count e =? 0)
  then Some (h <| ptrArray := LArr.swap_remove idx (ptrArray h) |>, Some e)
  else Some (h, None).

(** [while( --purgeIdx > min_idx)]: [n] is how often the body may still run. *)
Fixpoint purge_while (n : nat) (t min_idx : Z) (h : fdb_hash_t) : option (fdb_hash_t * list fdb_hash_entry) :=
  let h := h <| purgeIdx := purgeIdx h - 1 |> in
  if purgeIdx h <=? min_idx then Some (h, []) else
  match n with
  | O => None
  | S n' =>
      '(h, freed) ← purge_visit t h (Z.to_nat (purgeIdx h));
      '(h, rest) ← purge_while n' t min_idx h;
      Some (h, match freed with Some e => e :: rest | None => rest end)
  end.

(** The body of the [for] loop of [purgeHash_thread], for one partition. *)
Definition purge_partition (purge_loop purge_time t : Z) (h : fdb_hash_t)
  : option (fdb_hash_t * list fdb_hash_entry) :=
  let len := Z.of_nat (length (ptrArray h)) in
  let h :=
    if (purgeIdx h =? 0) && negb (len =? 0) then
      let chunk := len * purge_loop / purge_time in
      h <| purgeIdx := len |> <| purgeChunkSize := if chunk <? 10 then len else chunk |>
    else h in
  let min_idx := if purgeChunkSize h <? purgeIdx h then purgeIdx h - purgeChunkSize h else 0 in
  let min_idx := if min_idx <? purgeChunkSize h then 0 else min_idx in
  if purgeIdx h =? 0 then Some (h, [])
  else purge_while (Z.to_nat (purgeIdx h)) t min_idx h.

(** The accounting of one freed entry. *)
Definition purge_account (hg : fdb_hashes_group_t) (e : fdb_hash_entry) : fdb_hashes_group_t :=
  hg <| size_keys := u64 (size_keys hg - klen e) |>
     <| size_values := u64 (size_values hg - Z.of_nat (elength e)) |>
     <| size_metas := u64 (size_metas hg - sizeof_meta) |>
     <| cntPurge := u64 (cntPurge hg + 1) |>.

Definition purge_one_partition (purge_loop purge_time : Z) (hg : fdb_hashes_group_t) (i : nat)
  : option fdb_hashes_group_t :=
  h ← fdb_hashes hg !! i;
  '(h, freed) ← purge_partition purge_loop purge_time (now hg) h;
  Some (foldl purge_account (hg <| fdb_hashes := <[i := h]> (fdb_hashes hg) |>) freed).

Fixpoint purge_partitions (purge_loop purge_time : Z) (idxs : list nat) (hg : fdb_hashes_group_t)
  : option fdb_hashes_group_t :=
  match idxs with
  | [] => Some hg
  | i :: idxs => hg ← purge_one_partition purge_loop purge_time hg i; purge_partitions purge_loop purge_time idxs hg
  end.

(** One turn of [purgeHash_thread]: [time] is what [time(NULL)] answers and [pct] what
    [fdb_hashes_group_used_mem_pct] computes in single precision (MemUse.v). *)
Definition purge_turn (purge_loop purge_time threshold_min time pct : Z) (hg : fdb_hashes_group_t)
  : option fdb_hashes_group_t :=
  let hg := hg <| now := time |> in
  if pct <? threshold_min then Some hg
  else purge_partitions purge_loop purge_time (seq 0 (length (fdb_hashes hg))) hg.

Definition fdb_hashes_group_free_mem (hg : fdb_hashes_group_t) : Z :=
  let cur_size := i64 (u64 (size_keys hg + size_values hg + size_metas hg)) in
  let max_size := max_memory_size hg in
  if max_size <? cur_size then 0 else max_size - cur_size.

(** ** Invariant of a partition *)

(** The entries that carry a value: a table entry that was replaced, removed or
    truncated has [expire=EXPIRE_DROPIT]. *)
Definition live (e : fdb_hash_entry) : Prop := expire e <> EXPIRE_DROPIT.

Record part_inv (h : fdb_hash_t) : Prop := {
  pi_nodup : NoDup (eid <$> ptrArray h);
  pi_hash : forall k id, hash h !! k = Some id ->
    exists e, e ∈ ptrArray h /\ eid e = id /\ ekey e = k /\ live e;
  pi_live : forall e, e ∈ ptrArray h -> live e -> hash h !! ekey e = Some (eid e);
  pi_value : forall e, e ∈ ptrArray h -> (elength e <= length (evalue e))%nat
}.

Definition idx_inv (h : fdb_hash_t) : Prop :=
  0 <= purgeIdx h <= Z.of_nat (length (ptrArray h)) /\ (purgeIdx h <> 0 -> 0 < purgeChunkSize h).

(** The abstract value of a partition: what a key maps to, and until when. *)
Definition pview (h : fdb_hash_t) (k : list byte) : option (list byte * Z) :=
  id ← hash h !! k; e ← find_entry id h; Some (take (elength e) (evalue e), expire e).

Lemma eid_unique h e1 e2 : part_inv h -> e1 ∈ ptrArray h -> e2 ∈ ptrArray h -> eid e1 = eid e2 -> e1 = e2.
Proof.
  intros [Hnd _ _ _] H1 H2 Heq. apply list_elem_of_lookup_1 in H1 as [i Hi], H2 as [j Hj].
  assert (i = j) as ->; [|congruence]. eapply (NoDup_lookup _ i j (eid e1)); [exact Hnd| |];
    rewrite list_lookup_fmap; [by rewrite Hi|rewrite Hj; simpl; congruence].
Qed.

Lemma find_entry_spec h e : part_inv h -> e ∈ ptrArray h -> find_entry (eid e) h = Some e.
Proof.
  intros Hh He. unfold find_entry.
  destruct (filter (fun x => eid x = eid e) (ptrArray h)) as [|x l] eqn:Hf.
  - exfalso. assert (e ∈ filter (fun x => eid x = eid e) (ptrArray h)) as Hin by (by apply list_elem_of_filter).
    rewrite Hf in Hin. set_solver.
  - simpl. f_equal. assert (x ∈ filter (fun x => eid x = eid e) (ptrArray h)) as Hin by (rewrite Hf; set_solver).
    apply list_elem_of_filter in Hin as [Heq Hx]. by apply (eid_unique h).
Qed.

Lemma find_entry_in h id e : find_entry id h = Some e -> e ∈ ptrArray h /\ eid e = id.
Proof.
  unfold find_entry. destruct (filter _ _) as [|x l] eqn:Hf; [done|]. intros [= ->].
  assert (e ∈ filter (fun x => eid x = id) (ptrArray h)) as Hin by (rewrite Hf; set_solver).
  by apply list_elem_of_filter in Hin as [? ?].
Qed.

Lemma pview_spec h k v x :
  part_inv h ->
  pview h k = Some (v, x) <->
  exists e, e ∈ ptrArray h /\ live e /\ ekey e = k /\ v = take (elength e) (evalue e) /\ x = expire e.
Proof.
  intros Hh. unfold pview. split.
  - destruct (hash h !! k) as [id|] eqn:Hk; [|done]. rewrite bind_Some.
    destruct (pi_hash _ Hh _ _ Hk) as (e & He & <- & Hek & Hl). rewrite (find_entry_spec h e) by done.
    rewrite bind_Some. intros [= <- <-]. eauto 10.
  - intros (e & He & Hl & <- & -> & ->). rewrite (pi_live _ Hh e) by done. rewrite bind_Some.
    by rewrite find_entry_spec, bind_Some.
Qed.

(** Two partitions with the same live entries (up to fields a reader does not see)
    have the same view. *)
Lemma pview_ext h h' k :
  part_inv h -> part_inv h' ->
  (forall v x, pview h k = Some (v, x) <-> pview h' k = Some (v, x)) -> pview h k = pview h' k.
Proof. intros _ _ H. apply option_eq. intros [v x]. apply H. Qed.

(** *** Updates of the fields readers touch *)

Definition reader_update (f : fdb_hash_entry -> fdb_hash_entry) : Prop :=
  forall e, eid (f e) = eid e /\ ekey (f e) = ekey e /\ evalue (f e) = evalue e /\ elength (f e) = elength e /\
    expire (f e) = expire e /\ klen (f e) = klen e.

Lemma upd_entry_elem id f h e' :
  e' ∈ ptrArray (upd_entry id f h) <->
  exists e, e ∈ ptrArray h /\ e' = if decide (eid e = id) then f e else e.
Proof. unfold upd_entry. simpl. rewrite list_elem_of_fmap. naive_solver. Qed.

Lemma upd_entry_inv id f h : reader_update f -> part_inv h -> part_inv (upd_entry id f h).
Proof.
  intros Hf Hh. constructor.
  - unfold upd_entry. simpl. rewrite <- list_fmap_compose.
    assert (eid ∘ (fun e => if decide (eid e = id) then f e else e) <$> ptrArray h = eid <$> ptrArray h) as ->;
      [|apply Hh]. apply list_fmap_ext. intros i e _. simpl. destruct (Hf e). by case_decide.
  - intros k id' Hk. destruct (pi_hash _ Hh k id' Hk) as (e & He & H1 & H2 & H3).
    exists (if decide (eid e = id) then f e else e). unfold live. destruct (Hf e) as (? & ? & ? & ? & ? & ?).
    split; [apply upd_entry_elem; eauto|]. case_decide; split_and!; congruence.
  - intros e' He' Hl. apply upd_entry_elem in He' as (e & He & ->). destruct (Hf e) as (? & ? & ? & ? & ? & ?).
    unfold upd_entry, live in *. simpl. pose proof (pi_live _ Hh e He). unfold live in *.
    case_decide; [|auto]. replace (ekey (f e)) with (ekey e) by done. replace (eid (f e)) with (eid e) by done.
    apply H5. congruence.
  - intros e' He'. apply upd_entry_elem in He' as (e & He & ->). destruct (Hf e) as (? & ? & Hv & Hl & ? & ?).
    case_decide; [rewrite Hv, Hl|]; by apply (pi_value _ Hh).
Qed.

Lemma upd_entry_view id f h k : reader_update f -> part_inv h -> pview (upd_entry id f h) k = pview h k.
Proof.
  intros Hf Hh. pose proof (upd_entry_inv id f h Hf Hh) as Hh'. apply pview_ext; [done|done|].
  intros v x. rewrite !pview_spec by done. split.
  - intros (e' & He' & Hl & Hk & Hv & Hx). apply upd_entry_elem in He' as (e & He & ->). exists e.
    destruct (Hf e) as (? & ? & ? & ? & ? & ?). unfold live in *. case_decide; split_and!; congruence.
  - intros (e & He & Hl & Hk & Hv & Hx). exists (if decide (eid e = id) then f e else e).
    destruct (Hf e) as (? & ? & ? & ? & ? & ?). unfold live in *.
    split; [apply upd_entry_elem; eauto|]. case_decide; split_and!; congruence.
Qed.

(** *** The table operations *)

Lemma remove_elem k h e' :
  part_inv h ->
  e' ∈ ptrArray (g_hash_table_remove k h) <->
  exists e, e ∈ ptrArray h /\
    e' = if decide (ekey e = k /\ live e) then hash_value_destroy_func e else e.
Proof.
  intros Hh. unfold g_hash_table_remove.
  assert (forall e, e ∈ ptrArray h -> (hash h !! k = Some (eid e) <-> ekey e = k /\ live e)) as Hiff.
  { intros e He. split.
    - intros Hk. destruct (pi_hash _ Hh _ _ Hk) as (e2 & He2 & Hid & Hk2 & Hl).
      by rewrite <- (eid_unique h e2 e).
    - intros [<- Hl]. by apply (pi_live _ Hh). }
  destruct (hash h !! k) as [id|] eqn:Hk; simpl.
  - rewrite list_elem_of_fmap. split.
    + intros (e & -> & He). exists e. split; [done|]. specialize (Hiff e He).
      repeat case_decide; naive_solver.
    + intros (e & He & ->). exists e. split; [|done]. specialize (Hiff e He). repeat case_decide; naive_solver.
  - split.
    + intros He. exists e'. split; [done|]. specialize (Hiff e' He). case_decide; naive_solver.
    + intros (e & He & ->). specialize (Hiff e He). case_decide; naive_solver.
Qed.

Lemma remove_hash k h : hash (g_hash_table_remove k h) = delete k (hash h).
Proof.
  unfold g_hash_table_remove. destruct (hash h !! k) eqn:Hk; simpl; [done|]. by rewrite delete_id.
Qed.

Lemma remove_eids k h : eid <$> ptrArray (g_hash_table_remove k h) = eid <$> ptrArray h.
Proof.
  unfold g_hash_table_remove. destruct (hash h !! k); simpl; [|done].
  rewrite <- list_fmap_compose. apply list_fmap_ext. intros i e _. simpl. by case_decide.
Qed.

Lemma remove_inv k h : part_inv h -> part_inv (g_hash_table_remove k h).
Proof.
  intros Hh. constructor.
  - rewrite remove_eids. apply Hh.
  - intros k' id Hk. rewrite remove_hash in Hk. apply lookup_delete_Some in Hk as [Hne Hk].
    destruct (pi_hash _ Hh _ _ Hk) as (e & He & H1 & H2 & H3). exists e. split; [|done].
    apply remove_elem; [done|]. exists e. split; [done|]. rewrite decide_False; [done|]. naive_solver.
  - intros e' He' Hl. apply remove_elem in He' as (e & He & ->); [|done]. rewrite remove_hash.
    case_decide as Hd; [done|]. rewrite lookup_delete_ne by naive_solver. by apply (pi_live _ Hh).
  - intros e' He'. apply remove_elem in He' as (e & He & ->); [|done].
    case_decide; by apply (pi_value _ Hh e).
Qed.

Lemma remove_view k h k' :
  part_inv h -> pview (g_hash_table_remove k h) k' = if decide (k' = k) then None else pview h k'.
Proof.
  intros Hh. pose proof (remove_inv k h Hh) as Hh'. case_decide as Hd.
  - unfold pview. by rewrite remove_hash, Hd, lookup_delete_eq.
  - apply option_eq. intros [v x]. rewrite !pview_spec by done. split.
    + intros (e' & He' & Hl & Hk & Hv & Hx). apply remove_elem in He' as (e & He & ->); [|done].
      case_decide; [done|]. eauto 10.
    + intros (e & He & Hl & Hk & Hv & Hx). exists e. split; [|done]. apply remove_elem; [done|].
      exists e. split; [done|]. rewrite decide_False; [done|]. naive_solver.
Qed.

(** Adding a fresh live entry and putting it into the table. *)
Definition add_entry (e : fdb_hash_entry) (h : fdb_hash_t) : fdb_hash_t :=
  g_hash_table_replace (ekey e) (eid e) (h <| ptrArray := ptrArray h ++ [e] |>).

Lemma add_entry_shape e h :
  part_inv h -> eid e ∉ eid <$> ptrArray h ->
  ptrArray (add_entry e h) = ptrArray (g_hash_table_remove (ekey e) h) ++ [e] /\
  hash (add_entry e h) = <[ekey e := eid e]> (hash h).
Proof.
  intros Hh Hfresh. unfold add_entry, g_hash_table_replace, g_hash_table_remove. simpl.
  destruct (hash h !! ekey e) as [id|] eqn:Hk; simpl; [|done]. split; [|by rewrite insert_delete_eq].
  rewrite fmap_app. f_equal. simpl. rewrite decide_False; [done|].
  intros <-. destruct (pi_hash _ Hh _ _ Hk) as (e2 & He2 & Hid & _). apply Hfresh, list_elem_of_fmap. eauto.
Qed.

Lemma add_entry_inv e h :
  part_inv h -> eid e ∉ eid <$> ptrArray h -> live e -> (elength e <= length (evalue e))%nat ->
  part_inv (add_entry e h).
Proof.
  intros Hh Hfresh Hlive Hval. destruct (add_entry_shape e h Hh Hfresh) as [Hp Hha].
  pose proof (remove_inv (ekey e) h Hh) as Hr. constructor; rewrite ?Hp, ?Hha.
  - rewrite fmap_app, remove_eids. apply NoDup_app. split_and!; [apply Hh| |repeat constructor; set_solver].
    intros x Hx Hin. simpl in Hin. apply list_elem_of_singleton in Hin as ->. done.
  - intros k id Hk. destruct (decide (ekey e = k)) as [<-|Hne].
    + rewrite lookup_insert_eq in Hk. simplify_eq. exists e. set_solver.
    + rewrite lookup_insert_ne in Hk by done.
      destruct (pi_hash _ Hr k id) as (e2 & He2 & ?); [by rewrite remove_hash, lookup_delete_ne|].
      exists e2. set_solver.
  - intros e2 He2 Hl2. apply elem_of_app in He2 as [He2|He2].
    + pose proof (pi_live _ Hr e2 He2 Hl2) as Hk. rewrite remove_hash in Hk.
      apply lookup_delete_Some in Hk as [Hne Hk]. by rewrite lookup_insert_ne.
    + apply list_elem_of_singleton in He2 as ->. by rewrite lookup_insert_eq.
  - intros e2 He2. apply elem_of_app in He2 as [He2|He2]; [by apply (pi_value _ Hr)|].
    by apply list_elem_of_singleton in He2 as ->.
Qed.

Lemma add_entry_view e h k :
  part_inv h -> eid e ∉ eid <$> ptrArray h -> live e -> (elength e <= length (evalue e))%nat ->
  pview (add_entry e h) k =
    if decide (k = ekey e) then Some (take (elength e) (evalue e), expire e) else pview h k.
Proof.
  intros Hh Hfresh Hlive Hval. pose proof (add_entry_inv e h Hh Hfresh Hlive Hval) as Ha.
  destruct (add_entry_shape e h Hh Hfresh) as [Hp Hha]. case_decide as Hd.
  - apply pview_spec; [done|]. exists e. rewrite Hp. split_and!; try done. set_solver.
  - rewrite <- (decide_False (P := k = ekey e) None (pview h k)) by done.
    rewrite <- remove_view by done. pose proof (remove_inv (ekey e) h Hh) as Hr.
    apply option_eq. intros [v x]. rewrite !pview_spec by done. rewrite Hp. split.
    + intros (e2 & He2 & ? & ? & ? & ?). apply elem_of_app in He2 as [He2|He2]; [eauto 10|].
      apply list_elem_of_singleton in He2 as ->. congruence.
    + intros (e2 & He2 & ?). exists e2. split; [set_solver|done].
Qed.

(** *** Freeing a dropped entry *)

Lemma swap_remove_inv h idx e :
  part_inv h -> ptrArray h !! idx = Some e -> ~ live e ->
  let h' := h <| ptrArray := LArr.swap_remove idx (ptrArray h) |> in
  part_inv h' /\ forall k, pview h' k = pview h k.
Proof.
  intros Hh Hidx Hdead h'. pose proof (LArr.swap_remove_perm _ _ _ Hidx) as Hperm.
  assert (forall x, x ∈ ptrArray h <-> x = e \/ x ∈ ptrArray h') as Hel.
  { intros x. rewrite Hperm. unfold h'. simpl. set_solver. }
  assert (part_inv h') as Hh'.
  { constructor.
    - pose proof (pi_nodup _ Hh) as Hnd. rewrite Hperm in Hnd. by apply NoDup_cons in Hnd as [_ ?].
    - intros k id Hk. destruct (pi_hash _ Hh k id Hk) as (x & Hx & ? & ? & Hl).
      apply Hel in Hx as [->|Hx]; [done|]. eauto 10.
    - intros x Hx Hl. apply (pi_live _ Hh); [|done]. apply Hel. auto.
    - intros x Hx. apply (pi_value _ Hh), Hel. auto. }
  split; [done|]. intros k. apply option_eq. intros [v x]. rewrite !pview_spec by done. split.
  - intros (x' & Hx & ?). exists x'. split; [apply Hel; auto|done].
  - intros (x' & Hx & Hl & ?). apply Hel in Hx as [->|Hx]; [done|]. eauto 10.
Qed.

(** ** Invariant of the cache *)

Definition Zsum {A} (f : A -> Z) (l : list A) : Z := foldr (fun x a => f x + a) 0 l.

Lemma Zsum_app {A} (f : A -> Z) l k : Zsum f (l ++ k) = Zsum f l + Zsum f k.
Proof. induction l; simpl; lia. Qed.

Lemma Zsum_perm {A} (f : A -> Z) l k : l ≡ₚ k -> Zsum f l = Zsum f k.
Proof. induction 1; simpl; lia. Qed.

Lemma Zsum_fmap_ext {A} (f : A -> Z) (g : A -> A) l : (forall x, f (g x) = f x) -> Zsum f (g <$> l) = Zsum f l.
Proof. intros H. induction l as [|x l IH]; simpl in *; [done|]. rewrite H. unfold fmap in IH. lia. Qed.

(** A quantity summed over all allocated entries. *)
Definition total (f : fdb_hash_entry -> Z) (hs : list fdb_hash_t) : Z := Zsum (fun h => Zsum f (ptrArray h)) hs.

Lemma total_insert f hs i h h' :
  hs !! i = Some h -> total f (<[i := h']> hs) = total f hs - Zsum f (ptrArray h) + Zsum f (ptrArray h').
Proof.
  unfold total. revert i. induction hs as [|x hs IH]; intros [|i] Hi; simplify_eq/=; [lia|]. rewrite IH by done. lia.
Qed.

Definition meta_of (e : fdb_hash_entry) : Z := sizeof_meta.
Definition length_z (e : fdb_hash_entry) : Z := Z.of_nat (elength e).

Record group_inv (g : fdb_hashes_group_t) : Prop := {
  gi_some : (0 < length (fdb_hashes g))%nat;
  gi_part : forall i h, fdb_hashes g !! i = Some h -> part_inv h;
  gi_idx : forall i h, fdb_hashes g !! i = Some h -> idx_inv h;
  gi_fresh : forall i h e, fdb_hashes g !! i = Some h -> e ∈ ptrArray h -> (eid e < next_eid g)%nat;
  gi_now : 0 < now g;
  gi_default : 0 <= hash_expire_default g
}.

(** The abstract cache: a finite map from keys to values with an expiry time. *)
Definition view (g : fdb_hashes_group_t) (k : list byte) : option (list byte * Z) :=
  h ← fdb_hashes g !! partition (length (fdb_hashes g)) k (Z.of_nat (length k)); pview h k.

Lemma partition_lt n k kl : (0 < n)%nat -> (partition n k kl < n)%nat.
Proof.
  intros Hn. unfold partition. cbv zeta.
  match goal with |- context [?i mod Z.of_nat n] => pose proof (Z.mod_pos_bound i (Z.of_nat n)) end. lia.
Qed.

(** Replacing partition [i]. *)
Lemma group_inv_part g i h h' :
  group_inv g -> fdb_hashes g !! i = Some h -> part_inv h' -> idx_inv h' ->
  (forall e, e ∈ ptrArray h' -> (eid e < next_eid g)%nat) ->
  group_inv (g <| fdb_hashes := <[i := h']> (fdb_hashes g) |>).
Proof.
  intros [Hs Hp Hx Hf Hn Hd] Hi Hp' Hx' Hf'.
  assert (forall (P : fdb_hash_t -> Prop), P h' -> (forall j x, fdb_hashes g !! j = Some x -> P x) ->
    forall j x, <[i := h']> (fdb_hashes g) !! j = Some x -> P x) as Hall.
  { intros P H1 H2 j x Hj. apply list_lookup_insert_Some in Hj as [(-> & -> & _)|[_ Hj]]; eauto. }
  constructor; simpl; [by rewrite length_insert| | | |done|done].
  - by apply (Hall part_inv).
  - by apply (Hall idx_inv).
  - intros j x e Hj. revert e. apply (Hall (fun x => forall e, e ∈ ptrArray x -> (eid e < next_eid g)%nat)) with j; eauto.
Qed.

(** *** The counters *)

(** What an entry contributes to the sizes. *)
Definition measure (c : counter) : fdb_hash_entry -> Z :=
  match c with SizeKeys => klen | SizeValues => length_z | SizeMetas => meta_of | _ => fun _ => 0 end.
Definition size_of (c : counter) (g : fdb_hashes_group_t) : Z :=
  match c with SizeKeys => size_keys g | SizeValues => size_values g | SizeMetas => size_metas g | _ => 0 end.
Definition sizes : list counter := [SizeKeys; SizeValues; SizeMetas].

(** What additions that are still to be made will add to a counter. *)
Definition owed (ws : list (counter * Z)) (c : counter) : Z := Zsum snd (filter (fun a => a.1 = c) ws).

Lemma owed_app ws ws' c : owed (ws ++ ws') c = owed ws c + owed ws' c.
Proof. unfold owed. by rewrite filter_app, Zsum_app. Qed.

Lemma owed_cons c n ws c' : owed ((c, n) :: ws) c' = (if decide (c = c') then n else 0) + owed ws c'.
Proof. unfold owed. rewrite filter_cons. cbn [fst]. by case_decide. Qed.

(** The counters are the sums over the allocated entries less [owing]. *)
Definition accounted (owing : counter -> Z) (g : fdb_hashes_group_t) : Prop :=
  forall c, c ∈ sizes -> size_of c g = u64 (total (measure c) (fdb_hashes g) - owing c).

Lemma sizes_case c : c ∈ sizes -> c = SizeKeys \/ c = SizeValues \/ c = SizeMetas.
Proof. unfold sizes. set_solver. Qed.

Lemma measure_in c : c ∈ sizes -> measure c ∈ [klen; length_z; meta_of].
Proof. unfold sizes. set_solver. Qed.

(** A change that keeps the sizes and the sums. *)
Lemma accounted_same owing g g' : accounted owing g ->
  (forall c, c ∈ sizes -> size_of c g' = size_of c g /\ total (measure c) (fdb_hashes g') = total (measure c) (fdb_hashes g)) -> accounted owing g'.
Proof. intros Ha H c Hc. destruct (H c Hc) as [-> ->]. by apply Ha. Qed.

(** The view after replacing partition [i]. *)
Lemma view_part g i (h h' : fdb_hash_t) k :
  fdb_hashes g !! i = Some h ->
  view (g <| fdb_hashes := <[i := h']> (fdb_hashes g) |>) k =
  if decide (partition (length (fdb_hashes g)) k (Z.of_nat (length k)) = i) then pview h' k else view g k.
Proof.
  intros Hi. unfold view. simpl. rewrite length_insert. pose proof (lookup_lt_Some _ _ _ Hi). case_decide as Hd.
  - rewrite Hd, list_lookup_insert_eq by done. done.
  - by rewrite list_lookup_insert_ne by done.
Qed.

Lemma view_upd_same g i (h h' : fdb_hash_t) k :
  fdb_hashes g !! i = Some h -> (forall k, pview h' k = pview h k) ->
  view (g <| fdb_hashes := <[i := h']> (fdb_hashes g) |>) k = view g k.
Proof.
  intros Hi Hv. rewrite (view_part g i h h' k Hi). case_decide as Hd; [|done]. rewrite Hv. unfold view. by rewrite Hd, Hi.
Qed.

(** A reader's update of one entry. *)
Lemma reader_step_inv g i h id f :
  group_inv g -> fdb_hashes g !! i = Some h -> reader_update f ->
  let g' := g <| fdb_hashes := <[i := upd_entry id f h]> (fdb_hashes g) |> in
  group_inv g' /\ forall k, view g' k = view g k.
Proof.
  intros Hg Hi Hf. pose proof (gi_part _ Hg _ _ Hi) as Hh. split.
  - eapply group_inv_part; [done|done|by apply upd_entry_inv| |].
    + destruct (gi_idx _ Hg _ _ Hi). split; simpl; [rewrite length_fmap; done|done].
    + intros e He. apply upd_entry_elem in He as (e0 & He0 & ->). destruct (Hf e0) as (Hid & _).
      pose proof (gi_fresh _ Hg _ _ _ Hi He0). case_decide; lia.
  - intros k. apply (view_upd_same g i h); [done|]. intros k'. by apply upd_entry_view.
Qed.

Lemma reader_step_total g i h id f c :
  fdb_hashes g !! i = Some h -> reader_update f -> c ∈ sizes ->
  total (measure c) (<[i := upd_entry id f h]> (fdb_hashes g)) = total (measure c) (fdb_hashes g).
Proof.
  intros Hi Hf Hc. rewrite (total_insert _ _ _ _ _ Hi).
  enough (Zsum (measure c) (ptrArray (upd_entry id f h)) = Zsum (measure c) (ptrArray h)) by lia.
  unfold upd_entry. simpl. apply Zsum_fmap_ext. intros e. destruct (Hf e) as (? & ? & ? & Hl & ? & Hk). case_decide; [|done].
  destruct c; cbn; try done. unfold length_z. by rewrite Hl.
Qed.

(** ** The operations implement the abstract cache *)

Lemma new_inv time n d m junk :
  (0 < n)%nat -> 0 < time -> 0 <= d ->
  group_inv (fdb_hashes_new time n d m junk) /\ forall k, view (fdb_hashes_new time n d m junk) k = None.
Proof.
  intros Hn Ht Hd. split.
  - constructor; simpl; rewrite ?length_replicate; try done.
    + intros i h Hi. apply lookup_replicate in Hi as [-> _]. constructor; simpl; [constructor|..]; set_solver.
    + intros i h Hi. apply lookup_replicate in Hi as [-> _]. split; simpl; lia.
    + intros i h e Hi. apply lookup_replicate in Hi as [-> _]. set_solver.
  - intros k. unfold view. simpl. rewrite length_replicate.
    destruct (replicate _ _ !! _) as [h|] eqn:Hh; [|done]. apply lookup_replicate in Hh as [-> _]. done.
Qed.

Lemma new_accounted time n d m junk : accounted (owed []) (fdb_hashes_new time n d m junk).
Proof.
  intros c Hc. change (fdb_hashes (fdb_hashes_new time n d m junk)) with (replicate n (mkHash ∅ [] 0 0)).
  assert (total (measure c) (replicate n (mkHash ∅ [] 0 0)) = 0) as ->.
  { clear. induction n; [done|]. unfold total in *. simpl. lia. }
  by destruct c.
Qed.

Lemma u64_add a b : u64 (u64 a + b) = u64 (a + b).
Proof. unfold uwrap. by rewrite Zplus_mod_idemp_l. Qed.

Lemma u64_sub a b : u64 (u64 a - b) = u64 (a - b).
Proof. unfold uwrap. by rewrite Zminus_mod_idemp_l. Qed.

Lemma remove_sum f k h :
  f ∈ [klen; length_z; meta_of] -> Zsum f (ptrArray (g_hash_table_remove k h)) = Zsum f (ptrArray h).
Proof.
  intros Hf. unfold g_hash_table_remove. destruct (hash h !! k); [|done]. simpl. apply Zsum_fmap_ext.
  intros e. case_decide; [|done]. apply elem_of_cons in Hf as [->|Hf]; [done|].
  apply elem_of_cons in Hf as [->|Hf]; [done|]. by apply list_elem_of_singleton in Hf as ->.
Qed.

Lemma remove_meta k h :
  length (ptrArray (g_hash_table_remove k h)) = length (ptrArray h) /\
  purgeIdx (g_hash_table_remove k h) = purgeIdx h /\
  purgeChunkSize (g_hash_table_remove k h) = purgeChunkSize h.
Proof.
  unfold g_hash_table_remove. destruct (hash h !! k); simpl; [|done]. by rewrite length_fmap.
Qed.

Lemma add_entry_idx e h :
  part_inv h -> eid e ∉ eid <$> ptrArray h -> idx_inv h -> idx_inv (add_entry e h).
Proof.
  intros Hh Hfresh [Hx1 Hx2]. destruct (add_entry_shape e h Hh Hfresh) as [Hshape _].
  destruct (remove_meta (ekey e) h) as (Hl & _).
  destruct (remove_meta (ekey e) (h <| ptrArray := ptrArray h ++ [e] |>)) as (_ & Hi & Hc).
  unfold idx_inv. rewrite Hshape, length_app, Hl.
  change (purgeIdx (add_entry e h)) with (purgeIdx (g_hash_table_remove (ekey e) (h <| ptrArray := ptrArray h ++ [e] |>))).
  change (purgeChunkSize (add_entry e h))
    with (purgeChunkSize (g_hash_table_remove (ekey e) (h <| ptrArray := ptrArray h ++ [e] |>))).
  rewrite Hi, Hc. simpl in *. split; [lia|done].
Qed.

Lemma fdb_set_insert_ok maxttl g k v vl ttl copy :
  group_inv g -> (vl <= length v)%nat ->
  exists g', fdb_set_insert maxttl g k (Z.of_nat (length k)) v vl ttl copy = Some g' /\ group_inv g' /\
    (forall k', view g' k' = if decide (k' = k) then Some (take vl v, new_expire maxttl g ttl) else view g k') /\
    now g' = now g /\
    forall c, c ∈ sizes -> size_of c g' = size_of c g /\
      total (measure c) (fdb_hashes g') = total (measure c) (fdb_hashes g) + owed (set_adds (Z.of_nat (length k)) vl) c.
Proof.
  intros Hg Hvl. unfold fdb_set_insert. set (n := length (fdb_hashes g)).
  destruct (lookup_lt_is_Some_2 (fdb_hashes g) (partition n k (Z.of_nat (length k)))) as [h Hh].
  { apply partition_lt, Hg. }
  rewrite Hh, bind_Some. set (i := partition n k (Z.of_nat (length k))) in *.
  set (e := mkEntry _ _ _ _ _ _ _ _). fold (add_entry e h).
  assert (ekey e = k) as Hek by (simpl; destruct copy; [rewrite Nat2Z.id, firstn_all|]; done).
  assert (take (elength e) (evalue e) = take vl v) as Hev.
  { simpl. destruct copy; [|done]. by rewrite take_take, Nat.min_id. }
  pose proof (gi_part _ Hg _ _ Hh) as Hph. pose proof (gi_now _ Hg). pose proof (gi_default _ Hg).
  assert (eid e ∉ eid <$> ptrArray h) as Hfresh.
  { intros Hin. apply list_elem_of_fmap in Hin as (x & Hx & Hin). pose proof (gi_fresh _ Hg _ _ _ Hh Hin).
    simpl in Hx. lia. }
  assert (live e) as Hlive.
  { unfold live, EXPIRE_DROPIT. simpl. unfold new_expire. destruct (Z.ltb_spec 0 ttl); [|lia].
    destruct (_ <? _); lia. }
  assert (elength e <= length (evalue e))%nat as Hval.
  { simpl. destruct copy; [rewrite length_take|]; lia. }
  pose proof (add_entry_inv e h Hph Hfresh Hlive Hval) as Hpi.
  destruct (add_entry_shape e h Hph Hfresh) as [Hshape _].
  assert (forall f, f ∈ [klen; length_z; meta_of] ->
    total f (<[i := add_entry e h]> (fdb_hashes g)) = total f (fdb_hashes g) + f e) as Htot.
  { intros f Hf. rewrite (total_insert f _ _ _ _ Hh), Hshape, Zsum_app, remove_sum by done. simpl. lia. }
  eexists. split; [done|]. split; [|split; [|split; [done|]]].
  - destruct Hg as [Hs Hp Hx Hf Hn Hd]. constructor; simpl; rewrite ?length_insert; try done.
    + intros j x Hj. apply list_lookup_insert_Some in Hj as [(_ & <- & _)|[_ Hj]]; eauto.
    + intros j x Hj. apply list_lookup_insert_Some in Hj as [(_ & <- & _)|[_ Hj]]; [|eauto].
      by apply add_entry_idx; eauto.
    + intros j x e' Hj He'. apply list_lookup_insert_Some in Hj as [(_ & <- & _)|[_ Hj]].
      2:{ pose proof (Hf _ _ _ Hj He'). lia. }
      rewrite Hshape in He'. apply elem_of_app in He' as [He'|He'].
      * apply (list_elem_of_fmap_2 eid) in He'. rewrite remove_eids in He'.
        apply list_elem_of_fmap in He' as (x & -> & Hx'). pose proof (Hf _ _ _ Hh Hx'). lia.
      * apply list_elem_of_singleton in He' as ->. simpl. lia.
  - intros k'. transitivity (view (g <| fdb_hashes := <[i := add_entry e h]> (fdb_hashes g) |>) k'); [done|].
    rewrite (view_part g i h _ k' Hh), add_entry_view, Hek, Hev by done.
    repeat case_decide; try done.
    + unfold view. match goal with H : partition _ _ _ = i |- _ => by rewrite H, Hh end.
    + exfalso. match goal with H : ~ (partition _ _ _ = i) |- _ => apply H end. by subst k'.
  - intros c Hc. split; [by destruct c|]. etransitivity; [exact (Htot (measure c) (measure_in c Hc))|].
    f_equal. unfold set_adds. rewrite !owed_cons. change (owed [] c) with 0.
    apply sizes_case in Hc as [->|[->| ->]]; repeat case_decide; try discriminate; try congruence; cbn; unfold length_z, meta_of; cbn; lia.
Qed.

(** Counting changes nothing that a reader sees. *)
Lemma sync_add_inv c n g : group_inv g ->
  group_inv (sync_add c n g) /\ (forall k, view (sync_add c n g) k = view g k) /\ now (sync_add c n g) = now g.
Proof. intros []. destruct c; (split; [by constructor|done]). Qed.

Lemma sync_adds_inv l : forall g, group_inv g ->
  let g' := foldl (fun hg '(c, n) => sync_add c n hg) g l in
  group_inv g' /\ (forall k, view g' k = view g k) /\ now g' = now g.
Proof.
  induction l as [|[c n] l IH]; intros g Hg; [done|]. cbn [foldl]. destruct (sync_add_inv c n g Hg) as (H1 & H2 & H3).
  destruct (IH _ H1) as (H4 & H5 & H6). split; [done|]. split; [|congruence]. intros k. by rewrite H5, H2.
Qed.

Lemma fdb_set_ok maxttl g k v vl ttl copy :
  group_inv g -> (vl <= length v)%nat ->
  exists g', fdb_set maxttl g k (Z.of_nat (length k)) v vl ttl copy = Some g' /\ group_inv g' /\
    (forall k', view g' k' = if decide (k' = k) then Some (take vl v, new_expire maxttl g ttl) else view g k') /\
    now g' = now g.
Proof.
  intros Hg Hvl. destruct (fdb_set_insert_ok maxttl g k v vl ttl copy Hg Hvl) as (g1 & E & Hg1 & Hv & Hn & _).
  unfold fdb_set. rewrite E, bind_Some. destruct (sync_adds_inv (set_adds (Z.of_nat (length k)) vl) g1 Hg1) as (H1 & H2 & H3).
  eexists. split; [reflexivity|]. split; [done|]. split; [|congruence]. intros k'. by rewrite H2.
Qed.

Lemma ref_update d : reader_update (fun e => e <| ref_count := ref_count e + d |>).
Proof. by intros e. Qed.

Lemma ref_update_sub d : reader_update (fun e => e <| ref_count := ref_count e - d |>).
Proof. by intros e. Qed.

Lemma access_update t : reader_update (fun e => if access e <? t then e <| access := t |> else e).
Proof. intros e. by destruct (_ <? _). Qed.

#[export] Hint Resolve ref_update ref_update_sub access_update : px.

(** Finding an entry after a reader's update. *)
Lemma find_upd h id f e :
  part_inv h -> reader_update f -> find_entry id h = Some e -> find_entry id (upd_entry id f h) = Some (f e).
Proof.
  intros Hh Hf He. apply find_entry_in in He as [He Hid]. destruct (Hf e) as (Hfid & _).
  rewrite <- Hid at 1. rewrite <- Hfid. apply find_entry_spec; [by apply upd_entry_inv|].
  apply upd_entry_elem. exists e. split; [done|]. by rewrite decide_True.
Qed.

(** Writing a partition twice. *)
Lemma part_twice g i (h h' : fdb_hash_t) :
  g <| fdb_hashes := <[i := h]> (fdb_hashes g) |> <| fdb_hashes := <[i := h']> (<[i := h]> (fdb_hashes g)) |> =
  g <| fdb_hashes := <[i := h']> (fdb_hashes g) |>.
Proof. simpl. by rewrite list_insert_insert_eq. Qed.

(** Counters are not part of the invariant or of the view. *)
Lemma counters_inv g a b c :
  group_inv g -> group_inv (g <| cntGet := a |>) /\ group_inv (g <| cntGetOK := b |> <| dataOUT := c |>).
Proof. intros []. split; by constructor. Qed.

Definition answer (t : Z) (v : option (list byte * Z)) : option pkt :=
  '(v, x) ← v; if t <? x then Some (mkPkt (length v) v) else None.

Lemma answer_Some t v x : answer t (Some (v, x)) = if t <? x then Some (mkPkt (length v) v) else None.
Proof. done. Qed.

Lemma fdb_get_ok g k :
  group_inv g ->
  exists g', fdb_get g k = Some (answer (now g) (view g k), g') /\ group_inv g' /\
    (forall k', view g' k' = view g k') /\ now g' = now g.
Proof.
  intros Hg. unfold fdb_get, fdb_get_lock. set (i := partition (length (fdb_hashes g)) k (Z.of_nat (length k))).
  destruct (lookup_lt_is_Some_2 (fdb_hashes g) i) as [h Hh]; [apply partition_lt, Hg|].
  assert (view g k = pview h k) as Hview by (unfold view; fold i; by rewrite Hh, bind_Some).
  assert (i < length (fdb_hashes g))%nat as Hlt by (by eapply lookup_lt_Some).
  rewrite Hh, bind_Some, Hview. pose proof (gi_part _ Hg _ _ Hh) as Hp. unfold pview.
  destruct (hash h !! k) as [id|] eqn:Hk.
  2:{ rewrite !bind_Some. eexists. split; [done|]. split; [by apply (counters_inv g (u64 (cntGet g + 1)) 0 0)|done]. }
  rewrite !bind_Some. destruct (pi_hash _ Hp _ _ Hk) as (e & He & <- & Hek & Hl).
  pose proof (find_entry_spec h e Hp He) as Hfe. rewrite Hfe, bind_Some.
  set (f1 := fun e => e <| ref_count := ref_count e + 1 |>).
  destruct (reader_step_inv g i h (eid e) f1 Hg Hh) as [Hg1 Hv1]; [apply ref_update|].
  set (g1 := g <| fdb_hashes := <[i := upd_entry (eid e) f1 h]> (fdb_hashes g) |>) in *.
  assert (fdb_hashes g1 !! i = Some (upd_entry (eid e) f1 h)) as Hh1 by (by apply list_lookup_insert_eq).
  pose proof (gi_part _ Hg1 _ _ Hh1) as Hp1.
  pose proof (find_upd h (eid e) f1 e Hp (ref_update 1) Hfe) as Hf1.
  assert (exists g2, fdb_get_copy g1 i (eid e) =
      Some (answer (now g) (Some (take (elength e) (evalue e), expire e)), g2) /\ group_inv g2 /\
      (forall k', view g2 k' = view g1 k') /\ now g2 = now g /\
      exists h2 e2, fdb_hashes g2 !! i = Some h2 /\ find_entry (eid e) h2 = Some e2) as
    (g2 & -> & Hg2 & Hv2 & Hn2 & h2 & e2 & Hh2 & He2).
  { unfold fdb_get_copy. rewrite Hh1, bind_Some, Hf1, bind_Some. rewrite answer_Some.
    change (now g1) with (now g). change (expire (f1 e)) with (expire e).
    destruct (now g <? expire e).
    - change (elength (f1 e)) with (elength e). change (evalue (f1 e)) with (evalue e).
      pose proof (pi_value _ Hp e He). unfold mem_read. rewrite decide_True, bind_Some by (simpl; lia).
      change (drop 0 (evalue e)) with (evalue e).
      set (f2 := fun e => if access e <? now g then e <| access := now g |> else e).
      destruct (reader_step_inv g1 i _ (eid e) f2 Hg1 Hh1) as [Hg2 Hv2]; [apply access_update|].
      eexists. split; [rewrite length_take, Nat.min_l by lia; reflexivity|].
      split; [|split; [exact Hv2|]].
      + destruct Hg2. by constructor.
      + split; [done|]. eexists _, _. split; [simpl; apply list_lookup_insert_eq; by rewrite length_insert|].
        apply find_upd; [done|apply access_update|done].
    - exists g1. split; [done|]. split; [done|]. split; [done|]. split; [done|]. eauto. }
  rewrite bind_Some. unfold fdb_get_release. rewrite Hh2, bind_Some, He2, bind_Some, bind_Some, bind_Some.
  destruct (reader_step_inv g2 i h2 (eid e) (fun e => e <| ref_count := ref_count e - 1 |>) Hg2 Hh2) as [Hg3 Hv3];
    [apply ref_update_sub|].
  eexists. split; [done|]. split; [apply (counters_inv _ _ 0 0 Hg3)|]. split; [|done].
  intros k'. transitivity (view g2 k'); [exact (Hv3 k')|]. by rewrite Hv2, Hv1.
Qed.

Lemma remove_all_inv h :
  part_inv h -> part_inv (g_hash_table_remove_all h) /\ (forall e, e ∈ ptrArray (g_hash_table_remove_all h) -> ~ live e).
Proof.
  intros Hh.
  assert (forall e', e' ∈ ptrArray (g_hash_table_remove_all h) ->
    exists e, e ∈ ptrArray h /\ eid e' = eid e /\ evalue e' = evalue e /\ elength e' = elength e /\ ~ live e') as Hel.
  { unfold g_hash_table_remove_all. simpl. intros e' He'. apply list_elem_of_fmap in He' as (e & -> & He).
    exists e. split; [done|]. case_decide as Hd; [split_and!; try done; intros Hl; by apply Hl|].
    split_and!; try done. intros Hl. apply Hd, list_elem_of_fmap. exists (ekey e, eid e). split; [done|].
    apply elem_of_map_to_list. by apply (pi_live _ Hh). }
  split; [|intros e' He'; destruct (Hel e' He') as (? & _ & _ & _ & _ & ?); done]. constructor.
  - unfold g_hash_table_remove_all. simpl. rewrite <- list_fmap_compose.
    assert ((eid ∘ (fun e => if decide (eid e ∈ (map_to_list (hash h)).*2) then hash_value_destroy_func e else e))
      <$> ptrArray h = eid <$> ptrArray h) as ->; [|apply Hh].
    apply list_fmap_ext. intros i e _. simpl. by case_decide.
  - intros k id Hk. simpl in Hk. by rewrite lookup_empty in Hk.
  - intros e' He' Hl. destruct (Hel e' He') as (? & _ & _ & _ & _ & Hn). done.
  - intros e' He'. destruct (Hel e' He') as (e & He & _ & -> & -> & _). by apply (pi_value _ Hh).
Qed.

Lemma fdb_truncate_ok g :
  group_inv g ->
  group_inv (fdb_truncate_all g).2 /\ (forall k, view (fdb_truncate_all g).2 k = None) /\
  (fdb_truncate_all g).1 = Z.of_nat (sum_list_with (fun h => base.size (hash h)) (fdb_hashes g)).
Proof.
  intros Hg. split_and!; [|..|done].
  - destruct Hg as [Hs Hp Hx Hf Hn Hd]. constructor; simpl; rewrite ?length_fmap; try done.
    + intros i h Hi. rewrite list_lookup_fmap in Hi. apply fmap_Some in Hi as (h0 & Hi & ->).
      apply remove_all_inv. eauto.
    + intros i h Hi. rewrite list_lookup_fmap in Hi. apply fmap_Some in Hi as (h0 & Hi & ->).
      destruct (Hx _ _ Hi). unfold idx_inv. simpl. by rewrite length_fmap.
    + intros i h e Hi He. rewrite list_lookup_fmap in Hi. apply fmap_Some in Hi as (h0 & Hi & ->).
      simpl in He. apply list_elem_of_fmap in He as (e0 & -> & He0). pose proof (Hf _ _ _ Hi He0).
      by case_decide.
  - intros k. unfold view. simpl. rewrite list_lookup_fmap. destruct (fdb_hashes g !! _); [|done]. simpl.
    unfold pview. simpl. by rewrite lookup_empty.
Qed.

Lemma truncate_total g c : total (measure c) (g_hash_table_remove_all <$> fdb_hashes g) = total (measure c) (fdb_hashes g).
Proof.
  unfold total. induction (fdb_hashes g) as [|h hs IH]; [done|]. rewrite fmap_cons. simpl. f_equal; [|exact IH]. apply Zsum_fmap_ext.
  intros e. case_decide; [|done]. by destruct c.
Qed.

(** ** The purge thread *)

(** What a stretch of purging establishes of a partition. *)
Record purge_post (t : Z) (h : fdb_hash_t) (freed : list fdb_hash_entry) (h' : fdb_hash_t) : Prop := {
  pp_inv : part_inv h';
  pp_len : (length (ptrArray h') + length freed = length (ptrArray h))%nat;
  pp_freed : Forall (fun e => ref_count e = 0) freed;
  pp_sum : forall f, f ∈ [klen; length_z; meta_of] -> Zsum f (ptrArray h') + Zsum f freed = Zsum f (ptrArray h);
  pp_eids : forall e', e' ∈ ptrArray h' -> exists e, e ∈ ptrArray h /\ eid e = eid e' /\ ref_count e = ref_count e';
  pp_sound : forall k v x, pview h' k = Some (v, x) -> pview h k = Some (v, x);
  pp_keep : forall k v x, pview h k = Some (v, x) -> t < x -> pview h' k = Some (v, x);
  pp_refs : forall e, e ∈ ptrArray h -> ref_count e <> 0 ->
    exists e', e' ∈ ptrArray h' /\ eid e' = eid e /\ evalue e' = evalue e /\ elength e' = elength e /\
      ref_count e' = ref_count e;
  pp_first : eid <$> (ptrArray h' !! 0%nat) = eid <$> (ptrArray h !! 0%nat)
}.

Lemma purge_post_refl t h : part_inv h -> purge_post t h [] h.
Proof.
  intros Hh. constructor; auto; simpl; try lia; try done.
  - eauto.
  - intros e He _. eauto 10.
Qed.

Lemma purge_post_trans t h1 f1 h2 f2 h3 :
  purge_post t h1 f1 h2 -> purge_post t h2 f2 h3 -> purge_post t h1 (f1 ++ f2) h3.
Proof.
  intros [I1 L1 F1 S1 E1 So1 K1 R1 Z1] [I2 L2 F2 S2 E2 So2 K2 R2 Z2]. constructor; auto.
  - rewrite length_app. lia.
  - by apply Forall_app.
  - intros f Hf. rewrite Zsum_app. specialize (S1 f Hf). specialize (S2 f Hf). lia.
  - intros e3 He3. destruct (E2 e3 He3) as (e2 & He2 & ? & ?). destruct (E1 e2 He2) as (e1 & He1 & ? & ?).
    exists e1. split_and!; congruence.
  - intros e He Hr. destruct (R1 e He Hr) as (e2 & He2 & Ha & Hb & Hc & Hd).
    destruct (R2 e2 He2) as (e3 & He3 & Ha' & Hb' & Hc' & Hd'); [congruence|].
    exists e3. split_and!; congruence.
  - congruence.
Qed.

(** Dropping an expired key from the table. *)
Lemma expire_post t h idx e :
  part_inv h -> ptrArray h !! idx = Some e -> live e -> expire e <= t ->
  purge_post t h [] (g_hash_table_remove (ekey e) h).
Proof.
  intros Hh Hidx Hl Hx. assert (e ∈ ptrArray h) as He by (by eapply list_elem_of_lookup_2).
  destruct (remove_meta (ekey e) h) as (Hlen & _). constructor.
  - by apply remove_inv.
  - simpl. lia.
  - done.
  - intros f Hf. rewrite remove_sum by done. change (Zsum f []) with 0. lia.
  - intros e' He'. apply remove_elem in He' as (e0 & He0 & ->); [|done]. exists e0. by case_decide.
  - intros k v x Hk. rewrite remove_view in Hk by done. by case_decide.
  - intros k v x Hk Ht. rewrite remove_view by done. case_decide as Hd; [|done]. exfalso.
    apply pview_spec in Hk as (e2 & He2 & Hl2 & Hk2 & _ & ->); [|done].
    assert (e2 = e) as ->; [|lia]. apply (eid_unique h); [done..|].
    apply (inj Some). rewrite <- (pi_live _ Hh e), <- (pi_live _ Hh e2) by done. congruence.
  - intros e' He' _. exists (if decide (ekey e' = ekey e /\ live e') then hash_value_destroy_func e' else e').
    split; [apply remove_elem; eauto|]. by case_decide.
  - pose proof (f_equal (fun l => l !! 0%nat) (remove_eids (ekey e) h)) as H0. simpl in H0.
    by rewrite !list_lookup_fmap in H0.
Qed.

(** Freeing a dropped entry nobody refers to. *)
Lemma free_post t h idx e :
  part_inv h -> ptrArray h !! idx = Some e -> ~ live e -> ref_count e = 0 -> (0 < idx)%nat ->
  purge_post t h [e] (h <| ptrArray := LArr.swap_remove idx (ptrArray h) |>).
Proof.
  intros Hh Hidx Hl Hr H0. destruct (swap_remove_inv h idx e Hh Hidx Hl) as [Hi Hv].
  pose proof (LArr.swap_remove_perm _ _ _ Hidx) as Hperm. constructor; simpl.
  - done.
  - apply Permutation_length in Hperm. simpl in Hperm. lia.
  - by repeat constructor.
  - intros f _. rewrite (Zsum_perm f _ _ Hperm). simpl. lia.
  - intros x Hx. exists x. split; [|done]. rewrite Hperm. set_solver.
  - intros k v x. by rewrite Hv.
  - intros k v x. by rewrite Hv.
  - intros x Hx Hrx. exists x. rewrite Hperm in Hx. apply elem_of_cons in Hx as [->|Hx]; [done|]. done.
  - pose proof (lookup_lt_Some _ _ _ Hidx). unfold LArr.swap_remove.
    destruct (ptrArray h !! (length (ptrArray h) - 1)%nat) as [y|] eqn:Hy; [|done].
    rewrite lookup_take_lt by lia. by rewrite list_lookup_insert_ne by lia.
Qed.

Lemma purge_visit_ok t h idx :
  part_inv h -> (0 < idx < length (ptrArray h))%nat ->
  exists h' fr, purge_visit t h idx = Some (h', fr) /\ purge_post t h (option_list fr) h' /\
    purgeIdx h' = purgeIdx h /\ purgeChunkSize h' = purgeChunkSize h.
Proof.
  intros Hh [H0 Hidx]. destruct (lookup_lt_is_Some_2 _ _ Hidx) as [e He]. unfold purge_visit.
  rewrite He, bind_Some.
  set (h1 := if negb (expire e =? EXPIRE_DROPIT) && (expire e <=? t) then g_hash_table_remove (ekey e) h else h).
  assert (purge_post t h [] h1 /\ length (ptrArray h1) = length (ptrArray h) /\
    purgeIdx h1 = purgeIdx h /\ purgeChunkSize h1 = purgeChunkSize h) as (Hp1 & Hl1 & Hx1 & Hc1).
  { unfold h1. destruct (Z.eqb_spec (expire e) EXPIRE_DROPIT); simpl; [by auto using purge_post_refl|].
    destruct (Z.leb_spec (expire e) t); [|by auto using purge_post_refl].
    split; [by apply (expire_post t h idx)|]. apply remove_meta. }
  clearbody h1. pose proof (pp_inv _ _ _ _ Hp1) as Hh1.
  destruct (lookup_lt_is_Some_2 (ptrArray h1) idx) as [e1 He1]; [lia|]. rewrite He1, bind_Some.
  destruct (Z.eqb_spec (expire e1) EXPIRE_DROPIT) as [Hd|Hd]; simpl; [|by exists h1, None].
  destruct (Z.eqb_spec (ref_count e1) 0) as [Hr|Hr]; [|by exists h1, None].
  eexists _, (Some e1). split; [done|]. split; [|done].
  apply (purge_post_trans t h [] h1 [e1]); [done|]. apply free_post; auto.
Qed.

Lemma purge_idx_post t h i c :
  part_inv h -> purge_post t h [] (h <| purgeIdx := i |>) /\
  purge_post t h [] (h <| purgeIdx := i |> <| purgeChunkSize := c |>).
Proof.
  intros Hh. destruct (purge_post_refl t h Hh) as [I L F S E So K R Z].
  split; constructor; try done; destruct Hh; by constructor.
Qed.

Lemma purge_while_ok t min_idx : 0 <= min_idx -> forall n h,
  part_inv h -> min_idx < purgeIdx h <= Z.of_nat (length (ptrArray h)) -> purgeIdx h - 1 - min_idx <= Z.of_nat n ->
  exists h' freed, purge_while n t min_idx h = Some (h', freed) /\ purge_post t h freed h' /\
    purgeIdx h' = min_idx /\ min_idx <= Z.of_nat (length (ptrArray h')) /\ purgeChunkSize h' = purgeChunkSize h.
Proof.
  intros Hmin. induction n as [|n IH]; intros h Hh Hi Hn; cbn [purge_while];
    set (h0 := h <| purgeIdx := purgeIdx h - 1 |>);
    assert (purge_post t h [] h0) as Hp0 by (by apply (purge_idx_post t h _ 0));
    change (purgeIdx h0) with (purgeIdx h - 1); destruct (Z.leb_spec (purgeIdx h - 1) min_idx) as [Hle|Hgt]; try lia;
    try (exists h0, []; split_and!; [done|done|simpl; lia|simpl; lia|done]).
  destruct (purge_visit_ok t h0 (Z.to_nat (purgeIdx h - 1))) as (h1 & fr & -> & Hp1 & Hx1 & Hc1);
    [apply Hp0|simpl; lia|]. rewrite bind_Some.
  pose proof (pp_len _ _ _ _ Hp1) as Hl1. simpl in Hl1. assert (length (option_list fr) <= 1)%nat by (destruct fr; simpl; lia).
  destruct (IH h1) as (h2 & rest & -> & Hp2 & Hx2 & Hle2 & Hc2); [apply Hp1|rewrite Hx1; simpl; lia|rewrite Hx1; simpl; lia|].
  rewrite bind_Some. eexists h2, _. split; [done|]. split_and!; [|done|done|by rewrite Hc2, Hc1].
  assert (match fr with Some e => e :: rest | None => rest end = option_list fr ++ rest) as -> by (by destruct fr).
  apply (purge_post_trans t h [] h0); [done|]. by eapply purge_post_trans.
Qed.

(** The purge of a partition: it stays inside of the array, terminates, and keeps what it must. *)
Lemma purge_partition_ok purge_loop purge_time t h :
  part_inv h -> idx_inv h -> 0 <= purge_loop -> 0 < purge_time ->
  exists h' freed, purge_partition purge_loop purge_time t h = Some (h', freed) /\ purge_post t h freed h' /\ idx_inv h'.
Proof.
  intros Hh [Hi Hc] Hpl Hpt. unfold purge_partition.
  set (len := Z.of_nat (length (ptrArray h))).
  set (h0 := if (purgeIdx h =? 0) && negb (len =? 0) then _ else h).
  assert (purge_post t h [] h0 /\ idx_inv h0 /\ (purgeIdx h0 = 0 -> h0 = h)) as (Hp0 & [Hi0 Hc0] & Hz).
  { unfold h0. destruct (Z.eqb_spec (purgeIdx h) 0), (Z.eqb_spec len 0); simpl;
      try (split; [by apply purge_post_refl|]; split; [by split|done]).
    split; [by apply (purge_idx_post t h)|]. unfold idx_inv. simpl. fold len. split; [split; [lia|]|lia].
    intros _. destruct (Z.ltb_spec (len * purge_loop / purge_time) 10); lia. }
  clearbody h0. cbv zeta.
  set (m0 := if purgeChunkSize h0 <? purgeIdx h0 then _ else 0).
  set (m := if m0 <? purgeChunkSize h0 then 0 else m0).
  destruct (Z.eqb_spec (purgeIdx h0) 0) as [H0|H0].
  { exists h0, []. split; [done|]. split; [done|]. split; done. }
  specialize (Hc0 H0).
  assert (0 <= m < purgeIdx h0) as Hm.
  { unfold m, m0. destruct (Z.ltb_spec (purgeChunkSize h0) (purgeIdx h0)); match goal with |- context [?a <? ?b] => destruct (Z.ltb_spec a b) end; lia. }
  destruct (purge_while_ok t m ltac:(lia) (Z.to_nat (purgeIdx h0)) h0) as (h' & freed & Hw & Hp & Hx & Hle & Hcs);
    [apply Hp0|lia|lia|].
  exists h', freed. split; [done|]. split; [by apply (purge_post_trans t h [] h0)|].
  split; [lia|]. intros _. lia.
Qed.

Lemma purge_account_frame freed : forall g,
  let g' := foldl purge_account g freed in
  fdb_hashes g' = fdb_hashes g /\ now g' = now g /\ next_eid g' = next_eid g /\ hash_expire_default g' = hash_expire_default g.
Proof. induction freed as [|e freed IH]; intros g; [done|]. exact (IH (purge_account g e)). Qed.

Lemma purge_account_sizes freed c : c ∈ sizes -> forall g n,
  size_of c g = u64 n -> size_of c (foldl purge_account g freed) = u64 (n - Zsum (measure c) freed).
Proof.
  intros Hc. induction freed as [|e freed IH]; intros g n Hn; cbn [foldl]; [change (Zsum (measure c) []) with 0; by rewrite Z.sub_0_r|].
  rewrite (IH (purge_account g e) (n - measure c e)); [f_equal; simpl; lia|].
  apply sizes_case in Hc as [->|[->| ->]]; cbn in *; by rewrite Hn, u64_sub.
Qed.

(** What purging guarantees of the whole cache. *)
Record purged (g g' : fdb_hashes_group_t) : Prop := {
  pg_inv : group_inv g';
  pg_now : now g' = now g;
  pg_len : length (fdb_hashes g') = length (fdb_hashes g);
  pg_sound : forall k v x, view g' k = Some (v, x) -> view g k = Some (v, x);
  pg_keep : forall k v x, view g k = Some (v, x) -> now g < x -> view g' k = Some (v, x);
  pg_refs : forall i h e, fdb_hashes g !! i = Some h -> e ∈ ptrArray h -> ref_count e <> 0 ->
    exists h' e', fdb_hashes g' !! i = Some h' /\ e' ∈ ptrArray h' /\ eid e' = eid e /\
      evalue e' = evalue e /\ elength e' = elength e /\ ref_count e' = ref_count e;
  pg_back : forall i h' e', fdb_hashes g' !! i = Some h' -> e' ∈ ptrArray h' ->
    exists h e, fdb_hashes g !! i = Some h /\ e ∈ ptrArray h /\ eid e = eid e' /\ ref_count e = ref_count e';
  pg_first : forall i h, fdb_hashes g !! i = Some h ->
    exists h', fdb_hashes g' !! i = Some h' /\
      eid <$> (ptrArray h' !! 0%nat) = eid <$> (ptrArray h !! 0%nat)
}.

Lemma purged_refl g : group_inv g -> purged g g.
Proof. intros Hg. constructor; eauto 10. Qed.

Lemma purged_trans g1 g2 g3 : purged g1 g2 -> purged g2 g3 -> purged g1 g3.
Proof.
  intros [I1 N1 L1 S1 K1 R1 B1 F1] [I2 N2 L2 S2 K2 R2 B2 F2]. constructor; auto; try congruence.
  - intros k v x Hk Hx. apply K2; [auto|lia].
  - intros i h e Hi He Hr. destruct (R1 i h e Hi He Hr) as (h' & e' & Hi' & He' & ? & ? & ? & ?).
    destruct (R2 i h' e' Hi' He') as (h'' & e'' & ? & ? & ? & ? & ? & ?); [congruence|].
    exists h'', e''. split_and!; congruence.
  - intros i h3 e3 Hi3 He3. destruct (B2 _ _ _ Hi3 He3) as (h2 & e2 & Hi2 & He2 & ? & ?).
    destruct (B1 _ _ _ Hi2 He2) as (h1 & e1 & ? & ? & ? & ?). exists h1, e1. split_and!; congruence.
  - intros i h Hi. destruct (F1 i h Hi) as (h' & Hi' & H1). destruct (F2 i h' Hi') as (h'' & Hi'' & H2).
    exists h''. split; congruence.
Qed.

Lemma purge_one_partition_ok purge_loop purge_time g i :
  group_inv g -> 0 <= purge_loop -> 0 < purge_time -> (i < length (fdb_hashes g))%nat ->
  exists g', purge_one_partition purge_loop purge_time g i = Some g' /\ purged g g'.
Proof.
  intros Hg Hpl Hpt Hi. destruct (lookup_lt_is_Some_2 _ _ Hi) as [h Hh]. unfold purge_one_partition.
  rewrite Hh, bind_Some.
  destruct (purge_partition_ok purge_loop purge_time (now g) h) as (h' & freed & -> & Hp & Hx);
    [by eapply gi_part|by eapply gi_idx|done|done|]. rewrite bind_Some.
  set (g0 := g <| fdb_hashes := <[i := h']> (fdb_hashes g) |>).
  destruct (purge_account_frame freed g0) as (Ha & Hn & Hne & Hd). set (g' := foldl purge_account g0 freed) in *.
  assert (forall k, view g' k = if decide (partition (length (fdb_hashes g)) k (Z.of_nat (length k)) = i)
                                then pview h' k else view g k) as Hview.
  { intros k. rewrite <- (view_part g i h h' k Hh). unfold view. by rewrite Ha. }
  assert (forall j, fdb_hashes g' !! j = if decide (i = j) then Some h' else fdb_hashes g !! j) as Hlk.
  { intros j. rewrite Ha. simpl. case_decide; [subst; by apply list_lookup_insert_eq|by apply list_lookup_insert_ne]. }
  exists g'. split; [done|]. constructor.
  - destruct Hg as [Hs Hpa Hxa Hf Hn0 Hd0]. constructor.
    + rewrite Ha. simpl. by rewrite length_insert.
    + intros j x. rewrite Hlk. case_decide; [intros [= <-]; apply Hp|apply Hpa].
    + intros j x. rewrite Hlk. case_decide; [intros [= <-]; apply Hx|apply Hxa].
    + intros j x e. rewrite Hlk, Hne. case_decide; [|apply Hf]. intros [= <-] He.
      destruct (pp_eids _ _ _ _ Hp e He) as (e0 & He0 & <- & _). by apply (Hf i h).
    + by rewrite Hn.
    + by rewrite Hd.
  - done.
  - rewrite Ha. simpl. by rewrite length_insert.
  - intros k v x. rewrite Hview. case_decide as Hd'; [|done].
    intros Hk'. unfold view. rewrite Hd', Hh, bind_Some. by apply (pp_sound _ _ _ _ Hp).
  - intros k v x. rewrite Hview. case_decide as Hd'; [|done].
    intros Hk'. unfold view in Hk'. rewrite Hd', Hh, bind_Some in Hk'. by apply (pp_keep _ _ _ _ Hp).
  - intros j x e Hj He Hr. rewrite Hlk. case_decide as Hij; [|eauto 10]. subst j. simplify_eq.
    destruct (pp_refs _ _ _ _ Hp e He Hr) as (e' & ?). eauto 10.
  - intros j x e'. rewrite Hlk. case_decide as Hij; [|eauto 10]. subst j. intros [= <-] He'.
    destruct (pp_eids _ _ _ _ Hp e' He') as (e & ? & ? & ?). eauto 10.
  - intros j x Hj. rewrite Hlk. case_decide as Hij; [|eauto]. subst j. simplify_eq.
    exists h'. split; [done|]. apply Hp.
Qed.

(** Purging takes from the counters what it frees. *)
Lemma purge_one_partition_accounted purge_loop purge_time owing g i g' :
  group_inv g -> 0 <= purge_loop -> 0 < purge_time -> accounted owing g -> purge_one_partition purge_loop purge_time g i = Some g' -> accounted owing g'.
Proof.
  intros Hg Hpl Hpt Ha E c Hc. unfold purge_one_partition in E. destruct (fdb_hashes g !! i) as [h|] eqn:Hh; [|done]. rewrite bind_Some in E.
  destruct (purge_partition_ok purge_loop purge_time (now g) h) as (h' & freed & E1 & Hp & _); [by eapply gi_part|by eapply gi_idx|done|done|].
  rewrite E1, bind_Some in E. injection E as <-. rewrite (purge_account_sizes freed c Hc _ (total (measure c) (fdb_hashes g) - owing c)).
  - rewrite (proj1 (purge_account_frame freed _)). cbn [fdb_hashes upd group_eta eta_expand]. rewrite (total_insert _ _ _ _ _ Hh).
    pose proof (pp_sum _ _ _ _ Hp (measure c) (measure_in c Hc)). f_equal. lia.
  - etransitivity; [|apply (Ha c Hc)]. by destruct c.
Qed.

Lemma purge_partitions_ok purge_loop purge_time idxs : forall g,
  group_inv g -> 0 <= purge_loop -> 0 < purge_time -> Forall (fun i => i < length (fdb_hashes g))%nat idxs ->
  exists g', purge_partitions purge_loop purge_time idxs g = Some g' /\ purged g g'.
Proof.
  induction idxs as [|i idxs IH]; intros g Hg Hpl Hpt Hf; cbn [purge_partitions].
  { exists g. split; [done|]. by apply purged_refl. }
  apply Forall_cons in Hf as [Hi Hf].
  destruct (purge_one_partition_ok purge_loop purge_time g i Hg Hpl Hpt Hi) as (g1 & -> & Hp1). rewrite bind_Some.
  destruct (IH g1) as (g2 & -> & Hp2); [apply Hp1|done|done|by rewrite (pg_len _ _ Hp1)|].
  exists g2. split; [done|]. by eapply purged_trans.
Qed.

(** Moving the clock. *)
Lemma clock_inv g time : group_inv g -> 0 < time -> group_inv (g <| now := time |>).
Proof. intros [] Ht. by constructor. Qed.

Lemma purge_turn_ok purge_loop purge_time thr time pct g :
  group_inv g -> 0 <= purge_loop -> 0 < purge_time -> 0 < time ->
  exists g', purge_turn purge_loop purge_time thr time pct g = Some g' /\ purged (g <| now := time |>) g'.
Proof.
  intros Hg Hpl Hpt Ht. unfold purge_turn. pose proof (clock_inv g time Hg Ht) as Hg'. destruct (pct <? thr).
  - eexists. split; [done|]. by apply purged_refl.
  - apply purge_partitions_ok; [done..|]. apply Forall_forall. intros i Hi. apply elem_of_seq in Hi. lia.
Qed.

Lemma fdb_set_insert_shape maxttl g k kl v vl ttl copy g' :
  fdb_set_insert maxttl g k kl v vl ttl copy = Some g' ->
  exists h e, fdb_hashes g !! partition (length (fdb_hashes g)) k kl = Some h /\ eid e = next_eid g /\
    ref_count e = 0 /\ fdb_hashes g' = <[partition (length (fdb_hashes g)) k kl := add_entry e h]> (fdb_hashes g).
Proof.
  unfold fdb_set_insert. destruct (fdb_hashes g !! _) as [h|] eqn:Hh; [|done]. rewrite bind_Some. intros [= <-].
  exists h, (mkEntry (next_eid g) (if copy then take (Z.to_nat kl) k else k) (if copy then take vl v else v)
    kl vl (new_expire maxttl g ttl) (now g) 0). done.
Qed.

(** ** Concurrent histories

    The state of a history is the cache, the references that readers between
    [fdb_get_lock] and [fdb_get_release] hold, and the additions to the counters that
    insertions have still to make.  Every step is one critical
    section, the copy, which runs without a lock, or one addition, so sequences of steps
    are the interleavings of any number of threads with the purge thread. *)

Definition conf : Type := fdb_hashes_group_t * list (nat * nat).

Definition cnt (x : nat * nat) (rs : list (nat * nat)) : Z := Z.of_nat (length (filter (fun y => y = x) rs)).

(** Reference counts are the numbers of readers, and readers' entries are allocated. *)
Record conf_inv (c : conf) : Prop := {
  ci_group : group_inv c.1;
  ci_count : forall i h e, fdb_hashes c.1 !! i = Some h -> e ∈ ptrArray h -> ref_count e = cnt (i, eid e) c.2;
  ci_alloc : forall i id, (i, id) ∈ c.2 -> exists h e, fdb_hashes c.1 !! i = Some h /\ e ∈ ptrArray h /\ eid e = id
}.

Lemma cnt_cons x y rs : cnt x (y :: rs) = (if decide (y = x) then 1 else 0) + cnt x rs.
Proof. unfold cnt. rewrite filter_cons. case_decide; simpl; lia. Qed.

Lemma cnt_middle x y l1 l2 : cnt x (l1 ++ y :: l2) = (if decide (y = x) then 1 else 0) + cnt x (l1 ++ l2).
Proof. unfold cnt. rewrite !filter_app, filter_cons, !length_app. case_decide; simpl; lia. Qed.

Lemma cnt_pos x rs : 0 < cnt x rs <-> x ∈ rs.
Proof.
  unfold cnt. split.
  - intros Hp. destruct (filter _ rs) as [|y l] eqn:Hf; simpl in Hp; [lia|].
    assert (y ∈ filter (fun y => y = x) rs) as Hy by (rewrite Hf; set_solver).
    by apply list_elem_of_filter in Hy as [-> ?].
  - intros Hx. destruct (filter (fun y => y = x) rs) as [|y l] eqn:Hf; simpl; [|lia].
    assert (x ∈ filter (fun y => y = x) rs) as Hy by (by apply list_elem_of_filter). rewrite Hf in Hy. set_solver.
Qed.

(** A step that keeps identities and reference counts keeps the invariant. *)
Lemma conf_inv_same g g' rs :
  conf_inv (g, rs) -> group_inv g' ->
  (forall i h' e', fdb_hashes g' !! i = Some h' -> e' ∈ ptrArray h' ->
     (exists h e, fdb_hashes g !! i = Some h /\ e ∈ ptrArray h /\ eid e = eid e' /\ ref_count e = ref_count e') \/
     ((next_eid g <= eid e')%nat /\ ref_count e' = 0)) ->
  (forall i h e, fdb_hashes g !! i = Some h -> e ∈ ptrArray h -> ref_count e <> 0 ->
     exists h' e', fdb_hashes g' !! i = Some h' /\ e' ∈ ptrArray h' /\ eid e' = eid e) ->
  conf_inv (g', rs).
Proof.
  intros [Hg Hc Ha] Hg' Hback Hfwd. constructor; simpl in *; [done| |].
  - intros i h' e' Hi He'. destruct (Hback i h' e' Hi He') as [(h & e & Hh & He & <- & <-)|[Hnew ->]]; [eauto|].
    destruct (decide ((i, eid e') ∈ rs)) as [Hin|Hin].
    + destruct (Ha _ _ Hin) as (h & e & Hh & He & Hid). pose proof (gi_fresh _ Hg _ _ _ Hh He). lia.
    + rewrite <- cnt_pos in Hin. unfold cnt in *. lia.
  - intros i id Hin. destruct (Ha _ _ Hin) as (h & e & Hh & He & <-). apply (Hfwd i h e); [done..|].
    rewrite (Hc i h e) by done. apply cnt_pos in Hin. lia.
Qed.

(** A reader's change of the reference count of the entry it holds. *)
Lemma conf_inv_ref g i h id d rs rs' :
  conf_inv (g, rs) -> fdb_hashes g !! i = Some h -> (exists e, e ∈ ptrArray h /\ eid e = id) ->
  (forall x, cnt x rs' = cnt x rs + if decide (x = (i, id)) then d else 0) ->
  (forall x, x ∈ rs' -> x ∈ rs \/ x = (i, id)) ->
  conf_inv (g <| fdb_hashes := <[i := upd_entry id (fun e => e <| ref_count := ref_count e + d |>) h]> (fdb_hashes g) |>, rs').
Proof.
  intros [Hg Hc Ha] Hh (e0 & He0 & Hid0) Hcnt Hin. simpl in *.
  destruct (reader_step_inv g i h id _ Hg Hh (ref_update d)) as [Hg' _].
  assert (i < length (fdb_hashes g))%nat by (by eapply lookup_lt_Some). constructor; simpl; [exact Hg'| |].
  - intros j x e' Hj He'. rewrite Hcnt.
    apply list_lookup_insert_Some in Hj as [(-> & <- & _)|[Hne Hj]].
    + apply upd_entry_elem in He' as (e & He & ->).
      case_decide as Hd; simpl.
      * rewrite decide_True by congruence. rewrite (Hc j h e) by done. done.
      * rewrite decide_False by congruence. rewrite (Hc j h e) by done. lia.
    + rewrite decide_False by congruence. rewrite (Hc j x e') by done. lia.
  - intros j id' Hin'.
    assert (exists h1 e1, fdb_hashes g !! j = Some h1 /\ e1 ∈ ptrArray h1 /\ eid e1 = id') as (h1 & e1 & Hj & He1 & Hid1).
    { destruct (Hin _ Hin') as [Hold|[= -> ->]]; eauto. }
    destruct (decide (i = j)) as [->|Hne].
    + simplify_eq. eexists _, (if decide (eid e1 = eid e0) then e1 <| ref_count := ref_count e1 + d |> else e1).
      split; [by apply list_lookup_insert_eq|]. split; [apply upd_entry_elem; eauto|]. by case_decide.
    + exists h1, e1. by rewrite list_lookup_insert_ne.
Qed.

Section History.
Context (maxttl purge_loop purge_time : Z) (Hloop : 0 <= purge_loop) (Htime : 0 < purge_time).

Inductive cache_step : conf * list (counter * Z) -> conf * list (counter * Z) -> Prop :=
  | cs_miss g rs ws k g' : fdb_get_lock g k = Some (None, g') -> cache_step (g, rs, ws) (g', rs, ws)
  | cs_lock g rs ws k i id g' : fdb_get_lock g k = Some (Some (i, id), g') -> cache_step (g, rs, ws) (g', (i, id) :: rs, ws)
  | cs_copy g rs ws i id r g' : (i, id) ∈ rs -> fdb_get_copy g i id = Some (r, g') -> cache_step (g, rs, ws) (g', rs, ws)
  | cs_release g l1 i id l2 ws g' :
      fdb_get_release g i id = Some g' -> cache_step (g, l1 ++ (i, id) :: l2, ws) (g', l1 ++ l2, ws)
  | cs_insert g rs ws k v vl ttl copy g' :
      (vl <= length v)%nat -> fdb_set_insert maxttl g k (Z.of_nat (length k)) v vl ttl copy = Some g' ->
      cache_step (g, rs, ws) (g', rs, ws ++ set_adds (Z.of_nat (length k)) vl)
  | cs_add g rs l1 c n l2 : cache_step (g, rs, l1 ++ (c, n) :: l2) (sync_add c n g, rs, l1 ++ l2)
  | cs_truncate g rs ws : cache_step (g, rs, ws) ((fdb_truncate_all g).2, rs, ws)
  | cs_clock g rs ws time : 0 < time -> cache_step (g, rs, ws) (g <| now := time |>, rs, ws)
  | cs_purge g rs ws i g' :
      purge_one_partition purge_loop purge_time g i = Some g' -> cache_step (g, rs, ws) (g', rs, ws).

Lemma cache_step_inv c c' : conf_inv c.1 -> cache_step c c' -> conf_inv c'.1.
Proof.
  intros Hci Hst. destruct Hst as [g rs ws k g' Hm|g rs ws k i id g' Hl|g rs ws i id r g' Hin Hcp|g l1 i id l2 ws g' Hr|
    g rs ws k v vl ttl copy g' Hvl Hset|g rs l1 c n l2|g rs ws|g rs ws time Ht|g rs ws i g' Hp]; cbn [fst] in *; pose proof (ci_group _ Hci) as Hg; simpl in Hg.
  - unfold fdb_get_lock in Hm. destruct (fdb_hashes g !! _); simplify_eq/=. by case_match; simplify_eq.
  - unfold fdb_get_lock in Hl. destruct (fdb_hashes g !! _) as [h|] eqn:Hh; simplify_eq/=.
    destruct (hash h !! k) as [id'|] eqn:Hk; simplify_eq.
    eapply (conf_inv_ref g _ h _ 1 rs); [done|exact Hh| | |set_solver].
    + destruct (pi_hash _ (gi_part _ Hg _ _ Hh) _ _ Hk) as (e & ? & ? & _). eauto.
    + intros x. rewrite cnt_cons. repeat case_decide; (lia || congruence).
  - unfold fdb_get_copy in Hcp. destruct (fdb_hashes g !! i) as [h|] eqn:Hh; simplify_eq/=.
    destruct (find_entry id h) as [e|] eqn:He; simplify_eq/=. destruct (_ <? _); simplify_eq; [|done].
    destruct (mem_read _ _ _) as [v|]; simplify_eq/=.
    destruct (reader_step_inv g i h id _ Hg Hh (access_update (now g))) as [Hg' _].
    apply (conf_inv_same g); [done|destruct Hg'; by constructor| |].
    + simpl. intros j x e' Hj He'. left. apply list_lookup_insert_Some in Hj as [(-> & <- & _)|[Hne Hj]].
      * apply upd_entry_elem in He' as (e1 & He1 & ->). exists h, e1. repeat case_decide; by try case_match.
      * eauto 10.
    + simpl. intros j x e1 Hj He1 _. destruct (decide (i = j)) as [->|Hne].
      * simplify_eq. eexists _, (if decide (eid e1 = id) then if access e1 <? now g then e1 <| access := now g |> else e1 else e1).
        split; [by apply list_lookup_insert_eq; eapply lookup_lt_Some|]. split; [apply upd_entry_elem; eauto|].
        repeat case_decide; by try case_match.
      * exists x, e1. by rewrite list_lookup_insert_ne.
  - unfold fdb_get_release in Hr. destruct (fdb_hashes g !! i) as [h|] eqn:Hh; simplify_eq/=.
    destruct (find_entry id h) as [e|] eqn:He; simplify_eq/=. apply find_entry_in in He as [He Hid].
    apply (conf_inv_ref g i h id (-1) (l1 ++ (i, id) :: l2)); [done|done|eauto| |set_solver].
    intros x. rewrite cnt_middle. repeat case_decide; (lia || congruence).
  - destruct (fdb_set_insert_ok maxttl g k v vl ttl copy Hg Hvl) as (g1 & Hs & Hg1 & _).
    assert (g1 = g') as -> by congruence. clear Hset.
    destruct (fdb_set_insert_shape _ _ _ _ _ _ _ _ _ Hs) as (h & e & Hh & Hid & Hr0 & Hfh).
    set (pi := partition (length (fdb_hashes g)) k (Z.of_nat (length k))) in *.
    pose proof (gi_part _ Hg _ _ Hh) as Hph.
    assert (eid e ∉ eid <$> ptrArray h) as Hfr.
    { intros Hx. apply list_elem_of_fmap in Hx as (x & Hx & Hxin). pose proof (gi_fresh _ Hg _ _ _ Hh Hxin). lia. }
    destruct (add_entry_shape e h Hph Hfr) as [Hsh _].
    apply (conf_inv_same g); [done|done| |]; rewrite Hfh.
    + intros j x e' Hj He'. apply list_lookup_insert_Some in Hj as [(<- & <- & _)|[Hne Hj]]; [|eauto 10].
      rewrite Hsh in He'. apply elem_of_app in He' as [He'|He'].
      * apply remove_elem in He' as (e1 & He1 & ->); [|done]. left. exists h, e1. by case_decide.
      * apply list_elem_of_singleton in He' as ->. right. split; [lia|done].
    + intros j x e1 Hj He1 _. destruct (decide (pi = j)) as [Hpj|Hne].
      * clearbody pi. subst j. simplify_eq. eexists _, (if decide (ekey e1 = ekey e /\ live e1) then hash_value_destroy_func e1 else e1).
        split; [by apply list_lookup_insert_eq; eapply lookup_lt_Some|].
        split; [rewrite Hsh; apply elem_of_app; left; apply remove_elem; eauto|]. by case_decide.
      * exists x, e1. by rewrite list_lookup_insert_ne.
  - destruct (sync_add_inv c n g Hg) as [Hg' _]. assert (fdb_hashes (sync_add c n g) = fdb_hashes g) as Hh by (by destruct c).
    apply (conf_inv_same g); [done|done| |]; rewrite Hh; eauto 10.
  - destruct (fdb_truncate_ok g Hg) as [Hg' _]. apply (conf_inv_same g); [done|done| |]; simpl.
    + intros j x e' Hj He'. left. rewrite list_lookup_fmap in Hj. apply fmap_Some in Hj as (h & Hh & ->).
      simpl in He'. apply list_elem_of_fmap in He' as (e & -> & He). exists h, e. by case_decide.
    + intros j x e Hj He _. eexists _, _. rewrite list_lookup_fmap, Hj. split; [done|]. simpl.
      split; [apply list_elem_of_fmap; eauto|]. by case_decide.
  - destruct Hci as [? Hc Ha]. constructor; simpl in *; [by apply clock_inv|done|done].
  - assert (i < length (fdb_hashes g))%nat as Hi.
    { unfold purge_one_partition in Hp. destruct (fdb_hashes g !! i) eqn:Hx; [|done]. by eapply lookup_lt_Some. }
    destruct (purge_one_partition_ok purge_loop purge_time g i Hg Hloop Htime Hi) as (g1 & Hp1 & Hpg). simplify_eq.
    apply (conf_inv_same g); [done|apply Hpg| |].
    + intros j x e' Hj He'. left. by apply (pg_back _ _ Hpg j x).
    + intros j x e Hj He Hr. destruct (pg_refs _ _ Hpg j x e Hj He Hr) as (h' & e' & ? & ? & ? & _). eauto.
Qed.

(** The counters lag behind by the additions that are still to be made. *)
Lemma sync_add_accounted c n l1 l2 g : accounted (owed (l1 ++ (c, n) :: l2)) g -> accounted (owed (l1 ++ l2)) (sync_add c n g).
Proof.
  intros Ha c' Hc'. pose proof (Ha c' Hc') as H. rewrite owed_app, owed_cons in H. rewrite owed_app.
  assert (fdb_hashes (sync_add c n g) = fdb_hashes g) as -> by (by destruct c).
  destruct (decide (c = c')) as [<-|Hne].
  - assert (size_of c (sync_add c n g) = u64 (size_of c g + n)) as ->; [|rewrite H, u64_add; f_equal; lia].
    by apply sizes_case in Hc' as [->|[->| ->]].
  - assert (size_of c' (sync_add c n g) = size_of c' g) as -> by (by destruct c, c'). rewrite H. by f_equal.
Qed.

Lemma cache_step_accounted c c' : conf_inv c.1 -> cache_step c c' -> accounted (owed c.2) c.1.1 -> accounted (owed c'.2) c'.1.1.
Proof.
  intros Hci Hst. destruct Hst as [g rs ws k g' Hm|g rs ws k i id g' Hl|g rs ws i id r g' Hin Hcp|g l1 i id l2 ws g' Hr|
    g rs ws k v vl ttl copy g' Hvl Hset|g rs l1 c n l2|g rs ws|g rs ws time Ht|g rs ws i g' Hp]; cbn [fst snd] in *; pose proof (ci_group _ Hci) as Hg;
    cbn [fst] in Hg; intros Ha.
  - unfold fdb_get_lock in Hm. destruct (fdb_hashes g !! _); simplify_eq/=. by case_match; simplify_eq.
  - unfold fdb_get_lock in Hl. destruct (fdb_hashes g !! _) as [h|] eqn:Hh; simplify_eq/=. destruct (hash h !! k) as [id'|]; simplify_eq.
    eapply accounted_same; [exact Ha|]. intros c Hc. split; [by destruct c|]. by apply (reader_step_total _ _ _ _ _ _ Hh (ref_update 1)).
  - unfold fdb_get_copy in Hcp. destruct (fdb_hashes g !! i) as [h|] eqn:Hh; simplify_eq/=.
    destruct (find_entry id h) as [e|]; simplify_eq/=. destruct (_ <? _); simplify_eq; [|done]. destruct (mem_read _ _ _) as [v|]; simplify_eq/=.
    eapply accounted_same; [exact Ha|]. intros c Hc. split; [by destruct c|]. by apply (reader_step_total _ _ _ _ _ _ Hh (access_update (now g))).
  - unfold fdb_get_release in Hr. destruct (fdb_hashes g !! i) as [h|] eqn:Hh; simplify_eq/=. destruct (find_entry id h) as [e|]; simplify_eq/=.
    eapply accounted_same; [exact Ha|]. intros c Hc. split; [by destruct c|]. by apply (reader_step_total _ _ _ _ _ _ Hh (ref_update_sub 1)).
  - destruct (fdb_set_insert_ok maxttl g k v vl ttl copy Hg Hvl) as (g1 & Hs & _ & _ & _ & Hsz). assert (g1 = g') as -> by congruence.
    intros c Hc. destruct (Hsz c Hc) as [-> ->]. rewrite owed_app, (Ha c Hc). f_equal. lia.
  - by apply sync_add_accounted.
  - eapply accounted_same; [exact Ha|]. intros c Hc. split; [by destruct c|apply truncate_total].
  - eapply accounted_same; [exact Ha|]. intros c Hc. split; [by destruct c|done].
  - by eapply purge_one_partition_accounted.
Qed.

End History.

(** ** Properties *)

(** The caches that a history of a fresh cache reaches, with the references held and the additions to be made. *)
Definition reachable (maxttl purge_loop purge_time time : Z) (n : nat) (d m junk : Z) (c : conf * list (counter * Z)) : Prop :=
  star (cache_step maxttl purge_loop purge_time) (fdb_hashes_new time n d m junk, [], []) c.

Lemma reachable_inv maxttl purge_loop purge_time time n d m junk c :
  (0 < n)%nat -> 0 < time -> 0 <= d -> 0 <= purge_loop -> 0 < purge_time ->
  reachable maxttl purge_loop purge_time time n d m junk c -> conf_inv c.1 /\ accounted (owed c.2) c.1.1.
Proof.
  intros Hn Ht Hd Hl Hp Hst. eapply (star_invariant _ (fun c => conf_inv c.1 /\ accounted (owed c.2) c.1.1)); [|exact Hst|].
  - intros a b [Hi Ha] Hs. split; [by eapply cache_step_inv|by eapply cache_step_accounted].
  - split; [|apply new_accounted].
    destruct (new_inv time n d m junk Hn Ht Hd) as [Hg _]. constructor; simpl; [done| |set_solver].
    intros i h e Hi. apply lookup_replicate in Hi as [-> _]. set_solver.
Qed.

(** C1: the query cache implements a map from keys to values with an expiry time.  In
    every reachable state a lookup answers exactly the unexpired value of its key
    and changes no binding; an insertion binds its key to the value and the
    computed expiry and leaves the other keys alone; truncating unbinds
    everything; a turn of the purge thread invents no binding and keeps every
    binding that has not expired.  All of them return, without reading outside of a block or array. *)
Theorem query_cache_implements_map maxttl purge_loop purge_time time n d m junk g rs ws :
  (0 < n)%nat -> 0 < time -> 0 <= d -> 0 <= purge_loop -> 0 < purge_time ->
  reachable maxttl purge_loop purge_time time n d m junk (g, rs, ws) ->
  (forall k, exists g', fdb_get g k = Some (answer (now g) (view g k), g') /\ forall k', view g' k' = view g k') /\
  (forall k v ttl, exists g', fdb_set maxttl g k (Z.of_nat (length k)) v (length v) ttl false = Some g' /\
     forall k', view g' k' = if decide (k' = k) then Some (v, new_expire maxttl g ttl) else view g k') /\
  (forall k, view (fdb_truncate_all g).2 k = None) /\
  (forall thr t pct, 0 < t -> exists g', purge_turn purge_loop purge_time thr t pct g = Some g' /\
     forall k v x, (view g' k = Some (v, x) -> view g k = Some (v, x)) /\
                   (view g k = Some (v, x) -> t < x -> view g' k = Some (v, x))).
Proof.
  intros Hn Ht Hd Hl Hp Hr. apply reachable_inv in Hr as [[Hg _ _] _]; [|done..]. simpl in Hg. split_and!.
  - intros k. destruct (fdb_get_ok g k Hg) as (g' & ? & _ & ? & _). eauto.
  - intros k v ttl. destruct (fdb_set_ok maxttl g k v (length v) ttl false Hg) as (g' & ? & _ & Hv & _); [lia|].
    rewrite firstn_all in Hv. eauto.
  - apply (fdb_truncate_ok g Hg).
  - intros thr t pct Ht'. destruct (purge_turn_ok purge_loop purge_time thr t pct g) as (g' & -> & Hpg); [done..|].
    exists g'. split; [done|]. intros k v x. split; [apply (pg_sound _ _ Hpg)|apply (pg_keep _ _ Hpg)].
Qed.

Definition cache0 : fdb_hashes_group_t := fdb_hashes_new 1000 2 60 100000 0.
Definition cache1 : fdb_hashes_group_t :=
  default cache0 (fdb_set 315360000 cache0 (c_lit "abc") 3 (c_lit "rows") 4 30 false).
Definition cache2 : fdb_hashes_group_t :=
  default cache0 (snd <$> fdb_get_lock cache1 (c_lit "abc")).

(** An insertion without other threads in between. *)
Lemma set_steps maxttl purge_loop purge_time g rs ws k v vl ttl copy g' :
  (vl <= length v)%nat -> fdb_set maxttl g k (Z.of_nat (length k)) v vl ttl copy = Some g' ->
  star (cache_step maxttl purge_loop purge_time) (g, rs, ws) (g', rs, ws).
Proof.
  intros Hvl E. unfold fdb_set in E. destruct (fdb_set_insert _ _ _ _ _ _ _ _) as [g1|] eqn:E1; [|done]. rewrite bind_Some in E. apply (inj Some) in E. subst g'.
  eapply star_cons; [by eapply cs_insert|]. clear E1. revert g1. generalize (set_adds (Z.of_nat (length k)) vl) as l.
  induction l as [|[c n] l IH]; intros g1; [rewrite app_nil_r; apply star_nil|]. cbn [foldl]. eapply star_cons; [apply cs_add|apply IH].
Qed.

Lemma cache1_reachable : reachable 315360000 100 10000 1000 2 60 100000 0 (cache1, [], []).
Proof.
  apply (set_steps _ _ _ _ _ _ (c_lit "abc") (c_lit "rows") 4 30 false); [simpl; lia|]. vm_compute. reflexivity.
Qed.

Lemma cache2_reachable : reachable 315360000 100 10000 1000 2 60 100000 0 (cache2, [(0%nat, 0%nat)], []).
Proof.
  eapply star_snoc; [apply cache1_reachable|]. eapply (cs_lock _ _ _ _ _ _ (c_lit "abc")). vm_compute. reflexivity.
Qed.

Lemma query_cache_implements_map_witness :
  exists g', fdb_get cache1 (c_lit "abc") = Some (answer (now cache1) (view cache1 (c_lit "abc")), g').
Proof.
  destruct (query_cache_implements_map 315360000 100 10000 1000 2 60 100000 0 cache1 [] []) as [Hget _];
    [lia..|apply cache1_reachable|].
  destruct (Hget (c_lit "abc")) as (g' & Hg & _). exists g'. exact Hg.
Defined.

(** What was cached is served: after an insertion with a time to live, until
    the clock passes it, a lookup of the same key answers a packet with exactly the
    bytes that were cached. *)
Theorem query_cache_get_after_set maxttl purge_loop purge_time time n d m junk g rs ws k v ttl :
  (0 < n)%nat -> 0 < time -> 0 <= d -> 0 <= purge_loop -> 0 < purge_time ->
  reachable maxttl purge_loop purge_time time n d m junk (g, rs, ws) -> 0 < ttl <= maxttl ->
  exists g1, fdb_set maxttl g k (Z.of_nat (length k)) v (length v) ttl false = Some g1 /\
    forall t, 0 < t < now g + ttl ->
      exists g2, fdb_get (g1 <| now := t |>) k = Some (Some (mkPkt (length v) v), g2).
Proof.
  intros Hn Ht Hd Hl Hp Hr Httl. apply reachable_inv in Hr as [[Hg _ _] _]; [|done..]. simpl in Hg.
  destruct (fdb_set_ok maxttl g k v (length v) ttl false Hg) as (g1 & Hs & Hg1 & Hv & Hn1); [lia|].
  exists g1. split; [done|]. intros t Ht'. pose proof (clock_inv g1 t Hg1 (proj1 Ht')) as Hg1'.
  destruct (fdb_get_ok _ k Hg1') as (g2 & Hget & _). rewrite Hget. exists g2. do 2 f_equal.
  change (view (g1 <| now := t |>) k) with (view g1 k). rewrite Hv, decide_True, firstn_all by done.
  rewrite answer_Some. unfold new_expire. destruct (Z.ltb_spec 0 ttl); [|lia].
  destruct (Z.ltb_spec maxttl ttl); [lia|]. simpl. destruct (Z.ltb_spec t (now g + ttl)); [done|lia].
Qed.

Lemma query_cache_get_after_set_witness :
  exists g1, fdb_set 315360000 cache1 (c_lit "xy") 2 (c_lit "data") 4 10 false = Some g1 /\
    exists g2, fdb_get (g1 <| now := 1009 |>) (c_lit "xy") = Some (Some (mkPkt 4 (c_lit "data")), g2).
Proof.
  destruct (query_cache_get_after_set 315360000 100 10000 1000 2 60 100000 0 cache1 [] [] (c_lit "xy") (c_lit "data") 10)
    as (g1 & Hs & Hget); [lia..|apply cache1_reachable|lia|].
  exists g1. split; [exact Hs|]. apply Hget. vm_compute. split; reflexivity.
Defined.

(** C14: no use after free: whatever other threads insert, truncate or purge between the
    moment a reader found an entry and the moment it lets go of it, the entry
    is still allocated when the reader copies its value and when it drops its reference. *)
Theorem query_cache_no_use_after_free maxttl purge_loop purge_time time n d m junk g rs ws i id :
  (0 < n)%nat -> 0 < time -> 0 <= d -> 0 <= purge_loop -> 0 < purge_time ->
  reachable maxttl purge_loop purge_time time n d m junk (g, rs, ws) -> (i, id) ∈ rs ->
  (exists r g', fdb_get_copy g i id = Some (r, g')) /\ (exists g', fdb_get_release g i id = Some g') /\
  exists h e, fdb_hashes g !! i = Some h /\ find_entry id h = Some e /\ 0 < ref_count e.
Proof.
  intros Hn Ht Hd Hl Hp Hr Hin. apply reachable_inv in Hr as [[Hg Hc Ha] _]; [|done..]. simpl in *.
  destruct (Ha _ _ Hin) as (h & e & Hh & He & <-). pose proof (gi_part _ Hg _ _ Hh) as Hph.
  pose proof (find_entry_spec h e Hph He) as Hfe. split_and!.
  - unfold fdb_get_copy. rewrite Hh, bind_Some, Hfe, bind_Some. destruct (_ <? _); [|eauto].
    pose proof (pi_value _ Hph e He). unfold mem_read. rewrite decide_True, bind_Some by (simpl; lia). eauto.
  - unfold fdb_get_release. rewrite Hh, bind_Some, Hfe, bind_Some. eauto.
  - exists h, e. split_and!; [done|done|]. rewrite (Hc i h e Hh He). by apply cnt_pos.
Qed.

Lemma query_cache_no_use_after_free_witness : exists r g', fdb_get_copy cache2 0 0 = Some (r, g').
Proof.
  apply (query_cache_no_use_after_free 315360000 100 10000 1000 2 60 100000 0 cache2 [(0%nat, 0%nat)] [] 0 0);
    [lia..|apply cache2_reachable|set_solver].
Defined.

(** C39: the memory counters. In every state that readers, insertions, truncations and the purge thread reach in any interleaving, each of the three
    counters is, modulo 2^64, the sum over the entries that are allocated less what insertions that have released the lock have not added yet; so it
    is the exact sum when no insertion is under way, and an insertion makes it lag by no more than its own key, value and entry. The free memory
    computed from them is never negative. The cache has at least one table, and times and purge intervals are positive. *)
Theorem query_cache_accounting maxttl purge_loop purge_time time n d m junk g rs ws :
  (0 < n)%nat -> 0 < time -> 0 <= d -> 0 <= purge_loop -> 0 < purge_time ->
  reachable maxttl purge_loop purge_time time n d m junk (g, rs, ws) ->
  size_keys g = u64 (total klen (fdb_hashes g) - owed ws SizeKeys) /\
  size_values g = u64 (total length_z (fdb_hashes g) - owed ws SizeValues) /\
  size_metas g = u64 (total meta_of (fdb_hashes g) - owed ws SizeMetas) /\
  (ws = [] -> size_keys g = u64 (total klen (fdb_hashes g)) /\ size_values g = u64 (total length_z (fdb_hashes g)) /\
     size_metas g = u64 (total meta_of (fdb_hashes g))) /\
  0 <= fdb_hashes_group_free_mem g.
Proof.
  intros Hn Ht Hd Hl Hp Hr. apply reachable_inv in Hr as [_ Ha]; [|done..]. cbn [fst snd] in Ha.
  pose proof (Ha SizeKeys ltac:(unfold sizes; set_solver)) as Hk. pose proof (Ha SizeValues ltac:(unfold sizes; set_solver)) as Hv.
  pose proof (Ha SizeMetas ltac:(unfold sizes; set_solver)) as Hm. cbn [size_of measure] in *. split_and!; [done..| |].
  - intros ->. unfold owed in *. cbn in Hk, Hv, Hm. by rewrite Z.sub_0_r in *.
  - unfold fdb_hashes_group_free_mem. cbv zeta. match goal with |- context [?a <? ?b] => destruct (Z.ltb_spec a b) end; lia.
Qed.

Lemma query_cache_accounting_witness : size_values cache1 = u64 (total length_z (fdb_hashes cache1)).
Proof.
  apply (query_cache_accounting 315360000 100 10000 1000 2 60 100000 0 cache1 [] []); [lia..|apply cache1_reachable|reflexivity].
Defined.

(** The lag can be seen: between the insertion of an entry and its additions the counters are those of a cache without it. *)
Lemma counters_lag : exists g ws, reachable 315360000 100 10000 1000 2 60 100000 0 (g, [], ws) /\
  size_values g = 0 /\ total length_z (fdb_hashes g) = 4 /\ owed ws SizeValues = 4.
Proof.
  destruct (fdb_set_insert 315360000 cache0 (c_lit "abc") 3 (c_lit "rows") 4 30 false) as [g|] eqn:E; [|by vm_compute in E].
  eexists g, _. split; [apply star_one; eapply (cs_insert _ _ _ _ _ [] (c_lit "abc") (c_lit "rows") 4 30 false); [simpl; lia|exact E]|].
  vm_compute in E. injection E as <-. by vm_compute.
Qed.

(** The purge thread never looks at the first entry of a partition: it is still
    allocated after a turn, however long ago it expired. *)
Theorem purge_skips_first_entry maxttl purge_loop purge_time time n d m junk g rs ws thr t pct i h :
  (0 < n)%nat -> 0 < time -> 0 <= d -> 0 <= purge_loop -> 0 < purge_time ->
  reachable maxttl purge_loop purge_time time n d m junk (g, rs, ws) -> 0 < t -> fdb_hashes g !! i = Some h ->
  exists g' h', purge_turn purge_loop purge_time thr t pct g = Some g' /\ fdb_hashes g' !! i = Some h' /\
    eid <$> (ptrArray h' !! 0%nat) = eid <$> (ptrArray h !! 0%nat).
Proof.
  intros Hn Ht Hd Hl Hp Hr Ht' Hi. apply reachable_inv in Hr as [[Hg _ _] _]; [|done..]. simpl in Hg.
  destruct (purge_turn_ok purge_loop purge_time thr t pct g) as (g' & -> & Hpg); [done..|].
  destruct (pg_first _ _ Hpg i h Hi) as (h' & ? & ?). eauto.
Qed.

Lemma purge_skips_first_entry_witness :
  exists h g' h', fdb_hashes cache1 !! 0%nat = Some h /\
    purge_turn 100 10000 0 999999 50 cache1 = Some g' /\ fdb_hashes g' !! 0%nat = Some h' /\
    eid <$> (ptrArray h' !! 0%nat) = eid <$> (ptrArray h !! 0%nat).
Proof.
  destruct (lookup_lt_is_Some_2 (fdb_hashes cache1) 0) as [h Hh].
  { apply Nat.ltb_lt. vm_compute. reflexivity. }
  destruct (purge_skips_first_entry 315360000 100 10000 1000 2 60 100000 0 cache1 [] [] 0 999999 50 0 h)
    as (g' & h' & H1 & H2 & H3); [lia..|apply cache1_reachable|lia|exact Hh|].
  exists h, g', h'. split_and!; [exact Hh|exact H1|exact H2|exact H3].
Defined.
