(* ===== verification/MemUse.v ===== *)
(** * How full the query cache is: [fdb_hashes_group_used_mem_pct] of src/fundadb_hash.c

    The purge thread compares the share of the memory in use with a threshold. The share is computed in single precision,
    [(float) cur_size*100/max_size], with four roundings: two conversions, the product and the quotient. The IEEE 754 operations are those of the Standard Library
    (Floats.SpecFloat) with 24 bits of precision; [round_spec] bounds what a rounding can lose, and the theorem says that the thread starts to purge at the
    threshold up to one part in [2^20]. *)
From Stdlib Require Floats.SpecFloat.
From S2P Require Import Prelude Protocol PtrArray QueryCache.
Import SpecFloat.
Open Scope Z_scope.

Definition float : Type := spec_float.
Definition of_int (z : Z) : float := binary_normalize 24 128 z 0 false.
Definition fmul : float -> float -> float := SFmul 24 128.
Definition fdiv : float -> float -> float := SFdiv 24 128.

(** The conversion to [int], which C does not define outside of its range. *)
Definition to_int (f : float) : option Z :=
  match f with
  | S754_zero _ => Some 0
  | S754_finite s m e =>
      let q := if 0 <=? e then Z.pos m * 2 ^ e else Z.pos m / 2 ^ (- e) in
      let z := if s then - q else q in
      if (- 2 ^ 31 <=? z) && (z <? 2 ^ 31) then Some z else None
  | _ => None
  end.

Definition fdb_hashes_group_used_mem_pct (hg : fdb_hashes_group_t) : option Z :=
  let cur_size := i64 (u64 (size_keys hg + size_values hg + size_metas hg)) in
  let max_size := max_memory_size hg in
  let pctf := fdiv (fmul (of_int cur_size) (of_int 100)) (of_int max_size) in
  if SFltb (of_int 100) pctf then Some 100 else to_int pctf.

(** One turn of the loop of [purgeHash_thread]. *)
Definition purgeHash_turn (purge_loop purge_time threshold_min time : Z) (hg : fdb_hashes_group_t) : option fdb_hashes_group_t :=
  pct ← fdb_hashes_group_used_mem_pct (hg <| now := time |>);
  purge_turn purge_loop purge_time threshold_min time pct hg.

(** ** Rounding *)

Lemma digits_log2 m : 0 < m -> Zdigits2 m = Z.log2 m + 1.
Proof.
  destruct m as [|p|p]; try lia. intros _. cbn [Zdigits2]. assert (digits2_pos p = Pos.size p) as -> by (induction p; cbn; congruence).
  destruct p; cbn; lia.
Qed.

Lemma digits_bounds m : 0 < m -> 2 ^ (Zdigits2 m - 1) <= m < 2 ^ Zdigits2 m.
Proof.
  intros Hm. rewrite digits_log2 by done. destruct (Z.log2_spec m Hm). replace (Z.log2 m + 1 - 1) with (Z.log2 m) by lia. by rewrite <- Z.add_1_r in *.
Qed.

Lemma digits_unique m k : 0 < k -> 2 ^ (k - 1) <= m < 2 ^ k -> Zdigits2 m = k.
Proof.
  intros Hk Hm. assert (0 < m) by (pose proof (Z.pow_pos_nonneg 2 (k - 1)); lia). rewrite digits_log2 by done.
  rewrite (Z.log2_unique m (k - 1)); [lia|lia|]. by replace (Z.succ (k - 1)) with k by lia.
Qed.

Lemma shr_1_half r : 0 <= shr_m r -> shr_m (shr_1 r) = shr_m r / 2.
Proof.
  destruct r as [[|[p|p|]|p] x y]; cbn [shr_m]; intros H; try lia; cbn; try done.
  - change (Z.pos p~1) with (2 * Z.pos p + 1). rewrite Z.mul_comm, Z.div_add_l by lia. by rewrite Z.add_0_r.
  - change (Z.pos p~0) with (2 * Z.pos p). by rewrite Z.mul_comm, Z.div_mul by lia.
Qed.

Lemma shr_pos p : forall r, 0 <= shr_m r -> shr_m (iter_pos shr_1 p r) = shr_m r / 2 ^ Z.pos p.
Proof.
  induction p as [p IH|p IH|]; intros r Hr; cbn [iter_pos].
  - assert (0 <= shr_m (shr_1 r)) by (rewrite shr_1_half by done; apply Z.div_pos; lia).
    assert (0 <= shr_m (iter_pos shr_1 p (shr_1 r))) by (rewrite IH by done; apply Z.div_pos; lia).
    rewrite !IH, shr_1_half by done. rewrite !Z.div_div by lia. f_equal. replace (Z.pos p~1) with (1 + Z.pos p + Z.pos p) by lia.
    rewrite !Z.pow_add_r by lia. lia.
  - assert (0 <= shr_m (iter_pos shr_1 p r)) by (rewrite IH by done; apply Z.div_pos; lia).
    rewrite !IH by done. rewrite Z.div_div by lia. f_equal. replace (Z.pos p~0) with (Z.pos p + Z.pos p) by lia. by rewrite Z.pow_add_r by lia.
  - by rewrite shr_1_half.
Qed.

Lemma shr_spec r e n : 0 <= shr_m r -> 0 <= n -> exists r', shr r e n = (r', e + n) /\ shr_m r' = shr_m r / 2 ^ n.
Proof.
  intros Hr Hn. destruct n as [|p|p]; [|by exists (iter_pos shr_1 p r); rewrite <- shr_pos|lia].
  exists r. rewrite Z.pow_0_r, Z.div_1_r, Z.add_0_r. done.
Qed.

Lemma nearest_even q l : q <= round_nearest_even q l <= q + 1.
Proof. destruct l as [|[]]; cbn; try lia. destruct (Z.even q); lia. Qed.

Lemma record_of_loc m l : shr_m (shr_record_of_loc m l) = m.
Proof. by destruct l as [|[]]. Qed.

(** [y] is [x] up to one part in [2^23]. *)
Definition near (x y : Z) : Prop := x * (2 ^ 23 - 1) <= y * 2 ^ 23 <= x * (2 ^ 23 + 1).

(** The result is a normal number within one unit of the last place of everything between [mx] and [mx + 1]. *)
Lemma round_spec mx ex l : 2 ^ 23 <= mx -> -140 <= ex -> Zdigits2 mx + ex <= 127 ->
  exists m e, binary_round_aux 24 128 false mx ex l = S754_finite false m e /\ 2 ^ 23 <= Z.pos m < 2 ^ 24 /\ ex <= e <= ex + Zdigits2 mx - 23 /\
    (mx + 1) * (2 ^ 23 - 1) <= Z.pos m * 2 ^ (e - ex) * 2 ^ 23 /\ Z.pos m * 2 ^ (e - ex) * 2 ^ 23 <= mx * (2 ^ 23 + 1).
Proof.
  intros Hm He Hd. pose proof (digits_bounds mx ltac:(lia)) as [B1 B2]. set (n := Zdigits2 mx - 24).
  assert (0 <= n) as Hn. { destruct (Z.le_gt_cases 24 (Zdigits2 mx)); [lia|]. pose proof (Z.pow_le_mono_r 2 (Zdigits2 mx) 23). lia. }
  replace (Zdigits2 mx - 1) with (23 + n) in B1 by lia. replace (Zdigits2 mx) with (24 + n) in B2 by lia. rewrite Z.pow_add_r in B1, B2 by lia.
  pose proof (Z.pow_pos_nonneg 2 n ltac:(lia) Hn) as Hp. set (q := mx / 2 ^ n).
  pose proof (Z.div_mod mx (2 ^ n) ltac:(lia)) as Hq. pose proof (Z.mod_pos_bound mx (2 ^ n) Hp) as Hr. fold q in Hq.
  assert (2 ^ 23 <= q < 2 ^ 24) as [Q1 Q2] by (split; [apply Z.div_le_lower_bound|apply Z.div_lt_upper_bound]; lia).
  unfold binary_round_aux, shr_fexp at 1. replace (fexp 24 128 (Zdigits2 mx + ex) - ex) with n by (unfold fexp, emin; lia).
  destruct (shr_spec (shr_record_of_loc mx l) ex n) as (r' & -> & Hr'); [rewrite record_of_loc; lia|done|]. rewrite record_of_loc in Hr'. fold q in Hr'.
  pose proof (nearest_even (shr_m r') (loc_of_shr_record r')) as Hne. rewrite Hr' in *. set (r := round_nearest_even q _) in *. clearbody r q.
  assert (exists m k, shr_fexp 24 128 r (ex + n) loc_Exact = (m, ex + n + k) /\ shr_m m * 2 ^ k = r /\ 2 ^ 23 <= shr_m m < 2 ^ 24 /\ 0 <= k <= 1) as (m & k & -> & Hk & Hm' & Hk1).
  { unfold shr_fexp. destruct (Z.eq_dec r (2 ^ 24)) as [->|Hne'].
    - rewrite (digits_unique (2 ^ 24) 25) by lia. replace (fexp 24 128 (25 + (ex + n)) - (ex + n)) with 1 by (unfold fexp, emin; lia).
      eexists _, 1. split; [reflexivity|]. done.
    - rewrite (digits_unique r 24) by lia. replace (fexp 24 128 (24 + (ex + n)) - (ex + n)) with 0 by (unfold fexp, emin; lia).
      eexists _, 0. split; [cbn; by rewrite Z.add_0_r|]. cbn [shr_m shr_record_of_loc]. lia. }
  destruct (shr_m m) as [|pm|pm]; try lia. destruct (Z.leb_spec (ex + n + k) (128 - 24)); [|lia].
  eexists _, _. split; [reflexivity|]. split; [lia|]. split; [lia|]. replace (ex + n + k - ex) with (k + n) by lia.
  rewrite Z.pow_add_r, Z.mul_assoc, Hk by lia. nia.
Qed.

(** ** The operations *)

(** The normal numbers. *)
Definition normal (m : positive) : Prop := 2 ^ 23 <= Z.pos m < 2 ^ 24.

Lemma digits_le m k : 0 < m < 2 ^ k -> Zdigits2 m <= k.
Proof.
  intros Hm. pose proof (digits_bounds m ltac:(lia)) as [B _]. destruct (Z.le_gt_cases (Zdigits2 m) k); [done|].
  destruct (Z.le_gt_cases 0 k); [|rewrite Z.pow_neg_r in Hm by lia; lia]. pose proof (Z.pow_le_mono_r 2 k (Zdigits2 m - 1)). lia.
Qed.

Lemma iter_xO m k : Z.pos (Pos.iter xO m k) = Z.pos m * 2 ^ Z.pos k.
Proof.
  induction k as [|k IH] using Pos.peano_ind; [cbn; lia|]. rewrite Pos.iter_succ, Pos2Z.inj_succ, Z.pow_succ_r by lia.
  change (Z.pos (Pos.iter xO m k)~0) with (2 * Z.pos (Pos.iter xO m k)). lia.
Qed.

Lemma align_spec m : Zdigits2 (Z.pos m) <= 63 ->
  exists mz k, shl_align m 0 (fexp 24 128 (Z.pos (digits2_pos m) + 0)) = (mz, - k) /\ Z.pos mz = Z.pos m * 2 ^ k /\ 0 <= k <= 23 /\ 2 ^ 23 <= Z.pos mz < 2 ^ 63.
Proof.
  intros Hd. change (Z.pos (digits2_pos m)) with (Zdigits2 (Z.pos m)). pose proof (digits_bounds (Z.pos m) ltac:(lia)) as [B1 B2].
  set (d := Zdigits2 (Z.pos m)) in *. assert (1 <= d) by (subst d; cbn; lia).
  replace (fexp 24 128 (d + 0)) with (d - 24) by (unfold fexp, emin; lia). unfold shl_align. destruct (Z.le_gt_cases 24 d) as [Hg|Hg].
  - pose proof (Z.pow_le_mono_r 2 23 (d - 1)). pose proof (Z.pow_le_mono_r 2 d 63). exists m, 0. split; [|lia].
    destruct (d - 24 - 0) eqn:E; [done|done|lia].
  - destruct (d - 24 - 0) as [|p|p] eqn:E; try lia. exists (Pos.iter xO m p), (24 - d). split; [f_equal; lia|]. rewrite iter_xO.
    replace (Z.pos p) with (24 - d) by lia. split; [done|]. split; [lia|].
    assert (2 ^ 23 = 2 ^ (d - 1) * 2 ^ (24 - d)) as -> by (rewrite <- Z.pow_add_r by lia; f_equal; lia).
    assert (2 ^ d * 2 ^ (24 - d) = 2 ^ 24) by (rewrite <- Z.pow_add_r by lia; f_equal; lia). pose proof (Z.pow_pos_nonneg 2 (24 - d)). nia.
Qed.

Lemma near_scale k x y : 0 < k -> near x y <-> near (x * k) (y * k).
Proof. unfold near. nia. Qed.

Lemma of_int_spec z : 0 < z < 2 ^ 63 ->
  exists m e, of_int z = S754_finite false m e /\ normal m /\ -23 <= e <= 40 /\ near (z * 2 ^ 200) (Z.pos m * 2 ^ (e + 200)).
Proof.
  intros Hz. destruct z as [|p|p]; try lia. unfold of_int, binary_normalize, binary_round.
  destruct (align_spec p) as (mz & k & -> & Hmz & Hk & Hb); [by apply digits_le|].
  destruct (round_spec (Z.pos mz) (- k) loc_Exact) as (m & e & -> & Hm & He & B1 & B2); [lia|lia|pose proof (digits_le (Z.pos mz) 63); lia|].
  pose proof (digits_le (Z.pos mz) 63 ltac:(lia)). exists m, e. split; [done|]. split; [done|].
  assert (near (Z.pos mz) (Z.pos m * 2 ^ (e - - k))) as Hn by (unfold near; lia).
  apply (near_scale (2 ^ (200 - k))) in Hn; [|apply Z.pow_pos_nonneg; lia]. rewrite Hmz, <- !Z.mul_assoc, <- !Z.pow_add_r in Hn by lia.
  replace (k + (200 - k)) with 200 in Hn by lia. replace (e - - k + (200 - k)) with (e + 200) in Hn by lia. split; [|done].
  split; [lia|]. destruct (Z.le_gt_cases e 40); [done|exfalso].
  assert (2 ^ 241 <= 2 ^ (e + 200)) by (apply Z.pow_le_mono_r; lia). destruct Hn as [_ Hn]. unfold normal in Hm. nia.
Qed.

Lemma fmul_spec m1 e1 m2 e2 : normal m1 -> normal m2 -> -100 <= e1 + e2 <= 70 ->
  exists m e, fmul (S754_finite false m1 e1) (S754_finite false m2 e2) = S754_finite false m e /\ normal m /\ e1 + e2 <= e <= e1 + e2 + 25 /\
    near (Z.pos m1 * Z.pos m2) (Z.pos m * 2 ^ (e - (e1 + e2))).
Proof.
  unfold normal. intros H1 H2 He. unfold fmul, SFmul. cbn [xorb]. change (Z.pos (m1 * m2)) with (Z.pos m1 * Z.pos m2).
  pose proof (digits_le (Z.pos m1 * Z.pos m2) 48 ltac:(nia)) as Hd.
  destruct (round_spec (Z.pos m1 * Z.pos m2) (e1 + e2) loc_Exact) as (m & e & -> & Hm & He' & B1 & B2); [nia|lia|lia|].
  exists m, e. split; [done|]. split; [done|]. split; [lia|]. unfold near. lia.
Qed.

Lemma fdiv_spec m1 e1 m2 e2 : normal m1 -> normal m2 -> -100 <= e1 - e2 <= 80 ->
  exists m e, fdiv (S754_finite false m1 e1) (S754_finite false m2 e2) = S754_finite false m e /\ normal m /\ e1 - e2 - 24 <= e <= e1 - e2 - 22 /\
    near (Z.pos m1 * 2 ^ 24) (Z.pos m * Z.pos m2 * 2 ^ (e - (e1 - e2 - 24))).
Proof.
  unfold normal. intros H1 H2 He. unfold fdiv, SFdiv, SFdiv_core_binary. cbn [xorb]. rewrite !(digits_unique _ 24) by lia.
  replace (Z.min (fexp 24 128 (24 + e1 - (24 + e2))) (e1 - e2)) with (e1 - e2 - 24) by (unfold fexp, emin; lia).
  replace (e1 - e2 - (e1 - e2 - 24)) with 24 by lia. rewrite Z.shiftl_mul_pow2 by lia.
  pose proof (Z_div_mod (Z.pos m1 * 2 ^ 24) (Z.pos m2) ltac:(lia)) as Hq. destruct (Z.div_eucl (Z.pos m1 * 2 ^ 24) (Z.pos m2)) as [q r]. destruct Hq as [Hq Hr].
  assert (2 ^ 23 <= q < 2 ^ 25) by nia. pose proof (digits_le q 25 ltac:(lia)) as Hd.
  destruct (round_spec q (e1 - e2 - 24) (new_location (Z.pos m2) r)) as (m & e & -> & Hm & He' & B1 & B2); [lia|lia|lia|].
  exists m, e. split; [done|]. split; [done|]. split; [lia|]. rewrite Hq. unfold near. set (x := Z.pos m * 2 ^ (e - (e1 - e2 - 24))) in *.
  replace (Z.pos m * Z.pos m2 * 2 ^ (e - (e1 - e2 - 24))) with (x * Z.pos m2) by (subst x; ring). nia.
Qed.

(** ** The share *)

Lemma near_chain cur max a p d u s : 0 < s -> 0 <= cur -> 0 < max -> 0 <= d ->
  near (cur * s) a -> near (100 * a) p -> near (max * s) u -> near (p * s) (d * u) ->
  100 * cur * s * (2 ^ 20 - 1) <= max * d * 2 ^ 20 <= 100 * cur * s * (2 ^ 20 + 1).
Proof.
  unfold near. change (2 ^ 23 - 1) with 8388607. change (2 ^ 23 + 1) with 8388609. change (2 ^ 23) with 8388608.
  change (2 ^ 20 - 1) with 1048575. change (2 ^ 20 + 1) with 1048577. change (2 ^ 20) with 1048576. intros Hs Hc Hm Hd [A1 A2] [P1 P2] [U1 U2] [D1 D2].
  apply (Z.mul_le_mono_nonneg_l _ _ d Hd) in U1, U2. assert (max * d * 8388607 * s <= p * 8388609 * s) as W1 by lia.
  assert (p * 8388607 * s <= max * d * 8388609 * s) as W2 by lia. apply Z.mul_le_mono_pos_r in W1, W2; [|done..].
  assert (0 <= cur * s) by (apply Z.mul_nonneg_nonneg; lia). lia.
Qed.

Lemma hundred : of_int 100 = S754_finite false 13107200 (-17).
Proof. reflexivity. Qed.

Lemma share_spec cur max : 0 < cur < 2 ^ 63 -> 0 < max < 2 ^ 63 ->
  exists m e, fdiv (fmul (of_int cur) (of_int 100)) (of_int max) = S754_finite false m e /\ normal m /\ -199 <= e /\
    100 * cur * 2 ^ 200 * (2 ^ 20 - 1) <= max * (Z.pos m * 2 ^ (e + 200)) * 2 ^ 20 <= 100 * cur * 2 ^ 200 * (2 ^ 20 + 1).
Proof.
  intros Hc Hm. destruct (of_int_spec cur Hc) as (ma & ea & -> & Na & Ea & Ra). destruct (of_int_spec max Hm) as (mu & eu & -> & Nu & Eu & Ru).
  rewrite hundred. destruct (fmul_spec ma ea 13107200 (-17)) as (mp & ep & -> & Np & Ep & Rp); [done|done|lia|].
  destruct (fdiv_spec mp ep mu eu) as (md & ed & -> & Nd & Ed & Rd); [done|done|lia|]. exists md, ed. split; [done|]. split; [done|]. split; [lia|].
  assert (near (100 * (Z.pos ma * 2 ^ (ea + 200))) (Z.pos mp * 2 ^ (ep + 200))) as Rp'.
  { apply (near_scale (2 ^ (ea + 183))) in Rp; [|apply Z.pow_pos_nonneg; lia]. rewrite <- !Z.mul_assoc, <- Z.pow_add_r in Rp by lia.
    replace (ep - (ea + -17) + (ea + 183)) with (ep + 200) in Rp by lia. replace (100 * (Z.pos ma * 2 ^ (ea + 200))) with (Z.pos ma * (13107200 * 2 ^ (ea + 183))); [done|].
    replace (ea + 200) with (17 + (ea + 183)) by lia. rewrite (Z.pow_add_r 2 17) by lia. change (2 ^ 17) with 131072. ring. }
  assert (near (Z.pos mp * 2 ^ (ep + 200) * 2 ^ 200) (Z.pos md * 2 ^ (ed + 200) * (Z.pos mu * 2 ^ (eu + 200)))) as Rd'.
  { apply (near_scale (2 ^ (ep + 376))) in Rd; [|apply Z.pow_pos_nonneg; lia].
    replace (Z.pos mp * 2 ^ (ep + 200) * 2 ^ 200) with (Z.pos mp * 2 ^ 24 * 2 ^ (ep + 376)).
    2: { rewrite <- !Z.mul_assoc, <- !Z.pow_add_r by lia. do 2 f_equal. lia. }
    replace (Z.pos md * 2 ^ (ed + 200) * (Z.pos mu * 2 ^ (eu + 200))) with (Z.pos md * Z.pos mu * 2 ^ (ed - (ep - eu - 24)) * 2 ^ (ep + 376)); [done|].
    replace (Z.pos md * 2 ^ (ed + 200) * (Z.pos mu * 2 ^ (eu + 200))) with (Z.pos md * Z.pos mu * (2 ^ (ed + 200) * 2 ^ (eu + 200))) by ring.
    rewrite <- Z.mul_assoc, <- !Z.pow_add_r by lia. do 2 f_equal. lia. }
  eapply (near_chain cur max _ _ _ _ (2 ^ 200)); [done|lia|lia| |exact Ra|exact Rp'|exact Ru|exact Rd'].
  apply Z.mul_nonneg_nonneg; [lia|]. apply Z.pow_nonneg. lia.
Qed.

(** ** The percentage *)

Lemma floor_scale m e t : e < 0 -> -199 <= e -> t <= m / 2 ^ (- e) <-> t * 2 ^ 200 <= m * 2 ^ (e + 200).
Proof.
  intros He Hl. assert (2 ^ 200 = 2 ^ (- e) * 2 ^ (e + 200)) as -> by (rewrite <- Z.pow_add_r by lia; f_equal; lia).
  pose proof (Z.pow_pos_nonneg 2 (- e) ltac:(lia) ltac:(lia)). pose proof (Z.pow_pos_nonneg 2 (e + 200) ltac:(lia) ltac:(lia)).
  rewrite Z.mul_assoc, <- Z.mul_le_mono_pos_r by done. split; intros Ht.
  - etransitivity; [|apply (Z.mul_div_le m (2 ^ (- e))); done]. rewrite Z.mul_comm. apply Z.mul_le_mono_nonneg_l; lia.
  - apply Z.div_le_lower_bound; lia.
Qed.

(** The comparison with 100.0 is exact. *)
Lemma exceeds_hundred m e : normal m -> -199 <= e -> SFltb (of_int 100) (S754_finite false m e) = true <-> 100 * 2 ^ 200 < Z.pos m * 2 ^ (e + 200).
Proof.
  intros Hm He. rewrite hundred. unfold SFltb, SFcompare, normal in *. assert (100 * 2 ^ 200 = 13107200 * 2 ^ 183) as -> by done.
  change (Pos.compare_cont Eq 13107200 m) with (Pos.compare 13107200 m). change (Pos.compare 13107200 m) with (Z.compare 13107200 (Z.pos m)).
  destruct (Z.compare_spec (-17) e) as [<-|Hl|Hl].
  - change (-17 + 200) with 183. destruct (Z.compare_spec 13107200 (Z.pos m)); split; intros ?; try done; lia.
  - split; [intros _|done]. pose proof (Z.pow_le_mono_r 2 184 (e + 200)). assert (2 ^ 184 = 2 * 2 ^ 183) by done. lia.
  - split; [done|]. intros H. exfalso. pose proof (Z.pow_le_mono_r 2 (e + 200) 182). assert (2 ^ 183 = 2 * 2 ^ 182) by done.
    pose proof (Z.pow_pos_nonneg 2 (e + 200) ltac:(lia) ltac:(lia)). nia.
Qed.

Lemma percent_spec m e : normal m -> -199 <= e ->
  exists pct, (if SFltb (of_int 100) (S754_finite false m e) then Some 100 else to_int (S754_finite false m e)) = Some pct /\ 0 <= pct <= 100 /\
    forall t, 0 <= t <= 100 -> t <= pct <-> t * 2 ^ 200 <= Z.pos m * 2 ^ (e + 200).
Proof.
  intros Hm He. pose proof (exceeds_hundred m e Hm He) as Hx. destruct (SFltb _ _).
  - exists 100. split; [done|]. split; [lia|]. intros t Ht. destruct Hx as [Hx _]. specialize (Hx eq_refl). split; [nia|lia].
  - assert (Z.pos m * 2 ^ (e + 200) <= 100 * 2 ^ 200) as Hle by (apply Z.nlt_ge; intros H; by apply Hx in H).
    assert (e < 0) as Hneg. { apply Z.nle_gt. intros H. pose proof (Z.pow_le_mono_r 2 200 (e + 200)). unfold normal in Hm. nia. }
    assert (0 <= Z.pos m / 2 ^ (- e) <= 100) as Hb.
    { split; [apply Z.div_pos; [lia|apply Z.pow_pos_nonneg; lia]|]. apply Z.lt_succ_r, Z.nle_gt. rewrite (floor_scale _ _ _ Hneg He). lia. }
    exists (Z.pos m / 2 ^ (- e)). split; [|split; [done|intros t _; by apply floor_scale]]. unfold to_int. destruct (Z.leb_spec 0 e); [lia|].
    destruct (Z.leb_spec (- 2 ^ 31) (Z.pos m / 2 ^ (- e))); [|lia]. by destruct (Z.ltb_spec (Z.pos m / 2 ^ (- e)) (2 ^ 31)); [|lia].
Qed.

Lemma i64_range z : - 2 ^ 63 <= i64 z < 2 ^ 63.
Proof. unfold swrap. pose proof (Z.mod_pos_bound (z + 2 ^ (64 - 1)) (2 ^ 64) ltac:(lia)). lia. Qed.

(** For a cache that may use some memory the percentage is always defined and between 0 and 100, and it is on the right side of every [t] that the
    exact share is not within one part in [2^20] of. *)
Theorem used_mem_pct_accurate hg cur : i64 (u64 (size_keys hg + size_values hg + size_metas hg)) = cur -> 0 <= cur -> 0 < max_memory_size hg < 2 ^ 63 ->
  exists pct, fdb_hashes_group_used_mem_pct hg = Some pct /\ 0 <= pct <= 100 /\
    forall t, 0 <= t <= 100 -> (t * max_memory_size hg * 2 ^ 20 <= 100 * cur * (2 ^ 20 - 1) -> t <= pct) /\
      (100 * cur * (2 ^ 20 + 1) < t * max_memory_size hg * 2 ^ 20 -> pct < t).
Proof.
  unfold fdb_hashes_group_used_mem_pct. intros Ecur Hc Hm. pose proof (i64_range (u64 (size_keys hg + size_values hg + size_metas hg))) as Hi. rewrite Ecur in *.
  cbv zeta. set (max := max_memory_size hg) in *. destruct (Z.eq_dec cur 0) as [->|Hne].
  - destruct (of_int_spec max Hm) as (m & e & -> & _). exists 0. split; [by rewrite hundred|]. split; [lia|]. intros t Ht. nia.
  - destruct (share_spec cur max) as (m & e & -> & Hn & He & S1 & S2); [lia|done|].
    destruct (percent_spec m e Hn He) as (pct & -> & Hb & Hp). exists pct. split; [done|]. split; [done|]. intros t Ht. specialize (Hp t Ht).
    set (d := Z.pos m * 2 ^ (e + 200)) in *. change (2 ^ 20 - 1) with 1048575 in *. change (2 ^ 20 + 1) with 1048577 in *. change (2 ^ 20) with 1048576 in *.
    assert (0 < 2 ^ 200) as Hk by done. set (k := 2 ^ 200) in *. clearbody k d. split; intros Hs.
    + apply Hp. apply (Z.mul_le_mono_nonneg_r _ _ k) in Hs; [|lia]. apply (Z.mul_le_mono_pos_l _ _ (max * 1048576)); lia.
    + apply Z.nle_gt. rewrite Hp. intros Hle. apply (Z.mul_lt_mono_pos_r k) in Hs; [|done]. apply (Z.mul_le_mono_nonneg_l _ _ (max * 1048576)) in Hle; lia.
Qed.

(** ** The purge thread *)

(** The bytes of the entries that are allocated, less those that insertions under way have not added to the counters yet. *)
Definition memory (hg : fdb_hashes_group_t) (ws : list (counter * Z)) : Z :=
  total klen (fdb_hashes hg) + total length_z (fdb_hashes hg) + total meta_of (fdb_hashes hg) - (owed ws SizeKeys + owed ws SizeValues + owed ws SizeMetas).

(** C15: the purge thread works from the threshold on. A turn in any state the cache reaches returns, and what it leaves is sound for the readers of the cache ([purged]);
    when the entries that are counted use less than the threshold, by more than one part in [2^20], only the clock of the cache moves, and when they use more, by as much, every
    partition is gone through. The rounding of the percentage in single precision is part of the statement; the memory in use and the configured size are below [2^63] bytes. *)
Theorem purge_from_threshold maxttl purge_loop purge_time time n d m junk g rs ws thr t :
  (0 < n)%nat -> 0 < time -> 0 <= d -> 0 <= purge_loop -> 0 < purge_time -> reachable maxttl purge_loop purge_time time n d m junk (g, rs, ws) ->
  0 <= memory g ws < 2 ^ 63 -> 0 < max_memory_size g < 2 ^ 63 -> 0 <= thr <= 100 -> 0 < t ->
  exists g', purgeHash_turn purge_loop purge_time thr t g = Some g' /\ purged (g <| now := t |>) g' /\
    (100 * memory g ws * (2 ^ 20 + 1) < thr * max_memory_size g * 2 ^ 20 -> g' = g <| now := t |>) /\
    (thr * max_memory_size g * 2 ^ 20 <= 100 * memory g ws * (2 ^ 20 - 1) ->
       purge_partitions purge_loop purge_time (seq 0 (length (fdb_hashes g))) (g <| now := t |>) = Some g').
Proof.
  intros Hn Ht Hd Hl Hp Hr Hmem Hmax Hthr Ht'. apply reachable_inv in Hr as [[Hg _ _] Ha]; [|done..]. cbn [fst snd] in Hg, Ha.
  assert (i64 (u64 (size_keys g + size_values g + size_metas g)) = memory g ws) as Ecur.
  { pose proof (Ha SizeKeys ltac:(unfold sizes; set_solver)) as Hk. pose proof (Ha SizeValues ltac:(unfold sizes; set_solver)) as Hv.
    pose proof (Ha SizeMetas ltac:(unfold sizes; set_solver)) as Hs. cbn [size_of measure] in *. rewrite Hk, Hv, Hs. unfold uwrap.
    rewrite Z.add_mod_idemp_r, <- Z.add_mod_idemp_l, <- Z.add_mod, Z.add_mod_idemp_l by lia.
    rewrite (Z.mod_small _ (2 ^ 64)) by (unfold memory in Hmem; lia). rewrite swrap_small; unfold memory in *; lia. }
  destruct (used_mem_pct_accurate (g <| now := t |>) (memory g ws) Ecur (proj1 Hmem) Hmax) as (pct & Hpct & _ & Hacc). destruct (Hacc thr Hthr) as [Hge Hlt].
  destruct (purge_turn_ok purge_loop purge_time thr t pct g Hg Hl Hp Ht') as (g' & Hturn & Hpg).
  exists g'. split; [unfold purgeHash_turn; etransitivity; [exact (f_equal (mbind (fun p => purge_turn purge_loop purge_time thr t p g)) Hpct)|done]|].
  split; [done|]. unfold purge_turn in Hturn. destruct (Z.ltb_spec pct thr) as [Hs|Hs].
  - split; [by injection Hturn|]. intros H. apply Hge in H. lia.
  - split; [|done]. intros H. apply Hlt in H. lia.
Qed.

Lemma purge_from_threshold_witness : exists g', purgeHash_turn 100 10000 50 999999 cache1 = Some g' /\ g' = cache1 <| now := 999999 |>.
Proof.
  destruct (purge_from_threshold 315360000 100 10000 1000 2 60 100000 0 cache1 [] [] 50 999999) as (g' & H1 & _ & H2 & _);
    [lia..|apply cache1_reachable|vm_compute; split; [discriminate|reflexivity]|vm_compute; split; reflexivity|lia|lia|].
  exists g'. split; [exact H1|]. apply H2. vm_compute. reflexivity.
Defined.

(** A third of the memory in use is 33 percent, and more memory than allowed 100; 16777217 bytes of 16777217 are 100 percent although neither number is a float. *)
Example percentages :
  fdb_hashes_group_used_mem_pct (cache0 <| max_memory_size := 3 |> <| size_keys := 1 |>) = Some 33 /\
  fdb_hashes_group_used_mem_pct (cache0 <| max_memory_size := 1000 |> <| size_values := 5000 |>) = Some 100 /\
  fdb_hashes_group_used_mem_pct (cache0 <| max_memory_size := 16777217 |> <| size_values := 16777217 |>) = Some 100 /\
  fdb_hashes_group_used_mem_pct (cache0 <| max_memory_size := 0 |>) = None.
Proof. vm_compute. split_and!; reflexivity. Qed.
