(* ===== verification/Tokenizer.v ===== *)
(** * Query digests and query statistics: src/tokenizer.c and the statistics table of
    src/fundadb_hash.c

    [mysql_query_digest] is a loop over the characters of a query with four
    modes ([flag]): plain text, the two kinds of comments, a string literal and a
    number.  One turn of the loop is [digest_step]; the output block [r] has
    [len+1] bytes of unknown contents, [p_r] and [p_r_t] are offsets into it, and
    every access outside of the query or of the block is [None]. *)
From S2P Require Import Prelude.
Open Scope Z_scope.

Definition in_range (c : byte) (lo hi : Z) : bool := (lo <=? uc c) && (uc c <=? hi).

Definition is_normal_char (c : byte) : bool :=
  in_range c 97 122 || in_range c 65 90 || in_range c 48 57 || (uc c =? 36) || (uc c =? 95).
Definition is_token_char (c : byte) : bool := negb (is_normal_char c).
Definition is_space_char (c : byte) : bool := (uc c =? 32) || (uc c =? 9) || (uc c =? 10) || (uc c =? 13).
Definition is_digit_char (c : byte) : bool := in_range c 48 57.
Definition is_hex_char (c : byte) : bool := in_range c 48 57 || in_range c 97 102 || in_range c 65 70.

(** The loop of [is_digit_string] over the characters between the two pointers:
    [i] counts them, [before] is the previous one. *)
Fixpoint is_digit_loop (i : nat) (is_hex : bool) (before : byte) (cs : list byte) : bool :=
  match cs with
  | [] => true
  | c :: cs' =>
      if (i =? 1)%nat && (uc before =? 48) && ((uc c =? 120) || (uc c =? 88)) then is_digit_loop (S i) true c cs'
      else if negb is_hex && negb (is_digit_char c) then false
      else if is_hex && negb (is_hex_char c) then false
      else is_digit_loop (S i) is_hex c cs'
  end.

(** [r] from [f] to [t]; [None] reads outside. *)
Definition is_digit_string (r : list byte) (f t : nat) : option bool :=
  if decide (f = t) then c ← r !! f; Some (is_digit_char c)
  else cs ← mem_read f (t - f) r; Some (is_digit_loop 0 false Byte.x00 cs).

(** ** The digest *)

Record digest_state := mkDigest {
  di : nat; ds : nat; dr : list byte; p_r : nat; p_r_t : nat;
  prev_char : byte; qutr_char : byte; flag : nat }.
#[export] Instance digest_eta : Eta digest_state := fun d =>
  mkDigest (di d) (ds d) (dr d) (p_r d) (p_r_t d) (prev_char d) (qutr_char d) (flag d).

Definition put (st : digest_state) (c : byte) : option digest_state :=
  r ← mem_write (p_r st) [c] (dr st); Some (st <| dr := r |> <| p_r := S (p_r st) |>).

(** [s++; i++; continue;] *)
Definition advance (st : digest_state) : digest_state := st <| di := S (di st) |> <| ds := S (ds st) |>.

(** How a turn of the loop ends: [break], [continue], or by copying a character. *)
Inductive turn := Break (st : digest_state) | Continue (st : digest_state) | Copy (st : digest_state).

(** The branch [flag == 0]. *)
Definition start_token (len : nat) (c : byte) (st : digest_state) : option turn :=
  let st := st <| p_r_t := p_r st |> in
  if (uc (prev_char st) =? 47) && (uc c =? 42) then Some (Copy (st <| flag := 1%nat |>))
  else if uc c =? 35 then Some (Copy (st <| flag := 2%nat |>))
  else if (uc c =? 39) || (uc c =? 34) then Some (Copy (st <| flag := 3%nat |> <| qutr_char := c |>))
  else if is_token_char (prev_char st) && is_digit_char c then
    let st := st <| flag := 4%nat |> in
    Some (if decide (len = S (di st)) then Continue st else Copy st)
  else
    let st := st <| flag := 0%nat |> in
    if is_space_char (prev_char st) && is_space_char c then
      r ← mem_write (p_r st) [Byte.x20] (dr st);
      Some (Continue (advance (st <| prev_char := Byte.x20 |> <| dr := r |>)))
    else Some (Copy st).

(** The branch [flag == 3]. *)
Definition in_string (q : list byte) (len : nat) (c : byte) (st : digest_state) : option turn :=
  if decide (len = S (di st)) then
    st ← put (st <| p_r := p_r_t st |>) Byte.x3f; Some (Break (st <| flag := 0%nat |>))
  else if bool_decide (p_r_t st + 1 < p_r st)%nat &&
     ((uc (prev_char st) =? 92) && (uc c =? 92) || (uc (prev_char st) =? 92) && bool_decide (c = qutr_char st)
      || bool_decide (prev_char st = qutr_char st) && bool_decide (c = qutr_char st))
  then Some (Continue (advance (st <| prev_char := Byte.x58 |>)))
  else if bool_decide (c = qutr_char st) then
    next ← q !! S (ds st);
    if bool_decide (next <> qutr_char st) then
      st ← put (st <| p_r := p_r_t st |>) Byte.x3f; Some (Continue (advance (st <| flag := 0%nat |>)))
    else Some (Copy st)
  else Some (Copy st).

(** The branch [flag == 4]. *)
Definition in_number (len : nat) (c : byte) (st : digest_state) : option turn :=
  if decide (p_r_t st = p_r st) then
    st ← put st Byte.x3f; Some (Continue (st <| di := S (di st) |>))
  else if is_token_char c || bool_decide (len = S (di st)) then
    number ← is_digit_string (dr st) (p_r_t st) (p_r st);
    if (number : bool) then
      st ← put (st <| p_r := p_r_t st |>) Byte.x3f;
      if decide (len = S (di st)) then
        st ← (if is_token_char c then put st c else Some st);
        Some (Continue (st <| di := S (di st) |>))
      else Some (Copy (st <| flag := 0%nat |>))
    else Some (Copy (st <| flag := 0%nat |>))
  else Some (Copy st).

Definition in_token (q : list byte) (len : nat) (c : byte) (st : digest_state) : option turn :=
  if (flag st =? 1)%nat && (uc (prev_char st) =? 42) && (uc c =? 47)
     || (flag st =? 2)%nat && ((uc c =? 10) || (uc c =? 13)) then
    let p := if (flag st =? 1)%nat then (p_r_t st - 1)%nat else p_r_t st in
    if (flag st =? 1)%nat && (p_r_t st =? 0)%nat then None (* before the block *)
    else Some (Continue (advance (st <| p_r := p |> <| prev_char := Byte.x20 |> <| flag := 0%nat |>)))
  else if (flag st =? 3)%nat then in_string q len c st
  else if (flag st =? 4)%nat then in_number len c st
  else Some (Copy st).

(** One turn; [inl] leaves the loop. *)
Definition digest_step (q : list byte) (len : nat) (st : digest_state) : option (digest_state + digest_state) :=
  if decide (di st < len)%nat then
    c ← q !! ds st;
    t ← (if (flag st =? 0)%nat then start_token len c st else in_token q len c st);
    match t with
    | Break st => Some (inl st)
    | Continue st => Some (inr st)
    | Copy st =>
        st ← put st (if is_space_char c then Byte.x20 else c);
        Some (inr (st <| prev_char := c |> <| ds := S (ds st) |> <| di := S (di st) |>))
    end
  else Some (inl st).

Fixpoint digest_loop (fuel : nat) (q : list byte) (len : nat) (st : digest_state) : option digest_state :=
  match fuel with
  | O => None
  | S fuel' =>
      x ← digest_step q len st;
      match x with
      | inl st => Some st
      | inr st => digest_loop fuel' q len st
      end
  end.

(** Every turn advances [i], but for the one that enters the number mode at the last character. *)
Definition digest_fuel (len : nat) : nat := (2 * len + 2)%nat.

(** The result is the C string at the start of the block. *)
Definition mysql_query_digest (junk : nat -> byte) (query : list byte) (query_len : nat) : option (list byte) :=
  st ← digest_loop (digest_fuel query_len) query query_len
         (mkDigest 0 0 (block junk (query_len + 1)) 0 0 Byte.x00 Byte.x00 0);
  r ← mem_write (p_r st) [Byte.x00] (dr st);
  strdup_at 0 r.

(** ** Bounds and termination *)

Record digest_inv (len : nat) (st : digest_state) : Prop := {
  dg_block : length (dr st) = S len;
  dg_out : (flag st <> 0%nat -> p_r_t st <= p_r st)%nat /\ (p_r st <= di st)%nat;
  dg_in : (di st < len)%nat -> ds st = di st;
  dg_end : (di st <= len)%nat;
  dg_comment : flag st = 1%nat -> (1 <= p_r_t st)%nat;
  dg_slash : uc (prev_char st) = 47 -> (1 <= p_r st)%nat;
  dg_string : flag st = 3%nat -> (p_r_t st + 1 <= p_r st)%nat;
  dg_number : flag st = 4%nat -> p_r_t st = p_r st -> len = S (di st)
}.

(** How many more turns there can be. *)
Definition digest_measure (len : nat) (st : digest_state) : nat :=
  (2 * (len - di st) + if (flag st =? 0)%nat then 1 else 0)%nat.

Lemma put_ok st c :
  (p_r st < length (dr st))%nat ->
  exists r, put st c = Some (st <| dr := r |> <| p_r := S (p_r st) |>) /\ length r = length (dr st).
Proof.
  intros Hp. unfold put. destruct (mem_write (p_r st) [c] (dr st)) as [r|] eqn:Hw.
  - exists r. split; [done|]. by apply mem_write_length in Hw.
  - unfold mem_write in Hw. rewrite decide_True in Hw by (simpl; lia). done.
Qed.

(** The state of a turn that ends by copying. *)
Record copy_inv (len : nat) (st0 st : digest_state) : Prop := {
  cp_block : length (dr st) = S len;
  cp_out : (p_r_t st <= p_r st)%nat /\ (p_r st <= di st)%nat;
  cp_i : di st = di st0 /\ ds st = ds st0;
  cp_comment : flag st = 1%nat -> (1 <= p_r_t st)%nat
}.

Definition turn_ok (len : nat) (st0 : digest_state) (t : turn) : Prop :=
  match t with
  | Break st => length (dr st) = S len /\ (p_r st <= len)%nat
  | Continue st => digest_inv len st /\ (digest_measure len st < digest_measure len st0)%nat
  | Copy st => copy_inv len st0 st
  end.

Ltac digest_fields :=
  cbn [turn_ok di ds dr p_r p_r_t prev_char qutr_char flag upd digest_eta advance] in *.

Ltac digest_branch := constructor; digest_fields; try done; try lia; try (intros; lia).

Lemma start_token_ok len c st :
  digest_inv len st -> (di st < len)%nat -> flag st = 0%nat ->
  exists t, start_token len c st = Some t /\ turn_ok len st t.
Proof.
  intros [Hb [Ho1 Ho2] Hin He Hc Hsl Hstr Hnum] Hi Hf. unfold start_token. digest_fields.
  destruct ((uc (prev_char st) =? 47) && (uc c =? 42)) eqn:E1.
  { eexists. split; [done|]. px_bool. digest_branch. }
  destruct (uc c =? 35); [eexists; split; [done|]; digest_branch|].
  destruct ((uc c =? 39) || (uc c =? 34)); [eexists; split; [done|]; digest_branch|].
  destruct (is_token_char (prev_char st) && is_digit_char c).
  { eexists. split; [done|]. case_decide as Hl.
    - split; [digest_branch|]. unfold digest_measure. digest_fields. rewrite Hf. simpl. lia.
    - digest_branch. }
  destruct (is_space_char (prev_char st) && is_space_char c).
  - destruct (mem_write (p_r st) [Byte.x20] (dr st)) as [r|] eqn:Hw.
    2:{ unfold mem_write in Hw. rewrite decide_True in Hw by (simpl; lia). done. }
    rewrite bind_Some. apply mem_write_length in Hw. eexists. split; [done|]. split.
    + unfold advance. digest_branch.
    + unfold digest_measure, advance. digest_fields. rewrite Hf. simpl. lia.
  - eexists. split; [done|]. digest_branch.
Qed.

Lemma in_string_ok q len c st :
  digest_inv len st -> (di st < len)%nat -> length q = len -> flag st = 3%nat ->
  exists t, in_string q len c st = Some t /\ turn_ok len st t.
Proof.
  intros [Hb [Ho1 Ho2] Hin He Hc Hsl Hstr Hnum] Hi Hq Hf. specialize (Hin Hi). specialize (Hstr Hf).
  unfold in_string. case_decide as Hl.
  { destruct (put_ok (st <| p_r := p_r_t st |>) Byte.x3f) as (r & -> & Hr); [digest_fields; lia|]. rewrite bind_Some.
    eexists. split; [done|]. digest_fields. split; [lia|lia]. }
  match goal with |- context [if ?b then Some (Continue _) else _] => destruct b end.
  { eexists. split; [done|]. split.
    - unfold advance. digest_branch.
      all: intros Hx; exfalso; vm_compute in Hx; lia.
    - unfold digest_measure, advance. digest_fields. rewrite Hf. simpl. lia. }
  destruct (bool_decide (c = qutr_char st)).
  2:{ eexists. split; [done|]. digest_branch. }
  destruct (lookup_lt_is_Some_2 q (S (ds st))) as [nx ->]; [lia|]. rewrite bind_Some.
  destruct (bool_decide (nx <> qutr_char st)); [|eexists; split; [done|]; digest_branch].
  destruct (put_ok (st <| p_r := p_r_t st |>) Byte.x3f) as (r & -> & Hr); [digest_fields; lia|]. rewrite bind_Some.
  eexists. split; [done|]. digest_fields. split.
  - unfold advance. digest_branch.
  - unfold digest_measure, advance. digest_fields. rewrite Hf. simpl. lia.
Qed.

Lemma in_number_ok len c st :
  digest_inv len st -> (di st < len)%nat -> flag st = 4%nat ->
  exists t, in_number len c st = Some t /\ turn_ok len st t.
Proof.
  intros [Hb [Ho1 Ho2] Hin He Hc Hsl Hstr Hnum] Hi Hf. specialize (Hin Hi). unfold in_number. case_decide as Hp.
  { specialize (Hnum Hf Hp). destruct (put_ok st Byte.x3f) as (r & -> & Hr); [lia|]. rewrite bind_Some.
    eexists. split; [done|]. digest_fields. split; [digest_branch|].
    unfold digest_measure. digest_fields. rewrite Hf. simpl. lia. }
  match goal with |- context [if ?b then _ else Some (Copy st)] => destruct b end;
    [|eexists; split; [done|]; digest_branch].
  assert (exists b, is_digit_string (dr st) (p_r_t st) (p_r st) = Some b) as (b & ->).
  { unfold is_digit_string. rewrite decide_False by done. unfold mem_read. rewrite decide_True by lia. eauto. }
  rewrite bind_Some. destruct b; [|eexists; split; [done|]; digest_branch].
  destruct (put_ok (st <| p_r := p_r_t st |>) Byte.x3f) as (r & -> & Hr); [digest_fields; lia|]. rewrite bind_Some.
  digest_fields. case_decide as Hl; [|eexists; split; [done|]; digest_branch].
  destruct (is_token_char c).
  - match goal with |- context [put ?s c] => destruct (put_ok s c) as (r' & -> & Hr') end; [digest_fields; lia|].
    rewrite bind_Some. eexists. split; [done|]. digest_fields. split; [digest_branch|].
    unfold digest_measure. digest_fields. rewrite Hf. simpl. lia.
  - rewrite bind_Some. eexists. split; [done|]. digest_fields. split; [digest_branch|].
    unfold digest_measure. digest_fields. rewrite Hf. simpl. lia.
Qed.

Lemma in_token_ok q len c st :
  digest_inv len st -> (di st < len)%nat -> length q = len -> flag st <> 0%nat ->
  exists t, in_token q len c st = Some t /\ turn_ok len st t.
Proof.
  intros Hinv Hi Hq Hf. unfold in_token.
  match goal with |- context [if ?b then _ else (if (flag st =? 3)%nat then _ else _)] => destruct b eqn:E end.
  - destruct Hinv as [Hb [Ho1 Ho2] Hin He Hc Hsl Hstr Hnum]. specialize (Hin Hi). cbv zeta.
    assert ((flag st =? 1)%nat && (p_r_t st =? 0)%nat = false) as ->.
    { destruct (Nat.eqb_spec (flag st) 1) as [H1|]; [|done]. specialize (Hc H1).
      destruct (Nat.eqb_spec (p_r_t st) 0); [lia|done]. }
    eexists. split; [done|]. split.
    + unfold advance. digest_branch.
      destruct (Nat.eqb_spec (flag st) 1); split; lia.
    + unfold digest_measure, advance. digest_fields. destruct (Nat.eqb_spec (flag st) 0); simpl; lia.
  - destruct (Nat.eqb_spec (flag st) 3); [by apply in_string_ok|].
    destruct (Nat.eqb_spec (flag st) 4); [by apply in_number_ok|].
    destruct Hinv as [Hb [Ho1 Ho2] Hin He Hc Hsl Hstr Hnum]. eexists. split; [done|]. digest_branch.
Qed.

Lemma digest_step_ok q len st :
  digest_inv len st -> length q = len ->
  exists x, digest_step q len st = Some x /\
    match x with
    | inl st' => length (dr st') = S len /\ (p_r st' <= len)%nat
    | inr st' => digest_inv len st' /\ (digest_measure len st' < digest_measure len st)%nat
    end.
Proof.
  intros Hinv Hq. unfold digest_step. case_decide as Hi.
  2:{ eexists. split; [done|]. destruct Hinv as [Hb [_ Ho2] _ He _ _ _ _]. split; [done|lia]. }
  pose proof (dg_in _ _ Hinv Hi) as Hs.
  destruct (lookup_lt_is_Some_2 q (ds st)) as [c ->]; [lia|]. rewrite bind_Some.
  assert (exists t, (if (flag st =? 0)%nat then start_token len c st else in_token q len c st) = Some t /\
    turn_ok len st t) as (t & -> & Ht).
  { destruct (Nat.eqb_spec (flag st) 0); [by apply start_token_ok|by apply in_token_ok]. }
  rewrite bind_Some. destruct t as [st'|st'|st']; cbn [turn_ok] in Ht; [eauto|eauto|].
  destruct Ht as [Hb [Ho1 Ho2] [Hdi Hds] Hc].
  destruct (put_ok st' (if is_space_char c then Byte.x20 else c)) as (r & -> & Hr); [lia|]. rewrite bind_Some.
  eexists. split; [done|]. digest_fields. split; [digest_branch|].
  unfold digest_measure. digest_fields. rewrite Hdi. repeat case_match; lia.
Qed.

Lemma digest_loop_ok q len fuel : forall st,
  digest_inv len st -> length q = len -> (digest_measure len st < fuel)%nat ->
  exists st', digest_loop fuel q len st = Some st' /\ length (dr st') = S len /\ (p_r st' <= len)%nat.
Proof.
  induction fuel as [|fuel IH]; intros st Hinv Hq Hf; [lia|]. cbn [digest_loop].
  destruct (digest_step_ok q len st Hinv Hq) as (x & -> & Hx). rewrite bind_Some.
  destruct x as [st'|st']; [eauto|]. destruct Hx as [Hinv' Hm]. apply IH; [done|done|lia].
Qed.

Lemma strlen_le d k : (k < length d)%nat -> d !! k = Some Byte.x00 -> exists n, strlen d = Some n /\ (n <= k)%nat.
Proof.
  revert k. induction d as [|b d IH]; intros k Hk Hd; [done|]. simpl. case_decide; [eexists; split; [done|lia]|].
  destruct k as [|k]; simplify_eq/=. destruct (IH k) as (n & -> & ?); [lia|done|]. eexists. split; [done|lia].
Qed.

(** Computing a digest is memory safe and terminates: for every query, of any
    bytes, the loop ends within its bound, never reads outside of the query or
    writes outside of the output block, whatever the block contained, and
    returns a terminated string that is not longer than the query. *)
Theorem query_digest_safe junk query :
  exists r, mysql_query_digest junk query (length query) = Some r /\ (length r <= length query)%nat.
Proof.
  unfold mysql_query_digest. set (len := length query).
  destruct (digest_loop_ok query len (digest_fuel len)
    (mkDigest 0 0 (block junk (len + 1)) 0 0 Byte.x00 Byte.x00 0)) as (st & -> & Hb & Hp).
  - constructor; simpl; rewrite ?length_block; try lia; try done.
  - done.
  - unfold digest_measure, digest_fuel. simpl. lia.
  - rewrite bind_Some. destruct (mem_write (p_r st) [Byte.x00] (dr st)) as [r|] eqn:Hw.
    2:{ unfold mem_write in Hw. rewrite decide_True in Hw by (simpl; lia). done. }
    rewrite bind_Some. pose proof (mem_write_length _ _ _ _ Hw) as Hl.
    destruct (strlen_le r (p_r st)) as (n & Hn & Hle); [lia| |].
    { unfold mem_write in Hw. case_decide; [|done]. simplify_eq. rewrite lookup_app_r by px_len.
      rewrite length_take, Nat.min_l, Nat.sub_diag by lia. done. }
    unfold strdup_at. change (drop 0 r) with r. rewrite Hn, bind_Some. eexists. split; [done|].
    rewrite length_take. lia.
Qed.
(** ** Plain text *)

(** Characters that do not start a comment, a string or a number, and are not NUL. *)
Definition plain (c : byte) : bool :=
  negb (uc c =? 47) && negb (uc c =? 35) && negb (uc c =? 39) && negb (uc c =? 34) && negb (is_digit_char c)
  && negb (uc c =? 0).

(** The reference: every run of blanks becomes one space. *)
Fixpoint squeeze (after_space : bool) (q : list byte) : list byte :=
  match q with
  | [] => []
  | c :: q' =>
      if after_space && is_space_char c then squeeze true q'
      else (if is_space_char c then Byte.x20 else c) :: squeeze (is_space_char c) q'
  end.

Lemma plain_parts c :
  plain c = true -> (uc c =? 47) = false /\ (uc c =? 35) = false /\ (uc c =? 39) = false /\ (uc c =? 34) = false /\
    is_digit_char c = false /\ (uc c =? 0) = false.
Proof. unfold plain. repeat rewrite andb_true_iff. rewrite !negb_true_iff. tauto. Qed.

Lemma put_take st c :
  (p_r st < length (dr st))%nat ->
  exists r, put st c = Some (st <| dr := r |> <| p_r := S (p_r st) |>) /\ length r = length (dr st) /\
    take (S (p_r st)) r = take (p_r st) (dr st) ++ [c].
Proof.
  intros Hp. unfold put.
  pose proof (mem_write_extend (take (p_r st) (dr st)) (drop (p_r st) (dr st)) [c] (p_r st)) as Hw.
  rewrite take_drop in Hw. rewrite Hw by px_len. rewrite bind_Some. eexists. split; [done|]. split; [px_len|].
  rewrite app_assoc, take_app_length' by px_len. done.
Qed.

Lemma digest_plain_loop q fuel : forall st out,
  digest_inv (length q) st -> flag st = 0%nat -> take (p_r st) (dr st) = out ->
  (uc (prev_char st) =? 47) = false ->
  Forall (fun c => plain c = true) (drop (di st) q) -> (length q - di st < fuel)%nat ->
  exists st', digest_loop fuel q (length q) st = Some st' /\
    take (p_r st') (dr st') = out ++ squeeze (is_space_char (prev_char st)) (drop (di st) q).
Proof.
  induction fuel as [|fuel IH]; intros st out Hinv Hf Hout Hprev Hpl Hfuel; [lia|]. cbn [digest_loop].
  destruct (digest_step_ok q (length q) st Hinv eq_refl) as (x & Hx & Hpost).
  pose proof Hinv as [Hb [_ Ho] Hin He _ _ _ _]. rewrite Hx, bind_Some. unfold digest_step in Hx.
  case_decide as Hi.
  2:{ simplify_eq. exists st. split; [done|]. rewrite drop_ge by lia. simpl. by rewrite app_nil_r. }
  rewrite (Hin Hi) in Hx. destruct (lookup_lt_is_Some_2 q (di st) Hi) as [c Hc].
  rewrite (drop_S q c (di st) Hc) in *. apply Forall_cons in Hpl as [Hpc Hpl].
  apply plain_parts in Hpc as (P1 & P2 & P3 & P4 & P5 & P6).
  rewrite Hc, bind_Some, Hf in Hx. cbn [Nat.eqb] in Hx. unfold start_token in Hx. digest_fields.
  rewrite Hprev, P2, P3, P4, P5, andb_false_r in Hx. cbn [andb orb] in Hx. cbn [squeeze].
  destruct (is_space_char (prev_char st) && is_space_char c) eqn:Hsp.
  - destruct (mem_write (p_r st) [Byte.x20] (dr st)) as [r|] eqn:Hw; [|done]. rewrite !bind_Some in Hx. simplify_eq.
    destruct Hpost as [Hinv' _].
    assert (take (p_r st) r = take (p_r st) (dr st)) as Htk.
    { unfold mem_write in Hw. case_decide; [|done]. simplify_eq. by rewrite take_app_length' by px_len. }
    match type of Hinv' with digest_inv _ ?s => destruct (IH s (take (p_r st) (dr st))) as (st' & -> & Hst') end;
      [done|done|exact Htk|done|done|unfold advance; digest_fields; lia|]. exists st'. split; [done|]. exact Hst'.
  - destruct (put_take (st <| p_r_t := p_r st |> <| flag := 0%nat |>) (if is_space_char c then Byte.x20 else c))
      as (r & Hput & Hlr & Htk); [digest_fields; lia|].
    digest_fields. rewrite bind_Some, Hput, bind_Some in Hx. simplify_eq. digest_fields. destruct Hpost as [Hinv' _].
    match type of Hinv' with digest_inv _ ?s =>
      destruct (IH s (take (p_r st) (dr st) ++ [if is_space_char c then Byte.x20 else c])) as (st' & -> & Hst') end;
      [done|done|exact Htk|done|done|digest_fields; lia|].
    exists st'. split; [done|]. digest_fields. rewrite Hst', <- app_assoc. done.
Qed.

Lemma squeeze_no_nul b q : Forall (fun c => plain c = true) q -> Byte.x00 ∉ squeeze b q.
Proof.
  intros Hq. revert b. induction Hq as [|c q Hc Hq IH]; intros b; simpl; [set_solver|].
  destruct (b && is_space_char c); [apply IH|]. rewrite not_elem_of_cons. split; [|apply IH].
  apply plain_parts in Hc as (_ & _ & _ & _ & _ & Hz). destruct (is_space_char c); [done|]. intros <-. done.
Qed.

(** On text without quotes, digits, slashes and hashes the digest is the query
    with every run of blanks replaced by one space. *)
Theorem query_digest_plain junk q :
  Forall (fun c => plain c = true) q -> mysql_query_digest junk q (length q) = Some (squeeze false q).
Proof.
  intros Hq. unfold mysql_query_digest.
  set (st0 := mkDigest 0 0 (block junk (length q + 1)) 0 0 Byte.x00 Byte.x00 0).
  assert (digest_inv (length q) st0) as Hinv.
  { constructor; simpl; rewrite ?length_block; try lia; try done. }
  destruct (digest_plain_loop q (digest_fuel (length q)) st0 []) as (st & Hl & Ht);
    [done..|unfold digest_fuel; simpl; lia|].
  destruct (digest_loop_ok q (length q) (digest_fuel (length q)) st0) as (st' & Hl' & Hb & Hp);
    [done|done|unfold digest_measure, digest_fuel; simpl; lia|].
  rewrite Hl in Hl'. simplify_eq. rewrite Hl, bind_Some. simpl in Ht.
  pose proof (mem_write_extend (take (p_r st') (dr st')) (drop (p_r st') (dr st')) [Byte.x00] (p_r st')) as Hw.
  rewrite take_drop in Hw. rewrite Hw by px_len. rewrite bind_Some, Ht.
  apply (strdup_at_app []); [done|by apply squeeze_no_nul].
Qed.

Lemma query_digest_plain_witness :
  mysql_query_digest (fun _ => Byte.xaa) (c_lit "select  a from t") 16 = Some (c_lit "select a from t").
Proof.
  apply (query_digest_plain (fun _ => Byte.xaa) (c_lit "select  a from t")).
  repeat (constructor; [reflexivity|]). constructor.
Defined.

Definition digest_of (s : string) : option (list byte) :=
  mysql_query_digest (fun _ => Byte.xaa) (c_lit s) (length (c_lit s)).

(** The digest is meant to depend on the shape of a query only, but it leaks literals: the character before
    the closing quote is remembered, so that a blank there swallows the
    separator that follows, and a quote that directly follows a number is
    copied together with the literal. *)
Theorem query_digest_depends_on_literals :
  digest_of "a='x' or b" = Some (c_lit "a=? or b") /\
  digest_of "a='x ' or b" = Some (c_lit "a=?or b") /\
  digest_of "select 5'secret'" = Some (c_lit "select ?'secret'").
Proof. vm_compute. auto. Qed.

(** ** Query statistics *)

Record qr_hash_entry := mkQr {
  qr_key : list byte; exec_cnt : Z; query_digest_text : list byte; query_digest_md5 : list byte;
  qr_hostgroup_id : Z; qr_username : list byte; qr_schemaname : list byte;
  mysql_server_address : option (list byte); query_time : Z; mysql_server_port : Z }.
#[export] Instance qr_eta : Eta qr_hash_entry := fun e =>
  mkQr (qr_key e) (exec_cnt e) (query_digest_text e) (query_digest_md5 e) (qr_hostgroup_id e) (qr_username e)
    (qr_schemaname e) (mysql_server_address e) (query_time e) (mysql_server_port e).

(** [%d] of [printf]. *)
Fixpoint dec_digits (fuel : nat) (n : Z) : list byte :=
  match fuel with
  | O => []
  | S fuel' => (if n <? 10 then [] else dec_digits fuel' (n / 10)) ++ [byte.of_Z (48 + n mod 10)]
  end.
Definition c_dec (z : Z) : list byte := (if z <? 0 then [Byte.x2d] else []) ++ dec_digits 10 (Z.abs z).

(** The block of [__generate_qr_hash_entry__key] and the string printed into it. *)
Definition qr_key_size (e : qr_hash_entry) : nat :=
  (length (query_digest_md5 e) + 3 + length (default [] (mysql_server_address e)) + length (qr_username e)
   + length (qr_schemaname e) + 5 + (5 * 2 + 5))%nat.

Definition qr_key_string (e : qr_hash_entry) : list byte :=
  let sep := c_lit "__" in
  query_digest_md5 e ++ sep ++ qr_username e ++ sep ++ qr_schemaname e ++ sep ++ c_dec (qr_hostgroup_id e) ++ sep ++
  default [] (mysql_server_address e) ++ sep ++ c_dec (mysql_server_port e).

(** [None] is a write behind the block. *)
Definition generate_qr_hash_entry_key (e : qr_hash_entry) : option qr_hash_entry :=
  b ← mem_write 0 (qr_key_string e ++ [Byte.x00]) (replicate (qr_key_size e) Byte.x00);
  k ← strdup_at 0 b;
  Some (e <| qr_key := k |>).

Record qr_hash_t := mkQrHash { c_hash : gmap (list byte) qr_hash_entry; p_hash : gmap (list byte) qr_hash_entry }.

(** [start] is when the query began, [now] what [monotonic_time] answers. *)
Definition query_statistics_set (now : Z) (ht : qr_hash_t) (query_stats : qr_hash_entry) : option qr_hash_t :=
  e ← generate_qr_hash_entry_key query_stats;
  let total_time := i64 (now - query_time e) in
  let e := e <| exec_cnt := 1 |> <| query_time := total_time |> in
  Some (match c_hash ht !! qr_key e with
        | None => mkQrHash (<[qr_key e := e]> (c_hash ht)) (p_hash ht)
        | Some entry =>
            mkQrHash (<[qr_key e := entry <| exec_cnt := u32 (exec_cnt entry + 1) |>
                                          <| query_time := i64 (query_time entry + total_time) |>]> (c_hash ht)) (p_hash ht)
        end).

(** One turn of [qr_report_thread]: the tables are exchanged, the entries of the
    one that was current are reported and dropped. *)
Definition qr_report_turn (ht : qr_hash_t) : list qr_hash_entry * qr_hash_t :=
  ((map_to_list (c_hash ht)).*2, mkQrHash (p_hash ht) ∅).

(** The pieces [str2md5] feeds to MD5. *)
Fixpoint md5_chunks (fuel : nat) (str : list byte) : list (list byte) :=
  match fuel with
  | O => []
  | S fuel' => if decide (0 < length str)%nat then take 512 str :: md5_chunks fuel' (drop 512 str) else []
  end.

Definition hex_digit (n : Z) : byte := byte.of_Z (if n <? 10 then 48 + n else 87 + n).
Definition hex2 (b : byte) : list byte := [hex_digit (uc b / 16); hex_digit (uc b mod 16)].

(** [md5] is the digest of the concatenation of the updates. *)
Definition str2md5 (md5 : list byte -> list byte) (str : list byte) : list byte :=
  mjoin (hex2 <$> take 16 (md5 (mjoin (md5_chunks (S (length str)) str)))).

Lemma dec_digits_length fuel : forall n k, (k <> 0)%nat -> 0 <= n < 10 ^ Z.of_nat k -> (length (dec_digits fuel n) <= k)%nat.
Proof.
  induction fuel as [|fuel IH]; intros n k Hk Hn; simpl; [lia|]. rewrite length_app. simpl.
  destruct (Z.ltb_spec n 10); simpl; [lia|]. destruct k as [|[|k]]; [done|simpl in Hn; lia|].
  assert (length (dec_digits fuel (n / 10)) <= S k)%nat; [|lia]. apply IH; [done|].
  rewrite (Nat2Z.inj_succ (S k)), Z.pow_succ_r in Hn by lia.
  split; [apply Z.div_pos; lia|apply Z.div_lt_upper_bound; lia].
Qed.

(** Only digits: no character below [0] occurs. *)
Lemma dec_digits_no b fuel : uc b < 48 -> forall n, b ∉ dec_digits fuel n.
Proof.
  intros Hb. induction fuel as [|fuel IH]; intros n; simpl; [set_solver|]. rewrite elem_of_app. intros [Hin|Hin].
  - destruct (n <? 10); [set_solver|]. by apply IH in Hin.
  - apply list_elem_of_singleton in Hin. apply (f_equal uc) in Hin. rewrite byte.unsigned_of_Z in Hin.
    unfold byte.wrap in Hin. pose proof (Z.mod_pos_bound n 10). rewrite Z.mod_small in Hin; lia.
Qed.

Lemma dec_digits_no_nul fuel : forall n, Byte.x00 ∉ dec_digits fuel n.
Proof. by apply dec_digits_no. Qed.

Lemma dec_digits_plain fuel : forall n, Byte.x22 ∉ dec_digits fuel n.
Proof. by apply dec_digits_no. Qed.

Lemma c_dec_length z k :
  (k <> 0)%nat -> - 10 ^ (Z.of_nat k - 1) < z < 10 ^ Z.of_nat k -> (length (c_dec z) <= k)%nat.
Proof.
  intros Hk Hz. unfold c_dec. rewrite length_app. destruct (Z.ltb_spec z 0).
  - destruct k as [|[|k]]; [done|simpl in Hz; lia|].
    replace (Z.of_nat (S (S k)) - 1) with (Z.of_nat (S k)) in Hz by lia.
    pose proof (dec_digits_length 10 (Z.abs z) (S k)) as Hl. change (length [Byte.x2d]) with 1%nat.
    assert (length (dec_digits 10 (Z.abs z)) <= S k)%nat; [apply Hl; [done|]|lia].
    generalize dependent (10 ^ Z.of_nat (S k)). intros. lia.
  - change (length []) with 0%nat. apply dec_digits_length; [done|].
    generalize dependent (10 ^ Z.of_nat k). intros. lia.
Qed.

Definition no_nul_entry (e : qr_hash_entry) : Prop :=
  Byte.x00 ∉ query_digest_md5 e ++ qr_username e ++ qr_schemaname e ++ default [] (mysql_server_address e).

Lemma qr_key_no_nul e : no_nul_entry e -> Byte.x00 ∉ qr_key_string e.
Proof.
  unfold no_nul_entry, qr_key_string, c_dec. intros Hn Hin.
  assert (Byte.x00 ∉ c_lit "__") as Hs by (by apply (bool_decide_unpack _); vm_compute).
  pose proof (dec_digits_no_nul 10 (Z.abs (qr_hostgroup_id e))) as H1.
  pose proof (dec_digits_no_nul 10 (Z.abs (mysql_server_port e))) as H2.
  assert (forall z, Byte.x00 ∉ (if z <? 0 then [Byte.x2d] else [])) as Hm.
  { intros z. destruct (z <? 0); by apply (bool_decide_unpack _); vm_compute. }
  rewrite !elem_of_app in Hin. rewrite !elem_of_app in Hn. pose proof (Hm (qr_hostgroup_id e)). pose proof (Hm (mysql_server_port e)). naive_solver.
Qed.

(** The key is produced exactly when the two numbers take at most twelve characters. *)
Lemma generate_key_iff e :
  no_nul_entry e ->
  generate_qr_hash_entry_key e =
    if decide (length (c_dec (qr_hostgroup_id e)) + length (c_dec (mysql_server_port e)) <= 12)%nat
    then Some (e <| qr_key := qr_key_string e |>) else None.
Proof.
  intros Hn. unfold generate_qr_hash_entry_key.
  assert (length (qr_key_string e ++ [Byte.x00]) =
    length (query_digest_md5 e) + length (default [] (mysql_server_address e)) + length (qr_username e)
    + length (qr_schemaname e) + 10 + length (c_dec (qr_hostgroup_id e)) + length (c_dec (mysql_server_port e)) + 1)%nat as Hl.
  { unfold qr_key_string. rewrite !length_app. change (length (c_lit "__")) with 2%nat. simpl length. lia. }
  case_decide as Hd.
  - pose proof (mem_write_extend [] (replicate (qr_key_size e) Byte.x00) (qr_key_string e ++ [Byte.x00]) 0 eq_refl) as Hw.
    cbn [app] in Hw. rewrite Hw by (rewrite Hl, length_replicate; unfold qr_key_size; lia). rewrite bind_Some.
    rewrite <- app_assoc.
    match goal with |- context [strdup_at 0 (_ ++ [Byte.x00] ++ ?r)] =>
      pose proof (strdup_at_app [] (qr_key_string e) r 0 eq_refl (qr_key_no_nul e Hn)) as Hs end.
    cbn [app] in Hs |- *. by rewrite Hs.
  - unfold mem_write. rewrite decide_False; [done|]. rewrite Hl, length_replicate. unfold qr_key_size. lia.
Qed.

(** The statistics key fits its block for every host group below ten million and
    every port number, and is the digest, user, schema, host group, address and
    port joined by double underscores. *)
Theorem qr_key_fits e :
  no_nul_entry e -> -1000000 < qr_hostgroup_id e < 10000000 -> 0 <= mysql_server_port e < 65536 ->
  generate_qr_hash_entry_key e = Some (e <| qr_key := qr_key_string e |>).
Proof.
  intros Hn Hh Hp. rewrite generate_key_iff by done. rewrite decide_True; [done|].
  pose proof (c_dec_length (qr_hostgroup_id e) 7). pose proof (c_dec_length (mysql_server_port e) 5). simpl in *. lia.
Qed.

Definition sample_stats : qr_hash_entry :=
  mkQr [] 0 (c_lit "select ?") (c_lit "d41d8cd98f00b204") 3 (c_lit "bob") (c_lit "test") (Some (c_lit "10.0.0.1")) 100 3306.

Lemma sample_stats_nul : no_nul_entry sample_stats.
Proof. by apply (bool_decide_unpack _); vm_compute. Qed.

Lemma qr_key_fits_witness :
  generate_qr_hash_entry_key sample_stats = Some (sample_stats <| qr_key := qr_key_string sample_stats |>).
Proof. apply (qr_key_fits sample_stats sample_stats_nul); simpl; lia. Defined.

(** A host group number of eight digits makes [sprintf] write behind the block
    when the port has five digits: three characters are reserved for it. *)
Theorem qr_key_overflow e :
  no_nul_entry e -> 10000000 <= qr_hostgroup_id e < 2 ^ 31 -> 10000 <= mysql_server_port e < 65536 ->
  generate_qr_hash_entry_key e = None.
Proof.
  intros Hn Hh Hp. rewrite generate_key_iff by done. rewrite decide_False; [done|].
  assert (forall fuel k n, 10 ^ Z.of_nat k <= n -> (k < fuel)%nat -> (k < length (dec_digits fuel n))%nat) as Hlow.
  { induction fuel as [|fuel IH]; intros k n Hkn Hkf; [lia|]. simpl. rewrite length_app. simpl.
    destruct k as [|k]; [lia|]. rewrite Nat2Z.inj_succ, Z.pow_succ_r in Hkn by lia.
    pose proof (Z.pow_pos_nonneg 10 (Z.of_nat k)). destruct (Z.ltb_spec n 10); [lia|].
    assert (k < length (dec_digits fuel (n / 10)))%nat; [|lia]. apply IH; [|lia].
    apply Z.div_le_lower_bound; lia. }
  unfold c_dec. rewrite !length_app.
  pose proof (Hlow 10%nat 7%nat (Z.abs (qr_hostgroup_id e)) ltac:(simpl; lia) ltac:(lia)).
  pose proof (Hlow 10%nat 4%nat (Z.abs (mysql_server_port e)) ltac:(simpl; lia) ltac:(lia)). lia.
Qed.

Lemma qr_key_overflow_witness :
  generate_qr_hash_entry_key (sample_stats <| qr_hostgroup_id := 10000000 |> <| mysql_server_port := 33060 |>) = None.
Proof. apply qr_key_overflow; [exact sample_stats_nul|simpl; lia|simpl; lia]. Defined.

(** A run of finished queries, each with the time at which it ended. *)
Fixpoint record_all (ht : qr_hash_t) (qs : list (Z * qr_hash_entry)) : option qr_hash_t :=
  match qs with
  | [] => Some ht
  | (now, e) :: qs => ht ← query_statistics_set now ht e; record_all ht qs
  end.

Definition well_formed_stats (e : qr_hash_entry) : Prop :=
  no_nul_entry e /\ -1000000 < qr_hostgroup_id e < 10000000 /\ 0 <= mysql_server_port e < 65536.

(** The count of a key after a run, from its count before. *)
Lemma record_all_count qs : forall ht k,
  Forall (fun q => well_formed_stats q.2) qs ->
  exists ht', record_all ht qs = Some ht' /\
    match c_hash ht' !! k with
    | Some e => u32 (exec_cnt e) =
        u32 (default 0 (exec_cnt <$> (c_hash ht !! k)) + Z.of_nat (length (filter (fun q => qr_key_string q.2 = k) qs)))
    | None => c_hash ht !! k = None /\ filter (fun q => qr_key_string q.2 = k) qs = []
    end.
Proof.
  induction qs as [|[now e] qs IH]; intros ht k Hq; cbn [record_all].
  { exists ht. split; [done|]. simpl. destruct (c_hash ht !! k); [simpl; f_equal; lia|done]. }
  apply Forall_cons in Hq as [(Hn & Hh & Hp) Hq]. unfold query_statistics_set.
  assert (generate_qr_hash_entry_key e = Some (e <| qr_key := qr_key_string e |>)) as ->.
  { rewrite generate_key_iff by done. rewrite decide_True; [done|].
    pose proof (c_dec_length (qr_hostgroup_id e) 7). pose proof (c_dec_length (mysql_server_port e) 5). simpl in *. lia. }
  rewrite bind_Some. cbn [qr_key upd qr_eta]. rewrite bind_Some.
  set (ht1 := match c_hash ht !! qr_key_string e with None => _ | Some _ => _ end).
  destruct (IH ht1 k Hq) as (ht' & -> & Hres). exists ht'. split; [done|]. rewrite filter_cons. simpl.
  assert (c_hash ht1 !! k = if decide (qr_key_string e = k) then
      Some (match c_hash ht !! k with
            | None => e <| qr_key := qr_key_string e |> <| exec_cnt := 1 |> <| query_time := i64 (now - query_time e) |>
            | Some x => x <| exec_cnt := u32 (exec_cnt x + 1) |>
                          <| query_time := i64 (query_time x + i64 (now - query_time e)) |> end)
    else c_hash ht !! k) as Hk1.
  { unfold ht1. case_decide as Hd.
    - subst k. destruct (c_hash ht !! qr_key_string e); simpl; by rewrite lookup_insert_eq.
    - destruct (c_hash ht !! qr_key_string e); simpl; by rewrite lookup_insert_ne. }
  rewrite Hk1 in Hres. case_decide as Hd; [|exact Hres].
  destruct (c_hash ht' !! k) as [x|]; [|by destruct Hres].
  rewrite Hres. destruct (c_hash ht !! k) as [y|]; simpl; unfold uwrap.
  - rewrite Zplus_mod_idemp_l. f_equal. lia.
  - f_equal. lia.
Qed.

(** Query statistics count: after any run of finished queries the entry of a key
    counts exactly the queries with that key (modulo 2^32, the width of the
    counter), and a key nobody used has no entry. *)
Theorem query_statistics_count qs k :
  Forall (fun q => well_formed_stats q.2) qs ->
  exists ht, record_all (mkQrHash ∅ ∅) qs = Some ht /\
    match c_hash ht !! k with
    | Some e => u32 (exec_cnt e) = u32 (Z.of_nat (length (filter (fun q => qr_key_string q.2 = k) qs)))
    | None => filter (fun q => qr_key_string q.2 = k) qs = []
    end.
Proof.
  intros Hq. destruct (record_all_count qs (mkQrHash ∅ ∅) k Hq) as (ht & Hr & Hres).
  exists ht. split; [done|]. destruct (c_hash ht !! k); [|by destruct Hres]. rewrite Hres.
  cbn [c_hash]. by rewrite lookup_empty.
Qed.

Lemma query_statistics_count_witness :
  exists ht, record_all (mkQrHash ∅ ∅) [(150, sample_stats); (170, sample_stats)] = Some ht.
Proof.
  destruct (query_statistics_count [(150, sample_stats); (170, sample_stats)] (qr_key_string sample_stats)) as (ht & H & _).
  - repeat (constructor; [split; [exact sample_stats_nul|simpl; lia]|]). constructor.
  - exists ht. exact H.
Defined.
