(* ===== verification/Routing.v ===== *)
(** * Routing: query rules, default host groups, servers and backends
    (src/mysql_handler.c and the default-hostgroup functions of src/mysql_session.c)

    A query is matched against the query rules, which may rewrite it, give it a
    time to live in the query cache and send it to a host group; a query no
    rule sends anywhere goes to the default host group of its session.  A server is
    picked at random from its host group.

    GLib's regular expressions are arguments: [rmatch] and [rreplace] (whose
    [None] is an error of [g_regex_replace]). *)
From S2P Require Import Prelude Protocol DataStream Tokenizer.
Open Scope Z_scope.

(** ** Default host groups *)

Module DefHG.

(** [schemaname] of an entry may be uninitialised memory. *)
Record default_hostgroup_t := mkDHG {
  username : option (list byte); schemaname : option (list byte); hostgroup_id : Z }.

Record global_default_hostgroups_t := mkGDH { version : Z; default_hostgroups : list default_hostgroup_t }.

Definition glo_DefHG_init : global_default_hostgroups_t := mkGDH 0 [].

(** Both assignments go to [username]; [junk] is what [g_slice_alloc] left in [schemaname]. *)
Definition add_defHG (junk : option (list byte)) (g : global_default_hostgroups_t)
    (user schema : option (list byte)) (hg : Z) : global_default_hostgroups_t :=
  let dhg := mkDHG user junk hg in
  let dhg := mkDHG schema (schemaname dhg) (hostgroup_id dhg) in
  mkGDH (version g) (default_hostgroups g ++ [dhg]).

(** The entries in the order they are freed, and the emptied array. *)
Definition delete_all (g : global_default_hostgroups_t) : list default_hostgroup_t * global_default_hostgroups_t :=
  let '(freed, rest) := g_drain (length (default_hostgroups g)) (default_hostgroups g) in
  (freed, mkGDH (version g) rest).

(** [g_strcmp0(a,b)==0]. *)
Definition g_strcmp0_eq (a b : option (list byte)) : bool :=
  match a, b with
  | Some a, Some b => strcmp a b =? 0
  | None, None => true
  | _, _ => false
  end.

Fixpoint first_match (p : default_hostgroup_t -> bool) (l : list default_hostgroup_t) : option Z :=
  match l with
  | [] => None
  | d :: l' => if p d then Some (hostgroup_id d) else first_match p l'
  end.

Definition perfect (user schema : option (list byte)) (d : default_hostgroup_t) : bool :=
  g_strcmp0_eq user (username d) && g_strcmp0_eq schema (schemaname d).
Definition schema_only (schema : option (list byte)) (d : default_hostgroup_t) : bool :=
  bool_decide (username d = None) && bool_decide (is_Some (schemaname d)) && g_strcmp0_eq schema (schemaname d).
Definition user_only (user : option (list byte)) (d : default_hostgroup_t) : bool :=
  bool_decide (schemaname d = None) && bool_decide (is_Some (username d)) && g_strcmp0_eq user (username d).

Definition find_defHG (g : global_default_hostgroups_t) (user schema : option (list byte)) : Z :=
  match first_match (perfect user schema) (default_hostgroups g) with
  | Some h => h
  | None =>
      match first_match (schema_only schema) (default_hostgroups g) with
      | Some h => h
      | None => default 0 (first_match (user_only user) (default_hostgroups g))
      end
  end.

End DefHG.

(** ** Query rules *)

Record query_rule_t := mkRule {
  rule_id : Z; flagIN : Z; rusername : option (list byte); rschemaname : option (list byte);
  match_pattern : list byte; negate_match_pattern : Z; rflagOUT : Z; replace_pattern : option (list byte);
  rdestination_hostgroup : Z; raudit_log : Z; rperformance_log : Z; rcache_tag : Z; rinvalidate_cache_tag : Z;
  rinvalidate_cache_pattern : option (list byte); rcache_ttl : Z; hits : Z }.
#[export] Instance rule_eta : Eta query_rule_t := fun r =>
  mkRule (rule_id r) (flagIN r) (rusername r) (rschemaname r) (match_pattern r) (negate_match_pattern r) (rflagOUT r)
    (replace_pattern r) (rdestination_hostgroup r) (raudit_log r) (rperformance_log r) (rcache_tag r) (rinvalidate_cache_tag r)
    (rinvalidate_cache_pattern r) (rcache_ttl r) (hits r).

(** [gloQR.query_rules] is [None] (NULL) before the first call, which allocates the
    array; afterwards the rules are freed one by one. *)
Definition reset_query_rules (rules : option (list query_rule_t)) : list query_rule_t * option (list query_rule_t) :=
  match rules with
  | None => ([], Some [])
  | Some l => let '(freed, rest) := g_drain (length l) l in (freed, Some rest)
  end.

Definition init_gloQR : option (list query_rule_t) := snd (reset_query_rules None).

(** [query_stats]: not allocated, allocated, or freed (a dangling pointer). *)
Inductive stats_ptr := SNull | SAlloc (e : qr_hash_entry) | SFreed.

Record query_metadata := mkQM {
  qp : option pkt; query_checksum : option (list byte); flagOUT : Z; rewritten : Z; cache_ttl : Z; destination_hostgroup : Z;
  audit_log : Z; performance_log : Z; query_cache_hit : Z; query : list byte; query_stats : stats_ptr }.
#[export] Instance qm_eta : Eta query_metadata := fun q =>
  mkQM (qp q) (query_checksum q) (flagOUT q) (rewritten q) (cache_ttl q) (destination_hostgroup q) (audit_log q)
    (performance_log q) (query_cache_hit q) (query q) (query_stats q).

(** The routing part of a session. *)
Record route := mkRoute {
  user : list byte; schema : list byte; query_info : query_metadata;
  default_hostgroup : Z; default_hostgroup_version : Z }.
#[export] Instance route_eta : Eta route := fun r =>
  mkRoute (user r) (schema r) (query_info r) (default_hostgroup r) (default_hostgroup_version r).

(** [p->data+sizeof(mysql_hdr)+1], [p->length-sizeof(mysql_hdr)-1]. *)
Definition query_of (p : pkt) : option (list byte) := mem_read 5 (length_of p - 5) (data p).

(** [None]: the statistics of the previous query are freed a second time, or the packet is too short. *)
Definition init_query_metadata (junk : nat -> byte) (md5 : list byte -> list byte) (statistics : bool) (now : Z)
    (p : option pkt) (s : route) : option route :=
  let q := query_info s in
  st ← (match query_stats q with
        | SNull => Some SNull
        | SAlloc _ => Some SFreed
        | SFreed => None
        end);
  let q := q <| qp := p |> <| query_checksum := None |> <| flagOUT := 0 |> <| rewritten := 0 |> <| cache_ttl := 0 |>
             <| destination_hostgroup := -1 |> <| audit_log := 0 |> <| performance_log := 0 |>
             <| query_cache_hit := 0 |> <| query_stats := st |> in
  match p with
  | Some p =>
      text ← query_of p;
      let q := q <| query := text |> in
      if (statistics : bool) then
        digest ← mysql_query_digest junk text (length text);
        Some (s <| query_info := q <| query_stats :=
          SAlloc (mkQr [] 0 digest (str2md5 md5 digest) 0 (user s) (schema s) None now 0) |> |>)
      else Some (s <| query_info := q |>)
  | None => Some (s <| query_info := q <| query := [] |> |>)
  end.

Section Rules.
Context (rmatch : query_rule_t -> list byte -> bool)
        (rreplace : query_rule_t -> list byte -> option (list byte)) (junk : nat -> byte).

Definition rule_matches (s : route) (flag : Z) (qr : query_rule_t) : bool :=
  (flagIN qr =? flag) &&
  match rusername qr with Some u => strcmp u (user s) =? 0 | None => true end &&
  match rschemaname qr with Some d => strcmp d (schema s) =? 0 | None => true end &&
  (let rc := rmatch qr (query (query_info s)) in
   negb ((rc && (negate_match_pattern qr =? 1)) || (negb rc && (negate_match_pattern qr =? 0)))).

(** The rewriting of the query by a rule that matched: [inl] is the error of
    [g_regex_replace], on which the loop continues with the next rule. *)
Definition rule_rewrite (s : route) (qr : query_rule_t) : option (unit + route) :=
  match replace_pattern qr with
  | None => Some (inr s)
  | Some _ =>
      match rreplace qr (query (query_info s)) with
      | None => Some (inl ())
      | Some new_query =>
          p ← mysql_new_payload_select junk (new_query ++ [Byte.x00]) (-1);
          text ← query_of p;
          Some (inr (s <| query_info := (query_info s) <| rewritten := 1 |> <| query_checksum := None |>
                                          <| qp := Some p |> <| query := text |> |>))
      end
  end.

(** The assignments after the rewriting. *)
Definition rule_apply (s : route) (flag : Z) (qr : query_rule_t) : route * Z :=
  let q := query_info s in
  let '(q, flag) := if negb (rflagOUT qr =? 0) then (q <| flagOUT := rflagOUT qr |>, rflagOUT qr) else (q, flag) in
  let q := if negb (rcache_ttl qr =? 0) then q <| cache_ttl := rcache_ttl qr |> else q in
  let q := if 0 <=? rdestination_hostgroup qr then q <| destination_hostgroup := rdestination_hostgroup qr |> else q in
  let q := if raudit_log qr =? 1 then q <| audit_log := raudit_log qr |> else q in
  let q := if rperformance_log qr =? 1 then q <| performance_log := rperformance_log qr |> else q in
  (s <| query_info := q |>, flag).

(** The loop over the rules; the third component are the rules with their hit counters. *)
Fixpoint rule_loop (rules : list query_rule_t) (s : route) (flag : Z) : option (route * list query_rule_t) :=
  match rules with
  | [] => Some (s, [])
  | qr :: rest =>
      if negb (rule_matches s flag qr) then
        '(s, rest) ← rule_loop rest s flag; Some (s, qr :: rest)
      else
        let qr' := qr <| hits := u32 (hits qr + 1) |> in
        r ← rule_rewrite s qr;
        match r with
        | inl _ => '(s, rest) ← rule_loop rest s flag; Some (s, qr' :: rest)
        | inr s =>
            let '(s, flag) := rule_apply s flag qr in
            if negb (cache_ttl (query_info s) =? 0) then Some (s, qr' :: rest)
            else '(s, rest) ← rule_loop rest s flag; Some (s, qr' :: rest)
        end
  end.

(** [mysql_session_default_hostgroup]. *)
Definition mysql_session_default_hostgroup (g : DefHG.global_default_hostgroups_t) (s : route) : Z * route :=
  (0, s <| default_hostgroup_version := DefHG.version g |>
        <| default_hostgroup := DefHG.find_defHG g (Some (user s)) (Some (schema s)) |>).

(** The caching time after the loop. *)
Definition finish_cache_ttl (cache_enabled : bool) (default_ttl : Z) (s : route) : route :=
  let q := query_info s in
  let q := if cache_ttl q =? 0 then q <| cache_ttl := default_ttl |> else q in
  let q := if cache_ttl q =? -1 then q <| cache_ttl := 0 |> else q in
  let q := if negb cache_enabled then q <| cache_ttl := 0 |> else q in
  s <| query_info := q |>.

(** The destination when no rule gave one. *)
Definition finish_destination (g : DefHG.global_default_hostgroups_t) (s : route) : route :=
  if destination_hostgroup (query_info s) =? -1 then
    if (default_hostgroup s =? -1) || negb (default_hostgroup_version s =? DefHG.version g) then
      let '(hg, s) := mysql_session_default_hostgroup g s in
      s <| query_info := (query_info s) <| destination_hostgroup := hg |> |>
    else s <| query_info := (query_info s) <| destination_hostgroup := default_hostgroup s |> |>
  else s.

Definition process_query_rules (g : DefHG.global_default_hostgroups_t) (cache_enabled : bool) (default_ttl : Z)
    (rules : list query_rule_t) (s : route) : option (route * list query_rule_t) :=
  '(s, rules) ← rule_loop rules s 0;
  Some (finish_destination g (finish_cache_ttl cache_enabled default_ttl s), rules).

End Rules.

(** ** Servers and host groups *)

Inductive mysql_server_status := OFFLINE_HARD | OFFLINE_SOFT | SHUNNED | ONLINE.

Record mysql_server := mkServer {
  address : list byte; port : Z; read_only : Z; status : mysql_server_status; connections : Z; alive : Z }.

Record MSHGE := mkMSHGE {
  MSptr : mysql_server; connections_created : Z; connections_active : Z; sbytes_recv : Z; sbytes_sent : Z }.

Record global_mysql_servers := mkGMS { servers : list mysql_server; hostgroups : list (list MSHGE) }.

Definition find_server_ptr (g : global_mysql_servers) (addr : list byte) (p : Z) : option mysql_server :=
  List.find (fun ms => (port ms =? p) && (strcmp (address ms) addr =? 0)) (servers g).

Definition mysql_server_entry_create (addr : list byte) (p ro : Z) (st : mysql_server_status) : mysql_server :=
  mkServer addr p ro st 0 0.

Definition mysql_server_entry_add (g : global_mysql_servers) (ms : mysql_server) : global_mysql_servers :=
  mkGMS (servers g ++ [ms]) (hostgroups g).

(** [mysql_hostgroups] is the configured number of host groups; [None] is an index outside of the array. *)
Definition mysql_server_entry_add_hostgroup (mysql_hostgroups : Z) (g : global_mysql_servers) (ms : mysql_server)
    (hg : Z) : option global_mysql_servers :=
  if mysql_hostgroups <=? hg then Some g else
  if hg <? 0 then None else
  l ← hostgroups g !! Z.to_nat hg;
  Some (mkGMS (servers g) (<[Z.to_nat hg := l ++ [mkMSHGE ms 0 0 0 0]]> (hostgroups g))).

(** [rnd] is the result of [rand()]. *)
Definition mysql_server_random_entry_from_hostgroup (mysql_hostgroups : Z) (g : global_mysql_servers) (rnd hg : Z)
  : option (option (nat * MSHGE)) :=
  if mysql_hostgroups <=? hg then None (* assert *) else
  if hg <? 0 then None else
  l ← hostgroups g !! Z.to_nat hg;
  if decide (length l = 0%nat) then Some None else
  let i := Z.to_nat (rnd mod Z.of_nat (length l)) in
  e ← l !! i; Some (Some (i, e)).


(** * Properties *)

(** ** Default host groups: specification *)

Module DefHGSpec.
Import DefHG.

(** A NULL field of an entry stands for every value.  An entry with both
    fields is more specific than one with the schema only, which is more
    specific than one with the user only; an entry with neither is ignored. *)
Definition applies (u d : list byte) (e : default_hostgroup_t) : Prop :=
  (username e = None \/ username e = Some u) /\ (schemaname e = None \/ schemaname e = Some d).

Definition specificity (e : default_hostgroup_t) : nat :=
  match username e, schemaname e with
  | Some _, Some _ => 3
  | None, Some _ => 2
  | Some _, None => 1
  | None, None => 0
  end.

(** The first of the most specific entries that apply. *)
Definition chosen (u d : list byte) (l : list default_hostgroup_t) (i : nat) (e : default_hostgroup_t) : Prop :=
  l !! i = Some e /\ applies u d e /\ (0 < specificity e)%nat /\
  forall j e', l !! j = Some e' -> applies u d e' ->
    (specificity e' < specificity e)%nat \/ (specificity e' = specificity e /\ (i <= j)%nat).

Definition nul_free (o : option (list byte)) : Prop := match o with Some s => Byte.x00 ∉ s | None => True end.
Definition entries_ok (l : list default_hostgroup_t) : Prop :=
  forall e, e ∈ l -> nul_free (username e) /\ nul_free (schemaname e).

Lemma first_match_some p l h :
  first_match p l = Some h -> exists i e, l !! i = Some e /\ p e = true /\ hostgroup_id e = h /\
    forall j e', (j < i)%nat -> l !! j = Some e' -> p e' = false.
Proof.
  induction l as [|e l IH]; [done|]. simpl. destruct (p e) eqn:Hp.
  - intros [= <-]. exists 0%nat, e. repeat split; [done|]. intros; lia.
  - intros (i & e' & Hi & Hpe & Hh & Hmin)%IH. exists (S i), e'. repeat split; try done.
    intros [|j] e'' Hj Hl; [by injection Hl as <-|]. apply (Hmin j); [lia|done].
Qed.

Lemma first_match_none p l : first_match p l = None -> forall j e, l !! j = Some e -> p e = false.
Proof.
  induction l as [|e l IH]; [done|]. simpl. destruct (p e) eqn:Hp; [done|].
  intros Hn [|j] e' Hl; [by injection Hl as <-|]. by apply (IH Hn j).
Qed.

Lemma g_strcmp0_spec a o :
  Byte.x00 ∉ a -> nul_free o -> g_strcmp0_eq (Some a) o = bool_decide (o = Some a).
Proof.
  intros Ha Ho. destruct o as [b|]; simpl; [|done]. rewrite strcmp_eqb by done.
  apply bool_decide_ext. split; [by intros ->|]. by intros [= ->].
Qed.

(** What the three searches test is the specificity of an entry that applies. *)
Lemma searches_spec u d e :
  Byte.x00 ∉ u -> Byte.x00 ∉ d -> nul_free (username e) -> nul_free (schemaname e) ->
  (perfect (Some u) (Some d) e = true <-> applies u d e /\ specificity e = 3%nat) /\
  (schema_only (Some d) e = true <-> applies u d e /\ specificity e = 2%nat) /\
  (user_only (Some u) e = true <-> applies u d e /\ specificity e = 1%nat).
Proof.
  intros Hu Hd Heu Hes. unfold perfect, schema_only, user_only, applies, specificity.
  rewrite !g_strcmp0_spec by done. rewrite !andb_true_iff, !bool_decide_eq_true.
  destruct (username e), (schemaname e); unfold is_Some; naive_solver.
Qed.

(** A search for specificity [n], after the searches for more failed. *)
Definition search_for (u d : list byte) (l : list default_hostgroup_t) (p : default_hostgroup_t -> bool) (n : nat) : Prop :=
  forall j e, l !! j = Some e -> p e = true <-> applies u d e /\ specificity e = n.
Definition at_most (u d : list byte) (l : list default_hostgroup_t) (n : nat) : Prop :=
  forall j e, l !! j = Some e -> applies u d e -> (specificity e <= n)%nat.

Lemma search_found u d l p n h :
  search_for u d l p n -> at_most u d l n -> (0 < n)%nat -> first_match p l = Some h ->
  exists i e, chosen u d l i e /\ h = hostgroup_id e.
Proof.
  intros Hp Hmax Hn Hf. apply first_match_some in Hf as (i & e & Hi & Hpe & <- & Hmin).
  destruct (proj1 (Hp i e Hi) Hpe) as [Ha Hn']. exists i, e. split; [|done].
  repeat split; [done|by destruct Ha..|lia|]. intros j e' Hj Ha'.
  specialize (Hmax j e' Hj Ha'). destruct (decide (specificity e' = n)); [right|left; lia].
  split; [lia|]. destruct (decide (j < i)%nat) as [Hlt|]; [|lia].
  specialize (Hmin j e' Hlt Hj). assert (p e' = true) by by apply (Hp j). congruence.
Qed.

Lemma search_failed u d l p n :
  search_for u d l p (S n) -> at_most u d l (S n) -> first_match p l = None -> at_most u d l n.
Proof.
  intros Hp Hmax Hf j e Hj Ha. specialize (Hmax j e Hj Ha). pose proof (first_match_none _ _ Hf j e Hj) as Hno.
  destruct (decide (specificity e = S n)) as [E|]; [|lia].
  destruct (Hp j e Hj) as [_ H]. rewrite H in Hno by done. done.
Qed.

(** The default host group of a session is the one of the first of the most
    specific entries that apply to its user and schema, and 0 when none applies. *)
Theorem find_defHG_most_specific g u d :
  Byte.x00 ∉ u -> Byte.x00 ∉ d -> entries_ok (default_hostgroups g) ->
  (exists i e, chosen u d (default_hostgroups g) i e /\ find_defHG g (Some u) (Some d) = hostgroup_id e) \/
  (find_defHG g (Some u) (Some d) = 0 /\
   forall e, e ∈ default_hostgroups g -> applies u d e -> specificity e = 0%nat).
Proof.
  intros Hu Hd Hok. unfold find_defHG. set (l := default_hostgroups g) in *.
  assert (search_for u d l (perfect (Some u) (Some d)) 3 /\ search_for u d l (schema_only (Some d)) 2 /\
          search_for u d l (user_only (Some u)) 1) as (S3 & S2 & S1).
  { repeat split; intros; edestruct (searches_spec u d e) as (P3 & P2 & P1);
      try (eapply Hok, list_elem_of_lookup_2; eassumption); naive_solver. }
  assert (M3 : at_most u d l 3) by (intros j e _ _; unfold specificity; repeat case_match; lia).
  destruct (first_match (perfect _ _) l) eqn:E3; [left; refine (search_found _ _ _ _ 3 _ S3 M3 _ E3); lia|].
  pose proof (search_failed _ _ _ _ _ S3 M3 E3) as M2.
  destruct (first_match (schema_only _) l) eqn:E2; [left; refine (search_found _ _ _ _ 2 _ S2 M2 _ E2); lia|].
  pose proof (search_failed _ _ _ _ _ S2 M2 E2) as M1.
  destruct (first_match (user_only _) l) eqn:E1; [left; refine (search_found _ _ _ _ 1 _ S1 M1 _ E1); lia|].
  right. split; [done|]. intros e [j Hj]%list_elem_of_lookup_1 Ha.
  pose proof (search_failed _ _ _ _ _ S1 M1 E1 j e Hj Ha). lia.
Qed.

Definition sample_entries : global_default_hostgroups_t :=
  mkGDH 1 [mkDHG (Some (c_lit "bob")) None 4; mkDHG None (Some (c_lit "db")) 7;
           mkDHG None (Some (c_lit "db")) 8].

Lemma find_defHG_most_specific_witness :
  (exists i e, chosen (c_lit "bob") (c_lit "db") (default_hostgroups sample_entries) i e /\
     find_defHG sample_entries (Some (c_lit "bob")) (Some (c_lit "db")) = hostgroup_id e) /\
  find_defHG sample_entries (Some (c_lit "bob")) (Some (c_lit "db")) = 7.
Proof.
  split; [|reflexivity].
  destruct (find_defHG_most_specific sample_entries (c_lit "bob") (c_lit "db")) as [H|[H _]].
  - vm_compute; set_solver.
  - vm_compute; set_solver.
  - intros e He. unfold sample_entries in He. simpl in He.
    repeat (apply elem_of_cons in He as [->|He]; [simpl; split; vm_compute; set_solver|]). by apply elem_of_nil in He.
  - exact H.
  - exfalso. vm_compute in H. discriminate H.
Defined.

(** An entry that is added can not be found: both names are assigned to the
    field [username], so with the other field NULL the entry is one for the user
    whose name is the schema, and the user and the schema it was added for get host group 0. *)
Theorem add_defHG_not_found u d hg :
  Byte.x00 ∉ u -> Byte.x00 ∉ d -> u <> d ->
  find_defHG (add_defHG None glo_DefHG_init (Some u) (Some d) hg) (Some u) (Some d) = 0 /\
  (forall s, find_defHG (add_defHG None glo_DefHG_init (Some u) (Some d) hg) (Some d) s = hg).
Proof.
  intros Hu Hd Hne. unfold find_defHG, add_defHG, glo_DefHG_init, perfect, schema_only, user_only.
  cbn [default_hostgroups first_match username schemaname hostgroup_id app].
  rewrite !g_strcmp0_spec by done. cbn [username schemaname g_strcmp0_eq].
  assert (Some d <> Some u) as Hne' by (intros [= ->]; done). split.
  - rewrite (bool_decide_eq_false_2 _ Hne'). by rewrite !andb_false_r.
  - intros [s|]; rewrite (bool_decide_eq_true_2 (Some d = Some d)) by done; by simpl.
Qed.

Lemma add_defHG_not_found_witness :
  find_defHG (add_defHG None glo_DefHG_init (Some (c_lit "u")) (Some (c_lit "d")) 5) (Some (c_lit "u")) (Some (c_lit "d")) = 0.
Proof. apply (add_defHG_not_found (c_lit "u") (c_lit "d") 5); [vm_compute; set_solver..|done]. Defined.

(** Deleting frees every entry once and leaves none. *)
Lemma delete_all_frees g : fst (delete_all g) ≡ₚ default_hostgroups g /\ default_hostgroups (snd (delete_all g)) = [].
Proof.
  unfold delete_all. destruct (g_drain_perm (default_hostgroups g) (length (default_hostgroups g))) as (out & -> & Hp);
    [lia|done].
Qed.

End DefHGSpec.

(** ** Query rules: specification

    The declarative reading of the rules: which rules fire, in which order, and
    what they make of the text of the query. *)

Section RulesSpec.
Context (rmatch : query_rule_t -> list byte -> bool)
        (rreplace : query_rule_t -> list byte -> option (list byte)) (junk : nat -> byte).
Context (u d : list byte).

Definition rule_applies (flag : Z) (q : list byte) (qr : query_rule_t) : Prop :=
  flagIN qr = flag /\ (rusername qr = None \/ rusername qr = Some u) /\
  (rschemaname qr = None \/ rschemaname qr = Some d) /\
  ((rmatch qr q = true /\ negate_match_pattern qr <> 1) \/ (rmatch qr q = false /\ negate_match_pattern qr <> 0)).

(** The new text is taken as a C string. *)
Definition rewrites (qr : query_rule_t) (q q' : list byte) : Prop :=
  match replace_pattern qr with None => q' = q | Some _ => before_nul <$> rreplace qr q = Some q' end.

(** [fires flag q rules fired q']: starting with flag [flag] and text [q], the rules
    [fired] apply one after the other and leave the text [q']; the first of them with a
    caching time is the last. *)
Inductive fires : Z -> list byte -> list query_rule_t -> list query_rule_t -> list byte -> Prop :=
  | fires_nil flag q : fires flag q [] [] q
  | fires_skip flag q qr rules fired q' :
      ~ rule_applies flag q qr -> fires flag q rules fired q' -> fires flag q (qr :: rules) fired q'
  | fires_error flag q qr rules fired q' :
      rule_applies flag q qr -> is_Some (replace_pattern qr) -> rreplace qr q = None ->
      fires flag q rules fired q' -> fires flag q (qr :: rules) fired q'
  | fires_last flag q qr rules q' :
      rule_applies flag q qr -> rewrites qr q q' -> rcache_ttl qr <> 0 -> fires flag q (qr :: rules) [qr] q'
  | fires_more flag q qr rules q1 fired q' :
      rule_applies flag q qr -> rewrites qr q q1 -> rcache_ttl qr = 0 ->
      fires (if decide (rflagOUT qr = 0) then flag else rflagOUT qr) q1 rules fired q' ->
      fires flag q (qr :: rules) (qr :: fired) q'.

(** A text that a packet can carry: with the command byte it is shorter than 16 MB. *)
Definition fits (q : list byte) : Prop := Z.of_nat (length q) + 1 < 2 ^ 24.

(** [overflows flag q rules]: one of the rules makes a text that is too long for a packet. *)
Inductive overflows : Z -> list byte -> list query_rule_t -> Prop :=
  | overflows_skip flag q qr rules : ~ rule_applies flag q qr -> overflows flag q rules -> overflows flag q (qr :: rules)
  | overflows_error flag q qr rules :
      rule_applies flag q qr -> is_Some (replace_pattern qr) -> rreplace qr q = None ->
      overflows flag q rules -> overflows flag q (qr :: rules)
  | overflows_here flag q qr rules q' :
      rule_applies flag q qr -> is_Some (replace_pattern qr) -> rewrites qr q q' -> ~ fits q' -> overflows flag q (qr :: rules)
  | overflows_more flag q qr rules q1 :
      rule_applies flag q qr -> rewrites qr q q1 -> (is_Some (replace_pattern qr) -> fits q1) -> rcache_ttl qr = 0 ->
      overflows (if decide (rflagOUT qr = 0) then flag else rflagOUT qr) q1 rules -> overflows flag q (qr :: rules).

Definition rule_ok (qr : query_rule_t) : Prop :=
  DefHGSpec.nul_free (rusername qr) /\ DefHGSpec.nul_free (rschemaname qr).

Context (Hu : Byte.x00 ∉ u) (Hd : Byte.x00 ∉ d).

Lemma rule_matches_spec s flag qr :
  user s = u -> schema s = d -> rule_ok qr ->
  rule_matches rmatch s flag qr = true <-> rule_applies flag (query (query_info s)) qr.
Proof.
  intros <- <- [Hru Hrs]. unfold rule_matches, rule_applies.
  rewrite !andb_true_iff, Z.eqb_eq, negb_true_iff, orb_false_iff, !andb_false_iff, negb_false_iff, !Z.eqb_neq.
  assert (Hn : forall o x, Byte.x00 ∉ x -> DefHGSpec.nul_free o ->
    match o with Some y => strcmp y x =? 0 | None => true end = true <-> o = None \/ o = Some x).
  { intros [y|] x Hx Hy; [|naive_solver]. rewrite strcmp_eqb, bool_decide_eq_true by done. naive_solver. }
  rewrite !Hn by done. destruct (rmatch qr _); naive_solver.
Qed.

(** The packet the rules leave: the rewritten query is a COM_QUERY packet with its text. *)
Definition query_packet (q : list byte) : pkt := mkPkt (length (MYSQL_COM_QUERY :: q) + 4) (frame 0 (MYSQL_COM_QUERY :: q)).

Lemma new_payload_select_frame q :
  fits (before_nul q) -> mysql_new_payload_select junk (q ++ [Byte.x00]) (-1) = Some (query_packet (before_nul q)).
Proof.
  unfold fits. intros Hl. unfold mysql_new_payload_select. rewrite Z.eqb_refl, strlen_before_nul, bind_Some.
  assert (mem_read 0 (length (before_nul q)) (q ++ [Byte.x00]) = Some (before_nul q)) as ->.
  { unfold mem_read. rewrite decide_True by (pose proof (length_before_nul q); px_len). rewrite drop_0. by rewrite take_before_nul. }
  set (q' := before_nul q) in *.
  rewrite bind_Some. pose proof (build_frame (block junk) (Z.of_nat (length q') + 1) 0 [[MYSQL_COM_QUERY]; q']) as Hb.
  cbn [fmap list_fmap] in Hb. rewrite Hb; [|apply length_block|..].
  - by rewrite mjoin_cons, mjoin_cons, mjoin_nil, app_nil_r.
  - rewrite mjoin_cons, mjoin_cons, mjoin_nil, app_nil_r. px_len.
  - lia.
Qed.

(** A longer text is written past the end of the block, whose size is that of the 24 bits of the header. *)
Lemma new_payload_select_overflow q :
  ~ fits (before_nul q) -> mysql_new_payload_select junk (q ++ [Byte.x00]) (-1) = None.
Proof.
  unfold fits. intros Hl. unfold mysql_new_payload_select. rewrite Z.eqb_refl, strlen_before_nul, bind_Some.
  destruct (mem_read 0 _ _) as [p|] eqn:Hp; [|done]. rewrite bind_Some. unfold mem_read in Hp. case_decide; [|done].
  apply (inj Some) in Hp. rewrite drop_0, take_before_nul in Hp. subst p. unfold build.
  rewrite writes_overflow; [done|..|set_solver]; rewrite length_block; [|unfold sizeof_mysql_hdr; lia].
  cbn [wsize length]. unfold hdr_bytes, sizeof_mysql_hdr. rewrite length_app, !length_le_split.
  pose proof (uwrap_range 24 (Z.of_nat (length (before_nul q)) + 1)). lia.
Qed.

Lemma query_of_packet q : query_of (query_packet q) = Some q.
Proof.
  unfold query_of, query_packet, frame. cbn [length_of data].
  replace (length (MYSQL_COM_QUERY :: q) + 4 - 5)%nat with (length q) by (simpl; lia).
  set (h := hdr_bytes _). pose proof (mem_read_app (h ++ [MYSQL_COM_QUERY]) q [] 5 (length q)) as H.
  rewrite app_nil_r, <- app_assoc in H. apply H; [|done]. unfold h, hdr_bytes. px_len.
Qed.

(** The session after the rules [fired] left the text [q']. *)
Definition rules_outcome (s s' : route) (fired : list query_rule_t) (q' : list byte) : Prop :=
  let a := query_info s in let b := query_info s' in
  user s' = user s /\ schema s' = schema s /\ default_hostgroup s' = default_hostgroup s /\
  default_hostgroup_version s' = default_hostgroup_version s /\ query b = q' /\
  destination_hostgroup b = default (destination_hostgroup a)
    (last (filter (fun h => 0 <= h) (rdestination_hostgroup <$> fired))) /\
  cache_ttl b = default (cache_ttl a) (last (filter (fun t => t <> 0) (rcache_ttl <$> fired))) /\
  (qp b = qp a /\ query b = query a /\ rewritten b = rewritten a \/ qp b = Some (query_packet q') /\ rewritten b = 1).

(** The rules with the hit counters of those that matched incremented. *)
Definition bumped (r r' : query_rule_t) : Prop := r' = r \/ r' = r <| hits := u32 (hits r + 1) |>.

Lemma last_cons_default {A} (x : A) l y : default y (last (x :: l)) = default x (last l).
Proof. destruct l as [|z l]; [done|]. change (last (x :: z :: l)) with (last (z :: l)). by destruct (last (z :: l)) eqn:E; [|apply last_None in E]. Qed.

Lemma rule_apply_fields s flag qr :
  let s' := fst (rule_apply s flag qr) in let a := query_info s in let b := query_info s' in
  user s' = user s /\ schema s' = schema s /\ default_hostgroup s' = default_hostgroup s /\
  default_hostgroup_version s' = default_hostgroup_version s /\ qp b = qp a /\ query b = query a /\
  rewritten b = rewritten a /\
  destination_hostgroup b = (if decide (0 <= rdestination_hostgroup qr) then rdestination_hostgroup qr
                             else destination_hostgroup a) /\
  cache_ttl b = (if decide (rcache_ttl qr <> 0) then rcache_ttl qr else cache_ttl a) /\
  snd (rule_apply s flag qr) = (if decide (rflagOUT qr = 0) then flag else rflagOUT qr).
Proof.
  unfold rule_apply.
  destruct (Z.eqb_spec (rflagOUT qr) 0), (Z.eqb_spec (rcache_ttl qr) 0), (Z.leb_spec 0 (rdestination_hostgroup qr)),
    (raudit_log qr =? 1), (rperformance_log qr =? 1); cbn; repeat split; by repeat case_decide; try lia.
Qed.

Lemma rules_outcome_trans s s1 s2 qr fired q1 q2 :
  rules_outcome s s1 [qr] q1 -> rules_outcome s1 s2 fired q2 -> rules_outcome s s2 (qr :: fired) q2.
Proof.
  unfold rules_outcome. intros (U1 & D1 & G1 & V1 & Q1 & H1 & T1 & P1) (U2 & D2 & G2 & V2 & Q2 & H2 & T2 & P2).
  cbv zeta in *. split_and!; try congruence.
  - rewrite H2, H1. rewrite !fmap_cons, !filter_cons.
    case_decide; [by rewrite !last_cons_default|done].
  - rewrite T2, T1. rewrite !fmap_cons, !filter_cons.
    case_decide; [by rewrite !last_cons_default|done].
  - destruct P2 as [(?&?&?)|[??]]; [|by right]. destruct P1 as [(?&?&?)|[??]]; [left|right]; split_and?; congruence.
Qed.

(** A rule that applies, with a rewriting that is not an error and fits a packet, takes one step. *)
Lemma rule_step s qr flag q1 :
  rewrites qr (query (query_info s)) q1 -> (is_Some (replace_pattern qr) -> fits q1) ->
  exists s1, rule_rewrite rreplace junk s qr = Some (inr s1) /\
    rules_outcome s (fst (rule_apply s1 flag qr)) [qr] q1.
Proof.
  unfold rewrites. intros Hq Hfit.
  assert (exists s1, rule_rewrite rreplace junk s qr = Some (inr s1) /\ rules_outcome s s1 [] q1) as (s1 & Hr & Ho).
  { unfold rule_rewrite. destruct (replace_pattern qr).
    - apply fmap_Some in Hq as (r & Hq & ->). rewrite Hq, new_payload_select_frame by (by apply Hfit).
      rewrite bind_Some, query_of_packet, bind_Some. eexists; split; [done|]. unfold rules_outcome. cbn. tauto.
    - subst q1. exists s. split; [done|]. unfold rules_outcome. cbn. tauto. }
  exists s1. split; [exact Hr|]. destruct (rule_apply_fields s1 flag qr) as (E1&E2&E3&E4&E5&E6&E7&E8&E9&_).
  revert Ho. unfold rules_outcome. cbv zeta. rewrite E1, E2, E3, E4, E5, E6, E7, E8, E9.
  intros (U & D & G & V & Q & H & T & P).
  split_and!; try done; rewrite fmap_cons, filter_cons; repeat case_decide; try done; by rewrite ?last_cons_default.
Qed.

(** What a rule that applies makes of the text. *)
Lemma rewrites_cases qr q :
  is_Some (replace_pattern qr) /\ rreplace qr q = None \/
  exists q1, rewrites qr q q1 /\ (is_Some (replace_pattern qr) /\ ~ fits q1 \/ (is_Some (replace_pattern qr) -> fits q1)).
Proof.
  unfold rewrites. destruct (replace_pattern qr) as [rp|]; [|right; exists q; split; [done|right; by intros []]].
  destruct (rreplace qr q) as [r|]; [right|by left; split]. exists (before_nul r). split; [done|].
  destruct (decide (Z.of_nat (length (before_nul r)) + 1 < 2 ^ 24)); [by right|left; by split].
Qed.

Lemma rule_loop_cases rules : forall s flag,
  user s = u -> schema s = d -> Forall rule_ok rules -> cache_ttl (query_info s) = 0 ->
  rule_loop rmatch rreplace junk rules s flag = None /\ overflows flag (query (query_info s)) rules \/
  exists s' rules' fired q', rule_loop rmatch rreplace junk rules s flag = Some (s', rules') /\
    Forall2 bumped rules rules' /\ fires flag (query (query_info s)) rules fired q' /\ rules_outcome s s' fired q'.
Proof.
  induction rules as [|qr rules IH]; intros s flag Eu Ed Hok Ht.
  { right. exists s, [], [], (query (query_info s)). split_and!; [done|constructor..|]. unfold rules_outcome. split_and!; auto. }
  apply Forall_cons in Hok as [Hqr Hok]. cbn [rule_loop].
  assert (Hrefl : Forall2 bumped rules rules) by (apply Forall_Forall2_diag, Forall_forall; by left).
  destruct (rule_matches rmatch s flag qr) eqn:Hm; cbn [negb].
  2:{ assert (~ rule_applies flag (query (query_info s)) qr) as Hna by (rewrite <- rule_matches_spec by done; by rewrite Hm).
      destruct (IH s flag) as [[-> Ho]|(s' & rules' & fired & q' & -> & Hb & Hf & Ho)]; [done..|left|right].
      - split; [done|by apply overflows_skip].
      - rewrite bind_Some. eexists _, _, fired, q'. split_and!; [done|constructor; [by left|done]|by apply fires_skip|done]. }
  apply rule_matches_spec in Hm; [|done..].
  destruct (rewrites_cases qr (query (query_info s))) as [[Hs Hn]|(q1 & Hq1 & [[Hs Hbig]|Hfit])].
  - unfold rule_rewrite. pose proof Hs as [rp Hrp]. rewrite Hrp, Hn, bind_Some.
    destruct (IH s flag) as [[-> Ho]|(s' & rules' & fired & q' & -> & Hb & Hf & Ho)]; [done..|left|right].
    + split; [done|by apply overflows_error].
    + rewrite bind_Some. eexists _, _, fired, q'. split_and!; [done|constructor; [by right|done]|by apply fires_error|done].
  - left. split; [|by eapply overflows_here]. unfold rule_rewrite, rewrites in *. destruct Hs as [rp Hrp]. rewrite Hrp in *.
    apply fmap_Some in Hq1 as (r & Hq1 & ->). by rewrite Hq1, new_payload_select_overflow.
  - destruct (rule_step s qr flag q1 Hq1 Hfit) as (s1 & -> & Ho1). rewrite bind_Some.
    destruct (rule_apply_fields s1 flag qr) as (_&_&_&_&_&_&_&_&_&Hfl).
    destruct (rule_apply s1 flag qr) as [s2 flag2]. cbn [fst snd] in *.
    pose proof Ho1 as (U & D & _ & _ & Q & _ & T & _). rewrite fmap_cons, filter_cons, Ht in T.
    destruct (decide (rcache_ttl qr <> 0)) as [Hz|Hz]; cbn in T; rewrite T.
    + apply Z.eqb_neq in Hz as Hz'. rewrite Hz'. right. eexists _, _, [qr], q1.
      split_and!; [done|constructor; [by right|done]|by apply fires_last|done].
    + cbn [negb Z.eqb]. destruct (IH s2 flag2) as [[-> Ho]|(s' & rules' & fired & q' & -> & Hb & Hf & Ho)];
        [congruence..|done|done|left|right].
      * split; [done|]. apply overflows_more with q1; [done..|lia|]. by rewrite <- Hfl, <- Q.
      * rewrite bind_Some. eexists _, _, (qr :: fired), q'.
        split_and!; [done|constructor; [by right|done]| |by eapply rules_outcome_trans].
        apply fires_more with q1; [done|done|lia|]. by rewrite <- Hfl, <- Q.
Qed.

(** A text that is too long is written past the end of its block. *)
Lemma overflows_loop rules : forall s flag,
  user s = u -> schema s = d -> Forall rule_ok rules -> cache_ttl (query_info s) = 0 ->
  overflows flag (query (query_info s)) rules -> rule_loop rmatch rreplace junk rules s flag = None.
Proof.
  induction rules as [|qr rules IH]; intros s flag Eu Ed Hok Ht Ho; [by inversion Ho|].
  apply Forall_cons in Hok as [Hqr Hok]. cbn [rule_loop]. pose proof (rule_matches_spec s flag qr Eu Ed Hqr) as Hm.
  inversion Ho as [? ? ? ? Hn H|? ? ? ? Ha Hs Hn H|? ? ? ? q' Ha [rp Hs] Hr Hbig|? ? ? ? q1 Ha Hr Hfit Hz H]; subst.
  - destruct (rule_matches rmatch s flag qr); [by destruct Hn; apply Hm|]. cbn [negb]. by rewrite IH.
  - apply Hm in Ha as ->. cbn [negb]. destruct Hs as [rp Hs]. unfold rule_rewrite. rewrite Hs, Hn, bind_Some. by rewrite IH.
  - apply Hm in Ha as ->. cbn [negb]. unfold rule_rewrite, rewrites in *. rewrite Hs in *.
    apply fmap_Some in Hr as (r & Hr & ->). by rewrite Hr, new_payload_select_overflow.
  - apply Hm in Ha as ->. cbn [negb]. destruct (rule_step s qr flag q1 Hr Hfit) as (s1 & -> & Ho1). rewrite bind_Some.
    destruct (rule_apply_fields s1 flag qr) as (_&_&_&_&_&_&_&_&_&Hfl).
    destruct (rule_apply s1 flag qr) as [s2 flag2]. cbn [fst snd] in *.
    pose proof Ho1 as (U & D & _ & _ & Q & _ & T & _). rewrite fmap_cons, filter_cons, Ht, decide_False in T by lia. cbn in T. rewrite T.
    cbn [negb Z.eqb]. rewrite <- Hfl, <- Q in H. by rewrite IH by congruence.
Qed.

(** Where no text of a rule is too long, the loop ends. *)
Lemma rule_loop_spec (Hfit : forall qr q r, rreplace qr q = Some r -> fits (before_nul r)) rules : forall s flag,
  user s = u -> schema s = d -> Forall rule_ok rules -> cache_ttl (query_info s) = 0 ->
  exists s' rules' fired q', rule_loop rmatch rreplace junk rules s flag = Some (s', rules') /\
    Forall2 bumped rules rules' /\ fires flag (query (query_info s)) rules fired q' /\ rules_outcome s s' fired q'.
Proof.
  intros s flag Eu Ed Hok Ht. destruct (rule_loop_cases rules s flag Eu Ed Hok Ht) as [[_ Ho]|?]; [|done]. exfalso.
  revert Ho. generalize (query (query_info s)). clear s Eu Ed Hok Ht. intros q Ho.
  induction Ho as [| |flag q qr rules q' _ [rp Hrp] Hr Hbig|]; [done|done| |done].
  unfold rewrites in Hr. rewrite Hrp in Hr. apply fmap_Some in Hr as (r & Hr & ->). by apply Hbig, (Hfit _ _ _ Hr).
Qed.

End RulesSpec.

(** The time to live of a query whose rules gave [t] (0: none of them did). *)
Definition effective_ttl (cache_enabled : bool) (default_ttl t : Z) : Z :=
  let t := if decide (t = 0) then default_ttl else t in
  if cache_enabled then if decide (t = -1) then 0 else t else 0.

Lemma finish_cache_ttl_eq e t s :
  finish_cache_ttl e t s =
    s <| query_info := (query_info s) <| cache_ttl := effective_ttl e t (cache_ttl (query_info s)) |> |>.
Proof.
  destruct s as [? ? [] ? ?]. unfold finish_cache_ttl, effective_ttl. cbn.
  repeat match goal with |- context [?a =? ?b] => destruct (Z.eqb_spec a b) end; destruct e; cbn in *;
    repeat case_decide; by simplify_eq/=.
Qed.

Lemma finish_destination_eq g s :
  let s' := finish_destination g s in
  user s' = user s /\ schema s' = schema s /\ query (query_info s') = query (query_info s) /\
  qp (query_info s') = qp (query_info s) /\ cache_ttl (query_info s') = cache_ttl (query_info s) /\
  destination_hostgroup (query_info s') =
    if decide (destination_hostgroup (query_info s) = -1) then
      if decide (default_hostgroup s = -1 \/ default_hostgroup_version s <> DefHG.version g) then 0
      else default_hostgroup s
    else destination_hostgroup (query_info s).
Proof.
  destruct s as [? ? [] dh dv]. unfold finish_destination, mysql_session_default_hostgroup. cbn.
  repeat match goal with |- context [?a =? ?b] => destruct (Z.eqb_spec a b) end; cbn in *;
    repeat case_decide; split_and!; tauto.
Qed.

(** The rules never compute a checksum. *)
Lemma process_query_rules_checksum rmatch rreplace junk g e ttl rules s s' rules' :
  process_query_rules rmatch rreplace junk g e ttl rules s = Some (s', rules') -> query_checksum (query_info s) = None ->
  query_checksum (query_info s') = None.
Proof.
  assert (forall s flag qr, query_checksum (query_info (rule_apply s flag qr).1) = query_checksum (query_info s)) as Ha.
  { intros s0 flag qr. unfold rule_apply. by destruct (negb (rflagOUT qr =? 0)), (negb (rcache_ttl qr =? 0)), (0 <=? rdestination_hostgroup qr),
      (raudit_log qr =? 1), (rperformance_log qr =? 1). }
  assert (forall rules s flag s' rules', rule_loop rmatch rreplace junk rules s flag = Some (s', rules') ->
    query_checksum (query_info s) = None -> query_checksum (query_info s') = None) as Hloop.
  { clear s s' rules rules'. induction rules as [|qr rules IH]; intros s flag s' rules' H Hk; cbn [rule_loop] in H; [by injection H as <- _|].
    destruct (negb (rule_matches _ _ _ _)); [apply bind_inv in H as ([s1 l] & H1 & H); injection H as <- _; by eapply IH|].
    apply bind_inv in H as ([[]|s1] & H1 & H); [apply bind_inv in H as ([s2 l] & H2 & H); injection H as <- _; by eapply IH|].
    assert (query_checksum (query_info s1) = None) as E1.
    { unfold rule_rewrite in H1. destruct (replace_pattern qr); [|by injection H1 as <-]. destruct (rreplace qr _); [|done].
      do 2 px_run H1. by injection H1 as <-. }
    specialize (Ha s1 flag qr). destruct (rule_apply s1 flag qr) as [s2 flag2]. cbn [fst] in Ha. destruct (negb _); [injection H as <- _; congruence|].
    apply bind_inv in H as ([s3 l] & H3 & H). injection H as <- _. apply (IH _ _ _ _ H3). congruence. }
  unfold process_query_rules. intros H Hk. apply bind_inv in H as ([s1 l] & H1 & H). apply (inj Some) in H. injection H as <- _.
  apply Hloop in H1; [|done]. rewrite finish_cache_ttl_eq. unfold finish_destination, mysql_session_default_hostgroup.
  destruct (_ =? -1); [destruct (_ || _)|]; done.
Qed.


(** A session, two rules (the first rewrites, the second sends the new text to host
    group 3 and caches it) and a pattern language of literal texts. *)
Definition sample_route : route :=
  mkRoute (c_lit "app") (c_lit "db")
    (mkQM (Some (mkPkt 13 (frame 0 (MYSQL_COM_QUERY :: c_lit "SELECT 1")))) None 0 0 0 (-1) 0 0 0 (c_lit "SELECT 1") SNull) 9 2.
Definition sample_rules : list query_rule_t :=
  [mkRule 1 0 (Some (c_lit "app")) None (c_lit "SELECT 1") 0 5 (Some (c_lit "SELECT 2")) (-1) 0 0 0 0 None 0 0;
   mkRule 2 5 None None (c_lit "SELECT 2") 0 0 None 3 1 0 0 0 None 60 41;
   mkRule 3 5 None None (c_lit "SELECT 2") 0 0 None 8 1 0 0 0 None 0 0].
Definition sample_match (qr : query_rule_t) (q : list byte) : bool := bool_decide (match_pattern qr = q).
Definition sample_replace (qr : query_rule_t) (q : list byte) : option (list byte) :=
  if decide (rule_id qr = 1) then replace_pattern qr ≫= fun r => if decide (r = c_lit "SELECT 2") then Some r else None
  else None.


(** When the statistics are switched off while a session is open, its second query after that
    frees the statistics of the last measured query again: [query_stats] is not reset
    when its entry is freed. *)
Theorem init_query_metadata_double_free junk md5 now now' now'' p p' p'' st s s1 s2 :
  init_query_metadata junk md5 true now (Some p) s = Some s1 ->
  init_query_metadata junk md5 false now' (Some p') s1 = Some s2 ->
  init_query_metadata junk md5 st now'' p'' s2 = None.
Proof.
  unfold init_query_metadata. intros H1 H2.
  assert (exists e, query_stats (query_info s1) = SAlloc e) as [e He].
  { destruct (query_stats (query_info s)); simplify_eq/=; destruct (query_of p); simplify_eq/=;
      destruct (mysql_query_digest _ _ _); simplify_eq/=; by eexists. }
  rewrite He in H2. simplify_eq/=. destruct (query_of p'); simplify_eq/=. done.
Qed.

Lemma init_query_metadata_double_free_witness :
  exists s1 s2, init_query_metadata (fun _ => Byte.x00) id true 0 (qp (query_info sample_route)) sample_route = Some s1 /\
    init_query_metadata (fun _ => Byte.x00) id false 1 (qp (query_info sample_route)) s1 = Some s2 /\
    init_query_metadata (fun _ => Byte.x00) id false 2 (qp (query_info sample_route)) s2 = None.
Proof.
  assert (exists s1 s2, init_query_metadata (fun _ => Byte.x00) id true 0 (qp (query_info sample_route)) sample_route = Some s1 /\
    init_query_metadata (fun _ => Byte.x00) id false 1 (qp (query_info sample_route)) s1 = Some s2) as (s1 & s2 & H1 & H2).
  { eexists _, _. split; vm_compute; reflexivity. }
  exists s1, s2. split; [exact H1|split; [exact H2|]].
  exact (init_query_metadata_double_free _ id 0 1 2 _ _ _ false _ _ _ H1 H2).
Defined.

(** ** Servers *)

(** Every host group that is in use has its array. *)
Definition servers_ok (hgs : Z) (g : global_mysql_servers) : Prop := Z.of_nat (length (hostgroups g)) = hgs.

(** A server that is not yet known is found after it was added; a known one is found again. *)
Lemma find_server_after_add g ms :
  Byte.x00 ∉ address ms ->
  find_server_ptr (mysql_server_entry_add g ms) (address ms) (port ms) =
    Some (default ms (find_server_ptr g (address ms) (port ms))).
Proof.
  intros Hn. unfold find_server_ptr, mysql_server_entry_add. cbn [servers].
  induction (servers g) as [|m l IH]; cbn [app List.find].
  - by rewrite Z.eqb_refl, strcmp_eqb, bool_decide_eq_true_2.
  - destruct (_ && _); [done|]. exact IH.
Qed.

(** Adding a server to a configured host group makes it one that the random
    choice returns for a value of [rand()], every server returned is one of the group, every
    other group is untouched, and a group that is not configured is ignored. *)
Theorem hostgroup_add_random hgs g ms hg :
  servers_ok hgs g -> 0 <= hg ->
  exists g', mysql_server_entry_add_hostgroup hgs g ms hg = Some g' /\ servers_ok hgs g' /\
    (hgs <= hg -> g' = g) /\
    (hg < hgs ->
      (exists rnd i, mysql_server_random_entry_from_hostgroup hgs g' rnd hg = Some (Some (i, mkMSHGE ms 0 0 0 0))) /\
      (forall rnd, 0 <= rnd -> exists i e l, mysql_server_random_entry_from_hostgroup hgs g' rnd hg = Some (Some (i, e)) /\
         hostgroups g !! Z.to_nat hg = Some l /\ (e ∈ l \/ e = mkMSHGE ms 0 0 0 0)) /\
      (forall h, h <> hg -> 0 <= h -> hostgroups g' !! Z.to_nat h = hostgroups g !! Z.to_nat h)).
Proof.
  intros Hok Hhg. unfold mysql_server_entry_add_hostgroup, mysql_server_random_entry_from_hostgroup.
  destruct (Z.leb_spec hgs hg) as [Hge|Hlt]; [exists g; repeat split; [done..|lia|lia|lia]|].
  destruct (Z.ltb_spec hg 0) as [|_]; [lia|]. unfold servers_ok in *.
  destruct (lookup_lt_is_Some_2 (hostgroups g) (Z.to_nat hg)) as [l Hl]; [lia|]. rewrite Hl, bind_Some.
  eexists; split; [done|]. cbn [hostgroups]. rewrite length_insert. split_and!; [done|lia|]. intros _.
  assert (<[Z.to_nat hg:=l ++ [mkMSHGE ms 0 0 0 0]]> (hostgroups g) !! Z.to_nat hg = Some (l ++ [mkMSHGE ms 0 0 0 0])) as Hl'
    by (apply list_lookup_insert_eq; apply lookup_lt_Some in Hl; lia).
  split_and!.
  - exists (Z.of_nat (length l)), (length l). rewrite Hl', bind_Some, decide_False by px_len.
    rewrite Z.mod_small, Nat2Z.id by px_len. rewrite lookup_app_r, Nat.sub_diag by lia. done.
  - intros rnd Hr. rewrite Hl', bind_Some, decide_False by px_len. set (i := Z.to_nat _).
    assert (i < length (l ++ [mkMSHGE ms 0 0 0 0]))%nat as Hi.
    { unfold i. pose proof (Z.mod_pos_bound rnd (Z.of_nat (length (l ++ [mkMSHGE ms 0 0 0 0]))) ltac:(px_len)). lia. }
    apply lookup_lt_is_Some_2 in Hi as [e He]. rewrite He, bind_Some. exists i, e, l. split_and!; [done|done|].
    apply list_elem_of_lookup_2, elem_of_app in He as [?| ->%list_elem_of_singleton]; auto.
  - intros h Hne Hh. by rewrite list_lookup_insert_ne by lia.
Qed.

Lemma hostgroup_add_random_witness :
  exists g', mysql_server_entry_add_hostgroup 2 (mkGMS [] [[]; []]) (mysql_server_entry_create (c_lit "db1") 3306 0 ONLINE) 1 = Some g' /\
    mysql_server_random_entry_from_hostgroup 2 g' 7 0 = Some None /\ hostgroups g' !! 0%nat = Some [].
Proof.
  destruct (hostgroup_add_random 2 (mkGMS [] [[]; []]) (mysql_server_entry_create (c_lit "db1") 3306 0 ONLINE) 1)
    as (g' & H & _ & _ & H'); [reflexivity|lia|].
  destruct (H' ltac:(lia)) as (_ & _ & H0). exists g'. split; [exact H|]. split; [|exact (H0 0 ltac:(lia) ltac:(lia))].
  vm_compute in H. injection H as <-. reflexivity.
Defined.
