(* ===== verification/ConnPool.v ===== *)
(** * Connection pools: src/mysql_connpool.c

    Every thread has a pool of idle server connections ([__thr_myconnpool]), and
    there is one for the process ([gloconnpool]); both are arrays of
    [mysql_connpool]s, one per server, user, password, schema and port.  An array
    never loses an element, so that a [mysql_connpool *] is its index.  The clock of the
    pools is [tv] (microseconds); [wait_timeout] is [glovars.mysql_wait_timeout].

    [mysql_real_connect] is an argument ([connect]).  [None] is a NULL pointer
    given to [strcmp] or a pointer to a pool that does not exist. *)
From S2P Require Import Prelude.
Open Scope Z_scope.

(** What identifies a pool, and what the client library keeps of a connection. *)
Record conn_key := mkKey {
  k_host : list byte; k_user : option (list byte); k_passwd : option (list byte);
  k_db : option (list byte); k_port : Z }.
#[export] Instance conn_key_eq_decision : EqDecision conn_key.
Proof. solve_decision. Defined.

Record MYSQL := mkMYSQL { m_key : conn_key; net_fd : Z }.

Record mysql_cp_entry_t := mkCpe { conn : MYSQL; expire : Z; reusable : Z }.
#[export] Instance cpe_eta : Eta mysql_cp_entry_t := fun c => mkCpe (conn c) (expire c) (reusable c).

Record mysql_connpool := mkPool { pool_key : conn_key; free_conns : list mysql_cp_entry_t }.
#[export] Instance pool_eta : Eta mysql_connpool := fun p => mkPool (pool_key p) (free_conns p).

Record myConnPools := mkPools { connpools : list mysql_connpool; enabled : bool }.
#[export] Instance pools_eta : Eta myConnPools := fun p => mkPools (connpools p) (enabled p).

(** [closed] are the connections given to [mysql_close], in order. *)
Record pools_state := mkPS {
  thr_myconnpool : myConnPools; gloconnpool : myConnPools; tv : Z; wait_timeout : Z; closed : list mysql_cp_entry_t }.
#[export] Instance ps_eta : Eta pools_state := fun w =>
  mkPS (thr_myconnpool w) (gloconnpool w) (tv w) (wait_timeout w) (closed w).

Definition mysql_connpool_init (on : bool) : myConnPools := mkPools [] on.
Definition local_mysql_connpool_init (glo : myConnPools) : myConnPools := mkPools [] (enabled glo).

Definition cstr_eq (a b : option (list byte)) : option bool :=
  x ← a; y ← b; Some (strcmp x y =? 0).

(** The condition of [mysql_connpool_find], tested from left to right. *)
Definition pool_matches (k : conn_key) (db db' : list byte) (k' : conn_key) : option bool :=
  if negb (strcmp (k_host k) (k_host k') =? 0) then Some false else
  u ← cstr_eq (k_user k) (k_user k'); if negb u then Some false else
  p ← cstr_eq (k_passwd k) (k_passwd k'); if negb p then Some false else
  Some ((strcmp db db' =? 0) && (k_port k =? k_port k')).

Fixpoint find_from (l : nat) (pools : list mysql_connpool) (k : conn_key) : option (option nat) :=
  match pools with
  | [] => Some None
  | mcp :: rest =>
      match k_db k, k_db (pool_key mcp) with
      | Some db, Some db' =>
          m ← pool_matches k db db' (pool_key mcp);
          if (m : bool) then Some (Some l) else find_from (S l) rest k
      | _, _ => Some None
      end
  end.

Definition mysql_connpool_find (cp : myConnPools) (k : conn_key) : option (option nat) := find_from 0 (connpools cp) k.

Definition mysql_connpool_create (cp : myConnPools) (k : conn_key) : nat * myConnPools :=
  (length (connpools cp), cp <| connpools := connpools cp ++ [mkPool k []] |>).

Definition mysql_connpool_find_or_create (cp : myConnPools) (k : conn_key) : option (nat * myConnPools) :=
  r ← mysql_connpool_find cp k;
  Some (match r with Some l => (l, cp) | None => mysql_connpool_create cp k end).

(** A pool of the thread ([inl]) or of the process ([inr]). *)
Definition mysql_connpool_exists_global (w : pools_state) (k : conn_key) : option (option (nat + nat)) :=
  r ← mysql_connpool_find (thr_myconnpool w) k;
  match r with
  | Some l => Some (Some (inl l))
  | None =>
      r ← mysql_connpool_find (gloconnpool w) k;
      Some (match r with Some l => Some (inr l) | None => None end)
  end.

(** [while (mcp->free_conns->len)]: the connection found, the ones that are left, the ones closed. *)
Fixpoint take_free (fuel : nat) (now timeout : Z) (conns : list mysql_cp_entry_t)
  : option mysql_cp_entry_t * list mysql_cp_entry_t * list mysql_cp_entry_t :=
  match fuel, g_remove_first_fast conns with
  | S fuel', Some (mc, rest) =>
      if expire mc <=? now then
        let '(r, rest, dead) := take_free fuel' now timeout rest in (r, rest, mc :: dead)
      else (Some (mc <| expire := u64 (now + timeout) |>), rest, [])
  | _, _ => (None, conns, [])
  end.

(** The body of [if (cp->enabled==TRUE)] on one of the two arrays; the pool used is returned. *)
Definition get_from (now timeout : Z) (cp : myConnPools) (ref : option nat) (k : conn_key)
  : option (option mysql_cp_entry_t * nat * myConnPools * list mysql_cp_entry_t) :=
  '(l, cp) ← (match ref with Some l => Some (l, cp) | None => mysql_connpool_find_or_create cp k end);
  mcp ← connpools cp !! l;
  let '(r, rest, dead) := take_free (length (free_conns mcp)) now timeout (free_conns mcp) in
  Some (r, l, cp <| connpools := <[l := mcp <| free_conns := rest |>]> (connpools cp) |>, dead).

Definition create_new_mysql_connection (connect : conn_key -> option MYSQL) (w : pools_state) (k : conn_key)
  : option mysql_cp_entry_t :=
  match connect k with
  | None => None
  | Some c => Some (mkCpe c (u64 (tv w + wait_timeout w)) 1)
  end.

(** [mysql_connpool_get_connection] with [MYSQL_CONNPOOL_GLOBAL]. *)
Definition get_connection_global (k : conn_key) (w : pools_state) : option (option mysql_cp_entry_t * pools_state) :=
  if enabled (gloconnpool w) then
    '(r, _, cp, dead) ← get_from (tv w) (wait_timeout w) (gloconnpool w) None k;
    Some (r, w <| gloconnpool := cp |> <| closed := closed w ++ dead |>)
  else Some (None, w).

(** [mysql_connpool_get_connection] with [MYSQL_CONNPOOL_LOCAL]; [ref] is [*mcp_ref]. *)
Definition mysql_connpool_get_connection (connect : conn_key -> option MYSQL) (ref : option nat) (k : conn_key)
    (w : pools_state) : option (option mysql_cp_entry_t * option nat * pools_state) :=
  '(r, ref, w) ←
    (if enabled (thr_myconnpool w) then
       '(r, l, cp, dead) ← get_from (tv w) (wait_timeout w) (thr_myconnpool w) ref k;
       Some (r, Some l, w <| thr_myconnpool := cp |> <| closed := closed w ++ dead |>)
     else Some (None, ref, w));
  match r with
  | Some mycpe => Some (Some mycpe, ref, w)
  | None =>
      '(r, w) ← get_connection_global k w;
      match r with
      | Some mycpe => Some (Some mycpe, ref, w)
      | None => Some (create_new_mysql_connection connect w k, ref, w)
      end
  end.

Definition close_expired_mysql_connection (mc : mysql_cp_entry_t) (w : pools_state) : pools_state :=
  w <| closed := closed w ++ [mc] |>.

(** [mysql_connpool_detach_connection] with [MYSQL_CONNPOOL_LOCAL], as all its callers use
    it; [now] is the time [gettimeofday] answers. *)
Definition mysql_connpool_detach_connection (now : Z) (ref : option nat) (mc : mysql_cp_entry_t) (force_close : Z)
    (w : pools_state) : option pools_state :=
  if negb (enabled (thr_myconnpool w)) then Some (close_expired_mysql_connection mc w) else
  if reusable mc =? 0 then Some (close_expired_mysql_connection mc w) else
  if force_close =? 1 then Some (close_expired_mysql_connection mc w) else
  '(l, cp) ← (match ref with
              | None => mysql_connpool_find_or_create (thr_myconnpool w) (m_key (conn mc))
              | Some l => Some (l, thr_myconnpool w)
              end);
  let w := w <| thr_myconnpool := cp |> in
  if expire mc <=? now then Some (close_expired_mysql_connection mc w) else
  mcp ← connpools cp !! l;
  Some (w <| thr_myconnpool := cp <| connpools := <[l := mcp <| free_conns := free_conns mcp ++ [mc] |>]> (connpools cp) |> |>).

(** A turn of [mysql_connpool_purge_thread], which only sets the clock. *)
Definition mysql_connpool_purge_turn (now : Z) (w : pools_state) : pools_state :=
  if enabled (gloconnpool w) then w <| tv := now |> else w.

(** * Properties *)

(** ** Well-formed pools *)

Definition nul_free (o : option (list byte)) : Prop := match o with Some s => Byte.x00 ∉ s | None => True end.

(** A name that can be searched for. *)
Record key_ok (k : conn_key) : Prop := {
  ok_host : Byte.x00 ∉ k_host k;
  ok_user : exists u, k_user k = Some u /\ Byte.x00 ∉ u;
  ok_passwd : exists p, k_passwd k = Some p /\ Byte.x00 ∉ p;
  ok_db : nul_free (k_db k) }.

Definition pool_inv (mcp : mysql_connpool) : Prop :=
  key_ok (pool_key mcp) /\ forall c, c ∈ free_conns mcp -> m_key (conn c) = pool_key mcp.

Definition pools_inv (cp : myConnPools) : Prop := Forall pool_inv (connpools cp).
Definition state_inv (w : pools_state) : Prop := pools_inv (thr_myconnpool w) /\ pools_inv (gloconnpool w).

(** The connections at rest in a pool. *)
Definition idle (cp : myConnPools) : list mysql_cp_entry_t := mjoin (free_conns <$> connpools cp).
Definition idle_conns (w : pools_state) : list MYSQL := conn <$> (idle (thr_myconnpool w) ++ idle (gloconnpool w)).

Definition idle_at (cp : myConnPools) (l : nat) : Prop :=
  exists mcp, connpools cp !! l = Some mcp /\ free_conns mcp = [].

(** A remembered pool is the one of the key, or it has no connection. *)
Definition ref_ok (cp : myConnPools) (ref : option nat) (k : conn_key) : Prop :=
  match ref with
  | None => True
  | Some l => exists mcp, connpools cp !! l = Some mcp /\ (pool_key mcp = k \/ free_conns mcp = [])
  end.

(** ** Searching *)

Lemma cstr_eq_some a b : Byte.x00 ∉ a -> Byte.x00 ∉ b -> cstr_eq (Some a) (Some b) = Some (bool_decide (a = b)).
Proof. intros. unfold cstr_eq. rewrite !bind_Some. by rewrite strcmp_eqb. Qed.

Lemma pool_matches_spec k k' db db' :
  key_ok k -> key_ok k' -> k_db k = Some db -> k_db k' = Some db' ->
  pool_matches k db db' k' = Some (bool_decide (k = k')).
Proof.
  intros [Hh (u & Eu & Hu) (p & Ep & Hp) Hd] [Hh' (u' & Eu' & Hu') (p' & Ep' & Hp') Hd'] Ed Ed'.
  rewrite Ed in Hd. rewrite Ed' in Hd'. cbn [nul_free] in Hd, Hd'.
  unfold pool_matches. rewrite Eu, Eu', Ep, Ep', !cstr_eq_some, !bind_Some, !strcmp_eqb by done.
  assert (k = k' <-> k_host k = k_host k' /\ u = u' /\ p = p' /\ db = db' /\ k_port k = k_port k') as Hiff.
  { destruct k, k'; cbn in *; naive_solver. }
  rewrite (bool_decide_ext _ _ Hiff).
  destruct (bool_decide_reflect (k_host k = k_host k')), (bool_decide_reflect (u = u')), (bool_decide_reflect (p = p')),
    (bool_decide_reflect (db = db')), (Z.eqb_spec (k_port k) (k_port k')); cbn [negb andb]; f_equal; symmetry;
    first [apply bool_decide_eq_true_2; by split_and! | apply bool_decide_eq_false_2; tauto].
Qed.

Lemma find_from_spec pools : forall l k r, key_ok k -> Forall pool_inv pools -> find_from l pools k = r ->
  r = Some None \/ exists i mcp, r = Some (Some (l + i)%nat) /\ pools !! i = Some mcp /\ pool_key mcp = k.
Proof.
  induction pools as [|mcp pools IH]; intros l k r Hk Hinv Hr; simpl in Hr; [by left|].
  apply Forall_cons in Hinv as [[Hmk _] Hinv].
  destruct (k_db k) as [db|] eqn:Ed; [|by left]. destruct (k_db (pool_key mcp)) as [db'|] eqn:Ed'; [|by left].
  rewrite (pool_matches_spec k (pool_key mcp) db db'), bind_Some in Hr by done.
  case_bool_decide as He.
  - right. exists 0%nat, mcp. by rewrite Nat.add_0_r.
  - destruct (IH (S l) k r) as [->|(i & m & -> & Hi & Hm)]; [done..|by left|].
    right. exists (S i), m. split; [f_equal; f_equal; lia|done].
Qed.

Lemma find_or_create_spec cp k : key_ok k -> pools_inv cp ->
  exists l cp' mcp, mysql_connpool_find_or_create cp k = Some (l, cp') /\ pools_inv cp' /\
    connpools cp' !! l = Some mcp /\ pool_key mcp = k /\ idle cp' = idle cp /\ enabled cp' = enabled cp.
Proof.
  intros Hk Hinv. unfold mysql_connpool_find_or_create, mysql_connpool_find.
  destruct (find_from_spec (connpools cp) 0 k _ Hk Hinv eq_refl) as [->|(i & mcp & -> & Hi & He)]; rewrite bind_Some.
  - eexists _, _, (mkPool k []). split; [done|]. unfold pools_inv, idle. cbn. split_and!; try done.
    + apply Forall_app. split; [done|]. apply Forall_singleton. split; [done|]. by intros c ?%elem_of_nil.
    + rewrite lookup_app_r, Nat.sub_diag by lia. done.
    + by rewrite fmap_app, mjoin_app, app_nil_r.
  - exists i, cp, mcp. split_and!; done.
Qed.

(** ** Taking a connection out of a pool *)

Lemma take_free_spec now timeout fuel : forall conns, (length conns <= fuel)%nat ->
  exists r rest dead, take_free fuel now timeout conns = (r, rest, dead) /\ Forall (fun c => expire c <= now) dead /\
    match r with
    | Some c => exists mc, c = mc <| expire := u64 (now + timeout) |> /\ now < expire mc /\ conns ≡ₚ dead ++ mc :: rest
    | None => rest = [] /\ conns ≡ₚ dead
    end.
Proof.
  induction fuel as [|fuel IH]; intros conns Hl.
  - destruct conns; [|simpl in Hl; lia]. by exists None, [], [].
  - cbn [take_free]. destruct (g_remove_first_fast conns) as [[mc rest]|] eqn:E.
    + apply g_remove_first_fast_perm in E as Hp. destruct (Z.leb_spec (expire mc) now) as [Hle|Hgt].
      * destruct (IH rest) as (r & rest' & dead & -> & Hd & Hr);
          [apply Permutation_length in Hp; simpl in Hp; lia|].
        eexists r, rest', (mc :: dead). split_and!; [done|by constructor|]. destruct r as [c|].
        -- destruct Hr as (mc' & -> & Hg & Hperm). exists mc'. split_and!; [done..|]. by rewrite Hp, Hperm.
        -- destruct Hr as [-> Hperm]. split; [done|]. by rewrite Hp, Hperm.
      * eexists _, rest, []. split_and!; [done|by constructor|]. by exists mc.
    + destruct conns; [|done]. by exists None, [], [].
Qed.

Lemma idle_insert cp l mcp conns :
  connpools cp !! l = Some mcp ->
  exists others, idle cp ≡ₚ free_conns mcp ++ others /\
    idle (cp <| connpools := <[l := mcp <| free_conns := conns |>]> (connpools cp) |>) ≡ₚ conns ++ others.
Proof.
  intros Hl. unfold idle. cbn. exists (mjoin (free_conns <$> take l (connpools cp)) ++ mjoin (free_conns <$> drop (S l) (connpools cp))).
  apply lookup_lt_Some in Hl as Hlt. split.
  - rewrite <- (take_drop_middle _ _ _ Hl) at 1. rewrite fmap_app, fmap_cons, mjoin_app, mjoin_cons.
    by rewrite Permutation_app_swap_app.
  - rewrite insert_take_drop by done. rewrite fmap_app, fmap_cons, mjoin_app, mjoin_cons. cbn.
    by rewrite Permutation_app_swap_app.
Qed.

Lemma pools_inv_insert cp l mcp conns :
  pools_inv cp -> connpools cp !! l = Some mcp -> (forall c, c ∈ conns -> m_key (conn c) = pool_key mcp) ->
  pools_inv (cp <| connpools := <[l := mcp <| free_conns := conns |>]> (connpools cp) |>).
Proof.
  intros Hinv Hl Hc. unfold pools_inv. cbn. apply Forall_insert; [done|]. split; [|done].
  by destruct (Forall_lookup_1 _ _ _ _ Hinv Hl).
Qed.

(** What a search in one array gives. *)
Record got (cp : myConnPools) (k : conn_key) (now timeout : Z) (r : option mysql_cp_entry_t) (l : nat)
    (cp' : myConnPools) (dead : list mysql_cp_entry_t) : Prop := {
  got_inv : pools_inv cp';
  got_enabled : enabled cp' = enabled cp;
  got_dead : Forall (fun c => expire c <= now) dead;
  got_conns : conn <$> idle cp ≡ₚ (conn <$> dead) ++ (conn <$> option_list r) ++ (conn <$> idle cp');
  got_ok : forall c, r = Some c -> m_key (conn c) = k /\ expire c = u64 (now + timeout);
  got_none : r = None -> idle_at cp' l;
  got_ref : ref_ok cp' (Some l) k }.

Lemma get_from_spec now timeout cp ref k :
  key_ok k -> pools_inv cp -> ref_ok cp ref k ->
  exists r l cp' dead, get_from now timeout cp ref k = Some (r, l, cp', dead) /\ got cp k now timeout r l cp' dead.
Proof.
  intros Hk Hinv Href. unfold get_from.
  assert (exists l cp1 mcp, (match ref with Some l => Some (l, cp) | None => mysql_connpool_find_or_create cp k end) = Some (l, cp1) /\
    pools_inv cp1 /\ connpools cp1 !! l = Some mcp /\ (pool_key mcp = k \/ free_conns mcp = []) /\ idle cp1 = idle cp /\
    enabled cp1 = enabled cp) as (l & cp1 & mcp & -> & Hinv1 & Hl & Hm & Hidle & Hen).
  { destruct ref as [l|].
    - destruct Href as (mcp & Hl & Hm). by exists l, cp, mcp.
    - destruct (find_or_create_spec cp k Hk Hinv) as (l & cp' & mcp & ? & ? & ? & ? & ? & ?). exists l, cp', mcp. split_and!; auto. }
  rewrite bind_Some, Hl, bind_Some.
  destruct (take_free_spec now timeout _ (free_conns mcp) (Nat.le_refl _)) as (r & rest & dead & -> & Hd & Hr).
  eexists r, l, _, dead. split; [done|].
  destruct (idle_insert cp1 l mcp rest Hl) as (others & Hi1 & Hi2).
  destruct (Forall_lookup_1 _ _ _ _ Hinv1 Hl) as [_ Hkeys].
  assert (Hll : <[l:=mcp <| free_conns := rest |>]> (connpools cp1) !! l = Some (mcp <| free_conns := rest |>))
    by (apply list_lookup_insert_eq; by apply lookup_lt_Some in Hl).
  assert (Hsub : forall c, c ∈ rest -> c ∈ free_conns mcp).
  { intros c Hc. destruct r; [destruct Hr as (mc & _ & _ & Hp)|destruct Hr as [-> Hp]]; rewrite Hp; set_solver. }
  split; cbn.
  - apply pools_inv_insert; [done..|]. intros c Hc. by apply Hkeys, Hsub.
  - done.
  - done.
  - rewrite <- Hidle, Hi1, Hi2. destruct r as [c|]; cbn [option_list].
    + destruct Hr as (mc & -> & _ & Hp). rewrite Hp, !fmap_app, !fmap_cons, <- !app_assoc. done.
    + destruct Hr as [-> Hp]. by rewrite Hp, fmap_app.
  - intros c ->. destruct Hr as (mc & -> & _ & Hp). cbn. split; [|done].
    assert (mc ∈ free_conns mcp) as Hin by (rewrite Hp; set_solver). rewrite (Hkeys mc Hin).
    destruct Hm as [|Hm]; [done|]. rewrite Hm in Hin. set_solver.
  - intros ->. destruct Hr as [-> _]. unfold idle_at. by eexists.
  - eexists; split; [exact Hll|]. cbn. destruct Hm as [->|Hm]; [by left|right].
    destruct rest as [|c rest]; [done|]. specialize (Hsub c ltac:(left)). rewrite Hm in Hsub. set_solver.
Qed.

(** ** Getting a connection *)

(** [mysql_real_connect] keeps in the connection what it was given. *)
Definition connect_ok (connect : conn_key -> option MYSQL) : Prop := forall k c, connect k = Some c -> m_key c = k.

(** What [mysql_connpool_get_connection] promises. *)
Record obtained (connect : conn_key -> option MYSQL) (k : conn_key) (w : pools_state) (r : option mysql_cp_entry_t)
    (ref' : option nat) (w' : pools_state) (dead : list mysql_cp_entry_t) (fresh : list MYSQL) : Prop := {
  obt_inv : state_inv w';
  obt_ok : forall c, r = Some c -> m_key (conn c) = k /\ expire c = u64 (tv w + wait_timeout w);
  obt_none : r = None -> connect k = None;
  obt_closed : closed w' = closed w ++ dead;
  obt_dead : Forall (fun c => expire c <= tv w) dead;
  obt_fresh : fresh = [] \/ exists c, connect k = Some c /\ fresh = [c] /\ conn <$> r = Some c;
  obt_conns : idle_conns w ++ fresh ≡ₚ (conn <$> dead) ++ (conn <$> option_list r) ++ idle_conns w';
  obt_ref : r = None -> enabled (thr_myconnpool w) = true -> forall k', ref_ok (thr_myconnpool w') ref' k';
  obt_same : enabled (thr_myconnpool w') = enabled (thr_myconnpool w) /\ tv w' = tv w /\ wait_timeout w' = wait_timeout w }.

Lemma idle_ref cp l k : idle_at cp l -> ref_ok cp (Some l) k.
Proof. intros (mcp & ? & ?). exists mcp. auto. Qed.

Lemma get_global_spec k w : key_ok k -> state_inv w ->
  exists r w' dead, get_connection_global k w = Some (r, w') /\ state_inv w' /\ thr_myconnpool w' = thr_myconnpool w /\
    closed w' = closed w ++ dead /\ Forall (fun c => expire c <= tv w) dead /\
    (forall c, r = Some c -> m_key (conn c) = k /\ expire c = u64 (tv w + wait_timeout w)) /\
    idle_conns w ≡ₚ (conn <$> dead) ++ (conn <$> option_list r) ++ idle_conns w' /\ tv w' = tv w /\
    wait_timeout w' = wait_timeout w.
Proof.
  intros Hk [Hl Hg]. unfold get_connection_global. destruct (enabled (gloconnpool w)).
  - destruct (get_from_spec (tv w) (wait_timeout w) (gloconnpool w) None k Hk Hg I) as (r & l & cp' & dead & -> & []).
    rewrite bind_Some. eexists r, _, dead. split_and!; try done; cbn.
    unfold idle_conns. cbn. rewrite !fmap_app, got_conns0.
    rewrite (Permutation_app_comm (conn <$> idle (thr_myconnpool w))), <- !app_assoc.
    by rewrite (Permutation_app_comm (conn <$> idle cp') _).
  - exists None, w, []. split_and!; try done. by rewrite app_nil_r.
Qed.

Lemma get_connection_spec connect ref k w :
  connect_ok connect -> key_ok k -> state_inv w -> ref_ok (thr_myconnpool w) ref k ->
  exists r ref' w' dead fresh, mysql_connpool_get_connection connect ref k w = Some (r, ref', w') /\
    obtained connect k w r ref' w' dead fresh.
Proof.
  intros Hc Hk [Hl Hg] Href. unfold mysql_connpool_get_connection.
  assert (exists r1 ref1 w1 dead1, (if enabled (thr_myconnpool w) then
       '(r, l, cp, dead) ← get_from (tv w) (wait_timeout w) (thr_myconnpool w) ref k;
       Some (r, Some l, w <| thr_myconnpool := cp |> <| closed := closed w ++ dead |>)
     else Some (None, ref, w)) = Some (r1, ref1, w1) /\ obtained (fun _ => None) k w r1 ref1 w1 dead1 [])
    as (r1 & ref1 & w1 & dead1 & -> & O1).
  { destruct (enabled (thr_myconnpool w)) eqn:Hen.
    - destruct (get_from_spec (tv w) (wait_timeout w) (thr_myconnpool w) ref k Hk Hl Href) as (r & l & cp' & dead & -> & G).
      rewrite bind_Some. destruct G. eexists r, _, _, dead. split; [done|]. split; cbn; try done; try by left.
      + unfold idle_conns. cbn. by rewrite app_nil_r, !fmap_app, got_conns0, <- !app_assoc.
      + intros Hn _ k'. exact (idle_ref cp' l k' (got_none0 Hn)).
    - exists None, ref, w, []. split; [done|]. split; try done; first [by left | by rewrite app_nil_r | intros; congruence]. }
  rewrite bind_Some. destruct r1 as [c1|].
  { exists (Some c1), ref1, w1, dead1, []. split; [done|]. destruct O1. split; try done. by left. }
  destruct (get_global_spec k w1 Hk (obt_inv _ _ _ _ _ _ _ _ O1)) as (r2 & w2 & dead2 & -> & I2 & T2 & C2 & D2 & K2 & P2 & V2 & W2).
  destruct O1 as [_ _ _ Ocl Od _ Oc Or (Oe & Ot & Ow)]. rewrite bind_Some. rewrite Ot, Ow in *.
  assert (Hperm : forall x, idle_conns w ++ x ≡ₚ (conn <$> dead1 ++ dead2) ++ (conn <$> option_list r2) ++ idle_conns w2 ++ x).
  { intros x. rewrite app_nil_r in Oc. by rewrite Oc, P2, fmap_app, <- !app_assoc. }
  assert (Hcl : closed w2 = closed w ++ (dead1 ++ dead2)) by (by rewrite C2, Ocl, app_assoc).
  destruct r2 as [c2|].
  - exists (Some c2), ref1, w2, (dead1 ++ dead2), []. split; [done|]. split; try done.
    + by apply Forall_app.
    + by left.
    + by rewrite Hperm, app_nil_r.
    + by rewrite T2.
  - unfold create_new_mysql_connection. destruct (connect k) as [m|] eqn:Em.
    + exists (Some (mkCpe m (u64 (tv w2 + wait_timeout w2)) 1)), ref1, w2, (dead1 ++ dead2), [m].
      split; [done|]. split; try done; try (by rewrite T2).
      * intros c [= <-]. cbn. rewrite V2, W2. split; [by apply Hc|done].
      * by apply Forall_app.
      * right. by exists m.
      * rewrite Hperm. cbn. by rewrite (Permutation_app_comm (idle_conns w2)).
    + exists None, ref1, w2, (dead1 ++ dead2), []. split; [done|]. split; try done.
      * by apply Forall_app.
      * by left.
      * by rewrite Hperm, app_nil_r.
      * intros _ He k'. rewrite T2. by apply Or.
      * by rewrite T2.
Qed.

(** With pooling off neither the pools of the thread nor the remembered one change. *)
Lemma get_connection_off connect ref k w r ref' w' :
  enabled (thr_myconnpool w) = false -> mysql_connpool_get_connection connect ref k w = Some (r, ref', w') ->
  ref' = ref /\ thr_myconnpool w' = thr_myconnpool w.
Proof.
  intros Hen. unfold mysql_connpool_get_connection. rewrite Hen, bind_Some.
  destruct (get_connection_global k w) as [[r1 w1]|] eqn:Eg; [rewrite bind_Some|done].
  assert (thr_myconnpool w1 = thr_myconnpool w) as Ew.
  { unfold get_connection_global in Eg. destruct (enabled (gloconnpool w)); [|by simplify_eq].
    destruct (get_from _ _ _ _ _) as [[[[? ?] ?] ?]|]; [rewrite bind_Some in Eg; by simplify_eq|done]. }
  destruct r1; intros E; by simplify_eq.
Qed.

(** ** Giving a connection back *)

Definition detach_ref_ok (cp : myConnPools) (ref : option nat) (k : conn_key) : Prop :=
  match ref with
  | None => True
  | Some l => exists mcp, connpools cp !! l = Some mcp /\ pool_key mcp = k
  end.

(** A connection is kept when all the conditions hold; else it is closed. *)
Definition keeps (now force_close : Z) (mc : mysql_cp_entry_t) (w : pools_state) : Prop :=
  enabled (thr_myconnpool w) = true /\ reusable mc <> 0 /\ force_close <> 1 /\ now < expire mc.

Lemma detach_spec now ref mc force_close w :
  state_inv w -> key_ok (m_key (conn mc)) -> detach_ref_ok (thr_myconnpool w) ref (m_key (conn mc)) ->
  exists w', mysql_connpool_detach_connection now ref mc force_close w = Some w' /\ state_inv w' /\
    enabled (thr_myconnpool w') = enabled (thr_myconnpool w) /\ tv w' = tv w /\ wait_timeout w' = wait_timeout w /\
    ((keeps now force_close mc w /\ closed w' = closed w /\ idle_conns w' ≡ₚ conn mc :: idle_conns w) \/
     (~ keeps now force_close mc w /\ closed w' = closed w ++ [mc] /\ idle_conns w' = idle_conns w)).
Proof.
  intros [Hl Hg] Hk Href. unfold mysql_connpool_detach_connection, keeps.
  destruct (enabled (thr_myconnpool w)) eqn:He; cbn [negb];
    [|eexists; split_and!; [done|done|done|done|done|]; right; split_and!; try done; intros (?&?&?&?); done].
  destruct (Z.eqb_spec (reusable mc) 0);
    [eexists; split_and!; [done|done|done|done|done|]; right; split_and!; try done; intros (?&?&?&?); done|].
  destruct (Z.eqb_spec force_close 1);
    [eexists; split_and!; [done|done|done|done|done|]; right; split_and!; try done; intros (?&?&?&?); done|].
  assert (exists l cp mcp, (match ref with None => mysql_connpool_find_or_create (thr_myconnpool w) (m_key (conn mc))
      | Some l => Some (l, thr_myconnpool w) end) = Some (l, cp) /\ pools_inv cp /\ connpools cp !! l = Some mcp /\
      pool_key mcp = m_key (conn mc) /\ idle cp = idle (thr_myconnpool w) /\ enabled cp = true)
    as (l & cp & mcp & -> & Hinv & Hm & Hmk & Hidle & Hen).
  { destruct ref as [l|].
    - destruct Href as (mcp & ? & ?). by exists l, (thr_myconnpool w), mcp.
    - destruct (find_or_create_spec (thr_myconnpool w) _ Hk Hl) as (l & cp & mcp & ? & ? & ? & ? & ? & He').
      exists l, cp, mcp. rewrite He in He'. by split_and!. }
  rewrite bind_Some. destruct (Z.leb_spec (expire mc) now).
  - eexists. split_and!; [done|done|done|done|done|]. right. split_and!; [intros (?&?&?&?); lia|done|].
    unfold idle_conns. cbn. by rewrite Hidle.
  - cbn. rewrite Hm, bind_Some. destruct (idle_insert cp l mcp (free_conns mcp ++ [mc]) Hm) as (others & Hi1 & Hi2).
    eexists. split_and!; [done|split; [|done]|done|done|done|].
    + apply pools_inv_insert; [done..|]. intros c [Hc|Hc]%elem_of_app.
      * by apply (Forall_lookup_1 _ _ _ _ Hinv Hm).
      * apply list_elem_of_singleton in Hc as ->. done.
    + left. split_and!; try done. unfold idle_conns. cbn. rewrite !fmap_app.
      rewrite <- Hidle, Hi1, Hi2, !fmap_app, fmap_cons, <- !app_assoc. symmetry. apply Permutation_middle.
Qed.

(** C12: the connection a session gets is one to the server, for the user, password, schema
    and port it asked for, with a fresh expiry; it fails only when connecting does; connections that
    expired are closed, and no connection is lost or handed out twice: the idle ones
    and the new one are exactly the closed ones, the one returned and those left idle. *)
Theorem connpool_get_correct connect ref k w :
  connect_ok connect -> key_ok k -> state_inv w -> ref_ok (thr_myconnpool w) ref k ->
  exists r ref' w' dead fresh, mysql_connpool_get_connection connect ref k w = Some (r, ref', w') /\
    state_inv w' /\ (forall c, r = Some c -> m_key (conn c) = k /\ expire c = u64 (tv w + wait_timeout w)) /\
    (r = None -> connect k = None) /\
    closed w' = closed w ++ dead /\ Forall (fun c => expire c <= tv w) dead /\
    (fresh = [] \/ exists c, connect k = Some c /\ fresh = [c] /\ conn <$> r = Some c) /\
    idle_conns w ++ fresh ≡ₚ (conn <$> dead) ++ (conn <$> option_list r) ++ idle_conns w'.
Proof.
  intros Hc Hk Hw Hr. destruct (get_connection_spec connect ref k w Hc Hk Hw Hr) as (r & ref' & w' & dead & fresh & E & []).
  exists r, ref', w', dead, fresh. by split_and!.
Qed.

Definition sample_key : conn_key := mkKey (c_lit "db1") (Some (c_lit "app")) (Some (c_lit "pw")) (Some (c_lit "shop")) 3306.
Definition sample_conn (f : Z) (e : Z) : mysql_cp_entry_t := mkCpe (mkMYSQL sample_key f) e 1.
Definition sample_pools : pools_state :=
  mkPS (mkPools [mkPool sample_key [sample_conn 7 50; sample_conn 8 500]] true) (mkPools [] true) 100 1000 [].

Lemma sample_key_ok : key_ok sample_key.
Proof. split; [vm_compute; set_solver|eexists; split; [done|vm_compute; set_solver]..|vm_compute; set_solver]. Qed.

Lemma sample_pools_ok : state_inv sample_pools.
Proof.
  split; [|apply Forall_nil_2]. apply Forall_singleton. split; [exact sample_key_ok|]. intros c Hc. cbn in Hc.
  apply elem_of_cons in Hc as [->|Hc]; [done|]. by apply list_elem_of_singleton in Hc as ->.
Qed.

Lemma connpool_get_correct_witness :
  exists r ref' w', mysql_connpool_get_connection (fun _ => None) None sample_key sample_pools = Some (r, ref', w') /\
    state_inv w' /\ (net_fd ∘ conn) <$> r = Some 8 /\ (net_fd ∘ conn) <$> closed w' = [7].
Proof.
  destruct (connpool_get_correct (fun _ => None) None sample_key sample_pools) as (r & ref' & w' & dead & fresh & E & I1 & _).
  - intros k c H. discriminate H.
  - exact sample_key_ok.
  - exact sample_pools_ok.
  - exact I.
  - exists r, ref', w'. split; [exact E|]. split; [exact I1|]. vm_compute in E. injection E as <- <- <-. split; reflexivity.
Defined.

(** A connection given back is kept exactly when pooling is on, it is reusable, its closing
    is not forced and it has not expired, and is closed otherwise: it never leaks. *)
Theorem connpool_detach_correct now ref mc force_close w :
  state_inv w -> key_ok (m_key (conn mc)) -> detach_ref_ok (thr_myconnpool w) ref (m_key (conn mc)) ->
  exists w', mysql_connpool_detach_connection now ref mc force_close w = Some w' /\ state_inv w' /\
    ((keeps now force_close mc w /\ closed w' = closed w /\ idle_conns w' ≡ₚ conn mc :: idle_conns w) \/
     (~ keeps now force_close mc w /\ closed w' = closed w ++ [mc] /\ idle_conns w' = idle_conns w)).
Proof.
  intros Hw Hk Hr. destruct (detach_spec now ref mc force_close w Hw Hk Hr) as (w' & E & Hi & _ & _ & _ & H).
  by exists w'.
Qed.

Lemma connpool_detach_correct_witness :
  exists w', mysql_connpool_detach_connection 200 None (sample_conn 9 600) 0 sample_pools = Some w' /\
    state_inv w' /\ length (idle_conns w') = 3%nat.
Proof.
  destruct (connpool_detach_correct 200 None (sample_conn 9 600) 0 sample_pools sample_pools_ok sample_key_ok I)
    as (w' & E & I1 & _).
  exists w'. split; [exact E|]. split; [exact I1|]. vm_compute in E. injection E as <-. reflexivity.
Defined.

(** ** Reuse *)

(** Every pool has a schema. *)
Definition all_db (cp : myConnPools) : Prop := Forall (fun mcp => is_Some (k_db (pool_key mcp))) (connpools cp).

Lemma find_from_keys ps : forall qs l k, pool_key <$> ps = pool_key <$> qs -> find_from l ps k = find_from l qs k.
Proof.
  induction ps as [|p ps IH]; intros [|q qs] l k E; try done. injection E as Ep E. cbn [find_from].
  rewrite Ep. repeat case_match; try done. destruct (pool_matches _ _ _ _) as [[]|]; cbn; [done|by apply IH|done].
Qed.

Lemma find_from_app pools : forall l k, key_ok k -> is_Some (k_db k) -> Forall pool_inv pools ->
  Forall (fun mcp => is_Some (k_db (pool_key mcp))) pools -> find_from l pools k = Some None ->
  find_from l (pools ++ [mkPool k []]) k = Some (Some (l + length pools)%nat).
Proof.
  induction pools as [|m pools IH]; intros l k Hk [db Hdb] Hinv Hall Hf; cbn [app find_from length pool_key] in *.
  - rewrite Hdb, (pool_matches_spec k k db db), bind_Some, bool_decide_eq_true_2 by done. by rewrite Nat.add_0_r.
  - apply Forall_cons in Hinv as [[Hmk _] Hinv]. apply Forall_cons in Hall as [[db' Hdb'] Hall].
    rewrite Hdb, Hdb', (pool_matches_spec k (pool_key m) db db'), bind_Some in * by done.
    case_bool_decide; [done|]. rewrite IH by done. do 2 f_equal. lia.
Qed.

(** A search finds the pool that the last search found or created, whatever its connections are now. *)
Lemma find_or_create_again cp k l cp' mcp conns : key_ok k -> is_Some (k_db k) -> pools_inv cp -> all_db cp ->
  mysql_connpool_find_or_create cp k = Some (l, cp') -> connpools cp' !! l = Some mcp ->
  let cp'' := cp' <| connpools := <[l := mcp <| free_conns := conns |>]> (connpools cp') |> in
  mysql_connpool_find_or_create cp'' k = Some (l, cp'').
Proof.
  intros Hk Hdb Hinv Hall Hf Hl cp''. unfold mysql_connpool_find_or_create, mysql_connpool_find.
  assert (find_from 0 (connpools cp'') k = find_from 0 (connpools cp') k) as ->.
  { apply find_from_keys. cbn. rewrite list_fmap_insert. cbn. apply list_insert_id. by rewrite list_lookup_fmap, Hl. }
  unfold mysql_connpool_find_or_create, mysql_connpool_find in Hf.
  destruct (find_from 0 (connpools cp) k) as [[i|]|] eqn:E; try discriminate Hf; rewrite bind_Some in Hf; injection Hf as <- <-.
  - by rewrite E.
  - cbn. by rewrite (find_from_app (connpools cp) 0 k).
Qed.

(** A reusable connection that is given back before it expires is used again: the next
    request for the same server, user, password, schema and port gets an idle
    connection even if no new one could be made. *)
Theorem connpool_reuses now mc w w' :
  state_inv w -> key_ok (m_key (conn mc)) -> is_Some (k_db (m_key (conn mc))) -> all_db (thr_myconnpool w) ->
  keeps now 0 mc w -> tv w < expire mc ->
  mysql_connpool_detach_connection now None mc 0 w = Some w' ->
  exists c ref w'', mysql_connpool_get_connection (fun _ => None) None (m_key (conn mc)) w' = Some (Some c, ref, w'') /\
    conn c ∈ conn mc :: idle_conns w.
Proof.
  intros Hw Hk Hdb Hall (He & Hr & _ & Hx) Htv Hd.
  destruct (detach_spec now None mc 0 w Hw Hk I) as (w1 & E & Hi & He' & Ht' & _ & [(_ & _ & Hp)|(Hno & _)]);
    [|by destruct Hno]. rewrite Hd in E. injection E as <-.
  destruct (get_connection_spec (fun _ => None) None (m_key (conn mc)) w') as (r & ref & w2 & dead & fresh & E & O);
    [done|done|done|done|].
  destruct r as [c|].
  - exists c, ref, w2. split; [done|]. rewrite <- Hp. destruct O as [_ _ _ _ _ [->|(?&?&_)] Hc _ _]; [|done].
    rewrite app_nil_r in Hc. rewrite Hc. cbn. set_solver.
  - exfalso. unfold mysql_connpool_detach_connection in Hd. rewrite He in Hd. cbn [negb] in Hd.
    apply Z.eqb_neq in Hr. rewrite Hr in Hd. cbn in Hd. destruct (mysql_connpool_find_or_create _ _) as [[l cp]|] eqn:Ef; [|done].
    rewrite bind_Some in Hd. apply Z.leb_gt in Hx. rewrite Hx in Hd. destruct (connpools cp !! l) as [mcp|] eqn:Hl; [|done].
    rewrite bind_Some in Hd. injection Hd as Hd.
    pose proof (find_or_create_again (thr_myconnpool w) _ l cp mcp (free_conns mcp ++ [mc]) Hk Hdb (proj1 Hw) Hall Ef Hl) as Hag.
    cbv zeta in Hag. set (cp'' := cp <| connpools := _ |>) in *.
    assert (thr_myconnpool w' = cp'' /\ wait_timeout w' = wait_timeout w) as [Hthr Hwt] by (by rewrite <- Hd).
    assert (connpools cp'' !! l = Some (mcp <| free_conns := free_conns mcp ++ [mc] |>)) as Hl''
      by (apply list_lookup_insert_eq; by apply lookup_lt_Some in Hl).
    unfold mysql_connpool_get_connection, get_from in E. rewrite He', He, Hthr, Hag, !bind_Some, Hl'', bind_Some, Ht', Hwt in E.
    cbn [free_conns upd] in E.
    destruct (take_free_spec (tv w) (wait_timeout w) _ (free_conns mcp ++ [mc]) (Nat.le_refl _)) as (r & rest & dd & Et & Hdd & Hr').
    rewrite Et in E. destruct r as [c|]; [discriminate E|]. destruct Hr' as [_ Hpp].
    rewrite Forall_forall in Hdd. specialize (Hdd mc). rewrite <- Hpp in Hdd. specialize (Hdd ltac:(set_solver)). lia.
Qed.

Lemma connpool_reuses_witness :
  exists w' c ref w'', mysql_connpool_detach_connection 120 None (sample_conn 9 600) 0 sample_pools = Some w' /\
    mysql_connpool_get_connection (fun _ => None) None sample_key w' = Some (Some c, ref, w'').
Proof.
  destruct (mysql_connpool_detach_connection 120 None (sample_conn 9 600) 0 sample_pools) as [w'|] eqn:E.
  2: { exfalso. vm_compute in E. discriminate E. }
  destruct (connpool_reuses 120 (sample_conn 9 600) sample_pools w') as (c & ref & w'' & H & _).
  - exact sample_pools_ok.
  - exact sample_key_ok.
  - by eexists.
  - apply Forall_singleton. by eexists.
  - split; [reflexivity|]. split; [discriminate|]. split; [discriminate|vm_compute; reflexivity].
  - vm_compute. reflexivity.
  - exact E.
  - exists w', c, ref, w''. split; [reflexivity|exact H].
Defined.

(** A pool without a schema (a client that logged in without one) at the head of the array
    hides all pools: every later search stops at it, creates one more pool, and
    no idle connection of the array is ever used again. *)
Theorem connpool_null_db_hides now timeout cp mcp rest k :
  connpools cp = mcp :: rest -> k_db (pool_key mcp) = None ->
  get_from now timeout cp None k =
    Some (None, length (connpools cp), cp <| connpools := connpools cp ++ [mkPool k []] |>, []).
Proof.
  intros Hc Hdb. unfold get_from, mysql_connpool_find_or_create, mysql_connpool_find.
  assert (find_from 0 (connpools cp) k = Some None) as ->.
  { rewrite Hc. cbn. rewrite Hdb. by destruct (k_db k). }
  rewrite !bind_Some. unfold mysql_connpool_create. cbn. rewrite lookup_app_r, Nat.sub_diag by lia. cbn.
  rewrite insert_app_r_alt, Nat.sub_diag by lia. done.
Qed.

Lemma connpool_null_db_hides_witness :
  get_from 100 1000 (mkPools [mkPool (mkKey (c_lit "db1") None None None 3306) [];
                              mkPool sample_key [sample_conn 8 500]] true) None sample_key =
    Some (None, 2%nat, mkPools [mkPool (mkKey (c_lit "db1") None None None 3306) [];
                              mkPool sample_key [sample_conn 8 500]; mkPool sample_key []] true, []).
Proof. eapply connpool_null_db_hides; reflexivity. Defined.
