(* ===== verification/Backend.v ===== *)
(** * Backends: src/mysql_backend.c and [mysql_session_create_backend_for_hostgroup]
    (src/mysql_handler.c)

    A session has one [mysql_backend_t] per host group: the server it is
    connected to, the connection and its data stream.  The pointer [mshge] into the
    shared table of the host groups is the pair of the host group and the position in it. *)
From S2P Require Import Prelude Protocol DataStream Tokenizer Routing ConnPool.
Open Scope Z_scope.

Record mysql_backend_t := mkBackend {
  be_fd : Z; mshge : option (nat * nat); last_mysql_connpool : option nat;
  server_myds : option mysql_data_stream_t; server_mycpe : option mysql_cp_entry_t; server_bytes_at_cmd : Z * Z }.
#[export] Instance backend_eta : Eta mysql_backend_t := fun b =>
  mkBackend (be_fd b) (mshge b) (last_mysql_connpool b) (server_myds b) (server_mycpe b) (server_bytes_at_cmd b).

Definition mysql_backend_new : mysql_backend_t := mkBackend 0 None None None None (0, 0).

(** The entry a [MSHGE *] points to. *)
Definition mshge_at (g : global_mysql_servers) (m : nat * nat) : option MSHGE :=
  hg ← hostgroups g !! fst m; hg !! snd m.

Definition upd_mshge (f : MSHGE -> MSHGE) (m : nat * nat) (g : global_mysql_servers) : global_mysql_servers :=
  mkGMS (servers g) (alter (alter f (snd m)) (fst m) (hostgroups g)).

(** The counters that [mysql_data_stream_new] and [backend_reset] change. *)
Definition count_new (e : MSHGE) : MSHGE :=
  mkMSHGE (MSptr e) (i64 (connections_created e + 1)) (i64 (connections_active e + 1)) (sbytes_recv e) (sbytes_sent e).
Definition count_reset (e : MSHGE) : MSHGE :=
  mkMSHGE (MSptr e) (connections_created e) (i64 (connections_active e - 1)) (sbytes_recv e) (sbytes_sent e).

(** ** Giving the connection back *)

(** [now] is the time of [mysql_connpool_detach_connection]. *)
Definition backend_reset_server_mycpe (now : Z) (fc : Z) (be : mysql_backend_t) (w : pools_state)
  : option (mysql_backend_t * pools_state) :=
  w ← (match server_mycpe be with
       | Some mc => mysql_connpool_detach_connection now (last_mysql_connpool be) mc fc w
       | None => Some w
       end);
  Some (be <| server_mycpe := None |>, w).

Definition backend_reset_server_myds (be : mysql_backend_t) : Z * mysql_backend_t :=
  match server_myds be with
  | Some myds => ((if active myds then 0 else 1), be <| server_myds := None |>)
  | None => (0, be)
  end.

Definition backend_detach (now fc : Z) (be : mysql_backend_t) (w : pools_state) : option (mysql_backend_t * pools_state) :=
  let be := be <| last_mysql_connpool := None |> in
  match server_mycpe be with
  | Some mc => if negb (reusable mc =? 0) then backend_reset_server_mycpe now fc be w else Some (be, w)
  | None => Some (be, w)
  end.

Definition backend_reset (now force_close : Z) (be : mysql_backend_t) (g : global_mysql_servers) (w : pools_state)
  : option (mysql_backend_t * global_mysql_servers * pools_state) :=
  let be := be <| be_fd := 0 |> <| last_mysql_connpool := None |> in
  let g := match mshge be with Some m => upd_mshge count_reset m g | None => g end in
  let be := be <| mshge := None |> in
  let '(rc, be) := backend_reset_server_myds be in
  let fc := if (force_close =? 0) && (rc =? 1) then 1 else force_close in
  '(be, w) ← backend_reset_server_mycpe now fc be w;
  Some (be <| server_bytes_at_cmd := (0, 0) |> <| be_fd := 0 |>, g, w).

(** ** Connecting *)

(** The user, the password and the schema of the session. *)
Record credentials := mkCred { c_user : option (list byte); c_passwd : option (list byte); c_schema : option (list byte) }.

Definition key_for (ms : mysql_server) (cr : credentials) : conn_key :=
  mkKey (address ms) (c_user cr) (c_passwd cr) (c_schema cr) (port ms).

(** The loop at [mysql_session_create_backend_for_hostgroup__label1].  An attempt
    is the value of [rand()] that picks the server and the outcome of
    [mysql_real_connect]; [None] also when the attempts given run out. *)
Fixpoint backend_connect (hgs : Z) (g : global_mysql_servers) (hg : Z) (cr : credentials) (retries : nat)
    (attempts : list (Z * (conn_key -> option MYSQL))) (be : mysql_backend_t) (w : pools_state)
  : option (Z * mysql_backend_t * pools_state) :=
  match attempts with
  | [] => None
  | (rnd, connect) :: attempts' =>
      be ← (match mshge be with
            | Some _ => Some be
            | None =>
                r ← mysql_server_random_entry_from_hostgroup hgs g rnd hg;
                Some (be <| mshge := match r with Some (i, _) => Some (Z.to_nat hg, i) | None => None end |>)
            end);
      match mshge be with
      | None => Some (0, be, w)
      | Some m =>
          match server_mycpe be with
          | Some _ => Some (1, be, w)
          | None =>
              e ← mshge_at g m;
              '(c, ref, w) ← mysql_connpool_get_connection connect (last_mysql_connpool be) (key_for (MSptr e) cr) w;
              let be := be <| server_mycpe := c |> <| last_mysql_connpool := ref |> in
              match c with
              | Some _ => Some (1, be, w)
              | None =>
                  match retries with
                  | S (S r) => backend_connect hgs g hg cr (S r) attempts' (be <| mshge := None |>) w
                  | _ => Some (-1, be, w)
                  end
              end
          end
      end
  end.

(** [authenticate_mysql_client_send_ERR]; [sends] are the answers of [send]. *)
Definition authenticate_mysql_client_send_ERR (junk : nat -> byte) (sends : list Z) (client : mysql_data_stream_t)
    (errcode : Z) (errstr : list byte) : option (mysql_data_stream_t * list byte) :=
  hs ← create_err_packet junk 2 errcode errstr;
  '(_, client, out) ← write_one_pkt_to_net sends client hs;
  Some (client, out).

(** [authenticate_mysql_client_send_OK], which nothing calls: [process_authentication_pkt] puts its own packet into the queue. *)
Definition authenticate_mysql_client_send_OK (junk : nat -> byte) (sends : list Z) (client : mysql_data_stream_t)
  : option (mysql_data_stream_t * list byte) :=
  hs ← create_ok_packet junk 2;
  '(_, client, out) ← write_one_pkt_to_net sends client hs;
  Some (client, out).

Definition access_denied : list byte := c_lit "#28000Access denied for user".

(** What the call changes: the backend, the pools, the table of the servers and the client's stream. *)
Record created := mkCreated {
  cr_rc : Z; cr_be : mysql_backend_t; cr_pools : pools_state; cr_servers : global_mysql_servers;
  cr_client : mysql_data_stream_t; cr_sent : list byte }.

Definition mysql_session_create_backend_for_hostgroup (junk : nat -> byte) (sends : list Z) (net_buffer_size : nat)
    (hgs : Z) (g : global_mysql_servers) (hg : Z) (cr : credentials) (attempts : list (Z * (conn_key -> option MYSQL)))
    (client : mysql_data_stream_t) (be : mysql_backend_t) (w : pools_state) : option created :=
  if hgs <=? hg then None (* assert *) else
  '(rc, be, w) ← backend_connect hgs g hg cr 10 attempts be w;
  if rc =? 0 then Some (mkCreated 0 be w g client []) else
  if rc =? -1 then
    '(client, out) ← authenticate_mysql_client_send_ERR junk sends client 1045 access_denied;
    Some (mkCreated (-1) be w g client out)
  else
    c ← server_mycpe be;
    m ← mshge be;
    let be := be <| be_fd := net_fd (conn c) |> in
    let '(myds, g) := match server_myds be with
                      | None => (mysql_data_stream_new junk net_buffer_size true 0, upd_mshge count_new m g)
                      | Some d => (d <| has_mybe := true |>, g)
                      end in
    Some (mkCreated 1 (be <| server_myds := Some (setfd myds (be_fd be)) |>) w g client []).

(** * Properties *)

Section Connect.
Context (hgs : Z) (g : global_mysql_servers) (hg : Z) (cr : credentials) (group : list MSHGE).
Context (Hhg : 0 <= hg < hgs) (Hgroup : hostgroups g !! Z.to_nat hg = Some group).
Context (Hkeys : forall e, e ∈ group -> key_ok (key_for (MSptr e) cr)).

(** The server the backend points to is one of the host group. *)
Definition points_in (be : mysql_backend_t) : Prop :=
  match mshge be with Some m => fst m = Z.to_nat hg /\ is_Some (group !! snd m) | None => True end.

(** The backend is connected to the server it points to, as the session's user. *)
Definition connected (be : mysql_backend_t) : Prop :=
  exists i e c, mshge be = Some (Z.to_nat hg, i) /\ group !! i = Some e /\ server_mycpe be = Some c /\
    m_key (conn c) = key_for (MSptr e) cr.

Lemma mshge_at_group i : mshge_at g (Z.to_nat hg, i) = group !! i.
Proof. unfold mshge_at. cbn. by rewrite Hgroup. Qed.

Lemma random_entry_group rnd :
  (group = [] /\ mysql_server_random_entry_from_hostgroup hgs g rnd hg = Some None) \/
  exists i e, mysql_server_random_entry_from_hostgroup hgs g rnd hg = Some (Some (i, e)) /\ group !! i = Some e.
Proof.
  unfold mysql_server_random_entry_from_hostgroup. destruct (Z.leb_spec hgs hg); [lia|].
  destruct (Z.ltb_spec hg 0); [lia|]. rewrite Hgroup, bind_Some. case_decide as Hl; [left; by destruct group|right].
  set (i := Z.to_nat _). assert (i < length group)%nat as Hi.
  { unfold i. pose proof (Z.mod_pos_bound rnd (Z.of_nat (length group)) ltac:(lia)). lia. }
  apply lookup_lt_is_Some_2 in Hi as [e He]. rewrite He, bind_Some. by exists i, e.
Qed.

(** The outcomes of the connecting loop. *)
Definition outcome (retries : nat) (attempts : list (Z * (conn_key -> option MYSQL))) (rc : Z) (be : mysql_backend_t) : Prop :=
  (rc = 1 /\ connected be) \/
  (rc = 0 /\ group = [] /\ mshge be = None /\ server_mycpe be = None) \/
  (rc = -1 /\ points_in be /\ mshge be <> None /\ server_mycpe be = None /\
   Forall (fun a => exists e, e ∈ group /\ snd a (key_for (MSptr e) cr) = None) (take retries attempts)).

Lemma backend_connect_spec retries : forall attempts be w,
  (1 <= retries)%nat -> (retries <= length attempts)%nat -> Forall (fun a => connect_ok (snd a)) attempts ->
  state_inv w -> points_in be -> server_mycpe be = None ->
  (forall k, ref_ok (thr_myconnpool w) (last_mysql_connpool be) k) ->
  exists rc be' w', backend_connect hgs g hg cr retries attempts be w = Some (rc, be', w') /\ state_inv w' /\
    server_myds be' = server_myds be /\ outcome retries attempts rc be' /\ enabled (thr_myconnpool w') = enabled (thr_myconnpool w) /\
    forall P : MYSQL -> Prop, Forall P (idle_conns w) -> (forall a k c, a ∈ attempts -> snd a k = Some c -> P c) ->
      Forall P (idle_conns w') /\ forall c, server_mycpe be' = Some c -> P (conn c).
Proof.
  induction retries as [|retries IH]; intros attempts be w H1 Hlen Hc Hw Hp Hno Href; [lia|].
  destruct attempts as [|[rnd connect] attempts]; [simpl in Hlen; lia|].
  apply Forall_cons in Hc as [Hc0 Hc]. cbn [snd] in Hc0. cbn [backend_connect].
  assert (exists be1, (match mshge be with Some _ => Some be | None =>
      r ← mysql_server_random_entry_from_hostgroup hgs g rnd hg;
      Some (be <| mshge := match r with Some (i, _) => Some (Z.to_nat hg, i) | None => None end |>) end) = Some be1 /\
      server_mycpe be1 = None /\ last_mysql_connpool be1 = last_mysql_connpool be /\ server_myds be1 = server_myds be /\
      ((mshge be1 = None /\ group = []) \/ exists i e, mshge be1 = Some (Z.to_nat hg, i) /\ group !! i = Some e))
    as (be1 & -> & Hno1 & Hr1 & Hd1 & Hm).
  { unfold points_in in Hp. destruct (mshge be) as [[h i]|] eqn:Em.
    - destruct Hp as [Hh [e He]]. cbn in Hh. subst h. exists be. split_and!; try done. right. by exists i, e.
    - destruct (random_entry_group rnd) as [[Hg ->]|(i & e & -> & He)]; rewrite bind_Some; eexists; split_and!; try done.
      + by left.
      + right. by exists i, e. }
  rewrite bind_Some. destruct Hm as [[Hm Hg]|(i & e & Hm & He)].
  { rewrite Hm. exists 0, be1, w. split_and!; try done; [right; left; done|]. intros P HP _. split; [done|]. congruence. }
  rewrite Hm, Hno1, mshge_at_group, He, bind_Some, Hr1.
  assert (e ∈ group) as Hin by (by eapply list_elem_of_lookup_2).
  destruct (get_connection_spec connect (last_mysql_connpool be) (key_for (MSptr e) cr) w Hc0 (Hkeys e Hin) Hw (Href _))
    as (c & ref & w1 & dead & fresh & Eg & O). rewrite Eg, bind_Some. cbv beta iota zeta. destruct O as [Oi Ook On _ _ Of Oc Oref (Oe & _ & _)].
  assert (forall P : MYSQL -> Prop, Forall P (idle_conns w) -> (forall k c, connect k = Some c -> P c) ->
    Forall P (idle_conns w1) /\ forall x, c = Some x -> P (conn x)) as Hdraw.
  { intros P HP Hf. assert (Forall P (idle_conns w ++ fresh)) as Ha.
    { apply Forall_app. split; [done|]. destruct Of as [->|(x & Hx & -> & _)]; [done|]. apply Forall_singleton. by eapply Hf. }
    rewrite Oc in Ha. apply Forall_app in Ha as [_ Ha]. apply Forall_app in Ha as [Hr Hi]. split; [done|]. intros x ->. apply Forall_fmap in Hr. by apply Forall_cons in Hr as [? _]. }
  destruct c as [c|].
  { eexists 1, _, w1. split; [done|]. split_and!; [done|by cbn| |done|].
    - left. split; [done|]. exists i, e, c. cbn. destruct (Ook c eq_refl). by split_and!.
    - intros P HP Hf. apply (Hdraw P HP). intros k x. apply (Hf (rnd, connect) k x). left. }
  destruct retries as [|retries].
  { eexists (-1), _, w1. split; [done|]. split_and!; [done|by cbn| |done|].
    - right; right. unfold points_in. cbn. rewrite Hm. cbn.
      split_and!; try done. constructor; [|by constructor]. exists e. split; [done|]. by apply On.
    - intros P HP Hf. apply (Hdraw P HP). intros k x. apply (Hf (rnd, connect) k x). left. }
  destruct (IH attempts (be1 <| server_mycpe := None |> <| last_mysql_connpool := ref |> <| mshge := None |>) w1)
    as (rc & be' & w' & -> & Hw' & Hd' & Ho & He' & HP'); try done.
  - lia.
  - simpl in Hlen. lia.
  - intros k. destruct (enabled (thr_myconnpool w)) eqn:Hen; [by apply Oref|].
    destruct (get_connection_off _ _ _ _ _ _ _ Hen Eg) as [-> E1]. cbn. rewrite E1. apply Href.
  - exists rc, be', w'. split_and!; [done|done|by rewrite Hd'| |congruence|].
    2: { intros P HP Hf. apply HP'; [apply (Hdraw P HP); intros k x; apply (Hf (rnd, connect) k x); left|intros a k x Ha; apply Hf; by right]. }
    destruct Ho as [?|[?|(?&?&?&?&Hf)]]; [by left|right; by left|right; right]. split_and!; try done.
    constructor; [|done]. exists e. split; [done|]. by apply On.
Qed.

End Connect.


Definition sample_servers : global_mysql_servers :=
  mkGMS [mysql_server_entry_create (c_lit "db1") 3306 0 ONLINE]
        [[mkMSHGE (mysql_server_entry_create (c_lit "db1") 3306 0 ONLINE) 0 0 0 0]].
Definition sample_cred : credentials := mkCred (Some (c_lit "app")) (Some (c_lit "pw")) (Some (c_lit "shop")).
Definition sample_client : mysql_data_stream_t := mysql_data_stream_new (fun _ => Byte.x00) 100 false 5.

(** Connecting works the tenth time only. *)
Definition sample_attempts : list (Z * (conn_key -> option MYSQL)) :=
  replicate 9 (3, fun _ => None) ++ [(4, fun k => Some (mkMYSQL k 77))].
Definition empty_pools : pools_state := mkPS (mkPools [] true) (mkPools [] true) 100 1000 [].


(** What a reset does, field by field. *)
Definition reset_fc (force_close : Z) (be : mysql_backend_t) : Z :=
  if (force_close =? 0) && match server_myds be with Some d => negb (active d) | None => false end then 1 else force_close.

Lemma backend_reset_eq now force_close be g w :
  backend_reset now force_close be g w =
    (w' ← (match server_mycpe be with
           | Some c => mysql_connpool_detach_connection now None c (reset_fc force_close be) w
           | None => Some w
           end);
     Some (mysql_backend_new, match mshge be with Some m => upd_mshge count_reset m g | None => g end, w')).
Proof.
  unfold backend_reset, backend_reset_server_myds, backend_reset_server_mycpe, reset_fc.
  destruct be as [f m l [d|] [c|] b]; cbn; try destruct (active d); cbn; rewrite ?andb_true_r, ?andb_false_r; try done;
    by destruct (mysql_connpool_detach_connection _ _ _ _ _).
Qed.

(** Resetting a backend leaves it as new, and its connection is not lost: it goes back
    to the pool when pooling is on, it is reusable, nobody asked to close it,
    its data stream is still active (or there is none) and it has not expired, and is closed otherwise. *)
Theorem backend_reset_correct now force_close be g w :
  state_inv w -> (forall c, server_mycpe be = Some c -> key_ok (m_key (conn c))) -> force_close = 0 \/ force_close = 1 ->
  exists g' w', backend_reset now force_close be g w = Some (mysql_backend_new, g', w') /\ state_inv w' /\
    match server_mycpe be with
    | None => w' = w
    | Some c =>
        let keep := enabled (thr_myconnpool w) = true /\ reusable c <> 0 /\ force_close = 0 /\ now < expire c /\
                    match server_myds be with Some d => active d = true | None => True end in
        (keep /\ closed w' = closed w /\ idle_conns w' ≡ₚ conn c :: idle_conns w) \/
        (~ keep /\ closed w' = closed w ++ [c] /\ idle_conns w' = idle_conns w)
    end.
Proof.
  intros Hw Hk Hf. rewrite backend_reset_eq. destruct (server_mycpe be) as [c|]; [|by eexists _, w].
  destruct (detach_spec now None c (reset_fc force_close be) w Hw (Hk c eq_refl) I) as (w' & -> & Hi & _ & _ & _ & H).
  rewrite bind_Some. eexists _, w'. split; [done|]. split; [done|]. cbv zeta. unfold keeps in H.
  assert (reset_fc force_close be <> 1 <->
    force_close = 0 /\ match server_myds be with Some d => active d = true | None => True end) as Hfc.
  { unfold reset_fc. destruct (server_myds be) as [d|]; [destruct (active d)|]; destruct Hf as [->| ->]; cbn; split; try lia;
      intros [??]; try done; lia. }
  destruct H as [(?&?&?)|(?&?&?)]; [left|right]; split_and!; try done; tauto.
Qed.

Lemma backend_reset_correct_witness :
  exists g' w', backend_reset 120 0 (mkBackend 9 (Some (0, 0))%nat None None (Some (sample_conn 9 600)) (1, 2))
      sample_servers sample_pools = Some (mysql_backend_new, g', w') /\ length (idle_conns w') = 3%nat /\ closed w' = [].
Proof.
  destruct (backend_reset_correct 120 0 (mkBackend 9 (Some (0, 0))%nat None None (Some (sample_conn 9 600)) (1, 2))
    sample_servers sample_pools) as (g' & w' & H & _ & _).
  - exact sample_pools_ok.
  - intros c Hc. injection Hc as <-. exact sample_key_ok.
  - left. reflexivity.
  - exists g', w'. split; [exact H|]. vm_compute in H. injection H as <- <-. split; reflexivity.
Defined.

(** A backend whose attempts to connect all failed still points to a server, though it
    never opened a data stream to it: resetting it takes one from the number of
    active connections of that server, which was never increased. *)
Theorem active_connections_underflow now be g w m e :
  mshge be = Some m -> mshge_at g m = Some e -> server_myds be = None -> server_mycpe be = None -> connections_active e = 0 ->
  exists g' e', backend_reset now 1 be g w = Some (mysql_backend_new, g', w) /\
    mshge_at g' m = Some e' /\ connections_active e' = -1.
Proof.
  intros Hm He Hd Hc Ha. rewrite backend_reset_eq, Hm, Hc. eexists _, (count_reset e). split; [done|]. split.
  - unfold mshge_at, upd_mshge in *. cbn. rewrite list_lookup_alter_eq.
    destruct (hostgroups g !! fst m) as [hg|]; [|done]. rewrite bind_Some in He. cbn. rewrite list_lookup_alter_eq, He. done.
  - cbn. by rewrite Ha.
Qed.

Lemma active_connections_underflow_witness :
  exists g' e', backend_reset 120 1 (mkBackend 0 (Some (0, 0))%nat None None None (0, 0)) sample_servers empty_pools =
      Some (mysql_backend_new, g', empty_pools) /\ mshge_at g' (0, 0)%nat = Some e' /\ connections_active e' = -1.
Proof. eapply active_connections_underflow; reflexivity. Defined.
