(* ===== verification/Session.v ===== *)
(** * Sessions, part 1: the state of a session and the packets of the servers
    (src/mysql_session.c, lines 12 to 327)

    A session record holds the fields of [mysql_session_t]; [server_mybe] points to one
    of [mybes], so that it is an index.  [shared] holds the globals the sessions
    work on: the query cache, the statistics, the tables of the administrator and the
    connection pools.  [None] is a NULL pointer that is followed or an access
    outside of an array.

    The MD5 checksum of GLib is an argument ([checksum], the hexadecimal string); the
    times that the system answers are inputs ([clock]). *)
From S2P Require Import Prelude PtrArray Protocol DataStream QueryCache Tokenizer Routing ConnPool Backend.
Open Scope Z_scope.

(** ** State *)

Inductive enum_resultset_progress :=
  | RESULTSET_WAITING | RESULTSET_COLUMN_COUNT | RESULTSET_COLUMN_DEFINITIONS
  | RESULTSET_EOF1 | RESULTSET_ROWS | RESULTSET_COMPLETED.
#[export] Instance progress_eq_decision : EqDecision enum_resultset_progress.
Proof. solve_decision. Defined.

Definition COM_QUIT : Z := 1.
Definition COM_INIT_DB : Z := 2.
Definition COM_QUERY : Z := 3.
Definition COM_STATISTICS : Z := 9.
Definition COM_CHANGE_USER : Z := 17.
Definition COM_STMT_PREPARE : Z := 22.
Definition COM_STMT_EXECUTE : Z := 23.
Definition COM_STMT_SEND_LONG_DATA : Z := 24.
Definition COM_STMT_CLOSE : Z := 25.
Definition COM_STMT_RESET : Z := 26.
Definition COM_END : Z := 30.

(** The configuration variables that sessions read. *)
Record glovars_t := mkGlo {
  mysql_hostgroups : Z; mysql_max_query_size : Z; mysql_max_resultset_size : Z;
  mysql_query_cache_enabled : bool; mysql_query_cache_precheck : bool; mysql_query_cache_default_timeout : Z;
  mysql_share_connections : Z; mysql_query_statistics : bool; mysql_auto_reconnect_enabled : bool;
  mysql_default_schema : list byte; net_buffer_size : nat; hash_expire_max : Z }.

Record shared := mkShared {
  QC : fdb_hashes_group_t; QR_HASH_T : qr_hash_t; gloDefHG : DefHG.global_default_hostgroups_t;
  gloQR : list query_rule_t; glomysrvs : global_mysql_servers; conn_pools : pools_state }.
#[export] Instance shared_eta : Eta shared := fun h =>
  mkShared (QC h) (QR_HASH_T h) (gloDefHG h) (gloQR h) (glomysrvs h) (conn_pools h).

Record session := mkSession {
  sauth : auth; mysql_schema_new : option (list byte); healthy : bool; force_close_backends : Z;
  client_command : Z; resultset_progress : enum_resultset_progress; resultset_size : Z; resultset : list pkt;
  query_info : query_metadata; prepared_statement : Z; query_to_cache : bool; mysql_query_cache_hit : bool;
  mysql_server_reconnect : bool; send_to_slave : bool; client_myds : mysql_data_stream_t;
  server_mybe : option nat; mybes : list mysql_backend_t; default_hostgroup : Z; default_hostgroup_version : Z;
  nfds : Z; last_server_poll_fd : Z; bytes_at_cmd : Z * Z; net_failure : bool; server_fd : Z }.
#[export] Instance session_eta : Eta session := fun s =>
  mkSession (sauth s) (mysql_schema_new s) (healthy s) (force_close_backends s) (client_command s) (resultset_progress s)
    (resultset_size s) (resultset s) (query_info s) (prepared_statement s) (query_to_cache s) (mysql_query_cache_hit s)
    (mysql_server_reconnect s) (send_to_slave s) (client_myds s) (server_mybe s) (mybes s) (default_hostgroup s)
    (default_hostgroup_version s) (nfds s) (last_server_poll_fd s) (bytes_at_cmd s) (net_failure s) (server_fd s).

(** [gettimeofday] in microseconds and [monotonic_time]. *)
Record clock := mkClock { tod : Z; monotonic : Z }.

(** [MY_SESS_ADD_PKT_OUT_CLIENT] and [MY_SESS_ADD_PKT_OUT_SERVER]. *)
Definition add_out (p : pkt) (d : mysql_data_stream_t) : mysql_data_stream_t :=
  d <| output := (output d) <| opkts := opkts (output d) ++ [p] |> |>.
Definition out_client (p : pkt) (s : session) : session := s <| client_myds := add_out p (client_myds s) |>.

Definition current_backend (s : session) : option mysql_backend_t := i ← server_mybe s; mybes s !! i.
Definition set_backend (i : nat) (be : mysql_backend_t) (s : session) : session := s <| mybes := <[i := be]> (mybes s) |>.

(** [sess->server_mybe && sess->server_mybe->server_myds]. *)
Definition server_stream (s : session) : option mysql_data_stream_t := be ← current_backend s; server_myds be.

Definition out_server (p : pkt) (s : session) : option session :=
  i ← server_mybe s; be ← mybes s !! i; d ← server_myds be;
  Some (set_backend i (be <| server_myds := Some (add_out p d) |>) s).

(** [mysql_pkt_get_size]. *)
Definition mysql_pkt_get_size (p : pkt) : Z := u64 (Z.of_nat (length_of p) - 4).

(** ** Small operations *)

(** [queue_back_client_pkt] on any implementation of pointer arrays: [n] bounds the
    turns of the two loops, which move the elements one by one. *)
Section QueueBack.
Context {F : Type -> Type} `{PtrArray F}.

Fixpoint move_all {A} (n : nat) (from to : F A) : option (F A * F A) :=
  if decide (pa_len from = 0%nat) then Some (from, to) else
  match n with
  | O => None
  | S n' => '(x, from) ← pa_remove_index from 0; to ← pa_add to x; move_all n' from to
  end.

Definition queue_back {A} (pkts : F A) (p : A) : option (F A) :=
  new_input_pkts ← pa_sized_new (F:=F) (A:=A) (pa_len pkts);
  new_input_pkts ← pa_add (F:=F) (A:=A) new_input_pkts p;
  '(pkts, new_input_pkts) ← move_all (A:=A) (pa_len pkts) pkts new_input_pkts;
  '(_, pkts) ← move_all (A:=A) (pa_len new_input_pkts) new_input_pkts pkts;
  Some pkts.
End QueueBack.

(** The same on the list an array stands for. *)
Definition queue_back_client_pkt (p : pkt) (s : session) : session :=
  let d := client_myds s in
  s <| client_myds := d <| input := (input d) <| ipkts := p :: ipkts (input d) |> |> |>.

Definition sync_server_bytes_at_cmd (s : session) : session :=
  s <| bytes_at_cmd := match server_stream s with
                       | Some d => (bytes_recv d, bytes_sent d)
                       | None => (0, 0)
                       end |>.

Section Checksum.
Context (checksum : list byte -> list byte) (junk : nat -> byte).

Definition compute_query_checksum (s : session) : option session :=
  match query_checksum (query_info s) with
  | Some _ => Some s
  | None =>
      u ← mysql_username (sauth s); d ← mysql_schema_cur (sauth s);
      Some (s <| query_info := (query_info s) <| query_checksum := Some (checksum (query (query_info s) ++ u ++ d)) |> |>)
  end.

(** [query_statistics_set(sess)]. *)
Definition session_statistics (t : clock) (s : session) (h : shared) : option (session * shared) :=
  match query_stats (query_info s) with
  | SAlloc e =>
      ht ← query_statistics_set (monotonic t) (QR_HASH_T h) e;
      Some (s <| query_info := (query_info s) <| query_stats := SNull |> |>, h <| QR_HASH_T := ht |>)
  | _ => None
  end.

(** 0: the result was found and given to the client; -1: it was not. *)
Definition get_result_from_mysql_query_cache (G : glovars_t) (t : clock) (s : session) (h : shared)
  : option (Z * session * shared) :=
  s ← compute_query_checksum s;
  k ← query_checksum (query_info s);
  '(r, qc) ← fdb_get (QC h) k;
  let h := h <| QC := qc |> in
  match r with
  | Some QCresult =>
      let s := (out_client QCresult s) <| mysql_query_cache_hit := true |> <| query_to_cache := false |> in
      if mysql_query_statistics G then '(s, h) ← session_statistics t s h; Some (0, s, h) else Some (0, s, h)
  | None => Some (-1, s, h)
  end.

(** ** Packets from the server *)

Definition server_COM_QUIT (p : pkt) (r : MySQL_response_type) (s : session) : session :=
  if decide (r = OK_Packet) then out_client p s else s.

Definition server_COM_STATISTICS (p : pkt) (s : session) : session := sync_server_bytes_at_cmd (out_client p s).

Definition server_COM_INIT_DB (p : pkt) (r : MySQL_response_type) (s : session) : session :=
  let s := match server_mybe s with
           | Some i => s <| mybes := alter (fun be => be <| last_mysql_connpool := None |>) i (mybes s) |>
           | None => s
           end in
  let s := if decide (r = OK_Packet) then
             out_client p (s <| sauth := (sauth s) <| mysql_schema_cur := mysql_schema_new s |> |>)
           else s in
  let s := if decide (r = ERR_Packet) then out_client p s else s in
  sync_server_bytes_at_cmd (s <| mysql_schema_new := None |>).

(** The loop that gives the connections of all the host groups back; the
    condition [ACTIVE_TRANSACTION(sess)==0] reads the current backend at each turn. *)
Fixpoint detach_loop (G : glovars_t) (t : clock) (n i : nat) (s : session) (h : shared) : option (session * shared) :=
  match n with
  | O => Some (s, h)
  | S n' =>
      be ← mybes s !! i;
      d ← server_stream s;
      '(s, h) ← (if negb (active_transaction d) && (mysql_share_connections G =? 1) then
                   '(be, w) ← backend_detach (tod t) 0 be (conn_pools h);
                   Some (set_backend i be s, h <| conn_pools := w |>)
                 else Some (s, h));
      detach_loop G t n' (S i) s h
  end.

Definition detach_all (G : glovars_t) (t : clock) (s : session) (h : shared) : option (session * shared) :=
  '(s, h) ← detach_loop G t (Z.to_nat (mysql_hostgroups G)) 0 s h;
  Some (s <| nfds := 1 |>, h).

(** The four conditionals on the type of the packet. *)
Definition resultset_step (G : glovars_t) (t : clock) (r : MySQL_response_type) (s : session) (h : shared)
  : option (session * shared) :=
  match r with
  | OK_Packet =>
      if decide (resultset_progress s = RESULTSET_WAITING) then
        detach_all G t (s <| resultset_progress := RESULTSET_COMPLETED |>) h
      else Some (s <| resultset_progress := RESULTSET_ROWS |>, h)
  | ERR_Packet => Some (s <| resultset_progress := RESULTSET_COMPLETED |> <| nfds := 1 |>, h)
  | EOF_Packet =>
      if decide (resultset_progress s = RESULTSET_COLUMN_DEFINITIONS) then
        Some (s <| resultset_progress := RESULTSET_EOF1 |>, h)
      else detach_all G t (s <| resultset_progress := RESULTSET_COMPLETED |>) h
  | UNKNOWN_Packet =>
      Some (s <| resultset_progress :=
        match resultset_progress s with
        | RESULTSET_WAITING => RESULTSET_COLUMN_COUNT
        | RESULTSET_COLUMN_COUNT | RESULTSET_COLUMN_DEFINITIONS => RESULTSET_COLUMN_DEFINITIONS
        | RESULTSET_EOF1 | RESULTSET_ROWS => RESULTSET_ROWS
        | RESULTSET_COMPLETED => RESULTSET_COMPLETED
        end |>, h)
  end.

(** The packet is kept in the result set, or, above the limit, everything goes to the client. *)
Definition resultset_store (G : glovars_t) (p : pkt) (s : session) : session :=
  let s := s <| resultset_size := u64 (resultset_size s + Z.of_nat (length_of p)) |> in
  if resultset_size s <? mysql_max_resultset_size G then s <| resultset := resultset s ++ [p] |>
  else out_client p (fold_left (fun s p => out_client p s) (resultset s) (s <| query_to_cache := false |> <| resultset := [] |>)).

(** The entry made for the query cache: [resultset_size] bytes, of which the packets fill the
    first ones. *)
Definition resultset_cache (G : glovars_t) (s : session) (h : shared) : option shared :=
  k ← query_checksum (query_info s);
  let kl := Z.of_nat (length k) in
  if fdb_hashes_group_free_mem (QC h) <? u64 (kl + resultset_size s + sizeof_meta) then
    Some (h <| QC := (QC h) <| cntSetERR := u64 (cntSetERR (QC h) + 1) |> |>)
  else
    vp ← mem_write 0 (mjoin (data <$> resultset s)) (block junk (Z.to_nat (resultset_size s)));
    qc ← fdb_set (hash_expire_max G) (QC h) k kl vp (Z.to_nat (resultset_size s)) (cache_ttl (query_info s)) false;
    Some (h <| QC := qc |>).

(** The end of a result set. *)
Definition resultset_complete (G : glovars_t) (t : clock) (s : session) (h : shared) : option (session * shared) :=
  let s := s <| resultset_progress := RESULTSET_WAITING |> in
  '(s, h) ← (if mysql_query_statistics G then session_statistics t s h else Some (s, h));
  let s := (sync_server_bytes_at_cmd s) <| send_to_slave := false |> in
  h ← (if query_to_cache s then resultset_cache G s h else Some h);
  let s := if resultset_size s <? mysql_max_resultset_size G
           then (fold_left (fun s p => out_client p s) (resultset s) s) <| resultset := [] |>
           else s in
  Some (s, h).

Definition server_COM_QUERY (G : glovars_t) (t : clock) (p : pkt) (r : MySQL_response_type) (s : session) (h : shared)
  : option (session * shared) :=
  '(s, h) ← resultset_step G t r s h;
  let s := resultset_store G p s in
  if decide (resultset_progress s = RESULTSET_COMPLETED) then resultset_complete G t s h else Some (s, h).

(** One turn of the loop of [process_server_pkts]; [beyond] is what lies behind the packet in memory. *)
Definition process_server_pkt (G : glovars_t) (t : clock) (beyond : list byte) (p : pkt) (s : session) (h : shared)
  : option (session * shared) :=
  r ← mysql_response p;
  s ← (if bool_decide (r = OK_Packet) || bool_decide (r = EOF_Packet) then
         i ← server_mybe s; be ← mybes s !! i; d ← server_myds be; a ← is_transaction_active beyond p;
         Some (set_backend i (be <| server_myds := Some (d <| active_transaction := a |>) |>) s)
       else Some s);
  if client_command s =? COM_QUIT then Some (server_COM_QUIT p r s, h) else
  if client_command s =? COM_INIT_DB then Some (server_COM_INIT_DB p r s, h) else
  if client_command s =? COM_STATISTICS then Some (server_COM_STATISTICS p s, h) else
  if client_command s =? COM_QUERY then server_COM_QUERY G t p r s h else
  Some (out_client p s, h).

(** [while(server_mybe && server_myds->input.pkts->len)]: [n] bounds the number of packets. *)
Fixpoint process_server_loop (G : glovars_t) (t : clock) (beyond : list byte) (n : nat) (s : session) (h : shared)
  : option (session * shared) :=
  match server_mybe s with
  | None => Some (s, h)
  | Some i =>
      be ← mybes s !! i;
      d ← server_myds be;
      match ipkts (input d) with
      | [] => Some (s, h)
      | p :: ps =>
          match n with
          | O => None
          | S n' =>
              let s := set_backend i (be <| server_myds := Some (d <| input := (input d) <| ipkts := ps |> |>) |>) s in
              '(s, h) ← process_server_pkt G t beyond p s h;
              process_server_loop G t beyond n' s h
          end
      end
  end.

Definition process_server_pkts (G : glovars_t) (t : clock) (beyond : list byte) (s : session) (h : shared)
  : option (session * shared) :=
  match server_stream s with
  | None => Some (s, h)
  | Some d => process_server_loop G t beyond (length (ipkts (input d))) s h
  end.

End Checksum.

(** * Properties *)

(** ** Queueing a packet back *)

Section QueueBackSpec.
Context {F : Type -> Type} `{PtrArrayLaws F}.

Lemma move_all_spec {A} (l : list A) : forall n (from to : F A) k,
  pa_rep from l -> pa_rep to k -> (length l <= n)%nat -> Z.of_nat (length l + length k) <= pa_max ->
  exists from' to', move_all n from to = Some (from', to') /\ pa_rep from' [] /\ pa_rep to' (k ++ l).
Proof.
  induction l as [|x l IH]; intros n from to k Hf Ht Hn Hmax.
  - exists from, to. rewrite app_nil_r. split_and!; try done.
    destruct n; cbn [move_all]; rewrite (pa_len_spec _ _ Hf); by rewrite decide_True.
  - destruct n as [|n]; [simpl in Hn; lia|]. cbn [move_all]. rewrite (pa_len_spec _ _ Hf), decide_False by done.
    destruct (pa_remove_index_spec from (x :: l) 0 x Hf eq_refl) as (from1 & -> & Hf1). rewrite bind_Some.
    destruct (pa_add_spec to k x Ht) as (to1 & -> & Ht1); [simpl in Hmax; lia|]. rewrite bind_Some.
    destruct (IH n from1 to1 (k ++ [x]) Hf1 Ht1) as (from' & to' & -> & ? & Hto); [simpl in Hn; lia|simpl in Hmax; px_len|].
    exists from', to'. split_and!; try done. by rewrite <- app_assoc in Hto.
Qed.

End QueueBackSpec.

(** Putting back a packet that can not be served yet leaves it the first of the
    client's packets, with the others behind it in their order, on every
    implementation of the pointer arrays that keeps their contract. *)
Theorem queue_back_front (F : Type -> Type) `{PtrArrayLaws F} (A : Type) (pkts : F A) (l : list A) (p : A) :
  pa_rep pkts l -> Z.of_nat (length l) < pa_max ->
  exists pkts', queue_back pkts p = Some pkts' /\ pa_rep pkts' (p :: l).
Proof.
  intros Hr Hm. unfold queue_back. rewrite (pa_len_spec _ _ Hr).
  destruct (pa_sized_new_spec (F:=F) (A:=A) (length l)) as (a & -> & Ha); [lia|]. rewrite bind_Some.
  destruct (pa_add_spec a [] p Ha) as (a1 & -> & Ha1); [done|]. rewrite bind_Some.
  destruct (move_all_spec l (length l) pkts a1 [p] Hr Ha1) as (e & b & -> & He & Hb); [lia|px_len|]. rewrite bind_Some.
  destruct (move_all_spec ([p] ++ l) (pa_len b) b e [] Hb He) as (b' & e' & -> & _ & He');
    [rewrite (pa_len_spec _ _ Hb); px_len|px_len|]. rewrite bind_Some. by exists e'.
Qed.

Lemma queue_back_front_witness :
  exists a a', LArr.l_ptr_array_sized_new 2 = Some a /\ queue_back (F:=LArr.LPtrArray) a 7 = Some a' /\ LArr.rep a' [7].
Proof.
  destruct (LArr.sized_new_rep (A:=Z) 2) as (a & E & Hr & _); [vm_compute; discriminate|].
  destruct (queue_back_front LArr.LPtrArray Z a [] 7) as (a' & E' & H'); [exact Hr|vm_compute; reflexivity|].
  exists a, a'. split; [exact E|]. split; [exact E'|exact H'].
Defined.

(** ** The state of a result set *)

Definition step_progress (r : MySQL_response_type) (g : enum_resultset_progress) : enum_resultset_progress :=
  match r, g with
  | OK_Packet, RESULTSET_WAITING => RESULTSET_COMPLETED
  | OK_Packet, _ => RESULTSET_ROWS
  | ERR_Packet, _ => RESULTSET_COMPLETED
  | EOF_Packet, RESULTSET_COLUMN_DEFINITIONS => RESULTSET_EOF1
  | EOF_Packet, _ => RESULTSET_COMPLETED
  | UNKNOWN_Packet, RESULTSET_WAITING => RESULTSET_COLUMN_COUNT
  | UNKNOWN_Packet, (RESULTSET_COLUMN_COUNT | RESULTSET_COLUMN_DEFINITIONS) => RESULTSET_COLUMN_DEFINITIONS
  | UNKNOWN_Packet, (RESULTSET_EOF1 | RESULTSET_ROWS) => RESULTSET_ROWS
  | UNKNOWN_Packet, RESULTSET_COMPLETED => RESULTSET_COMPLETED
  end.

(** The responses to a query: OK, an error, or a result set (the column count, the
    definitions, EOF, rows, and EOF or an error); a row may look like an OK packet. *)
Inductive response : list MySQL_response_type -> Prop :=
  | resp_ok : response [OK_Packet]
  | resp_err : response [ERR_Packet]
  | resp_rows defs rows last :
      defs <> [] -> Forall (fun r => r = UNKNOWN_Packet) defs ->
      Forall (fun r => r = UNKNOWN_Packet \/ r = OK_Packet) rows -> last = EOF_Packet \/ last = ERR_Packet ->
      response (UNKNOWN_Packet :: defs ++ EOF_Packet :: rows ++ [last]).

Definition progress_after (g : enum_resultset_progress) (rs : list MySQL_response_type) : enum_resultset_progress :=
  fold_left (fun g r => step_progress r g) rs g.

Lemma progress_same (P : MySQL_response_type -> Prop) (g : enum_resultset_progress) rs :
  (forall r, P r -> step_progress r g = g) -> Forall P rs ->
  forall k, progress_after g (take k rs) = g.
Proof.
  intros Hs Hf. induction Hf as [|r rs Hr Hf IH]; intros k; [by rewrite take_nil|].
  destruct k as [|k]; [done|]. cbn. rewrite (Hs r Hr). apply IH.
Qed.

Lemma progress_app g a b : progress_after g (a ++ b) = progress_after (progress_after g a) b.
Proof. apply fold_left_app. Qed.

(** A response is complete after its last packet, and not before. *)
Lemma response_progress rs : response rs ->
  progress_after RESULTSET_WAITING rs = RESULTSET_COMPLETED /\
  forall k, (k < length rs)%nat -> progress_after RESULTSET_WAITING (take k rs) <> RESULTSET_COMPLETED.
Proof.
  intros [| |defs rows last Hne Hd Hr Hl].
  - split; [done|]. intros [|k] Hk; [done|simpl in Hk; lia].
  - split; [done|]. intros [|k] Hk; [done|simpl in Hk; lia].
  - destruct defs as [|d defs]; [done|]. apply Forall_cons in Hd as [-> Hd].
    assert (Hdefs : forall k, progress_after RESULTSET_COLUMN_DEFINITIONS (take k defs) = RESULTSET_COLUMN_DEFINITIONS)
      by (apply (progress_same (fun r => r = UNKNOWN_Packet)); [by intros r ->|done]).
    assert (Hrows : forall k, progress_after RESULTSET_EOF1 (take k rows) = RESULTSET_EOF1 \/
                              progress_after RESULTSET_EOF1 (take k rows) = RESULTSET_ROWS).
    { destruct rows as [|r rows]; intros [|k]; cbn; auto. right. apply Forall_cons in Hr as [Hr0 Hr].
      assert (step_progress r RESULTSET_EOF1 = RESULTSET_ROWS) as -> by (destruct Hr0 as [->| ->]; done).
      apply (progress_same (fun r => r = UNKNOWN_Packet \/ r = OK_Packet)); [by intros x [->| ->]|done]. }
    pose proof (Hdefs (length defs)) as Hda. rewrite firstn_all in Hda.
    pose proof (Hrows (length rows)) as Hra. rewrite firstn_all in Hra.
    split.
    + cbn. fold (progress_after RESULTSET_COLUMN_DEFINITIONS (defs ++ EOF_Packet :: rows ++ [last])).
      rewrite progress_app, Hda. cbn. fold (progress_after RESULTSET_EOF1 (rows ++ [last])).
      rewrite progress_app. destruct Hra as [-> | ->], Hl as [->| ->]; done.
    + intros [|[|k]] Hk; [done|done|]. cbn. fold (progress_after RESULTSET_COLUMN_DEFINITIONS (take k (defs ++ EOF_Packet :: rows ++ [last]))).
      rewrite take_app, progress_app, Hdefs. destruct (k - length defs)%nat as [|j] eqn:Ej; [done|]. cbn.
      fold (progress_after RESULTSET_EOF1 (take j (rows ++ [last]))).
      assert (j <= length rows)%nat by (simpl in Hk; rewrite !length_app in Hk; simpl in Hk; rewrite length_app in Hk; simpl in Hk; lia).
      rewrite take_app_le by done. destruct (Hrows j) as [-> | ->]; done.
Qed.

(** ** What the server's packets rely on *)

Record sess_ok (G : glovars_t) (s : session) (h : shared) : Prop := {
  so_stream : exists i be d, server_mybe s = Some i /\ mybes s !! i = Some be /\ server_myds be = Some d;
  so_mybes : Z.of_nat (length (mybes s)) = mysql_hostgroups G;
  so_keys : forall be c, be ∈ mybes s -> server_mycpe be = Some c -> key_ok (m_key (conn c));
  so_pools : state_inv (conn_pools h) }.

(** The packets of the current backend that wait to be processed. *)
Definition input_queue (s : session) : option (list pkt) := d ← server_stream s; Some (ipkts (input d)).

Lemma input_queue_set s i be be' :
  mybes s !! i = Some be -> (forall d, server_myds be = Some d -> exists d', server_myds be' = Some d' /\ ipkts (input d') = ipkts (input d)) ->
  is_Some (input_queue s) -> input_queue (set_backend i be' s) = input_queue s.
Proof.
  unfold input_queue, server_stream, current_backend. cbn. intros Hb Hd [q Hq].
  destruct (server_mybe s) as [j|]; [|done]. rewrite !bind_Some. rewrite bind_Some in Hq. destruct (decide (j = i)) as [->|Hne].
  - rewrite list_lookup_insert_eq by (by eapply lookup_lt_Some). rewrite Hb, bind_Some in Hq. rewrite Hb, !bind_Some.
    destruct (server_myds be) as [d|]; [|done]. destruct (Hd d eq_refl) as (d' & -> & Hi). rewrite !bind_Some. by rewrite Hi.
  - by rewrite list_lookup_insert_ne.
Qed.

(** The parts that giving back connections does not touch. *)
Definition same_core (s s' : session) (h h' : shared) : Prop :=
  client_myds s' = client_myds s /\ resultset s' = resultset s /\ resultset_size s' = resultset_size s /\
  query_info s' = query_info s /\ query_to_cache s' = query_to_cache s /\ client_command s' = client_command s /\
  sauth s' = sauth s /\ QC h' = QC h /\ QR_HASH_T h' = QR_HASH_T h /\ input_queue s' = input_queue s.

Lemma same_core_refl s h : same_core s s h h.
Proof. done. Qed.

Lemma same_core_trans s1 s2 s3 h1 h2 h3 : same_core s1 s2 h1 h2 -> same_core s2 s3 h2 h3 -> same_core s1 s3 h1 h3.
Proof. unfold same_core. intros; intuition congruence. Qed.

(** Changing one backend without taking its stream away keeps the session in order. *)
Lemma set_backend_ok G s h i be be' w :
  sess_ok G s h -> mybes s !! i = Some be -> (is_Some (server_myds be) -> is_Some (server_myds be')) ->
  (forall c, server_mycpe be' = Some c -> key_ok (m_key (conn c))) -> state_inv w ->
  sess_ok G (set_backend i be' s) (h <| conn_pools := w |>).
Proof.
  intros [(i0 & be0 & d & Hi & Hb & Hd) Hl Hk Hp] Hbe Hs Hk' Hw. split; cbn.
  - destruct (decide (i0 = i)) as [->|Hne].
    + simplify_eq. destruct (Hs ltac:(by rewrite Hd)) as [d' Hd']. exists i, be', d'.
      by rewrite list_lookup_insert_eq by (by eapply lookup_lt_Some).
    + exists i0, be0, d. by rewrite list_lookup_insert_ne.
  - by rewrite length_insert.
  - intros b c Hin Hc. apply list_elem_of_lookup_1 in Hin as [j Hj].
    apply list_lookup_insert_Some in Hj as [(<- & <- & _)|[_ Hj]]; [by apply Hk'|].
    eapply Hk; [by eapply list_elem_of_lookup_2|done].
  - done.
Qed.

Lemma set_backend_same G s h i be be' :
  sess_ok G s h -> mybes s !! i = Some be -> (is_Some (server_myds be) -> is_Some (server_myds be')) ->
  server_mycpe be' = server_mycpe be -> sess_ok G (set_backend i be' s) h.
Proof.
  intros Hok Hb Hs Hc. pose proof (set_backend_ok G s h i be be' (conn_pools h) Hok Hb Hs) as H. destruct h.
  apply H; [|apply Hok]. rewrite Hc. intros c E. eapply so_keys; [exact Hok| |exact E]. by eapply list_elem_of_lookup_2.
Qed.

Lemma backend_detach_spec now be w :
  state_inv w -> (forall c, server_mycpe be = Some c -> key_ok (m_key (conn c))) ->
  exists be' w', backend_detach now 0 be w = Some (be', w') /\ state_inv w' /\ server_myds be' = server_myds be /\
    (forall c, server_mycpe be' = Some c -> server_mycpe be = Some c).
Proof.
  intros Hw Hk. unfold backend_detach, backend_reset_server_mycpe. cbn.
  destruct (server_mycpe be) as [c|] eqn:Ec; [|eexists _, w; by split_and!].
  destruct (negb (reusable c =? 0)); [|eexists _, w; split_and!; [done..|]; intros c0 Hc0; cbn in Hc0; congruence].
  destruct (detach_spec now None c 0 w Hw (Hk c eq_refl) I) as (w' & -> & Hi & _).
  rewrite bind_Some. eexists _, w'. by split_and!.
Qed.

Lemma detach_loop_spec G t n : forall i s h,
  sess_ok G s h -> (i + n = length (mybes s))%nat ->
  exists s' h', detach_loop G t n i s h = Some (s', h') /\ sess_ok G s' h' /\ same_core s s' h h' /\
    resultset_progress s' = resultset_progress s.
Proof.
  induction n as [|n IH]; intros i s h Hok Hn; [by exists s, h|].
  cbn [detach_loop]. destruct (lookup_lt_is_Some_2 (mybes s) i) as [be Hbe]; [lia|]. rewrite Hbe, bind_Some.
  pose proof (so_stream _ _ _ Hok) as (i0 & be0 & d & Hi & Hb & Hd).
  assert (server_stream s = Some d) as -> by (unfold server_stream, current_backend; by rewrite Hi, bind_Some, Hb, bind_Some).
  rewrite bind_Some. destruct (negb (active_transaction d) && _); [|apply IH; [done|lia]].
  destruct (backend_detach_spec (tod t) be (conn_pools h)) as (be' & w & -> & Hw & Hm & Hc);
    [apply Hok|intros c Hc; eapply so_keys; [done| |done]; by eapply list_elem_of_lookup_2|].
  rewrite !bind_Some.
  destruct (IH (S i) (set_backend i be' s) (h <| conn_pools := w |>)) as (s' & h' & -> & Hok' & Hsc & Hpr).
  - eapply set_backend_ok; [done|done|by rewrite Hm| |done]. intros c Hc'. eapply so_keys; [done| |by apply Hc].
    by eapply list_elem_of_lookup_2.
  - cbn. rewrite length_insert. lia.
  - exists s', h'. split_and!; try done. eapply same_core_trans; [|exact Hsc].
    unfold same_core. split_and!; try done. apply (input_queue_set s i be be'); [done| |].
    + intros d' Hd'. exists d'. by rewrite Hm.
    + unfold input_queue, server_stream, current_backend. by rewrite Hi, bind_Some, Hb, bind_Some, Hd.
Qed.

Lemma resultset_step_spec G t r s h : 0 <= mysql_hostgroups G -> sess_ok G s h ->
  exists s' h', resultset_step G t r s h = Some (s', h') /\ sess_ok G s' h' /\ same_core s s' h h' /\
    resultset_progress s' = step_progress r (resultset_progress s).
Proof.
  intros Hg Hok.
  assert (Hdet : forall g, exists s' h', detach_all G t (s <| resultset_progress := g |>) h = Some (s', h') /\ sess_ok G s' h' /\
    same_core s s' h h' /\ resultset_progress s' = g).
  { intros g. unfold detach_all.
    destruct (detach_loop_spec G t (Z.to_nat (mysql_hostgroups G)) 0 (s <| resultset_progress := g |>) h)
      as (s' & h' & -> & [] & Hsc & Hpr).
    - destruct Hok. by split.
    - cbn. pose proof (so_mybes _ _ _ Hok). lia.
    - rewrite bind_Some. eexists _, h'. split; [done|]. split; [by split|]. by split. }
  assert (Hset : forall f : session -> session, (forall x, sess_ok G x h -> sess_ok G (f x) h) -> same_core s (f s) h h ->
    resultset_progress (f s) = step_progress r (resultset_progress s) ->
    exists s' h', Some (f s, h) = Some (s', h') /\ sess_ok G s' h' /\ same_core s s' h h' /\
      resultset_progress s' = step_progress r (resultset_progress s)).
  { intros f Hf Hsc Hp. exists (f s), h. split_and!; auto. }
  unfold resultset_step. destruct r.
  - case_decide as Hw; [rewrite Hw; apply (Hdet RESULTSET_COMPLETED)|].
    apply (Hset (fun s => s <| resultset_progress := RESULTSET_ROWS |>)); [intros x []; by split|done|].
    cbn. by destruct (resultset_progress s).
  - apply (Hset (fun s => s <| resultset_progress := RESULTSET_COMPLETED |> <| nfds := 1 |>)); [intros x []; by split|done|].
    cbn. by destruct (resultset_progress s).
  - case_decide as Hw.
    + apply (Hset (fun s => s <| resultset_progress := RESULTSET_EOF1 |>)); [intros x []; by split|done|]. cbn. by rewrite Hw.
    + destruct (Hdet RESULTSET_COMPLETED) as (s' & h' & ? & ? & ? & Hp). exists s', h'. split_and!; try done.
      rewrite Hp. by destruct (resultset_progress s).
  - eexists _, h. split; [done|]. split; [destruct Hok; by split|]. split; [done|]. cbn. by destruct (resultset_progress s).
Qed.

(** ** Relaying a response *)

Definition total_len (ps : list pkt) : Z := Z.of_nat (sum_list_with length_of ps).
Definition client_out (s : session) : list pkt := opkts (output (client_myds s)).

Lemma total_len_snoc ps p : total_len (ps ++ [p]) = total_len ps + Z.of_nat (length_of p).
Proof. unfold total_len. rewrite sum_list_with_app. cbn. lia. Qed.

Lemma total_len_nonneg ps : 0 <= total_len ps.
Proof. unfold total_len. lia. Qed.

Lemma out_client_fold l : forall s,
  fold_left (fun s p => out_client p s) l s =
    s <| client_myds := fold_left (fun d p => add_out p d) l (client_myds s) |>.
Proof.
  induction l as [|p l IH]; intros s; [by destruct s|]. cbn [fold_left]. rewrite IH. by destruct s.
Qed.

Lemma add_out_fold l : forall d, opkts (output (fold_left (fun d p => add_out p d) l d)) = opkts (output d) ++ l.
Proof.
  induction l as [|p l IH]; intros d; cbn [fold_left]; [by rewrite app_nil_r|]. rewrite IH. cbn. by rewrite <- app_assoc.
Qed.

Section Relay.
Context (junk : nat -> byte) (G : glovars_t) (t : clock) (beyond : list byte).
Context (Hhg : 0 <= mysql_hostgroups G).

(** After the packets [ps] of a response that is not complete. *)
Record relaying (s0 : session) (h0 : shared) (ps : list pkt) (s : session) (h : shared) : Prop := {
  rl_ok : sess_ok G s h;
  rl_cmd : client_command s = COM_QUERY;
  rl_info : query_info s = query_info s0;
  rl_qc : QC h = QC h0;
  rl_qr : QR_HASH_T h = QR_HASH_T h0;
  rl_size : resultset_size s = total_len ps;
  rl_small : total_len ps < mysql_max_resultset_size G ->
    resultset s = ps /\ client_out s = client_out s0 /\ query_to_cache s = query_to_cache s0;
  rl_large : mysql_max_resultset_size G <= total_len ps ->
    resultset s = [] /\ client_out s = client_out s0 ++ ps /\ (ps <> [] -> query_to_cache s = false) }.

(** The flag of the transaction, which OK and EOF packets carry, can be read. *)
Definition readable (p : pkt) : Prop :=
  exists r, mysql_response p = Some r /\ (r = OK_Packet \/ r = EOF_Packet -> is_Some (is_transaction_active beyond p)).

(** Up to the storing of the packet. *)
Lemma relay_store s0 h0 ps p s h :
  relaying s0 h0 ps s h -> readable p -> total_len (ps ++ [p]) < 2 ^ 64 ->
  exists r s2 h2, mysql_response p = Some r /\
    process_server_pkt junk G t beyond p s h =
      (if decide (resultset_progress s2 = RESULTSET_COMPLETED) then resultset_complete junk G t s2 h2 else Some (s2, h2)) /\
    relaying s0 h0 (ps ++ [p]) s2 h2 /\ resultset_progress s2 = step_progress r (resultset_progress s) /\
    input_queue s2 = input_queue s.
Proof.
  intros R (r & Hr & Hact) Hlen. unfold process_server_pkt. rewrite Hr, bind_Some.
  assert (exists s1, (if bool_decide (r = OK_Packet) || bool_decide (r = EOF_Packet) then
         i ← server_mybe s; be ← mybes s !! i; d ← server_myds be; a ← is_transaction_active beyond p;
         Some (set_backend i (be <| server_myds := Some (d <| active_transaction := a |>) |>) s)
       else Some s) = Some s1 /\ sess_ok G s1 h /\ same_core s s1 h h /\ resultset_progress s1 = resultset_progress s)
    as (s1 & -> & Hok1 & Hsc1 & Hp1).
  { destruct (bool_decide (r = OK_Packet) || bool_decide (r = EOF_Packet)) eqn:Eb.
    - destruct Hact as [a ->]. { apply orb_true_iff in Eb as [?%bool_decide_eq_true|?%bool_decide_eq_true]; auto. }
      pose proof (so_stream _ _ _ (rl_ok _ _ _ _ _ R)) as (i & be & d & Hi & Hb & Hd).
      rewrite Hi, bind_Some, Hb, bind_Some, Hd, !bind_Some. eexists. split; [done|]. split; [|split; [|done]].
      2: { unfold same_core. split_and!; try done. apply (input_queue_set s i be); [done| |].
           - intros d0 Hd0. rewrite Hd in Hd0. injection Hd0 as <-. by eexists.
           - unfold input_queue, server_stream, current_backend. by rewrite Hi, bind_Some, Hb, bind_Some, Hd. }
      apply (set_backend_same G s h i be); [apply R|done|done|done].
    - exists s. split_and!; [done|apply R|done|done]. }
  rewrite bind_Some. pose proof Hsc1 as (C1 & C2 & C3 & C4 & C5 & C6 & C7 & C8 & C9 & C10).
  rewrite C6, (rl_cmd _ _ _ _ _ R). cbn [Z.eqb COM_QUERY COM_QUIT COM_INIT_DB COM_STATISTICS Pos.eqb]. unfold server_COM_QUERY.
  destruct (resultset_step_spec G t r s1 h Hhg Hok1) as (s2 & h2 & -> & Hok2 & Hsc2 & Hp2). rewrite bind_Some.
  exists r, (resultset_store G p s2), h2. split; [done|]. split; [done|].
  pose proof (same_core_trans _ _ _ _ _ _ Hsc1 Hsc2) as (D1 & D2 & D3 & D4 & D5 & D6 & D7 & D8 & D9 & D10).
  pose proof (total_len_nonneg ps). pose proof (total_len_snoc ps p) as Hsn.
  unfold resultset_store. cbv zeta. cbn [resultset_size upd]. rewrite D3, (rl_size _ _ _ _ _ R), uwrap_small, <- Hsn by lia.
  destruct (Z.ltb_spec (total_len (ps ++ [p])) (mysql_max_resultset_size G)) as [Hlt|Hge].
  - destruct (rl_small _ _ _ _ _ R) as (S1 & S2 & S3); [lia|]. split; [|split; [cbn; by rewrite Hp2, Hp1|exact D10]].
    split; cbn; try congruence; try (by destruct Hok2; split); try (by rewrite D6; apply R); try (by rewrite D4; apply R);
      try (by rewrite D8; apply R); try (by rewrite D9; apply R); try lia.
    intros _. unfold client_out in *. cbn. rewrite D2, D1, D5, S1, S2, S3. done.
  - rewrite out_client_fold. split; [|split; [cbn; by rewrite Hp2, Hp1|exact D10]].
    split; cbn; try congruence; try (by destruct Hok2; split); try (by rewrite D6; apply R); try (by rewrite D4; apply R);
      try (by rewrite D8; apply R); try (by rewrite D9; apply R); try lia.
    intros _. split_and!; [done| |done]. unfold client_out at 1. cbn. rewrite add_out_fold, D1, D2. fold (client_out s).
    destruct (Z.ltb_spec (total_len ps) (mysql_max_resultset_size G)) as [Hl|Hl].
    + destruct (rl_small _ _ _ _ _ R Hl) as (-> & -> & _). by rewrite <- app_assoc.
    + destruct (rl_large _ _ _ _ _ R Hl) as (-> & -> & _). by rewrite app_nil_r, <- app_assoc.
Qed.

(** The statistics, when they are on, can be recorded. *)
Definition stats_ready (s : session) (h : shared) : Prop :=
  mysql_query_statistics G = true ->
  exists e ht, query_stats (query_info s) = SAlloc e /\ query_statistics_set (monotonic t) (QR_HASH_T h) e = Some ht.

(** What becomes of the query cache at the end of a response [ps]. *)
Definition caches (s0 : session) (ps : list pkt) : Prop :=
  query_to_cache s0 = true /\ total_len ps < mysql_max_resultset_size G.

Definition cache_after (s0 : session) (h0 : shared) (ps : list pkt) (qc : fdb_hashes_group_t) : Prop :=
  exists k, query_checksum (query_info s0) = Some k /\
  if decide (fdb_hashes_group_free_mem (QC h0) < Z.of_nat (length k) + total_len ps + sizeof_meta) then
    qc = (QC h0) <| cntSetERR := u64 (cntSetERR (QC h0) + 1) |>
  else
    forall k', view qc k' = if decide (k' = k) then
        Some (mjoin (data <$> ps), new_expire (hash_expire_max G) (QC h0) (cache_ttl (query_info s0))) else view (QC h0) k'.

Lemma mjoin_data_length ps : Forall (fun p => length (data p) = length_of p) ps ->
  Z.of_nat (length (mjoin (data <$> ps))) = total_len ps.
Proof.
  unfold total_len. induction 1 as [|p ps Hp Hps IH]; [done|]. rewrite fmap_cons, mjoin_cons, length_app. cbn. lia.
Qed.

Lemma resultset_cache_spec s0 h0 ps s h :
  group_inv (QC h0) -> QC h = QC h0 -> query_info s = query_info s0 -> is_Some (query_checksum (query_info s0)) ->
  resultset s = ps -> resultset_size s = total_len ps -> Forall (fun p => length (data p) = length_of p) ps ->
  (forall k, query_checksum (query_info s0) = Some k -> Z.of_nat (length k) + total_len ps + sizeof_meta < 2 ^ 64) ->
  exists h', resultset_cache junk G s h = Some h' /\ cache_after s0 h0 ps (QC h') /\ group_inv (QC h') /\
    conn_pools h' = conn_pools h /\ now (QC h') = now (QC h0).
Proof.
  intros Hg Hqc Hqi [k Hk] Hrs Hsz Hwf Hsmall. unfold resultset_cache, cache_after. rewrite Hqi, Hk, bind_Some, Hqc.
  specialize (Hsmall k Hk). pose proof (mjoin_data_length ps Hwf) as Hml. pose proof (total_len_nonneg ps).
  rewrite Hsz, uwrap_small by (unfold sizeof_meta in *; lia).
  destruct (Z.ltb_spec (fdb_hashes_group_free_mem (QC h0)) (Z.of_nat (length k) + total_len ps + sizeof_meta)).
  - eexists. split; [done|]. split; [exists k; split; [done|]; by rewrite decide_True by lia|].
    split; [destruct Hg; by split|]. split; [done|done].
  - rewrite Hrs. rewrite <- Hml, Nat2Z.id.
    assert (mem_write 0 (mjoin (data <$> ps)) (block junk (length (mjoin (data <$> ps)))) = Some (mjoin (data <$> ps))) as ->.
    { unfold mem_write. rewrite length_block, decide_True by lia. cbn. rewrite drop_ge by (rewrite length_block; lia).
      by rewrite app_nil_r. }
    rewrite bind_Some.
    destruct (fdb_set_ok (hash_expire_max G) (QC h0) k (mjoin (data <$> ps)) (length (mjoin (data <$> ps)))
      (cache_ttl (query_info s0)) false Hg) as (qc & -> & Hg' & Hv & Hnow); [lia|]. rewrite bind_Some.
    eexists. split; [done|]. split; [|split; [exact Hg'|by split]]. exists k. split; [done|]. rewrite decide_False by lia.
    intros k'. cbn. rewrite Hv, firstn_all. done.
Qed.

(** The packet that completes the response. *)
Lemma relay_complete s0 h0 ps s h :
  relaying s0 h0 ps s h -> ps <> [] -> group_inv (QC h0) -> stats_ready s0 h0 ->
  Forall (fun p => length (data p) = length_of p) ps ->
  (query_to_cache s0 = true -> exists k, query_checksum (query_info s0) = Some k /\
     Z.of_nat (length k) + total_len ps + sizeof_meta < 2 ^ 64) ->
  exists s' h', resultset_complete junk G t s h = Some (s', h') /\ resultset_progress s' = RESULTSET_WAITING /\
    resultset s' = [] /\ client_out s' = client_out s0 ++ ps /\ sess_ok G s' h' /\ group_inv (QC h') /\
    now (QC h') = now (QC h0) /\ input_queue s' = input_queue s /\
    (caches s0 ps -> cache_after s0 h0 ps (QC h')) /\ (~ caches s0 ps -> QC h' = QC h0).
Proof.
  intros R Hne Hg Hst Hwf Hck. unfold resultset_complete.
  assert (exists s1 h1, (if mysql_query_statistics G
      then session_statistics t (s <| resultset_progress := RESULTSET_WAITING |>) h
      else Some (s <| resultset_progress := RESULTSET_WAITING |>, h)) = Some (s1, h1) /\
      resultset_progress s1 = RESULTSET_WAITING /\ resultset s1 = resultset s /\ resultset_size s1 = resultset_size s /\
      client_myds s1 = client_myds s /\ query_to_cache s1 = query_to_cache s /\ sess_ok G s1 h1 /\ QC h1 = QC h /\
      query_checksum (query_info s1) = query_checksum (query_info s) /\ cache_ttl (query_info s1) = cache_ttl (query_info s) /\
      input_queue s1 = input_queue s)
    as (s1 & h1 & -> & P1 & R1 & Z1 & C1 & Q1 & O1 & QC1 & K1 & T1 & I1).
  { pose proof (rl_ok _ _ _ _ _ R) as []. destruct (mysql_query_statistics G) eqn:Em.
    - destruct (Hst Em) as (e & ht & He & Hht). unfold session_statistics. cbn.
      rewrite (rl_info _ _ _ _ _ R), He, (rl_qr _ _ _ _ _ R), Hht, bind_Some. eexists _, _. split; [done|]. cbn.
      split_and!; try done.
    - eexists _, h. split; [done|]. cbn. split_and!; try done. }
  rewrite bind_Some.
  set (s2 := (sync_server_bytes_at_cmd s1) <| send_to_slave := false |>).
  assert (exists h2, (if query_to_cache s2 then resultset_cache junk G s2 h1 else Some h1) = Some h2 /\
      conn_pools h2 = conn_pools h1 /\ group_inv (QC h2) /\ now (QC h2) = now (QC h0) /\
      (caches s0 ps -> cache_after s0 h0 ps (QC h2)) /\ (~ caches s0 ps -> QC h2 = QC h0)) as (h2 & -> & H2p & H2g & H2n & H2c & H2u).
  { assert (query_to_cache s2 = query_to_cache s) as -> by done. unfold caches.
    destruct (Z.ltb_spec (total_len ps) (mysql_max_resultset_size G)) as [Hl|Hl].
    - destruct (rl_small _ _ _ _ _ R Hl) as (S1 & S2 & S3). rewrite S3. destruct (query_to_cache s0) eqn:Eq.
      + destruct (Hck eq_refl) as (k & Hk & Hkl).
        destruct (resultset_cache_spec (s2 <| query_info := query_info s0 |>) h0 ps (s2 <| query_info := query_info s0 |>) h1)
          as (h2 & Hrc & Hca & Hg2 & Hpo & Hnw); try done; cbn.
        * by rewrite QC1, (rl_qc _ _ _ _ _ R).
        * by rewrite R1.
        * by rewrite Z1, (rl_size _ _ _ _ _ R).
        * intros k' Hk'. assert (k' = k) as -> by congruence. done.
        * exists h2. split_and!; try done.
          -- rewrite <- Hrc. unfold resultset_cache. cbn. by rewrite K1, T1, (rl_info _ _ _ _ _ R).
          -- intros Hno. by destruct Hno.
      + exists h1. rewrite QC1, (rl_qc _ _ _ _ _ R). split_and!; try done. by intros [? _].
    - destruct (rl_large _ _ _ _ _ R Hl) as (_ & _ & S3). rewrite (S3 Hne). exists h1. rewrite QC1, (rl_qc _ _ _ _ _ R).
      split_and!; try done. intros [_ ?]. lia. }
  rewrite bind_Some. assert (resultset_size s2 = total_len ps) as -> by (etransitivity; [exact Z1|apply R]).
  assert (Hok : forall s3, mybes s3 = mybes s1 -> server_mybe s3 = server_mybe s1 -> sess_ok G s3 h2).
  { intros s3 E1 E2. destruct O1 as [Hs Hm Hk Hp]. split; rewrite ?E1, ?E2, ?H2p; done. }
  destruct (Z.ltb_spec (total_len ps) (mysql_max_resultset_size G)) as [Hl|Hl].
  - destruct (rl_small _ _ _ _ _ R Hl) as (S1 & S2 & _). rewrite out_client_fold. eexists _, h2. split; [done|].
    split_and!; try done; [|by apply Hok]. unfold client_out at 1. cbn. rewrite add_out_fold, C1, R1, S1.
    fold (client_out s). by rewrite S2.
  - destruct (rl_large _ _ _ _ _ R Hl) as (S1 & S2 & _). exists s2, h2. split; [done|]. split_and!; try done.
    + cbn. by rewrite R1.
    + unfold client_out. cbn. by rewrite C1.
    + by apply Hok.
Qed.

(** The session after the whole response [ps]. *)
Record served (s0 : session) (h0 : shared) (ps : list pkt) (s' : session) (h' : shared) : Prop := {
  sv_waiting : resultset_progress s' = RESULTSET_WAITING;
  sv_empty : resultset s' = [];
  sv_client : client_out s' = client_out s0 ++ ps;
  sv_ok : sess_ok G s' h';
  sv_qc : group_inv (QC h');
  sv_now : now (QC h') = now (QC h0);
  sv_cached : caches s0 ps -> cache_after s0 h0 ps (QC h');
  sv_uncached : ~ caches s0 ps -> QC h' = QC h0 }.

(** Changing the input queue of the current stream. *)
Definition set_queue (qs : list pkt) (i : nat) (be : mysql_backend_t) (d : mysql_data_stream_t) (s : session) : session :=
  set_backend i (be <| server_myds := Some (d <| input := (input d) <| ipkts := qs |> |>) |>) s.

Lemma input_queue_inv s qs : input_queue s = Some qs ->
  exists i be d, server_mybe s = Some i /\ mybes s !! i = Some be /\ server_myds be = Some d /\ ipkts (input d) = qs.
Proof.
  unfold input_queue, server_stream, current_backend. intros H.
  destruct (server_mybe s) as [i|]; [|done]. rewrite bind_Some in H. destruct (mybes s !! i) as [be|] eqn:Hb; [|done].
  rewrite bind_Some in H. destruct (server_myds be) as [d|] eqn:Hd; [|done]. rewrite bind_Some in H. injection H as <-.
  by exists i, be, d.
Qed.

Lemma relaying_set_queue s0 h0 ps s h qs i be d :
  relaying s0 h0 ps s h -> server_mybe s = Some i -> mybes s !! i = Some be -> server_myds be = Some d ->
  relaying s0 h0 ps (set_queue qs i be d s) h /\ input_queue (set_queue qs i be d s) = Some qs /\
  resultset_progress (set_queue qs i be d s) = resultset_progress s.
Proof.
  intros [] Hi Hb Hd. split_and!; [|unfold input_queue, server_stream, current_backend, set_queue; cbn|done].
  - split; try done. by apply (set_backend_same G s h i be).
  - rewrite Hi, bind_Some, list_lookup_insert_eq by (by eapply lookup_lt_Some). done.
Qed.

Section Response.
Context (s0 : session) (h0 : shared) (ps : list pkt) (ts : list MySQL_response_type).
Context (Hts : mysql_response <$> ps = Some <$> ts) (Hresp : response ts) (Hread : Forall readable ps).
Context (Hwf : Forall (fun p => length (data p) = length_of p) ps) (Hlen : total_len ps < 2 ^ 64).
Context (Hg : group_inv (QC h0)) (Hst : stats_ready s0 h0).
Context (Hck : query_to_cache s0 = true -> exists k, query_checksum (query_info s0) = Some k /\
   Z.of_nat (length k) + total_len ps + sizeof_meta < 2 ^ 64).

(** In the middle of the response, after the packets [dn]. *)
Definition midway (dn : list pkt) (s : session) (h : shared) : Prop :=
  relaying s0 h0 dn s h /\ resultset_progress s = progress_after RESULTSET_WAITING (take (length dn) ts).

Lemma response_nonempty : ps <> [].
Proof. intros ->. destruct ts; [|done]. inversion Hresp. Qed.

Lemma loop_spec qs : forall dn later s h n,
  midway dn s h -> input_queue s = Some qs -> (length qs <= n)%nat -> ps = dn ++ qs ++ later ->
  exists s' h', process_server_loop junk G t beyond n s h = Some (s', h') /\ input_queue s' = Some [] /\
    (later = [] -> qs <> [] -> served s0 h0 ps s' h') /\
    (later <> [] \/ qs = [] -> midway (dn ++ qs) s' h').
Proof.
  induction qs as [|p qs IH]; intros dn later s h n [R Hpr] Hq Hn Hps;
    destruct (input_queue_inv _ _ Hq) as (i & be & d & Hi & Hb & Hd & Hin).
  { exists s, h. split_and!; [|done|done|intros _; by rewrite app_nil_r].
    destruct n; cbn [process_server_loop]; by rewrite Hi, Hb, bind_Some, Hd, bind_Some, Hin. }
  destruct n as [|n]; [simpl in Hn; lia|]. cbn [process_server_loop]. rewrite Hi, Hb, bind_Some, Hd, bind_Some, Hin.
  fold (set_queue qs i be d s). destruct (relaying_set_queue s0 h0 dn s h qs i be d R Hi Hb Hd) as (R1 & Hq1 & Hp1).
  assert (Hpin : p ∈ ps) by (rewrite Hps; set_solver).
  destruct (relay_store s0 h0 dn p (set_queue qs i be d s) h R1) as (r & s2 & h2 & Hr & Hst2 & R2 & Hp2 & Hq2).
  { rewrite Forall_forall in Hread. by apply Hread. }
  { revert Hlen. rewrite Hps. unfold total_len. rewrite !sum_list_with_app. cbn. lia. }
  assert (Hlk : ts !! length dn = Some r).
  { assert (ps !! length dn = Some p) as E by (rewrite Hps; by rewrite lookup_app_r, Nat.sub_diag by lia).
    assert ((mysql_response <$> ps) !! length dn = Some (Some r)) as E' by (by rewrite list_lookup_fmap, E; cbn; rewrite Hr).
    rewrite Hts, list_lookup_fmap in E'. destruct (ts !! length dn); [|done]. by injection E' as ->. }
  assert (Hnext : resultset_progress s2 = progress_after RESULTSET_WAITING (take (length (dn ++ [p])) ts)).
  { rewrite Hp2, Hp1, Hpr, length_app. cbn. rewrite Nat.add_1_r, (take_S_r _ _ _ Hlk), progress_app. done. }
  assert (Hlts : length ts = length ps) by (apply (f_equal length) in Hts; by rewrite !length_fmap in Hts).
  rewrite Hst2. destruct (response_progress ts Hresp) as [Hfull Hbefore].
  destruct (decide (qs = [] /\ later = [])) as [[-> ->]|Hmore].
  - rewrite app_nil_r in Hps. rewrite <- Hps, <- Hlts, firstn_all, Hfull in Hnext. rewrite decide_True by done.
    rewrite <- Hps in R2. destruct (relay_complete s0 h0 ps s2 h2 R2 response_nonempty Hg Hst Hwf Hck)
      as (s' & h' & -> & F1 & F2 & F3 & F4 & F5 & F6 & F7 & F8 & F9). rewrite bind_Some.
    rewrite Hq2, Hq1 in F7. destruct (input_queue_inv _ _ F7) as (i' & be' & d' & Hi' & Hb' & Hd' & Hin').
    exists s', h'. split_and!; [|done|by split|by intros [?|?]].
    destruct n; cbn [process_server_loop]; by rewrite Hi', Hb', bind_Some, Hd', bind_Some, Hin'.
  - assert (resultset_progress s2 <> RESULTSET_COMPLETED) as Hnc.
    { rewrite Hnext. apply Hbefore. rewrite Hlts, Hps, !length_app. destruct qs, later; cbn; try lia. naive_solver. }
    rewrite decide_False, bind_Some by done.
    destruct (IH (dn ++ [p]) later s2 h2 n) as (s' & h' & Hrun & Hq' & Hdone & Hmid).
    + by split.
    + by rewrite Hq2.
    + simpl in Hn. lia.
    + by rewrite <- app_assoc.
    + exists s', h'. split_and!; [exact Hrun|done| |].
      * intros Hl _. apply Hdone; [done|]. intros ->. naive_solver.
      * rewrite <- app_assoc in Hmid. intros [Hl|?]; [apply Hmid; by left|done].
Qed.

End Response.

End Relay.

(** Packets read from the server since the last turn. *)
Definition arrive (qs : list pkt) (s : session) : option session :=
  i ← server_mybe s; be ← mybes s !! i; d ← server_myds be;
  Some (set_queue (ipkts (input d) ++ qs) i be d s).

(** Turns of the session in which the batches arrive one after the other. *)
Fixpoint serve (junk : nat -> byte) (G : glovars_t) (t : clock) (beyond : list byte) (batches : list (list pkt))
    (s : session) (h : shared) : option (session * shared) :=
  match batches with
  | [] => Some (s, h)
  | qs :: rest => s ← arrive qs s; '(s, h) ← process_server_pkts junk G t beyond s h; serve junk G t beyond rest s h
  end.

(** A session that has sent a query and waits for the response. *)
Record waiting (G : glovars_t) (t : clock) (s : session) (h : shared) : Prop := {
  wt_ok : sess_ok G s h;
  wt_cmd : client_command s = COM_QUERY;
  wt_progress : resultset_progress s = RESULTSET_WAITING;
  wt_resultset : resultset s = [];
  wt_size : resultset_size s = 0;
  wt_queue : input_queue s = Some [];
  wt_qc : group_inv (QC h);
  wt_stats : stats_ready G t s h }.

Record response_ok (beyond : list byte) (s : session) (ps : list pkt) : Prop := {
  rp_types : exists ts, mysql_response <$> ps = Some <$> ts /\ response ts;
  rp_read : Forall (readable beyond) ps;
  rp_wf : Forall (fun p => length (data p) = length_of p) ps;
  rp_key : query_to_cache s = true -> exists k, query_checksum (query_info s) = Some k /\
    Z.of_nat (length k) + total_len ps + sizeof_meta < 2 ^ 64;
  rp_len : total_len ps < 2 ^ 64 }.

Lemma arrive_midway G s0 h0 ts dn s h qs :
  midway G s0 h0 ts dn s h -> input_queue s = Some [] ->
  exists s', arrive qs s = Some s' /\ midway G s0 h0 ts dn s' h /\ input_queue s' = Some qs.
Proof.
  intros [R Hp] Hq. destruct (input_queue_inv _ _ Hq) as (i & be & d & Hi & Hb & Hd & Hin).
  unfold arrive. rewrite Hi, bind_Some, Hb, bind_Some, Hd, bind_Some, Hin, app_nil_l. eexists. split; [done|].
  destruct (relaying_set_queue G s0 h0 dn s h qs i be d R Hi Hb Hd) as (R1 & Hq1 & Hp1). by split; [split; [|rewrite Hp1]|].
Qed.

Lemma serve_spec junk G t beyond s0 h0 ps ts batches : forall dn s h,
  0 <= mysql_hostgroups G -> mysql_response <$> ps = Some <$> ts -> response ts -> Forall (readable beyond) ps ->
  Forall (fun p => length (data p) = length_of p) ps -> total_len ps < 2 ^ 64 -> group_inv (QC h0) -> stats_ready G t s0 h0 ->
  (query_to_cache s0 = true -> exists k, query_checksum (query_info s0) = Some k /\
    Z.of_nat (length k) + total_len ps + sizeof_meta < 2 ^ 64) ->
  midway G s0 h0 ts dn s h -> input_queue s = Some [] -> Forall (fun qs => qs <> []) batches -> batches <> [] ->
  ps = dn ++ mjoin batches ->
  exists s' h', serve junk G t beyond batches s h = Some (s', h') /\ served G s0 h0 ps s' h' /\ input_queue s' = Some [].
Proof.
  induction batches as [|qs batches IH]; intros dn s h Hhg Hts Hresp Hrd Hwf Hlen Hg Hst Hck Hmid Hq Hne Hnb Hps; [done|].
  apply Forall_cons in Hne as [Hqs Hne]. cbn [serve].
  destruct (arrive_midway G s0 h0 ts dn s h qs Hmid Hq) as (s1 & -> & Hmid1 & Hq1). rewrite bind_Some.
  unfold process_server_pkts.
  destruct (input_queue_inv _ _ Hq1) as (i & be & d & Hi & Hb & Hd & Hin).
  assert (server_stream s1 = Some d) as -> by (unfold server_stream, current_backend; by rewrite Hi, bind_Some, Hb, bind_Some).
  rewrite mjoin_cons in Hps. rewrite Hin.
  destruct (loop_spec junk G t beyond Hhg s0 h0 ps ts Hts Hresp Hrd Hwf Hlen Hg Hst Hck qs dn (mjoin batches) s1 h (length qs) Hmid1 Hq1)
    as (s2 & h2 & -> & Hq2 & Hdone & Hmore); [lia|done|]. rewrite bind_Some.
  destruct batches as [|b batches].
  - exists s2, h2. split_and!; [done|by apply Hdone|done].
  - apply (IH (dn ++ qs)); try done.
    + apply Hmore. left. apply Forall_cons in Hne as [Hb0 _]. rewrite mjoin_cons. by destruct b.
    + by rewrite <- app_assoc.
Qed.

(** C2: a response reaches the client whole, in order and once, however the server's packets are
    cut into reads and whatever the limit on buffered results is; the session
    then waits for the next query with an empty buffer.  When the query is to be
    cached, the result is below the limit and the cache has room, the cache maps the
    checksum to exactly the concatenated packets until the time to live is over; otherwise the cache
    keeps its contents. *)
Theorem response_relayed_and_cached junk G t beyond s h batches :
  0 <= mysql_hostgroups G -> waiting G t s h -> Forall (fun qs => qs <> []) batches ->
  response_ok beyond s (mjoin batches) ->
  exists s' h', serve junk G t beyond batches s h = Some (s', h') /\
    client_out s' = client_out s ++ mjoin batches /\
    resultset_progress s' = RESULTSET_WAITING /\ resultset s' = [] /\ input_queue s' = Some [] /\
    (caches G s (mjoin batches) -> cache_after G s h (mjoin batches) (QC h')) /\
    (~ caches G s (mjoin batches) -> QC h' = QC h).
Proof.
  intros Hhg [Hok Hc Hp Hr Hz Hq Hg Hst] Hne [(ts & Hts & Hresp) Hrd Hwf Hck Hlen].
  destruct (serve_spec junk G t beyond s h (mjoin batches) ts batches [] s h) as (s' & h' & E & [] & Hq'); try done.
  - split; [|done]. split; try done.
    intros _. split_and!; [done|by rewrite app_nil_r|done].
  - intros ->. destruct ts; [inversion Hresp|discriminate Hts].
  - exists s', h'. by split_and!.
Qed.

(** A session on one host group, its backend connected, with a query to be cached. *)
Definition sample_glovars : glovars_t := mkGlo 1 1000 1000 true false 0 1 false true (c_lit "shop") 100 315360000.
Definition sample_backend : mysql_backend_t :=
  mkBackend 9 (Some (0, 0)%nat) None (Some (mysql_data_stream_new (fun _ => Byte.x00) 100 true 9)) (Some (sample_conn 9 600)) (0, 0).
Definition sample_shared : shared :=
  mkShared cache0 (mkQrHash ∅ ∅) DefHG.glo_DefHG_init [] sample_servers sample_pools.
Definition sample_checksum (d : list byte) : list byte := take 32 (d ++ replicate 32 Byte.x30).
Definition sample_session : session :=
  mkSession (mkAuth (Some (c_lit "app")) (Some (c_lit "pw")) (Some (c_lit "shop")) (replicate 21 Byte.x41) 0 false)
    None true 0 COM_QUERY RESULTSET_WAITING 0 []
    (mkQM None (Some (sample_checksum (c_lit "SELECT 1" ++ c_lit "app" ++ c_lit "shop"))) 0 0 30 0 0 0 0 (c_lit "SELECT 1") SNull)
    0 true false true false sample_client (Some 0%nat) [sample_backend] 0 0 2 9 (0, 0) false 9.

(** A result set of one column and one row, whose value is the empty string, and so looks like an OK packet. *)
Definition pkt_of (id : Z) (payload : list byte) : pkt := mkPkt (length payload + 4) (frame id payload).
Definition sample_eof : list byte := [Byte.xfe; Byte.x00; Byte.x00; Byte.x02; Byte.x00].
Definition sample_batches : list (list pkt) :=
  [[pkt_of 1 [Byte.x01]; pkt_of 2 (c_lit "def")]; [pkt_of 3 sample_eof; pkt_of 4 [Byte.x00]]; [pkt_of 5 sample_eof]].
Definition sample_beyond : list byte := replicate 32 Byte.x00.

Lemma sample_waiting : waiting sample_glovars (mkClock 120 0) sample_session sample_shared.
Proof.
  split; try reflexivity.
  - split; [eexists _, _, _; split_and!; reflexivity|reflexivity| |exact sample_pools_ok].
    intros be c Hbe Hc. apply list_elem_of_singleton in Hbe as ->. injection Hc as <-. exact sample_key_ok.
  - apply new_inv; lia.
  - intros H. discriminate H.
Qed.

Lemma sample_response : response_ok sample_beyond sample_session (mjoin sample_batches).
Proof.
  split.
  - exists [UNKNOWN_Packet; UNKNOWN_Packet; EOF_Packet; OK_Packet; EOF_Packet]. split; [vm_compute; reflexivity|].
    apply (resp_rows [UNKNOWN_Packet] [OK_Packet] EOF_Packet); [discriminate|by repeat constructor| |by left].
    constructor; [by right|constructor].
  - repeat (apply Forall_cons; split); [..|apply Forall_nil_2]; (eexists; split; [vm_compute; reflexivity|]);
      intros _; vm_compute; by eexists.
  - repeat (apply Forall_cons; split); [..|apply Forall_nil_2]; reflexivity.
  - intros _. eexists. split; [reflexivity|]. vm_compute. reflexivity.
  - vm_compute. reflexivity.
Qed.

Lemma response_relayed_and_cached_witness :
  exists s' h', serve (fun _ => Byte.x00) sample_glovars (mkClock 120 0) sample_beyond sample_batches sample_session sample_shared = Some (s', h') /\
    client_out s' = mjoin sample_batches /\ resultset s' = [] /\ cntSet (QC h') = 1.
Proof.
  destruct (response_relayed_and_cached (fun _ => Byte.x00) sample_glovars (mkClock 120 0) sample_beyond sample_session sample_shared
    sample_batches) as (s' & h' & E & Hc & _ & Hr & _).
  - vm_compute. discriminate.
  - exact sample_waiting.
  - repeat (apply Forall_cons; split); [discriminate..|apply Forall_nil_2].
  - exact sample_response.
  - exists s', h'. split; [exact E|]. split; [exact Hc|]. split; [exact Hr|]. vm_compute in E. injection E as <- <-. reflexivity.
Defined.

(** The entry that a response leaves in the query cache. *)
Lemma serve_cached junk G t beyond s h batches s' h' k :
  0 <= mysql_hostgroups G -> waiting G t s h -> Forall (fun qs => qs <> []) batches ->
  response_ok beyond s (mjoin batches) -> caches G s (mjoin batches) -> query_checksum (query_info s) = Some k ->
  Z.of_nat (length k) + total_len (mjoin batches) + sizeof_meta <= fdb_hashes_group_free_mem (QC h) ->
  0 < cache_ttl (query_info s) <= hash_expire_max G -> serve junk G t beyond batches s h = Some (s', h') ->
  group_inv (QC h') /\ view (QC h') k = Some (mjoin (data <$> mjoin batches), now (QC h) + cache_ttl (query_info s)).
Proof.
  intros Hhg [Hok Hc Hp Hr Hz Hq Hg Hst] Hne [(ts & Hts & Hresp) Hrd Hwf Hck Hlen] Hca Hk Hroom Httl E.
  destruct (serve_spec junk G t beyond s h (mjoin batches) ts batches [] s h) as (s1 & h1 & E1 & [_ _ _ _ Hqc _ Hcached _] & _); try done.
  { split; [|done]. split; try done. intros _. split_and!; [done|by rewrite app_nil_r|done]. }
  { intros ->. destruct ts; [inversion Hresp|discriminate Hts]. }
  rewrite E in E1. injection E1 as <- <-. destruct (Hcached Hca) as (k' & Hk' & Hview). rewrite Hk in Hk'. injection Hk' as <-.
  rewrite decide_False in Hview by lia. split; [done|]. rewrite Hview, decide_True by done. do 2 f_equal.
  unfold new_expire. destruct (Z.ltb_spec 0 (cache_ttl (query_info s))); [|lia].
  destruct (Z.ltb_spec (hash_expire_max G) (cache_ttl (query_info s))); [lia|done].
Qed.

(** A query whose entry has not expired is answered from the cache. *)
Lemma cache_hit checksum G t s h u d bytes x :
  group_inv (QC h) -> mysql_username (sauth s) = Some u -> mysql_schema_cur (sauth s) = Some d -> query_checksum (query_info s) = None ->
  mysql_query_statistics G = false -> view (QC h) (checksum (query (query_info s) ++ u ++ d)) = Some (bytes, x) -> now (QC h) < x ->
  exists qc, get_result_from_mysql_query_cache checksum G t s h =
    Some (0, (out_client (mkPkt (length bytes) bytes) (s <| query_info := (query_info s) <| query_checksum :=
      Some (checksum (query (query_info s) ++ u ++ d)) |> |>)) <| mysql_query_cache_hit := true |> <| query_to_cache := false |>, h <| QC := qc |>).
Proof.
  intros Hg Eu Ed Ek Hms Hview Ht. unfold get_result_from_mysql_query_cache, compute_query_checksum.
  rewrite Ek, Eu, bind_Some, Ed, !bind_Some. set (k := checksum _) in *. set (s2 := s <| query_info := _ |>).
  change (query_checksum (query_info s2)) with (Some k). rewrite bind_Some.
  destruct (fdb_get_ok (QC h) k Hg) as (qc & -> & _). rewrite bind_Some, Hview, answer_Some.
  destruct (Z.ltb_spec (now (QC h)) x); [|lia]. rewrite Hms. by exists qc.
Qed.

(** The server's request for the contents of a local file (LOAD DATA LOCAL INFILE, a packet
    that starts with 0xFB) is taken for a column count: it is held back in
    the result set and the client, which the server waits for, never gets it. *)
Theorem local_infile_request_withheld junk G t beyond s h p c :
  0 <= mysql_hostgroups G -> waiting G t s h -> data p !! 4%nat = Some c -> uc c = 251 ->
  Z.of_nat (length_of p) < mysql_max_resultset_size G -> Z.of_nat (length_of p) < 2 ^ 64 ->
  exists s' h', process_server_pkt junk G t beyond p s h = Some (s', h') /\
    client_out s' = client_out s /\ resultset s' = [p] /\ resultset_progress s' = RESULTSET_COLUMN_COUNT.
Proof.
  intros Hhg [Hok Hc Hp Hr Hz Hq Hg Hst] Hd Hb Hm Hl.
  assert (mysql_response p = Some UNKNOWN_Packet) as Hresp.
  { unfold mysql_response, sizeof_mysql_hdr. rewrite Hd, bind_Some, Hb. done. }
  assert (total_len ([] ++ [p]) = Z.of_nat (length_of p)) as Ht by (unfold total_len; cbn; lia).
  destruct (relay_store junk G t beyond Hhg s h [] p s h) as (r & s2 & h2 & Hr2 & -> & R & Hp2 & _).
  - split; try done. intros _. split_and!; [done|by rewrite app_nil_r|done].
  - exists UNKNOWN_Packet. split; [done|]. by intros [?|?].
  - by rewrite Ht.
  - rewrite Hresp in Hr2. injection Hr2 as <-. rewrite Hp in Hp2. cbn in Hp2. rewrite Hp2, decide_False by done.
    exists s2, h2. split; [done|]. destruct (rl_small _ _ _ _ _ _ R) as (S1 & S2 & _); [by rewrite Ht|]. done.
Qed.

Lemma local_infile_request_withheld_witness :
  exists s' h', process_server_pkt (fun _ => Byte.x00) sample_glovars (mkClock 120 0) sample_beyond
      (pkt_of 1 (Byte.xfb :: c_lit "/tmp/f")) sample_session sample_shared = Some (s', h') /\ client_out s' = [].
Proof.
  destruct (local_infile_request_withheld (fun _ => Byte.x00) sample_glovars (mkClock 120 0) sample_beyond sample_session sample_shared
    (pkt_of 1 (Byte.xfb :: c_lit "/tmp/f")) Byte.xfb) as (s' & h' & E & Hc & _).
  - vm_compute. discriminate.
  - exact sample_waiting.
  - reflexivity.
  - reflexivity.
  - vm_compute. reflexivity.
  - vm_compute. reflexivity.
  - exists s', h'. split; [exact E|exact Hc].
Defined.
