(* ===== verification/SessionClient.v ===== *)
(** * Sessions, part 2: the packets of the client (src/mysql_session.c, lines 485 to 862)

    [process_client_pkts] takes the packets of the client one by one: it answers some of
    them itself, serves queries from the cache, and forwards the others to the
    backend of the host group the routing chose.  The handler of the queries of administrators is an
    argument ([admin_COM_QUERY]).

    [after_free] is what a block holds once it was given back to the pool: the code
    parses a packet it has freed. *)
From S2P Require Import Prelude PtrArray Protocol DataStream QueryCache Tokenizer Routing ConnPool Backend Session.
Open Scope Z_scope.

(** What the system answers while one packet is processed. *)
Record oracle := mkOracle {
  o_clock : clock; o_attempts : list (Z * (conn_key -> option MYSQL)); o_sends : list Z;
  o_attempts2 : list (Z * (conn_key -> option MYSQL)); o_sends2 : list Z }.

(** The loop goes on, or the function returns. *)
Inductive flow := Next | Return (rc : Z).

Section Client.
Context (checksum md5 : list byte -> list byte) (rmatch : query_rule_t -> list byte -> bool)
        (rreplace : query_rule_t -> list byte -> option (list byte)) (junk : nat -> byte)
        (sha1 : list byte -> list byte) (users : user_table) (after_free : list byte -> list byte)
        (admin_COM_QUERY : pkt -> session -> shared -> option (session * shared)) (G : glovars_t).

(** ** Commands the proxy answers itself *)

Definition client_COM_STATISTICS (s : session) : session :=
  if 0 <? admin (sauth s) then s <| healthy := false |> else s.

(** [mybe->bereset(mybe, &mybe->last_mysql_connpool, fc)] for the backend [i]. *)
Definition bereset (t : clock) (fc : Z) (i : nat) (s : session) (h : shared) : option (session * shared) :=
  be ← mybes s !! i;
  '(be, g, w) ← backend_reset (tod t) fc be (glomysrvs h) (conn_pools h);
  Some (set_backend i be s, h <| glomysrvs := g |> <| conn_pools := w |>).

Fixpoint reset_loop (t : clock) (fc : Z) (n j : nat) (s : session) (h : shared) : option (session * shared) :=
  match n with
  | O => Some (s, h)
  | S n' => '(s, h) ← bereset t fc j s h; reset_loop t fc n' (S j) s h
  end.

(** The block that [client_COM_CHANGE_USER] and [client_COM_INIT_DB] share. *)
Definition disconnect_backends (t : clock) (s : session) (h : shared) : option (session * shared) :=
  '(s, h) ← (match server_mybe s with
             | Some i =>
                 be ← mybes s !! i;
                 match server_mycpe be, mshge be, server_myds be with
                 | Some _, Some _, Some d => if negb (fd d =? 0) then bereset t 0 i s h else Some (s, h)
                 | _, _, _ => Some (s, h)
                 end
             | None => Some (s, h)
             end);
  '(s, h) ← reset_loop t 0 (Z.to_nat (mysql_hostgroups G)) 0 s h;
  Some (s <| server_mybe := None |>, h).

Definition client_COM_CHANGE_USER (t : clock) (p : pkt) (s : session) (h : shared) : option (session * shared) :=
  if 0 <? admin (sauth s) then Some (s <| healthy := false |>, h) else
  let s := s <| mysql_query_cache_hit := true |> in
  '(_, a) ← parse_change_user_packet (mkPkt (length_of p) (after_free (data p))) (sauth s);
  p ← create_auth_switch_request_packet (scramble_buf a);
  let s := out_client p (s <| sauth := a <| waiting_change_user_response := true |> |>) in
  disconnect_backends t (s <| default_hostgroup := -1 |>) h.

Definition client_COM_INIT_DB (t : clock) (p : pkt) (s : session) (h : shared) : option (session * shared) :=
  if 0 <? admin (sauth s) then Some (s <| healthy := false |>, h) else
  name ← mem_read 5 (length_of p - 5) (data p);
  schema_new ← strdup_at 0 (name ++ [Byte.x00]);
  let s := s <| mysql_schema_new := Some schema_new |> in
  if match mysql_schema_cur (sauth s) with Some cur => strcmp schema_new cur =? 0 | None => false end then
    ok ← create_ok_packet junk 1;
    Some ((out_client ok (s <| mysql_query_cache_hit := true |>)) <| mysql_schema_new := None |>, h)
  else
    '(s, h) ← disconnect_backends t (s <| default_hostgroup := -1 |>) h;
    ok ← create_ok_packet junk 1;
    let s := out_client ok (s <| mysql_query_cache_hit := true |>) in
    Some (s <| sauth := (sauth s) <| mysql_schema_cur := Some schema_new |> |> <| mysql_schema_new := None |>, h).

(** ** Queries *)

(** The session as the routing sees it; [None] for a session without user or schema. *)
Definition route_of (s : session) : option route :=
  u ← mysql_username (sauth s); d ← mysql_schema_cur (sauth s);
  Some (mkRoute u d (query_info s) (default_hostgroup s) (default_hostgroup_version s)).

Definition set_route (r : route) (s : session) : session :=
  s <| query_info := Routing.query_info r |> <| default_hostgroup := Routing.default_hostgroup r |>
    <| default_hostgroup_version := Routing.default_hostgroup_version r |>.

(** The packet is returned, since a rule may have rewritten it in place. *)
Definition client_COM_QUERY (t : clock) (p : pkt) (s : session) (h : shared) : option (pkt * session * shared) :=
  if u64 (mysql_max_query_size G) <? mysql_pkt_get_size p then Some (p, s <| client_command := COM_END |>, h) else
  r ← route_of s;
  r ← init_query_metadata junk md5 (mysql_query_statistics G) (monotonic t) (Some p) r;
  let s := (set_route r s) <| resultset_progress := RESULTSET_WAITING |> <| resultset_size := 0 |> in
  '(rc, s, h) ← (if mysql_query_cache_enabled G && mysql_query_cache_precheck G
                 then get_result_from_mysql_query_cache checksum G t s h else Some (-1, s, h));
  if rc =? 0 then Some (p, s, h) else
  r ← route_of s;
  '(r, rules) ← process_query_rules rmatch rreplace junk (gloDefHG h) (mysql_query_cache_enabled G)
                  (i32 (mysql_query_cache_default_timeout G)) (gloQR h) r;
  let h := h <| gloQR := rules |> in
  let s := set_route r s in
  let p := default p (qp (query_info s)) in
  if (client_command s =? COM_QUERY) && (0 <? cache_ttl (query_info s)) then
    '(_, s, h) ← get_result_from_mysql_query_cache checksum G t (s <| query_to_cache := true |>) h;
    Some (p, s, h)
  else Some (p, s, h).

Definition active_backend_for_hostgroup (hg : Z) (s : session) : option bool :=
  if mysql_hostgroups G <=? hg then None (* assert *) else
  be ← mybes s !! Z.to_nat hg;
  Some (match mshge be, server_mycpe be with Some _, Some _ => true | _, _ => false end).

(** The call of [mysql_session_create_backend_for_hostgroup] on the session. *)
Definition create_backend (o_att : list (Z * (conn_key -> option MYSQL))) (sends : list Z) (hg : Z) (s : session) (h : shared)
  : option (session * shared) :=
  be ← mybes s !! Z.to_nat hg;
  let cr := mkCred (mysql_username (sauth s)) (mysql_password (sauth s)) (mysql_schema_cur (sauth s)) in
  r ← mysql_session_create_backend_for_hostgroup junk sends (net_buffer_size G) (mysql_hostgroups G) (glomysrvs h) hg cr
        o_att (client_myds s) be (conn_pools h);
  Some ((set_backend (Z.to_nat hg) (cr_be r) s) <| client_myds := cr_client r |>,
        h <| glomysrvs := cr_servers r |> <| conn_pools := cr_pools r |>).

Definition send_ERR (sends : list Z) (s : session) : option session :=
  '(client, _) ← authenticate_mysql_client_send_ERR junk sends (client_myds s) 1045 access_denied;
  Some (s <| client_myds := client |>).

(** The status of the server a backend points to. *)
Definition server_status (be : mysql_backend_t) (h : shared) : option mysql_server_status :=
  m ← mshge be; e ← mshge_at (glomysrvs h) m; Some (status (MSptr e)).

(** The server is online: the packet goes to its stream. *)
Definition forward_online (hg : Z) (p : pkt) (s : session) (h : shared) : option (session * shared) :=
  be ← mybes s !! Z.to_nat hg;
  m ← mshge be; e ← mshge_at (glomysrvs h) m;
  let s := s <| server_mybe := Some (Z.to_nat hg) |> <| server_fd := be_fd be |> in
  let q := query_info s in
  let q := if mysql_query_statistics G then
             match query_stats q with
             | SAlloc st => q <| query_stats := SAlloc (st <| qr_hostgroup_id := hg |>
                 <| mysql_server_address := Some (address (MSptr e)) |> <| mysql_server_port := port (MSptr e) |>) |>
             | _ => q
             end
           else q in
  s ← out_server p (sync_server_bytes_at_cmd (s <| query_info := q |>));
  Some (s, h).

(** [if(sess->mysql_query_cache_hit==FALSE)]. *)
Definition forward (o : oracle) (p : pkt) (s : session) (h : shared) : option (flow * session * shared) :=
  s ← (if negb (client_command s =? COM_QUERY) then
         if (default_hostgroup s =? -1) || negb (default_hostgroup_version s =? DefHG.version (gloDefHG h)) then
           let v := DefHG.find_defHG (gloDefHG h) (mysql_username (sauth s)) (mysql_schema_cur (sauth s)) in
           Some (s <| default_hostgroup_version := DefHG.version (gloDefHG h) |> <| default_hostgroup := v |>
                   <| query_info := (query_info s) <| destination_hostgroup := 0 |> |>)
         else Some (s <| query_info := (query_info s) <| destination_hostgroup := default_hostgroup s |> |>)
       else Some s);
  let hg := destination_hostgroup (query_info s) in
  if hg =? -1 then None (* assert *) else
  act ← active_backend_for_hostgroup hg s;
  '(s, h) ← (if (act : bool) then Some (s, h) else create_backend (o_attempts o) (o_sends o) hg s h);
  be ← mybes s !! Z.to_nat hg;
  let be := match server_mycpe be with
            | Some c => if prepared_statement s =? 1 then be <| server_mycpe := Some (c <| reusable := 0 |>) |> else be
            | None => be
            end in
  let s := set_backend (Z.to_nat hg) be s in
  match mshge be with
  | None => Some (Return 0, queue_back_client_pkt p s, h)
  | Some _ =>
      match server_mycpe be with
      | None => s ← send_ERR (o_sends2 o) s; Some (Return (-1), s, h)
      | Some _ =>
          st ← server_status be h;
          match st with
          | OFFLINE_HARD => Some (Return (-1), s, h)
          | _ =>
              '(s, h) ← (match st with
                         | OFFLINE_SOFT =>
                             d ← server_myds be;
                             if active_transaction d then Some (s, h) else
                             '(s, h) ← bereset (o_clock o) 0 (Z.to_nat hg) s h;
                             create_backend (o_attempts2 o) (o_sends2 o) hg s h
                         | _ => Some (s, h)
                         end);
              be ← mybes s !! Z.to_nat hg;
              st ← server_status be h;
              match st with
              | ONLINE => '(s, h) ← forward_online hg p s h; Some (Next, s, h)
              | _ => None (* assert(0) *)
              end
          end
      end
  end.

(** ** One packet *)

Definition reconnect_allowed (c : Z) (p : pkt) (s : session) : bool :=
  (admin (sauth s) =? 0) && (Z.of_nat (length_of p) <? mysql_max_query_size G) &&
  ((c =? COM_INIT_DB) || (c =? COM_QUERY) || (c =? COM_STATISTICS)).

(** The [default] of the first [switch]. *)
Definition client_other (p : pkt) (s : session) : option session :=
  s ← (if waiting_change_user_response (sauth s) then
         '(rc, a) ← check_auth_switch_response_packet sha1 users p (sauth s);
         let s := s <| sauth := a |> in
         if rc =? -1 then Some (s <| healthy := false |>) else
         ok ← create_ok_packet junk 3;
         Some ((out_client ok s) <| mysql_query_cache_hit := true |>)
       else Some s);
  Some (if 0 <? admin (sauth s) then s <| healthy := false |> else s).

(** The first [switch]; [None] in the first component for COM_QUIT. *)
Definition client_command_dispatch (o : oracle) (c : Z) (p : pkt) (s : session) (h : shared)
  : option (option pkt * session * shared) :=
  if c =? COM_QUIT then Some (None, s, h) else
  if c =? COM_STATISTICS then Some (Some p, client_COM_STATISTICS s, h) else
  if c =? COM_INIT_DB then '(s, h) ← client_COM_INIT_DB (o_clock o) p s h; Some (Some p, s, h) else
  if c =? COM_QUERY then
    if admin (sauth s) =? 0 then '(p, s, h) ← client_COM_QUERY (o_clock o) p s h; Some (Some p, s, h)
    else '(s, h) ← admin_COM_QUERY p s h; Some (Some p, s, h) else
  if c =? COM_CHANGE_USER then '(s, h) ← client_COM_CHANGE_USER (o_clock o) p s h; Some (Some p, s, h) else
  s ← client_other p s; Some (Some p, s, h).

Definition is_prepared (c : Z) : bool :=
  (c =? COM_STMT_PREPARE) || (c =? COM_STMT_EXECUTE) || (c =? COM_STMT_CLOSE) || (c =? COM_STMT_RESET) ||
  (c =? COM_STMT_SEND_LONG_DATA).

Definition process_client_pkt (o : oracle) (p : pkt) (s : session) (h : shared) : option (flow * session * shared) :=
  b ← data p !! 4%nat;
  let c := uc b in
  let s := s <| client_command := c |> <| mysql_query_cache_hit := false |> <| query_to_cache := false |>
             <| send_to_slave := false |> <| mysql_server_reconnect := reconnect_allowed c p s |> in
  '(op, s, h) ← client_command_dispatch o c p s h;
  match op with
  | None => Some (Return (-1), s, h)
  | Some p =>
      if negb (healthy s) then s ← send_ERR (o_sends o) s; Some (Return (-1), s, h) else
      let s := s <| prepared_statement := if is_prepared (client_command s) then 1 else 0 |> in
      if mysql_query_cache_hit s then Some (Next, s, h) else forward o p s h
  end.

(** [while(sess->client_myds->input.pkts->len)]; an oracle per packet. *)
Fixpoint process_client_pkts (os : list oracle) (s : session) (h : shared) : option (Z * session * shared) :=
  match ipkts (input (client_myds s)) with
  | [] => Some (0, s, h)
  | p :: ps =>
      match os with
      | [] => None
      | o :: os' =>
          let d := client_myds s in
          '(f, s, h) ← process_client_pkt o p (s <| client_myds := d <| input := (input d) <| ipkts := ps |> |> |>) h;
          match f with Next => process_client_pkts os' s h | Return rc => Some (rc, s, h) end
      end
  end.

End Client.

(** * Properties *)

(** ** Resetting the backends *)

(** The fields that resetting backends does not touch. *)
Definition same_front (s s' : session) : Prop :=
  sauth s' = sauth s /\ client_myds s' = client_myds s /\ query_info s' = query_info s /\
  default_hostgroup s' = default_hostgroup s /\ mysql_query_cache_hit s' = mysql_query_cache_hit s /\ healthy s' = healthy s /\
  resultset s' = resultset s /\ net_failure s' = net_failure s.

(** Every connection there is: idle in a pool or closed, and those the backends hold. *)
Definition all_conns (w : pools_state) : list MYSQL := idle_conns w ++ (conn <$> closed w).
Definition held (l : list mysql_backend_t) : list MYSQL := be ← l; option_list (conn <$> server_mycpe be).

Lemma held_app a b : held (a ++ b) = held a ++ held b.
Proof. apply bind_app. Qed.

Lemma held_new n : held (replicate n mysql_backend_new) = [].
Proof. induction n as [|n IH]; [done|]. apply IH. Qed.

Lemma held_cons be l : held (be :: l) = option_list (conn <$> server_mycpe be) ++ held l.
Proof. done. Qed.

Lemma held_split l i be : l !! i = Some be -> held l ≡ₚ option_list (conn <$> server_mycpe be) ++ held (<[i := mysql_backend_new]> l).
Proof.
  intros Hi. pose proof (lookup_lt_Some _ _ _ Hi) as Hlt.
  assert (held l = held (take i l) ++ option_list (conn <$> server_mycpe be) ++ held (drop (S i) l)) as ->.
  { by rewrite <- (take_drop_middle l i be Hi) at 1; rewrite held_app. }
  rewrite (insert_take_drop l i mysql_backend_new Hlt), held_app, held_cons, !app_assoc. cbn [option_list server_mycpe mysql_backend_new fmap option_fmap option_map].
  by rewrite (Permutation_app_comm (held (take i l))), app_nil_r.
Qed.

(** The keys of the connections the backends of a session hold. *)
Definition keys_ok (s : session) : Prop :=
  forall be c, be ∈ mybes s -> server_mycpe be = Some c -> key_ok (m_key (conn c)).

Lemma keys_ok_reset i s : keys_ok s -> keys_ok (set_backend i mysql_backend_new s).
Proof.
  intros Hk be c Hin Hc. apply list_elem_of_lookup_1 in Hin as [j Hj].
  apply list_lookup_insert_Some in Hj as [(_ & <- & _)|[_ Hj]]; [done|]. eapply Hk; [by eapply list_elem_of_lookup_2|done].
Qed.

(** Resetting one backend loses no connection, and keeps none when closing is forced. *)
Lemma bereset_spec t fc i s h be :
  mybes s !! i = Some be -> fc = 0 \/ fc = 1 -> keys_ok s -> state_inv (conn_pools h) ->
  exists h' : shared, bereset t fc i s h = Some (set_backend i mysql_backend_new s, h') /\ state_inv (conn_pools h') /\ QC h' = QC h /\
    all_conns (conn_pools h') ≡ₚ option_list (conn <$> server_mycpe be) ++ all_conns (conn_pools h) /\
    (fc = 1 -> idle_conns (conn_pools h') = idle_conns (conn_pools h)).
Proof.
  intros Hbe Hfc Hk Hw. unfold bereset. rewrite Hbe, bind_Some, backend_reset_eq.
  destruct (server_mycpe be) as [c|] eqn:Ec.
  - destruct (detach_spec (tod t) None c (reset_fc fc be) (conn_pools h) Hw) as (w & -> & Hi' & _ & _ & _ & Hcase).
    + eapply Hk; [by eapply list_elem_of_lookup_2|done].
    + done.
    + eexists. split; [reflexivity|]. cbn [conn_pools upd shared_eta QC]. unfold all_conns. split_and!; try done.
      * destruct Hcase as [(_ & -> & ->)|(_ & -> & ->)]; [done|].
        rewrite fmap_app. cbn. rewrite app_assoc, (Permutation_app_comm _ [conn c]). done.
      * intros ->. destruct Hcase as [((_ & _ & Hne & _) & _)|(_ & _ & ->)]; [|done].
        unfold reset_fc in Hne. by destruct (_ && _).
  - eexists. split; [reflexivity|]. done.
Qed.

Lemma reset_loop_spec t fc n : forall j s h,
  fc = 0 \/ fc = 1 -> (j + n = length (mybes s))%nat -> keys_ok s -> state_inv (conn_pools h) ->
  exists s' h', reset_loop t fc n j s h = Some (s', h') /\ mybes s' = take j (mybes s) ++ replicate n mysql_backend_new /\
    same_front s s' /\ state_inv (conn_pools h') /\ QC h' = QC h /\
    held (take j (mybes s)) ++ all_conns (conn_pools h') ≡ₚ held (mybes s) ++ all_conns (conn_pools h) /\
    (fc = 1 -> idle_conns (conn_pools h') = idle_conns (conn_pools h)).
Proof.
  induction n as [|n IH]; intros j s h Hfc Hj Hk Hw.
  { exists s, h. split_and!; try done; [|by rewrite take_ge by lia]. rewrite app_nil_r, take_ge by lia. done. }
  cbn [reset_loop]. destruct (lookup_lt_is_Some_2 (mybes s) j) as [be Hbe]; [lia|].
  destruct (bereset_spec t fc j s h be) as (h1 & -> & Hw1 & Hq1 & Ha1 & Hi1); [done..|]. rewrite bind_Some.
  destruct (IH (S j) (set_backend j mysql_backend_new s) h1) as (s' & h' & -> & Hm & Hf & Hw' & Hq' & Ha' & Hi').
  - done.
  - cbn. rewrite length_insert. lia.
  - by apply keys_ok_reset.
  - done.
  - change (mybes (set_backend j mysql_backend_new s)) with (<[j:=mysql_backend_new]> (mybes s)) in *.
    assert (take (S j) (<[j:=mysql_backend_new]> (mybes s)) = take j (mybes s) ++ [mysql_backend_new]) as Ht.
    { rewrite (take_S_r _ _ mysql_backend_new) by (apply list_lookup_insert_eq; lia). by rewrite take_insert_ge by lia. }
    rewrite Ht in Hm, Ha'. exists s', h'. split_and!; try done.
    + rewrite Hm. by rewrite <- app_assoc.
    + congruence.
    + rewrite held_app, app_nil_r in Ha'. rewrite Ha', Ha1, (held_split _ _ _ Hbe), !app_assoc.
      by rewrite (Permutation_app_comm (held (<[j:=_]> _))).
    + intros H. rewrite Hi', Hi1; done.
Qed.

(** A session whose backends are in order, connected or not. *)
Record backends_ok (G : glovars_t) (s : session) (h : shared) : Prop := {
  bo_len : Z.of_nat (length (mybes s)) = mysql_hostgroups G;
  bo_cur : forall i, server_mybe s = Some i -> (i < length (mybes s))%nat;
  bo_keys : keys_ok s;
  bo_pools : state_inv (conn_pools h) }.

Lemma disconnect_spec G t s h : backends_ok G s h ->
  exists s' h', disconnect_backends G t s h = Some (s', h') /\
    mybes s' = replicate (length (mybes s)) mysql_backend_new /\ server_mybe s' = None /\ same_front s s' /\
    state_inv (conn_pools h') /\ QC h' = QC h /\
    all_conns (conn_pools h') ≡ₚ held (mybes s) ++ all_conns (conn_pools h).
Proof.
  intros [Hl Hc Hk Hw]. unfold disconnect_backends.
  assert (exists s1 h1, (match server_mybe s with
             | Some i => be ← mybes s !! i;
                 match server_mycpe be, mshge be, server_myds be with
                 | Some _, Some _, Some d => if negb (fd d =? 0) then bereset t 0 i s h else Some (s, h)
                 | _, _, _ => Some (s, h)
                 end
             | None => Some (s, h)
             end) = Some (s1, h1) /\ length (mybes s1) = length (mybes s) /\ same_front s s1 /\ state_inv (conn_pools h1) /\ QC h1 = QC h /\
     keys_ok s1 /\ held (mybes s1) ++ all_conns (conn_pools h1) ≡ₚ held (mybes s) ++ all_conns (conn_pools h))
    as (s1 & h1 & -> & Hl1 & Hf1 & Hw1 & Hq1 & Hk1 & Ha1).
  { destruct (server_mybe s) as [i|] eqn:Ei; [|by exists s, h]. specialize (Hc i eq_refl).
    destruct (lookup_lt_is_Some_2 _ _ Hc) as [be Hbe]. rewrite Hbe, bind_Some.
    destruct (server_mycpe be) eqn:Ec, (mshge be), (server_myds be) as [d|]; try (by exists s, h).
    destruct (negb (fd d =? 0)); [|by exists s, h].
    destruct (bereset_spec t 0 i s h be) as (h1 & -> & Hw1 & Hq1 & Ha1 & _); [done|by left|done|done|].
    eexists _, h1. split; [done|]. split_and!; try done; [cbn; by rewrite length_insert|by apply keys_ok_reset|].
    change (mybes (set_backend i mysql_backend_new s)) with (<[i:=mysql_backend_new]> (mybes s)).
    rewrite (held_split _ _ _ Hbe), Ha1, !app_assoc. by rewrite (Permutation_app_comm (held (<[i:=_]> _))). }
  rewrite bind_Some.
  destruct (reset_loop_spec t 0 (Z.to_nat (mysql_hostgroups G)) 0 s1 h1) as (s' & h' & -> & Hm & Hf & Hw' & Hq' & Ha' & _);
    [by left|lia|done|done|]. rewrite bind_Some. eexists _, h'. split; [done|]. cbn. split_and!; try done; try congruence.
  - rewrite Hm. replace (Z.to_nat (mysql_hostgroups G)) with (length (mybes s)) by lia. done.
  - unfold same_front in *. cbn. intuition congruence.
  - rewrite <- Ha1, <- Ha'. done.
Qed.

(** ** COM_INIT_DB *)

Definition init_db_packet (id : Z) (name : list byte) : pkt := pkt_of id (byte.of_Z COM_INIT_DB :: name).

Lemma init_db_name id name : mem_read 5 (length_of (init_db_packet id name) - 5) (data (init_db_packet id name)) = Some name.
Proof.
  unfold init_db_packet, pkt_of, frame. cbn [length_of data].
  replace (length (byte.of_Z COM_INIT_DB :: name) + 4 - 5)%nat with (length name) by (simpl; lia).
  set (hd := hdr_bytes _). pose proof (mem_read_app (hd ++ [byte.of_Z COM_INIT_DB]) name [] 5 (length name)) as H.
  rewrite app_nil_r, <- app_assoc in H. apply H; [|done]. unfold hd, hdr_bytes. px_len.
Qed.

Lemma init_db_spec junk G t id name s h :
  admin (sauth s) = 0 -> Byte.x00 ∉ name -> (forall cur, mysql_schema_cur (sauth s) = Some cur -> Byte.x00 ∉ cur) ->
  backends_ok G s h ->
  exists s' h' ok, client_COM_INIT_DB junk G t (init_db_packet id name) s h = Some (s', h') /\
    create_ok_packet junk 1 = Some ok /\ client_myds s' = add_out ok (client_myds s) /\
    sauth s' = (sauth s) <| mysql_schema_cur := Some name |> /\ mysql_query_cache_hit s' = true /\ healthy s' = healthy s /\
    query_info s' = query_info s /\ net_failure s' = net_failure s /\
    (mysql_schema_cur (sauth s) = Some name -> mybes s' = mybes s /\ h' = h) /\
    (mysql_schema_cur (sauth s) <> Some name ->
       mybes s' = replicate (length (mybes s)) mysql_backend_new /\ server_mybe s' = None /\ default_hostgroup s' = -1 /\
       state_inv (conn_pools h') /\ all_conns (conn_pools h') ≡ₚ held (mybes s) ++ all_conns (conn_pools h)).
Proof.
  intros Ha Hn Hcur Hok. unfold client_COM_INIT_DB. rewrite Ha, init_db_name, bind_Some. cbn [Z.ltb Z.compare].
  rewrite (strdup_at_app [] name [] 0 eq_refl Hn : strdup_at 0 (name ++ [Byte.x00]) = Some name), bind_Some.
  rewrite ok_frame, !bind_Some. set (ok := mkPkt _ _).
  change (mysql_schema_cur (sauth (s <| mysql_schema_new := Some name |>))) with (mysql_schema_cur (sauth s)).
  assert (match mysql_schema_cur (sauth s) with Some cur => strcmp name cur =? 0 | None => false end =
    bool_decide (mysql_schema_cur (sauth s) = Some name)) as ->.
  { destruct (mysql_schema_cur (sauth s)) as [cur|]; [|done]. rewrite strcmp_eqb by (try done; by apply Hcur).
    apply bool_decide_ext. split; congruence. }
  case_bool_decide as Hsame.
  - eexists _, h, ok. split; [reflexivity|]. split_and!; try done.
    cbn. destruct (sauth s). cbn in *. by subst.
  - destruct (disconnect_spec G t (s <| mysql_schema_new := Some name |> <| default_hostgroup := -1 |>) h)
      as (s1 & h1 & -> & Hm & Hs & Hf & Hw & _ & Hc).
    { destruct Hok. by split. }
    rewrite bind_Some. destruct Hf as (F1 & F2 & F3 & F4 & F5 & F6 & _ & F7).
    eexists _, h1, ok. split; [reflexivity|]. split_and!; try done; cbn; [by rewrite F2|by rewrite F1].
Qed.



(** ** COM_CHANGE_USER *)

(** A block of at most 256 bytes that was given back holds the link of the free list in its first 8 bytes. *)
Definition pool_freed (next : Z) (d : list byte) : list byte := le_split 8 next ++ drop 8 d.

Lemma le_split_8_high next : 0 <= next < 2 ^ 47 -> exists a b c d e f, le_split 8 next = [a; b; c; d; e; f; Byte.x00; Byte.x00].
Proof.
  intros Hn. assert (HS : forall n w, le_split (S n) w = byte.of_Z w :: le_split n (Z.shiftr w 8)) by done.
  rewrite (HS 7%nat), (HS 6%nat), (HS 5%nat), (HS 4%nat), (HS 3%nat), (HS 2%nat), (HS 1%nat), (HS 0%nat).
  assert (Hz : forall k, 48 <= k -> Z.shiftr next k = 0).
  { intros k Hk. rewrite Z.shiftr_div_pow2 by lia. apply Z.div_small. split; [lia|].
    apply Z.lt_le_trans with (2 ^ 47); [lia|]. apply Z.pow_le_mono_r; lia. }
  rewrite !Z.shiftr_shiftr by lia. rewrite (Hz (8 + 8 + 8 + 8 + 8 + 8)), (Hz (8 + 8 + 8 + 8 + 8 + 8 + 8)) by lia.
  by do 6 eexists.
Qed.

(** COM_CHANGE_USER is parsed after its packet was freed: in a packet from the pool, whose first bytes
    the free list has overwritten, the name of the user is at most one byte long,
    whatever name the client sent. *)
Theorem change_user_reads_freed_packet G next t p s h s' h' :
  admin (sauth s) = 0 -> (8 <= length (data p))%nat -> 0 <= next < 2 ^ 47 -> backends_ok G s h ->
  client_COM_CHANGE_USER (pool_freed next) G t p s h = Some (s', h') ->
  exists u, mysql_username (sauth s') = Some u /\ (length u <= 1)%nat.
Proof.
  intros Ha Hl Hnx Hok H. unfold client_COM_CHANGE_USER in H. rewrite Ha in H. cbn [Z.ltb Z.compare] in H.
  destruct (parse_change_user_packet _ _) as [[rc a]|] eqn:Ep; [|done]. rewrite bind_Some in H.
  destruct (create_auth_switch_request_packet _) as [q|]; [|done]. rewrite bind_Some in H.
  match type of H with disconnect_backends _ _ ?s1 _ = _ => set (s1' := s1) in H end.
  destruct (disconnect_spec G t s1' h) as (s2 & h2 & Hd & _ & _ & Hf & _); [destruct Hok; by split|].
  rewrite H in Hd. injection Hd as <- <-. destruct Hf as [F1 _]. rewrite F1. unfold s1'. cbn.
  unfold parse_change_user_packet in Ep. cbn [data sizeof_mysql_hdr Nat.add] in Ep.
  destruct (strdup_at 5 _) as [u|] eqn:Eu; [|done]. rewrite bind_Some in Ep.
  destruct (strdup_at _ _) as [d|] in Ep; [|done]. injection Ep as _ <-. exists u. split; [done|].
  unfold strdup_at, pool_freed in Eu. destruct (le_split_8_high next Hnx) as (b0 & b1 & b2 & b3 & b4 & b5 & Hb). rewrite Hb in Eu.
  cbn [app drop] in Eu. cbn [strlen] in Eu. destruct (decide (b5 = Byte.x00)); [injection Eu as <-; cbn; lia|].
  rewrite decide_True in Eu by done. injection Eu as <-. cbn. lia.
Qed.

Definition sample_change_user : pkt := pkt_of 0 (change_user_payload (c_lit "root") (replicate 20 Byte.x55) (c_lit "db") []).

Lemma change_user_reads_freed_packet_witness :
  exists s' h' u, client_COM_CHANGE_USER (pool_freed 94000000000000) sample_glovars (mkClock 120 0) sample_change_user sample_session
      sample_shared = Some (s', h') /\ mysql_username (sauth s') = Some u /\ (length u <= 1)%nat.
Proof.
  destruct (client_COM_CHANGE_USER (pool_freed 94000000000000) sample_glovars (mkClock 120 0) sample_change_user sample_session
      sample_shared) as [[s' h']|] eqn:E.
  2: { exfalso. vm_compute in E. discriminate E. }
  destruct (change_user_reads_freed_packet sample_glovars 94000000000000 (mkClock 120 0) sample_change_user sample_session
      sample_shared s' h') as (u & Hu & Hl).
  - reflexivity.
  - vm_compute. lia.
  - vm_compute. split; [discriminate|reflexivity].
  - split; [reflexivity| | |exact sample_pools_ok].
    + intros i Hi. injection Hi as <-. vm_compute. lia.
    + intros be c Hbe Hc. apply list_elem_of_singleton in Hbe as ->. injection Hc as <-. exact sample_key_ok.
  - exact E.
  - exists s', h', u. split; [reflexivity|]. split; [exact Hu|exact Hl].
Defined.

(** ** Forwarding *)

(** The session has a live connection to the server of host group [hg], whose status is [st]. *)
Definition connected_to (G : glovars_t) (hg : Z) (st : mysql_server_status) (be : mysql_backend_t) (d : mysql_data_stream_t)
    (s : session) (h : shared) : Prop :=
  0 <= hg < mysql_hostgroups G /\ mybes s !! Z.to_nat hg = Some be /\ server_myds be = Some d /\ is_Some (server_mycpe be) /\
  exists m e, mshge be = Some m /\ mshge_at (glomysrvs h) m = Some e /\ status (MSptr e) = st.

Section Forward.
Context (junk : nat -> byte) (G : glovars_t) (o : oracle) (p : pkt) (hg : Z) (st : mysql_server_status)
        (be : mysql_backend_t) (d : mysql_data_stream_t) (s : session) (h : shared).
Context (Hcmd : client_command s = COM_QUERY) (Hdst : destination_hostgroup (query_info s) = hg)
        (Hprep : prepared_statement s = 0) (Hconn : connected_to G hg st be d s h).

(** Up to the choice on the status of the server. *)
Lemma forward_unfold :
  forward junk G o p s h =
    match st with
    | OFFLINE_HARD => Some (Return (-1), s, h)
    | OFFLINE_SOFT =>
        '(s, h) ← (if active_transaction d then Some (s, h) else
                   '(s, h) ← bereset (o_clock o) 0 (Z.to_nat hg) s h; create_backend junk G (o_attempts2 o) (o_sends2 o) hg s h);
        be ← mybes s !! Z.to_nat hg; st ← server_status be h;
        match st with ONLINE => '(s, h) ← forward_online G hg p s h; Some (Next, s, h) | _ => None end
    | SHUNNED => None
    | ONLINE => '(s, h) ← forward_online G hg p s h; Some (Next, s, h)
    end.
Proof.
  destruct Hconn as (Hhg & Hbe & Hd & [c Hc] & m & e & Hm & He & Hst). unfold forward, active_backend_for_hostgroup.
  rewrite Hcmd. cbn [negb Z.eqb COM_QUERY Pos.eqb]. rewrite bind_Some, Hdst. destruct (Z.eqb_spec hg (-1)); [lia|].
  destruct (Z.leb_spec (mysql_hostgroups G) hg); [lia|]. rewrite Hbe, bind_Some, Hm, Hc, !bind_Some, Hbe, bind_Some, Hc, Hprep.
  cbn [Z.eqb]. rewrite Hm, Hc.
  assert (set_backend (Z.to_nat hg) be s = s) as ->.
  { unfold set_backend. rewrite list_insert_id by done. by destruct s. }
  assert (server_status be h = Some st) as Hss by (unfold server_status; by rewrite Hm, bind_Some, He, bind_Some, Hst).
  rewrite Hss, bind_Some. destruct st; try done; rewrite ?bind_Some, ?Hbe, ?bind_Some, ?Hss, ?bind_Some, ?Hd, ?bind_Some; done.
Qed.

End Forward.

(** The session after the packet [p] was given to the stream [d] of the backend [be] of host group [hg]; [q] is the query with its statistics. *)
Definition forwarded (hg : Z) (be : mysql_backend_t) (d : mysql_data_stream_t) (q : query_metadata) (p : pkt) (s : session) : session :=
  set_backend (Z.to_nat hg) (be <| server_myds := Some (add_out p d) |>)
    (s <| server_mybe := Some (Z.to_nat hg) |> <| server_fd := be_fd be |> <| query_info := q |> <| bytes_at_cmd := (bytes_recv d, bytes_sent d) |>).

Lemma forward_connected junk G o p hg be d s h :
  client_command s = COM_QUERY -> destination_hostgroup (query_info s) = hg -> prepared_statement s = 0 ->
  connected_to G hg ONLINE be d s h ->
  exists q, forward junk G o p s h = Some (Next, forwarded hg be d q p s, h) /\
    (mysql_query_statistics G = false -> q = query_info s).
Proof.
  intros Hcmd Hdst Hprep Hconn. rewrite (forward_unfold junk G o p hg ONLINE be d s h Hcmd Hdst Hprep Hconn).
  destruct Hconn as (Hhg & Hbe & Hd & Hc & m & e & Hm & He & Hst). unfold forward_online.
  rewrite Hbe, bind_Some, Hm, bind_Some, He, bind_Some.
  set (q := if mysql_query_statistics G then _ else query_info _).
  unfold out_server, sync_server_bytes_at_cmd, server_stream, current_backend. cbn. rewrite Hbe. cbn. rewrite Hd. cbn.
  exists q. split; [reflexivity|]. unfold q. by intros ->.
Qed.

(** A query for a host group on which the session has a live connection to an
    online server is appended, unchanged, to what is sent to that server, which becomes the
    current one; the client's output is untouched and the loop goes on with the next packet. *)
Theorem query_forwarded junk G o p hg be d s h :
  client_command s = COM_QUERY -> destination_hostgroup (query_info s) = hg -> prepared_statement s = 0 ->
  connected_to G hg ONLINE be d s h ->
  exists s' d', forward junk G o p s h = Some (Next, s', h) /\
    server_mybe s' = Some (Z.to_nat hg) /\ server_stream s' = Some d' /\
    opkts (output d') = opkts (output d) ++ [p] /\ input d' = input d /\ bytes_at_cmd s' = (bytes_recv d, bytes_sent d) /\
    client_out s' = client_out s /\ resultset s' = resultset s.
Proof.
  intros Hcmd Hdst Hprep Hconn. destruct (forward_connected junk G o p hg be d s h Hcmd Hdst Hprep Hconn) as (q & E & _).
  destruct Hconn as (_ & Hbe & _). eexists _, (add_out p d). split; [exact E|]. unfold server_stream, current_backend. cbn.
  rewrite list_lookup_insert_eq by (by eapply lookup_lt_Some). cbn. split_and!; reflexivity.
Qed.

Lemma query_forwarded_witness :
  exists s' d', forward (fun _ => Byte.x00) sample_glovars (mkOracle (mkClock 0 0) [] [] [] []) (pkt_of 0 (Byte.x03 :: c_lit "SELECT 1"))
      sample_session sample_shared = Some (Next, s', sample_shared) /\ server_stream s' = Some d' /\
    opkts (output d') = [pkt_of 0 (Byte.x03 :: c_lit "SELECT 1")].
Proof.
  destruct (query_forwarded (fun _ => Byte.x00) sample_glovars (mkOracle (mkClock 0 0) [] [] [] [])
    (pkt_of 0 (Byte.x03 :: c_lit "SELECT 1")) 0 sample_backend (mysql_data_stream_new (fun _ => Byte.x00) 100 true 9)
    sample_session sample_shared) as (s' & d' & E & _ & Hs & Ho & _).
  - reflexivity.
  - reflexivity.
  - reflexivity.
  - split; [vm_compute; split; [discriminate|reflexivity]|]. split; [reflexivity|]. split; [reflexivity|]. split; [by eexists|].
    eexists _, _. split; [reflexivity|]. split; reflexivity.
  - exists s', d'. split; [exact E|]. split; [exact Hs|exact Ho].
Defined.

(** A session with an open transaction on a server that was set to OFFLINE_SOFT, or a connection to
    a server that is SHUNNED, aborts the process ([assert(0)]) with its next query, instead of letting
    the transaction end. *)
Theorem offline_soft_transaction_aborts junk G o p hg st be d s h :
  client_command s = COM_QUERY -> destination_hostgroup (query_info s) = hg -> prepared_statement s = 0 ->
  connected_to G hg st be d s h -> (st = OFFLINE_SOFT /\ active_transaction d = true) \/ st = SHUNNED ->
  forward junk G o p s h = None.
Proof.
  intros Hcmd Hdst Hprep Hconn Hst. rewrite (forward_unfold junk G o p hg st be d s h Hcmd Hdst Hprep Hconn).
  destruct Hconn as (Hhg & Hbe & Hd & Hc & m & e & Hm & He & Hs). destruct Hst as [[-> Ht]| ->]; [|done].
  rewrite Ht, bind_Some, Hbe, bind_Some. unfold server_status. rewrite Hm, bind_Some, He, !bind_Some, Hs. done.
Qed.

Lemma offline_soft_transaction_aborts_witness :
  forward (fun _ => Byte.x00) sample_glovars (mkOracle (mkClock 0 0) [] [] [] []) (pkt_of 0 (Byte.x03 :: c_lit "COMMIT"))
    sample_session (sample_shared <| glomysrvs := mkGMS [] [[mkMSHGE (mysql_server_entry_create (c_lit "db1") 3306 0 SHUNNED) 0 0 0 0]] |>) = None.
Proof.
  eapply (offline_soft_transaction_aborts (fun _ => Byte.x00) sample_glovars _ _ 0 SHUNNED sample_backend).
  - reflexivity.
  - reflexivity.
  - reflexivity.
  - split; [vm_compute; split; [discriminate|reflexivity]|]. split; [reflexivity|]. split; [reflexivity|]. split; [by eexists|].
    eexists _, _. split; [reflexivity|]. split; reflexivity.
  - right. reflexivity.
Defined.

(** ** Answers from the query cache *)

Section Cached.
Context (checksum md5 : list byte -> list byte) (rmatch : query_rule_t -> list byte -> bool)
        (rreplace : query_rule_t -> list byte -> option (list byte)) (junk : nat -> byte) (G : glovars_t) (t : clock).

(** What the routing makes of the query [p] of the session [s]. *)
Definition routing (p : pkt) (s : session) (h : shared) : option (route * list query_rule_t) :=
  r ← route_of s;
  r ← init_query_metadata junk md5 (mysql_query_statistics G) (monotonic t) (Some p) r;
  process_query_rules rmatch rreplace junk (gloDefHG h) (mysql_query_cache_enabled G) (i32 (mysql_query_cache_default_timeout G)) (gloQR h) r.

(** The cache is asked for the text [q]: before the rules are looked at, or because they leave the text and give it a time to live. *)
Definition asks_cache (q : list byte) (s : session) (h : shared) : Prop :=
  mysql_query_cache_precheck G = true \/
  exists r rules, routing (query_packet q) s h = Some (r, rules) /\ query (Routing.query_info r) = q /\ 0 < cache_ttl (Routing.query_info r).

Lemma client_query_cached s h q u d bytes x :
  mysql_query_cache_enabled G = true -> mysql_query_statistics G = false ->
  mysql_pkt_get_size (query_packet q) <= u64 (mysql_max_query_size G) ->
  mysql_username (sauth s) = Some u -> mysql_schema_cur (sauth s) = Some d -> query_stats (query_info s) <> SFreed ->
  client_command s = COM_QUERY -> asks_cache q s h ->
  group_inv (QC h) -> view (QC h) (checksum (q ++ u ++ d)) = Some (bytes, x) -> now (QC h) < x ->
  exists p' s' h', client_COM_QUERY checksum md5 rmatch rreplace junk G t (query_packet q) s h = Some (p', s', h') /\
    mysql_query_cache_hit s' = true /\ healthy s' = healthy s /\ client_myds s' = add_out (mkPkt (length bytes) bytes) (client_myds s) /\
    mybes s' = mybes s /\ server_mybe s' = server_mybe s /\ glomysrvs h' = glomysrvs h /\ conn_pools h' = conn_pools h.
Proof.
  intros Hen Hst Hsz Hu Hd Hqs Hcmd Hask Hg Hview Ht. unfold client_COM_QUERY. destruct (Z.ltb_spec (u64 (mysql_max_query_size G)) (mysql_pkt_get_size (query_packet q))); [lia|].
  set (r0 := mkRoute u d (query_info s) (default_hostgroup s) (default_hostgroup_version s)).
  assert (route_of s = Some r0) as Hr0 by (unfold route_of; by rewrite Hu, Hd).
  rewrite Hr0, bind_Some.
  assert (exists r, init_query_metadata junk md5 (mysql_query_statistics G) (monotonic t) (Some (query_packet q)) r0 = Some r /\
    query_checksum (Routing.query_info r) = None /\ query (Routing.query_info r) = q /\ r = mkRoute u d (Routing.query_info r) (Routing.default_hostgroup r) (Routing.default_hostgroup_version r)) as (r & Er & Hk & Hq & Hr).
  { unfold init_query_metadata. rewrite Hst. change (query_stats (Routing.query_info r0)) with (query_stats (query_info s)).
    destruct (query_stats (query_info s)); [..|done]; rewrite bind_Some, query_of_packet, bind_Some; (eexists; split; [reflexivity|split_and!; reflexivity]). }
  rewrite Er, bind_Some. set (s1 := (set_route r s) <| resultset_progress := RESULTSET_WAITING |> <| resultset_size := 0 |>).
  rewrite Hen. cbn [andb]. destruct (mysql_query_cache_precheck G) eqn:Hpre.
  - destruct (cache_hit checksum G t s1 h u d bytes x) as [qc ->]; try done. { by change (query (query_info s1)) with (query (Routing.query_info r)); rewrite Hq. }
    rewrite bind_Some. cbn [Z.eqb]. eexists _, _, _. split; [reflexivity|]. split_and!; reflexivity.
  - destruct Hask as [Hp|(r1 & rules & Hrules & Hq1 & Httl)]; [congruence|]. unfold routing in Hrules. rewrite Hr0, bind_Some, Er, bind_Some, Hen in Hrules.
    rewrite bind_Some. cbn [Z.eqb Pos.eqb].
    assert (route_of s1 = Some r) as ->.
    { unfold route_of. change (sauth s1) with (sauth s). rewrite Hu, Hd, !bind_Some. f_equal. by rewrite Hr. }
    rewrite bind_Some, Hrules, bind_Some.
    set (s2 := set_route r1 s1). change (client_command s2) with (client_command s). rewrite Hcmd, Z.eqb_refl. cbn [andb].
    change (cache_ttl (query_info s2)) with (cache_ttl (Routing.query_info r1)). destruct (Z.ltb_spec 0 (cache_ttl (Routing.query_info r1))); [|lia].
    destruct (cache_hit checksum G t (s2 <| query_to_cache := true |>) (h <| gloQR := rules |>) u d bytes x) as [qc ->]; try done.
    { exact (process_query_rules_checksum _ _ _ _ _ _ _ _ _ _ Hrules Hk). }
    { change (query (query_info (s2 <| query_to_cache := true |>))) with (query (Routing.query_info r1)). by rewrite Hq1. }
    rewrite bind_Some. eexists _, _, _. split; [reflexivity|]. split_and!; reflexivity.
Qed.

End Cached.

(** C11: a cached response is replayed. A session waits for the response to a query, receives it in any batches of packets, and the response is cached
    (caching is asked for, the response is smaller than the limit, the cache has room, the time to live is positive and at most the maximum). Later
    another session of a client with the same user and schema, alive, sends the same text in one packet that is alone in its input and not over the
    maximal size; the entry is still in the cache and its time is not over. Then handling the packet puts the bytes of the response into the client's
    output, in one piece, and nothing else happens: no backend, no server and no connection pool is touched, and the loop over the packets ends with
    0. The query cache is on; it is asked before the rules, or the rules leave the text and give it a time to live; query statistics are off. *)
Theorem cached_response_replayed checksum md5 rmatch rreplace junk sha1 users after_free admin_query G t o beyond s h batches s' h' s2 h2 q u d :
  0 <= mysql_hostgroups G -> waiting G t s h -> Forall (fun qs => qs <> []) batches ->
  response_ok beyond s (mjoin batches) -> caches G s (mjoin batches) ->
  query_checksum (query_info s) = Some (checksum (q ++ u ++ d)) ->
  Z.of_nat (length (checksum (q ++ u ++ d))) + total_len (mjoin batches) + sizeof_meta <= fdb_hashes_group_free_mem (QC h) ->
  0 < cache_ttl (query_info s) <= hash_expire_max G -> serve junk G t beyond batches s h = Some (s', h') ->
  group_inv (QC h2) -> view (QC h2) (checksum (q ++ u ++ d)) = view (QC h') (checksum (q ++ u ++ d)) ->
  now (QC h2) < now (QC h) + cache_ttl (query_info s) ->
  ipkts (input (client_myds s2)) = [query_packet q] -> mysql_username (sauth s2) = Some u -> mysql_schema_cur (sauth s2) = Some d ->
  admin (sauth s2) = 0 -> healthy s2 = true -> query_stats (query_info s2) <> SFreed ->
  mysql_pkt_get_size (query_packet q) <= u64 (mysql_max_query_size G) ->
  mysql_query_cache_enabled G = true -> mysql_query_statistics G = false -> asks_cache md5 rmatch rreplace junk G (o_clock o) q s2 h2 ->
  let bytes := mjoin (data <$> mjoin batches) in
  exists s3 h3, process_client_pkts checksum md5 rmatch rreplace junk sha1 users after_free admin_query G [o] s2 h2 = Some (0, s3, h3) /\
    client_out s3 = client_out s2 ++ [mkPkt (length bytes) bytes] /\ mybes s3 = mybes s2 /\ server_mybe s3 = server_mybe s2 /\
    glomysrvs h3 = glomysrvs h2 /\ conn_pools h3 = conn_pools h2.
Proof.
  intros Hhg Hw Hne Hresp Hca Hk Hroom Httl E Hg2 Hv2 Ht2 Hin Hu Hd Ha Hh Hqs Hsz Hen Hst Hask bytes.
  destruct (serve_cached junk G t beyond s h batches s' h' _ Hhg Hw Hne Hresp Hca Hk Hroom Httl E) as [_ Hview]. rewrite <- Hv2 in Hview.
  cbn [process_client_pkts]. rewrite Hin. unfold process_client_pkt.
  change (data (query_packet q) !! 4%nat) with (Some MYSQL_COM_QUERY). rewrite bind_Some. cbv zeta.
  set (s1 := _ <| mysql_server_reconnect := _ |>). unfold client_command_dispatch.
  change (uc MYSQL_COM_QUERY) with COM_QUERY. cbn [Z.eqb COM_QUERY COM_QUIT COM_STATISTICS COM_INIT_DB Pos.eqb].
  change (admin (sauth s1)) with (admin (sauth s2)). rewrite Ha. cbn [Z.eqb].
  destruct (client_query_cached checksum md5 rmatch rreplace junk G (o_clock o) s1 h2 q u d bytes (now (QC h) + cache_ttl (query_info s)))
    as (p' & s3 & h3 & -> & Hhit & Hhe & Hcl & Hmb & Hsm & Hgs & Hcp); try done.
  rewrite !bind_Some. change (healthy s1) with (healthy s2) in Hhe. rewrite Hhe, Hh. cbn [negb].
  change (mysql_query_cache_hit (s3 <| prepared_statement := _ |>)) with (mysql_query_cache_hit s3). rewrite Hhit, bind_Some.
  eexists _, h3. change (client_myds (s3 <| prepared_statement := _ |>)) with (client_myds s3). rewrite Hcl. split; [reflexivity|].
  unfold client_out. change (client_myds (s3 <| prepared_statement := _ |>)) with (client_myds s3). rewrite Hcl. split_and!; done.
Qed.

(** The query comes again before its time is over, with a rule that caches it. *)
Definition cached_again (h : shared) : shared :=
  h <| QC := (QC h) <| now := 1029 |> |> <| gloQR := [mkRule 1 0 None None (c_lit "SELECT 1") 0 0 None (-1) 0 0 0 0 None 60 0] |>.
Definition asking_again : session :=
  sample_session <| client_myds := sample_client <| input := (input sample_client) <| ipkts := [query_packet (c_lit "SELECT 1")] |> |> |>.

Lemma cached_response_replayed_witness :
  exists s' h' s3 h3,
    serve (fun _ => Byte.x00) sample_glovars (mkClock 120 0) sample_beyond sample_batches sample_session sample_shared = Some (s', h') /\
    process_client_pkts sample_checksum id sample_match (fun _ _ => None) (fun _ => Byte.x00) id toy_users id (fun _ _ _ => None) sample_glovars
      [mkOracle (mkClock 130 0) [] [] [] []] asking_again (cached_again h') = Some (0, s3, h3) /\
    client_out s3 = [mkPkt 35 (mjoin (data <$> mjoin sample_batches))].
Proof.
  destruct (serve (fun _ => Byte.x00) sample_glovars (mkClock 120 0) sample_beyond sample_batches sample_session sample_shared)
    as [[s' h']|] eqn:E.
  2: { exfalso. vm_compute in E. discriminate E. }
  destruct (cached_response_replayed sample_checksum id sample_match (fun _ _ => None) (fun _ => Byte.x00) id toy_users id (fun _ _ _ => None)
    sample_glovars (mkClock 120 0) (mkOracle (mkClock 130 0) [] [] [] []) sample_beyond
    sample_session sample_shared sample_batches s' h' asking_again (cached_again h')
    (c_lit "SELECT 1") (c_lit "app") (c_lit "shop")) as (s3 & h3 & H & Hc & _).
  - vm_compute. discriminate.
  - exact sample_waiting.
  - repeat (apply Forall_cons; split); [discriminate..|apply Forall_nil_2].
  - exact sample_response.
  - split; vm_compute; reflexivity.
  - reflexivity.
  - vm_compute. discriminate.
  - vm_compute. split; [reflexivity|discriminate].
  - exact E.
  - change (group_inv ((QC h') <| now := 1029 |>)). apply clock_inv; [|lia].
    eapply (serve_cached (fun _ => Byte.x00) sample_glovars (mkClock 120 0) sample_beyond sample_session sample_shared sample_batches s' h');
      [vm_compute; discriminate|exact sample_waiting|repeat (apply Forall_cons; split); [discriminate..|apply Forall_nil_2]
      |exact sample_response|split; vm_compute; reflexivity|reflexivity|vm_compute; discriminate|vm_compute; split; [reflexivity|discriminate]|exact E].
  - reflexivity.
  - vm_compute. reflexivity.
  - reflexivity.
  - reflexivity.
  - reflexivity.
  - reflexivity.
  - reflexivity.
  - discriminate.
  - vm_compute. discriminate.
  - reflexivity.
  - reflexivity.
  - vm_compute in E. injection E as <- <-. right. eexists _, _. split; [vm_compute; reflexivity|]. split; [reflexivity|]. vm_compute. reflexivity.
  - exists s', h', s3, h3. split; [reflexivity|]. split; [exact H|]. exact Hc.
Defined.
