(* ===== verification/SessionLoop.v ===== *)
(** * Sessions, part 3: one turn of a session (src/mysql_session.c, lines 331 to 482 and
    864 to 1121, and [reconnect_server_on_shut_fd] of src/mysql_connpool.c)

    [session_handler] is called by the thread of a session after every [poll]: it
    reads from the two sockets, cuts the bytes into packets, authenticates the client or
    processes the packets of the client and of the server, and writes.  A session that
    fails is closed: its streams are released and its connections given back.

    What the kernel answers during one turn is an input ([turn]); the bytes that leave
    the two sockets are an output ([sent]).  [None] is a NULL pointer that is followed or an
    access outside of a block. *)
From S2P Require Import Prelude PtrArray Protocol DataStream QueryCache Tokenizer Routing ConnPool Backend Session SessionClient.
Open Scope Z_scope.

Definition POLLIN : Z := 1.
Definition POLLOUT : Z := 4.
Definition POLLERR : Z := 8.
Definition POLLHUP : Z := 16.
Definition POLLNVAL : Z := 32.

Definition CONNECTION_READING_CLIENT : Z := 1.
Definition CONNECTION_WRITING_CLIENT : Z := 2.
Definition CONNECTION_READING_SERVER : Z := 4.
Definition CONNECTION_WRITING_SERVER : Z := 8.
Definition CONNECTION_ALL : Z := 15.

(** [(x & f) == f]. *)
Definition has (x f : Z) : bool := Z.land x f =? f.

Record pollfd := mkPollfd { pfd : Z; events : Z; revents : Z }.
#[export] Instance pollfd_eta : Eta pollfd := fun p => mkPollfd (pfd p) (events p) (revents p).

(** A session with the two [struct pollfd] and the [status] that its thread uses. *)
Record mysql_session_t := mkSess { sess : session; fds0 : pollfd; fds1 : pollfd; sess_status : Z }.
#[export] Instance mysql_session_eta : Eta mysql_session_t := fun c => mkSess (sess c) (fds0 c) (fds1 c) (sess_status c).

(** ** Polling *)

(** The events one stream waits for. *)
Definition stream_events (reading writing : bool) (d : mysql_data_stream_t) : Z :=
  let i := if reading && (0 <? fd d) && bool_decide (queue_available (iqueue (input d)) <> 0%nat) then POLLIN else 0 in
  let o := output d in
  let pending := bool_decide (queue_data (oqueue o) <> 0%nat \/ opartial o <> 0%nat \/ opkts o <> []) in
  Z.lor i (if writing && (0 <? fd d) && pending then POLLOUT else 0).

Definition conn_poll (c : mysql_session_t) : option mysql_session_t :=
  let s := sess c in
  let st := sess_status c in
  let c := c <| fds0 := (fds0 c) <| events :=
             stream_events (has st CONNECTION_READING_CLIENT) (has st CONNECTION_WRITING_CLIENT) (client_myds s) |> |> in
  if 1 <? nfds s then
    let rd := has st CONNECTION_READING_SERVER in
    let wr := has st CONNECTION_WRITING_SERVER in
    if rd || wr then
      d ← server_stream s;
      Some (c <| fds1 := (fds1 c) <| events := stream_events rd wr d |> |>)
    else Some (c <| fds1 := (fds1 c) <| events := 0 |> |>)
  else Some c.

(** ** Reading and writing *)

Record turn := mkTurn {
  recv_client : option (list byte); recv_server : option (list byte);
  send_client : Z; send_server : Z; send_client2 : Z; send_server2 : Z;
  t_oracles : list oracle; t_clock : clock; t_beyond : list byte }.

(** The bytes that left through the output queues towards the client and the server; what [write_one_pkt_to_net] sends past them, the packet of a failed
    connection, is not part of it. *)
Definition sent : Type := list byte * list byte.
Definition sent_app (a b : sent) : sent := (a.1 ++ b.1, a.2 ++ b.2).

Definition note_failure (e : effect) (s : session) : session :=
  if DataStream.net_failure e then s <| net_failure := true |> else s.

Definition set_stream (i : nat) (be : mysql_backend_t) (d : mysql_data_stream_t) (s : session) : session :=
  set_backend i (be <| server_myds := Some d |>) s.

(** [__sync_fetch_and_add] on the counters of the server ([myds->mybe->mshge]). *)
Definition count_bytes (e : effect) (x : MSHGE) : MSHGE :=
  mkMSHGE (MSptr x) (connections_created x) (connections_active x)
    (u64 (sbytes_recv x + server_recv e)) (u64 (sbytes_sent x + server_sent e)).

Definition count_server (be : mysql_backend_t) (d : mysql_data_stream_t) (e : effect) (h : shared) : option shared :=
  if has_mybe d && negb (DataStream.net_failure e) then
    m ← mshge be; _ ← mshge_at (glomysrvs h) m;
    Some (h <| glomysrvs := upd_mshge (count_bytes e) m (glomysrvs h) |>)
  else Some h.

Definition read_from_net_2 (t : turn) (r0 r1 : Z) (s : session) (h : shared) : option (session * shared) :=
  s ← (if (0 <? fd (client_myds s)) && has r0 POLLIN then
         '(_, d, e) ← read_from_net (recv_client t) (client_myds s);
         Some (note_failure e (s <| client_myds := d |>))
       else Some s);
  match server_mybe s with
  | None => Some (s, h)
  | Some i =>
      be ← mybes s !! i;
      match server_myds be, server_mycpe be with
      | Some d, Some _ =>
          if (0 <? fd d) && has r1 POLLIN then
            '(_, d', e) ← read_from_net (recv_server t) d;
            h ← count_server be d e h;
            Some (note_failure e (set_stream i be d' s), h)
          else Some (s, h)
      | _, _ => Some (s, h)
      end
  end.

Definition write_to_net_2 (rc rs : Z) (ignore_revents : bool) (r0 r1 : Z) (s : session) (h : shared)
  : option (session * shared * sent) :=
  '(s, out0) ← (if (0 <? fd (client_myds s)) && (ignore_revents || has r0 POLLOUT) then
                  '(_, d, e, out) ← write_to_net rc (client_myds s);
                  Some (note_failure e (s <| client_myds := d |>), out)
                else Some (s, []));
  match server_mybe s with
  | None => Some (s, h, (out0, []))
  | Some i =>
      be ← mybes s !! i;
      match server_myds be with
      | Some d =>
          if (0 <? fd d) && (ignore_revents || has r1 POLLOUT) then
            '(_, d', e, out1) ← write_to_net rs d;
            h ← (if decide (queue_data (oqueue (output d)) = 0%nat) then Some h else count_server be d e h);
            Some (note_failure e (set_stream i be d' s), h, (out0, out1))
          else Some (s, h, (out0, []))
      | None => Some (s, h, (out0, []))
      end
  end.

Definition reconnect_server_on_shut_fd (s : session) : bool :=
  match server_stream s with Some d => active d | None => true end.

Definition sync_net (t : turn) (write_only : bool) (rc rs r0 r1 : Z) (s : session) (h : shared)
  : option (bool * session * shared * sent) :=
  '(s, h) ← (if write_only then Some (s, h) else read_from_net_2 t r0 r1 s h);
  if negb write_only && net_failure s && negb (reconnect_server_on_shut_fd s) then Some (false, s, h, ([], [])) else
  '(s, h, out) ← write_to_net_2 rc rs write_only r0 r1 s h;
  Some (negb (net_failure s && negb (reconnect_server_on_shut_fd s)), s, h, out).

Definition failed (r : Z) : bool := has r POLLERR || has r POLLHUP || has r POLLNVAL.

Definition check_fds_errors (c : mysql_session_t) : option mysql_session_t :=
  let s := sess c in
  let s := if failed (revents (fds0 c)) then
             let '(d, e) := shut_soft (client_myds s) in note_failure e (s <| client_myds := d |>)
           else s in
  s ← (match server_mybe s with
       | None => Some s
       | Some i =>
           be ← mybes s !! i;
           match server_myds be with
           | Some d =>
               if failed (revents (fds1 c)) then
                 let '(d, e) := shut_soft d in Some (note_failure e (set_stream i be d s))
               else Some s
           | None => Some s
           end
       end);
  Some (c <| sess := s |>).

(** ** Packets *)

(** [f] on the stream of the current backend, when there is one. *)
Definition on_server_stream (f : mysql_data_stream_t -> option mysql_data_stream_t) (s : session) : option session :=
  match server_mybe s with
  | None => Some s
  | Some i =>
      be ← mybes s !! i;
      match server_myds be with
      | Some d => d ← f d; Some (set_stream i be d s)
      | None => Some s
      end
  end.

Definition drain (junk : nat -> byte) (d : mysql_data_stream_t) : option mysql_data_stream_t :=
  drain_input (S (queue_data (iqueue (input d)))) junk d.

Definition fill (d : mysql_data_stream_t) : option mysql_data_stream_t :=
  fill_output (S (queue_available (oqueue (output d)))) d.

Definition buffer2array_2 (junk : nat -> byte) (s : session) : option session :=
  d ← drain junk (client_myds s);
  on_server_stream (drain junk) (s <| client_myds := d |>).

Definition array2buffer_2 (s : session) : option session :=
  d ← fill (client_myds s);
  on_server_stream fill (s <| client_myds := d |>).

(** ** The registry of the connections ([glomysrvs.mysql_connections]) *)

Record registry := mkReg { mysql_connections : list nat; mysql_connections_cur : Z }.

Definition register_connection (id : nat) (g : registry) : registry :=
  mkReg (mysql_connections g ++ [id]) (u32 (mysql_connections_cur g + 1)).

(** [g_ptr_array_remove_fast]: the last element takes the place of the first one equal to [id]. *)
Fixpoint g_ptr_array_remove_fast (id : nat) (l : list nat) : list nat :=
  match l with
  | [] => []
  | x :: l' =>
      if decide (x = id) then match last l' with None => [] | Some y => y :: removelast l' end
      else x :: g_ptr_array_remove_fast id l'
  end.

Definition unregister_connection (id : nat) (g : registry) : registry :=
  mkReg (g_ptr_array_remove_fast id (mysql_connections g)) (u32 (mysql_connections_cur g - 1)).

(** ** The life of a session *)

Section Handler.
Context (checksum md5 : list byte -> list byte) (rmatch : query_rule_t -> list byte -> bool)
        (rreplace : query_rule_t -> list byte -> option (list byte)) (junk : nat -> byte)
        (sha1 : list byte -> list byte) (users : user_table) (after_free : list byte -> list byte)
        (admin_COM_QUERY : pkt -> session -> shared -> option (session * shared)) (G : glovars_t).

Definition initialize_backends : list mysql_backend_t := replicate (Z.to_nat (mysql_hostgroups G)) mysql_backend_new.

Definition session_init (client_fd : Z) : mysql_session_t :=
  let d := mysql_data_stream_new junk (net_buffer_size G) false client_fd in
  mkSess
    (mkSession (mkAuth None None None (replicate 21 Byte.x00) 0 false) None true 0 COM_END RESULTSET_WAITING 0 []
       (mkQM None None 0 0 0 0 0 0 0 [] SNull) 0 false false true false d None
       initialize_backends (-1) (-1) 1 0 (0, 0) false 0)
    (mkPollfd client_fd (Z.lor POLLIN POLLOUT) 0) (mkPollfd 0 0 0) 0.

(** The new session is entered into the registry first. *)
Definition mysql_session_new (id : nat) (client_fd : Z) (g : registry) : mysql_session_t * registry :=
  let g := register_connection id g in
  (session_init client_fd, g).

(** [send_auth_pkt] of src/mysql_protocol.c. *)
Definition send_auth_pkt (sv : glovars_server) (thread_id r1 r2 : Z) (s : session) : option session :=
  '(hs, sb) ← create_handshake_packet sv thread_id r1 r2 (scramble_buf (sauth s));
  Some (out_client hs (s <| sauth := (sauth s) <| scramble_buf := sb |> |>)).

Definition process_authentication_pkt (s : session) : option session :=
  match ipkts (input (client_myds s)) with
  | [] => None
  | hs :: ps =>
      let d := client_myds s in
      let s := s <| client_myds := d <| input := (input d) <| ipkts := ps |> |> |> in
      '(ret, a) ← check_client_authentication_packet sha1 users hs (sauth s);
      if negb (ret =? 0) then
        hs ← create_err_packet junk 2 1045 access_denied;
        Some (out_client hs (s <| sauth := a |>))
      else
        hs ← create_ok_packet junk 2;
        let a := match mysql_schema_cur a with
                 | None => a <| mysql_schema_cur := Some (mysql_default_schema G) |>
                 | Some _ => a
                 end in
        Some (out_client hs (s <| sauth := a |>))
  end.

Definition drop_resultset (s : session) : session := s <| resultset := [] |>.

Definition free_user_pass_schema (s : session) : session :=
  s <| sauth := (sauth s) <| mysql_username := None |> <| mysql_password := None |> <| mysql_schema_cur := None |> |>
    <| mysql_schema_new := None |>.

Definition free_backends (t : clock) (s : session) (h : shared) : option (session * shared) :=
  '(s, h) ← reset_loop t (force_close_backends s) (Z.to_nat (mysql_hostgroups G)) 0 s h;
  Some (s <| mybes := [] |>, h).

(** The second component of the result: the blocks of the client's stream that are released. *)
Definition sess_close (t : clock) (id : nat) (s : session) (h : shared) (g : registry)
  : option (session * shared * registry * list (nat * option (list byte))) :=
  let s := if negb (fd (client_myds s) =? 0) then s <| client_myds := (shut_hard (client_myds s)).1 |> else s in
  let freed := mysql_data_stream_delete (client_myds s) in
  '(s, h) ← free_backends t (free_user_pass_schema (drop_resultset s)) h;
  let s := s <| healthy := false |> in
  r ← init_query_metadata junk md5 (mysql_query_statistics G) (monotonic t) None
        (mkRoute [] [] (query_info s) (default_hostgroup s) (default_hostgroup_version s));
  Some (s <| query_info := Routing.query_info r |>, h, unregister_connection id g, freed).

(** [last_server_poll_fd==server_myds->fd], or there is no stream to a server. *)
Definition may_write_now (s : session) : bool :=
  match server_stream s with Some d => last_server_poll_fd s =? fd d | None => true end.

(** The end of [session_handler]: the output is written and a client that was refused is dropped; [false] is
    the jump to [exit_session_handler], [out1] what was sent before. *)
Definition session_write (t : turn) (r0 r1 : Z) (out1 : sent) (s : session) (h : shared)
  : option (bool * session * shared * sent) :=
  s ← array2buffer_2 s;
  '(ok, s, h, out2) ← (if may_write_now s then sync_net t true (send_client2 t) (send_server2 t) r0 r1 s h
                       else Some (true, s, h, ([], [])));
  if negb ok then Some (false, s, h, sent_app out1 out2) else
  let refused := (pkts_sent (client_myds s) =? 2) && (pkts_recv (client_myds s) =? 1) &&
                 bool_decide (mysql_schema_cur (sauth s) = None) in
  Some (negb refused, s, h, sent_app out1 out2).

(** From the authentication on. *)
Definition session_respond (t : turn) (r0 r1 : Z) (out1 : sent) (s : session) (h : shared)
  : option (bool * session * shared * sent) :=
  s ← (if (pkts_sent (client_myds s) =? 1) && (pkts_recv (client_myds s) =? 1) then process_authentication_pkt s
       else Some s);
  '(rc, s, h) ← process_client_pkts checksum md5 rmatch rreplace junk sha1 users after_free admin_COM_QUERY G (t_oracles t) s h;
  if rc =? -1 then Some (false, s, h, out1) else
  '(s, h) ← process_server_pkts junk G (t_clock t) (t_beyond t) s h;
  session_write t r0 r1 out1 s h.

Definition session_turn (t : turn) (r0 r1 : Z) (s : session) (h : shared) : option (bool * session * shared * sent) :=
  if negb (active (client_myds s)) then Some (false, s, h, ([], [])) else
  '(ok, s, h, out1) ← sync_net t false (send_client t) (send_server t) r0 r1 s h;
  if negb ok then Some (false, s, h, out1) else
  s ← buffer2array_2 junk s;
  session_respond t r0 r1 out1 s h.

Definition session_handler (t : turn) (id : nat) (c : mysql_session_t) (h : shared) (g : registry)
  : option (Z * mysql_session_t * shared * registry * sent) :=
  let c := c <| sess_status := CONNECTION_ALL |> in
  '(ok, s, h, out) ← (if healthy (sess c) then session_turn t (revents (fds0 c)) (revents (fds1 c)) (sess c) h
                      else Some (false, sess c, h, ([], [])));
  if (ok : bool) then Some (0, c <| sess := s |>, h, g, out) else
  '(s, h, g, _) ← sess_close (t_clock t) id s h g;
  Some (-1, c <| sess := s |>, h, g, out).

(** ** Taking servers out of service *)

(** One backend of the first loop of [remove_all_backends_offline_soft]. *)
Definition remove_offline (t : clock) (j : nat) (s : session) (h : shared) : option (session * shared) :=
  be ← mybes s !! j;
  m ← mshge be; e ← mshge_at (glomysrvs h) m;
  match status (MSptr e) with
  | OFFLINE_SOFT =>
      d ← server_myds be;
      if active_transaction d then Some (s, h) else
      if decide (server_mybe s = Some j) then bereset t 0 j s h else
      cur ← server_stream s;
      if ((bytes_at_cmd s).2 =? bytes_sent cur) && ((bytes_at_cmd s).1 =? bytes_recv cur) then bereset t 0 j s h
      else Some (s, h)
  | _ => Some (s, h)
  end.

Fixpoint remove_offline_loop (t : clock) (n j : nat) (s : session) (h : shared) : option (session * shared) :=
  match n with
  | O => Some (s, h)
  | S n' => '(s, h) ← remove_offline t j s h; remove_offline_loop t n' (S j) s h
  end.

(** The second loop. *)
Fixpoint count_offline (n j : nat) (s : session) (h : shared) : option Z :=
  match n with
  | O => Some 0
  | S n' =>
      be ← mybes s !! j;
      m ← mshge be; e ← mshge_at (glomysrvs h) m;
      k ← count_offline n' (S j) s h;
      Some (match status (MSptr e) with OFFLINE_SOFT => k + 1 | _ => k end)
  end.

Definition remove_all_backends_offline_soft (t : clock) (s : session) (h : shared) : option (Z * session * shared) :=
  '(s, h) ← remove_offline_loop t (Z.to_nat (mysql_hostgroups G)) 0 s h;
  cnt ← count_offline (Z.to_nat (mysql_hostgroups G)) 0 s h;
  Some (cnt, s, h).

End Handler.

(** * Properties *)

(** ** Polling *)

Lemma pending_iff o : output_ok o ->
  (queue_data (oqueue o) <> 0%nat \/ opartial o <> 0%nat \/ opkts o <> []) <-> out_pending o <> [].
Proof.
  intros [Hq Hpk Hpa]. pose proof (contents_length _ Hq) as Hc. unfold out_pending. split.
  - intros H Hnil. apply app_eq_nil in Hnil as [Hn1 Hn2]. apply app_eq_nil in Hn2 as [Hn2 Hn3].
    rewrite Hn1 in Hc. destruct H as [H|[H|H]]; [simpl in Hc; lia| |].
    + destruct (omypkt o) as [p|]; [|done]. destruct Hpa as [[Hl _] Hp].
      apply (f_equal length) in Hn2. rewrite length_drop in Hn2. simpl in Hn2. lia.
    + destruct (opkts o) as [|p ps]; [done|]. apply Forall_cons in Hpk as [[Hl [H4 _]] _].
      rewrite fmap_cons, mjoin_cons in Hn3. apply app_eq_nil in Hn3 as [Hn3 _]. rewrite Hn3 in H4. simpl in H4. lia.
  - intros H. destruct (decide (queue_data (oqueue o) = 0%nat)) as [H0|]; [|by left]. right.
    rewrite H0 in Hc. apply nil_length_inv in Hc. destruct (omypkt o) as [p|]; [left; lia|].
    right. intros Hn. apply H. by rewrite Hc, Hn.
Qed.

(** A stream between two turns. *)
Record stream_ok (d : mysql_data_stream_t) : Prop := {
  so_in : input_ok (input d); so_drained : drained (input d); so_room : (4 <= size (iqueue (input d)))%nat;
  so_out : output_ok (output d); so_fd : 0 < fd d }.

Lemma stream_events_spec d : stream_ok d ->
  has (stream_events true true d) POLLIN = true /\
  (has (stream_events true true d) POLLOUT = true <-> out_pending (output d) <> []).
Proof.
  intros [Hi (_ & Ht & Hd) Hs Ho Hf]. unfold stream_events. rewrite (proj2 (Z.ltb_lt _ _) Hf). cbn [andb].
  rewrite bool_decide_true by (unfold queue_available; unfold queue_data in Hd; lia).
  rewrite <- (pending_iff _ Ho). case_bool_decide as Hp; (split; [reflexivity|]); split; done.
Qed.

(** No wake-up is lost: a session that is polled between two turns always waits for input of
    its client, and of its server when it has one, and it waits for room to write exactly when
    something is left to be written. *)
Theorem conn_poll_complete c :
  sess_status c = CONNECTION_ALL -> stream_ok (client_myds (sess c)) ->
  (1 < nfds (sess c) -> exists d, server_stream (sess c) = Some d /\ stream_ok d) ->
  exists c', conn_poll c = Some c' /\ sess c' = sess c /\
    has (events (fds0 c')) POLLIN = true /\
    (has (events (fds0 c')) POLLOUT = true <-> out_pending (output (client_myds (sess c))) <> []) /\
    (1 < nfds (sess c) -> forall d, server_stream (sess c) = Some d ->
       has (events (fds1 c')) POLLIN = true /\ (has (events (fds1 c')) POLLOUT = true <-> out_pending (output d) <> [])).
Proof.
  intros Hst Hc Hsrv. destruct (stream_events_spec _ Hc) as [Hin Hout]. unfold conn_poll. rewrite Hst.
  destruct (Z.ltb_spec 1 (nfds (sess c))) as [Hn|Hn].
  - destruct (Hsrv Hn) as (d & Hd & Hok). destruct (stream_events_spec _ Hok) as [Hin1 Hout1].
    cbn [has CONNECTION_ALL CONNECTION_READING_SERVER CONNECTION_WRITING_SERVER Z.land Z.eqb Pos.eqb orb Pos.land].
    rewrite Hd, bind_Some. eexists. split; [reflexivity|]. split_and!; [done|exact Hin|exact Hout|].
    intros _ d' Hd'. simplify_eq. done.
  - eexists. split; [reflexivity|]. split_and!; [done|exact Hin|exact Hout|]. lia.
Qed.

(** ** Closing a session *)

Lemma remove_fast_perm id l : id ∈ l -> l ≡ₚ id :: g_ptr_array_remove_fast id l.
Proof.
  induction l as [|x l IH]; intros Hin; [by apply not_elem_of_nil in Hin|]. cbn [g_ptr_array_remove_fast].
  case_decide as Hx; [subst x|].
  - apply perm_skip. destruct l as [|z l _] using rev_ind; [done|].
    by rewrite last_snoc, removelast_last, (Permutation_app_comm l [z]).
  - apply elem_of_cons in Hin as [?|Hin]; [congruence|]. rewrite (IH Hin) at 1. apply perm_swap.
Qed.

Lemma close_prefix s d :
  let s1 := free_user_pass_schema (drop_resultset (s <| client_myds := d |>)) in
  force_close_backends s1 = force_close_backends s /\ query_info s1 = query_info s /\ mybes s1 = mybes s /\
  client_myds s1 = d /\ resultset s1 = [] /\
  mysql_username (sauth s1) = None /\ mysql_password (sauth s1) = None /\ mysql_schema_cur (sauth s1) = None /\ healthy s1 = healthy s.
Proof. by destruct s. Qed.

Lemma close_suffix s :
  query_info (s <| mybes := [] |> <| healthy := false |>) = query_info s /\
  forall q, let s1 := s <| mybes := [] |> <| healthy := false |> <| query_info := q |> in
    healthy s1 = false /\ mybes s1 = [] /\ resultset s1 = resultset s /\ client_myds s1 = client_myds s /\ sauth s1 = sauth s.
Proof. by destruct s. Qed.

Lemma init_query_metadata_none junk md5 st now r :
  query_stats (Routing.query_info r) <> SFreed -> exists r', init_query_metadata junk md5 st now None r = Some r'.
Proof. unfold init_query_metadata. destruct (query_stats (Routing.query_info r)); eauto. done. Qed.

Lemma sess_close_spec md5 junk G t id s h g :
  backends_ok G s h -> force_close_backends s = 0 \/ force_close_backends s = 1 -> query_stats (query_info s) <> SFreed ->
  id ∈ mysql_connections g ->
  exists s' h' g' freed, sess_close md5 junk G t id s h g = Some (s', h', g', freed) /\
    healthy s' = false /\ mybes s' = [] /\ resultset s' = [] /\ fd (client_myds s') < 1 /\
    mysql_username (sauth s') = None /\ mysql_password (sauth s') = None /\ mysql_schema_cur (sauth s') = None /\
    state_inv (conn_pools h') /\ QC h' = QC h /\
    all_conns (conn_pools h') ≡ₚ held (mybes s) ++ all_conns (conn_pools h) /\
    (force_close_backends s = 1 -> idle_conns (conn_pools h') = idle_conns (conn_pools h)) /\
    mysql_connections g ≡ₚ id :: mysql_connections g'.
Proof.
  intros [Hl Hcur Hk Hw] Hfc Hst Hin. unfold sess_close.
  assert (exists d, (if negb (fd (client_myds s) =? 0) then s <| client_myds := (shut_hard (client_myds s)).1 |> else s) =
                    s <| client_myds := d |> /\ fd d < 1) as (d & -> & Hfd).
  { unfold shut_hard. destruct (Z.eqb_spec (fd (client_myds s)) 0); cbn [negb]; [exists (client_myds s); split; [by destruct s|lia]|].
    destruct (Z.leb_spec 0 (fd (client_myds s))); [by eexists|]. exists (client_myds s). split; [by destruct s|lia]. }
  destruct (close_prefix s d) as (P1 & P2 & P3 & P4 & P5 & P6 & P7 & P8 & P9).
  set (s1 := free_user_pass_schema (drop_resultset (s <| client_myds := d |>))) in *. clearbody s1.
  unfold free_backends. rewrite P1.
  destruct (reset_loop_spec t (force_close_backends s) (Z.to_nat (mysql_hostgroups G)) 0 s1 h)
    as (s2 & h2 & -> & Hm & (F1 & F2 & F3 & _ & _ & _ & F4 & _) & Hw2 & Hq2 & Ha2 & Hi2); [done|rewrite P3; lia|unfold keys_ok; by rewrite P3|done|].
  rewrite !bind_Some. rewrite P2 in F3. rewrite P3 in Ha2.
  destruct (close_suffix s2) as (S1 & S2). rewrite S1, F3.
  destruct (init_query_metadata_none junk md5 (mysql_query_statistics G) (monotonic t)
    (mkRoute [] [] (query_info s) (default_hostgroup (s2 <| mybes := [] |> <| healthy := false |>))
      (default_hostgroup_version (s2 <| mybes := [] |> <| healthy := false |>))) Hst) as (r & ->).
  rewrite bind_Some. do 4 eexists. split; [reflexivity|].
  destruct (S2 (Routing.query_info r)) as (-> & -> & -> & -> & ->). rewrite F1, F2, F4, P4, P5, P6, P7, P8.
  split_and!; try done. by apply remove_fast_perm.
Qed.


(** C38: closing a session gives everything back: every connection its backends hold goes to a
    pool or is closed (always closed when closing is forced), none is lost or duplicated; the session is no longer healthy,
    remembers no user, password or schema, and leaves the registry, where the others stay. *)
Theorem session_close_releases md5 junk G t id s h g :
  backends_ok G s h -> force_close_backends s = 0 \/ force_close_backends s = 1 -> query_stats (query_info s) <> SFreed ->
  id ∈ mysql_connections g ->
  exists s' h' g' freed, sess_close md5 junk G t id s h g = Some (s', h', g', freed) /\
    healthy s' = false /\ mybes s' = [] /\ resultset s' = [] /\ fd (client_myds s') < 1 /\
    mysql_username (sauth s') = None /\ mysql_password (sauth s') = None /\ mysql_schema_cur (sauth s') = None /\
    state_inv (conn_pools h') /\ QC h' = QC h /\
    all_conns (conn_pools h') ≡ₚ held (mybes s) ++ all_conns (conn_pools h) /\
    (force_close_backends s = 1 -> idle_conns (conn_pools h') = idle_conns (conn_pools h)) /\
    mysql_connections g ≡ₚ id :: mysql_connections g'.
Proof. apply sess_close_spec. Qed.

(** ** Taking servers out of service *)

Lemma bereset_run t fc i s h s' h' :
  bereset t fc i s h = Some (s', h') -> s' = set_backend i mysql_backend_new s /\ (i < length (mybes s))%nat.
Proof.
  unfold bereset. intros H. apply bind_inv in H as (be & Hbe & H). rewrite backend_reset_eq in H.
  apply bind_inv in H as ([[be' g] w] & Hr & H). apply bind_inv in Hr as (w' & _ & Hr). simplify_eq.
  split; [done|by eapply lookup_lt_Some].
Qed.

Lemma remove_offline_run t j s h s' h' :
  remove_offline t j s h = Some (s', h') ->
  (s' = s /\ h' = h) \/ (s' = set_backend j mysql_backend_new s /\ (j < length (mybes s))%nat).
Proof.
  unfold remove_offline. intros H. do 3 px_run H.
  destruct (status (MSptr x1)); simplify_eq; try (by left).
  px_run H. destruct (active_transaction x2); simplify_eq; [by left|].
  case_decide; [right; by eapply bereset_run|]. px_run H.
  destruct (_ && _); simplify_eq; [right; by eapply bereset_run|by left].
Qed.

(** Backend [k] of the session points to no server. *)
Definition detached (s : session) (k : nat) : Prop := exists be, mybes s !! k = Some be /\ mshge be = None.

Lemma detached_set s k j : detached s k -> detached (set_backend j mysql_backend_new s) k.
Proof.
  intros (be & Hk & Hm). unfold detached. cbn [mybes set_backend upd session_eta].
  destruct (decide (j = k)) as [->|Hne].
  - exists mysql_backend_new. split; [|done]. apply list_lookup_insert_eq. by eapply lookup_lt_Some.
  - exists be. by rewrite list_lookup_insert_ne.
Qed.

Lemma detached_new s j : (j < length (mybes s))%nat -> detached (set_backend j mysql_backend_new s) j.
Proof. intros Hj. exists mysql_backend_new. split; [by apply list_lookup_insert_eq|done]. Qed.

Lemma remove_loop_run t n : forall j s h s' h',
  remove_offline_loop t n j s h = Some (s', h') ->
  ((s' = s /\ h' = h) \/ exists k, (j <= k < j + n)%nat /\ detached s' k) /\ (forall k, detached s k -> detached s' k).
Proof.
  induction n as [|n IH]; intros j s h s' h' H; cbn [remove_offline_loop] in H; [simplify_eq; eauto|].
  apply bind_inv in H as ([s1 h1] & H1 & H). apply remove_offline_run in H1.
  destruct (IH _ _ _ _ _ H) as [Hcase Hkeep]. destruct H1 as [[-> ->]|[-> Hj]].
  - split; [|done]. destruct Hcase as [?|(k & ? & ?)]; [by left|right; exists k; split; [lia|done]].
  - split; [|intros k Hk; by apply Hkeep, detached_set].
    right. exists j. split; [lia|]. by apply Hkeep, detached_new.
Qed.

Lemma count_offline_run n : forall j s h c, count_offline n j s h = Some c ->
  forall k, (j <= k < j + n)%nat -> exists be, mybes s !! k = Some be /\ is_Some (mshge be).
Proof.
  induction n as [|n IH]; intros j s h c H k Hk; cbn [count_offline] in H; [lia|].
  px_run H. px_run H. px_run H. px_run H. destruct (decide (k = j)) as [->|]; [by eauto|].
  eapply IH; [done|lia].
Qed.

(** The removal of the backends of a server in OFFLINE_SOFT never succeeds: the function resets such a
    backend, which clears its pointer to the server, and then follows that pointer to count what is left.
    It returns only when nothing was to be removed and every host group of the session has a server. *)
Theorem remove_backends_never_removes G t s h cnt s' h' :
  remove_all_backends_offline_soft G t s h = Some (cnt, s', h') ->
  s' = s /\ h' = h /\
  forall k, (k < Z.to_nat (mysql_hostgroups G))%nat -> exists be, mybes s !! k = Some be /\ is_Some (mshge be).
Proof.
  unfold remove_all_backends_offline_soft. intros H.
  apply bind_inv in H as ([s1 h1] & H1 & H). apply bind_inv in H as (c & Hc & H). simplify_eq.
  pose proof (count_offline_run _ _ _ _ _ Hc) as Hall.
  apply remove_loop_run in H1 as [[[-> ->]|(k & Hk & be & Hbe & Hm)] _].
  - split_and!; [done|done|]. intros k Hk. apply Hall. lia.
  - destruct (Hall k) as (be' & Hbe' & []); [lia|]. simplify_eq.
Qed.

Lemma remove_backends_never_removes_witness :
  exists cnt s' h', remove_all_backends_offline_soft sample_glovars (mkClock 120 0) sample_session sample_shared = Some (cnt, s', h') /\
    s' = sample_session.
Proof.
  destruct (remove_all_backends_offline_soft sample_glovars (mkClock 120 0) sample_session sample_shared)
    as [[[cnt s'] h']|] eqn:E; [|vm_compute in E; discriminate E].
  exists cnt, s', h'. split; [reflexivity|]. eapply (remove_backends_never_removes _ _ _ _ _ _ _ E).
Defined.

(** ** A session without a server *)

(** Nothing is in the buffers of the client's stream, and the session has no current backend. *)
Record idle_client (s : session) : Prop := {
  ic_stream : stream_ok (client_myds s); ic_in : in_stream (input (client_myds s)) = [];
  ic_out : queue_data (oqueue (output (client_myds s))) = 0%nat; ic_active : active (client_myds s) = true;
  ic_lone : server_mybe s = None; ic_net : net_failure s = false }.

Section Alone.
Context (checksum md5 : list byte -> list byte) (rmatch : query_rule_t -> list byte -> bool)
        (rreplace : query_rule_t -> list byte -> option (list byte)) (junk : nat -> byte)
        (sha1 : list byte -> list byte) (users : user_table) (after_free : list byte -> list byte)
        (admin_COM_QUERY : pkt -> session -> shared -> option (session * shared)) (G : glovars_t).

Lemma write_idle r d : queue_data (oqueue (output d)) = 0%nat -> write_to_net r d = Some (0, d, no_effect, []).
Proof. intros H. unfold write_to_net. by rewrite decide_True. Qed.

Lemma set_client_twice s d d' : (s <| client_myds := d |>) <| client_myds := d' |> = s <| client_myds := d' |>.
Proof. by destruct s. Qed.

Lemma set_client_same s : s <| client_myds := client_myds s |> = s.
Proof. by destruct s. Qed.

Lemma read_2_lone t r0 r1 s h n d e :
  server_mybe s = None -> 0 < fd (client_myds s) -> has r0 POLLIN = true ->
  read_from_net (recv_client t) (client_myds s) = Some (n, d, e) -> DataStream.net_failure e = false ->
  read_from_net_2 t r0 r1 s h = Some (s <| client_myds := d |>, h).
Proof.
  intros Hl Hf Hr Hn He. unfold read_from_net_2. rewrite (proj2 (Z.ltb_lt _ _) Hf), Hr, Hn. cbn [andb].
  rewrite !bind_Some. unfold note_failure. rewrite He. by change (server_mybe (s <| client_myds := d |>)) with (server_mybe s); rewrite Hl.
Qed.

Lemma set_stream_same i be d s : mybes s !! i = Some be -> server_myds be = Some d -> set_stream i be d s = s.
Proof.
  intros Hb Hd. unfold set_stream, set_backend. replace (be <| server_myds := Some d |>) with be by (destruct be; cbn in *; congruence).
  rewrite list_insert_id by done. by destruct s.
Qed.

(** Nothing is to be written to the current server, when there is one. *)
Definition no_output (d : mysql_data_stream_t) : Prop :=
  queue_data (oqueue (output d)) = 0%nat /\ omypkt (output d) = None /\ opkts (output d) = [] /\ opartial (output d) = 0%nat.
Definition server_silent (s : session) : Prop :=
  forall i, server_mybe s = Some i -> exists be d, mybes s !! i = Some be /\ server_myds be = Some d /\ no_output d.

Lemma lone_silent s : server_mybe s = None -> server_silent s.
Proof. intros Hl i Hi. congruence. Qed.

Lemma lone_may_write s : server_mybe s = None -> may_write_now s = true.
Proof. intros Hl. unfold may_write_now, server_stream, current_backend. by rewrite Hl. Qed.

Lemma fill_empty d : no_output d -> fill d = Some d.
Proof.
  intros (_ & Hm & Hp & Hz). unfold fill. cbn [fill_output]. unfold array2buffer. case_decide; [done|]. by rewrite Hz, Hp.
Qed.

Lemma write_2_client rc rs ign r0 r1 s h d out :
  server_silent s ->
  (if (0 <? fd (client_myds s)) && (ign || has r0 POLLOUT) then
     '(_, d, e, out) ← write_to_net rc (client_myds s); Some (note_failure e (s <| client_myds := d |>), out)
   else Some (s, [])) = Some (s <| client_myds := d |>, out) ->
  write_to_net_2 rc rs ign r0 r1 s h = Some (s <| client_myds := d |>, h, (out, [])).
Proof.
  intros Hs Hc. unfold write_to_net_2. rewrite Hc, bind_Some. clear Hc.
  change (server_mybe (s <| client_myds := d |>)) with (server_mybe s). change (mybes (s <| client_myds := d |>)) with (mybes s).
  destruct (server_mybe s) as [i|] eqn:Hi; [|done]. destruct (Hs i Hi) as (be & x & Hb & Hd & Hq & _).
  rewrite Hb, bind_Some, Hd, (write_idle _ _ Hq). destruct (_ && _); [|done]. rewrite bind_Some, decide_True, bind_Some by done.
  cbn [no_effect note_failure DataStream.net_failure]. by rewrite set_stream_same.
Qed.

Lemma write_2_idle rc rs ign r0 r1 s h :
  server_silent s -> queue_data (oqueue (output (client_myds s))) = 0%nat ->
  write_to_net_2 rc rs ign r0 r1 s h = Some (s, h, ([], [])).
Proof.
  intros Hl Hq. rewrite <- (set_client_same s) at 2. apply write_2_client; [done|]. rewrite (write_idle _ _ Hq).
  destruct (_ && _); rewrite ?bind_Some; cbn [no_effect note_failure DataStream.net_failure]; by rewrite ?set_client_same.
Qed.

Lemma write_2_sent rc rs r0 r1 s h n d e out :
  server_silent s -> 0 < fd (client_myds s) -> write_to_net rc (client_myds s) = Some (n, d, e, out) ->
  DataStream.net_failure e = false ->
  write_to_net_2 rc rs true r0 r1 s h = Some (s <| client_myds := d |>, h, (out, [])).
Proof.
  intros Hl Hf Hn He. apply write_2_client; [done|]. rewrite (proj2 (Z.ltb_lt _ _) Hf), Hn. cbn [andb orb].
  rewrite bind_Some. unfold note_failure. by rewrite He.
Qed.

Lemma on_server_stream_lone f s : server_mybe s = None -> on_server_stream f s = Some s.
Proof. intros H. unfold on_server_stream. by rewrite H. Qed.

Lemma fill_silent s : server_silent s -> on_server_stream fill s = Some s.
Proof.
  intros Hs. unfold on_server_stream. destruct (server_mybe s) as [i|] eqn:Hi; [|done].
  destruct (Hs i Hi) as (be & d & Hb & Hd & Ho). rewrite Hb, bind_Some, Hd, (fill_empty d Ho), bind_Some. by rewrite set_stream_same.
Qed.

(** The packets of one read are handed over; nothing is written. *)
Lemma turn_receive t r0 r1 s h ps :
  idle_client s -> has r0 POLLIN = true -> recv_client t = Some (mjoin (data <$> ps)) -> Forall wf_pkt ps -> ps <> [] ->
  (length (mjoin (data <$> ps)) <= queue_available (iqueue (input (client_myds s))))%nat ->
  exists d, session_turn checksum md5 rmatch rreplace junk sha1 users after_free admin_COM_QUERY G t r0 r1 s h =
      session_respond checksum md5 rmatch rreplace junk sha1 users after_free admin_COM_QUERY G t r0 r1 ([], [])
        (s <| client_myds := d |>) h /\
    input_ok (input d) /\ drained (input d) /\ ipkts (input d) = ps /\ output d = output (client_myds s) /\ fd d = fd (client_myds s) /\
    active d = true /\ pkts_recv d = counted (length ps) (pkts_recv (client_myds s)) /\ pkts_sent d = pkts_sent (client_myds s) /\
    size (iqueue (input d)) = size (iqueue (input (client_myds s))) /\ in_stream (input d) = mjoin (data <$> ps).
Proof.
  intros [Hs Hin Hout Hact Hlone Hnet] Hr0 Hrecv Hps Hne Hlen. pose proof Hs as [Hi Hd Hsz Ho Hfd].
  destruct (read_whole_packets junk (client_myds s) ps Hi Hd Hin Hfd Hps Hne Hlen)
    as (d1 & d2 & e & Hr & He & Hdr & Hi2 & Hd2 & Hp2 & Ho1 & Hf1 & Ho2 & Hf2 & Ha1 & Ha2 & Hc1 & Hc2 & Hz2 & Hs2).
  exists d2. split; [|split_and!; (done || congruence)].
  unfold session_turn. rewrite Hact. cbn [negb]. unfold sync_net. rewrite <- Hrecv in Hr.
  rewrite (read_2_lone t r0 r1 s h _ d1 e Hlone Hfd Hr0 Hr He), bind_Some.
  change (net_failure (s <| client_myds := d1 |>)) with (net_failure s). rewrite Hnet. cbn [negb andb].
  rewrite write_2_idle, !bind_Some; [|by apply lone_silent|cbn; by rewrite Ho1].
  change (net_failure (s <| client_myds := d1 |>)) with (net_failure s). rewrite Hnet. cbn [negb andb].
  unfold buffer2array_2, drain. change (client_myds (s <| client_myds := d1 |>)) with d1. rewrite Hdr, bind_Some, set_client_twice.
  rewrite on_server_stream_lone by done. by rewrite bind_Some.
Qed.


Lemma unsent_le ps : Forall wf_pkt ps -> (length ps <= length (mjoin (data <$> ps)))%nat.
Proof.
  induction 1 as [|p ps [_ [H4 _]] _ IH]; [done|]. rewrite fmap_cons, mjoin_cons, length_app. simpl. lia.
Qed.

(** The answers to the client leave, as far as the kernel takes them. *)
Lemma write_answers t r0 r1 s h qs :
  server_silent s -> may_write_now s = true -> net_failure s = false -> 0 < fd (client_myds s) -> output_ok (output (client_myds s)) ->
  queue_data (oqueue (output (client_myds s))) = 0%nat -> omypkt (output (client_myds s)) = None ->
  opkts (output (client_myds s)) = qs -> qs <> [] ->
  (length (mjoin (data <$> qs)) <= size (oqueue (output (client_myds s))))%nat ->
  0 <= send_client2 t <= Z.of_nat (length (mjoin (data <$> qs))) ->
  exists d, session_write t r0 r1 ([], []) s h =
      Some (negb ((counted (length qs) (pkts_sent (client_myds s)) =? 2) && (pkts_recv (client_myds s) =? 1) &&
                  bool_decide (mysql_schema_cur (sauth s) = None)),
            s <| client_myds := d |>, h, (take (Z.to_nat (send_client2 t)) (mjoin (data <$> qs)), [])) /\
    input d = input (client_myds s) /\ active d = active (client_myds s) /\ fd d = fd (client_myds s) /\ output_ok (output d) /\
    pkts_sent d = counted (length qs) (pkts_sent (client_myds s)) /\ pkts_recv d = pkts_recv (client_myds s) /\
    out_pending (output d) = drop (Z.to_nat (send_client2 t)) (mjoin (data <$> qs)) /\
    size (oqueue (output d)) = size (oqueue (output (client_myds s))).
Proof.
  intros Hl Hmay Hnet Hfd Ho Hq Hm Hqs Hne Hsz Hr. pose proof Ho as [Hqo Hpk _].
  assert (contents (oqueue (output (client_myds s))) = []) as Hc0 by (apply nil_length_inv; by rewrite contents_length).
  assert (queue_available (oqueue (output (client_myds s))) = size (oqueue (output (client_myds s)))) as Hav.
  { destruct Hqo as [_ ? Hres]. unfold queue_data in Hq. unfold queue_available. lia. }
  rewrite Hqs in Hpk. pose proof (unsent_le _ Hpk) as Hul.
  destruct (fill_all qs (S (queue_available (oqueue (output (client_myds s))))) (client_myds s) Ho Hm Hqs) as (q & Hf & Hok & Hs & Hc);
    [lia|lia|].
  unfold session_write, array2buffer_2, fill. rewrite Hf, bind_Some. rewrite Hc0 in Hc. cbn [app] in Hc.
  set (d1 := (client_myds s) <| output := mkOut q [] 0 None |> <| pkts_sent := counted (length qs) (pkts_sent (client_myds s)) |>).
  rewrite fill_silent, bind_Some by exact Hl.
  assert (queue_data (oqueue (output d1)) = length (mjoin (data <$> qs))) as Hqd.
  { rewrite <- Hc. symmetry. apply (contents_length q). apply Hok. }
  assert (length (mjoin (data <$> qs)) <> 0%nat) as Hnz by (destruct qs; [done|cbn [length] in Hul; lia]).
  destruct (write_to_net_ok (send_client2 t) d1 Hok) as (d & Hw & Hokd & Hp & Hi & Ha & Hsd & _); [rewrite Hqd; lia|by rewrite Hqd|].
  destruct (write_to_net_frame _ _ _ _ _ _ Hw) as (Hf1 & Hf2 & Hf3 & _); [lia|].
  change (contents (oqueue (output d1))) with (contents q) in *. rewrite Hc in *.
  change (may_write_now (s <| client_myds := d1 |>)) with (may_write_now s). rewrite Hmay.
  unfold sync_net. cbn [negb andb]. rewrite bind_Some.
  erewrite (write_2_sent _ _ _ _ (s <| client_myds := d1 |>)); [|exact Hl|done|exact Hw|done]. rewrite !bind_Some, set_client_twice.
  change (net_failure (s <| client_myds := d |>)) with (net_failure s). rewrite Hnet. cbn [negb andb].
  exists d. split_and!; try done.
  - change (client_myds (s <| client_myds := d |>)) with d. rewrite Hf2, Hf1. reflexivity.
  - assert (out_pending (output d1) = mjoin (data <$> qs)) as Hp1 by (unfold out_pending; cbn; by rewrite Hc, app_nil_r).
    rewrite Hp1 in Hp. rewrite <- (take_drop (Z.to_nat (send_client2 t)) (mjoin (data <$> qs))) in Hp at 2. by apply app_inv_head in Hp.
  - by rewrite Hsd.
Qed.

(** ** Logging in *)

Definition ok_reply : pkt := mkPkt 11 (frame 2 [Byte.x00; Byte.x00; Byte.x00; Byte.x02; Byte.x00; Byte.x00; Byte.x00]).
Definition err_reply : pkt := mkPkt 35 (frame 2 ([Byte.xff] ++ le_split 2 1045 ++ access_denied)).

Lemma ok_reply_spec : create_ok_packet junk 2 = Some ok_reply /\ wf_pkt ok_reply.
Proof. split; [exact (ok_frame junk 2)|]. vm_compute. auto with lia. Qed.

(** [authenticate_mysql_client_send_OK] writes the OK packet of a login and nothing else, however the kernel splits it. *)
Lemma send_OK_sent sends d : output_ok (output d) -> out_pending (output d) = [] -> active d = true -> (11 <= size (oqueue (output d)))%nat ->
  Forall (fun r => 0 < r) sends -> DataStream.total sends = 11%nat -> exists d', authenticate_mysql_client_send_OK junk sends d = Some (d', data ok_reply).
Proof.
  intros Ho Hp Ha Hs Hpos Ht. destruct ok_reply_spec as [Hok Hwf]. unfold authenticate_mysql_client_send_OK. rewrite Hok, bind_Some.
  destruct (write_one_pkt_complete d ok_reply sends Ho Hp Ha Hwf Hs Hpos Ht) as (d' & ->). by exists d'.
Qed.

Lemma err_reply_spec : create_err_packet junk 2 1045 access_denied = Some err_reply /\ wf_pkt err_reply.
Proof. split; [|vm_compute; auto with lia]. rewrite err_frame by (vm_compute; done). reflexivity. Qed.

Lemma process_client_none os s h : ipkts (input (client_myds s)) = [] ->
  process_client_pkts checksum md5 rmatch rreplace junk sha1 users after_free admin_COM_QUERY G os s h = Some (0, s, h).
Proof. intros H. destruct os; cbn [process_client_pkts]; by rewrite H. Qed.

(** A client that is refused gets no schema. *)
Lemma refused_schema p a ret a' :
  check_client_authentication_packet sha1 users p a = Some (ret, a') -> ret <> 0 -> mysql_schema_cur a' = mysql_schema_cur a.
Proof.
  unfold check_client_authentication_packet. intros H Hr. do 3 px_run H.
  destruct (user_password _ _ _); [|by simplify_eq]. px_run H.
  destruct (negb _) eqn:Hpw; [by simplify_eq|]. apply negb_false_iff, Z.eqb_eq in Hpw.
  case_decide; [simplify_eq; congruence|]. destruct (Z.land _ _ =? _); [px_run H|]; simplify_eq; congruence.
Qed.

(** The handshake was sent and nothing was received. *)
Record greeted (s : session) : Prop := {
  gr_idle : idle_client s; gr_out : out_pending (output (client_myds s)) = []; gr_sent : pkts_sent (client_myds s) = 1;
  gr_recv : pkts_recv (client_myds s) = 0; gr_schema : mysql_schema_cur (sauth s) = None; gr_healthy : healthy s = true }.

(** The answer to the client's first packet. *)
Definition login_reply (ret : Z) : pkt := if ret =? 0 then ok_reply else err_reply.

Definition login_auth (ret : Z) (a : auth) : auth :=
  if ret =? 0 then match mysql_schema_cur a with
                   | None => a <| mysql_schema_cur := Some (mysql_default_schema G) |>
                   | Some _ => a
                   end
  else a.

Lemma login_reply_wf ret : wf_pkt (login_reply ret).
Proof. unfold login_reply. destruct (ret =? 0); [apply ok_reply_spec|apply err_reply_spec]. Qed.

Lemma authenticate_run s p a ret :
  ipkts (input (client_myds s)) = [p] -> check_client_authentication_packet sha1 users p (sauth s) = Some (ret, a) ->
  process_authentication_pkt junk sha1 users G s =
    Some (out_client (login_reply ret)
            (s <| client_myds := (client_myds s) <| input := (input (client_myds s)) <| ipkts := [] |> |> |> <| sauth := login_auth ret a |>)).
Proof.
  intros Hp Hc. unfold process_authentication_pkt. rewrite Hp.
  change (sauth (s <| client_myds := _ |>)) with (sauth s). rewrite Hc, bind_Some. unfold login_reply, login_auth.
  destruct (ret =? 0); cbn [negb].
  - by rewrite (proj1 ok_reply_spec), bind_Some.
  - by rewrite (proj1 err_reply_spec), bind_Some.
Qed.

Lemma login_schema p a a' ret :
  check_client_authentication_packet sha1 users p a = Some (ret, a') -> mysql_schema_cur a = None ->
  mysql_schema_cur (login_auth ret a') =
    if ret =? 0 then Some (default (mysql_default_schema G) (mysql_schema_cur a')) else None.
Proof.
  intros H Hn. unfold login_auth. destruct (Z.eqb_spec ret 0); [by destruct (mysql_schema_cur a') eqn:E; cbn; rewrite ?E|].
  rewrite (refused_schema _ _ _ _ H); done.
Qed.

Lemma login_turn t r0 r1 s h p a ret :
  greeted s -> has r0 POLLIN = true -> recv_client t = Some (data p) -> wf_pkt p ->
  (length_of p <= queue_available (iqueue (input (client_myds s))))%nat ->
  (length_of (login_reply ret) <= size (oqueue (output (client_myds s))))%nat ->
  check_client_authentication_packet sha1 users p (sauth s) = Some (ret, a) ->
  0 <= send_client2 t <= Z.of_nat (length_of (login_reply ret)) ->
  exists d, session_turn checksum md5 rmatch rreplace junk sha1 users after_free admin_COM_QUERY G t r0 r1 s h =
      Some (ret =? 0, s <| client_myds := d |> <| sauth := login_auth ret a |>, h,
            (take (Z.to_nat (send_client2 t)) (data (login_reply ret)), [])) /\
    stream_ok d /\ ipkts (input d) = [] /\ active d = true /\ pkts_sent d = 2 /\ pkts_recv d = 1 /\
    out_pending (output d) = drop (Z.to_nat (send_client2 t)) (data (login_reply ret)) /\ in_stream (input d) = [] /\
    size (iqueue (input d)) = size (iqueue (input (client_myds s))) /\ size (oqueue (output d)) = size (oqueue (output (client_myds s))).
Proof.
  intros [Hid Hout Hsent Hrecv Hsch Hhe] Hr0 Hrc Hp Hroom Hfit Hchk Hsend. pose proof Hid as [Hs Hin Hq Hact Hlone Hnet].
  pose proof Hs as [Hi Hd Hsz Ho Hfd]. destruct (out_idle _ Ho Hout) as (_ & Hom & Hopk & Hop & _).
  assert (mjoin (data <$> [p]) = data p) as Hj by (cbn; by rewrite app_nil_r).
  destruct (turn_receive t r0 r1 s h [p]) as (d1 & -> & Hi1 & Hd1 & Hp1 & Ho1 & Hf1 & Ha1 & Hc1 & Hc2 & Hz1 & Hs1);
    [done|done|by rewrite Hj|by apply Forall_singleton|done|rewrite Hj; destruct Hp; lia|].
  unfold session_respond. set (s1 := s <| client_myds := d1 |>).
  change (client_myds s1) with d1. rewrite Hc1, Hc2, Hsent, Hrecv.
  change ((1 =? 1) && (counted (length [p]) 0 =? 1)) with true. cbn match.
  rewrite (authenticate_run s1 p a ret Hp1 Hchk), bind_Some.
  set (d2 := add_out (login_reply ret) (d1 <| input := (input d1) <| ipkts := [] |> |>)).
  set (s2 := s <| client_myds := d2 |> <| sauth := login_auth ret a |>).
  replace (out_client _ _) with s2 by (unfold s2, s1, out_client; by destruct s).
  rewrite process_client_none, bind_Some by done. cbn [Z.eqb].
  unfold process_server_pkts, server_stream, current_backend. change (server_mybe s2) with (server_mybe s). rewrite Hlone. cbn [mbind option_bind].
  assert (opkts (output d2) = [login_reply ret]) as Hopk2 by (cbn; rewrite Ho1, Hopk; done).
  assert (mjoin (data <$> [login_reply ret]) = data (login_reply ret)) as Hj2 by (cbn; by rewrite app_nil_r).
  pose proof (login_reply_wf ret) as [Hlr Hfr].
  assert (output_ok (output d2)) as Hod2.
  { destruct Ho as [Hqo Hpk Hpa]. constructor; cbn; rewrite Ho1; [done| |done]. rewrite Hopk. apply Forall_singleton, login_reply_wf. }
  destruct (write_answers t r0 r1 s2 h [login_reply ret]) as (d & -> & Wi & Wa & Wf & Wo & Ws & Wr & Wp & Wz).
  - by apply lone_silent.
  - by apply lone_may_write.
  - exact Hnet.
  - cbn. rewrite Hf1. exact Hfd.
  - exact Hod2.
  - cbn. rewrite Ho1. exact Hq.
  - cbn. rewrite Ho1. exact Hom.
  - exact Hopk2.
  - done.
  - rewrite Hj2, Hlr. cbn. rewrite Ho1. exact Hfit.
  - rewrite Hj2, Hlr. exact Hsend.
  - rewrite Hj2 in *. exists d. change (client_myds s2) with d2 in *. 
    assert (pkts_sent d2 = 1) as E1 by (change (pkts_sent d1 = 1); congruence).
    assert (pkts_recv d2 = 1) as E2 by (change (pkts_recv d1 = 1); by rewrite Hc1, Hrecv).
    rewrite E1, E2 in *. split.
    + replace (s2 <| client_myds := d |>) with (s <| client_myds := d |> <| sauth := login_auth ret a |>) by (unfold s2; by destruct s).
      do 4 f_equal. change (sauth s2) with (login_auth ret a). rewrite (login_schema p (sauth s) a ret Hchk Hsch).
      cbn. destruct (ret =? 0); [by rewrite bool_decide_false|by rewrite bool_decide_true].
    + split_and!; try done; [|by rewrite Wi|rewrite Wa; exact Ha1|rewrite Wi|rewrite Wi; exact Hz1|rewrite Wz; by cbn; rewrite Ho1].
      2: { unfold in_stream in Hs1 |- *. cbn. rewrite Hp1, Hj in Hs1. rewrite <- (app_nil_r (data p)) in Hs1 at 2. by apply app_inv_head in Hs1. }
      constructor; rewrite ?Wi; try done; [..|by rewrite Wf; cbn; rewrite Hf1].
      * destruct Hi1 as [X Y Z]. by constructor.
      * change (4 <= size (iqueue (input d1)))%nat. lia.
Qed.

End Alone.

(** C10: the first packet of a client decides, when it comes alone after the handshake: if it
    proves that the client may log in, the session goes on with the user's name and a schema (the default one
    when the client named none) and the client gets an OK packet; otherwise the client gets an error packet, the
    session is closed at the end of the same turn, no command of it was processed and its connections are given back. *)
Theorem login_decides checksum md5 rmatch rreplace junk sha1 users after_free admin_query G t id c h g p a ret :
  greeted (sess c) -> backends_ok G (sess c) h -> force_close_backends (sess c) = 0 -> query_stats (query_info (sess c)) = SNull ->
  id ∈ mysql_connections g -> has (revents (fds0 c)) POLLIN = true -> recv_client t = Some (data p) -> wf_pkt p ->
  (length_of p <= queue_available (iqueue (input (client_myds (sess c)))))%nat ->
  (length_of (login_reply ret) <= size (oqueue (output (client_myds (sess c)))))%nat ->
  0 <= send_client2 t <= Z.of_nat (length_of (login_reply ret)) ->
  check_client_authentication_packet sha1 users p (sauth (sess c)) = Some (ret, a) ->
  exists rc c' h' g', session_handler checksum md5 rmatch rreplace junk sha1 users after_free admin_query G t id c h g =
      Some (rc, c', h', g', (take (Z.to_nat (send_client2 t)) (data (login_reply ret)), [])) /\
    QC h' = QC h /\
    (ret = 0 -> rc = 0 /\ h' = h /\ g' = g /\ healthy (sess c') = true /\
       mysql_username (sauth (sess c')) = mysql_username a /\
       mysql_schema_cur (sauth (sess c')) = Some (default (mysql_default_schema G) (mysql_schema_cur a)) /\
       stream_ok (client_myds (sess c')) /\ pkts_sent (client_myds (sess c')) = 2) /\
    (ret <> 0 -> rc = -1 /\ healthy (sess c') = false /\ mybes (sess c') = [] /\
       all_conns (conn_pools h') ≡ₚ held (mybes (sess c)) ++ all_conns (conn_pools h) /\
       mysql_connections g ≡ₚ id :: mysql_connections g').
Proof.
  intros Hgr Hbo Hfc Hst Hid Hr0 Hrc Hp Hroom Hfit Hsend Hchk. unfold session_handler.
  change (sess (c <| sess_status := CONNECTION_ALL |>)) with (sess c). rewrite (gr_healthy _ Hgr).
  change (fds0 (c <| sess_status := CONNECTION_ALL |>)) with (fds0 c). change (fds1 (c <| sess_status := CONNECTION_ALL |>)) with (fds1 c).
  destruct (login_turn checksum md5 rmatch rreplace junk sha1 users after_free admin_query G t (revents (fds0 c)) (revents (fds1 c))
    (sess c) h p a ret) as (d & -> & Hd & Hi & Ha & Hs & Hr & _); [done..|]. rewrite bind_Some.
  set (s' := (sess c) <| client_myds := d |> <| sauth := login_auth G ret a |>).
  pose proof (login_schema sha1 users G p _ a ret Hchk (gr_schema _ Hgr)) as Hsch.
  destruct (Z.eqb_spec ret 0) as [->|Hne].
  - do 4 eexists. split; [reflexivity|]. split; [done|]. split; [|done]. intros _. split_and!; try done.
    + change (healthy (sess c) = true). apply Hgr.
    + change (mysql_username (login_auth G 0 a) = mysql_username a). unfold login_auth. cbn. by destruct (mysql_schema_cur a).
  - destruct (sess_close_spec md5 junk G (t_clock t) id s' h g) as (s2 & h2 & g2 & fr & -> & C1 & C2 & _ & _ & _ & _ & _ & _ & C3 & C4 & _ & C5).
    + destruct Hbo. by split.
    + by left.
    + change (query_info s') with (query_info (sess c)). by rewrite Hst.
    + done.
    + rewrite bind_Some. do 4 eexists. split; [reflexivity|]. split_and!; done.
Qed.

(** The session of a new client, after the turn that sent the handshake. *)
Definition sample_greeted : mysql_session_t :=
  let c := session_init (fun _ => Byte.x00) sample_glovars 7 in
  c <| sess := (sess c) <| client_myds := (client_myds (sess c)) <| pkts_sent := 1 |> |> <| sauth := toy_auth |> |>
    <| fds0 := mkPollfd 7 POLLIN POLLIN |>.
Definition sample_login : pkt := pkt_of 1 (client_auth_payload 0 (replicate 28 Byte.x00) (c_lit "bob") (replicate 20 Byte.x00) None).
Definition sample_turn (bs : list byte) (sends : Z) : turn :=
  mkTurn (Some bs) None 0 0 sends 0 [mkOracle (mkClock 120 0) [] [] [] []] (mkClock 120 0) sample_beyond.

Lemma sample_greeted_ok : greeted (sess sample_greeted) /\ backends_ok sample_glovars (sess sample_greeted) sample_shared.
Proof.
  split.
  - split; try reflexivity. split; try reflexivity. split; try reflexivity.
    + apply new_input_ok.
    + apply new_input_ok.
    + cbn. lia.
    + apply new_output_ok.
  - split; [reflexivity|done| |exact sample_pools_ok]. intros be c Hbe Hc. apply list_elem_of_singleton in Hbe as ->. discriminate Hc.
Qed.

Lemma login_decides_witness :
  exists c' h' g', session_handler (fun d => d) (fun d => d) (fun _ _ => false) (fun _ _ => None) (fun _ => Byte.x00) toy_sha1 toy_users
      (fun d => d) (fun _ s h => Some (s, h)) sample_glovars (sample_turn (data sample_login) 35) 3 sample_greeted sample_shared (mkReg [1; 3]%nat 2) =
      Some (-1, c', h', g', (data err_reply, [])) /\ healthy (sess c') = false.
Proof.
  destruct sample_greeted_ok as [Hgr Hbo].
  destruct (check_client_authentication_packet toy_sha1 toy_users sample_login (sauth (sess sample_greeted))) as [[ret a]|] eqn:E;
    [|vm_compute in E; discriminate E].
  assert (ret = -1) as -> by (vm_compute in E; congruence).
  destruct (login_decides (fun d => d) (fun d => d) (fun _ _ => false) (fun _ _ => None) (fun _ => Byte.x00) toy_sha1 toy_users
      (fun d => d) (fun _ s h => Some (s, h)) sample_glovars (sample_turn (data sample_login) 35) 3 sample_greeted sample_shared (mkReg [1; 3]%nat 2)
      sample_login a (-1)) as (rc & c' & h' & g' & Hrun & _ & _ & Hno).
  - exact Hgr.
  - exact Hbo.
  - reflexivity.
  - reflexivity.
  - right. left.
  - reflexivity.
  - reflexivity.
  - vm_compute. lia.
  - vm_compute. lia.
  - vm_compute. lia.
  - vm_compute. split; discriminate.
  - exact E.
  - destruct Hno as (-> & Hh & _); [discriminate|]. exists c', h', g'. split; [exact Hrun|exact Hh].
Defined.

Lemma conn_poll_complete_witness :
  exists c', conn_poll (sample_greeted <| sess_status := CONNECTION_ALL |>) = Some c' /\
    has (events (fds0 c')) POLLIN = true /\ has (events (fds0 c')) POLLOUT = false.
Proof.
  destruct sample_greeted_ok as [[Hid _ _ _ _ _] _].
  destruct (conn_poll_complete (sample_greeted <| sess_status := CONNECTION_ALL |>)) as (c' & E & _ & Hin & Hout & _).
  - reflexivity.
  - apply Hid.
  - intros H. vm_compute in H. discriminate H.
  - exists c'. split_and!; [exact E|exact Hin|]. apply not_true_iff_false. intros H. apply Hout in H. by apply H.
Defined.

Lemma session_close_releases_witness :
  exists s' h' g' freed, sess_close (fun d => d) (fun _ => Byte.x00) sample_glovars (mkClock 120 0) 3 sample_session sample_shared
      (mkReg [3%nat] 1) = Some (s', h', g', freed) /\
    length (all_conns (conn_pools h')) = S (length (all_conns (conn_pools sample_shared))).
Proof.
  destruct (session_close_releases (fun d => d) (fun _ => Byte.x00) sample_glovars (mkClock 120 0) 3 sample_session sample_shared (mkReg [3%nat] 1))
    as (s' & h' & g' & freed & E & _ & _ & _ & _ & _ & _ & _ & _ & _ & Hc & _).
  - split; [reflexivity| | |exact sample_pools_ok].
    + intros i Hi. injection Hi as <-. vm_compute. lia.
    + intros be c Hbe Hc. apply list_elem_of_singleton in Hbe as ->. injection Hc as <-. exact sample_key_ok.
  - left. reflexivity.
  - intros H. discriminate H.
  - left.
  - exists s', h', g', freed. split; [exact E|]. rewrite Hc. reflexivity.
Defined.

(** ** Packets before the authentication *)

(** A new session: the handshake [hs] is waiting to be sent. *)
Record fresh (hs : pkt) (s : session) : Prop := {
  fr_idle : idle_client s; fr_my : omypkt (output (client_myds s)) = None; fr_pkts : opkts (output (client_myds s)) = [hs];
  fr_sent : pkts_sent (client_myds s) = 0; fr_recv : pkts_recv (client_myds s) = 0;
  fr_schema : mysql_schema_cur (sauth s) = None; fr_user : mysql_username (sauth s) = None; fr_admin : admin (sauth s) = 0;
  fr_healthy : healthy s = true }.

Lemma init_db_packet_wf id name : Z.of_nat (length name) < 2 ^ 24 - 1 -> wf_pkt (init_db_packet id name).
Proof. intros Hl. apply frame_wf; [cbn [length]; lia|done]. Qed.

Lemma init_db_command checksum md5 rmatch rreplace junk sha1 users after_free admin_query G o n name s h :
  admin (sauth s) = 0 -> Byte.x00 ∉ name -> mysql_schema_cur (sauth s) = None -> healthy s = true -> backends_ok G s h ->
  exists s' h' ok, process_client_pkt checksum md5 rmatch rreplace junk sha1 users after_free admin_query G o (init_db_packet n name) s h =
      Some (Next, s', h') /\
    create_ok_packet junk 1 = Some ok /\ client_myds s' = add_out ok (client_myds s) /\
    sauth s' = (sauth s) <| mysql_schema_cur := Some name |> /\ server_mybe s' = None /\ healthy s' = true /\ net_failure s' = net_failure s.
Proof.
  intros Ha Hn Hsch Hhe Hbo. unfold process_client_pkt.
  assert (data (init_db_packet n name) !! 4%nat = Some (byte.of_Z COM_INIT_DB)) as ->
    by (exact (payload_at n (byte.of_Z COM_INIT_DB :: name) 0)).
  rewrite bind_Some. change (uc (byte.of_Z COM_INIT_DB)) with COM_INIT_DB.
  set (s0 := s <| client_command := COM_INIT_DB |> <| mysql_query_cache_hit := false |> <| query_to_cache := false |>
             <| send_to_slave := false |> <| mysql_server_reconnect := reconnect_allowed G COM_INIT_DB (init_db_packet n name) s |>).
  assert (sauth s0 = sauth s /\ client_myds s0 = client_myds s /\ healthy s0 = healthy s /\ net_failure s0 = net_failure s /\
          mybes s0 = mybes s /\ server_mybe s0 = server_mybe s) as (E1 & E2 & E3 & E4 & E5 & E6) by (unfold s0; by destruct s).
  clearbody s0. unfold client_command_dispatch. cbn [COM_INIT_DB COM_QUIT COM_STATISTICS Z.eqb Pos.eqb].
  destruct (init_db_spec junk G (o_clock o) n name s0 h) as (s1 & h1 & ok & -> & Hok & Hd & Hau & Hhit & Hh & _ & Hnf & _ & Hdiff);
    rewrite ?E1; [done|done|congruence|by destruct Hbo; split; rewrite ?E5, ?E6; unfold keys_ok; rewrite ?E5|].
  destruct Hdiff as (_ & Hmy & _); [congruence|]. rewrite !bind_Some, Hh, E3, Hhe. cbn [negb].
  change (mysql_query_cache_hit (s1 <| prepared_statement := _ |>)) with (mysql_query_cache_hit s1). rewrite Hhit.
  do 3 eexists. split; [reflexivity|]. split; [exact Hok|].
  assert (forall x, let s2 := s1 <| prepared_statement := x |> in client_myds s2 = client_myds s1 /\ sauth s2 = sauth s1 /\
    server_mybe s2 = server_mybe s1 /\ healthy s2 = healthy s1 /\ net_failure s2 = net_failure s1) as Hps by (by destruct s1).
  edestruct Hps as (-> & -> & -> & -> & ->). rewrite Hd, Hau, Hh, Hnf, E1, E2, E3, E4. done.
Qed.

(** C40: a client need not log in: a packet that arrives before the handshake was sent is taken for a command. A client that
    sends COM_INIT_DB at once is answered with an OK packet and is on the schema it asked for, with no user name; since two packets
    were sent by then, none of its later packets will be taken for its authentication. *)
Theorem early_packet_skips_authentication checksum md5 rmatch rreplace junk sha1 users after_free admin_query G t o os id c h g hs n name :
  fresh hs (sess c) -> wf_pkt hs -> backends_ok G (sess c) h -> has (revents (fds0 c)) POLLIN = true ->
  recv_client t = Some (data (init_db_packet n name)) -> t_oracles t = o :: os -> Byte.x00 ∉ name -> Z.of_nat (length name) < 2 ^ 24 - 1 ->
  (length_of (init_db_packet n name) <= queue_available (iqueue (input (client_myds (sess c)))))%nat ->
  (length_of hs + 11 <= size (oqueue (output (client_myds (sess c)))))%nat ->
  0 <= send_client2 t <= Z.of_nat (length_of hs + 11) ->
  exists c' h' ok, session_handler checksum md5 rmatch rreplace junk sha1 users after_free admin_query G t id c h g =
      Some (0, c', h', g, (take (Z.to_nat (send_client2 t)) (data hs ++ data ok), [])) /\
    create_ok_packet junk 1 = Some ok /\ healthy (sess c') = true /\
    mysql_username (sauth (sess c')) = None /\ mysql_schema_cur (sauth (sess c')) = Some name /\
    pkts_sent (client_myds (sess c')) = 2.
Proof.
  intros [Hid Hom Hop Hsent Hrecv Hsch Hus Hadm Hhe] Hhs Hbo Hr0 Hrc Hos Hnul Hnl Hroom Hfit Hsend. unfold session_handler.
  change (sess (c <| sess_status := CONNECTION_ALL |>)) with (sess c). rewrite Hhe.
  change (fds0 (c <| sess_status := CONNECTION_ALL |>)) with (fds0 c). change (fds1 (c <| sess_status := CONNECTION_ALL |>)) with (fds1 c).
  set (p := init_db_packet n name) in *. assert (wf_pkt p) as Hp by (by apply init_db_packet_wf).
  assert (mjoin (data <$> [p]) = data p) as Hj by (cbn [fmap list_fmap]; rewrite mjoin_cons; apply app_nil_r).
  destruct (turn_receive checksum md5 rmatch rreplace junk sha1 users after_free admin_query G t (revents (fds0 c)) (revents (fds1 c)) (sess c) h [p])
    as (d1 & -> & Hi1 & Hd1 & Hp1 & Ho1 & Hf1 & Ha1 & Hc1 & Hc2 & Hz1 & Hs1);
    [done|done|by rewrite Hj|by apply Forall_singleton|done|rewrite Hj; destruct Hp; lia|].
  unfold session_respond. change (client_myds ((sess c) <| client_myds := d1 |>)) with d1. rewrite Hc2, Hsent.
  change ((0 =? 1) && (pkts_recv d1 =? 1)) with false. cbn match. rewrite bind_Some, Hos. cbn [process_client_pkts].
  change (client_myds ((sess c) <| client_myds := d1 |>)) with d1. rewrite Hp1, set_client_twice.
  set (s1 := (sess c) <| client_myds := d1 <| input := (input d1) <| ipkts := [] |> |> |>).
  destruct (init_db_command checksum md5 rmatch rreplace junk sha1 users after_free admin_query G o n name s1 h)
    as (s2 & h2 & ok & Hrun & Hok & Hd2 & Hau & Hmy & Hhe2 & Hnf); [exact Hadm|done|exact Hsch|exact Hhe|by destruct Hbo; split|].
  unfold p. rewrite Hrun, bind_Some. clear Hrun. change (client_myds s1) with (d1 <| input := (input d1) <| ipkts := [] |> |>) in Hd2.
  rewrite process_client_none, bind_Some by (by rewrite Hd2). cbn [Z.eqb].
  unfold process_server_pkts, server_stream, current_backend. rewrite Hmy. cbn [mbind option_bind].
  rewrite ok_frame in Hok. injection Hok as <-.
  set (ok := mkPkt 11 (frame (u8 1) [Byte.x00; Byte.x00; Byte.x00; Byte.x02; Byte.x00; Byte.x00; Byte.x00])) in *.
  assert (wf_pkt ok) as Hokwf by (vm_compute; auto with lia).
  assert (mjoin (data <$> [hs; ok]) = data hs ++ data ok) as Hj2 by (cbn [fmap list_fmap]; rewrite !mjoin_cons; by rewrite app_nil_r).
  assert (length (data hs ++ data ok) = length_of hs + 11)%nat as Hlen by (rewrite length_app; destruct Hhs, Hokwf as [-> _]; cbn; lia).
  pose proof Hid as [[_ _ _ Ho Hfd] _ Hq Hact Hlone Hnet].
  assert (output (client_myds s2) = (output (client_myds (sess c))) <| opkts := [hs; ok] |>) as Hout.
  { rewrite Hd2. cbn. by rewrite Ho1, Hop. }
  assert (fd (client_myds s2) = fd (client_myds (sess c)) /\ pkts_sent (client_myds s2) = 0 /\ pkts_recv (client_myds s2) = 1) as (F1 & F2 & F3).
  { rewrite Hd2. cbn. rewrite Hf1, Hc1, Hc2, Hsent, Hrecv. done. }
  destruct (write_answers t (revents (fds0 c)) (revents (fds1 c)) s2 h2 [hs; ok]) as (d & -> & _ & _ & _ & _ & Ws & _);
    rewrite ?Hout, ?Hj2, ?Hlen, ?F1; try done.
  - by apply lone_silent.
  - by apply lone_may_write.
  - rewrite Hnf. exact Hnet.
  - destruct Ho as [? ? ?]. constructor; try done. by apply Forall_cons; split; [|apply Forall_singleton].
  - rewrite bind_Some. rewrite F2, F3 in *. rewrite Hau. cbn match. do 3 eexists. split; [reflexivity|].
    split; [apply ok_frame|]. cbn [sess upd mysql_session_eta].
    change (healthy (s2 <| client_myds := d |>)) with (healthy s2). change (sauth (s2 <| client_myds := d |>)) with (sauth s2).
    rewrite Hau, Hhe2. split_and!; try done.
Qed.

(** The session of a new client before its first turn: a short handshake is queued. *)
Definition sample_new : mysql_session_t :=
  let c := session_init (fun _ => Byte.x00) sample_glovars 7 in
  c <| sess := out_client ping (sess c) |> <| fds0 := mkPollfd 7 POLLIN POLLIN |>.

Lemma early_packet_skips_authentication_witness :
  exists c' h', session_handler (fun d => d) (fun d => d) (fun _ _ => false) (fun _ _ => None) (fun _ => Byte.x00) toy_sha1 toy_users
      (fun d => d) (fun _ s h => Some (s, h)) sample_glovars (sample_turn (data (init_db_packet 0 (c_lit "crm"))) 16) 3 sample_new sample_shared
      (mkReg [3%nat] 1) = Some (0, c', h', mkReg [3%nat] 1, (data ping ++ frame 1 (drop 4 (data ok_reply)), [])) /\
    mysql_username (sauth (sess c')) = None /\ mysql_schema_cur (sauth (sess c')) = Some (c_lit "crm").
Proof.
  destruct sample_greeted_ok as [_ Hbo].
  destruct (early_packet_skips_authentication (fun d => d) (fun d => d) (fun _ _ => false) (fun _ _ => None) (fun _ => Byte.x00) toy_sha1 toy_users
      (fun d => d) (fun _ s h => Some (s, h)) sample_glovars (sample_turn (data (init_db_packet 0 (c_lit "crm"))) 16)
      (mkOracle (mkClock 120 0) [] [] [] []) [] 3 sample_new sample_shared (mkReg [3%nat] 1) ping 0 (c_lit "crm"))
    as (c' & h' & ok & Hrun & Hok & _ & Hu & Hs & _).
  - split; try reflexivity. split; try reflexivity. split; try reflexivity; [apply new_input_ok|apply new_input_ok|cbn; lia|].
    split; [apply (new_output_ok (fun _ => Byte.x00) 100 false 7)|by apply Forall_singleton, ping_wf|reflexivity].
  - apply ping_wf.
  - split; [reflexivity|done| |exact sample_pools_ok]. intros be c Hbe Hc. apply list_elem_of_singleton in Hbe as ->. discriminate Hc.
  - reflexivity.
  - reflexivity.
  - reflexivity.
  - vm_compute. set_solver.
  - vm_compute. reflexivity.
  - vm_compute. lia.
  - vm_compute. lia.
  - vm_compute. split; discriminate.
  - exists c', h'. split_and!; [|exact Hu|exact Hs]. rewrite Hrun. rewrite ok_frame in Hok. injection Hok as <-. reflexivity.
Defined.
