(* ===== verification/Thread.v ===== *)
(** * Threads: the loop of [mysql_thread] (src/main.c) and the pipe between the administrator's thread
    and the others (src/admin.c, src/threads.c)

    A thread owns sessions and one array of [struct pollfd] that it fills with the descriptors of its
    sessions, gives to [poll], and hands back to the sessions in the same order.  It also accepts new
    clients, drops the sessions that were closed, and takes servers out of service when the
    administrator's thread asks it to.

    What [poll], [accept] and the clock answer is an input.  [None] is an access outside of the array, or an
    error of a session (SessionLoop.v). *)
From S2P Require Import Prelude PtrArray Protocol DataStream QueryCache Tokenizer Routing ConnPool Backend Session SessionClient SessionLoop.
Open Scope Z_scope.

(** [monotonic_time] of src/utils.c: microseconds, from the seconds and nanoseconds of [clock_gettime]. *)
Definition monotonic_time (tv_sec tv_nsec : Z) : Z := i64 (i64 (tv_sec * 1000000) + tv_nsec / 1000).

Definition MAX_FDS_PER_SESSION : Z := 2.
Definition MIN_FDS_PER_THREAD : Z := 1024.

(** ** Filling and emptying the array *)

Definition asks (p : pollfd) : bool := negb (events p =? 0).
Definition clear (p : pollfd) : pollfd := if asks p then p <| revents := 0 |> else p.

(** Prepare the descriptors of a session: lines 138 to 147. *)
Definition prepare (c : mysql_session_t) : option mysql_session_t :=
  let s := sess c in
  od ← (match server_mybe s with
        | None => Some None
        | Some i => be ← mybes s !! i;
                    Some (match server_mycpe be with Some _ => if admin (sauth s) =? 0 then server_myds be else None | None => None end)
        end);
  let c := match od with
           | Some d => c <| fds1 := (fds1 c) <| pfd := fd d |> |> <| sess := s <| last_server_poll_fd := fd d |> <| nfds := 2 |> |>
           | None => c <| sess := s <| nfds := 1 |> |>
           end in
  conn_poll (c <| sess_status := CONNECTION_ALL |>).

(** The entries a session copies into the array: lines 150 to 157. *)
Definition entries (c : mysql_session_t) : list pollfd :=
  (if asks (fds0 c) then [fds0 c] else []) ++ (if (1 <? nfds (sess c)) && asks (fds1 c) then [fds1 c] else []).

Definition clear_fds (c : mysql_session_t) : mysql_session_t :=
  c <| fds0 := clear (fds0 c) |> <| fds1 := if 1 <? nfds (sess c) then clear (fds1 c) else fds1 c |>.

(** The first loop over the sessions; [n] entries of [max] are in use. *)
Fixpoint collect (max n : Z) (cs : list (nat * mysql_session_t)) : option (list (nat * mysql_session_t) * list pollfd) :=
  match cs with
  | [] => Some ([], [])
  | (id, c) :: cs' =>
      if healthy (sess c) then
        c ← prepare c;
        let c := clear_fds c in
        let es := entries c in
        let n := n + Z.of_nat (length es) in
        if max <? n then None else
        '(cs', fds) ← collect max n cs';
        Some ((id, c) :: cs', es ++ fds)
      else
        '(cs', fds) ← collect max n cs';
        Some ((id, c) :: cs', fds)
  end.

Definition next_fd (rs : list pollfd) : option (pollfd * list pollfd) :=
  match rs with r :: rs' => Some (r, rs') | [] => None end.

(** The entries of a session are copied back: lines 236 to 242. *)
Definition scatter (c : mysql_session_t) (rs : list pollfd) : option (mysql_session_t * list pollfd) :=
  '(f0, rs) ← (if asks (fds0 c) then next_fd rs else Some (fds0 c, rs));
  '(f1, rs) ← (if (1 <? nfds (sess c)) && asks (fds1 c) then next_fd rs else Some (fds1 c, rs));
  Some (c <| fds0 := f0 |> <| fds1 := f1 |>, rs).

(** [i--] after a removal: the element that took the place is looked at next. *)
Fixpoint sweep (fuel i : nat) (cs : list (nat * mysql_session_t)) : list (nat * mysql_session_t) :=
  match fuel with
  | O => cs
  | S fuel' =>
      match cs !! i with
      | None => cs
      | Some (_, c) =>
          if healthy (sess c) then sweep fuel' (S i) cs
          else match g_remove_first_fast (drop i cs) with
               | Some (_, rest) => sweep fuel' i (take i cs ++ rest)
               | None => cs
               end
      end
  end.

(** Lines 251 to 258. *)
Definition drop_unhealthy (cs : list (nat * mysql_session_t)) : list (nat * mysql_session_t) := sweep (S (length cs)) 0 cs.

(** Lines 292 to 299. *)
Definition grow_fds (len max_fds : Z) : Z :=
  if max_fds <? (len + 10) * MAX_FDS_PER_SESSION then max_fds + MIN_FDS_PER_THREAD else max_fds.

(** ** One turn *)

Record thread := mkThread {
  t_admin : Z; sessions : list (nat * mysql_session_t); max_fds : Z; removing_hosts : bool; maintenance_ends : Z }.
#[export] Instance thread_eta : Eta thread := fun t =>
  mkThread (t_admin t) (sessions t) (max_fds t) (removing_hosts t) (maintenance_ends t).

(** The state the threads share: the globals, the registry and [proxyipc.queue[mysql_threads]], the acknowledgements. *)
Record world := mkWorld { w_shared : shared; w_reg : registry; w_acks : list Z }.
#[export] Instance world_eta : Eta world := fun w => mkWorld (w_shared w) (w_reg w) (w_acks w).

(** What happens during one turn: the command read from the pipe and when, the results of [poll], the clock of the
    maintenance, an input per session, and the descriptors that [accept] returned (TCP, Unix socket), each with the identity of the new
    session and the random numbers of its handshake. *)
Record accepted := mkAccept { ac_fd : Z; ac_id : nat; ac_thread : Z; ac_r1 : Z; ac_r2 : Z }.
Record events_in := mkEvents {
  e_command : option (clock * list byte); e_revents : list Z; e_clock : clock; e_turns : list turn;
  e_tcp : option accepted; e_unix : option accepted }.

(** [nfds=3] for the threads that serve clients, [nfds=1] for the administrator's. *)
Definition first_fd (admin : Z) : Z := if admin =? 0 then 3 else 1.

(** The start of [mysql_thread]: 0 for a thread that serves clients, 1 for the administrator's, 2 for the monitor's. *)
Definition thread_kind (mysql_threads thread_id : Z) : Z := if mysql_threads <=? thread_id then thread_id + 1 - mysql_threads else 0.

Definition thread_start (mysql_threads thread_id : Z) : thread := mkThread (thread_kind mysql_threads thread_id) [] MIN_FDS_PER_THREAD false 0.

(** What the first entries of the array listen on; [fdIn] are the pipes of the threads that serve clients. *)
Definition listen_fds (tcp unix admin_fd monitor_fd : Z) (fdIn : list Z) (admin thread_id : Z) : option (list Z) :=
  if admin =? 0 then ipc ← fdIn !! Z.to_nat thread_id; Some [tcp; unix; ipc]
  else if admin =? 1 then Some [admin_fd] else if admin =? 2 then Some [monitor_fd] else Some [0].

Definition remove_command : list byte := c_lit "REMOVE SERVER".

Section Thread.
Context (checksum md5 : list byte -> list byte) (rmatch : query_rule_t -> list byte -> bool)
        (rreplace : query_rule_t -> list byte -> option (list byte)) (junk : nat -> byte)
        (sha1 : list byte -> list byte) (users : user_table) (after_free : list byte -> list byte)
        (admin_COM_QUERY : pkt -> session -> shared -> option (session * shared)) (G : glovars_t)
        (sv : glovars_server) (mysql_maintenance_timeout : Z).

(** The second loop over the sessions: lines 231 to 247. *)
Definition handle_one (t : turn) (id : nat) (c : mysql_session_t) (h : shared) (g : registry)
  : option (mysql_session_t * shared * registry * sent) :=
  c ← check_fds_errors c;
  '(_, c, h, g, out) ← session_handler checksum md5 rmatch rreplace junk sha1 users after_free admin_COM_QUERY G t id c h g;
  Some (c, h, g, out).

Fixpoint handle_sessions (cs : list (nat * mysql_session_t)) (rs : list pollfd) (ts : list turn) (h : shared) (g : registry)
  : option (list (nat * mysql_session_t) * shared * registry * list sent) :=
  match cs with
  | [] => Some ([], h, g, [])
  | (id, c) :: cs' =>
      if healthy (sess c) then
        match ts with
        | [] => None
        | t :: ts' =>
            '(c, rs) ← scatter c rs;
            '(c, h, g, out) ← handle_one t id c h g;
            '(cs', h, g, outs) ← handle_sessions cs' rs ts' h g;
            Some ((id, c) :: cs', h, g, out :: outs)
        end
      else
        '(cs', h, g, outs) ← handle_sessions cs' rs ts h g;
        Some ((id, c) :: cs', h, g, outs)
  end.

(** [cnt+=sess->remove_all_backends_offline_soft(sess)] over the sessions. *)
Fixpoint remove_pass (t : clock) (cs : list (nat * mysql_session_t)) (h : shared) : option (Z * list (nat * mysql_session_t) * shared) :=
  match cs with
  | [] => Some (0, [], h)
  | (id, c) :: cs' =>
      '(n, s, h) ← remove_all_backends_offline_soft G t (sess c) h;
      '(m, cs', h) ← remove_pass t cs' h;
      Some (n + m, (id, c <| sess := s |>) :: cs', h)
  end.

(** The pass that closes the sessions that are still not rid of their backends: lines 206 to 215. *)
Fixpoint close_pass (t : clock) (cs : list (nat * mysql_session_t)) (h : shared) (g : registry)
  : option (Z * list (nat * mysql_session_t) * shared * registry) :=
  match cs with
  | [] => Some (0, [], h, g)
  | (id, c) :: cs' =>
      '(n, s, h) ← remove_all_backends_offline_soft G t (sess c) h;
      '(s, h, g) ← (if n =? 0 then Some (s, h, g) else
                    '(s, h, g, _) ← sess_close md5 junk G t id (s <| force_close_backends := 1 |>) h g;
                    Some (s, h, g));
      '(m, cs', h, g) ← close_pass t cs' h g;
      Some (n + m, (id, c <| sess := s |>) :: cs', h, g)
  end.

(** [if (admin==0 && removing_hosts==1)]: lines 187 to 223. *)
Definition maintenance (t : clock) (th : thread) (w : world) : option (thread * world) :=
  if (t_admin th =? 0) && removing_hosts th then
    '(cnt, cs, h) ← remove_pass t (sessions th) (w_shared w);
    let th := th <| sessions := cs |> in
    if cnt =? 0 then
      Some (th <| removing_hosts := false |>, w <| w_shared := h |> <| w_acks := w_acks w ++ [cnt] |>)
    else if maintenance_ends th <? monotonic t then
      '(n, cs, h, g) ← close_pass t (sessions th) h (w_reg w);
      Some (th <| sessions := cs |> <| removing_hosts := false |>, mkWorld h g (w_acks w ++ [n]))
    else Some (th, w <| w_shared := h |>)
  else Some (th, w).

(** The command of the administrator's thread: lines 170 to 184. *)
Definition receive_command (cmd : option (clock * list byte)) (th : thread) : thread :=
  match cmd with
  | Some (t, c) => if (t_admin th =? 0) && (strncmp c remove_command 20 =? 0)
              then th <| removing_hosts := true |> <| maintenance_ends := i64 (monotonic t + i32 (mysql_maintenance_timeout * 1000)) |>
              else th
  | None => th
  end.

(** Lines 262 to 291; [admin] is the kind of the new session. *)
Definition accept_client (admin : Z) (a : option accepted) (th : thread) (w : world) : option (thread * world) :=
  match a with
  | None => Some (th, w)
  | Some a =>
      if 0 <? ac_fd a then
        let '(c, g) := mysql_session_new junk G (ac_id a) (ac_fd a) (w_reg w) in
        let w := w <| w_reg := g |> in
        let s := (sess c) <| sauth := (sauth (sess c)) <| Protocol.admin := admin |> |> in
        s ← send_auth_pkt sv (ac_thread a) (ac_r1 a) (ac_r2 a) s;
        Some (th <| sessions := sessions th ++ [(ac_id a, c <| sess := s |>)] |>, w)
      else Some (th, w)
  end.

(** One turn of the loop of [mysql_thread]; [poll] writes the [revents] of the entries it was given. *)
Definition thread_turn (e : events_in) (th : thread) (w : world) : option (thread * world * list sent) :=
  let t := e_clock e in
  '(cs, fds) ← collect (max_fds th) (first_fd (t_admin th)) (sessions th);
  let th := th <| sessions := cs |> in
  let rs := zip_with (fun f r => f <| revents := r |>) fds (e_revents e) in
  let th := receive_command (e_command e) th in
  '(th, w) ← maintenance t th w;
  '(cs, h, g, outs) ← handle_sessions (sessions th) rs (e_turns e) (w_shared w) (w_reg w);
  let th := th <| sessions := drop_unhealthy cs |> in
  let w := w <| w_shared := h |> <| w_reg := g |> in
  '(th, w) ← accept_client (t_admin th) (e_tcp e) th w;
  '(th, w) ← (if t_admin th =? 0 then accept_client 0 (e_unix e) th w else Some (th, w));
  Some (th <| max_fds := grow_fds (Z.of_nat (length (sessions th))) (max_fds th) |>, w, outs).

End Thread.

(** * Properties *)

(** The clock of the deadlines does not run backwards, for the next quarter of a million years. *)
Lemma monotonic_time_monotone s n s' n' :
  0 <= s < 2 ^ 43 -> 0 <= s' < 2 ^ 43 -> 0 <= n < 1000000000 -> 0 <= n' < 1000000000 -> s < s' \/ (s = s' /\ n <= n') ->
  monotonic_time s n <= monotonic_time s' n'.
Proof.
  intros Hs Hs' Hn Hn' Hle. unfold monotonic_time.
  assert (forall x y, 0 <= x < 2 ^ 43 -> 0 <= y < 1000000000 -> i64 (i64 (x * 1000000) + y / 1000) = x * 1000000 + y / 1000) as E.
  { intros x y Hx Hy. assert (0 <= y / 1000 < 1000000) by (split; [apply Z.div_pos; lia|apply Z.div_lt_upper_bound; lia]).
    rewrite (swrap_small 64 (x * 1000000)) by lia. apply swrap_small; lia. }
  rewrite !E by done. assert (n / 1000 < 1000000) by (apply Z.div_lt_upper_bound; lia).
  assert (0 <= n' / 1000) by (apply Z.div_pos; lia). destruct Hle as [|[-> Hle]]; [lia|]. pose proof (Z.div_le_mono n n' 1000). lia.
Qed.

(** ** The results of [poll] reach the sessions they belong to *)

(** All entries handed back before any session is handled. *)
Fixpoint scatter_all (cs : list (nat * mysql_session_t)) (rs : list pollfd) : option (list (nat * mysql_session_t) * list pollfd) :=
  match cs with
  | [] => Some ([], rs)
  | (id, c) :: cs' =>
      '(c, rs) ← (if healthy (sess c) then scatter c rs else Some (c, rs));
      '(cs', rs) ← scatter_all cs' rs;
      Some ((id, c) :: cs', rs)
  end.

Definition answered (fds : list pollfd) (vs : list Z) : list pollfd := zip_with (fun f r => f <| revents := r |>) fds vs.

Definition healthy_entries (cs : list (nat * mysql_session_t)) : list pollfd :=
  '(_, c) ← cs; if healthy (sess c) then entries c else [].

(** The descriptors of a session are the same as before. *)
Definition delivered (x y : nat * mysql_session_t) : Prop :=
  y.1 = x.1 /\ sess y.2 = sess x.2 /\
  pfd (fds0 y.2) = pfd (fds0 x.2) /\ events (fds0 y.2) = events (fds0 x.2) /\
  pfd (fds1 y.2) = pfd (fds1 x.2) /\ events (fds1 y.2) = events (fds1 x.2).

Lemma answered_app a b vs : answered (a ++ b) vs = answered a vs ++ answered b (drop (length a) vs).
Proof.
  revert vs. induction a as [|f a IH]; intros vs; [done|]. destruct vs as [|v vs]; simpl.
  - by destruct b.
  - by rewrite IH.
Qed.

Lemma answered_take fds vs : answered fds (take (length fds) vs) = answered fds vs.
Proof. revert vs. induction fds as [|f fds IH]; intros [|v vs]; [done..|]. simpl. by rewrite IH. Qed.

Lemma asks_revents p v : asks (mkPollfd (pfd p) (events p) v) = asks p.
Proof. done. Qed.

Lemma scatter_own id c vs rest : length vs = length (entries c) ->
  exists c', scatter c (answered (entries c) vs ++ rest) = Some (c', rest) /\ delivered (id, c) (id, c') /\
    entries c' = answered (entries c) vs /\ sess c' = sess c.
Proof.
  destruct c as [s f0 f1 st]. unfold entries, scatter, delivered. cbn [sess fds0 fds1]. intros Hl.
  destruct (asks f0) eqn:E0, ((1 <? nfds s) && asks f1) eqn:E1; cbn in Hl;
    repeat (destruct vs as [|? vs]; simpl in Hl; try lia); cbn [app answered zip_with next_fd]; rewrite ?bind_Some;
    (eexists; split; [reflexivity|]); cbn [sess fds0 fds1 fst snd upd mysql_session_eta]; rewrite ?asks_revents, ?E0, ?E1; by split_and!; rewrite ?asks_revents, ?E0, ?E1.
Qed.

Lemma scatter_all_own cs : forall vs, length vs = length (healthy_entries cs) ->
  exists cs', scatter_all cs (answered (healthy_entries cs) vs) = Some (cs', []) /\ Forall2 delivered cs cs' /\
    healthy_entries cs' = answered (healthy_entries cs) vs.
Proof.
  induction cs as [|[id c] cs IH]; intros vs Hl.
  { exists []. split_and!; [by destruct vs|constructor|by destruct vs]. }
  change (healthy_entries ((id, c) :: cs)) with ((if healthy (sess c) then entries c else []) ++ healthy_entries cs) in *.
  cbn [scatter_all]. destruct (healthy (sess c)) eqn:Hh.
  - rewrite answered_app. rewrite length_app in Hl.
    destruct (scatter_own id c (take (length (entries c)) vs) (answered (healthy_entries cs) (drop (length (entries c)) vs)))
      as (c' & Hs & Hd & He & Hse); [px_len|].
    rewrite answered_take in *. rewrite Hs, bind_Some.
    destruct (IH (drop (length (entries c)) vs)) as (cs' & -> & Hf & Hes); [px_len|]. rewrite bind_Some.
    eexists. split; [reflexivity|]. split; [by constructor|].
    change (healthy_entries ((id, c') :: cs')) with ((if healthy (sess c') then entries c' else []) ++ healthy_entries cs').
    by rewrite Hse, Hh, He, Hes.
  - cbn [app] in *. rewrite bind_Some. destruct (IH vs Hl) as (cs' & -> & Hf & Hes). rewrite bind_Some.
    eexists. split; [reflexivity|]. split; [constructor; [by split_and!|done]|].
    change (healthy_entries ((id, c) :: cs')) with ((if healthy (sess c) then entries c else []) ++ healthy_entries cs').
    by rewrite Hh, Hes.
Qed.

Lemma conn_poll_sess c c' : conn_poll c = Some c' -> sess c' = sess c.
Proof.
  unfold conn_poll. intros H. destruct (1 <? _); [|by simplify_eq]. destruct (_ || _); [px_run H|]; by simplify_eq.
Qed.

Lemma prepare_healthy c c' : prepare c = Some c' -> healthy (sess c') = healthy (sess c).
Proof.
  unfold prepare. intros H. px_run H. apply conn_poll_sess in H. rewrite H. by destruct x.
Qed.

Lemma collect_entries max : forall cs n cs' fds, collect max n cs = Some (cs', fds) -> fds = healthy_entries cs'.
Proof.
  induction cs as [|[id c] cs IH]; intros n cs' fds H; cbn [collect] in H; [by simplify_eq|].
  destruct (healthy (sess c)) eqn:Hh.
  - apply bind_inv in H as (c1 & Hp & H). destruct (max <? _); [done|]. apply bind_inv in H as ([cs1 fds1'] & Hc & H). simplify_eq.
    apply IH in Hc as ->.
    change (healthy_entries ((id, clear_fds c1) :: cs1)) with ((if healthy (sess c1) then entries (clear_fds c1) else []) ++ healthy_entries cs1).
    by rewrite (prepare_healthy _ _ Hp), Hh.
  - apply bind_inv in H as ([cs1 fds1'] & Hc & H). simplify_eq. apply IH in Hc as ->.
    change (healthy_entries ((id, c) :: cs1)) with ((if healthy (sess c) then entries c else []) ++ healthy_entries cs1). by rewrite Hh.
Qed.

Section Delivery.
Context (checksum md5 : list byte -> list byte) (rmatch : query_rule_t -> list byte -> bool)
        (rreplace : query_rule_t -> list byte -> option (list byte)) (junk : nat -> byte)
        (sha1 : list byte -> list byte) (users : user_table) (after_free : list byte -> list byte)
        (admin_COM_QUERY : pkt -> session -> shared -> option (session * shared)) (G : glovars_t).

(** The sessions handled one after the other, with the entries they already have. *)
Fixpoint handle_all (cs : list (nat * mysql_session_t)) (ts : list turn) (h : shared) (g : registry)
  : option (list (nat * mysql_session_t) * shared * registry * list sent) :=
  match cs with
  | [] => Some ([], h, g, [])
  | (id, c) :: cs' =>
      if healthy (sess c) then
        match ts with
        | [] => None
        | t :: ts' =>
            '(c, h, g, out) ← handle_one checksum md5 rmatch rreplace junk sha1 users after_free admin_COM_QUERY G t id c h g;
            '(cs', h, g, outs) ← handle_all cs' ts' h g;
            Some ((id, c) :: cs', h, g, out :: outs)
        end
      else
        '(cs', h, g, outs) ← handle_all cs' ts h g;
        Some ((id, c) :: cs', h, g, outs)
  end.

Lemma scatter_sess c rs c' rs' : scatter c rs = Some (c', rs') -> sess c' = sess c.
Proof.
  unfold scatter. intros H. apply bind_inv in H as ([f0 r0] & _ & H). apply bind_inv in H as ([f1 r1] & _ & H). by simplify_eq.
Qed.

Lemma handle_after_scatter cs : forall rs ts h g cs1 rs1,
  scatter_all cs rs = Some (cs1, rs1) ->
  handle_sessions checksum md5 rmatch rreplace junk sha1 users after_free admin_COM_QUERY G cs rs ts h g = handle_all cs1 ts h g.
Proof.
  induction cs as [|[id c] cs IH]; intros rs ts h g cs1 rs1 H; cbn [scatter_all] in H; [by simplify_eq|].
  apply bind_inv in H as ([c' rs'] & Hs & H). apply bind_inv in H as ([cs2 rs2] & Ha & H). simplify_eq.
  cbn [handle_sessions handle_all]. destruct (healthy (sess c)) eqn:Hh.
  - pose proof (scatter_sess _ _ _ _ Hs) as Hse. rewrite Hse, Hh. destruct ts as [|t ts]; [done|]. rewrite Hs, bind_Some.
    destruct (handle_one _ _ _ _ _ _ _ _ _ _ _ _ _ _ _) as [[[[c2 h2] g2] out]|]; [|done]. rewrite !bind_Some. by rewrite (IH _ _ _ _ _ _ Ha).
  - simplify_eq. rewrite Hh. by rewrite (IH _ _ _ _ _ _ Ha).
Qed.

End Delivery.

(** C21: what [poll] reports reaches the session it is about, in every turn of a thread in which no session is closed between [poll] and the handling of
    the sessions, that is, after the maintenance the healthy sessions still have the entries that were polled (always, when no removal of servers is under way; closing_misdirects_poll shows
    what happens otherwise).  The loop that hands the results back, one session after the other and each handled before the next gets its own, then treats every session as if all of
    them had got their entries first, and every session gets the results for its own descriptors, all of them and no other; after that the turn closes, accepts and grows as usual. *)
Theorem poll_results_delivered checksum md5 rmatch rreplace junk sha1 users after_free admin_query G sv timeout e th w cs fds th1 w1 :
  collect (max_fds th) (first_fd (t_admin th)) (sessions th) = Some (cs, fds) -> length (e_revents e) = length fds ->
  maintenance md5 junk G (e_clock e) (receive_command timeout (e_command e) (th <| sessions := cs |>)) w = Some (th1, w1) ->
  healthy_entries (sessions th1) = fds ->
  exists cs', Forall2 delivered (sessions th1) cs' /\ healthy_entries cs' = answered fds (e_revents e) /\
    thread_turn checksum md5 rmatch rreplace junk sha1 users after_free admin_query G sv timeout e th w =
      ('(cs, h, g, outs) ← handle_all checksum md5 rmatch rreplace junk sha1 users after_free admin_query G cs' (e_turns e) (w_shared w1) (w_reg w1);
       let th := th1 <| sessions := drop_unhealthy cs |> in
       let w := w1 <| w_shared := h |> <| w_reg := g |> in
       '(th, w) ← accept_client junk G sv (t_admin th) (e_tcp e) th w;
       '(th, w) ← (if t_admin th =? 0 then accept_client junk G sv 0 (e_unix e) th w else Some (th, w));
       Some (th <| max_fds := grow_fds (Z.of_nat (length (sessions th))) (max_fds th) |>, w, outs)).
Proof.
  intros Hc Hl Hm <-. destruct (scatter_all_own (sessions th1) (e_revents e) Hl) as (cs' & Hs & Hd & He). exists cs'. split_and!; [done|done|].
  unfold thread_turn. rewrite Hc, bind_Some. cbv zeta. rewrite Hm, bind_Some. by erewrite handle_after_scatter.
Qed.

(** Without a removal under way the condition holds. *)
Lemma maintenance_off md5 junk G t th w : (t_admin th =? 0) && removing_hosts th = false -> maintenance md5 junk G t th w = Some (th, w).
Proof. unfold maintenance. by intros ->. Qed.

(** ** The array is large enough, and closed sessions go *)

Definition is_healthy (x : nat * mysql_session_t) : Prop := healthy (sess x.2) = true.
#[export] Instance is_healthy_dec x : Decision (is_healthy x).
Proof. unfold is_healthy. solve_decision. Defined.

Lemma sweep_filter fuel : forall i cs,
  Forall is_healthy (take i cs) -> (length cs - i < fuel)%nat -> (i <= length cs)%nat ->
  sweep fuel i cs ≡ₚ filter is_healthy cs.
Proof.
  induction fuel as [|fuel IH]; intros i cs Hh Hf Hi; [lia|]. cbn [sweep].
  destruct (cs !! i) as [[id c]|] eqn:Hc.
  - pose proof (lookup_lt_Some _ _ _ Hc) as Hlt. destruct (healthy (sess c)) eqn:Hhe.
    + apply IH; [|lia|lia]. rewrite (take_S_r _ _ _ Hc). apply Forall_app. split; [done|]. by apply Forall_singleton.
    + destruct (drop i cs) as [|x l] eqn:Hd; [apply (f_equal length) in Hd; rewrite length_drop in Hd; simpl in Hd; lia|].
      assert (x = (id, c)) as -> by (rewrite <- (take_drop i cs), Hd, lookup_app_r in Hc by (rewrite length_take; lia);
        rewrite length_take, Nat.min_l, Nat.sub_diag in Hc by lia; by injection Hc).
      destruct (g_remove_first_fast ((id, c) :: l)) as [[y rest]|] eqn:Hr; [|done].
      pose proof (g_remove_first_fast_perm _ _ _ Hr) as Hp. assert (y = (id, c)) as -> by (cbn in Hr; by simplify_eq).
      apply Permutation_cons_inv in Hp. pose proof (Permutation_length Hp) as Hpl.
      apply (f_equal length) in Hd as Hdl. rewrite length_drop in Hdl. simpl in Hdl.
      rewrite IH; [|by rewrite take_app_le, take_take, Nat.min_id by (rewrite length_take; lia)|rewrite length_app, length_take; lia|rewrite length_app, length_take; lia].
      rewrite <- (take_drop i cs) at 2. rewrite Hd, !filter_app, <- Hp. apply Permutation_app_head.
      rewrite filter_cons_False; [done|]. unfold is_healthy. cbn. by rewrite Hhe.
  - apply lookup_ge_None in Hc. rewrite take_ge in Hh by lia.
    enough (filter is_healthy cs = cs) as -> by done. clear -Hh. induction Hh; [done|]. rewrite filter_cons_True by done. by f_equal.
Qed.

Lemma drop_unhealthy_filter cs : drop_unhealthy cs ≡ₚ filter is_healthy cs.
Proof. apply sweep_filter; [constructor|lia|lia]. Qed.

(** What holds at the beginning of every turn. *)
Record thread_ok (th : thread) : Prop := {
  to_room : (Z.of_nat (length (sessions th)) + 10) * MAX_FDS_PER_SESSION <= max_fds th;
  to_healthy : Forall is_healthy (sessions th) }.

Lemma entries_length c : (length (entries c) <= 2)%nat.
Proof. unfold entries. destruct (asks (fds0 c)), (_ && _); simpl; lia. Qed.

(** The entries fit. *)
Lemma collect_fits max cs : forall n,
  n + 2 * Z.of_nat (length cs) <= max -> (forall x, x ∈ cs -> is_healthy x -> is_Some (prepare x.2)) ->
  exists cs' fds, collect max n cs = Some (cs', fds) /\ length cs' = length cs.
Proof.
  induction cs as [|[id c] cs IH]; intros n Hn Hp; cbn [collect]; [by eexists _, _|].
  assert (forall x, x ∈ cs -> is_healthy x -> is_Some (prepare x.2)) as Hp' by (intros; apply Hp; [by right|done]).
  cbn [length] in Hn. destruct (healthy (sess c)) eqn:Hh.
  - destruct (Hp (id, c)) as [c1 Hc1]; [by left|done|]. cbn in Hc1. rewrite Hc1, bind_Some.
    pose proof (entries_length (clear_fds c1)). destruct (Z.ltb_spec max (n + Z.of_nat (length (entries (clear_fds c1))))); [lia|].
    destruct (IH (n + Z.of_nat (length (entries (clear_fds c1))))) as (cs' & fds & -> & Hl); [lia|done|].
    rewrite bind_Some. eexists _, _. split; [done|]. simpl. by rewrite Hl.
  - destruct (IH n) as (cs' & fds & -> & Hl); [lia|done|]. rewrite bind_Some. eexists _, _. split; [done|]. simpl. by rewrite Hl.
Qed.

Lemma collect_length max : forall cs n cs' fds, collect max n cs = Some (cs', fds) -> length cs' = length cs.
Proof.
  induction cs as [|[id c] cs IH]; intros n cs' fds H; cbn [collect] in H; [by simplify_eq|]. destruct (healthy (sess c)).
  - px_run H. destruct (max <? _); [done|]. apply bind_inv in H as ([cs1 f1] & Hc & H). simplify_eq. simpl. by erewrite IH.
  - apply bind_inv in H as ([cs1 f1] & Hc & H). simplify_eq. simpl. by erewrite IH.
Qed.

Section TurnInvariant.
Context (checksum md5 : list byte -> list byte) (rmatch : query_rule_t -> list byte -> bool)
        (rreplace : query_rule_t -> list byte -> option (list byte)) (junk : nat -> byte)
        (sha1 : list byte -> list byte) (users : user_table) (after_free : list byte -> list byte)
        (admin_COM_QUERY : pkt -> session -> shared -> option (session * shared)) (G : glovars_t)
        (sv : glovars_server) (mysql_maintenance_timeout : Z).

Lemma remove_pass_length t cs : forall h n cs' h', remove_pass G t cs h = Some (n, cs', h') -> length cs' = length cs.
Proof.
  induction cs as [|[id c] cs IH]; intros h n cs' h' H; cbn [remove_pass] in H; [by simplify_eq|].
  apply bind_inv in H as ([[m s] h1] & _ & H). apply bind_inv in H as ([[m2 cs2] h2] & Hr & H). simplify_eq. simpl. by erewrite IH.
Qed.

Lemma close_pass_length t cs : forall h g n cs' h' g', close_pass md5 junk G t cs h g = Some (n, cs', h', g') -> length cs' = length cs.
Proof.
  induction cs as [|[id c] cs IH]; intros h g n cs' h' g' H; cbn [close_pass] in H; [by simplify_eq|].
  apply bind_inv in H as ([[m s] h1] & _ & H). apply bind_inv in H as ([[s1 h2] g1] & _ & H).
  apply bind_inv in H as ([[[m2 cs2] h3] g3] & Hr & H). simplify_eq. simpl. by erewrite IH.
Qed.

Lemma maintenance_frame t th w th' w' : maintenance md5 junk G t th w = Some (th', w') ->
  length (sessions th') = length (sessions th) /\ max_fds th' = max_fds th /\ t_admin th' = t_admin th.
Proof.
  unfold maintenance. intros H. destruct (_ && _); [|by simplify_eq].
  apply bind_inv in H as ([[n cs] h] & Hr & H). apply remove_pass_length in Hr. destruct (n =? 0); [by simplify_eq|].
  cbn [maintenance_ends sessions upd thread_eta] in H. destruct (_ <? _); [|by simplify_eq].
  apply bind_inv in H as ([[[m cs2] h2] g2] & Hc & H). apply close_pass_length in Hc. simplify_eq. cbn. by rewrite Hc.
Qed.

Lemma handle_sessions_length cs : forall rs ts h g cs' h' g' outs,
  handle_sessions checksum md5 rmatch rreplace junk sha1 users after_free admin_COM_QUERY G cs rs ts h g = Some (cs', h', g', outs) ->
  length cs' = length cs.
Proof.
  induction cs as [|[id c] cs IH]; intros rs ts h g cs' h' g' outs H; cbn [handle_sessions] in H; [by simplify_eq|].
  destruct (healthy (sess c)).
  - destruct ts as [|t ts]; [done|]. apply bind_inv in H as ([c1 rs1] & _ & H). apply bind_inv in H as ([[[c2 h2] g2] o2] & _ & H).
    apply bind_inv in H as ([[[cs3 h3] g3] o3] & Hr & H). simplify_eq. simpl. by erewrite IH.
  - apply bind_inv in H as ([[[cs3 h3] g3] o3] & Hr & H). simplify_eq. simpl. by erewrite IH.
Qed.

Lemma accept_client_ok adm a th w th' w' : accept_client junk G sv adm a th w = Some (th', w') ->
  (length (sessions th') <= S (length (sessions th)))%nat /\ max_fds th' = max_fds th /\ t_admin th' = t_admin th /\
  (Forall is_healthy (sessions th) -> Forall is_healthy (sessions th')).
Proof.
  unfold accept_client. intros H. destruct a as [a|]; [|simplify_eq; by split_and!; [lia|..]].
  destruct (0 <? ac_fd a); [|simplify_eq; by split_and!; [lia|..]].
  unfold send_auth_pkt in H. apply bind_inv in H as (s & Hs & H). apply bind_inv in Hs as ([p sb] & _ & Hs). simplify_eq.
  cbn. rewrite length_app. split_and!; [simpl; lia|done|done|]. intros Hh. apply Forall_app. split; [done|]. by apply Forall_singleton.
Qed.

Lemma thread_turn_ok e th w th' w' outs :
  thread_ok th -> thread_turn checksum md5 rmatch rreplace junk sha1 users after_free admin_COM_QUERY G sv mysql_maintenance_timeout e th w = Some (th', w', outs) ->
  thread_ok th' /\ t_admin th' = t_admin th.
Proof.
  intros [Hroom Hh] H. unfold MAX_FDS_PER_SESSION in Hroom. unfold thread_turn in H. apply bind_inv in H as ([cs fds] & Hc & H). apply collect_length in Hc.
  apply bind_inv in H as ([th1 w1] & Hm & H). apply maintenance_frame in Hm as (Hm1 & Hm2 & Hm3).
  assert (length (sessions th1) = length (sessions th) /\ max_fds th1 = max_fds th /\ t_admin th1 = t_admin th) as (Hl1 & Hx1 & Hk1).
  { rewrite Hm1, Hm2, Hm3. unfold receive_command. destruct (e_command e) as [[? ?]|]; [destruct (_ && _)|]; by rewrite <- Hc. }
  apply bind_inv in H as ([[[cs2 h2] g2] o2] & Hs & H). apply handle_sessions_length in Hs.
  apply bind_inv in H as ([th3 w3] & Ha3 & H). apply bind_inv in H as ([th4 w4] & Ha4 & H).
  apply accept_client_ok in Ha3 as (L3 & X3 & A3 & H3). cbn [sessions max_fds t_admin upd thread_eta] in *.
  pose proof (drop_unhealthy_filter cs2) as Hd. pose proof (Permutation_length Hd) as Hdl. pose proof (length_filter is_healthy cs2) as Hfl.
  assert (Forall is_healthy (sessions th3)) as Hh3.
  { apply H3. rewrite Hd. apply Forall_forall. intros x Hx. by apply list_elem_of_filter in Hx as [? _]. }
  assert ((length (sessions th4) <= S (length (sessions th3)))%nat /\ max_fds th4 = max_fds th3 /\ t_admin th4 = t_admin th3 /\ Forall is_healthy (sessions th4))
    as (L4 & X4 & K4 & Hh4).
  { destruct (t_admin th3 =? 0); [apply accept_client_ok in Ha4 as (? & ? & ? & ?); auto|simplify_eq; split_and!; auto]. }
  simplify_eq. split; [|cbn; congruence]. constructor; cbn [sessions max_fds upd thread_eta]; [|done].
  unfold grow_fds, MAX_FDS_PER_SESSION, MIN_FDS_PER_THREAD. destruct (Z.ltb_spec (max_fds th4) ((Z.of_nat (length (sessions th4)) + 10) * 2)); lia.
Qed.

(** The states of thread [thread_id]; between two of its turns the other threads may change the shared state. *)
Inductive thread_reach (mysql_threads thread_id : Z) : thread -> Prop :=
  | reach_start : thread_reach mysql_threads thread_id (thread_start mysql_threads thread_id)
  | reach_turn e th w th' w' outs :
      thread_reach mysql_threads thread_id th ->
      thread_turn checksum md5 rmatch rreplace junk sha1 users after_free admin_COM_QUERY G sv mysql_maintenance_timeout e th w = Some (th', w', outs) ->
      thread_reach mysql_threads thread_id th'.

Lemma thread_reach_ok n i th : thread_reach n i th -> thread_ok th /\ t_admin th = thread_kind n i.
Proof.
  induction 1 as [|e th w th' w' outs _ [IH IHk] Ht].
  - split; [|done]. split; [vm_compute; discriminate|by apply Forall_nil_2].
  - destruct (thread_turn_ok _ _ _ _ _ _ IH Ht) as [Hok Hk]. split; [done|congruence].
Qed.

Lemma listen_fds_length tcp unix adm mon fdIn n i : 0 <= i < n + 2 -> length fdIn = Z.to_nat n ->
  exists l, listen_fds tcp unix adm mon fdIn (thread_kind n i) i = Some l /\ Z.of_nat (length l) = first_fd (thread_kind n i).
Proof.
  intros Hi Hl. unfold listen_fds, first_fd, thread_kind. destruct (Z.leb_spec n i).
  - destruct (Z.eqb_spec (i + 1 - n) 0); [lia|]. destruct (_ =? 1); [by eexists|]. by destruct (_ =? 2); eexists.
  - cbn [Z.eqb]. destruct (lookup_lt_is_Some_2 fdIn (Z.to_nat i)) as [x ->]; [lia|]. by eexists.
Qed.

End TurnInvariant.

(** C22: the array of descriptors never overflows and no closed session is kept.  In every state that a thread reaches from its start, by turns that read, write, drop and accept
    sessions while other threads change what they share, the descriptors of the listening sockets and two for each session fit into the array, so that collecting the descriptors
    succeeds whenever each session can be prepared, and all sessions are healthy; and the first entries of the array are the sockets of this kind of thread. *)
Theorem thread_turn_invariant checksum md5 rmatch rreplace junk sha1 users after_free admin_query G sv timeout n i th :
  thread_reach checksum md5 rmatch rreplace junk sha1 users after_free admin_query G sv timeout n i th ->
  thread_ok th /\
  ((forall x, x ∈ sessions th -> is_Some (prepare x.2)) -> is_Some (collect (max_fds th) (first_fd (t_admin th)) (sessions th))) /\
  (forall tcp unix adm mon fdIn, 0 <= i < n + 2 -> length fdIn = Z.to_nat n ->
     exists l, listen_fds tcp unix adm mon fdIn (t_admin th) i = Some l /\ Z.of_nat (length l) = first_fd (t_admin th)).
Proof.
  intros [Hok Hk]%thread_reach_ok. split; [done|]. split; [|rewrite Hk; intros; by apply listen_fds_length].
  destruct Hok as [Hroom _]. unfold MAX_FDS_PER_SESSION in Hroom. intros Hp.
  destruct (collect_fits (max_fds th) (sessions th) (first_fd (t_admin th))) as (cs & fds & -> & _); [|auto|done].
  unfold first_fd. destruct (_ =? _); lia.
Qed.

(** Thread 0 of 2, after it accepted a client. *)
Definition sample_accept : events_in := mkEvents None [] (mkClock 0 0) [] (Some (mkAccept 7 1 1 2 3)) None.
Definition sample_server_vars : glovars_server := mkServerVars 10 (c_lit "5.1.30") 0 8 2.

Definition sample_pair : thread := (thread_start 2 0) <| sessions := [(1%nat, sample_greeted); (2%nat, sample_new)] |>.
Definition sample_ready : events_in := mkEvents None [1; 4] (mkClock 0 0) [] None None.

Lemma poll_results_delivered_witness :
  exists cs fds cs', collect (max_fds sample_pair) 3 (sessions sample_pair) = Some (cs, fds) /\
    healthy_entries cs' = [mkPollfd 7 POLLIN 1; mkPollfd 7 (Z.lor POLLIN POLLOUT) 4].
Proof.
  destruct (collect (max_fds sample_pair) 3 (sessions sample_pair)) as [[cs fds]|] eqn:E; [|vm_compute in E; discriminate E].
  assert (fds = [mkPollfd 7 POLLIN 0; mkPollfd 7 (Z.lor POLLIN POLLOUT) 0]) as -> by (vm_compute in E; injection E as _ <-; reflexivity).
  assert (maintenance (fun d => d) (fun _ => Byte.x00) sample_glovars (mkClock 0 0) (sample_pair <| sessions := cs |>) (mkWorld sample_shared (mkReg [] 0) []) =
    Some (sample_pair <| sessions := cs |>, mkWorld sample_shared (mkReg [] 0) [])) as Hm by (by apply maintenance_off).
  destruct (poll_results_delivered (fun d => d) (fun d => d) (fun _ _ => false) (fun _ _ => None) (fun _ => Byte.x00) toy_sha1 toy_users
      (fun d => d) (fun _ s h => Some (s, h)) sample_glovars sample_server_vars 0 sample_ready sample_pair (mkWorld sample_shared (mkReg [] 0) []) cs _
      (sample_pair <| sessions := cs |>) (mkWorld sample_shared (mkReg [] 0) []) E eq_refl Hm)
    as (cs' & _ & He & _); [vm_compute in E; injection E as <-; reflexivity|].
  exists cs. do 2 eexists. split; [reflexivity|exact He].
Defined.

Lemma thread_turn_invariant_witness :
  exists th, length (sessions th) = 1%nat /\ is_Some (collect (max_fds th) (first_fd (t_admin th)) (sessions th)).
Proof.
  destruct (thread_turn (fun d => d) (fun d => d) (fun _ _ => false) (fun _ _ => None) (fun _ => Byte.x00) toy_sha1 toy_users
      (fun d => d) (fun _ s h => Some (s, h)) sample_glovars sample_server_vars 0 sample_accept (thread_start 2 0) (mkWorld sample_shared (mkReg [] 0) []))
    as [[[th w] outs]|] eqn:E; [|vm_compute in E; discriminate E].
  destruct (thread_turn_invariant (fun d => d) (fun d => d) (fun _ _ => false) (fun _ _ => None) (fun _ => Byte.x00) toy_sha1 toy_users
      (fun d => d) (fun _ s h => Some (s, h)) sample_glovars sample_server_vars 0 2 0 th) as (_ & Hc & _).
  - eapply reach_turn; [apply reach_start|exact E].
  - exists th. vm_compute in E. injection E as <- _ _. split; [reflexivity|]. apply Hc. intros x Hx. apply list_elem_of_singleton in Hx as ->.
    vm_compute. by eexists.
Defined.

(** Closing a session between [poll] and the handling of the sessions, as the removal of servers does, misdirects the results:
    the closed session is skipped but its entry is not, so that the next session is handed the descriptor and the events of
    the closed one. *)
Theorem closing_misdirects_poll ia a closed ib b rest va vb rs :
  healthy (sess a) = true -> healthy (sess b) = true -> nfds (sess a) = 1 -> nfds (sess b) = 1 ->
  asks (fds0 a) = true -> asks (fds0 b) = true -> healthy (sess closed) = false ->
  answered (healthy_entries ((ia, a) :: (ib, b) :: rest)) (va :: vb :: rs) =
    (fds0 a) <| revents := va |> :: (fds0 b) <| revents := vb |> :: answered (healthy_entries rest) rs /\
  scatter_all [(ia, closed); (ib, b)] (answered (healthy_entries ((ia, a) :: (ib, b) :: rest)) (va :: vb :: rs)) =
    Some ([(ia, closed); (ib, b <| fds0 := (fds0 a) <| revents := va |> |>)],
          (fds0 b) <| revents := vb |> :: answered (healthy_entries rest) rs).
Proof.
  intros Ha Hb Na Nb Qa Qb Hc.
  assert (answered (healthy_entries ((ia, a) :: (ib, b) :: rest)) (va :: vb :: rs) =
    (fds0 a) <| revents := va |> :: (fds0 b) <| revents := vb |> :: answered (healthy_entries rest) rs) as ->.
  { change (healthy_entries ((ia, a) :: (ib, b) :: rest)) with
      ((if healthy (sess a) then entries a else []) ++ (if healthy (sess b) then entries b else []) ++ healthy_entries rest).
    rewrite Ha, Hb. unfold entries. by rewrite Na, Nb, Qa, Qb. }
  split; [done|]. cbn [scatter_all]. rewrite Hc, Hb. unfold scatter. rewrite Qb, Nb. by destruct b.
Qed.

Lemma closing_misdirects_poll_witness :
  exists cs rs, scatter_all [(1%nat, sample_greeted <| sess := (sess sample_greeted) <| healthy := false |> |>); (2%nat, sample_new <| fds0 := mkPollfd 8 POLLIN 0 |>)]
      [mkPollfd 7 POLLIN POLLIN; mkPollfd 8 POLLIN 0] = Some (cs, rs) /\
    (fun x => pfd (fds0 x.2)) <$> cs = [7; 7].
Proof.
  destruct (closing_misdirects_poll 1 sample_greeted (sample_greeted <| sess := (sess sample_greeted) <| healthy := false |> |>) 2
    (sample_new <| fds0 := mkPollfd 8 POLLIN 0 |>) [] POLLIN 0 []) as [E1 E2]; [reflexivity..|].
  rewrite E1 in E2. do 2 eexists. split; [exact E2|reflexivity].
Defined.
