(* ===== verification/GlobalVars.v ===== *)
(** * Start of the process: src/global_variables.c and src/debug.c

    The configuration file fills the global variables through a table of descriptions
    ([glo_entries]); functions attached to three of the descriptions set up the connection pools,
    the servers and the limit of core files.  The users and the servers of the file follow.

    [arg_data] is the name of the C variable that an entry writes, and the variables are a map from
    these names to their values.  The key file of GLib ([GKeyFile]), the number of processors, [setrlimit]
    and the answers of the servers are arguments.  The process may leave: [Exit] is [exit(EXIT_FAILURE)],
    [Crash] a failed assertion or an access through an invalid pointer. *)
From S2P Require Import Prelude Protocol Routing ConnPool Session SessionLoop.
Open Scope Z_scope.

(** ** A computation that may end the process *)

Inductive ending (A : Type) := Exit | Crash | Done (a : A).
Arguments Exit {A}.
Arguments Crash {A}.
Arguments Done {A} _.

#[export] Instance ending_ret : MRet ending := fun A a => Done a.
#[export] Instance ending_bind : MBind ending := fun A B f m =>
  match m with Exit => Exit | Crash => Crash | Done a => f a end.

(** ** The key file *)

Record GKeyFile := mkKeyFile {
  has_group : string -> bool; has_key : string -> string -> bool; get_integer : string -> string -> Z;
  get_string : string -> string -> option (list byte); get_keys : string -> list string;
  get_string_list : string -> string -> list (list byte) }.

(** ** The table of the variables *)

Inductive GOptionArg := ARG_INT | ARG_INT64 | ARG_STRING.
Inductive pre_function := PreMysqlThreads.
Inductive post_function := PostCoreDumpFileSize | PostConnpoolInit | PostInitGlomysrvs.
#[export] Instance post_function_eq_decision : EqDecision post_function.
Proof. solve_decision. Defined.
#[export] Instance GOptionArg_eq_decision : EqDecision GOptionArg.
Proof. solve_decision. Defined.

Record global_variable_entry_t := mkEntry {
  group_name : string; key_name : string; dynamic : Z; arg : GOptionArg; arg_data : string;
  value_min : Z; value_max : Z; value_round : Z; value_multiplier : Z; int_default : Z;
  char_default : option string; func_pre : option pre_function; func_post : option post_function }.

Definition glo_entries : list global_variable_entry_t := Eval cbv in
  [
   mkEntry "global" "core_dump_file_size" 0 ARG_INT "glovars.core_dump_file_size" 0 2147483647 0 0 0 None None (Some PostCoreDumpFileSize);
   mkEntry "global" "stack_size" 0 ARG_INT "glovars.stack_size" 65536 33554432 1024 0 524288 None None None;
   mkEntry "global" "net_buffer_size" 0 ARG_INT "glovars.net_buffer_size" 1024 16777216 1024 0 8192 None None None;
   mkEntry "global" "backlog" 0 ARG_INT "glovars.backlog" 50 10000 0 0 2000 None None None;
   mkEntry "global" "debug" 1 ARG_INT "gdbg" 0 1 0 0 1 None None None;
   mkEntry "global" "merge_configfile_db" 0 ARG_INT "glovars.merge_configfile_db" 0 1 0 0 1 None None None;
   mkEntry "global" "datadir" 0 ARG_STRING "glovars.proxy_datadir" 0 0 0 0 0 (Some "/var/run/proxysql") None None;
   mkEntry "global" "pid_file" 0 ARG_STRING "glovars.proxy_pidfile" 0 0 0 0 0 (Some "proxysql.pid") None None;
   mkEntry "global" "error_log" 0 ARG_STRING "glovars.proxy_errorlog" 0 0 0 0 0 (Some "proxysql.log") None None;
   mkEntry "global" "debug_log" 0 ARG_STRING "glovars.proxy_debuglog" 0 0 0 0 0 (Some "debug.log") None None;
   mkEntry "global" "restart_on_error" 0 ARG_INT "glovars.proxy_restart_on_error" 0 1 0 0 1 None None None;
   mkEntry "global" "restart_delay" 0 ARG_INT "glovars.proxy_restart_delay" 0 600 0 0 5 None None None;
   mkEntry "admin" "proxy_admin_pathdb" 0 ARG_STRING "glovars.proxy_admin_pathdb" 0 0 0 0 0 (Some "proxysql.db") None None;
   mkEntry "admin" "proxy_admin_bind" 0 ARG_STRING "glovars.proxy_admin_bind" 0 0 0 0 0 (Some "0.0.0.0") None None;
   mkEntry "admin" "proxy_admin_port" 0 ARG_INT "glovars.proxy_admin_port" 0 65535 0 0 6032 None None None;
   mkEntry "admin" "proxy_admin_user" 0 ARG_STRING "glovars.proxy_admin_user" 0 0 0 0 0 (Some "admin") None None;
   mkEntry "admin" "proxy_admin_password" 0 ARG_STRING "glovars.proxy_admin_password" 0 0 0 0 0 (Some "admin") None None;
   mkEntry "admin" "proxy_admin_refresh_status_interval" 0 ARG_INT "glovars.proxy_admin_refresh_status_interval" 0 3600 0 0 600 None None None;
   mkEntry "admin" "proxy_monitor_bind" 0 ARG_STRING "glovars.proxy_monitor_bind" 0 0 0 0 0 (Some "0.0.0.0") None None;
   mkEntry "admin" "proxy_monitor_port" 0 ARG_INT "glovars.proxy_monitor_port" 0 65535 0 0 6031 None None None;
   mkEntry "admin" "proxy_monitor_user" 0 ARG_STRING "glovars.proxy_monitor_user" 0 0 0 0 0 (Some "monitor") None None;
   mkEntry "admin" "proxy_monitor_password" 0 ARG_STRING "glovars.proxy_monitor_password" 0 0 0 0 0 (Some "monitor") None None;
   mkEntry "admin" "proxy_monitor_refresh_status_interval" 0 ARG_INT "glovars.proxy_monitor_refresh_status_interval" 0 3600 0 0 10 None None None;
   mkEntry "admin" "sync_to_disk_on_flush_command" 0 ARG_INT "glovars.admin_sync_disk_on_flush" 0 1 0 0 1 None None None;
   mkEntry "admin" "sync_to_disk_on_shutdown" 0 ARG_INT "glovars.admin_sync_disk_on_shutdown" 0 1 0 0 1 None None None;
   mkEntry "admin" "persistent_statistics_pathdb" 0 ARG_STRING "glovars.persistent_statistics_pathdb" 0 0 0 0 0 (Some "querystats.db") None None;
   mkEntry "admin" "debug_pathdb" 0 ARG_STRING "glovars.debug_pathdb" 0 0 0 0 0 (Some "debug.db") None None;
   mkEntry "http" "http_start" 0 ARG_INT "glovars.http_start" 0 1 0 0 0 None None None;
   mkEntry "mysql" "proxy_mysql_bind" 0 ARG_STRING "glovars.proxy_mysql_bind" 0 0 0 0 0 (Some "0.0.0.0") None None;
   mkEntry "mysql" "proxy_mysql_port" 0 ARG_INT "glovars.proxy_mysql_port" 0 65535 0 0 6033 None None None;
   mkEntry "mysql" "mysql_server_version" 0 ARG_STRING "glovars.mysql_server_version" 0 0 0 0 0 (Some "5.1.30") None None;
   mkEntry "mysql" "mysql_socket" 0 ARG_STRING "glovars.mysql_socket" 0 0 0 0 0 (Some "/tmp/proxysql.sock") None None;
   mkEntry "mysql" "mysql_default_schema" 0 ARG_STRING "glovars.mysql_default_schema" 0 0 0 0 0 (Some "information_schema") None None;
   mkEntry "mysql" "mysql_connection_pool_enabled" 0 ARG_INT "gloconnpool.enabled" 0 1 0 0 1 None None (Some PostConnpoolInit);
   mkEntry "mysql" "mysql_parse_trx_cmds" 0 ARG_INT "glovars.mysql_parse_trx_cmds" 0 1 0 0 0 None None None;
   mkEntry "mysql" "mysql_share_connections" 0 ARG_INT "glovars.mysql_share_connections" 0 1 0 0 0 None None None;
   mkEntry "mysql" "mysql_query_cache_enabled" 0 ARG_INT "glovars.mysql_query_cache_enabled" 0 1 0 0 1 None None None;
   mkEntry "mysql" "mysql_query_cache_partitions" 0 ARG_INT "glovars.mysql_query_cache_partitions" 1 128 0 0 16 None None None;
   mkEntry "mysql" "mysql_query_cache_size" 1 ARG_INT64 "glovars.mysql_query_cache_size" 1048576 9223372036854775807 0 0 1048576 None None None;
   mkEntry "mysql" "mysql_query_cache_default_timeout" 0 ARG_INT "glovars.mysql_query_cache_default_timeout" 0 315360000 0 0 1 None None None;
   mkEntry "mysql" "mysql_query_cache_precheck" 1 ARG_INT "glovars.mysql_query_cache_precheck" 0 1 0 0 1 None None None;
   mkEntry "mysql" "mysql_query_statistics_enabled" 1 ARG_INT "glovars.mysql_query_statistics" 0 1 0 0 0 None None None;
   mkEntry "mysql" "mysql_query_statistics_interval" 1 ARG_INT "glovars.mysql_query_statistics_interval" 5 600 0 0 10 None None None;
   mkEntry "mysql" "mysql_auto_reconnect_enabled" 0 ARG_INT "glovars.mysql_auto_reconnect_enabled" 0 1 0 0 0 None None None;
   mkEntry "mysql" "mysql_usage_user" 0 ARG_STRING "glovars.mysql_usage_user" 0 0 0 0 0 (Some "proxy") None None;
   mkEntry "mysql" "mysql_usage_password" 0 ARG_STRING "glovars.mysql_usage_password" 0 0 0 0 0 (Some "proxy") None None;
   mkEntry "mysql" "mysql_threads" 0 ARG_INT "glovars.mysql_threads" 1 128 0 0 2 None (Some PreMysqlThreads) None;
   mkEntry "mysql" "mysql_max_query_size" 1 ARG_INT "glovars.mysql_max_query_size" 0 16777210 0 0 1048576 None None None;
   mkEntry "mysql" "mysql_max_resultset_size" 0 ARG_INT64 "glovars.mysql_max_resultset_size" 0 2147483647 0 0 1048576 None None None;
   mkEntry "mysql" "mysql_poll_timeout" 1 ARG_INT "glovars.mysql_poll_timeout" 100 2147483647 0 0 10000 None None None;
   mkEntry "mysql" "mysql_poll_timeout_maintenance" 1 ARG_INT "glovars.mysql_poll_timeout_maintenance" 100 1000 0 0 100 None None None;
   mkEntry "mysql" "mysql_maintenance_timeout" 1 ARG_INT "glovars.mysql_maintenance_timeout" 1000 60000 0 0 10000 None None None;
   mkEntry "mysql" "mysql_wait_timeout" 1 ARG_INT64 "glovars.mysql_wait_timeout" 1 604800 0 1000000 28800 None None None;
   mkEntry "mysql" "mysql_hostgroups" 0 ARG_INT "glovars.mysql_hostgroups" 2 64 0 0 8 None None (Some PostInitGlomysrvs);
   mkEntry "fundadb" "fundadb_hash_purge_time" 1 ARG_INT64 "fdb_system_var.hash_purge_time" 100 600000 0 1000 10000 None None None;
   mkEntry "fundadb" "fundadb_hash_purge_loop" 1 ARG_INT64 "fdb_system_var.hash_purge_loop" 100 600000 0 100 100 None None None;
   mkEntry "fundadb" "fundadb_hash_expire_default" 0 ARG_INT "fdb_system_var.hash_expire_default" 1 315360000 0 0 10 None None None;
   mkEntry "fundadb" "fundadb_hash_purge_threshold_pct_min" 1 ARG_INT "fdb_system_var.purge_threshold_pct_min" 0 90 0 0 50 None None None;
   mkEntry "fundadb" "fundadb_hash_purge_threshold_pct_max" 1 ARG_INT "fdb_system_var.purge_threshold_pct_max" 50 100 0 0 90 None None None
  ]%string.

(** The C types of the variables behind [arg_data] (include/structs.h, include/global_variables.h). *)
Inductive ctype := C_int | C_uint | C_llong | C_ullong | C_charp.
#[export] Instance ctype_eq_decision : EqDecision ctype.
Proof. solve_decision. Defined.

Definition variable_types : list (string * ctype) := Eval cbv in
  [("glovars.core_dump_file_size", C_int);
   ("glovars.stack_size", C_int);
   ("glovars.net_buffer_size", C_uint);
   ("glovars.backlog", C_int);
   ("gdbg", C_int);
   ("glovars.merge_configfile_db", C_int);
   ("glovars.proxy_datadir", C_charp);
   ("glovars.proxy_pidfile", C_charp);
   ("glovars.proxy_errorlog", C_charp);
   ("glovars.proxy_debuglog", C_charp);
   ("glovars.proxy_restart_on_error", C_int);
   ("glovars.proxy_restart_delay", C_int);
   ("glovars.proxy_admin_pathdb", C_charp);
   ("glovars.proxy_admin_bind", C_charp);
   ("glovars.proxy_admin_port", C_int);
   ("glovars.proxy_admin_user", C_charp);
   ("glovars.proxy_admin_password", C_charp);
   ("glovars.proxy_admin_refresh_status_interval", C_int);
   ("glovars.proxy_monitor_bind", C_charp);
   ("glovars.proxy_monitor_port", C_int);
   ("glovars.proxy_monitor_user", C_charp);
   ("glovars.proxy_monitor_password", C_charp);
   ("glovars.proxy_monitor_refresh_status_interval", C_int);
   ("glovars.admin_sync_disk_on_flush", C_int);
   ("glovars.admin_sync_disk_on_shutdown", C_int);
   ("glovars.persistent_statistics_pathdb", C_charp);
   ("glovars.debug_pathdb", C_charp);
   ("glovars.http_start", C_int);
   ("glovars.proxy_mysql_bind", C_charp);
   ("glovars.proxy_mysql_port", C_int);
   ("glovars.mysql_server_version", C_charp);
   ("glovars.mysql_socket", C_charp);
   ("glovars.mysql_default_schema", C_charp);
   ("gloconnpool.enabled", C_int);
   ("glovars.mysql_parse_trx_cmds", C_int);
   ("glovars.mysql_share_connections", C_int);
   ("glovars.mysql_query_cache_enabled", C_int);
   ("glovars.mysql_query_cache_partitions", C_int);
   ("glovars.mysql_query_cache_size", C_ullong);
   ("glovars.mysql_query_cache_default_timeout", C_uint);
   ("glovars.mysql_query_cache_precheck", C_int);
   ("glovars.mysql_query_statistics", C_int);
   ("glovars.mysql_query_statistics_interval", C_int);
   ("glovars.mysql_auto_reconnect_enabled", C_int);
   ("glovars.mysql_usage_user", C_charp);
   ("glovars.mysql_usage_password", C_charp);
   ("glovars.mysql_threads", C_int);
   ("glovars.mysql_max_query_size", C_int);
   ("glovars.mysql_max_resultset_size", C_ullong);
   ("glovars.mysql_poll_timeout", C_int);
   ("glovars.mysql_poll_timeout_maintenance", C_int);
   ("glovars.mysql_maintenance_timeout", C_int);
   ("glovars.mysql_wait_timeout", C_ullong);
   ("glovars.mysql_hostgroups", C_int);
   ("fdb_system_var.hash_purge_time", C_llong);
   ("fdb_system_var.hash_purge_loop", C_llong);
   ("fdb_system_var.hash_expire_default", C_uint);
   ("fdb_system_var.purge_threshold_pct_min", C_int);
   ("fdb_system_var.purge_threshold_pct_max", C_int)]%string.

(** ** The state *)

Inductive gval := VInt (z : Z) | VStr (s : option (list byte)).

(** [gdbg_lvl]: [name] is the address of the name. *)
Record debug_level := mkLevel { module : Z; verbosity : Z; name : Z }.

Record process := mkProcess {
  variables : gmap string gval; rlimit_core : option Z; p_servers : global_mysql_servers; p_reg : registry;
  p_connpools : list mysql_connpool; mysql_users_name : list (list byte); mysql_users_pass : list (list byte);
  p_usernames : gmap (list byte) (list byte); p_rules : option (list query_rule_t); gdbg_lvl : list debug_level;
  mysql_use_masters_for_reads : Z }.
#[export] Instance process_eta : Eta process := fun p =>
  mkProcess (variables p) (rlimit_core p) (p_servers p) (p_reg p) (p_connpools p) (mysql_users_name p)
    (mysql_users_pass p) (p_usernames p) (p_rules p) (gdbg_lvl p) (mysql_use_masters_for_reads p).

Definition int_at (m : gmap string gval) (x : string) : option Z :=
  match m !! x with Some (VInt z) => Some z | _ => None end.

Definition set_var (x : string) (v : gval) (p : process) : process := p <| variables := <[x := v]> (variables p) |>.

(** ** The functions of the table *)

(** [glomysrvs] of a process that starts: [n] empty host groups. *)
Definition empty_servers (n : Z) : global_mysql_servers := mkGMS [] (replicate (Z.to_nat n) []).

Definition init_glomysrvs (p : process) : ending process :=
  match int_at (variables p) "glovars.mysql_hostgroups" with
  | Some n => Done (p <| p_servers := empty_servers n |> <| p_reg := mkReg [] 0 |>)
  | None => Crash
  end.

(** ** Masters and slaves

    [new_server_master] and [new_server_slave], which nothing calls; the arrays they read are only filled by code inside a comment. *)
Record server_lists := mkLists {
  servers_masters : list mysql_server; count_masters : Z; servers_slaves : list mysql_server; count_slaves : Z; gl_wrlocked : bool }.
#[export] Instance server_lists_eta : Eta server_lists := fun g =>
  mkLists (servers_masters g) (count_masters g) (servers_slaves g) (count_slaves g) (gl_wrlocked g).

(** [Done]: the call returns a server or NULL; [None]: it waits for the lock for ever. *)
Definition new_server_master (rand : Z) (g : server_lists) : option (ending (option mysql_server * server_lists)) :=
  if gl_wrlocked g then None else Some (
  let g := g <| gl_wrlocked := true |> in
  if count_masters g =? 0 then Done (None, g) else
  let i := u32 rand mod count_masters g in
  match servers_masters g !! Z.to_nat i with
  | Some ms => Done (Some ms, g <| gl_wrlocked := false |>)
  | None => Crash
  end).

Definition new_server_slave (rand : Z) (g : server_lists) : option (ending (option mysql_server * server_lists)) :=
  if gl_wrlocked g then None else Some (
  let g := g <| gl_wrlocked := true |> in
  if count_slaves g =? 0 then Done (None, g) else
  let i := u32 rand mod count_slaves g in
  match servers_slaves g !! Z.to_nat i with
  | Some ms => Done (Some ms, g <| gl_wrlocked := false |>)
  | None => Crash
  end).

(** With as many servers as are counted a call returns one of them and releases the lock; without a server it returns NULL and keeps the lock, so that the next
    call of either function never returns. *)
Theorem new_server_locks (rand rand' : Z) (g : server_lists) :
  gl_wrlocked g = false -> count_masters g = Z.of_nat (length (servers_masters g)) ->
  (servers_masters g <> [] -> exists ms, ms ∈ servers_masters g /\ new_server_master rand g = Some (Done (Some ms, g))) /\
  (servers_masters g = [] -> exists g', new_server_master rand g = Some (Done (None, g')) /\ new_server_master rand' g' = None /\ new_server_slave rand' g' = None).
Proof.
  destruct g as [ms n ss k l]. cbn. intros -> ->. unfold new_server_master. cbn. split.
  - intros Hne. destruct (Z.eqb_spec (Z.of_nat (length ms)) 0); [destruct ms; simpl in *; [done|lia]|].
    pose proof (Z.mod_pos_bound (u32 rand) (Z.of_nat (length ms)) ltac:(lia)).
    destruct (lookup_lt_is_Some_2 ms (Z.to_nat (u32 rand mod Z.of_nat (length ms)))) as [x Hx]; [lia|].
    exists x. rewrite Hx. split; [by eapply list_elem_of_lookup_2|done].
  - intros ->. eexists. split; [reflexivity|]. by split.
Qed.

Section Start.
Context (nprocs : Z) (setrlimit : Z -> bool).

Definition pre_variable_mysql_threads (e : global_variable_entry_t) (p : process) : ending process :=
  let rc := i32 (nprocs * 2) in
  if 0 <? rc then Done (set_var (arg_data e) (VInt rc) p) else Crash.

Definition post_variable_core_dump_file_size (e : global_variable_entry_t) (p : process) : ending process :=
  match int_at (variables p) (arg_data e) with
  | Some r => if setrlimit r then Done (p <| rlimit_core := Some r |>) else Crash
  | None => Crash
  end.

Definition run_pre (f : pre_function) (e : global_variable_entry_t) (p : process) : ending process :=
  match f with PreMysqlThreads => pre_variable_mysql_threads e p end.

Definition run_post (f : post_function) (e : global_variable_entry_t) (p : process) : ending process :=
  match f with
  | PostCoreDumpFileSize => post_variable_core_dump_file_size e p
  | PostConnpoolInit => Done (p <| p_connpools := [] |>)
  | PostInitGlomysrvs => init_glomysrvs p
  end.

(** ** Reading the table *)

Definition multiplier (e : global_variable_entry_t) : Z := if 0 <? value_multiplier e then value_multiplier e else 1.

(** [g_key_file_get_integer], the limits and the rounding. *)
Definition read_integer (gkf : GKeyFile) (e : global_variable_entry_t) : Z :=
  let r := i32 (get_integer gkf (group_name e) (key_name e)) in
  let r := if r <? value_min e then i32 (value_min e) else r in
  let r := if value_max e <? r then i32 (value_max e) else r in
  if value_round e =? 0 then r else let r := i32 (Z.quot r (value_round e)) in i32 (r * value_round e).

Definition from_file (gkf : GKeyFile) (e : global_variable_entry_t) (p : process) : process :=
  match arg e with
  | ARG_STRING => set_var (arg_data e) (VStr (get_string gkf (group_name e) (key_name e))) p
  | ARG_INT =>
      let p := set_var (arg_data e) (VInt (i32 (int_default e))) p in
      set_var (arg_data e) (VInt (i32 (read_integer gkf e * multiplier e))) p
  | ARG_INT64 =>
      let p := set_var (arg_data e) (VInt (i32 (int_default e))) p in
      set_var (arg_data e) (VInt (i64 (read_integer gkf e * multiplier e))) p
  end.

Definition from_default (e : global_variable_entry_t) (p : process) : ending process :=
  match arg e with
  | ARG_STRING => match char_default e with Some s => Done (set_var (arg_data e) (VStr (Some (c_lit s))) p) | None => Crash end
  | ARG_INT => Done (set_var (arg_data e) (VInt (i32 (int_default e * multiplier e))) p)
  | ARG_INT64 => Done (set_var (arg_data e) (VInt (i64 (int_default e * multiplier e))) p)
  end.

Definition process_variable (gkf : GKeyFile) (e : global_variable_entry_t) (p : process) : ending process :=
  p ← (match func_pre e with Some f => run_pre f e p | None => Done p end);
  p ← (if has_key gkf (group_name e) (key_name e) then Done (from_file gkf e p)
       else match func_pre e with Some _ => Done p | None => from_default e p end);
  match func_post e with Some f => run_post f e p | None => Done p end.

Fixpoint process_entries (gkf : GKeyFile) (dyn : Z) (es : list global_variable_entry_t) (p : process) : ending process :=
  match es with
  | [] => Done p
  | e :: es' =>
      if dynamic e <? dyn then process_entries gkf dyn es' p
      else p ← process_variable gkf e p; process_entries gkf dyn es' p
  end.

Definition process_global_variables_from_file (gkf : GKeyFile) (dyn : Z) (p : process) : ending process :=
  process_entries gkf dyn glo_entries p.

(** ** Users *)

Fixpoint load_users (gkf : GKeyFile) (users : list string) (p : process) : ending process :=
  match users with
  | [] => Done p
  | u :: users' =>
      match get_string gkf "mysql users" u with
      | None => Exit
      | Some pass =>
          load_users gkf users'
            (p <| mysql_users_name := mysql_users_name p ++ [c_lit u] |> <| mysql_users_pass := mysql_users_pass p ++ [pass] |>
               <| p_usernames := <[c_lit u := pass]> (p_usernames p) |>)
      end
  end.

Definition load_mysql_users_from_file (gkf : GKeyFile) (p : process) : ending process :=
  let p := p <| mysql_users_name := [] |> <| mysql_users_pass := [] |> <| p_usernames := ∅ |> in
  match get_keys gkf "mysql users" with
  | [] => Exit
  | us => load_users gkf us p
  end.

(** ** Servers *)

(** [isspace] of the C locale. *)
Definition isspace (b : byte) : bool := (uc b =? 32) || ((9 <=? uc b) && (uc b <=? 13)).

(** One [%s] of [sscanf] and what follows it; [None]: no characters are left, the buffer keeps its contents. *)
Fixpoint skip_space (l : list byte) : list byte :=
  match l with [] => [] | b :: l' => if isspace b then skip_space l' else l end.
Fixpoint take_word (l : list byte) : list byte * list byte :=
  match l with
  | [] => ([], [])
  | b :: l' => if isspace b then ([], l) else let '(w, r) := take_word l' in (b :: w, r)
  end.
Definition scan_word (l : list byte) : option (list byte * list byte) :=
  match skip_space l with [] => None | l' => Some (take_word l') end.

(** [sscanf(l,"%s %s",s,p)] into buffers of zeros. *)
Definition scan_two (l : list byte) : list byte * list byte :=
  match scan_word l with
  | None => ([], [])
  | Some (s, r) => (s, match scan_word r with None => [] | Some (p, _) => p end)
  end.

(** [atoi]: blanks, a sign, digits; the result is an [int]. *)
Definition digit (b : byte) : option Z := if (48 <=? uc b) && (uc b <=? 57) then Some (uc b - 48) else None.
Fixpoint digits (acc : Z) (l : list byte) : Z :=
  match l with
  | [] => acc
  | b :: l' => match digit b with Some d => digits (acc * 10 + d) l' | None => acc end
  end.
Definition atoi (l : list byte) : Z :=
  match skip_space l with
  | Byte.x2d :: l' => i32 (- digits 0 l')
  | Byte.x2b :: l' => i32 (digits 0 l')
  | l' => i32 (digits 0 l')
  end.

(** [c=index(name,':'); *c=' '], or [None]. *)
Fixpoint blank_colon (l : list byte) : option (list byte) :=
  match l with
  | [] => None
  | b :: l' => if decide (b = Byte.x3a) then Some (Byte.x20 :: l') else cons b <$> blank_colon l'
  end.

Definition parse_server (entry : list byte) : list byte * Z :=
  match blank_colon entry with
  | Some l => let '(s, p) := scan_two l in (s, u16 (atoi p))
  | None => (entry, 3306)
  end.

(** What the server answers to [mysql_check_alive_and_read_only] of src/mysql_protocol.c. *)
Inductive probe := NotConnected | QueryFailed | NoResult | Rows (num_fields : Z) (rows : list (list (list byte))).

Definition mysql_check_alive_and_read_only (a : probe) : ending Z :=
  match a with
  | NotConnected | QueryFailed | NoResult => Done (-1)
  | Rows f rows =>
      if negb (Z.of_nat (length rows) =? 1) then Done (-1) else
      if negb (f =? 2) then Done (-1) else
      match rows with
      | row :: _ =>
          match row !! 1%nat with
          | Some v => Done (if (strcmp v (c_lit "0") =? 0) || (strcmp v (c_lit "OFF") =? 0) then 0 else 1)
          | None => Crash
          end
      | [] => Done (-1)
      end
  end.

Context (answer : list byte -> Z -> probe).

Definition load_server (entry : list byte) (g : global_mysql_servers) : ending global_mysql_servers :=
  let '(a, pt) := parse_server entry in
  match find_server_ptr g a pt with
  | None =>
      ro ← mysql_check_alive_and_read_only (answer a pt);
      Done (mysql_server_entry_add g
        (mkServer a pt (if 0 <=? ro then ro else 0) (if 0 <=? ro then ONLINE else OFFLINE_HARD) 0 0))
  | Some _ => Done g
  end.

Fixpoint load_servers (es : list (list byte)) (g : global_mysql_servers) : ending global_mysql_servers :=
  match es with
  | [] => Done g
  | e :: es' => g ← load_server e g; load_servers es' g
  end.

Definition load_mysql_servers_list_from_file (gkf : GKeyFile) (p : process) : ending process :=
  let p := p <| mysql_use_masters_for_reads := 1 |> in
  let p := if has_key gkf "mysql" "mysql_use_masters_for_reads" && (i32 (get_integer gkf "mysql" "mysql_use_masters_for_reads") =? 0)
           then p <| mysql_use_masters_for_reads := 0 |> else p in
  if has_key gkf "mysql" "mysql_servers" then
    g ← load_servers (get_string_list gkf "mysql" "mysql_servers") (p_servers p);
    Done (p <| p_servers := g |>)
  else Exit.

(** ** Debug levels

    [text] gives the string at an address (of the names in the program's data), [lit] the address of a name. *)

Context (lit : string -> Z) (text : Z -> option string).

Definition debug_names : list string :=
  ["debug_generic"; "debug_net"; "debug_pkt_array"; "debug_poll"; "debug_mysql_com"; "debug_mysql_server";
   "debug_mysql_connection"; "debug_mysql_rw_split"; "debug_mysql_auth"; "debug_memory"; "debug_admin"; "debug_sqlite";
   "debug_ipc"; "debug_query_cache"; "debug_query_statistics"]%string.
Definition PROXY_DEBUG_UNKNOWN : nat := 15.

Definition init_debug_struct (gdbg : Z) : ending (list debug_level) :=
  let ls := imap (fun i s => mkLevel (Z.of_nat i) (if gdbg =? 0 then 0 else 2147483647) (lit s)) debug_names in
  if forallb (fun l => negb (name l =? 0)) ls then Done ls else Crash.

(** The array in memory: two [int]s and a pointer per level. *)
Definition level_bytes (l : debug_level) : list byte :=
  le_split 4 (module l) ++ le_split 4 (verbosity l) ++ le_split 8 (name l).
Definition level_of_bytes (b : list byte) : debug_level :=
  mkLevel (le_combine (take 4 b)) (i32 (le_combine (take 4 (drop 4 b)))) (le_combine (take 8 (drop 8 b))).
Fixpoint levels_of_bytes (n : nat) (b : list byte) : list debug_level :=
  match n with O => [] | S n' => level_of_bytes b :: levels_of_bytes n' (drop 16 b) end.

(** [memset(gdbg_lvl,0,sizeof(int)*PROXY_DEBUG_UNKNOWN)]. *)
Definition clear_levels (ls : list debug_level) : list debug_level :=
  let n := (4 * PROXY_DEBUG_UNKNOWN)%nat in
  levels_of_bytes (length ls) (replicate n Byte.x00 ++ drop n (mjoin (level_bytes <$> ls))).

Fixpoint read_levels (gkf : GKeyFile) (ls : list debug_level) : ending (list debug_level) :=
  match ls with
  | [] => Done []
  | l :: ls' =>
      match text (name l) with
      | None => Crash
      | Some s =>
          let r := i32 (get_integer gkf "debug" s) in
          let v := if has_key gkf "debug" s && (0 <=? r) then r else 0 in
          ls' ← read_levels gkf ls'; Done (mkLevel (module l) v (name l) :: ls')
      end
  end.

Definition debug_section (gkf : GKeyFile) (p : process) : ending process :=
  ls ← (if has_group gkf "debug" then read_levels gkf (gdbg_lvl p) else Done (clear_levels (gdbg_lvl p)));
  Done (p <| gdbg_lvl := ls |>).

(** ** [init_global_variables] *)

(** The assignments of the first start; the capabilities are FOUND_ROWS, CONNECT_WITH_DB, PROTOCOL_41, IGNORE_SIGPIPE,
    TRANSACTIONS and SECURE_CONNECTION. *)
Definition fixed_variables (p : process) : process :=
  let p := set_var "glovars.protocol_version" (VInt 10) p in
  let p := set_var "glovars.server_capabilities"
             (VInt (u16 (Z.lor (Z.lor (Z.lor (Z.lor (Z.lor 2 512) 4096) 8192) 32768) 8))) p in
  let p := set_var "glovars.server_language" (VInt 33) p in
  let p := set_var "glovars.server_status" (VInt 2) p in
  let p := set_var "glovars.thread_id" (VInt 1) p in
  let p := set_var "glovars.shutdown" (VInt 0) p in
  set_var "fdb_system_var.hash_expire_max" (VInt (3600 * 24 * 365 * 10)) p.

Definition limit_purge_loop (p : process) : ending process :=
  match int_at (variables p) "fdb_system_var.hash_purge_loop", int_at (variables p) "fdb_system_var.hash_purge_time" with
  | Some l, Some t => Done (if t <? l then set_var "fdb_system_var.hash_purge_loop" (VInt t) p else p)
  | _, _ => Crash
  end.

Definition init_global_variables (gkf : GKeyFile) (runtime : Z) (p : process) : ending (Z * process) :=
  if negb (has_group gkf "global") then (if runtime =? 0 then Exit else Done (-1, p)) else
  if negb (has_group gkf "mysql users") then (if runtime =? 0 then Exit else Done (-1, p)) else
  p ← debug_section gkf p;
  let p := if runtime =? 0 then (fixed_variables p) <| p_rules := init_gloQR |> else p in
  p ← process_global_variables_from_file gkf 0 p;
  p ← (if runtime =? 0 then p ← load_mysql_servers_list_from_file gkf p; load_mysql_users_from_file gkf p else Done p);
  p ← limit_purge_loop p;
  Done (0, p).

(** [sighup_handler] of src/admin.c, after the file was read. *)
Definition sighup_handler (gkf : GKeyFile) (p : process) : ending process :=
  '(_, p) ← init_global_variables gkf 1 p; Done p.

End Start.

(** ** What the other components read *)

Definition str_at (m : gmap string gval) (x : string) : option (list byte) :=
  match m !! x with Some (VStr s) => s | _ => None end.

Definition glovars_of (m : gmap string gval) : option glovars_t :=
  hg ← int_at m "glovars.mysql_hostgroups"; mq ← int_at m "glovars.mysql_max_query_size";
  mr ← int_at m "glovars.mysql_max_resultset_size"; ce ← int_at m "glovars.mysql_query_cache_enabled";
  cp ← int_at m "glovars.mysql_query_cache_precheck"; ct ← int_at m "glovars.mysql_query_cache_default_timeout";
  sc ← int_at m "glovars.mysql_share_connections"; qs ← int_at m "glovars.mysql_query_statistics";
  ar ← int_at m "glovars.mysql_auto_reconnect_enabled"; ds ← str_at m "glovars.mysql_default_schema";
  nb ← int_at m "glovars.net_buffer_size"; ex ← int_at m "fdb_system_var.hash_expire_max";
  Some (mkGlo hg mq mr (negb (ce =? 0)) (negb (cp =? 0)) ct sc (negb (qs =? 0)) (negb (ar =? 0)) ds (Z.to_nat nb) ex).

(** * Properties *)

(** ** The table *)

(** The C type of a variable has the width that the entry writes. *)
Definition width_ok (a : GOptionArg) (t : ctype) : bool :=
  match a, t with
  | ARG_INT, (C_int | C_uint) | ARG_INT64, (C_llong | C_ullong) | ARG_STRING, C_charp => true
  | _, _ => false
  end.

Definition type_of (x : string) : option ctype := snd <$> List.find (fun v => String.eqb (fst v) x) variable_types.

Record entry_ok (e : global_variable_entry_t) : Prop := {
  eo_type : exists t, type_of (arg_data e) = Some t /\ width_ok (arg e) t = true;
  eo_dynamic : 0 <= dynamic e;
  eo_string : arg e = ARG_STRING -> is_Some (char_default e) /\ func_pre e = None /\ func_post e = None;
  eo_limits : arg e <> ARG_STRING -> 0 <= value_min e <= int_default e /\ int_default e <= value_max e /\ value_min e < 2 ^ 31 /\ int_default e < 2 ^ 31;
  eo_round : arg e <> ARG_STRING -> 0 <= value_round e < 2 ^ 31 /\
    (value_round e <> 0 -> (value_round e | value_min e) /\ (value_round e | int_default e));
  eo_width : arg e = ARG_INT -> value_max e * multiplier e < 2 ^ 31;
  eo_width64 : arg e = ARG_INT64 -> multiplier e < 2 ^ 31;
  eo_pre : func_pre e <> None -> arg e = ARG_INT /\ multiplier e = 1;
  eo_hostgroups : func_post e = Some PostInitGlomysrvs <-> arg_data e = "glovars.mysql_hostgroups"%string }.

Definition entry_okb (e : global_variable_entry_t) : bool :=
  match type_of (arg_data e) with Some t => width_ok (arg e) t | None => false end &&
  (0 <=? dynamic e) &&
  match arg e, char_default e, func_pre e, func_post e with
  | ARG_STRING, Some _, None, None => true
  | ARG_STRING, _, _, _ => false
  | _, _, _, _ =>
      (0 <=? value_min e) && (value_min e <=? int_default e) && (int_default e <=? value_max e) &&
      (value_min e <? 2 ^ 31) && (int_default e <? 2 ^ 31) && (0 <=? value_round e) && (value_round e <? 2 ^ 31) &&
      ((value_round e =? 0) || ((value_min e mod value_round e =? 0) && (int_default e mod value_round e =? 0)))
  end &&
  match arg e with
  | ARG_INT => value_max e * multiplier e <? 2 ^ 31
  | ARG_INT64 => multiplier e <? 2 ^ 31
  | ARG_STRING => true
  end &&
  match func_pre e with Some _ => bool_decide (arg e = ARG_INT) && (multiplier e =? 1) | None => true end &&
  Bool.eqb (match func_post e with Some PostInitGlomysrvs => true | _ => false end)
           (String.eqb (arg_data e) "glovars.mysql_hostgroups").

Lemma entry_okb_sound e : entry_okb e = true -> entry_ok e.
Proof.
  unfold entry_okb. intros H. repeat (apply andb_prop in H as [H ?]).
  destruct (type_of (arg_data e)) as [t|] eqn:Et; [|done].
  split.
  - by exists t.
  - by apply Z.leb_le.
  - intros E. rewrite E in *. destruct (char_default e), (func_pre e), (func_post e); done.
  - intros E. destruct (arg e); try done; px_bool; lia.
  - intros E. destruct (arg e); try done; px_bool;
      (split; [lia|]; intros Hr;
       match goal with H : (_ || _)%bool = true |- _ => apply orb_prop in H as [H|H] end; px_bool; [lia|];
       split; apply Z.mod_divide; lia).
  - intros E. rewrite E in *. by apply Z.ltb_lt.
  - intros E. rewrite E in *. by apply Z.ltb_lt.
  - intros E. destruct (func_pre e); [|done]. px_bool.
    match goal with H : bool_decide _ = true |- _ => by apply bool_decide_eq_true in H end.
  - match goal with H : Bool.eqb _ _ = true |- _ => apply eqb_prop in H; rename H into Hb end.
    rewrite <- String.eqb_eq, <- Hb. destruct (func_post e) as [[]|]; done.
Qed.

Lemma glo_entries_ok : Forall entry_ok glo_entries.
Proof.
  apply Forall_forall. intros e He. apply entry_okb_sound.
  assert (forallb entry_okb glo_entries = true) as H by (vm_compute; reflexivity).
  rewrite forallb_forall in H. apply H. by apply list_elem_of_In.
Qed.

Lemma glo_entries_distinct : NoDup (arg_data <$> glo_entries).
Proof. apply (bool_decide_eq_true_1 _). vm_compute. reflexivity. Qed.

(** ** The values *)

(** What the variable of an entry may hold after the configuration file was read. *)
Definition value_ok (nprocs : Z) (gkf : GKeyFile) (e : global_variable_entry_t) (v : gval) : Prop :=
  match arg e with
  | ARG_STRING => v = VStr (if has_key gkf (group_name e) (key_name e) then get_string gkf (group_name e) (key_name e)
                            else c_lit <$> char_default e)
  | _ => exists r, v = VInt (r * multiplier e) /\
           (value_min e <= r <= value_max e /\ (value_round e <> 0 -> (value_round e | r)) \/
            func_pre e <> None /\ has_key gkf (group_name e) (key_name e) = false /\ r = nprocs * 2)
  end.

Lemma read_integer_range gkf e : entry_ok e -> arg e <> ARG_STRING ->
  value_min e <= read_integer gkf e <= value_max e /\ read_integer gkf e < 2 ^ 31 /\
  (value_round e <> 0 -> (value_round e | read_integer gkf e)).
Proof.
  intros Ho E. destruct (eo_limits _ Ho E) as ((Hl1 & Hl2) & Hl3 & Hl4 & Hl5), (eo_round _ Ho E) as [Hr1 Hr2].
  unfold read_integer. set (g := get_integer gkf _ _).
  assert (- 2 ^ 31 <= i32 g < 2 ^ 31) as Hg by (unfold swrap; pose proof (Z.mod_pos_bound (g + 2 ^ (32 - 1)) (2 ^ 32)); lia).
  assert (exists r, (if value_max e <? (if i32 g <? value_min e then i32 (value_min e) else i32 g) then i32 (value_max e)
             else (if i32 g <? value_min e then i32 (value_min e) else i32 g)) = r /\ value_min e <= r <= value_max e /\ r < 2 ^ 31)
    as (r & -> & Hr & Hr').
  { eexists. split; [reflexivity|]. rewrite (swrap_small 32 (value_min e)) by lia.
    destruct (Z.ltb_spec (i32 g) (value_min e)); [rewrite (proj2 (Z.ltb_ge _ _)) by lia; lia|].
    destruct (Z.ltb_spec (value_max e) (i32 g)); [rewrite swrap_small by lia|]; lia. }
  destruct (Z.eqb_spec (value_round e) 0) as [|Hn]; [done|]. destruct (Hr2 Hn) as [[k Hk] _].
  rewrite Z.quot_div_nonneg by lia.
  pose proof (Z.div_le_mono (value_min e) r (value_round e) ltac:(lia) ltac:(lia)) as Hm.
  rewrite Hk, Z.div_mul in Hm by lia. pose proof (Z.mul_div_le r (value_round e) ltac:(lia)).
  pose proof (Z.div_le_upper_bound r (value_round e) r ltac:(lia) ltac:(nia)).
  pose proof (Z.div_pos r (value_round e) ltac:(lia) ltac:(lia)).
  rewrite (swrap_small 32 (r / value_round e)) by lia. rewrite swrap_small by nia.
  split; [nia|]. split; [nia|]. intros _. apply Z.divide_factor_r.
Qed.

(** The number that the file or the table gives to an entry without a function of its own. *)
Definition entry_value (gkf : GKeyFile) (e : global_variable_entry_t) : Z :=
  (if has_key gkf (group_name e) (key_name e) then read_integer gkf e else int_default e) * multiplier e.

(** The size of a core file that [setrlimit] is asked for. *)
Definition core_entry : global_variable_entry_t :=
  mkEntry "global" "core_dump_file_size" 0 ARG_INT "glovars.core_dump_file_size" 0 2147483647 0 0 0 None None (Some PostCoreDumpFileSize).
Definition core_dump_file_size (gkf : GKeyFile) : Z := entry_value gkf core_entry.

Lemma core_entry_only e : e ∈ glo_entries -> func_post e = Some PostCoreDumpFileSize -> e = core_entry.
Proof.
  assert (Forall (fun e => func_post e = Some PostCoreDumpFileSize -> e = core_entry) glo_entries) as H.
  { unfold glo_entries. repeat first [apply Forall_nil_2 | apply Forall_cons_2; [intros E; first [discriminate E | reflexivity]|]]. }
  rewrite Forall_forall in H. apply H.
Qed.

Lemma core_entry_in : core_entry ∈ glo_entries.
Proof. apply list_elem_of_In. unfold glo_entries. repeat (first [left; reflexivity | right]). Qed.

Section Loading.
Context (nprocs : Z) (setrlimit : Z -> bool) (gkf : GKeyFile).
Context (Hprocs : 0 < nprocs * 2 < 2 ^ 31).

(** [setrlimit] accepts the value of an entry that asks it. *)
Definition core_accepted (e : global_variable_entry_t) : Prop :=
  func_post e = Some PostCoreDumpFileSize -> func_pre e = None /\ setrlimit (entry_value gkf e) = true.

(** The part of the process that the table does not touch. *)
Definition same_rest (p p' : process) : Prop :=
  mysql_users_name p' = mysql_users_name p /\ mysql_users_pass p' = mysql_users_pass p /\ p_usernames p' = p_usernames p /\
  p_rules p' = p_rules p /\ gdbg_lvl p' = gdbg_lvl p /\ mysql_use_masters_for_reads p' = mysql_use_masters_for_reads p.

Definition servers_reset (p : process) : Prop :=
  exists n, int_at (variables p) "glovars.mysql_hostgroups" = Some n /\ p_servers p = empty_servers n /\ p_reg p = mkReg [] 0.

Lemma multiplier_pos e : 0 < multiplier e.
Proof. unfold multiplier. destruct (Z.ltb_spec 0 (value_multiplier e)); lia. Qed.

(** Reading one entry before its final function. *)
Lemma variable_value e p : entry_ok e -> exists v,
  (p ← (match func_pre e with Some f => run_pre nprocs f e p | None => Done p end);
   (if has_key gkf (group_name e) (key_name e) then Done (from_file gkf e p)
    else match func_pre e with Some _ => Done p | None => from_default e p end)) =
  Done (set_var (arg_data e) v p) /\ value_ok nprocs gkf e v /\ (func_pre e = None -> arg e <> ARG_STRING -> v = VInt (entry_value gkf e)).
Proof.
  intros Ho. unfold entry_value, from_file, from_default, run_pre, pre_variable_mysql_threads, value_ok, set_var.
  pose proof (multiplier_pos e) as Hm.
  assert (forall v v', <[arg_data e := v]> (<[arg_data e := v']> (variables p)) = <[arg_data e := v]> (variables p)) as Hii
    by (intros; apply insert_insert_eq).
  destruct (arg e) eqn:Ea.
  1,2: assert (arg e <> ARG_STRING) as E by congruence;
    destruct (read_integer_range gkf e Ho E) as (R1 & R2 & R3), (eo_limits _ Ho E) as ((L1 & L2) & L3 & L4 & L5), (eo_round _ Ho E) as [_ L6].
  - pose proof (eo_width _ Ho Ea) as Hw.
    destruct (func_pre e) as [[]|] eqn:Ep.
    + destruct (eo_pre _ Ho) as [_ Hm1]; [congruence|]. rewrite (swrap_small 32 (nprocs * 2)), (proj2 (Z.ltb_lt _ _)) by lia. cbn.
      destruct (has_key gkf _ _) eqn:Ek.
      * rewrite swrap_small by nia. eexists. rewrite !Hii. split; [reflexivity|]. split; [|done]. eexists. split; [reflexivity|]. by left.
      * eexists. split; [reflexivity|]. split; [|done]. exists (nprocs * 2). rewrite Hm1, Z.mul_1_r. split; [done|]. right. done.
    + cbn. destruct (has_key gkf _ _) eqn:Ek.
      * rewrite swrap_small by nia. eexists. rewrite !Hii. split; [reflexivity|]. split; [|done]. eexists. split; [reflexivity|]. by left.
      * rewrite swrap_small by nia. eexists. split; [reflexivity|]. split; [|done]. eexists. split; [reflexivity|]. left. split; [lia|]. intros. by apply L6.
  - pose proof (eo_width64 _ Ho Ea) as Hw.
    destruct (func_pre e) as [[]|] eqn:Ep; [destruct (eo_pre _ Ho) as [? _]; congruence|].
    cbn. destruct (has_key gkf _ _) eqn:Ek.
    + rewrite swrap_small by nia. eexists. rewrite !Hii. split; [reflexivity|]. split; [|done]. eexists. split; [reflexivity|]. by left.
    + rewrite swrap_small by nia. eexists. split; [reflexivity|]. split; [|done]. eexists. split; [reflexivity|]. left. split; [lia|]. intros. by apply L6.
  - destruct (eo_string _ Ho Ea) as ([s Hs] & Hp & _). rewrite Hp, Hs. cbn.
    destruct (has_key gkf _ _); eexists; (split; [reflexivity|split; done]).
Qed.

Lemma value_ok_int e v : arg e <> ARG_STRING -> entry_ok e -> value_ok nprocs gkf e v -> exists z, v = VInt z /\ 0 <= z.
Proof.
  intros E Ho Hv. destruct (eo_limits _ Ho E) as ((L1 & _) & _). pose proof (multiplier_pos e).
  unfold value_ok in Hv. destruct (arg e); try done;
    (destruct Hv as (r & -> & [[? _]|(_ & _ & ->)]); eexists; (split; [done|]); nia).
Qed.

(** The function of an entry runs on the process in which its variable has its value. *)
Lemma process_variable_post e p : entry_ok e -> exists v,
  process_variable nprocs setrlimit gkf e p =
    (match func_post e with Some f => run_post setrlimit f e (set_var (arg_data e) v p) | None => Done (set_var (arg_data e) v p) end) /\
  value_ok nprocs gkf e v /\ (func_pre e = None -> arg e <> ARG_STRING -> v = VInt (entry_value gkf e)).
Proof.
  intros Ho. destruct (variable_value e p Ho) as (v & Hv & Hok & Hval). exists v. split; [|done]. unfold process_variable. cbn in Hv.
  destruct (func_pre e) as [g|]; cbn in *; [destruct (run_pre nprocs g e p); try done; cbn in *|].
  all: destruct (has_key gkf _ _); cbn in *; try (destruct (from_default e _)); cbn; try discriminate Hv; try (injection Hv as Hv; rewrite Hv; done).
Qed.

Lemma process_variable_spec e p : entry_ok e -> core_accepted e -> exists p' v,
  process_variable nprocs setrlimit gkf e p = Done p' /\ variables p' = <[arg_data e := v]> (variables p) /\
  value_ok nprocs gkf e v /\ same_rest p p' /\
  (func_post e = Some PostInitGlomysrvs -> servers_reset p') /\
  (func_post e <> Some PostInitGlomysrvs -> p_servers p' = p_servers p /\ p_reg p' = p_reg p) /\
  (func_post e = Some PostConnpoolInit \/ p_connpools p = [] -> p_connpools p' = []).
Proof.
  intros Ho Hcore. destruct (process_variable_post e p Ho) as (v & -> & Hok & Hval).
  destruct (func_post e) as [[]|] eqn:Ef; cbn [run_post].
  - assert (arg e <> ARG_STRING) as E by (intros E; destruct (eo_string _ Ho E) as (_ & _ & ?); congruence).
    destruct (Hcore Ef) as [Hpre Hset]. rewrite (Hval Hpre E) in *.
    unfold post_variable_core_dump_file_size, int_at. cbn. rewrite lookup_insert_eq, Hset.
    do 2 eexists. split; [reflexivity|]. cbn. repeat split; try done. by intros [|].
  - do 2 eexists. split; [reflexivity|]. cbn. repeat split; done.
  - assert (arg e <> ARG_STRING) as E by (intros E; destruct (eo_string _ Ho E) as (_ & _ & ?); congruence).
    destruct (value_ok_int e v E Ho Hok) as (z & -> & Hz). pose proof (proj1 (eo_hostgroups _ Ho) Ef) as Ed.
    unfold init_glomysrvs, int_at. cbn. rewrite Ed, lookup_insert_eq.
    do 2 eexists. split; [reflexivity|]. cbn. repeat split; try done; [|by intros [|]].
    intros _. exists z. unfold int_at. cbn. by rewrite lookup_insert_eq.
  - do 2 eexists. split; [reflexivity|]. cbn. repeat split; try done. by intros [|].
Qed.

Lemma process_entries_spec es : forall p, Forall entry_ok es -> Forall core_accepted es -> NoDup (arg_data <$> es) -> exists p',
  process_entries nprocs setrlimit gkf 0 es p = Done p' /\ same_rest p p' /\
  (forall e, e ∈ es -> exists v, variables p' !! arg_data e = Some v /\ value_ok nprocs gkf e v) /\
  (forall x, x ∉ arg_data <$> es -> variables p' !! x = variables p !! x) /\
  ((exists e, e ∈ es /\ func_post e = Some PostInitGlomysrvs) \/
     "glovars.mysql_hostgroups"%string ∉ arg_data <$> es /\ servers_reset p -> servers_reset p') /\
  ((exists e, e ∈ es /\ func_post e = Some PostConnpoolInit) \/ p_connpools p = [] -> p_connpools p' = []).
Proof.
  induction es as [|e es IH]; intros p Hall Hcore Hnd.
  { exists p. cbn. repeat split; try done; set_solver. }
  apply Forall_cons in Hall as [Ho Hall]. apply Forall_cons in Hcore as [Hc0 Hcore]. cbn in Hnd. apply NoDup_cons in Hnd as [Hnin Hnd].
  destruct (process_variable_spec e p Ho Hc0) as (p1 & v & Hrun & Hv & Hok & Hs & Hh & Hnh & Hc).
  destruct (IH p1 Hall Hcore Hnd) as (p' & Hrun' & Hs' & He' & Hx' & Hh' & Hc'). clear IH.
  exists p'. cbn [process_entries]. pose proof (eo_dynamic _ Ho). rewrite (proj2 (Z.ltb_ge _ _)) by lia.
  rewrite Hrun. cbn. split; [done|]. split; [unfold same_rest in *; naive_solver congruence|]. split; [|split; [|split]].
  - intros e2 [->|H2]%elem_of_cons; [|by apply He']. exists v. rewrite Hx', Hv, lookup_insert_eq by done. done.
  - intros x Hx. cbn in Hx. rewrite Hx', Hv, lookup_insert_ne by set_solver. done.
  - intros Hor. apply Hh'. destruct Hor as [(e2 & [->|H2]%elem_of_cons & E2)|[Hn Hr]].
    + right. split; [|by apply Hh]. rewrite <- (proj1 (eo_hostgroups _ Ho) E2). done.
    + left. eauto.
    + cbn in Hn. right. split; [set_solver|].
      assert (func_post e <> Some PostInitGlomysrvs) as E2 by (intros E2; apply (proj1 (eo_hostgroups _ Ho)) in E2; set_solver).
      destruct (Hnh E2) as [Hp1 Hp2], Hr as (n & Hn1 & Hn2 & Hn3). exists n. unfold int_at in *.
      rewrite Hv, lookup_insert_ne by set_solver. rewrite Hp1, Hp2. done.
  - intros Hor. apply Hc'. destruct Hor as [(e2 & [->|H2]%elem_of_cons & E2)|Hr]; [right; apply Hc; by left|left; eauto|right; apply Hc; by right].
Qed.

(** When [setrlimit] refuses the value the assertion fails. *)
Lemma process_entries_crash es : forall p, Forall entry_ok es -> (forall e, e ∈ es -> func_post e = Some PostCoreDumpFileSize -> e = core_entry) ->
  core_entry ∈ es -> setrlimit (core_dump_file_size gkf) = false -> process_entries nprocs setrlimit gkf 0 es p = Crash.
Proof.
  induction es as [|e es IH]; intros p Hall Honly Hin Hset; [by apply not_elem_of_nil in Hin|].
  apply Forall_cons in Hall as [Ho Hall]. cbn [process_entries]. pose proof (eo_dynamic _ Ho). rewrite (proj2 (Z.ltb_ge _ _)) by lia.
  destruct (decide (func_post e = Some PostCoreDumpFileSize)) as [Ef|Ef].
  - assert (e = core_entry) as -> by (apply Honly; [left|done]).
    destruct (process_variable_post core_entry p Ho) as (v & -> & _ & Hval). rewrite (Hval eq_refl ltac:(discriminate)). cbn.
    unfold post_variable_core_dump_file_size, int_at. cbn. rewrite lookup_insert_eq. fold (core_dump_file_size gkf). by rewrite Hset.
  - apply elem_of_cons in Hin as [<-|Hin]; [done|].
    destruct (process_variable_spec e p Ho) as (p1 & v & -> & _); [done|]. cbn. apply IH; try done. intros e2 H2. apply Honly. by right.
Qed.

Lemma table_accepted : setrlimit (core_dump_file_size gkf) = true -> Forall core_accepted glo_entries.
Proof. intros Hset. apply Forall_forall. intros e He Ef. by rewrite (core_entry_only e He Ef). Qed.

Context (Hlimit : setrlimit (core_dump_file_size gkf) = true).

Lemma process_table_spec p : exists p',
  process_global_variables_from_file nprocs setrlimit gkf 0 p = Done p' /\ same_rest p p' /\
  (forall e, e ∈ glo_entries -> exists v, variables p' !! arg_data e = Some v /\ value_ok nprocs gkf e v) /\
  (forall x, x ∉ arg_data <$> glo_entries -> variables p' !! x = variables p !! x) /\
  servers_reset p' /\ p_connpools p' = [].
Proof.
  destruct (process_entries_spec glo_entries p glo_entries_ok (table_accepted Hlimit) glo_entries_distinct) as (p' & Hrun & Hs & He & Hx & Hh & Hc).
  exists p'. split; [exact Hrun|]. split; [done|]. split; [done|]. split; [done|]. split.
  - apply Hh. left. assert (exists e, List.find (fun e => match func_post e with Some PostInitGlomysrvs => true | _ => false end) glo_entries = Some e)
      as [e Hf] by (eexists; vm_compute; reflexivity).
    apply find_some in Hf as [Hin Hf]. exists e. split; [by apply list_elem_of_In|]. by destruct (func_post e) as [[]|].
  - apply Hc. left. assert (exists e, List.find (fun e => match func_post e with Some PostConnpoolInit => true | _ => false end) glo_entries = Some e)
      as [e Hf] by (eexists; vm_compute; reflexivity).
    apply find_some in Hf as [Hin Hf]. exists e. split; [by apply list_elem_of_In|]. by destruct (func_post e) as [[]|].
Qed.

(** The entry that writes a variable. *)
Definition entry_of (x : string) : option global_variable_entry_t := List.find (fun e => String.eqb (arg_data e) x) glo_entries.

Lemma loaded_entry (vs : gmap string gval) x e :
  (forall e, e ∈ glo_entries -> exists v, vs !! arg_data e = Some v /\ value_ok nprocs gkf e v) ->
  entry_of x = Some e -> exists v, vs !! x = Some v /\ value_ok nprocs gkf e v.
Proof.
  intros Hall [Hin Hx]%find_some. apply String.eqb_eq in Hx as <-. apply Hall. by apply list_elem_of_In.
Qed.

Lemma loaded_int vs x e :
  (forall e, e ∈ glo_entries -> exists v, vs !! arg_data e = Some v /\ value_ok nprocs gkf e v) ->
  entry_of x = Some e -> arg e <> ARG_STRING -> func_pre e = None ->
  exists r, int_at vs x = Some (r * multiplier e) /\ value_min e <= r <= value_max e.
Proof.
  intros Hall He Ha Hp. destruct (loaded_entry vs x e Hall He) as (v & Hv & Hok). unfold value_ok, int_at in *. rewrite Hv.
  destruct (arg e); try done;
    (destruct Hok as (r & -> & [[? _]|[? _]]); [|done]; eauto).
Qed.

End Loading.

(** C31: for every configuration file the reading of the table ends in one of two ways, as the operating system answers to [setrlimit]. When it accepts the size of core files that the file or the default gives,
    every variable of the table holds a value that its entry allows: between the limits, a multiple of the rounding, times the multiplier; the only exception is
    [mysql_threads] when the file does not name it, which gets twice the number of processors (positive and an [int]). When it refuses that size, the process aborts. *)
Theorem config_variables_in_range nprocs (setrlimit : Z -> bool) gkf p :
  0 < nprocs * 2 < 2 ^ 31 ->
  if setrlimit (core_dump_file_size gkf) then
  exists p', process_global_variables_from_file nprocs setrlimit gkf 0 p = Done p' /\
    forall e, e ∈ glo_entries -> exists v, variables p' !! arg_data e = Some v /\
      match arg e with
      | ARG_STRING => v = VStr (if has_key gkf (group_name e) (key_name e) then get_string gkf (group_name e) (key_name e)
                                else c_lit <$> char_default e)
      | _ => exists r, v = VInt (r * multiplier e) /\
               (value_min e <= r <= value_max e /\ (value_round e <> 0 -> (value_round e | r)) \/
                func_pre e <> None /\ has_key gkf (group_name e) (key_name e) = false /\ r = nprocs * 2)
      end
  else process_global_variables_from_file nprocs setrlimit gkf 0 p = Crash.
Proof.
  intros Hp. destruct (setrlimit (core_dump_file_size gkf)) eqn:Hl.
  - destruct (process_table_spec nprocs setrlimit gkf Hp Hl p) as (p' & Hrun & _ & He & _). exists p'. done.
  - apply process_entries_crash; [done|apply glo_entries_ok|apply core_entry_only|apply core_entry_in|done].
Qed.

(** A file that names every variable with the value [z]. *)
Definition sample_keyfile (z : Z) : GKeyFile :=
  mkKeyFile (fun _ => true) (fun _ _ => true) (fun _ _ => z) (fun _ k => Some (c_lit k)) (fun _ => ["bob"%string; "joe"%string])
    (fun _ _ => [c_lit "10.0.0.1:3307"; c_lit "db2"; c_lit "10.0.0.1:3307"]).
Definition no_process : process := mkProcess ∅ None (mkGMS [] []) (mkReg [] 0) [] [] [] ∅ None [] 0.

Lemma config_variables_in_range_witness :
  match process_global_variables_from_file 4 (fun _ => true) (sample_keyfile 1000000) 0 no_process with
  | Done p' => int_at (variables p') "glovars.mysql_hostgroups" | _ => None
  end = Some 64 /\
  exists p', process_global_variables_from_file 4 (fun _ => true) (sample_keyfile 1000000) 0 no_process = Done p' /\
    forall e, e ∈ glo_entries -> exists v, variables p' !! arg_data e = Some v /\
      match arg e with
      | ARG_STRING => v = VStr (get_string (sample_keyfile 1000000) (group_name e) (key_name e))
      | _ => exists r, v = VInt (r * multiplier e) /\
               (value_min e <= r <= value_max e /\ (value_round e <> 0 -> (value_round e | r)) \/
                func_pre e <> None /\ has_key (sample_keyfile 1000000) (group_name e) (key_name e) = false /\ r = 4 * 2)
      end.
Proof.
  split; [vm_compute; reflexivity|].
  apply (config_variables_in_range 4 (fun _ => true) (sample_keyfile 1000000) no_process). lia.
Defined.

(** ** Users *)

Lemma c_lit_inj a b : c_lit a = c_lit b -> a = b.
Proof. intros H. rewrite <- (String.string_of_list_byte_of_string a), <- (String.string_of_list_byte_of_string b). unfold c_lit in H. by rewrite H. Qed.

Definition same_but_users (p p' : process) : Prop :=
  p' = p <| mysql_users_name := mysql_users_name p' |> <| mysql_users_pass := mysql_users_pass p' |> <| p_usernames := p_usernames p' |>.

Lemma load_users_spec gkf us : forall p,
  (forall u, u ∈ us -> is_Some (get_string gkf "mysql users" u)) ->
  exists p', load_users gkf us p = Done p' /\ same_but_users p p' /\
    mysql_users_name p' = mysql_users_name p ++ (c_lit <$> us) /\
    forall n, p_usernames p' !! n =
      match decide (n ∈ c_lit <$> us) with
      | left _ => get_string gkf "mysql users" (String.string_of_list_byte n)
      | right _ => p_usernames p !! n
      end.
Proof.
  induction us as [|u us IH]; intros p Hall.
  { exists p. cbn. rewrite app_nil_r. split; [done|]. split; [by destruct p|]. split; [done|]. intros n.
    destruct (decide (n ∈ [])); [set_solver|done]. }
  destruct (Hall u) as [pw Hpw]; [left|]. cbn [load_users]. rewrite Hpw.
  destruct (IH (p <| mysql_users_name := mysql_users_name p ++ [c_lit u] |> <| mysql_users_pass := mysql_users_pass p ++ [pw] |>
               <| p_usernames := <[c_lit u := pw]> (p_usernames p) |>)) as (p' & -> & Hs & Hn & Hu); [intros; apply Hall; by right|].
  exists p'. split; [done|]. split; [unfold same_but_users in *; rewrite Hs; by destruct p|].
  split; [rewrite Hn; cbn; by rewrite <- app_assoc|]. intros n. rewrite Hu.
  rewrite fmap_cons. destruct (decide (n ∈ c_lit <$> us)) as [H1|H1].
  { rewrite decide_True; [done|by right]. }
  destruct (decide (n = c_lit u)) as [->|Hne].
  - rewrite decide_True by left. change (<[c_lit u := pw]> (p_usernames p) !! c_lit u =
      get_string gkf "mysql users" (String.string_of_list_byte (c_lit u))). rewrite lookup_insert_eq.
    unfold c_lit. by rewrite String.string_of_list_byte_of_string.
  - rewrite decide_False by (by intros [?|?]%elem_of_cons).
    change (<[c_lit u := pw]> (p_usernames p) !! n = p_usernames p !! n). by rewrite lookup_insert_ne.
Qed.

(** ** Servers *)

Definition server_key (ms : mysql_server) : list byte * Z := (address ms, port ms).

Lemma find_server_key g a pt : Byte.x00 ∉ a -> Forall (fun ms => Byte.x00 ∉ address ms) (servers g) ->
  match find_server_ptr g a pt with
  | Some ms => ms ∈ servers g /\ server_key ms = (a, pt)
  | None => (a, pt) ∉ server_key <$> servers g
  end.
Proof.
  intros Ha Hall. unfold find_server_ptr. destruct (List.find _ (servers g)) as [ms|] eqn:E.
  - apply find_some in E as [Hin Hb]. apply list_elem_of_In in Hin. px_bool. split; [done|].
    rewrite Forall_forall in Hall. specialize (Hall _ Hin). unfold server_key. f_equal; [|done]. by apply strcmp_eq.
  - intros (ms & Hk & Hin)%list_elem_of_fmap. apply list_elem_of_In in Hin as Hin'. pose proof (find_none _ _ E _ Hin') as Hb.
    unfold server_key in Hk. injection Hk as -> ->. cbn in Hb. rewrite Z.eqb_refl in Hb. cbn in Hb.
    rewrite Forall_forall in Hall. specialize (Hall _ Hin). apply Z.eqb_neq in Hb. by apply Hb, strcmp_eq.
Qed.

Lemma skip_space_sub l x : x ∈ skip_space l -> x ∈ l.
Proof. induction l as [|b l IH]; [done|]. cbn. destruct (isspace b); [|done]. intros. right. auto. Qed.

Lemma take_word_sub l w r x : take_word l = (w, r) -> x ∈ w \/ x ∈ r -> x ∈ l.
Proof.
  revert w r. induction l as [|b l IH]; intros w r; cbn; [intros [= <- <-] [|]; done|].
  destruct (isspace b); [intros [= <- <-] [H|]; [by apply elem_of_nil in H|done]|].
  destruct (take_word l) as [w' r'] eqn:E. intros [= <- <-] [[->|H]%elem_of_cons|H]; [left|right; eauto|right; eauto].
Qed.

Lemma scan_word_sub l w r x : scan_word l = Some (w, r) -> x ∈ w \/ x ∈ r -> x ∈ l.
Proof.
  unfold scan_word. destruct (skip_space l) as [|b l'] eqn:E; [done|]. intros H%(inj Some) Hx.
  apply skip_space_sub. rewrite E. eapply take_word_sub; eauto.
Qed.

Lemma blank_colon_sub l l' x : blank_colon l = Some l' -> x ∈ l' -> x ∈ l \/ x = Byte.x20.
Proof.
  revert l'. induction l as [|b l IH]; intros l'; cbn; [done|]. destruct (decide (b = Byte.x3a)) as [->|].
  - intros [= <-] [->|]%elem_of_cons; [by right|left; by right].
  - destruct (blank_colon l) as [m|] eqn:E; [|done]. cbn. intros [= <-] [->|H]%elem_of_cons; [left; left|].
    destruct (IH m eq_refl H); [left; by right|by right].
Qed.

Lemma parse_server_nul_free e : Byte.x00 ∉ e -> Byte.x00 ∉ (parse_server e).1.
Proof.
  intros He. unfold parse_server. destruct (blank_colon e) as [l|] eqn:E; [|done]. unfold scan_two.
  destruct (scan_word l) as [[s r]|] eqn:Es; [|by intros ?%elem_of_nil]. cbn. intros Hx.
  destruct (blank_colon_sub e l Byte.x00 E) as [?|?]; [|done..]. eapply scan_word_sub; eauto.
Qed.

(** A name, a colon and digits are the address and the port. *)
Lemma take_word_plain w r : forallb (fun b => negb (isspace b)) w = true -> isspace (hd Byte.x20 r) = true -> take_word (w ++ r) = (w, r).
Proof.
  induction w as [|b w IH]; intros Hw Hr; cbn in *.
  - destruct r as [|c r]; [done|]. cbn in *. by rewrite Hr.
  - apply andb_prop in Hw as [Hb Hw]. apply negb_true_iff in Hb. by rewrite Hb, IH.
Qed.

Lemma scan_word_plain w r : w <> [] -> forallb (fun b => negb (isspace b)) w = true -> isspace (hd Byte.x20 r) = true ->
  scan_word (w ++ r) = Some (w, r).
Proof.
  intros Hn Hw Hr. unfold scan_word. destruct w as [|b w]; [done|]. cbn [skip_space app].
  assert (isspace b = false) as Hb by (cbn in Hw; apply andb_prop in Hw as [? _]; by apply negb_true_iff).
  rewrite Hb. by rewrite <- (take_word_plain (b :: w) r).
Qed.

Lemma parse_server_spec h ds :
  h <> [] -> forallb (fun b => negb (isspace b)) h = true -> Byte.x3a ∉ h ->
  ds <> [] -> Forall (fun b => is_Some (digit b)) ds ->
  parse_server (h ++ Byte.x3a :: ds) = (h, u16 (i32 (digits 0 ds))).
Proof.
  intros Hh Hs Hc Hd Hds.
  assert (forall b, is_Some (digit b) -> isspace b = false /\ b <> Byte.x2d /\ b <> Byte.x2b) as Hdig.
  { intros b [d Hb]. unfold digit, isspace in *. destruct ((48 <=? uc b) && (uc b <=? 57)) eqn:E; [|done]. px_bool.
    split; [|split; intros ->; cbn in *; lia].
    destruct (Z.eqb_spec (uc b) 32); [lia|]. cbn. destruct (Z.leb_spec (uc b) 13); [lia|]. apply andb_false_r. }
  unfold parse_server. assert (blank_colon (h ++ Byte.x3a :: ds) = Some (h ++ Byte.x20 :: ds)) as ->.
  { clear - Hc. induction h as [|b h IH]; [done|]. cbn. rewrite decide_False by set_solver. rewrite IH by set_solver. done. }
  unfold scan_two. rewrite scan_word_plain by done.
  assert (scan_word (Byte.x20 :: ds) = Some (ds, [])) as ->.
  { unfold scan_word. cbn [skip_space]. change (isspace Byte.x20) with true. cbn.
    assert (forallb (fun b => negb (isspace b)) ds = true) as Hw.
    { apply forallb_forall. intros b Hb%list_elem_of_In. rewrite Forall_forall in Hds. by destruct (Hdig b (Hds b Hb)) as [-> _]. }
    pose proof (scan_word_plain ds [] Hd Hw eq_refl) as Hp. rewrite app_nil_r in Hp. exact Hp. }
  f_equal. f_equal. unfold atoi. destruct ds as [|b ds]; [done|]. cbn [skip_space].
  apply Forall_cons in Hds as [Hb _]. destruct (Hdig b Hb) as (-> & H1 & H2). destruct b; try done.
Qed.

(** A probed server. *)
Definition probed (answer : list byte -> Z -> probe) (ms : mysql_server) : Prop :=
  exists ro, mysql_check_alive_and_read_only (answer (address ms) (port ms)) = Done ro /\
    status ms = (if 0 <=? ro then ONLINE else OFFLINE_HARD) /\ (0 <= ro -> read_only ms = ro).

Record servers_ok (g : global_mysql_servers) : Prop := {
  sv_nodup : NoDup (server_key <$> servers g);
  sv_nul : Forall (fun ms => Byte.x00 ∉ address ms) (servers g) }.

Lemma load_servers_spec answer es : forall g,
  (forall a pt, exists ro, mysql_check_alive_and_read_only (answer a pt) = Done ro) ->
  Forall (fun e => Byte.x00 ∉ e) es -> servers_ok g ->
  exists g', load_servers answer es g = Done g' /\ hostgroups g' = hostgroups g /\ servers_ok g' /\
    (forall k, k ∈ server_key <$> servers g' <-> k ∈ server_key <$> servers g \/ k ∈ parse_server <$> es) /\
    (forall ms, ms ∈ servers g' -> ms ∈ servers g \/ probed answer ms).
Proof.
  induction es as [|e es IH]; intros g Hp Hes Hok.
  { exists g. cbn. split; [done|]. split; [done|]. split; [done|]. split; [|auto]. intros k. split; [auto|intros [|H]; [done|by apply elem_of_nil in H]]. }
  apply Forall_cons in Hes as [He Hes]. cbn [load_servers]. unfold load_server.
  pose proof (parse_server_nul_free e He) as Hnul. destruct (parse_server e) as [a pt] eqn:Epar. cbn in Hnul.
  pose proof (find_server_key g a pt Hnul (sv_nul _ Hok)) as Hf. destruct (find_server_ptr g a pt) as [ms|].
  - cbn. destruct (IH g Hp Hes Hok) as (g' & Hrun & Hh & Hok' & Hk & Hs). exists g'. split; [done|]. split; [done|]. split; [done|]. split; [|done].
    intros k. rewrite Hk. cbn. rewrite elem_of_cons, Epar. destruct Hf as [Hin Hkey].
    assert ((a, pt) ∈ server_key <$> servers g) by (rewrite <- Hkey; by apply list_elem_of_fmap_2). naive_solver.
  - destruct (Hp a pt) as [ro Hro]. rewrite Hro. cbn [mbind ending_bind].
    destruct (IH (mysql_server_entry_add g (mkServer a pt (if 0 <=? ro then ro else 0) (if 0 <=? ro then ONLINE else OFFLINE_HARD) 0 0)) Hp Hes)
      as (g' & Hrun & Hh & Hok' & Hk & Hs).
    { split; cbn.
      - rewrite fmap_app. apply NoDup_app. split; [apply Hok|]. split; [|apply NoDup_singleton]. intros k H1 H2%list_elem_of_singleton. by subst.
      - apply Forall_app. split; [apply Hok|]. by apply Forall_singleton. }
    exists g'. split; [done|]. split; [by rewrite Hh|]. split; [done|]. split.
    + intros k. rewrite Hk. cbn. rewrite fmap_app, elem_of_app, elem_of_cons, Epar. cbn. rewrite list_elem_of_singleton. unfold server_key at 2. cbn. tauto.
    + intros ms Hin. destruct (Hs ms Hin) as [H|H]; [|by right]. cbn in H. apply elem_of_app in H as [H|H]; [by left|]. apply list_elem_of_singleton in H as ->.
      right. exists ro. cbn. split; [done|]. split; [done|]. intros. destruct (Z.leb_spec 0 ro); [done|lia].
Qed.

(** The servers of the configuration file: [name:port] is read as the name and the port (without a colon the port
    is 3306), a server is entered once however often it is named, none is left out, and each is online exactly when
    it answered, with the value of [read_only] it answered. *)
Theorem configured_servers answer es g :
  (forall a pt, exists ro, mysql_check_alive_and_read_only (answer a pt) = Done ro) ->
  Forall (fun e => Byte.x00 ∉ e) es -> servers g = [] ->
  exists g', load_servers answer es g = Done g' /\ hostgroups g' = hostgroups g /\
    NoDup (server_key <$> servers g') /\
    (forall h ds, h <> [] -> forallb (fun b => negb (isspace b)) h = true -> Byte.x3a ∉ h ->
       ds <> [] -> Forall (fun b => is_Some (digit b)) ds ->
       h ++ Byte.x3a :: ds ∈ es -> (h, u16 (i32 (digits 0 ds))) ∈ server_key <$> servers g') /\
    (forall h, Byte.x3a ∉ h -> h ∈ es -> (h, 3306) ∈ server_key <$> servers g') /\
    (forall k, k ∈ server_key <$> servers g' -> k ∈ parse_server <$> es) /\
    (forall ms, ms ∈ servers g' -> probed answer ms).
Proof.
  intros Hp Hes Hg. destruct (load_servers_spec answer es g Hp Hes) as (g' & Hrun & Hh & Hok & Hk & Hs).
  { split; rewrite Hg; constructor. }
  rewrite Hg in *. exists g'. split; [done|]. split; [done|]. split; [apply Hok|]. split; [|split; [|split]].
  - intros h ds H1 H2 H3 H4 H5 Hin. apply Hk. right. rewrite <- (parse_server_spec h ds) by done. by apply list_elem_of_fmap_2.
  - intros h Hc Hin. apply Hk. right. replace (h, 3306) with (parse_server h); [by apply list_elem_of_fmap_2|].
    unfold parse_server. assert (blank_colon h = None) as ->; [|done]. clear - Hc. induction h as [|b h IH]; [done|].
    cbn. rewrite decide_False by set_solver. rewrite IH by set_solver. done.
  - intros k [H|H]%Hk; [by apply elem_of_nil in H|done].
  - intros ms [H|H]%Hs; [by apply elem_of_nil in H|done].
Qed.

Lemma configured_servers_witness : exists g',
  load_servers (fun _ _ => Rows 2 [[c_lit "read_only"; c_lit "OFF"]]) [c_lit "10.0.0.1:3307"; c_lit "db2"; c_lit "10.0.0.1:3307"] (empty_servers 2) = Done g' /\
  NoDup (server_key <$> servers g') /\ (c_lit "db2", 3306) ∈ server_key <$> servers g'.
Proof.
  destruct (configured_servers (fun _ _ => Rows 2 [[c_lit "read_only"; c_lit "OFF"]])
    [c_lit "10.0.0.1:3307"; c_lit "db2"; c_lit "10.0.0.1:3307"] (empty_servers 2)) as (g' & Hr & _ & Hn & _ & H & _).
  - intros a pt. exists 0. reflexivity.
  - repeat constructor; apply (bool_decide_eq_true_1 _); vm_compute; reflexivity.
  - reflexivity.
  - exists g'. split; [exact Hr|]. split; [exact Hn|]. apply H; [apply (bool_decide_eq_true_1 _); vm_compute; reflexivity|right; left].
Defined.

(** ** Start and reload *)

Lemma debug_section_spec gkf text p :
  (has_group gkf "debug" = true -> Forall (fun l => is_Some (text (name l))) (gdbg_lvl p)) ->
  exists ls, debug_section text gkf p = Done (p <| gdbg_lvl := ls |>).
Proof.
  intros H. unfold debug_section. destruct (has_group gkf "debug"); [|by eexists]. specialize (H eq_refl).
  assert (exists ls, read_levels text gkf (gdbg_lvl p) = Done ls) as [ls ->]; [|by eexists].
  revert H. generalize (gdbg_lvl p). induction l as [|l ls IH]; intros Hall; [by eexists|].
  apply Forall_cons in Hall as [[s Hs] Hall]. destruct (IH Hall) as [ls' Hr]. cbn. rewrite Hs, Hr. by eexists.
Qed.

Lemma limit_purge_loop_spec p l t :
  int_at (variables p) "fdb_system_var.hash_purge_loop" = Some l -> int_at (variables p) "fdb_system_var.hash_purge_time" = Some t ->
  exists p', limit_purge_loop p = Done p' /\ (forall x, x <> "fdb_system_var.hash_purge_loop"%string -> variables p' !! x = variables p !! x) /\
    int_at (variables p') "fdb_system_var.hash_purge_loop" = Some (l `min` t) /\
    p' = p <| variables := variables p' |>.
Proof.
  intros Hl Ht. unfold limit_purge_loop. rewrite Hl, Ht. destruct (Z.ltb_spec t l); eexists; (split; [reflexivity|]).
  - split; [intros x Hx; cbn; by rewrite lookup_insert_ne|]. split; [unfold int_at; cbn; rewrite lookup_insert_eq; f_equal; lia|done].
  - split; [done|]. split; [rewrite Hl; f_equal; lia|by destruct p].
Qed.

Lemma done_bind {A B} (a : A) (f : A -> ending B) : (Done a ≫= f) = f a.
Proof. done. Qed.

(** The configuration file of a process that can start: what the code asks of it. *)
Record usable (gkf : GKeyFile) : Prop := {
  us_global : has_group gkf "global" = true;
  us_users_group : has_group gkf "mysql users" = true;
  us_servers : has_key gkf "mysql" "mysql_servers" = true;
  us_users : get_keys gkf "mysql users" <> [];
  us_passwords : forall u, u ∈ get_keys gkf "mysql users" -> is_Some (get_string gkf "mysql users" u) }.

Section Startup.
Context (nprocs : Z) (setrlimit : Z -> bool) (answer : list byte -> Z -> probe) (text : Z -> option string) (gkf : GKeyFile) (p : process).
Context (Hprocs : 0 < nprocs * 2 < 2 ^ 31) (Hlimit : setrlimit (core_dump_file_size gkf) = true)
        (Hprobe : forall a pt, exists ro, mysql_check_alive_and_read_only (answer a pt) = Done ro)
        (Hlist : Forall (fun e => Byte.x00 ∉ e) (get_string_list gkf "mysql" "mysql_servers"))
        (Hdebug : has_group gkf "debug" = true -> Forall (fun l => is_Some (text (name l))) (gdbg_lvl p)).

Abbreviation start := (init_global_variables nprocs setrlimit answer text gkf 0 p).

Definition loaded (vs : gmap string gval) : Prop :=
  forall e, e ∈ glo_entries -> exists v, vs !! arg_data e = Some v /\ value_ok nprocs gkf e v.

Lemma fixed_expire q r : exists m,
  variables ((fixed_variables q) <| p_rules := r |>) = <["fdb_system_var.hash_expire_max"%string := VInt 315360000]> m.
Proof. eexists. reflexivity. Qed.

(** Everything up to the servers and the users, which decide about the rest. *)
Lemma start_prefix : has_group gkf "global" = true -> has_group gkf "mysql users" = true -> exists p1,
  loaded (variables p1) /\ servers_reset p1 /\ p_connpools p1 = [] /\ variables p1 !! "fdb_system_var.hash_expire_max"%string = Some (VInt 315360000) /\
  p_rules p1 = Some [] /\
  start = (p ← (p ← load_mysql_servers_list_from_file answer gkf p1; load_mysql_users_from_file gkf p);
           p ← limit_purge_loop p; Done (0, p)).
Proof.
  intros Hg Hu. unfold init_global_variables. rewrite Hg, Hu. cbn [negb]. destruct (debug_section_spec gkf text p Hdebug) as [ls ->].
  rewrite done_bind, Z.eqb_refl.
  destruct (process_table_spec nprocs setrlimit gkf Hprocs Hlimit ((fixed_variables (p <| gdbg_lvl := ls |>)) <| p_rules := init_gloQR |>))
    as (p1 & Hrun & Hs & Hl & Hx & Hr & Hc).
  exists p1. rewrite Hrun, done_bind. split; [exact Hl|]. split; [exact Hr|]. split; [exact Hc|]. split; [clear Hrun|split; [clear Hrun|reflexivity]].
  - rewrite Hx; [destruct (fixed_expire (p <| gdbg_lvl := ls |>) init_gloQR) as [m ->]; apply lookup_insert_eq|]. apply (bool_decide_eq_true_1 _). vm_compute. reflexivity.
  - destruct Hs as (_ & _ & _ & Hs & _). rewrite Hs. by destruct (fixed_variables _).
Qed.

Lemma load_servers_list_spec p1 : servers_reset p1 -> has_key gkf "mysql" "mysql_servers" = true -> exists g ro,
  load_mysql_servers_list_from_file answer gkf p1 = Done (p1 <| mysql_use_masters_for_reads := ro |> <| p_servers := g |>) /\
  hostgroups g = hostgroups (p_servers p1).
Proof.
  intros (n & _ & Hsv & _) Hk. unfold load_mysql_servers_list_from_file. rewrite Hk.
  set (q := if has_key gkf "mysql" "mysql_use_masters_for_reads" && _ then _ else _).
  assert (exists ro, q = p1 <| mysql_use_masters_for_reads := ro |>) as [ro Hq].
  { subst q. destruct (_ && _); eexists; reflexivity. }
  assert (p_servers q = p_servers p1) as Hps by (rewrite Hq; reflexivity).
  destruct (load_servers_spec answer (get_string_list gkf "mysql" "mysql_servers") (p_servers q) Hprobe Hlist) as (g & Hrun & Hh & _).
  { rewrite Hps, Hsv. split; constructor. }
  exists g, ro. rewrite Hrun. cbn [mbind ending_bind]. rewrite Hq, <- Hps. done.
Qed.

Lemma loaded_purge p1 : loaded (variables p1) -> exists l t,
  int_at (variables p1) "fdb_system_var.hash_purge_loop" = Some l /\ int_at (variables p1) "fdb_system_var.hash_purge_time" = Some t.
Proof.
  intros Hl.
  destruct (loaded_int nprocs gkf (variables p1) "fdb_system_var.hash_purge_loop" _ Hl ltac:(vm_compute; reflexivity) ltac:(discriminate) ltac:(reflexivity)) as (l & -> & _).
  destruct (loaded_int nprocs gkf (variables p1) "fdb_system_var.hash_purge_time" _ Hl ltac:(vm_compute; reflexivity) ltac:(discriminate) ltac:(reflexivity)) as (t & -> & _).
  eauto.
Qed.



Lemma load_users_total p1 : usable gkf -> exists p2, load_mysql_users_from_file gkf p1 = Done p2 /\ same_but_users p1 p2 /\
  forall u pass, p_usernames p2 !! u = Some pass <->
    exists k, k ∈ get_keys gkf "mysql users" /\ u = c_lit k /\ get_string gkf "mysql users" k = Some pass.
Proof.
  intros Hus. pose proof (us_passwords _ Hus) as Hpw. pose proof (us_users _ Hus) as Hne. unfold load_mysql_users_from_file.
  destruct (load_users_spec gkf (get_keys gkf "mysql users") (p1 <| mysql_users_name := [] |> <| mysql_users_pass := [] |> <| p_usernames := ∅ |>) Hpw)
    as (p2 & Hrun & Hs & _ & Hu).
  exists p2. split; [by destruct (get_keys gkf "mysql users")|]. split; [unfold same_but_users in *; rewrite Hs; by destruct p1|].
  intros u pass. rewrite Hu. destruct (decide _) as [Hin|Hnin].
  - apply list_elem_of_fmap in Hin as (k & -> & Hin). unfold c_lit. rewrite String.string_of_list_byte_of_string. split.
    + intros H. by exists k.
    + intros (k' & _ & E & H). apply c_lit_inj in E as <-. done.
  - split; [intros H; change ((∅ : gmap (list byte) (list byte)) !! u = Some pass) in H; by rewrite lookup_empty in H|].
    intros (k & Hin & -> & _). destruct Hnin. by apply list_elem_of_fmap_2.
Qed.


Lemma start_spec : usable gkf -> exists p' n l t,
  start = Done (0, p') /\
  int_at (variables p') "glovars.mysql_hostgroups" = Some n /\ hostgroups (p_servers p') = replicate (Z.to_nat n) [] /\
  int_at (variables p') "fdb_system_var.hash_purge_loop" = Some l /\ int_at (variables p') "fdb_system_var.hash_purge_time" = Some t /\ l <= t /\
  (forall e, e ∈ glo_entries -> arg_data e <> "fdb_system_var.hash_purge_loop"%string ->
     exists v, variables p' !! arg_data e = Some v /\ value_ok nprocs gkf e v) /\
  variables p' !! "fdb_system_var.hash_expire_max"%string = Some (VInt 315360000) /\
  p_rules p' = Some [] /\ p_connpools p' = [] /\ p_reg p' = mkReg [] 0 /\
  forall u pass, p_usernames p' !! u = Some pass <->
    exists k, k ∈ get_keys gkf "mysql users" /\ u = c_lit k /\ get_string gkf "mysql users" k = Some pass.
Proof.
  intros Hus. destruct (start_prefix (us_global _ Hus) (us_users_group _ Hus)) as (p1 & Hl & Hr & Hc & Hx & Hq & ->).
  destruct (load_servers_list_spec p1 Hr (us_servers _ Hus)) as (g & ro & -> & Hg). rewrite done_bind.
  set (p2 := p1 <| mysql_use_masters_for_reads := ro |> <| p_servers := g |>).
  destruct (load_users_total p2 Hus) as (p3 & -> & Hs3 & Hu3). rewrite done_bind.
  destruct (loaded_purge p1 Hl) as (l & t & Hlo & Hti).
  assert (variables p3 = variables p1) as Hv3 by (rewrite Hs3; reflexivity).
  destruct (limit_purge_loop_spec p3 l t) as (p4 & -> & Hv4 & Hpl & Hs4); [by rewrite Hv3..|]. rewrite done_bind.
  destruct Hr as (n & Hn & Hsv & Hreg).
  assert (forall x, x <> "fdb_system_var.hash_purge_loop"%string -> int_at (variables p4) x = int_at (variables p1) x) as Hint
    by (intros x Hx'; unfold int_at; by rewrite Hv4, Hv3).
  exists p4, n, (l `min` t), t. split; [done|]. split; [rewrite Hint by discriminate; exact Hn|].
  split; [rewrite Hs4, Hs3; change (hostgroups g = replicate (Z.to_nat n) []); rewrite Hg, Hsv; reflexivity|].
  split; [exact Hpl|]. split; [rewrite Hint by discriminate; exact Hti|]. split; [lia|]. split.
  - intros e He Hne. rewrite Hv4, Hv3 by done. apply Hl, He.
  - split; [rewrite Hv4, Hv3 by discriminate; exact Hx|]. rewrite Hs4, Hs3. split; [exact Hq|]. split; [exact Hc|]. split; [exact Hreg|]. exact Hu3.
Qed.

End Startup.


(** Reading off one variable of a started process. *)
Definition others_loaded (nprocs : Z) (gkf : GKeyFile) (vs : gmap string gval) : Prop :=
  forall e, e ∈ glo_entries -> arg_data e <> "fdb_system_var.hash_purge_loop"%string ->
    exists v, vs !! arg_data e = Some v /\ value_ok nprocs gkf e v.

Lemma started_int nprocs gkf vs x e : others_loaded nprocs gkf vs -> entry_of x = Some e ->
  x <> "fdb_system_var.hash_purge_loop"%string -> arg e <> ARG_STRING -> func_pre e = None ->
  exists r, int_at vs x = Some (r * multiplier e) /\ value_min e <= r <= value_max e.
Proof.
  intros Hall [Hin Hx]%find_some Hne Ha Hp. apply String.eqb_eq in Hx as <-. apply list_elem_of_In in Hin.
  destruct (Hall e Hin Hne) as (v & Hv & Hok). unfold value_ok, int_at in *. rewrite Hv.
  destruct (arg e); try done; (destruct Hok as (r & -> & [[? _]|[? _]]); [|done]; eauto).
Qed.

Lemma started_string nprocs gkf vs x e : others_loaded nprocs gkf vs -> entry_of x = Some e -> arg e = ARG_STRING ->
  x <> "fdb_system_var.hash_purge_loop"%string ->
  str_at vs x = if has_key gkf (group_name e) (key_name e) then get_string gkf (group_name e) (key_name e) else c_lit <$> char_default e.
Proof.
  intros Hall [Hin Hx]%find_some Ha Hne. apply String.eqb_eq in Hx as <-. apply list_elem_of_In in Hin.
  destruct (Hall e Hin Hne) as (v & Hv & Hok). unfold value_ok, str_at in *. rewrite Hv, Ha in *. by rewrite Hok.
Qed.

Ltac started Hall x r Hx Hr :=
  lazymatch type of Hall with others_loaded ?np ?gkf ?vs =>
    let e := eval vm_compute in (entry_of x) in
    lazymatch e with Some ?e =>
      destruct (started_int np gkf vs x e Hall ltac:(vm_compute; reflexivity) ltac:(discriminate) ltac:(discriminate) ltac:(reflexivity)) as (r & Hx & Hr);
      change (multiplier e) with 1 in Hx; rewrite Z.mul_1_r in Hx; cbn [value_min value_max] in Hr
    end
  end.


Definition sample_probe : list byte -> Z -> probe := fun _ _ => Rows 2 [[c_lit "read_only"; c_lit "ON"]].


(** ** Types *)

(** The values of a C type. *)
Definition has_type (t : ctype) (v : gval) : Prop :=
  match t, v with
  | C_int, VInt z => - 2 ^ 31 <= z < 2 ^ 31
  | C_uint, VInt z => 0 <= z < 2 ^ 32
  | C_llong, VInt z => - 2 ^ 63 <= z < 2 ^ 63
  | C_ullong, VInt z => 0 <= z < 2 ^ 64
  | C_charp, VStr _ => True
  | _, _ => False
  end.

(** Every variable of the table that is set holds a value of its type. *)
Definition well_typed (vs : gmap string gval) : Prop := forall x t v, type_of x = Some t -> vs !! x = Some v -> has_type t v.

Lemma glo_entries_wide e : e ∈ glo_entries -> arg e <> ARG_STRING -> value_max e * multiplier e < 2 ^ 63.
Proof.
  assert (forallb (fun e => match arg e with ARG_STRING => true | _ => value_max e * multiplier e <? 2 ^ 63 end) glo_entries = true) as H by (vm_compute; reflexivity).
  rewrite forallb_forall in H. intros He%list_elem_of_In. specialize (H e He). intros E. destruct (arg e); [..|done]; by apply Z.ltb_lt.
Qed.

Lemma value_ok_typed nprocs gkf e v t : 0 < nprocs * 2 < 2 ^ 31 -> e ∈ glo_entries -> value_ok nprocs gkf e v -> type_of (arg_data e) = Some t -> has_type t v.
Proof.
  intros Hp He Hv Ht. pose proof (proj1 (Forall_forall _ _) glo_entries_ok e He) as Ho. destruct (eo_type _ Ho) as (t' & Ht' & Hw). rewrite Ht in Ht'. injection Ht' as <-.
  pose proof (glo_entries_wide e He) as Hwide. pose proof (eo_width _ Ho) as H32. pose proof (multiplier_pos e). pose proof (eo_limits _ Ho) as Hlim. pose proof (eo_pre _ Ho) as Hpre.
  unfold value_ok, width_ok in *. destruct (arg e) eqn:Ea; [..|by destruct t; subst v].
  all: destruct Hv as (r & -> & Hr); specialize (Hwide ltac:(discriminate)); specialize (Hlim ltac:(discriminate)).
  - specialize (H32 eq_refl). assert (0 <= r * multiplier e < 2 ^ 31) by (destruct Hr as [[? _]|(Hf & _ & ->)]; [nia|destruct (Hpre Hf) as [_ ->]; lia]).
    destruct t; try discriminate Hw; cbn; lia.
  - assert (0 <= r * multiplier e < 2 ^ 63) by (destruct Hr as [[? _]|(Hf & _ & ->)]; [nia|by destruct (Hpre Hf)]).
    destruct t; try discriminate Hw; cbn; lia.
Qed.

Lemma well_typed_insert vs x v : well_typed vs -> (forall t, type_of x = Some t -> has_type t v) -> well_typed (<[x := v]> vs).
Proof. intros Hvs Hv y t w Ht Hl. apply lookup_insert_Some in Hl as [[<- <-]|[_ Hl]]; [by apply Hv|by apply (Hvs y t w)]. Qed.

Lemma ending_bind_inv {A B} (x : ending A) (f : A -> ending B) y : (x ≫= f) = Done y -> exists a, x = Done a /\ f a = Done y.
Proof. destruct x as [| |a]; [done|done|]. intros H. by exists a. Qed.

Lemma run_post_variables setrlimit f e p p' : run_post setrlimit f e p = Done p' -> variables p' = variables p.
Proof.
  destruct f; cbn [run_post].
  - unfold post_variable_core_dump_file_size. destruct (int_at _ _); [|done]. destruct (setrlimit _); [|done]. by intros [= <-].
  - by intros [= <-].
  - unfold init_glomysrvs. destruct (int_at _ _); [|done]. by intros [= <-].
Qed.

Lemma process_entries_typed nprocs setrlimit gkf es : 0 < nprocs * 2 < 2 ^ 31 -> (forall e, e ∈ es -> e ∈ glo_entries) -> forall p p',
  process_entries nprocs setrlimit gkf 0 es p = Done p' -> well_typed (variables p) ->
  well_typed (variables p') /\ (forall e, e ∈ es -> is_Some (variables p' !! arg_data e)) /\ (forall x, is_Some (variables p !! x) -> is_Some (variables p' !! x)).
Proof.
  intros Hp. induction es as [|e es IH]; intros Hin p p' Hrun Ht; cbn [process_entries] in Hrun; [injection Hrun as <-; split_and!; [done|set_solver|done]|].
  assert (e ∈ glo_entries) as He by (apply Hin; left). pose proof (proj1 (Forall_forall _ _) glo_entries_ok e He) as Ho.
  pose proof (eo_dynamic _ Ho). rewrite (proj2 (Z.ltb_ge _ _)) in Hrun by lia. apply ending_bind_inv in Hrun as (p1 & H1 & Hrun).
  destruct (process_variable_post nprocs setrlimit gkf Hp e p Ho) as (v & Hv & Hok & _). rewrite Hv in H1.
  assert (variables p1 = <[arg_data e := v]> (variables p)) as E1.
  { destruct (func_post e); [by apply run_post_variables in H1|by injection H1 as <-]. }
  destruct (IH ltac:(intros; apply Hin; by right) p1 p' Hrun) as (T & S & K).
  { rewrite E1. apply well_typed_insert; [done|]. intros t Hty. by eapply value_ok_typed. }
  assert (forall x, is_Some (variables p !! x) \/ x = arg_data e -> is_Some (variables p' !! x)) as Hk.
  { intros x Hx. apply K. rewrite E1. destruct (decide (x = arg_data e)) as [->|Hne]; [rewrite lookup_insert_eq; by eexists|].
    rewrite lookup_insert_ne by done. by destruct Hx. }
  split_and!; [done| |by auto]. intros e2 [->|H2]%elem_of_cons; [by apply Hk; right|by apply S].
Qed.

Lemma load_users_variables gkf us : forall p p', load_users gkf us p = Done p' -> variables p' = variables p.
Proof.
  induction us as [|u us IH]; intros p p' H; cbn [load_users] in H; [by injection H as <-|]. destruct (get_string gkf "mysql users" u); [|done]. by apply IH in H.
Qed.

Lemma load_lists_variables answer gkf p p' :
  (p ← load_mysql_servers_list_from_file answer gkf p; load_mysql_users_from_file gkf p) = Done p' -> variables p' = variables p.
Proof.
  intros H. apply ending_bind_inv in H as (p1 & H1 & H2). transitivity (variables p1).
  - unfold load_mysql_users_from_file in H2. destruct (get_keys gkf "mysql users"); [done|]. by apply load_users_variables in H2.
  - unfold load_mysql_servers_list_from_file in H1. destruct (has_key gkf "mysql" "mysql_servers"); [|done].
    apply ending_bind_inv in H1 as (g & _ & H1). injection H1 as <-. by destruct (_ && _).
Qed.

Lemma limit_purge_loop_typed p p' : limit_purge_loop p = Done p' -> well_typed (variables p) ->
  well_typed (variables p') /\ forall x, is_Some (variables p !! x) -> is_Some (variables p' !! x).
Proof.
  unfold limit_purge_loop, int_at. intros H Ht. destruct (variables p !! "fdb_system_var.hash_purge_loop"%string) as [[l|]|]; [|done..].
  destruct (variables p !! "fdb_system_var.hash_purge_time"%string) as [[z|]|] eqn:Ez; [|done..].
  destruct (z <? l); apply (f_equal (fun r => match r with Done q => variables q | _ => ∅ end)) in H; cbn in H; rewrite <- H; [|done]. split.
  - apply well_typed_insert; [done|]. intros t E. apply (Ht _ t _) in Ez; [done|]. rewrite <- E. vm_compute. reflexivity.
  - intros x Hx. by apply lookup_insert_is_Some'; right.
Qed.

Lemma fixed_variables_typed p : well_typed (variables p) -> well_typed (variables (fixed_variables p)).
Proof.
  intros Ht. unfold fixed_variables, set_var. cbn [variables].
  repeat (apply well_typed_insert; [|intros t Hty; vm_compute in Hty; discriminate Hty]). exact Ht.
Qed.

Lemma table_typed nprocs setrlimit gkf p p' : 0 < nprocs * 2 < 2 ^ 31 -> process_global_variables_from_file nprocs setrlimit gkf 0 p = Done p' ->
  well_typed (variables p) -> well_typed (variables p') /\ forall e, e ∈ glo_entries -> is_Some (variables p' !! arg_data e).
Proof.
  unfold process_global_variables_from_file. generalize (fun (e : global_variable_entry_t) (He : e ∈ glo_entries) => He). generalize glo_entries at 1 3 4.
  intros es Hes Hp H Ht. destruct (process_entries_typed nprocs setrlimit gkf es Hp Hes p p' H Ht) as (? & ? & _). done.
Qed.

Lemma start_typed (first : bool) p r : well_typed (variables p) -> well_typed (variables (if first then (fixed_variables p) <| p_rules := r |> else p)).
Proof. intros Ht. destruct first; [|done]. apply fixed_variables_typed in Ht. revert Ht. by generalize (fixed_variables p). Qed.

(** C32: The configuration keeps the C types of the variables.  Whatever the configuration file holds, at the start and at every reload: when [init_global_variables] comes back, every variable of the table that is set
    holds a value of the C type it is declared with (an [int] within 32 bits and its sign, an unsigned one not negative, an eight byte integer within 64 bits, a string where a string belongs), if that was so before;
    and when the file was read, every variable of the table is set.  Twice the number of processors is a positive [int]. *)
Theorem configuration_well_typed nprocs setrlimit answer text gkf runtime p rc p' :
  0 < nprocs * 2 < 2 ^ 31 -> well_typed (variables p) ->
  init_global_variables nprocs setrlimit answer text gkf runtime p = Done (rc, p') ->
  well_typed (variables p') /\ (rc = 0 -> forall e, e ∈ glo_entries -> exists t v, type_of (arg_data e) = Some t /\ variables p' !! arg_data e = Some v /\ has_type t v).
Proof.
  intros Hp Ht Hrun. unfold init_global_variables in Hrun.
  destruct (has_group gkf "global"); cbn [negb] in Hrun; [|destruct (runtime =? 0); [done|by injection Hrun as <- <-]].
  destruct (has_group gkf "mysql users"); cbn [negb] in Hrun; [|destruct (runtime =? 0); [done|by injection Hrun as <- <-]].
  apply ending_bind_inv in Hrun as (p1 & H1 & Hrun). apply ending_bind_inv in Hrun as (p2 & H2 & Hrun).
  apply ending_bind_inv in Hrun as (p3 & H3 & Hrun). apply ending_bind_inv in Hrun as (p4 & H4 & Hrun). injection Hrun as <- <-.
  assert (variables p1 = variables p) as E1.
  { unfold debug_section in H1. apply ending_bind_inv in H1 as (ls & _ & H1). by injection H1 as <-. }
  destruct (table_typed nprocs setrlimit gkf _ _ Hp H2) as (T2 & S2); [apply start_typed; by rewrite E1|].
  assert (variables p3 = variables p2) as E3 by (destruct (runtime =? 0); [by apply load_lists_variables in H3|by injection H3 as <-]).
  destruct (limit_purge_loop_typed p3 p4 H4) as [T4 K4]; [by rewrite E3|]. split; [done|]. intros _ e He.
  destruct (K4 (arg_data e)) as [v Hv]; [rewrite E3; by apply S2|].
  destruct (eo_type _ (proj1 (Forall_forall _ _) glo_entries_ok e He)) as (t & Hty & _). exists t, v. split_and!; [done|done|]. by apply (T4 (arg_data e)).
Qed.

Lemma configuration_well_typed_witness : exists p',
  init_global_variables 4 (fun _ => true) sample_probe (fun _ => None) (sample_keyfile (-5)) 0 no_process = Done (0, p') /\ well_typed (variables p').
Proof.
  destruct (start_spec 4 (fun _ => true) sample_probe (fun _ => None) (sample_keyfile (-5)) no_process) as (p' & n & l & t & Hrun & _).
  - lia.
  - reflexivity.
  - intros a pt. exists 1. reflexivity.
  - repeat constructor; apply (bool_decide_eq_true_1 _); vm_compute; reflexivity.
  - intros _. constructor.
  - split; try reflexivity; [discriminate|]. intros u _. eexists. reflexivity.
  - exists p'. split; [exact Hrun|].
    apply (configuration_well_typed 4 (fun _ => true) sample_probe (fun _ => None) (sample_keyfile (-5)) 0 no_process 0 p').
    + lia.
    + intros x t' v _ H. change (variables no_process) with (∅ : gmap string gval) in H. by rewrite lookup_empty in H.
    + exact Hrun.
Defined.

(** The first start ends with a failure exactly when the file lacks one of the sections [global] and [mysql users],
    does not name the servers, has no user, or has a user without a readable password; in every other case the
    process comes up. *)
Theorem startup_refused nprocs setrlimit answer text gkf p :
  0 < nprocs * 2 < 2 ^ 31 -> setrlimit (core_dump_file_size gkf) = true ->
  (forall a pt, exists ro, mysql_check_alive_and_read_only (answer a pt) = Done ro) ->
  Forall (fun e => Byte.x00 ∉ e) (get_string_list gkf "mysql" "mysql_servers") ->
  (has_group gkf "debug" = true -> Forall (fun l => is_Some (text (name l))) (gdbg_lvl p)) ->
  (init_global_variables nprocs setrlimit answer text gkf 0 p = Exit <-> ~ usable gkf) /\
  (usable gkf -> exists p', init_global_variables nprocs setrlimit answer text gkf 0 p = Done (0, p')).
Proof.
  intros Hp Hl Hpr Hli Hd. split.
  2: { intros Hus. destruct (start_spec nprocs setrlimit answer text gkf p Hp Hl Hpr Hli Hd Hus) as (p' & n & l & t & Hrun & _). eauto. }
  split.
  - intros He Hus. destruct (start_spec nprocs setrlimit answer text gkf p Hp Hl Hpr Hli Hd Hus) as (p' & n & l & t & Hrun & _). by rewrite Hrun in He.
  - intros Hn.
    destruct (has_group gkf "global") eqn:E1; [|unfold init_global_variables; by rewrite E1].
    destruct (has_group gkf "mysql users") eqn:E2; [|unfold init_global_variables; by rewrite E1, E2].
    destruct (start_prefix nprocs setrlimit answer text gkf p Hp Hl Hd E1 E2) as (p1 & _ & Hr & _ & _ & _ & ->).
    destruct (has_key gkf "mysql" "mysql_servers") eqn:E3; [|by unfold load_mysql_servers_list_from_file; rewrite E3].
    destruct (load_servers_list_spec answer gkf Hpr Hli p1 Hr E3) as (g & ro & -> & _). rewrite done_bind.
    unfold load_mysql_users_from_file. destruct (get_keys gkf "mysql users") as [|k ks] eqn:E4; [done|].
    assert (forall us q, Exists (fun u => get_string gkf "mysql users" u = None) us -> load_users gkf us q = Exit) as Hex.
    { induction us as [|u us IH]; intros q H; [by apply Exists_nil in H|]. cbn [load_users].
      destruct (get_string gkf "mysql users" u) eqn:E; [|done]. apply IH. apply Exists_cons in H as [H|H]; [congruence|done]. }
    rewrite Hex; [done|]. destruct (decide (Exists (fun u => get_string gkf "mysql users" u = None) (k :: ks))) as [H|H]; [done|].
    destruct Hn. split; try done; [by rewrite E4|]. rewrite E4. intros u Hu. destruct (get_string gkf "mysql users" u) eqn:E; [eauto|].
    destruct H. apply Exists_exists. eauto.
Qed.

Definition without_servers : GKeyFile := mkKeyFile (fun _ => true) (fun _ _ => false) (fun _ _ => 0) (fun _ _ => Some []) (fun _ => ["bob"%string]) (fun _ _ => []).

Lemma startup_refused_witness :
  init_global_variables 4 (fun _ => true) sample_probe (fun _ => None) without_servers 0 no_process = Exit.
Proof.
  apply (startup_refused 4 (fun _ => true) sample_probe (fun _ => None) without_servers no_process).
  - lia.
  - done.
  - intros a pt. exists 1. reflexivity.
  - constructor.
  - intros _. constructor.
  - intros [_ _ H _ _]. discriminate H.
Defined.

(** Reloading the configuration file of a running process reads the table from its first entry, the variables that
    are not [dynamic] included, and so runs the functions of the table again: whatever servers, host groups, registered
    connections and idle connections the process had are forgotten, and the users stay. *)
Theorem reload_forgets_servers nprocs setrlimit answer text gkf p :
  0 < nprocs * 2 < 2 ^ 31 -> setrlimit (core_dump_file_size gkf) = true ->
  (has_group gkf "debug" = true -> Forall (fun l => is_Some (text (name l))) (gdbg_lvl p)) ->
  has_group gkf "global" = true -> has_group gkf "mysql users" = true ->
  exists p' n, sighup_handler nprocs setrlimit answer text gkf p = Done p' /\ 2 <= n <= 64 /\
    int_at (variables p') "glovars.mysql_hostgroups" = Some n /\
    p_servers p' = mkGMS [] (replicate (Z.to_nat n) []) /\ p_reg p' = mkReg [] 0 /\ p_connpools p' = [] /\
    p_usernames p' = p_usernames p.
Proof.
  intros Hp Hl Hd E1 E2. unfold sighup_handler, init_global_variables. rewrite E1, E2. cbn [negb].
  destruct (debug_section_spec gkf text p Hd) as [ls ->]. rewrite done_bind. change (1 =? 0) with false.
  destruct (process_table_spec nprocs setrlimit gkf Hp Hl (p <| gdbg_lvl := ls |>)) as (p1 & -> & Hs & Hall & _ & Hr & Hc).
  rewrite !done_bind. destruct (loaded_purge nprocs gkf p1 Hall) as (l & t & Hlo & Hti).
  destruct (limit_purge_loop_spec p1 l t Hlo Hti) as (p4 & -> & Hv4 & _ & Hs4). rewrite !done_bind.
  destruct Hr as (n & Hn & Hsv & Hreg). exists p4, n. split; [done|].
  destruct (loaded_int nprocs gkf (variables p1) "glovars.mysql_hostgroups" _ Hall ltac:(vm_compute; reflexivity) ltac:(discriminate) ltac:(reflexivity)) as (r & Er & Rr).
  rewrite Hn in Er. cbn in Er, Rr. split; [assert (n = r * 1) by congruence; lia|].
  split; [unfold int_at in *; by rewrite Hv4|]. rewrite Hs4. split; [exact Hsv|]. split; [exact Hreg|]. split; [exact Hc|].
  destruct Hs as (_ & _ & Hu & _). exact Hu.
Qed.

Definition running : process := no_process <| p_servers := mkGMS [mkServer (c_lit "db1") 3306 0 ONLINE 0 0] [[]; []] |>.

Lemma reload_forgets_servers_witness : servers (p_servers running) <> [] /\ exists p',
  sighup_handler 4 (fun _ => true) sample_probe (fun _ => None) (sample_keyfile 5) running = Done p' /\ servers (p_servers p') = [].
Proof.
  split; [discriminate|].
  destruct (reload_forgets_servers 4 (fun _ => true) sample_probe (fun _ => None) (sample_keyfile 5) running)
    as (p' & n & Hrun & _ & _ & Hs & _).
  - lia.
  - done.
  - intros _. constructor.
  - reflexivity.
  - reflexivity.
  - exists p'. split; [exact Hrun|]. by rewrite Hs.
Defined.

(** ** The levels of the debug messages *)

Definition level_ok (l : debug_level) : Prop :=
  0 <= module l < 2 ^ 32 /\ - 2 ^ 31 <= verbosity l < 2 ^ 31 /\ 0 <= name l < 2 ^ 64.

Lemma level_bytes_length l : length (level_bytes l) = 16%nat.
Proof. unfold level_bytes. rewrite !length_app, !length_le_split. done. Qed.

Lemma level_roundtrip l rest : level_ok l -> level_of_bytes (level_bytes l ++ rest) = l.
Proof.
  intros (Hm & Hv & Hn). unfold level_of_bytes, level_bytes. destruct l as [m v nm]. cbn [module verbosity name] in *.
  assert (forall (a b c r : list byte), length a = 4%nat -> length b = 4%nat -> length c = 8%nat ->
    take 4 ((a ++ b ++ c) ++ r) = a /\ take 4 (drop 4 ((a ++ b ++ c) ++ r)) = b /\ take 8 (drop 8 ((a ++ b ++ c) ++ r)) = c) as Hcut.
  { intros a b c r Ha Hb Hc. do 4 (destruct a as [|? a]; [done|]). destruct a; [|done].
    do 4 (destruct b as [|? b]; [done|]). destruct b; [|done]. cbn. split; [done|]. split; [done|].
    rewrite (take_app_length' c r) by done. done. }
  destruct (Hcut (le_split 4 m) (le_split 4 v) (le_split 8 nm) rest) as (-> & -> & ->); [apply length_le_split..|].
  rewrite !le_combine_split. f_equal.
  - apply Z.mod_small. cbn. lia.
  - unfold swrap. change (2 ^ (Z.of_nat 4 * 8)) with (2 ^ 32). rewrite Zplus_mod_idemp_l. fold (swrap 32 v). apply swrap_small; cbn; lia.
  - apply Z.mod_small. cbn. lia.
Qed.

Lemma levels_step (b r : list byte) n : length b = 16%nat ->
  levels_of_bytes (S n) (b ++ r) = level_of_bytes (b ++ r) :: levels_of_bytes n r.
Proof. intros Hb. cbn [levels_of_bytes]. by rewrite (drop_app_length' b r). Qed.

Lemma levels_roundtrip ls : Forall level_ok ls -> levels_of_bytes (length ls) (mjoin (level_bytes <$> ls)) = ls.
Proof.
  induction 1 as [|l ls Hl _ IH]; [done|]. rewrite fmap_cons, mjoin_cons. cbn [length]. rewrite levels_step by apply level_bytes_length.
  by rewrite level_roundtrip, IH.
Qed.

Lemma high_half nm : 0 <= nm < 2 ^ 64 -> le_combine (replicate 4 Byte.x00 ++ drop 4 (le_split 8 nm)) = nm / 2 ^ 32 * 2 ^ 32.
Proof.
  intros Hn. rewrite le_combine_app. change (le_combine (replicate 4 Byte.x00)) with 0. rewrite Z.lor_0_l.
  assert (le_combine (drop 4 (le_split 8 nm)) = nm / 2 ^ 32) as ->.
  2: { rewrite Z.shiftl_mul_pow2 by (cbn; lia). reflexivity. }
  change (drop 4 (le_split 8 nm)) with (List.skipn 4 (le_split (4 + 4) nm)). rewrite skipn_le_split', le_combine_split.
  rewrite Z.shiftr_div_pow2 by lia. apply Z.mod_small. change (8 * Z.of_nat 4) with 32. change (2 ^ (Z.of_nat 4 * 8)) with (2 ^ 32).
  split; [apply Z.div_pos; lia|apply Z.div_lt_upper_bound; lia].
Qed.

(** Without a section [debug] in the configuration file the debug levels are cleared with the size of fifteen [int]s instead of
    fifteen levels: the levels of the modules from [PROXY_DEBUG_MYSQL_COM] on keep their value, the names of the first three modules become NULL
    and the name of the fourth loses the lower half of its address. *)
Theorem missing_debug_section_damages_levels gkf text p l0 l1 l2 l3 rest :
  has_group gkf "debug" = false -> gdbg_lvl p = l0 :: l1 :: l2 :: l3 :: rest -> length (gdbg_lvl p) = PROXY_DEBUG_UNKNOWN ->
  Forall level_ok (gdbg_lvl p) ->
  exists p', debug_section text gkf p = Done p' /\
    gdbg_lvl p' = mkLevel 0 0 0 :: mkLevel 0 0 0 :: mkLevel 0 0 0 :: mkLevel 0 0 (name l3 / 2 ^ 32 * 2 ^ 32) :: rest.
Proof.
  intros Hg Hls Hlen Hok. unfold debug_section. rewrite Hg. eexists. split; [reflexivity|]. change (clear_levels (gdbg_lvl p) =
    mkLevel 0 0 0 :: mkLevel 0 0 0 :: mkLevel 0 0 0 :: mkLevel 0 0 (name l3 / 2 ^ 32 * 2 ^ 32) :: rest).
  rewrite Hls in *. cbn [length] in Hlen. unfold PROXY_DEBUG_UNKNOWN in Hlen.
  repeat match goal with H : Forall _ (_ :: _) |- _ => apply Forall_cons in H as [? H] end.
  unfold clear_levels. rewrite !fmap_cons, !mjoin_cons. set (r := mjoin (level_bytes <$> rest)).
  assert (forall (b0 b1 b2 b3 : list byte), length b0 = 16%nat -> length b1 = 16%nat -> length b2 = 16%nat -> length b3 = 16%nat ->
    replicate 60 Byte.x00 ++ drop 60 (b0 ++ b1 ++ b2 ++ b3 ++ r) =
    replicate 16 Byte.x00 ++ replicate 16 Byte.x00 ++ replicate 16 Byte.x00 ++ (replicate 12 Byte.x00 ++ drop 12 b3) ++ r) as Hcut.
  { intros b0 b1 b2 b3 B0 B1 B2 B3.
    assert (drop 60 (b0 ++ b1 ++ b2 ++ b3 ++ r) = drop 12 b3 ++ r) as ->.
    { rewrite !drop_app_ge by lia. rewrite B0, B1, B2. rewrite drop_app_le by lia. reflexivity. }
    rewrite <- app_assoc, !(app_assoc (replicate _ _)), <- !replicate_add. reflexivity. }
  change (4 * PROXY_DEBUG_UNKNOWN)%nat with 60%nat. rewrite Hcut by apply level_bytes_length.
  assert (length (replicate 12 Byte.x00 ++ drop 12 (level_bytes l3)) = 16%nat) as Hl3
    by (rewrite length_app, length_replicate, length_drop, level_bytes_length; done).
  cbn [length]. rewrite !levels_step by (try apply length_replicate; exact Hl3). subst r.
  rewrite levels_roundtrip by done.
  assert (level_of_bytes ((replicate 12 Byte.x00 ++ drop 12 (level_bytes l3)) ++ mjoin (level_bytes <$> rest)) =
          mkLevel 0 0 (name l3 / 2 ^ 32 * 2 ^ 32)) as ->; [|reflexivity].
  assert (drop 12 (level_bytes l3) = drop 4 (le_split 8 (name l3))) as ->.
  { unfold level_bytes. rewrite app_assoc, drop_app_ge by (rewrite length_app, !length_le_split; lia).
    by rewrite length_app, !length_le_split. }
  unfold level_of_bytes. f_equal.
  rewrite <- (high_half (name l3)) by (match goal with H : level_ok l3 |- _ => destruct H as (_ & _ & ?) end; lia).
  f_equal.
Qed.

Definition sample_levels : list debug_level := imap (fun i _ => mkLevel (Z.of_nat i) 7 (2 ^ 47 + 16 * Z.of_nat i)) debug_names.

Lemma missing_debug_section_damages_levels_witness : exists p',
  debug_section (fun _ => None) (mkKeyFile (fun _ => false) (fun _ _ => false) (fun _ _ => 0) (fun _ _ => None) (fun _ => []) (fun _ _ => []))
    (no_process <| gdbg_lvl := sample_levels |>) = Done p' /\
  verbosity <$> gdbg_lvl p' = [0; 0; 0; 0; 7; 7; 7; 7; 7; 7; 7; 7; 7; 7; 7].
Proof.
  destruct (missing_debug_section_damages_levels
    (mkKeyFile (fun _ => false) (fun _ _ => false) (fun _ _ => 0) (fun _ _ => None) (fun _ => []) (fun _ _ => [])) (fun _ => None)
    (no_process <| gdbg_lvl := sample_levels |>) (mkLevel 0 7 (2 ^ 47)) (mkLevel 1 7 (2 ^ 47 + 16)) (mkLevel 2 7 (2 ^ 47 + 32))
    (mkLevel 3 7 (2 ^ 47 + 48)) (drop 4 sample_levels)) as (p' & Hrun & Hl).
  - reflexivity.
  - reflexivity.
  - reflexivity.
  - repeat constructor; cbn; lia.
  - exists p'. split; [exact Hrun|]. rewrite Hl. reflexivity.
Defined.
