(* ===== verification/Config.v ===== *)
(** * Configuration in SQLite: src/admin_sqlite.c

    The administrator keeps the configuration in tables of a SQLite database; these functions move it between the tables
    and the memory of the process.  SQLite is not modelled: the rows of a [SELECT] are an argument of the function that reads them, and
    the rows that a function inserts are part of its result.  A text column is the C string that [sqlite3_column_text] points to ([None]
    is NULL), an integer column the value of [sqlite3_column_int].

    The servers are a small heap: a [mysql_server *] is the index of the server in [glomysrvs.servers], which never shrinks, and
    the array [glomysrvs.mysql_hostgroups] holds the addresses of the arrays of the host groups, so that an update of a server is
    seen through all entries that point to it and an array that is entered twice is shared.  [None] is an access outside of an
    array or a value outside of an enumeration. *)
From S2P Require Import Prelude PtrArray Protocol Tokenizer GlobalVars Routing.
Open Scope Z_scope.

(** ** Users *)

(** [glovars.mysql_users_name], [mysql_users_pass] and [usernames]; a password may be NULL. *)
Record users_t := mkUsersMem {
  users_name : list (list byte); users_pass : list (option (list byte)); users_hash : gmap (list byte) (option (list byte)) }.
#[export] Instance users_eta : Eta users_t := fun u => mkUsersMem (users_name u) (users_pass u) (users_hash u).

(** [while (names->len) { p=g_ptr_array_remove_index_fast(names,0); g_hash_table_remove(usernames,p); g_free(p); }]. *)
Fixpoint remove_users (fuel : nat) (u : users_t) : users_t :=
  match fuel, g_remove_first_fast (users_name u) with
  | S fuel', Some (p, rest) => remove_users fuel' (u <| users_name := rest |> <| users_hash := delete p (users_hash u) |>)
  | _, _ => u
  end.

Definition add_user (u : users_t) (row : list byte * option (list byte)) : users_t :=
  u <| users_name := users_name u ++ [row.1] |> <| users_pass := users_pass u ++ [row.2] |>
    <| users_hash := <[row.1 := row.2]> (users_hash u) |>.

(** [rows]: username and password of the active users, [None] when the statement cannot be prepared. *)
Definition sqlite3_flush_users_db_to_mem (rows : option (list (list byte * option (list byte)))) (u : users_t) : Z * users_t :=
  match rows with
  | None => (0, u)
  | Some rows =>
      let u := remove_users (length (users_name u)) u in
      let u := u <| users_pass := (g_drain (length (users_pass u)) (users_pass u)).2 |> in
      (Z.of_nat (length rows), foldl add_user u rows)
  end.

(** What the authentication sees: [g_hash_table_lookup] answers NULL for a user without a password. *)
Definition known_users (u : users_t) : gmap (list byte) (list byte) := omap id (users_hash u).

(** The statement for one user: [sprintf] into a block of the length of the format and of the two strings. *)
Definition c_quote : list byte := [Byte.x22].
Definition users_format (replace : bool) : list byte * list byte :=
  ((if replace then c_lit "REPLACE" else c_lit "INSERT OR IGNORE") ++ c_lit " INTO users(username,password,active) VALUES(" ++ c_quote,
   c_quote ++ c_lit ",").
Definition user_statement (replace : bool) (active : Z) (name pass : list byte) : list byte :=
  let '(pre, mid) := users_format replace in pre ++ name ++ mid ++ c_quote ++ pass ++ mid ++ c_dec active ++ c_lit ")".
(** [strlen(a)]: the format has two more [%s] and one [%d]. *)
Definition users_format_length (replace : bool) : nat := (length (user_statement replace 0 [] []) - 1 + 6)%nat.

Fixpoint users_mem_to_db (replace : bool) (active : Z) (names : list (list byte)) (passes : list (option (list byte))) : option (list (list byte)) :=
  match names, passes with
  | [], _ => Some []
  | n :: names', Some p :: passes' =>
      let st := user_statement replace active n p in
      if decide (S (length st) <= users_format_length replace + length n + length p)%nat
      then rest ← users_mem_to_db replace active names' passes'; Some (st :: rest)
      else None
  | _, _ => None
  end.

Definition sqlite3_flush_users_mem_to_db (replace : Z) (active : Z) (u : users_t) : option (list (list byte)) :=
  users_mem_to_db (negb (replace =? 0)) active (users_name u) (users_pass u).

(** ** Default host groups *)

Definition sqlite3_flush_default_hostgroups_db_to_mem (junk : nat -> option (list byte))
    (rows : list (option (list byte) * option (list byte) * Z)) (g : DefHG.global_default_hostgroups_t)
  : Z * DefHG.global_default_hostgroups_t :=
  let g := (DefHG.delete_all g).2 in
  let g := foldl (fun g '(i, (u, s, hg)) => DefHG.add_defHG (junk i) g u s hg) g (imap pair rows) in
  (Z.of_nat (length rows), DefHG.mkGDH (i32 (DefHG.version g + 1)) (DefHG.default_hostgroups g)).

(** [sqlite3_dump_runtime_default_hostgroups]: the rows inserted; the parameter 1 is bound twice, the parameter 2 never. *)
Definition dump_default_hostgroup (d : DefHG.default_hostgroup_t) : option (list byte) * option (list byte) * Z :=
  let p1 := DefHG.username d in
  let p1 := DefHG.schemaname d in
  (p1, None, DefHG.hostgroup_id d).

Definition sqlite3_dump_runtime_default_hostgroups (g : DefHG.global_default_hostgroups_t)
  : Z * list (option (list byte) * option (list byte) * Z) :=
  let rows := dump_default_hostgroup <$> DefHG.default_hostgroups g in (Z.of_nat (length rows), rows).

(** ** Query rules *)

Record rule_row := mkRuleRow {
  q_rule_id : Z; q_flagIN : Z; q_username : option (list byte); q_schemaname : option (list byte); q_match_pattern : list byte;
  q_negate_match_pattern : Z; q_flagOUT : Z; q_replace_pattern : option (list byte); q_destination_hostgroup : Z; q_audit_log : Z;
  q_performance_log : Z; q_cache_tag : Z; q_invalidate_cache_tag : Z; q_invalidate_cache_pattern : option (list byte); q_cache_ttl : Z }.

Definition not_negative (z : Z) : Z := if z <? 0 then 0 else z.
Definition zero_or_one (z : Z) : Z := if (z <? 0) || (1 <? z) then (if z <? 0 then 0 else 1) else z.

(** The rule of a row, with the sanity checks. *)
Definition rule_of_row (r : rule_row) : query_rule_t :=
  let negate := q_negate_match_pattern r in
  let negate := if 1 <? negate then 1 else negate in
  let negate := if negate <? 0 then 0 else negate in
  let ttl := q_cache_ttl r in
  mkRule (q_rule_id r) (not_negative (q_flagIN r)) (q_username r) (q_schemaname r) (q_match_pattern r) negate
    (not_negative (q_flagOUT r)) (q_replace_pattern r) (not_negative (q_destination_hostgroup r)) (zero_or_one (q_audit_log r))
    (zero_or_one (q_performance_log r)) (not_negative (q_cache_tag r)) (not_negative (q_invalidate_cache_tag r))
    (q_invalidate_cache_pattern r) (if ttl <? -1 then -1 else ttl) 0.

Fixpoint load_rules (mysql_hostgroups : Z) (rows : list rule_row) (rules : list query_rule_t) : Z * list query_rule_t :=
  match rows with
  | [] => (0, rules)
  | r :: rows' =>
      let qr := rule_of_row r in
      if rdestination_hostgroup qr <? mysql_hostgroups then
        let '(n, rules) := load_rules mysql_hostgroups rows' (rules ++ [qr]) in (n + 1, rules)
      else load_rules mysql_hostgroups rows' rules
  end.

(** The rules of a new database. *)
Definition default_rules (default_timeout : Z) : list rule_row :=
  [mkRuleRow 10 0 None None (c_lit "^SELECT") 1 0 None 0 0 0 0 0 None (-1);
   mkRuleRow 20 0 None None (c_lit "\s+FOR\s+UPDATE\s*$") 0 0 None 0 0 0 0 0 None (-1);
   mkRuleRow 10000 0 None None (c_lit ".*") 0 0 None 1 0 0 0 0 None default_timeout].

(** [count]: the rows of the table; [select inserted]: its active rows by [rule_id] after the insertion of [inserted]. *)
Definition sqlite3_flush_query_rules_db_to_mem (mysql_hostgroups default_timeout count : Z) (select : list rule_row -> list rule_row)
    (gloQR : option (list query_rule_t)) : option (Z * list query_rule_t * list rule_row) :=
  let inserted := if count =? 0 then default_rules (i32 default_timeout) else [] in
  rules ← (reset_query_rules gloQR).2;
  let '(n, rules) := load_rules mysql_hostgroups (select inserted) rules in
  Some (n, rules, inserted).

(** [sqlite3_dump_runtime_query_rules]: the rows inserted, with the hits. *)
Definition row_of_rule (qr : query_rule_t) : Z * rule_row :=
  (i32 (hits qr),
   mkRuleRow (rule_id qr) (flagIN qr) (rusername qr) (rschemaname qr) (match_pattern qr) (negate_match_pattern qr) (rflagOUT qr)
     (replace_pattern qr) (rdestination_hostgroup qr) (raudit_log qr) (rperformance_log qr) (rcache_tag qr)
     (rinvalidate_cache_tag qr) (rinvalidate_cache_pattern qr) (rcache_ttl qr)).

Definition sqlite3_dump_runtime_query_rules (rules : list query_rule_t) : Z * list (Z * rule_row) :=
  (Z.of_nat (length rules), row_of_rule <$> rules).

(** ** Servers and host groups *)

(** An entry of a host group: the server it points to and its four counters. *)
Record mshge_t := mkEntryRef { ms_ptr : nat; ms_created : Z; ms_active : Z; ms_recv : Z; ms_sent : Z }.

Record server_heap := mkHeap {
  h_servers : list mysql_server;         (* glomysrvs.servers *)
  h_arrays : list (list mshge_t);        (* the GPtrArrays of the host groups *)
  h_hostgroups : list nat }.             (* glomysrvs.mysql_hostgroups *)
#[export] Instance heap_eta : Eta server_heap := fun h => mkHeap (h_servers h) (h_arrays h) (h_hostgroups h).

(** Emptying the host groups from [i] on; the entries are freed, and each array is entered once more at the end. *)
Fixpoint reset_hostgroups (n i : nat) (h : server_heap) : option (list mshge_t * server_heap) :=
  match n with
  | O => Some ([], h)
  | S n' =>
      a ← h_hostgroups h !! i;
      sl ← h_arrays h !! a;
      let '(freed, rest) := g_drain (length sl) sl in
      '(freed', h) ← reset_hostgroups n' (S i) (h <| h_arrays := <[a := rest]> (h_arrays h) |> <| h_hostgroups := h_hostgroups h ++ [a] |>);
      Some (freed ++ freed', h)
  end.

Fixpoint find_server_index (l : list mysql_server) (addr : list byte) (p : Z) : option nat :=
  match l with
  | [] => None
  | ms :: l' => if (port ms =? p) && (strcmp (address ms) addr =? 0) then Some 0%nat else S <$> find_server_index l' addr p
  end.

#[export] Instance mysql_server_status_eq_decision : EqDecision mysql_server_status.
Proof. solve_decision. Defined.

(** [enum mysql_server_status status=sqlite3_column_int(...)]. *)
Definition status_of (z : Z) : option mysql_server_status :=
  if z =? 0 then Some OFFLINE_HARD else if z =? 1 then Some OFFLINE_SOFT else if z =? 2 then Some SHUNNED else
  if z =? 3 then Some ONLINE else None.

Definition entry_add_hostgroup (mysql_hostgroups : Z) (ms : nat) (hostgroup_id : Z) (h : server_heap) : option server_heap :=
  if mysql_hostgroups <=? hostgroup_id then Some h else
  if hostgroup_id <? 0 then None else
  a ← h_hostgroups h !! Z.to_nat hostgroup_id;
  sl ← h_arrays h !! a;
  Some (h <| h_arrays := <[a := sl ++ [mkEntryRef ms 0 0 0 0]]> (h_arrays h) |>).

Record server_row := mkServerRow { s_hostgroup_id : Z; s_hostname : list byte; s_port : Z; s_read_only : Z; s_status : Z }.

(** The server of a row is created, or updated where it is. *)
Definition upsert (r : server_row) (st : mysql_server_status) (h : server_heap) : option (nat * server_heap) :=
  match find_server_index (h_servers h) (s_hostname r) (u16 (s_port r)) with
  | None => Some (length (h_servers h), h <| h_servers := h_servers h ++ [mysql_server_entry_create (s_hostname r) (u16 (s_port r)) (s_read_only r) st] |>)
  | Some i =>
      ms ← h_servers h !! i;
      Some (i, h <| h_servers := <[i := mkServer (address ms) (port ms) (s_read_only r) st (connections ms) (alive ms)]> (h_servers h) |>)
  end.

Definition load_server_row (mysql_hostgroups : Z) (r : server_row) (h : server_heap) : option server_heap :=
  st ← status_of (s_status r);
  '(ms, h) ← upsert r st h;
  match st with ONLINE => entry_add_hostgroup mysql_hostgroups ms (s_hostgroup_id r) h | _ => Some h end.

Fixpoint load_server_rows (mysql_hostgroups : Z) (rows : list server_row) (h : server_heap) : option server_heap :=
  match rows with
  | [] => Some h
  | r :: rows' => h ← load_server_row mysql_hostgroups r h; load_server_rows mysql_hostgroups rows' h
  end.

(** The number of rows, the entries that were freed, and the new state. *)
Definition sqlite3_flush_servers_db_to_mem (mysql_hostgroups : Z) (rows : list server_row) (h : server_heap)
  : option (Z * list mshge_t * server_heap) :=
  '(freed, h) ← reset_hostgroups (Z.to_nat mysql_hostgroups) 0 h;
  h ← load_server_rows mysql_hostgroups rows h;
  Some (Z.of_nat (length rows), freed, h).

(** What the other components see of the heap: the entries with the servers they point to. *)
Definition entry_view (l : list mysql_server) (e : mshge_t) : option MSHGE :=
  ms ← l !! ms_ptr e; Some (mkMSHGE ms (ms_created e) (ms_active e) (ms_recv e) (ms_sent e)).
Definition group_view (h : server_heap) (a : nat) : option (list MSHGE) :=
  sl ← h_arrays h !! a; mapM (entry_view (h_servers h)) sl.
Definition servers_view (h : server_heap) : option global_mysql_servers :=
  gs ← mapM (group_view h) (h_hostgroups h); Some (mkGMS (h_servers h) gs).

(** [sqlite3_flush_servers_mem_to_db]: the rows inserted into [server_status], [servers] and [hostgroups], each only when the table is empty. *)
Definition status_number (s : mysql_server_status) : Z :=
  match s with OFFLINE_HARD => 0 | OFFLINE_SOFT => 1 | SHUNNED => 2 | ONLINE => 3 end.
Definition worth_saving (ms : mysql_server) : bool :=
  (status_number (status ms) =? 3) && ((read_only ms =? 0) || (read_only ms =? 1)).
Definition servers_rows (l : list mysql_server) : list (list byte * Z * Z * Z) :=
  (fun ms => (address ms, port ms, read_only ms, status_number (status ms))) <$> List.filter worth_saving l.
Definition hostgroups_rows (l : list mysql_server) : list (Z * list byte * Z) :=
  mjoin ((fun ms => if status_number (status ms) =? 3 then
                      (if (read_only ms =? 0) || (read_only ms =? 1) then [(1, address ms, port ms)] else []) ++
                      (if read_only ms =? 0 then [(0, address ms, port ms)] else [])
                    else []) <$> l).
Definition server_status_rows : list (Z * list byte) :=
  [(0, c_lit "OFFLINE_HARD"); (1, c_lit "OFFLINE_SOFT"); (2, c_lit "SHUNNED"); (3, c_lit "ONLINE")].

Definition sqlite3_flush_servers_mem_to_db (count_status count_servers count_hostgroups : Z) (l : list mysql_server)
  : list (Z * list byte) * list (list byte * Z * Z * Z) * list (Z * list byte * Z) :=
  (if count_status =? 0 then server_status_rows else [],
   if count_servers =? 0 then servers_rows l else [],
   if count_hostgroups =? 0 then hostgroups_rows l else []).

(** ** Debug levels *)

(** [select m]: the values of [verbosity] for the module [m], [None] when the statement cannot be prepared. *)
Fixpoint debug_levels_db_to_mem (text : Z -> option string) (select : string -> option (list Z)) (rownum : Z) (done todo : list debug_level)
  : option (Z * list debug_level) :=
  match todo with
  | [] => Some (rownum, done)
  | l :: todo' =>
      m ← text (name l);
      match select m with
      | None => Some (0, done ++ todo)
      | Some vs =>
          debug_levels_db_to_mem text select (rownum + Z.of_nat (length vs))
            (done ++ [mkLevel (module l) (default (verbosity l) (last vs)) (name l)]) todo'
      end
  end.

Definition sqlite3_flush_debug_levels_db_to_mem (text : Z -> option string) (select : string -> option (list Z)) (ls : list debug_level)
  : option (Z * list debug_level) :=
  debug_levels_db_to_mem text select 0 [] ls.

Definition sqlite3_flush_debug_levels_mem_to_db (text : Z -> option string) (ls : list debug_level) : option (list (string * Z)) :=
  mapM (fun l => m ← text (name l); Some (m, verbosity l)) ls.

(** ** The reports of the running state *)

(** [sqlite3_dump_runtime_hostgroups]: [sprintf] of a row into a block; [None]: it does not fit. *)
Definition c_udec (z : Z) : list byte := dec_digits 20 z.

Definition hostgroup_statement (hg : Z) (e : MSHGE) : list byte :=
  c_lit "INSERT INTO runtime_hostgroups VALUES (" ++ c_dec hg ++ c_lit " ," ++ c_quote ++ address (MSptr e) ++ c_quote ++ c_lit ", " ++
  c_dec (port (MSptr e)) ++ c_lit ", " ++ c_udec (u64 (connections_active e)) ++ c_lit ", " ++ c_udec (u64 (connections_created e)) ++ c_lit ", " ++
  c_udec (sbytes_sent e) ++ c_lit ", " ++ c_udec (sbytes_recv e) ++ c_lit ")".
Definition server_statement (ms : mysql_server) : list byte :=
  c_lit "INSERT INTO runtime_servers VALUES (" ++ c_quote ++ address ms ++ c_quote ++ c_lit ", " ++ c_dec (port ms) ++ c_lit ", " ++
  c_dec (read_only ms) ++ c_lit ", " ++ c_dec (status_number (status ms)) ++ c_lit ")".
(** [strlen(query1)] and [strlen(query2)]. *)
Definition query1_length : nat := length (c_lit "INSERT INTO runtime_hostgroups VALUES (%d ,?%s?, %d, %llu, %llu, %llu, %llu)").
Definition query2_length : nat := length (c_lit "INSERT INTO runtime_servers VALUES (?%s?, %d, %d, %d)").

Definition dump_group (i : nat) (sl : list MSHGE) : option (list (list byte)) :=
  mapM (fun e => fits_block (query1_length + length (address (MSptr e)) + 14 + 80) (hostgroup_statement (Z.of_nat i) e)) sl.

Definition sqlite3_dump_runtime_hostgroups (mysql_hostgroups : Z) (g : global_mysql_servers) : option (Z * list (list byte)) :=
  gs ← mapM (fun i => sl ← hostgroups g !! i; dump_group i sl) (seq 0 (Z.to_nat mysql_hostgroups));
  ss ← mapM (fun ms => fits_block (query2_length + length (address ms) + 24) (server_statement ms)) (servers g);
  let rows := mjoin gs ++ ss in
  Some (Z.of_nat (length rows), rows).

(** * Properties *)

(** ** Users *)

(** Every name of the table is a name of the array, which is how [remove_users] finds it. *)
Definition users_ok (u : users_t) : Prop := forall k, is_Some (users_hash u !! k) -> k ∈ users_name u.

Lemma remove_users_spec fuel : forall u, (length (users_name u) <= fuel)%nat ->
  users_name (remove_users fuel u) = [] /\ users_pass (remove_users fuel u) = users_pass u /\
  forall k, users_hash (remove_users fuel u) !! k = if decide (k ∈ users_name u) then None else users_hash u !! k.
Proof.
  induction fuel as [|fuel IH]; intros u Hl.
  { destruct (users_name u) eqn:E; [|cbn in Hl; lia]. cbn. split; [done|]. split; [done|]. intros k. by destruct (decide (k ∈ [])); [set_solver|]. }
  cbn [remove_users]. destruct (g_remove_first_fast (users_name u)) as [[p rest]|] eqn:E.
  - pose proof (g_remove_first_fast_perm _ _ _ E) as Hp. pose proof (Permutation_length Hp) as Hlen. cbn in Hlen.
    destruct (IH (u <| users_name := rest |> <| users_hash := delete p (users_hash u) |>)) as (H1 & H2 & H3); [cbn; lia|].
    split; [exact H1|]. split; [exact H2|]. intros k. rewrite H3. cbn.
    destruct (decide (k ∈ rest)) as [Hk|Hk].
    + rewrite decide_True; [done|]. rewrite Hp. by right.
    + destruct (decide (k = p)) as [->|Hne].
      * rewrite lookup_delete_eq, decide_True; [done|]. rewrite Hp. by left.
      * rewrite lookup_delete_ne by done. rewrite decide_False; [done|]. rewrite Hp. by intros [?|?]%elem_of_cons.
  - destruct (users_name u) eqn:En; [|done]. split; [done|]. split; [done|]. intros k. by destruct (decide (k ∈ [])); [set_solver|].
Qed.

Lemma add_users_spec rows : forall u,
  users_name (foldl add_user u rows) = users_name u ++ rows.*1 /\ users_pass (foldl add_user u rows) = users_pass u ++ rows.*2 /\
  (NoDup rows.*1 -> forall k, users_hash (foldl add_user u rows) !! k =
     match List.find (fun r => bool_decide (r.1 = k)) rows with Some r => Some r.2 | None => users_hash u !! k end).
Proof.
  induction rows as [|[n p] rows IH]; intros u; [cbn; by rewrite !app_nil_r|].
  cbn [foldl]. destruct (IH (add_user u (n, p))) as (H1 & H2 & H3). rewrite H1, H2. cbn [users_name users_pass add_user upd users_eta fst snd].
  rewrite <- !app_assoc. split; [done|]. split; [done|]. rewrite fmap_cons, NoDup_cons. cbn [fst]. intros [Hn Hd] k. rewrite H3 by done. cbn [List.find].
  destruct (bool_decide_reflect ((n, p).1 = k)) as [E|E]; cbn [fst] in E.
  - subst k. destruct (List.find _ rows) as [r|] eqn:Ef.
    + apply find_some in Ef as [Hin Hb]. apply bool_decide_eq_true in Hb. destruct Hn. rewrite <- Hb. apply list_elem_of_fmap_2. by apply list_elem_of_In.
    + change (<[n := p]> (users_hash u) !! n = Some p). by rewrite lookup_insert_eq.
  - destruct (List.find _ rows); [done|]. change (<[n := p]> (users_hash u) !! k = users_hash u !! k). by rewrite lookup_insert_ne.
Qed.

Lemma find_key (rows : list (list byte * option (list byte))) k p : NoDup rows.*1 ->
  (exists r, List.find (fun r => bool_decide (r.1 = k)) rows = Some r /\ r.2 = p) <-> (k, p) ∈ rows.
Proof.
  intros Hd. split.
  - intros ([n q] & [Hin Hb]%find_some & <-). apply bool_decide_eq_true in Hb. cbn in Hb. subst. by apply list_elem_of_In.
  - intros Hin. destruct (List.find (fun r => bool_decide (r.1 = k)) rows) as [r|] eqn:Ef.
    + exists r. split; [done|]. apply find_some in Ef as [Hr Hb]. apply list_elem_of_In in Hr. apply bool_decide_eq_true in Hb.
      apply list_elem_of_lookup_1 in Hr as [i Hi]. apply list_elem_of_lookup_1 in Hin as [j Hj].
      assert (i = j) as ->.
      { apply (NoDup_lookup rows.*1 i j k Hd); rewrite list_lookup_fmap; [by rewrite Hi, <- Hb|by rewrite Hj]. }
      rewrite Hi in Hj. by injection Hj as ->.
    + apply list_elem_of_In in Hin. pose proof (find_none _ _ Ef _ Hin) as Hb. apply bool_decide_eq_false in Hb. done.
Qed.

(** What [FLUSH USERS] leaves: the arrays and the table have the rows and nothing else. *)
Lemma flush_users_hash rows u : users_ok u -> NoDup rows.*1 ->
  exists u', sqlite3_flush_users_db_to_mem (Some rows) u = (Z.of_nat (length rows), u') /\
    users_ok u' /\ users_name u' = rows.*1 /\ users_pass u' = rows.*2 /\
    forall k p, users_hash u' !! k = Some p <-> (k, p) ∈ rows.
Proof.
  intros Hok Hd. unfold sqlite3_flush_users_db_to_mem.
  destruct (remove_users_spec (length (users_name u)) u (le_n _)) as (R1 & R2 & R3). set (u1 := remove_users _ u) in *.
  destruct (g_drain_perm (users_pass u1) (length (users_pass u1)) (le_n _)) as (out & Hdr & _). rewrite Hdr. cbn [snd].
  destruct (add_users_spec rows (u1 <| users_pass := [] |>)) as (A1 & A2 & A3). specialize (A3 Hd).
  assert (forall k, users_hash u1 !! k = None) as Hnone.
  { intros k. rewrite R3. destruct (decide (k ∈ users_name u)) as [|Hk]; [done|]. destruct (users_hash u !! k) eqn:E; [|done]. destruct Hk. apply Hok. by rewrite E. }
  eexists. split; [reflexivity|].
  change (users_name (u1 <| users_pass := [] |>)) with (users_name u1) in A1. rewrite R1 in A1.
  assert (forall k p, users_hash (foldl add_user (u1 <| users_pass := [] |>) rows) !! k = Some p <-> (k, p) ∈ rows) as Hh.
  { intros k p. rewrite A3. rewrite <- (find_key rows k p Hd).
    change (users_hash (u1 <| users_pass := [] |>) !! k) with (users_hash u1 !! k). rewrite Hnone.
    destruct (List.find _ rows) as [r|]; [split; [intros [= <-]; eauto|intros (r' & [= <-] & <-); done]|naive_solver]. }
  split; [|split; [exact A1|split; [exact A2|exact Hh]]].
  intros k [p Hk%Hh]. rewrite A1. cbn. by apply (list_elem_of_fmap_2 fst) in Hk.
Qed.

(** FLUSH USERS: afterwards exactly the active users of the table with a password are known to the authentication, each with the password of its row;
    the users that were known before are forgotten; a user without a password is unknown; and the state is again one from
    which the next FLUSH USERS starts. *)
Theorem flush_users_correct rows u a1 p1 a2 p2 :
  users_ok u -> NoDup rows.*1 ->
  exists u', sqlite3_flush_users_db_to_mem (Some rows) u = (Z.of_nat (length rows), u') /\
    users_ok u' /\ users_name u' = rows.*1 /\ users_pass u' = rows.*2 /\
    forall name pass, user_password (mkUsers a1 p1 a2 p2 (known_users u')) name 0 = Some pass <-> (name, Some pass) ∈ rows.
Proof.
  intros Hok Hd. destruct (flush_users_hash rows u Hok Hd) as (u' & E & H1 & H2 & H3 & Hh). exists u'. split; [done|]. split; [done|]. split; [done|]. split; [done|].
  intros n p. unfold user_password, known_users. cbn. rewrite lookup_omap. rewrite <- Hh.
  destruct (users_hash _ !! n) as [[q|]|]; cbn; naive_solver.
Qed.

Definition sample_users : users_t := mkUsersMem [c_lit "old"] [Some (c_lit "pw")] {[ c_lit "old" := Some (c_lit "pw") ]}.

Lemma flush_users_correct_witness : exists u',
  sqlite3_flush_users_db_to_mem (Some [(c_lit "bob", Some (c_lit "secret")); (c_lit "joe", None)]) sample_users = (2, u') /\
  user_password (mkUsers [] [] [] [] (known_users u')) (c_lit "bob") 0 = Some (c_lit "secret").
Proof.
  destruct (flush_users_correct [(c_lit "bob", Some (c_lit "secret")); (c_lit "joe", None)] sample_users [] [] [] []) as (u' & Hf & _ & _ & _ & Hu).
  - intros k [p Hk]. unfold sample_users in *. cbn in Hk. apply lookup_singleton_Some in Hk as [<- _]. by left.
  - apply (bool_decide_eq_true_1 _). vm_compute. reflexivity.
  - exists u'. split; [exact Hf|]. apply Hu. left.
Defined.

Lemma user_statement_length replace active n p : 0 <= active < 10 ->
  (S (length (user_statement replace active n p)) <= users_format_length replace + length n + length p)%nat.
Proof.
  intros Ha. assert (length (c_dec active) = 1%nat) as Hd.
  { unfold c_dec. rewrite (proj2 (Z.ltb_ge _ _)) by lia. cbn. rewrite (proj2 (Z.ltb_lt _ _)) by lia. done. }
  unfold users_format_length, user_statement. destruct replace; cbn [users_format]; rewrite !length_app, Hd; cbn; lia.
Qed.

(** Writing the users to the database: with a password for every user, each statement fits into the block that was allocated for it. *)
Theorem users_statements_fit replace active u :
  0 <= active < 10 -> length (users_name u) = length (users_pass u) -> Forall is_Some (users_pass u) ->
  exists sts, sqlite3_flush_users_mem_to_db replace active u = Some sts /\ length sts = length (users_name u).
Proof.
  intros Ha. unfold sqlite3_flush_users_mem_to_db. generalize (users_pass u) as ps. induction (users_name u) as [|n ns IH]; intros ps Hl Hf.
  - exists []. done.
  - destruct ps as [|p ps]; [done|]. apply Forall_cons in Hf as [[q ->] Hf]. cbn [users_mem_to_db].
    rewrite decide_True by (by apply user_statement_length). destruct (IH ps) as (sts & -> & Hs); [by injection Hl|done|].
    eexists. split; [reflexivity|]. cbn. by rewrite Hs.
Qed.

Lemma users_statements_fit_witness : exists sts, sqlite3_flush_users_mem_to_db 0 1 sample_users = Some sts /\ length sts = 1%nat.
Proof. apply (users_statements_fit 0 1 sample_users); [lia|reflexivity|repeat constructor; by eexists]. Defined.

(** ** Query rules *)

(** What the sanity checks establish. *)
Record rule_in_range (mysql_hostgroups : Z) (qr : query_rule_t) : Prop := {
  rr_flagIN : 0 <= flagIN qr; rr_flagOUT : 0 <= rflagOUT qr; rr_negate : 0 <= negate_match_pattern qr <= 1;
  rr_destination : 0 <= rdestination_hostgroup qr < mysql_hostgroups; rr_audit : 0 <= raudit_log qr <= 1;
  rr_performance : 0 <= rperformance_log qr <= 1; rr_tags : 0 <= rcache_tag qr /\ 0 <= rinvalidate_cache_tag qr;
  rr_ttl : -1 <= rcache_ttl qr; rr_hits : hits qr = 0 }.

Lemma not_negative_range z : 0 <= not_negative z.
Proof. unfold not_negative. destruct (Z.ltb_spec z 0); lia. Qed.

Lemma zero_or_one_range z : 0 <= zero_or_one z <= 1.
Proof. unfold zero_or_one. destruct (Z.ltb_spec z 0); [cbn; lia|]. destruct (Z.ltb_spec 1 z); cbn; lia. Qed.

Lemma rule_of_row_range n r : rdestination_hostgroup (rule_of_row r) < n -> rule_in_range n (rule_of_row r).
Proof.
  intros Hn. split; cbn in *; try apply not_negative_range; try apply zero_or_one_range.
  - destruct (Z.ltb_spec 1 (q_negate_match_pattern r)); cbn; [lia|]. destruct (Z.ltb_spec (q_negate_match_pattern r) 0); lia.
  - split; [apply not_negative_range|done].
  - split; apply not_negative_range.
  - destruct (Z.ltb_spec (q_cache_ttl r) (-1)); lia.
  - reflexivity.
Qed.

Definition routable (n : Z) (r : rule_row) : bool := not_negative (q_destination_hostgroup r) <? n.

Lemma load_rules_spec n rows : forall rules,
  load_rules n rows rules = (Z.of_nat (length (List.filter (routable n) rows)), rules ++ (rule_of_row <$> List.filter (routable n) rows)).
Proof.
  induction rows as [|r rows IH]; intros rules; [cbn; by rewrite app_nil_r|]. cbn [load_rules List.filter].
  change (rdestination_hostgroup (rule_of_row r) <? n) with (routable n r). destruct (routable n r).
  - rewrite IH. rewrite fmap_cons, <- app_assoc. f_equal. cbn [length]. lia.
  - apply IH.
Qed.

Lemma reset_query_rules_empties gloQR : (reset_query_rules gloQR).2 = Some [].
Proof.
  destruct gloQR as [l|]; [|done]. cbn. destruct (g_drain_perm l (length l) (le_n _)) as (out & -> & _). done.
Qed.

Lemma loaded_rules_in_range n rows qr : qr ∈ rule_of_row <$> List.filter (routable n) rows -> rule_in_range n qr.
Proof.
  intros (r & -> & Hin)%list_elem_of_fmap. apply rule_of_row_range. apply list_elem_of_In, filter_In in Hin as [_ Hr]. by apply Z.ltb_lt.
Qed.

(** A row whose values the checks leave alone. *)
Definition sane_row (n : Z) (r : rule_row) : Prop :=
  0 <= q_flagIN r /\ 0 <= q_flagOUT r /\ 0 <= q_negate_match_pattern r <= 1 /\ 0 <= q_destination_hostgroup r < n /\
  0 <= q_audit_log r <= 1 /\ 0 <= q_performance_log r <= 1 /\ 0 <= q_cache_tag r /\ 0 <= q_invalidate_cache_tag r /\ -1 <= q_cache_ttl r.

Lemma row_roundtrip n r : sane_row n r -> row_of_rule (rule_of_row r) = (0, r) /\ routable n r = true.
Proof.
  intros (H1 & H2 & H3 & H4 & H5 & H6 & H7 & H8 & H9). destruct r. cbn in *.
  assert (forall z, 0 <= z -> not_negative z = z) as Hnn by (intros z Hz; unfold not_negative; destruct (Z.ltb_spec z 0); lia).
  assert (forall z, 0 <= z <= 1 -> zero_or_one z = z) as Hzo
    by (intros z Hz; unfold zero_or_one; destruct (Z.ltb_spec z 0); [lia|]; destruct (Z.ltb_spec 1 z); [lia|]; done).
  unfold routable, row_of_rule, rule_of_row. cbn. rewrite !Hnn, !Hzo by lia.
  rewrite (proj2 (Z.ltb_ge 1 _)) by lia. rewrite (proj2 (Z.ltb_ge _ 0)) by lia. rewrite (proj2 (Z.ltb_ge _ (-1))) by lia.
  split; [done|]. apply Z.ltb_lt. lia.
Qed.

Lemma default_rules_sane n t : 2 <= n -> -1 <= t -> Forall (sane_row n) (default_rules t).
Proof. intros. repeat constructor; cbn; lia. Qed.

(** FLUSH QUERY RULES: the old rules go; the rules in memory are those of the active rows, in the order of the rows, less the rows whose
    destination is not a host group; every field of a rule is in its range whatever the table holds, the hits start at zero, and the
    number of loaded rules is returned.  An empty table first gets the three rules of a new installation, which pass the checks
    unchanged. *)
Theorem flush_query_rules_correct n default_timeout count select gloQR :
  2 <= n -> 0 <= default_timeout < 2 ^ 31 ->
  exists rules inserted, sqlite3_flush_query_rules_db_to_mem n default_timeout count select gloQR = Some (Z.of_nat (length rules), rules, inserted) /\
    rules = rule_of_row <$> List.filter (routable n) (select inserted) /\ Forall (rule_in_range n) rules /\
    inserted = (if count =? 0 then default_rules default_timeout else []) /\
    (row_of_rule ∘ rule_of_row <$> default_rules default_timeout) = pair 0 <$> default_rules default_timeout /\
    Forall (fun r => routable n r = true) (default_rules default_timeout).
Proof.
  intros Hn Ht. unfold sqlite3_flush_query_rules_db_to_mem. rewrite reset_query_rules_empties, bind_Some, load_rules_spec. cbn [app].
  rewrite (swrap_small 32 default_timeout) by lia.
  set (ins := if count =? 0 then _ else _).
  exists (rule_of_row <$> List.filter (routable n) (select ins)), ins. split; [by rewrite length_fmap|]. split; [done|]. split; [|split; [done|split]].
  - apply Forall_forall. intros qr. apply loaded_rules_in_range.
  - apply list_fmap_ext. intros i r Hi. apply (row_roundtrip n). assert (Forall (sane_row n) (default_rules default_timeout)) as Hs
      by (apply default_rules_sane; lia). rewrite Forall_forall in Hs. apply Hs. by apply (list_elem_of_lookup_2 _ i).
  - eapply Forall_impl; [apply (default_rules_sane n default_timeout); lia|]. intros r Hr. by apply row_roundtrip.
Qed.

Lemma flush_query_rules_correct_witness : exists rules inserted,
  sqlite3_flush_query_rules_db_to_mem 8 60 0 (fun l => l) None = Some (Z.of_nat (length rules), rules, inserted) /\ Forall (rule_in_range 8) rules.
Proof.
  destruct (flush_query_rules_correct 8 60 0 (fun l => l) None) as (rules & ins & Hf & _ & Hr & _); [lia|lia|]. exists rules, ins. split; [exact Hf|exact Hr].
Defined.

(** What the checks make of a row: numbers out of range are moved to the nearest end of their range. *)
Definition normal_row (r : rule_row) : rule_row :=
  mkRuleRow (q_rule_id r) (Z.max 0 (q_flagIN r)) (q_username r) (q_schemaname r) (q_match_pattern r) (Z.max 0 (Z.min 1 (q_negate_match_pattern r)))
    (Z.max 0 (q_flagOUT r)) (q_replace_pattern r) (Z.max 0 (q_destination_hostgroup r)) (Z.max 0 (Z.min 1 (q_audit_log r)))
    (Z.max 0 (Z.min 1 (q_performance_log r))) (Z.max 0 (q_cache_tag r)) (Z.max 0 (q_invalidate_cache_tag r)) (q_invalidate_cache_pattern r)
    (Z.max (-1) (q_cache_ttl r)).

Lemma row_normal r : row_of_rule (rule_of_row r) = (0, normal_row r).
Proof.
  assert (forall z, not_negative z = Z.max 0 z) as Hnn by (intros z; unfold not_negative; destruct (Z.ltb_spec z 0); lia).
  assert (forall z, zero_or_one z = Z.max 0 (Z.min 1 z)) as Hzo
    by (intros z; unfold zero_or_one; destruct (Z.ltb_spec z 0); cbn [orb]; [lia|]; destruct (Z.ltb_spec 1 z); lia).
  unfold row_of_rule, rule_of_row, normal_row. cbn. rewrite !Hnn, !Hzo. f_equal.
  assert ((if (if 1 <? q_negate_match_pattern r then 1 else q_negate_match_pattern r) <? 0 then 0 else
      (if 1 <? q_negate_match_pattern r then 1 else q_negate_match_pattern r)) = Z.max 0 (Z.min 1 (q_negate_match_pattern r))) as ->
    by (destruct (Z.ltb_spec 1 (q_negate_match_pattern r)); [cbn; lia|]; destruct (Z.ltb_spec (q_negate_match_pattern r) 0); lia).
  assert ((if q_cache_ttl r <? -1 then -1 else q_cache_ttl r) = Z.max (-1) (q_cache_ttl r)) as -> by (destruct (Z.ltb_spec (q_cache_ttl r) (-1)); lia).
  done.
Qed.

Lemma normal_row_sane n r : routable n r = true -> sane_row n (normal_row r).
Proof.
  unfold routable, rule_of_row. cbn. unfold not_negative. intros H%Z.ltb_lt. repeat split; cbn; try lia. destruct (Z.ltb_spec (q_destination_hostgroup r) 0); lia.
Qed.

(** C29: the rules in [runtime_query_rules], written right after they were loaded, are the rows of the table, in their order and with zero hits, up to the checks of the loader: a row whose destination is not a
    host group is left out, a number out of its range is moved to the nearest end of the range, and every other column survives the way into memory and back; what is written
    is always within the ranges, so that loading it again changes nothing, and a row that is within the ranges comes back as it was.  An empty table first gets the three rules of a new installation. *)
Theorem query_rules_roundtrip n default_timeout count select gloQR :
  exists rules inserted, let rows := List.filter (routable n) (select inserted) in
    sqlite3_flush_query_rules_db_to_mem n default_timeout count select gloQR = Some (Z.of_nat (length rows), rules, inserted) /\
    inserted = (if count =? 0 then default_rules (i32 default_timeout) else []) /\
    sqlite3_dump_runtime_query_rules rules = (Z.of_nat (length rows), pair 0 ∘ normal_row <$> rows) /\
    Forall (sane_row n) (normal_row <$> rows) /\ forall r, sane_row n r -> normal_row r = r /\ routable n r = true.
Proof.
  unfold sqlite3_flush_query_rules_db_to_mem. rewrite reset_query_rules_empties, bind_Some, load_rules_spec. cbn [app].
  set (ins := if count =? 0 then _ else _). exists (rule_of_row <$> List.filter (routable n) (select ins)), ins. cbv zeta.
  set (rows := List.filter (routable n) (select ins)). split_and!; [done|done|..].
  - unfold sqlite3_dump_runtime_query_rules. rewrite length_fmap. f_equal. rewrite <- list_fmap_compose. apply list_fmap_ext. intros i r _. apply row_normal.
  - apply Forall_fmap, Forall_forall. intros r Hr. apply list_elem_of_In, filter_In in Hr as [_ Hr]. by apply normal_row_sane.
  - intros r Hr. destruct (row_roundtrip n r Hr) as [E ?]. rewrite row_normal in E. by injection E as E.
Qed.

Definition sample_row : rule_row := mkRuleRow 7 0 (Some (c_lit "app")) None (c_lit "^SELECT") 0 3 None 2 1 0 4 5 (Some (c_lit "t1")) 60.

(** The row 7 is kept, the row 8 has a negative destination and an absurd time to live, the row 9 names a host group that does not exist. *)
Example query_rules_example :
  (fun x => (x.1.1, sqlite3_dump_runtime_query_rules x.1.2)) <$> sqlite3_flush_query_rules_db_to_mem 8 60 1 (fun _ => [sample_row;
    mkRuleRow 8 0 None None (c_lit "x") 2 0 None (-3) 0 0 0 0 None (-9); mkRuleRow 9 0 None None (c_lit "y") 0 0 None 8 0 0 0 0 None 0]) None =
  Some (2, (2, [(0, sample_row); (0, mkRuleRow 8 0 None None (c_lit "x") 1 0 None 0 0 0 0 0 None (-1))])).
Proof. vm_compute. reflexivity. Qed.

(** *** Where a query goes *)

Definition destination_ok (n : Z) (s : route) : Prop :=
  destination_hostgroup (query_info s) = -1 \/ 0 <= destination_hostgroup (query_info s) < n.

Lemma rule_rewrite_dest rreplace junk s qr s' : rule_rewrite rreplace junk s qr = Some (inr s') ->
  destination_hostgroup (query_info s') = destination_hostgroup (query_info s) /\ default_hostgroup s' = default_hostgroup s /\
  default_hostgroup_version s' = default_hostgroup_version s.
Proof.
  unfold rule_rewrite. destruct (replace_pattern qr); [|by intros [= <-]]. destruct (rreplace qr _); [|done].
  intros H. px_run H. px_run H. by injection H as <-.
Qed.

Lemma rule_apply_dest n s flag qr : destination_ok n s -> rdestination_hostgroup qr < n ->
  destination_ok n (rule_apply s flag qr).1 /\ default_hostgroup (rule_apply s flag qr).1 = default_hostgroup s /\
  default_hostgroup_version (rule_apply s flag qr).1 = default_hostgroup_version s.
Proof.
  intros Hs Hq. unfold destination_ok, rule_apply in *.
  destruct (negb (rflagOUT qr =? 0)), (negb (rcache_ttl qr =? 0)), (Z.leb_spec 0 (rdestination_hostgroup qr)), (raudit_log qr =? 1), (rperformance_log qr =? 1);
    cbn; (split; [first [exact Hs|lia]|done]).
Qed.

Lemma rule_loop_dest rmatch rreplace junk n rules : Forall (fun qr => rdestination_hostgroup qr < n) rules ->
  forall s flag s' rules', rule_loop rmatch rreplace junk rules s flag = Some (s', rules') -> destination_ok n s ->
  destination_ok n s' /\ default_hostgroup s' = default_hostgroup s /\ default_hostgroup_version s' = default_hostgroup_version s.
Proof.
  induction rules as [|qr rules IH]; intros Hall s flag s' rules' H Hs; cbn [rule_loop] in H; [by injection H as <- _|].
  apply Forall_cons in Hall as [Hq Hall]. destruct (negb (rule_matches _ _ _ _)).
  { px_run H. destruct x as [s1 r1]. injection H as <- _. eapply IH; eauto. }
  px_run H. destruct x as [[]|s1].
  { px_run H. destruct x as [s2 r2]. injection H as <- _. eapply IH; eauto. }
  apply rule_rewrite_dest in E as (E1 & E2 & E3). destruct (rule_apply_dest n s1 flag qr) as (A1 & A2 & A3); [unfold destination_ok; by rewrite E1|done|].
  destruct (rule_apply s1 flag qr) as [s2 flag2]. cbn [fst] in *. destruct (negb _).
  { injection H as <- _. split; [done|]. split; congruence. }
  px_run H. destruct x as [s3 r3]. injection H as <- _. destruct (IH Hall _ _ _ _ E A1) as (B1 & B2 & B3). split; [done|]. split; congruence.
Qed.

(** C30: with rules loaded by FLUSH QUERY RULES a query is always routed to a host group that exists, provided the default host group that the session
    has cached does. *)
Theorem routed_hostgroup_exists rmatch rreplace junk g cache_enabled default_ttl n default_timeout count select gloQR rules loaded inserted s s' rules' :
  0 < n ->
  sqlite3_flush_query_rules_db_to_mem n default_timeout count select gloQR = Some (loaded, rules, inserted) ->
  destination_hostgroup (query_info s) = -1 ->
  (default_hostgroup s = -1 \/ default_hostgroup_version s <> DefHG.version g \/ 0 <= default_hostgroup s < n) ->
  process_query_rules rmatch rreplace junk g cache_enabled default_ttl rules s = Some (s', rules') ->
  0 <= destination_hostgroup (query_info s') < n.
Proof.
  intros Hn Hf Hd Hc H. unfold sqlite3_flush_query_rules_db_to_mem in Hf.
  rewrite reset_query_rules_empties, bind_Some, load_rules_spec in Hf. injection Hf as _ <- _. cbn [app] in H.
  unfold process_query_rules in H. px_run H. destruct x as [s1 r1]. injection H as <- _.
  apply (rule_loop_dest _ _ _ n) in E as (D1 & D2 & D3); [| |by left].
  2: { apply Forall_forall. intros qr Hq%loaded_rules_in_range. apply Hq. }
  unfold finish_destination.
  assert (destination_hostgroup (query_info (finish_cache_ttl cache_enabled default_ttl s1)) = destination_hostgroup (query_info s1) /\
          default_hostgroup (finish_cache_ttl cache_enabled default_ttl s1) = default_hostgroup s1 /\
          default_hostgroup_version (finish_cache_ttl cache_enabled default_ttl s1) = default_hostgroup_version s1) as (F1 & F2 & F3).
  { unfold finish_cache_ttl. destruct (_ =? 0), (_ =? -1), cache_enabled; done. }
  rewrite F1, F2, F3, D2, D3. destruct (Z.eqb_spec (destination_hostgroup (query_info s1)) (-1)) as [E1|E1].
  - destruct (Z.eqb_spec (default_hostgroup s) (-1)); cbn [orb]; [cbn; lia|].
    destruct (Z.eqb_spec (default_hostgroup_version s) (DefHG.version g)); cbn [negb].
    + change (0 <= default_hostgroup s < n). naive_solver.
    + cbn. lia.
  - rewrite F1. destruct D1; [done|lia].
Qed.

Lemma routed_hostgroup_exists_witness : exists rules inserted s' rules',
  sqlite3_flush_query_rules_db_to_mem 8 60 1 (fun _ => [sample_row]) None = Some (1, rules, inserted) /\
  process_query_rules (fun _ _ => true) (fun _ _ => None) (fun _ => Byte.x00) DefHG.glo_DefHG_init true 0 rules
    (mkRoute (c_lit "app") (c_lit "db") (mkQM None None 0 0 0 (-1) 0 0 0 [] SNull) (-1) 0) = Some (s', rules') /\
  0 <= destination_hostgroup (query_info s') < 8.
Proof.
  do 4 eexists. split; [vm_compute; reflexivity|]. split; [vm_compute; reflexivity|].
  eapply (routed_hostgroup_exists (fun _ _ => true) (fun _ _ => None) (fun _ => Byte.x00) DefHG.glo_DefHG_init true 0 8 60 1 (fun _ => [sample_row]) None).
  - lia.
  - vm_compute. reflexivity.
  - instantiate (1 := mkRoute (c_lit "app") (c_lit "db") (mkQM None None 0 0 0 (-1) 0 0 0 [] SNull) (-1) 0). reflexivity.
  - left. reflexivity.
  - vm_compute. reflexivity.
Defined.

(** ** Default host groups *)

Lemma add_defHG_fold (junk : nat -> option (list byte)) rows : forall i g,
  foldl (fun g '(i, (u, s, hg)) => DefHG.add_defHG (junk i) g u s hg) g (imap (fun j r => ((i + j)%nat, r)) rows) =
  DefHG.mkGDH (DefHG.version g) (DefHG.default_hostgroups g ++ imap (fun j '(u, s, hg) => DefHG.mkDHG s (junk (i + j)%nat) hg) rows).
Proof.
  induction rows as [|[[u s] hg] rows IH]; intros i g; [destruct g; cbn; by rewrite app_nil_r|].
  rewrite !imap_cons. cbn [foldl]. rewrite Nat.add_0_r.
  assert (forall {A B} (f g : nat -> A -> B) l, (forall j x, f j x = g j x) -> imap f l = imap g l) as Hext
    by (intros A B f g' l Hfg; apply imap_ext; intros; apply Hfg).
  rewrite (Hext _ _ _ (fun j r => ((S i + j)%nat, r)) rows) by (intros; cbn; f_equal; lia).
  rewrite IH. cbn [DefHG.add_defHG DefHG.version DefHG.default_hostgroups]. rewrite <- app_assoc. cbn [app]. do 2 f_equal. f_equal.
  apply Hext. intros j [[u' s'] hg']. cbn. do 2 f_equal. lia.
Qed.

(** FLUSH DEFAULT HOSTGROUPS: the old entries go, there is an entry for every row (with the names as [add_defHG] stores them), and the version changes, so that a session
    that has cached a default host group looks it up again with its next query. *)
Theorem flush_default_hostgroups_correct junk rows g :
  - 2 ^ 31 <= DefHG.version g < 2 ^ 31 ->
  exists g', sqlite3_flush_default_hostgroups_db_to_mem junk rows g = (Z.of_nat (length rows), g') /\
    DefHG.default_hostgroups g' = imap (fun i '(u, s, hg) => DefHG.mkDHG s (junk i) hg) rows /\
    - 2 ^ 31 <= DefHG.version g' < 2 ^ 31 /\
    forall s, default_hostgroup_version s = DefHG.version g -> destination_hostgroup (query_info s) = -1 ->
      default_hostgroup_version (finish_destination g' s) = DefHG.version g' /\
      default_hostgroup (finish_destination g' s) = DefHG.find_defHG g' (Some (user s)) (Some (schema s)).
Proof.
  intros Hv. unfold sqlite3_flush_default_hostgroups_db_to_mem, DefHG.delete_all.
  destruct (g_drain_perm (DefHG.default_hostgroups g) (length (DefHG.default_hostgroups g)) (le_n _)) as (out & -> & _). cbn [snd].
  assert (imap pair rows = imap (fun j r => ((0 + j)%nat, r)) rows) as -> by done.
  rewrite add_defHG_fold. cbn [DefHG.version DefHG.default_hostgroups app].
  assert (- 2 ^ 31 <= i32 (DefHG.version g + 1) < 2 ^ 31 /\ i32 (DefHG.version g + 1) <> DefHG.version g) as [Hr Hne].
  { unfold swrap. pose proof (Z.mod_pos_bound (DefHG.version g + 1 + 2 ^ (32 - 1)) (2 ^ 32) ltac:(lia)). split; [lia|].
    destruct (decide (DefHG.version g = 2 ^ 31 - 1)) as [E|E].
    - rewrite E. vm_compute. discriminate.
    - rewrite Z.mod_small by lia. lia. }
  eexists. split; [reflexivity|]. split; [done|]. split; [exact Hr|].
  intros s Hs Hd. unfold finish_destination. rewrite Hd. change (-1 =? -1) with true. cbn [DefHG.version].
  rewrite (proj2 (Z.eqb_neq (default_hostgroup_version s) (i32 (DefHG.version g + 1)))) by (rewrite Hs; lia).
  cbn [negb]. rewrite orb_true_r. done.
Qed.

Lemma flush_default_hostgroups_correct_witness : exists g',
  sqlite3_flush_default_hostgroups_db_to_mem (fun _ => None) [(Some (c_lit "bob"), Some (c_lit "db"), 3)] DefHG.glo_DefHG_init = (1, g') /\
  length (DefHG.default_hostgroups g') = 1%nat.
Proof.
  destruct (flush_default_hostgroups_correct (fun _ => None) [(Some (c_lit "bob"), Some (c_lit "db"), 3)] DefHG.glo_DefHG_init) as (g' & Hf & Hl & _).
  - cbn. lia.
  - exists g'. split; [exact Hf|]. by rewrite Hl.
Defined.

(** The report of the default host groups has neither of the two names of a row: the first column is what the memory of the entry held, the
    second is NULL. *)
Theorem dump_default_hostgroups_loses_names junk rows g :
  exists g', sqlite3_flush_default_hostgroups_db_to_mem junk rows g = (Z.of_nat (length rows), g') /\
    sqlite3_dump_runtime_default_hostgroups g' =
      (Z.of_nat (length rows), imap (fun i '(u, s, hg) => (junk i, None, hg)) rows).
Proof.
  unfold sqlite3_flush_default_hostgroups_db_to_mem, DefHG.delete_all.
  destruct (g_drain_perm (DefHG.default_hostgroups g) (length (DefHG.default_hostgroups g)) (le_n _)) as (out & -> & _). cbn [snd].
  assert (imap pair rows = imap (fun j r => ((0 + j)%nat, r)) rows) as -> by done.
  rewrite add_defHG_fold. eexists. split; [reflexivity|]. unfold sqlite3_dump_runtime_default_hostgroups. cbn [DefHG.default_hostgroups app].
  rewrite length_fmap, length_imap. f_equal. rewrite fmap_imap. apply imap_ext. intros i [[u s] hg] _. done.
Qed.

(** ** Servers and host groups *)

Record heap_ok (n : nat) (h : server_heap) : Prop := {
  ho_groups : (n <= length (h_hostgroups h))%nat;
  ho_distinct : NoDup (take n (h_hostgroups h));
  ho_arrays : forall a, a ∈ take n (h_hostgroups h) -> is_Some (h_arrays h !! a);
  ho_keys : NoDup (server_key <$> h_servers h);
  ho_nul : Forall (fun ms => Byte.x00 ∉ address ms) (h_servers h) }.

(** The entries of the host groups. *)
Definition group_entries (h : server_heap) (gs : list nat) : list mshge_t := mjoin ((fun a => default [] (h_arrays h !! a)) <$> gs).

Lemma reset_hostgroups_spec k : forall i h,
  (i + k <= length (h_hostgroups h))%nat -> NoDup (take k (drop i (h_hostgroups h))) ->
  (forall a, a ∈ take k (drop i (h_hostgroups h)) -> is_Some (h_arrays h !! a)) ->
  exists freed h', reset_hostgroups k i h = Some (freed, h') /\ h_servers h' = h_servers h /\
    h_hostgroups h' = h_hostgroups h ++ take k (drop i (h_hostgroups h)) /\
    (forall a, h_arrays h' !! a = if decide (a ∈ take k (drop i (h_hostgroups h))) then Some [] else h_arrays h !! a) /\
    freed ≡ₚ group_entries h (take k (drop i (h_hostgroups h))).
Proof.
  induction k as [|k IH]; intros i h Hl Hd Ha.
  { exists [], h. cbn. rewrite app_nil_r. split; [done|]. split; [done|]. split; [done|]. split; [|done]. intros a. by destruct (decide (a ∈ [])); [set_solver|]. }
  cbn [reset_hostgroups]. destruct (h_hostgroups h !! i) as [a|] eqn:Ea; [|apply lookup_ge_None in Ea; lia]. rewrite bind_Some.
  rewrite (drop_S _ a i Ea) in *. cbn [take] in *. apply NoDup_cons in Hd as [Hn Hd].
  destruct (Ha a) as [sl Hsl]; [by left|]. rewrite Hsl, bind_Some.
  destruct (g_drain_perm sl (length sl) (le_n _)) as (out & -> & Hout).
  set (h1 := h <| h_arrays := <[a := []]> (h_arrays h) |> <| h_hostgroups := h_hostgroups h ++ [a] |>).
  assert (take k (drop (S i) (h_hostgroups h1)) = take k (drop (S i) (h_hostgroups h))) as Htk.
  { change (h_hostgroups h1) with (h_hostgroups h ++ [a]). rewrite drop_app_le by lia. rewrite take_app_le; [done|]. rewrite length_drop. lia. }
  destruct (IH (S i) h1) as (freed & h' & Hrun & Hs & Hg & Harr & Hp).
  - change (h_hostgroups h1) with (h_hostgroups h ++ [a]). rewrite length_app. cbn. lia.
  - by rewrite Htk.
  - rewrite Htk. intros b Hb. change (h_arrays h1) with (<[a := []]> (h_arrays h)).
    rewrite list_lookup_insert_ne by (intros ->; done). apply Ha. by right.
  - rewrite Hrun, bind_Some. rewrite Htk in *. exists (out ++ freed), h'. split; [done|]. split; [exact Hs|]. split.
    { rewrite Hg. change (h_hostgroups h1) with (h_hostgroups h ++ [a]). by rewrite <- app_assoc. }
    split.
    + intros b. rewrite Harr. change (h_arrays h1) with (<[a := []]> (h_arrays h)). destruct (decide (b ∈ take k (drop (S i) (h_hostgroups h)))) as [Hb|Hb].
      * rewrite decide_True; [done|by right].
      * destruct (decide (b = a)) as [->|Hne].
        -- rewrite decide_True by left. rewrite list_lookup_insert_eq; [done|]. by apply lookup_lt_Some in Hsl.
        -- rewrite list_lookup_insert_ne by done. rewrite decide_False; [done|]. by intros [?|?]%elem_of_cons.
    + unfold group_entries in *. rewrite fmap_cons, mjoin_cons, Hsl. cbn [default]. rewrite Hout. apply Permutation_app_head. rewrite Hp.
      apply reflexive_eq. f_equal. apply list_fmap_ext. intros j b Hj. change (h_arrays h1) with (<[a := []]> (h_arrays h)).
      rewrite list_lookup_insert_ne; [done|]. intros ->. apply Hn. by apply (list_elem_of_lookup_2 _ j).
Qed.

Lemma find_server_index_spec l a pt : Byte.x00 ∉ a -> Forall (fun ms => Byte.x00 ∉ address ms) l ->
  match find_server_index l a pt with
  | Some i => exists ms, l !! i = Some ms /\ server_key ms = (a, pt)
  | None => (a, pt) ∉ server_key <$> l
  end.
Proof.
  intros Ha. induction 1 as [|ms l Hm _ IH]; cbn [find_server_index]; [by apply not_elem_of_nil|].
  destruct ((port ms =? pt) && (strcmp (address ms) a =? 0)) eqn:E.
  - px_bool. exists ms. split; [done|]. unfold server_key. f_equal; [by apply strcmp_eq|done].
  - destruct (find_server_index l a pt) as [i|]; cbn; [exact IH|]. intros [Hk|Hk]%elem_of_cons; [|done].
    unfold server_key in Hk. injection Hk as -> ->. rewrite Z.eqb_refl in E. cbn in E. apply Z.eqb_neq in E. apply E. by apply strcmp_eq.
Qed.

Definition row_key (r : server_row) : list byte * Z := (s_hostname r, u16 (s_port r)).

Record row_ok (r : server_row) : Prop := {
  ro_hostgroup : 0 <= s_hostgroup_id r; ro_status : 0 <= s_status r <= 3; ro_nul : Byte.x00 ∉ s_hostname r }.

(** A server has one row in the table [servers], whatever the number of its host groups. *)
Definition consistent (rows : list server_row) : Prop :=
  forall r1 r2, r1 ∈ rows -> r2 ∈ rows -> row_key r1 = row_key r2 -> s_read_only r1 = s_read_only r2 /\ s_status r1 = s_status r2.

(** The server of a row in memory. *)
Definition server_of_row (r : server_row) (ms : mysql_server) : Prop :=
  server_key ms = row_key r /\ read_only ms = s_read_only r /\ status_of (s_status r) = Some (status ms).

Lemma upsert_spec r st h : row_ok r -> status_of (s_status r) = Some st ->
  NoDup (server_key <$> h_servers h) -> Forall (fun ms => Byte.x00 ∉ address ms) (h_servers h) ->
  exists i h1 ms, upsert r st h = Some (i, h1) /\ h_arrays h1 = h_arrays h /\ h_hostgroups h1 = h_hostgroups h /\
    h_servers h1 !! i = Some ms /\ server_of_row r ms /\
    NoDup (server_key <$> h_servers h1) /\ Forall (fun ms => Byte.x00 ∉ address ms) (h_servers h1) /\
    (forall j ms, h_servers h !! j = Some ms -> exists ms', h_servers h1 !! j = Some ms' /\ server_key ms' = server_key ms /\ (server_key ms <> row_key r -> ms' = ms)) /\
    (forall ms, ms ∈ h_servers h1 -> server_key ms ∈ server_key <$> h_servers h \/ server_key ms = row_key r).
Proof.
  intros Hr Hst Hk Hn. unfold upsert. pose proof (find_server_index_spec (h_servers h) _ (u16 (s_port r)) (ro_nul _ Hr) Hn) as Hf.
  destruct (find_server_index _ _ _) as [i|].
  - destruct Hf as (ms & Hms & Hkey). rewrite Hms, bind_Some.
    set (ms1 := mkServer (address ms) (port ms) (s_read_only r) st (connections ms) (alive ms)).
    assert (server_key <$> <[i := ms1]> (h_servers h) = server_key <$> h_servers h) as Hsame.
    { rewrite list_fmap_insert. apply list_insert_id. rewrite list_lookup_fmap, Hms. done. }
    pose proof (lookup_lt_Some _ _ _ Hms) as Hlt.
    exists i, (h <| h_servers := <[i := ms1]> (h_servers h) |>), ms1. cbn [h_servers h_arrays h_hostgroups upd heap_eta].
    split; [done|]. split; [done|]. split; [done|]. split; [by rewrite list_lookup_insert_eq|]. split; [done|].
    rewrite Hsame. split; [done|]. split; [|split].
    + apply Forall_insert; [done|]. rewrite Forall_forall in Hn. apply (Hn ms). by apply (list_elem_of_lookup_2 _ i).
    + intros j m Hj. destruct (decide (j = i)) as [->|Hne].
      * rewrite list_lookup_insert_eq by done. exists ms1. split; [done|]. rewrite Hms in Hj. injection Hj as <-. split; [done|]. intros Hneq. destruct Hneq. exact Hkey.
      * rewrite list_lookup_insert_ne by done. eauto.
    + intros m Hm. left. rewrite <- Hsame. by apply list_elem_of_fmap_2.
  - set (ms1 := mysql_server_entry_create (s_hostname r) (u16 (s_port r)) (s_read_only r) st).
    exists (length (h_servers h)), (h <| h_servers := h_servers h ++ [ms1] |>), ms1. cbn [h_servers h_arrays h_hostgroups upd heap_eta].
    split; [done|]. split; [done|]. split; [done|]. split; [by rewrite lookup_app_r, Nat.sub_diag by lia|]. split; [done|].
    rewrite fmap_app. split; [apply NoDup_app; split; [done|]; split; [|apply NoDup_singleton]; intros k Hk1 Hk2%list_elem_of_singleton; by subst|].
    split; [apply Forall_app; split; [done|]; apply Forall_singleton; apply Hr|]. split.
    + intros j m Hj. exists m. split; [by apply lookup_app_l_Some|done].
    + intros m [Hm|Hm]%elem_of_app; [left; by apply list_elem_of_fmap_2|]. apply list_elem_of_singleton in Hm as ->. by right.
Qed.

Definition in_group (i : nat) (r : server_row) : bool := (s_hostgroup_id r =? Z.of_nat i) && (s_status r =? 3).

Definition points_to (h : server_heap) (e : mshge_t) (r : server_row) : Prop :=
  e = mkEntryRef (ms_ptr e) 0 0 0 0 /\ exists ms, h_servers h !! ms_ptr e = Some ms /\ server_key ms = row_key r.

(** After the rows [ds] were loaded, starting from [h0]. *)
Record rows_loaded (n : nat) (h0 : server_heap) (ds : list server_row) (h : server_heap) : Prop := {
  rl_hostgroups : h_hostgroups h = h_hostgroups h0;
  rl_keys : NoDup (server_key <$> h_servers h);
  rl_nul : Forall (fun ms => Byte.x00 ∉ address ms) (h_servers h);
  rl_rows : forall r, r ∈ ds -> exists ms, ms ∈ h_servers h /\ server_of_row r ms;
  rl_old : forall j ms, h_servers h0 !! j = Some ms -> exists ms', h_servers h !! j = Some ms' /\ server_key ms' = server_key ms /\
             (server_key ms ∉ row_key <$> ds -> ms' = ms);
  rl_new : forall ms, ms ∈ h_servers h -> server_key ms ∈ server_key <$> h_servers h0 \/ server_key ms ∈ row_key <$> ds;
  rl_groups : forall i a, (i < n)%nat -> h_hostgroups h0 !! i = Some a ->
                exists sl, h_arrays h !! a = Some sl /\ Forall2 (points_to h) sl (List.filter (in_group i) ds) }.

Lemma status_of_online z st : status_of z = Some st -> (st = ONLINE <-> z = 3).
Proof. unfold status_of. repeat (case_match; px_bool; simplify_eq; [naive_solver lia|]). naive_solver. Qed.

Lemma status_of_total z : 0 <= z <= 3 -> exists st, status_of z = Some st.
Proof.
  intros Hz. unfold status_of. destruct (Z.eqb_spec z 0), (Z.eqb_spec z 1), (Z.eqb_spec z 2), (Z.eqb_spec z 3); eauto. lia.
Qed.

(** The rows loaded so far, after the server of one more row was created or updated. *)
Lemma upsert_loaded n h0 ds r h st : rows_loaded n h0 ds h -> row_ok r -> consistent (ds ++ [r]) -> status_of (s_status r) = Some st ->
  exists i h1 ms, upsert r st h = Some (i, h1) /\ h_arrays h1 = h_arrays h /\ h_hostgroups h1 = h_hostgroups h0 /\
    h_servers h1 !! i = Some ms /\ server_of_row r ms /\
    NoDup (server_key <$> h_servers h1) /\ Forall (fun ms => Byte.x00 ∉ address ms) (h_servers h1) /\
    (forall r', r' ∈ ds ++ [r] -> exists ms, ms ∈ h_servers h1 /\ server_of_row r' ms) /\
    (forall j ms, h_servers h0 !! j = Some ms -> exists ms', h_servers h1 !! j = Some ms' /\ server_key ms' = server_key ms /\
       (server_key ms ∉ row_key <$> (ds ++ [r]) -> ms' = ms)) /\
    (forall ms, ms ∈ h_servers h1 -> server_key ms ∈ server_key <$> h_servers h0 \/ server_key ms ∈ row_key <$> (ds ++ [r])) /\
    (forall e r', points_to h e r' -> points_to h1 e r').
Proof.
  intros [Lh Lk Ln Lr Lo Lw Lg] Hr Hc Hst.
  destruct (upsert_spec r st h Hr Hst Lk Ln) as (i & h1 & ms & Hrun & Ha & Hh & Hi & Hms & Hk1 & Hn1 & Hj & Hnew).
  exists i, h1, ms. split; [done|]. split; [done|]. split; [congruence|]. split; [done|]. split; [done|]. split; [done|]. split; [done|].
  split; [|split; [|split]].
  - intros r' Hin. apply elem_of_app in Hin as [Hin|Hin]; [|apply list_elem_of_singleton in Hin as ->; exists ms; split; [by apply (list_elem_of_lookup_2 _ i)|done]].
    destruct (Lr r' Hin) as (m & Hm & Hmr). destruct (decide (row_key r' = row_key r)) as [E|E].
    + destruct (Hc r' r) as [C1 C2]; [by apply elem_of_app; left|apply elem_of_app; right; left|done|].
      exists ms. split; [by apply (list_elem_of_lookup_2 _ i)|]. unfold server_of_row in *. rewrite C1, C2, E. exact Hms.
    + apply list_elem_of_lookup_1 in Hm as [j Hm]. destruct (Hj j m Hm) as (m' & Hm' & _ & Hsame). destruct Hmr as (K1 & K2).
      rewrite (Hsame ltac:(congruence)) in Hm'. exists m. split; [by apply (list_elem_of_lookup_2 _ j)|done].
  - intros j m Hm. destruct (Lo j m Hm) as (m1 & Hm1 & K1 & S1). destruct (Hj j m1 Hm1) as (m2 & Hm2 & K2 & S2).
    exists m2. split; [done|]. split; [congruence|]. rewrite fmap_app, not_elem_of_app. intros [N1 N2]. rewrite S2; [auto|].
    rewrite K1. intros E. apply N2. rewrite E. left.
  - intros m Hm. rewrite fmap_app, elem_of_app. destruct (Hnew m Hm) as [H1|H1].
    + apply list_elem_of_fmap in H1 as (m0 & E & H0). rewrite E. destruct (Lw m0 H0); auto.
    + rewrite H1. right. right. left.
  - intros e r' (E & m & Hm & Km). split; [done|]. destruct (Hj _ m Hm) as (m' & Hm' & K' & _). exists m'. split; [done|congruence].
Qed.

Lemma load_server_row_spec n h0 ds r h : 0 <= n -> heap_ok (Z.to_nat n) h0 -> rows_loaded (Z.to_nat n) h0 ds h -> row_ok r -> consistent (ds ++ [r]) ->
  exists h', load_server_row n r h = Some h' /\ rows_loaded (Z.to_nat n) h0 (ds ++ [r]) h'.
Proof.
  intros Hn Hok Hl Hr Hc. destruct (status_of_total (s_status r) (ro_status _ Hr)) as [st Hst].
  destruct (upsert_loaded _ h0 ds r h st Hl Hr Hc Hst) as (i & h1 & ms & Hrun & Ha & Hh & Hi & Hms & Hk1 & Hn1 & Hrows & Hold & Hnew & Hpt).
  unfold load_server_row. rewrite Hst, bind_Some, Hrun, bind_Some. pose proof (status_of_online _ _ Hst) as Hon.
  assert (forall j, List.filter (in_group j) (ds ++ [r]) = List.filter (in_group j) ds ++ if in_group j r then [r] else []) as Hfil
    by (intros j; rewrite List.filter_app; cbn; by destruct (in_group j r)).
  assert (forall h', h_servers h' = h_servers h1 -> h_hostgroups h' = h_hostgroups h1 ->
    (forall j a, (j < Z.to_nat n)%nat -> h_hostgroups h0 !! j = Some a ->
       exists sl, h_arrays h' !! a = Some sl /\ Forall2 (points_to h1) sl (List.filter (in_group j) (ds ++ [r]))) ->
    rows_loaded (Z.to_nat n) h0 (ds ++ [r]) h') as Hbuild.
  { intros h' Es Eh Hg. split; rewrite ?Es; try done; [congruence|]. intros j a Hj Haj. destruct (Hg j a Hj Haj) as (sl & H1 & H2).
    exists sl. split; [done|]. eapply Forall2_impl; [exact H2|]. intros e r' (E & m & Hm & Km). split; [done|]. exists m. by rewrite Es. }
  assert (forall j, (j < Z.to_nat n)%nat -> in_group j r = false ->
    forall a, h_hostgroups h0 !! j = Some a -> exists sl, h_arrays h1 !! a = Some sl /\ Forall2 (points_to h1) sl (List.filter (in_group j) (ds ++ [r]))) as Hkeep.
  { intros j Hj Hin a Haj. destruct (rl_groups _ _ _ _ Hl j a Hj Haj) as (sl & H1 & H2). exists sl. rewrite Ha. split; [done|].
    rewrite Hfil, Hin, app_nil_r. eapply Forall2_impl; [exact H2|]. auto. }
  destruct (decide (st = ONLINE)) as [->|Hne].
  2: { assert (forall j, in_group j r = false) as Hoff.
       { intros j. unfold in_group. destruct (Z.eqb_spec (s_status r) 3); [destruct Hne; by apply Hon|]. apply andb_false_r. }
       exists h1. split; [by destruct st|]. apply Hbuild; [done|done|]. intros j a Hj Haj. by apply Hkeep. }
  assert (s_status r = 3) as H3 by (by apply Hon). unfold entry_add_hostgroup. pose proof (ro_hostgroup _ Hr) as Hhg.
  destruct (Z.leb_spec n (s_hostgroup_id r)) as [Hge|Hlt].
  { exists h1. split; [done|]. apply Hbuild; [done|done|]. intros j a Hj Haj. apply Hkeep; try done.
    unfold in_group. rewrite (proj2 (Z.eqb_neq _ _)) by lia. done. }
  rewrite (proj2 (Z.ltb_ge _ _)) by lia. set (g := Z.to_nat (s_hostgroup_id r)). assert (g < Z.to_nat n)%nat as Hg by lia.
  destruct (h_hostgroups h0 !! g) as [a|] eqn:Eg; [|apply lookup_ge_None in Eg; pose proof (ho_groups _ _ Hok); lia].
  destruct (rl_groups _ _ _ _ Hl g a Hg Eg) as (sl & Hsl & Hpts). rewrite Hh, Eg, bind_Some, Ha, Hsl, bind_Some.
  eexists. split; [reflexivity|]. apply Hbuild; [done|cbn; congruence|]. cbn [h_arrays upd heap_eta]. intros j b Hj Hb.
  destruct (decide (j = g)) as [->|Hjg].
  - rewrite Eg in Hb. injection Hb as <-. rewrite list_lookup_insert_eq by (by apply lookup_lt_Some in Hsl). eexists. split; [done|].
    rewrite Hfil. assert (in_group g r = true) as -> by (unfold in_group; rewrite H3, (proj2 (Z.eqb_eq _ _)) by lia; done).
    apply Forall2_app; [eapply Forall2_impl; [exact Hpts|]; auto|]. constructor; [|constructor]. split; [done|]. exists ms. split; [done|]. apply Hms.
  - assert (a <> b).
    { intros ->. apply Hjg. pose proof (ho_distinct _ _ Hok) as Hd.
      apply (NoDup_lookup _ j g b Hd); rewrite lookup_take_lt by lia; done. }
    rewrite list_lookup_insert_ne by done. rewrite <- Ha. apply Hkeep; try done.
    unfold in_group. rewrite (proj2 (Z.eqb_neq _ _)) by lia. done.
Qed.

Lemma load_server_rows_spec n h0 rows : 0 <= n -> heap_ok (Z.to_nat n) h0 -> forall ds h, rows_loaded (Z.to_nat n) h0 ds h ->
  Forall row_ok rows -> consistent (ds ++ rows) ->
  exists h', load_server_rows n rows h = Some h' /\ rows_loaded (Z.to_nat n) h0 (ds ++ rows) h'.
Proof.
  intros Hn Hok. induction rows as [|r rows IH]; intros ds h Hl Hr Hc; [exists h; by rewrite app_nil_r|].
  apply Forall_cons in Hr as [Hr Hrs]. destruct (load_server_row_spec n h0 ds r h Hn Hok Hl Hr) as (h1 & Hrun & Hl1).
  { intros r1 r2 H1 H2. apply Hc; (rewrite elem_of_app in *; rewrite list_elem_of_singleton in *; rewrite elem_of_cons; tauto). }
  cbn [load_server_rows]. rewrite Hrun, bind_Some. destruct (IH (ds ++ [r]) h1 Hl1 Hrs) as (h' & Hrun' & Hl').
  - by rewrite <- app_assoc.
  - exists h'. rewrite <- app_assoc in Hl'. done.
Qed.

Lemma same_server h ms1 ms2 : NoDup (server_key <$> h_servers h) -> ms1 ∈ h_servers h -> ms2 ∈ h_servers h -> server_key ms1 = server_key ms2 -> ms1 = ms2.
Proof.
  intros Hd [i Hi]%list_elem_of_lookup_1 [j Hj]%list_elem_of_lookup_1 E.
  assert (i = j) as <- by (apply (NoDup_lookup _ i j (server_key ms1) Hd); rewrite list_lookup_fmap; [by rewrite Hi|by rewrite Hj, E]).
  congruence.
Qed.

(** A fresh entry for the server of a row. *)
Definition entry_of_row (e : MSHGE) (r : server_row) : Prop :=
  server_of_row r (MSptr e) /\ connections_created e = 0 /\ connections_active e = 0 /\ sbytes_recv e = 0 /\ sbytes_sent e = 0.

Lemma points_view n h0 rows h sl i : rows_loaded n h0 rows h -> Forall2 (points_to h) sl (List.filter (in_group i) rows) ->
  exists es, mapM (entry_view (h_servers h)) sl = Some es /\ Forall2 entry_of_row es (List.filter (in_group i) rows).
Proof.
  intros Hl Hp.
  assert (Forall (fun r => r ∈ rows) (List.filter (in_group i) rows)) as Hsub.
  { apply Forall_forall. intros r Hr%list_elem_of_In. apply filter_In in Hr as [Hr _]. by apply list_elem_of_In. }
  revert Hsub. induction Hp as [|e r sl rs (Ee & ms & Hms & Hk) _ IH]; intros Hsub; [by exists []|].
  apply Forall_cons in Hsub as [Hr Hsub]. destruct (IH Hsub) as (es & Hes & Hf).
  destruct (rl_rows _ _ _ _ Hl r Hr) as (ms' & Hin & Hrow).
  assert (ms = ms') as -> by (apply (same_server h); [apply Hl|by apply (list_elem_of_lookup_2 _ (ms_ptr e))|done|destruct Hrow as [-> _]; done]).
  exists (mkMSHGE ms' 0 0 0 0 :: es). split.
  - cbn. unfold entry_view. rewrite Hms. cbn. rewrite Ee. cbn. change (mapM _ sl) with (mapM (entry_view (h_servers h)) sl). by rewrite Hes.
  - constructor; done.
Qed.

Lemma flush_servers_spec n rows h : 0 <= n -> heap_ok (Z.to_nat n) h -> Forall row_ok rows -> consistent rows ->
  exists freed h1 h', sqlite3_flush_servers_db_to_mem n rows h = Some (Z.of_nat (length rows), freed, h') /\
    freed ≡ₚ group_entries h (take (Z.to_nat n) (h_hostgroups h)) /\
    h_servers h1 = h_servers h /\ h_hostgroups h1 = h_hostgroups h ++ take (Z.to_nat n) (h_hostgroups h) /\
    rows_loaded (Z.to_nat n) h1 rows h' /\ heap_ok (Z.to_nat n) h1.
Proof.
  intros Hn Hok Hr Hc. destruct (reset_hostgroups_spec (Z.to_nat n) 0 h) as (freed & h1 & Hrun & Hs & Hg & Ha & Hp).
  - apply Hok.
  - rewrite drop_0. apply Hok.
  - rewrite drop_0. apply Hok.
  - rewrite drop_0 in *. pose proof (ho_groups _ _ Hok) as Hlen.
    assert (take (Z.to_nat n) (h_hostgroups h1) = take (Z.to_nat n) (h_hostgroups h)) as Htk by (rewrite Hg; by rewrite take_app_le by lia).
    assert (heap_ok (Z.to_nat n) h1) as Hok1.
    { split; rewrite ?Htk, ?Hs; try apply Hok; [rewrite Hg, length_app; lia|]. intros a Hin. rewrite Ha, decide_True by done. eauto. }
    destruct (load_server_rows_spec n h1 rows Hn Hok1 [] h1) as (h' & Hrun' & Hl); [|done|done|].
    { split; rewrite ?Hs; try done; try apply Hok.
      - intros r Hr'. by apply elem_of_nil in Hr'.
      - eauto.
      - intros ms Hms. left. by apply list_elem_of_fmap_2.
      - intros i a Hi Hia. exists []. split; [|constructor]. rewrite Ha, decide_True; [done|]. rewrite <- Htk.
        apply (list_elem_of_lookup_2 _ i). by rewrite lookup_take_lt. }
    exists freed, h1, h'. unfold sqlite3_flush_servers_db_to_mem. rewrite Hrun, bind_Some, Hrun', bind_Some. done.
Qed.

Lemma rows_loaded_heap_ok n h1 rows h' : heap_ok n h1 -> rows_loaded n h1 rows h' -> heap_ok n h'.
Proof.
  intros Hok1 Hl. split; rewrite ?(rl_hostgroups _ _ _ _ Hl); try apply Hok1; try apply Hl. intros a Hin.
  apply list_elem_of_lookup_1 in Hin as [i Hi]. apply lookup_take_Some in Hi as [Hi Hlt].
  destruct (rl_groups _ _ _ _ Hl i a Hlt Hi) as (sl & Hsl & _). eauto.
Qed.

(** A row that puts an online server into a negative host group writes before the array of the host groups. *)
Theorem negative_hostgroup_overruns n r rest h : 0 <= n -> s_hostgroup_id r < 0 -> s_status r = 3 -> load_server_rows n (r :: rest) h = None.
Proof.
  intros Hn Hneg Hst. cbn [load_server_rows]. unfold load_server_row. rewrite Hst. change (status_of 3) with (Some ONLINE). rewrite bind_Some.
  destruct (upsert r ONLINE h) as [[ms h1]|]; [|done]. rewrite bind_Some. unfold entry_add_hostgroup.
  rewrite (proj2 (Z.leb_gt _ _)), (proj2 (Z.ltb_lt _ _)) by lia. done.
Qed.

(** C20: FLUSH HOSTGROUPS: afterwards host group [i] holds exactly one fresh entry for every row that puts an online server into it, in the order of
    the rows, and the entry points to the server with the address, port, [read_only] and status of the row; a server known before keeps its place and,
    when no row names it, its values; rows whose host group is the number of the configured ones or more are counted but add no entry; all entries of
    before are freed; and the state is one from which the next FLUSH HOSTGROUPS starts, the array of the host groups longer by their number. The rows
    of the join of the three tables have to be sane: no negative host group (the tables do not forbid it, and an online server in one is written
    before the array, negative_hostgroup_overruns), the status one of the four (as in [server_status]), no NUL in the names, and the rows of one
    server agree on [read_only] and status (as the primary key of [servers] makes them, for ports within 16 bits). *)
Theorem flush_servers_correct n rows h :
  0 <= n -> heap_ok (Z.to_nat n) h -> Forall row_ok rows -> consistent rows ->
  exists freed h', sqlite3_flush_servers_db_to_mem n rows h = Some (Z.of_nat (length rows), freed, h') /\
    (forall i, (i < Z.to_nat n)%nat -> exists a es, h_hostgroups h' !! i = Some a /\ group_view h' a = Some es /\
       Forall2 entry_of_row es (List.filter (in_group i) rows)) /\
    (forall r, r ∈ rows -> exists ms, ms ∈ h_servers h' /\ server_of_row r ms) /\
    (forall j ms, h_servers h !! j = Some ms -> exists ms', h_servers h' !! j = Some ms' /\ server_key ms' = server_key ms /\
       (server_key ms ∉ row_key <$> rows -> ms' = ms)) /\
    freed ≡ₚ group_entries h (take (Z.to_nat n) (h_hostgroups h)) /\
    h_hostgroups h' = h_hostgroups h ++ take (Z.to_nat n) (h_hostgroups h) /\ heap_ok (Z.to_nat n) h'.
Proof.
  intros Hn Hok Hr Hc. destruct (flush_servers_spec n rows h Hn Hok Hr Hc) as (freed & h1 & h' & Hrun & Hp & Hs & Hg & Hl & Hok1).
  exists freed, h'. split; [done|]. pose proof (ho_groups _ _ Hok) as Hlen.
  assert (forall i, (i < Z.to_nat n)%nat -> exists a, h_hostgroups h1 !! i = Some a) as Hidx.
  { intros i Hi. destruct (h_hostgroups h1 !! i) eqn:E; [eauto|]. apply lookup_ge_None in E. rewrite Hg, length_app in E. lia. }
  split; [|split; [apply Hl|split; [|split; [done|split]]]].
  - intros i Hi. destruct (Hidx i Hi) as [a Hia]. destruct (rl_groups _ _ _ _ Hl i a Hi Hia) as (sl & Hsl & Hpts).
    destruct (points_view _ _ _ _ _ i Hl Hpts) as (es & Hes & Hf). exists a, es. rewrite (rl_hostgroups _ _ _ _ Hl). split; [done|].
    unfold group_view. rewrite Hsl. split; [exact Hes|done].
  - rewrite <- Hs. apply Hl.
  - rewrite (rl_hostgroups _ _ _ _ Hl). exact Hg.
  - exact (rows_loaded_heap_ok _ _ _ _ Hok1 Hl).
Qed.

Definition sample_heap : server_heap :=
  mkHeap [mkServer (c_lit "db1") 3306 0 ONLINE 4 1] [[mkEntryRef 0 3 1 0 0]; []] [0%nat; 1%nat].
Definition sample_rows : list server_row :=
  [mkServerRow 0 (c_lit "db1") 3306 0 3; mkServerRow 1 (c_lit "db1") 3306 0 3; mkServerRow 1 (c_lit "db2") 3307 1 3; mkServerRow 1 (c_lit "db3") 3307 1 1].

Lemma flush_servers_correct_witness : exists freed h', sqlite3_flush_servers_db_to_mem 2 sample_rows sample_heap = Some (4, freed, h') /\
  (exists a es, h_hostgroups h' !! 1%nat = Some a /\ group_view h' a = Some es /\ length es = 2%nat).
Proof.
  destruct (flush_servers_correct 2 sample_rows sample_heap) as (freed & h' & Hrun & Hg & _).
  - lia.
  - split; [cbn; lia| | | |].
    + apply (bool_decide_eq_true_1 _). vm_compute. reflexivity.
    + intros a Ha. repeat (apply elem_of_cons in Ha as [->|Ha]; [by eexists|]). by apply elem_of_nil in Ha.
    + apply (bool_decide_eq_true_1 _). vm_compute. reflexivity.
    + repeat constructor. apply (bool_decide_eq_true_1 _). vm_compute. reflexivity.
  - repeat constructor; cbn; try lia; apply (bool_decide_eq_true_1 _); vm_compute; reflexivity.
  - intros r1 r2 H1 H2. repeat (apply elem_of_cons in H1 as [->|H1]; [|]); try (by apply elem_of_nil in H1);
      repeat (apply elem_of_cons in H2 as [->|H2]; [|]); try (by apply elem_of_nil in H2); intros E; try done; discriminate E.
  - exists freed, h'. split; [exact Hrun|]. destruct (Hg 1%nat) as (a & es & H1 & H2 & H3); [cbn; lia|]. exists a, es. split; [done|]. split; [done|].
    apply Forall2_length in H3. exact H3.
Defined.

(** *** From the configuration file to the host groups *)

(** The join of the three tables in [sqlite3_flush_servers_db_to_mem], as SQL defines it up to the order of the rows. *)
Definition join_rows (hs : list (Z * list byte * Z)) (ss : list (list byte * Z * Z * Z)) (statuses : list Z) : list server_row :=
  mjoin ((fun '(hg, a, p) =>
    (fun '(_, _, ro, st) => mkServerRow hg a p ro st) <$>
      List.filter (fun '(a', p', _, st) => bool_decide (a' = a) && (p' =? p) && bool_decide (st ∈ statuses)) ss) <$> hs).

Lemma list_filter_perm {A} (f : A -> bool) l k : l ≡ₚ k -> List.filter f l ≡ₚ List.filter f k.
Proof. induction 1; cbn; repeat case_match; try done; try (by constructor). by etransitivity. Qed.

Lemma worth_saving_online ms : worth_saving ms = true -> status_number (status ms) = 3.
Proof. unfold worth_saving. intros [H _]%andb_prop. by apply Z.eqb_eq. Qed.

(** The row of a server that is saved is found again by its address and port. *)
Lemma join_finds l ms : NoDup (server_key <$> l) -> ms ∈ l -> worth_saving ms = true ->
  List.filter (fun '(a', p', _, st) => bool_decide (a' = address ms) && (p' =? port ms) && bool_decide (st ∈ [0; 1; 2; 3])) (servers_rows l) =
  [(address ms, port ms, read_only ms, status_number (status ms))].
Proof.
  unfold servers_rows. induction l as [|m l IH]; intros Hd Hin Hw; [by apply elem_of_nil in Hin|].
  cbn in Hd. apply NoDup_cons in Hd as [Hn Hd]. cbn [List.filter].
  assert (forall m', m' ∈ l -> bool_decide (address m' = address m) && (port m' =? port m) = false) as Hother.
  { intros m' Hm'. destruct (bool_decide_reflect (address m' = address m)) as [E1|]; [|done]. destruct (Z.eqb_spec (port m') (port m)) as [E2|]; [|done].
    destruct Hn. replace (server_key m) with (server_key m') by (unfold server_key; congruence). by apply list_elem_of_fmap_2. }
  apply elem_of_cons in Hin as [->|Hin].
  - rewrite Hw. cbn. rewrite bool_decide_eq_true_2, Z.eqb_refl, bool_decide_eq_true_2 by (try rewrite (worth_saving_online m Hw); set_solver). cbn. f_equal.
    clear IH Hw Hd Hn. induction l as [|m' l IH]; [done|]. cbn [List.filter]. specialize (IH ltac:(intros x Hx; apply Hother; by right)).
    destruct (worth_saving m'); [|exact IH]. cbn. rewrite Hother by left. exact IH.
  - specialize (IH Hd Hin Hw). destruct (worth_saving m); [|exact IH]. cbn.
    assert (bool_decide (address m = address ms) && (port m =? port ms) = false) as ->; [|exact IH].
    specialize (Hother ms Hin). destruct (bool_decide_reflect (address m = address ms)) as [E1|]; [|done]. destruct (Z.eqb_spec (port m) (port ms)) as [E2|]; [|done].
    rewrite E1, E2, bool_decide_eq_true_2, Z.eqb_refl in Hother by done. done.
Qed.

(** The rows of one server. *)
Definition rows_of_server (ms : mysql_server) : list server_row :=
  if worth_saving ms then mkServerRow 1 (address ms) (port ms) (read_only ms) 3 ::
                          (if read_only ms =? 0 then [mkServerRow 0 (address ms) (port ms) (read_only ms) 3] else [])
  else [].

Lemma join_saved l k : NoDup (server_key <$> l) -> (forall ms, ms ∈ k -> ms ∈ l) ->
  join_rows (hostgroups_rows k) (servers_rows l) [0; 1; 2; 3] = mjoin (rows_of_server <$> k).
Proof.
  intros Hd. unfold join_rows, hostgroups_rows. induction k as [|ms k IH]; intros Hsub; [done|].
  rewrite !fmap_cons, !mjoin_cons, fmap_app, mjoin_app. rewrite IH by (intros; apply Hsub; by right). f_equal.
  pose proof (join_finds l ms Hd (Hsub ms ltac:(left))) as Hj. unfold rows_of_server. destruct (worth_saving ms) eqn:Hw.
  - specialize (Hj eq_refl). pose proof (worth_saving_online ms Hw) as Hst. rewrite Hst in *. change (3 =? 3) with true. cbv iota.
    assert ((read_only ms =? 0) || (read_only ms =? 1) = true) as -> by (unfold worth_saving in Hw; by apply andb_prop in Hw as [_ ?]).
    destruct (read_only ms =? 0); cbn [app fmap list_fmap]; rewrite !mjoin_cons, Hj; done.
  - unfold worth_saving in Hw. destruct (status_number (status ms) =? 3); [|done]. cbn in Hw. rewrite Hw. apply orb_false_iff in Hw as [-> _]. done.
Qed.

Lemma rows_group l i : List.filter (in_group i) (mjoin (rows_of_server <$> l)) =
  mjoin ((fun ms => List.filter (in_group i) (rows_of_server ms)) <$> l).
Proof. induction l as [|ms l IH]; [done|]. by rewrite !fmap_cons, !mjoin_cons, List.filter_app, IH. Qed.

Definition usable_server (ms : mysql_server) : Prop := 0 <= port ms < 2 ^ 16 /\ Byte.x00 ∉ address ms.

Lemma group_keys l i : Forall usable_server l ->
  row_key <$> mjoin ((fun ms => List.filter (in_group i) (rows_of_server ms)) <$> l) =
  match i with
  | 0%nat => server_key <$> List.filter (fun ms => worth_saving ms && (read_only ms =? 0)) l
  | 1%nat => server_key <$> List.filter worth_saving l
  | _ => []
  end.
Proof.
  intros Hall. induction Hall as [|ms l [Hp _] _ IH]; [by destruct i as [|[|]]|]. rewrite fmap_cons, mjoin_cons, fmap_app, IH. cbn [List.filter].
  assert (forall hg ro, row_key (mkServerRow hg (address ms) (port ms) ro 3) = server_key ms) as Hk
    by (intros; unfold row_key, server_key; cbn; by rewrite uwrap_small by lia).
  assert (forall a p ro j hg, in_group j (mkServerRow hg a p ro 3) = (hg =? Z.of_nat j)) as Hg by (intros; unfold in_group; cbn; apply andb_true_r).
  unfold rows_of_server. destruct (worth_saving ms); [|by destruct i as [|[|]]]. destruct i as [|[|i]].
  - destruct (read_only ms =? 0); cbn [List.filter andb app]; rewrite !(Hg _ _ _ 0%nat 1), ?(Hg _ _ _ 0%nat 0); change (1 =? Z.of_nat 0) with false; change (0 =? Z.of_nat 0) with true; cbv iota; rewrite ?fmap_cons, ?Hk; done.
  - destruct (read_only ms =? 0); cbn [List.filter andb app]; rewrite !(Hg _ _ _ 1%nat 1), ?(Hg _ _ _ 1%nat 0); change (1 =? Z.of_nat 1) with true; change (0 =? Z.of_nat 1) with false; cbv iota; rewrite ?fmap_cons, ?Hk; done.
  - clear - i. cbn [List.filter]. assert (forall hg a p ro, hg = 0 \/ hg = 1 -> in_group (S (S i)) (mkServerRow hg a p ro 3) = false) as H.
    { intros hg a p ro H. unfold in_group. cbn [s_hostgroup_id]. rewrite (proj2 (Z.eqb_neq _ _)) by lia. done. }
    rewrite H by auto. destruct (read_only ms =? 0); [|done]. cbn [List.filter]. rewrite H by auto. done.
Qed.

(** The first start with an empty database: once the servers of the configuration file were saved into the tables and loaded from there, host group 1 holds every server that answered,
    host group 0 those of them that are not [read_only], and all other host groups are empty. *)
Theorem first_start_hostgroups n l h rows :
  2 <= n -> heap_ok (Z.to_nat n) h -> h_servers h = l -> Forall usable_server l ->
  rows ≡ₚ join_rows (sqlite3_flush_servers_mem_to_db 0 0 0 l).2 (sqlite3_flush_servers_mem_to_db 0 0 0 l).1.2
            (fst <$> (sqlite3_flush_servers_mem_to_db 0 0 0 l).1.1) ->
  exists freed h', sqlite3_flush_servers_db_to_mem n rows h = Some (Z.of_nat (length rows), freed, h') /\
    forall i, (i < Z.to_nat n)%nat -> exists a es, h_hostgroups h' !! i = Some a /\ group_view h' a = Some es /\
      Forall (fun e => status (MSptr e) = ONLINE) es /\
      server_key <$> (MSptr <$> es) ≡ₚ
        match i with
        | 0%nat => server_key <$> List.filter (fun ms => worth_saving ms && (read_only ms =? 0)) l
        | 1%nat => server_key <$> List.filter worth_saving l
        | _ => []
        end.
Proof.
  intros Hn Hok Hl Hus Hrows. cbn [sqlite3_flush_servers_mem_to_db Z.eqb fst snd] in Hrows.
  change (fst <$> server_status_rows) with [0; 1; 2; 3] in Hrows.
  assert (NoDup (server_key <$> l)) as Hd by (rewrite <- Hl; apply Hok). rewrite join_saved in Hrows by done.
  assert (forall r, r ∈ rows -> exists ms, ms ∈ l /\ r ∈ rows_of_server ms) as Hin.
  { intros r Hr. rewrite Hrows in Hr. apply list_elem_of_join in Hr as (x & Hx & Hr). apply list_elem_of_fmap in Hr as (ms & -> & Hms). eauto. }
  assert (forall r ms, r ∈ rows_of_server ms -> s_hostname r = address ms /\ s_port r = port ms /\ s_read_only r = read_only ms /\ s_status r = 3 /\ 0 <= s_hostgroup_id r) as Hrow.
  { intros r ms Hr. unfold rows_of_server in Hr. destruct (worth_saving ms); [|by apply elem_of_nil in Hr].
    apply elem_of_cons in Hr as [->|Hr]; [cbn; split_and!; (done || lia)|]. destruct (read_only ms =? 0); [|by apply elem_of_nil in Hr].
    apply list_elem_of_singleton in Hr as ->. cbn. split_and!; (done || lia). }
  assert (forall r, r ∈ rows -> exists ms, ms ∈ l /\ row_key r = server_key ms /\ s_read_only r = read_only ms /\ s_status r = 3 /\ row_ok r) as Hrow2.
  { intros r Hr. destruct (Hin r Hr) as (ms & Hms & Hrm). destruct (Hrow r ms Hrm) as (E1 & E2 & E3 & E4 & E5). exists ms.
    rewrite Forall_forall in Hus. destruct (Hus ms Hms) as [Hp Hnul]. unfold row_key, server_key. rewrite E1, E2, uwrap_small by lia.
    split_and!; try done. split; [done|lia|by rewrite E1]. }
  destruct (flush_servers_spec n rows h) as (freed & h1 & h' & Hrun & _ & _ & Hg & Hld & Hok1); [lia|done| | |].
  { apply Forall_forall. intros r Hr. destruct (Hrow2 r Hr) as (? & _ & _ & _ & _ & ?). done. }
  { intros r1 r2 H1 H2 E. destruct (Hrow2 r1 H1) as (m1 & M1 & K1 & R1 & S1 & _), (Hrow2 r2 H2) as (m2 & M2 & K2 & R2 & S2 & _).
    assert (m1 = m2) as -> by (apply (same_server h); rewrite ?Hl; congruence). split; congruence. }
  exists freed, h'. split; [done|]. intros i Hi.
  destruct (h_hostgroups h1 !! i) as [a|] eqn:Ea; [|apply lookup_ge_None in Ea; pose proof (ho_groups _ _ Hok1); lia].
  destruct (rl_groups _ _ _ _ Hld i a Hi Ea) as (sl & Hsl & Hpts). destruct (points_view _ _ _ _ _ i Hld Hpts) as (es & Hes & Hf).
  exists a, es. rewrite (rl_hostgroups _ _ _ _ Hld). split; [done|]. unfold group_view. rewrite Hsl. split; [exact Hes|]. split.
  - apply Forall_forall. intros e He. apply list_elem_of_lookup_1 in He as [j Hj]. destruct (Forall2_lookup_l _ _ _ _ _ Hf Hj) as (r & Hr & [(_ & _ & Hst) _]).
    apply (list_elem_of_lookup_2 _ j), list_elem_of_In, filter_In in Hr as [Hr _]. apply list_elem_of_In in Hr.
    destruct (Hrow2 r Hr) as (_ & _ & _ & _ & E3 & _). rewrite E3 in Hst. by injection Hst as <-.
  - rewrite <- (group_keys l i Hus), <- rows_group, <- (list_filter_perm _ _ _ Hrows). apply reflexive_eq. clear - Hf.
    induction Hf as [|e r es rs [(K & _) _] _ IH]; [done|]. rewrite !fmap_cons, IH, K. done.
Qed.

Definition first_servers : list mysql_server :=
  [mkServer (c_lit "db1") 3306 0 ONLINE 0 0; mkServer (c_lit "db2") 3306 1 ONLINE 0 0; mkServer (c_lit "db3") 3306 0 OFFLINE_HARD 0 0].

Lemma first_start_hostgroups_witness : exists freed h',
  sqlite3_flush_servers_db_to_mem 2 (join_rows (hostgroups_rows first_servers) (servers_rows first_servers) [0; 1; 2; 3])
    (mkHeap first_servers [[]; []] [0%nat; 1%nat]) = Some (3, freed, h') /\
  exists a es, h_hostgroups h' !! 1%nat = Some a /\ group_view h' a = Some es /\ length es = 2%nat.
Proof.
  destruct (first_start_hostgroups 2 first_servers (mkHeap first_servers [[]; []] [0%nat; 1%nat])
    (join_rows (hostgroups_rows first_servers) (servers_rows first_servers) [0; 1; 2; 3])) as (freed & h' & Hrun & Hg).
  - lia.
  - split; [cbn; lia| | | |].
    + apply (bool_decide_eq_true_1 _). vm_compute. reflexivity.
    + intros a Ha. repeat (apply elem_of_cons in Ha as [->|Ha]; [by eexists|]). by apply elem_of_nil in Ha.
    + apply (bool_decide_eq_true_1 _). vm_compute. reflexivity.
    + repeat constructor; apply (bool_decide_eq_true_1 _); vm_compute; reflexivity.
  - reflexivity.
  - repeat constructor; cbn; try lia; apply (bool_decide_eq_true_1 _); vm_compute; reflexivity.
  - reflexivity.
  - exists freed, h'. split; [exact Hrun|]. destruct (Hg 1%nat) as (a & es & H1 & H2 & _ & H3); [cbn; lia|]. exists a, es. split; [done|]. split; [done|].
    apply Permutation_length in H3. rewrite !length_fmap in H3. exact H3.
Defined.

(** ** The reports *)

Lemma c_udec_length z : 0 <= z < 2 ^ 64 -> (length (c_udec z) <= 20)%nat.
Proof. intros Hz. apply dec_digits_length; [done|]. change (10 ^ Z.of_nat 20) with 100000000000000000000. lia. Qed.

Lemma i32_length z : - 2 ^ 31 <= z < 2 ^ 31 -> (length (c_dec z) <= 11)%nat.
Proof. intros Hz. apply c_dec_length; [done|]. change (10 ^ (Z.of_nat 11 - 1)) with 10000000000. change (10 ^ Z.of_nat 11) with 100000000000. lia. Qed.

Record printable (ms : mysql_server) : Prop := {
  pr_port : 0 <= port ms < 2 ^ 16; pr_read_only : - 2 ^ 31 <= read_only ms < 2 ^ 31 }.

Lemma port_length ms : printable ms -> (length (c_dec (port ms)) <= 5)%nat.
Proof. intros [H _]. apply c_dec_length; [done|]. change (10 ^ (Z.of_nat 5 - 1)) with 10000. change (10 ^ Z.of_nat 5) with 100000. lia. Qed.

Lemma hostgroup_statement_fits i e : 0 <= i < 2 ^ 31 -> printable (MSptr e) -> 0 <= sbytes_recv e < 2 ^ 64 -> 0 <= sbytes_sent e < 2 ^ 64 ->
  (S (length (hostgroup_statement i e)) <= query1_length + length (address (MSptr e)) + 14 + 80)%nat.
Proof.
  intros Hi Hp Hr Hs. unfold hostgroup_statement. rewrite !length_app.
  pose proof (i32_length i ltac:(lia)). pose proof (port_length _ Hp).
  pose proof (c_udec_length (u64 (connections_active e)) (uwrap_range 64 _ ltac:(lia))). pose proof (c_udec_length (u64 (connections_created e)) (uwrap_range 64 _ ltac:(lia))).
  pose proof (c_udec_length (sbytes_sent e) Hs). pose proof (c_udec_length (sbytes_recv e) Hr).
  assert (query1_length = 76%nat) as -> by reflexivity.
  repeat match goal with |- context [length (c_lit ?s)] => let k := eval vm_compute in (length (c_lit s)) in change (length (c_lit s)) with k end.
  change (length c_quote) with 1%nat. lia.
Qed.

Lemma server_statement_fits ms : printable ms -> (S (length (server_statement ms)) <= query2_length + length (address ms) + 24)%nat.
Proof.
  intros Hp. unfold server_statement. rewrite !length_app. pose proof (port_length _ Hp). pose proof (i32_length (read_only ms) (pr_read_only _ Hp)).
  assert (length (c_dec (status_number (status ms))) = 1%nat) as -> by (by destruct (status ms)).
  assert (query2_length = 53%nat) as -> by reflexivity.
  repeat match goal with |- context [length (c_lit ?s)] => let k := eval vm_compute in (length (c_lit s)) in change (length (c_lit s)) with k end.
  change (length c_quote) with 1%nat. lia.
Qed.

Record reportable (g : global_mysql_servers) : Prop := {
  rp_servers : Forall printable (servers g);
  rp_entries : forall sl, sl ∈ hostgroups g ->
    Forall (fun e => printable (MSptr e) /\ 0 <= sbytes_recv e < 2 ^ 64 /\ 0 <= sbytes_sent e < 2 ^ 64) sl }.

Lemma mapM_total {A B} (f : A -> option B) l : Forall (fun x => is_Some (f x)) l -> exists k, mapM f l = Some k /\ length k = length l.
Proof.
  induction 1 as [|x l [y Hy] _ (k & Hk & Hl)]; [by exists []|]. exists (y :: k). cbn. rewrite Hy. cbn. change (mapM f l) with (mapM f l). rewrite Hk. cbn. by rewrite Hl.
Qed.

(** The report of the running host groups: every statement fits into the block allocated for it, whatever the counters, and there is one row for every
    entry of a configured host group and one for every server. *)
Theorem runtime_statements_fit n g : 0 <= n < 2 ^ 31 -> (Z.to_nat n <= length (hostgroups g))%nat -> reportable g ->
  exists rows, sqlite3_dump_runtime_hostgroups n g = Some (Z.of_nat (length rows), rows) /\
    length rows = (sum_list (length <$> take (Z.to_nat n) (hostgroups g)) + length (servers g))%nat.
Proof.
  intros Hn Hlen [Hs He]. unfold sqlite3_dump_runtime_hostgroups.
  assert (exists gs, mapM (fun i => sl ← hostgroups g !! i; dump_group i sl) (seq 0 (Z.to_nat n)) = Some gs /\
    length (mjoin gs) = sum_list (length <$> take (Z.to_nat n) (hostgroups g))) as (gs & -> & Hgl).
  { assert (forall k i (l : list (list MSHGE)), (k <= length l)%nat -> (forall j, (j < k)%nat -> hostgroups g !! (i + j)%nat = l !! j) -> (i + k <= Z.to_nat n)%nat ->
      exists gs, mapM (fun i => sl ← hostgroups g !! i; dump_group i sl) (seq i k) = Some gs /\ length (mjoin gs) = sum_list (length <$> take k l)) as Hgen.
    { induction k as [|k IH]; intros i l Hl Hj Hi; [by exists []|]. destruct l as [|sl l]; [cbn in Hl; lia|].
      cbn [seq]. destruct (IH (S i) l) as (gs & Hgs & Hgl); [cbn in Hl; lia| |lia|].
      { intros j Hj'. replace (S i + j)%nat with (i + S j)%nat by lia. rewrite Hj by lia. done. }
      assert (hostgroups g !! i = Some sl) as Esl by (rewrite <- (Nat.add_0_r i), Hj by lia; done).
      destruct (mapM_total (fun e => fits_block (query1_length + length (address (MSptr e)) + 14 + 80) (hostgroup_statement (Z.of_nat i) e)) sl) as (k' & Hk' & Hkl).
      { apply (Forall_impl _ _ _ (He sl (list_elem_of_lookup_2 _ i _ Esl))). intros e (Hp & Hr & Hse). unfold fits_block.
        rewrite decide_True; [eauto|]. apply hostgroup_statement_fits; (done || lia). }
      change (dump_group i sl = Some k') in Hk'. exists (k' :: gs). cbn [mapM]. rewrite Esl, bind_Some, Hk', bind_Some, Hgs, bind_Some. split; [done|].
      cbn [take fmap list_fmap sum_list]. rewrite mjoin_cons, length_app, Hgl, Hkl. done. }
    apply (Hgen (Z.to_nat n) 0%nat (hostgroups g)); (done || lia). }
  destruct (mapM_total (fun ms => fits_block (query2_length + length (address ms) + 24) (server_statement ms)) (servers g)) as (ss & Hss & Hsl).
  { apply (Forall_impl _ _ _ Hs). intros ms Hp. unfold fits_block. rewrite decide_True; [eauto|]. by apply server_statement_fits. }
  rewrite bind_Some, Hss, bind_Some. eexists. split; [reflexivity|]. rewrite length_app, Hgl, Hsl. done.
Qed.

Definition sample_report : global_mysql_servers :=
  mkGMS [mkServer (c_lit "db1") 3306 0 ONLINE 0 0] [[mkMSHGE (mkServer (c_lit "db1") 3306 0 ONLINE 0 0) (-1) 7 123456 654321]; []].

Lemma runtime_statements_fit_witness : exists rows, sqlite3_dump_runtime_hostgroups 2 sample_report = Some (Z.of_nat (length rows), rows) /\ length rows = 2%nat.
Proof.
  apply (runtime_statements_fit 2 sample_report).
  - lia.
  - cbn. lia.
  - split; [repeat constructor; cbn; lia|]. intros sl Hsl. repeat (apply elem_of_cons in Hsl as [->|Hsl]; [repeat constructor; cbn; lia|]). by apply elem_of_nil in Hsl.
Defined.

Lemma mapM_cons_opt {A B} (f : A -> option B) x l : mapM f (x :: l) = (y ← f x; k ← mapM f l; Some (y :: k)).
Proof. done. Qed.

(** Levels saved into the table come back into memory, whatever the memory holds by then. *)
Theorem debug_levels_roundtrip text select ls rows ls' :
  sqlite3_flush_debug_levels_mem_to_db text ls = Some rows -> (forall m v, (m, v) ∈ rows -> select m = Some [v]) ->
  Forall2 (fun l l' => module l' = module l /\ name l' = name l) ls ls' ->
  sqlite3_flush_debug_levels_db_to_mem text select ls' = Some (Z.of_nat (length ls), ls).
Proof.
  intros Hr Hsel Hf. unfold sqlite3_flush_debug_levels_db_to_mem.
  assert (forall k done, debug_levels_db_to_mem text select k done ls' = Some (k + Z.of_nat (length ls), done ++ ls)) as H; [|by rewrite H].
  unfold sqlite3_flush_debug_levels_mem_to_db in Hr. revert rows Hr Hsel. induction Hf as [|l l' ls ls' [Em En] _ IH]; intros rows Hr Hsel k done'.
  - cbn. by rewrite Z.add_0_r, app_nil_r.
  - rewrite mapM_cons_opt in Hr. px_run Hr. px_run E. px_run Hr. injection E as <-. injection Hr as <-. cbn [debug_levels_db_to_mem]. rewrite En, E0, bind_Some.
    rewrite (Hsel x0 (verbosity l)) by left. cbn [length last default]. rewrite (IH _ E1) by (intros; apply Hsel; by right).
    rewrite Em, <- app_assoc. cbn [app]. replace (k + Z.of_nat 1 + Z.of_nat (length ls)) with (k + Z.of_nat (length (l :: ls))) by (cbn [length]; lia). by destruct l.
Qed.

Lemma debug_levels_roundtrip_witness :
  sqlite3_flush_debug_levels_db_to_mem (fun _ => Some "debug_net"%string) (fun _ => Some [5]) [mkLevel 1 0 99] = Some (1, [mkLevel 1 5 99]).
Proof.
  apply (debug_levels_roundtrip (fun _ => Some "debug_net"%string) (fun _ => Some [5]) [mkLevel 1 5 99] [("debug_net"%string, 5)]).
  - reflexivity.
  - intros m v Hin. apply list_elem_of_singleton in Hin. by injection Hin as _ ->.
  - repeat constructor.
Defined.

(** ** The configuration on disk

    The tables of the database in memory ([main]) and of the attached one on disk, by name; a table maps the primary keys to the rows.  The functions are
    the sequences of statements that they execute. *)

Module Disk.
Section Disk.
Context {row : Type}.

Record databases := mkDb { main : gmap string (gmap (list byte) row); disk : gmap string (gmap (list byte) row); foreign_keys : bool }.

Inductive statement :=
  | ForeignKeys (on : bool) | Begin | Commit
  | DeleteFromDisk (t : string)
  | ReplaceIntoDisk (t : string)      (* INSERT OR REPLACE INTO disk.t SELECT * FROM main.t *)
  | IgnoreIntoMain (t : string).      (* INSERT OR IGNORE INTO main.t SELECT * FROM disk.t *)

Definition table (d : gmap string (gmap (list byte) row)) (t : string) : gmap (list byte) row := default ∅ (d !! t).

Definition exec (d : databases) (s : statement) : databases :=
  match s with
  | ForeignKeys on => mkDb (main d) (disk d) on
  | Begin | Commit => d
  | DeleteFromDisk t => mkDb (main d) (<[t := ∅]> (disk d)) (foreign_keys d)
  | ReplaceIntoDisk t => mkDb (main d) (<[t := table (main d) t ∪ table (disk d) t]> (disk d)) (foreign_keys d)
  | IgnoreIntoMain t => mkDb (<[t := table (main d) t ∪ table (disk d) t]> (main d)) (disk d) (foreign_keys d)
  end.
Definition exec_all (ss : list statement) (d : databases) : databases := foldl exec d ss.

Definition config_tables : list string := ["servers"; "hostgroups"; "query_rules"; "users"; "default_hostgroups"]%string.

Definition insert_or_ignore_maintable_select_disktable : list statement :=
  [ForeignKeys false] ++ (IgnoreIntoMain <$> config_tables) ++ [ForeignKeys true].
Definition delete_disktable : list statement := DeleteFromDisk <$> config_tables.
Definition insert_or_replace_disktable_select_maintable : list statement := ReplaceIntoDisk <$> config_tables.

Definition sqlite3_config_sync_mem_to_disk : list statement :=
  [ForeignKeys false; Begin] ++ delete_disktable ++ insert_or_replace_disktable_select_maintable ++ [Commit; ForeignKeys true].

Lemma exec_all_app a b d : exec_all (a ++ b) d = exec_all b (exec_all a d).
Proof. apply foldl_app. Qed.

Lemma delete_spec ts : forall d, main (exec_all (DeleteFromDisk <$> ts) d) = main d /\ foreign_keys (exec_all (DeleteFromDisk <$> ts) d) = foreign_keys d /\
  forall t, table (disk (exec_all (DeleteFromDisk <$> ts) d)) t = if decide (t ∈ ts) then ∅ else table (disk d) t.
Proof.
  induction ts as [|t ts IH]; intros d.
  { split; [done|]. split; [done|]. intros t. by rewrite decide_False by (by apply not_elem_of_nil). }
  rewrite fmap_cons. change (exec_all (DeleteFromDisk t :: _) d) with (exec_all (DeleteFromDisk <$> ts) (exec d (DeleteFromDisk t))).
  destruct (IH (exec d (DeleteFromDisk t))) as (-> & -> & H). split; [done|]. split; [done|]. intros u. rewrite H. cbn [exec disk].
  destruct (decide (u ∈ ts)); [by rewrite decide_True by (by right)|]. unfold table. destruct (decide (u = t)) as [->|Hne].
  - rewrite lookup_insert_eq, decide_True by left. done.
  - rewrite lookup_insert_ne by done. rewrite decide_False; [done|]. by intros [?|?]%elem_of_cons.
Qed.

Lemma replace_spec ts : NoDup ts -> forall d, main (exec_all (ReplaceIntoDisk <$> ts) d) = main d /\
  foreign_keys (exec_all (ReplaceIntoDisk <$> ts) d) = foreign_keys d /\
  forall t, table (disk (exec_all (ReplaceIntoDisk <$> ts) d)) t = if decide (t ∈ ts) then table (main d) t ∪ table (disk d) t else table (disk d) t.
Proof.
  induction ts as [|t ts IH]; intros Hd d.
  { split; [done|]. split; [done|]. intros t. by rewrite decide_False by (by apply not_elem_of_nil). }
  apply NoDup_cons in Hd as [Hn Hd]. rewrite fmap_cons.
  change (exec_all (ReplaceIntoDisk t :: _) d) with (exec_all (ReplaceIntoDisk <$> ts) (exec d (ReplaceIntoDisk t))).
  destruct (IH Hd (exec d (ReplaceIntoDisk t))) as (-> & -> & H). split; [done|]. split; [done|]. intros u. rewrite H. cbn [exec disk main]. unfold table.
  destruct (decide (u = t)) as [->|Hne].
  - rewrite lookup_insert_eq, decide_False by done. rewrite decide_True by left. done.
  - rewrite lookup_insert_ne by done. destruct (decide (u ∈ ts)); [by rewrite decide_True by (by right)|].
    rewrite decide_False; [done|]. by intros [?|?]%elem_of_cons.
Qed.

Lemma ignore_spec ts : NoDup ts -> forall d, disk (exec_all (IgnoreIntoMain <$> ts) d) = disk d /\
  forall t, table (main (exec_all (IgnoreIntoMain <$> ts) d)) t = if decide (t ∈ ts) then table (main d) t ∪ table (disk d) t else table (main d) t.
Proof.
  induction ts as [|t ts IH]; intros Hd d.
  { split; [done|]. intros t. by rewrite decide_False by (by apply not_elem_of_nil). }
  apply NoDup_cons in Hd as [Hn Hd]. rewrite fmap_cons.
  change (exec_all (IgnoreIntoMain t :: _) d) with (exec_all (IgnoreIntoMain <$> ts) (exec d (IgnoreIntoMain t))).
  destruct (IH Hd (exec d (IgnoreIntoMain t))) as (-> & H). split; [done|]. intros u. rewrite H. cbn [exec disk main]. unfold table.
  destruct (decide (u = t)) as [->|Hne].
  - rewrite lookup_insert_eq, decide_False by done. rewrite decide_True by left. done.
  - rewrite lookup_insert_ne by done. destruct (decide (u ∈ ts)); [by rewrite decide_True by (by right)|].
    rewrite decide_False; [done|]. by intros [?|?]%elem_of_cons.
Qed.

Lemma config_tables_distinct : NoDup config_tables.
Proof. apply (bool_decide_eq_true_1 _). vm_compute. reflexivity. Qed.

End Disk.
Arguments databases : clear implicits.

(** Saving the configuration: afterwards the five tables of the configuration on disk are those in memory, rows that were deleted in memory are gone from the
    disk too, every other table on disk and everything in memory is as before; and a process that starts with empty tables reads exactly these
    rows back. *)
Theorem config_sync_saves {row : Type} (d : databases row) :
  let d' := exec_all sqlite3_config_sync_mem_to_disk d in
  main d' = main d /\ foreign_keys d' = true /\
  (forall t, t ∈ config_tables -> table (disk d') t = table (main d) t) /\
  (forall t, t ∉ config_tables -> table (disk d') t = table (disk d) t) /\
  forall t, t ∈ config_tables ->
    table (main (exec_all insert_or_ignore_maintable_select_disktable (mkDb ∅ (disk d') true))) t = table (main d) t.
Proof.
  assert (exec_all sqlite3_config_sync_mem_to_disk d =
    exec_all [Commit; ForeignKeys true] (exec_all (ReplaceIntoDisk <$> config_tables) (exec_all (DeleteFromDisk <$> config_tables) (mkDb (main d) (disk d) false)))) as ->.
  { unfold sqlite3_config_sync_mem_to_disk. rewrite !exec_all_app. done. }
  destruct (delete_spec config_tables (mkDb (main d) (disk d) false)) as (D1 & _ & D3).
  destruct (replace_spec config_tables config_tables_distinct (exec_all (DeleteFromDisk <$> config_tables) (mkDb (main d) (disk d) false))) as (R1 & _ & R3).
  set (d1 := exec_all (DeleteFromDisk <$> config_tables) _) in *. set (d2 := exec_all (ReplaceIntoDisk <$> config_tables) _) in *.
  change (exec_all [Commit; ForeignKeys true] d2) with (mkDb (main d2) (disk d2) true). cbv zeta. cbn [main disk foreign_keys].
  assert (forall t, t ∈ config_tables -> table (disk d2) t = table (main d) t) as Hin.
  { intros t Ht. rewrite R3, decide_True, D3, decide_True, D1 by done. apply map_union_empty. }
  split; [by rewrite R1, D1|]. split; [done|]. split; [exact Hin|]. split.
  - intros t Ht. rewrite R3, decide_False, D3, decide_False by done. done.
  - intros t Ht. unfold insert_or_ignore_maintable_select_disktable. rewrite !exec_all_app.
    change (exec_all [ForeignKeys false] (mkDb ∅ (disk d2) true)) with (mkDb ∅ (disk d2) false).
    destruct (ignore_spec config_tables config_tables_distinct (mkDb ∅ (disk d2) false)) as (_ & I2).
    set (d3 := exec_all (IgnoreIntoMain <$> config_tables) _) in *.
    change (main (exec_all [ForeignKeys true] d3)) with (main d3). rewrite I2, decide_True by done. cbn [main disk]. rewrite Hin by done.
    unfold table at 1. rewrite lookup_empty. cbn. apply map_empty_union.
Qed.

Lemma config_sync_saves_witness :
  let d := mkDb {[ "users"%string := {[ c_lit "bob" := c_lit "secret" ]} ]} {[ "users"%string := {[ c_lit "old" := c_lit "pw" ]} ]} true in
  table (disk (exec_all sqlite3_config_sync_mem_to_disk d)) "users" = {[ c_lit "bob" := c_lit "secret" ]}.
Proof.
  intros d. destruct (config_sync_saves d) as (_ & _ & H & _). rewrite (H "users"%string); [reflexivity|].
  do 3 right. left.
Defined.

End Disk.
