(* ===== verification/SqliteExec.v ===== *)
(** * Statements of the administrator: [mysql_pkt_to_sqlite_exec] of src/admin_sqlite.c

    A query of an administration or monitoring session that is no command of
    its own is given to SQLite, and what SQLite answers is turned into MySQL
    packets at the end of the client's output array.

    SQLite is an argument, the class [SQLite]: a state, [sql_exec] for
    [sqlite3_exec_exit_on_failure] ([None] is the failed assertion) and [sql_run]
    for the preparation and the steps of one statement.  The output array is a
    list of pointers, [None] being the NULL that the code puts in the places of
    the column definitions until it knows them.

    The reference is a client of the protocol: [dec_resultset] reads a count,
    column definitions, an EOF packet, rows and a second EOF packet, checking
    the length and the sequence number of every packet. *)
From S2P Require Import Prelude PtrArray Protocol.
Open Scope Z_scope.

(** ** SQLite *)

(** The five connections: [sqlite3admindb], [sqlite3monitordb], [sqlite3configdb], [sqlite3statsdb] and [sqlite3debugdb]. *)
Inductive database := AdminDb | MonitorDb | ConfigDb | StatsDb | DebugDb.
#[export] Instance database_eq_decision : EqDecision database.
Proof. solve_decision. Defined.
#[export] Instance database_countable : Countable database.
Proof.
  refine (inj_countable' (fun d => match d with AdminDb => 0 | MonitorDb => 1 | ConfigDb => 2 | StatsDb => 3 | DebugDb => 4 end)%nat
    (fun n => match n with O => AdminDb | 1 => MonitorDb | 2 => ConfigDb | 3 => StatsDb | _ => DebugDb end)%nat _).
  by intros [].
Defined.

(** The last [sqlite3_step] of a statement: [SQLITE_DONE], or an error. *)
Inductive step_end := StepDone | StepError (errmsg : list byte).

(** A value is [None] for NULL and the bytes of [sqlite3_column_text] otherwise. *)
Inductive answer :=
  | PrepareError (errmsg : list byte)
  | NoColumns (last : step_end) (changes : Z)
  | Columns (names : list (list byte)) (rows : list (list (option (list byte)))) (last : step_end).

Class SQLite (sq : Type) := {
  sql_exec : database -> list byte -> sq -> option sq;
  sql_run : database -> list byte -> sq -> answer * sq
}.

(** ** The packets *)

Section Packets.
Context (junk : nat -> byte) (over : list byte).

(** [l=strlen(s)+1+6] bytes for [#08S01] and the message. *)
Definition mysql_pkt_err_from_sqlite (s : list byte) : option pkt :=
  b ← fits_block (length s + 1 + 6) (c_lit "#08S01" ++ s);
  create_err_packet junk 1 1047 b.

(** The C string at [sqlite3_column_text]: SQLite puts a NUL behind the value. *)
Definition c_text (v : list byte) : list byte := take (default (length v) (strlen v)) v.

(** What a value adds to [rowlen]; [sqlite3_column_bytes] of NULL is 0. *)
Definition cell_length (c : option (list byte)) : Z :=
  let l := Z.of_nat (length (default [] c)) in
  if l =? 0 then 1 else l + lencint l.

Definition row_length (cells : list (option (list byte))) : Z := foldr (fun c n => cell_length c + n) 0 cells.

Definition row_writes (cells : list (option (list byte))) : list wr :=
  mjoin ((fun c => writeencstrnull over (c_text <$> c)) <$> cells).

(** [rowlen] and [p->length] are [int]; the header has 24 bits for the length and 8 for the number. *)
Definition row_pkt (cols rownum : nat) (cells : list (option (list byte))) : option pkt :=
  let rowlen := row_length cells in
  if decide (rowlen + 4 < 2 ^ 31) then
    let n := (sizeof_mysql_hdr + Z.to_nat rowlen)%nat in
    let hdr := mkHdr (u24 rowlen) (u8 (Z.of_nat cols + 3 + Z.of_nat rownum)) in
    d ← writes (W (hdr_bytes hdr) :: row_writes cells) 0 (block junk n);
    Some (mkPkt n d)
  else None.

(** The loop over the rows. *)
Fixpoint add_rows (cols rownum : nat) (rows : list (list (option (list byte)))) (out : list (option pkt))
    : option (nat * list (option pkt)) :=
  match rows with
  | [] => Some (rownum, out)
  | row :: rows =>
      cells ← mapM (fun col => row !! col) (seq 0 cols);
      p ← row_pkt cols rownum cells;
      add_rows cols (S rownum) rows (out ++ [Some p])
  end.

Definition MYSQL_TYPE_VARCHAR : Z := 15.

(** The loop over the columns: the definition goes to the end of the array, and from there to place [col+1]. *)
Fixpoint put_defs (col : nat) (names : list (list byte)) (out : list (option pkt)) : option (list (option pkt)) :=
  match names with
  | [] => Some out
  | s :: names =>
      p ← myproto_column_def junk over (Z.of_nat col + 2) [] [] [] s [] 100 MYSQL_TYPE_VARCHAR 0 0;
      put_defs (S col) names (LArr.swap_remove (col + 1) (out ++ [Some p]))
  end.

(** The answer of SQLite as packets behind [out]. *)
Definition answer_pkts (a : answer) (out : list (option pkt)) : option (list (option pkt)) :=
  match a with
  | PrepareError e => p ← mysql_pkt_err_from_sqlite e; Some (out ++ [Some p])
  | NoColumns StepDone affected_rows => p ← myproto_ok_pkt junk 1 (u64 affected_rows) 0 2 0; Some (out ++ [Some p])
  | NoColumns (StepError e) _ => p ← mysql_pkt_err_from_sqlite e; Some (out ++ [Some p])
  | Columns names rows _ =>
      let cols := length names in
      p ← myproto_column_count junk 1 (Z.of_nat cols);
      let out := out ++ [Some p] in
      let out := out ++ replicate cols None in
      p ← myproto_eof junk (2 + Z.of_nat cols) 0 34;
      let out := out ++ [Some p] in
      '(rownum, out) ← add_rows cols 0 rows out;
      out ← put_defs 0 names out;
      p ← myproto_eof junk (3 + Z.of_nat cols + Z.of_nat rownum) 0 34;
      Some (out ++ [Some p])
  end.

Context {sq : Type} `{SQLite sq}.

(** The text behind the command byte, as the C string that is prepared. *)
Definition query_text (p : pkt) : option (list byte) :=
  if decide (5 <= length_of p)%nat then c_text <$> mem_read 5 (length_of p - 5) (data p) else None.

(** The answer 0 of the function is left out: it is the same on every path. *)
Definition mysql_pkt_to_sqlite_exec (thread_id mysql_threads : Z) (p : pkt) (out : list (option pkt)) (s : sq)
    : option (list (option pkt) * sq) :=
  let monitor := mysql_threads <? thread_id in
  let db := if monitor then MonitorDb else AdminDb in
  s ← (if monitor then sql_exec MonitorDb (c_lit "PRAGMA query_only = ON") s else Some s);
  q ← query_text p;
  let '(a, s) := sql_run db q s in
  out ← answer_pkts a out;
  s ← (if monitor then sql_exec MonitorDb (c_lit "PRAGMA query_only = OFF") s else Some s);
  Some (out, s).

End Packets.

(** ** The client's side *)

(** The payload of a packet with number [id], whose length and header agree. *)
Definition pkt_payload (id : Z) (p : pkt) : option (list byte) :=
  h ← hdr_of_bytes (data p);
  if decide (length (data p) = length_of p /\ pkt_length h = Z.of_nat (length_of p) - 4 /\ pkt_id h = u8 id)
  then Some (drop 4 (data p)) else None.

Definition is_eof (d : list byte) : bool := bool_decide (head d = Some Byte.xfe /\ (length d < 9)%nat).

Definition dec_err (d : list byte) : option (Z * list byte * list byte) :=
  match d with
  | Byte.xff :: d =>
      '(code, d) ← take_le 2 d;
      match d with
      | Byte.x23 :: d => if decide (5 <= length d)%nat then Some (code, take 5 d, drop 5 d) else None
      | _ => None
      end
  | _ => None
  end.

Fixpoint dec_cells (n : nat) (d : list byte) : option (list (option (list byte))) :=
  match n with
  | O => if decide (d = []) then Some [] else None
  | S n =>
      if decide (head d = Some Byte.xfb) then cells ← dec_cells n (tail d); Some (None :: cells)
      else '(s, d) ← dec_lenstr d; cells ← dec_cells n d; Some (Some s :: cells)
  end.

Fixpoint dec_rows (cols : nat) (id : Z) (ps : list pkt) : option (list (list (option (list byte)))) :=
  match ps with
  | [] => None
  | p :: ps =>
      d ← pkt_payload id p;
      if is_eof d then (if decide (ps = []) then Some [] else None)
      else cells ← dec_cells cols d; rows ← dec_rows cols (id + 1) ps; Some (cells :: rows)
  end.

Fixpoint dec_names (n : nat) (id : Z) (ps : list pkt) : option (list (list byte) * list pkt) :=
  match n, ps with
  | O, _ => Some ([], ps)
  | S n, p :: ps =>
      d ← pkt_payload id p;
      '(strs, _) ← dec_column_def d;
      name ← strs !! 3%nat;
      '(names, ps) ← dec_names n (id + 1) ps;
      Some (name :: names, ps)
  | S _, [] => None
  end.

Definition dec_resultset (ps : list pkt) : option (list (list byte) * list (list (option (list byte)))) :=
  p ← head ps;
  d ← pkt_payload 1 p;
  '(n, d) ← dec_lenc d;
  if decide (d = []) then
    '(names, ps) ← dec_names (Z.to_nat n) 2 (tail ps);
    e ← head ps;
    d ← pkt_payload (2 + n) e;
    if is_eof d then rows ← dec_rows (Z.to_nat n) (3 + n) (tail ps); Some (names, rows) else None
  else None.

(** ** Lemmas on packets *)

Lemma pkt_payload_frame id payload :
  Z.of_nat (length payload) < 2 ^ 24 ->
  pkt_payload id (mkPkt (length payload + 4) (frame (u8 id) payload)) = Some payload.
Proof.
  intros Hl. unfold pkt_payload. cbn [data length_of].
  rewrite <- (app_nil_r (frame _ _)) at 1. rewrite hdr_of_frame; [|done|apply uwrap_range; lia].
  rewrite bind_Some. cbn [pkt_length pkt_id]. rewrite decide_True, frame_payload; [done|].
  unfold frame, hdr_bytes. split_and!; [px_len|lia|done].
Qed.

Lemma column_count_frame junk id cnt :
  0 <= cnt < 2 ^ 64 ->
  myproto_column_count junk id cnt =
    Some (mkPkt (length (writeencint cnt) + 4) (frame (u8 id) (writeencint cnt))).
Proof.
  intros Hc. unfold myproto_column_count. change [W (writeencint cnt)] with (W <$> [writeencint cnt]).
  assert (mjoin [writeencint cnt] = writeencint cnt) as Hj by (by rewrite mjoin_cons, mjoin_nil, app_nil_r).
  pose proof (lencint_cases cnt). rewrite build_frame; rewrite ?Hj; [done|apply length_block| |lia].
  apply writeencint_length.
Qed.

Lemma swap_remove_snoc {A} i (l : list A) x : (i < length l)%nat -> LArr.swap_remove i (l ++ [x]) = <[i := x]> l.
Proof.
  intros Hi. unfold LArr.swap_remove. rewrite length_app. cbn [length].
  replace (length l + 1 - 1)%nat with (length l) by lia.
  rewrite lookup_app_r, Nat.sub_diag by lia. cbn.
  rewrite insert_app_l by lia. rewrite <- (length_insert l i x) at 1. by rewrite take_app_length.
Qed.

Lemma c_text_nul_free v : Byte.x00 ∉ v -> c_text v = v.
Proof.
  intros Hv. unfold c_text. assert (strlen v = None) as ->.
  { induction v as [|b v IH]; [done|]. simpl. rewrite decide_False by set_solver. rewrite IH by set_solver. done. }
  simpl. by rewrite take_ge by lia.
Qed.

(** ** Column definitions *)

Definition short (s : list byte) : Prop := Z.of_nat (length s) < 65536.

Lemma put_def junk over col s :
  short s -> exists p, myproto_column_def junk over (Z.of_nat col + 2) [] [] [] s [] 100 MYSQL_TYPE_VARCHAR 0 0 = Some p /\
    exists d, pkt_payload (Z.of_nat col + 2) p = Some d /\
      dec_column_def d = Some ([[]; []; []; s; []], (100, 15, 0, 0)).
Proof.
  intros Hs.
  destruct (column_def_frame junk over (Z.of_nat col + 2) [] [] [] s [] 100 15 0 0) as (payload & E & Hl & D); [|lia..|].
  { intros x Hx. repeat (apply elem_of_cons in Hx as [->|Hx]; [cbn; first [lia|exact Hs]|]). set_solver. }
  eexists. split; [exact E|]. exists payload. split; [by apply pkt_payload_frame|done].
Qed.

Lemma put_defs_spec junk over names : forall col first done rest,
  col = length done -> Forall short names ->
  exists defs, put_defs junk over col names (first :: done ++ replicate (length names) None ++ rest) =
      Some (first :: done ++ (Some <$> defs) ++ rest) /\
    forall ps, dec_names (length names) (Z.of_nat col + 2) (defs ++ ps) = Some (names, ps).
Proof.
  induction names as [|s names IH]; intros col first done rest -> Hn; cbn [put_defs].
  - exists []. done.
  - apply Forall_cons in Hn as [Hs Hn].
    destruct (put_def junk over (length done) s Hs) as (p & -> & d & Hd & D). rewrite bind_Some.
    cbn [length replicate]. rewrite swap_remove_snoc by (rewrite length_cons, !length_app, length_cons; lia).
    rewrite Nat.add_1_r. change (<[S (length done) := Some p]> (first :: ?l)) with (first :: <[length done := Some p]> l).
    rewrite <- app_comm_cons, <- (Nat.add_0_r (length done)), insert_app_r, Nat.add_0_r. cbn [insert list_insert].
    destruct (IH (S (length done)) first (done ++ [Some p]) rest) as (defs & E & Hdec); [px_len|done|].
    exists (p :: defs). split.
    + rewrite <- !app_assoc in E. exact E.
    + intros ps. cbn [dec_names app]. rewrite Hd, bind_Some, D, bind_Some. cbn [lookup list_lookup]. rewrite bind_Some.
      replace (Z.of_nat (length done) + 2 + 1) with (Z.of_nat (S (length done)) + 2) by lia.
      by rewrite Hdec.
Qed.

(** Wherever the array ends, the definitions go to the places [1 .. cols]. *)
Lemma put_defs_places junk over names : forall col out,
  Forall short names -> (col + length names < length out)%nat ->
  exists out', put_defs junk over col names out = Some out' /\
    forall i, (i <= col \/ col + length names < i)%nat -> out' !! i = out !! i.
Proof.
  induction names as [|s names IH]; intros col out Hn Hlen; cbn [put_defs].
  - by exists out.
  - apply Forall_cons in Hn as [Hs Hn]. cbn [length] in *.
    destruct (put_def junk over col s Hs) as (p & -> & _). rewrite bind_Some.
    rewrite swap_remove_snoc by lia.
    destruct (IH (S col) (<[(col + 1)%nat := Some p]> out)) as (out' & -> & Hi); [done|rewrite length_insert; lia|].
    exists out'. split; [done|]. intros i Hout. rewrite Hi by lia. by rewrite list_lookup_insert_ne by lia.
Qed.

(** ** Rows *)

(** The values the row packets can carry. *)
Definition cell_ok (c : option (list byte)) : Prop :=
  match c with None => True | Some v => Byte.x00 ∉ v /\ short v end.

Definition enc_cell (c : option (list byte)) : list byte :=
  match c with None => [Byte.xfb] | Some v => writeencint (Z.of_nat (length v)) ++ v end.

Lemma enc_cell_length c : Z.of_nat (length (enc_cell c)) = cell_length c.
Proof.
  unfold cell_length. destruct c as [v|]; cbn [enc_cell]; [|done]. change (default [] (Some v)) with v.
  rewrite length_app, Nat2Z.inj_add, writeencint_length.
  destruct (Z.eqb_spec (Z.of_nat (length v)) 0) as [E|E]; [|lia].
  rewrite E. by vm_compute.
Qed.

Lemma cell_writes over c : cell_ok c ->
  exists srcs, writeencstrnull over (c_text <$> c) = W <$> srcs /\ mjoin srcs = enc_cell c.
Proof.
  destruct c as [v|]; [|intros _; by exists [[Byte.xfb]]].
  intros [Hn Hs]. change (c_text <$> Some v) with (Some (c_text v)). rewrite c_text_nul_free by done.
  by apply writeencstr_short.
Qed.

Lemma row_writes_spec over cells : Forall cell_ok cells ->
  exists srcs, row_writes over cells = W <$> srcs /\ mjoin srcs = mjoin (enc_cell <$> cells).
Proof.
  induction 1 as [|c cells Hc _ (srcs & E & J)]; [by exists []|].
  destruct (cell_writes over c Hc) as (src & Ec & Jc). exists (src ++ srcs).
  unfold row_writes in *. rewrite fmap_cons, mjoin_cons, E, Ec, fmap_app. split; [done|].
  by rewrite mjoin_app, fmap_cons, mjoin_cons, J, Jc.
Qed.

Lemma enc_row_length cells : Z.of_nat (length (mjoin (enc_cell <$> cells))) = row_length cells.
Proof.
  induction cells as [|c cells IH]; [done|]. rewrite fmap_cons, mjoin_cons, length_app. cbn [row_length foldr].
  pose proof (enc_cell_length c). unfold row_length in IH. lia.
Qed.

Lemma enc_cell_head c d : cell_ok c -> head (enc_cell c ++ d) = Some Byte.xfb <-> c = None.
Proof.
  destruct c as [v|]; [|done]. intros [_ Hs]. unfold short in Hs. cbn [enc_cell]. unfold writeencint.
  split; [|done].
  destruct (lencint_cases (Z.of_nat (length v))) as [[H E]|[[H E]|[[H E]|[H E]]]]; try lia; rewrite E;
    cbn [Z.eqb Pos.eqb app head].
  - rewrite le_split_1. cbn [app head]. intros [= Hb].
    apply (f_equal uc) in Hb. rewrite unsigned_of_Z in Hb by lia. change (uc Byte.xfb) with 251 in Hb. lia.
  - done.
Qed.

Lemma enc_cell_not_eof c d : cell_ok c -> is_eof (enc_cell c ++ d) = false.
Proof.
  intros Hc. apply bool_decide_eq_false. intros [Hh _]. revert Hh.
  destruct c as [v|]; [|done]. destruct Hc as [_ Hs]. unfold short in Hs. cbn [enc_cell]. unfold writeencint.
  destruct (lencint_cases (Z.of_nat (length v))) as [[H E]|[[H E]|[[H E]|[H E]]]]; try lia; rewrite E;
    cbn [Z.eqb Pos.eqb app head].
  - rewrite le_split_1. cbn [app head]. intros [= Hb].
    apply (f_equal uc) in Hb. rewrite unsigned_of_Z in Hb by lia. change (uc Byte.xfe) with 254 in Hb. lia.
  - done.
Qed.

Lemma dec_cells_enc cells : Forall cell_ok cells -> dec_cells (length cells) (mjoin (enc_cell <$> cells)) = Some cells.
Proof.
  induction 1 as [|c cells Hc _ IH]; [done|]. rewrite fmap_cons, mjoin_cons. cbn [length dec_cells].
  destruct c as [v|].
  - rewrite decide_False by (by rewrite enc_cell_head). cbn [enc_cell].
    rewrite dec_lenstr_app by (destruct Hc as [_ Hs]; unfold short in Hs; lia). rewrite bind_Some. by rewrite IH.
  - rewrite decide_True by done. cbn [enc_cell app tail]. by rewrite IH.
Qed.

Lemma row_pkt_frame junk over cols rownum cells :
  Forall cell_ok cells -> row_length cells < 2 ^ 24 ->
  row_pkt junk over cols rownum cells =
    Some (mkPkt (length (mjoin (enc_cell <$> cells)) + 4)
      (frame (u8 (Z.of_nat cols + 3 + Z.of_nat rownum)) (mjoin (enc_cell <$> cells)))).
Proof.
  intros Hc Hl. pose proof (enc_row_length cells) as He. unfold row_pkt, frame.
  rewrite decide_True by lia. destruct (row_writes_spec over cells Hc) as (srcs & -> & J).
  rewrite (uwrap_small 24) by lia. rewrite <- He, Nat2Z.id. set (h := hdr_bytes _).
  change (W h :: (W <$> srcs)) with (W <$> (h :: srcs)).
  rewrite writes_block; rewrite ?wsize_W, ?render_W, mjoin_cons, J.
  - rewrite bind_Some. do 2 f_equal. unfold sizeof_mysql_hdr. lia.
  - rewrite length_app, length_block. unfold h, hdr_bytes, sizeof_mysql_hdr. px_len.
Qed.

(** A row of [cols] values that fits a packet. *)
Record row_fits (cols : nat) (row : list (option (list byte))) : Prop := {
  rf_length : length row = cols;
  rf_cells : Forall cell_ok row;
  rf_size : row_length row < 2 ^ 24
}.

Lemma row_cells {A} (row : list A) n : length row = n -> mapM (fun col => row !! col) (seq 0 n) = Some row.
Proof.
  intros <-. apply mapM_Some. apply Forall2_same_length_lookup. split; [by rewrite length_seq|].
  intros i x y Hx Hy. apply lookup_seq in Hx as [-> _]. done.
Qed.

Lemma add_rows_spec junk over cols rows : forall rownum out,
  (0 < cols)%nat -> Forall (row_fits cols) rows ->
  exists ps, add_rows junk over cols rownum rows out = Some ((rownum + length rows)%nat, out ++ (Some <$> ps)) /\
    forall e d, pkt_payload (3 + Z.of_nat cols + Z.of_nat (rownum + length rows)) e = Some d -> is_eof d = true ->
      dec_rows cols (3 + Z.of_nat cols + Z.of_nat rownum) (ps ++ [e]) = Some rows.
Proof.
  induction rows as [|row rows IH]; intros rownum out Hcols Hrows; cbn [add_rows].
  - exists []. rewrite Nat.add_0_r, app_nil_r. split; [done|]. intros e d Hd He.
    cbn [app dec_rows]. by rewrite Hd, bind_Some, He, decide_True.
  - apply Forall_cons in Hrows as [[Hl Hc Hs] Hrows]. rewrite row_cells by done. rewrite bind_Some.
    rewrite row_pkt_frame by done. rewrite bind_Some.
    set (payload := mjoin _). set (p := mkPkt _ _).
    destruct (IH (S rownum) (out ++ [Some p])) as (ps & -> & Hdec); [done..|].
    exists (p :: ps). cbn [length]. rewrite Nat.add_succ_r. split; [by rewrite <- app_assoc|].
    intros e d Hd He. cbn [app dec_rows]. unfold p.
    replace (3 + Z.of_nat cols + Z.of_nat rownum) with (Z.of_nat cols + 3 + Z.of_nat rownum) by lia.
    rewrite pkt_payload_frame by (unfold payload; rewrite enc_row_length; lia). rewrite bind_Some.
    assert (is_eof payload = false) as ->.
    { unfold payload. destruct row as [|c row]; [cbn in Hl; lia|].
      rewrite fmap_cons, mjoin_cons. apply enc_cell_not_eof. by inversion Hc. }
    unfold payload. rewrite <- Hl, dec_cells_enc by done. rewrite bind_Some, Hl.
    replace (Z.of_nat cols + 3 + Z.of_nat rownum + 1) with (3 + Z.of_nat cols + Z.of_nat (S rownum)) by lia.
    erewrite Hdec; [done| |exact He]. rewrite <- Hd. f_equal.
Qed.

(** ** Properties *)

(** The result sets the code can send: names and values below 64 KB, the values without NUL bytes, the
    rows below 16 MB.  SQLite allows no more than 32767 columns. *)
Record wire_ok (names : list (list byte)) (rows : list (list (option (list byte)))) : Prop := {
  wo_cols : (0 < length names)%nat /\ Z.of_nat (length names) < 2 ^ 31;
  wo_names : Forall short names;
  wo_rows : Forall (row_fits (length names)) rows
}.

Lemma eof_is_eof (w s : Z) : is_eof ([Byte.xfe] ++ le_split 2 w ++ le_split 2 s) = true.
Proof. apply bool_decide_eq_true. split; [done|]. cbn [app length]. rewrite length_app, !length_le_split. lia. Qed.

Lemma eof_payload id (w s : Z) :
  pkt_payload id (mkPkt 9 (frame (u8 id) ([Byte.xfe] ++ le_split 2 w ++ le_split 2 s))) =
    Some ([Byte.xfe] ++ le_split 2 w ++ le_split 2 s).
Proof. apply (pkt_payload_frame id ([Byte.xfe] ++ le_split 2 w ++ le_split 2 s)). done. Qed.

Lemma resultset_spec junk over names rows last :
  wire_ok names rows ->
  exists ps, answer_pkts junk over (Columns names rows last) [] = Some (Some <$> ps) /\
    dec_resultset ps = Some (names, rows).
Proof.
  intros [[Hpos Hcols] Hnames Hrows]. unfold answer_pkts.
  rewrite column_count_frame by lia. rewrite bind_Some, eof_frame, bind_Some. cbn [app].
  set (n := length names) in *. set (first := mkPkt (length (writeencint _) + 4) _). set (e := mkPkt 9 _).
  destruct (add_rows_spec junk over n rows 0 (Some first :: replicate n None ++ [Some e])) as (rs & -> & Hrs);
    [done..|]. rewrite bind_Some. cbn [Nat.add].
  cbn [app]. rewrite <- app_assoc. cbn [app].
  destruct (put_defs_spec junk over names 0 (Some first) [] (Some e :: (Some <$> rs))) as (defs & Edefs & Hdefs); [done..|].
  cbn [app] in Edefs. fold n in Edefs. rewrite Edefs, bind_Some, eof_frame, bind_Some. set (e2 := mkPkt 9 _). cbn [app].
  exists (first :: defs ++ e :: rs ++ [e2]). split.
  - f_equal. rewrite fmap_cons, fmap_app, fmap_cons, fmap_app. cbn. by rewrite <- app_assoc.
  - unfold dec_resultset. cbn [head tail]. rewrite bind_Some. unfold first at 1.
    rewrite pkt_payload_frame; [|pose proof (writeencint_length (Z.of_nat n)); pose proof (lencint_cases (Z.of_nat n)); lia].
    rewrite bind_Some, <- (app_nil_r (writeencint _)), dec_writeencint by lia. rewrite bind_Some, decide_True by done.
    specialize (Hdefs (e :: rs ++ [e2])). fold n in Hdefs. change (Z.of_nat 0 + 2) with 2 in Hdefs.
    rewrite Nat2Z.id, Hdefs, bind_Some. cbn [head tail]. rewrite bind_Some.
    rewrite (eof_payload (2 + Z.of_nat n) 0 34 : pkt_payload _ e = _), bind_Some, eof_is_eof.
    specialize (Hrs e2). cbn [Nat.add] in Hrs. rewrite Z.add_0_r in Hrs.
    erewrite Hrs; [done|exact (eof_payload (3 + Z.of_nat n + Z.of_nat (length rows)) 0 34)|apply eof_is_eof].
Qed.

Section Exec.
Context (junk : nat -> byte) (over : list byte) {sq : Type} `{SQLite sq}.

Lemma exec_admin thread_id mysql_threads p q out s a s' :
  thread_id <= mysql_threads -> query_text p = Some q -> sql_run AdminDb q s = (a, s') ->
  mysql_pkt_to_sqlite_exec junk over thread_id mysql_threads p out s =
    (out' ← answer_pkts junk over a out; Some (out', s')).
Proof.
  intros Ht Hq Hr. unfold mysql_pkt_to_sqlite_exec. rewrite (proj2 (Z.ltb_ge _ _)) by lia.
  by rewrite bind_Some, Hq, bind_Some, Hr.
Qed.

Lemma exec_monitor thread_id mysql_threads p q out s s1 a s2 :
  mysql_threads < thread_id -> query_text p = Some q ->
  sql_exec MonitorDb (c_lit "PRAGMA query_only = ON") s = Some s1 -> sql_run MonitorDb q s1 = (a, s2) ->
  mysql_pkt_to_sqlite_exec junk over thread_id mysql_threads p out s =
    (out' ← answer_pkts junk over a out;
     s3 ← sql_exec MonitorDb (c_lit "PRAGMA query_only = OFF") s2; Some (out', s3)).
Proof.
  intros Ht Hq Hon Hr. unfold mysql_pkt_to_sqlite_exec. rewrite (proj2 (Z.ltb_lt _ _)) by lia.
  by rewrite Hon, bind_Some, Hq, bind_Some, Hr.
Qed.

Lemma err_from_sqlite_spec e :
  Z.of_nat (length e) < 2 ^ 24 - 9 ->
  exists r d, mysql_pkt_err_from_sqlite junk e = Some r /\ pkt_payload 1 r = Some d /\
    dec_err d = Some (1047, c_lit "08S01", e).
Proof.
  intros He. unfold mysql_pkt_err_from_sqlite, fits_block. rewrite decide_True by px_len. rewrite bind_Some.
  rewrite err_frame by px_len. set (d := [Byte.xff] ++ le_split 2 1047 ++ c_lit "#08S01" ++ e).
  eexists _, d. split; [done|]. split.
  - replace (length (c_lit "#08S01" ++ e) + 7)%nat with (length d + 4)%nat by (unfold d; px_len).
    apply pkt_payload_frame. unfold d. px_len.
  - unfold d, dec_err. cbn [app]. rewrite take_le_split by lia. rewrite bind_Some.
    change (c_lit "#08S01" ++ e) with (Byte.x23 :: c_lit "08S01" ++ e). cbv iota. rewrite decide_True by px_len.
    by rewrite (take_app_length (c_lit "08S01")), (drop_app_length (c_lit "08S01")).
Qed.

Lemma affected_reply_spec c w :
  0 <= c < 2 ^ 64 -> 0 <= w < 2 ^ 16 ->
  exists r d, myproto_ok_pkt junk 1 (u64 c) 0 2 (u16 w) = Some r /\ pkt_payload 1 r = Some d /\ dec_ok d = Some (c, 0, 2, w).
Proof.
  intros Hc Hw. rewrite (uwrap_small 64), (uwrap_small 16) by done. rewrite ok_pkt_frame by lia.
  pose proof (writeencint_length c). pose proof (writeencint_length 0).
  pose proof (lencint_cases c). pose proof (lencint_cases 0).
  eexists _, _. split; [done|]. split; [apply pkt_payload_frame; rewrite !length_app, !length_le_split; cbn [length]; lia|].
  cbn [app dec_ok]. rewrite dec_writeencint, bind_Some, dec_writeencint, bind_Some by lia.
  rewrite take_le_split, bind_Some by lia.
  rewrite <- (app_nil_r (le_split 2 w)), take_le_split, bind_Some by lia. done.
Qed.

Lemma answer_behind_pending names rows last (pending : list pkt) :
  wire_ok names rows -> pending <> [] ->
  exists out, answer_pkts junk over (Columns names rows last) (Some <$> pending) = Some out /\
    out !! (length pending + length names)%nat = Some None.
Proof.
  intros [[Hpos Hcols] Hnames Hrows] Hpend. unfold answer_pkts.
  assert (0 < length pending)%nat by (destruct pending; cbn; [done|lia]).
  rewrite column_count_frame by lia. rewrite bind_Some, eof_frame, bind_Some.
  set (n := length names) in *. set (first := mkPkt (length (writeencint _) + 4) _). set (e := mkPkt 9 _).
  set (out := (((Some <$> pending) ++ [Some first]) ++ replicate n None) ++ [Some e]).
  destruct (add_rows_spec junk over n rows 0 out) as (rs & -> & _); [done..|]. rewrite bind_Some.
  assert (length out = (length pending + n + 2)%nat) as Hlen.
  { unfold out. rewrite !length_app, length_fmap, length_replicate. cbn [length]. lia. }
  destruct (put_defs_places junk over names 0 (out ++ (Some <$> rs))) as (out' & -> & Hi);
    [done|rewrite length_app; fold n; lia|]. rewrite bind_Some, eof_frame, bind_Some.
  eexists. split; [done|]. apply lookup_app_l_Some. rewrite Hi by (fold n; lia). apply lookup_app_l_Some.
  unfold out. apply lookup_app_l_Some. rewrite lookup_app_r; rewrite length_app, length_fmap; cbn [length]; [|lia].
  apply lookup_replicate. split; [done|lia].
Qed.

End Exec.

(** A SQLite with one table: what it was told, and three statements it knows. *)
Definition toy_sqlite : SQLite (list (list byte)) := {|
  sql_exec := fun _ q s => Some (s ++ [q]);
  sql_run := fun _ q s =>
    (if decide (q = c_lit "SELECT a,b FROM t")
     then Columns [c_lit "a"; c_lit "b"] [[Some (c_lit "1"); None]; [Some []; Some (c_lit "x")]] StepDone
     else if decide (q = c_lit "UPDATE t SET a=1") then NoColumns StepDone 300
     else PrepareError (c_lit "syntax error"), s ++ [q])
|}.

Lemma toy_wire_ok : wire_ok [c_lit "a"; c_lit "b"] [[Some (c_lit "1"); None]; [Some []; Some (c_lit "x")]].
Proof.
  constructor; [cbn; lia|repeat constructor|].
  repeat apply Forall_cons_2; [| |apply Forall_nil_2]; (constructor; [done| |by vm_compute]);
    repeat constructor; set_solver.
Qed.

Definition toy_query (q : string) : pkt :=
  mkPkt (5 + length (c_lit q)) (frame 0 (MYSQL_COM_QUERY :: c_lit q)).

(** C19: the answer to a SELECT in the administrator's thread is a result set that a client of the protocol decodes to the names and the rows of
    SQLite, NULL and the empty string kept apart, the packets numbered one after the other modulo 256 although the column definitions are made last.
    It holds when no packet is waiting in the output array (otherwise the answer is broken, sqlite_resultset_behind_pending), there is a column, names
    and values are shorter than 64 KB and without NUL bytes, and every row makes a packet below 16 MB. The rows are those that SQLite produced before
    its last answer: an error in the middle of a SELECT ends the result set like the last row, and the client cannot see the difference. *)
Theorem sqlite_resultset_decodes {sq : Type} (S : SQLite sq) junk over thread_id mysql_threads p q names rows last s s' :
  thread_id <= mysql_threads -> query_text p = Some q -> sql_run AdminDb q s = (Columns names rows last, s') ->
  wire_ok names rows ->
  exists ps, mysql_pkt_to_sqlite_exec junk over thread_id mysql_threads p [] s = Some (Some <$> ps, s') /\
    dec_resultset ps = Some (names, rows).
Proof.
  intros Ht Hq Hr Hw. destruct (resultset_spec junk over names rows last Hw) as (ps & Ea & Hd).
  exists ps. split; [|done]. by rewrite (exec_admin _ _ _ _ _ _ _ _ _ _ Ht Hq Hr), Ea.
Qed.

Lemma sqlite_resultset_decodes_witness :
  exists ps, mysql_pkt_to_sqlite_exec (H := toy_sqlite) (fun _ => Byte.xaa) [] 4 4 (toy_query "SELECT a,b FROM t") [] [] =
      Some (Some <$> ps, [c_lit "SELECT a,b FROM t"]) /\
    dec_resultset ps = Some ([c_lit "a"; c_lit "b"], [[Some (c_lit "1"); None]; [Some []; Some (c_lit "x")]]).
Proof.
  eapply (sqlite_resultset_decodes toy_sqlite _ _ 4 4 _ (c_lit "SELECT a,b FROM t")); [lia|by vm_compute|by vm_compute|].
  apply toy_wire_ok.
Defined.

(** Every other statement of the administrator is answered by one packet, number 1, behind the packets
    that are waiting: an ERR packet with code 1047, state 08S01 and the message of SQLite when the statement
    could not be prepared or run, an OK packet with the number of changed rows otherwise. *)
Theorem sqlite_statement_replies {sq : Type} (S : SQLite sq) junk over thread_id mysql_threads p q out s :
  thread_id <= mysql_threads -> query_text p = Some q ->
  (forall a e s', sql_run AdminDb q s = (a, s') ->
     a = PrepareError e \/ (exists c, a = NoColumns (StepError e) c) -> Z.of_nat (length e) < 2 ^ 24 - 9 ->
     exists r d, mysql_pkt_to_sqlite_exec junk over thread_id mysql_threads p out s = Some (out ++ [Some r], s') /\
       pkt_payload 1 r = Some d /\ dec_err d = Some (1047, c_lit "08S01", e)) /\
  (forall c s', sql_run AdminDb q s = (NoColumns StepDone c, s') -> 0 <= c < 2 ^ 31 ->
     exists r d, mysql_pkt_to_sqlite_exec junk over thread_id mysql_threads p out s = Some (out ++ [Some r], s') /\
       pkt_payload 1 r = Some d /\ dec_ok d = Some (c, 0, 2, 0)).
Proof.
  intros Ht Hq. split.
  - intros a e s' Hr Ha He. rewrite (exec_admin _ _ _ _ _ _ _ _ _ _ Ht Hq Hr).
    destruct (err_from_sqlite_spec junk e He) as (r & d & Er & Hd & D). exists r, d. split; [|done].
    destruct Ha as [->|[c ->]]; cbn [answer_pkts]; by rewrite Er.
  - intros c s' Hr Hc. rewrite (exec_admin _ _ _ _ _ _ _ _ _ _ Ht Hq Hr).
    destruct (affected_reply_spec junk c 0) as (r & d & Er & Hd & D); [lia..|]. exists r, d. split; [|done].
    cbn [answer_pkts]. change 0 with (u16 0) at 2. by rewrite Er.
Qed.

Lemma sqlite_statement_replies_witness :
  (exists r d, mysql_pkt_to_sqlite_exec (H := toy_sqlite) (fun _ => Byte.xaa) [] 4 4 (toy_query "UPDATE t SET a=1") [] [] =
      Some ([Some r], [c_lit "UPDATE t SET a=1"]) /\ pkt_payload 1 r = Some d /\ dec_ok d = Some (300, 0, 2, 0)) /\
  (exists r d, mysql_pkt_to_sqlite_exec (H := toy_sqlite) (fun _ => Byte.xaa) [] 4 4 (toy_query "SELEC") [] [] =
      Some ([Some r], [c_lit "SELEC"]) /\ pkt_payload 1 r = Some d /\
      dec_err d = Some (1047, c_lit "08S01", c_lit "syntax error")).
Proof.
  split.
  - apply (proj2 (sqlite_statement_replies toy_sqlite (fun _ => Byte.xaa) [] 4 4 (toy_query "UPDATE t SET a=1")
      (c_lit "UPDATE t SET a=1") [] [] ltac:(lia) ltac:(by vm_compute))); [by vm_compute|lia].
  - eapply (proj1 (sqlite_statement_replies toy_sqlite (fun _ => Byte.xaa) [] 4 4 (toy_query "SELEC")
      (c_lit "SELEC") [] [] ltac:(lia) ltac:(by vm_compute))); [by vm_compute|by left|by vm_compute].
Defined.

(** The places of the column definitions are counted from the start of the array.  When packets are
    still waiting in it, as after two queries that arrived together, the definitions overwrite those places
    and a NULL pointer stays behind the count packet, among the packets to send. *)
Theorem sqlite_resultset_behind_pending {sq : Type} (S : SQLite sq) junk over thread_id mysql_threads p q names rows last
    pending s s' :
  thread_id <= mysql_threads -> query_text p = Some q -> sql_run AdminDb q s = (Columns names rows last, s') ->
  wire_ok names rows -> pending <> [] ->
  exists out, mysql_pkt_to_sqlite_exec junk over thread_id mysql_threads p (Some <$> pending) s = Some (out, s') /\
    out !! (length pending + length names)%nat = Some None.
Proof.
  intros Ht Hq Hr Hw Hp. destruct (answer_behind_pending junk over names rows last pending Hw Hp) as (out & Ea & Hn).
  exists out. split; [|done]. by rewrite (exec_admin _ _ _ _ _ _ _ _ _ _ Ht Hq Hr), Ea.
Qed.

Lemma sqlite_resultset_behind_pending_witness :
  exists out, mysql_pkt_to_sqlite_exec (H := toy_sqlite) (fun _ => Byte.xaa) [] 4 4 (toy_query "SELECT a,b FROM t")
      (Some <$> [mkPkt 4 (frame 1 [])]) [] = Some (out, [c_lit "SELECT a,b FROM t"]) /\ out !! 3%nat = Some None.
Proof.
  eapply (sqlite_resultset_behind_pending toy_sqlite _ _ 4 4 _ (c_lit "SELECT a,b FROM t") [c_lit "a"; c_lit "b"]);
    [lia|by vm_compute|by vm_compute|apply toy_wire_ok|done].
Defined.
