(* ===== verification/Admin.v ===== *)
(** * The administration interface: src/admin.c

    [admin_COM_QUERY] answers the queries of the sessions of the administrator ([admin] is 1) and of the monitor ([admin] is 2).  It
    refreshes the tables that report the running state, rewrites two SHOW statements, answers the greeting of the mysql client,
    runs the commands (FLUSH, DUMP, CONFIG, SHUTDOWN), and gives everything else to SQLite (SqliteExec.v).

    The state [process_memory] holds what the commands touch: the configuration in memory (Config.v), the query cache
    (QueryCache.v), the shutdown flag and the SQLite connections.  The statements that read or fill a table through bound
    parameters are operations of the class [AdminTables]; the others are texts given to [sql_exec].  The clock, the bytes
    that follow a packet in memory and the acknowledgements of the threads are inputs; [None] is an access outside of a block, a
    failed assertion, or a wait that does not end. *)
From S2P Require Import Prelude PtrArray Protocol QueryCache Tokenizer GlobalVars Routing Config SqliteExec.
Open Scope Z_scope.

(** ** State *)

Definition defhg_row : Type := option (list byte) * option (list byte) * Z.

(** The statements with bound parameters and typed columns. *)
Class AdminTables (sq : Type) := {
  users_select : sq -> option (list (list byte * option (list byte)));
  verbosity_select : sq -> string -> option (list Z);
  query_rules_count : sq -> Z;
  query_rules_insert : list rule_row -> sq -> sq;
  query_rules_select : sq -> list rule_row;
  default_hostgroups_select : sq -> list defhg_row;
  servers_select : sq -> list server_row;
  query_rules_report : database -> list (Z * rule_row) -> sq -> option sq;
  query_cache_report : database -> list Z -> sq -> option sq;
  default_hostgroups_report : database -> list defhg_row -> sq -> option sq
}.

Record settings := mkSettings {
  g_mysql_hostgroups : Z; g_default_timeout : Z; g_mysql_threads : Z; g_admin_refresh : Z; g_monitor_refresh : Z;
  g_sync_on_flush : Z; g_sync_on_shutdown : Z }.

Record process_memory (sq : Type) := mkMemory {
  m_users : users_t; m_rules : option (list query_rule_t); m_defhg : DefHG.global_default_hostgroups_t; m_servers : server_heap;
  m_freed : list mshge_t; m_levels : list debug_level; m_cache : fdb_hashes_group_t; m_shutdown : Z; m_admin_lastupdate : Z;
  m_monitor_lastupdate : Z; m_db : sq }.
Arguments mkMemory {sq}.
Arguments m_users {sq}. Arguments m_rules {sq}. Arguments m_defhg {sq}. Arguments m_servers {sq}. Arguments m_freed {sq}.
Arguments m_levels {sq}. Arguments m_cache {sq}. Arguments m_shutdown {sq}. Arguments m_admin_lastupdate {sq}.
Arguments m_monitor_lastupdate {sq}. Arguments m_db {sq}.
#[export] Instance memory_eta sq : Eta (process_memory sq) := fun m =>
  mkMemory (m_users m) (m_rules m) (m_defhg m) (m_servers m) (m_freed m) (m_levels m) (m_cache m) (m_shutdown m)
    (m_admin_lastupdate m) (m_monitor_lastupdate m) (m_db m).

(** What the function uses of the session. *)
Record admin_session := mkAdminSess {
  as_admin : Z; as_thread_id : Z; as_cache_hit : bool; as_to_cache : bool; as_healthy : bool; as_out : list (option pkt) }.
#[export] Instance admin_session_eta : Eta admin_session := fun s =>
  mkAdminSess (as_admin s) (as_thread_id s) (as_cache_hit s) (as_to_cache s) (as_healthy s) (as_out s).

(** ** The commands *)

Inductive command :=
  | FlushQueryCache | FlushDebug | FlushUsers | FlushQueryRules | FlushDefaultHostgroups | FlushHostgroups | Shutdown
  | DumpRuntimeQueryRules | DumpRuntimeQueryCache | DumpRuntimeDefaultHostgroups | ConfigSyncToDisk.

Definition command_text (c : command) : list byte :=
  match c with
  | FlushQueryCache => c_lit "FLUSH QUERY CACHE"
  | FlushDebug => c_lit "FLUSH DEBUG"
  | FlushUsers => c_lit "FLUSH USERS"
  | FlushQueryRules => c_lit "FLUSH QUERY RULES"
  | FlushDefaultHostgroups => c_lit "FLUSH DEFAULT HOSTGROUPS"
  | FlushHostgroups => c_lit "FLUSH HOSTGROUPS"
  | Shutdown => c_lit "SHUTDOWN"
  | DumpRuntimeQueryRules => c_lit "DUMP RUNTIME QUERY RULES"
  | DumpRuntimeQueryCache => c_lit "DUMP RUNTIME QUERY CACHE"
  | DumpRuntimeDefaultHostgroups => c_lit "DUMP RUNTIME DEFAULT HOSTGROUPS"
  | ConfigSyncToDisk => c_lit "CONFIG SYNC TO DISK"
  end.

(** The order of the comparisons. *)
Definition commands : list command :=
  [FlushQueryCache; FlushDebug; FlushUsers; FlushQueryRules; FlushDefaultHostgroups; FlushHostgroups; Shutdown;
   DumpRuntimeQueryRules; DumpRuntimeQueryCache; DumpRuntimeDefaultHostgroups; ConfigSyncToDisk].

(** The packet that answers [select @@version_comment limit 1]. *)
Definition version_comment_bytes : list byte :=
  [Byte.x01; Byte.x00; Byte.x00; Byte.x01; Byte.x01; Byte.x27; Byte.x00; Byte.x00; Byte.x02; Byte.x03; Byte.x64; Byte.x65; Byte.x66; Byte.x00; Byte.x00; Byte.x00;
   Byte.x11; Byte.x40; Byte.x40; Byte.x76; Byte.x65; Byte.x72; Byte.x73; Byte.x69; Byte.x6f; Byte.x6e; Byte.x5f; Byte.x63; Byte.x6f; Byte.x6d; Byte.x6d; Byte.x65;
   Byte.x6e; Byte.x74; Byte.x00; Byte.x0c; Byte.x21; Byte.x00; Byte.x18; Byte.x00; Byte.x00; Byte.x00; Byte.xfd; Byte.x00; Byte.x00; Byte.x1f; Byte.x00; Byte.x00;
   Byte.x05; Byte.x00; Byte.x00; Byte.x03; Byte.xfe; Byte.x00; Byte.x00; Byte.x02; Byte.x00; Byte.x0b; Byte.x00; Byte.x00; Byte.x04; Byte.x0a; Byte.x28; Byte.x50;
   Byte.x72; Byte.x6f; Byte.x78; Byte.x79; Byte.x53; Byte.x51; Byte.x4c; Byte.x29; Byte.x05; Byte.x00; Byte.x00; Byte.x05; Byte.xfe; Byte.x00; Byte.x00; Byte.x02;
   Byte.x00].

Definition admin_version_comment_pkt : pkt := mkPkt 81 version_comment_bytes.

Definition show_tables : list byte := c_lit "SHOW TABLES".
Definition show_tables_query : list byte := c_lit "SELECT name AS tables FROM sqlite_master WHERE type='table'".
Definition show_create_table : list byte := c_lit "SHOW CREATE TABLE ".
Definition version_comment : list byte := c_lit "select @@version_comment limit 1".

(** The format of line 118, in front of its [%s] and behind it. *)
Definition create_table_prefix : list byte :=
  c_lit "SELECT name AS 'table' , sql AS 'Create Table' FROM sqlite_master WHERE type='table' AND name='".
Definition c_apostrophe : list byte := c_lit "'".
Definition strB_length : Z := Z.of_nat (length create_table_prefix + 2 + length c_apostrophe).

Section Admin.
Context (junk : nat -> byte) (over : list byte) (names_junk : nat -> option (list byte)) (text : Z -> option string) (G : settings)
        {sq : Type} `{SQLite sq} `{AdminTables sq}.

(** The text behind the command byte: [p->length-sizeof(mysql_hdr)-1] bytes. *)
Definition admin_query (p : pkt) : option (list byte) :=
  if decide (5 <= length_of p)%nat then mem_read 5 (length_of p - 5) (data p) else None.

(** A new block for the client's packet; the header is not written. *)
Definition replace_query (q : list byte) : option pkt :=
  d ← writes [Skip sizeof_mysql_hdr; W [MYSQL_COM_QUERY]; W q] 0 (block junk (length q + sizeof_mysql_hdr + 1));
  Some (mkPkt (length q + sizeof_mysql_hdr + 1) d).

Definition rewrite_show_tables (p : pkt) : option pkt :=
  q ← admin_query p;
  if strncasecmp show_tables q (length q) =? 0 then replace_query show_tables_query else Some p.

(** [snprintf(buff,l,strB,name); buff[l-1]='\'';] into a block of [l] zeros. *)
Definition create_table_text (tblnamelen : Z) (name : list byte) : option (list byte) :=
  let l := strB_length + tblnamelen - 2 in
  if l <? 1 then None else
  let n := Z.to_nat (l - 1) in
  let printed := take n (create_table_prefix ++ name ++ c_apostrophe) in
  Some (printed ++ replicate (n - length printed) Byte.x00 ++ c_apostrophe).

(** [beyond]: the bytes that follow the packet in memory; the comparison and [%s] do not stop at its end. *)
Definition rewrite_show_create_table (beyond : list byte) (p : pkt) : option pkt :=
  q ← admin_query p;
  let strAl := length show_create_table in
  if strncasecmp show_create_table (q ++ beyond) strAl =? 0 then
    name ← strdup_at strAl (q ++ beyond);
    b ← create_table_text (Z.of_nat (length q) - Z.of_nat strAl) name;
    replace_query b
  else Some p.

Definition find_command (q : list byte) : option command :=
  List.find (fun c => strncasecmp (command_text c) q (length q) =? 0) commands.

(** ** Reports *)

Definition sqlite3_dump_runtime_query_cache (db : database) (m : process_memory sq) : option (Z * process_memory sq) :=
  let c := m_cache m in
  let entries := i32 (Z.of_nat (sum_list_with (fun h => length (ptrArray h)) (fdb_hashes c))) in
  s ← query_cache_report db [entries; i64 (size_keys c); i64 (size_values c); i64 (size_metas c); i64 (cntSet c); i64 (cntSetERR c);
                             i64 (cntGet c); i64 (cntGetOK c); i64 (cntPurge c); i64 (dataIN c); i64 (dataOUT c)] (m_db m);
  Some (1, m <| m_db := s |>).

Definition dump_query_rules (db : database) (m : process_memory sq) : option (Z * process_memory sq) :=
  let '(n, rows) := sqlite3_dump_runtime_query_rules (default [] (m_rules m)) in
  s ← query_rules_report db rows (m_db m);
  Some (n, m <| m_db := s |>).

Definition dump_default_hostgroups (db : database) (m : process_memory sq) : option (Z * process_memory sq) :=
  let '(n, rows) := sqlite3_dump_runtime_default_hostgroups (m_defhg m) in
  s ← default_hostgroups_report db rows (m_db m);
  Some (n, m <| m_db := s |>).

Definition exec_texts (db : database) (qs : list (list byte)) (s : sq) : option sq :=
  foldl (fun os q => s ← os; sql_exec db q s) (Some s) qs.

Definition runtime_hostgroups_tables : list (list byte) :=
  [c_lit "DROP TABLE IF EXISTS runtime_hostgroups";
   c_lit "CREATE TABLE runtime_hostgroups ( hostgroup_id INT NOT NULL DEFAULT 0, hostname VARCHAR NOT NULL , port INT NOT NULL DEFAULT 3306, connections_active INT NOT NULL, connections_created INT NOT NULL, bytes_sent INT NOT NULL, bytes_recv INT NOT NULL, PRIMARY KEY (hostgroup_id, hostname, port) )";
   c_lit "DROP TABLE IF EXISTS runtime_servers";
   c_lit "CREATE TABLE runtime_servers ( hostname VARCHAR NOT NULL , port INT NOT NULL, read_only INT NOT NULL, status NOT NULL )"].

Definition dump_hostgroups (db : database) (m : process_memory sq) : option (Z * process_memory sq) :=
  g ← servers_view (m_servers m);
  '(n, sts) ← sqlite3_dump_runtime_hostgroups (g_mysql_hostgroups G) g;
  s ← exec_texts db (runtime_hostgroups_tables ++ sts) (m_db m);
  Some (n, m <| m_db := s |>).

Definition dump_all (db : database) (m : process_memory sq) : option (process_memory sq) :=
  '(_, m) ← dump_hostgroups db m;
  '(_, m) ← dump_query_rules db m;
  '(_, m) ← sqlite3_dump_runtime_query_cache db m;
  Some m.

(** A session that is neither would give the reports a NULL database. *)
Definition update_runtime_statistics (admin t : Z) (m : process_memory sq) : option (process_memory sq) :=
  if admin =? 1 then
    if t <? g_admin_refresh G + m_admin_lastupdate m then Some m
    else dump_all AdminDb (m <| m_admin_lastupdate := t |>)
  else if admin =? 2 then
    if t <? g_monitor_refresh G + m_monitor_lastupdate m then Some m
    else dump_all MonitorDb (m <| m_monitor_lastupdate := t |>)
  else None.

(** ** Running a command *)

Definition statement_text (s : Disk.statement) : list byte :=
  match s with
  | Disk.ForeignKeys true => c_lit "PRAGMA foreign_keys = ON"
  | Disk.ForeignKeys false => c_lit "PRAGMA foreign_keys = OFF"
  | Disk.Begin => c_lit "BEGIN"
  | Disk.Commit => c_lit "COMMIT"
  | Disk.DeleteFromDisk t => c_lit "DELETE FROM disk." ++ c_lit t
  | Disk.ReplaceIntoDisk t => c_lit "INSERT OR REPLACE INTO disk." ++ c_lit t ++ c_lit " SELECT * FROM main." ++ c_lit t
  | Disk.IgnoreIntoMain t => c_lit "INSERT OR IGNORE INTO main." ++ c_lit t ++ c_lit " SELECT * FROM disk." ++ c_lit t
  end.

Definition sync_to_disk (m : process_memory sq) : option (process_memory sq) :=
  s ← exec_texts AdminDb (statement_text <$> Disk.sqlite3_config_sync_mem_to_disk) (m_db m);
  Some (m <| m_db := s |>).

(** The sum of the acknowledgements; the administrator's thread waits for one of each thread. *)
Definition force_remove_servers (acks : list Z) : option Z :=
  let n := Z.to_nat (g_mysql_threads G) in
  if decide (n <= length acks)%nat then Some (i32 (foldl Z.add 0 (take n acks))) else None.

(** The number of rows and of warnings, and the new state. *)
Definition run_command (acks : list Z) (c : command) (db : database) (m : process_memory sq)
  : option (Z * Z * process_memory sq) :=
  match c with
  | FlushQueryCache =>
      let '(n, cache) := fdb_truncate_all (m_cache m) in Some (i32 n, 0, m <| m_cache := cache |>)
  | FlushDebug =>
      '(n, ls) ← sqlite3_flush_debug_levels_db_to_mem text (verbosity_select (m_db m)) (m_levels m);
      Some (n, 0, m <| m_levels := ls |>)
  | FlushUsers =>
      let '(n, u) := sqlite3_flush_users_db_to_mem (users_select (m_db m)) (m_users m) in Some (n, 0, m <| m_users := u |>)
  | FlushQueryRules =>
      '(n, rules, inserted) ← sqlite3_flush_query_rules_db_to_mem (g_mysql_hostgroups G) (g_default_timeout G)
        (query_rules_count (m_db m)) (fun rows => query_rules_select (query_rules_insert rows (m_db m))) (m_rules m);
      Some (n, 0, m <| m_rules := Some rules |> <| m_db := query_rules_insert inserted (m_db m) |>)
  | FlushDefaultHostgroups =>
      let '(n, g) := sqlite3_flush_default_hostgroups_db_to_mem names_junk (default_hostgroups_select (m_db m)) (m_defhg m) in
      Some (n, 0, m <| m_defhg := g |>)
  | FlushHostgroups =>
      '(n, freed, h) ← sqlite3_flush_servers_db_to_mem (g_mysql_hostgroups G) (servers_select (m_db m)) (m_servers m);
      warnings ← force_remove_servers acks;
      Some (n, warnings, m <| m_servers := h |> <| m_freed := m_freed m ++ freed |>)
  | Shutdown => Some (0, 0, m <| m_shutdown := 1 |>)
  | DumpRuntimeQueryRules => '(n, m) ← dump_query_rules db m; Some (n, 0, m)
  | DumpRuntimeQueryCache => '(n, m) ← sqlite3_dump_runtime_query_cache db m; Some (n, 0, m)
  | DumpRuntimeDefaultHostgroups => '(n, m) ← dump_default_hostgroups db m; Some (n, 0, m)
  | ConfigSyncToDisk => m ← sync_to_disk m; Some (0, 0, m)
  end.

(** Is the configuration written to disk after the command? *)
Definition syncs (c : command) : bool :=
  match c with
  | FlushDebug | FlushUsers | FlushQueryRules | FlushDefaultHostgroups | FlushHostgroups => g_sync_on_flush G =? 1
  | Shutdown => g_sync_on_shutdown G =? 1
  | _ => false
  end.

(** [if ( affected_rows>=0 )] is tested after FLUSH HOSTGROUPS only. *)
Definition answers (c : command) (affected : Z) : bool :=
  match c with FlushHostgroups => 0 <=? affected | _ => true end.

Definition do_command (acks : list Z) (c : command) (s : admin_session) (m : process_memory sq)
  : option (admin_session * process_memory sq) :=
  let db := if as_admin s =? 1 then AdminDb else MonitorDb in
  '(affected, warnings, m) ← run_command acks c db m;
  if answers c affected then
    ok ← myproto_ok_pkt junk 1 (u64 affected) 0 2 (u16 warnings);
    m ← (if syncs c then sync_to_disk m else Some m);
    Some (s <| as_out := as_out s ++ [Some ok] |>, m)
  else Some (s, m).

(** The packet after both rewritings. *)
Definition rewritten (beyond : list byte) (p : pkt) : option pkt :=
  p ← rewrite_show_tables p; rewrite_show_create_table beyond p.

Definition admin_COM_QUERY (t : Z) (beyond : list byte) (acks : list Z) (p : pkt) (s : admin_session) (m : process_memory sq)
  : option (admin_session * process_memory sq) :=
  let s := s <| as_cache_hit := true |> <| as_to_cache := false |> in
  m ← update_runtime_statistics (as_admin s) t m;
  p ← rewritten beyond p;
  q ← admin_query p;
  if strncmp version_comment q (length q) =? 0 then
    Some (s <| as_out := as_out s ++ [Some admin_version_comment_pkt] |>, m)
  else
    match (if as_admin s =? 1 then find_command q else None) with
    | Some c => do_command acks c s m
    | None =>
        '(out, db) ← mysql_pkt_to_sqlite_exec junk over (as_thread_id s) (g_mysql_threads G) p (as_out s) (m_db m);
        Some (s <| as_out := out |>, m <| m_db := db |>)
    end.

End Admin.

(** * Properties *)

(** ** Which request is a text *)

(** [a] is the beginning of [b], capitals or not. *)
Definition ci_prefix (a b : list byte) : bool := bool_decide ((tolower <$> a) `prefix_of` (tolower <$> b)).

Inductive request := Sql (q : list byte) | VersionComment | Command (c : command).

(** What the texts mean, without packets and C strings. *)
Definition classify (admin : Z) (q : list byte) : request :=
  if ci_prefix q show_tables then Sql show_tables_query
  else if ci_prefix show_create_table q then Sql (create_table_prefix ++ drop (length show_create_table) q ++ c_apostrophe)
  else if bool_decide (q `prefix_of` version_comment) then VersionComment
  else match (if admin =? 1 then List.find (fun c => ci_prefix q (command_text c)) commands else None) with
       | Some c => Command c
       | None => Sql q
       end.

(** A packet that carries a text. *)
Definition query_pkt (q : list byte) : pkt := mkPkt (5 + length q) (frame 0 (MYSQL_COM_QUERY :: q)).

Lemma strncmp_by_prefix_of f a b :
  (forall x, f x = f Byte.x00 -> x = Byte.x00) -> Byte.x00 ∉ a -> Byte.x00 ∉ b ->
  strncmp_by f (length b) a b = 0 <-> (f <$> b) `prefix_of` (f <$> a).
Proof.
  intros Hf. revert a. induction b as [|y b IH]; intros a Ha Hb; cbn [length strncmp_by].
  - split; [intros _; apply prefix_nil|done].
  - destruct a as [|x a]; cbn [hd tl].
    + destruct (Z.eqb_spec (f Byte.x00) (f y)) as [E|E]; cbn [negb].
      * symmetry in E. apply Hf in E as ->. set_solver.
      * split; [lia|]. intros Hp. by apply prefix_nil_not in Hp.
    + rewrite !fmap_cons. destruct (Z.eqb_spec (f x) (f y)) as [E|E]; cbn [negb].
      * rewrite decide_False by set_solver. rewrite IH by set_solver. rewrite E. split; [apply prefix_cons|apply prefix_cons_inv_2].
      * split; [lia|]. intros Hp. apply prefix_cons_inv_1 in Hp. congruence.
Qed.

Lemma tolower_nul x : tolower x = tolower Byte.x00 -> x = Byte.x00.
Proof.
  change (tolower Byte.x00) with 0. unfold tolower. pose proof (uc_range x).
  destruct (_ && _) eqn:E; px_bool; [lia|]. intros Hx. by apply uc_inj.
Qed.

Lemma strncasecmp_abbrev a q : Byte.x00 ∉ a -> Byte.x00 ∉ q -> (strncasecmp a q (length q) =? 0) = ci_prefix q a.
Proof.
  intros Ha Hq. apply eq_bool_prop_intro. rewrite Is_true_true, Z.eqb_eq. unfold ci_prefix. rewrite bool_decide_spec.
  apply strncmp_by_prefix_of; [apply tolower_nul|done..].
Qed.

Lemma strncmp_abbrev a q : Byte.x00 ∉ a -> Byte.x00 ∉ q -> (strncmp a q (length q) =? 0) = bool_decide (q `prefix_of` a).
Proof.
  intros Ha Hq. apply eq_bool_prop_intro. rewrite Is_true_true, Z.eqb_eq, bool_decide_spec. unfold strncmp.
  rewrite (strncmp_by_prefix uc) by (done || apply uc_inj). split.
  - intros E. rewrite <- E. exists (drop (length q) a). by rewrite take_drop.
  - intros [k ->]. by rewrite take_app_length.
Qed.

Lemma strncmp_by_take f n a b : strncmp_by f n (take n a) b = strncmp_by f n a b.
Proof.
  revert a b. induction n as [|n IH]; intros a b; [done|]. cbn [strncmp_by].
  destruct a as [|x a]; [done|]. cbn [take hd tl]. by rewrite IH.
Qed.

Lemma strncmp_by_le f n k a b : (k <= n)%nat -> strncmp_by f n a b = 0 -> strncmp_by f k a b = 0.
Proof.
  revert k a b. induction n as [|n IH]; intros [|k] a b Hk; try done; [lia|]. cbn [strncmp_by].
  destruct (Z.eqb_spec (f (hd Byte.x00 a)) (f (hd Byte.x00 b))) as [E|E]; cbn [negb]; [|done].
  case_decide; [done|]. apply IH. lia.
Qed.

Lemma strncmp_by_sym f n a b : (forall x, f x = f Byte.x00 -> x = Byte.x00) ->
  strncmp_by f n a b = 0 -> strncmp_by f n b a = 0.
Proof.
  intros Hf. revert a b. induction n as [|n IH]; intros a b; [done|]. cbn [strncmp_by].
  destruct (Z.eqb_spec (f (hd Byte.x00 a)) (f (hd Byte.x00 b))) as [E|E]; cbn [negb]; [|lia].
  rewrite E, Z.eqb_refl. cbn [negb]. intros Hr. destruct (decide (hd Byte.x00 b = Byte.x00)) as [Hb|Hb]; [done|]. apply IH.
  rewrite decide_False in Hr; [done|]. intros Ha. apply Hb, Hf. by rewrite <- E, Ha.
Qed.

(** The comparison of line 120 decides whether the text starts with [SHOW CREATE TABLE ]; a text that ends
    before must differ from it, or the comparison goes on behind the packet. *)
Definition within_packet (q : list byte) : Prop :=
  (length show_create_table <= length q)%nat \/ ci_prefix q show_create_table = false.

Lemma show_create_nul : Byte.x00 ∉ show_create_table.
Proof. vm_compute. set_solver. Qed.

Lemma strncasecmp_start q beyond : Byte.x00 ∉ q -> within_packet q ->
  (strncasecmp show_create_table (q ++ beyond) (length show_create_table) =? 0) = ci_prefix show_create_table q.
Proof.
  intros Hq Hw. pose proof show_create_nul as Hs. unfold strncasecmp. set (a := show_create_table) in *.
  apply eq_bool_prop_intro. rewrite Is_true_true, Z.eqb_eq. unfold ci_prefix. rewrite bool_decide_spec.
  destruct (decide (length a <= length q)%nat) as [Hl|Hl].
  - assert (strncmp_by tolower (length a) (q ++ beyond) a = strncmp_by tolower (length a) q a) as Ht.
    { rewrite <- strncmp_by_take, <- (strncmp_by_take _ _ q). by rewrite take_app_le by lia. }
    rewrite <- strncmp_by_prefix_of by (done || apply tolower_nul). rewrite <- Ht.
    split; apply strncmp_by_sym, tolower_nul.
  - destruct Hw as [?|Hw]; [done|]. split.
    + intros E. apply (strncmp_by_le _ _ (length q)) in E; [|lia]. apply strncmp_by_sym in E; [|apply tolower_nul].
      rewrite <- strncmp_by_take, take_app_length in E. apply strncmp_by_sym in E; [|apply tolower_nul].
      rewrite strncmp_by_prefix_of in E by (done || apply tolower_nul).
      unfold ci_prefix in Hw. apply bool_decide_eq_false in Hw. done.
    + intros Hp. apply prefix_length in Hp. rewrite !length_fmap in Hp. lia.
Qed.

Section Requests.
Context (junk : nat -> byte) (over : list byte) (names_junk : nat -> option (list byte)) (text : Z -> option string) (G : settings)
        {sq : Type} (S : SQLite sq) (T : AdminTables sq).

Lemma replace_query_spec q : exists p, replace_query junk q = Some p /\ admin_query p = Some q.
Proof.
  unfold replace_query. rewrite writes_block by (cbn [wsize]; rewrite length_block; unfold sizeof_mysql_hdr; cbn [length]; lia).
  rewrite bind_Some. eexists. split; [done|]. cbn [render]. rewrite app_nil_r.
  set (b := take _ _). assert (length b = 4%nat) as Hb.
  { unfold b. rewrite length_take, length_block. unfold sizeof_mysql_hdr. lia. }
  unfold admin_query, sizeof_mysql_hdr. cbn [length_of data]. rewrite decide_True by lia.
  replace (length q + 4 + 1 - 5)%nat with (length q) by lia.
  pose proof (mem_read_app (b ++ [MYSQL_COM_QUERY]) q [] 5 (length q)) as Hm. rewrite app_nil_r, <- app_assoc in Hm.
  apply Hm; [rewrite length_app, Hb; done|done].
Qed.

Lemma rewrite_show_tables_spec p q : admin_query p = Some q -> Byte.x00 ∉ q ->
  if ci_prefix q show_tables
  then exists p', rewrite_show_tables junk p = Some p' /\ admin_query p' = Some show_tables_query
  else rewrite_show_tables junk p = Some p.
Proof.
  intros Hp Hq. unfold rewrite_show_tables. rewrite Hp, bind_Some, strncasecmp_abbrev by (done || (vm_compute; set_solver)).
  destruct (ci_prefix q show_tables); [apply replace_query_spec|done].
Qed.

Lemma create_table_text_spec name rest :
  create_table_text (Z.of_nat (length name)) (name ++ rest) = Some (create_table_prefix ++ name ++ c_apostrophe).
Proof.
  unfold create_table_text, strB_length. change (length c_apostrophe) with 1%nat.
  set (P := create_table_prefix). rewrite (proj2 (Z.ltb_ge _ _)) by lia.
  replace (Z.to_nat _) with (length P + length name)%nat by lia.
  rewrite take_app_add, take_app3_length. f_equal. rewrite length_app, Nat.sub_diag. cbn [replicate].
  by rewrite <- app_assoc.
Qed.

Lemma rewrite_show_create_table_spec b1 b2 p q : admin_query p = Some q -> Byte.x00 ∉ q -> within_packet q -> Byte.x00 ∉ b1 ->
  if ci_prefix show_create_table q
  then exists p', rewrite_show_create_table junk (b1 ++ Byte.x00 :: b2) p = Some p' /\
         admin_query p' = Some (create_table_prefix ++ drop (length show_create_table) q ++ c_apostrophe)
  else rewrite_show_create_table junk (b1 ++ Byte.x00 :: b2) p = Some p.
Proof.
  intros Hp Hq Hw Hb. unfold rewrite_show_create_table. rewrite Hp, bind_Some, strncasecmp_start by done.
  destruct (ci_prefix show_create_table q) eqn:E; [|done].
  set (n := length show_create_table).
  assert (n <= length q)%nat as Hn.
  { unfold ci_prefix in E. apply bool_decide_eq_true, prefix_length in E. by rewrite !length_fmap in E. }
  assert (strdup_at n (q ++ b1 ++ Byte.x00 :: b2) = Some (drop n q ++ b1)) as ->.
  { rewrite <- (take_drop n q) at 1. rewrite <- app_assoc, (app_assoc (drop n q)).
    apply strdup_at_app; [rewrite length_take; lia|]. rewrite not_elem_of_app. split; [|done].
    intros Hin. apply Hq. rewrite <- (take_drop n q). apply elem_of_app. by right. }
  rewrite bind_Some. replace (Z.of_nat (length q) - Z.of_nat n) with (Z.of_nat (length (drop n q))) by (rewrite length_drop; lia).
  rewrite create_table_text_spec, bind_Some. apply replace_query_spec.
Qed.

(** A request is carried out: the specification of [admin_COM_QUERY]. *)
Definition perform (acks : list Z) (r : request) (s : admin_session) (m : process_memory sq)
  : option (admin_session * process_memory sq) :=
  match r with
  | VersionComment => Some (s <| as_out := as_out s ++ [Some admin_version_comment_pkt] |>, m)
  | Command c => do_command junk names_junk text G acks c s m
  | Sql q =>
      '(out, db) ← mysql_pkt_to_sqlite_exec junk over (as_thread_id s) (g_mysql_threads G) (query_pkt q) (as_out s) (m_db m);
      Some (s <| as_out := out |>, m <| m_db := db |>)
  end.

Lemma query_text_admin p : query_text p = c_text <$> admin_query p.
Proof. unfold query_text, admin_query. by case_decide. Qed.

Lemma admin_query_pkt q : admin_query (query_pkt q) = Some q.
Proof.
  unfold admin_query, query_pkt. cbn [length_of data]. rewrite decide_True by lia.
  replace (5 + length q - 5)%nat with (length q) by lia. unfold frame.
  set (h := hdr_bytes _). pose proof (mem_read_app (h ++ [MYSQL_COM_QUERY]) q [] 5 (length q)) as Hm.
  rewrite app_nil_r, <- app_assoc in Hm. by apply Hm.
Qed.

Lemma exec_same_text thread_id threads p p' out s : admin_query p = admin_query p' ->
  mysql_pkt_to_sqlite_exec junk over thread_id threads p out s = mysql_pkt_to_sqlite_exec junk over thread_id threads p' out s.
Proof. intros E. unfold mysql_pkt_to_sqlite_exec. by rewrite !query_text_admin, E. Qed.

Lemma command_nul c : Byte.x00 ∉ command_text c.
Proof. destruct c; vm_compute; set_solver. Qed.

Lemma find_command_spec q : Byte.x00 ∉ q -> find_command q = List.find (fun c => ci_prefix q (command_text c)) commands.
Proof.
  intros Hq. unfold find_command. induction commands as [|c cs IH]; [done|]. cbn [List.find].
  by rewrite strncasecmp_abbrev, IH by (done || apply command_nul).
Qed.

(** A text longer than every command is SQL. *)
Lemma long_text q : (33 <= length q)%nat ->
  bool_decide (q `prefix_of` version_comment) = false /\ List.find (fun c => ci_prefix q (command_text c)) commands = None.
Proof.
  intros Hl. split.
  - apply bool_decide_eq_false. intros Hp. apply prefix_length in Hp. cbn in Hp. lia.
  - assert (forall c, ci_prefix q (command_text c) = false) as Hc.
    { intros c. apply bool_decide_eq_false. intros Hp. apply prefix_length in Hp. rewrite !length_fmap in Hp.
      destruct c; cbn in Hp; lia. }
    induction commands as [|c cs IH]; [done|]. cbn [List.find]. by rewrite Hc.
Qed.

Definition if_admin (admin : Z) (o : option command) : option command := if admin =? 1 then o else None.

(** What follows the rewritings. *)
Lemma answer_spec acks p q s m : admin_query p = Some q -> Byte.x00 ∉ q ->
  (if strncmp version_comment q (length q) =? 0 then
     Some (s <| as_out := as_out s ++ [Some admin_version_comment_pkt] |>, m)
   else match if_admin (as_admin s) (find_command q) with
        | Some c => do_command junk names_junk text G acks c s m
        | None =>
            '(out, db) ← mysql_pkt_to_sqlite_exec junk over (as_thread_id s) (g_mysql_threads G) p (as_out s) (m_db m);
            Some (s <| as_out := out |>, m <| m_db := db |>)
        end) =
  perform acks (if bool_decide (q `prefix_of` version_comment) then VersionComment
                else match if_admin (as_admin s) (List.find (fun c => ci_prefix q (command_text c)) commands) with
                     | Some c => Command c | None => Sql q end) s m.
Proof.
  intros Hp Hq. rewrite strncmp_abbrev by (done || (vm_compute; set_solver)). rewrite find_command_spec by done.
  case_bool_decide; [done|]. destruct (if_admin _ _) as [c|]; [done|]. cbn [perform].
  by rewrite (exec_same_text _ _ p (query_pkt q)) by (by rewrite Hp, admin_query_pkt).
Qed.

(** The rewritings and what follows them agree with [classify]. *)
Lemma rewritten_classify acks b1 b2 p q s m :
  admin_query p = Some q -> Byte.x00 ∉ q -> within_packet q -> Byte.x00 ∉ b1 ->
  exists p' q', rewritten junk (b1 ++ Byte.x00 :: b2) p = Some p' /\ admin_query p' = Some q' /\ Byte.x00 ∉ q' /\
    perform acks (classify (as_admin s) q) s m =
    perform acks (if bool_decide (q' `prefix_of` version_comment) then VersionComment
                  else match if_admin (as_admin s) (List.find (fun c => ci_prefix q' (command_text c)) commands) with
                       | Some c => Command c | None => Sql q' end) s m.
Proof.
  intros Hp Hq Hw Hb. unfold rewritten, classify.
  pose proof (rewrite_show_tables_spec p q Hp Hq) as Ht. destruct (ci_prefix q show_tables) eqn:E1.
  - destruct Ht as (p1 & -> & Hp1). rewrite bind_Some. exists p1, show_tables_query.
    assert (Byte.x00 ∉ show_tables_query) as Hn by (vm_compute; set_solver).
    pose proof (rewrite_show_create_table_spec b1 b2 p1 show_tables_query Hp1 Hn) as Hc.
    change (ci_prefix show_create_table show_tables_query) with false in Hc.
    split; [apply Hc; [left; cbn; lia|done]|]. split; [done|]. split; [done|].
    destruct (long_text show_tables_query) as [-> ->]; [cbn; lia|]. unfold if_admin. by destruct (_ =? 1).
  - rewrite Ht, bind_Some. pose proof (rewrite_show_create_table_spec b1 b2 p q Hp Hq Hw Hb) as Hc.
    destruct (ci_prefix show_create_table q).
    + destruct Hc as (p' & Hp' & Hq'). set (q' := create_table_prefix ++ _) in *. exists p', q'. split; [done|]. split; [done|].
      destruct (long_text q') as [-> ->]; [unfold q'; rewrite length_app; cbn; lia|]. split.
      * unfold q'. rewrite !not_elem_of_app. split; [vm_compute; set_solver|]. split; [|vm_compute; set_solver].
        intros Hin. apply Hq. rewrite <- (take_drop (length show_create_table) q). apply elem_of_app. by right.
      * unfold if_admin. by destruct (_ =? 1).
    + exists p, q. split; [done|]. split; [done|]. split; [done|]. done.
Qed.

End Requests.

(** ** The theorems *)

(** A small database for the examples. *)
Definition toy_tables : AdminTables (list (list byte)) := {|
  users_select := fun _ => Some [(c_lit "bob", Some (c_lit "pw"))];
  verbosity_select := fun _ _ => Some [1];
  query_rules_count := fun _ => 1;
  query_rules_insert := fun _ s => s;
  query_rules_select := fun _ => [];
  default_hostgroups_select := fun _ => [];
  servers_select := fun _ => [];
  query_rules_report := fun _ _ s => Some s;
  query_cache_report := fun _ _ s => Some s;
  default_hostgroups_report := fun _ _ s => Some s
|}.

Definition toy_settings : settings := mkSettings 2 60 4 600 600 1 0.
Definition toy_memory : process_memory (list (list byte)) :=
  mkMemory (mkUsersMem [] [] ∅) (Some []) (DefHG.mkGDH 0 []) (mkHeap [] [[]; []] [0%nat; 1%nat]) [] [] (fdb_hashes_new 0 1 60 1000 0) 0 1000 1000 [].
Definition toy_session (admin : Z) : admin_session := mkAdminSess admin (3 + admin) false true true [].

(** C17: the administrator's texts are dispatched as [classify] says: an abbreviation of SHOW TABLES and SHOW CREATE TABLE become
    queries on [sqlite_master], the greeting of the mysql client is answered at once, an abbreviation of a command, in capitals or not,
    runs the first such command for the administrator only, and every other text goes to SQLite unchanged; before that the
    reports are refreshed.  The text has no NUL, a NUL follows the packet somewhere in memory, and a text that is shorter
    than [SHOW CREATE TABLE ] is not the beginning of it, so that the comparison ends within the packet. *)
Theorem admin_requests {sq : Type} (S : SQLite sq) (T : AdminTables sq) junk over names_junk text G t b1 b2 acks p q s m :
  admin_query p = Some q -> Byte.x00 ∉ q -> within_packet q -> Byte.x00 ∉ b1 ->
  admin_COM_QUERY junk over names_junk text G t (b1 ++ Byte.x00 :: b2) acks p s m =
    (m' ← update_runtime_statistics G (as_admin s) t m;
     perform junk over names_junk text G S T acks (classify (as_admin s) q) (s <| as_cache_hit := true |> <| as_to_cache := false |>) m').
Proof.
  intros Hp Hq Hw Hb. unfold admin_COM_QUERY. cbv zeta. set (s1 := s <| as_cache_hit := true |> <| as_to_cache := false |>).
  change (as_admin s) with (as_admin s1).
  destruct (update_runtime_statistics G (as_admin s1) t m) as [m'|]; [|done]. rewrite !bind_Some.
  destruct (rewritten_classify junk over names_junk text G S T acks b1 b2 p q s1 m' Hp Hq Hw Hb) as (p' & q' & -> & Hp' & Hq' & E).
  rewrite bind_Some, Hp', bind_Some, E. exact (answer_spec junk over names_junk text G S T acks p' q' s1 m' Hp' Hq').
Qed.

Lemma admin_requests_witness :
  classify 1 (c_lit "flush users") = Command FlushUsers /\
  classify 1 (c_lit "show create table users") = Sql (create_table_prefix ++ c_lit "users'") /\
  admin_COM_QUERY (H := toy_sqlite) (H0 := toy_tables) (fun _ => Byte.xaa) [] (fun _ => None) (fun _ => None) toy_settings 1200
      (c_lit "x" ++ Byte.x00 :: []) [] (query_pkt (c_lit "flush users")) (toy_session 1) toy_memory =
    (m' ← update_runtime_statistics (H := toy_sqlite) (H0 := toy_tables) toy_settings 1 1200 toy_memory;
     perform (fun _ => Byte.xaa) [] (fun _ => None) (fun _ => None) toy_settings toy_sqlite toy_tables []
       (classify 1 (c_lit "flush users")) (mkAdminSess 1 4 true false true []) m').
Proof.
  split; [by vm_compute|]. split; [by vm_compute|].
  apply (admin_requests toy_sqlite toy_tables (fun _ => Byte.xaa) [] (fun _ => None) (fun _ => None) toy_settings 1200
    (c_lit "x") [] [] (query_pkt (c_lit "flush users")) (c_lit "flush users") (toy_session 1) toy_memory).
  - apply admin_query_pkt.
  - vm_compute. set_solver.
  - right. by vm_compute.
  - vm_compute. set_solver.
Defined.

(** What a monitoring session must not touch. *)
Definition configuration {sq} (m : process_memory sq)
  : users_t * option (list query_rule_t) * DefHG.global_default_hostgroups_t * server_heap * list mshge_t * list debug_level *
    fdb_hashes_group_t * Z :=
  (m_users m, m_rules m, m_defhg m, m_servers m, m_freed m, m_levels m, m_cache m, m_shutdown m).

Section Frame.
Context (G : settings) {sq : Type} (S : SQLite sq) (T : AdminTables sq).

Lemma dump_all_frame db m m' : dump_all G db m = Some m' -> configuration m' = configuration m.
Proof.
  unfold dump_all, dump_hostgroups, dump_query_rules, sqlite3_dump_runtime_query_cache. intros E.
  px_run E. destruct x as [n1 m1]. px_run E0. px_run E0. destruct x0 as [n2 sts]. px_run E0. injection E0 as _ <-.
  px_run E. destruct x1 as [n3 m2]. px_run E0. injection E0 as _ <-.
  px_run E. destruct x2 as [n4 m3]. px_run E0. injection E0 as _ <-. by injection E as <-.
Qed.

Lemma update_frame admin t m m' : update_runtime_statistics G admin t m = Some m' -> configuration m' = configuration m.
Proof.
  unfold update_runtime_statistics. intros E.
  repeat (case_match; [by injection E as <-| |] || case_match); try done; try (by injection E as <-);
    apply dump_all_frame in E; by rewrite E.
Qed.
End Frame.

(** No query of a monitoring session changes the configuration in memory, the query cache or the shutdown
    flag, whatever its text is; the query runs on the monitor's database, with [query_only] switched on before and off after. *)
Theorem monitor_session_changes_nothing {sq : Type} (S : SQLite sq) (T : AdminTables sq) junk over names_junk text G t beyond acks p s m s' m' :
  as_admin s = 2 -> g_mysql_threads G < as_thread_id s ->
  admin_COM_QUERY junk over names_junk text G t beyond acks p s m = Some (s', m') ->
  configuration m' = configuration m /\
  exists m1, update_runtime_statistics G 2 t m = Some m1 /\
    (m' = m1 \/ exists q s1 s2 a,
       sql_exec MonitorDb (c_lit "PRAGMA query_only = ON") (m_db m1) = Some s1 /\ sql_run MonitorDb q s1 = (a, s2) /\
       sql_exec MonitorDb (c_lit "PRAGMA query_only = OFF") s2 = Some (m_db m')).
Proof.
  intros Ha Ht. unfold admin_COM_QUERY. cbv zeta. change (as_admin (s <| as_cache_hit := true |> <| as_to_cache := false |>)) with (as_admin s).
  rewrite Ha. intros E. px_run E. rename x into m1. px_run E. px_run E. pose proof (update_frame G S T 2 t m m1 E0) as Hf.
  case_match; [injection E as _ <-; eauto|]. cbn [Z.eqb Pos.eqb] in E.
  px_run E. destruct x1 as [out db]. injection E as _ <-. split; [exact Hf|]. exists m1. split; [done|]. right.
  unfold mysql_pkt_to_sqlite_exec in E3. change (as_thread_id (s <| as_cache_hit := true |> <| as_to_cache := false |>)) with (as_thread_id s) in E3.
  rewrite (proj2 (Z.ltb_lt _ _)) in E3 by done. px_run E3. px_run E3. destruct (sql_run _ _ _) as [a s2] eqn:Er.
  px_run E3. px_run E3. injection E3 as _ <-. cbn [m_db]. eauto 10.
Qed.

Lemma monitor_session_changes_nothing_witness :
  match admin_COM_QUERY (H := toy_sqlite) (H0 := toy_tables) (fun _ => Byte.xaa) [] (fun _ => None) (fun _ => None) toy_settings 1700
      [Byte.x00] [] (query_pkt (c_lit "FLUSH USERS")) (toy_session 2) toy_memory with
  | Some (_, m') => configuration m' = configuration toy_memory
  | None => False
  end.
Proof.
  destruct (admin_COM_QUERY _ _ _ _ _ _ _ _ _ _ _) as [[s' m']|] eqn:E; [|vm_compute in E; discriminate].
  exact (proj1 (monitor_session_changes_nothing toy_sqlite toy_tables (fun _ => Byte.xaa) [] (fun _ => None) (fun _ => None) toy_settings
    1700 [Byte.x00] [] (query_pkt (c_lit "FLUSH USERS")) (toy_session 2) toy_memory s' m' eq_refl ltac:(by vm_compute) E)).
Defined.

(** A command of the administrator is answered by one OK packet behind the packets that are waiting, with the number of rows it
    loaded and of the sessions it had to cut off, and the state is the one the command leaves; the configuration is
    written to disk after the FLUSH commands, except FLUSH QUERY CACHE, when [admin_sync_disk_on_flush] is 1, and after SHUTDOWN
    when [admin_sync_disk_on_shutdown] is 1. *)
Theorem admin_command_replies {sq : Type} (S : SQLite sq) (T : AdminTables sq) junk over names_junk text G t b1 b2 acks p q c s m
    m0 n w m1 m2 :
  admin_query p = Some q -> Byte.x00 ∉ q -> within_packet q -> Byte.x00 ∉ b1 -> as_admin s = 1 -> classify 1 q = Command c ->
  update_runtime_statistics G 1 t m = Some m0 -> run_command names_junk text G acks c AdminDb m0 = Some (n, w, m1) ->
  0 <= n < 2 ^ 31 -> 0 <= w < 2 ^ 16 -> (if syncs G c then sync_to_disk m1 else Some m1) = Some m2 ->
  exists ok d,
    admin_COM_QUERY junk over names_junk text G t (b1 ++ Byte.x00 :: b2) acks p s m =
      Some (s <| as_cache_hit := true |> <| as_to_cache := false |> <| as_out := as_out s ++ [Some ok] |>, m2) /\
    pkt_payload 1 ok = Some d /\ dec_ok d = Some (n, 0, 2, w).
Proof.
  intros Hp Hq Hw Hb Ha Hc Hu Hr Hn Hwr Hs.
  destruct (affected_reply_spec junk n w) as (ok & d & Eok & Hd & D); [lia..|]. exists ok, d. split; [|done].
  unfold admin_COM_QUERY. cbv zeta. set (s1 := s <| as_cache_hit := true |> <| as_to_cache := false |>).
  assert (as_admin s1 = 1) as Ha1 by exact Ha. rewrite Ha1, Hu, bind_Some.
  destruct (rewritten_classify junk over names_junk text G S T acks b1 b2 p q s1 m0 Hp Hq Hw Hb) as (p' & q' & -> & Hp' & Hq' & E).
  rewrite bind_Some, Hp', bind_Some. pose proof (answer_spec junk over names_junk text G S T acks p' q' s1 m0 Hp' Hq') as F.
  rewrite <- E, Ha1 in F. unfold if_admin in F. cbn [Z.eqb Pos.eqb] in F |- *. rewrite F, Hc. cbn [perform]. unfold do_command.
  rewrite Ha1. cbn [Z.eqb Pos.eqb]. rewrite Hr, bind_Some.
  assert (answers c n = true) as -> by (destruct c; try done; apply Z.leb_le; lia).
  by rewrite Eok, bind_Some, Hs.
Qed.

Lemma admin_command_replies_witness :
  exists ok d m2,
    admin_COM_QUERY (H := toy_sqlite) (H0 := toy_tables) (fun _ => Byte.xaa) [] (fun _ => None) (fun _ => None) toy_settings 1200
        ([] ++ Byte.x00 :: []) [] (query_pkt (c_lit "flush users")) (toy_session 1) toy_memory =
      Some (mkAdminSess 1 4 true false true [Some ok], m2) /\
    pkt_payload 1 ok = Some d /\ dec_ok d = Some (1, 0, 2, 0) /\ users_name (m_users m2) = [c_lit "bob"].
Proof.
  assert (exists m1, run_command (H := toy_sqlite) (H0 := toy_tables) (fun _ => None) (fun _ => None) toy_settings [] FlushUsers AdminDb
    toy_memory = Some (1, 0, m1) /\ users_name (m_users m1) = [c_lit "bob"] /\
    exists m2, sync_to_disk (H := toy_sqlite) m1 = Some m2 /\ users_name (m_users m2) = users_name (m_users m1))
    as (m1 & Hr & Hn & m2 & Hs & Hn2).
  { eexists. split; [reflexivity|]. split; [reflexivity|]. eexists. split; reflexivity. }
  destruct (admin_command_replies toy_sqlite toy_tables (fun _ => Byte.xaa) [] (fun _ => None) (fun _ => None) toy_settings 1200
    [] [] [] (query_pkt (c_lit "flush users")) (c_lit "flush users") FlushUsers (toy_session 1) toy_memory toy_memory 1 0 m1 m2)
    as (ok & d & E & Hd & D); [apply admin_query_pkt|vm_compute; set_solver|right; by vm_compute|set_solver|done|by vm_compute|
    by vm_compute|exact Hr|lia|lia|exact Hs|].
  exists ok, d, m2. split; [exact E|]. split; [exact Hd|]. split; [exact D|]. congruence.
Defined.

(** The frames of a stream of bytes. *)
Fixpoint split_frames (fuel : nat) (d : list byte) : option (list pkt) :=
  match d, fuel with
  | [], _ => Some []
  | _, O => None
  | _, S fuel =>
      h ← hdr_of_bytes d;
      let n := (Z.to_nat (pkt_length h) + 4)%nat in
      b ← mem_read 0 n d;
      ps ← split_frames fuel (drop n d);
      Some (mkPkt n b :: ps)
  end.

(** The packet that answers the greeting of the mysql client, copied from a string of 81 characters, is five frames
    that a client decodes to one column [@@version_comment] and one row, [(ProxySQL)]. *)
Theorem version_comment_resultset :
  length (data admin_version_comment_pkt) = length_of admin_version_comment_pkt /\
  (ps ← split_frames 81 (data admin_version_comment_pkt); dec_resultset ps) =
    Some ([c_lit "@@version_comment"], [[Some (c_lit "(ProxySQL)")]]).
Proof. split; by vm_compute. Qed.

(** Commands are recognised by any abbreviation: [strncasecmp] compares as many characters as the client sent, so every beginning
    of a command, in capitals or not, runs the first command that starts like it: one letter is enough to empty the query
    cache, to write the configuration to disk or, with [SHU], to stop the proxy, and the empty text is SHOW TABLES. *)
Theorem abbreviated_command_runs c q :
  Byte.x00 ∉ q -> ci_prefix q (command_text c) = true ->
  (exists c', find_command q = Some c' /\ ci_prefix q (command_text c') = true) /\
  find_command (c_lit "f") = Some FlushQueryCache /\ find_command (c_lit "C") = Some ConfigSyncToDisk /\
  find_command (c_lit "shu") = Some Shutdown /\ classify 1 (c_lit "shu") = Command Shutdown /\
  classify 1 [] = Sql show_tables_query.
Proof.
  intros Hq Hc. split; [|split_and!; by vm_compute].
  rewrite find_command_spec by done. destruct (List.find _ commands) as [c'|] eqn:E.
  - exists c'. split; [done|]. by apply List.find_some in E as [_ E].
  - exfalso. assert (In c commands) as Hin by (destruct c; cbn; tauto). pose proof (List.find_none _ _ E c Hin) as Hf. congruence.
Qed.

Lemma abbreviated_command_runs_witness : exists c', find_command (c_lit "DUMP") = Some c' /\ ci_prefix (c_lit "DUMP") (command_text c') = true.
Proof.
  apply (abbreviated_command_runs DumpRuntimeDefaultHostgroups (c_lit "DUMP")); [vm_compute; set_solver|by vm_compute].
Defined.
