(* ===== verification/AdminSession.v ===== *)
(** * The administrator's queries inside a session: src/mysql_session.c and src/admin.c

    [process_client_pkt] (SessionClient.v) takes [admin_COM_QUERY] as an argument; Admin.v models that function on what it uses of the
    session and of the process.  Here the two are put together: [session_admin_query] runs [admin_COM_QUERY] on a session and
    the shared state, and the theorem says that a session of the administrator or of the monitor never gets as far as [forward], the
    only way to a server. *)
From S2P Require Import Prelude PtrArray Protocol DataStream QueryCache Tokenizer GlobalVars Routing ConnPool Backend Config SqliteExec Admin.
From S2P Require Import Session SessionClient.
Open Scope Z_scope.

Section Query.
Context (junk : nat -> byte) (over : list byte) (names_junk : nat -> option (list byte)) (text : Z -> option string) (GA : settings)
        {sq : Type} (SQ : SQLite sq) (T : AdminTables sq).

(** What [admin_COM_QUERY] uses of the session. *)
Definition admin_view (thread_id : Z) (s : session) : admin_session :=
  mkAdminSess (admin (sauth s)) thread_id (mysql_query_cache_hit s) (query_to_cache s) (healthy s) (Some <$> client_out s).

(** The process as the administrator sees it: [m] holds what the sessions do not use. *)
Definition memory_of (m : process_memory sq) (h : shared) : process_memory sq :=
  m <| m_cache := QC h |> <| m_rules := Some (gloQR h) |> <| m_defhg := gloDefHG h |>.

(** [admin_COM_QUERY(sess, p)].  [None] also when a NULL pointer is left in the client's output, or the list of the rules or an
    entry of the servers was freed. *)
Definition session_admin_query (thread_id t : Z) (beyond : list byte) (acks : list Z) (m : process_memory sq)
    (p : pkt) (s : session) (h : shared) : option (session * shared) :=
  '(a, m) ← admin_COM_QUERY junk over names_junk text GA t beyond acks p (admin_view thread_id s) (memory_of m h);
  out ← mapM id (as_out a);
  rules ← m_rules m;
  g ← servers_view (m_servers m);
  let d := client_myds s in
  Some (s <| mysql_query_cache_hit := as_cache_hit a |> <| query_to_cache := as_to_cache a |> <| healthy := as_healthy a |>
          <| client_myds := d <| output := (output d) <| opkts := out |> |> |>,
        h <| QC := m_cache m |> <| gloQR := rules |> <| gloDefHG := m_defhg m |> <| glomysrvs := g |>).

(** Whatever the text is, the session is told not to send anything to a server. *)
Lemma admin_query_flags t beyond acks p a m a' m' :
  admin_COM_QUERY junk over names_junk text GA t beyond acks p a m = Some (a', m') ->
  as_cache_hit a' = true /\ as_to_cache a' = false /\ as_healthy a' = as_healthy a.
Proof.
  unfold admin_COM_QUERY. cbv zeta. intros E. px_run E. px_run E. px_run E.
  case_match; [by injection E as <- _|]. case_match.
  - unfold do_command in E. px_run E. destruct x2 as [[affected warnings] m2]. case_match; [|by injection E as <- _].
    px_run E. px_run E. by injection E as <- _.
  - px_run E. destruct x2 as [out db]. by injection E as <- _.
Qed.

Lemma session_admin_query_keeps thread_id t beyond acks m p s h s' h' :
  session_admin_query thread_id t beyond acks m p s h = Some (s', h') ->
  mysql_query_cache_hit s' = true /\ healthy s' = healthy s /\ mybes s' = mybes s /\ server_mybe s' = server_mybe s /\
  client_command s' = client_command s /\ conn_pools h' = conn_pools h.
Proof.
  unfold session_admin_query. intros E. apply bind_inv in E as ([a m1] & Ea & E). do 3 px_run E. apply (inj Some) in E. injection E as <- <-.
  apply admin_query_flags in Ea as (H1 & _ & H3). cbn. rewrite H1, H3. done.
Qed.

End Query.

(** The session while the packet [p] with command byte [b] is dispatched. *)
Definition dispatched (G : glovars_t) (b : byte) (p : pkt) (s : session) : session :=
  s <| client_command := uc b |> <| mysql_query_cache_hit := false |> <| query_to_cache := false |>
    <| send_to_slave := false |> <| mysql_server_reconnect := reconnect_allowed G (uc b) p s |>.

(** C37: a session of the administrator or of the monitor never reaches a server.  Whatever its packet is, when it has been handled the backends, the current server and the connection pools are
    what they were; a query is answered by [admin_COM_QUERY] and the loop goes on with the next packet; COM_QUIT and every other command end the session, the others with the
    error packet sent to the client and the shared state unchanged.  Handling the packet fails only when [admin_COM_QUERY] fails or the error packet cannot be sent.  The session is
    healthy and does not wait for the answer to a COM_CHANGE_USER. *)
Theorem admin_session_isolated checksum md5 rmatch rreplace junk sha1 users after_free over names_junk text GA {sq : Type} (SQ : SQLite sq) (T : AdminTables sq)
    thread_id t beyond acks m G o p s h b :
  data p !! 4%nat = Some b -> 0 < admin (sauth s) -> waiting_change_user_response (sauth s) = false -> healthy s = true ->
  let ask := session_admin_query junk over names_junk text GA SQ T thread_id t beyond acks m in
  let res := process_client_pkt checksum md5 rmatch rreplace junk sha1 users after_free ask G o p s h in
  let error := authenticate_mysql_client_send_ERR junk (o_sends o) (client_myds s) 1045 access_denied in
  (forall f s' h', res = Some (f, s', h') ->
     mybes s' = mybes s /\ server_mybe s' = server_mybe s /\ conn_pools h' = conn_pools h /\
     (uc b = COM_QUERY -> f = Next /\ exists s1, ask p (dispatched G b p s) h = Some (s1, h') /\ client_out s' = client_out s1) /\
     (uc b <> COM_QUERY -> f = Return (-1) /\ h' = h) /\
     (uc b <> COM_QUERY -> uc b <> COM_QUIT -> exists out, error = Some (client_myds s', out))) /\
  (res = None <-> uc b = COM_QUERY /\ ask p (dispatched G b p s) h = None \/ uc b <> COM_QUERY /\ uc b <> COM_QUIT /\ error = None).
Proof.
  intros Hb Ha Hw Hh ask res error. apply Z.ltb_lt in Ha. unfold res, process_client_pkt. rewrite Hb, bind_Some. cbv zeta.
  fold (dispatched G b p s). set (s1 := dispatched G b p s). unfold client_command_dispatch.
  destruct (Z.eqb_spec (uc b) COM_QUIT) as [Hq|Hq].
  { rewrite bind_Some. rewrite Hq. split; [|split; [done|intros [[? _]|(_ & ? & _)]; done]].
    intros f s' h' [= <- <- <-]. split_and!; try done. }
  destruct (Z.eqb_spec (uc b) COM_QUERY) as [Hy|Hy].
  { rewrite Hy. cbn [Z.eqb COM_QUERY COM_STATISTICS COM_INIT_DB Pos.eqb]. change (admin (sauth s1)) with (admin (sauth s)).
    destruct (Z.eqb_spec (admin (sauth s)) 0) as [E0|_]; [rewrite E0 in Ha; done|].
    destruct (ask p s1 h) as [[s2 h2]|] eqn:Eq; cbn [mbind option_bind].
    - destruct (session_admin_query_keeps junk over names_junk text GA SQ T thread_id t beyond acks m p s1 h s2 h2 Eq) as (Hhit & Hhe & Hmb & Hsm & _ & Hcp).
      change (healthy s1) with (healthy s) in Hhe. rewrite Hhe, Hh. cbn [negb].
      change (mysql_query_cache_hit (s2 <| prepared_statement := if is_prepared (client_command s2) then 1 else 0 |>)) with (mysql_query_cache_hit s2). rewrite Hhit.
      split; [|split; [done|intros [[_ ?]|(? & _)]; done]].
      intros f s' h' E. apply (inj Some) in E. injection E as <- <- <-. split_and!; try done. intros _. split; [done|]. by exists s2.
    - split; [done|]. split; [by left|done]. }
  assert (forall op, (if negb (healthy (s1 <| healthy := false |>)) then
       s ← send_ERR junk (o_sends o) (s1 <| healthy := false |>); Some (Return (-1), s, h) else op) =
     ('(c, _) ← error; Some (Return (-1), (s1 <| healthy := false |>) <| client_myds := c |>, h))) as Hrefused.
  { intros op. change (negb (healthy (s1 <| healthy := false |>))) with true. cbv iota. unfold send_ERR.
    change (client_myds (s1 <| healthy := false |>)) with (client_myds s). fold error. by destruct error as [[]|]. }
  assert (forall R, R = ('(c, _) ← error; Some (Return (-1), (s1 <| healthy := false |>) <| client_myds := c |>, h)) ->
    (forall f s' h', R = Some (f, s', h') ->
     mybes s' = mybes s /\ server_mybe s' = server_mybe s /\ conn_pools h' = conn_pools h /\
     (uc b = COM_QUERY -> f = Next /\ exists s1', ask p s1 h = Some (s1', h') /\ client_out s' = client_out s1') /\
     (uc b <> COM_QUERY -> f = Return (-1) /\ h' = h) /\
     (uc b <> COM_QUERY -> uc b <> COM_QUIT -> exists out, error = Some (client_myds s', out))) /\
    (R = None <-> uc b = COM_QUERY /\ ask p s1 h = None \/ uc b <> COM_QUERY /\ uc b <> COM_QUIT /\ error = None)) as Hfin.
  { intros R ->. destruct error as [[c out]|]; cbn [mbind option_bind].
    - split; [|split; [done|intros [[? _]|(_ & _ & ?)]; done]].
      intros f s' h' E. apply (inj Some) in E. injection E as <- <- <-. split_and!; try done. intros _ _. by exists out.
    - split; [done|]. split; [by right|done]. }
  apply Hfin. unfold client_COM_STATISTICS, client_COM_INIT_DB, client_COM_CHANGE_USER, client_other.
  change (sauth s1) with (sauth s). rewrite Hw, Ha. cbn [mbind option_bind]. change (sauth s1) with (sauth s). rewrite Ha.
  destruct (uc b =? COM_STATISTICS); [|destruct (uc b =? COM_INIT_DB); [|destruct (uc b =? COM_CHANGE_USER)]];
    cbn [mbind option_bind]; cbv beta iota zeta; apply Hrefused.
Qed.

(** The administrator asks for USERS to be loaded again. *)
Definition admin_asking : session := sample_session <| sauth := (sauth sample_session) <| admin := 1 |> |>.

Lemma admin_session_isolated_witness :
  exists s' h', process_client_pkt id id (fun _ _ => false) (fun _ _ => None) (fun _ => Byte.xaa) id toy_users id
      (session_admin_query (fun _ => Byte.xaa) [] (fun _ => None) (fun _ => None) toy_settings toy_sqlite toy_tables 4 1200 [Byte.x00] [] toy_memory)
      sample_glovars (mkOracle (mkClock 0 0) [] [39] [] []) (query_pkt (c_lit "FLUSH USERS")) admin_asking sample_shared = Some (Next, s', h') /\
    mybes s' = [sample_backend] /\ length (client_out s') = 1%nat.
Proof.
  destruct (process_client_pkt id id (fun _ _ => false) (fun _ _ => None) (fun _ => Byte.xaa) id toy_users id
      (session_admin_query (fun _ => Byte.xaa) [] (fun _ => None) (fun _ => None) toy_settings toy_sqlite toy_tables 4 1200 [Byte.x00] [] toy_memory)
      sample_glovars (mkOracle (mkClock 0 0) [] [39] [] []) (query_pkt (c_lit "FLUSH USERS")) admin_asking sample_shared) as [[[f s'] h']|] eqn:E;
    [|vm_compute in E; discriminate E].
  destruct (proj1 (admin_session_isolated id id (fun _ _ => false) (fun _ _ => None) (fun _ => Byte.xaa) id toy_users id [] (fun _ => None) (fun _ => None) toy_settings toy_sqlite toy_tables
    4 1200 [Byte.x00] [] toy_memory sample_glovars (mkOracle (mkClock 0 0) [] [39] [] []) (query_pkt (c_lit "FLUSH USERS")) admin_asking sample_shared Byte.x03
    eq_refl eq_refl eq_refl eq_refl) f s' h' E) as (Hm & _ & _ & Hf & _).
  exists s', h'. destruct (Hf eq_refl) as (-> & _). split; [reflexivity|]. split; [exact Hm|]. vm_compute in E. injection E as <- _. reflexivity.
Defined.
