(* ===== verification/Ipc.v ===== *)
(** * The message REMOVE SERVER: [force_remove_servers] of src/admin.c and its counterpart in [mysql_thread] of src/main.c

    After FLUSH HOSTGROUPS the administrator's thread asks every thread to leave the servers that went away.  It pushes a command into the
    queue of each thread, wakes each of them with a byte in its pipe, and then pops one acknowledgement per thread from its own
    queue.  A thread that finds a byte in its pipe pops the command and starts its maintenance; at the end of the
    maintenance it pushes the number of sessions it cut off (Thread.v).

    The threads run in any order: the state machine [ipc_step] interleaves the steps of the administrator's thread, one queue
    operation at a time, with the steps of the other threads. *)
From stdpp Require Import relations.
From S2P Require Import Prelude Protocol DataStream QueryCache Tokenizer Routing ConnPool Backend Session SessionClient SessionLoop Thread.
Open Scope Z_scope.

(** ** State *)

(** Where [force_remove_servers] is: in the loops of lines 296, 303 and 309 at index [i], or back in its caller. *)
Inductive admin_pc := Pushing (i : nat) | Writing (i : nat) | Popping (i : nat) (warnings : Z) | Returned (warnings : Z).

(** [proxyipc.queue[k]], the bytes in the pipe of thread [k], and its [removing_hosts]. *)
Record channel := mkChannel { c_queue : list (list byte); c_pipe : nat; c_removing : bool }.

(** [i_sent] records all acknowledgements that were ever pushed; no step reads it. *)
Record ipc := mkIpc {
  i_pc : admin_pc; i_saved : Z; i_poll_timeout : Z; i_threads : list channel; i_acks : list Z; i_sent : list Z }.
#[export] Instance ipc_eta : Eta ipc := fun s =>
  mkIpc (i_pc s) (i_saved s) (i_poll_timeout s) (i_threads s) (i_acks s) (i_sent s).

(** ** Steps *)

Section Steps.
Context (mysql_threads : nat).

(** One step of [force_remove_servers]; [None]: it waits for an acknowledgement, or has returned. *)
Definition admin_step (s : ipc) : option ipc :=
  match i_pc s with
  | Pushing i =>
      if decide (i < mysql_threads)%nat then
        c ← i_threads s !! i;
        Some (s <| i_threads := <[i := mkChannel (c_queue c ++ [remove_command]) (c_pipe c) (c_removing c)]> (i_threads s) |>
                <| i_pc := Pushing (S i) |>)
      else Some (s <| i_pc := Writing 0 |>)
  | Writing i =>
      if decide (i < mysql_threads)%nat then
        c ← i_threads s !! i;
        Some (s <| i_threads := <[i := mkChannel (c_queue c) (S (c_pipe c)) (c_removing c)]> (i_threads s) |>
                <| i_pc := Writing (S i) |>)
      else Some (s <| i_pc := Popping 0 0 |>)
  | Popping i w =>
      if decide (i < mysql_threads)%nat then
        match i_acks s with
        | [] => None
        | a :: acks => Some (s <| i_acks := acks |> <| i_pc := Popping (S i) (w + a) |>)
        end
      else Some (s <| i_poll_timeout := i_saved s |> <| i_pc := Returned w |>)
  | Returned _ => None
  end.

(** Thread [k] finds a byte in its pipe and pops the command (main.c, lines 170 to 184); it would wait on an empty queue. *)
Definition receive (k : nat) (s : ipc) : option ipc :=
  c ← i_threads s !! k;
  match c_pipe c, c_queue c with
  | S b, cmd :: q =>
      Some (s <| i_threads := <[k := mkChannel q b (if strncmp cmd remove_command 20 =? 0 then true else c_removing c)]> (i_threads s) |>)
  | _, _ => None
  end.

(** Thread [k] ends its maintenance with [n] sessions cut off (lines 194 to 222). *)
Definition acknowledge (k : nat) (n : Z) (s : ipc) : option ipc :=
  c ← i_threads s !! k;
  if c_removing c then
    Some (s <| i_threads := <[k := mkChannel (c_queue c) (c_pipe c) false]> (i_threads s) |>
            <| i_acks := i_acks s ++ [n] |> <| i_sent := i_sent s ++ [n] |>)
  else None.

Inductive ipc_step (s s' : ipc) : Prop :=
  | step_admin : admin_step s = Some s' -> ipc_step s s'
  | step_receive k : receive k s = Some s' -> ipc_step s s'
  | step_acknowledge k n : acknowledge k n s = Some s' -> ipc_step s s'.

(** All threads at rest, and [force_remove_servers] just called: lines 294 and 295 done. *)
Definition idle (c : channel) : Prop := c_queue c = [] /\ c_pipe c = 0%nat /\ c_removing c = false.
Definition called (timeout timeout_maintenance : Z) : ipc :=
  mkIpc (Pushing 0) timeout timeout_maintenance (replicate mysql_threads (mkChannel [] 0 false)) [] [].

(** ** The invariant *)

Definition pushed (pc : admin_pc) (k : nat) : bool := match pc with Pushing i => bool_decide (k < i)%nat | _ => true end.
Definition written (pc : admin_pc) (k : nat) : bool :=
  match pc with Pushing _ => false | Writing i => bool_decide (k < i)%nat | _ => true end.
Definition pushes (pc : admin_pc) : nat := match pc with Pushing i => i | _ => mysql_threads end.
Definition popped (pc : admin_pc) : nat := match pc with Popping i _ => i | Returned _ => mysql_threads | _ => 0 end.
Definition warnings_of (pc : admin_pc) : Z := match pc with Popping _ w | Returned w => w | _ => 0 end.
Definition in_range (pc : admin_pc) : Prop :=
  match pc with Pushing i | Writing i | Popping i _ => (i <= mysql_threads)%nat | Returned _ => True end.

(** A channel: untouched, holding the command (and the byte), or past the reception of it. *)
Definition channel_ok (pc : admin_pc) (k : nat) (c : channel) : Prop :=
  if pushed pc k
  then (c_queue c = [remove_command] /\ c_pipe c = (if written pc k then 1 else 0)%nat /\ c_removing c = false) \/
       (written pc k = true /\ c_queue c = [] /\ c_pipe c = 0%nat)
  else idle c.

Definition pending (c : channel) : nat := (length (c_queue c) + if c_removing c then 1 else 0)%nat.

Record ipc_inv (saved timeout_maintenance : Z) (s : ipc) : Prop := {
  iv_range : in_range (i_pc s);
  iv_length : length (i_threads s) = mysql_threads;
  iv_channels : forall k c, i_threads s !! k = Some c -> channel_ok (i_pc s) k c;
  iv_count : (sum_list_with pending (i_threads s) + length (i_acks s) + popped (i_pc s))%nat = pushes (i_pc s);
  iv_sent : length (i_sent s) = (popped (i_pc s) + length (i_acks s))%nat;
  iv_sum : foldl Z.add (warnings_of (i_pc s)) (i_acks s) = foldl Z.add 0 (i_sent s);
  iv_saved : i_saved s = saved;
  iv_timeout : i_poll_timeout s = match i_pc s with Returned _ => saved | _ => timeout_maintenance end
}.

(** The steps that are left. *)
Definition pc_left (pc : admin_pc) : nat :=
  match pc with
  | Pushing i => 3 * (mysql_threads - i) + 2 * mysql_threads + 3
  | Writing i => (mysql_threads - i) + mysql_threads + 2
  | Popping i _ => (mysql_threads - i) + 1
  | Returned _ => 0
  end.
Definition channel_left (c : channel) : nat := (2 * length (c_queue c) + if c_removing c then 1 else 0)%nat.
Definition steps_left (s : ipc) : nat := (pc_left (i_pc s) + sum_list_with channel_left (i_threads s))%nat.

Lemma sum_list_insert {A} (f : A -> nat) (l : list A) k x y : l !! k = Some x ->
  (sum_list_with f (<[k := y]> l) + f x = sum_list_with f l + f y)%nat.
Proof. revert k. induction l as [|z l IH]; intros [|k] Hk; simplify_eq/=; [lia|]. specialize (IH k Hk). lia. Qed.

Lemma remove_command_matches : (strncmp remove_command remove_command 20 =? 0) = true.
Proof. by vm_compute. Qed.

(** Rewriting the channel of one thread. *)
Lemma channels_insert pc pc' cs k c c' :
  (forall j d, cs !! j = Some d -> channel_ok pc j d) -> cs !! k = Some c -> channel_ok pc' k c' ->
  (forall j, j <> k -> (j < length cs)%nat -> pushed pc' j = pushed pc j /\ written pc' j = written pc j) ->
  forall j d, <[k := c']> cs !! j = Some d -> channel_ok pc' j d.
Proof.
  intros Hcs Hk Hc' Hpc j d Hj. destruct (decide (j = k)) as [->|Hne].
  - rewrite list_lookup_insert_eq in Hj by (by eapply lookup_lt_Some). by injection Hj as <-.
  - rewrite list_lookup_insert_ne in Hj by done. specialize (Hcs j d Hj). unfold channel_ok in *.
    destruct (Hpc j Hne) as [-> ->]; [by eapply lookup_lt_Some|done].
Qed.

Lemma channels_pc pc pc' cs :
  (forall j d, cs !! j = Some d -> channel_ok pc j d) ->
  (forall j, (j < length cs)%nat -> pushed pc' j = pushed pc j /\ written pc' j = written pc j) ->
  forall j d, cs !! j = Some d -> channel_ok pc' j d.
Proof.
  intros Hcs Hpc j d Hj. specialize (Hcs j d Hj). unfold channel_ok in *.
  destruct (Hpc j) as [-> ->]; [by eapply lookup_lt_Some|done].
Qed.

Lemma foldl_add_shift (l : list Z) a b : foldl Z.add (a + b) l = a + foldl Z.add b l.
Proof. revert b. induction l as [|x l IH]; intros b; cbn; [done|]. rewrite <- Z.add_assoc. apply IH. Qed.

(** The fields of a state after a step. *)
Ltac ipc_fields :=
  cbn [i_pc i_saved i_poll_timeout i_threads i_acks i_sent in_range popped pushes warnings_of upd ipc_eta eta_expand
       c_queue c_pipe c_removing length app foldl] in *.

Lemma pending_channel q b (r : bool) : pending (mkChannel q b r) = (length q + if r then 1 else 0)%nat.
Proof. done. Qed.

Lemma push_step_inv saved tm i pt cs acks sent c :
  let s pc cs := mkIpc pc saved pt cs acks sent in
  ipc_inv saved tm (s (Pushing i) cs) -> (i < mysql_threads)%nat -> cs !! i = Some c ->
  ipc_inv saved tm (s (Pushing (S i)) (<[i := mkChannel (c_queue c ++ [remove_command]) (c_pipe c) (c_removing c)]> cs)).
Proof.
  intros s [Hr Hl Hc Hn Hs Hsum Hsv Ht] Hi Ei. unfold s in *. ipc_fields.
  pose proof (Hc i c Ei) as Hx. unfold channel_ok in Hx. cbn [pushed] in Hx. rewrite bool_decide_eq_false_2 in Hx by lia.
  destruct c as [q b r]. destruct Hx as (Hq & Hp & Hrm). ipc_fields. subst q b r.
  pose proof (sum_list_insert pending cs i _ (mkChannel [remove_command] 0 false) Ei) as Hsu. rewrite !pending_channel in Hsu. ipc_fields.
  constructor; ipc_fields; rewrite ?length_insert; try done; try lia.
  eapply channels_insert; [exact Hc|exact Ei| |].
  - unfold channel_ok. cbn [pushed written]. rewrite bool_decide_eq_true_2 by lia. by left.
  - intros j Hj _. cbn [pushed written]. split; [|done]. apply bool_decide_ext. lia.
Qed.

Lemma write_step_inv saved tm i pt cs acks sent c :
  let s pc cs := mkIpc pc saved pt cs acks sent in
  ipc_inv saved tm (s (Writing i) cs) -> (i < mysql_threads)%nat -> cs !! i = Some c ->
  ipc_inv saved tm (s (Writing (S i)) (<[i := mkChannel (c_queue c) (S (c_pipe c)) (c_removing c)]> cs)).
Proof.
  intros s [Hr Hl Hc Hn Hs Hsum Hsv Ht] Hi Ei. unfold s in *. ipc_fields.
  pose proof (Hc i c Ei) as Hx. unfold channel_ok in Hx. cbn [pushed written] in Hx. rewrite bool_decide_eq_false_2 in Hx by lia.
  destruct c as [q b r]. destruct Hx as [(Hq & Hp & Hrm)|(? & _)]; [|done]. ipc_fields. subst q b r.
  pose proof (sum_list_insert pending cs i _ (mkChannel [remove_command] 1 false) Ei) as Hsu. rewrite !pending_channel in Hsu. ipc_fields.
  constructor; ipc_fields; rewrite ?length_insert; try done; try lia.
  eapply channels_insert; [exact Hc|exact Ei| |].
  - unfold channel_ok. cbn [pushed written]. rewrite bool_decide_eq_true_2 by lia. by left.
  - intros j Hj _. cbn [pushed written]. split; [done|]. apply bool_decide_ext. lia.
Qed.

Lemma admin_step_inv saved tm s s' : ipc_inv saved tm s -> admin_step s = Some s' -> ipc_inv saved tm s'.
Proof.
  intros I. unfold admin_step. destruct s as [pc sv pt cs acks sent]. pose proof (iv_saved _ _ _ I) as Hsv.
  ipc_fields. subst sv. destruct pc as [i|i|i w|w]; [| | |done]; (case_decide as Hi; intros E).
  - px_run E. injection E as <-. by apply push_step_inv.
  - injection E as <-. destruct I as [Hr Hl Hc Hn Hs Hsum Hsv Ht]. constructor; ipc_fields; try done; try lia.
    eapply channels_pc; [exact Hc|]. intros j Hj. cbn [pushed written]. by rewrite bool_decide_eq_true_2, bool_decide_eq_false_2 by lia.
  - px_run E. injection E as <-. by apply write_step_inv.
  - injection E as <-. destruct I as [Hr Hl Hc Hn Hs Hsum Hsv Ht]. constructor; ipc_fields; try done; try lia.
    eapply channels_pc; [exact Hc|]. intros j Hj. cbn [pushed written]. by rewrite bool_decide_eq_true_2 by lia.
  - destruct acks as [|a acks]; [done|]. injection E as <-. destruct I as [Hr Hl Hc Hn Hs Hsum Hsv Ht].
    constructor; ipc_fields; try done; lia.
  - injection E as <-. destruct I as [Hr Hl Hc Hn Hs Hsum Hsv Ht].
    constructor; ipc_fields; try done; lia.
Qed.

Lemma receive_inv saved tm k s s' : ipc_inv saved tm s -> receive k s = Some s' ->
  ipc_inv saved tm s' /\ (steps_left s' < steps_left s)%nat.
Proof.
  intros [Hr Hl Hc Hn Hs Hsum Hsv Ht] E. unfold receive in E. px_run E. rename x into c.
  pose proof (Hc k c E0) as Hx. unfold channel_ok in Hx. destruct c as [q b r]. ipc_fields.
  destruct b as [|b]; [done|]. destruct q as [|cmd q]; [done|]. injection E as <-.
  destruct (pushed _ k) eqn:Ep; [|by destruct Hx]. destruct Hx as [(Hq & Hp & Hrm)|(_ & ? & _)]; [|done]. ipc_fields.
  injection Hq as -> ->. subst r. destruct (written _ k) eqn:Ew; [|done]. injection Hp as ->. rewrite remove_command_matches.
  pose proof (sum_list_insert pending _ k _ (mkChannel [] 0 true) E0) as Hsu. rewrite !pending_channel in Hsu.
  pose proof (sum_list_insert channel_left _ k _ (mkChannel [] 0 true) E0) as Hle. unfold channel_left in Hle at 2 4. ipc_fields.
  split; [|unfold steps_left; ipc_fields; lia].
  constructor; ipc_fields; rewrite ?length_insert; try done; try lia.
  eapply channels_insert; [exact Hc|exact E0| |done]. unfold channel_ok. rewrite Ep, Ew. by right.
Qed.

Lemma acknowledge_inv saved tm k n s s' : ipc_inv saved tm s -> acknowledge k n s = Some s' ->
  ipc_inv saved tm s' /\ (steps_left s' < steps_left s)%nat.
Proof.
  intros [Hr Hl Hc Hn Hs Hsum Hsv Ht] E. unfold acknowledge in E. px_run E. rename x into c.
  pose proof (Hc k c E0) as Hx. unfold channel_ok in Hx. destruct c as [q b r]. ipc_fields. destruct r; [|done]. injection E as <-.
  destruct (pushed _ k) eqn:Ep; [|by destruct Hx as (_ & _ & ?)]. destruct Hx as [(_ & _ & ?)|(Ew & Hq & Hp)]; [done|]. ipc_fields. subst q b.
  pose proof (sum_list_insert pending _ k _ (mkChannel [] 0 false) E0) as Hsu. rewrite !pending_channel in Hsu.
  pose proof (sum_list_insert channel_left _ k _ (mkChannel [] 0 false) E0) as Hle. unfold channel_left in Hle at 2 4. ipc_fields.
  split; [|unfold steps_left; ipc_fields; lia].
  constructor; ipc_fields; rewrite ?length_insert, ?length_app; ipc_fields; try done; try lia.
  - eapply channels_insert; [exact Hc|exact E0| |done]. unfold channel_ok. rewrite Ep, Ew. by right.
  - rewrite !foldl_app. cbn. lia.
Qed.

Lemma admin_step_left saved tm s s' : ipc_inv saved tm s -> admin_step s = Some s' -> (steps_left s' < steps_left s)%nat.
Proof.
  intros [Hr _ _ _ _ _ _ _]. unfold admin_step, steps_left. destruct s as [pc sv pt cs acks sent]. ipc_fields.
  destruct pc as [i|i|i w|w]; [| | |done]; (case_decide as Hi; intros E).
  - px_run E. injection E as <-. ipc_fields. destruct x as [q b r]. ipc_fields.
    pose proof (sum_list_insert channel_left _ i _ (mkChannel (q ++ [remove_command]) b r) E0) as Hle.
    unfold channel_left in Hle at 2 4. ipc_fields. rewrite length_app in Hle. cbn [pc_left length] in *. lia.
  - injection E as <-. ipc_fields. cbn [pc_left]. lia.
  - px_run E. injection E as <-. ipc_fields. destruct x as [q b r]. ipc_fields.
    pose proof (sum_list_insert channel_left _ i _ (mkChannel q (S b) r) E0) as Hle.
    unfold channel_left in Hle at 2 4. ipc_fields. cbn [pc_left] in *. lia.
  - injection E as <-. ipc_fields. cbn [pc_left]. lia.
  - destruct acks as [|a acks]; [done|]. injection E as <-. ipc_fields. cbn [pc_left]. lia.
  - injection E as <-. ipc_fields. cbn [pc_left]. lia.
Qed.

Lemma ipc_step_inv saved tm s s' : ipc_inv saved tm s -> ipc_step s s' -> ipc_inv saved tm s' /\ (steps_left s' < steps_left s)%nat.
Proof.
  intros I [E|k E|k n E]; [|by eapply receive_inv|by eapply acknowledge_inv].
  split; [by eapply admin_step_inv|by eapply admin_step_left].
Qed.

Lemma called_inv saved tm : ipc_inv saved tm (called saved tm).
Proof.
  constructor; unfold called; ipc_fields; rewrite ?length_replicate; try done; try lia.
  - intros k c Hk. apply lookup_replicate in Hk as [-> _]. done.
  - assert (sum_list_with pending (replicate mysql_threads (mkChannel [] 0 false)) = 0%nat) as ->; [|done].
    clear. induction mysql_threads as [|n IH]; [done|]. cbn. by rewrite IH.
Qed.

(** Until the function returns, some thread can go on. *)
Lemma ipc_progress saved tm s : ipc_inv saved tm s -> (forall w, i_pc s <> Returned w) -> exists s', ipc_step s s'.
Proof.
  intros [Hr Hl Hc Hn Hs Hsum Hsv Ht] Hd. destruct (admin_step s) as [s'|] eqn:E; [exists s'; by apply step_admin|].
  unfold admin_step in E. destruct (i_pc s) as [i|i|i w|w] eqn:Epc; [| | |by destruct (Hd w)]; case_decide as Hi; try done.
  - destruct (lookup_lt_is_Some_2 (i_threads s) i) as [c Ec]; [lia|]. by rewrite Ec in E.
  - destruct (lookup_lt_is_Some_2 (i_threads s) i) as [c Ec]; [lia|]. by rewrite Ec in E.
  - destruct (i_acks s) as [|a acks]; [|done]. cbn [length popped pushes] in Hn.
    assert (exists k c, i_threads s !! k = Some c /\ (0 < pending c)%nat) as (k & c & Ek & Hp).
    { assert (0 < sum_list_with pending (i_threads s))%nat as Hpos by lia. clear -Hpos.
      induction (i_threads s) as [|c cs IH]; [cbn in Hpos; lia|]. cbn in Hpos.
      destruct (decide (0 < pending c)%nat) as [Hc|Hc]; [by exists 0%nat, c|].
      destruct IH as (k & d & Hk & Hd); [lia|]. by exists (S k), d. }
    pose proof (Hc k c Ek) as Hx. unfold channel_ok in Hx. cbn [pushed written] in Hx. destruct c as [q b r]. ipc_fields.
    destruct Hx as [(-> & -> & ->)|(_ & -> & ->)].
    + eexists. apply (step_receive _ _ k). unfold receive. rewrite Ek. reflexivity.
    + destruct r; [|rewrite pending_channel in Hp; cbn in Hp; lia].
      eexists. apply (step_acknowledge _ _ k 0). unfold acknowledge. rewrite Ek. reflexivity.
Qed.

(** When it has returned, everything is as before the call. *)
Lemma ipc_returned saved tm s w : ipc_inv saved tm s -> i_pc s = Returned w ->
  (forall k c, i_threads s !! k = Some c -> idle c) /\ i_acks s = [] /\ i_poll_timeout s = saved /\
  length (i_sent s) = mysql_threads /\ w = foldl Z.add 0 (i_sent s).
Proof.
  intros [Hr Hl Hc Hn Hs Hsum Hsv Ht] Epc. rewrite Epc in *. cbn [popped pushes warnings_of] in *.
  assert (i_acks s = []) as Ha by (destruct (i_acks s); [done|cbn in *; lia]). rewrite Ha in *. cbn [length foldl] in *.
  split_and!; try done; try lia. intros k c Ek. pose proof (Hc k c Ek) as Hx. unfold channel_ok in Hx. cbn [pushed written] in Hx.
  assert (pending c = 0%nat) as Hp.
  { pose proof (sum_list_insert pending _ k c c Ek) as _. assert (sum_list_with pending (i_threads s) = 0%nat) as H0 by lia.
    clear -Ek H0. revert k Ek. induction (i_threads s) as [|d ds IH]; intros [|k] Ek; simplify_eq/=; [lia|]. apply (IH ltac:(lia) k Ek). }
  destruct c as [q b r]. rewrite pending_channel in Hp. unfold idle. ipc_fields.
  destruct Hx as [(-> & _ & _)|(_ & -> & ->)]; [cbn in Hp; lia|]. destruct r; [cbn in Hp; lia|done].
Qed.

End Steps.

(** ** Properties *)

(** C18: in every interleaving of the threads, [force_remove_servers] with [n] threads is over after [5 n + 3] steps at most; until it
    has returned some thread can always take a step, so that it cannot block for ever once every thread ends its
    maintenance; and when it has returned every thread took the command and acknowledged it exactly once, the answer
    is the sum of the acknowledgements, the queues and pipes are empty again and the time limit of [poll] is restored. *)
Theorem remove_servers_protocol (n : nat) (timeout timeout_maintenance : Z) (k : nat) (s : ipc) :
  nsteps (ipc_step n) k (called n timeout timeout_maintenance) s ->
  (k <= 5 * n + 3)%nat /\
  ((forall w, i_pc s <> Returned w) -> exists s', ipc_step n s s') /\
  (forall w, i_pc s = Returned w ->
     (forall i c, i_threads s !! i = Some c -> idle c) /\ i_acks s = [] /\ i_poll_timeout s = timeout /\
     length (i_sent s) = n /\ w = foldl Z.add 0 (i_sent s)).
Proof.
  intros Hs.
  assert (ipc_inv n timeout timeout_maintenance s /\ (k + steps_left n s <= 5 * n + 3)%nat) as [I Hk].
  { assert (forall k a b, nsteps (ipc_step n) k a b -> ipc_inv n timeout timeout_maintenance a ->
      ipc_inv n timeout timeout_maintenance b /\ (k + steps_left n b <= steps_left n a)%nat) as Hrun.
    { clear. induction 1 as [a|k a b c Hab _ IH]; intros I; [by split|].
      destruct (ipc_step_inv _ _ _ _ _ I Hab) as [Ib Hlt]. destruct (IH Ib) as [Ic Hle]. split; [done|lia]. }
    destruct (Hrun _ _ _ Hs (called_inv _ _ _)) as [I Hle]. split; [done|].
    assert (steps_left n (called n timeout timeout_maintenance) = (5 * n + 3)%nat) as <-; [|done].
    unfold steps_left, called. cbn [i_pc i_threads pc_left].
    assert (sum_list_with channel_left (replicate n (mkChannel [] 0 false)) = 0%nat) as ->; [|lia].
    clear. induction n as [|n IH]; [done|]. cbn. by rewrite IH. }
  split; [lia|]. split; [by eapply ipc_progress|]. intros w Hw. by eapply ipc_returned.
Qed.

Lemma remove_servers_protocol_witness :
  exists s, nsteps (ipc_step 1) 8 (called 1 100 5) s /\ i_pc s = Returned 2 /\ i_acks s = [] /\ 2 = foldl Z.add 0 (i_sent s).
Proof.
  set (s := mkIpc (Returned 2) 100 100 [mkChannel [] 0 false] [] [2]).
  assert (nsteps (ipc_step 1) 8 (called 1 100 5) s) as Hs.
  { do 3 (eapply nsteps_l; [apply step_admin; reflexivity|]).
    eapply nsteps_l; [apply (step_receive _ _ _ 0); reflexivity|].
    eapply nsteps_l; [apply (step_acknowledge _ _ _ 0 2); reflexivity|].
    do 3 (eapply nsteps_l; [apply step_admin; reflexivity|]). apply nsteps_O. }
  exists s. split; [exact Hs|]. split; [reflexivity|].
  destruct (remove_servers_protocol 1 100 5 8 s Hs) as (_ & _ & Hd). destruct (Hd 2 eq_refl) as (_ & Ha & _ & _ & Hw).
  split; [exact Ha|exact Hw].
Defined.

(** The maintenance of a thread is the step [acknowledge] of the protocol: a thread without a command does nothing, one that has
    taken the command either goes on and pushes nothing, or ends and pushes one acknowledgement; and with the first
    turn after the end of the time it was given it ends. *)
Theorem maintenance_acknowledges md5 junk G t th w th' w' :
  maintenance md5 junk G t th w = Some (th', w') -> t_admin th = 0 ->
  (removing_hosts th = false -> th' = th /\ w' = w) /\
  (removing_hosts th = true ->
     (removing_hosts th' = true /\ w_acks w' = w_acks w /\ monotonic t <= maintenance_ends th) \/
     (removing_hosts th' = false /\ exists n, w_acks w' = w_acks w ++ [n])) /\
  (removing_hosts th = true -> maintenance_ends th < monotonic t -> removing_hosts th' = false).
Proof.
  intros E Ha. unfold maintenance in E. rewrite Ha in E. cbn [Z.eqb andb] in E. destruct (removing_hosts th) eqn:Er.
  - px_run E. destruct x as [[cnt cs] h]. cbv zeta in E.
    change (maintenance_ends (th <| sessions := cs |>)) with (maintenance_ends th) in E.
    destruct (cnt =? 0) eqn:Ec; [injection E as <- <-; split; [done|]; split; [|done]; right; split; [done|by eexists]|].
    destruct (Z.ltb_spec (maintenance_ends th) (monotonic t)) as [Hlt|Hge].
    + px_run E. destruct x as [[[n cs2] h2] g]. injection E as <- <-. split; [done|]. split; [|done].
      right. split; [done|by eexists].
    + injection E as <- <-. split; [done|]. split; [|intros; lia]. left. split; [exact Er|]. by split.
  - injection E as <- <-. by split.
Qed.

Lemma maintenance_acknowledges_witness :
  let th := mkThread 0 [] 1024 true 5 in
  let w := mkWorld sample_shared (mkReg [] 0) [7] in
  maintenance (fun d => d) (fun _ => Byte.x00) sample_glovars (mkClock 0 6) th w =
    Some (mkThread 0 [] 1024 false 5, mkWorld sample_shared (mkReg [] 0) [7; 0]) /\
  removing_hosts (mkThread 0 [] 1024 false 5) = false.
Proof.
  intros th w.
  assert (maintenance (fun d => d) (fun _ => Byte.x00) sample_glovars (mkClock 0 6) th w =
    Some (mkThread 0 [] 1024 false 5, mkWorld sample_shared (mkReg [] 0) [7; 0])) as E by reflexivity.
  split; [exact E|].
  apply (proj2 (proj2 (maintenance_acknowledges (fun d => d) (fun _ => Byte.x00) sample_glovars (mkClock 0 6) th w _ _ E eq_refl)));
    [reflexivity|]. cbn. lia.
Defined.
