(* ===== verification/Schema.v ===== *)
(** * The tables of the administrator: the start of src/admin_sqlite.c

    [admin_init_sqlite3] opens the five databases, gives each the tables it has to have, fills the two tables that have fixed rows and copies the
    configuration from the disk into the database in memory.  The texts of the tables are those of include/admin_sqlite.h.

    The functions send texts to SQLite.  What a text does is described by an abstract database ([absdb]: the tables with the text they were created from and
    their rows, the connections that enforce foreign keys, the attached databases) and the effect [runs] of the statements the program uses; the class
    [SQLiteLaws] says that SQLite behaves so.  [toy_db] is an instance. *)
From S2P Require Import Prelude PtrArray Protocol Tokenizer GlobalVars SqliteExec Routing Config Admin.
Open Scope Z_scope.

(** ** The texts *)

Record admin_sqlite_table_def_t := mkTableDef { table_name : list byte; table_def : list byte }.
#[export] Instance table_def_eq_decision : EqDecision admin_sqlite_table_def_t.
Proof. solve_decision. Defined.

Definition ADMIN_SQLITE_TABLE_SERVER_STATUS : string :=
  "CREATE TABLE server_status ( status INT NOT NULL PRIMARY KEY, status_desc VARCHAR NOT NULL, UNIQUE(status_desc) )".
Definition ADMIN_SQLITE_TABLE_SERVERS : string :=
  "CREATE TABLE servers ( hostname VARCHAR NOT NULL , port INT NOT NULL DEFAULT 3306 , read_only INT NOT NULL DEFAULT 1, status INT NOT NULL DEFAULT ('OFFLINE') REFERENCES server_status(status) , PRIMARY KEY(hostname, port) )".
Definition ADMIN_SQLITE_TABLE_HOSTGROUPS : string :=
  "CREATE TABLE hostgroups ( hostgroup_id INT NOT NULL DEFAULT 0, hostname VARCHAR NOT NULL , port INT NOT NULL DEFAULT 3306, FOREIGN KEY (hostname, port) REFERENCES servers (hostname, port) , PRIMARY KEY (hostgroup_id, hostname, port) )".
Definition ADMIN_SQLITE_TABLE_USERS : string :=
  "CREATE TABLE users ( username VARCHAR NOT NULL PRIMARY KEY , password VARCHAR , active INT NOT NULL DEFAULT 1)".
Definition ADMIN_SQLITE_TABLE_DEBUG_LEVELS : string :=
  "CREATE TABLE debug_levels (module VARCHAR NOT NULL PRIMARY KEY, verbosity INT NOT NULL DEFAULT 0)".
Definition ADMIN_SQLITE_TABLE_GLOBAL_VARIABLES : string :=
  "CREATE TABLE global_variables ( name VARCHAR NOT NULL PRIMARY KEY , value VARCHAR NOT NULL )".
Definition ADMIN_SQLITE_TABLE_QUERY_RULES : string :=
  "CREATE TABLE query_rules (rule_id INT NOT NULL PRIMARY KEY, active INT NOT NULL DEFAULT 0, username VARCHAR, schemaname VARCHAR, flagIN INT NOT NULL DEFAULT 0, match_pattern VARCHAR NOT NULL, negate_match_pattern INT NOT NULL DEFAULT 0, flagOUT INT NOT NULL DEFAULT 0, replace_pattern VARCHAR, destination_hostgroup INT NOT NULL DEFAULT 0, audit_log INT NOT NULL DEFAULT 0, performance_log INT NOT NULL DEFAULT 0, cache_tag INT NOT NULL DEFAULT 0, invalidate_cache_tag INT NOT NULL DEFAULT 0, invalidate_cache_pattern VARCHAR, cache_ttl INT NOT NULL DEFAULT 0)".
Definition ADMIN_SQLITE_TABLE_DEFAULT_HOSTGROUPS : string :=
  "CREATE TABLE default_hostgroups (username VARCHAR, schemaname VARCHAR, hostgroup_id INT NOT NULL DEFAULT 0, PRIMARY KEY(username, schemaname))".
Definition STATSDB_QUERY_STATS : string :=
  "CREATE TABLE query_stats (timestamp INT NOT NULL, query_digest_md5 TEXT NOT NULL, query_digest_text TEXT NOT NULL, username TEXT NOT NULL, schemaname TEXT NOT NULL, hostgroup_id INT, server_address TEXT, server_port INT, query_time INT NOT NULL, exec_cnt INT NOT NULL, PRIMARY KEY(timestamp, query_digest_md5, username, schemaname, hostgroup_id, server_address, server_port) )".
Definition DEBUGDB_DEBUG_LOG : string :=
  "CREATE TABLE debug_log (timestamp INT NOT NULL, thread_id INT NOT NULL, module TEXT NOT NULL, filename TEXT NOT NULL, line INT NOT NULL, funct TEXT NOT NULL, level INT NOT NULL, message TEXT NOT NULL)".

Definition table_defs : list admin_sqlite_table_def_t :=
  [mkTableDef (c_lit "server_status") (c_lit ADMIN_SQLITE_TABLE_SERVER_STATUS);
   mkTableDef (c_lit "servers") (c_lit ADMIN_SQLITE_TABLE_SERVERS);
   mkTableDef (c_lit "hostgroups") (c_lit ADMIN_SQLITE_TABLE_HOSTGROUPS);
   mkTableDef (c_lit "users") (c_lit ADMIN_SQLITE_TABLE_USERS);
   mkTableDef (c_lit "default_hostgroups") (c_lit ADMIN_SQLITE_TABLE_DEFAULT_HOSTGROUPS);
   mkTableDef (c_lit "global_variables") (c_lit ADMIN_SQLITE_TABLE_GLOBAL_VARIABLES);
   mkTableDef (c_lit "debug_levels") (c_lit ADMIN_SQLITE_TABLE_DEBUG_LEVELS);
   mkTableDef (c_lit "query_rules") (c_lit ADMIN_SQLITE_TABLE_QUERY_RULES)].
Definition table_defs_statsdb : list admin_sqlite_table_def_t :=
  [mkTableDef (c_lit "query_stats") (c_lit STATSDB_QUERY_STATS)].
Definition table_defs_debugdb : list admin_sqlite_table_def_t :=
  [mkTableDef (c_lit "debug_log") (c_lit DEBUGDB_DEBUG_LOG)].

(** ** The operations *)

(** [sqlite3_config(SQLITE_CONFIG_URI, 1)] and [sqlite3_open_v2]; the flag says whether a missing file is created. *)
Class SQLiteFiles (sq : Type) := {
  sql_config_uri : sq -> option sq;
  sql_open : database -> list byte -> bool -> sq -> option sq
}.

Section Init.
Context {sq : Type} `{SQLite sq} `{SQLiteFiles sq}.

(** [sqlite3_column_int] of a value that SQLite gives as text. *)
Definition column_int (v : option (list byte)) : Z := i32 (from_option atoi 0 v).

Definition check_text (name def : list byte) : list byte :=
  c_lit "SELECT COUNT(*) FROM sqlite_master WHERE type=" ++ c_quote ++ c_lit "table" ++ c_quote ++ c_lit " AND name=" ++ c_quote ++ name ++ c_quote ++
  c_lit " AND sql=" ++ c_quote ++ def ++ c_quote.
(** [strlen(q1)], with its two [%s]. *)
Definition q1_length : nat := (length (check_text [] []) + 4)%nat.

Definition check_table_structure (db : database) (name def : list byte) (s : sq) : option (Z * sq) :=
  buff ← fits_block (q1_length + length name + length def + 1) (check_text name def);
  match sql_run db buff s with
  | (PrepareError _, _) => None
  | (NoColumns _ _, s) => Some (0, s)
  | (Columns _ rows _, s) => Some (foldl (fun count row => i32 (count + column_int (default None (row !! 0%nat)))) 0 rows, s)
  end.

Definition drop_text (name : list byte) : list byte := c_lit "DROP TABLE IF EXISTS " ++ name.

Definition build_table_structure (db : database) (name def : list byte) (s : sq) : option sq :=
  buff ← fits_block (length (drop_text []) + 2 + length name + 1) (drop_text name);
  s ← sql_exec db buff s;
  sql_exec db def s.

(** The loop over the definitions. *)
Fixpoint check_and_build (db : database) (defs : list admin_sqlite_table_def_t) (s : sq) : option sq :=
  match defs with
  | [] => Some s
  | td :: defs =>
      '(matches, s) ← check_table_structure db (table_name td) (table_def td) s;
      s ← (if matches =? 0 then build_table_structure db (table_name td) (table_def td) s else Some s);
      check_and_build db defs s
  end.

Definition check_and_build_tables (defs : list admin_sqlite_table_def_t) (db : database) (s : sq) : option sq :=
  s ← sql_exec db (c_lit "PRAGMA foreign_keys = OFF") s;
  s ← check_and_build db defs s;
  sql_exec db (c_lit "PRAGMA foreign_keys = ON") s.

Definition check_and_build_standard_tables (db : database) (s : sq) : option sq := check_and_build_tables table_defs db s.
Definition check_and_build_statsdb_tables (db : database) (s : sq) : option sq := check_and_build_tables table_defs_statsdb db s.
Definition check_and_build_debugdb_tables (db : database) (s : sq) : option sq := check_and_build_tables table_defs_debugdb db s.

Definition status_values : list (string * string) :=
  [("0", "OFFLINE_HARD"); ("1", "OFFLINE_SOFT"); ("2", "SHUNNED"); ("3", "ONLINE")]%string.
Definition insert_status_text (v : string * string) : list byte :=
  c_lit "INSERT INTO server_status VALUES (" ++ c_lit v.1 ++ c_lit ", " ++ c_quote ++ c_lit v.2 ++ c_quote ++ c_lit ")".

Definition fill_table__server_status (db : database) (s : sq) : option sq :=
  exec_texts db (c_lit "DELETE FROM server_status" :: (insert_status_text <$> status_values)) s.

Definition debug_modules : list string :=
  ["debug_generic"; "debug_net"; "debug_pkt_array"; "debug_poll"; "debug_mysql_com"; "debug_mysql_server"; "debug_mysql_connection"; "debug_mysql_rw_split";
   "debug_mysql_auth"; "debug_memory"; "debug_admin"; "debug_sqlite"; "debug_ipc"; "debug_query_cache"; "debug_query_statistics"]%string.
Definition delete_levels_text : list byte :=
  c_lit "DELETE FROM debug_levels WHERE module NOT IN ('debug_generic','debug_net','debug_pkt_array','debug_poll','debug_mysql_com','debug_mysql_server','debug_mysql_connection','debug_mysql_rw_split','debug_mysql_auth','debug_memory','debug_admin','debug_sqlite','debug_ipc','debug_query_cache','debug_query_statistics')".
Definition insert_level_text (m : string) : list byte := c_lit "INSERT OR IGNORE INTO debug_levels VALUES ('" ++ c_lit m ++ c_lit "',0)".

Definition fill_table__debug_levels (db : database) (s : sq) : option sq :=
  exec_texts db (delete_levels_text :: (insert_level_text <$> debug_modules)) s.

Definition validate_text : list byte :=
  c_lit "SELECT 'Error in hostgroup ' || hostgroup_id || ' : Server ' || hostgroups.hostname || ' port ' || hostgroups.port || ' does not exist in servers table' FROM hostgroups LEFT OUTER JOIN servers ON hostgroups.hostname=servers.hostname AND hostgroups.port=servers.port WHERE servers.hostname IS NULL".

(** The messages written to the error log. *)
Definition validate_data (db : database) (s : sq) : option (list (list byte) * sq) :=
  match sql_run db validate_text s with
  | (PrepareError _, _) => None
  | (NoColumns _ _, s) => Some ([], s)
  | (Columns _ rows _, s) => Some ((fun row => c_lit "[ERROR]: " ++ c_text (default [] (default None (row !! 0%nat))) ++ [Byte.x0a]) <$> rows, s)
  end.

Definition startup_pragmas : list (list byte) :=
  [c_lit "PRAGMA journal_mode = WAL"; c_lit "PRAGMA synchronous = NORMAL"; c_lit "PRAGMA locking_mode = NORMAL"; c_lit "PRAGMA foreign_keys = ON"].

Definition memadmindb : list byte := c_lit "file:memadmindb?mode=memory&cache=shared".
Definition memmonitordb : list byte := c_lit "file:memmonitordb?mode=memory&cache=shared".

Definition attach_text (path : list byte) (name : string) : list byte :=
  c_lit "ATTACH DATABASE '" ++ path ++ c_lit "' AS " ++ c_lit name.
(** [sprintf] of the format [a] into a block of [strlen(a)+strlen(path)+5] bytes. *)
Definition attach (path : list byte) (name : string) (s : sq) : option sq :=
  cmd ← fits_block (length (attach_text [] name) + 2 + length path + 5) (attach_text path name);
  sql_exec AdminDb cmd s.

(** The configuration: [glovars.proxy_admin_pathdb], [persistent_statistics_pathdb] and [debug_pathdb]. *)
Record db_paths := mkPaths { proxy_admin_pathdb : list byte; persistent_statistics_pathdb : list byte; debug_pathdb : list byte }.

(** The databases with [sqlite3admindb_lastupdate], [sqlite3monitordb_lastupdate], [sqlite3monitordb_rebuild] and what was written to the log. *)
Record admin_dbs := mkDbs { d_sq : sq; d_admin_lastupdate : Z; d_monitor_lastupdate : Z; d_monitor_rebuild : Z; d_log : list (list byte) }.

Definition open_databases (paths : db_paths) (s : sq) : option sq :=
  s ← sql_config_uri s;
  s ← sql_open AdminDb memadmindb false s;
  s ← sql_open MonitorDb memmonitordb false s;
  s ← sql_exec AdminDb (attach_text memmonitordb "mon") s;
  s ← sql_open ConfigDb (proxy_admin_pathdb paths) true s;
  s ← sql_open StatsDb (persistent_statistics_pathdb paths) true s;
  s ← sql_open DebugDb (debug_pathdb paths) true s;
  s ← exec_texts ConfigDb startup_pragmas s;
  s ← exec_texts StatsDb startup_pragmas s;
  exec_texts DebugDb startup_pragmas s.

Definition build_tables (s : sq) : option sq :=
  s ← check_and_build_standard_tables ConfigDb s;
  s ← check_and_build_standard_tables AdminDb s;
  s ← check_and_build_standard_tables MonitorDb s;
  s ← check_and_build_statsdb_tables StatsDb s;
  check_and_build_debugdb_tables DebugDb s.

Definition fill_tables (s : sq) : option sq :=
  s ← sql_exec ConfigDb (c_lit "PRAGMA foreign_keys = OFF") s;
  s ← fill_table__server_status ConfigDb s;
  s ← fill_table__debug_levels ConfigDb s;
  sql_exec ConfigDb (c_lit "PRAGMA foreign_keys = ON") s.

Definition attach_databases (paths : db_paths) (s : sq) : option sq :=
  s ← attach (proxy_admin_pathdb paths) "disk" s;
  attach (persistent_statistics_pathdb paths) "statsdb" s.

Definition admin_init_sqlite3 (paths : db_paths) (s : sq) : option admin_dbs :=
  s ← open_databases paths s;
  s ← build_tables s;
  s ← fill_tables s;
  s ← attach_databases paths s;
  s ← exec_texts AdminDb (statement_text <$> Disk.insert_or_ignore_maintable_select_disktable) s;
  '(log, s) ← validate_data AdminDb s;
  Some (mkDbs s 0 0 0 log).

(** ** The users of the configuration file and of the table *)

Definition users_query : list byte := c_lit "SELECT username, password FROM users WHERE active=1".

(** [g_strdup] of the two columns; a user without a name would be a NULL key. *)
Definition users_row (r : list (option (list byte))) : option (list byte * option (list byte)) :=
  match r !! 0%nat with
  | Some (Some n) => Some (c_text n, c_text <$> default None (r !! 1%nat))
  | _ => None
  end.

(** [sqlite3_flush_users_db_to_mem(sqlite3admindb)]: [Config.sqlite3_flush_users_db_to_mem] with the rows of its query. *)
Definition read_users (u : users_t) (s : sq) : option (users_t * sq) :=
  match sql_run AdminDb users_query s with
  | (PrepareError _, s) => Some ((sqlite3_flush_users_db_to_mem None u).2, s)
  | (NoColumns _ _, s) => Some ((sqlite3_flush_users_db_to_mem (Some []) u).2, s)
  | (Columns _ rows _, s) => rows ← mapM users_row rows; Some ((sqlite3_flush_users_db_to_mem (Some rows) u).2, s)
  end.

(** The start of main: with [merge_configfile_db] the users of the file go into the table first, then the table is loaded. *)
Definition merge_users (merge_configfile_db : Z) (u : users_t) (s : sq) : option (users_t * sq) :=
  s ← (if merge_configfile_db =? 1 then sts ← sqlite3_flush_users_mem_to_db 0 1 u; exec_texts AdminDb sts s else Some s);
  read_users u s.

End Init.
Arguments admin_dbs : clear implicits.

(** ** What the statements do *)

Definition row : Type := list (option (list byte)).

Record absdb := mkAbs {
  a_tables : gmap (database * list byte) (list byte * list row);                      (* the text of the table in sqlite_master, and its rows *)
  a_fk : gset database;                     (* the connections with foreign_keys = ON *)
  a_open : gmap database (list byte);
  a_attached : list (string * database) }.  (* what is attached to the administrator's connection *)
#[export] Instance absdb_eta : Eta absdb := fun v => mkAbs (a_tables v) (a_fk v) (a_open v) (a_attached v).

Inductive stmt :=
  | SetForeignKeys (on : bool)
  | Setting (q : list byte)
  | Drop (td : admin_sqlite_table_def_t)
  | Create (td : admin_sqlite_table_def_t)
  | ClearStatus
  | InsertStatus (v : string * string)
  | DeleteLevels
  | InsertLevel (m : string)
  | Attach (path : list byte) (name : string)
  | CopyToMain (t : string)
  | IgnoreUser (name pass : list byte).

Definition text (st : stmt) : list byte :=
  match st with
  | SetForeignKeys true => c_lit "PRAGMA foreign_keys = ON"
  | SetForeignKeys false => c_lit "PRAGMA foreign_keys = OFF"
  | Setting q => q
  | Drop td => drop_text (table_name td)
  | Create td => table_def td
  | ClearStatus => c_lit "DELETE FROM server_status"
  | InsertStatus v => insert_status_text v
  | DeleteLevels => delete_levels_text
  | InsertLevel m => insert_level_text m
  | Attach path name => attach_text path name
  | CopyToMain t => statement_text (Disk.IgnoreIntoMain t)
  | IgnoreUser name pass => user_statement false 1 name pass
  end.

Definition all_defs : list admin_sqlite_table_def_t := table_defs ++ table_defs_statsdb ++ table_defs_debugdb.
Definition def_of (t : list byte) : list byte :=
  from_option table_def [] (List.find (fun td => bool_decide (table_name td = t)) all_defs).

(** Statements that are well formed whatever they are given: a text between quotes has none of them. *)
Definition known (st : stmt) : Prop :=
  match st with
  | Setting q => q ∈ take 3 startup_pragmas
  | Drop td | Create td => td ∈ all_defs
  | InsertStatus v => v ∈ status_values
  | InsertLevel m => m ∈ debug_modules
  | Attach path name => Byte.x27 ∉ path /\ name ∈ ["mon"; "disk"; "statsdb"]%string
  | CopyToMain t => t ∈ Disk.config_tables
  | IgnoreUser name pass => Byte.x22 ∉ name /\ Byte.x22 ∉ pass
  | _ => True
  end.

Definition on_rows (db : database) (t : string) (f : list row -> option (list row)) (v : absdb) : option absdb :=
  '(def, rows) ← a_tables v !! (db, c_lit t);
  if decide (def = def_of (c_lit t)) then
    rows ← f rows;
    Some (v <| a_tables := <[(db, c_lit t) := (def, rows)]> (a_tables v) |>)
  else None.

Definition has_key (k : list byte) (rows : list row) : bool := existsb (fun r => bool_decide (r !! 0%nat = Some (Some k))) rows.
Definition has_value (i : nat) (x : list byte) (rows : list row) : bool := existsb (fun r => bool_decide (r !! i = Some (Some x))) rows.
Definition insert_or_ignore (k : list byte) (r : row) (rows : list row) : list row := if has_key k rows then rows else rows ++ [r].
Definition known_level (r : row) : bool := existsb (fun m => bool_decide (r !! 0%nat = Some (Some (c_lit m)))) debug_modules.

(** An unqualified name is searched in the database of the connection and then in the attached ones. *)
Definition resolves (db : database) (name : list byte) (v : absdb) : bool :=
  bool_decide (is_Some (a_tables v !! (db, name)) \/ db <> AdminDb \/ Forall (fun a => a_tables v !! (a.2, name) = None) (a_attached v)).

Definition db_at (path : list byte) (v : absdb) : option database :=
  List.find (fun d => bool_decide (a_open v !! d = Some path)) [AdminDb; MonitorDb; ConfigDb; StatsDb; DebugDb].

Definition apply_stmt (db : database) (st : stmt) (v : absdb) : option absdb :=
  match st with
  | SetForeignKeys true => Some (v <| a_fk := {[ db ]} ∪ a_fk v |>)
  | SetForeignKeys false => Some (v <| a_fk := a_fk v ∖ {[ db ]} |>)
  | Setting _ => Some v
  | Drop td =>
      if decide (db ∉ a_fk v) then
        if resolves db (table_name td) v then Some (v <| a_tables := delete (db, table_name td) (a_tables v) |>) else None
      else None
  | Create td =>
      if decide (a_tables v !! (db, table_name td) = None)
      then Some (v <| a_tables := <[(db, table_name td) := (table_def td, [])]> (a_tables v) |>) else None
  | ClearStatus => if decide (db ∉ a_fk v) then on_rows db "server_status" (fun _ => Some []) v else None
  | InsertStatus (n, d) =>
      on_rows db "server_status" (fun rows =>
        if has_key (c_lit n) rows || has_value 1 (c_lit d) rows then None else Some (rows ++ [[Some (c_lit n); Some (c_lit d)]])) v
  | DeleteLevels => on_rows db "debug_levels" (fun rows => Some (filter (fun r => known_level r = true) rows)) v
  | InsertLevel m => on_rows db "debug_levels" (fun rows => Some (insert_or_ignore (c_lit m) [Some (c_lit m); Some (c_lit "0")] rows)) v
  | Attach path name =>
      d ← db_at path v;
      if decide (db = AdminDb /\ name ∉ (a_attached v).*1) then Some (v <| a_attached := a_attached v ++ [(name, d)] |>) else None
  | IgnoreUser n p => on_rows db "users" (fun rows => Some (insert_or_ignore n [Some n; Some p; Some (c_lit "1")] rows)) v
  | CopyToMain _ => None
  end.

(** The database that is attached as [disk]. *)
Definition disk_of (v : absdb) : option database := snd <$> List.find (fun a => bool_decide (a.1 = "disk"%string)) (a_attached v).

(** A copy into an empty table has the rows of the other in some order. *)
Inductive runs (db : database) : stmt -> absdb -> absdb -> Prop :=
  | runs_det st v v' : apply_stmt db st v = Some v' -> runs db st v v'
  | runs_copy t d rows rows' v : db = AdminDb -> AdminDb ∉ a_fk v -> disk_of v = Some d ->
      a_tables v !! (AdminDb, c_lit t) = Some (def_of (c_lit t), []) -> a_tables v !! (d, c_lit t) = Some (def_of (c_lit t), rows) -> rows' ≡ₚ rows ->
      runs db (CopyToMain t) v (v <| a_tables := <[(AdminDb, c_lit t) := (def_of (c_lit t), rows')]> (a_tables v) |>).

(** A row of hostgroups (hostgroup_id, hostname, port) whose server is not in servers (hostname, port, ...). *)
Definition dangling (servers : list row) (h : row) : bool :=
  negb (existsb (fun s => bool_decide (s !! 0%nat = h !! 1%nat /\ s !! 1%nat = h !! 2%nat)) servers).

Definition active_users (rows : list row) : list row :=
  omap (fun r => match r with [n; p; Some a] => if decide (a = c_lit "1") then Some [n; p] else None | _ => None end) rows.

(** What the start relies on in SQLite, for the statements of the program and no others.  It is an idealisation: a statement that makes sense in the
    state of the databases succeeds (no SQLITE_BUSY, SQLITE_FULL or I/O error, which would end the process at the assertion after the call), names are compared
    with their case, as the program writes them, and two different paths are two different files. *)
Class SQLiteLaws (sq : Type) `{SQLite sq} `{SQLiteFiles sq} := {
  view : sq -> absdb;
  exec_law db st s v' : known st -> runs db st (view s) v' ->
    exists s', sql_exec db (text st) s = Some s' /\ runs db st (view s) (view s');
  count_law db name def s : Byte.x22 ∉ name -> Byte.x22 ∉ def ->
    exists names s', sql_run db (check_text name def) s =
      (Columns names [[Some (if decide (fst <$> a_tables (view s) !! (db, name) = Some def) then c_lit "1" else c_lit "0")]] StepDone, s') /\
      view s' = view s;
  validate_law db s hs ss :
    a_tables (view s) !! (db, c_lit "hostgroups") = Some (def_of (c_lit "hostgroups"), hs) ->
    a_tables (view s) !! (db, c_lit "servers") = Some (def_of (c_lit "servers"), ss) ->
    exists names rows s', sql_run db validate_text s = (Columns names rows StepDone, s') /\ view s' = view s /\
      length rows = length (filter (fun h => dangling ss h = true) hs);
  users_law db s rows : a_tables (view s) !! (db, c_lit "users") = Some (def_of (c_lit "users"), rows) ->
    exists names rows' s', sql_run db users_query s = (Columns names rows' StepDone, s') /\ view s' = view s /\ rows' ≡ₚ active_users rows;
  uri_law s : exists s', sql_config_uri s = Some s' /\ view s' = view s;
  open_law db path create s s' : sql_open db path create s = Some s' -> view s' = (view s) <| a_open := <[db := path]> (a_open (view s)) |>
}.

(** ** The texts of the tables *)

(** A text that can be compared with the one in sqlite_master between double quotes, and creates the table of its name. *)
Definition def_ok (td : admin_sqlite_table_def_t) : bool :=
  bool_decide (Byte.x22 ∉ table_name td /\ Byte.x22 ∉ table_def td /\
    take (length (c_lit "CREATE TABLE " ++ table_name td)) (table_def td) = c_lit "CREATE TABLE " ++ table_name td /\
    def_of (table_name td) = table_def td).

Lemma all_defs_ok : Forall (fun td => def_ok td = true) all_defs.
Proof. apply (bool_decide_eq_true_1 _). vm_compute. reflexivity. Qed.

Lemma all_defs_distinct : NoDup (table_name <$> all_defs).
Proof. apply (bool_decide_eq_true_1 _). vm_compute. reflexivity. Qed.

Lemma def_facts td : td ∈ all_defs -> Byte.x22 ∉ table_name td /\ Byte.x22 ∉ table_def td /\ def_of (table_name td) = table_def td.
Proof.
  intros Hin. pose proof (proj1 (Forall_forall _ _) all_defs_ok td Hin) as Hok. unfold def_ok in Hok.
  apply bool_decide_eq_true_1 in Hok. naive_solver.
Qed.

(** ** Running on the abstract database *)

Lemma foldl_bind_None {A B} (f : B -> A -> option A) l : foldl (fun o b => o ≫= f b) None l = None.
Proof. by induction l. Qed.

Section Laws.
Context {sq : Type} `{HL : SQLiteLaws sq}.

(** From a database that looks like [v] the program [m] succeeds and leaves one that looks like [v']. *)
Definition leads (m : sq -> option sq) (v v' : absdb) : Prop := forall s, view s = v -> exists s', m s = Some s' /\ view s' = v'.

Lemma leads_bind m k v v1 v2 : leads m v v1 -> leads k v1 v2 -> leads (fun s => m s ≫= k) v v2.
Proof. intros Hm Hk s Hs. destruct (Hm s Hs) as (s1 & -> & H1). destruct (Hk s1 H1) as (s2 & E & H2). exists s2. by rewrite bind_Some. Qed.

Lemma leads_exec db st v v' : known st -> apply_stmt db st v = Some v' -> leads (sql_exec db (text st)) v v'.
Proof.
  intros Hk Ha s <-. destruct (exec_law db st s v' Hk) as (s' & E & Hr); [by constructor|].
  exists s'. split; [done|]. inversion Hr as [? ? ? Ha'|]; subst; [congruence|]. done.
Qed.

Lemma leads_fk_off db v : leads (sql_exec db (c_lit "PRAGMA foreign_keys = OFF")) v (v <| a_fk := a_fk v ∖ {[ db ]} |>).
Proof. by apply (leads_exec db (SetForeignKeys false)). Qed.
Lemma leads_fk_on db v : leads (sql_exec db (c_lit "PRAGMA foreign_keys = ON")) v (v <| a_fk := {[ db ]} ∪ a_fk v |>).
Proof. by apply (leads_exec db (SetForeignKeys true)). Qed.

Lemma leads_texts db sts v v' : Forall known sts -> foldl (fun o st => o ≫= apply_stmt db st) (Some v) sts = Some v' ->
  leads (exec_texts db (text <$> sts)) v v'.
Proof.
  intros Hk. revert v. induction Hk as [|st sts Hst Hk IH]; intros v Hf; cbn [foldl] in Hf.
  { injection Hf as ->. intros s Hs. by exists s. }
  rewrite bind_Some in Hf. destruct (apply_stmt db st v) as [v1|] eqn:E1.
  2: { by rewrite foldl_bind_None in Hf. }
  intros s Hs. destruct (leads_exec db st v v1 Hst E1 s Hs) as (s1 & E & H1). destruct (IH v1 Hf s1 H1) as (s2 & E2 & H2).
  exists s2. split; [|done]. unfold exec_texts in *. cbn [fmap list_fmap foldl]. rewrite bind_Some, E. exact E2.
Qed.

(** ** Checking and building tables *)

Definition build_one (db : database) (v : absdb) (td : admin_sqlite_table_def_t) : absdb :=
  if decide (fst <$> a_tables v !! (db, table_name td) = Some (table_def td)) then v
  else v <| a_tables := <[(db, table_name td) := (table_def td, [])]> (a_tables v) |>.

Lemma check_text_fits name def :
  fits_block (q1_length + length name + length def + 1) (check_text name def) = Some (check_text name def).
Proof. unfold fits_block, q1_length, check_text, c_quote. rewrite decide_True; [done|]. rewrite !length_app. cbn. lia. Qed.

Lemma drop_text_fits name : fits_block (length (drop_text []) + 2 + length name + 1) (drop_text name) = Some (drop_text name).
Proof. unfold fits_block, drop_text. rewrite decide_True; [done|]. rewrite !length_app. cbn. lia. Qed.

Lemma check_table_structure_spec db td s : td ∈ all_defs ->
  exists n s', check_table_structure db (table_name td) (table_def td) s = Some (n, s') /\ view s' = view s /\
    (n = 0 <-> fst <$> a_tables (view s) !! (db, table_name td) <> Some (table_def td)).
Proof.
  intros Hin. destruct (def_facts td Hin) as (Hq1 & Hq2 & _). unfold check_table_structure. rewrite check_text_fits, bind_Some.
  destruct (count_law db (table_name td) (table_def td) s Hq1 Hq2) as (names & s' & -> & Hv).
  destruct (decide (_ = Some (table_def td))) as [E|E].
  - exists 1, s'. split; [by vm_compute|]. split; [done|]. rewrite E. naive_solver.
  - exists 0, s'. split; [by vm_compute|]. naive_solver.
Qed.

Lemma resolves_spec db name v : (db = AdminDb -> Forall (fun a => a_tables v !! (a.2, name) = None) (a_attached v)) -> resolves db name v = true.
Proof. intros Hr. unfold resolves. apply bool_decide_eq_true_2. destruct (decide (db = AdminDb)) as [E|]; [right; right; auto|right; left; done]. Qed.

Definition attached_free (db : database) (defs : list admin_sqlite_table_def_t) (v : absdb) : Prop :=
  db = AdminDb -> Forall (fun a => a.2 <> AdminDb /\ forall td, td ∈ defs -> a_tables v !! (a.2, table_name td) = None) (a_attached v).

Lemma build_table_structure_spec db td v : td ∈ all_defs -> db ∉ a_fk v -> attached_free db [td] v ->
  leads (build_table_structure db (table_name td) (table_def td)) v (v <| a_tables := <[(db, table_name td) := (table_def td, [])]> (a_tables v) |>).
Proof.
  intros Hin Hfk Hr s Hs. unfold build_table_structure. rewrite drop_text_fits, bind_Some.
  set (v1 := v <| a_tables := delete (db, table_name td) (a_tables v) |>).
  destruct (leads_exec db (Drop td) v v1 Hin) with (s := s) as (s1 & E1 & V1); [|done|].
  { cbn [apply_stmt]. rewrite decide_True by done. rewrite resolves_spec; [done|].
    intros Hdb. eapply Forall_impl; [exact (Hr Hdb)|]. cbn. intros a [_ Ha]. apply Ha. left. }
  cbn [text] in E1. rewrite E1, bind_Some.
  destruct (leads_exec db (Create td) v1 (v1 <| a_tables := <[(db, table_name td) := (table_def td, [])]> (a_tables v1) |>) Hin) with (s := s1)
    as (s2 & E2 & V2); [|done|].
  { cbn [apply_stmt]. rewrite decide_True; [done|]. apply lookup_delete_eq. }
  exists s2. split; [exact E2|]. rewrite V2. unfold v1. cbn -[insert delete]. by rewrite insert_delete_eq.
Qed.

Lemma build_one_other db td v k : k <> (db, table_name td) -> a_tables (build_one db v td) !! k = a_tables v !! k.
Proof. intros Hk. unfold build_one. case_decide; [done|]. cbn. by rewrite lookup_insert_ne. Qed.

Lemma build_one_frame db td v : a_fk (build_one db v td) = a_fk v /\ a_open (build_one db v td) = a_open v /\ a_attached (build_one db v td) = a_attached v.
Proof. unfold build_one. by case_decide. Qed.

Lemma attached_free_step db td defs v : attached_free db (td :: defs) v -> attached_free db defs (build_one db v td).
Proof.
  intros Hr Hdb. destruct (build_one_frame db td v) as (_ & _ & ->). eapply Forall_impl; [exact (Hr Hdb)|]. cbn. intros a [Hne Ha].
  split; [done|]. intros td' Ht. rewrite build_one_other; [by apply Ha; right|]. intros E. injection E as E _. congruence.
Qed.

Lemma check_and_build_spec db defs v : defs ⊆ all_defs -> db ∉ a_fk v -> attached_free db defs v ->
  leads (check_and_build db defs) v (foldl (build_one db) v defs).
Proof.
  revert v. induction defs as [|td defs IH]; intros v Hin Hfk Hr s Hs; [by exists s|]. cbn [check_and_build foldl].
  assert (td ∈ all_defs) as Htd by (apply Hin; left).
  destruct (check_table_structure_spec db td s Htd) as (n & s1 & -> & V1 & Hn). rewrite bind_Some, Hs in *.
  assert (exists s2, (if n =? 0 then build_table_structure db (table_name td) (table_def td) s1 else Some s1) = Some s2 /\ view s2 = build_one db v td)
    as (s2 & E2 & V2).
  { unfold build_one. destruct (Z.eqb_spec n 0) as [E|E].
    - rewrite decide_False by tauto. apply (build_table_structure_spec db td v); [done|done| |by rewrite V1].
      intros Hdb. eapply Forall_impl; [exact (Hr Hdb)|]. cbn. intros a [? Ha]. split; [done|]. intros td' ->%list_elem_of_singleton. apply Ha. left.
    - exists s1. rewrite decide_True by (apply dec_stable; tauto). done. }
  rewrite E2, bind_Some. apply (IH (build_one db v td)); [|by rewrite (proj1 (build_one_frame db td v))|by apply attached_free_step|done].
  intros x Hx. apply Hin. by right.
Qed.

(** What is left of a table when its definition is [def]. *)
Definition kept (def : list byte) (old : option (list byte * list row)) : list byte * list row :=
  match old with Some (d, rows) => if decide (d = def) then (d, rows) else (def, []) | None => (def, []) end.

Lemma build_one_this db td v : a_tables (build_one db v td) !! (db, table_name td) = Some (kept (table_def td) (a_tables v !! (db, table_name td))).
Proof.
  unfold build_one, kept. destruct (a_tables v !! (db, table_name td)) as [[d rows]|] eqn:E; cbn [fmap option_fmap option_map fst].
  - destruct (decide (d = table_def td)) as [->|Hne]; [by rewrite decide_True|].
    rewrite decide_False by congruence. cbn. by rewrite lookup_insert_eq.
  - rewrite decide_False by done. cbn. by rewrite lookup_insert_eq.
Qed.

Lemma built_lookup db defs : NoDup (table_name <$> defs) -> forall v,
  (forall td, td ∈ defs -> a_tables (foldl (build_one db) v defs) !! (db, table_name td) = Some (kept (table_def td) (a_tables v !! (db, table_name td)))) /\
  (forall k, k.1 <> db \/ k.2 ∉ table_name <$> defs -> a_tables (foldl (build_one db) v defs) !! k = a_tables v !! k) /\
  a_fk (foldl (build_one db) v defs) = a_fk v /\ a_open (foldl (build_one db) v defs) = a_open v /\
  a_attached (foldl (build_one db) v defs) = a_attached v.
Proof.
  induction defs as [|td defs IH]; intros Hd v.
  { split; [by intros td Htd%not_elem_of_nil|]. done. }
  rewrite fmap_cons in Hd. apply NoDup_cons in Hd as [Hn Hd]. cbn [foldl].
  destruct (IH Hd (build_one db v td)) as (I1 & I2 & I3 & I4 & I5). destruct (build_one_frame db td v) as (F1 & F2 & F3).
  split; [|split; [|by rewrite I3, I4, I5, F1, F2, F3]].
  - intros td' [->|Hin]%elem_of_cons.
    + rewrite I2 by (right; done). apply build_one_this.
    + rewrite I1 by done. rewrite build_one_other; [done|]. intros E. injection E as E. apply Hn. rewrite <- E. by apply list_elem_of_fmap_2.
  - intros k Hk. rewrite I2, build_one_other; [done| |].
    + intros ->. cbn in Hk. destruct Hk as [?|Hk]; [done|]. apply Hk. left.
    + destruct Hk as [?|Hk]; [by left|]. right. intros ?. apply Hk. by right.
Qed.

Definition built_db (db : database) (defs : list admin_sqlite_table_def_t) (v : absdb) : absdb :=
  let v1 := foldl (build_one db) (v <| a_fk := a_fk v ∖ {[ db ]} |>) defs in v1 <| a_fk := {[ db ]} ∪ a_fk v1 |>.

Lemma check_and_build_tables_spec db defs v : defs ⊆ all_defs -> attached_free db defs v ->
  leads (check_and_build_tables defs db) v (built_db db defs v).
Proof.
  intros Hin Hr. set (v0 := v <| a_fk := a_fk v ∖ {[ db ]} |>). apply (leads_bind _ _ _ v0).
  { apply leads_fk_off. }
  apply (leads_bind _ _ _ (foldl (build_one db) v0 defs)).
  { apply check_and_build_spec; [done| |done]. cbn. set_solver. }
  apply leads_fk_on.
Qed.

(** ** Rows of one table *)

Definition set_rows (db : database) (t : string) (rows : list row) (v : absdb) : absdb :=
  v <| a_tables := <[(db, c_lit t) := (def_of (c_lit t), rows)]> (a_tables v) |>.

Lemma on_rows_spec db t f v rows rows' : a_tables v !! (db, c_lit t) = Some (def_of (c_lit t), rows) -> f rows = Some rows' ->
  on_rows db t f v = Some (set_rows db t rows' v).
Proof. intros E Hf. unfold on_rows. rewrite E, bind_Some, decide_True by done. by rewrite Hf, bind_Some. Qed.

Lemma set_rows_this db t rows v : a_tables (set_rows db t rows v) !! (db, c_lit t) = Some (def_of (c_lit t), rows).
Proof. unfold set_rows. cbn -[insert lookup]. apply lookup_insert_eq. Qed.

Lemma set_rows_other db t rows v k : k <> (db, c_lit t) -> a_tables (set_rows db t rows v) !! k = a_tables v !! k.
Proof. intros Hk. unfold set_rows. cbn -[insert lookup]. by apply lookup_insert_ne. Qed.

Lemma set_rows_set db t rows rows' v : set_rows db t rows (set_rows db t rows' v) = set_rows db t rows v.
Proof. unfold set_rows. cbn -[insert]. by rewrite insert_insert_eq. Qed.

Lemma set_rows_id db t rows v : a_tables v !! (db, c_lit t) = Some (def_of (c_lit t), rows) -> set_rows db t rows v = v.
Proof. intros E. unfold set_rows. destruct v as [tb fk op at_]. cbn -[insert lookup] in *. by rewrite insert_id. Qed.

(** Statements that only touch the rows of one table. *)
Lemma fold_on_rows db t (g : stmt -> list row -> option (list row)) sts : (forall st v, st ∈ sts -> apply_stmt db st v = on_rows db t (g st) v) ->
  forall v rows rows', a_tables v !! (db, c_lit t) = Some (def_of (c_lit t), rows) ->
  foldl (fun o st => o ≫= g st) (Some rows) sts = Some rows' ->
  foldl (fun o st => o ≫= apply_stmt db st) (Some v) sts = Some (set_rows db t rows' v).
Proof.
  induction sts as [|st sts IH]; intros Hg v rows rows' E Hf; cbn [foldl] in *.
  { injection Hf as ->. by rewrite set_rows_id. }
  rewrite bind_Some in Hf. rewrite bind_Some. destruct (g st rows) as [rows1|] eqn:E1.
  2: { by rewrite foldl_bind_None in Hf. }
  rewrite (Hg st v) by left. rewrite (on_rows_spec _ _ _ _ _ _ E E1).
  rewrite (IH (fun st' v' Hin => Hg st' v' (list_elem_of_further _ _ _ Hin)) (set_rows db t rows1 v) rows1 rows' (set_rows_this _ _ _ _) Hf).
  by rewrite set_rows_set.
Qed.

Definition status_rows : list row := (fun v => [Some (c_lit v.1); Some (c_lit v.2)]) <$> status_values.

Lemma fill_server_status_spec db v : db ∉ a_fk v -> fst <$> a_tables v !! (db, c_lit "server_status") = Some (def_of (c_lit "server_status")) ->
  leads (fill_table__server_status db) v (set_rows db "server_status" status_rows v).
Proof.
  intros Hfk E. destruct (a_tables v !! (db, c_lit "server_status")) as [[d rows]|] eqn:E0; [|done]. injection E as ->.
  change (fill_table__server_status db) with (fun s => exec_texts db (text <$> ClearStatus :: (InsertStatus <$> status_values)) s).
  apply leads_texts.
  { constructor; [done|]. apply Forall_fmap, Forall_forall. by intros v' Hv'. }
  cbn [foldl]. rewrite bind_Some. cbn [apply_stmt]. rewrite decide_True by done. rewrite (on_rows_spec _ _ _ _ _ [] E0) by done.
  rewrite (fold_on_rows db "server_status" (fun st rows => match st with
      | InsertStatus (n, d) => if has_key (c_lit n) rows || has_value 1 (c_lit d) rows then None else Some (rows ++ [[Some (c_lit n); Some (c_lit d)]])
      | _ => None end) (InsertStatus <$> status_values)) with (rows := []) (rows' := status_rows).
  - by rewrite set_rows_set.
  - intros st v' [[n d'] [-> _]]%list_elem_of_fmap. done.
  - apply set_rows_this.
  - by vm_compute.
Qed.

(** The rows of debug_levels: unknown modules go, missing ones come with verbosity 0. *)
Definition levels_after (rows : list row) : list row :=
  foldl (fun rows m => insert_or_ignore (c_lit m) [Some (c_lit m); Some (c_lit "0")] rows) (filter (fun r => known_level r = true) rows) debug_modules.

Lemma fold_Some {A B} (f : B -> A -> A) l : forall a, foldl (fun o b => o ≫= (fun a => Some (f b a))) (Some a) l = Some (foldl (fun a b => f b a) a l).
Proof. induction l as [|b l IH]; intros a; [done|]. cbn [foldl]. by rewrite bind_Some. Qed.

Lemma fill_debug_levels_spec db v rows : a_tables v !! (db, c_lit "debug_levels") = Some (def_of (c_lit "debug_levels"), rows) ->
  leads (fill_table__debug_levels db) v (set_rows db "debug_levels" (levels_after rows) v).
Proof.
  intros E. change (fill_table__debug_levels db) with (fun s => exec_texts db (text <$> DeleteLevels :: (InsertLevel <$> debug_modules)) s).
  apply leads_texts.
  { constructor; [done|]. apply Forall_fmap, Forall_forall. by intros v' Hv'. }
  cbn [foldl]. rewrite bind_Some. cbn [apply_stmt]. 
  rewrite (on_rows_spec _ _ (fun rows => Some (filter (fun r => known_level r = true) rows)) _ _ _ E eq_refl).
  rewrite (fold_on_rows db "debug_levels" (fun st rows => match st with
      | InsertLevel m => Some (insert_or_ignore (c_lit m) [Some (c_lit m); Some (c_lit "0")] rows) | _ => None end) (InsertLevel <$> debug_modules))
    with (rows := filter (fun r => known_level r = true) rows) (rows' := levels_after rows).
  - by rewrite set_rows_set.
  - intros st v' [m [-> _]]%list_elem_of_fmap. done.
  - apply set_rows_this.
  - rewrite foldl_fmap. apply (fold_Some (fun m rows => insert_or_ignore (c_lit m) [Some (c_lit m); Some (c_lit "0")] rows)).
Qed.

Lemma has_key_spec k rows : has_key k rows = true <-> exists r, r ∈ rows /\ r !! 0%nat = Some (Some k).
Proof.
  unfold has_key. rewrite existsb_exists. setoid_rewrite bool_decide_eq_true. setoid_rewrite list_elem_of_In. done.
Qed.

Lemma insert_or_ignore_elem k r rows x : x ∈ insert_or_ignore k r rows <-> x ∈ rows \/ (x = r /\ has_key k rows = false).
Proof.
  unfold insert_or_ignore. destruct (has_key k rows); [naive_solver|]. rewrite elem_of_app, list_elem_of_singleton. naive_solver.
Qed.

Lemma ignore_fold_spec {B} (key : B -> list byte) (mk : B -> row) ms : (forall m, m ∈ ms -> mk m !! 0%nat = Some (Some (key m))) -> forall rows,
  let out := foldl (fun rows m => insert_or_ignore (key m) (mk m) rows) rows ms in
  (forall r, r ∈ rows -> r ∈ out) /\
  (forall r, r ∈ out -> r ∈ rows \/ exists m, m ∈ ms /\ r = mk m /\ has_key (key m) rows = false) /\
  (forall m, m ∈ ms -> has_key (key m) out = true).
Proof.
  induction ms as [|m ms IH]; intros Hmk rows; cbn [foldl].
  { split; [done|]. split; [by left|]. by intros m Hm%not_elem_of_nil. }
  destruct (IH (fun m' Hm' => Hmk m' (list_elem_of_further _ _ _ Hm')) (insert_or_ignore (key m) (mk m) rows)) as (I1 & I2 & I3).
  set (out := foldl _ _ ms) in *. split; [|split].
  - intros r Hr. apply I1, insert_or_ignore_elem. by left.
  - intros r [Hr|(m' & Hm' & -> & Hk)]%I2.
    + apply insert_or_ignore_elem in Hr as [Hr|[-> Hk]]; [by left|]. right. exists m. split; [left|done].
    + right. exists m'. split; [by right|]. split; [done|]. destruct (has_key (key m') rows) eqn:Ek; [|done].
      apply has_key_spec in Ek as (r & Hr & E). rewrite <- Hk. symmetry. apply has_key_spec. exists r. split; [|done].
      apply insert_or_ignore_elem. by left.
  - intros m' [->|Hm']%elem_of_cons; [|by apply I3].
    apply has_key_spec. destruct (has_key (key m) rows) eqn:Ek.
    + apply has_key_spec in Ek as (r & Hr & E). exists r. split; [|done]. apply I1, insert_or_ignore_elem. by left.
    + exists (mk m). split; [|apply Hmk; left]. apply I1, insert_or_ignore_elem. by right.
Qed.

(** A level that was set stays, a module that is not in the program any more is forgotten, a new one has the level 0. *)
Lemma levels_after_spec rows :
  (forall r, r ∈ rows -> known_level r = true -> r ∈ levels_after rows) /\
  (forall r, r ∈ levels_after rows -> (r ∈ rows /\ known_level r = true) \/
     exists m, m ∈ debug_modules /\ r = [Some (c_lit m); Some (c_lit "0")] /\ has_key (c_lit m) rows = false) /\
  (forall m, m ∈ debug_modules -> has_key (c_lit m) (levels_after rows) = true).
Proof.
  destruct (ignore_fold_spec c_lit (fun m => [Some (c_lit m); Some (c_lit "0")]) debug_modules (fun _ _ => eq_refl)
    (filter (fun r => known_level r = true) rows)) as (I1 & I2 & I3).
  unfold levels_after. set (out := foldl _ _ debug_modules) in *.
  split; [|split; [|done]].
  - intros r Hr Hk. apply I1. by apply list_elem_of_filter.
  - intros r [[Hk Hr]%list_elem_of_filter|(m & Hm & -> & Hk)]%I2; [by left|]. right. exists m. split; [done|]. split; [done|].
    destruct (has_key (c_lit m) rows) eqn:Ek; [|done]. apply has_key_spec in Ek as (r & Hr & E). rewrite <- Hk. symmetry.
    apply has_key_spec. exists r. split; [|done]. apply list_elem_of_filter. split; [|done].
    unfold known_level. apply existsb_exists. exists m. split; [by apply list_elem_of_In|]. by apply bool_decide_eq_true_2.
Qed.

(** ** The copy of the configuration *)

Lemma exec_texts_cons db q qs (s : sq) : exec_texts db (q :: qs) s = sql_exec db q s ≫= exec_texts db qs.
Proof.
  unfold exec_texts. cbn [foldl]. rewrite bind_Some. destruct (sql_exec db q s) as [s'|]; [done|]. apply (foldl_bind_None (sql_exec db)).
Qed.

Lemma exec_texts_app db qs qs' (s : sq) : exec_texts db (qs ++ qs') s = exec_texts db qs s ≫= exec_texts db qs'.
Proof.
  revert s. induction qs as [|q qs IH]; intros s; [done|]. cbn [app]. rewrite !exec_texts_cons.
  destruct (sql_exec db q s) as [s'|]; [|done]. rewrite !bind_Some. apply IH.
Qed.

Definition unchanged_but (ks : list (database * list byte)) (v v' : absdb) : Prop :=
  a_fk v' = a_fk v /\ a_open v' = a_open v /\ a_attached v' = a_attached v /\ forall k, k ∉ ks -> a_tables v' !! k = a_tables v !! k.

Lemma unchanged_but_trans ks ks' v v' v'' : unchanged_but ks v v' -> unchanged_but ks' v' v'' -> unchanged_but (ks ++ ks') v v''.
Proof.
  intros (A1 & A2 & A3 & A4) (B1 & B2 & B3 & B4). split; [congruence|]. split; [congruence|]. split; [congruence|].
  intros k Hk. rewrite B4, A4; [done| |]; intros ?; apply Hk, elem_of_app; auto.
Qed.

Definition in_main (t : string) : database * list byte := (AdminDb, c_lit t).

(** The two tables have the definition of [t], and that in memory has the rows of the other in some order. *)
Definition same_table (t : string) (v : absdb) : Prop :=
  exists rows rows', a_tables v !! (ConfigDb, c_lit t) = Some (def_of (c_lit t), rows) /\ a_tables v !! in_main t = Some (def_of (c_lit t), rows') /\ rows' ≡ₚ rows.

Lemma copy_one t v s : view s = v -> t ∈ Disk.config_tables -> AdminDb ∉ a_fk v -> disk_of v = Some ConfigDb ->
  fst <$> a_tables v !! (ConfigDb, c_lit t) = Some (def_of (c_lit t)) -> a_tables v !! in_main t = Some (def_of (c_lit t), []) ->
  exists s', sql_exec AdminDb (text (CopyToMain t)) s = Some s' /\ unchanged_but [in_main t] v (view s') /\ same_table t (view s').
Proof.
  intros Hs Ht Hfk Hd Hc Hm. destruct (a_tables v !! (ConfigDb, c_lit t)) as [[def rows]|] eqn:Ec; [|done]. injection Hc as ->.
  destruct (exec_law AdminDb (CopyToMain t) s (v <| a_tables := <[in_main t := (def_of (c_lit t), rows)]> (a_tables v) |>) Ht) as (s' & E & Hr).
  { rewrite Hs. by apply (runs_copy AdminDb t ConfigDb rows rows). }
  exists s'. split; [done|]. rewrite Hs in Hr. inversion Hr as [|? d rows0 rows' ? _ _ Hd' _ E2 Hp]; subst; [done|].
  rewrite Hd in Hd'. injection Hd' as <-. rewrite Ec in E2. injection E2 as <-. split.
  - split; [done|]. split; [done|]. split; [done|]. intros k Hk. cbn -[insert lookup]. apply lookup_insert_ne. set_solver.
  - exists rows, rows'. cbn -[insert lookup]. split; [by rewrite lookup_insert_ne|]. split; [apply lookup_insert_eq|done].
Qed.

Lemma same_table_mono t ks v v' : unchanged_but ks v v' -> (ConfigDb, c_lit t) ∉ ks -> in_main t ∉ ks -> same_table t v -> same_table t v'.
Proof. intros (_ & _ & _ & Hu) H1 H2 (rows & rows' & E1 & E2 & Hp). exists rows, rows'. by rewrite !Hu. Qed.

Lemma copy_tables ts v s : view s = v -> NoDup (in_main <$> ts) -> ts ⊆ Disk.config_tables -> AdminDb ∉ a_fk v -> disk_of v = Some ConfigDb ->
  (forall t, t ∈ ts -> fst <$> a_tables v !! (ConfigDb, c_lit t) = Some (def_of (c_lit t)) /\ a_tables v !! in_main t = Some (def_of (c_lit t), [])) ->
  exists s', exec_texts AdminDb (text <$> (CopyToMain <$> ts)) s = Some s' /\ unchanged_but (in_main <$> ts) v (view s') /\
    forall t, t ∈ ts -> same_table t (view s').
Proof.
  revert v s. induction ts as [|t ts IH]; intros v s Hs Hnd Hin Hfk Hd Ht.
  { exists s. split; [done|]. rewrite Hs. split; [done|]. by intros t Hn%not_elem_of_nil. }
  rewrite !fmap_cons in *. apply NoDup_cons in Hnd as [Hn Hnd]. rewrite exec_texts_cons.
  destruct (copy_one t v s Hs (Hin t (list_elem_of_here _ _)) Hfk Hd) as (s1 & -> & Hu & Hc); [apply Ht; left..|]. rewrite bind_Some.
  destruct Hu as (U1 & U2 & U3 & U4).
  assert (forall k, k.1 = ConfigDb \/ k ∈ in_main <$> ts -> k ∉ [in_main t]) as Hk.
  { intros k Hk ->%list_elem_of_singleton. by destruct Hk. }
  destruct (IH (view s1) s1 eq_refl Hnd) as (s2 & -> & Hu2 & Hc2).
  - intros x Hx. apply Hin. by right.
  - by rewrite U1.
  - unfold disk_of. by rewrite U3.
  - intros t' Ht'. rewrite !U4; [apply Ht; by right|apply Hk; right; by apply list_elem_of_fmap_2|apply Hk; by left].
  - exists s2. split; [done|]. split; [by apply (unchanged_but_trans [in_main t] _ _ (view s1))|].
    intros t' [->|Ht']%elem_of_cons; [|by apply Hc2]. apply (same_table_mono t (in_main <$> ts) (view s1)); [done| |done|done].
    intros (t' & E & _)%list_elem_of_fmap. done.
Qed.

(** ** The whole start *)

Lemma built_db_spec db defs v : NoDup (table_name <$> defs) ->
  (forall td, td ∈ defs -> a_tables (built_db db defs v) !! (db, table_name td) = Some (kept (table_def td) (a_tables v !! (db, table_name td)))) /\
  (forall k, k.1 <> db \/ k.2 ∉ table_name <$> defs -> a_tables (built_db db defs v) !! k = a_tables v !! k) /\
  (forall db', db' ∈ a_fk (built_db db defs v) <-> db' = db \/ db' ∈ a_fk v) /\
  a_open (built_db db defs v) = a_open v /\ a_attached (built_db db defs v) = a_attached v.
Proof.
  intros Hd. unfold built_db. set (v0 := v <| a_fk := a_fk v ∖ {[ db ]} |>). destruct (built_lookup db defs Hd v0) as (B1 & B2 & B3 & B4 & B5).
  set (v1 := foldl (build_one db) v0 defs) in *. cbn -[lookup insert union]. split; [done|]. split; [done|]. split; [|done].
  intros db'. rewrite B3. unfold v0. cbn -[lookup insert union]. destruct (decide (db' = db)); set_solver.
Qed.

Lemma db_at_spec path d v : a_open v !! d = Some path -> (forall d', a_open v !! d' = Some path -> d' = d) -> db_at path v = Some d.
Proof.
  intros Hd Hu. unfold db_at. assert (is_Some (List.find (fun d => bool_decide (a_open v !! d = Some path)) [AdminDb; MonitorDb; ConfigDb; StatsDb; DebugDb])) as [d' E].
  { destruct (List.find _ _) eqn:E; [done|]. pose proof (List.find_none _ _ E d) as Hf. cbn beta in Hf. rewrite bool_decide_eq_true_2 in Hf by done.
    discriminate Hf. by destruct d; cbn; auto 10. }
  rewrite E. apply List.find_some in E as [_ E]. apply bool_decide_eq_true_1 in E. by rewrite (Hu d' E).
Qed.

Lemma attach_text_fits path name : fits_block (length (attach_text [] name) + 2 + length path + 5) (attach_text path name) = Some (attach_text path name).
Proof. unfold fits_block, attach_text. rewrite decide_True; [done|]. rewrite !length_app. cbn [length]. lia. Qed.

Lemma attach_eq path name (s : sq) : attach path name s = sql_exec AdminDb (attach_text path name) s.
Proof. unfold attach. by rewrite attach_text_fits. Qed.

Lemma leads_attach path (name : string) d v : Byte.x27 ∉ path -> name ∈ ["mon"; "disk"; "statsdb"]%string ->
  a_open v !! d = Some path -> (forall d', a_open v !! d' = Some path -> d' = d) -> name ∉ (a_attached v).*1 ->
  leads (sql_exec AdminDb (attach_text path name)) v (v <| a_attached := a_attached v ++ [(name, d)] |>).
Proof.
  intros Hq Hn Hd Hu Hf. apply (leads_exec AdminDb (Attach path name)); [done|]. cbn [apply_stmt]. rewrite (db_at_spec _ d) by done.
  by rewrite bind_Some, decide_True.
Qed.

(** Before the start nothing is open and the databases in memory do not exist. *)
Record fresh (v : absdb) : Prop := {
  fresh_open : a_open v = ∅;
  fresh_attached : a_attached v = [];
  fresh_memory : forall db n, db = AdminDb \/ db = MonitorDb -> a_tables v !! (db, n) = None
}.

Definition open_paths (p : db_paths) : list (database * list byte) :=
  [(AdminDb, memadmindb); (MonitorDb, memmonitordb); (ConfigDb, proxy_admin_pathdb p); (StatsDb, persistent_statistics_pathdb p); (DebugDb, debug_pathdb p)].

(** Five different databases, and no single quote in the names that are put into a statement. *)
Record paths_ok (p : db_paths) : Prop := {
  paths_distinct : NoDup (open_paths p).*2;
  paths_quote : Byte.x27 ∉ proxy_admin_pathdb p /\ Byte.x27 ∉ persistent_statistics_pathdb p
}.

Definition opened (p : db_paths) (v : absdb) : absdb :=
  mkAbs (a_tables v) ({[ DebugDb ]} ∪ ({[ StatsDb ]} ∪ ({[ ConfigDb ]} ∪ a_fk v)))
    (<[DebugDb := debug_pathdb p]> (<[StatsDb := persistent_statistics_pathdb p]> (<[ConfigDb := proxy_admin_pathdb p]>
      (<[MonitorDb := memmonitordb]> (<[AdminDb := memadmindb]> ∅))))) [("mon"%string, MonitorDb)].

Definition built (v : absdb) : absdb :=
  built_db DebugDb table_defs_debugdb (built_db StatsDb table_defs_statsdb (built_db MonitorDb table_defs
    (built_db AdminDb table_defs (built_db ConfigDb table_defs v)))).

Definition filled (rows : list row) (v : absdb) : absdb :=
  let v := set_rows ConfigDb "debug_levels" (levels_after rows) (set_rows ConfigDb "server_status" status_rows (v <| a_fk := a_fk v ∖ {[ ConfigDb ]} |>)) in
  v <| a_fk := {[ ConfigDb ]} ∪ a_fk v |>.

Lemma leads_pragmas db v : leads (exec_texts db startup_pragmas) v (v <| a_fk := {[ db ]} ∪ a_fk v |>).
Proof.
  change startup_pragmas with (text <$> ((Setting <$> take 3 startup_pragmas) ++ [SetForeignKeys true])). apply leads_texts; [|done].
  apply Forall_app. split; [|by repeat constructor]. apply Forall_fmap, Forall_forall. by intros q Hq.
Qed.

Lemma opened_open p v d path : a_open (opened p v) !! d = Some path <-> (d, path) ∈ open_paths p.
Proof. unfold opened, open_paths. cbn [a_open]. destruct d; simplify_map_eq; set_solver. Qed.

Lemma opened_unique p v d path : paths_ok p -> (d, path) ∈ open_paths p ->
  a_open (opened p v) !! d = Some path /\ forall d', a_open (opened p v) !! d' = Some path -> d' = d.
Proof.
  intros Hp Hin. split; [by apply opened_open|]. intros d' Hd'%opened_open.
  apply list_elem_of_lookup in Hin as [i Hi]. apply list_elem_of_lookup in Hd' as [j Hj].
  assert (i = j) as ->; [|congruence].
  apply (NoDup_lookup _ _ _ path (paths_distinct p Hp)); rewrite list_lookup_fmap; [by rewrite Hi|by rewrite Hj].
Qed.

Lemma table_defs_all : table_defs ⊆ all_defs.
Proof. intros td Htd. apply elem_of_app. by left. Qed.
Lemma statsdb_all : table_defs_statsdb ⊆ all_defs.
Proof. intros td Htd. apply elem_of_app. right. apply elem_of_app. by left. Qed.
Lemma debugdb_all : table_defs_debugdb ⊆ all_defs.
Proof. intros td Htd. apply elem_of_app. right. apply elem_of_app. by right. Qed.
Lemma table_defs_distinct : NoDup (table_name <$> table_defs).
Proof. apply (bool_decide_eq_true_1 _). vm_compute. reflexivity. Qed.

(** The tables after the five checks. *)
Lemma built_spec v :
  (forall db td, db = ConfigDb \/ db = AdminDb \/ db = MonitorDb -> td ∈ table_defs ->
     a_tables (built v) !! (db, table_name td) = Some (kept (table_def td) (a_tables v !! (db, table_name td)))) /\
  (forall td, td ∈ table_defs_statsdb -> a_tables (built v) !! (StatsDb, table_name td) = Some (kept (table_def td) (a_tables v !! (StatsDb, table_name td)))) /\
  (forall td, td ∈ table_defs_debugdb -> a_tables (built v) !! (DebugDb, table_name td) = Some (kept (table_def td) (a_tables v !! (DebugDb, table_name td)))) /\
  (forall db n, n ∉ table_name <$> all_defs -> a_tables (built v) !! (db, n) = a_tables v !! (db, n)) /\
  (forall db, db ∈ a_fk (built v)) /\ a_open (built v) = a_open v /\ a_attached (built v) = a_attached v.
Proof.
  unfold built. set (v1 := built_db ConfigDb table_defs v). set (v2 := built_db AdminDb table_defs v1). set (v3 := built_db MonitorDb table_defs v2).
  set (v4 := built_db StatsDb table_defs_statsdb v3). set (v5 := built_db DebugDb table_defs_debugdb v4).
  destruct (built_db_spec ConfigDb table_defs v table_defs_distinct) as (A1 & B1 & F1 & O1 & T1). fold v1 in A1, B1, F1, O1, T1.
  destruct (built_db_spec AdminDb table_defs v1 table_defs_distinct) as (A2 & B2 & F2 & O2 & T2). fold v2 in A2, B2, F2, O2, T2.
  destruct (built_db_spec MonitorDb table_defs v2 table_defs_distinct) as (A3 & B3 & F3 & O3 & T3). fold v3 in A3, B3, F3, O3, T3.
  destruct (built_db_spec StatsDb table_defs_statsdb v3 (NoDup_singleton _)) as (A4 & B4 & F4 & O4 & T4). fold v4 in A4, B4, F4, O4, T4.
  destruct (built_db_spec DebugDb table_defs_debugdb v4 (NoDup_singleton _)) as (A5 & B5 & F5 & O5 & T5). fold v5 in A5, B5, F5, O5, T5.
  assert (forall n, n ∉ table_name <$> all_defs -> n ∉ table_name <$> table_defs /\ n ∉ table_name <$> table_defs_statsdb /\ n ∉ table_name <$> table_defs_debugdb) as Hn.
  { unfold all_defs. intros n. rewrite !fmap_app, !elem_of_app. tauto. }
  split; [|split; [|split; [|split; [|split; [|split; congruence]]]]].
  - intros db td Hdb Htd. assert (db <> DebugDb /\ db <> StatsDb) as [Hd1 Hd2] by (by destruct Hdb as [->|[->| ->]]).
    rewrite B5, B4 by (by left). destruct Hdb as [->|[->| ->]].
    + rewrite B3, B2 by (by left). by apply A1.
    + rewrite B3 by (by left). rewrite A2 by done. by rewrite B1 by (by left).
    + rewrite A3 by done. by rewrite B2, B1 by (by left).
  - intros td Htd. rewrite B5 by (by left). rewrite A4 by done. by rewrite B3, B2, B1 by (by left).
  - intros td Htd. rewrite A5 by done. by rewrite B4, B3, B2, B1 by (by left).
  - intros db n (H1 & H2 & H3)%Hn. by rewrite B5, B4, B3, B2, B1 by (by right).
  - intros db. rewrite F5, F4, F3, F2, F1. destruct db; auto 10.
Qed.

(** One step of a program that is a sequence of binds: [L : leads m v v'] and the hypothesis that the database looks like [v]. *)
Local Ltac db_step L s' HV :=
  match goal with
  | H : view ?s = _ |- context [?m ?s ≫= _] =>
      let E := fresh "E" in destruct (L s H) as (s' & E & HV); rewrite E, bind_Some; clear E H; try clear s
  end.

(** Opening the databases and their settings. *)
Lemma open_phase p v : (forall db path c s, is_Some (sql_open db path c s)) -> paths_ok p -> fresh v -> leads (open_databases p) v (opened p v).
Proof.
  intros Ho Hp [F1 F2 F3].
  assert (forall db path c v, leads (sql_open db path c) v (v <| a_open := <[db := path]> (a_open v) |>)) as Lo.
  { intros db path c w s1 <-. destruct (Ho db path c s1) as [s2 E]. exists s2. split; [done|]. by apply open_law in E. }
  intros s V0. unfold open_databases. destruct (uri_law s) as (s1 & -> & V1). rewrite bind_Some. rewrite V0 in V1. clear V0.
  db_step (Lo AdminDb memadmindb false v) s2 V2. set (v2 := v <| a_open := _ |>) in V2.
  db_step (Lo MonitorDb memmonitordb false v2) s3 V3. set (v3 := v2 <| a_open := _ |>) in V3.
  assert (a_open v3 = <[MonitorDb := memmonitordb]> (<[AdminDb := memadmindb]> ∅)) as O3.
  { unfold v3, v2. cbn -[insert]. by rewrite F1. }
  assert (leads (sql_exec AdminDb (attach_text memmonitordb "mon")) v3 (v3 <| a_attached := a_attached v3 ++ [("mon"%string, MonitorDb)] |>)) as La.
  { apply leads_attach; [apply (bool_decide_eq_true_1 _); by vm_compute|left|by rewrite O3, lookup_insert_eq| |].
    - intros d. rewrite O3. intros E. destruct (decide (d = MonitorDb)) as [|Hn]; [done|]. rewrite lookup_insert_ne in E by done.
      apply lookup_insert_Some in E as [[_ E]|[_ E]]; [|by rewrite lookup_empty in E]. exfalso. revert E. apply (bool_decide_eq_true_1 _). by vm_compute.
    - unfold v3, v2. cbn -[insert]. rewrite F2. apply not_elem_of_nil. }
  db_step La s4 V4. set (v4 := v3 <| a_attached := _ |>) in V4.
  db_step (Lo ConfigDb (proxy_admin_pathdb p) true v4) s5 V5. set (v5 := v4 <| a_open := _ |>) in V5.
  db_step (Lo StatsDb (persistent_statistics_pathdb p) true v5) s6 V6. set (v6 := v5 <| a_open := _ |>) in V6.
  db_step (Lo DebugDb (debug_pathdb p) true v6) s7 V7. set (v7 := v6 <| a_open := _ |>) in V7.
  db_step (leads_pragmas ConfigDb v7) s8 V8. set (v8 := v7 <| a_fk := _ |>) in V8.
  db_step (leads_pragmas StatsDb v8) s9 V9. set (v9 := v8 <| a_fk := _ |>) in V9.
  destruct (leads_pragmas DebugDb v9 s9 V9) as (s10 & E10 & V10).
  exists s10. split; [done|]. rewrite V10. unfold v9, v8, v7, v6, v5, v4, v3, v2, opened. cbn -[insert union].
  by rewrite F1, F2.
Qed.

Lemma attached_free_not_admin db defs v : db <> AdminDb -> attached_free db defs v.
Proof. by intros Hn E. Qed.

Lemma build_phase p v : fresh v -> leads build_tables (opened p v) (built (opened p v)).
Proof.
  intros [F1 F2 F3] s V0. unfold built, build_tables. set (v0 := opened p v) in *.
  unfold check_and_build_standard_tables, check_and_build_statsdb_tables, check_and_build_debugdb_tables.
  db_step (check_and_build_tables_spec ConfigDb table_defs v0 table_defs_all (attached_free_not_admin ConfigDb _ _ ltac:(done))) s1 V1.
  set (v1 := built_db ConfigDb table_defs v0) in *.
  assert (attached_free AdminDb table_defs v1) as Hf.
  { intros _. destruct (built_db_spec ConfigDb table_defs v0 table_defs_distinct) as (_ & B & _ & _ & Ha). fold v1 in B, Ha. rewrite Ha.
    repeat constructor; [done|]. cbn [snd]. intros td Htd. rewrite B by (by left). apply F3. by right. }
  db_step (check_and_build_tables_spec AdminDb table_defs v1 table_defs_all Hf) s2 V2. set (v2 := built_db AdminDb table_defs v1) in *.
  db_step (check_and_build_tables_spec MonitorDb table_defs v2 table_defs_all (attached_free_not_admin MonitorDb _ _ ltac:(done))) s3 V3.
  set (v3 := built_db MonitorDb table_defs v2) in *.
  db_step (check_and_build_tables_spec StatsDb table_defs_statsdb v3 statsdb_all (attached_free_not_admin StatsDb _ _ ltac:(done))) s4 V4.
  set (v4 := built_db StatsDb table_defs_statsdb v3) in *.
  exact (check_and_build_tables_spec DebugDb table_defs_debugdb v4 debugdb_all (attached_free_not_admin DebugDb _ _ ltac:(done)) s4 V4).
Qed.

Lemma fill_phase v rows :
  fst <$> a_tables v !! (ConfigDb, c_lit "server_status") = Some (def_of (c_lit "server_status")) ->
  a_tables v !! (ConfigDb, c_lit "debug_levels") = Some (def_of (c_lit "debug_levels"), rows) ->
  leads fill_tables v (filled rows v).
Proof.
  intros H1 H2 s V0. unfold filled, fill_tables.
  db_step (leads_fk_off ConfigDb v) s1 V1. set (v1 := v <| a_fk := _ |>) in *.
  assert (ConfigDb ∉ a_fk v1) as Hn by (unfold v1; cbn -[difference]; set_solver).
  db_step (fill_server_status_spec ConfigDb v1 Hn H1) s2 V2. set (v2 := set_rows ConfigDb "server_status" _ v1) in *.
  assert (a_tables v2 !! (ConfigDb, c_lit "debug_levels") = Some (def_of (c_lit "debug_levels"), rows)) as H2'.
  { unfold v2. by rewrite set_rows_other by (intros E; discriminate E). }
  db_step (fill_debug_levels_spec ConfigDb v2 rows H2') s3 V3. set (v3 := set_rows ConfigDb "debug_levels" _ v2) in *.
  exact (leads_fk_on ConfigDb v3 s3 V3).
Qed.

Lemma attach_phase p v : paths_ok p -> a_attached v = [("mon"%string, MonitorDb)] ->
  (forall d path, a_open v !! d = Some path <-> (d, path) ∈ open_paths p) ->
  leads (attach_databases p) v (v <| a_attached := [("mon", MonitorDb); ("disk", ConfigDb); ("statsdb", StatsDb)]%string |>).
Proof.
  intros Hp Ha Ho s V0. unfold attach_databases. destruct (paths_quote p Hp) as [Q1 Q2].
  assert (forall d path, (d, path) ∈ open_paths p -> a_open v !! d = Some path /\ forall d', a_open v !! d' = Some path -> d' = d) as Hu.
  { intros d path Hin. destruct (opened_unique p v d path Hp Hin) as [_ U2]. split; [by apply Ho|].
    intros d' Hd'%Ho. apply U2. by apply opened_open. }
  rewrite attach_eq.
  destruct (Hu ConfigDb (proxy_admin_pathdb p)) as [C1 C2]; [do 2 right; left|].
  assert (leads (sql_exec AdminDb (attach_text (proxy_admin_pathdb p) "disk")) v (v <| a_attached := a_attached v ++ [("disk"%string, ConfigDb)] |>)) as L1.
  { apply leads_attach; [done|set_solver|done|done|rewrite Ha; set_solver]. }
  db_step L1 s1 V1. set (v1 := v <| a_attached := _ |>) in V1. rewrite attach_eq.
  destruct (Hu StatsDb (persistent_statistics_pathdb p)) as [S1 S2]; [do 3 right; left|].
  assert (leads (sql_exec AdminDb (attach_text (persistent_statistics_pathdb p) "statsdb")) v1
    (v1 <| a_attached := a_attached v1 ++ [("statsdb"%string, StatsDb)] |>)) as L2.
  { apply leads_attach; [done|set_solver|done|done|unfold v1; cbn; rewrite Ha; set_solver]. }
  destruct (L2 s1 V1) as (s2 & E2 & V2). exists s2. split; [done|]. rewrite V2. unfold v1. cbn. by rewrite Ha.
Qed.

Definition admin_copy (s : sq) : option sq := exec_texts AdminDb (statement_text <$> Disk.insert_or_ignore_maintable_select_disktable) s.

Lemma copy_phase v (s : sq) : view s = v -> disk_of v = Some ConfigDb ->
  (forall t, t ∈ Disk.config_tables -> fst <$> a_tables v !! (ConfigDb, c_lit t) = Some (def_of (c_lit t)) /\ a_tables v !! in_main t = Some (def_of (c_lit t), [])) ->
  exists s', admin_copy s = Some s' /\ AdminDb ∈ a_fk (view s') /\ (forall db, db ∈ a_fk v -> db ∈ a_fk (view s')) /\
    (forall k, k ∉ in_main <$> Disk.config_tables -> a_tables (view s') !! k = a_tables v !! k) /\
    forall t, t ∈ Disk.config_tables -> same_table t (view s').
Proof.
  intros V0 Hd Ht.
  assert (admin_copy s = exec_texts AdminDb ([c_lit "PRAGMA foreign_keys = OFF"] ++ (text <$> (CopyToMain <$> Disk.config_tables)) ++
    [c_lit "PRAGMA foreign_keys = ON"]) s) as ->
    by reflexivity.
  rewrite !exec_texts_app, exec_texts_cons.
  destruct (leads_fk_off AdminDb v s V0) as (s1 & -> & V1). set (v1 := v <| a_fk := _ |>) in V1. rewrite !bind_Some.
  change (exec_texts AdminDb [] s1) with (Some s1). rewrite bind_Some, exec_texts_app.
  destruct (copy_tables Disk.config_tables v1 s1 V1) as (s2 & -> & (U1 & U2 & U3 & U4) & Hc); [|done| |done|done|].
  { apply (bool_decide_eq_true_1 _). by vm_compute. }
  { unfold v1. cbn -[difference]. set_solver. }
  rewrite bind_Some, exec_texts_cons.
  destruct (leads_fk_on AdminDb (view s2) s2 eq_refl) as (s3 & -> & V3). rewrite bind_Some.
  exists s3. split; [done|]. rewrite V3. cbn -[union lookup]. split; [set_solver|]. split.
  - intros db Hdb. rewrite U1. unfold v1. cbn -[difference union]. destruct (decide (db = AdminDb)); set_solver.
  - split; [exact U4|exact Hc].
Qed.

Lemma filled_lookup rows v :
  a_tables (filled rows v) !! (ConfigDb, c_lit "server_status") = Some (def_of (c_lit "server_status"), status_rows) /\
  a_tables (filled rows v) !! (ConfigDb, c_lit "debug_levels") = Some (def_of (c_lit "debug_levels"), levels_after rows) /\
  (forall k, k <> (ConfigDb, c_lit "server_status") -> k <> (ConfigDb, c_lit "debug_levels") -> a_tables (filled rows v) !! k = a_tables v !! k) /\
  (forall db, db ∈ a_fk v -> db ∈ a_fk (filled rows v)) /\ a_open (filled rows v) = a_open v /\ a_attached (filled rows v) = a_attached v.
Proof.
  unfold filled. set (v1 := v <| a_fk := _ |>). set (v2 := set_rows ConfigDb "server_status" status_rows v1).
  set (v3 := set_rows ConfigDb "debug_levels" (levels_after rows) v2).
  set (v4 := v3 <| a_fk := _ |>). change (a_tables v4) with (a_tables v3). split; [|split; [|split; [|split]]].
  - unfold v3. rewrite set_rows_other by (intros E; discriminate E). apply set_rows_this.
  - apply set_rows_this.
  - intros k H1 H2. unfold v3, v2. by rewrite !set_rows_other.
  - intros db Hdb. change (a_fk v4) with ({[ ConfigDb ]} ∪ (a_fk v ∖ {[ ConfigDb ]})). destruct (decide (db = ConfigDb)); set_solver.
  - done.
Qed.

Lemma standard_def (t : string) : existsb (fun td => bool_decide (table_name td = c_lit t)) table_defs = true ->
  exists td, td ∈ table_defs /\ table_name td = c_lit t /\ table_def td = def_of (c_lit t).
Proof.
  intros (td & Hin%list_elem_of_In & E%bool_decide_eq_true_1)%existsb_exists. exists td. split; [done|]. split; [done|].
  rewrite <- E. symmetry. apply def_facts. by apply table_defs_all.
Qed.

Lemma config_tables_standard : Forall (fun t => existsb (fun td => bool_decide (table_name td = c_lit t)) table_defs = true) Disk.config_tables.
Proof. apply (bool_decide_eq_true_1 _). vm_compute. reflexivity. Qed.

(** The tables that the start fills, besides those it copies. *)
Definition filled_tables : list (list byte) := [c_lit "server_status"; c_lit "debug_levels"].

(** The state that the start leaves, from a state that looked like [v0]. *)
Record initialised (v0 : absdb) (r : admin_dbs sq) (v : absdb) : Prop := {
  init_view : view (d_sq r) = v;
  init_standard db td : db ∈ [ConfigDb; AdminDb; MonitorDb] -> td ∈ table_defs -> fst <$> a_tables v !! (db, table_name td) = Some (table_def td);
  init_stats td : td ∈ table_defs_statsdb -> a_tables v !! (StatsDb, table_name td) = Some (kept (table_def td) (a_tables v0 !! (StatsDb, table_name td)));
  init_debug td : td ∈ table_defs_debugdb -> a_tables v !! (DebugDb, table_name td) = Some (kept (table_def td) (a_tables v0 !! (DebugDb, table_name td)));
  init_disk td : td ∈ table_defs -> table_name td ∉ filled_tables ->
    a_tables v !! (ConfigDb, table_name td) = Some (kept (table_def td) (a_tables v0 !! (ConfigDb, table_name td)));
  init_others db n : n ∉ table_name <$> all_defs -> a_tables v !! (db, n) = a_tables v0 !! (db, n);
  init_status : a_tables v !! (ConfigDb, c_lit "server_status") = Some (def_of (c_lit "server_status"), status_rows);
  init_levels : snd <$> a_tables v !! (ConfigDb, c_lit "debug_levels") =
    Some (levels_after (kept (def_of (c_lit "debug_levels")) (a_tables v0 !! (ConfigDb, c_lit "debug_levels"))).2);
  init_copied t : t ∈ Disk.config_tables -> same_table t v;
  init_empty : snd <$> a_tables v !! in_main "debug_levels" = Some [];
  init_fk db : db ∈ a_fk v;
  init_times : d_admin_lastupdate r = 0 /\ d_monitor_lastupdate r = 0 /\ d_monitor_rebuild r = 0;
  init_log hs ss : a_tables v !! in_main "hostgroups" = Some (def_of (c_lit "hostgroups"), hs) -> a_tables v !! in_main "servers" = Some (def_of (c_lit "servers"), ss) ->
    length (d_log r) = length (filter (fun h => dangling ss h = true) hs)
}.

Lemma kept_def def old : (kept def old).1 = def.
Proof. unfold kept. destruct old as [[d rows]|]; [|done]. case_decide; [by subst|done]. Qed.

(** The database just before the copy. *)
Lemma before_copy v0 p rows v : fresh v0 -> a_attached v = [("mon", MonitorDb); ("disk", ConfigDb); ("statsdb", StatsDb)]%string ->
  a_tables v = a_tables (filled rows (built (opened p v0))) ->
  disk_of v = Some ConfigDb /\
  (forall t, t ∈ Disk.config_tables -> fst <$> a_tables v !! (ConfigDb, c_lit t) = Some (def_of (c_lit t)) /\ a_tables v !! in_main t = Some (def_of (c_lit t), [])) /\
  (forall db td, db ∈ [ConfigDb; AdminDb; MonitorDb] -> td ∈ table_defs -> fst <$> a_tables v !! (db, table_name td) = Some (table_def td)) /\
  (forall td, td ∈ table_defs -> a_tables v !! (AdminDb, table_name td) = Some (table_def td, [])) /\
  (forall td, td ∈ table_defs -> table_name td ∉ filled_tables ->
    a_tables v !! (ConfigDb, table_name td) = Some (kept (table_def td) (a_tables v0 !! (ConfigDb, table_name td)))).
Proof.
  intros F Ht Hv. destruct (built_spec (opened p v0)) as (B1 & _).
  destruct (filled_lookup rows (built (opened p v0))) as (L1 & L2 & L3 & _).
  assert (forall td, td ∈ table_defs -> table_name td ∉ filled_tables ->
    a_tables v !! (ConfigDb, table_name td) = Some (kept (table_def td) (a_tables v0 !! (ConfigDb, table_name td)))) as Hc.
  { intros td Htd Hn. rewrite Hv, L3; [by apply B1; [left|]| |].
    - intros E. injection E as E. apply Hn. rewrite E. left.
    - intros E. injection E as E. apply Hn. rewrite E. right. left. }
  assert (forall db td, db = AdminDb \/ db = MonitorDb -> td ∈ table_defs -> a_tables v !! (db, table_name td) = Some (table_def td, [])) as Ha.
  { intros db td Hdb Htd. assert (db <> ConfigDb) as Hne by (by destruct Hdb as [->| ->]).
    rewrite Hv, L3 by congruence. rewrite B1 by tauto.
    change (a_tables (opened p v0)) with (a_tables v0). by rewrite (fresh_memory v0 F). }
  assert (forall db td, db ∈ [ConfigDb; AdminDb; MonitorDb] -> td ∈ table_defs -> fst <$> a_tables v !! (db, table_name td) = Some (table_def td)) as Hs.
  { intros db td Hdb Htd. destruct (decide (db = ConfigDb)) as [->|Hne].
    - destruct (decide (table_name td ∈ filled_tables)) as [Hin|Hn]; [|rewrite Hc by done; cbn; by rewrite kept_def].
      destruct (def_facts td (table_defs_all td Htd)) as (_ & _ & <-). rewrite Hv.
      apply elem_of_cons in Hin as [->|Hin]; [by rewrite L1|]. apply list_elem_of_singleton in Hin as ->. by rewrite L2.
    - rewrite Ha; [done| |done]. rewrite !elem_of_cons, elem_of_nil in Hdb. tauto. }
  split; [|split; [|split; [done|split; [intros td Htd; apply Ha; [by left|done]|done]]]].
  - unfold disk_of. by rewrite Ht.
  - intros t Ht'. pose proof (proj1 (Forall_forall _ _) config_tables_standard t Ht') as (td & Htd & E1 & E2)%standard_def.
    unfold in_main. rewrite <- E2, <- E1. split; [apply Hs; [left|done]|]. apply Ha; [by left|done].
Qed.

Lemma with_attached v l : a_tables (v <| a_attached := l |>) = a_tables v /\ a_fk (v <| a_attached := l |>) = a_fk v /\ a_attached (v <| a_attached := l |>) = l.
Proof. done. Qed.

Lemma in_main_lookup k : k.1 <> AdminDb -> k ∉ in_main <$> Disk.config_tables.
Proof. intros Hk (t & -> & _)%list_elem_of_fmap. by apply Hk. Qed.

(** C23: the start of the administrator's databases. When the files can be opened, the five paths are different (different strings are taken as
    different files), the paths of the configuration and of the statistics contain no single quote (one would break the ATTACH and end the process),
    nothing is open before, and SQLite runs the statements of the program (no SQLITE_BUSY, no full disk), then the assertions of [admin_init_sqlite3]
    hold, every buffer is large enough, and afterwards all tables exist with the definitions of the program in all databases that need them. A table
    on disk that had this definition keeps its rows, one with another definition is empty; tables of other names are not touched; the fixed rows are
    there; the five tables of the configuration are copied into memory, and the log has one line for each row of hostgroups without a server. *)
Theorem tables_built (paths : db_paths) (s : sq) :
  (forall db path create s, is_Some (sql_open db path create s)) -> paths_ok paths -> fresh (view s) ->
  exists r v, admin_init_sqlite3 paths s = Some r /\ initialised (view s) r v.
Proof.
  intros Ho Hp F. unfold admin_init_sqlite3.
  destruct (open_phase paths (view s) Ho Hp F s eq_refl) as (s1 & -> & V1). rewrite bind_Some.
  destruct (build_phase paths (view s) F s1 V1) as (s2 & -> & V2). rewrite bind_Some.
  destruct (built_spec (opened paths (view s))) as (B1 & B2 & B3 & B4 & B5 & B6 & B7). set (vb := built (opened paths (view s))) in *.
  change (a_tables (opened paths (view s))) with (a_tables (view s)) in *. set (v0 := view s) in *.
  destruct (standard_def "server_status") as (td1 & T1 & N1 & D1); [by vm_compute|].
  destruct (standard_def "debug_levels") as (td2 & T2 & N2 & D2); [by vm_compute|].
  set (old := kept (def_of (c_lit "debug_levels")) (a_tables v0 !! (ConfigDb, c_lit "debug_levels"))).
  assert (a_tables vb !! (ConfigDb, c_lit "debug_levels") = Some (def_of (c_lit "debug_levels"), old.2)) as Hl.
  { pose proof (B1 ConfigDb td2 (or_introl eq_refl) T2) as E. rewrite N2, D2 in E. rewrite E. fold old. rewrite <- (kept_def (def_of (c_lit "debug_levels"))
      (a_tables v0 !! (ConfigDb, c_lit "debug_levels"))). fold old. by destruct old. }
  destruct (fill_phase vb old.2) with (s := s2) as (s3 & -> & V3); [|done|done|].
  { pose proof (B1 ConfigDb td1 (or_introl eq_refl) T1) as E. rewrite N1, D1 in E. rewrite E. cbn [fmap option_fmap option_map]. by rewrite kept_def. }
  rewrite bind_Some. destruct (filled_lookup old.2 vb) as (L1 & L2 & L3 & L4 & L5 & L6).
  remember (filled old.2 vb) as vf eqn:Evf.
  destruct (attach_phase paths vf Hp) with (s := s3) as (s4 & -> & V4); [by rewrite L6, B7| |done|].
  { intros d path. rewrite L5, B6. apply opened_open. }
  rewrite bind_Some. destruct (with_attached vf [("mon", MonitorDb); ("disk", ConfigDb); ("statsdb", StatsDb)]%string) as (Ta & Fa & Aa).
  remember (vf <| a_attached := _ |>) as va eqn:Eva.
  destruct (before_copy v0 paths old.2 va F Aa) as (Hd & C1 & C2 & C3 & C4); [by rewrite Ta, Evf|].
  destruct (copy_phase va s4 V4 Hd C1) as (s5 & E5 & Fk & Fk' & U & Hc). unfold admin_copy in E5. rewrite E5, bind_Some.
  destruct (Hc "hostgroups"%string) as (hrows & hrows' & _ & Hh & _); [by right; left|].
  destruct (Hc "servers"%string) as (srows & srows' & _ & Hsv & _); [by left|].
  destruct (validate_law AdminDb s5 hrows' srows' Hh Hsv) as (names & msgs & s6 & Ev & Vv & Hm).
  unfold validate_data. rewrite Ev. eexists _, (view s5). split; [reflexivity|].
  assert (forall k, k ∉ in_main <$> Disk.config_tables -> a_tables (view s5) !! k = a_tables vf !! k) as U' by (intros k Hk; by rewrite U, Ta).
  assert (forall db n, db <> AdminDb -> a_tables (view s5) !! (db, n) = a_tables vf !! (db, n)) as Uc by (intros db n Hn; by apply U', in_main_lookup).
  split; cbn [d_sq d_admin_lastupdate d_monitor_lastupdate d_monitor_rebuild d_log].
  - done.
  - intros db td Hdb Htd. destruct (decide ((db, table_name td) ∈ in_main <$> Disk.config_tables)) as [Hin|Hn]; [|by rewrite U', <- Ta; [apply C2|]].
    apply list_elem_of_fmap in Hin as (t & [= -> E] & Ht). destruct (Hc t Ht) as (rows & rows' & _ & E' & _). unfold in_main in E'.
    rewrite E, E'. cbn [fmap option_fmap option_map fst]. by rewrite <- E, (proj2 (proj2 (def_facts td (table_defs_all td Htd)))).
  - intros td Htd. rewrite Uc, L3 by done. by apply B2.
  - intros td Htd. rewrite Uc, L3 by done. by apply B3.
  - intros td Htd Hn. rewrite Uc, <- Ta by done. by apply C4.
  - intros db n Hn. rewrite U', L3; [by apply B4| | |].
    + intros [= _ ->]. apply Hn. rewrite <- N1. apply list_elem_of_fmap_2. by apply table_defs_all.
    + intros [= _ ->]. apply Hn. rewrite <- N2. apply list_elem_of_fmap_2. by apply table_defs_all.
    + intros (t & [= -> ->] & Ht)%list_elem_of_fmap. pose proof (proj1 (Forall_forall _ _) config_tables_standard t Ht) as (td & Htd & E & _)%standard_def.
      apply Hn. rewrite <- E. apply list_elem_of_fmap_2. by apply table_defs_all.
  - by rewrite Uc.
  - rewrite Uc by done. by rewrite L2.
  - exact Hc.
  - rewrite U' by (apply (bool_decide_eq_true_1 _); by vm_compute). rewrite <- Ta. unfold in_main. rewrite <- N2, C3 by done. done.
  - intros db. apply Fk'. rewrite Fa. by apply L4.
  - done.
  - intros hs ss E1 E2. unfold in_main in *. rewrite Hh in E1. rewrite Hsv in E2. injection E1 as <-. injection E2 as <-. rewrite <- Hm. apply length_fmap.
Qed.

(** ** Merging the users *)

(** A row of the table users. *)
Definition user_row (t : list byte * option (list byte) * list byte) : row := [Some t.1.1; t.1.2; Some t.2].
Definition user_names (us : list (list byte * option (list byte) * list byte)) : list (list byte) := (fun t => t.1.1) <$> us.

Definition merge_one (us : list (list byte * option (list byte) * list byte)) (f : list byte * list byte) : list (list byte * option (list byte) * list byte) :=
  if decide (f.1 ∈ user_names us) then us else us ++ [(f.1, Some f.2, c_lit "1")].

Lemma has_key_users n us : has_key n (user_row <$> us) = bool_decide (n ∈ user_names us).
Proof.
  apply eq_bool_prop_intro. rewrite !Is_true_true, has_key_spec, bool_decide_eq_true. unfold user_names. rewrite list_elem_of_fmap.
  split.
  - intros (r & (t & -> & Ht)%list_elem_of_fmap & E). exists t. cbn in E. split; [congruence|done].
  - intros (t & -> & Ht). exists (user_row t). split; [by apply list_elem_of_fmap_2|done].
Qed.

Lemma merge_one_row us f : insert_or_ignore f.1 [Some f.1; Some f.2; Some (c_lit "1")] (user_row <$> us) = user_row <$> merge_one us f.
Proof.
  unfold insert_or_ignore, merge_one. rewrite has_key_users. destruct (decide (f.1 ∈ user_names us)) as [Hf|Hf].
  - by rewrite bool_decide_eq_true_2.
  - rewrite bool_decide_eq_false_2 by done. by rewrite fmap_app.
Qed.

Lemma merge_spec fs : forall us, NoDup (user_names us) -> NoDup fs.*1 ->
  NoDup (user_names (foldl merge_one us fs)) /\
  forall t, t ∈ foldl merge_one us fs <-> t ∈ us \/ exists f, f ∈ fs /\ f.1 ∉ user_names us /\ t = (f.1, Some f.2, c_lit "1").
Proof.
  induction fs as [|f fs IH]; intros us Hu Hf; cbn [foldl].
  { split; [done|]. intros t. split; [by left|]. intros [?|(f & Hn & _)]; [done|]. by apply not_elem_of_nil in Hn. }
  rewrite fmap_cons in Hf. apply NoDup_cons in Hf as [Hn Hf].
  assert (user_names (merge_one us f) = user_names us ++ (if decide (f.1 ∈ user_names us) then [] else [f.1])) as Hm.
  { unfold merge_one. destruct (decide _); [by rewrite app_nil_r|]. unfold user_names. by rewrite fmap_app. }
  destruct (IH (merge_one us f)) as [I1 I2]; [|done|].
  { rewrite Hm. destruct (decide _); [by rewrite app_nil_r|]. apply NoDup_app. split; [done|]. split; [|apply NoDup_singleton].
    intros x Hx ->%list_elem_of_singleton. done. }
  split; [done|]. intros t. rewrite I2, Hm. clear I1 I2 IH. split.
  - intros [Ht|(g & Hg & Hng & ->)].
    + unfold merge_one in Ht. destruct (decide (f.1 ∈ user_names us)) as [|Hfu]; [by left|].
      apply elem_of_app in Ht as [Ht| ->%list_elem_of_singleton]; [by left|]. right. exists f. split; [left|done].
    + right. exists g. split; [by right|]. split; [|done]. intros ?. apply Hng, elem_of_app. by left.
  - intros [Ht|(g & [->|Hg]%elem_of_cons & Hng & ->)].
    + left. unfold merge_one. destruct (decide _); [done|]. apply elem_of_app. by left.
    + left. unfold merge_one. rewrite decide_False by done. apply elem_of_app. right. by apply list_elem_of_singleton.
    + right. exists g. split; [done|]. split; [|done]. rewrite elem_of_app. intros [?|Hg']; [done|].
      destruct (decide _); [by apply not_elem_of_nil in Hg'|]. apply list_elem_of_singleton in Hg'. apply Hn. rewrite <- Hg'. by apply list_elem_of_fmap_2.
Qed.

(** The users of the configuration file: names and passwords that can stand between double quotes in a statement. *)
Record file_users (u : users_t) (fs : list (list byte * list byte)) : Prop := {
  file_names : users_name u = fs.*1;
  file_passes : users_pass u = Some <$> fs.*2;
  file_distinct : NoDup fs.*1;
  file_plain f : f ∈ fs -> Byte.x22 ∉ f.1 /\ Byte.x22 ∉ f.2 /\ Byte.x00 ∉ f.1 /\ Byte.x00 ∉ f.2
}.

Lemma users_statements fs : users_mem_to_db false 1 fs.*1 (Some <$> fs.*2) = Some ((fun f => user_statement false 1 f.1 f.2) <$> fs).
Proof.
  induction fs as [|[n p] fs IH]; [done|]. rewrite !fmap_cons. cbn [users_mem_to_db fst snd].
  rewrite decide_True by (by apply user_statement_length). cbn [fst snd] in IH. by rewrite IH, bind_Some.
Qed.

Lemma save_users_spec fs us v : (forall f, f ∈ fs -> Byte.x22 ∉ f.1 /\ Byte.x22 ∉ f.2) ->
  a_tables v !! in_main "users" = Some (def_of (c_lit "users"), user_row <$> us) ->
  leads (exec_texts AdminDb ((fun f => user_statement false 1 f.1 f.2) <$> fs)) v (set_rows AdminDb "users" (user_row <$> foldl merge_one us fs) v).
Proof.
  intros Hq E.
  assert (((fun f => user_statement false 1 f.1 f.2) <$> fs) = text <$> ((fun f => IgnoreUser f.1 f.2) <$> fs)) as -> by (by rewrite <- list_fmap_compose).
  apply leads_texts.
  { apply Forall_fmap, Forall_forall. intros f Hf. by apply Hq. }
  apply (fold_on_rows AdminDb "users" (fun st rows => match st with
    | IgnoreUser n p => Some (insert_or_ignore n [Some n; Some p; Some (c_lit "1")] rows) | _ => None end)) with (rows := user_row <$> us).
  - intros st v' [f [-> _]]%list_elem_of_fmap. done.
  - exact E.
  - clear. revert us. induction fs as [|f fs IH]; intros us; [done|]. rewrite fmap_cons. cbn [foldl]. rewrite bind_Some, merge_one_row. apply IH.
Qed.

Lemma active_users_rows us : active_users (user_row <$> us) = (fun t => [Some t.1.1; t.1.2]) <$> filter (fun t => t.2 = c_lit "1") us.
Proof.
  induction us as [|[[n p] a] us IH]; [done|]. rewrite fmap_cons, filter_cons. unfold active_users in *. cbn [omap list_omap user_row fst snd].
  destruct (decide (a = c_lit "1")); cbn [fmap list_fmap fst snd]; by rewrite IH.
Qed.

Definition nul_free (t : list byte * option (list byte) * list byte) : Prop := Byte.x00 ∉ t.1.1 /\ forall p, t.1.2 = Some p -> Byte.x00 ∉ p.

Lemma users_row_spec ts : Forall nul_free ts -> mapM users_row ((fun t => [Some t.1.1; t.1.2]) <$> ts) = Some (fst <$> ts).
Proof.
  induction 1 as [|[[n p] a] ts [H1 H2] _ IH]; [done|]. rewrite !fmap_cons, mapM_cons_opt, IH. unfold users_row. cbn [lookup list_lookup fst snd default] in *.
  rewrite c_text_nul_free by done.
  destruct p as [p|]; [|done]. cbn. by rewrite (c_text_nul_free p) by (by apply H2).
Qed.

(** C26: the users at the start, with [merge_configfile_db]. The table keeps the users it had, with their passwords, and gains those of the
    configuration file whose names it does not have; in memory are afterwards exactly the active users of the table and these new ones, so that a
    password or a deactivation in the table takes precedence over the file. The names in the file are distinct and, like the passwords there, contain
    no double quote (one makes a statement that SQLite refuses, and the start aborts) and no NUL; the table has the definition of the program, names
    without duplicates, and no NUL in its texts; SQLite runs the statements of the program (no SQLITE_BUSY, no full disk). *)
Theorem startup_users_merged (u : users_t) (fs : list (list byte * list byte)) us (s : sq) :
  users_ok u -> file_users u fs ->
  a_tables (view s) !! in_main "users" = Some (def_of (c_lit "users"), user_row <$> us) -> NoDup (user_names us) -> Forall nul_free us ->
  exists u' s' us', merge_users 1 u s = Some (u', s') /\ users_ok u' /\
    (forall n p, users_hash u' !! n = Some p <-> (n, p, c_lit "1") ∈ us \/ (n ∉ user_names us /\ exists q, p = Some q /\ (n, q) ∈ fs)) /\
    a_tables (view s') !! in_main "users" = Some (def_of (c_lit "users"), user_row <$> us') /\
    (forall t, t ∈ us' <-> t ∈ us \/ exists f, f ∈ fs /\ f.1 ∉ user_names us /\ t = (f.1, Some f.2, c_lit "1")).
Proof.
  intros Hu [F1 F2 F3 F4] Ht Hd Hn. unfold merge_users, sqlite3_flush_users_mem_to_db. cbn [Z.eqb negb Pos.eqb]. rewrite F1, F2, users_statements, bind_Some.
  destruct (save_users_spec fs us (view s)) with (s := s) as (s1 & E1 & V1); [intros f Hf; split; apply (F4 f Hf)|done|done|].
  rewrite E1, bind_Some. destruct (merge_spec fs us Hd F3) as [M1 M2]. set (us' := foldl merge_one us fs) in *.
  assert (Forall nul_free us') as Hn'.
  { apply Forall_forall. intros t [Hin|(f & Hf & _ & ->)]%M2; [by apply (proj1 (Forall_forall _ _) Hn)|]. destruct (F4 f Hf) as (_ & _ & N1 & N2).
    split; [done|]. by intros p [= <-]. }
  assert (a_tables (view s1) !! in_main "users" = Some (def_of (c_lit "users"), user_row <$> us')) as T1 by (rewrite V1; apply set_rows_this).
  unfold read_users. destruct (users_law AdminDb s1 _ T1) as (names & rows & s2 & -> & V2 & Hp).
  rewrite active_users_rows in Hp. apply Permutation_map_inv in Hp as (ts & -> & Hp). change (map ?f ts) with (f <$> ts).
  rewrite users_row_spec, bind_Some by (rewrite <- Hp; apply Forall_forall; intros t Hin; apply list_elem_of_filter in Hin as [_ Hin];
    exact (proj1 (Forall_forall _ _) Hn' t Hin)).
  assert (NoDup (ts.*1).*1) as Hnd.
  { rewrite <- list_fmap_compose. change (NoDup (user_names ts)). unfold user_names. rewrite <- Hp. unfold user_names in M1.
    eapply sublist_NoDup; [exact M1|]. apply fmap_sublist. apply sublist_filter. }
  destruct (flush_users_hash ts.*1 u Hu Hnd) as (u' & E' & U1 & _ & _ & U4). rewrite E'. exists u', s2, us'. split; [done|]. split; [done|].
  split; [|split; [by rewrite V2|done]].
  intros n p. rewrite U4, list_elem_of_fmap. split.
  - intros ([[n' p'] a] & [= -> ->] & Hin). rewrite <- Hp in Hin. apply list_elem_of_filter in Hin as [Ha Hin]. cbn in Ha. subst a.
    apply M2 in Hin as [Hin|(f & Hf & Hnf & [= -> ->])]; [by left|]. right. split; [done|]. exists f.2. split; [done|]. by destruct f.
  - intros Hor. exists (n, p, c_lit "1"). split; [done|]. rewrite <- Hp. apply list_elem_of_filter. split; [done|]. apply M2.
    destruct Hor as [?|(Hnu & q & -> & Hf)]; [by left|]. right. by exists (n, q).
Qed.

End Laws.

(** ** A small SQLite

    It knows the statements of the program by their texts. *)

Definition fixed_statements : list stmt :=
  [SetForeignKeys true; SetForeignKeys false; ClearStatus; DeleteLevels] ++ (Setting <$> take 3 startup_pragmas) ++ (Drop <$> all_defs) ++ (Create <$> all_defs) ++
  (InsertStatus <$> status_values) ++ (InsertLevel <$> debug_modules) ++ (CopyToMain <$> Disk.config_tables).

Definition strip (pre q : list byte) : option (list byte) := if decide (take (length pre) q = pre) then Some (drop (length pre) q) else None.

(** The text up to the next double quote and what follows it. *)
Fixpoint cut (q : list byte) : list byte * list byte :=
  match q with
  | [] => ([], [])
  | b :: q => if decide (b = Byte.x22) then ([], q) else let '(x, y) := cut q in (b :: x, y)
  end.

Definition attach_name (q : list byte) : string :=
  match last q with Some Byte.x6e => "mon" | Some Byte.x6b => "disk" | _ => "statsdb" end.

Definition toy_parse (q : list byte) : option stmt :=
  match List.find (fun st => bool_decide (text st = q)) fixed_statements with
  | Some st => Some st
  | None =>
      match strip (c_lit "ATTACH DATABASE '") q with
      | Some r => let name := attach_name q in Some (Attach (take (length r - length (c_lit "' AS " ++ c_lit name)) r) name)
      | None =>
          r ← strip (users_format false).1 q;
          let '(n, r) := cut r in
          r ← strip (c_lit "," ++ c_quote) r;
          Some (IgnoreUser n (cut r).1)
      end
  end.

Definition toy_copy (t : string) (v : absdb) : option absdb :=
  d ← disk_of v;
  '(_, rows) ← a_tables v !! (d, c_lit t);
  Some (v <| a_tables := <[in_main t := (def_of (c_lit t), rows)]> (a_tables v) |>).

Definition toy_apply (db : database) (st : stmt) (v : absdb) : option absdb :=
  match st with CopyToMain t => toy_copy t v | _ => apply_stmt db st v end.

Definition check_prefix : list byte :=
  c_lit "SELECT COUNT(*) FROM sqlite_master WHERE type=" ++ c_quote ++ c_lit "table" ++ c_quote ++ c_lit " AND name=" ++ c_quote.

Definition toy_run (db : database) (q : list byte) (v : absdb) : answer :=
  if decide (q = validate_text) then
    let hs := from_option snd [] (a_tables v !! (db, c_lit "hostgroups")) in
    let ss := from_option snd [] (a_tables v !! (db, c_lit "servers")) in
    Columns [c_lit "error"] ((fun h => [default None (h !! 1%nat)]) <$> filter (fun h => dangling ss h = true) hs) StepDone
  else if decide (q = users_query) then
    Columns [c_lit "username"; c_lit "password"] (active_users (from_option snd [] (a_tables v !! (db, c_lit "users")))) StepDone
  else
    match strip check_prefix q with
    | Some r =>
        let '(name, r) := cut r in
        let def := (cut (drop (length (c_lit " AND sql=" ++ c_quote)) r)).1 in
        Columns [c_lit "COUNT(*)"]
          [[Some (if decide (fst <$> a_tables v !! (db, name) = Some def) then c_lit "1" else c_lit "0")]] StepDone
    | None => PrepareError (c_lit "syntax error")
    end.

#[local] Instance toy_db : SQLite absdb := {|
  sql_exec := fun db q v => st ← toy_parse q; toy_apply db st v;
  sql_run := fun db q v => (toy_run db q v, v)
|}.

#[local] Instance toy_files : SQLiteFiles absdb := {|
  sql_config_uri := Some;
  sql_open := fun db path _ v => Some (v <| a_open := <[db := path]> (a_open v) |>)
|}.

Lemma strip_app pre r : strip pre (pre ++ r) = Some r.
Proof. unfold strip. by rewrite take_app_length, decide_True, drop_app_length. Qed.

Lemma strip_differ pre x r : (length x <= length pre)%nat -> take (length x) pre <> x -> strip pre (x ++ r) = None.
Proof.
  intros Hl Hx. unfold strip. rewrite decide_False; [done|]. intros E. apply Hx. rewrite <- E, take_take, Nat.min_l by done. by rewrite take_app_length.
Qed.

Lemma cut_app x r : Byte.x22 ∉ x -> cut (x ++ Byte.x22 :: r) = (x, r).
Proof.
  induction x as [|b x IH]; intros Hn; cbn [app cut]; [by rewrite decide_True|].
  apply not_elem_of_cons in Hn as [H1 H2]. rewrite decide_False by done. by rewrite IH.
Qed.

Lemma fixed_texts : Forall (fun st => List.find (fun st' => bool_decide (text st' = text st)) fixed_statements = Some st) fixed_statements.
Proof.
  repeat (apply Forall_cons_2; [by vm_compute|]). apply Forall_nil_2.
Qed.

(** No fixed statement begins like the others. *)
Lemma fixed_begin pre q : Forall (fun st => take (length pre) (text st) <> pre) fixed_statements ->
  List.find (fun st => bool_decide (text st = pre ++ q)) fixed_statements = None.
Proof.
  intros Hf. destruct (List.find _ _) as [st|] eqn:E; [|done]. apply List.find_some in E as [Hin%list_elem_of_In E%bool_decide_eq_true_1].
  apply (proj1 (Forall_forall _ _) Hf) in Hin. destruct Hin. by rewrite E, take_app_length.
Qed.

Lemma toy_parse_attach path name : name ∈ ["mon"; "disk"; "statsdb"]%string -> toy_parse (attach_text path name) = Some (Attach path name).
Proof.
  intros Hn. unfold toy_parse, attach_text. rewrite fixed_begin by (apply (bool_decide_eq_true_1 _); by vm_compute).
  rewrite strip_app.
  assert (attach_name (c_lit "ATTACH DATABASE '" ++ path ++ c_lit "' AS " ++ c_lit name) = name) as ->.
  { unfold attach_name. rewrite !app_assoc. rewrite last_app.
    apply elem_of_cons in Hn as [->|[->|[->|Hn%not_elem_of_nil]%elem_of_cons]%elem_of_cons]; done. }
  rewrite !length_app, Nat.add_sub. by rewrite take_app_length.
Qed.

Lemma toy_parse_user n p : Byte.x22 ∉ n -> Byte.x22 ∉ p -> toy_parse (user_statement false 1 n p) = Some (IgnoreUser n p).
Proof.
  intros Hn Hp. unfold toy_parse, user_statement. cbn [users_format].
  assert (forall a b, (c_lit "INSERT OR IGNORE" ++ c_lit " INTO users(username,password,active) VALUES(" ++ c_quote) ++ a ++ b =
    (users_format false).1 ++ a ++ b) as -> by done.
  rewrite fixed_begin by (apply (bool_decide_eq_true_1 _); by vm_compute).
  assert (strip (c_lit "ATTACH DATABASE '") ((users_format false).1 ++ n ++ (c_quote ++ c_lit ",") ++ c_quote ++ p ++ (c_quote ++ c_lit ",") ++ c_dec 1 ++ c_lit ")") = None) as ->.
  { reflexivity. }
  rewrite strip_app, bind_Some. unfold c_quote. rewrite <- !app_assoc. cbn [app]. rewrite cut_app by done.
  change (c_lit "," ++ Byte.x22 :: p ++ Byte.x22 :: c_lit "," ++ c_dec 1 ++ c_lit ")") with ((c_lit "," ++ [Byte.x22]) ++ p ++ Byte.x22 :: c_lit "," ++ c_dec 1 ++ c_lit ")").
  rewrite strip_app, bind_Some. by rewrite cut_app.
Qed.

Lemma toy_parse_fixed st : st ∈ fixed_statements -> toy_parse (text st) = Some st.
Proof. intros Hin. unfold toy_parse. by rewrite (proj1 (Forall_forall _ _) fixed_texts st Hin). Qed.

Lemma toy_parse_text st : known st -> toy_parse (text st) = Some st.
Proof.
  intros Hk. pose proof (toy_parse_fixed st) as Hf. unfold fixed_statements in Hf. rewrite !elem_of_app in Hf.
  destruct st as [on|q|td|td| |v| |m|path name|t|n p]; cbn [known] in Hk.
  - apply Hf. left. destruct on; [left|right; left].
  - apply Hf. do 1 right. left. by apply list_elem_of_fmap_2.
  - apply Hf. do 2 right. left. by apply list_elem_of_fmap_2.
  - apply Hf. do 3 right. left. by apply list_elem_of_fmap_2.
  - apply Hf. left. do 2 right. left.
  - apply Hf. do 4 right. left. by apply list_elem_of_fmap_2.
  - apply Hf. left. do 3 right. left.
  - apply Hf. do 5 right. left. by apply list_elem_of_fmap_2.
  - apply toy_parse_attach, Hk.
  - apply Hf. do 6 right. by apply list_elem_of_fmap_2.
  - by apply toy_parse_user; apply Hk.
Qed.

Lemma toy_exec_law db st v v' : known st -> runs db st v v' -> exists w, sql_exec db (text st) v = Some w /\ runs db st v w.
Proof.
  intros Hk Hr. cbn [sql_exec toy_db]. rewrite toy_parse_text, bind_Some by done. destruct Hr as [st v v' Ha|t d rows rows' v Hdb Hfk Hd E1 E2 Hp].
  - exists v'. split; [|by constructor]. destruct st; done.
  - cbn [toy_apply]. unfold toy_copy. rewrite Hd, bind_Some, E2, bind_Some. eexists. split; [reflexivity|]. by apply (runs_copy db t d rows rows).
Qed.

Lemma toy_count_law db name def v : Byte.x22 ∉ name -> Byte.x22 ∉ def ->
  toy_run db (check_text name def) v =
    Columns [c_lit "COUNT(*)"] [[Some (if decide (fst <$> a_tables v !! (db, name) = Some def) then c_lit "1" else c_lit "0")]] StepDone.
Proof.
  intros Hn Hd. unfold toy_run.
  assert (check_text name def = check_prefix ++ name ++ Byte.x22 :: (c_lit " AND sql=" ++ c_quote) ++ def ++ Byte.x22 :: []) as E.
  { unfold check_text, check_prefix, c_quote. by rewrite <- !app_assoc. }
  rewrite decide_False by (intros Ev; by apply (f_equal (take 10)) in Ev).
  rewrite decide_False by (intros Ev; by apply (f_equal (take 10)) in Ev).
  rewrite E, strip_app, cut_app by done. rewrite drop_app_length. by rewrite cut_app.
Qed.

#[local] Program Instance toy_laws : SQLiteLaws absdb := {| view := fun v => v |}.
Next Obligation. intros db st v v'. apply toy_exec_law. Qed.
Next Obligation. intros db name def v Hn Hd. eexists _, v. split; [|done]. cbn [sql_run toy_db]. by rewrite toy_count_law. Qed.
Next Obligation.
  intros db v hs ss E1 E2. cbn [sql_run toy_db]. unfold toy_run. rewrite decide_True by done. rewrite E1, E2. cbn [from_option snd].
  eexists _, _, v. split; [reflexivity|]. split; [done|]. apply length_fmap.
Qed.
Next Obligation.
  intros db v rows E. cbn [sql_run toy_db]. unfold toy_run. rewrite decide_False by done. rewrite decide_True by done. rewrite E.
  eexists _, _, v. split; [reflexivity|]. done.
Qed.
Next Obligation. intros v. by exists v. Qed.
Next Obligation. by intros db path c v w [= <-]. Qed.

(** A disk whose users table is current, whose servers table has an older definition, and a table of someone else. *)
Definition sample_disk : absdb :=
  mkAbs (list_to_map [((ConfigDb, c_lit "users"), (def_of (c_lit "users"), [[Some (c_lit "bob"); Some (c_lit "pw"); Some (c_lit "1")]]));
                      ((ConfigDb, c_lit "servers"), (c_lit "CREATE TABLE servers (hostname)", [[Some (c_lit "old")]]));
                      ((ConfigDb, c_lit "notes"), (c_lit "CREATE TABLE notes (n)", [[Some (c_lit "keep")]]))]) ∅ ∅ [].
Definition sample_paths : db_paths := mkPaths (c_lit "proxysql.db") (c_lit "stats.db") (c_lit "debug.db").

Lemma sample_disk_fresh : fresh sample_disk.
Proof.
  split; [done|done|]. intros db n Hdb. unfold sample_disk. cbn [a_tables]. apply not_elem_of_list_to_map_1. cbn.
  intros Hin. rewrite !elem_of_cons, elem_of_nil in Hin. destruct Hdb as [->| ->]; naive_solver.
Qed.

Lemma tables_built_witness : exists r v, admin_init_sqlite3 sample_paths sample_disk = Some r /\
  a_tables v !! (ConfigDb, c_lit "users") = Some (def_of (c_lit "users"), [[Some (c_lit "bob"); Some (c_lit "pw"); Some (c_lit "1")]]) /\
  a_tables v !! (ConfigDb, c_lit "servers") = Some (def_of (c_lit "servers"), []) /\ same_table "users" v.
Proof.
  destruct (tables_built sample_paths sample_disk) as (r & v & E & H).
  - intros db path c s. by eexists.
  - split; [apply (bool_decide_eq_true_1 _); by vm_compute|split; apply (bool_decide_eq_true_1 _); by vm_compute].
  - exact sample_disk_fresh.
  - exists r, v. split; [exact E|].
    destruct (standard_def "users") as (td & T & N & D); [by vm_compute|]. destruct (standard_def "servers") as (td' & T' & N' & D'); [by vm_compute|].
    split; [|split].
    + pose proof (init_disk _ _ _ H td T) as X. rewrite N, D in X. etransitivity; [apply X; apply (bool_decide_eq_true_1 _)|]; by vm_compute.
    + pose proof (init_disk _ _ _ H td' T') as X. rewrite N', D' in X. etransitivity; [apply X; apply (bool_decide_eq_true_1 _)|]; by vm_compute.
    + apply (init_copied _ _ _ H). do 3 right. left.
Defined.

Lemma startup_users_merged_witness :
  let u := mkUsersMem [c_lit "bob"; c_lit "new"] [Some (c_lit "filepw"); Some (c_lit "x")] {[ c_lit "bob" := Some (c_lit "filepw"); c_lit "new" := Some (c_lit "x") ]} in
  let v := mkAbs {[ in_main "users" := (def_of (c_lit "users"), [user_row (c_lit "bob", Some (c_lit "pw"), c_lit "1"); user_row (c_lit "joe", None, c_lit "0")]) ]} ∅ ∅ [] in
  exists u' v', merge_users 1 u v = Some (u', v') /\ users_hash u' !! c_lit "bob" = Some (Some (c_lit "pw")) /\ users_hash u' !! c_lit "new" = Some (Some (c_lit "x")).
Proof.
  intros u v.
  destruct (startup_users_merged u [(c_lit "bob", c_lit "filepw"); (c_lit "new", c_lit "x")]
    [(c_lit "bob", Some (c_lit "pw"), c_lit "1"); (c_lit "joe", None, c_lit "0")] v) as (u' & v' & us' & E & _ & H & _).
  - intros k [p Hk]. unfold u in *. cbn [users_hash users_name] in *. apply lookup_insert_Some in Hk as [[<- _]|[_ Hk]]; [left|].
    apply lookup_singleton_Some in Hk as [<- _]. right. left.
  - split; [done|done|apply (bool_decide_eq_true_1 _); by vm_compute|].
    intros f [->|[->|Hf%not_elem_of_nil]%elem_of_cons]%elem_of_cons; [| |done]; repeat split; apply (bool_decide_eq_true_1 _); by vm_compute.
  - apply lookup_singleton_eq.
  - apply (bool_decide_eq_true_1 _). by vm_compute.
  - repeat apply Forall_cons_2; [| |apply Forall_nil_2]; (split; [apply (bool_decide_eq_true_1 _); by vm_compute|]).
    + intros p [= <-]. apply (bool_decide_eq_true_1 _). by vm_compute.
    + intros p Hp. discriminate Hp.
  - exists u', v'. split; [exact E|]. split; apply H.
    + left. left.
    + right. split; [apply (bool_decide_eq_true_1 _); by vm_compute|]. exists (c_lit "x"). split; [done|]. right. left.
Defined.
