(* ===== verification/Debug.v ===== *)
(** * Debugging messages: src/debug.c

    A build with DEBUG gives each message of the threads to [proxy_debug_func].  In the foreground it is printed; otherwise it is put into a queue that
    [debug_logger] writes to the table debug_log.  Many threads run the first function and one the second, so the two are a state machine: a step of
    a thread is one of the atomic pieces of [proxy_debug_func] ([debug_step]), a step of the logger one of its loop ([logger_step]).

    The blocks of the pool [glo_debug->sfp] are counted, and the messages that were put into the queue are remembered in order, to state that none is lost or
    written twice.  [None] is an access outside of an array or a failed assertion. *)
From S2P Require Import Prelude Tokenizer GlobalVars.
Open Scope Z_scope.

(** ** One message *)

Definition DEBUG_MSG_MAXSIZE : nat := 256.
(** [vsnprintf] into a block of [n] bytes: the text is cut to fit with its NUL. *)
Definition vsnprintf (n : nat) (s : list byte) : list byte := take (n - 1) s.

(** [if (gdbg_lvl[module].verbosity < verbosity) return;] *)
Definition wanted (gdbg_lvl : list debug_level) (module : nat) (verb : Z) : option bool :=
  l ← gdbg_lvl !! module; Some (negb (verbosity l <? verb)).

Record dbg_msg_t := mkMsg {
  dm_module : nat; dm_sec : Z; dm_usec : Z; dm_thr : Z; dm_file : list byte; dm_line : Z; dm_func : list byte; dm_verb : Z; dm_msg : list byte }.

(** The line in the foreground. *)
Definition debug_line (thr : Z) (file : list byte) (line : Z) (func : list byte) (verb : Z) (s : list byte) : list byte :=
  c_dec thr ++ c_lit ":" ++ file ++ c_lit ":" ++ c_dec line ++ c_lit ":" ++ func ++ c_lit "(): LVL#" ++ c_dec verb ++ c_lit " : " ++ vsnprintf DEBUG_MSG_MAXSIZE s.

(** The row of debug_log: the time in microseconds as a 64-bit integer. *)
Definition flush_debugs (text : Z -> option string) (gdbg_lvl : list debug_level) (m : dbg_msg_t)
  : option (Z * Z * string * list byte * Z * list byte * Z * list byte) :=
  let montime := u64 (u64 (dm_sec m) * 1000000 + dm_usec m) in
  l ← gdbg_lvl !! dm_module m;
  name ← text (name l);
  Some (i64 montime, dm_thr m, name, dm_file m, dm_line m, dm_func m, dm_verb m, dm_msg m).

(** ** The threads *)

(** Where a thread is in [proxy_debug_func], behind the tests of the level and of the foreground. *)
Inductive producer :=
  | Idle
  | Waiting (m : dbg_msg_t)    (* the message is allocated; while (msg_count > 9000) usleep(10000) *)
  | Passed (m : dbg_msg_t)     (* out of the loop *)
  | Counted (m : dbg_msg_t).   (* msg_count is incremented and the block of the text allocated *)

Inductive logger :=
  | Popping                     (* while (glovars.shutdown==0) g_async_queue_timeout_pop *)
  | Logging (m : dbg_msg_t)
  | Freeing (m : dbg_msg_t)
  | Returned.

Record dbg_state := mkDbg {
  g_threads : list producer; g_logger : logger; g_queue : list dbg_msg_t; g_count : Z; g_shutdown : bool;
  g_blocks : Z; g_texts : Z;                             (* blocks of sizeof(dbg_msg_t) and of DEBUG_MSG_MAXSIZE bytes in use *)
  g_lt : Z; g_open : list dbg_msg_t; g_committed : list dbg_msg_t;  (* rows of the open transaction and of the committed ones *)
  g_pushed : list dbg_msg_t }.
#[export] Instance dbg_state_eta : Eta dbg_state := fun s =>
  mkDbg (g_threads s) (g_logger s) (g_queue s) (g_count s) (g_shutdown s) (g_blocks s) (g_texts s) (g_lt s) (g_open s) (g_committed s) (g_pushed s).

Definition MSG_LIMIT : Z := 9000.

(** The next piece of thread [i]; a thread that is idle starts with the message [m]. *)
Definition debug_step (i : nat) (m : dbg_msg_t) (s : dbg_state) : option dbg_state :=
  p ← g_threads s !! i;
  match p with
  | Idle => Some (s <| g_threads := <[i := Waiting m]> (g_threads s) |> <| g_blocks := g_blocks s + 1 |>)
  | Waiting m =>
      if MSG_LIMIT <? g_count s then Some s
      else Some (s <| g_threads := <[i := Passed m]> (g_threads s) |>)
  | Passed m =>
      Some (s <| g_threads := <[i := Counted (mkMsg (dm_module m) (dm_sec m) (dm_usec m) (dm_thr m) (dm_file m) (dm_line m) (dm_func m) (dm_verb m)
                                                 (vsnprintf DEBUG_MSG_MAXSIZE (dm_msg m)))]> (g_threads s) |>
              <| g_count := g_count s + 1 |> <| g_texts := g_texts s + 1 |>)
  | Counted m =>
      Some (s <| g_threads := <[i := Idle]> (g_threads s) |> <| g_queue := g_queue s ++ [m] |> <| g_pushed := g_pushed s ++ [m] |>)
  end.

(** [__sqlite3_debugdb__flush_debugs], and every five seconds COMMIT and BEGIN. *)
Definition log_message (m : dbg_msg_t) (s : dbg_state) : dbg_state :=
  let s := s <| g_open := g_open s ++ [m] |> in
  if g_lt s + 4 <? dm_sec m then s <| g_lt := dm_sec m |> <| g_committed := g_committed s ++ g_open s |> <| g_open := [] |> else s.

Definition logger_step (s : dbg_state) : option dbg_state :=
  match g_logger s with
  | Popping =>
      if g_shutdown s then Some (s <| g_logger := Returned |>)
      else match g_queue s with
           | [] => Some s
           | m :: q => Some (s <| g_logger := Logging m |> <| g_queue := q |>)
           end
  | Logging m => Some ((log_message m s) <| g_logger := Freeing m |>)
  | Freeing m =>
      Some (s <| g_logger := Popping |> <| g_count := g_count s - 1 |> <| g_texts := g_texts s - 1 |> <| g_blocks := g_blocks s - 1 |>)
  | Returned => None
  end.

Inductive step : dbg_state -> dbg_state -> Prop :=
  | step_thread i m s s' : debug_step i m s = Some s' -> step s s'
  | step_logger s s' : logger_step s = Some s' -> step s s'
  | step_shutdown s : step s (s <| g_shutdown := true |>).

(** The start of [main]: [n] threads, nothing counted. *)
Definition dbg_start (n : nat) : dbg_state := mkDbg (replicate n Idle) Popping [] 0 false 0 0 0 [] [] [].

Definition reachable_dbg (n : nat) (s : dbg_state) : Prop := star step (dbg_start n) s.

(** * Properties *)

Definition tally (f : producer -> Z) (ps : list producer) : Z := foldr (fun p n => f p + n) 0 ps.
Definition is_passed (p : producer) : Z := match p with Passed _ => 1 | _ => 0 end.
Definition is_counted (p : producer) : Z := match p with Counted _ => 1 | _ => 0 end.
Definition has_block (p : producer) : Z := match p with Idle => 0 | _ => 1 end.
Definition held (l : logger) : Z := match l with Logging _ | Freeing _ => 1 | _ => 0 end.
Definition unlogged (l : logger) : list dbg_msg_t := match l with Logging m => [m] | _ => [] end.

Lemma tally_insert f ps i p q : ps !! i = Some p -> tally f (<[i := q]> ps) = tally f ps - f p + f q.
Proof.
  revert i. induction ps as [|r ps IH]; intros [|i] Hi; [done|done| |].
  - injection Hi as ->. cbn. lia.
  - change (tally f (<[S i := q]> (r :: ps))) with (f r + tally f (<[i := q]> ps)). change (tally f (r :: ps)) with (f r + tally f ps).
    rewrite (IH i Hi). lia.
Qed.

Lemma total_le f ps : (forall p, f p <= 1) -> tally f ps <= Z.of_nat (length ps).
Proof. intros Hf. induction ps as [|p ps IH]; [done|]. cbn [tally foldr length]. fold (tally f ps). specialize (Hf p). lia. Qed.

Lemma total_nonneg f ps : (forall p, 0 <= f p) -> 0 <= tally f ps.
Proof. intros Hf. induction ps as [|p ps IH]; [done|]. cbn [tally foldr]. fold (tally f ps). specialize (Hf p). lia. Qed.

Lemma total_replicate f n : f Idle = 0 -> tally f (replicate n Idle) = 0.
Proof. intros Hf. induction n as [|n IH]; [done|]. cbn. fold (tally f (replicate n Idle)). lia. Qed.

Record dbg_inv (n : nat) (s : dbg_state) : Prop := {
  di_threads : length (g_threads s) = n;
  di_count : g_count s = Z.of_nat (length (g_queue s)) + tally is_counted (g_threads s) + held (g_logger s);
  di_texts : g_texts s = g_count s;
  di_blocks : g_blocks s = tally has_block (g_threads s) + Z.of_nat (length (g_queue s)) + held (g_logger s);
  di_bound : g_count s + tally is_passed (g_threads s) <= MSG_LIMIT + Z.of_nat n;
  di_fifo : g_committed s ++ g_open s ++ unlogged (g_logger s) ++ g_queue s = g_pushed s
}.

Lemma dbg_inv_start n : dbg_inv n (dbg_start n).
Proof.
  split; cbn [dbg_start g_threads g_logger g_queue g_count g_texts g_blocks g_open g_committed g_pushed held unlogged length];
    rewrite ?length_replicate, ?total_replicate by done; try done; unfold MSG_LIMIT; lia.
Qed.

Lemma dbg_inv_thread n i m s s' : dbg_inv n s -> debug_step i m s = Some s' -> dbg_inv n s'.
Proof.
  intros [H1 H2 H3 H4 H5 H6] Hs. unfold debug_step in Hs. px_run Hs. rename x into p, E into Hp.
  assert (forall f q, tally f (<[i := q]> (g_threads s)) = tally f (g_threads s) - f p + f q) as Ht by (intros f q; by apply tally_insert).
  destruct p as [|m'|m'|m']; [injection Hs as <-|destruct (Z.ltb_spec MSG_LIMIT (g_count s)); injection Hs as <-; [done|]|injection Hs as <-|injection Hs as <-];
    split; cbn -[tally MSG_LIMIT]; rewrite ?Ht, ?length_insert, ?length_app; cbn -[tally MSG_LIMIT]; try done; try lia.
  - pose proof (total_le is_passed (<[i := Passed m']> (g_threads s))) as Hle. rewrite Ht, length_insert in Hle. cbn -[tally MSG_LIMIT] in Hle.
    rewrite H1 in Hle. assert (forall p, is_passed p <= 1) as Hp1 by (intros []; cbn; lia). specialize (Hle Hp1). lia.
  - by rewrite <- H6, <- !app_assoc.
Qed.

Lemma dbg_inv_logger n s s' : dbg_inv n s -> logger_step s = Some s' -> dbg_inv n s'.
Proof.
  intros [H1 H2 H3 H4 H5 H6] Hs. unfold logger_step in Hs. destruct (g_logger s) as [|m|m|] eqn:El; [| | |done].
  - destruct (g_shutdown s); [injection Hs as <-; split; cbn -[tally MSG_LIMIT] in *; done|].
    destruct (g_queue s) as [|m q] eqn:Eq; injection Hs as <-.
    + split; [done|rewrite Eq, El; done|done|rewrite Eq, El; done|done|rewrite Eq, El; done].
    + split; cbn -[tally MSG_LIMIT] in *; try done; lia.
  - injection Hs as <-. unfold log_message. cbn in H6.
    destruct (_ <? _); split; cbn -[tally MSG_LIMIT] in *; try done; try lia; rewrite <- H6, ?app_nil_r, <- ?app_assoc; done.
  - injection Hs as <-. split; cbn -[tally MSG_LIMIT] in *; try done; lia.
Qed.

Lemma dbg_inv_step n s s' : dbg_inv n s -> step s s' -> dbg_inv n s'.
Proof.
  intros Hi Hst. inversion Hst as [i m ? ? Hs|? ? Hs|]; subst; [exact (dbg_inv_thread n i m s s' Hi Hs)|exact (dbg_inv_logger n s s' Hi Hs)|].
  destruct Hi. by split.
Qed.

Lemma dbg_reachable n s : reachable_dbg n s -> dbg_inv n s.
Proof. intros Hr. exact (star_invariant step (dbg_inv n) (fun s s' => dbg_inv_step n s s') _ _ Hr (dbg_inv_start n)). Qed.

(** A schedule, and the state it leads to. *)
Inductive move := Thread (i : nat) (m : dbg_msg_t) | Logger | Stop.

Definition make_move (a : move) (s : dbg_state) : option dbg_state :=
  match a with Thread i m => debug_step i m s | Logger => logger_step s | Stop => Some (s <| g_shutdown := true |>) end.

Definition schedule (l : list move) (s : dbg_state) : option dbg_state := foldl (fun o a => o ≫= make_move a) (Some s) l.

Lemma make_move_step a s s' : make_move a s = Some s' -> step s s'.
Proof. destruct a as [i m| |]; cbn [make_move]; [apply step_thread|apply step_logger|]. intros [= <-]. apply step_shutdown. Qed.

Lemma schedule_None l : foldl (fun o a => o ≫= make_move a) None l = None.
Proof. by induction l. Qed.

Lemma schedule_star l : forall s s', schedule l s = Some s' -> star step s s'.
Proof.
  induction l as [|a l IH]; intros s s' E; [injection E as <-; apply star_nil|]. unfold schedule in E. cbn [foldl] in E. rewrite bind_Some in E.
  destruct (make_move a s) as [s1|] eqn:E1; [|by rewrite schedule_None in E]. eapply star_cons; [by apply (make_move_step a)|by apply IH].
Qed.

Lemma schedule_app l k s : schedule (l ++ k) s = schedule l s ≫= schedule k.
Proof. unfold schedule. rewrite foldl_app. destruct (foldl _ (Some s) l) as [s1|]; [done|]. apply schedule_None. Qed.

(** C27: the queue of debugging messages is bounded, and while the logger runs nothing is lost, in every interleaving of [n] threads and the logger: [msg_count] is exactly the number of messages in
    the queue, with the logger, or counted by a thread that has not queued its message yet, and the number of texts allocated; it is never more than 9000 plus one for each thread although the
    test and the increment are not atomic; the message blocks in use are exactly those of the threads, the queue and the logger; and the rows committed, the rows of the open transaction, the message the logger holds and
    the queue are, in this order, exactly the messages that were queued.  What the logger has not committed when it returns at the shutdown (the open transaction and the queue) is not written any more. *)
Theorem debug_queue_bounded n s : reachable_dbg n s ->
  0 <= g_count s <= MSG_LIMIT + Z.of_nat n /\
  g_count s = Z.of_nat (length (g_queue s)) + tally is_counted (g_threads s) + held (g_logger s) /\ g_texts s = g_count s /\
  g_blocks s = tally has_block (g_threads s) + Z.of_nat (length (g_queue s)) + held (g_logger s) /\
  g_committed s ++ g_open s ++ unlogged (g_logger s) ++ g_queue s = g_pushed s.
Proof.
  intros [H1 H2 H3 H4 H5 H6]%dbg_reachable.
  assert (0 <= tally is_counted (g_threads s)) by (apply total_nonneg; intros []; cbn; lia).
  assert (0 <= tally is_passed (g_threads s)) by (apply total_nonneg; intros []; cbn; lia).
  assert (0 <= held (g_logger s)) by (destruct (g_logger s); cbn; lia).
  split; [lia|]. done.
Qed.

Lemma debug_queue_bounded_witness :
  let m := mkMsg 1 100 5 7 (c_lit "main.c") 12 (c_lit "main") 4 (c_lit "hello") in
  exists s, reachable_dbg 2 s /\ g_committed s = [m] /\ 0 <= g_count s <= 9002.
Proof.
  intros m.
  destruct (schedule (replicate 4 (Thread 0 m) ++ replicate 3 Logger) (dbg_start 2)) as [s|] eqn:E; [|exfalso; revert E; by vm_compute].
  assert (reachable_dbg 2 s) as Hr by exact (schedule_star _ _ _ E). exists s. split; [exact Hr|]. split.
  - revert E. vm_compute. by intros [= <-].
  - exact (proj1 (debug_queue_bounded 2 s Hr)).
Defined.

(** ** The end *)

(** A thread that waits when the logger has returned and the counter is above the limit. *)
Definition stuck (i : nat) (s : dbg_state) : Prop := g_logger s = Returned /\ MSG_LIMIT < g_count s /\ exists m, g_threads s !! i = Some (Waiting m).

Lemma stuck_step i s s' : stuck i s -> step s s' -> stuck i s'.
Proof.
  intros (Hl & Hc & m & Hm) Hst. inversion Hst as [j m' ? ? Hs|? ? Hs|]; subst.
  - unfold debug_step in Hs. px_run Hs. rename x into p, E into Hp.
    destruct (decide (i = j)) as [<-|Hne].
    + rewrite Hm in Hp. injection Hp as <-. rewrite (proj2 (Z.ltb_lt _ _) Hc) in Hs. injection Hs as <-. by repeat split; eauto.
    + destruct p as [|m1|m1|m1].
      4: { injection Hs as <-. split; [done|]. split; [done|]. exists m. cbn -[lookup insert]. by rewrite list_lookup_insert_ne. }
      * injection Hs as <-. split; [done|]. split; [done|]. exists m. cbn -[lookup insert]. by rewrite list_lookup_insert_ne.
      * rewrite (proj2 (Z.ltb_lt _ _) Hc) in Hs. injection Hs as <-. by repeat split; eauto.
      * injection Hs as <-. split; [done|]. cbn -[lookup insert MSG_LIMIT]. split; [lia|]. exists m. by rewrite list_lookup_insert_ne.
  - unfold logger_step in Hs. by rewrite Hl in Hs.
  - split; [done|]. split; [done|]. by exists m.
Qed.

Lemma send_one (m : dbg_msg_t) s : g_threads s !! 0%nat = Some Idle -> g_logger s = Popping -> g_count s <= MSG_LIMIT ->
  exists s', star step s s' /\ g_threads s' !! 0%nat = Some Idle /\ g_logger s' = Popping /\ g_count s' = g_count s + 1.
Proof.
  intros Ht Hl Hc. destruct s as [ps lg q c sd bl tx lt op co pu]. cbn [g_threads g_logger g_count] in *. destruct ps as [|p ps]; [done|]. injection Ht as ->. subst lg.
  eexists. split.
  - eapply star_cons; [apply (step_thread 0 m); reflexivity|]. eapply star_cons.
    { apply (step_thread 0 m). unfold debug_step. cbn -[MSG_LIMIT]. rewrite (proj2 (Z.ltb_ge _ _)) by lia. reflexivity. }
    eapply star_cons; [apply (step_thread 0 m); reflexivity|]. eapply star_cons; [apply (step_thread 0 m); reflexivity|]. apply star_nil.
  - done.
Qed.

Lemma star_trans {S} (R : S -> S -> Prop) a b c : star R a b -> star R b c -> star R a c.
Proof. induction 1; eauto with px. Qed.

Lemma send_many (m : dbg_msg_t) k : forall s, g_threads s !! 0%nat = Some Idle -> g_logger s = Popping -> g_count s + Z.of_nat k <= MSG_LIMIT + 1 ->
  exists s', star step s s' /\ g_threads s' !! 0%nat = Some Idle /\ g_logger s' = Popping /\ g_count s' = g_count s + Z.of_nat k.
Proof.
  induction k as [|k IH]; intros s Ht Hl Hc; [exists s; split; [apply star_nil|]; split; [done|]; split; [done|]; lia|].
  destruct (send_one m s Ht Hl) as (s1 & R1 & T1 & L1 & C1); [lia|]. destruct (IH s1 T1 L1) as (s2 & R2 & T2 & L2 & C2); [lia|].
  exists s2. split; [by apply (star_trans step s s1)|]. split; [done|]. split; [done|]. lia.
Qed.

(** What happens at a shutdown when messages come faster than they are written: the logger returns as soon as it sees the flag, and a thread that is waiting for the
    counter to fall waits for ever, whatever the others do, so that the process, which joins its threads, does not end. *)
Theorem debug_shutdown_hangs n : exists s, reachable_dbg (S n) s /\ g_shutdown s = true /\ stuck 0 s /\
  forall s', star step s s' -> exists m, g_threads s' !! 0%nat = Some (Waiting m).
Proof.
  set (m := mkMsg 0 0 0 0 [] 0 [] 0 []).
  destruct (send_many m (Z.to_nat (MSG_LIMIT + 1)) (dbg_start (S n))) as (s1 & R1 & T1 & L1 & C1); [done|done|by rewrite Z2Nat.id|].
  rewrite Z2Nat.id in C1 by done. cbn [dbg_start g_count] in C1.
  destruct s1 as [ps lg q c sd bl tx lt op co pu]. cbn [g_threads g_logger g_count] in *. destruct ps as [|p ps]; [done|]. injection T1 as ->. subst lg.
  set (s2 := mkDbg (Waiting m :: ps) Returned q c true (bl + 1) tx lt op co pu).
  assert (stuck 0 s2) as Hk by (split; [done|]; split; [cbn -[MSG_LIMIT]; lia|by exists m]).
  exists s2. split; [|split; [done|split; [exact Hk|]]].
  - eapply star_trans; [exact R1|]. apply (schedule_star [Thread 0 m; Stop; Logger]). reflexivity.
  - intros s' Hs. by destruct (star_invariant step (stuck 0) (fun a b => stuck_step 0 a b) s2 s' Hs Hk) as (_ & _ & ?).
Qed.
