(* ===== verification/Startup.v ===== *)
(** * The life of the process: src/main.c, src/threads.c and [main_opts] of src/global_variables.c

    [main] reads the options and the configuration file, becomes a daemon, keeps a second process under the eyes of an angel that restarts it, prepares
    the databases (Schema.v), merges the configuration of the file with that of the tables (Config.v), opens the sockets (Network.v), starts the threads and waits
    for them.  What the system answers ([fork], [waitpid], libdaemon, the clock, the files) is an argument; what the process does to the outside is
    the list of its actions in order.  [Exit] is [exit(EXIT_FAILURE)], [Crash] a failed assertion (the type [ending] of GlobalVars.v). *)
From S2P Require Import Prelude PtrArray Protocol QueryCache Tokenizer GlobalVars Routing Config SqliteExec Admin Schema.
Open Scope Z_scope.

(** ** The configuration file *)

Module Options.

(** What the system says about a path. *)
Record file_info := mkFile { f_exists : bool; f_regular : bool; f_readable : bool }.

Section Opts.
Context (fs : list byte -> file_info).

(** [g_file_test(f, G_FILE_TEST_EXISTS|G_FILE_TEST_IS_REGULAR)]: one of the two tests holds. *)
Definition g_file_test (f : list byte) : bool := f_exists (fs f) || f_regular (fs f).

Definition config_file_is_readable (f : list byte) : bool := g_file_test f && f_readable (fs f).

Definition default_file : list byte := c_lit "proxysql.cnf".
Definition etc_file : list byte := c_lit "/etc/proxysql.cnf".

Definition choose_file (config_file : option (list byte)) : list byte :=
  match config_file with
  | Some f => f
  | None => if g_file_test default_file then default_file else etc_file
  end.

(** The options: [None] when they cannot be parsed.  [load] reads a key file, [init] is [init_global_variables] with the levels of [init_debug_struct]. *)
Record options := mkOptions { o_admin_port : Z; o_mysql_port : Z; o_foreground : bool; o_debug : Z; o_config : option (list byte) }.

Definition main_opts (parsed : option options) (lit : string -> Z) (load : list byte -> option GKeyFile)
    (init : GKeyFile -> list debug_level -> ending process) : ending (options * list byte * process) :=
  match parsed with
  | None => Exit
  | Some o =>
      ls ← init_debug_struct lit (o_debug o);
      let f := choose_file (o_config o) in
      if config_file_is_readable f then
        match load f with
        | None => Exit
        | Some gkf => p ← init gkf ls; Done (o, f, p)
        end
      else Exit
  end.

End Opts.

(** [if (proxy_admin_port) { glovars.proxy_admin_port=proxy_admin_port; }] and the comparison. *)
Definition resolve_ports (o : options) (admin mysql : Z) : ending (Z * Z) :=
  let admin := if o_admin_port o =? 0 then admin else o_admin_port o in
  let mysql := if o_mysql_port o =? 0 then mysql else o_mysql_port o in
  if admin =? mysql then Exit else Done (admin, mysql).

(** What [listen_on_port] is given: [(uint16_t)glovars.proxy_mysql_port]. *)
Definition listen_ports (ports : Z * Z) : Z * Z := (u16 ports.1, u16 ports.2).

End Options.

(** ** Becoming a daemon *)

Module Daemon.

(** The answers of libdaemon and of the system. *)
Record daemon_answers := mkAnswers {
  a_chdir : bool; a_running : Z; a_retval_init : Z; a_fork : Z; a_retval_wait : Z;
  a_close_all : Z; a_chdir_child : bool; a_pid_file : Z; a_outfd : Z; a_errfd : Z }.

(** The end of this part of [main]: return a code, go to the label finish, go on, or a failed assertion. *)
Inductive outcome := Return (code : Z) | Finish | Continue | Aborted.

Inductive action := RetvalSend (code : Z) | RetvalDone | OpenLog (fd : Z) | CloseFd (fd : Z).

Definition daemon_child (a : daemon_answers) : outcome * list action :=
  if a_close_all a <? 0 then (Finish, [RetvalSend 1])
  else if negb (a_chdir_child a) then (Return 1, [])
  else if a_pid_file a <? 0 then (Finish, [RetvalSend 2])
  else if a_outfd a <=? 0 then (Aborted, [RetvalSend 0])
  else if a_errfd a <=? 0 then (Aborted, [RetvalSend 0; OpenLog (a_outfd a); CloseFd (a_outfd a)])
  else (Continue, [RetvalSend 0; OpenLog (a_outfd a); CloseFd (a_outfd a); OpenLog (a_errfd a); CloseFd (a_errfd a)]).

Definition daemonize (foreground : bool) (a : daemon_answers) : outcome * list action :=
  if foreground then (Continue, [])
  else if negb (a_chdir a) then (Return 1, [])
  else if 0 <=? a_running a then (Return 1, [])
  else if a_retval_init a <? 0 then (Return 1, [])
  else if a_fork a <? 0 then (Return 1, [RetvalDone])
  else if negb (a_fork a =? 0) then (Return (if a_retval_wait a <? 0 then 1 else a_retval_wait a), [])
  else daemon_child a.

(** The value of the pipe that the parent waits for: the first one that is sent, and -1 when none is within the 20 seconds. *)
Definition first_sent (l : list action) : Z :=
  default (-1) (head (omap (fun x => match x with RetvalSend c => Some c | _ => None end) l)).

End Daemon.

(** ** The angel *)

Module Angel.

(** What becomes of one process: [fork] fails, [waitpid] fails, it exits with a code, a signal ends it. *)
Inductive child := ForkFailed | WaitFailed | Exited (code : Z) | Signaled.

Inductive act := SleepFor (seconds : Z) | StartChild | StopHttpd.

(** [Some code]: the angel returns; [None]: it waits for the process it started last. *)
Fixpoint angel (http_start : bool) (delay laststart : Z) (l : list (Z * child)) : list act * option Z :=
  let wait := if laststart =? 0 then [] else [SleepFor delay] in
  match l with
  | [] => (wait ++ [StartChild], None)
  | (now, c) :: l =>
      match c with
      | ForkFailed => (wait, Some 1)
      | WaitFailed => (wait ++ [StartChild], Some 1)
      | Exited code =>
          if u8 code =? 0 then (wait ++ [StartChild] ++ (if http_start then [StopHttpd] else []), Some 0)
          else let '(acts, r) := angel http_start delay now l in (wait ++ [StartChild] ++ acts, r)
      | Signaled => let '(acts, r) := angel http_start delay now l in (wait ++ [StartChild] ++ acts, r)
      end
  end.

(** Between the two: no angel when [proxy_restart_on_error] is off. *)
Definition supervise (restart_on_error http_start : bool) (delay : Z) (l : list (Z * child)) : option (list act * option Z) :=
  if restart_on_error then Some (angel http_start delay 0 l) else None.

(** What a signal does to the process: [signal(SIGSEGV, crash_handler)] and the two others.  Both handlers end in [exit]. *)
Inductive handled := SIGSEGV | SIGABRT | SIGTERM.

Definition crash_handler : child := Exited 1.
Definition term_handler : child := Exited 0.

Definition init_signal_handlers (sig : handled) : child :=
  match sig with SIGSEGV | SIGABRT => crash_handler | SIGTERM => term_handler end.

End Angel.

(** ** The HTTP server *)

Module Httpd.

(** What becomes of a process here: it goes on with [main], returns a code from it, fails an assertion, or is replaced by the program that [execve] starts. *)
Inductive fate := GoesOn | Returns (code : Z) | Aborts | Becomes (execbin : string) (configfile : list byte).

(** The answers in the child: of [system], of [chdir], and whether [execve] succeeds. *)
Record child_answers := mkChild { h_pkill : Z; h_chdir : Z; h_execve : bool }.

(** One process after [fork] has returned [pid] to it. *)
Definition start_httpd (a : child_answers) (configfile : list byte) (pid : Z) : fate :=
  if negb (pid =? 0) then GoesOn
  else if h_pkill a <? 0 then Aborts
  else if negb (h_chdir a =? 0) then Returns 1
  else if h_execve a then Becomes "./proxysqlHTTPd" configfile
  else GoesOn.

(** Every process after this part of [main]: the caller first; [fork] is negative when there is no child. *)
Definition http_start (enabled : bool) (fork : Z) (a : child_answers) (configfile : list byte) : list fate :=
  if enabled then start_httpd a configfile <$> (if fork <? 0 then [fork] else [fork; 0]) else [GoesOn].

End Httpd.

(** ** Threads, their stacks and their pipes *)

Module Threads.

(** [stackspts]: 0 is NULL.  [posix_memalign] answers an address or fails; the failure is the assertion. *)
Record threads := mkThreads { stackspts : list Z; started : list nat }.
#[export] Instance threads_eta : Eta threads := fun t => mkThreads (stackspts t) (started t).

(** [posix_memalign(&sp,...); stackspts[i]=sp; pthread_attr_setstack; pthread_create]: the thread runs on the stack of index [i]. *)
Definition start_thread (i : nat) (sp : option Z) (t : threads) : option threads :=
  sp ← sp;
  if decide (i < length (stackspts t))%nat
  then Some (mkThreads (<[i := sp]> (stackspts t)) (started t ++ [i])) else None.

Fixpoint start_threads (l : list (nat * option Z)) (t : threads) : option threads :=
  match l with [] => Some t | (i, sp) :: l => t ← start_thread i sp t; start_threads l t end.

(** The logger of a DEBUG build, the purge of the query cache, the report of the statistics and the purge of the connection pools. *)
Definition background_indices (debug query_cache : bool) (mysql_threads : nat) : list nat :=
  (if debug then [mysql_threads + 2 + 0]%nat else []) ++ (if query_cache then [mysql_threads + 2 + 1]%nat else []) ++
  [mysql_threads + 2 + 2; mysql_threads + 2 + 3]%nat.

Definition start_background_threads (debug query_cache : bool) (mysql_threads : nat) (sps : list (option Z)) (t : threads) : option threads :=
  start_threads (zip (background_indices debug query_cache mysql_threads) sps) t.

(** [for (i=0; i<mysql_threads+2; i++)]: the clients' threads, the administrator's and the monitor's. *)
Definition start_mysql_threads (mysql_threads : nat) (sps : list (option Z)) (t : threads) : option threads :=
  start_threads (zip (seq 0 (mysql_threads + 2)) sps) t.

Definition start_all (debug query_cache : bool) (mysql_threads : nat) (background mysql : list (option Z)) : option threads :=
  t ← start_background_threads debug query_cache mysql_threads background (mkThreads (replicate (mysql_threads + 2 + 4) 0) []);
  start_mysql_threads mysql_threads mysql t.

(** The end of [main]: what is joined, and what [free] is given. *)
Definition joined (debug query_cache : bool) (mysql_threads : nat) : list nat :=
  seq 0 (mysql_threads + 2) ++ [mysql_threads + 2 + 3]%nat ++ (if query_cache then [mysql_threads + 2 + 1]%nat else []) ++ [mysql_threads + 2 + 2]%nat ++
  (if debug then [mysql_threads + 2 + 0]%nat else []).

Definition free_stacks (mysql_threads : nat) (t : threads) : option (list Z) :=
  l ← mapM (fun i => stackspts t !! i) (seq 0 (mysql_threads + 2 + 4));
  Some (filter (fun sp => sp <> 0) l).

(** [proxyipc]: a pipe for each thread, a queue for each of them and one for the administrator. *)
Record proxyipc_t := mkIpc { fdIn : list Z; fdOut : list Z; ipc_queues : nat }.

Fixpoint make_pipes (n : nat) (pipe : list (option (Z * Z))) (ipc : proxyipc_t) : option proxyipc_t :=
  match n, pipe with
  | O, _ => Some ipc
  | S n, Some (r, w) :: pipe => make_pipes n pipe (mkIpc (fdIn ipc ++ [r]) (fdOut ipc ++ [w]) (ipc_queues ipc))
  | S _, _ => None
  end.

Definition init_proxyipc (mysql_threads : nat) (pipe : list (option (Z * Z))) : option proxyipc_t :=
  ipc ← make_pipes mysql_threads pipe (mkIpc [] [] 0);
  Some (mkIpc (fdIn ipc) (fdOut ipc) (mysql_threads + 1)).

End Threads.

(** ** Loading the configuration *)

(** [sqlite3_flush_servers_mem_to_db]: the three counts, and the rows it inserts. *)
Class StartTables (sq : Type) := {
  server_counts : sq -> Z * Z * Z;
  servers_insert : list (Z * list byte) * list (list byte * Z * Z * Z) * list (Z * list byte * Z) -> sq -> sq
}.

Section Load.
Context {sq : Type} `{SQLite sq} `{SQLiteFiles sq} `{AdminTables sq} `{StartTables sq}.
Context (names_junk : nat -> option (list byte)) (text : Z -> option string) (G : settings).

Definition level_statement (m : string) (v : Z) : list byte :=
  c_lit "INSERT OR IGNORE INTO debug_levels(module,verbosity) VALUES(" ++ c_quote ++ c_lit m ++ c_quote ++ c_lit "," ++ c_dec v ++ c_lit ")".
(** [l=strlen(a)+100]; the format has [%s] and [%d]. *)
Definition level_block : nat := (length (level_statement "" 0) - 1 + 4 + 100)%nat.

(** [sqlite3_flush_debug_levels_mem_to_db(sqlite3admindb,0)]. *)
Definition save_levels (ls : list debug_level) (s : sq) : option sq :=
  s ← sql_exec AdminDb (c_lit "DELETE FROM debug_levels WHERE verbosity=0") s;
  rows ← sqlite3_flush_debug_levels_mem_to_db text ls;
  sts ← mapM (fun r => fits_block level_block (level_statement r.1 r.2)) rows;
  exec_texts AdminDb sts s.

(** [if (glovars.merge_configfile_db==1)]. *)
Definition merge_file (merge_configfile_db : Z) (m : process_memory sq) : option (process_memory sq) :=
  if merge_configfile_db =? 1 then
    sts ← sqlite3_flush_users_mem_to_db 0 1 (m_users m);
    s ← exec_texts AdminDb sts (m_db m);
    s ← save_levels (m_levels m) s;
    Some (m <| m_db := s |>)
  else Some m.

(** The servers of the file go into the tables that are empty, then the tables are loaded. *)
Definition load_servers_twice (m : process_memory sq) : option (process_memory sq) :=
  let '(c1, c2, c3) := server_counts (m_db m) in
  let s := servers_insert (sqlite3_flush_servers_mem_to_db c1 c2 c3 (h_servers (m_servers m))) (m_db m) in
  '(_, freed, h) ← sqlite3_flush_servers_db_to_mem (g_mysql_hostgroups G) (servers_select s) (m_servers m);
  Some (m <| m_servers := h |> <| m_freed := m_freed m ++ freed |> <| m_db := s |>).

Definition main_load (paths : db_paths) (merge_configfile_db : Z) (m : process_memory sq) : option (process_memory sq) :=
  let m := m <| m_defhg := DefHG.glo_DefHG_init |> in
  r ← admin_init_sqlite3 paths (m_db m);
  let m := m <| m_db := d_sq r |> <| m_admin_lastupdate := d_admin_lastupdate r |> <| m_monitor_lastupdate := d_monitor_lastupdate r |> in
  m ← merge_file merge_configfile_db m;
  '(_, _, m) ← run_command names_junk text G [] FlushDebug AdminDb m;
  '(_, _, m) ← run_command names_junk text G [] FlushUsers AdminDb m;
  '(_, _, m) ← run_command names_junk text G [] FlushQueryRules AdminDb m;
  '(_, _, m) ← run_command names_junk text G [] FlushDefaultHostgroups AdminDb m;
  load_servers_twice m.

End Load.

(** * Properties *)

(** ** The daemon *)

(** What the parent of the daemon reports.  It returns 0 exactly when the daemon closed its descriptors, changed to its directory and wrote its PID file;
    each earlier failure gives another code.  The message is sent before the log is opened, so that a daemon whose log cannot be opened is reported as
    started and then aborts. *)
Theorem daemon_reports_start (a b : Daemon.daemon_answers) out acts :
  Daemon.a_chdir b = true -> Daemon.a_running b < 0 -> 0 <= Daemon.a_retval_init b -> 0 < Daemon.a_fork b ->
  Daemon.daemon_child a = (out, acts) -> Daemon.a_retval_wait b = Daemon.first_sent acts ->
  exists code, Daemon.daemonize false b = (Daemon.Return code, []) /\
    (code = 0 <-> 0 <= Daemon.a_close_all a /\ Daemon.a_chdir_child a = true /\ 0 <= Daemon.a_pid_file a) /\
    (code = 0 <-> out = Daemon.Continue \/ out = Daemon.Aborted) /\
    (out = Daemon.Aborted <-> code = 0 /\ (Daemon.a_outfd a <= 0 \/ Daemon.a_errfd a <= 0)).
Proof.
  intros H1 H2 H3 H4 Hc Hw. unfold Daemon.daemonize. rewrite H1. cbn [negb].
  rewrite (proj2 (Z.leb_gt _ _)), (proj2 (Z.ltb_ge _ _)), (proj2 (Z.ltb_ge _ _)), (proj2 (Z.eqb_neq _ _)) by lia. cbn [negb].
  eexists. split; [reflexivity|]. rewrite Hw. revert Hc. unfold Daemon.daemon_child. clear.
  repeat match goal with
  | |- context [?x <? ?y] => destruct (Z.ltb_spec x y)
  | |- context [?x <=? ?y] => destruct (Z.leb_spec x y)
  | |- context [negb ?b] => destruct b eqn:?; cbn [negb]
  end; intros [= <- <-]; cbn; intuition (try congruence; try lia).
  all: match goal with H : Daemon.first_sent _ < 0 |- _ => by vm_compute in H end.
Qed.

Lemma daemon_reports_start_witness :
  let child := Daemon.mkAnswers true 0 0 0 0 0 true 0 0 3 in
  let parent := Daemon.mkAnswers true (-1) 0 77 0 0 true 0 3 3 in
  Daemon.daemon_child child = (Daemon.Aborted, [Daemon.RetvalSend 0]) /\ Daemon.daemonize false parent = (Daemon.Return 0, []).
Proof.
  intros child parent. split; [reflexivity|].
  destruct (daemon_reports_start child parent Daemon.Aborted [Daemon.RetvalSend 0]) as (code & E & _ & H & _); [reflexivity|cbn; lia|cbn; lia|cbn; lia|reflexivity|reflexivity|].
  rewrite E. f_equal. f_equal. apply H. by right.
Defined.

(** ** The angel *)

Module AngelFacts.
Import Angel.

Definition child_failed (x : Z * child) : bool := match x.2 with Exited c => negb (u8 c =? 0) | Signaled => true | _ => false end.

Definition waits (delay laststart : Z) : list act := if laststart =? 0 then [] else [SleepFor delay].

Definition rounds (delay : Z) (n : nat) : list act := mjoin (replicate n [SleepFor delay; StartChild]).

Lemma rounds_S delay n : rounds delay (S n) = rounds delay n ++ [SleepFor delay; StartChild].
Proof. unfold rounds. rewrite replicate_S_end, mjoin_app, mjoin_cons, mjoin_nil. by rewrite app_nil_r. Qed.

Lemma angel_failed h delay x l : child_failed x = true -> x.1 <> 0 -> forall laststart,
  angel h delay laststart (x :: l) = (waits delay laststart ++ [StartChild] ++ (angel h delay x.1 l).1, (angel h delay x.1 l).2).
Proof.
  destruct x as [t c]. cbn [fst child_failed snd angel]. intros Hf Ht laststart. unfold waits. destruct c as [| |code|]; try done.
  - cbn in Hf. destruct (u8 code =? 0); [done|]. by destruct (angel h delay t l).
  - by destruct (angel h delay t l).
Qed.

Lemma angel_fails h delay fs : Forall (fun x => child_failed x = true /\ x.1 <> 0) fs -> forall laststart tl,
  angel h delay laststart (fs ++ tl) =
    match fs with
    | [] => angel h delay laststart tl
    | _ => (waits delay laststart ++ [StartChild] ++ rounds delay (pred (length fs)) ++ (angel h delay 1 tl).1, (angel h delay 1 tl).2)
    end.
Proof.
  induction 1 as [|x fs [Hf Ht] Hfs IH]; intros laststart tl; [done|]. cbn [app]. rewrite angel_failed by done. rewrite IH.
  destruct fs as [|y fs].
  - cbn [length pred app]. unfold rounds. cbn [replicate mjoin]. assert (angel h delay x.1 tl = angel h delay 1 tl) as ->; [|done].
    assert (forall a b, a <> 0 -> b <> 0 -> angel h delay a tl = angel h delay b tl) as He; [|by apply He].
    intros a b Ha Hb. destruct tl as [|[t c] tl]; cbn [angel]; by rewrite !(proj2 (Z.eqb_neq _ _)).
  - cbn [fst snd length pred]. unfold waits at 2. rewrite (proj2 (Z.eqb_neq _ _) Ht). done.
Qed.

Lemma angel_zero h delay l : (angel h delay 0 l).2 = Some 0 ->
  exists fs t c rest, l = fs ++ (t, Exited c) :: rest /\ Forall (fun x => child_failed x = true) fs /\ u8 c = 0.
Proof.
  assert (forall laststart, (angel h delay laststart l).2 = Some 0 -> exists fs t c rest, l = fs ++ (t, Exited c) :: rest /\ Forall (fun x => child_failed x = true) fs /\ u8 c = 0)
    as H; [|apply H].
  induction l as [|[t c] l IH]; intros ls; [done|]. cbn [angel]. destruct c as [| |code|]; [done|done| |].
  - destruct (Z.eqb_spec (u8 code) 0) as [E|E]; [intros _; by exists [], t, code, l|].
    destruct (angel h delay t l) as [acts r] eqn:Ea. cbn [snd]. intros ->. destruct (IH t) as (fs & t' & c' & rest & -> & Hf & Hc); [by rewrite Ea|].
    exists ((t, Exited code) :: fs), t', c', rest. split; [done|]. split; [|done]. constructor; [|done]. cbn. by rewrite (proj2 (Z.eqb_neq _ _) E).
  - destruct (angel h delay t l) as [acts r] eqn:Ea. cbn [snd]. intros ->. destruct (IH t) as (fs & t' & c' & rest & -> & Hf & Hc); [by rewrite Ea|].
    exists ((t, Signaled) :: fs), t', c', rest. split; [done|]. split; [|done]. by constructor.
Qed.

End AngelFacts.
Import AngelFacts.

(** The angel.  After any number of processes that exited with an error or were ended by a signal it has started one more, with a pause of [proxy_restart_delay]
    before each but the first; it returns 0 exactly after the first process that exits with 0, all before it having failed, and stops the HTTP daemon then. *)
Theorem angel_restarts (http_start : bool) (delay : Z) (fs tl : list (Z * Angel.child)) :
  Forall (fun x => child_failed x = true /\ x.1 <> 0) fs ->
  Angel.angel http_start delay 0 fs = (Angel.StartChild :: rounds delay (length fs), None) /\
  (forall t c, u8 c = 0 -> Angel.angel http_start delay 0 (fs ++ (t, Angel.Exited c) :: tl) =
     (Angel.StartChild :: rounds delay (length fs) ++ (if http_start then [Angel.StopHttpd] else []), Some 0)) /\
  (forall l, (Angel.angel http_start delay 0 l).2 = Some 0 ->
     exists fs t c rest, l = fs ++ (t, Angel.Exited c) :: rest /\ Forall (fun x => child_failed x = true) fs /\ u8 c = 0).
Proof.
  intros Hf. split; [|split; [|intros l; apply angel_zero]].
  - rewrite <- (app_nil_r fs) at 1. rewrite angel_fails by done. destruct fs as [|x fs]; [done|]. cbn [length pred Angel.angel fst snd waits Z.eqb].
    by rewrite rounds_S.
  - intros t c Hc. rewrite angel_fails by done. destruct fs as [|x fs]; cbn [Angel.angel]; rewrite Hc; cbn [Z.eqb length pred fst snd].
    + done.
    + rewrite rounds_S, <- app_assoc. done.
Qed.

Lemma angel_restarts_witness :
  Angel.angel true 5 0 ([(100, Angel.Signaled); (110, Angel.Exited 1)] ++ (120, Angel.Exited 256) :: []) =
    ([Angel.StartChild; Angel.SleepFor 5; Angel.StartChild; Angel.SleepFor 5; Angel.StartChild; Angel.StopHttpd], Some 0).
Proof. apply (angel_restarts true 5 [(100, Angel.Signaled); (110, Angel.Exited 1)] []); [repeat constructor; cbn; lia|reflexivity]. Defined.

(** A process that crashes is started again, one that is asked to end is not. *)
Theorem signals_supervised (http_start : bool) (delay : Z) (crashes : list (Z * Angel.handled)) t :
  Forall (fun x => x.2 <> Angel.SIGTERM /\ x.1 <> 0) crashes ->
  Angel.angel http_start delay 0 ((prod_map id Angel.init_signal_handlers <$> crashes) ++ [(t, Angel.init_signal_handlers Angel.SIGTERM)]) =
    (Angel.StartChild :: rounds delay (length crashes) ++ (if http_start then [Angel.StopHttpd] else []), Some 0).
Proof.
  intros Hc. set (fs := prod_map id Angel.init_signal_handlers <$> crashes).
  assert (Forall (fun x => child_failed x = true /\ x.1 <> 0) fs) as Hf.
  { apply Forall_fmap. eapply Forall_impl; [exact Hc|]. intros [u []] [Hs Hu]; by cbn in *. }
  replace (length crashes) with (length fs) by apply length_fmap.
  destruct (angel_restarts http_start delay fs [] Hf) as (_ & Hz & _). exact (Hz t 0 eq_refl).
Qed.

(** The HTTP server.  The proxy itself always goes on, whether the server can be started or not, and the child runs the server with the configuration file when
    the kernel lets it.  When [execve] fails, however, the child goes on too: it loads the configuration and serves clients as a second proxy beside the first. *)
Theorem http_server_started (enabled : bool) (pid : Z) (a : Httpd.child_answers) configfile : pid <> 0 ->
  head (Httpd.http_start enabled pid a configfile) = Some Httpd.GoesOn /\
  (Httpd.http_start enabled pid a configfile = [Httpd.GoesOn; Httpd.Becomes "./proxysqlHTTPd" configfile] <->
     enabled = true /\ 0 < pid /\ 0 <= Httpd.h_pkill a /\ Httpd.h_chdir a = 0 /\ Httpd.h_execve a = true) /\
  (Httpd.http_start enabled pid a configfile = [Httpd.GoesOn; Httpd.GoesOn] <->
     enabled = true /\ 0 < pid /\ 0 <= Httpd.h_pkill a /\ Httpd.h_chdir a = 0 /\ Httpd.h_execve a = false).
Proof.
  intros Hp. destruct a as [k c e]. unfold Httpd.http_start, Httpd.start_httpd. cbn [Httpd.h_pkill Httpd.h_chdir Httpd.h_execve].
  destruct enabled, (Z.ltb_spec pid 0); cbn; destruct (Z.eqb_spec pid 0), (Z.ltb_spec k 0), (Z.eqb_spec c 0), e; try lia; cbn;
    (split; [done|]); split; (split; intros H'; [first [discriminate H'|split_and!; first [done|lia]]|destruct H' as (? & ? & ? & ? & ?); first [done|lia]]).
Qed.

(** ** Threads *)

Module ThreadFacts.
Import Threads.

Lemma filter_set (l : list Z) i sp : l !! i = Some 0 -> sp <> 0 -> filter (fun x => x <> 0) (<[i := sp]> l) ≡ₚ sp :: filter (fun x => x <> 0) l.
Proof.
  intros Hi Hsp. rewrite <- (take_drop_middle l i 0 Hi) at 2. rewrite insert_take_drop by (by apply lookup_lt_Some in Hi).
  rewrite !filter_app, !filter_cons. rewrite decide_True by done. rewrite decide_False by (intros H; by apply H). symmetry. apply Permutation_middle.
Qed.

Lemma start_threads_spec l : forall t, NoDup l.*1 -> Forall (fun x => x.1 < length (stackspts t))%nat l -> Forall (fun x => x.2 <> 0) l ->
  (forall x, x ∈ l -> stackspts t !! x.1 = Some 0) ->
  exists t', start_threads ((fun x => (x.1, Some x.2)) <$> l) t = Some t' /\ length (stackspts t') = length (stackspts t) /\ started t' = started t ++ l.*1 /\
    filter (fun x => x <> 0) (stackspts t') ≡ₚ l.*2 ++ filter (fun x => x <> 0) (stackspts t) /\
    (forall i, i ∉ l.*1 -> stackspts t' !! i = stackspts t !! i).
Proof.
  induction l as [|[i sp] l IH]; intros t Hd Hb Hn Hz.
  { exists t. split; [done|]. split; [done|]. split; [by rewrite app_nil_r|]. split; done. }
  rewrite fmap_cons in Hd. apply NoDup_cons in Hd as [Hi Hd]. apply Forall_cons in Hb as [Hbi Hb]. apply Forall_cons in Hn as [Hsp Hn]. cbn [fst snd] in *.
  rewrite fmap_cons. cbn [start_threads fst snd]. unfold start_thread. rewrite bind_Some, decide_True, bind_Some by done.
  set (t1 := mkThreads (<[i := sp]> (stackspts t)) (started t ++ [i])).
  assert (length (stackspts t1) = length (stackspts t)) as Hl by apply length_insert.
  destruct (IH t1) as (t' & E & L & S & F & O); [done|by rewrite Hl|done| |].
  { intros x Hx. unfold t1. cbn [stackspts]. rewrite list_lookup_insert_ne; [apply Hz; by right|]. intros ->. apply Hi. by apply list_elem_of_fmap_2. }
  exists t'. split; [exact E|]. split; [congruence|]. split; [rewrite S; cbn; by rewrite <- app_assoc|]. split.
  - rewrite F. unfold t1. cbn [stackspts]. rewrite filter_set; [|by apply (Hz (i, sp)); left|done]. rewrite fmap_cons. cbn [snd app]. symmetry. apply Permutation_middle.
  - intros j Hj. rewrite fmap_cons in Hj. cbn [fst] in Hj. apply not_elem_of_cons in Hj as [Hji Hj]. rewrite O by done. unfold t1. cbn [stackspts]. by rewrite list_lookup_insert_ne.
Qed.

Lemma zip_Some (ids : list nat) (sps : list Z) : zip ids (Some <$> sps) = (fun x => (x.1, Some x.2)) <$> zip ids sps.
Proof. revert sps. induction ids as [|i ids IH]; intros [|sp sps]; [done..|]. cbn. f_equal. apply IH. Qed.

Ltac nodup_small := repeat (apply NoDup_cons; split; [rewrite ?elem_of_cons, elem_of_nil; intuition lia|]); apply NoDup_nil_2.

Lemma background_bounds debug qc n i : i ∈ background_indices debug qc n -> (n + 2 <= i < n + 2 + 4)%nat.
Proof. unfold background_indices. destruct debug, qc; cbn [app]; rewrite !elem_of_cons, elem_of_nil; intuition lia. Qed.

Lemma background_distinct debug qc n : NoDup (background_indices debug qc n).
Proof. unfold background_indices. destruct debug, qc; cbn [app]; nodup_small. Qed.

Lemma zip_nonzero (ids : list nat) (sps : list Z) : Forall (fun sp => sp <> 0) sps -> Forall (fun x => x.2 <> 0) (zip ids sps).
Proof. revert ids. induction sps as [|sp sps IH]; intros [|i ids] Hf; cbn; [constructor..|]. apply Forall_cons in Hf as [? ?]. constructor; [done|]. by apply IH. Qed.

End ThreadFacts.

(** The stacks of the threads.  When the memory is there, every index that the start writes is inside the array of [mysql_threads+6] pointers and no stack overwrites another;
    at the end exactly the threads that were started are joined, and each stack is freed once, for every build and with or without the query cache. *)
Theorem stacks_freed_once (debug query_cache : bool) (n : nat) (bg my : list Z) :
  length bg = length (Threads.background_indices debug query_cache n) -> length my = (n + 2)%nat ->
  Forall (fun sp => sp <> 0) bg -> Forall (fun sp => sp <> 0) my ->
  exists t freed, Threads.start_all debug query_cache n (Some <$> bg) (Some <$> my) = Some t /\
    Threads.joined debug query_cache n ≡ₚ Threads.started t /\
    Threads.free_stacks n t = Some freed /\ freed ≡ₚ bg ++ my.
Proof.
  intros Hb Hm Nb Nm. unfold Threads.start_all, Threads.start_background_threads, Threads.start_mysql_threads. rewrite !ThreadFacts.zip_Some.
  set (t0 := Threads.mkThreads (replicate (n + 2 + 4) 0) []).
  assert ((zip (Threads.background_indices debug query_cache n) bg).*1 = Threads.background_indices debug query_cache n) as Z1 by (apply fst_zip; lia).
  assert ((zip (seq 0 (n + 2)) my).*1 = seq 0 (n + 2)) as Z2 by (apply fst_zip; rewrite length_seq; lia).
  destruct (ThreadFacts.start_threads_spec (zip (Threads.background_indices debug query_cache n) bg) t0) as (t1 & E1 & L1 & S1 & F1 & O1).
  { rewrite Z1. apply ThreadFacts.background_distinct. }
  { apply Forall_forall. intros x Hx. apply (list_elem_of_fmap_2 fst) in Hx. rewrite Z1 in Hx. apply ThreadFacts.background_bounds in Hx.
    unfold t0. cbn [Threads.stackspts]. rewrite length_replicate. lia. }
  { by apply ThreadFacts.zip_nonzero. }
  { intros x Hx. apply (list_elem_of_fmap_2 fst) in Hx. rewrite Z1 in Hx. apply ThreadFacts.background_bounds in Hx. apply lookup_replicate. split; [done|lia]. }
  rewrite E1, bind_Some. rewrite Z1 in S1, O1.
  destruct (ThreadFacts.start_threads_spec (zip (seq 0 (n + 2)) my) t1) as (t2 & E2 & L2 & S2 & F2 & _).
  { rewrite Z2. apply NoDup_seq. }
  { apply Forall_forall. intros x Hx. apply (list_elem_of_fmap_2 fst) in Hx. rewrite Z2 in Hx. apply elem_of_seq in Hx.
    rewrite L1. unfold t0. cbn [Threads.stackspts]. rewrite length_replicate. lia. }
  { by apply ThreadFacts.zip_nonzero. }
  { intros x Hx. apply (list_elem_of_fmap_2 fst) in Hx. rewrite Z2 in Hx. apply elem_of_seq in Hx. rewrite O1.
    - apply lookup_replicate. split; [done|lia].
    - intros Hi%ThreadFacts.background_bounds. lia. }
  assert (length (Threads.stackspts t2) = (n + 2 + 4)%nat) as HL by (rewrite L2, L1; apply length_replicate).
  exists t2, (filter (fun x => x <> 0) (Threads.stackspts t2)). split; [exact E2|]. split; [|split].
  - rewrite S2, S1, Z2. unfold Threads.joined, Threads.background_indices, t0. cbn [Threads.started app].
    rewrite Permutation_app_comm. apply Permutation_app_tail. apply NoDup_Permutation; [|by apply (ThreadFacts.background_distinct debug query_cache n)|].
    + destruct debug, query_cache; cbn [app]; ThreadFacts.nodup_small.
    + intros x. destruct debug, query_cache; cbn [app]; rewrite !elem_of_cons, elem_of_nil; tauto.
  - unfold Threads.free_stacks. assert (mapM (fun i => Threads.stackspts t2 !! i) (seq 0 (n + 2 + 4)) = Some (Threads.stackspts t2)) as ->; [|by rewrite bind_Some].
    rewrite <- HL. apply mapM_Some. apply Forall2_same_length_lookup. split; [apply length_seq|]. intros i x y Hx Hy. apply lookup_seq in Hx as [-> _]. exact Hy.
  - rewrite F2, F1. unfold t0. cbn [Threads.stackspts].
    assert (filter (fun x => x <> 0) (replicate (n + 2 + 4) 0) = []) as ->.
    { clear. induction (n + 2 + 4)%nat as [|k IHk]; [done|]. cbn [replicate]. rewrite filter_cons, decide_False; [exact IHk|]. intros H. by apply H. }
    rewrite app_nil_r, !snd_zip by (rewrite ?length_seq; lia). apply Permutation_app_comm.
Qed.

Lemma stacks_freed_once_witness : exists t freed,
  Threads.start_all false true 1 (Some <$> [101; 102; 103]) (Some <$> [201; 202; 203]) = Some t /\
  Threads.free_stacks 1 t = Some freed /\ freed ≡ₚ [101; 102; 103; 201; 202; 203].
Proof.
  destruct (stacks_freed_once false true 1 [101; 102; 103] [201; 202; 203]) as (t & freed & E & _ & F & P);
    [reflexivity|reflexivity|repeat constructor; lia|repeat constructor; lia|].
  exists t, freed. split; [exact E|]. split; [exact F|exact P].
Defined.

(** ** The loaded configuration *)

Lemma level_statement_fits m v : (String.length m <= 80)%nat -> 0 <= v < 2 ^ 31 -> fits_block level_block (level_statement m v) = Some (level_statement m v).
Proof.
  intros Hm Hv. unfold fits_block. rewrite decide_True; [done|].
  assert (length (c_lit m) = String.length m) as Hl by (clear; induction m; cbn; [done|by f_equal]).
  assert (length (c_dec v) <= 10)%nat as Hd.
  { unfold c_dec. rewrite (proj2 (Z.ltb_ge _ _)) by lia. rewrite Z.abs_eq by lia. cbn [app]. apply dec_digits_length; [lia|]. cbn. lia. }
  unfold level_block, level_statement, c_quote. rewrite !length_app, Hl. cbn. lia.
Qed.

(** A text that can stand between double quotes in a statement. *)
Definition unquoted (l : list byte) : Prop := Byte.x22 ∉ l /\ Byte.x00 ∉ l.

(** A level as the configuration file and the table can have it. *)
Definition level_sane (text : Z -> option string) (l : debug_level) : Prop :=
  0 <= verbosity l < 2 ^ 31 /\ exists m, text (name l) = Some m /\ (String.length m <= 80)%nat /\ unquoted (c_lit m).

(** The statements with which the configuration file is merged into the tables. *)
Inductive merge_text : list byte -> Prop :=
  | merge_user n p : unquoted n -> unquoted p -> merge_text (user_statement false 1 n p)
  | merge_clear : merge_text (c_lit "DELETE FROM debug_levels WHERE verbosity=0")
  | merge_level m v : unquoted (c_lit m) -> 0 <= v < 2 ^ 31 -> merge_text (level_statement m v).

(** What the load relies on in the administrator's database.  [ready]: the tables exist with the definitions of the program, and the join of hostgroups, servers and
    server_status has only rows that the program can use; the definitions make the names of users and servers unique, but do not forbid a negative host group or a status
    other than the four.  The statements of the merge run, and neither they nor the rows that the load inserts change that. *)
Class ReadableTables (sq : Type) `{SQLite sq} `{AdminTables sq} `{StartTables sq} := {
  ready : sq -> Prop;
  merge_runs q s : ready s -> merge_text q -> exists s', sql_exec AdminDb q s = Some s' /\ ready s';
  users_readable s : ready s -> exists rows, users_select s = Some rows /\ NoDup rows.*1;
  verbosity_readable s m : ready s -> is_Some (verbosity_select s m);
  servers_readable s : ready s -> Forall row_ok (servers_select s) /\ consistent (servers_select s);
  rules_insert_ready rows s : ready s -> ready (query_rules_insert rows s);
  servers_insert_ready l s : ready s -> NoDup (server_key <$> l) -> Forall (fun ms => Byte.x00 ∉ address ms) l ->
    let '(c1, c2, c3) := server_counts s in ready (servers_insert (sqlite3_flush_servers_mem_to_db c1 c2 c3 l) s)
}.

(** What the other components rely on in the memory of the process. *)
Record memory_ok {sq} (n : Z) (m : process_memory sq) : Prop := {
  mo_users : users_ok (m_users m);
  mo_servers : heap_ok (Z.to_nat n) (m_servers m);
  mo_rules : exists rules, m_rules m = Some rules /\ Forall (rule_in_range n) rules
}.

(** What the configuration file leaves in it. *)
Record memory_from_file {sq} (text : Z -> option string) (n : Z) (m : process_memory sq) : Prop := {
  mf_users : users_ok (m_users m) /\ exists fs, users_name (m_users m) = fs.*1 /\ users_pass (m_users m) = Some <$> fs.*2 /\
    Forall (fun f => unquoted f.1 /\ unquoted f.2) fs;
  mf_servers : heap_ok (Z.to_nat n) (m_servers m);
  mf_levels : Forall (level_sane text) (m_levels m)
}.

Section LoadFacts.
Context {sq : Type} `{SQLite sq} `{SQLiteFiles sq} `{AdminTables sq} `{StartTables sq} `{HR : !ReadableTables sq}.
Context (names_junk : nat -> option (list byte)) (text : Z -> option string) (G : settings).

Lemma merge_texts_total qs : Forall merge_text qs -> forall s, ready s -> exists s', exec_texts AdminDb qs s = Some s' /\ ready s'.
Proof.
  induction 1 as [|q qs Hq _ IH]; intros s Hs; [by exists s|]. rewrite exec_texts_cons. destruct (merge_runs q s Hs Hq) as (s1 & -> & Hs1). by apply IH.
Qed.

Lemma save_levels_total ls s : ready s -> Forall (level_sane text) ls -> exists s', save_levels text ls s = Some s' /\ ready s'.
Proof.
  intros Hs Hl. unfold save_levels. destruct (merge_runs _ s Hs merge_clear) as (s1 & -> & Hs1). rewrite bind_Some.
  assert (exists rows, sqlite3_flush_debug_levels_mem_to_db text ls = Some rows /\
    mapM (fun r => fits_block level_block (level_statement r.1 r.2)) rows = Some ((fun r => level_statement r.1 r.2) <$> rows) /\
    Forall merge_text ((fun r => level_statement r.1 r.2) <$> rows)) as (rows & -> & Hf & Hm).
  { unfold sqlite3_flush_debug_levels_mem_to_db. induction Hl as [|l ls (Hv & m & Em & Hm & Hq) _ IH]; [by exists []|]. destruct IH as (rows & E & Hf & Ht).
    exists ((m, verbosity l) :: rows). rewrite !mapM_cons_opt, Em, bind_Some, bind_Some, E. split; [done|]. cbn [fst snd].
    rewrite level_statement_fits, bind_Some, Hf by done. split; [done|]. rewrite fmap_cons. constructor; [by apply merge_level|done]. }
  rewrite bind_Some, Hf, bind_Some. by apply merge_texts_total.
Qed.

Lemma flush_debug_total select ls : (forall m, is_Some (select m)) -> Forall (level_sane text) ls ->
  exists n ls', sqlite3_flush_debug_levels_db_to_mem text select ls = Some (n, ls').
Proof.
  intros Hs Hl. unfold sqlite3_flush_debug_levels_db_to_mem.
  assert (forall k done', exists n ls', debug_levels_db_to_mem text select k done' ls = Some (n, ls')) as Hg; [|apply Hg].
  induction Hl as [|l ls (_ & m & Em & _ & _) _ IH]; intros k done'; [by eexists _, _|]. cbn [debug_levels_db_to_mem]. rewrite Em, bind_Some.
  destruct (Hs m) as [vs ->]. apply IH.
Qed.

Lemma merge_file_total merge m n : memory_from_file text n m -> ready (m_db m) -> exists s, merge_file text merge m = Some (m <| m_db := s |>) /\ ready s.
Proof.
  intros [(_ & fs & En & Ep & Hq) _ Hv] Hs. unfold merge_file. destruct (merge =? 1); [|exists (m_db m); by destruct m].
  unfold sqlite3_flush_users_mem_to_db. cbn [negb Z.eqb]. rewrite En, Ep, users_statements, bind_Some.
  destruct (merge_texts_total ((fun f => user_statement false 1 f.1 f.2) <$> fs)) with (s := m_db m) as (s1 & -> & Hs1); [|done|].
  { apply Forall_fmap. eapply Forall_impl; [exact Hq|]. intros f [? ?]. by apply merge_user. }
  rewrite bind_Some. destruct (save_levels_total (m_levels m) s1 Hs1 Hv) as (s2 & -> & Hs2). by exists s2.
Qed.


End LoadFacts.

(** A database for the example: it refuses a text with a double quote that is not closed, has two users and puts one server into two host groups. *)
Definition quotes (q : list byte) : nat := length (filter (fun b => b = Byte.x22) q).
Definition quiet_sqlite : SQLite (list (list byte)) := {|
  sql_exec := fun _ q s => if Nat.even (quotes q) then Some (s ++ [q]) else None;
  sql_run := fun _ q s => (Columns [c_lit "x"] [[Some (c_lit "1")]] StepDone, s)
|}.
Definition quiet_files : SQLiteFiles (list (list byte)) := {| sql_config_uri := Some; sql_open := fun _ _ _ s => Some s |}.
Definition quiet_start : StartTables (list (list byte)) := {| server_counts := fun _ => (0, 0, 0); servers_insert := fun _ s => s |}.
Definition quiet_tables : AdminTables (list (list byte)) := {|
  users_select := fun _ => Some [(c_lit "bob", Some (c_lit "pw")); (c_lit "joe", None)];
  verbosity_select := fun _ _ => Some [1];
  query_rules_count := fun _ => 1;
  query_rules_insert := fun _ s => s;
  query_rules_select := fun _ => [sample_row];
  default_hostgroups_select := fun _ => [];
  servers_select := fun _ => [mkServerRow 0 (c_lit "db1") 3306 0 3; mkServerRow 1 (c_lit "db1") 3306 0 3];
  query_rules_report := fun _ _ s => Some s;
  query_cache_report := fun _ _ s => Some s;
  default_hostgroups_report := fun _ _ s => Some s
|}.

Lemma quotes_app a b : quotes (a ++ b) = (quotes a + quotes b)%nat.
Proof. unfold quotes. by rewrite filter_app, length_app. Qed.

Lemma quotes_none l : Byte.x22 ∉ l -> quotes l = 0%nat.
Proof. unfold quotes. induction l as [|b l IH]; intros H; [done|]. rewrite filter_cons, decide_False by set_solver. apply IH. set_solver. Qed.

Lemma merge_text_even q : merge_text q -> Nat.even (quotes q) = true.
Proof.
  destruct 1 as [n p [Hn _] [Hp _]| |m v [Hm _] Hv]; [|by vm_compute|].
  - unfold user_statement, users_format. rewrite !quotes_app, (quotes_none n), (quotes_none p) by done. by vm_compute.
  - assert (Byte.x22 ∉ c_dec v) as Hd.
    { unfold c_dec. rewrite (proj2 (Z.ltb_ge _ _)) by lia. cbn [app]. apply dec_digits_plain. }
    unfold level_statement. rewrite !quotes_app, (quotes_none (c_lit m)), (quotes_none (c_dec v)) by done. by vm_compute.
Qed.

Definition quiet_readable : @ReadableTables (list (list byte)) quiet_sqlite quiet_tables quiet_start.
Proof.
  exists (fun _ => True); try done.
  - intros q s _ Hq. exists (s ++ [q]). split; [|done]. cbn. by rewrite merge_text_even.
  - intros s _. eexists. split; [reflexivity|]. apply (bool_decide_eq_true_1 _). by vm_compute.
  - intros s _. split.
    + repeat constructor; cbn; try lia; apply (bool_decide_eq_true_1 _); by vm_compute.
    + intros r1 r2 H1 H2. cbn in H1, H2. rewrite !elem_of_cons, elem_of_nil in H1, H2. by destruct H1 as [-> |[-> |[]]], H2 as [-> |[-> |[]]].
Defined.

(** The process after the configuration file: one user, one server. *)
Definition file_memory : process_memory (list (list byte)) :=
  toy_memory <| m_users := mkUsersMem [c_lit "ann"] [Some (c_lit "secret")] {[ c_lit "ann" := Some (c_lit "secret") ]} |>
             <| m_servers := mkHeap [mkServer (c_lit "db1") 3306 0 ONLINE 0 0] [[]; []] [0%nat; 1%nat] |>.


(** ** The ports *)

(** The two ports are different, and an option on the command line takes precedence; the sockets get different ports when every number is one of a port.  An
    option is not limited to 16 bits: 70000 and 4464 pass the comparison and are the same port. *)
Theorem ports_resolved (o : Options.options) (admin mysql : Z) :
  (forall a m, Options.resolve_ports o admin mysql = Done (a, m) ->
     a <> m /\ (Options.o_admin_port o <> 0 -> a = Options.o_admin_port o) /\ (Options.o_mysql_port o <> 0 -> m = Options.o_mysql_port o) /\
     (0 <= a < 2 ^ 16 -> 0 <= m < 2 ^ 16 -> (Options.listen_ports (a, m)).1 <> (Options.listen_ports (a, m)).2)) /\
  Options.resolve_ports (Options.mkOptions 0 70000 true 0 None) 4464 6033 = Done (4464, 70000) /\ Options.listen_ports (4464, 70000) = (4464, 4464).
Proof.
  split; [|done]. intros a m. unfold Options.resolve_ports. destruct (Z.eqb_spec (Options.o_admin_port o) 0), (Z.eqb_spec (Options.o_mysql_port o) 0);
    (match goal with |- context [?x =? ?y] => destruct (Z.eqb_spec x y) as [|Hne] end; [done|]; intros [= <- <-]; split; [done|]; split; [done|]; split; [done|]; cbn [Options.listen_ports fst snd];
     intros Ha Hm; rewrite !uwrap_small by done; done).
Qed.
