(* ===== verification/Network.v ===== *)
(** * Sockets: src/network.c and the part of [main] that opens them

    The answers of the system are arguments, the calls a function makes are part of its result, in order; [after] is what they do to the descriptors of the
    process.  [Exit] is the end of the process by [PANIC] or [exit]. *)
From S2P Require Import Prelude Protocol GlobalVars.
Open Scope Z_scope.

Inductive call :=
  | Socket (fd : Z) | ReuseAddr (fd : Z) | BindInet (fd addr port : Z) | BindUnix (fd : Z) (path : list byte) | Listen (fd backlog : Z)
  | Unlink (path : list byte) | Chmod (path : list byte) | ConnectTo (fd addr port : Z) | ShutdownFd (fd : Z) | Close (fd : Z) | NonBlocking (fd : Z).

(** [close] of a descriptor that is not open has no effect. *)
Definition apply_call (fds : gset Z) (c : call) : gset Z :=
  match c with
  | Socket fd => if fd <? 0 then fds else {[ fd ]} ∪ fds
  | Close fd => fds ∖ {[ fd ]}
  | _ => fds
  end.
Definition after (fds : gset Z) (cs : list call) : gset Z := foldl apply_call fds cs.

Record connect_answers := mkConnect { c_socket : Z; c_connect : Z }.

(** [inet_aton] says whether the text is an address. *)
Definition connect_socket (inet_aton : list byte -> option Z) (a : connect_answers) (address : list byte) (connect_port : Z) : Z * list call :=
  let s := c_socket a in
  if s =? -1 then (-1, [Socket s; Close s])
  else match inet_aton address with
       | None => (-1, [Socket s; Close s])
       | Some addr =>
           if c_connect a =? -1 then (-1, [Socket s; ConnectTo s addr (u16 connect_port); ShutdownFd s; Close s])
           else (s, [Socket s; ConnectTo s addr (u16 connect_port)])
       end.

Section Sockets.
Context (inet_addr : list byte -> Z) (backlog : Z).

Record inet_answers := mkInet { i_socket : Z; i_reuse : Z; i_bind : Z; i_listen : Z }.

Definition listen_on_port (a : inet_answers) (ip : list byte) (port : Z) : ending (Z * list call) :=
  let sd := i_socket a in
  if sd <? 0 then Exit
  else if i_reuse a <? 0 then Exit
  else if negb (i_bind a =? 0) then Exit
  else if negb (i_listen a =? 0) then Exit
  else Done (sd, [Socket sd; ReuseAddr sd; BindInet sd (inet_addr ip) port; Listen sd backlog]).

(** [unlink] answers 0, ENOENT or another error. *)
Inductive unlinked := Removed | NotThere | UnlinkError.
Record unix_answers := mkUnix { x_unlink : unlinked; x_socket : Z; x_bind : Z; x_listen : Z }.

(** [sizeof(serveraddr.sun_path)]; the structure is zeroed, so the name ends at the 107th byte. *)
Definition sun_path_size : nat := 108.
Definition sun_path (path : list byte) : list byte := take (sun_path_size - 1) path.

Definition listen_on_unix (a : unix_answers) (path : list byte) : ending (Z * list call) :=
  match x_unlink a with
  | UnlinkError => Exit
  | _ =>
      let sd := x_socket a in
      if sd <? 0 then Exit
      else if negb (x_bind a =? 0) then Exit
      else if negb (x_listen a =? 0) then Exit
      else Done (sd, [Unlink path; Socket sd; BindUnix sd (sun_path path); Listen sd backlog; Chmod path])
  end.

(** The sockets of [main]: [listen_tcp_fd], [listen_tcp_admin_fd], [listen_tcp_monitor_fd] and [listen_unix_fd]. *)
Record listening := mkListening { listen_tcp_fd : Z; listen_tcp_admin_fd : Z; listen_tcp_monitor_fd : Z; listen_unix_fd : Z }.

Record bindings := mkBindings {
  proxy_mysql_bind : list byte; proxy_mysql_port : Z; proxy_admin_bind : list byte; proxy_admin_port : Z;
  proxy_monitor_bind : list byte; proxy_monitor_port : Z; mysql_socket : list byte }.

Definition open_sockets (b : bindings) (a1 a2 a3 : inet_answers) (a4 : unix_answers) : ending (listening * list call) :=
  '(fd1, c1) ← listen_on_port a1 (proxy_mysql_bind b) (u16 (proxy_mysql_port b));
  '(fd2, c2) ← listen_on_port a2 (proxy_admin_bind b) (u16 (proxy_admin_port b));
  '(fd3, c3) ← listen_on_port a3 (proxy_monitor_bind b) (u16 (proxy_monitor_port b));
  '(fd4, c4) ← listen_on_unix a4 (mysql_socket b);
  Done (mkListening fd1 fd2 fd3 fd4, c1 ++ c2 ++ c3 ++ c4 ++ [NonBlocking fd1; NonBlocking fd2; NonBlocking fd4]).

(** ** Properties *)

Lemma listen_on_port_inv a ip port fd cs : listen_on_port a ip port = Done (fd, cs) ->
  0 <= fd /\ fd = i_socket a /\ cs = [Socket fd; ReuseAddr fd; BindInet fd (inet_addr ip) port; Listen fd backlog].
Proof.
  unfold listen_on_port. destruct (Z.ltb_spec (i_socket a) 0); [done|]. destruct (i_reuse a <? 0), (i_bind a =? 0), (i_listen a =? 0); cbn [negb]; try done.
  intros [= <- <-]. done.
Qed.

Lemma listen_on_unix_inv a path fd cs : listen_on_unix a path = Done (fd, cs) ->
  0 <= fd /\ fd = x_socket a /\ cs = [Unlink path; Socket fd; BindUnix fd (sun_path path); Listen fd backlog; Chmod path].
Proof.
  unfold listen_on_unix. destruct (x_unlink a); [| |done]; (destruct (Z.ltb_spec (x_socket a) 0); [done|]; destruct (x_bind a =? 0), (x_listen a =? 0); cbn [negb]; try done;
    intros [= <- <-]; done).
Qed.

(** The sockets at the start: if the process goes on, four sockets listen, on the ports of the configuration modulo [2^16], and no other descriptor was opened or closed; the
    name that is removed and made accessible is the one the socket has when the path is shorter than 108 bytes, and another one when it is longer. *)
Theorem sockets_opened b a1 a2 a3 a4 l cs fds :
  open_sockets b a1 a2 a3 a4 = Done (l, cs) ->
  after fds cs = {[ listen_unix_fd l; listen_tcp_monitor_fd l; listen_tcp_admin_fd l; listen_tcp_fd l ]} ∪ fds /\
  BindInet (listen_tcp_fd l) (inet_addr (proxy_mysql_bind b)) (proxy_mysql_port b mod 2 ^ 16) ∈ cs /\
  BindInet (listen_tcp_admin_fd l) (inet_addr (proxy_admin_bind b)) (proxy_admin_port b mod 2 ^ 16) ∈ cs /\
  BindInet (listen_tcp_monitor_fd l) (inet_addr (proxy_monitor_bind b)) (proxy_monitor_port b mod 2 ^ 16) ∈ cs /\
  (forall fd name, BindUnix fd name ∈ cs -> (name = mysql_socket b <-> (length (mysql_socket b) < sun_path_size)%nat)) /\
  (forall name, Unlink name ∈ cs \/ Chmod name ∈ cs -> name = mysql_socket b).
Proof.
  intros Ho. unfold open_sockets in Ho.
  destruct (listen_on_port a1 _ _) as [| |[fd1 c1]] eqn:E1; [done|done|]. cbn [mbind ending_bind] in Ho.
  destruct (listen_on_port a2 _ _) as [| |[fd2 c2]] eqn:E2; [done|done|]. cbn [mbind ending_bind] in Ho.
  destruct (listen_on_port a3 _ _) as [| |[fd3 c3]] eqn:E3; [done|done|]. cbn [mbind ending_bind] in Ho.
  destruct (listen_on_unix a4 _) as [| |[fd4 c4]] eqn:E4; [done|done|]. cbn [mbind ending_bind] in Ho.
  injection Ho as <- <-. cbn [listen_tcp_fd listen_tcp_admin_fd listen_tcp_monitor_fd listen_unix_fd].
  apply listen_on_port_inv in E1 as (P1 & _ & ->), E2 as (P2 & _ & ->), E3 as (P3 & _ & ->). apply listen_on_unix_inv in E4 as (P4 & _ & ->).
  split; [|split; [|split; [|split; [|split]]]].
  - unfold after. cbn [app foldl apply_call]. rewrite !(proj2 (Z.ltb_ge _ _)) by lia. set_solver.
  - cbn [app]. do 2 right. left.
  - cbn [app]. do 6 right. left.
  - cbn [app]. do 10 right. left.
  - intros fd name Hin. cbn [app] in Hin. rewrite !elem_of_cons, elem_of_nil in Hin. assert (name = sun_path (mysql_socket b)) as -> by naive_solver.
    unfold sun_path, sun_path_size. split.
    + intros E. apply (f_equal length) in E. rewrite length_take in E. lia.
    + intros Hl. apply take_ge. lia.
  - intros name Hin. cbn [app] in Hin. rewrite !elem_of_cons, !elem_of_nil in Hin. naive_solver.
Qed.

End Sockets.

(** A connection attempt leaves no descriptor open when it fails, and exactly the new one when it succeeds. *)
Theorem connect_no_leak inet_aton a address port fds s cs :
  c_socket a ∉ fds -> -1 <= c_socket a -> connect_socket inet_aton a address port = (s, cs) ->
  after fds cs = (if s =? -1 then fds else {[ s ]} ∪ fds) /\ (s <> -1 -> s = c_socket a).
Proof.
  intros Hn Hs. unfold connect_socket. destruct (Z.eqb_spec (c_socket a) (-1)) as [E|E].
  { intros [= <- <-]. split; [|done]. unfold after. cbn [foldl apply_call]. rewrite E. cbn [Z.ltb Z.compare Z.eqb Pos.eqb]. rewrite E in Hn. set_solver. }
  assert ((c_socket a <? 0) = false) as Hz by (apply Z.ltb_ge; lia).
  destruct (inet_aton address) as [addr|].
  - destruct (Z.eqb_spec (c_connect a) (-1)); intros [= <- <-]; (split; [|done]); unfold after; cbn [foldl apply_call]; rewrite Hz.
    + cbn [Z.eqb Pos.eqb]. set_solver.
    + by rewrite (proj2 (Z.eqb_neq _ _) E).
  - intros [= <- <-]. split; [|done]. unfold after. cbn [foldl apply_call]. rewrite Hz. cbn [Z.eqb Pos.eqb]. set_solver.
Qed.

Lemma sockets_opened_witness :
  let b := mkBindings (c_lit "0.0.0.0") 6033 (c_lit "127.0.0.1") 6032 (c_lit "127.0.0.1") 6031 (c_lit "/tmp/proxysql.sock") in
  let ok fd := mkInet fd 0 0 0 in
  exists l cs, open_sockets (fun _ => 0) 128 b (ok 3) (ok 4) (ok 5) (mkUnix NotThere 6 0 0) = Done (l, cs) /\ after ∅ cs = {[ 6; 5; 4; 3 ]} ∪ ∅.
Proof.
  intros b ok. eexists _, _. split; [reflexivity|].
  exact (proj1 (sockets_opened (fun _ => 0) 128 b (ok 3) (ok 4) (ok 5) (mkUnix NotThere 6 0 0) _ _ ∅ eq_refl)).
Defined.
