(* ===== verification/Statistics.v ===== *)
(** * The report of the query statistics: [qr_report_thread] of src/fundadb_hash.c and src/admin_sqlite.c

    Finished queries are counted in a table of the memory (Tokenizer.v).  Every few seconds a thread exchanges that table for the other, empty one, inserts a row into
    query_stats for each of its entries and drops them.  The table query_stats is the list of its rows with its primary key: an INSERT with the key of
    a row that is there fails, which the code asserts not to happen ([None]).  A NULL in a key makes it differ from every other. *)
From S2P Require Import Prelude Tokenizer.
Open Scope Z_scope.

Record stats_row := mkStatsRow {
  st_timestamp : Z; st_md5 : list byte; st_text : list byte; st_username : list byte; st_schemaname : list byte; st_hostgroup : Z;
  st_address : option (list byte); st_port : Z; st_query_time : Z; st_exec_cnt : Z }.

(** [sqlite3_bind_int] takes an [int]: the time, the count and the sum of the times are cut to 32 bits. *)
Definition query_stats_row (curtime : Z) (e : qr_hash_entry) : stats_row :=
  mkStatsRow (i32 curtime) (query_digest_md5 e) (query_digest_text e) (qr_username e) (qr_schemaname e) (i32 (qr_hostgroup_id e))
    (mysql_server_address e) (i32 (mysql_server_port e)) (i32 (query_time e)) (i32 (exec_cnt e)).

(** PRIMARY KEY(timestamp, query_digest_md5, username, schemaname, hostgroup_id, server_address, server_port). *)
Definition primary_key (r : stats_row) : option (Z * list byte * list byte * list byte * Z * list byte * Z) :=
  a ← st_address r; Some (st_timestamp r, st_md5 r, st_username r, st_schemaname r, st_hostgroup r, a, st_port r).

Definition conflicts (r r' : stats_row) : bool := bool_decide (is_Some (primary_key r) /\ primary_key r = primary_key r').

(** The INSERT into the table: it is taken to fail when the primary key is there already and for no other reason (no locked database, no full disk). *)
Definition insert_stats (r : stats_row) (t : list stats_row) : option (list stats_row) :=
  if existsb (conflicts r) t then None else Some (t ++ [r]).

(** [__sqlite3_statsdb__flush_query_stats]: the key has to be in the table. *)
Definition statsdb_flush_query_stats (curtime : Z) (h : gmap (list byte) qr_hash_entry) (key : list byte) (t : list stats_row) : option (list stats_row) :=
  e ← h !! key; insert_stats (query_stats_row curtime e) t.

(** One turn of the loop; [keys] is the list that [g_hash_table_get_keys] gives. *)
Definition qr_report_iteration (statistics : bool) (keys : list (list byte)) (curtime : Z) (ht : qr_hash_t) (t : list stats_row)
  : option (qr_hash_t * list stats_row) :=
  if statistics then
    let ht := mkQrHash (p_hash ht) (c_hash ht) in
    t ← foldl (fun o k => o ≫= statsdb_flush_query_stats curtime (p_hash ht) k) (Some t) keys;
    Some (mkQrHash (c_hash ht) ∅, t)
  else Some (ht, t).

(** [qr_hashes_new]. *)
Definition qr_hashes_new : qr_hash_t := mkQrHash ∅ ∅.

(** ** Keys *)

Definition well_keyed (h : gmap (list byte) qr_hash_entry) : Prop := forall k e, h !! k = Some e -> qr_key_string e = k.

Definition sane_entry (e : qr_hash_entry) : Prop := - 2 ^ 31 <= qr_hostgroup_id e < 2 ^ 31 /\ - 2 ^ 31 <= mysql_server_port e < 2 ^ 31.

(** Recording a query writes one key; the entry there names the query, or is the old one with new numbers. *)
Lemma set_spec now ht e : well_formed_stats e -> exists y,
  query_statistics_set now ht e = Some (mkQrHash (<[qr_key_string e := y]> (c_hash ht)) (p_hash ht)) /\
  let z := default e (c_hash ht !! qr_key_string e) in qr_key_string y = qr_key_string z /\ (sane_entry z -> sane_entry y).
Proof.
  intros (Hn & Hh & Hp). unfold query_statistics_set.
  assert (generate_qr_hash_entry_key e = Some (e <| qr_key := qr_key_string e |>)) as ->.
  { rewrite generate_key_iff by done. rewrite decide_True; [done|].
    pose proof (c_dec_length (qr_hostgroup_id e) 7). pose proof (c_dec_length (mysql_server_port e) 5). simpl in *. lia. }
  rewrite bind_Some. cbn [qr_key upd qr_eta]. destruct (c_hash ht !! qr_key_string e) as [x|]; by eexists.
Qed.

Definition hash_ok (h : gmap (list byte) qr_hash_entry) : Prop := well_keyed h /\ forall k e, h !! k = Some e -> sane_entry e.

Lemma record_hash_ok qs : forall ht ht', Forall (fun q => well_formed_stats q.2) qs -> hash_ok (c_hash ht) -> record_all ht qs = Some ht' ->
  hash_ok (c_hash ht') /\ p_hash ht' = p_hash ht /\
  forall k, is_Some (c_hash ht' !! k) <-> is_Some (c_hash ht !! k) \/ exists q, q ∈ qs /\ qr_key_string q.2 = k.
Proof.
  induction qs as [|[now e] qs IH]; intros ht ht' Hq [Hw Hs] Hr; cbn [record_all] in Hr.
  { injection Hr as <-. split; [done|]. split; [done|]. intros k. split; [by left|]. intros [?|(q & Hn & _)]; [done|]. by apply not_elem_of_nil in Hn. }
  apply Forall_cons in Hq as [He Hq]. destruct (set_spec now ht e He) as (y & Es & Hy1 & Hy2). rewrite Es, bind_Some in Hr.
  assert (hash_ok (c_hash (mkQrHash (<[qr_key_string e := y]> (c_hash ht)) (p_hash ht)))) as Hok.
  { cbn [c_hash]. split; intros k x [[<- <-]|[_ Hx]]%lookup_insert_Some; [|by apply Hw| |by apply (Hs k)].
    - rewrite Hy1. destruct (c_hash ht !! qr_key_string e) as [z|] eqn:Ez; [by apply Hw|done].
    - apply Hy2. destruct (c_hash ht !! qr_key_string e) as [z|] eqn:Ez; [by apply (Hs _ _ Ez)|]. destruct He as (_ & Hh & Hp). split; cbn in *; lia. }
  destruct (IH _ ht' Hq Hok Hr) as (I1 & I2 & I3). split; [done|]. split; [done|]. intros k. rewrite I3. cbn [c_hash]. rewrite lookup_insert_is_Some'.
  split.
  - intros [[<-|?]|(q & Hin & E)]; [right; exists (now, e); split; [left|done]|by left|right; exists q; split; [by right|done]].
  - intros [?|(q & [->|Hin]%elem_of_cons & E)]; [by left; right|by left; left|right; by exists q].
Qed.

(** Entries whose rows have the same primary key have the same key in the table of the memory. *)
Lemma same_primary_key curtime e e' :
  - 2 ^ 31 <= qr_hostgroup_id e < 2 ^ 31 -> - 2 ^ 31 <= mysql_server_port e < 2 ^ 31 ->
  - 2 ^ 31 <= qr_hostgroup_id e' < 2 ^ 31 -> - 2 ^ 31 <= mysql_server_port e' < 2 ^ 31 ->
  conflicts (query_stats_row curtime e) (query_stats_row curtime e') = true -> qr_key_string e = qr_key_string e'.
Proof.
  intros H1 H2 H3 H4 [[x Hx] E]%bool_decide_eq_true_1. unfold primary_key, query_stats_row in *. cbn [st_address st_timestamp st_md5 st_username st_schemaname st_hostgroup st_port] in *.
  destruct (mysql_server_address e) as [a|] eqn:Ea, (mysql_server_address e') as [a'|] eqn:Ea'; try done.
  rewrite !bind_Some in E. injection E as E1 E2 E3 E4 E5 E6. rewrite !swrap_small in E4, E6 by lia.
  unfold qr_key_string. rewrite Ea, Ea'. cbn [default]. congruence.
Qed.

(** The rows of the keys, in their order. *)
Definition reported (curtime : Z) (h : gmap (list byte) qr_hash_entry) (keys : list (list byte)) : list stats_row :=
  query_stats_row curtime <$> omap (fun k => h !! k) keys.

Lemma flush_all_keys curtime h : well_keyed h -> (forall k e, h !! k = Some e -> sane_entry e) -> forall keys seen t,
  NoDup (seen ++ keys) -> (forall k, k ∈ seen ++ keys -> is_Some (h !! k)) -> Forall (fun r => st_timestamp r <> i32 curtime) t ->
  foldl (fun o k => o ≫= statsdb_flush_query_stats curtime h k) (Some (t ++ reported curtime h seen)) keys = Some (t ++ reported curtime h (seen ++ keys)).
Proof.
  intros Hw Hs. induction keys as [|k keys IH]; intros seen t Hd Hk Ht; [by rewrite app_nil_r|]. cbn [foldl]. rewrite bind_Some.
  destruct (Hk k) as [e He]; [apply elem_of_app; right; left|].
  assert (statsdb_flush_query_stats curtime h k (t ++ reported curtime h seen) = Some (t ++ reported curtime h (seen ++ [k]))) as ->.
  { unfold statsdb_flush_query_stats, insert_stats. rewrite He, bind_Some. destruct (existsb _ _) eqn:Ex.
    - exfalso. apply existsb_exists in Ex as (r & Hr%list_elem_of_In & Hc). apply elem_of_app in Hr as [Hr|Hr].
      + apply (proj1 (Forall_forall _ _) Ht) in Hr. apply bool_decide_eq_true_1 in Hc as [[x Hx] E]. rewrite Hx in E. unfold primary_key in Hx, E.
        destruct (st_address (query_stats_row curtime e)) as [a|]; [|done]. rewrite bind_Some in Hx. injection Hx as <-.
        destruct (st_address r) as [a'|]; [|done]. rewrite bind_Some in E. injection E as E _. by apply Hr.
      + unfold reported in Hr. apply list_elem_of_fmap in Hr as (e' & -> & (k' & Hk' & He')%list_elem_of_omap).
        destruct (Hs k e He) as [A1 A2], (Hs k' e' He') as [B1 B2]. apply same_primary_key in Hc; [|done..]. rewrite (Hw k e He), (Hw k' e' He') in Hc. subst k'.
        apply NoDup_app in Hd as (_ & Hd & _). apply (Hd k Hk'). left.
    - unfold reported. rewrite omap_app, fmap_app. cbn [omap list_omap]. rewrite He. by rewrite app_assoc. }
  rewrite IH; [by rewrite <- app_assoc|by rewrite <- app_assoc|by rewrite <- app_assoc|done].
Qed.

Lemma report_spec curtime keys ht t : well_keyed (c_hash ht) -> (forall k e, c_hash ht !! k = Some e -> sane_entry e) ->
  keys ≡ₚ (map_to_list (c_hash ht)).*1 -> Forall (fun r => st_timestamp r <> i32 curtime) t ->
  qr_report_iteration true keys curtime ht t = Some (mkQrHash (p_hash ht) ∅, t ++ reported curtime (c_hash ht) keys).
Proof.
  intros Hw Hs Hk Ht. unfold qr_report_iteration. cbn [c_hash p_hash].
  pose proof (flush_all_keys curtime (c_hash ht) Hw Hs keys [] t) as Hf. unfold reported at 1 in Hf. cbn [omap list_omap fmap list_fmap app] in Hf. rewrite app_nil_r in Hf.
  rewrite Hf; [done| | |done].
  - rewrite Hk. apply NoDup_fst_map_to_list.
  - intros k Hin. rewrite Hk in Hin. apply list_elem_of_fmap in Hin as ([k' e] & -> & Hin). apply elem_of_map_to_list in Hin. by exists e.
Qed.

Lemma i32_u32 x y : u32 x = u32 y -> i32 x = i32 y.
Proof. unfold uwrap, swrap. intros E. f_equal. rewrite <- (Zplus_mod_idemp_l x), <- (Zplus_mod_idemp_l y), E. done. Qed.

(** C28: from queries to the table.  After any run of finished queries the report writes the rows without violating the primary key, in whatever order the hash table gives its keys,
    provided that no row has its time already; every key of a query has exactly one row, whose count is the number of the queries with that key (modulo [2^32], as an [int]);
    the rows that were there stay, and counting starts again from nothing. *)
Theorem statistics_reported qs curtime t :
  Forall (fun q => well_formed_stats q.2) qs -> Forall (fun r => st_timestamp r <> i32 curtime) t ->
  exists ht, record_all qr_hashes_new qs = Some ht /\
    forall keys, keys ≡ₚ (map_to_list (c_hash ht)).*1 ->
    qr_report_iteration true keys curtime ht t = Some (qr_hashes_new, t ++ reported curtime (c_hash ht) keys) /\
    length (reported curtime (c_hash ht) keys) = length keys /\ NoDup keys /\
    (forall k, k ∈ keys <-> exists q, q ∈ qs /\ qr_key_string q.2 = k) /\
    forall k, k ∈ keys -> exists e, c_hash ht !! k = Some e /\ query_stats_row curtime e ∈ reported curtime (c_hash ht) keys /\
      st_exec_cnt (query_stats_row curtime e) = i32 (Z.of_nat (length (filter (fun q => qr_key_string q.2 = k) qs))).
Proof.
  intros Hq Ht. destruct (record_all_count qs qr_hashes_new [] Hq) as (ht & Hr & _). exists ht. split; [exact Hr|].
  assert (hash_ok (c_hash qr_hashes_new)) as Hok by (split; intros k e He; cbn in He; by rewrite lookup_empty in He).
  destruct (record_hash_ok qs qr_hashes_new ht Hq Hok Hr) as ([Hw Hs] & Hp & Hdom).
  assert (forall k, match c_hash ht !! k with
    | Some e => u32 (exec_cnt e) = u32 (Z.of_nat (length (filter (fun q => qr_key_string q.2 = k) qs)))
    | None => filter (fun q => qr_key_string q.2 = k) qs = [] end) as Hc.
  { intros k. destruct (record_all_count qs qr_hashes_new k Hq) as (ht' & Hr' & Hm). rewrite Hr in Hr'. injection Hr' as <-.
    destruct (c_hash ht !! k) as [e|]; [|by destruct Hm]. rewrite Hm. cbn [qr_hashes_new c_hash]. by rewrite lookup_empty. }
  intros keys Hk. split; [by rewrite report_spec, Hp by done|].
  assert (forall k, k ∈ keys <-> is_Some (c_hash ht !! k)) as Hin.
  { intros k. rewrite Hk, list_elem_of_fmap. split.
    - intros ([k' e] & -> & He%elem_of_map_to_list). by exists e.
    - intros [e He]. exists (k, e). split; [done|]. by apply elem_of_map_to_list. }
  split; [|split; [|split]].
  - unfold reported. rewrite length_fmap. assert (forall l, (forall k, k ∈ l -> is_Some (c_hash ht !! k)) -> length (omap (fun k => c_hash ht !! k) l) = length l) as Hl.
    { induction l as [|k l IH]; intros Hall; [done|]. cbn [omap list_omap length]. destruct (Hall k) as [e ->]; [left|]. cbn [length]. f_equal. apply IH. intros k' ?. apply Hall. by right. }
    apply Hl. intros k. apply Hin.
  - rewrite Hk. apply NoDup_fst_map_to_list.
  - intros k. rewrite Hin, Hdom. cbn [qr_hashes_new c_hash]. rewrite lookup_empty. split; [intros [[? ?]|?]; done|by right].
  - intros k [e He]%Hin. exists e. split; [done|]. split.
    + unfold reported. apply list_elem_of_fmap_2, list_elem_of_omap. exists k. split; [apply Hin; by exists e|done].
    + specialize (Hc k). rewrite He in Hc. cbn [query_stats_row st_exec_cnt]. apply i32_u32. exact Hc.
Qed.

Lemma statistics_reported_witness : exists ht t',
  record_all qr_hashes_new [(150, sample_stats); (170, sample_stats)] = Some ht /\
  qr_report_iteration true (map_to_list (c_hash ht)).*1 1000 ht [] = Some (qr_hashes_new, t') /\ length t' = 1%nat.
Proof.
  destruct (statistics_reported [(150, sample_stats); (170, sample_stats)] 1000 []) as (ht & Hr & H).
  - repeat (constructor; [split; [exact sample_stats_nul|simpl; lia]|]). constructor.
  - constructor.
  - destruct (H _ (Permutation_refl _)) as (E & Hl & Hd & Hk & _). exists ht, (reported 1000 (c_hash ht) (map_to_list (c_hash ht)).*1). split; [exact Hr|]. split; [exact E|].
    assert ((fun h => length (map_to_list (c_hash h)).*1) <$> record_all qr_hashes_new [(150, sample_stats); (170, sample_stats)] = Some 1%nat) as E1 by (by vm_compute).
    rewrite Hr in E1. rewrite Hl. by injection E1.
Defined.

(** A second report with a time that was used already, after the clock was set back, ends the process when a query with a server comes again: the INSERT fails and the assertion with it. *)
Theorem repeated_time_aborts e curtime ht :
  is_Some (mysql_server_address e) -> c_hash ht = {[ qr_key_string e := e ]} ->
  qr_report_iteration true [qr_key_string e] curtime ht [query_stats_row curtime e] = None.
Proof.
  intros [a Ha] Hc. unfold qr_report_iteration. cbn [p_hash foldl]. rewrite bind_Some. unfold statsdb_flush_query_stats. rewrite Hc, lookup_singleton_eq, bind_Some.
  unfold insert_stats. cbn [existsb]. unfold conflicts. rewrite bool_decide_eq_true_2; [done|]. split; [|done]. unfold primary_key, query_stats_row. cbn [st_address]. rewrite Ha. by eexists.
Qed.
