(* ===== verification/Relay.v ===== *)
(** * A query from the client to the server and back

    The parts of a session are composed here: one turn of [session_handler] (src/mysql_session.c) takes a query from the socket of the client through framing
    (DataStream.v), routing (Routing.v) and forwarding (SessionClient.v) to the socket of the server, and one turn takes the response of the server back
    (Session.v). *)
From S2P Require Import Prelude PtrArray Protocol DataStream QueryCache Tokenizer Routing ConnPool Backend Session SessionClient SessionLoop.
Open Scope Z_scope.

(** ** Streams with nothing in them *)

Record quiet_stream (d : mysql_data_stream_t) : Prop := {
  qs_ok : stream_ok d; qs_in : in_stream (input d) = []; qs_out : out_pending (output d) = [] }.

Lemma quiet_queues d : quiet_stream d ->
  queue_data (iqueue (input d)) = 0%nat /\ ipkts (input d) = [] /\ no_output d.
Proof.
  intros [[Hi _ _ Ho _] Hin Hout]. destruct (out_idle _ Ho Hout) as (Hc & Hm & Hp & Hz & _). unfold in_stream in Hin.
  apply app_eq_nil in Hin as [Hpk Hin]. apply app_eq_nil in Hin as [_ Hin].
  destruct Hi as [Hq Hw _]. destruct Ho as [Hqo _ _]. split; [|split].
  - by rewrite <- (contents_length _ Hq), Hin.
  - destruct (ipkts (input d)) as [|p ps]; [done|]. apply Forall_cons in Hw as [[Hl [H4 _]] _].
    rewrite fmap_cons, mjoin_cons in Hpk. apply app_eq_nil in Hpk as [Hpk _]. rewrite Hpk in H4. simpl in H4. lia.
  - split_and!; try done. by rewrite <- (contents_length _ Hqo), Hc.
Qed.

Lemma drain_empty junk d : queue_data (iqueue (input d)) = 0%nat -> drain junk d = Some d.
Proof. intros H. unfold drain. rewrite H. cbn [drain_input]. unfold buffer2array. by rewrite decide_True. Qed.

(** ** Sessions with nothing to do *)

(** The current backend, when there is one, has a stream with nothing in it. *)
Definition server_quiet (s : session) : Prop :=
  forall i, server_mybe s = Some i -> exists be d, mybes s !! i = Some be /\ server_myds be = Some d /\ quiet_stream d.

Record idle_session (s : session) : Prop := {
  is_client : quiet_stream (client_myds s); is_active : active (client_myds s) = true;
  is_server : server_quiet s; is_net : net_failure s = false }.

Lemma quiet_silent s : server_quiet s -> server_silent s.
Proof. intros Hq i Hi. destruct (Hq i Hi) as (be & d & Hb & Hd & Hqd). exists be, d. split_and!; [done..|by apply quiet_queues]. Qed.

Lemma on_quiet_server f s : server_quiet s -> (forall d, quiet_stream d -> f d = Some d) -> on_server_stream f s = Some s.
Proof.
  intros Hq Hf. unfold on_server_stream. destruct (server_mybe s) as [i|] eqn:Hi; [|done].
  destruct (Hq i Hi) as (be & d & Hb & Hd & Hqd). rewrite Hb, bind_Some, Hd, (Hf d Hqd), bind_Some. by rewrite set_stream_same.
Qed.

Lemma set_stream_twice i be d d' s : set_stream i (be <| server_myds := Some d |>) d' (set_stream i be d s) = set_stream i be d' s.
Proof. unfold set_stream, set_backend. cbn. rewrite list_insert_insert_eq. by destruct s. Qed.

Lemma set_stream_at i be d s : (i < length (mybes s))%nat -> mybes (set_stream i be d s) !! i = Some (be <| server_myds := Some d |>).
Proof. intros H. unfold set_stream, set_backend. cbn. by rewrite list_lookup_insert_eq. Qed.

(** The servers of the host groups, without their counters. *)
Definition server_groups (g : global_mysql_servers) : list (list mysql_server) :=
  (fun l : list MSHGE => MSptr <$> l) <$> hostgroups g.

Lemma server_groups_upd f m g : (forall e, MSptr (f e) = MSptr e) -> server_groups (upd_mshge f m g) = server_groups g.
Proof.
  intros Hf. unfold server_groups, upd_mshge. cbn. apply list_eq. intros i. rewrite !list_lookup_fmap.
  destruct (decide (i = fst m)) as [->|Hne]; [|by rewrite list_lookup_alter_ne].
  rewrite list_lookup_alter_eq. destruct (hostgroups g !! fst m) as [l|]; [|done]. cbn. f_equal. apply list_eq. intros j.
  rewrite !list_lookup_fmap. destruct (decide (j = snd m)) as [->|Hne]; [|by rewrite list_lookup_alter_ne].
  rewrite list_lookup_alter_eq. destruct (l !! snd m); [|done]. cbn. by rewrite Hf.
Qed.

Lemma mshge_at_groups g m : MSptr <$> mshge_at g m = (l ← server_groups g !! fst m; l !! snd m).
Proof.
  unfold mshge_at, server_groups. rewrite list_lookup_fmap. destruct (hostgroups g !! fst m) as [l|]; [|done]. cbn. by rewrite list_lookup_fmap.
Qed.

Lemma mshge_at_same g g' m e : server_groups g' = server_groups g -> mshge_at g m = Some e ->
  exists e', mshge_at g' m = Some e' /\ MSptr e' = MSptr e.
Proof.
  intros Hg He. pose proof (mshge_at_groups g m) as H1. rewrite He, <- Hg, <- mshge_at_groups in H1.
  destruct (mshge_at g' m) as [e'|]; [|done]. exists e'. by injection H1.
Qed.

(** Nothing is read from the current server: it is not readable or the session is not connected to it. *)
Definition server_unread (r1 : Z) (s : session) : Prop :=
  forall i be, server_mybe s = Some i -> mybes s !! i = Some be -> server_mycpe be = None \/ has r1 POLLIN = false.

(** ** The backend that a query is given to *)

(** The backend [be] for host group [hg]: the one the session holds, or the one [mysql_session_create_backend_for_hostgroup] makes with a connection of the pools or
    a new one; [g] and [w] are the servers and the pools afterwards. *)
Inductive obtains (junk : nat -> byte) (G : glovars_t) (o : oracle) (hg : Z) (s : session) (h : shared) (be : mysql_backend_t)
  : global_mysql_servers -> pools_state -> Prop :=
  | obtains_held : mybes s !! Z.to_nat hg = Some be -> is_Some (mshge be) -> is_Some (server_mycpe be) ->
      obtains junk G o hg s h be (glomysrvs h) (conn_pools h)
  | obtains_made be0 r : mybes s !! Z.to_nat hg = Some be0 -> mshge be0 = None \/ server_mycpe be0 = None ->
      mysql_session_create_backend_for_hostgroup junk (o_sends o) (net_buffer_size G) (mysql_hostgroups G) (glomysrvs h) hg
        (mkCred (mysql_username (sauth s)) (mysql_password (sauth s)) (mysql_schema_cur (sauth s))) (o_attempts o) (client_myds s) be0
        (conn_pools h) = Some r ->
      cr_be r = be -> cr_client r = client_myds s -> obtains junk G o hg s h be (cr_servers r) (cr_pools r).

Record reaches (junk : nat -> byte) (G : glovars_t) (o : oracle) (hg : Z) (be : mysql_backend_t) (d : mysql_data_stream_t)
    (g : global_mysql_servers) (w : pools_state) (s : session) (h : shared) : Prop := {
  re_range : 0 <= hg < mysql_hostgroups G; re_be : obtains junk G o hg s h be g w; re_stream : server_myds be = Some d;
  re_conn : is_Some (server_mycpe be);
  re_online : exists m e, mshge be = Some m /\ mshge_at g m = Some e /\ status (MSptr e) = ONLINE }.

Lemma connected_reaches junk G o hg be d s h :
  connected_to G hg ONLINE be d s h -> reaches junk G o hg be d (glomysrvs h) (conn_pools h) s h.
Proof. intros (Hhg & Hb & Hd & Hc & m & e & Hm & He & Hst). split; try done; [by constructor|by exists m, e]. Qed.

Lemma obtains_same junk G o hg s s' h h' be g w :
  sauth s' = sauth s -> client_myds s' = client_myds s -> mybes s' = mybes s -> glomysrvs h' = glomysrvs h -> conn_pools h' = conn_pools h ->
  obtains junk G o hg s h be g w -> obtains junk G o hg s' h' be g w.
Proof.
  intros E1 E2 E3 E4 E5 [Hb Hm Hc|be0 r Hb Hn Hr Hbe Hcl].
  - rewrite <- E4, <- E5. apply obtains_held; [congruence|done|done].
  - eapply obtains_made; [by rewrite E3|done| |done|congruence]. by rewrite E1, E2, E4, E5.
Qed.

Lemma reaches_same junk G o hg be d s s' h h' g w :
  sauth s' = sauth s -> client_myds s' = client_myds s -> mybes s' = mybes s -> glomysrvs h' = glomysrvs h -> conn_pools h' = conn_pools h ->
  reaches junk G o hg be d g w s h -> reaches junk G o hg be d g w s' h'.
Proof. intros E1 E2 E3 E4 E5 []. split; try done. by eapply obtains_same. Qed.

Lemma obtains_index junk G o hg s h be g w : obtains junk G o hg s h be g w -> (Z.to_nat hg < length (mybes s))%nat.
Proof. intros [Hb _ _|be0 r Hb _ _ _ _]; by eapply lookup_lt_Some. Qed.

(** The packet is given to the backend, whether it was held or made for it. *)
Lemma forward_reaches junk G o p hg be d g w s h :
  client_command s = COM_QUERY -> destination_hostgroup (query_info s) = hg -> prepared_statement s = 0 -> reaches junk G o hg be d g w s h ->
  exists q, forward junk G o p s h = Some (Next, forwarded hg be d q p s, h <| glomysrvs := g |> <| conn_pools := w |>) /\
    (mysql_query_statistics G = false -> q = query_info s).
Proof.
  intros Hcmd Hdst Hprep [Hhg Hob Hd Hc (m & e & Hm & He & Hst)]. pose proof (obtains_index _ _ _ _ _ _ _ _ _ Hob) as Hlt.
  destruct Hob as [Hb _ _|be0 r Hb Hn Hr Hbe Hcl].
  { replace (h <| glomysrvs := glomysrvs h |> <| conn_pools := conn_pools h |>) with h by (by destruct h).
    apply (forward_connected junk G o p hg be d s h Hcmd Hdst Hprep). split_and!; try done; [apply Hhg|apply Hhg|by exists m, e]. }
  set (s1 := set_backend (Z.to_nat hg) be s). set (h1 := h <| glomysrvs := cr_servers r |> <| conn_pools := cr_pools r |>).
  assert (connected_to G hg ONLINE be d s1 h1) as Hconn.
  { split_and!; try done; [apply Hhg|apply Hhg|exact (list_lookup_insert_eq _ _ _ Hlt)|by exists m, e]. }
  assert (forward junk G o p s h = forward junk G o p s1 h1) as ->.
  { rewrite (forward_unfold junk G o p hg ONLINE be d s1 h1 Hcmd Hdst Hprep Hconn). unfold forward, active_backend_for_hostgroup.
    rewrite Hcmd. cbn [negb Z.eqb COM_QUERY Pos.eqb]. rewrite bind_Some, Hdst. destruct (Z.eqb_spec hg (-1)); [lia|].
    destruct (Z.leb_spec (mysql_hostgroups G) hg); [lia|]. rewrite Hb, bind_Some.
    assert (match mshge be0, server_mycpe be0 with Some _, Some _ => true | _, _ => false end = false) as ->
      by (destruct Hn as [-> | ->]; by destruct (mshge be0)).
    rewrite bind_Some. unfold create_backend. rewrite Hb, bind_Some, Hr, !bind_Some, Hbe, Hcl.
    change ((set_backend (Z.to_nat hg) be s) <| client_myds := client_myds s |>) with (s1 <| client_myds := client_myds s1 |>). rewrite set_client_same.
    fold h1. rewrite (proj1 (proj2 Hconn)), bind_Some. destruct Hc as [c Hc]. rewrite Hc. change (prepared_statement s1) with (prepared_statement s). rewrite Hprep. cbn [Z.eqb].
    rewrite Hm, Hc. assert (set_backend (Z.to_nat hg) be s1 = s1) as -> by (unfold s1, set_backend; cbn; by rewrite list_insert_insert_eq).
    assert (server_status be h1 = Some ONLINE) as Hss by (unfold server_status; rewrite Hm, bind_Some; cbn; by rewrite He, bind_Some, Hst).
    by rewrite Hss, !bind_Some, (proj1 (proj2 Hconn)), bind_Some, Hss, bind_Some. }
  destruct (forward_connected junk G o p hg be d s1 h1 Hcmd Hdst Hprep Hconn) as (q & -> & Hq). exists q. split; [|exact Hq].
  f_equal. f_equal. f_equal. unfold forwarded, s1, set_backend. cbn. by rewrite list_insert_insert_eq.
Qed.

Section Turn.
Context (checksum md5 : list byte -> list byte) (rmatch : query_rule_t -> list byte -> bool)
        (rreplace : query_rule_t -> list byte -> option (list byte)) (junk : nat -> byte)
        (sha1 : list byte -> list byte) (users : user_table) (after_free : list byte -> list byte)
        (admin_COM_QUERY : pkt -> session -> shared -> option (session * shared)) (G : glovars_t).

Abbreviation handler_turn := (session_turn checksum md5 rmatch rreplace junk sha1 users after_free admin_COM_QUERY G).
Abbreviation handler_respond := (session_respond checksum md5 rmatch rreplace junk sha1 users after_free admin_COM_QUERY G).

(** Packets of the client arrive at an idle session. *)
Lemma turn_from_client t r0 r1 s h ps :
  idle_session s -> has r0 POLLIN = true -> server_unread r1 s -> recv_client t = Some (mjoin (data <$> ps)) ->
  Forall wf_pkt ps -> ps <> [] ->
  (length (mjoin (data <$> ps)) <= queue_available (iqueue (input (client_myds s))))%nat ->
  exists d, handler_turn t r0 r1 s h = handler_respond t r0 r1 ([], []) (s <| client_myds := d |>) h /\
    input_ok (input d) /\ drained (input d) /\ ipkts (input d) = ps /\ output d = output (client_myds s) /\ fd d = fd (client_myds s) /\
    active d = true /\ pkts_recv d = counted (length ps) (pkts_recv (client_myds s)) /\ pkts_sent d = pkts_sent (client_myds s) /\
    size (iqueue (input d)) = size (iqueue (input (client_myds s))) /\ in_stream (input d) = mjoin (data <$> ps).
Proof.
  intros [Hcl Hact Hsq Hnet] Hr0 Hr1 Hrecv Hps Hne Hlen. pose proof Hcl as [[Hi Hd Hsz Ho Hfd] Hin Hout].
  destruct (quiet_queues _ Hcl) as (_ & _ & [Hoq _]).
  destruct (read_whole_packets junk (client_myds s) ps Hi Hd Hin Hfd Hps Hne Hlen)
    as (d1 & d2 & e & Hr & He & Hdr & Hi2 & Hd2 & Hp2 & Ho1 & Hf1 & Ho2 & Hf2 & Ha1 & Ha2 & Hc1 & Hc2 & Hz2 & Hs2).
  exists d2. split; [|split_and!; (done || congruence)].
  unfold session_turn. rewrite Hact. cbn [negb]. unfold sync_net. rewrite <- Hrecv in Hr.
  assert (read_from_net_2 t r0 r1 s h = Some (s <| client_myds := d1 |>, h)) as ->.
  { unfold read_from_net_2. rewrite (proj2 (Z.ltb_lt _ _) Hfd), Hr0, Hr. cbn [andb]. rewrite !bind_Some. unfold note_failure. rewrite He.
    change (server_mybe (s <| client_myds := d1 |>)) with (server_mybe s). change (mybes (s <| client_myds := d1 |>)) with (mybes s).
    destruct (server_mybe s) as [i|] eqn:Hsi; [|done]. destruct (Hsq i Hsi) as (be & d & Hb & Hbd & _). rewrite Hb, bind_Some, Hbd.
    destruct (Hr1 i be Hsi Hb) as [-> | ->]; [done|]. rewrite andb_false_r. by destruct (server_mycpe be). }
  rewrite bind_Some. change (net_failure (s <| client_myds := d1 |>)) with (net_failure s). rewrite Hnet. cbn [negb andb].
  rewrite write_2_idle, !bind_Some; [|exact (quiet_silent _ Hsq)|cbn; by rewrite Ho1].
  change (net_failure (s <| client_myds := d1 |>)) with (net_failure s). rewrite Hnet. cbn [negb andb].
  unfold buffer2array_2. change (client_myds (s <| client_myds := d1 |>)) with d1. change (drain junk d1) with (drain_input (S (queue_data (iqueue (input d1)))) junk d1). rewrite Hdr, bind_Some, set_client_twice.
  rewrite on_quiet_server, bind_Some; [done|exact Hsq|]. intros d Hqd. apply drain_empty. apply (quiet_queues d Hqd).
Qed.

(** Packets of the server arrive: the bytes are counted for the server, the client is not read. *)
Lemma turn_from_server t r0 r1 s h i be d m ps :
  quiet_stream (client_myds s) -> active (client_myds s) = true -> net_failure s = false ->
  server_mybe s = Some i -> mybes s !! i = Some be -> server_myds be = Some d -> is_Some (server_mycpe be) -> mshge be = Some m ->
  is_Some (mshge_at (glomysrvs h) m) -> quiet_stream d -> has r0 POLLIN = false -> has r1 POLLIN = true ->
  recv_server t = Some (mjoin (data <$> ps)) -> Forall wf_pkt ps -> ps <> [] ->
  (length (mjoin (data <$> ps)) <= queue_available (iqueue (input d)))%nat ->
  exists d' g', handler_turn t r0 r1 s h = handler_respond t r0 r1 ([], []) (set_stream i be d' s) (h <| glomysrvs := g' |>) /\
    server_groups g' = server_groups (glomysrvs h) /\ input_ok (input d') /\ ipkts (input d') = ps /\ output d' = output d /\ fd d' = fd d /\
    drained (input d') /\ in_stream (input d') = mjoin (data <$> ps) /\ size (iqueue (input d')) = size (iqueue (input d)).
Proof.
  intros Hcl Hact Hnet Hi Hb Hd [c Hcpe] Hm [x Hx] Hqd Hr0 Hr1 Hrecv Hps Hne Hlen. pose proof Hqd as [[Hin Hdr _ _ Hfd] Hst _].
  destruct (quiet_queues _ Hqd) as (_ & _ & Hno). destruct (quiet_queues _ Hcl) as (Hcq & _ & [Hco _]).
  destruct (read_whole_packets junk d ps Hin Hdr Hst Hfd Hps Hne Hlen)
    as (d1 & d2 & e & Hr & He & Hdr2 & Hi2 & Hdd & Hp2 & Ho1 & _ & Ho2 & Hf2 & _ & _ & _ & _ & Hz2 & Hs2). rewrite <- Hrecv in Hr.
  pose proof (lookup_lt_Some _ _ _ Hb) as Hlt.
  assert (exists g', count_server be d e h = Some (h <| glomysrvs := g' |>) /\ server_groups g' = server_groups (glomysrvs h)) as (g' & Hcs & Hgr).
  { unfold count_server. rewrite He, Hm, bind_Some, Hx, bind_Some. destruct (_ && _).
    - eexists. split; [done|]. by apply server_groups_upd.
    - exists (glomysrvs h). by destruct h. }
  exists d2, g'. split; [|done]. unfold session_turn. rewrite Hact. cbn [negb]. unfold sync_net.
  assert (read_from_net_2 t r0 r1 s h = Some (set_stream i be d1 s, h <| glomysrvs := g' |>)) as ->.
  { unfold read_from_net_2. rewrite Hr0, andb_false_r, bind_Some, Hi, Hb, bind_Some, Hd, Hcpe, Hr1, (proj2 (Z.ltb_lt _ _) Hfd). cbn [andb].
    rewrite Hr, bind_Some, Hcs, bind_Some. unfold note_failure. by rewrite He. }
  rewrite bind_Some. change (net_failure (set_stream i be d1 s)) with (net_failure s). rewrite Hnet. cbn [negb andb].
  assert (server_silent (set_stream i be d1 s)) as Hsil.
  { intros j Hj. assert (j = i) as -> by (change (server_mybe s = Some j) in Hj; congruence).
    eexists _, d1. split; [by apply set_stream_at|]. split; [done|]. unfold no_output. by rewrite Ho1. }
  rewrite write_2_idle, !bind_Some; [|exact Hsil|exact Hco].
  change (net_failure (set_stream i be d1 s)) with (net_failure s). rewrite Hnet. cbn [negb andb].
  unfold buffer2array_2. change (client_myds (set_stream i be d1 s)) with (client_myds s). rewrite (drain_empty _ _ Hcq), bind_Some.
  change (client_myds s) with (client_myds (set_stream i be d1 s)). rewrite set_client_same. unfold on_server_stream.
  change (server_mybe (set_stream i be d1 s)) with (server_mybe s). rewrite Hi, set_stream_at, bind_Some by done. change (server_myds (be <| server_myds := Some d1 |>)) with (Some d1). cbv iota.
  change (drain junk d1) with (drain_input (S (queue_data (iqueue (input d1)))) junk d1). rewrite Hdr2, !bind_Some. by rewrite set_stream_twice.
Qed.

(** What the routing makes of the query [p] when there is no query cache. *)
Definition plan (t : clock) (p : pkt) (s : session) (h : shared) : option (route * list query_rule_t) :=
  r ← route_of s;
  r ← init_query_metadata junk md5 (mysql_query_statistics G) (monotonic t) (Some p) r;
  process_query_rules rmatch rreplace junk (gloDefHG h) false (i32 (mysql_query_cache_default_timeout G)) (gloQR h) r.

Lemma init_query_metadata_who st now p r r' :
  init_query_metadata junk md5 st now p r = Some r' -> user r' = user r /\ schema r' = schema r.
Proof.
  unfold init_query_metadata. intros H. px_run H. destruct p as [p|]; [px_run H; destruct st; [px_run H|]|]; by simplify_eq.
Qed.

Lemma process_query_rules_ttl g ttl rules r r' rules' :
  process_query_rules rmatch rreplace junk g false ttl rules r = Some (r', rules') -> cache_ttl (Routing.query_info r') = 0.
Proof.
  unfold process_query_rules. intros H. apply bind_inv in H as ([r1 rs1] & _ & H). injection H as <- _.
  unfold finish_destination. destruct (_ =? -1); [destruct (_ || _)|]; try done.
Qed.

Lemma query_routed t p s h r rules :
  mysql_query_cache_enabled G = false -> mysql_pkt_get_size p <= u64 (mysql_max_query_size G) -> plan t p s h = Some (r, rules) ->
  client_COM_QUERY checksum md5 rmatch rreplace junk G t p s h =
    Some (default p (qp (Routing.query_info r)), (set_route r s) <| resultset_progress := RESULTSET_WAITING |> <| resultset_size := 0 |>,
          h <| gloQR := rules |>).
Proof.
  intros Hoff Hsize Hplan. unfold client_COM_QUERY. destruct (Z.ltb_spec (u64 (mysql_max_query_size G)) (mysql_pkt_get_size p)); [lia|].
  unfold plan in Hplan. apply bind_inv in Hplan as (ri & Hri & Hplan). apply bind_inv in Hplan as (r0 & Hr0 & Hplan).
  rewrite Hri, bind_Some, Hr0, bind_Some, Hoff. cbn [andb]. rewrite bind_Some. cbn [Z.eqb].
  destruct (init_query_metadata_who _ _ _ _ _ Hr0) as (Hu & Hsc).
  set (s1 := (set_route r0 s) <| resultset_progress := RESULTSET_WAITING |> <| resultset_size := 0 |>).
  assert (route_of s1 = Some r0) as ->.
  { unfold route_of in *. change (sauth s1) with (sauth s). destruct (mysql_username (sauth s)) as [u|]; [|done].
    destruct (mysql_schema_cur (sauth s)) as [d|]; [|done]. rewrite !bind_Some in *. injection Hri as <-. cbn in Hu, Hsc.
    destruct r0. cbn in *. by subst. }
  rewrite bind_Some, Hplan, bind_Some.
  assert (set_route r s1 = (set_route r s) <| resultset_progress := RESULTSET_WAITING |> <| resultset_size := 0 |>) as -> by (unfold s1; by destruct s).
  change (query_info ((set_route r s) <| resultset_progress := _ |> <| resultset_size := _ |>)) with (Routing.query_info r).
  rewrite (process_query_rules_ttl _ _ _ _ _ _ Hplan). cbn [Z.ltb Z.compare]. by rewrite andb_false_r.
Qed.

(** The fields that the processing of a query leaves alone, and those it resets. *)
Record query_taken (s s' : session) : Prop := {
  qt_auth : sauth s' = sauth s; qt_client : client_myds s' = client_myds s; qt_mybes : mybes s' = mybes s; qt_net : net_failure s' = net_failure s;
  qt_poll : last_server_poll_fd s' = last_server_poll_fd s; qt_healthy : healthy s' = healthy s; qt_resultset : resultset s' = resultset s;
  qt_command : client_command s' = COM_QUERY; qt_progress : resultset_progress s' = RESULTSET_WAITING; qt_size : resultset_size s' = 0;
  qt_cache : query_to_cache s' = false }.

Lemma query_command o p s h r rules hg be d g w :
  mysql_query_cache_enabled G = false -> mysql_pkt_get_size p <= u64 (mysql_max_query_size G) ->
  data p !! 4%nat = Some (byte.of_Z COM_QUERY) -> admin (sauth s) = 0 -> healthy s = true ->
  plan (o_clock o) p s h = Some (r, rules) -> destination_hostgroup (Routing.query_info r) = hg -> reaches junk G o hg be d g w s h ->
  exists q s', process_client_pkt checksum md5 rmatch rreplace junk sha1 users after_free admin_COM_QUERY G o p s h =
      Some (Next, forwarded hg be d q (default p (qp (Routing.query_info r))) s', h <| gloQR := rules |> <| glomysrvs := g |> <| conn_pools := w |>) /\
    query_taken s s' /\ default_hostgroup s' = Routing.default_hostgroup r /\ (mysql_query_statistics G = false -> q = Routing.query_info r).
Proof.
  intros Hoff Hsize Hb Hadm Hhe Hplan Hdst Hconn. unfold process_client_pkt. rewrite Hb, bind_Some.
  change (uc (byte.of_Z COM_QUERY)) with COM_QUERY.
  set (s1 := s <| client_command := COM_QUERY |> <| mysql_query_cache_hit := false |> <| query_to_cache := false |>
               <| send_to_slave := false |> <| mysql_server_reconnect := _ |>).
  unfold client_command_dispatch. cbn [COM_QUERY COM_QUIT COM_STATISTICS COM_INIT_DB Z.eqb Pos.eqb].
  change (admin (sauth s1)) with (admin (sauth s)). rewrite Hadm. cbn [Z.eqb].
  rewrite (query_routed (o_clock o) p s1 h r rules Hoff Hsize Hplan), !bind_Some.
  set (s2 := (set_route r s1) <| resultset_progress := RESULTSET_WAITING |> <| resultset_size := 0 |>).
  change (healthy s2) with (healthy s). rewrite Hhe. cbn [negb].
  change (is_prepared (client_command s2)) with false. cbn match.
  set (s3 := s2 <| prepared_statement := 0 |>). change (mysql_query_cache_hit s3) with false. cbn match.
  destruct (forward_reaches junk G o (default p (qp (Routing.query_info r))) hg be d g w s3 (h <| gloQR := rules |>)) as (q & -> & Hq);
    [done|exact Hdst|done|by apply (reaches_same junk G o hg be d s s3 h)|]. exists q, s3. split; [done|split; [by split|by split]].
Qed.

End Turn.

(** ** Writing to the server *)

(** Everything that is to be sent is in the buffer. *)
Record loaded (o : mysql_uni_out) (bs : list byte) : Prop := {
  ld_ok : output_ok o; ld_mypkt : omypkt o = None; ld_pkts : opkts o = []; ld_bytes : contents (oqueue o) = bs }.

Lemma loaded_pending o bs : loaded o bs -> out_pending o = bs.
Proof. intros [_ Hm Hp <-]. unfold out_pending. rewrite Hm, Hp. apply app_nil_r. Qed.

Lemma loaded_idle o : output_ok o -> out_pending o = [] -> loaded o [].
Proof. intros Ho Hp. destruct (out_idle o Ho Hp) as (Hc & Hm & Hk & _). by split. Qed.

Lemma loaded_data o bs : loaded o bs -> queue_data (oqueue o) = length bs.
Proof. intros [[Hq _ _] _ _ <-]. symmetry. by apply contents_length. Qed.

Lemma loaded_full d bs : loaded (output d) bs -> fill d = Some d.
Proof.
  intros [[_ _ Hp] Hm Hk _]. rewrite Hm in Hp. unfold fill. cbn [fill_output]. unfold array2buffer. case_decide; [done|]. by rewrite Hp, Hk.
Qed.

(** What sending does not change. *)
Record sent_only (d d' : mysql_data_stream_t) : Prop := {
  sn_in : input d' = input d; sn_active : active d' = active d; sn_fd : fd d' = fd d; sn_sent : pkts_sent d' = pkts_sent d;
  sn_recv : pkts_recv d' = pkts_recv d; sn_size : size (oqueue (output d')) = size (oqueue (output d)) }.

#[export] Instance sent_only_preorder : PreOrder sent_only.
Proof. split; [by split|]. intros x y z [] []. split; congruence. Qed.

Lemma write_loaded r d bs : loaded (output d) bs -> (bs <> [] -> 0 <= r <= Z.of_nat (length bs)) ->
  exists n d' e, write_to_net r d = Some (n, d', e, take (Z.to_nat r) bs) /\ loaded (output d') (drop (Z.to_nat r) bs) /\
    DataStream.net_failure e = false /\ sent_only d d' /\ (bs = [] -> d' = d).
Proof.
  intros Hl Hr. pose proof (loaded_data _ _ Hl) as Hd. destruct (decide (bs = [])) as [->|Hne].
  { exists 0, d, no_effect. rewrite (write_idle r d Hd), take_nil, drop_nil. by split_and!. }
  destruct Hl as [Ho Hm Hk Hc]. destruct (write_to_net_ok r d Ho) as (d' & Hw & Ho' & _ & Hin & Ha & Hs & Hk' & Hm' & Hc').
  { rewrite Hd. by apply Hr. }
  { rewrite Hd. by destruct bs. }
  rewrite Hc in Hw, Hc'. destruct (write_to_net_frame _ _ _ _ _ _ Hw) as (H1 & H2 & H3 & H4); [by apply Hr|].
  eexists _, d', _. split; [exact Hw|]. split_and!; [split; congruence || done|exact H4|by split|done].
Qed.

Lemma write_2_loaded rc rs ign r0 r1 s h i be d m bc bs :
  server_mybe s = Some i -> mybes s !! i = Some be -> server_myds be = Some d -> mshge be = Some m -> is_Some (mshge_at (glomysrvs h) m) ->
  0 < fd (client_myds s) -> 0 < fd d -> loaded (output (client_myds s)) bc -> loaded (output d) bs ->
  (bc <> [] -> 0 <= rc <= Z.of_nat (length bc)) -> (bs <> [] -> 0 <= rs <= Z.of_nat (length bs)) ->
  let w0 := ign || has r0 POLLOUT in let w1 := ign || has r1 POLLOUT in
  exists dc d' g', write_to_net_2 rc rs ign r0 r1 s h = Some (set_stream i be d' (s <| client_myds := dc |>), h <| glomysrvs := g' |>,
      (if w0 then take (Z.to_nat rc) bc else [], if w1 then take (Z.to_nat rs) bs else [])) /\
    loaded (output dc) (if w0 then drop (Z.to_nat rc) bc else bc) /\ sent_only (client_myds s) dc /\ (bc = [] -> dc = client_myds s) /\
    loaded (output d') (if w1 then drop (Z.to_nat rs) bs else bs) /\ sent_only d d' /\ (bs = [] -> d' = d) /\
    server_groups g' = server_groups (glomysrvs h).
Proof.
  intros Hi Hb Hd Hm [x Hx] Hfc Hfd Hlc Hls Hrc Hrs w0 w1. unfold write_to_net_2. rewrite (proj2 (Z.ltb_lt _ _) Hfc). cbn [andb]. fold w0.
  assert (exists dc, (if w0 then '(_, d, e, out) ← write_to_net rc (client_myds s); Some (note_failure e (s <| client_myds := d |>), out) else Some (s, [])) =
      Some (s <| client_myds := dc |>, if w0 then take (Z.to_nat rc) bc else []) /\ loaded (output dc) (if w0 then drop (Z.to_nat rc) bc else bc) /\
      sent_only (client_myds s) dc /\ (bc = [] -> dc = client_myds s)) as (dc & -> & C1 & C2 & C3).
  { destruct w0; [|exists (client_myds s); rewrite set_client_same; by split_and!].
    destruct (write_loaded rc _ bc Hlc Hrc) as (n & dc & e & -> & H1 & H2 & H3 & H4). exists dc. rewrite bind_Some. unfold note_failure. rewrite H2. by split_and!. }
  exists dc. rewrite bind_Some. change (server_mybe (s <| client_myds := dc |>)) with (server_mybe s).
  change (mybes (s <| client_myds := dc |>)) with (mybes s). rewrite Hi, Hb, bind_Some, Hd, (proj2 (Z.ltb_lt _ _) Hfd). cbn [andb]. fold w1.
  destruct w1; [|exists d, (glomysrvs h); rewrite set_stream_same by done; split_and!; try done; by destruct h].
  destruct (write_loaded rs d bs Hls Hrs) as (n & d' & e & -> & H1 & H2 & H3 & H4). rewrite bind_Some.
  assert (exists g', (if decide (queue_data (oqueue (output d)) = 0%nat) then Some h else count_server be d e h) = Some (h <| glomysrvs := g' |>) /\
      server_groups g' = server_groups (glomysrvs h)) as (g' & -> & Hg).
  { case_decide; [exists (glomysrvs h); by destruct h|]. unfold count_server. rewrite H2. destruct (_ && _); [|exists (glomysrvs h); by destruct h].
    rewrite Hm, bind_Some, Hx, bind_Some. eexists. split; [done|]. by apply server_groups_upd. }
  exists d', g'. rewrite bind_Some. unfold note_failure. rewrite H2. by split_and!.
Qed.

Lemma set_stream_client i be d dc s : set_stream i be d (s <| client_myds := dc |>) = (set_stream i be d s) <| client_myds := dc |>.
Proof. done. Qed.

(** The end of a turn: what the two buffers hold leaves now when [poll] waited for this server, and in a later turn otherwise. *)
Lemma session_write_loaded t r0 r1 s s1 h i be d m bc bs out :
  array2buffer_2 s = Some s1 -> server_mybe s1 = Some i -> mybes s1 !! i = Some be -> server_myds be = Some d -> mshge be = Some m ->
  is_Some (mshge_at (glomysrvs h) m) -> 0 < fd (client_myds s1) -> 0 < fd d -> loaded (output (client_myds s1)) bc -> loaded (output d) bs ->
  (bc <> [] -> 0 <= send_client2 t <= Z.of_nat (length bc)) -> (bs <> [] -> 0 <= send_server2 t <= Z.of_nat (length bs)) ->
  net_failure s1 = false -> mysql_schema_cur (sauth s1) <> None ->
  let now := last_server_poll_fd s1 =? fd d in
  exists dc d' g', session_write t r0 r1 out s h = Some (true, set_stream i be d' (s1 <| client_myds := dc |>), h <| glomysrvs := g' |>,
      sent_app out (if now then (take (Z.to_nat (send_client2 t)) bc, take (Z.to_nat (send_server2 t)) bs) else ([], []))) /\
    loaded (output dc) (if now then drop (Z.to_nat (send_client2 t)) bc else bc) /\ sent_only (client_myds s1) dc /\ (bc = [] -> dc = client_myds s1) /\
    loaded (output d') (if now then drop (Z.to_nat (send_server2 t)) bs else bs) /\ sent_only d d' /\ (bs = [] -> d' = d) /\
    server_groups g' = server_groups (glomysrvs h).
Proof.
  intros Ha Hi Hb Hd Hm Hx Hfc Hfd Hlc Hls Hrc Hrs Hnet Hsch now. unfold session_write. rewrite Ha, bind_Some.
  assert (may_write_now s1 = now) as -> by (unfold may_write_now, server_stream, current_backend; by rewrite Hi, bind_Some, Hb, bind_Some, Hd).
  destruct now.
  - destruct (write_2_loaded (send_client2 t) (send_server2 t) true r0 r1 s1 h i be d m bc bs) as (dc & d' & g' & Hw & H); [done..|].
    cbn [orb] in Hw, H. exists dc, d', g'. split; [|exact H]. unfold sync_net. cbn [negb andb]. rewrite bind_Some, Hw, !bind_Some.
    change (net_failure (set_stream i be d' (s1 <| client_myds := dc |>))) with (net_failure s1). rewrite Hnet. cbn [negb andb].
    change (sauth (set_stream i be d' (s1 <| client_myds := dc |>))) with (sauth s1). by rewrite (bool_decide_false _ Hsch), andb_false_r.
  - rewrite bind_Some. cbn [negb]. rewrite (bool_decide_false _ Hsch), andb_false_r. cbn [negb].
    exists (client_myds s1), d, (glomysrvs h). rewrite set_client_same, set_stream_same by done. split_and!; try done. by destruct h.
Qed.

(** Packets of a stream that holds nothing else are copied into the buffer. *)
Lemma fill_packets d ps : output_ok (output d) -> queue_data (oqueue (output d)) = 0%nat -> omypkt (output d) = None -> opkts (output d) = ps ->
  (length (mjoin (data <$> ps)) <= size (oqueue (output d)))%nat ->
  exists d', fill d = Some d' /\ loaded (output d') (mjoin (data <$> ps)) /\ input d' = input d /\ active d' = active d /\ fd d' = fd d /\
    pkts_sent d' = counted (length ps) (pkts_sent d) /\ pkts_recv d' = pkts_recv d /\ size (oqueue (output d')) = size (oqueue (output d)).
Proof.
  intros Ho Hq Hm Hk Hsz. pose proof Ho as [Hqo Hw _]. rewrite Hk in Hw. pose proof (unsent_le _ Hw) as Hul.
  assert (queue_available (oqueue (output d)) = size (oqueue (output d))) as Hav.
  { destruct Hqo as [_ ? Hres]. unfold queue_data in Hq. unfold queue_available. lia. }
  assert (contents (oqueue (output d)) = []) as Hc0 by (apply nil_length_inv; by rewrite contents_length).
  destruct (fill_all ps (S (queue_available (oqueue (output d)))) d Ho Hm Hk) as (q & Hf & Hok & Hs & Hc); [lia|lia|]. rewrite Hc0 in Hc.
  eexists. split; [exact Hf|]. split; [by split|]. by split_and!.
Qed.

(** The end of a turn that gave one packet to the server. *)
Lemma write_query t r0 r1 s h i be d p m :
  server_mybe s = Some i -> mybes s !! i = Some be -> server_myds be = Some d -> mshge be = Some m -> is_Some (mshge_at (glomysrvs h) m) ->
  loaded (output (client_myds s)) [] -> 0 < fd (client_myds s) -> net_failure s = false -> mysql_schema_cur (sauth s) <> None ->
  0 < fd d -> output_ok (output d) -> queue_data (oqueue (output d)) = 0%nat -> omypkt (output d) = None -> opkts (output d) = [p] ->
  (length (data p) <= size (oqueue (output d)))%nat -> 0 <= send_server2 t <= Z.of_nat (length (data p)) ->
  let now := last_server_poll_fd s =? fd d in
  exists d' g', session_write t r0 r1 ([], []) s h =
      Some (true, set_stream i be d' s, h <| glomysrvs := g' |>, ([], if now then take (Z.to_nat (send_server2 t)) (data p) else [])) /\
    loaded (output d') (if now then drop (Z.to_nat (send_server2 t)) (data p) else data p) /\ input d' = input d /\ fd d' = fd d /\
    size (oqueue (output d')) = size (oqueue (output d)) /\ server_groups g' = server_groups (glomysrvs h).
Proof.
  intros Hi Hb Hd Hm Hx Hc1 Hfc Hnet Hsch Hfd Ho Hq Hom Hop Hsz Hr now.
  assert (mjoin (data <$> [p]) = data p) as Hj by (cbn; by rewrite app_nil_r).
  destruct (fill_packets d [p] Ho Hq Hom Hop) as (d1 & Hf & Hl1 & F1 & F2 & F3 & _ & _ & F4); [by rewrite Hj|]. rewrite Hj in Hl1.
  pose proof (set_stream_at i be d1 s (lookup_lt_Some _ _ _ Hb)) as Hb1. set (s1 := set_stream i be d1 s) in *.
  assert (array2buffer_2 s = Some s1) as Ha.
  { unfold array2buffer_2. rewrite (loaded_full _ _ Hc1), bind_Some, set_client_same. unfold on_server_stream. by rewrite Hi, Hb, bind_Some, Hd, Hf, bind_Some. }
  destruct (session_write_loaded t r0 r1 s s1 h i _ d1 m [] (data p) ([], []) Ha Hi Hb1 eq_refl Hm Hx Hfc)
    as (dc & d' & g' & -> & _ & _ & Hdc & Hl & [E1 E2 E3 E4 E5 E6] & _ & Hg); try done; [by rewrite F3|].
  rewrite (Hdc eq_refl), set_client_same. unfold s1 in *. rewrite set_stream_twice. change (last_server_poll_fd (set_stream i be d1 s)) with (last_server_poll_fd s) in *.
  rewrite F3 in *. fold now in Hl |- *. exists d', g'. rewrite take_nil. split; [by destruct now|]. split_and!; try done; congruence.
Qed.

(** ** The query *)

Lemma no_server_packets junk G t beyond i be d s h :
  server_mybe s = Some i -> mybes s !! i = Some be -> server_myds be = Some d -> ipkts (input d) = [] ->
  process_server_pkts junk G t beyond s h = Some (s, h).
Proof.
  intros Hi Hb Hd Hp. unfold process_server_pkts, server_stream, current_backend. rewrite Hi, bind_Some, Hb, bind_Some, Hd, Hp. cbn [length].
  cbn [process_server_loop]. by rewrite Hi, Hb, bind_Some, Hd, bind_Some, Hp.
Qed.

(** The session after a query was routed as [r] and given to the stream [d'] of the backend [be] of host group [hg]. *)
Record query_given (G : glovars_t) (hg : Z) (be : mysql_backend_t) (d' : mysql_data_stream_t) (r : route) (s s' : session) : Prop := {
  qg_auth : sauth s' = sauth s; qg_mybe : server_mybe s' = Some (Z.to_nat hg); qg_mybes : mybes s' = <[Z.to_nat hg := be <| server_myds := Some d' |>]> (mybes s);
  qg_net : net_failure s' = net_failure s; qg_poll : last_server_poll_fd s' = last_server_poll_fd s; qg_healthy : healthy s' = healthy s;
  qg_resultset : resultset s' = resultset s; qg_command : client_command s' = COM_QUERY; qg_progress : resultset_progress s' = RESULTSET_WAITING;
  qg_size : resultset_size s' = 0; qg_cache : query_to_cache s' = false; qg_default : default_hostgroup s' = Routing.default_hostgroup r;
  qg_info : mysql_query_statistics G = false -> query_info s' = Routing.query_info r }.

Lemma forwarded_given G hg be d q p d' r s dc s2 :
  query_taken (s <| client_myds := dc |>) s2 ->
  default_hostgroup s2 = Routing.default_hostgroup r -> (mysql_query_statistics G = false -> q = Routing.query_info r) ->
  query_given G hg be d' r s (set_stream (Z.to_nat hg) (be <| server_myds := Some (add_out p d) |>) d' (forwarded hg be d q p s2)).
Proof.
  intros [T1 T2 T3 T4 T5 T6 T7 T8 T9 T10 T11] Hdef Hq. split; try done. unfold set_stream, forwarded, set_backend. cbn. by rewrite list_insert_insert_eq, T3.
Qed.

(** The connections of the session and the pools are in order. *)
Record conns_ok (G : glovars_t) (bes : list mysql_backend_t) (w : pools_state) : Prop := {
  co_mybes : Z.of_nat (length bes) = mysql_hostgroups G; co_pools : state_inv w;
  co_keys : forall b c, b ∈ bes -> server_mycpe b = Some c -> key_ok (m_key (conn c)) }.

(** The session of a query that was given to a server waits for the response. *)
Lemma given_waiting G t hg be d' r s s' h' :
  query_given G hg be d' r s s' -> (Z.to_nat hg < length (mybes s))%nat -> conns_ok G (<[Z.to_nat hg := be]> (mybes s)) (conn_pools h') ->
  resultset s = [] -> group_inv (QC h') -> ipkts (input d') = [] -> stats_ready G t s' h' -> waiting G t s' h'.
Proof.
  intros [] Hlt [Hl Hw Hk] Hrs Hg Hin Hst. rewrite length_insert in Hl.
  assert (mybes s' !! Z.to_nat hg = Some (be <| server_myds := Some d' |>)) as Hb by (rewrite qg_mybes0; by apply list_lookup_insert_eq).
  split; try done.
  - split; [|by rewrite qg_mybes0, length_insert| |done]; [by eexists _, _, _|].
    intros b x Hin' Hx. rewrite qg_mybes0 in Hin'. apply list_elem_of_lookup_1 in Hin' as (j & Hj).
    apply list_lookup_insert_Some in Hj as [(<- & <- & _)|(Hne & Hj)].
    + apply (Hk be x); [|done]. apply (list_elem_of_lookup_2 _ (Z.to_nat hg)). by apply list_lookup_insert_eq.
    + apply (Hk b x); [|done]. apply (list_elem_of_lookup_2 _ j). by rewrite list_lookup_insert_ne.
  - congruence.
  - unfold input_queue, server_stream, current_backend. rewrite qg_mybe0, bind_Some, Hb, !bind_Some. cbn. by rewrite Hin.
Qed.

(** From the packet in the array of the client's stream to the end of the turn. *)
Lemma respond_query checksum md5 rmatch rreplace junk sha1 users after_free admin_query G t r0 r1 o os s h p r rules hg be d g w :
  ipkts (input (client_myds s)) = [p] -> loaded (output (client_myds s)) [] -> 0 < fd (client_myds s) -> net_failure s = false -> healthy s = true ->
  admin (sauth s) = 0 -> pkts_sent (client_myds s) <> 1 -> mysql_query_cache_enabled G = false -> t_oracles t = o :: os ->
  data p !! 4%nat = Some (byte.of_Z COM_QUERY) -> mysql_pkt_get_size p <= u64 (mysql_max_query_size G) ->
  plan md5 rmatch rreplace junk G (o_clock o) p s h = Some (r, rules) -> destination_hostgroup (Routing.query_info r) = hg ->
  (forall dc, reaches junk G o hg be d g w (s <| client_myds := dc |>) h) -> quiet_stream d ->
  let p' := default p (qp (Routing.query_info r)) in
  wf_pkt p' -> (length_of p' <= size (oqueue (output d)))%nat -> 0 <= send_server2 t <= Z.of_nat (length_of p') ->
  let now := last_server_poll_fd s =? fd d in
  exists s' g' d', session_respond checksum md5 rmatch rreplace junk sha1 users after_free admin_query G t r0 r1 ([], []) s h =
      Some (true, s', h <| gloQR := rules |> <| glomysrvs := g' |> <| conn_pools := w |>, ([], if now then take (Z.to_nat (send_server2 t)) (data p') else [])) /\
    query_given G hg be d' r s s' /\ client_myds s' = (client_myds s) <| input := (input (client_myds s)) <| ipkts := [] |> |> /\ loaded (output d') (if now then drop (Z.to_nat (send_server2 t)) (data p') else data p') /\
    input d' = input d /\ fd d' = fd d /\ size (oqueue (output d')) = size (oqueue (output d)) /\ server_groups g' = server_groups g.
Proof.
  intros Hp1 Hno Hfc Hnet Hhe Hadm Hps Hoff Hos Hcmd Hsize Hplan Hdst Hreach Hqd p' Hp' Hfit Hsend now.
  unfold session_respond. rewrite (proj2 (Z.eqb_neq _ _) Hps). cbn [andb]. rewrite bind_Some, Hos. cbn [process_client_pkts]. rewrite Hp1.
  set (s1 := s <| client_myds := (client_myds s) <| input := (input (client_myds s)) <| ipkts := [] |> |> |>).
  pose proof (Hreach (client_myds s1)) as Hre. change (s <| client_myds := client_myds s1 |>) with s1 in Hre.
  destruct (query_command checksum md5 rmatch rreplace junk sha1 users after_free admin_query G o p s1 h r rules hg be d g w)
    as (q & s2 & -> & Ht & Hdef & Hq); [done..|]. fold p'. pose proof Ht as [T1 T2 T3 T4 T5 T6 T7 T8 T9 T10 T11].
  destruct Hre as [Hhg Hob Hd Hcpe (m & e & Hm & He & Hst)]. destruct (quiet_queues d Hqd) as (_ & Hip & Hqe & Hom & Hop & _).
  assert (Z.to_nat hg < length (mybes s2))%nat as Hlt by (rewrite T3; exact (obtains_index _ _ _ _ _ _ _ _ _ Hob)). set (s3 := forwarded hg be d q p' s2).
  assert (mybes s3 !! Z.to_nat hg = Some (be <| server_myds := Some (add_out p' d) |>)) as Hbe3 by (exact (list_lookup_insert_eq _ _ _ Hlt)).
  rewrite bind_Some, process_client_none, bind_Some by (change (client_myds s3) with (client_myds s2); by rewrite T2). cbn [Z.eqb].
  rewrite (no_server_packets _ _ _ _ (Z.to_nat hg) _ (add_out p' d) s3 _ eq_refl Hbe3 eq_refl Hip), bind_Some.
  destruct Hqd as [[Hi _ _ Ho Hfd] _ _]. destruct Hp' as [Hpl Hpf]. rewrite <- Hpl in Hfit, Hsend.
  destruct (write_query t r0 r1 s3 (h <| gloQR := rules |> <| glomysrvs := g |> <| conn_pools := w |>) (Z.to_nat hg) _ (add_out p' d) p' m eq_refl Hbe3 eq_refl Hm)
    as (d' & g' & -> & Ho' & Hin' & Hfd' & Hsz' & Hg'); try done.
  - change (client_myds s3) with (client_myds s2). by rewrite T2.
  - change (client_myds s3) with (client_myds s2). by rewrite T2.
  - change (net_failure s3) with (net_failure s2). by rewrite T4.
  - change (sauth s3) with (sauth s2). rewrite T1. change (sauth s1) with (sauth s). unfold plan, route_of in Hplan.
    destruct (mysql_username _); [|done]. by destruct (mysql_schema_cur (sauth s)).
  - destruct Ho as [? ? ?]. constructor; try done. cbn. rewrite Hop. by apply Forall_singleton.
  - cbn. by rewrite Hop.
  - change (last_server_poll_fd s3) with (last_server_poll_fd s2) in *. rewrite T5 in *. change (last_server_poll_fd s1) with (last_server_poll_fd s) in *.
    change (fd (add_out p' d)) with (fd d) in *. fold now in Ho' |- *. exists (set_stream (Z.to_nat hg) (be <| server_myds := Some (add_out p' d) |>) d' s3), g', d'. split; [reflexivity|].
    split; [by apply (forwarded_given G hg be d q p' d' r s (client_myds s1))|]. split; [exact T2|]. by split_and!.
Qed.

(** The whole turn. *)
Lemma query_turn checksum md5 rmatch rreplace junk sha1 users after_free admin_query G t o os id c h g p r rules hg be d gs w :
  idle_session (sess c) -> healthy (sess c) = true -> admin (sauth (sess c)) = 0 -> pkts_sent (client_myds (sess c)) <> 1 ->
  mysql_query_cache_enabled G = false -> has (revents (fds0 c)) POLLIN = true -> server_unread (revents (fds1 c)) (sess c) ->
  recv_client t = Some (data p) -> t_oracles t = o :: os -> wf_pkt p -> data p !! 4%nat = Some (byte.of_Z COM_QUERY) ->
  mysql_pkt_get_size p <= u64 (mysql_max_query_size G) ->
  (length_of p <= queue_available (iqueue (input (client_myds (sess c)))))%nat ->
  plan md5 rmatch rreplace junk G (o_clock o) p (sess c) h = Some (r, rules) -> destination_hostgroup (Routing.query_info r) = hg ->
  (forall dc, reaches junk G o hg be d gs w ((sess c) <| client_myds := dc |>) h) -> quiet_stream d ->
  let p' := default p (qp (Routing.query_info r)) in
  wf_pkt p' -> (length_of p' <= size (oqueue (output d)))%nat -> 0 <= send_server2 t <= Z.of_nat (length_of p') ->
  let now := last_server_poll_fd (sess c) =? fd d in
  exists s' g' d', session_handler checksum md5 rmatch rreplace junk sha1 users after_free admin_query G t id c h g =
      Some (0, c <| sess_status := CONNECTION_ALL |> <| sess := s' |>, h <| gloQR := rules |> <| glomysrvs := g' |> <| conn_pools := w |>, g,
            ([], if now then take (Z.to_nat (send_server2 t)) (data p') else [])) /\
    query_given G hg be d' r (sess c) s' /\ loaded (output d') (if now then drop (Z.to_nat (send_server2 t)) (data p') else data p') /\
    input d' = input d /\ fd d' = fd d /\ size (oqueue (output d')) = size (oqueue (output d)) /\ server_groups g' = server_groups gs /\
    quiet_stream (client_myds s') /\ output (client_myds s') = output (client_myds (sess c)) /\ active (client_myds s') = true /\
    pkts_sent (client_myds s') = pkts_sent (client_myds (sess c)) /\ size (iqueue (input (client_myds s'))) = size (iqueue (input (client_myds (sess c)))).
Proof.
  intros Hid Hhe Hadm Hps Hoff Hr0 Hr1 Hrc Hos Hp Hcmd Hsize Hroom Hplan Hdst Hreach Hqd p' Hp' Hfit Hsend now.
  unfold session_handler. change (sess (c <| sess_status := CONNECTION_ALL |>)) with (sess c). rewrite Hhe.
  change (fds0 (c <| sess_status := CONNECTION_ALL |>)) with (fds0 c). change (fds1 (c <| sess_status := CONNECTION_ALL |>)) with (fds1 c).
  assert (mjoin (data <$> [p]) = data p) as Hj by (cbn; apply app_nil_r).
  destruct (turn_from_client checksum md5 rmatch rreplace junk sha1 users after_free admin_query G t (revents (fds0 c)) (revents (fds1 c)) (sess c) h [p])
    as (d1 & -> & Hi1 & Hd1 & Hp1 & Ho1 & Hf1 & Ha1 & _ & Hc2 & Hz1 & Hs1);
    [done|done|done|by rewrite Hj|by apply Forall_singleton|done|rewrite Hj; destruct Hp; lia|].
  destruct Hid as [[[_ _ Hrm Ho Hfd] _ Hout] _ _ Hnet].
  destruct (respond_query checksum md5 rmatch rreplace junk sha1 users after_free admin_query G t (revents (fds0 c)) (revents (fds1 c)) o os
    ((sess c) <| client_myds := d1 |>) h p r rules hg be d gs w) as (s' & g' & d' & -> & [] & Hcl & R2 & R3 & R4 & R5 & R6); try done.
  - cbn. rewrite Ho1. by apply loaded_idle.
  - cbn. by rewrite Hf1.
  - cbn. by rewrite Hc2.
  - rewrite bind_Some. exists s', g', d'. split; [reflexivity|]. change (client_myds ((sess c) <| client_myds := d1 |>)) with d1 in Hcl.
    split; [by split|]. split_and!; try done; rewrite Hcl; try done. split; cbn.
    + destruct Hi1, Hd1 as (Hd1 & Hd2 & Hd3). split; cbn; [by split|by split_and!|by rewrite Hz1|by rewrite Ho1|by rewrite Hf1].
    + unfold in_stream in Hs1 |- *. cbn. rewrite Hp1, Hj in Hs1. rewrite <- (app_nil_r (data p)) in Hs1 at 2. by apply app_inv_head in Hs1.
    + by rewrite Ho1.
Qed.

(** C3: a query crosses the proxy in one turn: when an idle session of a client that is logged in receives a query, the query cache is off and the routing chooses a host group
    for which the session holds a connection to an online server or gets one, from the pools or a new one, then the packet, as the rules rewrote it, is on its way to that server: what left
    the socket in this turn followed by what is still pending is exactly that packet (it leaves at once when [poll] waited for that server). Nothing goes to the client, the query cache
    is untouched, the pools change only as the connection was obtained, only the hits of the rules are counted, and the session waits for the response of that server. *)
Theorem query_reaches_server checksum md5 rmatch rreplace junk sha1 users after_free admin_query G t o os id c h g p r rules hg be d gs w :
  idle_session (sess c) -> healthy (sess c) = true -> admin (sauth (sess c)) = 0 -> pkts_sent (client_myds (sess c)) <> 1 ->
  mysql_query_cache_enabled G = false -> has (revents (fds0 c)) POLLIN = true -> server_unread (revents (fds1 c)) (sess c) ->
  recv_client t = Some (data p) -> t_oracles t = o :: os -> wf_pkt p -> data p !! 4%nat = Some (byte.of_Z COM_QUERY) ->
  mysql_pkt_get_size p <= u64 (mysql_max_query_size G) ->
  (length_of p <= queue_available (iqueue (input (client_myds (sess c)))))%nat ->
  plan md5 rmatch rreplace junk G (o_clock o) p (sess c) h = Some (r, rules) -> destination_hostgroup (Routing.query_info r) = hg ->
  (forall dc, reaches junk G o hg be d gs w ((sess c) <| client_myds := dc |>) h) -> quiet_stream d ->
  let p' := default p (qp (Routing.query_info r)) in
  wf_pkt p' -> (length_of p' <= size (oqueue (output d)))%nat -> 0 <= send_server2 t <= Z.of_nat (length_of p') ->
  let out := if last_server_poll_fd (sess c) =? fd d then take (Z.to_nat (send_server2 t)) (data p') else [] in
  exists c' h' d', session_handler checksum md5 rmatch rreplace junk sha1 users after_free admin_query G t id c h g = Some (0, c', h', g, ([], out)) /\
    server_mybe (sess c') = Some (Z.to_nat hg) /\ server_stream (sess c') = Some d' /\ out ++ out_pending (output d') = data p' /\
    out_pending (output (client_myds (sess c'))) = [] /\ gloQR h' = rules /\ QC h' = QC h /\ conn_pools h' = w /\
    server_groups (glomysrvs h') = server_groups gs /\
    (conns_ok G (<[Z.to_nat hg := be]> (mybes (sess c))) w -> resultset (sess c) = [] -> group_inv (QC h) ->
     forall t', stats_ready G t' (sess c') h' -> waiting G t' (sess c') h').
Proof.
  intros Hid Hhe Hadm Hps Hoff Hr0 Hr1 Hrc Hos Hp Hcmd Hsize Hroom Hplan Hdst Hreach Hqd p' Hp' Hfit Hsend out.
  destruct (query_turn checksum md5 rmatch rreplace junk sha1 users after_free admin_query G t o os id c h g p r rules hg be d gs w)
    as (s' & g' & d' & Hrun & Hgv & Hl & Hin & _ & _ & Hgr & Hcl & _); try done.
  eexists _, _, d'. split; [exact Hrun|]. cbn. pose proof (re_be _ _ _ _ _ _ _ _ _ _ (Hreach (client_myds (sess c)))) as Hlt%obtains_index.
  split_and!; try done; [by apply Hgv| | |by apply Hcl|].
  - unfold server_stream, current_backend. rewrite (qg_mybe _ _ _ _ _ _ _ Hgv), bind_Some, (qg_mybes _ _ _ _ _ _ _ Hgv).
    by rewrite list_lookup_insert_eq.
  - rewrite (loaded_pending _ _ Hl). unfold out. destruct (_ =? _); [apply take_drop|done].
  - intros Hco Hrs Hg t' Hst. eapply given_waiting; try done. rewrite Hin. by apply quiet_queues.
Qed.

(** ** The response *)

(** A stream of a server whose packets were taken and whose transaction flag may have changed. *)
Definition taken_from (d d' : mysql_data_stream_t) : Prop :=
  exists a k l, ipkts (input d) = k ++ l /\ d' = d <| active_transaction := a |> <| input := (input d) <| ipkts := l |> |>.

#[export] Instance taken_from_preorder : PreOrder taken_from.
Proof.
  split.
  - intros d. exists (active_transaction d), [], (ipkts (input d)). destruct d as [i]. by destruct i.
  - intros d1 d2 d3 (a & k & l & E & ->) (a' & k' & l' & E' & ->). cbn in E'. exists a', (k ++ k'), l'. split; [by rewrite E, E', app_assoc|done].
Qed.

(** What the packets of a server leave of a backend: its server, its stream, and its connection unless it was given back. *)
Record backend_kept (be be' : mysql_backend_t) : Prop := {
  bk_mshge : mshge be' = mshge be;
  bk_stream : match server_myds be with Some d => exists d', server_myds be' = Some d' /\ taken_from d d' | None => server_myds be' = None end;
  bk_conn : server_mycpe be' = server_mycpe be \/ server_mycpe be' = None;
  bk_last : (server_mycpe be = None -> last_mysql_connpool be = None) -> server_mycpe be' = None -> last_mysql_connpool be' = None }.

#[export] Instance backend_kept_preorder : PreOrder backend_kept.
Proof.
  split.
  - intros be. split; [done| |by left|done]. destruct (server_myds be) as [d|] eqn:E; [|done]. by exists d.
  - intros b1 b2 b3 [A1 A2 A3 A4] [B1 B2 B3 B4]. split; [congruence| |destruct A3, B3; (left; congruence) || (right; congruence)|].
    + destruct (server_myds b1) as [d|]; [|by rewrite A2 in B2]. destruct A2 as (d2 & E2 & H2). rewrite E2 in B2. destruct B2 as (d3 & E3 & H3).
      exists d3. split; [done|]. by etransitivity.
    + intros H1 H3. apply B4; [|done]. by apply A4.
Qed.

(** What the packets of a server leave alone: packets are only appended to the output of the client, connections only move to the pools. *)
Record relay_frame (x x' : session * shared) : Prop := {
  rf_auth : sauth x'.1 = sauth x.1; rf_net : net_failure x'.1 = net_failure x.1; rf_poll : last_server_poll_fd x'.1 = last_server_poll_fd x.1;
  rf_mybe : server_mybe x'.1 = server_mybe x.1; rf_command : client_command x'.1 = client_command x.1; rf_healthy : healthy x'.1 = healthy x.1;
  rf_default : default_hostgroup x'.1 = default_hostgroup x.1;
  rf_stats : query_stats (query_info x.1) = SNull -> query_stats (query_info x'.1) = SNull;
  rf_client : exists l, client_myds x'.1 = fold_left (fun d p => add_out p d) l (client_myds x.1);
  rf_backends : Forall2 backend_kept (mybes x.1) (mybes x'.1);
  rf_shared : glomysrvs x'.2 = glomysrvs x.2 /\ gloQR x'.2 = gloQR x.2 /\ gloDefHG x'.2 = gloDefHG x.2;
  rf_enabled : enabled (thr_myconnpool (conn_pools x'.2)) = enabled (thr_myconnpool (conn_pools x.2));
  rf_pool : forall P, Forall P (held (mybes x.1)) -> Forall P (idle_conns (conn_pools x.2)) -> Forall P (idle_conns (conn_pools x'.2)) }.

Lemma held_kept P l l' : Forall2 backend_kept l l' -> Forall P (held l) -> Forall P (held l').
Proof.
  induction 1 as [|be be' l l' [_ _ Hc _] _ IH]; [done|]. rewrite !held_cons, !Forall_app. intros [H1 H2]. split; [|by apply IH].
  destruct Hc as [-> | ->]; [done|by constructor].
Qed.

#[export] Instance relay_frame_preorder : PreOrder relay_frame.
Proof.
  split.
  - intros s. split; try done. by exists [].
  - intros s1 s2 s3 [A1 A2 A3 A4 A5 A6 A7 A8 (l & A9) A10 (A11 & A12 & A13) A14 A15] [B1 B2 B3 B4 B5 B6 B7 B8 (l' & B9) B10 (B11 & B12 & B13) B14 B15].
    split; try congruence.
    + auto.
    + exists (l ++ l'). by rewrite fold_left_app, <- A9.
    + by etransitivity.
    + split_and!; congruence.
    + intros P H1 H2. apply B15; [by eapply held_kept|by apply A15].
Qed.

Lemma frame_same s s' h h' :
  sauth s' = sauth s -> net_failure s' = net_failure s -> last_server_poll_fd s' = last_server_poll_fd s -> server_mybe s' = server_mybe s ->
  client_command s' = client_command s -> healthy s' = healthy s -> default_hostgroup s' = default_hostgroup s ->
  (query_stats (query_info s) = SNull -> query_stats (query_info s') = SNull) -> client_myds s' = client_myds s -> mybes s' = mybes s ->
  glomysrvs h' = glomysrvs h -> gloQR h' = gloQR h -> gloDefHG h' = gloDefHG h -> conn_pools h' = conn_pools h -> relay_frame (s, h) (s', h').
Proof.
  intros ? ? ? ? ? ? ? ? Hc Hm ? ? ? Hp. split; cbn; try done; [by exists []|by rewrite Hm|by rewrite Hp|by rewrite Hp].
Qed.

Lemma frame_out l s h : relay_frame (s, h) (fold_left (fun s p => out_client p s) l s, h).
Proof. rewrite out_client_fold. split; cbn; try done. by exists l. Qed.

(** A backend changes, and its connection may go to the pools. *)
Lemma frame_backend i be be' s h w :
  mybes s !! i = Some be -> backend_kept be be' -> enabled (thr_myconnpool w) = enabled (thr_myconnpool (conn_pools h)) ->
  (forall P, (forall c, server_mycpe be = Some c -> P (conn c)) -> Forall P (idle_conns (conn_pools h)) -> Forall P (idle_conns w)) ->
  relay_frame (s, h) (set_backend i be' s, h <| conn_pools := w |>).
Proof.
  intros Hb Hk He HP. split; cbn; try done; [by exists []| |].
  - rewrite <- (list_insert_id (mybes s) i be Hb) at 1. by apply Forall2_insert.
  - intros P Hh Hi. apply HP; [|done]. intros c Hc. rewrite (held_split _ _ _ Hb), Hc in Hh. cbn in Hh. by apply Forall_cons in Hh as [? _].
Qed.

Lemma frame_stream i be be' s h : mybes s !! i = Some be -> backend_kept be be' -> relay_frame (s, h) (set_backend i be' s, h).
Proof. intros Hb Hk. pose proof (frame_backend i be be' s h (conn_pools h) Hb Hk eq_refl) as H. destruct h. apply H. by intros P _ HP. Qed.

Lemma find_or_create_idle cp k l cp' : mysql_connpool_find_or_create cp k = Some (l, cp') -> idle cp' = idle cp /\ enabled cp' = enabled cp.
Proof.
  unfold mysql_connpool_find_or_create. intros H. px_run H. destruct x; [by simplify_eq|]. injection H as <- <-. unfold idle. cbn.
  by rewrite fmap_app, join_app, app_nil_r.
Qed.

Lemma detach_idle now ref mc fc w w' : mysql_connpool_detach_connection now ref mc fc w = Some w' ->
  enabled (thr_myconnpool w') = enabled (thr_myconnpool w) /\
  forall P, P (conn mc) -> Forall P (idle_conns w) -> Forall P (idle_conns w').
Proof.
  unfold mysql_connpool_detach_connection. intros H. do 3 (destruct (_ : bool) in H; [by injection H as <-|]).
  apply bind_inv in H as ([l cp] & Hf & H).
  assert (idle cp = idle (thr_myconnpool w) /\ enabled cp = enabled (thr_myconnpool w)) as [Hi He].
  { destruct ref; [by injection Hf as <- <-|by apply find_or_create_idle in Hf]. }
  destruct (_ <=? _).
  { injection H as <-. split; [done|]. intros P _. unfold idle_conns. cbn. by rewrite Hi. }
  apply bind_inv in H as (mcp & Hm & H). injection H as <-. split; [done|]. intros P Hc HP. unfold idle_conns in *. cbn in *.
  destruct (idle_insert cp l mcp (free_conns mcp ++ [mc]) Hm) as (others & H1 & H2). rewrite <- Hi, H1 in HP. rewrite H2.
  rewrite !fmap_app, !Forall_app in *. destruct HP as [[HP1 HP2] HP3]. split_and!; try done. cbn. by apply Forall_singleton.
Qed.

Lemma detach_kept now be w be' w' : backend_detach now 0 be w = Some (be', w') ->
  backend_kept be be' /\ enabled (thr_myconnpool w') = enabled (thr_myconnpool w) /\
  forall P, (forall c, server_mycpe be = Some c -> P (conn c)) -> Forall P (idle_conns w) -> Forall P (idle_conns w').
Proof.
  assert (forall mc, backend_kept be (be <| last_mysql_connpool := None |> <| server_mycpe := mc |>) <-> mc = server_mycpe be \/ mc = None) as Hk.
  { intros mc. split; [by intros []|]. intros H. split; cbn; try done. destruct (server_myds be) as [d|]; [|done]. by exists d. }
  unfold backend_detach, backend_reset_server_mycpe. cbn. destruct (server_mycpe be) as [mc|] eqn:Ec.
  - destruct (negb _).
    + intros H. apply bind_inv in H as (w1 & Hd & H). injection H as <- <-. destruct (detach_idle _ _ _ _ _ _ Hd) as [He HP].
      split; [apply Hk; by right|]. split; [done|]. intros P Hc. apply HP. by apply Hc.
    + intros [= <- <-]. split; [|done]. specialize (Hk (Some mc)). destruct be. cbn in *. subst. apply Hk. by left.
  - intros [= <- <-]. split; [|done]. specialize (Hk None). destruct be. cbn in *. subst. apply Hk. by left.
Qed.

Section Frame.
Context (junk : nat -> byte) (G : glovars_t) (t : clock) (beyond : list byte).

Lemma detach_loop_frame n : forall i s h s' h', detach_loop G t n i s h = Some (s', h') -> relay_frame (s, h) (s', h').
Proof.
  induction n as [|n IH]; intros i s h s' h' H; cbn [detach_loop] in H; [by simplify_eq|].
  apply bind_inv in H as (be & Hb & H). apply bind_inv in H as (d & _ & H). apply bind_inv in H as ([s1 h1] & H1 & H).
  etransitivity; [|by eapply IH]. destruct (_ && _); [|by simplify_eq].
  apply bind_inv in H1 as ([be' w] & Hd & H1). simplify_eq. destruct (detach_kept _ _ _ _ _ Hd) as (Hk & He & HP). by apply (frame_backend i be).
Qed.

Lemma detach_all_frame s h s' h' : detach_all G t s h = Some (s', h') -> relay_frame (s, h) (s', h').
Proof.
  unfold detach_all. intros H. apply bind_inv in H as ([s1 h1] & H1 & H). simplify_eq.
  etransitivity; [by eapply detach_loop_frame|]. by apply frame_same.
Qed.

Lemma resultset_step_frame r s h s' h' : resultset_step G t r s h = Some (s', h') -> relay_frame (s, h) (s', h').
Proof.
  unfold resultset_step. intros H. destruct r; try case_decide;
    first [injection H as <- <-; by apply frame_same|etransitivity; [|by eapply detach_all_frame]; by apply frame_same].
Qed.

Lemma resultset_store_frame p s h : relay_frame (s, h) (resultset_store G p s, h).
Proof.
  unfold resultset_store. destruct (_ <? _); [by apply frame_same|].
  set (s1 := s <| resultset_size := _ |>). set (s2 := s1 <| query_to_cache := false |> <| resultset := [] |>).
  transitivity (s2, h); [by apply frame_same|]. transitivity (fold_left (fun s p => out_client p s) (resultset s1) s2, h); [apply frame_out|].
  apply (frame_out [p]).
Qed.

Lemma resultset_cache_frame s h h' : resultset_cache junk G s h = Some h' ->
  glomysrvs h' = glomysrvs h /\ gloQR h' = gloQR h /\ gloDefHG h' = gloDefHG h /\ conn_pools h' = conn_pools h.
Proof. unfold resultset_cache. intros H. px_run H. destruct (_ <? _); [by injection H as <-|]. px_run H. px_run H. by injection H as <-. Qed.

Lemma resultset_complete_frame s h s' h' : resultset_complete junk G t s h = Some (s', h') -> relay_frame (s, h) (s', h').
Proof.
  unfold resultset_complete. intros H. apply bind_inv in H as ([s1 h1] & H1 & H). apply bind_inv in H as (h2 & H2 & H). injection H as <- <-.
  transitivity (s1, h1).
  { destruct (mysql_query_statistics G); [|injection H1 as <- <-; by apply frame_same]. unfold session_statistics in H1.
    destruct (query_stats _); try done. px_run H1. injection H1 as <- <-. by apply frame_same. }
  set (s2 := (sync_server_bytes_at_cmd s1) <| send_to_slave := false |>) in *.
  assert (glomysrvs h2 = glomysrvs h1 /\ gloQR h2 = gloQR h1 /\ gloDefHG h2 = gloDefHG h1 /\ conn_pools h2 = conn_pools h1) as (E1 & E2 & E3 & E4).
  { destruct (query_to_cache s2); [by eapply resultset_cache_frame|by injection H2 as <-]. }
  transitivity (s2, h2); [by apply frame_same|]. destruct (_ <? _); [|done].
  transitivity (fold_left (fun s p => out_client p s) (resultset s2) s2, h2); [apply frame_out|by apply frame_same].
Qed.

Lemma stream_kept be d d' : server_myds be = Some d -> taken_from d d' -> backend_kept be (be <| server_myds := Some d' |>).
Proof. intros Hd Ht. split; cbn; try done; [|by left]. rewrite Hd. by exists d'. Qed.

Lemma process_server_pkt_frame p s h s' h' :
  client_command s = COM_QUERY -> process_server_pkt junk G t beyond p s h = Some (s', h') -> relay_frame (s, h) (s', h').
Proof.
  intros Hc H. unfold process_server_pkt in H. apply bind_inv in H as (r & _ & H). apply bind_inv in H as (s1 & H1 & H).
  assert (relay_frame (s, h) (s1, h)) as Hf.
  { destruct (_ || _); [|by injection H1 as <-]. apply bind_inv in H1 as (i & _ & H1). apply bind_inv in H1 as (be & Hb & H1).
    apply bind_inv in H1 as (d & Hd & H1). apply bind_inv in H1 as (a & _ & H1). injection H1 as <-. apply (frame_stream i be); [done|].
    apply (stream_kept be d); [done|]. exists a, [], (ipkts (input d)). destruct d as [y]. by destruct y. }
  transitivity (s1, h); [done|]. rewrite (rf_command _ _ Hf : client_command s1 = client_command s), Hc in H. cbn [COM_QUERY COM_QUIT COM_INIT_DB COM_STATISTICS Z.eqb Pos.eqb] in H.
  unfold server_COM_QUERY in H. apply bind_inv in H as ([s2 h2] & H2 & H).
  transitivity (s2, h2); [by eapply resultset_step_frame|]. transitivity (resultset_store G p s2, h2); [apply resultset_store_frame|].
  case_decide; [by eapply resultset_complete_frame|]. by injection H as <- <-.
Qed.

Lemma process_server_loop_frame n : forall s h s' h',
  client_command s = COM_QUERY -> process_server_loop junk G t beyond n s h = Some (s', h') -> relay_frame (s, h) (s', h').
Proof.
  assert (Hnone : forall n s h s' h', server_mybe s = None -> process_server_loop junk G t beyond n s h = Some (s', h') -> relay_frame (s, h) (s', h')).
  { intros k s h s' h' Hn H. destruct k; cbn [process_server_loop] in H; rewrite Hn in H; by injection H as <- <-. }
  induction n as [|n IH]; intros s h s' h' Hc H; (destruct (server_mybe s) as [i|] eqn:Hi; [|by eapply Hnone]); cbn [process_server_loop] in H;
    rewrite Hi in H; apply bind_inv in H as (be & Hb & H); apply bind_inv in H as (d & Hd & H); (destruct (ipkts (input d)) as [|p ps] eqn:Hin; [by injection H as <- <-|]); [done|].
  apply bind_inv in H as ([s2 h2] & H2 & H).
  set (s1 := set_backend i _ s) in H2. assert (relay_frame (s, h) (s1, h)) as Hf.
  { apply (frame_stream i be); [done|]. apply (stream_kept be d); [done|]. exists (active_transaction d), [p], ps. rewrite Hin. by destruct d. }
  pose proof (process_server_pkt_frame _ _ _ _ _ (eq_trans (rf_command _ _ Hf) Hc) H2) as Hf2.
  transitivity (s1, h); [done|]. transitivity (s2, h2); [done|]. eapply IH; [|exact H]. exact (eq_trans (rf_command _ _ Hf2) (eq_trans (rf_command _ _ Hf) Hc)).
Qed.

End Frame.

Lemma add_out_all l : forall d, fold_left (fun d p => add_out p d) l d = d <| output := (output d) <| opkts := opkts (output d) ++ l |> |>.
Proof.
  induction l as [|p l IH]; intros d; cbn [fold_left]; [rewrite app_nil_r; destruct d as [? o]; by destruct o|].
  rewrite IH. cbn. by rewrite <- app_assoc.
Qed.

(** The packets of a whole response, read from the stream of the current backend. *)
Lemma response_processed junk G t beyond s h h1 i be d2 ps :
  0 <= mysql_hostgroups G -> waiting G t s h -> server_mybe s = Some i -> mybes s !! i = Some be -> is_Some (server_myds be) ->
  conn_pools h1 = conn_pools h -> QC h1 = QC h -> QR_HASH_T h1 = QR_HASH_T h -> ipkts (input d2) = ps -> response_ok beyond s ps ->
  exists s' h', process_server_pkts junk G t beyond (set_stream i be d2 s) h1 = Some (s', h') /\
    served G s h1 ps s' h' /\ input_queue s' = Some [] /\ relay_frame (set_stream i be d2 s, h1) (s', h').
Proof.
  intros Hhg [Hok Hc Hp Hr Hz Hq Hg Hst] Hi Hb Hd Hcp Hqc Hqr Hin [(ts & Hts & Hresp) Hrd Hwf Hck Hlen].
  set (d0 := d2 <| input := (input d2) <| ipkts := [] |> |>). set (s0 := set_stream i be d0 s).
  pose proof (lookup_lt_Some _ _ _ Hb) as Hlt. pose proof (set_stream_at i be d0 s Hlt) as Hb0. fold s0 in Hb0.
  assert (sess_ok G s0 h1) as Hok0.
  { assert (sess_ok G s h1) as Hok1 by (destruct Hok; split; rewrite ?Hcp; done). apply (set_backend_same G s h1 i be); try done. }
  assert (arrive ps s0 = Some (set_stream i be d2 s)) as Harr.
  { unfold arrive. change (server_mybe s0) with (server_mybe s). rewrite Hi, bind_Some, Hb0, bind_Some.
    change (server_myds (be <| server_myds := Some d0 |>)) with (Some d0). rewrite bind_Some. unfold set_queue.
    assert (d0 <| input := (input d0) <| ipkts := ipkts (input d0) ++ ps |> |> = d2) as -> by (unfold d0; rewrite <- Hin; destruct d2 as [x]; by destruct x).
    f_equal. apply set_stream_twice. }
  destruct (serve_spec junk G t beyond s h1 ps ts [ps] [] s0 h1) as (s' & h' & E & Hsv & Hq'); try done.
  - by rewrite Hqc.
  - unfold stats_ready in *. by rewrite Hqr.
  - split; [|exact Hp]. split; try done. intros _. split_and!; [done|by rewrite app_nil_r|done].
  - unfold input_queue, server_stream, current_backend. change (server_mybe s0) with (server_mybe s). by rewrite Hi, bind_Some, Hb0.
  - apply Forall_singleton. intros ->. destruct ts; [inversion Hresp|discriminate Hts].
  - cbn. by rewrite app_nil_r.
  - cbn [serve] in E. rewrite Harr, bind_Some in E. apply bind_inv in E as ([s1 h2] & E & E'). injection E' as -> ->.
    exists s', h'. split_and!; try done. unfold process_server_pkts in E. destruct (server_stream _); [|by injection E as <- <-].
    eapply process_server_loop_frame; [|exact E]. exact Hc.
Qed.

(** The session is connected to the server of its current backend, and nothing is on the way to or from that server. *)
Record listening_to (i : nat) (be : mysql_backend_t) (d : mysql_data_stream_t) (s : session) (h : shared) : Prop := {
  lt_cur : server_mybe s = Some i; lt_be : mybes s !! i = Some be; lt_stream : server_myds be = Some d; lt_conn : is_Some (server_mycpe be);
  lt_server : exists m, mshge be = Some m /\ is_Some (mshge_at (glomysrvs h) m); lt_quiet : quiet_stream d; lt_poll : last_server_poll_fd s = fd d }.

(** The end of a turn that gave the packets of a response to the client. *)
Lemma write_response t r0 r1 s h i be d m ps :
  server_mybe s = Some i -> mybes s !! i = Some be -> server_myds be = Some d -> mshge be = Some m -> is_Some (mshge_at (glomysrvs h) m) ->
  loaded (output d) [] -> 0 < fd d -> 0 < fd (client_myds s) -> net_failure s = false -> mysql_schema_cur (sauth s) <> None -> last_server_poll_fd s = fd d ->
  output_ok (output (client_myds s)) -> queue_data (oqueue (output (client_myds s))) = 0%nat -> omypkt (output (client_myds s)) = None ->
  opkts (output (client_myds s)) = ps ->
  let bytes := mjoin (data <$> ps) in
  (length bytes <= size (oqueue (output (client_myds s))))%nat -> 0 <= send_client2 t <= Z.of_nat (length bytes) ->
  exists dc g', session_write t r0 r1 ([], []) s h =
      Some (true, s <| client_myds := dc |>, h <| glomysrvs := g' |>, (take (Z.to_nat (send_client2 t)) bytes, [])) /\
    loaded (output dc) (drop (Z.to_nat (send_client2 t)) bytes) /\ input dc = input (client_myds s) /\ active dc = active (client_myds s) /\
    fd dc = fd (client_myds s) /\ pkts_sent dc = counted (length ps) (pkts_sent (client_myds s)) /\
    size (oqueue (output dc)) = size (oqueue (output (client_myds s))) /\ server_groups g' = server_groups (glomysrvs h).
Proof.
  intros Hi Hb Hd Hm Hx Hl Hfd Hfc Hnet Hsch Hpoll Ho Hq Hom Hop bytes Hsz Hr.
  destruct (fill_packets (client_myds s) ps Ho Hq Hom Hop Hsz) as (d1 & Hf & Hl1 & F1 & F2 & F3 & F4 & F5 & F6).
  assert (array2buffer_2 s = Some (s <| client_myds := d1 |>)) as Ha.
  { unfold array2buffer_2. rewrite Hf, bind_Some. unfold on_server_stream. change (server_mybe (s <| client_myds := d1 |>)) with (server_mybe s).
    change (mybes (s <| client_myds := d1 |>)) with (mybes s). rewrite Hi, Hb, bind_Some, Hd, (loaded_full _ _ Hl), bind_Some. by rewrite set_stream_same. }
  destruct (session_write_loaded t r0 r1 s (s <| client_myds := d1 |>) h i be d m bytes [] ([], []) Ha Hi Hb Hd Hm Hx)
    as (dc & d' & g' & -> & Hlc & [E1 E2 E3 E4 E5 E6] & _ & _ & _ & Hd' & Hg); try done; [cbn; by rewrite F3|].
  rewrite (Hd' eq_refl), set_client_twice, set_stream_same by done.
  change (last_server_poll_fd (s <| client_myds := d1 |>)) with (last_server_poll_fd s) in *. change (client_myds (s <| client_myds := d1 |>)) with d1 in *.
  rewrite Hpoll, Z.eqb_refl in *. exists dc, g'. rewrite take_nil. split; [done|]. split_and!; try done; congruence.
Qed.

(** The whole turn in which a response arrives: [d2] is the stream of the server with the packets, [s1] the session before the writing. *)
Lemma response_turn checksum md5 rmatch rreplace junk sha1 users after_free admin_query G t id c h g i be d ps :
  0 <= mysql_hostgroups G -> waiting G (t_clock t) (sess c) h -> listening_to i be d (sess c) h ->
  quiet_stream (client_myds (sess c)) -> active (client_myds (sess c)) = true -> net_failure (sess c) = false -> healthy (sess c) = true ->
  pkts_sent (client_myds (sess c)) <> 1 -> mysql_schema_cur (sauth (sess c)) <> None ->
  has (revents (fds0 c)) POLLIN = false -> has (revents (fds1 c)) POLLIN = true ->
  let bytes := mjoin (data <$> ps) in
  recv_server t = Some bytes -> response_ok (t_beyond t) (sess c) ps -> Forall wf_pkt ps ->
  (length bytes <= queue_available (iqueue (input d)))%nat -> (length bytes <= size (oqueue (output (client_myds (sess c)))))%nat ->
  0 <= send_client2 t <= Z.of_nat (length bytes) ->
  exists d2 g2 s1 h1 dc g', session_handler checksum md5 rmatch rreplace junk sha1 users after_free admin_query G t id c h g =
      Some (0, c <| sess_status := CONNECTION_ALL |> <| sess := s1 <| client_myds := dc |> |>, h1 <| glomysrvs := g' |>, g, (take (Z.to_nat (send_client2 t)) bytes, [])) /\
    served G (sess c) (h <| glomysrvs := g2 |>) ps s1 h1 /\ input_queue s1 = Some [] /\
    relay_frame (set_stream i be d2 (sess c), h <| glomysrvs := g2 |>) (s1, h1) /\
    server_groups g2 = server_groups (glomysrvs h) /\ server_groups g' = server_groups (glomysrvs h1) /\
    input_ok (input d2) /\ drained (input d2) /\ in_stream (input d2) = bytes /\ ipkts (input d2) = ps /\ output d2 = output d /\ fd d2 = fd d /\
    size (iqueue (input d2)) = size (iqueue (input d)) /\
    loaded (output dc) (drop (Z.to_nat (send_client2 t)) bytes) /\ input dc = input (client_myds (sess c)) /\ active dc = true /\
    fd dc = fd (client_myds (sess c)) /\ pkts_sent dc = counted (length ps) (pkts_sent (client_myds (sess c))) /\
    size (oqueue (output dc)) = size (oqueue (output (client_myds (sess c)))).
Proof.
  intros Hhg Hw [Hi Hb Hd Hcpe (m & Hm & Hx) Hqd Hpoll] Hcl Hact Hnet Hhe Hps Hsch Hr0 Hr1 bytes Hrecv Hresp Hwf Hroom Hfit Hsend.
  assert (ps <> []) as Hne by (intros ->; destruct (rp_types _ _ _ Hresp) as ([] & Hts & Hr); [inversion Hr|discriminate Hts]).
  unfold session_handler. change (sess (c <| sess_status := CONNECTION_ALL |>)) with (sess c). rewrite Hhe.
  change (fds0 (c <| sess_status := CONNECTION_ALL |>)) with (fds0 c). change (fds1 (c <| sess_status := CONNECTION_ALL |>)) with (fds1 c).
  destruct (turn_from_server checksum md5 rmatch rreplace junk sha1 users after_free admin_query G t (revents (fds0 c)) (revents (fds1 c)) (sess c) h i be d m ps)
    as (d2 & g2 & -> & Hg2 & Hi2 & Hp2 & Ho2 & Hf2 & Hdd & Hs2 & Hz2); [done..|].
  destruct (quiet_queues _ Hcl) as (_ & Hcp & Hco & Hcm & Hck & _). set (s0 := set_stream i be d2 (sess c)). unfold session_respond.
  change (client_myds s0) with (client_myds (sess c)). rewrite (proj2 (Z.eqb_neq _ _) Hps). cbn [andb].
  rewrite bind_Some, process_client_none, bind_Some by exact Hcp. cbn [Z.eqb].
  destruct (response_processed junk G (t_clock t) (t_beyond t) (sess c) h (h <| glomysrvs := g2 |>) i be d2 ps) as (s1 & h1 & Hrun & Hsv & Hq & Hf); try done.
  fold s0 in Hrun, Hf. rewrite Hrun, bind_Some. pose proof Hf as [F1 F2 F3 F4 F5 F6 _ _ (l & F7) F8 (F9 & _) _ _]. cbn [fst snd] in *.
  change (client_myds s0) with (client_myds (sess c)) in F7. rewrite add_out_all, Hck in F7. cbn [app] in F7. assert (l = ps) as ->.
  { pose proof (sv_client _ _ _ _ _ _ Hsv) as Hout. unfold client_out in Hout. rewrite F7, Hck in Hout. exact Hout. }
  destruct (Forall2_lookup_l _ _ _ _ _ F8 (set_stream_at i be d2 (sess c) (lookup_lt_Some _ _ _ Hb))) as (be' & Hb' & [K1 (d' & Hd' & a & k & k' & _ & Ht) _ _]).
  assert (output d' = output d /\ fd d' = fd d) as [Ho' Hf'] by (by rewrite Ht). destruct Hx as [e Hx].
  destruct (mshge_at_same (glomysrvs h) g2 m e Hg2 Hx) as (e' & Hx' & _). destruct Hcl as [[_ _ _ Hoc Hfd] _ _]. pose proof Hqd as [[_ _ _ Hod Hfs] _ Hpd].
  destruct (write_response t (revents (fds0 c)) (revents (fds1 c)) s1 h1 i be' d' m ps) as (dc & g' & -> & W1 & W2 & W3 & W4 & W5 & W6 & W7); try done.
  - exact (eq_trans F4 Hi).
  - exact (eq_trans K1 Hm).
  - rewrite F9. by exists e'.
  - rewrite Ho'. by apply loaded_idle.
  - by rewrite Hf'.
  - by rewrite F7.
  - exact (eq_trans F2 Hnet).
  - by rewrite F1.
  - rewrite F3, Hf'. exact Hpoll.
  - rewrite F7. destruct Hoc. by split.
  - by rewrite F7.
  - by rewrite F7.
  - by rewrite F7.
  - by rewrite F7.
  - rewrite bind_Some. exists d2, g2, s1, h1, dc, g'. rewrite F7 in W2, W3, W4, W5, W6. split; [reflexivity|]. split_and!; try done. exact (eq_trans W3 Hact).
Qed.

(** C4: a response crosses the proxy in one turn: when the packets of a whole response arrive from the server a session waits for, the bytes that leave towards the client in the
    same turn followed by those still pending are exactly the bytes of the server, in order and once. Nothing is written to the server, the result set is empty again
    and ready for the next query, and the query cache has learned the response exactly when it was to be cached. *)
Theorem response_reaches_client checksum md5 rmatch rreplace junk sha1 users after_free admin_query G t id c h g i be d ps :
  0 <= mysql_hostgroups G -> waiting G (t_clock t) (sess c) h -> listening_to i be d (sess c) h ->
  quiet_stream (client_myds (sess c)) -> active (client_myds (sess c)) = true -> net_failure (sess c) = false -> healthy (sess c) = true ->
  pkts_sent (client_myds (sess c)) <> 1 -> mysql_schema_cur (sauth (sess c)) <> None ->
  has (revents (fds0 c)) POLLIN = false -> has (revents (fds1 c)) POLLIN = true ->
  let bytes := mjoin (data <$> ps) in
  recv_server t = Some bytes -> response_ok (t_beyond t) (sess c) ps -> Forall wf_pkt ps ->
  (length bytes <= queue_available (iqueue (input d)))%nat -> (length bytes <= size (oqueue (output (client_myds (sess c)))))%nat ->
  0 <= send_client2 t <= Z.of_nat (length bytes) ->
  exists c' h', session_handler checksum md5 rmatch rreplace junk sha1 users after_free admin_query G t id c h g =
      Some (0, c', h', g, (take (Z.to_nat (send_client2 t)) bytes, [])) /\
    out_pending (output (client_myds (sess c'))) = drop (Z.to_nat (send_client2 t)) bytes /\
    resultset_progress (sess c') = RESULTSET_WAITING /\ resultset (sess c') = [] /\ input_queue (sess c') = Some [] /\ healthy (sess c') = true /\
    (caches G (sess c) ps -> cache_after G (sess c) h ps (QC h')) /\ (~ caches G (sess c) ps -> QC h' = QC h).
Proof.
  intros Hhg Hw Hli Hcl Hact Hnet Hhe Hps Hsch Hr0 Hr1 bytes Hrecv Hresp Hwf Hroom Hfit Hsend.
  destruct (response_turn checksum md5 rmatch rreplace junk sha1 users after_free admin_query G t id c h g i be d ps)
    as (d2 & g2 & s1 & h1 & dc & g' & Hrun & [] & Hq & Hf & _ & _ & _ & _ & _ & _ & _ & _ & _ & Hl & _); try done.
  do 2 eexists. split; [exact Hrun|]. split; [exact (loaded_pending _ _ Hl)|]. split_and!; try done. exact (eq_trans (rf_healthy _ _ Hf) Hhe).
Qed.

(** ** Examples *)

Lemma new_quiet mybe sock : 0 < sock -> quiet_stream (mysql_data_stream_new (fun _ => Byte.x00) 100 mybe sock).
Proof.
  intros Hs. split; [|reflexivity|reflexivity].
  split; [apply new_input_ok|apply new_input_ok|cbn; lia|apply new_output_ok|exact Hs].
Qed.

(** A session on one host group that is connected to its server; no query cache. *)
Definition relay_glovars : glovars_t := mkGlo 1 1000 1000 false false 0 1 false true (c_lit "shop") 100 315360000.
Definition relay_session (r0 r1 : Z) : mysql_session_t := mkSess sample_session (mkPollfd 5 POLLIN r0) (mkPollfd 9 POLLIN r1) 0.
Definition relay_query : pkt := pkt_of 0 (Byte.x03 :: c_lit "SELECT 1").
Definition relay_oracle : oracle := mkOracle (mkClock 120 0) [] [] [] [].

Lemma relay_idle : idle_session sample_session.
Proof.
  split; [exact (new_quiet false 5 ltac:(lia))|reflexivity| |reflexivity]. intros i Hi. injection Hi as <-.
  eexists _, _. split_and!; [reflexivity|reflexivity|exact (new_quiet true 9 ltac:(lia))].
Qed.

Lemma query_reaches_server_witness :
  exists c' h', session_handler (fun d => d) (fun d => d) (fun _ _ => false) (fun _ _ => None) (fun _ => Byte.x00) toy_sha1 toy_users
      (fun d => d) (fun _ s h => Some (s, h)) relay_glovars
      (mkTurn (Some (data relay_query)) None 0 0 0 13 [relay_oracle] (mkClock 120 0) sample_beyond) 3 (relay_session POLLIN 0) sample_shared (mkReg [3%nat] 1) =
      Some (0, c', h', mkReg [3%nat] 1, ([], data relay_query)) /\ server_mybe (sess c') = Some 0%nat.
Proof.
  destruct (plan (fun d => d) (fun _ _ => false) (fun _ _ => None) (fun _ => Byte.x00) relay_glovars (mkClock 120 0) relay_query sample_session sample_shared)
    as [[r rules]|] eqn:E; [|vm_compute in E; discriminate E].
  assert (destination_hostgroup (Routing.query_info r) = 0 /\ qp (Routing.query_info r) = Some relay_query) as [Hdst Hqp]
    by (vm_compute in E; injection E as <- _; split; reflexivity).
  destruct (query_reaches_server (fun d => d) (fun d => d) (fun _ _ => false) (fun _ _ => None) (fun _ => Byte.x00) toy_sha1 toy_users
      (fun d => d) (fun _ s h => Some (s, h)) relay_glovars
      (mkTurn (Some (data relay_query)) None 0 0 0 13 [relay_oracle] (mkClock 120 0) sample_beyond) relay_oracle [] 3 (relay_session POLLIN 0) sample_shared
      (mkReg [3%nat] 1) relay_query r rules 0 sample_backend (mysql_data_stream_new (fun _ => Byte.x00) 100 true 9) (glomysrvs sample_shared) (conn_pools sample_shared))
    as (c' & h' & d' & Hrun & Hmy & _).
  - exact relay_idle.
  - reflexivity.
  - reflexivity.
  - discriminate.
  - reflexivity.
  - reflexivity.
  - intros i be _ _. right. reflexivity.
  - reflexivity.
  - reflexivity.
  - apply frame_wf; [vm_compute|]; reflexivity.
  - reflexivity.
  - vm_compute. discriminate.
  - vm_compute. lia.
  - exact E.
  - exact Hdst.
  - intros dc. apply connected_reaches. split; [vm_compute; split; [discriminate|reflexivity]|]. split; [reflexivity|]. split; [reflexivity|]. split; [by eexists|].
    eexists _, _. split; [reflexivity|]. split; reflexivity.
  - exact (new_quiet true 9 ltac:(lia)).
  - rewrite Hqp. apply frame_wf; [vm_compute|]; reflexivity.
  - rewrite Hqp. vm_compute. lia.
  - rewrite Hqp. vm_compute. split; discriminate.
  - exists c', h'. split; [|exact Hmy]. rewrite Hrun, Hqp. reflexivity.
Defined.

Lemma response_reaches_client_witness :
  exists c' h', session_handler (fun d => d) (fun d => d) (fun _ _ => false) (fun _ _ => None) (fun _ => Byte.x00) toy_sha1 toy_users
      (fun d => d) (fun _ s h => Some (s, h)) sample_glovars
      (mkTurn None (Some (mjoin (data <$> mjoin sample_batches))) 0 0 20 0 [] (mkClock 120 0) sample_beyond) 3 (relay_session 0 POLLIN) sample_shared
      (mkReg [3%nat] 1) = Some (0, c', h', mkReg [3%nat] 1, (take 20 (mjoin (data <$> mjoin sample_batches)), [])) /\
    resultset (sess c') = [] /\ out_pending (output (client_myds (sess c'))) = drop 20 (mjoin (data <$> mjoin sample_batches)).
Proof.
  destruct (response_reaches_client (fun d => d) (fun d => d) (fun _ _ => false) (fun _ _ => None) (fun _ => Byte.x00) toy_sha1 toy_users
      (fun d => d) (fun _ s h => Some (s, h)) sample_glovars
      (mkTurn None (Some (mjoin (data <$> mjoin sample_batches))) 0 0 20 0 [] (mkClock 120 0) sample_beyond) 3 (relay_session 0 POLLIN) sample_shared
      (mkReg [3%nat] 1) 0 sample_backend (mysql_data_stream_new (fun _ => Byte.x00) 100 true 9) (mjoin sample_batches))
    as (c' & h' & Hrun & Hp & _ & Hrs & _).
  - vm_compute. discriminate.
  - exact sample_waiting.
  - split; try reflexivity; [by eexists|eexists; split; [reflexivity|by eexists]|exact (new_quiet true 9 ltac:(lia))].
  - exact (new_quiet false 5 ltac:(lia)).
  - reflexivity.
  - reflexivity.
  - reflexivity.
  - discriminate.
  - discriminate.
  - reflexivity.
  - reflexivity.
  - reflexivity.
  - exact sample_response.
  - repeat (apply Forall_cons; split); [..|apply Forall_nil_2]; (apply frame_wf; [vm_compute|]; reflexivity).
  - vm_compute. lia.
  - vm_compute. lia.
  - vm_compute. split; discriminate.
  - exists c', h'. split_and!; [exact Hrun|exact Hrs|exact Hp].
Defined.
