(* ===== verification/Exchange.v ===== *)
(** * Conversations: queries and responses, one after the other

    What a session promises to its client and to the servers over any number of turns: every query goes, as the rules rewrote it, whole and once to a server of the host group it was
    routed to, every response comes back whole and once to the client, and the session is then ready for the next query.

    The promise is a small machine ([conversation], [says]): the session is [Asking] while bytes of a query wait for the server or its response is awaited, and [Replying] while bytes
    of a response wait for the client; [Replying []] is a session that waits for a query. An [event] is one wake-up of the session by [poll] with what the kernel answers during the turn.
    [polled] and [session_poll] are what mysql_thread (src/main.c, [prepare], [clear_fds], [entries] and [scatter] of Thread.v) does with one session around a [poll], followed by
    [check_fds_errors] and [session_handler]. The simulation covers sharing connections through the pools after every response and making new ones; the query cache and the statistics are off. *)
From S2P Require Import Prelude PtrArray Protocol DataStream QueryCache Tokenizer Routing ConnPool Backend Session SessionClient SessionLoop Thread Relay.
Open Scope Z_scope.

(** ** One session around a poll *)

(** The descriptors are prepared (lines 138 to 157), [poll] reports [vs] for those that ask, and the answers are copied back (lines 236 to 242). *)
Definition polled (vs : list Z) (c : mysql_session_t) : option mysql_session_t :=
  c ← prepare c;
  let c := clear_fds c in
  '(c, _) ← scatter c (answered (entries c) vs);
  Some c.

Lemma stream_asks d : stream_ok d -> negb (stream_events true true d =? 0) = true.
Proof.
  intros Hd. destruct (stream_events_spec d Hd) as [Hi _]. apply negb_true_iff, Z.eqb_neq. intros E. by rewrite E in Hi.
Qed.

Lemma conn_poll_two c d : sess_status c = CONNECTION_ALL -> nfds (sess c) = 2 -> server_stream (sess c) = Some d ->
  conn_poll c = Some (mkSess (sess c) (mkPollfd (pfd (fds0 c)) (stream_events true true (client_myds (sess c))) (revents (fds0 c)))
                        (mkPollfd (pfd (fds1 c)) (stream_events true true d) (revents (fds1 c))) (sess_status c)).
Proof.
  destruct c as [s f0 f1 st]. cbn [sess sess_status fds0 fds1]. intros -> Hn Hd. unfold conn_poll. cbn [sess sess_status fds0 fds1]. rewrite Hn, Hd.
  reflexivity.
Qed.

Lemma conn_poll_one c : sess_status c = CONNECTION_ALL -> nfds (sess c) = 1 ->
  conn_poll c = Some (mkSess (sess c) (mkPollfd (pfd (fds0 c)) (stream_events true true (client_myds (sess c))) (revents (fds0 c))) (fds1 c) (sess_status c)).
Proof.
  destruct c as [s f0 f1 st]. cbn [sess sess_status fds0 fds1]. intros -> Hn. unfold conn_poll. cbn [sess sess_status fds0 fds1]. rewrite Hn. reflexivity.
Qed.

(** A session that is connected to its current server waits for both streams. *)
Lemma polled_connected r0 r1 c i be d :
  server_mybe (sess c) = Some i -> mybes (sess c) !! i = Some be -> server_myds be = Some d -> is_Some (server_mycpe be) -> admin (sauth (sess c)) = 0 ->
  stream_ok (client_myds (sess c)) -> stream_ok d ->
  exists c', polled [r0; r1] c = Some c' /\ sess c' = (sess c) <| last_server_poll_fd := fd d |> <| nfds := 2 |> /\
    revents (fds0 c') = r0 /\ revents (fds1 c') = r1.
Proof.
  intros Hi Hb Hd [x Hx] Ha Hc Hs. pose proof (stream_asks _ Hc) as Ec. pose proof (stream_asks _ Hs) as Es.
  unfold polled, prepare. rewrite Hi, Hb, bind_Some, Hx, Ha, Hd, bind_Some. cbn [Z.eqb].
  set (s1 := (sess c) <| last_server_poll_fd := fd d |> <| nfds := 2 |>).
  rewrite (conn_poll_two _ d); [|done|done|unfold server_stream, current_backend; cbn; by rewrite Hi, bind_Some, Hb, bind_Some].
  rewrite bind_Some. unfold clear_fds, clear, entries, scatter, asks. cbn. rewrite Ec, Es. cbn. rewrite Ec, Es. cbn.
  eexists. split; [reflexivity|]. done.
Qed.

(** A session without a connection to its current server waits for its client only; the answer for the server is the one of an earlier turn. *)
Lemma polled_alone r0 vs c :
  (forall i, server_mybe (sess c) = Some i -> exists be, mybes (sess c) !! i = Some be /\ server_mycpe be = None) -> stream_ok (client_myds (sess c)) ->
  exists c', polled (r0 :: vs) c = Some c' /\ sess c' = (sess c) <| nfds := 1 |> /\ revents (fds0 c') = r0 /\ revents (fds1 c') = revents (fds1 c).
Proof.
  intros Hn Hc. pose proof (stream_asks _ Hc) as Ec. unfold polled, prepare.
  assert ((match server_mybe (sess c) with None => Some None | Some i => be ← mybes (sess c) !! i;
      Some (match server_mycpe be with Some _ => if admin (sauth (sess c)) =? 0 then server_myds be else None | None => None end) end) = Some None) as ->.
  { destruct (server_mybe (sess c)) as [i|]; [|done]. destruct (Hn i eq_refl) as (be & -> & E). by rewrite bind_Some, E. }
  rewrite bind_Some, conn_poll_one by done. rewrite bind_Some.
  unfold clear_fds, clear, entries, scatter, asks. cbn. rewrite Ec. cbn. rewrite Ec. cbn. eexists. split; [reflexivity|]. done.
Qed.

(** ** The text that the rules leave *)

(** The rules that differ at most in their hit counters. *)
Definition same_rule (r r' : query_rule_t) : Prop := exists n, r' = r <| hits := n |>.

#[export] Instance same_rule_preorder : PreOrder same_rule.
Proof. split; [intros r; exists (hits r); by destruct r|]. intros r1 r2 r3 [n ->] [m ->]. by exists m. Qed.

Lemma bumped_same r r' : bumped r r' -> same_rule r r'.
Proof. intros [-> | ->]; [done|by eexists]. Qed.

Section Rules.
Context (rmatch : query_rule_t -> list byte -> bool) (rreplace : query_rule_t -> list byte -> option (list byte)) (u d : list byte).

(** A compiled pattern does not read the counter of its rule. *)
Context (Hmatch : forall qr n q, rmatch (qr <| hits := n |>) q = rmatch qr q) (Hrep : forall qr n q, rreplace (qr <| hits := n |>) q = rreplace qr q).

Lemma applies_same flag q r r' : same_rule r r' -> rule_applies rmatch u d flag q r' <-> rule_applies rmatch u d flag q r.
Proof. intros [n ->]. unfold rule_applies. by rewrite Hmatch. Qed.

Lemma rewrites_same r r' q q' : same_rule r r' -> rewrites rreplace r' q q' <-> rewrites rreplace r q q'.
Proof. intros [n ->]. unfold rewrites. rewrite Hrep. done. Qed.

Lemma same_fields r r' : same_rule r r' -> rcache_ttl r' = rcache_ttl r /\ rflagOUT r' = rflagOUT r /\ replace_pattern r' = replace_pattern r /\
  (forall q, rreplace r' q = rreplace r q) /\ rdestination_hostgroup r' = rdestination_hostgroup r.
Proof. intros [n ->]. by split_and!; [..|intros q; apply Hrep|]. Qed.

Lemma fires_same flag q rules' fired' q' : fires rmatch rreplace u d flag q rules' fired' q' ->
  forall rules, Forall2 same_rule rules rules' -> exists fired, fires rmatch rreplace u d flag q rules fired q'.
Proof.
  induction 1 as [flag q|flag q qr rules' fired q' Hn _ IH|flag q qr rules' fired q' Ha Hp Hr _ IH|flag q qr rules' q' Ha Hw Ht|flag q qr rules' q1 fired q' Ha Hw Ht _ IH];
    intros rules Hs; apply Forall2_cons_inv_r in Hs as (r & l & Hr0 & Hl & ->) || apply Forall2_nil_inv_r in Hs as ->.
  - exists []. constructor.
  - destruct (IH l Hl) as [f Hf]. exists f. apply fires_skip; [|done]. by rewrite <- (applies_same flag q r qr).
  - destruct (IH l Hl) as [f Hf]. destruct (same_fields r qr Hr0) as (_ & _ & E1 & E2 & _). exists f. apply fires_error; [|congruence|congruence|done].
    by apply (applies_same flag q r qr).
  - destruct (same_fields r qr Hr0) as (E & _). exists [r]. apply fires_last; [by apply (applies_same flag q r qr)|by apply (rewrites_same r qr)|congruence].
  - destruct (same_fields r qr Hr0) as (E1 & E2 & _). rewrite E2 in IH. destruct (IH l Hl) as [f Hf]. exists (r :: f).
    apply fires_more with q1; [by apply (applies_same flag q r qr)|by apply (rewrites_same r qr)|congruence|done].
Qed.

Lemma rewrites_det r q q1 q2 : rewrites rreplace r q q1 -> rewrites rreplace r q q2 -> q1 = q2.
Proof. unfold rewrites. destruct (replace_pattern r); congruence. Qed.

Lemma fires_det flag q rules f1 q1 : fires rmatch rreplace u d flag q rules f1 q1 -> forall f2 q2, fires rmatch rreplace u d flag q rules f2 q2 -> q2 = q1.
Proof.
  assert (forall r q q', rewrites rreplace r q q' -> is_Some (replace_pattern r) -> rreplace r q = None -> False) as Hno.
  { intros r x y. unfold rewrites. intros H [z Hz] E. by rewrite Hz, E in H. }
  induction 1 as [flag q|flag q qr rules f q' Hn _ IH|flag q qr rules f q' Ha Hp Hr _ IH|flag q qr rules q' Ha Hw Ht|flag q qr rules x f q' Ha Hw Ht _ IH];
    intros f2 q2 H2; inversion H2; subst; try done; try (by eapply IH); try (by exfalso; eauto); try (by eapply rewrites_det).
  replace x with q1 in * by (by eapply rewrites_det). by eapply IH.
Qed.

Lemma fires_in flag q rules f q' : fires rmatch rreplace u d flag q rules f q' -> forall r, r ∈ f -> r ∈ rules.
Proof. clear Hmatch Hrep. induction 1; set_solver. Qed.

End Rules.

Lemma rule_loop_stats rmatch rreplace junk rules : forall s flag s' rules',
  rule_loop rmatch rreplace junk rules s flag = Some (s', rules') -> query_stats (Routing.query_info s') = query_stats (Routing.query_info s).
Proof.
  assert (forall s flag qr, query_stats (Routing.query_info (rule_apply s flag qr).1) = query_stats (Routing.query_info s)) as Ha.
  { intros s flag qr. unfold rule_apply. by destruct (negb (rflagOUT qr =? 0)), (negb (rcache_ttl qr =? 0)), (0 <=? rdestination_hostgroup qr), (raudit_log qr =? 1), (rperformance_log qr =? 1). }
  induction rules as [|qr rules IH]; intros s flag s' rules' H; cbn [rule_loop] in H; [by injection H as <- _|].
  destruct (negb (rule_matches _ _ _ _)); [apply bind_inv in H as ([s1 l] & H1 & H); injection H as <- _; by eapply IH|].
  apply bind_inv in H as ([[]|s1] & H1 & H); [apply bind_inv in H as ([s2 l] & H2 & H); injection H as <- _; by eapply IH|].
  assert (query_stats (Routing.query_info s1) = query_stats (Routing.query_info s)) as E1.
  { unfold rule_rewrite in H1. destruct (replace_pattern qr); [|by injection H1 as <-]. destruct (rreplace qr _); [|done]. do 2 px_run H1. by injection H1 as <-. }
  specialize (Ha s1 flag qr). destruct (rule_apply s1 flag qr) as [s2 flag2]. cbn [fst] in Ha. destruct (negb _); [injection H as <- _; congruence|].
  apply bind_inv in H as ([s3 l] & H3 & H). injection H as <- _. rewrite (IH _ _ _ _ H3). congruence.
Qed.

(** ** What a conversation rests on *)

(** The client's credentials and what the administrator set up: the servers of the host groups, the rules and the default host groups. *)
Record deployment := mkDeployment {
  dp_user : list byte; dp_password : list byte; dp_schema : list byte;
  dp_groups : list (list mysql_server); dp_rules : list query_rule_t; dp_defaults : DefHG.global_default_hostgroups_t }.

Definition dp_cred (D : deployment) : credentials := mkCred (Some (dp_user D)) (Some (dp_password D)) (Some (dp_schema D)).

(** Every host group has servers, all of them online; rules and defaults name host groups that exist; the query cache and the statistics are off. *)
Record deployment_ok (rmatch : query_rule_t -> list byte -> bool) (rreplace : query_rule_t -> list byte -> option (list byte)) (G : glovars_t) (D : deployment) : Prop := {
  do_cache : mysql_query_cache_enabled G = false; do_stats : mysql_query_statistics G = false; do_buffer : (4 <= net_buffer_size G)%nat;
  do_names : Byte.x00 ∉ dp_user D /\ Byte.x00 ∉ dp_password D /\ Byte.x00 ∉ dp_schema D;
  do_groups : 0 < mysql_hostgroups G /\ Z.of_nat (length (dp_groups D)) = mysql_hostgroups G;
  do_servers : forall l, l ∈ dp_groups D -> l <> [] /\ forall ms, ms ∈ l -> status ms = ONLINE /\ Byte.x00 ∉ address ms;
  do_rules : Forall rule_ok (dp_rules D) /\ Forall (fun r => rdestination_hostgroup r < mysql_hostgroups G) (dp_rules D);
  do_default : 0 <= DefHG.find_defHG (dp_defaults D) (Some (dp_user D)) (Some (dp_schema D)) < mysql_hostgroups G;
  do_match : forall qr n q, rmatch (qr <| hits := n |>) q = rmatch qr q;
  do_replace : forall qr n q, rreplace (qr <| hits := n |>) q = rreplace qr q;
  do_text : forall qr q r, rreplace qr q = Some r -> fits (before_nul r) }.

(** A stream that has read nothing and has the bytes [bs] to send. *)
Record holds (n : nat) (d : mysql_data_stream_t) (bs : list byte) : Prop := {
  hd_ok : stream_ok d; hd_in : in_stream (input d) = []; hd_out : loaded (output d) bs;
  hd_size : size (iqueue (input d)) = n /\ size (oqueue (output d)) = n }.

Lemma holds_quiet n d : holds n d [] -> quiet_stream d.
Proof. intros [Hok Hin Hout _]. split; [done|done|by apply loaded_pending]. Qed.

Lemma holds_room n d bs : holds n d bs -> queue_available (iqueue (input d)) = n.
Proof.
  intros [[[Hq _ _] (_ & Ht & _) _ _ _] Hin _ [<- _]]. unfold in_stream in Hin. apply app_eq_nil in Hin as [_ Hin]. apply app_eq_nil in Hin as [_ Hin].
  pose proof (contents_length _ Hq) as Hl. rewrite Hin in Hl. unfold queue_data in Hl. unfold queue_available. simpl in Hl. lia.
Qed.

(** The backend of host group [i] when the servers are [g] and the bytes [bs] are to be sent to its server. *)
Record backend_ok (n : nat) (g : global_mysql_servers) (bs : list byte) (i : nat) (be : mysql_backend_t) : Prop := {
  bo_stream : forall d, server_myds be = Some d -> holds n d bs;
  bo_mshge : forall m, mshge be = Some m -> fst m = i /\ is_Some (mshge_at g m);
  bo_conn : forall c, server_mycpe be = Some c -> key_ok (m_key (conn c)) /\ 0 < net_fd (conn c) /\ is_Some (mshge be) /\ is_Some (server_myds be);
  bo_last : server_mycpe be = None -> last_mysql_connpool be = None }.

Lemma backend_ok_servers n g g' bs i be : server_groups g' = server_groups g -> backend_ok n g bs i be -> backend_ok n g' bs i be.
Proof.
  intros Hg [H1 H2 H3 H4]. split; try done. intros m Hm. destruct (H2 m Hm) as [Hi [e He]]. split; [done|].
  destruct (mshge_at_same g g' m e Hg He) as (e' & He' & _). by exists e'.
Qed.

Lemma backend_ok_stream n g bs bs' i be d : backend_ok n g bs i be -> holds n d bs' -> backend_ok n g bs' i (be <| server_myds := Some d |>).
Proof.
  intros [H1 H2 H3 H4] Hd. split; try done; [intros x Hx; by injection Hx as <-|]. intros c Hc. destruct (H3 c Hc) as (? & ? & ? & _). by split_and!; eauto.
Qed.

Definition pending_at (s : session) (bs : list byte) (i : nat) : list byte := if decide (server_mybe s = Some i) then bs else [].

(** The session between two turns: the bytes [bc] are to be sent to the client, [bs] to the current server, and the client was sent [n] packets. *)
Record session_inv (G : glovars_t) (D : deployment) (bc bs : list byte) (n : Z) (s : session) (h : shared) : Prop := {
  si_client : holds (net_buffer_size G) (client_myds s) bc; si_active : active (client_myds s) = true; si_net : net_failure s = false;
  si_healthy : healthy s = true; si_admin : admin (sauth s) = 0; si_sent : pkts_sent (client_myds s) = n /\ 2 <= n < 2 ^ 64;
  si_who : mysql_username (sauth s) = Some (dp_user D) /\ mysql_password (sauth s) = Some (dp_password D) /\ mysql_schema_cur (sauth s) = Some (dp_schema D);
  si_resultset : resultset s = []; si_stats : query_stats (query_info s) = SNull; si_default : -1 <= default_hostgroup s < mysql_hostgroups G;
  si_mybes : Z.of_nat (length (mybes s)) = mysql_hostgroups G;
  si_backends : forall i be, mybes s !! i = Some be -> backend_ok (net_buffer_size G) (glomysrvs h) (pending_at s bs i) i be;
  si_current : forall i, server_mybe s = Some i -> exists be, mybes s !! i = Some be /\ is_Some (server_myds be) /\ is_Some (mshge be);
  si_pools : state_inv (conn_pools h) /\ Forall (fun c => 0 < net_fd c) (idle_conns (conn_pools h));
  si_servers : server_groups (glomysrvs h) = dp_groups D; si_rules : Forall2 same_rule (dp_rules D) (gloQR h); si_defaults : gloDefHG h = dp_defaults D;
  si_cache : group_inv (QC h) }.

Lemma quiet_holds n d : quiet_stream d -> size (iqueue (input d)) = n /\ size (oqueue (output d)) = n -> holds n d [].
Proof. intros [Hok Hin Hout] Hs. split; try done. destruct Hok. by apply loaded_idle. Qed.

Lemma inv_polled G D bc bs n s h x y : session_inv G D bc bs n s h -> session_inv G D bc bs n (s <| last_server_poll_fd := x |> <| nfds := y |>) h.
Proof. intros []. by split. Qed.

(** [poll] reported no error for the server. *)
Definition unfailed (c : mysql_session_t) : Prop := failed (revents (fds1 c)) = false.

Lemma check_unfailed c : failed (revents (fds0 c)) = false -> unfailed c -> (forall i, server_mybe (sess c) = Some i -> is_Some (mybes (sess c) !! i)) ->
  check_fds_errors c = Some c.
Proof.
  unfold unfailed, check_fds_errors. intros -> -> Hi. destruct c as [s f0 f1 st]. cbn [sess fds0 fds1] in *.
  destruct (server_mybe s) as [i|]; [|done]. destruct (Hi i eq_refl) as [be ->]. rewrite bind_Some. by destruct (server_myds be).
Qed.

(** A wake-up does not change the session but for the descriptor it waits for; [r0] and [r1] are what [poll] reports for the client and for the server. *)
Lemma poll_session G D bc bs n r0 r1 c h : session_inv G D bc bs n (sess c) h -> unfailed c -> failed r0 = false -> failed r1 = false ->
  exists c' x y, (c' ← polled [r0; r1] c; check_fds_errors c') = Some c' /\ unfailed c' /\ sess c' = (sess c) <| last_server_poll_fd := x |> <| nfds := y |> /\ revents (fds0 c') = r0 /\
    ((exists i be d, server_mybe (sess c) = Some i /\ mybes (sess c) !! i = Some be /\ server_myds be = Some d /\ is_Some (server_mycpe be) /\
        x = fd d /\ revents (fds1 c') = r1) \/
     ((forall i be, server_mybe (sess c) = Some i -> mybes (sess c) !! i = Some be -> server_mycpe be = None) /\ x = last_server_poll_fd (sess c))).
Proof.
  intros [] Hun Hf0 Hf1. pose proof (hd_ok _ _ _ si_client0) as Hc.
  assert (Halone : (forall i, server_mybe (sess c) = Some i -> exists be, mybes (sess c) !! i = Some be /\ server_mycpe be = None) ->
    exists c' x y, (c' ← polled [r0; r1] c; check_fds_errors c') = Some c' /\ unfailed c' /\
      sess c' = (sess c) <| last_server_poll_fd := x |> <| nfds := y |> /\ revents (fds0 c') = r0 /\ x = last_server_poll_fd (sess c)).
  { intros Hn. destruct (polled_alone r0 [r1] c Hn Hc) as (c' & Hp & Hs & Hr & Hr1). exists c', (last_server_poll_fd (sess c)), 1.
    assert (unfailed c') as Hu by (unfold unfailed; by rewrite Hr1). rewrite Hp, bind_Some.
    split_and!; try done. apply check_unfailed; [by rewrite Hr|done|]. rewrite Hs. intros i Hi. by destruct (Hn i Hi) as (be & ? & _); exists be. }
  destruct (server_mybe (sess c)) as [i|] eqn:Hi.
  - destruct (si_current0 i eq_refl) as (be & Hb & [d Hd] & _). destruct (server_mycpe be) as [x|] eqn:Ex.
    + pose proof (hd_ok _ _ _ (bo_stream _ _ _ _ _ (si_backends0 i be Hb) d Hd)) as Hs.
      destruct (polled_connected r0 r1 c i be d Hi Hb Hd) as (c' & Hp & Hse & H0 & H1); try done.
      assert (unfailed c') as Hu by (unfold unfailed; by rewrite H1).
      exists c', (fd d), 2. rewrite Hp, bind_Some. split_and!; try done; [|left; by exists i, be, d].
      apply check_unfailed; [by rewrite H0|done|]. rewrite Hse. intros j Hj. assert (j = i) as -> by (cbn in Hj; congruence). by exists be.
    + destruct Halone as (c' & x & y & Hp & Hu & Hs & Hr & Hx); [intros j [= <-]; by exists be|]. exists c', x, y. split_and!; try done. right. split; [|done].
      intros j b [= <-] Hj. congruence.
  - destruct Halone as (c' & x & y & Hp & Hu & Hs & Hr & Hx); [done|]. exists c', x, y. split_and!; try done. by right.
Qed.

Section Conversation.
Context (checksum md5 : list byte -> list byte) (rmatch : query_rule_t -> list byte -> bool)
        (rreplace : query_rule_t -> list byte -> option (list byte)) (junk : nat -> byte)
        (sha1 : list byte -> list byte) (users : user_table) (after_free : list byte -> list byte)
        (admin_COM_QUERY : pkt -> session -> shared -> option (session * shared)) (G : glovars_t).
Context (D : deployment) (HD : deployment_ok rmatch rreplace G D).

Abbreviation inv := (session_inv G D).

(** The text [new] that the rules make of a query [text]. *)
Definition rewritten_to (text new : list byte) : Prop :=
  exists fired, fires rmatch rreplace (dp_user D) (dp_schema D) 0 text (dp_rules D) fired new.

Lemma plan_ready o bc bs n s h text new :
  inv bc bs n s h -> rewritten_to text new ->
  exists r rules, plan md5 rmatch rreplace junk G (o_clock o) (query_packet text) s h = Some (r, rules) /\ Forall2 same_rule (dp_rules D) rules /\
    qp (Routing.query_info r) = Some (query_packet new) /\ query_stats (Routing.query_info r) = SNull /\
    0 <= destination_hostgroup (Routing.query_info r) < mysql_hostgroups G /\ -1 <= Routing.default_hostgroup r < mysql_hostgroups G.
Proof.
  intros I [f0 Hf0]. destruct HD. destruct I. destruct si_who0 as (Eu & _ & Es). destruct do_names0 as (Nu & _ & Ns). destruct do_rules0 as [Rok Rdst].
  unfold plan, route_of. rewrite Eu, Es, !bind_Some. unfold init_query_metadata. cbn [Routing.query_info]. rewrite si_stats0, bind_Some, query_of_packet, bind_Some, do_stats0, bind_Some.
  set (r0 := _ <| Routing.query_info := _ |>).
  assert (Forall rule_ok (gloQR h)) as Gok.
  { apply Forall_lookup. intros i r' Hr'. destruct (Forall2_lookup_r _ _ _ _ _ si_rules0 Hr') as (r & Hr & [k ->]). by apply (Forall_lookup_1 _ _ _ _ Rok Hr). }
  destruct (rule_loop_spec rmatch rreplace junk (dp_user D) (dp_schema D) Nu Ns do_text0 (gloQR h) r0 0) as (s1 & rules & fired & q' & Hl & Hb & Hf & Ho); [done..|].
  pose proof (rule_loop_stats _ _ _ _ _ _ _ _ Hl) as Hst. unfold process_query_rules. rewrite Hl, bind_Some, finish_cache_ttl_eq.
  change (query (Routing.query_info r0)) with text in Hf.
  destruct (fires_same rmatch rreplace (dp_user D) (dp_schema D) do_match0 do_replace0 0 text (gloQR h) fired q' Hf (dp_rules D) si_rules0) as [f1 Hf1].
  assert (q' = new) as -> by (eapply (fires_det rmatch rreplace (dp_user D) (dp_schema D)); done).
  set (s2 := s1 <| Routing.query_info := _ |>). destruct (finish_destination_eq (gloDefHG h) s2) as (_ & _ & _ & P2 & _ & H2).
  destruct Ho as (U1 & S1 & D1 & _ & Q & Hd & _ & P). do 2 eexists. split; [reflexivity|].
  assert (query_stats (Routing.query_info (finish_destination (gloDefHG h) s2)) = query_stats (Routing.query_info s1) /\
    (Routing.default_hostgroup (finish_destination (gloDefHG h) s2) = Routing.default_hostgroup s1 \/
     Routing.default_hostgroup (finish_destination (gloDefHG h) s2) = DefHG.find_defHG (gloDefHG h) (Some (user s1)) (Some (schema s1)))) as [Fs Fd].
  { unfold finish_destination, mysql_session_default_hostgroup. destruct (_ =? -1); [destruct (_ || _)|]; split; auto. }
  change (destination_hostgroup (Routing.query_info s2)) with (destination_hostgroup (Routing.query_info s1)) in H2.
  change (Routing.default_hostgroup s2) with (Routing.default_hostgroup s1) in H2. rewrite D1 in H2. change (Routing.default_hostgroup r0) with (default_hostgroup s) in H2.
  assert (0 <= destination_hostgroup (Routing.query_info (finish_destination (gloDefHG h) s2)) < mysql_hostgroups G) as Hrange.
  { rewrite H2. destruct (last _) as [x|] eqn:El in Hd; cbn in Hd; rewrite Hd.
    - apply last_Some_elem_of, list_elem_of_filter in El as [Hx El]. apply list_elem_of_fmap in El as (r & -> & Hr). rewrite decide_False by lia.
      apply (fires_in _ _ _ _ _ _ _ _ _ Hf), list_elem_of_lookup_1 in Hr as [i Hr]. destruct (Forall2_lookup_r _ _ _ _ _ si_rules0 Hr) as (r1 & Hr1 & [k ->]).
      split; [done|]. exact (Forall_lookup_1 _ _ _ _ Rdst Hr1).
    - rewrite decide_True by done. destruct (decide (_ \/ _)) as [Hc|Hc]; [split; [done|apply do_groups0]|]. split; [|lia]. destruct (decide (default_hostgroup s = -1)); [tauto|lia]. }
  assert (-1 <= Routing.default_hostgroup (finish_destination (gloDefHG h) s2) < mysql_hostgroups G) as Hdef.
  { destruct Fd as [-> | ->]; [by rewrite D1|]. rewrite U1, S1, si_defaults0. change (user r0) with (dp_user D). change (schema r0) with (dp_schema D). lia. }
  split_and!; try apply Hrange; try apply Hdef.
  - etransitivity; [exact si_rules0|]. eapply Forall2_impl; [exact Hb|]. apply bumped_same.
  - rewrite P2. change (qp (Routing.query_info s2)) with (qp (Routing.query_info s1)). destruct P as [(-> & E & _)|[E _]]; [|exact E]. cbn in E, Q |- *. congruence.
  - rewrite Fs, Hst. done.
Qed.

(** ** The backend of the query *)

(** What the system answers while a query is processed: [mysql_real_connect] gives connections of the name it was asked for, and one of the ten attempts works. *)
Definition oracle_ok (o : oracle) : Prop :=
  (10 <= length (o_attempts o))%nat /\ Forall (fun a => connect_ok (snd a)) (o_attempts o) /\
  (forall a k c, a ∈ o_attempts o -> snd a k = Some c -> 0 < net_fd c) /\ Exists (fun a => forall k, is_Some (snd a k)) (take 10 (o_attempts o)).

Lemma create_connected sends g hg attempts be0 w be w' m c :
  0 <= hg < mysql_hostgroups G -> backend_connect (mysql_hostgroups G) g hg (dp_cred D) 10 attempts be0 w = Some (1, be, w') -> mshge be = Some m ->
  server_mycpe be = Some c -> 0 < net_fd (conn c) -> server_myds be = server_myds be0 -> (forall d, server_myds be0 = Some d -> holds (net_buffer_size G) d []) ->
  exists d g', server_groups g' = server_groups g /\ holds (net_buffer_size G) d [] /\
    forall client, mysql_session_create_backend_for_hostgroup junk sends (net_buffer_size G) (mysql_hostgroups G) g hg (dp_cred D) attempts client be0 w =
      Some (mkCreated 1 (be <| be_fd := net_fd (conn c) |> <| server_myds := Some d |>) w' g' client []).
Proof.
  intros Hhg Hc Hm Hx Hfd Hmy Hd.
  assert (Hrun : forall client, mysql_session_create_backend_for_hostgroup junk sends (net_buffer_size G) (mysql_hostgroups G) g hg (dp_cred D) attempts client be0 w =
    let '(myds, g) := match server_myds be0 with
                      | None => (mysql_data_stream_new junk (net_buffer_size G) true 0, upd_mshge count_new m g)
                      | Some d => (d <| has_mybe := true |>, g)
                      end in
    Some (mkCreated 1 (be <| be_fd := net_fd (conn c) |> <| server_myds := Some (setfd myds (net_fd (conn c))) |>) w' g client [])).
  { intros client. unfold mysql_session_create_backend_for_hostgroup. destruct (Z.leb_spec (mysql_hostgroups G) hg); [lia|].
    rewrite Hc, bind_Some. cbn [Z.eqb]. rewrite Hx, bind_Some, Hm, bind_Some.
    change (server_myds (be <| be_fd := net_fd (conn c) |>)) with (server_myds be). by rewrite Hmy. }
  destruct (server_myds be0) as [d0|] eqn:E.
  - destruct (Hd d0 eq_refl) as [[H1 H2 H3 H4 H5] Hin Hout Hsz]. eexists _, _. split; [|split; [|exact Hrun]]; [done|]. by split.
  - eexists _, _. split; [|split; [|exact Hrun]]; [by apply server_groups_upd|].
    destruct (new_input_ok junk (net_buffer_size G) true 0) as (N1 & N2 & N3). destruct (new_output_ok junk (net_buffer_size G) true 0) as (N4 & N5).
    split; [split; try done; apply (do_buffer _ _ _ _ HD)|done|by apply loaded_idle|done].
Qed.

Lemma server_online g m e : server_groups g = dp_groups D -> mshge_at g m = Some e -> status (MSptr e) = ONLINE /\ key_ok (key_for (MSptr e) (dp_cred D)).
Proof.
  intros Hg He. pose proof (mshge_at_groups g m) as H. rewrite He, Hg in H. destruct (dp_groups D !! fst m) as [l|] eqn:El; [|done]. rewrite bind_Some in H. cbn in H.
  destruct HD as [_ _ _ (Nu & Np & Ns) _ Hs _ _ _ _ _]. destruct (Hs l (list_elem_of_lookup_2 _ _ _ El)) as [_ Hl].
  destruct (Hl (MSptr e)) as [H1 H2]; [by eapply list_elem_of_lookup_2|]. split; [done|]. split; cbn; eauto.
Qed.

Lemma group_of g hg : server_groups g = dp_groups D -> 0 <= hg < mysql_hostgroups G -> exists l, hostgroups g !! Z.to_nat hg = Some l /\ l <> [].
Proof.
  intros Hg Hhg. destruct HD as [_ _ _ _ [_ Hlen] Hs _ _ _ _ _]. destruct (lookup_lt_is_Some_2 (dp_groups D) (Z.to_nat hg)) as [l El]; [lia|].
  destruct (Hs l (list_elem_of_lookup_2 _ _ _ El)) as [Hne _]. rewrite <- Hg in El. unfold server_groups in El. rewrite list_lookup_fmap in El.
  destruct (hostgroups g !! Z.to_nat hg) as [l0|]; [|done]. exists l0. split; [done|]. injection El as <-. by intros ->.
Qed.

(** The backend of a host group can always be obtained, and its stream holds nothing. *)
Lemma reaches_ready o bc n s h hg :
  inv bc [] n s h -> oracle_ok o -> 0 <= hg < mysql_hostgroups G ->
  exists be d g w, (forall dc, reaches junk G o hg be d g w (s <| client_myds := dc |>) h) /\ server_groups g = dp_groups D /\
    backend_ok (net_buffer_size G) g [] (Z.to_nat hg) be /\
    state_inv w /\ Forall (fun c => 0 < net_fd c) (idle_conns w).
Proof.
  intros I (Hlen & Hcok & Hfds & Hone) Hhg. destruct I. destruct si_pools0 as (Hw & Hidle). destruct si_who0 as (Eu & Ep & Es).
  assert (pending_at s [] (Z.to_nat hg) = []) as Hpe by (unfold pending_at; by case_decide).
  destruct (lookup_lt_is_Some_2 (mybes s) (Z.to_nat hg)) as [be0 Hb0]; [lia|]. pose proof (si_backends0 _ _ Hb0) as Hok. rewrite Hpe in Hok. pose proof Hok as [B1 B2 B3 B4].
  destruct (server_mycpe be0) as [c0|] eqn:Ec.
  { destruct (B3 c0 eq_refl) as (_ & _ & [m Hm] & [d Hd]). destruct (B2 m Hm) as (_ & [e He]). destruct (server_online _ _ _ si_servers0 He) as [Hon _].
    exists be0, d, (glomysrvs h), (conn_pools h). split_and!; try done. intros dc. split; try done; [by apply obtains_held|by exists m, e]. }
  destruct (group_of _ _ si_servers0 Hhg) as (l & Hl & Hne).
  assert (Hat : forall i e, l !! i = Some e -> mshge_at (glomysrvs h) (Z.to_nat hg, i) = Some e) by (intros i e He; unfold mshge_at; cbn; by rewrite Hl).
  destruct (backend_connect_spec (mysql_hostgroups G) (glomysrvs h) hg (dp_cred D) l Hhg Hl) with (retries := 10%nat) (attempts := o_attempts o) (be := be0) (w := conn_pools h)
    as (rc & be & w & Hrun & Hw' & Hmy & Hout & Hen' & HP); try done.
  - intros e [i He]%list_elem_of_lookup_1. exact (proj2 (server_online _ _ _ si_servers0 (Hat i e He))).
  - lia.
  - unfold points_in. destruct (mshge be0) as [m|] eqn:Em; [|done]. destruct (B2 m eq_refl) as (Hi & [e He]). split; [done|].
    unfold mshge_at in He. rewrite Hi, Hl, bind_Some in He. by exists e.
  - intros k. by rewrite (B4 eq_refl).
  - destruct (HP (fun c => 0 < net_fd c) Hidle Hfds) as [Hidle' Hfd].
    destruct Hout as [(-> & i & e & c & Hm & He & Hc & Hkey)|[(_ & -> & _)|(_ & _ & _ & _ & Hfail)]]; [|done|].
    2: { apply Exists_exists in Hone as (a & Ha & Hok2). rewrite Forall_forall in Hfail. destruct (Hfail a Ha) as (e & _ & He).
         destruct (Hok2 (key_for (MSptr e) (dp_cred D))) as [x Hx]. congruence. }
    pose proof (Hat i e He) as Hme. destruct (server_online _ _ _ si_servers0 Hme) as [Hon Hko].
    destruct (create_connected (o_sends o) (glomysrvs h) hg (o_attempts o) be0 (conn_pools h) be w _ c Hhg Hrun Hm Hc (Hfd c Hc) Hmy B1)
      as (d & g' & Hg & Hd & Hcr). destruct (mshge_at_same _ g' _ _ Hg Hme) as (e' & Hme' & Hms).
    set (be' := be <| be_fd := net_fd (conn c) |> <| server_myds := Some d |>) in *. exists be', d, g', w. split_and!; try done; [|congruence|].
    + intros dc. split; try done; [|exists (Z.to_nat hg, i), e'; by rewrite Hms].
      assert (client_myds (s <| client_myds := dc |>) = dc) as Ecl by (by destruct s).
      apply (obtains_made junk G o hg (s <| client_myds := dc |>) h be' be0 (mkCreated 1 be' w g' dc [])); [done|by right| |done|by rewrite Ecl].
      rewrite Ecl. cbn. rewrite Eu, Ep, Es. apply Hcr.
    + split.
      * intros x Hx. by injection Hx as <-.
      * intros x Hx. change (mshge be = Some x) in Hx. rewrite Hm in Hx. injection Hx as <-. split; [done|by exists e'].
      * intros x Hx. change (server_mycpe be = Some x) in Hx. rewrite Hc in Hx. injection Hx as <-. split_and!; [by rewrite Hkey|by apply Hfd|by exists (Z.to_nat hg, i)|by exists d].
      * intros Hx. change (server_mycpe be = None) in Hx. congruence.
Qed.

(** ** The machine *)

(** [Asking bs]: a query was given to a server, [bs] is what has not left yet. [Replying bs]: [bs] of the last response has not left yet; nothing is asked. *)
Inductive phase := Asking (bs : list byte) | Replying (bs : list byte).

(** The phase and the number of packets that were sent to the client. *)
Record conversation := mkConv { cv_phase : phase; cv_sent : Z }.

(** What wakes the session up: a query arrives, of which the rules make [new]; the kernel takes bytes; a response arrives. *)
Inductive event := Query (text new : list byte) (t : turn) | Writable (t : turn) | Response (ps : list pkt) (t : turn).

Definition event_turn (ev : event) : turn := match ev with Query _ _ t => t | Writable t => t | Response _ t => t end.
Definition event_revents (ph : phase) (ev : event) : list Z :=
  match ev, ph with
  | Query _ _ _, _ => [POLLIN; 0]
  | Response _ _, _ => [0; POLLIN]
  | Writable _, Asking _ => [0; POLLOUT]
  | Writable _, Replying _ => [POLLOUT; 0]
  end.

(** What the session promises for an event: the bytes that leave towards the client and the server. *)
Inductive says : conversation -> event -> sent -> conversation -> Prop :=
  | says_query n text new t out rest : out ++ rest = data (query_packet new) ->
      says (mkConv (Replying []) n) (Query text new t) ([], out) (mkConv (Asking rest) n)
  | says_more n bs t : let k := Z.to_nat (send_server t + send_server2 t) in
      says (mkConv (Asking bs) n) (Writable t) ([], take k bs) (mkConv (Asking (drop k bs)) n)
  | says_reply n ps t : let bytes := mjoin (data <$> ps) in let k := Z.to_nat (send_client2 t) in
      says (mkConv (Asking []) n) (Response ps t) (take k bytes, []) (mkConv (Replying (drop k bytes)) (n + Z.of_nat (length ps)))
  | says_rest n bs t : let k := Z.to_nat (send_client t + send_client2 t) in
      says (mkConv (Replying bs) n) (Writable t) (take k bs, []) (mkConv (Replying (drop k bs)) n).

(** What the client, the servers and the kernel have to do for it: a query is one COM_QUERY packet that fits the buffer, also after the rewriting; a response is one that MySQL gives to
    a query, it fits the buffers and comes in one read; [send] takes at most what it is given. *)
Definition event_ok (cv : conversation) (ev : event) : Prop :=
  match cv_phase cv, ev with
  | Replying [], Query text new t =>
      (length_of (query_packet text) <= net_buffer_size G)%nat /\ mysql_pkt_get_size (query_packet text) <= u64 (mysql_max_query_size G) /\
      Z.of_nat (length text) + 1 < 2 ^ 24 /\ recv_client t = Some (data (query_packet text)) /\ (exists o os, t_oracles t = o :: os /\ oracle_ok o) /\
      rewritten_to text new /\ (length_of (query_packet new) <= net_buffer_size G)%nat /\ Z.of_nat (length new) + 1 < 2 ^ 24 /\
      0 <= send_server2 t <= Z.of_nat (length_of (query_packet new))
  | Asking bs, Writable t => bs <> [] /\ 0 <= send_server t /\ 0 <= send_server2 t /\ send_server t + send_server2 t <= Z.of_nat (length bs)
  | Asking [], Response ps t =>
      let bytes := mjoin (data <$> ps) in
      recv_server t = Some bytes /\ (exists ts, mysql_response <$> ps = Some <$> ts /\ response ts) /\ Forall (readable (t_beyond t)) ps /\ Forall wf_pkt ps /\
      total_len ps < 2 ^ 64 /\ (length bytes <= net_buffer_size G)%nat /\ 0 <= send_client2 t <= Z.of_nat (length bytes) /\
      cv_sent cv + Z.of_nat (length ps) < 2 ^ 64
  | Replying bs, Writable t => bs <> [] /\ 0 <= send_client t /\ 0 <= send_client2 t /\ send_client t + send_client2 t <= Z.of_nat (length bs)
  | _, _ => False
  end.

(** A query was sent to the current server, to which the session is connected. *)
Definition awaiting (s : session) : Prop :=
  (exists i be, server_mybe s = Some i /\ mybes s !! i = Some be /\ is_Some (server_mycpe be)) /\
  client_command s = COM_QUERY /\ resultset_progress s = RESULTSET_WAITING /\ resultset_size s = 0 /\ query_to_cache s = false.

(** [poll] waited for the current server in the last turn. *)
Definition poll_current (s : session) : Prop :=
  forall i be d, server_mybe s = Some i -> mybes s !! i = Some be -> server_myds be = Some d -> last_server_poll_fd s = fd d.

(** The session is in a phase of the conversation. *)
Definition keeps_up (cv : conversation) (c : mysql_session_t) (h : shared) : Prop :=
  unfailed c /\
  match cv_phase cv with
  | Asking bs => inv [] bs (cv_sent cv) (sess c) h /\ awaiting (sess c)
  | Replying bs => inv bs [] (cv_sent cv) (sess c) h /\ poll_current (sess c) /\ (bs <> [] -> is_Some (server_mybe (sess c)))
  end.

(** A wake-up of the session: lines 138 to 157 and 236 to 245. *)
Definition session_poll (id : nat) (g : registry) (ph : phase) (ev : event) (c : mysql_session_t) (h : shared)
  : option (Z * mysql_session_t * shared * registry * sent) :=
  c ← (c ← polled (event_revents ph ev) c; check_fds_errors c);
  session_handler checksum md5 rmatch rreplace junk sha1 users after_free admin_COM_QUERY G (event_turn ev) id c h g.

(** ** A query *)

Lemma query_packet_wf text : Z.of_nat (length text) + 1 < 2 ^ 24 -> wf_pkt (query_packet text).
Proof. intros H. apply frame_wf; [simpl length; lia|done]. Qed.

(** The session after the query was given to the backend [be]. *)
Lemma given_inv bc n s s' h g' w rules be d d' r rest hg :
  inv bc [] n s h -> query_given G hg be d' r s s' -> (Z.to_nat hg < length (mybes s))%nat -> holds (net_buffer_size G) (client_myds s') [] ->
  active (client_myds s') = true -> pkts_sent (client_myds s') = n ->
  query_stats (Routing.query_info r) = SNull -> -1 <= Routing.default_hostgroup r < mysql_hostgroups G -> Forall2 same_rule (dp_rules D) rules ->
  backend_ok (net_buffer_size G) g' [] (Z.to_nat hg) be -> server_myds be = Some d -> is_Some (mshge be) -> holds (net_buffer_size G) d' rest ->
  state_inv w -> Forall (fun c => 0 < net_fd c) (idle_conns w) -> server_groups g' = dp_groups D ->
  inv [] rest n s' (h <| gloQR := rules |> <| glomysrvs := g' |> <| conn_pools := w |>).
Proof.
  intros [] [] Hlt Hcl Hact Hps Hst Hdef Hrules Hbe Hd Hm Hd' Hw Hidle Hg.
  split; cbn; try done; try congruence.
  - split; [done|]. lia.
  - by rewrite qg_info by apply (do_stats _ _ _ _ HD).
  - by rewrite qg_mybes, length_insert.
  - intros i b Hb. unfold pending_at. rewrite qg_mybe. rewrite qg_mybes in Hb. apply list_lookup_insert_Some in Hb as [(<- & <- & _)|(Hne & Hb)].
    + rewrite decide_True by done. by apply (backend_ok_stream _ _ []).
    + rewrite decide_False by congruence. pose proof (si_backends0 i b Hb) as Hok. unfold pending_at in Hok. replace (if decide _ then [] else []) with (@nil byte) in Hok by (by case_decide).
      eapply backend_ok_servers; [|exact Hok]. congruence.
  - intros i Hi. rewrite qg_mybe in Hi. injection Hi as <-. rewrite qg_mybes, list_lookup_insert_eq by done. eexists. split; [done|]. by split; [eexists|].
Qed.

Lemma session_idle bc n s h : inv bc [] n s h -> bc = [] -> idle_session s.
Proof.
  intros [] ->. split; try done; [by eapply holds_quiet|]. intros i Hi. destruct (si_current0 i Hi) as (be & Hb & [d Hd] & _). exists be, d. split_and!; try done.
  pose proof (bo_stream _ _ _ _ _ (si_backends0 i be Hb) d Hd) as Hh. unfold pending_at in Hh. rewrite decide_True in Hh by done. by eapply holds_quiet.
Qed.

Lemma query_step id g n text new t c h :
  keeps_up (mkConv (Replying []) n) c h -> event_ok (mkConv (Replying []) n) (Query text new t) ->
  exists c' h' out rest, session_poll id g (Replying []) (Query text new t) c h = Some (0, c', h', g, ([], out)) /\
    out ++ rest = data (query_packet new) /\ keeps_up (mkConv (Asking rest) n) c' h'.
Proof.
  intros (Hu & I & _ & _) (Hlen & Hsize & Htext & Hrecv & (o & os & Hos & Hor) & Hrw & Hfit & Hnew & Hsend). cbn [cv_sent] in I.
  destruct (poll_session G D [] [] n POLLIN 0 c h I Hu eq_refl eq_refl) as (c1 & x & y & Hp & Hu1 & Hs & Hr0 & Hr1).
  assert (server_unread (revents (fds1 c1)) (sess c1)) as Hun.
  { intros i be Hi Hb. rewrite Hs in Hi, Hb. destruct Hr1 as [(i' & be' & d' & _ & _ & _ & _ & _ & ->)|[Hn _]]; [by right|left; by eapply Hn]. }
  apply (inv_polled _ _ _ _ _ _ _ x y) in I. rewrite <- Hs in I. clear Hs Hr1. unfold session_poll. cbn [event_revents event_turn]. rewrite Hp, bind_Some.
  destruct (plan_ready o [] [] n (sess c1) h text new I Hrw) as (r & rules & Hplan & Hrules & Hqp & Hst & Hdst & Hdef).
  destruct (reaches_ready o [] n (sess c1) h _ I Hor Hdst) as (be & d & gs & w & Hre & Hgs & Hbe & Hw & Hidle).
  pose proof (re_stream _ _ _ _ _ _ _ _ _ _ (Hre (client_myds (sess c1)))) as Hd. pose proof (bo_stream _ _ _ _ _ Hbe d Hd) as Hhd.
  pose proof I as [C1 C2 C3 C4 C5 (C6 & C6') (C7 & C8 & C9) C10 _ _ _ _ _ _ _ _ _ _]. pose proof (holds_quiet _ _ Hhd) as Hqd.
  destruct (query_turn checksum md5 rmatch rreplace junk sha1 users after_free admin_COM_QUERY G t o os id c1 h g (query_packet text) r rules (destination_hostgroup (Routing.query_info r)) be d gs w
    (session_idle _ _ _ _ I eq_refl) C4 C5) as (s' & g' & d' & Hrun & Hgv & Hl & Hin & Hfd & Hsz & Hgr & Q1 & Q2 & Q3 & Q4 & Q5); try done.
  - lia.
  - apply (do_cache _ _ _ _ HD).
  - by rewrite Hr0.
  - by apply query_packet_wf.
  - by rewrite (holds_room _ _ _ C1).
  - rewrite Hqp. by apply query_packet_wf.
  - rewrite Hqp. cbn [default]. rewrite (proj2 (hd_size _ _ _ Hhd)). done.
  - by rewrite Hqp.
  - rewrite Hqp in Hrun, Hl. cbn [default] in Hrun, Hl. set (now := last_server_poll_fd (sess c1) =? fd d) in *.
    eexists _, _, _, (if now then drop (Z.to_nat (send_server2 t)) (data (query_packet new)) else data (query_packet new)). split; [exact Hrun|].
    split; [destruct now; [apply take_drop|done]|]. pose proof (obtains_index _ _ _ _ _ _ _ _ _ (re_be _ _ _ _ _ _ _ _ _ _ (Hre (client_myds (sess c1))))) as Hlt.
    destruct (re_online _ _ _ _ _ _ _ _ _ _ (Hre (client_myds (sess c1)))) as (m & e & Hm & _).
    split; [exact Hu1|]. cbn [cv_phase cv_sent]. change (sess (c1 <| sess_status := CONNECTION_ALL |> <| sess := s' |>)) with s'. split.
    + eapply (given_inv [] n (sess c1) s' h g' w rules be d d' r); try done.
      * apply quiet_holds; [done|]. rewrite Q2, Q5. apply (hd_size _ _ _ C1).
      * by rewrite Q4.
      * by eapply backend_ok_servers.
      * destruct Hhd as [[H1 H2 H3 H4 H5] H6 H7 [H8 H9]]. split; [split|..]; rewrite ?Hin, ?Hfd, ?Hsz; try done. by destruct Hl.
      * congruence.
    + destruct Hgv. split_and!; try done. eexists _, _. split; [done|]. rewrite qg_mybes, list_lookup_insert_eq by done. split; [done|].
      apply (re_conn _ _ _ _ _ _ _ _ _ _ (Hre (client_myds (sess c1)))).
Qed.

(** ** Bytes that wait *)

Lemma holds_sent n d d' bs bs' : holds n d bs -> loaded (output d') bs' -> sent_only d d' -> holds n d' bs'.
Proof.
  intros [[H1 H2 H3 H4 H5] H6 H7 [H8 H9]] Hl [S1 S2 S3 S4 S5 S6]. split; [split|..]; rewrite ?S1, ?S3, ?S6; try done. by destruct Hl.
Qed.

Lemma holds_input n d bs : holds n d bs -> queue_data (iqueue (input d)) = 0%nat /\ ipkts (input d) = [].
Proof.
  intros [[[Hq Hw _] _ _ _ _] Hin _ _]. unfold in_stream in Hin. apply app_eq_nil in Hin as [Hpk Hin]. apply app_eq_nil in Hin as [_ Hin]. split.
  - by rewrite <- (contents_length _ Hq), Hin.
  - destruct (ipkts (input d)) as [|p ps]; [done|]. apply Forall_cons in Hw as [[_ [H4 _]] _]. rewrite fmap_cons, mjoin_cons in Hpk.
    apply app_eq_nil in Hpk as [Hpk _]. rewrite Hpk in H4. simpl in H4. lia.
Qed.

(** [send] takes [a] and then [b] of the bytes. *)
Definition takes (bs : list byte) (a b : Z) : Prop := bs <> [] -> 0 <= a /\ 0 <= b /\ a + b <= Z.of_nat (length bs).

Lemma takes_split bs a b : takes bs a b ->
  (bs <> [] -> 0 <= a <= Z.of_nat (length bs)) /\ (drop (Z.to_nat a) bs <> [] -> 0 <= b <= Z.of_nat (length (drop (Z.to_nat a) bs))) /\
  take (Z.to_nat a) bs ++ take (Z.to_nat b) (drop (Z.to_nat a) bs) = take (Z.to_nat (a + b)) bs /\
  drop (Z.to_nat b) (drop (Z.to_nat a) bs) = drop (Z.to_nat (a + b)) bs.
Proof.
  intros H. destruct (decide (bs = [])) as [->|Hne]; [rewrite !drop_nil, !take_nil; by split_and!|]. specialize (H Hne). rewrite length_drop, drop_drop, take_take_drop.
  split_and!; [lia..| |]; f_equal; lia.
Qed.

(** A turn in which nothing is received: what waits in the buffers leaves, as far as the kernel takes it. *)
Lemma flush_turn t id c h g i be d m bc bs :
  server_mybe (sess c) = Some i -> mybes (sess c) !! i = Some be -> server_myds be = Some d -> mshge be = Some m -> is_Some (mshge_at (glomysrvs h) m) ->
  holds (net_buffer_size G) (client_myds (sess c)) bc -> holds (net_buffer_size G) d bs -> active (client_myds (sess c)) = true -> net_failure (sess c) = false ->
  healthy (sess c) = true -> pkts_sent (client_myds (sess c)) <> 1 -> mysql_schema_cur (sauth (sess c)) <> None -> last_server_poll_fd (sess c) = fd d ->
  has (revents (fds0 c)) POLLIN = false -> server_unread (revents (fds1 c)) (sess c) ->
  (bc <> [] -> has (revents (fds0 c)) POLLOUT = true) -> (bs <> [] -> has (revents (fds1 c)) POLLOUT = true) ->
  takes bc (send_client t) (send_client2 t) -> takes bs (send_server t) (send_server2 t) ->
  let kc := Z.to_nat (send_client t + send_client2 t) in let ks := Z.to_nat (send_server t + send_server2 t) in
  exists dc d' g', session_handler checksum md5 rmatch rreplace junk sha1 users after_free admin_COM_QUERY G t id c h g =
      Some (0, c <| sess_status := CONNECTION_ALL |> <| sess := set_stream i be d' ((sess c) <| client_myds := dc |>) |>, h <| glomysrvs := g' |>, g, (take kc bc, take ks bs)) /\
    holds (net_buffer_size G) dc (drop kc bc) /\ active dc = true /\ pkts_sent dc = pkts_sent (client_myds (sess c)) /\
    holds (net_buffer_size G) d' (drop ks bs) /\ fd d' = fd d /\ server_groups g' = server_groups (glomysrvs h).
Proof.
  intros Hi Hb Hd Hm [e He] Hc Hs Hact Hnet Hhe Hps Hsch Hpoll Hr0 Hr1 Hw0 Hw1 Htc Hts kc ks.
  unfold session_handler. change (sess (c <| sess_status := CONNECTION_ALL |>)) with (sess c). rewrite Hhe.
  change (fds0 (c <| sess_status := CONNECTION_ALL |>)) with (fds0 c). change (fds1 (c <| sess_status := CONNECTION_ALL |>)) with (fds1 c).
  set (r0 := revents (fds0 c)) in *. set (r1 := revents (fds1 c)) in *. set (s := sess c) in *.
  destruct (takes_split _ _ _ Htc) as (C1 & C2 & C3 & C4). destruct (takes_split _ _ _ Hts) as (S1 & S2 & S3 & S4).
  unfold session_turn. rewrite Hact. cbn [negb]. unfold sync_net.
  assert (read_from_net_2 t r0 r1 s h = Some (s, h)) as ->.
  { unfold read_from_net_2. rewrite Hr0, andb_false_r, bind_Some, Hi, Hb, bind_Some, Hd. destruct (Hr1 i be Hi Hb) as [-> | ->]; [done|]. rewrite andb_false_r.
    by destruct (server_mycpe be). }
  rewrite bind_Some, Hnet. cbn [negb andb].
  destruct (write_2_loaded (send_client t) (send_server t) false r0 r1 s h i be d m bc bs) as (dc & d1 & g1 & -> & L1 & O1 & _ & L2 & O2 & _ & Hg1); try done; try by eexists.
  { apply Hc. } { apply Hs. } { apply Hc. } { apply Hs. }
  rewrite !bind_Some. cbn [orb] in *.
  assert ((if has r0 POLLOUT then take (Z.to_nat (send_client t)) bc else []) = take (Z.to_nat (send_client t)) bc /\
          (if has r0 POLLOUT then drop (Z.to_nat (send_client t)) bc else bc) = drop (Z.to_nat (send_client t)) bc) as [-> Ec].
  { destruct (decide (bc = [])) as [-> | Hne]; [rewrite take_nil, drop_nil; by destruct (has r0 POLLOUT)|by rewrite (Hw0 Hne)]. }
  assert ((if has r1 POLLOUT then take (Z.to_nat (send_server t)) bs else []) = take (Z.to_nat (send_server t)) bs /\
          (if has r1 POLLOUT then drop (Z.to_nat (send_server t)) bs else bs) = drop (Z.to_nat (send_server t)) bs) as [-> Es].
  { destruct (decide (bs = [])) as [-> | Hne]; [rewrite take_nil, drop_nil; by destruct (has r1 POLLOUT)|by rewrite (Hw1 Hne)]. }
  rewrite Ec in L1. rewrite Es in L2. pose proof (holds_sent _ _ _ _ _ Hc L1 O1) as Hc1. pose proof (holds_sent _ _ _ _ _ Hs L2 O2) as Hs1.
  destruct (holds_input _ _ _ Hc1) as [Qc Pc]. destruct (holds_input _ _ _ Hs1) as [Qs Ps].
  set (s1 := set_stream i be d1 (s <| client_myds := dc |>)). change (net_failure s1) with (net_failure s). rewrite Hnet. cbn [negb andb].
  assert (mybes s1 !! i = Some (be <| server_myds := Some d1 |>)) as Hb1 by (apply set_stream_at; exact (lookup_lt_Some (mybes s) i be Hb)). set (be1 := be <| server_myds := Some d1 |>) in *.
  unfold buffer2array_2. change (client_myds s1) with dc. rewrite (drain_empty _ _ Qc), bind_Some. change (s1 <| client_myds := dc |>) with (s1 <| client_myds := client_myds s1 |>).
  rewrite set_client_same. unfold on_server_stream. change (server_mybe s1) with (server_mybe s). rewrite Hi, Hb1, bind_Some. change (server_myds be1) with (Some d1). cbv iota.
  rewrite (drain_empty _ _ Qs), !bind_Some, set_stream_same by done.
  unfold session_respond. change (client_myds s1) with dc. rewrite (sn_sent _ _ O1), (proj2 (Z.eqb_neq _ _) Hps). cbn [andb].
  rewrite bind_Some, process_client_none, bind_Some by exact Pc. cbn [Z.eqb]. rewrite (no_server_packets _ _ _ _ i be1 d1 s1 _ Hi Hb1 eq_refl Ps), bind_Some.
  assert (is_Some (mshge_at (glomysrvs (h <| glomysrvs := g1 |>)) m)) as He1 by (destruct (mshge_at_same _ g1 m e Hg1 He) as (e1 & He1 & _); by exists e1).
  assert (array2buffer_2 s1 = Some s1) as Ha.
  { unfold array2buffer_2. change (client_myds s1) with dc. rewrite (loaded_full _ _ L1), bind_Some. change (s1 <| client_myds := dc |>) with (s1 <| client_myds := client_myds s1 |>).
    rewrite set_client_same. unfold on_server_stream. change (server_mybe s1) with (server_mybe s). rewrite Hi, Hb1, bind_Some. change (server_myds be1) with (Some d1). cbv iota.
    by rewrite (loaded_full _ _ L2), bind_Some, set_stream_same. }
  destruct (session_write_loaded t r0 r1 s1 s1 (h <| glomysrvs := g1 |>) i be1 d1 m _ _ (take (Z.to_nat (send_client t)) bc, take (Z.to_nat (send_server t)) bs) Ha Hi Hb1 eq_refl Hm
    He1 (so_fd _ (hd_ok _ _ _ Hc1)) (so_fd _ (hd_ok _ _ _ Hs1)) L1 L2 C2 S2 Hnet Hsch) as (dc2 & d2 & g2 & -> & M1 & N1 & _ & M2 & N2 & _ & Hg2).
  change (last_server_poll_fd s1) with (last_server_poll_fd s) in *. rewrite Hpoll, (sn_fd _ _ O2), Z.eqb_refl in *. rewrite C4 in M1. rewrite S4 in M2.
  unfold sent_app. cbn [fst snd]. rewrite C3, S3, bind_Some. exists dc2, d2, g2. split.
  - assert (set_stream i be1 d2 (s1 <| client_myds := dc2 |>) = set_stream i be d2 (s <| client_myds := dc2 |>)) as ->; [|done].
    unfold s1, be1, set_stream, set_backend. cbn. by rewrite list_insert_insert_eq.
  - pose proof (holds_sent _ _ _ _ _ Hc1 M1 N1). pose proof (holds_sent _ _ _ _ _ Hs1 M2 N2). change (client_myds s1) with dc in N1. destruct O1, O2, N1, N2. split_and!; try done; try congruence.
    exact (eq_trans Hg2 Hg1).
Qed.

Lemma flushed_inv bc bs bc' bs' n s h g' i be d d' dc :
  inv bc bs n s h -> server_mybe s = Some i -> mybes s !! i = Some be -> server_myds be = Some d ->
  holds (net_buffer_size G) dc bc' -> active dc = true -> pkts_sent dc = pkts_sent (client_myds s) -> holds (net_buffer_size G) d' bs' ->
  server_groups g' = server_groups (glomysrvs h) -> inv bc' bs' n (set_stream i be d' (s <| client_myds := dc |>)) (h <| glomysrvs := g' |>).
Proof.
  intros [] Hi Hb Hd Hdc Hact Hsent Hd' Hg. split; cbn; try done.
  - by rewrite Hsent.
  - by rewrite length_insert.
  - intros j b Hj. unfold pending_at. cbn. rewrite Hi. apply list_lookup_insert_Some in Hj as [(<- & <- & _)|(Hne & Hj)].
    + rewrite decide_True by done. eapply backend_ok_servers; [done|]. eapply backend_ok_stream; [by apply si_backends0|done].
    + rewrite decide_False by congruence. pose proof (si_backends0 j b Hj) as Hok. unfold pending_at in Hok. rewrite decide_False in Hok by congruence.
      by eapply backend_ok_servers.
  - intros j Hj. assert (j = i) as -> by congruence. destruct (si_current0 i Hi) as (b & Hbb & _ & Hm). simplify_eq.
    rewrite list_lookup_insert_eq by (by eapply lookup_lt_Some). eexists. split; [done|]. by split; [eexists|].
  - congruence.
Qed.

(** The current backend of a session that has one. *)
Lemma current_at bc bs n s h i : inv bc bs n s h -> server_mybe s = Some i ->
  exists be d m, mybes s !! i = Some be /\ server_myds be = Some d /\ mshge be = Some m /\ is_Some (mshge_at (glomysrvs h) m) /\ holds (net_buffer_size G) d bs.
Proof.
  intros [] Hi. destruct (si_current0 i Hi) as (be & Hb & [d Hd] & [m Hm]). pose proof (si_backends0 i be Hb) as [B1 B2 _ _]. exists be, d, m.
  specialize (B1 d Hd). unfold pending_at in B1. rewrite decide_True in B1 by done. split_and!; try done. by apply B2.
Qed.

Lemma asking_step id g n bs t c h :
  keeps_up (mkConv (Asking bs) n) c h -> event_ok (mkConv (Asking bs) n) (Writable t) ->
  let k := Z.to_nat (send_server t + send_server2 t) in
  exists c' h', session_poll id g (Asking bs) (Writable t) c h = Some (0, c', h', g, ([], take k bs)) /\ keeps_up (mkConv (Asking (drop k bs)) n) c' h'.
Proof.
  intros (Hu & I & Haw) He k. cbn [cv_sent] in I. assert (bs <> [] /\ takes bs (send_server t) (send_server2 t)) as [Hne Ht].
  { cbn in He. destruct bs; destruct He as (? & ?); split; try done. by intros _. }
  destruct (poll_session G D [] bs n 0 POLLOUT c h I Hu eq_refl eq_refl) as (c1 & x & y & Hp & Hu1 & Hs & Hr0 & Hr1). pose proof Haw as ((i & be0 & Hi & Hb0 & Hc0) & W1 & W2 & W3 & W4).
  destruct Hr1 as [(i' & be & d & Hi' & Hb & Hd & Hc & Hx & Hr1)|[Hn _]]; [|specialize (Hn i be0 Hi Hb0); rewrite Hn in Hc0; by destruct Hc0].
  assert (i' = i) as -> by congruence. assert (be0 = be) as -> by congruence.
  unfold session_poll. cbn [event_revents event_turn]. rewrite Hp, bind_Some. pose proof (inv_polled _ _ _ _ _ _ _ x y I) as I1. rewrite <- Hs in I1.
  destruct (current_at _ _ _ _ _ i I1) as (be1 & d1 & m & Hb1 & Hd1 & Hm & He1 & Hh); [by rewrite Hs|].
  assert (be1 = be) as -> by (rewrite Hs in Hb1; exact (eq_trans (eq_sym (f_equal (default be) Hb1)) (f_equal (default be) Hb))). assert (d1 = d) as -> by congruence.
  pose proof I1 as [C1 C2 C3 C4 C5 (C6 & C6') (C7 & C8 & C9) _ _ _ _ _ _ _ _ _ _ _].
  destruct (flush_turn t id c1 h g i be d m [] bs) as (dc & d' & g' & Hrun & F1 & F2 & F3 & F4 & F5 & F6); try done.
  - by rewrite Hs.
  - lia.
  - by rewrite C9.
  - by rewrite Hs.
  - by rewrite Hr0.
  - intros j b _ _. right. by rewrite Hr1.
  - by rewrite Hr1.
  - rewrite take_nil in Hrun. rewrite drop_nil in F1. eexists _, _. split; [exact Hrun|]. set (s' := set_stream i be d' _). split; [exact Hu1|]. split.
    + cbn [cv_sent]. eapply (flushed_inv [] bs); try done. by rewrite Hs.
    + assert (awaiting (sess c1)) as ((j & b & Hj & Hbj & Hcj) & W1' & W2' & W3' & W4') by (rewrite Hs; exact Haw).
      split; [|split_and!; done]. exists i, (be <| server_myds := Some d' |>). split; [change (server_mybe (sess c1) = Some i); by rewrite Hs|]. split; [|exact Hc].
      apply set_stream_at. exact (lookup_lt_Some _ _ _ Hb1).
Qed.

(** After a wake-up [poll] waits for the current server when it did before or when the session is connected to it. *)
Lemma polled_current c c1 x y i be d r0 r1 :
  sess c1 = (sess c) <| last_server_poll_fd := x |> <| nfds := y |> -> poll_current (sess c) -> server_mybe (sess c) = Some i -> mybes (sess c) !! i = Some be ->
  server_myds be = Some d ->
  ((exists i be d, server_mybe (sess c) = Some i /\ mybes (sess c) !! i = Some be /\ server_myds be = Some d /\ is_Some (server_mycpe be) /\
      x = fd d /\ revents (fds1 c1) = r1) \/
   ((forall i be, server_mybe (sess c) = Some i -> mybes (sess c) !! i = Some be -> server_mycpe be = None) /\ x = last_server_poll_fd (sess c))) ->
  has r1 POLLIN = r0 -> r0 = false -> last_server_poll_fd (sess c1) = fd d /\ server_unread (revents (fds1 c1)) (sess c1).
Proof.
  intros Hs Hpc Hi Hb Hd Hr Hr0 ->. rewrite Hs. cbn. destruct Hr as [(i' & be' & d' & Hi' & Hb' & Hd' & _ & -> & ->)|[Hn ->]].
  - assert (i' = i) as -> by congruence. simplify_eq. split; [done|]. intros j b _ _. by right.
  - split; [by eapply Hpc|]. intros j b Hj Hbj. left. by eapply Hn.
Qed.

Lemma replying_step id g n bs t c h :
  keeps_up (mkConv (Replying bs) n) c h -> event_ok (mkConv (Replying bs) n) (Writable t) ->
  let k := Z.to_nat (send_client t + send_client2 t) in
  exists c' h', session_poll id g (Replying bs) (Writable t) c h = Some (0, c', h', g, (take k bs, [])) /\ keeps_up (mkConv (Replying (drop k bs)) n) c' h'.
Proof.
  intros (Hu & I & Hpc & Hsome) He k. cbn [cv_sent] in I. assert (bs <> [] /\ takes bs (send_client t) (send_client2 t)) as [Hne Ht].
  { cbn in He. destruct bs; destruct He as (? & ?); split; try done. by intros _. }
  destruct (Hsome Hne) as [i Hi]. destruct (current_at _ _ _ _ _ i I Hi) as (be & d & m & Hb & Hd & Hm & He1 & Hh).
  destruct (poll_session G D bs [] n POLLOUT 0 c h I Hu eq_refl eq_refl) as (c1 & x & y & Hp & Hu1 & Hs & Hr0 & Hr1).
  destruct (polled_current c c1 x y i be d false 0 Hs Hpc Hi Hb Hd Hr1 eq_refl eq_refl) as [Hpoll Hun]. clear Hr1.
  unfold session_poll. cbn [event_revents event_turn]. rewrite Hp, bind_Some. pose proof (inv_polled _ _ _ _ _ _ _ x y I) as I1. rewrite <- Hs in I1.
  assert (server_mybe (sess c1) = Some i) as Hi1 by (by rewrite Hs). assert (mybes (sess c1) !! i = Some be) as Hb1 by (by rewrite Hs).
  pose proof I1 as [C1 C2 C3 C4 C5 (C6 & C6') (C7 & C8 & C9) _ _ _ _ _ _ _ _ _ _ _].
  destruct (flush_turn t id c1 h g i be d m bs []) as (dc & d' & g' & Hrun & F1 & F2 & F3 & F4 & F5 & F6); try done.
  - lia.
  - by rewrite C9.
  - by rewrite Hr0.
  - by rewrite Hr0.
  - rewrite take_nil in Hrun. rewrite drop_nil in F4. eexists _, _. split; [exact Hrun|]. set (s' := set_stream i be d' _). split; [exact Hu1|]. cbn [cv_phase cv_sent]. split_and!.
    + cbn [cv_sent]. by eapply (flushed_inv bs []).
    + intros j b e Hj Hbj Hej. assert (j = i) as -> by (change (server_mybe (sess c1) = Some j) in Hj; congruence).
      change (mybes s' !! i = Some b) in Hbj. unfold s' in Hbj. rewrite set_stream_at in Hbj by (exact (lookup_lt_Some _ _ _ Hb1)). injection Hbj as <-.
      injection Hej as <-. change (last_server_poll_fd (sess c1) = fd d'). congruence.
    + intros _. by exists i.
Qed.

(** ** A response *)

Lemma counted_small k : forall n, 0 <= n -> n + Z.of_nat k < 2 ^ 64 -> counted k n = n + Z.of_nat k.
Proof.
  induction k as [|k IH]; intros n Hn Hk; [cbn; lia|]. rewrite <- Nat.add_1_r, Nat.add_comm, counted_add. change (counted 1 n) with (u64 (n + 1)).
  rewrite uwrap_small by lia. rewrite IH by lia. lia.
Qed.

Lemma kept_backend n g bs i be x be' :
  backend_ok n g bs i be -> backend_kept (be <| server_myds := x |>) be' -> (is_Some (server_myds be) -> is_Some x) ->
  (forall d, server_myds be' = Some d -> holds n d []) -> backend_ok n g [] i be'.
Proof.
  intros [B1 B2 B3 B4] [K1 K2 K3 K4] Hx Hd. cbn in *. split; [done|by rewrite K1| |by apply K4].
  intros c Hc. destruct K3 as [K3|K3]; [|congruence]. rewrite K3 in Hc. destruct (B3 c Hc) as (H1 & H2 & H3 & H4). rewrite K1. split_and!; try done.
  destruct (Hx H4) as [d ->]. destruct K2 as (d' & -> & _). by exists d'.
Qed.

Lemma taken_quiet n d d' : holds n d [] -> taken_from d d' -> holds n d' [].
Proof.
  intros Hh (a & k & l & E & ->). destruct (holds_input _ _ _ Hh) as [_ Hp]. rewrite Hp in E. symmetry in E. apply app_eq_nil in E as [_ ->].
  destruct Hh as [[[H1 H2 H3] H4 H5 H6 H7] H8 H9 H10]. unfold in_stream in H8. rewrite Hp in H8. split; [split; cbn; [split; cbn; [done|by apply Forall_nil|done]|done..]|done|done|done].
Qed.

Lemma taken_read n d d2 d' bytes : holds n d [] -> input_ok (input d2) -> drained (input d2) -> in_stream (input d2) = bytes -> mjoin (data <$> ipkts (input d2)) = bytes ->
  output d2 = output d -> fd d2 = fd d -> size (iqueue (input d2)) = size (iqueue (input d)) -> taken_from d2 d' -> ipkts (input d') = [] -> holds n d' [] /\ fd d' = fd d.
Proof.
  intros [[H1 H2 H3 H4 H5] H6 H7 [H8 H9]] I1 I2 I3 I4 Ho Hf Hz (a & k & l & _ & ->) Hp. cbn in Hp. subst l. cbn. rewrite Ho, Hf. split; [|done].
  unfold in_stream in I3. rewrite I4 in I3. rewrite <- (app_nil_r bytes) in I3 at 2. apply app_inv_head in I3. destruct I1.
  split; [split; cbn; rewrite ?Hz; try done; split; cbn; done|exact I3|done|cbn; by rewrite Hz].
Qed.

Lemma inv_waiting t bs n s h : inv [] bs n s h -> bs = [] -> awaiting s -> waiting G t s h.
Proof.
  intros I -> ((i & be & Hi & Hb & Hc) & W1 & W2 & W3 & W4). destruct (current_at _ _ _ _ _ i I Hi) as (be' & d & m & Hb' & Hd & Hm & He & Hh). destruct I.
  split; try done.
  - split; [by exists i, be', d|done| |apply si_pools0]. intros b x [j Hj]%list_elem_of_lookup_1 Hx. by apply (bo_conn _ _ _ _ _ (si_backends0 j b Hj) x Hx).
  - unfold input_queue, server_stream, current_backend. rewrite Hi, bind_Some, Hb', bind_Some, Hd, bind_Some. by rewrite (proj2 (holds_input _ _ _ Hh)).
  - intros E. by rewrite (do_stats _ _ _ _ HD) in E.
Qed.

(** The session after the packets of a whole response. *)
Lemma served_inv n s h g2 i be d d2 ps s1 h1 dc g' rest :
  inv [] [] n s h -> server_mybe s = Some i -> mybes s !! i = Some be -> server_myds be = Some d -> holds (net_buffer_size G) d [] ->
  served G s (h <| glomysrvs := g2 |>) ps s1 h1 -> input_queue s1 = Some [] -> relay_frame (set_stream i be d2 s, h <| glomysrvs := g2 |>) (s1, h1) ->
  server_groups g2 = server_groups (glomysrvs h) -> server_groups g' = server_groups (glomysrvs h1) ->
  input_ok (input d2) -> drained (input d2) -> in_stream (input d2) = mjoin (data <$> ps) -> ipkts (input d2) = ps -> output d2 = output d -> fd d2 = fd d ->
  size (iqueue (input d2)) = size (iqueue (input d)) ->
  holds (net_buffer_size G) dc rest -> active dc = true -> pkts_sent dc = n + Z.of_nat (length ps) -> n + Z.of_nat (length ps) < 2 ^ 64 ->
  inv rest [] (n + Z.of_nat (length ps)) (s1 <| client_myds := dc |>) (h1 <| glomysrvs := g' |>) /\
  exists be' d', server_mybe s1 = Some i /\ mybes s1 !! i = Some be' /\ server_myds be' = Some d' /\ fd d' = fd d.
Proof.
  intros [] Hi Hb Hd Hh [] Hq [F1 F2 F3 F4 F5 F6 F7 F8 _ F10 (F11 & F12 & F13) F14 F15] Hg2 Hg' I1 I2 I3 I4 Ho Hf Hz Hdc Hact Hsent Hsmall. cbn [fst snd] in *.
  pose proof (lookup_lt_Some _ _ _ Hb) as Hlt. pose proof (set_stream_at i be d2 s Hlt) as Hbi.
  destruct (Forall2_lookup_l _ _ _ _ _ F10 Hbi) as (be' & Hb' & Hk). pose proof (bk_stream _ _ Hk) as (d' & Hd' & Ht).
  assert (server_mybe s1 = Some i) as Hi1 by exact (eq_trans F4 Hi).
  assert (ipkts (input d') = []) as Hp'.
  { unfold input_queue, server_stream, current_backend in Hq. rewrite Hi1, bind_Some, Hb', bind_Some, Hd', bind_Some in Hq. by injection Hq. }
  destruct (taken_read _ d d2 d' (mjoin (data <$> ps)) Hh I1 I2 I3) as [Hh' Hfd']; try done; [by rewrite I4|].
  assert (server_groups g' = server_groups (glomysrvs h)) as Hgg by (rewrite Hg', F11; exact Hg2).
  change (net_failure (set_stream i be d2 s)) with (net_failure s) in F2. change (sauth (set_stream i be d2 s)) with (sauth s) in F1.
  change (healthy (set_stream i be d2 s)) with (healthy s) in F6. change (default_hostgroup (set_stream i be d2 s)) with (default_hostgroup s) in F7.
  change (query_info (set_stream i be d2 s)) with (query_info s) in F8.
  split; [|by exists be', d']. split; cbn; try done; try congruence.
  - split; [done|]. lia.
  - auto.
  - apply Forall2_length in F10. cbn in F10. rewrite length_insert in F10. lia.
  - intros j b Hj. unfold pending_at. replace (if decide _ then [] else []) with (@nil byte) by (by case_decide).
    destruct (Forall2_lookup_r _ _ _ _ _ F10 Hj) as (b0 & Hb0 & Hkj). eapply backend_ok_servers; [exact Hgg|].
    destruct (decide (j = i)) as [->|Hne].
    + assert (b = be') as -> by congruence. assert (b0 = be <| server_myds := Some d2 |>) as -> by congruence.
      eapply (kept_backend _ _ _ i be (Some d2)); [by apply si_backends0|done|by eexists|]. intros x Hx. congruence.
    + change (mybes (set_stream i be d2 s)) with (<[i := be <| server_myds := Some d2 |>]> (mybes s)) in Hb0. rewrite list_lookup_insert_ne in Hb0 by done.
      pose proof (si_backends0 j b0 Hb0) as Hok. unfold pending_at in Hok. rewrite decide_False in Hok by congruence.
      eapply (kept_backend _ _ _ j b0 (server_myds b0)); [done| |done|].
      * replace (b0 <| server_myds := server_myds b0 |>) with b0 by (by destruct b0). done.
      * intros x Hx. pose proof (bk_stream _ _ Hkj) as Hsj. destruct (server_myds b0) as [e|] eqn:Ee; [|congruence]. destruct Hsj as (e' & He' & Hte).
        assert (x = e') as -> by congruence. eapply taken_quiet; [|exact Hte]. by apply (bo_stream _ _ _ _ _ Hok).
  - intros j Hj. assert (j = i) as -> by congruence. exists be'. split; [done|]. split; [by exists d'|]. rewrite (bk_mshge _ _ Hk). cbn.
    destruct (si_current0 i Hi) as (b & Hbb & _ & Hm). by simplify_eq.
  - split; [apply sv_ok|]. apply F15; [|apply si_pools0].
    apply Forall_forall. intros x Hx. unfold held in Hx. apply list_elem_of_bind in Hx as (b & Hx & [j Hj]%list_elem_of_lookup_1).
    destruct (server_mycpe b) as [cp|] eqn:Ecp; [|by apply not_elem_of_nil in Hx]. apply list_elem_of_singleton in Hx as ->.
    change (mybes (set_stream i be d2 s)) with (<[i := be <| server_myds := Some d2 |>]> (mybes s)) in Hj.
    apply list_lookup_insert_Some in Hj as [(<- & <- & _)|(_ & Hj)].
    + by apply (bo_conn _ _ _ _ _ (si_backends0 i be Hb) cp).
    + by apply (bo_conn _ _ _ _ _ (si_backends0 j b Hj) cp).
  - by rewrite F12.
  - by rewrite F13.
Qed.

Lemma reply_step id g n ps t c h :
  keeps_up (mkConv (Asking []) n) c h -> event_ok (mkConv (Asking []) n) (Response ps t) ->
  let bytes := mjoin (data <$> ps) in let k := Z.to_nat (send_client2 t) in
  exists c' h', session_poll id g (Asking []) (Response ps t) c h = Some (0, c', h', g, (take k bytes, [])) /\
    keeps_up (mkConv (Replying (drop k bytes)) (n + Z.of_nat (length ps))) c' h'.
Proof.
  intros (Hu & I & Haw) (Hrecv & Htypes & Hread & Hwf & Hlen & Hroom & Hsend & Hn) bytes k. cbn [cv_sent] in I, Hn.
  destruct (poll_session G D [] [] n 0 POLLIN c h I Hu eq_refl eq_refl) as (c1 & x & y & Hp & Hu1 & Hs & Hr0 & Hr1). pose proof Haw as ((i & be0 & Hi & Hb0 & Hc0) & _).
  destruct Hr1 as [(i' & be & d & Hi' & Hb & Hd & Hc & Hx & Hr1)|[Hno _]]; [|specialize (Hno i be0 Hi Hb0); rewrite Hno in Hc0; by destruct Hc0].
  assert (i' = i) as -> by congruence. assert (be0 = be) as -> by congruence.
  unfold session_poll. cbn [event_revents event_turn]. rewrite Hp, bind_Some. pose proof (inv_polled _ _ _ _ _ _ _ x y I) as I1. rewrite <- Hs in I1.
  assert (awaiting (sess c1)) as Haw1 by (rewrite Hs; exact Haw). assert (server_mybe (sess c1) = Some i) as Hi1 by (by rewrite Hs).
  assert (mybes (sess c1) !! i = Some be) as Hb1 by (by rewrite Hs). assert (last_server_poll_fd (sess c1) = fd d) as Hpoll by (by rewrite Hs).
  destruct (current_at _ _ _ _ _ i I1 Hi1) as (be' & d' & m & Hb' & Hd' & Hm & He & Hh). simplify_eq. clear Hs.
  pose proof I1 as [C1 C2 C3 C4 C5 (C6 & C6') (C7 & C8 & C9) _ _ _ _ _ _ _ _ _ _ _].
  assert (query_to_cache (sess c1) = false) as Hqc by apply Haw1.
  destruct (response_turn checksum md5 rmatch rreplace junk sha1 users after_free admin_COM_QUERY G t id c1 h g i be d ps)
    as (d2 & g2 & s1 & h1 & dc & g' & Hrun & Hsv & Hq & Hf & R1 & R2 & R3 & R4 & R5 & R6 & R7 & R8 & R9 & R10 & R11 & R12 & R13 & R14 & R15); try done.
  - pose proof (do_groups _ _ _ _ HD). lia.
  - by apply (inv_waiting _ [] n).
  - split; try done; [by exists m|by eapply holds_quiet].
  - by eapply holds_quiet.
  - lia.
  - by rewrite C9.
  - by rewrite Hr0.
  - by rewrite Hr1.
  - split; try done; [|by rewrite Hqc]. eapply Forall_impl; [exact Hwf|]. by intros p [? _].
  - by rewrite (holds_room _ _ _ Hh).
  - by rewrite (proj2 (hd_size _ _ _ C1)).
  - rewrite C6, counted_small in R14 by lia.
    assert (holds (net_buffer_size G) dc (drop k bytes)) as Hdc.
    { destruct C1 as [[H1 H2 H3 H4 H5] H6 H7 [H8 H9]]. split; [split|..]; rewrite ?R11, ?R13, ?R15; try done. by destruct R10. }
    destruct (served_inv n (sess c1) h g2 i be d d2 ps s1 h1 dc g' (drop k bytes)) as (Iout & be' & d' & J1 & J2 & J3 & J4); try done.
    eexists _, _. split; [exact Hrun|]. split; [exact Hu1|]. cbn [cv_phase cv_sent]. split_and!; [exact Iout| |].
    + intros j b e Hj Hbj Hej. assert (j = i) as -> by (change (server_mybe s1 = Some j) in Hj; congruence).
      change (mybes s1 !! i = Some b) in Hbj. assert (b = be') as -> by congruence. assert (e = d') as -> by congruence.
      change (last_server_poll_fd s1 = fd d'). rewrite J4, <- Hpoll. exact (rf_poll _ _ Hf).
    + intros _. by exists i.
Qed.

(** ** The promise is kept *)

(** Every event that the client, the servers and the kernel may cause is served: the turn returns 0, and what leaves is what the machine says. *)
Lemma conversation_step id g cv ev c h :
  keeps_up cv c h -> event_ok cv ev ->
  exists c' h' out cv', session_poll id g (cv_phase cv) ev c h = Some (0, c', h', g, out) /\ says cv ev out cv' /\ keeps_up cv' c' h'.
Proof.
  intros Hk He. destruct cv as [[bs|bs] n], ev as [text new t|t|ps t]; cbn [cv_phase] in *.
  - cbn in He. by destruct bs.
  - destruct (asking_step id g n bs t c h Hk He) as (c' & h' & Hr & Hk'). eexists c', h', _, _. split; [exact Hr|]. split; [constructor|done].
  - destruct bs as [|b bs]; [|done]. destruct (reply_step id g n ps t c h Hk He) as (c' & h' & Hr & Hk'). eexists c', h', _, _. split; [exact Hr|]. split; [constructor|done].
  - destruct bs as [|b bs]; [|done]. destruct (query_step id g n text new t c h Hk He) as (c' & h' & out & rest & Hr & Ho & Hk'). exists c', h', ([], out), (mkConv (Asking rest) n).
    split; [exact Hr|]. split; [by constructor|done].
  - destruct (replying_step id g n bs t c h Hk He) as (c' & h' & Hr & Hk'). eexists c', h', _, _. split; [exact Hr|]. split; [constructor|done].
  - cbn in He. by destruct bs.
Qed.

(** What is asked and answered by an event. *)
Definition asks_for (ev : event) : list byte := match ev with Query _ new _ => data (query_packet new) | _ => [] end.
Definition answers (ev : event) : list byte := match ev with Response ps _ => mjoin (data <$> ps) | _ => [] end.

Definition to_server (ph : phase) : list byte := match ph with Asking bs => bs | Replying _ => [] end.
Definition to_client (ph : phase) : list byte := match ph with Asking _ => [] | Replying bs => bs end.

(** The turns of a session from its state [c0], [h0] on: [out] is all that left its sockets, [asked] and [replied] are the queries, as rewritten, and the responses so far. *)
Inductive conversed (id : nat) (g : registry) (cv0 : conversation) (c0 : mysql_session_t) (h0 : shared)
  : conversation -> mysql_session_t -> shared -> sent -> list byte -> list byte -> Prop :=
  | conversed_start : conversed id g cv0 c0 h0 cv0 c0 h0 ([], []) [] []
  | conversed_turn cv c h out asked replied ev c' h' out' cv' :
      conversed id g cv0 c0 h0 cv c h out asked replied -> event_ok cv ev ->
      session_poll id g (cv_phase cv) ev c h = Some (0, c', h', g, out') -> says cv ev out' cv' ->
      conversed id g cv0 c0 h0 cv' c' h' (sent_app out out') (asked ++ asks_for ev) (replied ++ answers ev).

Lemma says_balance cv ev out cv' : says cv ev out cv' ->
  out.2 ++ to_server (cv_phase cv') = to_server (cv_phase cv) ++ asks_for ev /\ out.1 ++ to_client (cv_phase cv') = to_client (cv_phase cv) ++ answers ev.
Proof. intros []; cbn; rewrite ?app_nil_r, ?take_drop; done. Qed.

Lemma says_det cv ev out cv1 cv2 : says cv ev out cv1 -> says cv ev out cv2 -> cv1 = cv2.
Proof.
  intros H1 H2. inversion H1; subst; inversion H2; subst; try done. do 2 f_equal.
  match goal with H : ?o ++ ?r = _, K : ?o ++ ?r' = _ |- ?r = ?r' => exact (app_inv_head o r r' (eq_trans H (eq_sym K))) end.
Qed.

Lemma conversed_inv id g n c0 h0 cv c h out asked replied :
  keeps_up (mkConv (Replying []) n) c0 h0 -> conversed id g (mkConv (Replying []) n) c0 h0 cv c h out asked replied ->
  keeps_up cv c h /\ out.2 ++ to_server (cv_phase cv) = asked /\ out.1 ++ to_client (cv_phase cv) = replied.
Proof.
  intros H0. induction 1 as [|cv c h out asked replied ev c' h' out' cv' _ IH He Hr Hs]; [done|]. destruct IH as (Hk & Ha & Hp).
  destruct (conversation_step id g cv ev c h Hk He) as (c2 & h2 & out2 & cv2 & Hr2 & Hs2 & Hk2). rewrite Hr in Hr2. injection Hr2 as <- <- <-.
  rewrite (says_det _ _ _ _ _ Hs Hs2). split; [done|]. rewrite <- (says_det _ _ _ _ _ Hs Hs2). destruct (says_balance _ _ _ _ Hs) as [B1 B2].
  unfold sent_app. cbn. by rewrite <- !app_assoc, B1, B2, !app_assoc, Ha, Hp.
Qed.

End Conversation.


(** ** Where a conversation starts *)

(** The shared state that a conversation rests on. *)
Record shared_ok (G : glovars_t) (D : deployment) (h : shared) : Prop := {
  sh_pools : state_inv (conn_pools h) /\ Forall (fun c => 0 < net_fd c) (idle_conns (conn_pools h));
  sh_servers : server_groups (glomysrvs h) = dp_groups D; sh_rules : Forall2 same_rule (dp_rules D) (gloQR h); sh_defaults : gloDefHG h = dp_defaults D;
  sh_cache : group_inv (QC h) }.

(** A session that [session_init] made and that has sent the handshake. *)
Record newcomer (G : glovars_t) (c : mysql_session_t) : Prop := {
  nc_greeted : greeted (sess c); nc_unfailed : unfailed c;
  nc_sizes : size (iqueue (input (client_myds (sess c)))) = net_buffer_size G /\ size (oqueue (output (client_myds (sess c)))) = net_buffer_size G;
  nc_backends : mybes (sess c) = initialize_backends G; nc_resultset : resultset (sess c) = []; nc_stats : query_stats (query_info (sess c)) = SNull;
  nc_default : default_hostgroup (sess c) = -1 }.

(** C6: a client whose first packet, in one read that fits the buffer, proves that it may log in has opened a conversation: when it takes the whole OK packet in that turn, the session is at the end of the turn
    in the phase from which conversation_kept serves whole queries, whole responses and partial writes, as the user, with the password and on the schema of the login. It is a client's session that was greeted and never
    failed, no administrator's; the setting is that of conversation_kept (query cache and statistics off, every host group with servers, all online, no rewritten text of 16 MB, matching independent of the hit
    counters), and the shared state has the rules, servers and defaults of that setting and consistent pools. *)
Theorem login_opens_conversation checksum md5 rmatch rreplace junk sha1 users after_free admin_query G D t id c h g p a :
  deployment_ok rmatch rreplace G D -> shared_ok G D h -> newcomer G c -> has (revents (fds0 c)) POLLIN = true -> recv_client t = Some (data p) -> wf_pkt p ->
  (length_of p <= net_buffer_size G)%nat -> (length_of ok_reply <= net_buffer_size G)%nat -> send_client2 t = Z.of_nat (length_of ok_reply) ->
  check_client_authentication_packet sha1 users p (sauth (sess c)) = Some (0, a) -> admin a = 0 -> mysql_username a = Some (dp_user D) ->
  mysql_password a = Some (dp_password D) -> default (mysql_default_schema G) (mysql_schema_cur a) = dp_schema D ->
  exists c', session_handler checksum md5 rmatch rreplace junk sha1 users after_free admin_query G t id c h g = Some (0, c', h, g, (data ok_reply, [])) /\
    keeps_up G D (mkConv (Replying []) 2) c' h.
Proof.
  intros HD [] [Hgr Hun (Hz1 & Hz2) Hbe Hrs Hqs Hdef] Hr0 Hrc Hp Hroom Hfit Hsend Hchk Hadm Hu Hpw Hsc. pose proof Hgr as [Hid Hout _ _ Hnone Hhe]. pose proof Hid as [Hs Hin Hq Hact Hlone Hnet].
  unfold session_handler. change (sess (c <| sess_status := CONNECTION_ALL |>)) with (sess c). rewrite Hhe.
  change (fds0 (c <| sess_status := CONNECTION_ALL |>)) with (fds0 c). change (fds1 (c <| sess_status := CONNECTION_ALL |>)) with (fds1 c).
  assert (queue_available (iqueue (input (client_myds (sess c)))) = net_buffer_size G) as Hav.
  { apply (holds_room _ _ []). apply quiet_holds; [by split|done]. }
  destruct (login_turn checksum md5 rmatch rreplace junk sha1 users after_free admin_query G t (revents (fds0 c)) (revents (fds1 c)) (sess c) h p a 0)
    as (d & -> & Hd & Hi & Ha & Hsn & Hrv & Hop & Hst & Hs1 & Hs2); try done; [by rewrite Hav|by rewrite Hz2|change (login_reply 0) with ok_reply; lia|].
  change (login_reply 0) with ok_reply in *. rewrite Hsend, Nat2Z.id in *. change (length_of ok_reply) with (length (data ok_reply)) in *. rewrite firstn_all. rewrite drop_all in Hop.
  rewrite bind_Some. cbn [Z.eqb]. set (s' := (sess c) <| client_myds := d |> <| sauth := login_auth G 0 a |>). eexists. split; [reflexivity|].
  assert (mysql_username (login_auth G 0 a) = Some (dp_user D) /\ mysql_password (login_auth G 0 a) = Some (dp_password D) /\
    mysql_schema_cur (login_auth G 0 a) = Some (dp_schema D) /\ admin (login_auth G 0 a) = 0) as (A1 & A2 & A3 & A4).
  { unfold login_auth. cbn [Z.eqb]. destruct (mysql_schema_cur a) as [x|] eqn:E; cbn in Hsc; [|cbn; by rewrite Hsc]. rewrite E. by subst x. }
  split; [exact Hun|]. cbn [cv_phase cv_sent]. change (sess (c <| sess_status := CONNECTION_ALL |> <| sess := s' |>)) with s'. split_and!; [|intros i be e Hi'; change (server_mybe (sess c) = Some i) in Hi'; congruence|by intros []].
  split; try done.
  - apply quiet_holds; [by split|]. change (client_myds s') with d. by rewrite Hs1, Hs2.
  - change (-1 <= default_hostgroup (sess c) < mysql_hostgroups G). pose proof (do_groups _ _ _ _ HD). lia.
  - change (Z.of_nat (length (mybes (sess c))) = mysql_hostgroups G). rewrite Hbe. unfold initialize_backends. rewrite length_replicate. pose proof (do_groups _ _ _ _ HD). lia.
  - intros i be Hb. change (mybes (sess c) !! i = Some be) in Hb. rewrite Hbe in Hb. apply lookup_replicate in Hb as [-> _]. by split.
  - intros i Hi'. change (server_mybe (sess c) = Some i) in Hi'. congruence.
Qed.

(** ** An example: a client that is logged in, a server to which the session is not yet connected, and a rule that rewrites the query *)

Definition talk_replace (qr : query_rule_t) (q : list byte) : option (list byte) := if bool_decide (match_pattern qr = q) then Some (c_lit "SELECT 2") else None.
Definition talk_rule : query_rule_t := mkRule 1 0 None None (c_lit "SELECT 1") 0 0 (Some (c_lit "SELECT 2")) 0 0 0 0 0 None 0 0.
Definition talk_deployment : deployment :=
  mkDeployment (c_lit "app") (c_lit "pw") (c_lit "shop") (server_groups sample_servers) [talk_rule] DefHG.glo_DefHG_init.
Definition talk_shared : shared := mkShared cache0 (mkQrHash ∅ ∅) DefHG.glo_DefHG_init [talk_rule] sample_servers empty_pools.
Definition talk_session : mysql_session_t :=
  mkSess (sample_session <| client_myds := sample_client <| pkts_sent := 2 |> <| pkts_recv := 1 |> |> <| server_mybe := None |> <| mybes := [mysql_backend_new] |>
            <| default_hostgroup := -1 |> <| last_server_poll_fd := 0 |> <| nfds := 1 |>) (mkPollfd 5 POLLIN 0) (mkPollfd 0 0 0) 0.

Definition talk_oracle : oracle := mkOracle (mkClock 120 0) (replicate 10 (3, fun k => Some (mkMYSQL k 77))) [] [] [].
Definition talk_response : list pkt := [pkt_of 1 [Byte.x00; Byte.x00; Byte.x00; Byte.x02; Byte.x00; Byte.x00; Byte.x00]].
Definition talk_query : event :=
  Query (c_lit "SELECT 1") (c_lit "SELECT 2") (mkTurn (Some (data (query_packet (c_lit "SELECT 1")))) None 0 0 0 0 [talk_oracle] (mkClock 120 0) sample_beyond).
Definition talk_write (client server : nat) : event := Writable (mkTurn None None (Z.of_nat client) (Z.of_nat server) 0 0 [] (mkClock 120 0) sample_beyond).
Definition talk_answer : event := Response talk_response (mkTurn None (Some (mjoin (data <$> talk_response))) 0 0 4 0 [] (mkClock 120 0) sample_beyond).

Lemma talk_deployed : deployment_ok sample_match talk_replace relay_glovars talk_deployment.
Proof.
  split; try reflexivity; try done.
  - vm_compute. lia.
  - split_and!; vm_compute; set_solver.
  - intros l Hl. apply list_elem_of_singleton in Hl as ->. split; [done|]. intros ms Hms. apply list_elem_of_singleton in Hms as ->. split; [done|]. vm_compute. set_solver.
  - split; apply Forall_singleton; [by split|reflexivity].
  - intros qr q q'. unfold talk_replace. case_bool_decide; [|done]. intros [= <-]. by vm_compute.
Qed.

Lemma talk_started : keeps_up relay_glovars talk_deployment (mkConv (Replying []) 2) talk_session talk_shared.
Proof.
  split; [reflexivity|]. cbn [cv_phase cv_sent]. split_and!; [|intros i be d Hi; discriminate Hi|by intros []]. split; try reflexivity.
  - apply quiet_holds; [|by split]. destruct (new_quiet false 5 ltac:(lia)) as [[] ? ?]. by split; [split|..].
  - split; [reflexivity|]. cbn. lia.
  - by split_and!.
  - cbn. lia.
  - intros i be Hb. cbn in Hb. apply list_lookup_singleton_Some in Hb as [-> <-]. by split.
  - intros i Hi. discriminate Hi.
  - split; [split; apply Forall_nil_2|apply Forall_nil_2].
  - apply new_inv; lia.
Qed.

Abbreviation talk_conversed :=
  (conversed (fun d => d) (fun d => d) sample_match talk_replace (fun _ => Byte.x00) toy_sha1 toy_users (fun d => d) (fun _ s h => Some (s, h)) relay_glovars talk_deployment 3
     (mkReg [3%nat] 1) (mkConv (Replying []) 2) talk_session talk_shared).

(** One more event of the example. *)
Lemma talk_turn cv c h out asked replied ev :
  talk_conversed cv c h out asked replied -> event_ok sample_match talk_replace relay_glovars talk_deployment cv ev ->
  exists c' h' out' cv', says cv ev out' cv' /\ talk_conversed cv' c' h' (sent_app out out') (asked ++ asks_for ev) (replied ++ answers ev).
Proof.
  intros Hc He. destruct (conversed_inv _ _ _ _ _ _ _ _ _ _ _ talk_deployed _ _ _ _ _ _ _ _ _ _ _ talk_started Hc) as (Hk & _).
  destruct (conversation_step (fun d => d) (fun d => d) sample_match talk_replace (fun _ => Byte.x00) toy_sha1 toy_users (fun d => d) (fun _ s h => Some (s, h)) relay_glovars
    talk_deployment talk_deployed 3 (mkReg [3%nat] 1) cv ev c h Hk He) as (c' & h' & out' & cv' & Hr & Hs & _).
  exists c', h', out', cv'. split; [done|]. by eapply conversed_turn.
Qed.

(** The query leaves, possibly in two turns. *)
Lemma talk_asked : exists c h out, talk_conversed (mkConv (Asking []) 2) c h out (data (query_packet (c_lit "SELECT 2"))) [].
Proof.
  destruct (talk_turn _ _ _ _ _ _ talk_query (conversed_start _ _ _ _ _ _ _ _ _ _ _ _ _ _ _ _)) as (c1 & h1 & out1 & cv1 & Hs & H1).
  { split_and!; try reflexivity; try (vm_compute; lia); try (vm_compute; discriminate).
    - exists talk_oracle, []. split; [reflexivity|]. split_and!; [vm_compute; lia| | |].
      + apply Forall_replicate. intros k c [= <-]. reflexivity.
      + intros a k c Ha%elem_of_replicate_inv. subst a. by intros [= <-].
      + left. intros k. by eexists.
    - exists [talk_rule]. apply fires_more with (c_lit "SELECT 2"); [|reflexivity|reflexivity|constructor]. split_and!; [reflexivity|by left|by left|]. left. split; [reflexivity|discriminate].
  }
  inversion Hs as [? ? ? ? out rest Hrest| | |]. subst. destruct rest as [|b rest]; [by eexists _, _, _|].
  destruct (talk_turn _ _ _ _ _ _ (talk_write 0 (length (b :: rest))) H1) as (c2 & h2 & out2 & cv2 & Hs2 & H2).
  { cbn. split_and!; [done|lia..]. }
  inversion Hs2 as [|? ? ? k| |]. subst. unfold k in H2. cbn [send_server send_server2] in H2. rewrite drop_ge in H2 by (simpl; lia). by eexists _, _, _.
Qed.


(** The client "bob" logs in. *)
Definition bob_deployment : deployment :=
  mkDeployment (c_lit "bob") (c_lit "secret") (c_lit "test") (server_groups sample_servers) [talk_rule] DefHG.glo_DefHG_init.
Definition bob_login : pkt :=
  pkt_of 1 (client_auth_payload 8 (replicate 28 Byte.x00) (c_lit "bob") (proxy_scramble toy_sha1 (scramble_buf toy_auth) (c_lit "secret")) (Some (c_lit "test"))).
Definition bob_session : mysql_session_t :=
  let c := session_init (fun _ => Byte.x00) relay_glovars 7 in
  c <| sess := (sess c) <| client_myds := (client_myds (sess c)) <| pkts_sent := 1 |> |> <| sauth := toy_auth |> |> <| fds0 := mkPollfd 7 POLLIN POLLIN |>.

Lemma bob_deployed : deployment_ok sample_match talk_replace relay_glovars bob_deployment.
Proof.
  destruct talk_deployed. split; try done. split_and!; vm_compute; set_solver.
Qed.

Lemma bob_newcomer : newcomer relay_glovars bob_session.
Proof.
  split; try reflexivity; [|by split]. split; try reflexivity. split; try reflexivity. split; try reflexivity.
  - apply new_input_ok.
  - apply new_input_ok.
  - cbn. lia.
  - apply new_output_ok.
Qed.

Lemma login_opens_conversation_witness : exists c',
  session_handler (fun d => d) (fun d => d) sample_match talk_replace (fun _ => Byte.x00) toy_sha1 toy_users (fun d => d) (fun _ s h => Some (s, h)) relay_glovars
    (sample_turn (data bob_login) 11) 3 bob_session talk_shared (mkReg [3%nat] 1) = Some (0, c', talk_shared, mkReg [3%nat] 1, (data ok_reply, [])) /\
  keeps_up relay_glovars bob_deployment (mkConv (Replying []) 2) c' talk_shared.
Proof.
  destruct (check_client_authentication_packet toy_sha1 toy_users bob_login (sauth (sess bob_session))) as [[ret a]|] eqn:E; [|vm_compute in E; discriminate E].
  assert (ret = 0 /\ admin a = 0 /\ mysql_username a = Some (c_lit "bob") /\ mysql_password a = Some (c_lit "secret") /\ mysql_schema_cur a = Some (c_lit "test"))
    as (-> & E1 & E2 & E3 & E4) by (vm_compute in E; injection E as <- <-; split_and!; reflexivity).
  apply (login_opens_conversation (fun d => d) (fun d => d) sample_match talk_replace (fun _ => Byte.x00) toy_sha1 toy_users (fun d => d) (fun _ s h => Some (s, h)) relay_glovars
    bob_deployment (sample_turn (data bob_login) 11) 3 bob_session talk_shared (mkReg [3%nat] 1) bob_login a).
  - exact bob_deployed.
  - split; try reflexivity; [split; [split; apply Forall_nil_2|apply Forall_nil_2]|apply new_inv; lia].
  - exact bob_newcomer.
  - reflexivity.
  - reflexivity.
  - apply frame_wf; [vm_compute|]; reflexivity.
  - vm_compute. lia.
  - vm_compute. lia.
  - reflexivity.
  - exact E.
  - exact E1.
  - exact E2.
  - exact E3.
  - rewrite E4. reflexivity.
Defined.
